(* ===== verification/_CoqProject ===== *)
-Q . S2P
Prelude.v
Riscv.v
Bytes.v
Dll.v
Kstate.v
CString.v
Ulib.v
Uprintf.v
Grep.v
Sh.v
ShSpec.v
ShPrint.v
Umalloc.v
UmallocSpec.v
Cmds.v
Grind.v
Usertests.v
Spinlock.v
SpinlockConc.v
SleepWake.v
Kalloc.v
Vm.v
PageTable.v
UserMem.v
AddrSpace.v
Sched.v
SchedSpec.v
FreeWalk.v
Uart.v
Console.v
ConsoleSpec.v
Sleeplock.v
Bio.v
FsRun.v
BioSpec.v
Log.v
LogSpec.v
LogCrash.v
LogOps.v
FsTxn.v
Fs.v
FsSpec.v
FsImage.v
FsAlloc.v
File.v
Tables.v
FsRead.v
PathSpec.v
FsFile.v
FsWrite.v
FsDir.v
FsTrunc.v
FsPut.v
FsDemo.v
PipeSpec.v
Proc.v
ForkSpec.v
WaitSpec.v
ProcSpec.v
Exec.v
Syscall.v
Virtio.v
VirtioSpec.v
Trap.v
Boot.v
Mkfs.v
MkfsSpec.v
MkfsFiles.v
MkfsBuild.v
MkfsKernel.v
