(* ===== verification/Prelude.v ===== *)
(** * A verification of xv6 (src/xv6-riscv)

    The program is xv6 for RISC-V: a Unix-like kernel of about five thousand lines
    of C that runs on eight harts with Sv39 page tables, a UART and a virtio disk,
    its user programs, and mkfs, which builds the disk image.  This library
    translates the C files of src/xv6-riscv/kernel, user and mkfs into executable
    definitions and proves what makes the parts correct.

    ** How code is translated

    - An integer is a [Z]; conversions to a C type are written out ([u8], [u32],
      [i32], ... below), so wrap-around of counters is part of the model.  Memory is
      a map from physical addresses to bytes; page tables, the free list and the
      virtio rings lie in it, byte by byte.  Disk blocks, on-disk inodes and
      directory entries are lists of bytes (Bytes.v).
    - The C structures are the records of Kstate.v; [kstate] holds every global
      variable, physical memory, the hart's registers and a trace of the traffic
      with the devices.  A pointer into a static table (proc[], file[], inode[],
      buf[]) is an index, a pointer to a page is its address.
    - A function is a program of the monad [M] below: it returns a value ([Ret]),
      panics ([Panic], with the message) or never gives control back ([Stop]: it
      spins, or is never resumed).  Loops are [for_each], [for_find] or [loop] with a
      bound.  Bounds come from the data where the code has them: the chunks of a
      copy, the levels of the page table (freewalk() recurses to depth 4), the
      blocks that a readi() or writei() of n bytes can touch (n / BSIZE + 3), the
      elements of a path.  For loops that wait for another thread or a device the
      bound is [turns], a parameter: the theorems about such a loop hold for any
      value of it.  A bound that is used up counts as [Stop], and [wp], the
      total-correctness weakest precondition, excludes it: every [wp] theorem says
      that the code returns.
    - User programs have their own memory and a trace of system calls (Ulib.v); their
      loops take the fuel [ufuel], a parameter, and the shell's parser [parse_fuel],
      computed from the length of the line, which is enough for every line
      (ShSpec.v).
    - What the code does not define is a parameter (class [Env] of Kstate.v): the
      values read from device registers, the addresses the linker chooses, and what
      the other threads do while this one is switched out (swtch()).  [DiskDriver]
      (Bio.v) is the interface between the buffer cache and the disk driver, with its
      laws in [DiskLaws] (BioSpec.v) and the states they hold in ([DiskReady]);
      VirtioSpec.v proves them of the driver, against any disk that follows the virtio
      protocol ([Device], with one concrete device as an instance).  The answers of
      the kernel to a user program are a function of its calls.

    ** Files

    - Prelude, Riscv (riscv.h, memlayout.h, param.h), Bytes, Kstate: shared.
    - CString: string.c.
    - Spinlock: spinlock.c, and myproc() and friends, one thread at a time;
      SpinlockConc: acquire(), holding() and release() as a step relation between
      any number of harts, one step per access to shared memory.
    - SleepWake: sleep(), wakeup() and the scheduler's hand-over of p->lock as a
      step relation.
    - Kalloc: kalloc.c.  Vm: vm.c.  PageTable: the tree view of page tables and
      mappages(); UserMem: user addresses, copyin(), copyout(), copyinstr();
      AddrSpace: uvmunmap(), uvmalloc(), uvmdealloc(), uvmcopy() on whole address
      spaces; FreeWalk: freewalk() and the freeing of an address space.
    - Sched: proc.c without what needs the file system; SchedSpec: its theorems.
      Proc: userinit(), fork(), exit(), wait(), forkret(); ForkSpec: fork();
      WaitSpec: wait(); ProcSpec: growproc(), procinit().
    - Uart: uart.c and printf.c; Console: console.c; ConsoleSpec: their theorems.
    - Sleeplock, Bio, Log, Fs: sleeplock.c, bio.c, log.c, fs.c.  Dll: circular
      lists.  FsRun: the rules for file-system code run by one thread.  BioSpec: the
      buffer cache; LogSpec, LogCrash, LogOps: the log; FsTxn: the rules for code
      between begin_op() and end_op().
    - FsSpec: paths, on-disk inodes, directory entries, the block bitmap.  FsImage:
      files as functions of the disk's blocks.  FsAlloc: balloc(), bfree(); FsRead:
      bmap(), readi(), dirlookup(); PathSpec: namex(); FsFile: bmap() that allocates;
      FsWrite: writei(), iupdate(); FsDir: dirlink(); FsTrunc: itrunc(); FsPut:
      iput(); FsDemo: a small disk on which the hypotheses of these hold.
    - File: file.c and pipe.c.  Tables: the tables of inodes and of files;
      PipeSpec: pipes.
    - Exec: exec.c.  Syscall: syscall.c, sysproc.c, sysfile.c.  Virtio: virtio_disk.c;
      VirtioSpec: a request of the driver.  Trap: trap.c, plic.c.  Boot: start.c,
      main.c.
    - Ulib: ulib.c and the system calls; Uprintf: printf.c; Grep: grep.c; Sh: sh.c,
      ShSpec and ShPrint its parser; Umalloc: umalloc.c, UmallocSpec its theorems;
      Cmds: the small programs; Grind: grind.c, forktest.c, stressfs.c;
      Usertests: usertests.c.
    - Mkfs: mkfs.c; MkfsSpec: the blocks of a file in the image; MkfsFiles: all
      files; MkfsBuild: main(); MkfsKernel: the kernel on the image.

    ** What the theorems show

    - Locks: at most one hart is in a critical section, the unlocked reads of
      holding() are harmless, and under a fair schedule some hart gets the lock
      whenever one wants it (SpinlockConc); push_off() and pop_off() nest, acquire() behaves
      as documented in every case (Spinlock).
    - Sleeping: no wakeup is lost in any interleaving (SleepWake); sleep(), sched(),
      wakeup(), kill() and reparent() do to the process table exactly what they
      should and nothing else (SchedSpec).
    - Memory: kinit(), kalloc() and kfree() keep a duplicate-free list of free
      pages (Kalloc); mappages() maps exactly its range and keeps the tree of
      tables apart from the free list (PageTable); copyin(), copyinstr() and
      copyout(), which work page by page, equal byte-by-byte translation, failures
      included (UserMem); memmove() and safestrcpy() (CString).  Address spaces grow
      by zeroed pages, are copied page by page and are freed completely: every page
      is free, a table or a page of one space, also when an allocation fails half
      way (AddrSpace, FreeWalk).
    - Processes: fork() makes a child with a copy of every page, of the trap frame and
      of the descriptors, or fails and leaves no trace; wait() takes an exited child
      and gives back exactly its memory and its slot; growproc() takes or gives back
      exactly the pages of the change, and fails only when memory runs out;
      procinit() leaves vacant slots, the well-formedness the others keep
      (ForkSpec, WaitSpec, ProcSpec).
    - Disk: a request of the driver moves exactly its block and frees its descriptors,
      so that the driver is a [DiskDriver] that keeps [DiskLaws] (VirtioSpec).
      bread() and brelse() make the buffers a cache of the disk that writes nothing
      back by itself (BioSpec).  A commit writes a fixed sequence of blocks, and
      recovery after a crash at any point of it leaves all of the transaction or
      nothing; recovery may itself be interrupted (LogCrash).  What an operation wrote
      is durable when end_op() returns (LogOps).
    - Files: readi() delivers the bytes the inode's addresses describe and dirlookup()
      the first entry of a name (FsRead); namex() is the walk over the directories on
      the disk, and loses or keeps no reference (PathSpec).  balloc() takes the first
      free block and bfree() gives it back (FsAlloc); a write of up to three blocks,
      the chunk filewrite() cuts, fits in MAXOPBLOCKS, extends the file with fresh
      blocks and is durable, and is read back (FsWrite); dirlink() adds a name and
      changes no other (FsDir); itrunc() frees the blocks of the file and no other
      (FsTrunc); iput() of the last reference to a file without a name gives up its
      inode and its blocks (FsPut).  Pipes are queues, across wrap-around of their
      counters (PipeSpec); an inode has one entry in the table and its references are
      counted (Tables); the formats of inodes, directory entries and paths round-trip
      (FsSpec).
    - mkfs: the image holds exactly the files of the command line, no block belongs
      to two of them, the bitmap marks the blocks in use; the kernel finds the
      files in it, by name and by path, unless the entries of the root directory fill
      its last block, and reads their bytes (MkfsBuild, MkfsKernel).
    - Console: the input handler is a line editor, reads take one line, numbers are
      printed as they read back (ConsoleSpec).
    - User programs: grep's matcher decides a declarative notion of matching and
      grep() prints the lines that match however the input is cut, as long as they fit
      its buffer (Grep); the shell's
      parser returns on every line and reads back what is printed (ShSpec, ShPrint);
      malloc() and free() keep blocks apart (UmallocSpec); grind's random numbers are
      the minimal standard generator (Grind); the driver of usertests forks
      the selected tests in the order of the table and reports success iff every one
      exited with status 0 (Usertests).

    The theorems about the file system are about one thread that finds no lock taken
    ([running] and [fsrun] of FsRun.v); other operations may have blocks listed in the
    log and references to buffers.  The disk driver's is about one outstanding
    request, whose sleeper is resumed by its interrupt.  Those about writing take the
    bytes from a kernel object, as directory operations do, and a disk with enough
    free blocks; on a full disk balloc() prints its message and returns 0.  Lock
    states are compared up to [ctl_equiv] (Spinlock.v): the fields that no code can
    observe (the CPU of a free lock, the saved interrupt bit of a CPU outside any
    critical section) may differ.  Each group has a concrete state at its end on which
    the hypotheses of the theorems hold.

    ** What is not modelled

    The assembly files (swtch() is the hand-over to [Env]'s other threads, the
    trampoline's register moves are part of usertrapret() and usertrap()), the
    instruction set itself, and ramdisk.c, which is not part of the build.  Whether a
    user program may touch an address is a parameter of the tests that try.  The
    host's writes in mkfs are taken to succeed.  Memory is sequentially consistent;
    the kernel's fences are part of the lock operations.

    Modelled without theorems of their own: exec(), exit(), create(), unlink() and
    link(), the system-call and trap dispatch, the start-up code, and the single tests
    of usertests.c. *)

From Stdlib Require Export ZArith Lia.
From stdpp Require Export base gmap list strings fin_maps.

#[export] Set Default Goal Selector "!".

Declare Scope xv6_scope.
Delimit Scope xv6_scope with xv6.
Open Scope Z_scope.
Open Scope xv6_scope.

(** ** Fixed-width integers

    A C integer is a [Z]; these functions write out the conversion to a type
    of the given width ([unsigned long], [unsigned int], ..., [int]). *)

Definition u8 (z : Z) : Z := z mod 2 ^ 8.
Definition u16 (z : Z) : Z := z mod 2 ^ 16.
Definition u32 (z : Z) : Z := z mod 2 ^ 32.
Definition u64 (z : Z) : Z := z mod 2 ^ 64.

(** Two's complement conversion to a signed type of [w] bits. *)
Definition signed (w z : Z) : Z :=
  let m := z mod 2 ^ w in if m <? 2 ^ (w - 1) then m else m - 2 ^ w.

Definition i16 (z : Z) : Z := signed 16 z.
Definition i32 (z : Z) : Z := signed 32 z.

(** C's truth value of an integer, and the integer of a truth value. *)
Definition truthy (z : Z) : bool := negb (z =? 0).
Definition b2z (b : bool) : Z := if b then 1 else 0.

Lemma truthy_b2z b : truthy (b2z b) = b.
Proof. by destruct b. Qed.

(** ** Outcomes and the state monad

    A kernel function run on a state [S] either returns a value, panics
    (printf.c's [panic] prints and then spins forever), or never gives control
    back to its caller: it spins, or the scheduler never resumes it.  [Stop]
    keeps the state the thread left behind. *)

Inductive res (S A : Type) : Type :=
| Ret (a : A) (s : S)
| Panic (msg : string) (s : S)
| Stop (s : S).
Arguments Ret {S A} _ _.
Arguments Panic {S A} _ _.
Arguments Stop {S A} _.

Definition M (S A : Type) : Type := S -> res S A.

Definition ret {S A} (a : A) : M S A := fun s => Ret a s.
Definition bind {S A B} (m : M S A) (f : A -> M S B) : M S B :=
  fun s => match m s with
           | Ret a s' => f a s'
           | Panic e s' => Panic e s'
           | Stop s' => Stop s'
           end.
Definition panic {S A} (msg : string) : M S A := fun s => Panic msg s.
Definition stop {S A} : M S A := fun s => Stop s.
Definition get {S} : M S S := fun s => Ret s s.
Definition gets {S A} (f : S -> A) : M S A := fun s => Ret (f s) s.
Definition modify {S} (f : S -> S) : M S unit := fun s => Ret tt (f s).

Notation "x <- c1 ;; c2" := (bind c1 (fun x => c2))
  (at level 100, c1 at next level, right associativity) : xv6_scope.
Notation "'let*' pat := c1 'in' c2" := (bind c1 (fun x => match x with pat => c2 end))
  (at level 100, pat pattern, c1 at level 99, right associativity) : xv6_scope.
Notation "c1 ;; c2" := (bind c1 (fun _ => c2))
  (at level 100, right associativity) : xv6_scope.

Definition when {S} (b : bool) (m : M S unit) : M S unit := if b then m else ret tt.
Definition unless {S} (b : bool) (m : M S unit) : M S unit := if b then ret tt else m.

(** Running an operation of a component on its part of a larger state. *)
Definition lift {S T A} (view : T -> S) (upd : S -> T -> T) (m : M S A) : M T A :=
  fun t => match m (view t) with
           | Ret a s => Ret a (upd s t)
           | Panic e s => Panic e (upd s t)
           | Stop s => Stop (upd s t)
           end.

(** [for(x in l) body]: the body answers [Some a] to leave the loop with [a]
    (a [return], [goto] or [break]) and [None] to go on. *)
Fixpoint for_find {S I A} (l : list I) (body : I -> M S (option A)) : M S (option A) :=
  match l with
  | [] => ret None
  | i :: l' => r <- body i;; match r with
                             | Some a => ret (Some a)
                             | None => for_find l' body
                             end
  end.

(** [for(x in l) body] with no early exit. *)
Fixpoint for_each {S I} (l : list I) (body : I -> M S unit) : M S unit :=
  match l with
  | [] => ret tt
  | i :: l' => body i;; for_each l' body
  end.

(** [while] loops: the body maps the loop variables to the next ones ([inl]) or
    leaves the loop ([inr]).  When the fuel is spent the loop counts as never
    ending. *)
Fixpoint loop {S X A} (fuel : nat) (body : X -> M S (X + A)) (x : X) : M S A :=
  match fuel with
  | O => stop
  | Datatypes.S fuel' => r <- body x;; match r with
                              | inl x' => loop fuel' body x'
                              | inr a => ret a
                              end
  end.

(** ** Weakest preconditions for total correctness *)

Definition wp {S A} (m : M S A) (Q : A -> S -> Prop) (s : S) : Prop :=
  match m s with Ret a s' => Q a s' | _ => False end.

Arguments wp : simpl never.

Lemma wp_ret {S A} (a : A) (Q : A -> S -> Prop) s : Q a s -> wp (ret a) Q s.
Proof. done. Qed.

Lemma wp_bind {S A B} (m : M S A) (f : A -> M S B) Q s :
  wp m (fun a s' => wp (f a) Q s') s -> wp (bind m f) Q s.
Proof. unfold wp, bind. by destruct (m s). Qed.

Lemma wp_mono {S A} (m : M S A) (P Q : A -> S -> Prop) s :
  wp m P s -> (forall a s', P a s' -> Q a s') -> wp m Q s.
Proof. unfold wp. destruct (m s); naive_solver. Qed.

Lemma wp_gets {S A} (f : S -> A) (Q : A -> S -> Prop) s : Q (f s) s -> wp (gets f) Q s.
Proof. done. Qed.

Lemma wp_modify {S} (f : S -> S) Q s : Q tt (f s) -> wp (modify f) Q s.
Proof. done. Qed.

Lemma wp_eq {S A} (m : M S A) a s s' (Q : A -> S -> Prop) :
  m s = Ret a s' -> Q a s' -> wp m Q s.
Proof. unfold wp. by intros ->. Qed.

Lemma run_bind {S A B} (m : M S A) (f : A -> M S B) a s s' : m s = Ret a s' -> bind m f s = f a s'.
Proof. unfold bind. by intros ->. Qed.

Lemma wp_inv {S A} (m : M S A) (Q : A -> S -> Prop) s :
  wp m Q s -> exists a s', m s = Ret a s' /\ Q a s'.
Proof. unfold wp. destruct (m s); naive_solver. Qed.

(** A [for_each] keeps what its body keeps, along the list. *)
Lemma wp_for_each {S I} (P : list I -> S -> Prop) (body : I -> M S unit) l s :
  P l s ->
  (forall i l' s, P (i :: l') s -> wp (body i) (fun _ s' => P l' s') s) ->
  wp (for_each l body) (fun _ s' => P [] s') s.
Proof.
  intros H Hb. revert s H. induction l as [|i l IH]; intros s H; simpl.
  - by apply wp_ret.
  - apply wp_bind. eapply wp_mono; [by apply Hb|]. intros [] s' H'. by apply IH.
Qed.

(** The total-correctness rule for [loop]: a natural measure goes down at every
    turn, and the fuel is above the measure. *)
Lemma wp_loop {S X A} (I : X -> S -> Prop) (mu : X -> S -> nat)
    (body : X -> M S (X + A)) (Q : A -> S -> Prop) :
  (forall x s, I x s ->
     wp (body x) (fun r s' => match r with
                              | inl x' => I x' s' /\ (mu x' s' < mu x s)%nat
                              | inr a => Q a s'
                              end) s) ->
  forall fuel x s, I x s -> (mu x s < fuel)%nat -> wp (loop fuel body x) Q s.
Proof.
  intros Hb fuel. induction fuel as [|fuel IH]; intros x s HI Hf; [lia|].
  simpl. apply wp_bind. eapply wp_mono; [by apply Hb|].
  intros [x'|a] s'; [|by intros; apply wp_ret].
  intros [HI' Hm]. apply IH; [done|lia].
Qed.

(** ** Lists as C arrays *)

(** A list element by a [Z] index; C arrays are read in range only. *)
Definition znth {A} (l : list A) (i : Z) : option A :=
  if i <? 0 then None else l !! Z.to_nat i.
Definition zupd {A} (l : list A) (i : Z) (x : A) : list A :=
  if i <? 0 then l else <[Z.to_nat i := x]> l.

Lemma zupd_length {A} (l : list A) i x : length (zupd l i x) = length l.
Proof. unfold zupd. case_match; [done|apply length_insert]. Qed.

Lemma znth_zupd_eq {A} (l : list A) i x :
  0 <= i < Z.of_nat (length l) -> znth (zupd l i x) i = Some x.
Proof.
  intros. unfold znth, zupd. destruct (Z.ltb_spec i 0); [lia|].
  apply list_lookup_insert_eq. lia.
Qed.

Lemma znth_zupd_ne {A} (l : list A) i j x : i <> j -> znth (zupd l i x) j = znth l j.
Proof.
  intros. unfold znth, zupd.
  destruct (Z.ltb_spec i 0), (Z.ltb_spec j 0); try done.
  apply list_lookup_insert_ne. lia.
Qed.

(** ** Searching tables *)

(** The index of the first entry that satisfies a test. *)
Fixpoint first_index {A} (f : A -> bool) (l : list A) : option nat :=
  match l with
  | [] => None
  | x :: l' => if f x then Some O else S <$> first_index f l'
  end.

Lemma first_index_Some {A} (f : A -> bool) l i : first_index f l = Some i ->
  exists x, l !! i = Some x /\ f x = true.
Proof.
  revert i. induction l as [|x l IH]; intros i; simpl; [done|]. destruct (f x) eqn:Hf.
  - intros [= <-]. by exists x.
  - destruct (first_index f l) as [j|]; [|done]. intros [= <-]. by apply IH.
Qed.

Lemma first_index_None {A} (f : A -> bool) l : first_index f l = None -> Forall (fun x => f x = false) l.
Proof.
  induction l as [|x l IH]; simpl; [constructor|]. destruct (f x) eqn:Hf; [done|].
  destruct (first_index f l); [done|]. constructor; auto.
Qed.

(** ** Byte memory

    Physical memory is a finite map from addresses to bytes; a byte never
    written reads as 0. *)

Abbreviation memory := (gmap Z Z).

Definition load8 (m : memory) (a : Z) : Z := default 0 (m !! a).
Definition store8 (m : memory) (a v : Z) : memory := <[a := u8 v]> m.

(** Little-endian multi-byte accesses, as RISC-V makes them. *)
Fixpoint load_le (n : nat) (m : memory) (a : Z) : Z :=
  match n with
  | O => 0
  | S n' => load8 m a + 2 ^ 8 * load_le n' m (a + 1)
  end.
Fixpoint store_le (n : nat) (m : memory) (a v : Z) : memory :=
  match n with
  | O => m
  | S n' => store8 (store_le n' m (a + 1) (v / 2 ^ 8)) a v
  end.

Definition load32 := load_le 4.
Definition store32 := store_le 4.
Definition load64 := load_le 8.
Definition store64 := store_le 8.

(** Every byte of the memory is in range (what a byte-addressed RAM gives). *)
Definition mem_ok (m : memory) : Prop := forall a, 0 <= load8 m a < 2 ^ 8.

Definition bytes_at (m : memory) (a : Z) (n : nat) : list Z :=
  map (fun i => load8 m (a + Z.of_nat i)) (seq 0 n).

Lemma u32_range z : 0 <= u32 z < 2 ^ 32.
Proof. apply Z.mod_pos_bound. lia. Qed.

Lemma i32_id z : 0 <= z < 2 ^ 31 -> i32 z = z.
Proof.
  intros H. unfold i32, signed. rewrite Z.mod_small by lia. change (32 - 1) with 31.
  destruct (Z.ltb_spec z (2 ^ 31)); lia.
Qed.

Lemma u8_range z : 0 <= u8 z < 2 ^ 8.
Proof. apply Z.mod_pos_bound. lia. Qed.

Lemma load8_store8_eq m a v : load8 (store8 m a v) a = u8 v.
Proof. unfold load8, store8. by rewrite lookup_insert_eq. Qed.

Lemma load8_store8_ne m a b v : a <> b -> load8 (store8 m a v) b = load8 m b.
Proof. intros. unfold load8, store8. by rewrite lookup_insert_ne. Qed.

Lemma store8_ok m a v : mem_ok m -> mem_ok (store8 m a v).
Proof.
  intros H b. destruct (decide (a = b)) as [->|].
  - rewrite load8_store8_eq. apply u8_range.
  - by rewrite load8_store8_ne.
Qed.

(** The bytes [l] stored from [a] on. *)
Fixpoint write_bytes (m : memory) (a : Z) (l : list Z) : memory :=
  match l with
  | [] => m
  | b :: l' => write_bytes (store8 m a b) (a + 1) l'
  end.

Lemma write_bytes_out m a bs b :
  b < a \/ a + Z.of_nat (length bs) <= b -> load8 (write_bytes m a bs) b = load8 m b.
Proof.
  revert m a. induction bs as [|x bs IH]; intros m a H; cbn [write_bytes length] in *; [done|].
  rewrite IH by lia. apply load8_store8_ne. lia.
Qed.

Lemma write_bytes_ok m a bs : mem_ok m -> mem_ok (write_bytes m a bs).
Proof.
  revert m a. induction bs as [|x bs IH]; intros m a H; cbn [write_bytes]; [done|].
  apply IH. by apply store8_ok.
Qed.

Lemma write_bytes_load l : forall m a i, (i < length l)%nat -> load8 (write_bytes m a l) (a + Z.of_nat i) = u8 (nth i l 0).
Proof.
  induction l as [|x l IH]; intros m a i Hi; simpl in Hi; [lia|]. cbn [write_bytes]. destruct i as [|i].
  - rewrite Z.add_0_r, write_bytes_out by lia. apply load8_store8_eq.
  - replace (a + Z.of_nat (S i)) with (a + 1 + Z.of_nat i) by lia. by rewrite IH by lia.
Qed.

(** A copy of [n] bytes. *)
Lemma copy_bytes_load m dst src n k : mem_ok m -> 0 <= k < Z.of_nat n -> load8 (write_bytes m dst (bytes_at m src n)) (dst + k) = load8 m (src + k).
Proof.
  intros Hm Hk. replace k with (Z.of_nat (Z.to_nat k)) by lia. rewrite write_bytes_load by (unfold bytes_at; rewrite length_map, length_seq; lia).
  unfold bytes_at. rewrite (nth_lookup_Some _ _ _ (load8 m (src + Z.of_nat (Z.to_nat k)))); [apply Z.mod_small, Hm|].
  by rewrite list_lookup_fmap, lookup_seq_lt by lia.
Qed.

Lemma load8_store_le_out n m a v b :
  b < a \/ a + Z.of_nat n <= b -> load8 (store_le n m a v) b = load8 m b.
Proof.
  revert m a v b. induction n as [|n IH]; intros m a v b H; simpl; [done|].
  rewrite load8_store8_ne by lia. apply IH. lia.
Qed.

Lemma store_le_ok n m a v : mem_ok m -> mem_ok (store_le n m a v).
Proof.
  revert m a v. induction n as [|n IH]; intros; simpl; [done|].
  by apply store8_ok, IH.
Qed.

(** A load depends on the bytes it covers only. *)
Lemma load_le_ext n m m' a :
  (forall b, a <= b < a + Z.of_nat n -> load8 m b = load8 m' b) ->
  load_le n m a = load_le n m' a.
Proof.
  revert a. induction n as [|n IH]; intros a H; simpl; [done|].
  rewrite H by lia. f_equal. f_equal. apply IH. intros. apply H. lia.
Qed.

(** The same bytes at another address. *)
Lemma load_le_shift n m m' a a' : (forall i, 0 <= i < Z.of_nat n -> load8 m (a + i) = load8 m' (a' + i)) -> load_le n m a = load_le n m' a'.
Proof.
  revert a a'. induction n as [|n IH]; intros a a' H; cbn [load_le]; [done|]. f_equal.
  - specialize (H 0 ltac:(lia)). by rewrite !Z.add_0_r in H.
  - f_equal. apply IH. intros i Hi. rewrite <- !Z.add_assoc. apply H. lia.
Qed.

Lemma load_le_store_le_out n k m a b v :
  a + Z.of_nat n <= b \/ b + Z.of_nat k <= a ->
  load_le n (store_le k m b v) a = load_le n m a.
Proof.
  intros H. apply load_le_ext. intros c Hc. apply load8_store_le_out. lia.
Qed.

Lemma load_le_store_le_eq n m a v :
  load_le n (store_le n m a v) a = v mod 2 ^ (8 * Z.of_nat n).
Proof.
  revert m a v. induction n as [|n IH]; intros m a v.
  - simpl. by rewrite Z.mod_1_r.
  - cbn [load_le store_le]. rewrite load8_store8_eq.
    rewrite (load_le_ext n _ (store_le n m (a + 1) (v / 2 ^ 8))).
    2: { intros b Hb. apply load8_store8_ne. lia. }
    rewrite IH. unfold u8.
    replace (8 * Z.of_nat (S n)) with (8 + 8 * Z.of_nat n) by lia.
    rewrite Z.pow_add_r by lia. rewrite Z.rem_mul_r by lia. lia.
Qed.

Lemma load_le_range n m a : mem_ok m -> 0 <= load_le n m a < 2 ^ (8 * Z.of_nat n).
Proof.
  intros H. revert a. induction n as [|n IH]; intros a; cbn [load_le].
  - simpl. lia.
  - replace (8 * Z.of_nat (S n)) with (8 + 8 * Z.of_nat n) by lia.
    rewrite Z.pow_add_r by lia. specialize (IH (a + 1)). pose proof (H a).
    change (2 ^ 8) with 256 in *. nia.
Qed.

Lemma load64_store64_eq m a v : 0 <= v < 2 ^ 64 -> load64 (store64 m a v) a = v.
Proof. intros. unfold load64, store64. rewrite load_le_store_le_eq. by apply Z.mod_small. Qed.

Lemma load64_store64_out m a b v :
  a + 8 <= b \/ b + 8 <= a -> load64 (store64 m b v) a = load64 m a.
Proof. intros. apply load_le_store_le_out. lia. Qed.

Lemma load64_range m a : mem_ok m -> 0 <= load64 m a < 2 ^ 64.
Proof. intros. by apply (load_le_range 8). Qed.

Lemma load64_ext m m' a :
  (forall b, a <= b < a + 8 -> load8 m b = load8 m' b) -> load64 m a = load64 m' a.
Proof. apply (load_le_ext 8). Qed.

Lemma load8_store64_out m a v b :
  b < a \/ a + 8 <= b -> load8 (store64 m a v) b = load8 m b.
Proof. apply (load8_store_le_out 8). Qed.

Lemma load8_store64_congr m m' a v b : load8 m b = load8 m' b -> load8 (store64 m a v) b = load8 (store64 m' a v) b.
Proof.
  unfold store64. generalize 8%nat as n. intros n. revert a v. induction n as [|n IH]; intros a v H; cbn [store_le]; [done|].
  destruct (decide (a = b)) as [->|]; [by rewrite !load8_store8_eq|]. rewrite !load8_store8_ne by done. by apply IH.
Qed.

Lemma store64_ok m a v : mem_ok m -> mem_ok (store64 m a v).
Proof. apply store_le_ok. Qed.

Lemma load32_store32_eq m a v : 0 <= v < 2 ^ 32 -> load32 (store32 m a v) a = v.
Proof. intros. unfold load32, store32. rewrite load_le_store_le_eq. by apply Z.mod_small. Qed.

Lemma load32_store32_out m a b v :
  a + 4 <= b \/ b + 4 <= a -> load32 (store32 m b v) a = load32 m a.
Proof. intros. apply load_le_store_le_out. lia. Qed.

Lemma load32_store64_out m a b v :
  a + 4 <= b \/ b + 8 <= a -> load32 (store64 m b v) a = load32 m a.
Proof. intros. apply load_le_store_le_out. lia. Qed.

Lemma load64_store32_out m a b v :
  a + 8 <= b \/ b + 4 <= a -> load64 (store32 m b v) a = load64 m a.
Proof. intros. apply load_le_store_le_out. lia. Qed.

Lemma load32_ext m m' a :
  (forall b, a <= b < a + 4 -> load8 m b = load8 m' b) -> load32 m a = load32 m' a.
Proof. apply (load_le_ext 4). Qed.

Lemma load8_store32_out m a v b :
  b < a \/ a + 4 <= b -> load8 (store32 m a v) b = load8 m b.
Proof. apply (load8_store_le_out 4). Qed.

Lemma mem_ok_at m a : mem_ok m -> 0 <= load8 m a < 2 ^ 8.
Proof. intros H. apply H. Qed.

Lemma mem_ok_intro m : (forall a, 0 <= load8 m a < 2 ^ 8) -> mem_ok m.
Proof. done. Qed.

#[global] Opaque load64 store64 load32 store32 mem_ok.

(** ** Automation shared by the components *)

Create HintDb xv6.
#[export] Hint Resolve u8_range store8_ok store_le_ok store64_ok load64_range : xv6.

(** Turns boolean comparisons of the code into propositions. *)
Ltac bool_prop :=
  repeat match goal with
  | H : (_ && _) = true |- _ => apply andb_prop in H as [? ?]
  | H : (_ || _) = false |- _ => apply orb_false_elim in H as [? ?]
  | H : negb _ = true |- _ => apply negb_true_iff in H
  | H : negb _ = false |- _ => apply negb_false_iff in H
  | H : (_ =? _) = true |- _ => apply Z.eqb_eq in H
  | H : (_ =? _) = false |- _ => apply Z.eqb_neq in H
  | H : (_ <? _) = true |- _ => apply Z.ltb_lt in H
  | H : (_ <? _) = false |- _ => apply Z.ltb_ge in H
  | H : (_ <=? _) = true |- _ => apply Z.leb_le in H
  | H : (_ <=? _) = false |- _ => apply Z.leb_gt in H
  end.

(** Steps through a monadic program whose next action is a plain state access. *)
Ltac wp_step :=
  lazymatch goal with
  | |- wp (bind _ _) _ _ => apply wp_bind
  | |- wp (ret _) _ _ => apply wp_ret
  | |- wp (gets _) _ _ => apply wp_gets
  | |- wp get _ _ => apply wp_gets
  | |- wp (modify _) _ _ => apply wp_modify
  end; cbv beta.
Ltac wp_steps := repeat wp_step.
