(* ===== verification/Riscv.v ===== *)
(** * RISC-V and memory layout constants (kernel/riscv.h, kernel/memlayout.h)

    The paging macros of riscv.h at 64 bits, the addresses of memlayout.h and
    the arithmetic facts the virtual-memory code relies on: rounding to page
    boundaries, the split of a virtual address in three 9-bit indices, and the
    packing of a physical address and its permission bits in a PTE. *)

From S2P Require Import Prelude.

(** ** kernel/param.h *)

Definition NPROC : nat := 64.
Definition NCPU : nat := 8.
Definition NOFILE : nat := 16.
Definition NFILE : nat := 100.
Definition NINODE : nat := 50.
Definition NDEV : Z := 10.
Definition ROOTDEV : Z := 1.
Definition MAXARG : nat := 32.
Definition MAXOPBLOCKS : Z := 10.
Definition LOGSIZE : Z := MAXOPBLOCKS * 3.
Definition NBUF : nat := 30.
Definition FSSIZE : Z := 2000.
Definition MAXPATH : Z := 128.

(** ** kernel/riscv.h: paging *)

Definition PGSIZE : Z := 4096.
Definition PGSHIFT : Z := 12.

Definition PGROUNDUP (sz : Z) : Z := Z.land (u64 (sz + PGSIZE - 1)) (u64 (Z.lnot (PGSIZE - 1))).
Definition PGROUNDDOWN (a : Z) : Z := Z.land a (u64 (Z.lnot (PGSIZE - 1))).

Definition PTE_V : Z := Z.shiftl 1 0.
Definition PTE_R : Z := Z.shiftl 1 1.
Definition PTE_W : Z := Z.shiftl 1 2.
Definition PTE_X : Z := Z.shiftl 1 3.
Definition PTE_U : Z := Z.shiftl 1 4.

Definition PA2PTE (pa : Z) : Z := u64 (Z.shiftl (Z.shiftr pa 12) 10).
Definition PTE2PA (pte : Z) : Z := u64 (Z.shiftl (Z.shiftr pte 10) 12).
Definition PTE_FLAGS (pte : Z) : Z := Z.land pte 1023.

Definition PXMASK : Z := 511.
Definition PXSHIFT (level : Z) : Z := PGSHIFT + 9 * level.
Definition PX (level va : Z) : Z := Z.land (Z.shiftr va (PXSHIFT level)) PXMASK.

Definition MAXVA : Z := Z.shiftl 1 (9 + 9 + 9 + 12 - 1).

Definition SATP_SV39 : Z := Z.shiftl 8 60.
Definition MAKE_SATP (pagetable : Z) : Z := Z.lor SATP_SV39 (Z.shiftr pagetable 12).

(** ** kernel/riscv.h: status registers *)

Definition MSTATUS_MPP_MASK : Z := Z.shiftl 3 11.
Definition MSTATUS_MPP_S : Z := Z.shiftl 1 11.
Definition MSTATUS_MIE : Z := Z.shiftl 1 3.
Definition SSTATUS_SPP : Z := Z.shiftl 1 8.
Definition SSTATUS_SPIE : Z := Z.shiftl 1 5.
Definition SSTATUS_SIE : Z := Z.shiftl 1 1.
Definition SIE_SEIE : Z := Z.shiftl 1 9.
Definition SIE_STIE : Z := Z.shiftl 1 5.
Definition SIE_SSIE : Z := Z.shiftl 1 1.
Definition MIE_MTIE : Z := Z.shiftl 1 7.

(** ** kernel/memlayout.h *)

Definition UART0 : Z := 0x10000000.
Definition UART0_IRQ : Z := 10.
Definition VIRTIO0 : Z := 0x10001000.
Definition VIRTIO0_IRQ : Z := 1.
Definition CLINT : Z := 0x2000000.
Definition CLINT_MTIMECMP (hartid : Z) : Z := CLINT + 0x4000 + 8 * hartid.
Definition CLINT_MTIME : Z := CLINT + 0xBFF8.
Definition PLIC : Z := 0x0c000000.
Definition PLIC_SENABLE (hart : Z) : Z := PLIC + 0x2080 + hart * 0x100.
Definition PLIC_SPRIORITY (hart : Z) : Z := PLIC + 0x201000 + hart * 0x2000.
Definition PLIC_SCLAIM (hart : Z) : Z := PLIC + 0x201004 + hart * 0x2000.
Definition KERNBASE : Z := 0x80000000.
Definition PHYSTOP : Z := KERNBASE + 128 * 1024 * 1024.
Definition TRAMPOLINE : Z := MAXVA - PGSIZE.
Definition KSTACK (p : Z) : Z := TRAMPOLINE - (p + 1) * 2 * PGSIZE.
Definition TRAPFRAME : Z := TRAMPOLINE - PGSIZE.

(** ** Facts *)

Lemma land_page_mask a :
  0 <= a < 2 ^ 64 -> Z.land a (u64 (Z.lnot (PGSIZE - 1))) = a / PGSIZE * PGSIZE.
Proof.
  intros Ha. change PGSIZE with (2 ^ 12).
  rewrite <- Z.shiftr_div_pow2, <- Z.shiftl_mul_pow2 by lia.
  apply Z.bits_inj'. intros i Hi.
  rewrite Z.land_spec, Z.shiftl_spec by done. unfold u64.
  destruct (Z.ltb_spec i 64).
  - rewrite Z.mod_pow2_bits_low by lia. rewrite Z.lnot_spec by done.
    change (2 ^ 12 - 1) with (Z.ones 12).
    destruct (Z.ltb_spec i 12).
    + rewrite Z.ones_spec_low by lia. rewrite (Z.testbit_neg_r _ (i - 12)) by lia.
      apply andb_false_r.
    + rewrite Z.ones_spec_high by lia. rewrite Z.shiftr_spec by lia.
      simpl. rewrite andb_true_r. f_equal. lia.
  - rewrite Z.mod_pow2_bits_high by lia. rewrite andb_false_r.
    rewrite Z.shiftr_spec by lia. symmetry.
    replace (i - 12 + 12) with i by lia.
    rewrite <- (Z.mod_small a (2 ^ 64)) by done. apply Z.mod_pow2_bits_high. lia.
Qed.

Lemma PGROUNDDOWN_div a : 0 <= a < 2 ^ 64 -> PGROUNDDOWN a = a / PGSIZE * PGSIZE.
Proof. apply land_page_mask. Qed.

Lemma PGROUNDUP_div a :
  0 <= a -> a + PGSIZE <= 2 ^ 64 -> PGROUNDUP a = (a + PGSIZE - 1) / PGSIZE * PGSIZE.
Proof.
  intros. unfold PGROUNDUP.
  assert (Hu : u64 (a + PGSIZE - 1) = a + PGSIZE - 1)
    by (apply Z.mod_small; unfold PGSIZE in *; lia).
  rewrite Hu. apply land_page_mask. unfold PGSIZE in *; lia.
Qed.

(** The rounding macros give the nearest page boundary on their side. *)
Lemma PGROUNDDOWN_spec a :
  0 <= a < 2 ^ 64 ->
  PGROUNDDOWN a mod PGSIZE = 0 /\ PGROUNDDOWN a <= a < PGROUNDDOWN a + PGSIZE.
Proof.
  intros Ha. rewrite PGROUNDDOWN_div by done. unfold PGSIZE. split.
  - apply Z.mod_mul. lia.
  - pose proof (Z.div_mod a 4096). pose proof (Z.mod_pos_bound a 4096). lia.
Qed.

Lemma PGROUNDUP_spec a :
  0 <= a -> a + PGSIZE <= 2 ^ 64 ->
  PGROUNDUP a mod PGSIZE = 0 /\ a <= PGROUNDUP a < a + PGSIZE.
Proof.
  intros Ha Hb. rewrite PGROUNDUP_div by done. unfold PGSIZE in *. split.
  - apply Z.mod_mul. lia.
  - pose proof (Z.div_mod (a + 4096 - 1) 4096). pose proof (Z.mod_pos_bound (a + 4096 - 1) 4096). lia.
Qed.

Lemma PGROUNDUP_aligned a :
  0 <= a -> a + PGSIZE <= 2 ^ 64 -> a mod PGSIZE = 0 -> PGROUNDUP a = a.
Proof.
  intros. pose proof (PGROUNDUP_spec a) as [Hm Hr]; [done|done|].
  unfold PGSIZE in *. pose proof (Z.div_mod a 4096). pose proof (Z.div_mod (PGROUNDUP a) 4096). lia.
Qed.

Lemma PGROUNDDOWN_aligned a :
  0 <= a < 2 ^ 64 -> a mod PGSIZE = 0 -> PGROUNDDOWN a = a.
Proof.
  intros. pose proof (PGROUNDDOWN_spec a) as [Hm Hr]; [done|].
  unfold PGSIZE in *. pose proof (Z.div_mod a 4096). pose proof (Z.div_mod (PGROUNDDOWN a) 4096). lia.
Qed.

(** [PX] is a 9-bit field of the address. *)
Lemma PX_div level va : 0 <= level -> PX level va = va / 2 ^ (12 + 9 * level) mod 512.
Proof.
  intros. unfold PX, PXSHIFT, PGSHIFT, PXMASK. change 511 with (Z.ones 9).
  rewrite Z.land_ones, Z.shiftr_div_pow2 by lia. done.
Qed.

Lemma PX_range level va : 0 <= level -> 0 <= PX level va < 512.
Proof. intros. rewrite PX_div by done. apply Z.mod_pos_bound. lia. Qed.

Lemma MAXVA_eq : MAXVA = 2 ^ 38.
Proof. reflexivity. Qed.

(** The three indices determine the page of an address below [MAXVA]. *)
Lemma PX_inj va1 va2 :
  0 <= va1 < MAXVA -> 0 <= va2 < MAXVA ->
  PX 2 va1 = PX 2 va2 -> PX 1 va1 = PX 1 va2 -> PX 0 va1 = PX 0 va2 ->
  va1 / PGSIZE = va2 / PGSIZE.
Proof.
  rewrite !PX_div by lia. unfold PGSIZE. change MAXVA with (2 ^ 38). intros H1 H2.
  change (2 ^ (12 + 9 * 2)) with (4096 * 2 ^ 18).
  change (2 ^ (12 + 9 * 1)) with (4096 * 2 ^ 9).
  change (2 ^ (12 + 9 * 0)) with 4096.
  rewrite <- !Z.div_div by lia.
  set (x := va1 / 4096). set (y := va2 / 4096).
  assert (0 <= x < 2 ^ 26) by (subst x; split; [apply Z.div_pos; lia|apply Z.div_lt_upper_bound; lia]).
  assert (0 <= y < 2 ^ 26) by (subst y; split; [apply Z.div_pos; lia|apply Z.div_lt_upper_bound; lia]).
  clearbody x y. clear H1 H2. change (2 ^ 18) with 262144. change (2 ^ 9) with 512.
  change (2 ^ 26) with 67108864 in *.
  intros. Z.div_mod_to_equations. lia.
Qed.

Lemma PA2PTE_div pa : 0 <= pa < 2 ^ 64 -> PA2PTE pa = pa / PGSIZE * 1024.
Proof.
  intros. unfold PA2PTE, u64, PGSIZE. rewrite Z.shiftr_div_pow2, Z.shiftl_mul_pow2 by lia.
  change (2 ^ 12) with 4096. change (2 ^ 10) with 1024. apply Z.mod_small.
  Z.div_mod_to_equations. lia.
Qed.

Lemma lor_flags x f : 0 <= f < 1024 -> Z.lor (x * 1024) f = x * 1024 + f.
Proof.
  intros. symmetry.
  change 1024 with (2 ^ 10). rewrite <- Z.shiftl_mul_pow2 by lia.
  rewrite <- Z.lxor_lor.
  - apply Z.add_nocarry_lxor. apply Z.bits_inj'. intros i Hi.
    rewrite Z.land_spec, Z.shiftl_spec, Z.bits_0 by done.
    destruct (Z.ltb_spec i 10).
    + by rewrite (Z.testbit_neg_r _ (i - 10)) by lia.
    + rewrite <- (Z.mod_small f (2 ^ 10)) by done.
      rewrite Z.mod_pow2_bits_high by lia. apply andb_false_r.
  - apply Z.bits_inj'. intros i Hi.
    rewrite Z.land_spec, Z.shiftl_spec, Z.bits_0 by done.
    destruct (Z.ltb_spec i 10).
    + by rewrite (Z.testbit_neg_r _ (i - 10)) by lia.
    + rewrite <- (Z.mod_small f (2 ^ 10)) by done.
      rewrite Z.mod_pow2_bits_high by lia. apply andb_false_r.
Qed.

(** A physical page address survives the trip through a PTE, whatever the
    permission bits, and so do the permission bits. *)
Lemma PTE2PA_pte pa flags :
  0 <= pa < 2 ^ 56 -> pa mod PGSIZE = 0 -> 0 <= flags < 1024 ->
  PTE2PA (Z.lor (PA2PTE pa) flags) = pa.
Proof.
  intros Hpa Ha Hf. rewrite PA2PTE_div by lia. rewrite lor_flags by done.
  unfold PTE2PA, u64. rewrite Z.shiftr_div_pow2, Z.shiftl_mul_pow2 by lia.
  change (2 ^ 12) with 4096. change (2 ^ 10) with 1024. unfold PGSIZE in *.
  rewrite Z.div_add_l by lia. rewrite (Z.div_small flags) by lia.
  rewrite Z.mod_small by (Z.div_mod_to_equations; lia). Z.div_mod_to_equations. lia.
Qed.

Lemma PTE_FLAGS_pte pa flags :
  0 <= pa < 2 ^ 64 -> 0 <= flags < 1024 -> PTE_FLAGS (Z.lor (PA2PTE pa) flags) = flags.
Proof.
  intros. rewrite PA2PTE_div by lia. rewrite lor_flags by done.
  unfold PTE_FLAGS. change 1023 with (Z.ones 10). rewrite Z.land_ones by lia.
  change (2 ^ 10) with 1024. rewrite Z.add_comm, Z.mod_add by lia. apply Z.mod_small. lia.
Qed.

(** Kernel stacks of different processes never share a page, and an unmapped
    guard page lies under each of them. *)
Lemma KSTACK_disjoint i j :
  0 <= i < Z.of_nat NPROC -> 0 <= j < Z.of_nat NPROC -> i <> j ->
  KSTACK i + 2 * PGSIZE <= KSTACK j \/ KSTACK j + 2 * PGSIZE <= KSTACK i.
Proof. unfold KSTACK, PGSIZE. lia. Qed.
