(* ===== verification/Bytes.v ===== *)
(** * Byte lists

    Kernel objects with a layout (disk blocks, on-disk inodes, directory
    entries, C strings) are lists of bytes: slices, updates in place and
    little-endian integers. *)

From S2P Require Import Prelude.
From Stdlib Require Import Ascii.

(** ** Slices *)

Definition slice (l : list Z) (off len : nat) : list Z := take len (drop off l).

(** Overwriting [length bs] bytes at [off]; the list keeps its length. *)
Definition splice (l : list Z) (off : nat) (bs : list Z) : list Z :=
  take off l ++ bs ++ drop (off + length bs) l.

Lemma slice_length l off len : (off + len <= length l)%nat -> length (slice l off len) = len.
Proof. intros. unfold slice. rewrite length_take, length_drop. lia. Qed.

Lemma splice_length l off bs :
  (off + length bs <= length l)%nat -> length (splice l off bs) = length l.
Proof. intros. unfold splice. rewrite !length_app, length_take, length_drop. lia. Qed.

Lemma slice_splice_eq l off bs :
  (off + length bs <= length l)%nat -> slice (splice l off bs) off (length bs) = bs.
Proof.
  intros. unfold slice, splice. rewrite drop_app_length' by (rewrite length_take; lia).
  by rewrite take_app_length.
Qed.

Lemma lookup_splice_out l off bs i :
  (off + length bs <= length l)%nat -> (i < off \/ off + length bs <= i)%nat ->
  splice l off bs !! i = l !! i.
Proof.
  intros Hl [Hi|Hi]; unfold splice.
  - rewrite lookup_app_l by (rewrite length_take; lia). by rewrite lookup_take_lt.
  - rewrite lookup_app_r by (rewrite length_take; lia). rewrite length_take.
    rewrite lookup_app_r by lia. rewrite lookup_drop. f_equal. lia.
Qed.

Lemma slice_splice_out l off bs o n :
  (off + length bs <= length l)%nat -> (o + n <= off \/ off + length bs <= o)%nat ->
  slice (splice l off bs) o n = slice l o n.
Proof.
  intros Hl Ho. apply list_eq. intros i. unfold slice.
  destruct (decide (i < n)%nat).
  - rewrite !lookup_take_lt, !lookup_drop by done. apply lookup_splice_out; [done|]. lia.
  - rewrite !lookup_take_ge by lia. done.
Qed.

Lemma splice_slice l off n : (off + n <= length l)%nat -> splice l off (slice l off n) = l.
Proof.
  intros. unfold splice. rewrite slice_length by done. unfold slice.
  rewrite <- drop_drop, take_drop. apply take_drop.
Qed.

(** ** Little-endian integers *)

Fixpoint enc_le (n : nat) (v : Z) : list Z :=
  match n with
  | O => []
  | S n' => u8 v :: enc_le n' (v / 2 ^ 8)
  end.
Fixpoint dec_le (l : list Z) : Z :=
  match l with
  | [] => 0
  | b :: l' => b + 2 ^ 8 * dec_le l'
  end.

Lemma enc_le_length n v : length (enc_le n v) = n.
Proof. revert v. induction n; intros; simpl; [done|]. by rewrite IHn. Qed.

Lemma dec_enc_le n v : dec_le (enc_le n v) = v mod 2 ^ (8 * Z.of_nat n).
Proof.
  revert v. induction n as [|n IH]; intros v; cbn [enc_le dec_le].
  - by rewrite Z.mod_1_r.
  - rewrite IH. unfold u8. replace (8 * Z.of_nat (S n)) with (8 + 8 * Z.of_nat n) by lia.
    rewrite Z.pow_add_r by lia. rewrite Z.rem_mul_r by lia. lia.
Qed.

Lemma enc_dec_le l : Forall (fun b => 0 <= b < 2 ^ 8) l -> enc_le (length l) (dec_le l) = l.
Proof.
  induction 1 as [|b l Hb _ IH]; [done|]. cbn [length enc_le dec_le].
  rewrite (Z.mul_comm (2 ^ 8)), Z.div_add by lia. rewrite Z.div_small, Z.add_0_l, IH by lia.
  unfold u8. rewrite Z.mod_add by lia. by rewrite Z.mod_small.
Qed.

(** An unsigned integer of [n] bytes at an offset of an object. *)
Definition rd (n : nat) (l : list Z) (off : Z) : Z := dec_le (slice l (Z.to_nat off) n).
Definition wr (n : nat) (l : list Z) (off v : Z) : list Z := splice l (Z.to_nat off) (enc_le n v).

Lemma rd_wr_eq n l off v : 0 <= off -> off + Z.of_nat n <= Z.of_nat (length l) ->
  rd n (wr n l off v) off = v mod 2 ^ (8 * Z.of_nat n).
Proof.
  intros H0 H. unfold rd, wr. rewrite <- (enc_le_length n v) at 2.
  rewrite slice_splice_eq by (rewrite enc_le_length; lia). apply dec_enc_le.
Qed.

Lemma rd_wr_ne n k l off o v : 0 <= off -> 0 <= o -> off + Z.of_nat n <= Z.of_nat (length l) ->
  o + Z.of_nat k <= off \/ off + Z.of_nat n <= o -> rd k (wr n l off v) o = rd k l o.
Proof.
  intros H0 H1 H2 H3. unfold rd, wr. rewrite slice_splice_out; rewrite ?enc_le_length; done || lia.
Qed.

Lemma wr_length n l off v : 0 <= off -> off + Z.of_nat n <= Z.of_nat (length l) ->
  length (wr n l off v) = length l.
Proof. intros. unfold wr. apply splice_length. rewrite enc_le_length. lia. Qed.

(** ** C strings *)

(** The bytes of a string constant, without its NUL. *)
Fixpoint bytes_of_string (s : string) : list Z :=
  match s with
  | EmptyString => []
  | String c s' => Z.of_nat (nat_of_ascii c) :: bytes_of_string s'
  end.

(** Both produce bytes. *)
Definition is_byte (c : Z) : Prop := 0 <= c < 256.

Lemma enc_le_bytes n v : Forall is_byte (enc_le n v).
Proof. revert v. induction n as [|n IH]; intros v; simpl; constructor; [|apply IH]. apply u8_range. Qed.

Lemma bytes_of_string_bytes s : Forall is_byte (bytes_of_string s).
Proof. induction s as [|c s IH]; simpl; constructor; [|done]. pose proof (Ascii.nat_ascii_bounded c). unfold is_byte. lia. Qed.

(** The bytes of an array up to its first NUL. *)
Fixpoint cstr (l : list Z) : list Z :=
  match l with
  | [] => []
  | b :: l' => if b =? 0 then [] else b :: cstr l'
  end.

(** string.c's strncmp() and strncpy() on arrays; a byte past the end of the
    list reads as NUL. *)
Fixpoint strncmp_l (n : nat) (p q : list Z) : Z :=
  match n with
  | O => 0
  | S n' =>
      let a := hd 0 p in let b := hd 0 q in
      if negb (a =? 0) && (a =? b) then strncmp_l n' (tail p) (tail q) else i32 (a - b)
  end.

Definition strncpy_l (n : nat) (t : list Z) : list Z :=
  let c := take n (cstr t) in c ++ replicate (n - length c) 0.

(** safestrcpy() to an array [s]: when the string is shorter than n - 1 bytes the
    loop copies its NUL and the code then stores another one after it. *)
Definition safestrcpy_l (s t : list Z) (n : Z) : list Z :=
  if n <=? 0 then s
  else
    let c := take (Z.to_nat (n - 1)) (cstr t) in
    splice s 0 (c ++ (if Z.of_nat (length c) <? n - 1 then [0; 0] else [0])).
