(* ===== verification/Dll.v ===== *)
(** * Circular doubly linked lists

    The shape of the buffer cache's list (kernel/bio.c): [nxt] and [prv] are the
    next and prev fields by node, [h] is the list head, which is not an element.
    Walks along the list, and the pointer updates that unlink a node and that
    insert one after the head. *)

From S2P Require Import Prelude.

Section dll.
Context (h : nat).

Definition upd (f : nat -> nat) (x v : nat) : nat -> nat := fun y => if decide (y = x) then v else f y.

Lemma upd_eq f x v : upd f x v x = v.
Proof. unfold upd. by rewrite decide_True. Qed.
Lemma upd_ne f x v y : y <> x -> upd f x v y = f y.
Proof. intros. unfold upd. by rewrite decide_False. Qed.

(** [nxt] and [prv] link each node of a list to the one after it. *)
Fixpoint chain (nxt prv : nat -> nat) (xs : list nat) : Prop :=
  match xs with
  | x :: (y :: _) as xs' => nxt x = y /\ prv y = x /\ chain nxt prv xs'
  | _ => True
  end.

(** The nodes [l], in order, between the two ends of the head. *)
Definition linked (nxt prv : nat -> nat) (l : list nat) : Prop :=
  NoDup l /\ h ∉ l /\ chain nxt prv (h :: l ++ [h]).

Lemma chain_cons nxt prv x y ys :
  chain nxt prv (x :: y :: ys) <-> nxt x = y /\ prv y = x /\ chain nxt prv (y :: ys).
Proof. done. Qed.

Lemma chain_app nxt prv xs y ys :
  chain nxt prv (xs ++ y :: ys) <-> chain nxt prv (xs ++ [y]) /\ chain nxt prv (y :: ys).
Proof.
  induction xs as [|x xs IH]; [simpl; tauto|]. destruct xs as [|x' xs].
  - simpl. tauto.
  - cbn [app chain] in *. rewrite IH. tauto.
Qed.

(** A chain depends on the pointers inside it only. *)
Lemma chain_ext nxt prv nxt' prv' xs :
  (forall x, x ∈ removelast xs -> nxt' x = nxt x) -> (forall x, x ∈ tail xs -> prv' x = prv x) ->
  chain nxt prv xs -> chain nxt' prv' xs.
Proof.
  induction xs as [|x [|y xs] IH]; intros Hn Hp H; [done|done|]. destruct H as (H1 & H2 & H3). split_and!.
  - rewrite Hn; [done|]. simpl. left.
  - rewrite Hp; [done|]. simpl. left.
  - apply IH; [| |done]; intros z Hz; [apply Hn; simpl; by right|apply Hp; simpl; simpl in Hz; by right].
Qed.

Lemma linked_ext nxt prv nxt' prv' l :
  (forall x, nxt' x = nxt x) -> (forall x, prv' x = prv x) -> linked nxt prv l -> linked nxt' prv' l.
Proof. intros Hn Hp (H1 & H2 & H3). split_and!; [done|done|]. eapply chain_ext; [| |done]; auto. Qed.

(** ** Walks *)

(** The node reached from the head by [nxt] (by [prv]) is the first (last) one. *)
Lemma linked_next nxt prv l : linked nxt prv l -> nxt h = hd h l.
Proof. intros (_ & _ & H). destruct l; simpl in H; apply H. Qed.

Lemma chain_rev nxt prv xs : chain nxt prv xs -> chain prv nxt (rev xs).
Proof.
  induction xs as [|x [|y xs] IH]; [done|done|]. intros (H1 & H2 & H3). specialize (IH H3).
  cbn [rev] in *. rewrite <- app_assoc. cbn [app]. apply chain_app. split; [done|]. simpl. done.
Qed.

Lemma linked_rev nxt prv l : linked nxt prv l -> linked prv nxt (rev l).
Proof.
  intros (H1 & H2 & H3). split_and!.
  - by apply NoDup_ListNoDup, NoDup_rev, NoDup_ListNoDup.
  - by rewrite list_elem_of_In, <- in_rev, <- list_elem_of_In.
  - apply chain_rev in H3. cbn [rev] in H3. rewrite rev_app_distr in H3. done.
Qed.

Lemma linked_prev nxt prv l : linked nxt prv l -> prv h = hd h (rev l).
Proof. intros H. by eapply linked_next, linked_rev. Qed.

(** The neighbours of a node are nodes or the head. *)
Lemma linked_neighbours nxt prv l1 b l2 : linked nxt prv (l1 ++ b :: l2) ->
  (nxt b = h \/ nxt b ∈ l1 ++ b :: l2) /\ (prv b = h \/ prv b ∈ l1 ++ b :: l2).
Proof.
  intros (_ & _ & Hc). rewrite <- app_assoc in Hc. cbn [app] in Hc. rewrite app_comm_cons in Hc.
  apply chain_app in Hc as [Hc1 Hc2]. split.
  - destruct l2 as [|y l2]; cbn [app] in Hc2; apply chain_cons in Hc2 as (-> & _); [by left|right].
    rewrite elem_of_app, !elem_of_cons. tauto.
  - destruct (@exists_last _ (h :: l1)) as (A & p & HA); [done|]. rewrite HA, <- app_assoc in Hc1.
    apply chain_app in Hc1 as (_ & Hpb). cbn [app] in Hpb. apply chain_cons in Hpb as (_ & -> & _).
    assert (Hp : p ∈ h :: l1) by (rewrite HA; apply elem_of_app; right; by apply list_elem_of_singleton).
    apply elem_of_cons in Hp as [->|Hp]; [by left|right]. rewrite elem_of_app. by left.
Qed.

(** ** Updates *)

(** [b->next->prev = b->prev; b->prev->next = b->next] takes [b] out. *)
Lemma linked_remove nxt prv l1 b l2 : linked nxt prv (l1 ++ b :: l2) ->
  linked (upd nxt (prv b) (nxt b)) (upd prv (nxt b) (prv b)) (l1 ++ l2).
Proof.
  intros (Hnd & Hh & Hc). rewrite <- app_assoc in Hc. cbn [app] in Hc. rewrite app_comm_cons in Hc.
  apply chain_app in Hc as [Hc1 Hc2].
  apply NoDup_app in Hnd as (Hn1 & Hd & Hn2). apply NoDup_cons in Hn2 as [Hb2 Hn2].
  rewrite not_elem_of_app, not_elem_of_cons in Hh. destruct Hh as (Hh1 & Hhb & Hh2).
  assert (Hd2 : forall x, x ∈ l1 -> x ∉ l2) by (intros x Hx Hx2; apply (Hd x Hx); by right).
  assert (HA : exists A p, h :: l1 = A ++ [p]).
  { destruct (@exists_last _ (h :: l1)) as (A & p & ->); [done|]. by exists A, p. }
  assert (HC : exists n C, l2 ++ [h] = n :: C) by (destruct l2; by eexists _, _).
  destruct HA as (A & p & HA), HC as (n & C & HC). rewrite HC in Hc2. rewrite HA, <- app_assoc in Hc1.
  apply chain_app in Hc1 as (Hc1 & Hpb). cbn [app] in Hpb. apply chain_cons in Hpb as (_ & Hprv & _).
  apply chain_cons in Hc2; destruct Hc2 as (Hnxt & _ & Hc2). rewrite Hprv, Hnxt.
  assert (HnA : NoDup (A ++ [p])) by (rewrite <- HA; by constructor).
  assert (HnC : NoDup (n :: C)).
  { rewrite <- HC. apply NoDup_app. split_and!; [done| |apply NoDup_singleton]. intros x Hx Hxh.
    apply list_elem_of_singleton in Hxh as ->. done. }
  split_and!.
  - apply NoDup_app. done.
  - rewrite not_elem_of_app. done.
  - rewrite <- app_assoc, HC, app_comm_cons, HA, <- app_assoc. cbn [app]. apply chain_app. split; [|rewrite chain_cons; split_and!].
    + eapply chain_ext; [| |done].
      * rewrite removelast_last. intros x Hx. apply upd_ne. intros ->. apply NoDup_app in HnA as (_ & HnA & _).
        apply (HnA p Hx). by apply list_elem_of_singleton.
      * rewrite <- HA. cbn [tail]. intros x Hx. apply upd_ne. intros ->.
        assert (Hn : n ∈ l2 ++ [h]) by (rewrite HC; left). apply elem_of_app in Hn as [Hn|Hn]; [by apply (Hd2 n)|].
        apply list_elem_of_singleton in Hn as ->. done.
    + apply upd_eq.
    + apply upd_eq.
    + eapply chain_ext; [| |done].
      * rewrite <- HC, removelast_last. intros x Hx. apply upd_ne. intros ->.
        assert (Hp : p ∈ h :: l1) by (rewrite HA; apply elem_of_app; right; by apply list_elem_of_singleton).
        apply elem_of_cons in Hp as [->|Hp]; [done|by apply (Hd2 p)].
      * cbn [tail]. intros x Hx. apply upd_ne. intros ->. by apply NoDup_cons in HnC as [? _].
Qed.

(** [b->next = head.next; b->prev = &head; head.next->prev = b; head.next = b]
    puts [b] first. *)
Lemma linked_push nxt prv l b : linked nxt prv l -> b ∉ l -> b <> h ->
  linked (upd (upd nxt b (nxt h)) h b) (upd (upd prv b h) (nxt h) b) (b :: l).
Proof.
  intros (Hnd & Hh & Hc) Hb Hbh. assert (HC : exists n C, l ++ [h] = n :: C) by (destruct l; by eexists _, _).
  destruct HC as (n & C & HC). rewrite HC in Hc. apply chain_cons in Hc; destruct Hc as (Hnh & _ & Hc). rewrite Hnh.
  assert (HnC : NoDup (n :: C)).
  { rewrite <- HC. apply NoDup_app. split_and!; [done| |apply NoDup_singleton]. intros x Hx Hxh.
    apply list_elem_of_singleton in Hxh as ->. done. }
  assert (Hbn : b ∉ n :: C).
  { rewrite <- HC, not_elem_of_app. split; [done|]. by rewrite list_elem_of_singleton. }
  split_and!.
  - by constructor.
  - rewrite not_elem_of_cons. done.
  - cbn [app]. rewrite HC, !chain_cons. rewrite not_elem_of_cons in Hbn. destruct Hbn as [Hbn HbC]. split_and!.
    + apply upd_eq.
    + rewrite upd_ne by done. apply upd_eq.
    + rewrite upd_ne by done. apply upd_eq.
    + apply upd_eq.
    + eapply chain_ext; [| |done].
      * rewrite <- HC, removelast_last. intros x Hx. rewrite !upd_ne; [done| |]; intros ->; done.
      * cbn [tail]. intros x Hx. apply NoDup_cons in HnC as [Hn _]. rewrite !upd_ne; [done| |]; intros ->; done.
Qed.

End dll.
