(* ===== verification/Kstate.v ===== *)
(** * The kernel's state

    One record per C structure of the kernel, and the record [kstate] of every
    global variable together with physical memory, the privileged registers of
    the hart that runs the modelled thread and the traffic with the devices.
    Pointers to elements of the kernel's static tables ([struct proc *],
    [struct file *], [struct inode *], [struct buf *]) are indices in the table
    (or [None] for the null pointer); pointers to pages obtained from kalloc()
    are physical addresses.

    [K] is the monad of kernel code.  The class [Env] collects what the kernel
    does not define: the other kernel threads, which run whenever the modelled
    one gives up its CPU in swtch(), the values read from device registers, and
    the addresses the linker chooses. *)

From S2P Require Import Prelude Riscv.

(** ** Identities of locks and of sleep channels *)

(** The two families of sleep locks: one per buffer, one per inode. *)
Inductive sleepid : Type := SLbuf (i : nat) | SLinode (i : nat).

(** Every spinlock of the kernel, by the structure it is part of. *)
Inductive lockid : Type :=
| L_kmem | L_pid | L_wait | L_proc (i : nat) | L_bcache | L_log | L_itable
| L_ftable | L_ticks | L_cons | L_uart | L_pr | L_vdisk
| L_pipe (pi : Z) | L_sleep (l : sleepid).

(** The addresses processes sleep on. *)
Inductive chan : Type :=
| Ch_proc (i : nat)      (* a struct proc: a parent waiting for its children *)
| Ch_ticks | Ch_nread (pi : Z) | Ch_nwrite (pi : Z) | Ch_cons | Ch_uart
| Ch_disk_free | Ch_buf (i : nat) | Ch_sleep (l : sleepid) | Ch_log.

#[export] Instance sleepid_eq_dec : EqDecision sleepid.
Proof. solve_decision. Defined.
#[export] Instance lockid_eq_dec : EqDecision lockid.
Proof. solve_decision. Defined.
#[export] Instance chan_eq_dec : EqDecision chan.
Proof. solve_decision. Defined.

Definition lockid_enc (l : lockid) : nat * Z :=
  match l with
  | L_kmem => (0%nat, 0) | L_pid => (1%nat, 0) | L_wait => (2%nat, 0)
  | L_proc i => (3%nat, Z.of_nat i) | L_bcache => (4%nat, 0) | L_log => (5%nat, 0)
  | L_itable => (6%nat, 0) | L_ftable => (7%nat, 0) | L_ticks => (8%nat, 0)
  | L_cons => (9%nat, 0) | L_uart => (10%nat, 0) | L_pr => (11%nat, 0)
  | L_vdisk => (12%nat, 0) | L_pipe pi => (13%nat, pi)
  | L_sleep (SLbuf i) => (14%nat, Z.of_nat i) | L_sleep (SLinode i) => (15%nat, Z.of_nat i)
  end.

Definition lockid_dec (x : nat * Z) : lockid :=
  match x with
  | (0%nat, _) => L_kmem | (1%nat, _) => L_pid | (2%nat, _) => L_wait
  | (3%nat, i) => L_proc (Z.to_nat i) | (4%nat, _) => L_bcache | (5%nat, _) => L_log
  | (6%nat, _) => L_itable | (7%nat, _) => L_ftable | (8%nat, _) => L_ticks
  | (9%nat, _) => L_cons | (10%nat, _) => L_uart | (11%nat, _) => L_pr
  | (12%nat, _) => L_vdisk | (13%nat, pi) => L_pipe pi
  | (14%nat, i) => L_sleep (SLbuf (Z.to_nat i)) | (_, i) => L_sleep (SLinode (Z.to_nat i))
  end.

#[export] Instance lockid_countable : Countable lockid.
Proof.
  refine (inj_countable' lockid_enc lockid_dec _).
  by intros [| | | | | | | | | | | | | |[]]; simpl; rewrite ?Nat2Z.id.
Defined.

(** ** Locks, CPUs and processes *)

(** [struct spinlock] (kernel/spinlock.h) *)
Record spinlock := mkspinlock {
  locked : Z;
  lk_name : string;
  lk_cpu : option Z;  (* the index in cpus[] of the holder *)
}.

Definition set_locked (x : Z) (s : spinlock) : spinlock :=
  mkspinlock x (lk_name s) (lk_cpu s).
Definition set_lk_name (x : string) (s : spinlock) : spinlock :=
  mkspinlock (locked s) x (lk_cpu s).
Definition set_lk_cpu (x : option Z) (s : spinlock) : spinlock :=
  mkspinlock (locked s) (lk_name s) x.

(** [struct sleeplock] (kernel/sleeplock.h); its spinlock is [L_sleep] *)
Record sleeplock := mksleeplock {
  sl_locked : Z;
  sl_name : string;
  sl_pid : Z;
}.

Definition set_sl_locked (x : Z) (s : sleeplock) : sleeplock :=
  mksleeplock x (sl_name s) (sl_pid s).
Definition set_sl_name (x : string) (s : sleeplock) : sleeplock :=
  mksleeplock (sl_locked s) x (sl_pid s).
Definition set_sl_pid (x : Z) (s : sleeplock) : sleeplock :=
  mksleeplock (sl_locked s) (sl_name s) x.

(** [struct context] (kernel/proc.h) *)
Record context := mkcontext {
  ctx_ra : Z;
  ctx_sp : Z;
  ctx_s : list Z;  (* s0 .. s11 *)
}.

Definition set_ctx_ra (x : Z) (s : context) : context :=
  mkcontext x (ctx_sp s) (ctx_s s).
Definition set_ctx_sp (x : Z) (s : context) : context :=
  mkcontext (ctx_ra s) x (ctx_s s).
Definition set_ctx_s (x : list Z) (s : context) : context :=
  mkcontext (ctx_ra s) (ctx_sp s) x.

(** [struct cpu] (kernel/proc.h) *)
Record cpu := mkcpu {
  c_proc : option nat;  (* the process running on this cpu *)
  c_context : context;
  noff : Z;
  intena : Z;
}.

Definition set_c_proc (x : option nat) (s : cpu) : cpu :=
  mkcpu x (c_context s) (noff s) (intena s).
Definition set_c_context (x : context) (s : cpu) : cpu :=
  mkcpu (c_proc s) x (noff s) (intena s).
Definition set_noff (x : Z) (s : cpu) : cpu :=
  mkcpu (c_proc s) (c_context s) x (intena s).
Definition set_intena (x : Z) (s : cpu) : cpu :=
  mkcpu (c_proc s) (c_context s) (noff s) x.

(** [enum procstate] (kernel/proc.h) *)
Inductive procstate : Type := UNUSED | USED | SLEEPING | RUNNABLE | RUNNING | ZOMBIE.

#[export] Instance procstate_eq_dec : EqDecision procstate.
Proof. solve_decision. Defined.

(** [struct proc] (kernel/proc.h); its spinlock is [L_proc] *)
Record proc := mkproc {
  p_state : procstate;
  p_chan : option chan;
  p_killed : Z;
  p_xstate : Z;
  p_pid : Z;
  p_parent : option nat;
  p_kstack : Z;
  p_sz : Z;
  p_pagetable : Z;
  p_trapframe : Z;
  p_context : context;
  p_ofile : list (option nat);
  p_cwd : option nat;
  p_name : list Z;
}.

Definition set_p_state (x : procstate) (s : proc) : proc :=
  mkproc x (p_chan s) (p_killed s) (p_xstate s) (p_pid s) (p_parent s) (p_kstack s) (p_sz s) (p_pagetable s) (p_trapframe s) (p_context s) (p_ofile s) (p_cwd s) (p_name s).
Definition set_p_chan (x : option chan) (s : proc) : proc :=
  mkproc (p_state s) x (p_killed s) (p_xstate s) (p_pid s) (p_parent s) (p_kstack s) (p_sz s) (p_pagetable s) (p_trapframe s) (p_context s) (p_ofile s) (p_cwd s) (p_name s).
Definition set_p_killed (x : Z) (s : proc) : proc :=
  mkproc (p_state s) (p_chan s) x (p_xstate s) (p_pid s) (p_parent s) (p_kstack s) (p_sz s) (p_pagetable s) (p_trapframe s) (p_context s) (p_ofile s) (p_cwd s) (p_name s).
Definition set_p_xstate (x : Z) (s : proc) : proc :=
  mkproc (p_state s) (p_chan s) (p_killed s) x (p_pid s) (p_parent s) (p_kstack s) (p_sz s) (p_pagetable s) (p_trapframe s) (p_context s) (p_ofile s) (p_cwd s) (p_name s).
Definition set_p_pid (x : Z) (s : proc) : proc :=
  mkproc (p_state s) (p_chan s) (p_killed s) (p_xstate s) x (p_parent s) (p_kstack s) (p_sz s) (p_pagetable s) (p_trapframe s) (p_context s) (p_ofile s) (p_cwd s) (p_name s).
Definition set_p_parent (x : option nat) (s : proc) : proc :=
  mkproc (p_state s) (p_chan s) (p_killed s) (p_xstate s) (p_pid s) x (p_kstack s) (p_sz s) (p_pagetable s) (p_trapframe s) (p_context s) (p_ofile s) (p_cwd s) (p_name s).
Definition set_p_kstack (x : Z) (s : proc) : proc :=
  mkproc (p_state s) (p_chan s) (p_killed s) (p_xstate s) (p_pid s) (p_parent s) x (p_sz s) (p_pagetable s) (p_trapframe s) (p_context s) (p_ofile s) (p_cwd s) (p_name s).
Definition set_p_sz (x : Z) (s : proc) : proc :=
  mkproc (p_state s) (p_chan s) (p_killed s) (p_xstate s) (p_pid s) (p_parent s) (p_kstack s) x (p_pagetable s) (p_trapframe s) (p_context s) (p_ofile s) (p_cwd s) (p_name s).
Definition set_p_pagetable (x : Z) (s : proc) : proc :=
  mkproc (p_state s) (p_chan s) (p_killed s) (p_xstate s) (p_pid s) (p_parent s) (p_kstack s) (p_sz s) x (p_trapframe s) (p_context s) (p_ofile s) (p_cwd s) (p_name s).
Definition set_p_trapframe (x : Z) (s : proc) : proc :=
  mkproc (p_state s) (p_chan s) (p_killed s) (p_xstate s) (p_pid s) (p_parent s) (p_kstack s) (p_sz s) (p_pagetable s) x (p_context s) (p_ofile s) (p_cwd s) (p_name s).
Definition set_p_context (x : context) (s : proc) : proc :=
  mkproc (p_state s) (p_chan s) (p_killed s) (p_xstate s) (p_pid s) (p_parent s) (p_kstack s) (p_sz s) (p_pagetable s) (p_trapframe s) x (p_ofile s) (p_cwd s) (p_name s).
Definition set_p_ofile (x : list (option nat)) (s : proc) : proc :=
  mkproc (p_state s) (p_chan s) (p_killed s) (p_xstate s) (p_pid s) (p_parent s) (p_kstack s) (p_sz s) (p_pagetable s) (p_trapframe s) (p_context s) x (p_cwd s) (p_name s).
Definition set_p_cwd (x : option nat) (s : proc) : proc :=
  mkproc (p_state s) (p_chan s) (p_killed s) (p_xstate s) (p_pid s) (p_parent s) (p_kstack s) (p_sz s) (p_pagetable s) (p_trapframe s) (p_context s) (p_ofile s) x (p_name s).
Definition set_p_name (x : list Z) (s : proc) : proc :=
  mkproc (p_state s) (p_chan s) (p_killed s) (p_xstate s) (p_pid s) (p_parent s) (p_kstack s) (p_sz s) (p_pagetable s) (p_trapframe s) (p_context s) (p_ofile s) (p_cwd s) x.

(** What spinlock.c works on: the hart, its interrupt-enable bit, cpus[] and the
    state of every spinlock *)
Record ctl := mkctl {
  hart : Z;  (* tp: the number of the hart that runs the thread *)
  sstatus : Z;
  cpus : list cpu;
  locks : gmap lockid spinlock;
}.

Definition set_hart (x : Z) (s : ctl) : ctl :=
  mkctl x (sstatus s) (cpus s) (locks s).
Definition set_sstatus (x : Z) (s : ctl) : ctl :=
  mkctl (hart s) x (cpus s) (locks s).
Definition set_cpus (x : list cpu) (s : ctl) : ctl :=
  mkctl (hart s) (sstatus s) x (locks s).
Definition set_locks (x : gmap lockid spinlock) (s : ctl) : ctl :=
  mkctl (hart s) (sstatus s) (cpus s) x.

(** The other supervisor registers the trap code uses *)
Record regs := mkregs {
  sepc : Z;
  scause : Z;
  stval : Z;
  stvec : Z;
  satp : Z;
  sip : Z;
}.

Definition set_sepc (x : Z) (s : regs) : regs :=
  mkregs x (scause s) (stval s) (stvec s) (satp s) (sip s).
Definition set_scause (x : Z) (s : regs) : regs :=
  mkregs (sepc s) x (stval s) (stvec s) (satp s) (sip s).
Definition set_stval (x : Z) (s : regs) : regs :=
  mkregs (sepc s) (scause s) x (stvec s) (satp s) (sip s).
Definition set_stvec (x : Z) (s : regs) : regs :=
  mkregs (sepc s) (scause s) (stval s) x (satp s) (sip s).
Definition set_satp (x : Z) (s : regs) : regs :=
  mkregs (sepc s) (scause s) (stval s) (stvec s) x (sip s).
Definition set_sip (x : Z) (s : regs) : regs :=
  mkregs (sepc s) (scause s) (stval s) (stvec s) (satp s) x.

(** ** Buffers, files and devices *)

(** [struct buf] (kernel/buf.h); prev and next are indices in the buffer array,
    whose last entry is the list head *)
Record buf := mkbuf {
  b_valid : Z;
  b_disk : Z;
  b_dev : Z;
  b_blockno : Z;
  b_lock : sleeplock;
  b_refcnt : Z;
  b_prev : nat;
  b_next : nat;
  b_data : list Z;
}.

Definition set_b_valid (x : Z) (s : buf) : buf :=
  mkbuf x (b_disk s) (b_dev s) (b_blockno s) (b_lock s) (b_refcnt s) (b_prev s) (b_next s) (b_data s).
Definition set_b_disk (x : Z) (s : buf) : buf :=
  mkbuf (b_valid s) x (b_dev s) (b_blockno s) (b_lock s) (b_refcnt s) (b_prev s) (b_next s) (b_data s).
Definition set_b_dev (x : Z) (s : buf) : buf :=
  mkbuf (b_valid s) (b_disk s) x (b_blockno s) (b_lock s) (b_refcnt s) (b_prev s) (b_next s) (b_data s).
Definition set_b_blockno (x : Z) (s : buf) : buf :=
  mkbuf (b_valid s) (b_disk s) (b_dev s) x (b_lock s) (b_refcnt s) (b_prev s) (b_next s) (b_data s).
Definition set_b_lock (x : sleeplock) (s : buf) : buf :=
  mkbuf (b_valid s) (b_disk s) (b_dev s) (b_blockno s) x (b_refcnt s) (b_prev s) (b_next s) (b_data s).
Definition set_b_refcnt (x : Z) (s : buf) : buf :=
  mkbuf (b_valid s) (b_disk s) (b_dev s) (b_blockno s) (b_lock s) x (b_prev s) (b_next s) (b_data s).
Definition set_b_prev (x : nat) (s : buf) : buf :=
  mkbuf (b_valid s) (b_disk s) (b_dev s) (b_blockno s) (b_lock s) (b_refcnt s) x (b_next s) (b_data s).
Definition set_b_next (x : nat) (s : buf) : buf :=
  mkbuf (b_valid s) (b_disk s) (b_dev s) (b_blockno s) (b_lock s) (b_refcnt s) (b_prev s) x (b_data s).
Definition set_b_data (x : list Z) (s : buf) : buf :=
  mkbuf (b_valid s) (b_disk s) (b_dev s) (b_blockno s) (b_lock s) (b_refcnt s) (b_prev s) (b_next s) x.

(** [struct superblock] (kernel/fs.h) *)
Record superblock := mksuperblock {
  sb_magic : Z;
  sb_size : Z;
  sb_nblocks : Z;
  sb_ninodes : Z;
  sb_nlog : Z;
  sb_logstart : Z;
  sb_inodestart : Z;
  sb_bmapstart : Z;
}.

Definition set_sb_magic (x : Z) (s : superblock) : superblock :=
  mksuperblock x (sb_size s) (sb_nblocks s) (sb_ninodes s) (sb_nlog s) (sb_logstart s) (sb_inodestart s) (sb_bmapstart s).
Definition set_sb_size (x : Z) (s : superblock) : superblock :=
  mksuperblock (sb_magic s) x (sb_nblocks s) (sb_ninodes s) (sb_nlog s) (sb_logstart s) (sb_inodestart s) (sb_bmapstart s).
Definition set_sb_nblocks (x : Z) (s : superblock) : superblock :=
  mksuperblock (sb_magic s) (sb_size s) x (sb_ninodes s) (sb_nlog s) (sb_logstart s) (sb_inodestart s) (sb_bmapstart s).
Definition set_sb_ninodes (x : Z) (s : superblock) : superblock :=
  mksuperblock (sb_magic s) (sb_size s) (sb_nblocks s) x (sb_nlog s) (sb_logstart s) (sb_inodestart s) (sb_bmapstart s).
Definition set_sb_nlog (x : Z) (s : superblock) : superblock :=
  mksuperblock (sb_magic s) (sb_size s) (sb_nblocks s) (sb_ninodes s) x (sb_logstart s) (sb_inodestart s) (sb_bmapstart s).
Definition set_sb_logstart (x : Z) (s : superblock) : superblock :=
  mksuperblock (sb_magic s) (sb_size s) (sb_nblocks s) (sb_ninodes s) (sb_nlog s) x (sb_inodestart s) (sb_bmapstart s).
Definition set_sb_inodestart (x : Z) (s : superblock) : superblock :=
  mksuperblock (sb_magic s) (sb_size s) (sb_nblocks s) (sb_ninodes s) (sb_nlog s) (sb_logstart s) x (sb_bmapstart s).
Definition set_sb_bmapstart (x : Z) (s : superblock) : superblock :=
  mksuperblock (sb_magic s) (sb_size s) (sb_nblocks s) (sb_ninodes s) (sb_nlog s) (sb_logstart s) (sb_inodestart s) x.

(** [struct inode] (kernel/file.h) *)
Record inode := mkinode {
  i_dev : Z;
  i_inum : Z;
  i_ref : Z;
  i_lock : sleeplock;
  i_valid : Z;
  i_type : Z;
  i_major : Z;
  i_minor : Z;
  i_nlink : Z;
  i_size : Z;
  i_addrs : list Z;
}.

Definition set_i_dev (x : Z) (s : inode) : inode :=
  mkinode x (i_inum s) (i_ref s) (i_lock s) (i_valid s) (i_type s) (i_major s) (i_minor s) (i_nlink s) (i_size s) (i_addrs s).
Definition set_i_inum (x : Z) (s : inode) : inode :=
  mkinode (i_dev s) x (i_ref s) (i_lock s) (i_valid s) (i_type s) (i_major s) (i_minor s) (i_nlink s) (i_size s) (i_addrs s).
Definition set_i_ref (x : Z) (s : inode) : inode :=
  mkinode (i_dev s) (i_inum s) x (i_lock s) (i_valid s) (i_type s) (i_major s) (i_minor s) (i_nlink s) (i_size s) (i_addrs s).
Definition set_i_lock (x : sleeplock) (s : inode) : inode :=
  mkinode (i_dev s) (i_inum s) (i_ref s) x (i_valid s) (i_type s) (i_major s) (i_minor s) (i_nlink s) (i_size s) (i_addrs s).
Definition set_i_valid (x : Z) (s : inode) : inode :=
  mkinode (i_dev s) (i_inum s) (i_ref s) (i_lock s) x (i_type s) (i_major s) (i_minor s) (i_nlink s) (i_size s) (i_addrs s).
Definition set_i_type (x : Z) (s : inode) : inode :=
  mkinode (i_dev s) (i_inum s) (i_ref s) (i_lock s) (i_valid s) x (i_major s) (i_minor s) (i_nlink s) (i_size s) (i_addrs s).
Definition set_i_major (x : Z) (s : inode) : inode :=
  mkinode (i_dev s) (i_inum s) (i_ref s) (i_lock s) (i_valid s) (i_type s) x (i_minor s) (i_nlink s) (i_size s) (i_addrs s).
Definition set_i_minor (x : Z) (s : inode) : inode :=
  mkinode (i_dev s) (i_inum s) (i_ref s) (i_lock s) (i_valid s) (i_type s) (i_major s) x (i_nlink s) (i_size s) (i_addrs s).
Definition set_i_nlink (x : Z) (s : inode) : inode :=
  mkinode (i_dev s) (i_inum s) (i_ref s) (i_lock s) (i_valid s) (i_type s) (i_major s) (i_minor s) x (i_size s) (i_addrs s).
Definition set_i_size (x : Z) (s : inode) : inode :=
  mkinode (i_dev s) (i_inum s) (i_ref s) (i_lock s) (i_valid s) (i_type s) (i_major s) (i_minor s) (i_nlink s) x (i_addrs s).
Definition set_i_addrs (x : list Z) (s : inode) : inode :=
  mkinode (i_dev s) (i_inum s) (i_ref s) (i_lock s) (i_valid s) (i_type s) (i_major s) (i_minor s) (i_nlink s) (i_size s) x.

(** The type of an open file (kernel/file.h) *)
Inductive filetype : Type := FD_NONE | FD_PIPE | FD_INODE | FD_DEVICE.

#[export] Instance filetype_eq_dec : EqDecision filetype.
Proof. solve_decision. Defined.

(** [struct file] (kernel/file.h) *)
Record file := mkfile {
  f_type : filetype;
  f_ref : Z;
  f_readable : Z;
  f_writable : Z;
  f_pipe : Z;
  f_ip : option nat;
  f_off : Z;
  f_major : Z;
}.

Definition set_f_type (x : filetype) (s : file) : file :=
  mkfile x (f_ref s) (f_readable s) (f_writable s) (f_pipe s) (f_ip s) (f_off s) (f_major s).
Definition set_f_ref (x : Z) (s : file) : file :=
  mkfile (f_type s) x (f_readable s) (f_writable s) (f_pipe s) (f_ip s) (f_off s) (f_major s).
Definition set_f_readable (x : Z) (s : file) : file :=
  mkfile (f_type s) (f_ref s) x (f_writable s) (f_pipe s) (f_ip s) (f_off s) (f_major s).
Definition set_f_writable (x : Z) (s : file) : file :=
  mkfile (f_type s) (f_ref s) (f_readable s) x (f_pipe s) (f_ip s) (f_off s) (f_major s).
Definition set_f_pipe (x : Z) (s : file) : file :=
  mkfile (f_type s) (f_ref s) (f_readable s) (f_writable s) x (f_ip s) (f_off s) (f_major s).
Definition set_f_ip (x : option nat) (s : file) : file :=
  mkfile (f_type s) (f_ref s) (f_readable s) (f_writable s) (f_pipe s) x (f_off s) (f_major s).
Definition set_f_off (x : Z) (s : file) : file :=
  mkfile (f_type s) (f_ref s) (f_readable s) (f_writable s) (f_pipe s) (f_ip s) x (f_major s).
Definition set_f_major (x : Z) (s : file) : file :=
  mkfile (f_type s) (f_ref s) (f_readable s) (f_writable s) (f_pipe s) (f_ip s) (f_off s) x.

(** [struct pipe] (kernel/pipe.c); its spinlock is [L_pipe] *)
Record pipe := mkpipe {
  pi_data : list Z;
  pi_nread : Z;
  pi_nwrite : Z;
  pi_readopen : Z;
  pi_writeopen : Z;
}.

Definition set_pi_data (x : list Z) (s : pipe) : pipe :=
  mkpipe x (pi_nread s) (pi_nwrite s) (pi_readopen s) (pi_writeopen s).
Definition set_pi_nread (x : Z) (s : pipe) : pipe :=
  mkpipe (pi_data s) x (pi_nwrite s) (pi_readopen s) (pi_writeopen s).
Definition set_pi_nwrite (x : Z) (s : pipe) : pipe :=
  mkpipe (pi_data s) (pi_nread s) x (pi_readopen s) (pi_writeopen s).
Definition set_pi_readopen (x : Z) (s : pipe) : pipe :=
  mkpipe (pi_data s) (pi_nread s) (pi_nwrite s) x (pi_writeopen s).
Definition set_pi_writeopen (x : Z) (s : pipe) : pipe :=
  mkpipe (pi_data s) (pi_nread s) (pi_nwrite s) (pi_readopen s) x.

(** [struct log] with its [struct logheader] (kernel/log.c) *)
Record logstate := mklogstate {
  l_start : Z;
  l_size : Z;
  l_outstanding : Z;
  l_committing : Z;
  l_dev : Z;
  lh_n : Z;
  lh_block : list Z;
}.

Definition set_l_start (x : Z) (s : logstate) : logstate :=
  mklogstate x (l_size s) (l_outstanding s) (l_committing s) (l_dev s) (lh_n s) (lh_block s).
Definition set_l_size (x : Z) (s : logstate) : logstate :=
  mklogstate (l_start s) x (l_outstanding s) (l_committing s) (l_dev s) (lh_n s) (lh_block s).
Definition set_l_outstanding (x : Z) (s : logstate) : logstate :=
  mklogstate (l_start s) (l_size s) x (l_committing s) (l_dev s) (lh_n s) (lh_block s).
Definition set_l_committing (x : Z) (s : logstate) : logstate :=
  mklogstate (l_start s) (l_size s) (l_outstanding s) x (l_dev s) (lh_n s) (lh_block s).
Definition set_l_dev (x : Z) (s : logstate) : logstate :=
  mklogstate (l_start s) (l_size s) (l_outstanding s) (l_committing s) x (lh_n s) (lh_block s).
Definition set_lh_n (x : Z) (s : logstate) : logstate :=
  mklogstate (l_start s) (l_size s) (l_outstanding s) (l_committing s) (l_dev s) x (lh_block s).
Definition set_lh_block (x : list Z) (s : logstate) : logstate :=
  mklogstate (l_start s) (l_size s) (l_outstanding s) (l_committing s) (l_dev s) (lh_n s) x.

(** The console's input buffer [cons] (kernel/console.c) *)
Record console := mkconsole {
  c_buf : list Z;
  c_r : Z;
  c_w : Z;
  c_e : Z;
}.

Definition set_c_buf (x : list Z) (s : console) : console :=
  mkconsole x (c_r s) (c_w s) (c_e s).
Definition set_c_r (x : Z) (s : console) : console :=
  mkconsole (c_buf s) x (c_w s) (c_e s).
Definition set_c_w (x : Z) (s : console) : console :=
  mkconsole (c_buf s) (c_r s) x (c_e s).
Definition set_c_e (x : Z) (s : console) : console :=
  mkconsole (c_buf s) (c_r s) (c_w s) x.

(** The UART's transmit buffer (kernel/uart.c) *)
Record uart := mkuart {
  tx_buf : list Z;
  tx_w : Z;
  tx_r : Z;
}.

Definition set_tx_buf (x : list Z) (s : uart) : uart :=
  mkuart x (tx_w s) (tx_r s).
Definition set_tx_w (x : Z) (s : uart) : uart :=
  mkuart (tx_buf s) x (tx_r s).
Definition set_tx_r (x : Z) (s : uart) : uart :=
  mkuart (tx_buf s) (tx_w s) x.

(** [struct disk] (kernel/virtio_disk.c) *)
Record vdisk := mkvdisk {
  v_desc : Z;  (* the page of the descriptor table *)
  v_avail : Z;
  v_used : Z;
  v_free : list Z;  (* is a descriptor free? *)
  v_used_idx : Z;
  v_info : list (option nat * Z);  (* the buffer and status of a chain *)
  v_ops : list (Z * Z * Z);  (* type, reserved and sector of a request *)
}.

Definition set_v_desc (x : Z) (s : vdisk) : vdisk :=
  mkvdisk x (v_avail s) (v_used s) (v_free s) (v_used_idx s) (v_info s) (v_ops s).
Definition set_v_avail (x : Z) (s : vdisk) : vdisk :=
  mkvdisk (v_desc s) x (v_used s) (v_free s) (v_used_idx s) (v_info s) (v_ops s).
Definition set_v_used (x : Z) (s : vdisk) : vdisk :=
  mkvdisk (v_desc s) (v_avail s) x (v_free s) (v_used_idx s) (v_info s) (v_ops s).
Definition set_v_free (x : list Z) (s : vdisk) : vdisk :=
  mkvdisk (v_desc s) (v_avail s) (v_used s) x (v_used_idx s) (v_info s) (v_ops s).
Definition set_v_used_idx (x : Z) (s : vdisk) : vdisk :=
  mkvdisk (v_desc s) (v_avail s) (v_used s) (v_free s) x (v_info s) (v_ops s).
Definition set_v_info (x : list (option nat * Z)) (s : vdisk) : vdisk :=
  mkvdisk (v_desc s) (v_avail s) (v_used s) (v_free s) (v_used_idx s) x (v_ops s).
Definition set_v_ops (x : list (Z * Z * Z)) (s : vdisk) : vdisk :=
  mkvdisk (v_desc s) (v_avail s) (v_used s) (v_free s) (v_used_idx s) (v_info s) x.

(** ** The kernel *)

(** What the memory manager (kalloc.c, vm.c) works on *)
Record mm := mkmm {
  m_ctl : ctl;  (* hart, interrupts, spinlocks *)
  m_mem : memory;  (* physical memory *)
  m_freelist : Z;  (* kmem.freelist *)
}.

Definition set_m_ctl (x : ctl) (s : mm) : mm :=
  mkmm x (m_mem s) (m_freelist s).
Definition set_m_mem (x : memory) (s : mm) : mm :=
  mkmm (m_ctl s) x (m_freelist s).
Definition set_m_freelist (x : Z) (s : mm) : mm :=
  mkmm (m_ctl s) (m_mem s) x.

(** The process table and its globals (kernel/proc.c) *)
Record ptable := mkptable {
  procs : list proc;  (* proc[] *)
  initproc : option nat;
  nextpid : Z;
}.

Definition set_procs (x : list proc) (s : ptable) : ptable :=
  mkptable x (initproc s) (nextpid s).
Definition set_initproc (x : option nat) (s : ptable) : ptable :=
  mkptable (procs s) x (nextpid s).
Definition set_nextpid (x : Z) (s : ptable) : ptable :=
  mkptable (procs s) (initproc s) x.

(** The file system: caches, tables and the disk *)
Record fsstate := mkfsstate {
  bufs : list buf;  (* bcache.buf[], then bcache.head *)
  klog : logstate;
  sb : superblock;
  inodes : list inode;  (* itable.inode[] *)
  files : list file;  (* ftable.file[] *)
  pipes : gmap Z pipe;  (* pipes by the address of their page *)
  disk : gmap Z (list Z);  (* blocks on the disk *)
  disk_writes : list (Z * list Z);  (* the blocks written so far, newest first *)
}.

Definition set_bufs (x : list buf) (s : fsstate) : fsstate :=
  mkfsstate x (klog s) (sb s) (inodes s) (files s) (pipes s) (disk s) (disk_writes s).
Definition set_klog (x : logstate) (s : fsstate) : fsstate :=
  mkfsstate (bufs s) x (sb s) (inodes s) (files s) (pipes s) (disk s) (disk_writes s).
Definition set_sb (x : superblock) (s : fsstate) : fsstate :=
  mkfsstate (bufs s) (klog s) x (inodes s) (files s) (pipes s) (disk s) (disk_writes s).
Definition set_inodes (x : list inode) (s : fsstate) : fsstate :=
  mkfsstate (bufs s) (klog s) (sb s) x (files s) (pipes s) (disk s) (disk_writes s).
Definition set_files (x : list file) (s : fsstate) : fsstate :=
  mkfsstate (bufs s) (klog s) (sb s) (inodes s) x (pipes s) (disk s) (disk_writes s).
Definition set_pipes (x : gmap Z pipe) (s : fsstate) : fsstate :=
  mkfsstate (bufs s) (klog s) (sb s) (inodes s) (files s) x (disk s) (disk_writes s).
Definition set_disk (x : gmap Z (list Z)) (s : fsstate) : fsstate :=
  mkfsstate (bufs s) (klog s) (sb s) (inodes s) (files s) (pipes s) x (disk_writes s).
Definition set_disk_writes (x : list (Z * list Z)) (s : fsstate) : fsstate :=
  mkfsstate (bufs s) (klog s) (sb s) (inodes s) (files s) (pipes s) (disk s) x.

(** Console, UART and the traffic with the device registers *)
Record devstate := mkdevstate {
  cons : console;
  kuart : uart;
  pr_locking : Z;  (* pr.locking of printf.c *)
  panicked : Z;
  mmio_reads : nat;  (* device register reads so far *)
  mmio_writes : list (Z * Z);  (* device register writes, newest first *)
  vdisk_ : vdisk;
}.

Definition set_cons (x : console) (s : devstate) : devstate :=
  mkdevstate x (kuart s) (pr_locking s) (panicked s) (mmio_reads s) (mmio_writes s) (vdisk_ s).
Definition set_kuart (x : uart) (s : devstate) : devstate :=
  mkdevstate (cons s) x (pr_locking s) (panicked s) (mmio_reads s) (mmio_writes s) (vdisk_ s).
Definition set_pr_locking (x : Z) (s : devstate) : devstate :=
  mkdevstate (cons s) (kuart s) x (panicked s) (mmio_reads s) (mmio_writes s) (vdisk_ s).
Definition set_panicked (x : Z) (s : devstate) : devstate :=
  mkdevstate (cons s) (kuart s) (pr_locking s) x (mmio_reads s) (mmio_writes s) (vdisk_ s).
Definition set_mmio_reads (x : nat) (s : devstate) : devstate :=
  mkdevstate (cons s) (kuart s) (pr_locking s) (panicked s) x (mmio_writes s) (vdisk_ s).
Definition set_mmio_writes (x : list (Z * Z)) (s : devstate) : devstate :=
  mkdevstate (cons s) (kuart s) (pr_locking s) (panicked s) (mmio_reads s) x (vdisk_ s).
Definition set_vdisk_ (x : vdisk) (s : devstate) : devstate :=
  mkdevstate (cons s) (kuart s) (pr_locking s) (panicked s) (mmio_reads s) (mmio_writes s) x.

(** Other globals, and the count of context switches *)
Record globals := mkglobals {
  kernel_pagetable : Z;
  ticks : Z;
  forkret_first : Z;  (* static int first of forkret() *)
  epoch : nat;  (* switches away from the thread so far *)
}.

Definition set_kernel_pagetable (x : Z) (s : globals) : globals :=
  mkglobals x (ticks s) (forkret_first s) (epoch s).
Definition set_ticks (x : Z) (s : globals) : globals :=
  mkglobals (kernel_pagetable s) x (forkret_first s) (epoch s).
Definition set_forkret_first (x : Z) (s : globals) : globals :=
  mkglobals (kernel_pagetable s) (ticks s) x (epoch s).
Definition set_epoch (x : nat) (s : globals) : globals :=
  mkglobals (kernel_pagetable s) (ticks s) (forkret_first s) x.

(** Every global variable of the kernel, memory and device traffic *)
Record kstate := mkkstate {
  k_mm : mm;
  k_regs : regs;
  k_pt : ptable;
  k_fs : fsstate;
  k_dev : devstate;
  k_gl : globals;
}.

Definition set_k_mm (x : mm) (s : kstate) : kstate :=
  mkkstate x (k_regs s) (k_pt s) (k_fs s) (k_dev s) (k_gl s).
Definition set_k_regs (x : regs) (s : kstate) : kstate :=
  mkkstate (k_mm s) x (k_pt s) (k_fs s) (k_dev s) (k_gl s).
Definition set_k_pt (x : ptable) (s : kstate) : kstate :=
  mkkstate (k_mm s) (k_regs s) x (k_fs s) (k_dev s) (k_gl s).
Definition set_k_fs (x : fsstate) (s : kstate) : kstate :=
  mkkstate (k_mm s) (k_regs s) (k_pt s) x (k_dev s) (k_gl s).
Definition set_k_dev (x : devstate) (s : kstate) : kstate :=
  mkkstate (k_mm s) (k_regs s) (k_pt s) (k_fs s) x (k_gl s).
Definition set_k_gl (x : globals) (s : kstate) : kstate :=
  mkkstate (k_mm s) (k_regs s) (k_pt s) (k_fs s) (k_dev s) x.

(** The monad of kernel code. *)
Abbreviation K := (M kstate).

(** Static objects whose address the kernel gives to a device. *)
Inductive kobj : Type := O_bdata (b : nat) | O_ops (i : nat) | O_status (i : nat).

(** What the kernel's own source does not define. *)
Class Env : Type := {
  world : nat -> kstate -> option kstate;
    (* the state in which the n-th switch away from this thread comes back, if it does *)
  mmio : nat -> Z -> Z;          (* the n-th device register read, by address *)
  end_ : Z;                      (* first address after the kernel *)
  etext : Z;
  trampoline : Z;
  uservec : Z;
  userret : Z;
  forkret_addr : Z;
  usertrap_addr : Z;
  kernelvec : Z;
  kaddr : kobj -> Z;             (* the address of a static kernel object *)
  turns : nat
    (* how often a loop that waits for other threads or devices is looked at again *)
}.

(** What the kernel relies on in the linker script: the kernel image lies in RAM
    and the trampoline code fills one page of it. *)
Class LinkerOk {E : Env} : Prop := {
  end_in_ram : KERNBASE < end_ <= PHYSTOP;
  trampoline_page : trampoline mod PGSIZE = 0;
  trampoline_in_kernel : KERNBASE <= trampoline < end_
}.

(** The parts of the state, and the code that runs on one of them. *)
Abbreviation MM := (M mm).

Definition k_ctl (s : kstate) : ctl := m_ctl (k_mm s).
Definition k_mem (s : kstate) : memory := m_mem (k_mm s).

Definition ctl_mm {A} (m : M ctl A) : MM A := lift m_ctl set_m_ctl m.
Definition mem_mm (f : memory -> memory) : MM unit :=
  modify (fun s => set_m_mem (f (m_mem s)) s).

Definition lift_mm {A} (m : MM A) : K A := lift k_mm set_k_mm m.
Definition lift_ctl {A} (m : M ctl A) : K A := lift_mm (ctl_mm m).
Definition lift_mem (f : memory -> memory) : K unit := lift_mm (mem_mm f).

Lemma wp_lift {S T A} (view : T -> S) (upd : S -> T -> T) (m : M S A) Q t :
  wp m (fun a s => Q a (upd s t)) (view t) -> wp (lift view upd m) Q t.
Proof. unfold wp, lift. by destruct (m (view t)). Qed.

(** Objects of the static tables. *)
Definition context0 : context := mkcontext 0 0 (replicate 12 0).
Definition spinlock0 : spinlock := mkspinlock 0 "" None.
Definition sleeplock0 : sleeplock := mksleeplock 0 "" 0.
Definition cpu0 : cpu := mkcpu None context0 0 0.
Definition proc0 : proc :=
  mkproc UNUSED None 0 0 0 None 0 0 0 0 context0 (replicate NOFILE None) None (replicate 16 0).
Definition file0 : file := mkfile FD_NONE 0 0 0 0 None 0 0.
Definition pipe0 : pipe := mkpipe (replicate 512 0) 0 0 0 0.

Definition get_proc (i : nat) (s : kstate) : proc := default proc0 (procs (k_pt s) !! i).
Definition upd_proc (i : nat) (f : proc -> proc) (s : kstate) : kstate :=
  set_k_pt (set_procs (alter f i (procs (k_pt s))) (k_pt s)) s.

Definition getp (i : nat) : K proc := gets (get_proc i).
Definition updp (i : nat) (f : proc -> proc) : K unit := modify (upd_proc i f).

(** A concrete environment: nobody else runs, devices read as zero. *)
Definition env0 : Env := {|
  world := fun _ _ => None; mmio := fun _ _ => 0;
  end_ := 0x80021000; etext := 0x80008000; trampoline := 0x80007000;
  uservec := 0x80007000; userret := 0x80007090;
  forkret_addr := 0x80001a00; usertrap_addr := 0x80002800; kernelvec := 0x80005c00;
  kaddr := fun o => match o with
                    | O_bdata b => 0x80010000 + 0x500 * Z.of_nat b
                    | O_ops i => 0x80020000 + 16 * Z.of_nat i
                    | O_status i => 0x80020100 + 16 * Z.of_nat i
                    end;
  turns := 3
|}.

Lemma env0_ok : @LinkerOk env0.
Proof. by split. Qed.

(** A device register: reads come from the environment, writes are recorded. *)
Definition mmio_read {E : Env} (a : Z) : K Z :=
  n <- gets (fun s => mmio_reads (k_dev s));;
  modify (fun s => set_k_dev (set_mmio_reads (S n) (k_dev s)) s);;
  ret (mmio n a).
Definition mmio_write (a v : Z) : K unit :=
  modify (fun s => set_k_dev (set_mmio_writes ((a, v) :: mmio_writes (k_dev s)) (k_dev s)) s).

(** The n-th switch away from the running kernel thread and back. *)
Definition swtch {E : Env} : K unit :=
  fun s => match world (epoch (k_gl s)) s with
           | Some s' => Ret tt (set_k_gl (set_epoch (S (epoch (k_gl s))) (k_gl s')) s')
           | None => Stop s
           end.
