(* ===== verification/CString.v ===== *)
(** * Memory and string primitives (kernel/string.c)

    The byte loops of string.c on physical memory, and what they compute:
    memset fills exactly its range, memmove is the ideal copy whatever the
    overlap, the comparison functions decide equality of prefixes, and
    safestrcpy always leaves a terminated string inside its buffer. *)

From S2P Require Import Prelude.

(** ** The loops *)

Fixpoint memset_loop (m : memory) (cdst c i : Z) (n : nat) : memory :=
  match n with
  | O => m
  | S n' => memset_loop (store8 m (cdst + i) c) cdst c (i + 1) n'
  end.
Definition memset (m : memory) (dst c n : Z) : memory := memset_loop m dst c 0 (Z.to_nat n).

Fixpoint memcmp_loop (m : memory) (s1 s2 : Z) (n : nat) : Z :=
  match n with
  | O => 0
  | S n' => if negb (load8 m s1 =? load8 m s2) then load8 m s1 - load8 m s2
            else memcmp_loop m (s1 + 1) (s2 + 1) n'
  end.
Definition memcmp (m : memory) (v1 v2 n : Z) : Z := memcmp_loop m v1 v2 (Z.to_nat n).

(** [while(n-- > 0) *--d = *--s;] *)
Fixpoint copy_down (m : memory) (d s : Z) (n : nat) : memory :=
  match n with
  | O => m
  | S n' => copy_down (store8 m (d - 1) (load8 m (s - 1))) (d - 1) (s - 1) n'
  end.

(** [while(n-- > 0) *d++ = *s++;] *)
Fixpoint copy_up (m : memory) (d s : Z) (n : nat) : memory :=
  match n with
  | O => m
  | S n' => copy_up (store8 m d (load8 m s)) (d + 1) (s + 1) n'
  end.

Definition memmove (m : memory) (dst src n : Z) : memory :=
  if n =? 0 then m
  else if (src <? dst) && (dst <? src + n)
       then copy_down m (dst + n) (src + n) (Z.to_nat n)
       else copy_up m dst src (Z.to_nat n).

Definition memcpy (m : memory) (dst src n : Z) : memory := memmove m dst src n.

Fixpoint strncmp_loop (m : memory) (p q : Z) (n : nat) : Z :=
  match n with
  | O => 0
  | S n' => if truthy (load8 m p) && (load8 m p =? load8 m q)
            then strncmp_loop m (p + 1) (q + 1) n'
            else load8 m p - load8 m q
  end.
Definition strncmp (m : memory) (p q n : Z) : Z := strncmp_loop m p q (Z.to_nat n).

(** [while(n-- > 0) *s++ = 0;] *)
Fixpoint zero_fill (m : memory) (s : Z) (n : nat) : memory :=
  match n with
  | O => m
  | S n' => zero_fill (store8 m s 0) (s + 1) n'
  end.

Fixpoint strncpy_loop (m : memory) (s t : Z) (n : nat) : memory :=
  match n with
  | O => m
  | S n' => let c := load8 m t in
            let m' := store8 m s c in
            if c =? 0 then zero_fill m' (s + 1) n' else strncpy_loop m' (s + 1) (t + 1) n'
  end.
Definition strncpy (m : memory) (s t n : Z) : memory := strncpy_loop m s t (Z.to_nat n).

Fixpoint safestrcpy_loop (m : memory) (s t : Z) (n : nat) : memory :=
  match n with
  | O => store8 m s 0
  | S n' => let c := load8 m t in
            let m' := store8 m s c in
            if c =? 0 then store8 m' (s + 1) 0 else safestrcpy_loop m' (s + 1) (t + 1) n'
  end.
Definition safestrcpy (m : memory) (s t n : Z) : memory :=
  if n <=? 0 then m else safestrcpy_loop m s t (Z.to_nat (n - 1)).

(** [strlen] looks at [fuel] bytes at most; [None] when none of them is NUL. *)
Fixpoint strlen_loop (fuel : nat) (m : memory) (s n : Z) : option Z :=
  match fuel with
  | O => None
  | S fuel' => if truthy (load8 m (s + n)) then strlen_loop fuel' m s (n + 1) else Some n
  end.
Definition strlen (fuel : nat) (m : memory) (s : Z) : option Z := strlen_loop fuel m s 0.

(** ** memset *)

Lemma memset_loop_load m d c i n b :
  load8 (memset_loop m d c i n) b =
  if (d + i <=? b) && (b <? d + i + Z.of_nat n) then u8 c else load8 m b.
Proof.
  revert m i. induction n as [|n IH]; intros m i; cbn [memset_loop].
  - destruct (Z.leb_spec (d + i) b), (Z.ltb_spec b (d + i + Z.of_nat 0)); simpl; done || lia.
  - rewrite IH. destruct (Z.eq_dec (d + i) b) as [<-|].
    + rewrite load8_store8_eq.
      destruct (Z.leb_spec (d + (i + 1)) (d + i)), (Z.leb_spec (d + i) (d + i)),
        (Z.ltb_spec (d + i) (d + i + Z.of_nat (S n))); simpl; done || lia.
    + rewrite load8_store8_ne by done.
      destruct (Z.leb_spec (d + (i + 1)) b), (Z.leb_spec (d + i) b),
        (Z.ltb_spec b (d + (i + 1) + Z.of_nat n)), (Z.ltb_spec b (d + i + Z.of_nat (S n)));
        simpl; done || lia.
Qed.

Lemma memset_load m d c n b :
  0 <= n -> load8 (memset m d c n) b =
  if (d <=? b) && (b <? d + n) then u8 c else load8 m b.
Proof.
  intros. unfold memset. rewrite memset_loop_load, Z.add_0_r, Z2Nat.id by done. done.
Qed.

Lemma memset_load_in m d c n b :
  d <= b < d + n -> load8 (memset m d c n) b = u8 c.
Proof.
  intros. rewrite memset_load by lia.
  destruct (Z.leb_spec d b), (Z.ltb_spec b (d + n)); done || lia.
Qed.

Lemma memset_load_out m d c n b :
  0 <= n -> b < d \/ d + n <= b -> load8 (memset m d c n) b = load8 m b.
Proof.
  intros. rewrite memset_load by lia.
  destruct (Z.leb_spec d b), (Z.ltb_spec b (d + n)); done || lia.
Qed.

Lemma memset_ok m d c n : mem_ok m -> mem_ok (memset m d c n).
Proof.
  unfold memset. generalize 0 at 1 as i. revert m. induction (Z.to_nat n) as [|k IH]; intros m i H; simpl; [done|].
  by apply IH, store8_ok.
Qed.

(** ** memmove *)

Lemma copy_up_load m d s n b :
  mem_ok m -> s >= d \/ s + Z.of_nat n <= d ->
  load8 (copy_up m d s n) b =
  if (d <=? b) && (b <? d + Z.of_nat n) then load8 m (s + (b - d)) else load8 m b.
Proof.
  revert m d s. induction n as [|n IH]; intros m d s Hok Hov; cbn [copy_up].
  - destruct (Z.leb_spec d b), (Z.ltb_spec b (d + Z.of_nat 0)); simpl; done || lia.
  - rewrite IH by (auto with xv6; lia).
    destruct (Z.eq_dec d b) as [->|].
    + rewrite load8_store8_eq.
      destruct (Z.leb_spec (b + 1) b), (Z.leb_spec b b), (Z.ltb_spec b (b + Z.of_nat (S n)));
        simpl; try lia.
      rewrite Z.sub_diag, Z.add_0_r. by apply Z.mod_small, mem_ok_at.
    + rewrite (load8_store8_ne _ _ b) by done.
      destruct (Z.leb_spec (d + 1) b), (Z.leb_spec d b),
        (Z.ltb_spec b (d + 1 + Z.of_nat n)), (Z.ltb_spec b (d + Z.of_nat (S n)));
        simpl; try done; try lia.
      rewrite load8_store8_ne by lia. f_equal. lia.
Qed.

Lemma copy_down_load m d s n b :
  mem_ok m -> s <= d ->
  load8 (copy_down m d s n) b =
  if (d - Z.of_nat n <=? b) && (b <? d) then load8 m (s + (b - d)) else load8 m b.
Proof.
  revert m d s. induction n as [|n IH]; intros m d s Hok Hov; cbn [copy_down].
  - destruct (Z.leb_spec (d - Z.of_nat 0) b), (Z.ltb_spec b d); simpl; done || lia.
  - rewrite IH by (auto with xv6; lia).
    destruct (Z.eq_dec (d - 1) b) as [<-|].
    + rewrite load8_store8_eq.
      destruct (Z.leb_spec (d - 1 - Z.of_nat n) (d - 1)), (Z.ltb_spec (d - 1) (d - 1)),
        (Z.leb_spec (d - Z.of_nat (S n)) (d - 1)), (Z.ltb_spec (d - 1) d); simpl; try lia.
      replace (s + (d - 1 - d)) with (s - 1) by lia. by apply Z.mod_small, mem_ok_at.
    + rewrite (load8_store8_ne _ _ b) by done.
      destruct (Z.leb_spec (d - 1 - Z.of_nat n) b), (Z.ltb_spec b (d - 1)),
        (Z.leb_spec (d - Z.of_nat (S n)) b), (Z.ltb_spec b d); simpl; try done; try lia.
      rewrite load8_store8_ne by lia. f_equal. lia.
Qed.

Lemma memmove_load m d s n b :
  mem_ok m -> 0 <= n ->
  load8 (memmove m d s n) b =
  if (d <=? b) && (b <? d + n) then load8 m (s + (b - d)) else load8 m b.
Proof.
  intros Hok Hn. unfold memmove. destruct (Z.eqb_spec n 0) as [->|].
  { destruct (Z.leb_spec d b), (Z.ltb_spec b (d + 0)); simpl; done || lia. }
  destruct (Z.ltb_spec s d), (Z.ltb_spec d (s + n)); simpl.
  2-4: rewrite copy_up_load by (done || lia); by rewrite Z2Nat.id by done.
  rewrite copy_down_load by (done || lia). rewrite Z2Nat.id by done.
  replace (d + n - n) with d by lia. by replace (s + n + (b - (d + n))) with (s + (b - d)) by lia.
Qed.

Lemma memmove_ok m d s n : mem_ok m -> 0 <= n -> mem_ok (memmove m d s n).
Proof.
  intros H Hn. apply mem_ok_intro. intros b. rewrite memmove_load by done.
  case_match; by apply mem_ok_at.
Qed.

#[export] Hint Resolve memset_ok memmove_ok : xv6.

(** memmove copies [n] bytes as if through a temporary buffer: after it, the
    destination holds what the source held before, and nothing else changed. *)
Theorem memmove_correct m dst src n :
  mem_ok m -> 0 <= n ->
  bytes_at (memmove m dst src n) dst (Z.to_nat n) = bytes_at m src (Z.to_nat n) /\
  forall b, b < dst \/ dst + n <= b -> load8 (memmove m dst src n) b = load8 m b.
Proof.
  intros Hok Hn. split.
  - apply map_ext_in. intros i Hi%in_seq. rewrite memmove_load by done.
    destruct (Z.leb_spec dst (dst + Z.of_nat i)), (Z.ltb_spec (dst + Z.of_nat i) (dst + n));
      simpl; try lia. f_equal. lia.
  - intros b Hb. rewrite memmove_load by done.
    destruct (Z.leb_spec dst b), (Z.ltb_spec b (dst + n)); simpl; done || lia.
Qed.

(** ** Comparisons and bounded copies *)

Lemma memcmp_loop_eq m s1 s2 n :
  memcmp_loop m s1 s2 n = 0 <-> bytes_at m s1 n = bytes_at m s2 n.
Proof.
  unfold bytes_at. revert s1 s2. induction n as [|n IH]; intros s1 s2; cbn [memcmp_loop]; [done|].
  cbn [seq map]. rewrite <- seq_shift, !map_map, !Z.add_0_r.
  destruct (Z.eqb_spec (load8 m s1) (load8 m s2)) as [E|E]; simpl.
  - rewrite IH, E. split.
    + intros H. f_equal.
      transitivity (map (λ i : nat, load8 m (s1 + 1 + Z.of_nat i)) (seq 0 n)).
      { apply map_ext. intros. f_equal. lia. }
      rewrite H. apply map_ext. intros. f_equal. lia.
    + intros [= H].
      transitivity (map (λ i : nat, load8 m (s1 + Z.of_nat (S i))) (seq 0 n)).
      { apply map_ext. intros. f_equal. lia. }
      rewrite H. apply map_ext. intros. f_equal. lia.
  - split; [lia|]. congruence.
Qed.

(** The C string at [p], cut at [n] bytes: what strncmp compares. *)
Fixpoint cstr (m : memory) (p : Z) (n : nat) : list Z :=
  match n with
  | O => []
  | S n' => if load8 m p =? 0 then [] else load8 m p :: cstr m (p + 1) n'
  end.

Lemma strncmp_loop_eq m p q n :
  strncmp_loop m p q n = 0 <-> cstr m p n = cstr m q n.
Proof.
  revert p q. induction n as [|n IH]; intros p q; cbn [strncmp_loop cstr]; [done|].
  unfold truthy. destruct (Z.eqb_spec (load8 m p) 0) as [Ep|Ep]; simpl.
  - destruct (Z.eqb_spec (load8 m q) 0) as [Eq|Eq]; split; try done; lia.
  - destruct (Z.eqb_spec (load8 m p) (load8 m q)) as [E|E].
    + destruct (Z.eqb_spec (load8 m q) 0); [lia|]. rewrite IH. split; [by intros ->; rewrite E|congruence].
    + destruct (Z.eqb_spec (load8 m q) 0); split; try done; try lia. congruence.
Qed.

Lemma safestrcpy_loop_spec m s t n :
  exists k, 0 <= k <= Z.of_nat n /\ load8 (safestrcpy_loop m s t n) (s + k) = 0 /\
            forall b, b < s \/ s + Z.of_nat n < b -> load8 (safestrcpy_loop m s t n) b = load8 m b.
Proof.
  revert m s t. induction n as [|n IH]; intros m s t; cbn [safestrcpy_loop].
  - exists 0. rewrite Z.add_0_r, load8_store8_eq. split_and!; try done.
    intros b Hb. apply load8_store8_ne. lia.
  - destruct (Z.eqb_spec (load8 m t) 0) as [E|E].
    + exists 0. rewrite Z.add_0_r, load8_store8_ne, load8_store8_eq, E by lia.
      split_and!; try done; try lia. intros b Hb. rewrite !load8_store8_ne by lia. done.
    + destruct (IH (store8 m s (load8 m t)) (s + 1) (t + 1)) as (k & Hk & Hz & Hout).
      exists (k + 1). split_and!; try lia.
      * by replace (s + (k + 1)) with (s + 1 + k) by lia.
      * intros b Hb. rewrite Hout by lia. apply load8_store8_ne. lia.
Qed.

(** safestrcpy writes inside its [n]-byte buffer only and always leaves a NUL
    in it, whatever the source string. *)
Theorem safestrcpy_terminates_string m s t n :
  0 < n ->
  (exists k, 0 <= k < n /\ load8 (safestrcpy m s t n) (s + k) = 0) /\
  forall b, b < s \/ s + n <= b -> load8 (safestrcpy m s t n) b = load8 m b.
Proof.
  intros Hn. unfold safestrcpy. destruct (Z.leb_spec n 0); [lia|].
  destruct (safestrcpy_loop_spec m s t (Z.to_nat (n - 1))) as (k & Hk & Hz & Hout).
  split; [exists k; split; [lia|done]|]. intros b Hb. apply Hout. lia.
Qed.

Lemma strlen_loop_spec fuel m s n k :
  n <= k < n + Z.of_nat fuel -> load8 m (s + k) = 0 ->
  (forall i, n <= i < k -> load8 m (s + i) <> 0) -> strlen_loop fuel m s n = Some k.
Proof.
  revert n. induction fuel as [|fuel IH]; intros n Hk Hz Hnz; cbn [strlen_loop]; [lia|].
  unfold truthy. destruct (Z.eq_dec n k) as [->|].
  - by rewrite Hz.
  - destruct (Z.eqb_spec (load8 m (s + n)) 0) as [E|E]; simpl.
    + by destruct (Hnz n); [lia|].
    + apply IH; [lia|done|]. intros. apply Hnz. lia.
Qed.

(** From here on the loops are used through their lemmas. *)
#[global] Opaque memset memmove.

Lemma memmove_correct_witness :
  bytes_at (memmove (store8 (store8 ∅ 100 7) 101 8) 101 100 2) 101 2 = [7; 8].
Proof.
  assert (Hm : mem_ok ∅) by (apply mem_ok_intro; intros a; unfold load8; by rewrite lookup_empty).
  destruct (memmove_correct (store8 (store8 ∅ 100 7) 101 8) 101 100 2) as [H _];
    [by apply store8_ok, store8_ok|done|].
  exact H.
Defined.

Lemma safestrcpy_witness :
  (exists k, 0 <= k < 4 /\ load8 (safestrcpy ∅ 16 0 4) (16 + k) = 0) /\
  forall b, b < 16 \/ 16 + 4 <= b -> load8 (safestrcpy ∅ 16 0 4) b = load8 ∅ b.
Proof. apply (safestrcpy_terminates_string ∅ 16 0 4). reflexivity. Defined.
