(* ===== verification/Ulib.v ===== *)
(** * The user library (user/ulib.c)

    User programs run on their own byte memory and talk to the kernel by system
    calls.  [call] has one constructor per system call; what the kernel answers is
    a parameter ([answer], a function of the calls made so far), and the state
    keeps the trace of calls and answers.  The string functions of ulib.c work on
    memory, as in CString.v. *)

From S2P Require Import Prelude Riscv Bytes CString.

(** ** System calls *)

Inductive call : Type :=
| Fork | Exit (status : Z) | Wait | Pipe | Write (fd : Z) (bs : list Z) | Read (fd n : Z) | Close (fd : Z)
| Kill (pid : Z) | Exec (path : list Z) (argv : list (list Z)) | Open (path : list Z) (mode : Z)
| Mknod (path : list Z) (major minor : Z) | Unlink (path : list Z) | Fstat (fd : Z) | Link (old new : list Z)
| Mkdir (path : list Z) | Chdir (path : list Z) | Dup (fd : Z) | Getpid | Sbrk (n : Z) | Sleep (n : Z) | Uptime
(* by number, with the registers: where a pointer is not to a string or buffer of the program *)
| Raw (num : Z) (args : list Z).

(** The value returned, and the bytes stored through the call's pointer argument. *)
Record ans : Type := mkans { a_ret : Z; a_data : list Z }.

Class UEnv : Type := {
  answer : list (call * ans) -> call -> ans;
  (* how far a loop over a string or over input is followed *)
  ufuel : nat
}.

Record ustate : Type := mkustate {
  u_mem : memory;
  u_trace : list (call * ans);
  u_freep : Z  (* the static variable of umalloc.c *)
}.
Definition set_u_mem (m : memory) (s : ustate) : ustate := mkustate m (u_trace s) (u_freep s).
Definition set_u_trace (t : list (call * ans)) (s : ustate) : ustate := mkustate (u_mem s) t (u_freep s).
Definition set_u_freep (p : Z) (s : ustate) : ustate := mkustate (u_mem s) (u_trace s) p.

Abbreviation U := (M ustate).

Section sys.
Context {K : UEnv}.

Definition sys (c : call) : U ans := fun s =>
  let a := answer (u_trace s) c in Ret a (set_u_trace ((c, a) :: u_trace s) s).

Definition umem {A} (f : memory -> A) : U A := gets (fun s => f (u_mem s)).
Definition umod (f : memory -> memory) : U unit := modify (fun s => set_u_mem (f (u_mem s)) s).

(** A function of memory that may run past the fuel. *)
Definition upart {A} (f : memory -> option A) : U A :=
  r <- umem f;; match r with Some a => ret a | None => stop end.

(** The string a call is given a pointer to. *)
Fixpoint cstring (fuel : nat) (m : memory) (p : Z) : option (list Z) :=
  match fuel with
  | O => None
  | S fuel' => if load8 m p =? 0 then Some [] else cons (load8 m p) <$> cstring fuel' m (p + 1)
  end.
Definition ustring (p : Z) : U (list Z) := upart (fun m => cstring ufuel m p).

Definition exit {A} (status : Z) : U A := sys (Exit status);; stop.
Definition write (fd p n : Z) : U Z :=
  bs <- umem (fun m => bytes_at m p (Z.to_nat n));;
  a <- sys (Write fd bs);; ret (a_ret a).
Definition read (fd p n : Z) : U Z :=
  a <- sys (Read fd n);;
  umod (fun m => write_bytes m p (a_data a));;
  ret (a_ret a).
Definition close (fd : Z) : U Z := a <- sys (Close fd);; ret (a_ret a).
Definition open (path mode : Z) : U Z :=
  s <- ustring path;; a <- sys (Open s mode);; ret (a_ret a).
Definition fstat (fd st : Z) : U Z :=
  a <- sys (Fstat fd);;
  umod (fun m => write_bytes m st (a_data a));;
  ret (a_ret a).
Definition sbrk (n : Z) : U Z := a <- sys (Sbrk n);; ret (a_ret a).

(** ** ulib.c *)

Definition main_ (main : U unit) : U unit := main;; exit 0.

Fixpoint strcpy_loop (fuel : nat) (m : memory) (s t : Z) : option memory :=
  match fuel with
  | O => None
  | S fuel' =>
      let c := load8 m t in
      let m' := store8 m s c in
      if negb (c =? 0) then strcpy_loop fuel' m' (s + 1) (t + 1) else Some m'
  end.
Definition strcpy (s t : Z) : U Z :=
  m <- upart (fun m => strcpy_loop ufuel m s t);; umod (fun _ => m);; ret s.

Fixpoint strcmp_loop (fuel : nat) (m : memory) (p q : Z) : option Z :=
  match fuel with
  | O => None
  | S fuel' =>
      if truthy (load8 m p) && (load8 m p =? load8 m q) then strcmp_loop fuel' m (p + 1) (q + 1)
      else Some (load8 m p - load8 m q)
  end.
Definition strcmp (p q : Z) : U Z := upart (fun m => strcmp_loop ufuel m p q).

Definition strlen (s : Z) : U Z := n <- upart (fun m => strlen_loop ufuel m s 0);; ret (u32 n).

Definition memset (dst c n : Z) : U Z := umod (fun m => memset_loop m dst c 0 (Z.to_nat n));; ret dst.

Fixpoint strchr_loop (fuel : nat) (m : memory) (s c : Z) : option Z :=
  match fuel with
  | O => None
  | S fuel' =>
      if truthy (load8 m s) then
        if load8 m s =? c then Some s else strchr_loop fuel' m (s + 1) c
      else Some 0
  end.
Definition strchr (s c : Z) : U Z := upart (fun m => strchr_loop ufuel m s (u8 c)).

(** [for(i=0; i+1 < max; )]: one character per turn. *)
Definition gets_ (c buf max : Z) : U Z :=
  i <- loop (S (Z.to_nat max)) (fun i =>
    if i + 1 <? max then
      cc <- read 0 c 1;;
      if cc <? 1 then ret (inr i)
      else
        ch <- umem (fun m => load8 m c);;
        umod (fun m => store8 m (buf + i) ch);;
        if (ch =? 10) || (ch =? 13) then ret (inr (i + 1)) else ret (inl (i + 1))
    else ret (inr i)) 0;;
  umod (fun m => store8 m (buf + i) 0);;
  ret buf.

Definition stat (n st : Z) : U Z :=
  fd <- open n 0;;
  if fd <? 0 then ret (-1)
  else
    r <- fstat fd st;;
    close fd;;
    ret r.

Fixpoint atoi_loop (fuel : nat) (m : memory) (s n : Z) : option Z :=
  match fuel with
  | O => None
  | S fuel' =>
      if (48 <=? load8 m s) && (load8 m s <=? 57)
      then atoi_loop fuel' m (s + 1) (i32 (n * 10 + load8 m s - 48)) else Some n
  end.
Definition atoi (s : Z) : U Z := upart (fun m => atoi_loop ufuel m s 0).

Definition memmove (vdst vsrc n : Z) : U Z :=
  (if vdst <? vsrc then umod (fun m => copy_up m vdst vsrc (Z.to_nat n))
   else umod (fun m => copy_down m (vdst + n) (vsrc + n) (Z.to_nat n)));;
  ret vdst.

Definition memcmp (s1 s2 n : Z) : U Z := umem (fun m => memcmp_loop m s1 s2 (Z.to_nat n)).

Definition memcpy (dst src n : Z) : U Z := memmove dst src n.

End sys.

(** ** Strings in memory *)

(** The NUL-terminated string [l] at [p]. *)
Definition is_str (m : memory) (p : Z) (l : list Z) : Prop :=
  Forall (fun c => c <> 0) l /\ (forall i, (i < length l)%nat -> load8 m (p + Z.of_nat i) = nth i l 0) /\
  load8 m (p + Z.of_nat (length l)) = 0.

Lemma is_str_nil m p : is_str m p [] <-> load8 m p = 0.
Proof.
  unfold is_str. simpl. rewrite Z.add_0_r. split; [tauto|]. intros H. split_and!; [constructor|lia|done].
Qed.

Lemma is_str_cons m p c l : is_str m p (c :: l) <-> c <> 0 /\ load8 m p = c /\ is_str m (p + 1) l.
Proof.
  unfold is_str. rewrite Forall_cons. split.
  - intros ((Hc & Hl) & Hn & Hz). pose proof (Hn O ltac:(simpl; lia)) as H0. rewrite Z.add_0_r in H0. simpl in H0.
    split_and!; try done.
    + intros i Hi. replace (p + 1 + Z.of_nat i) with (p + Z.of_nat (S i)) by lia. rewrite Hn by (simpl; lia). done.
    + replace (p + 1 + Z.of_nat (length l)) with (p + Z.of_nat (length (c :: l))) by (simpl; lia). done.
  - intros (Hc & H0 & Hl & Hn & Hz). split_and!; try done.
    + intros [|i] Hi; [by rewrite Z.add_0_r|]. replace (p + Z.of_nat (S i)) with (p + 1 + Z.of_nat i) by lia. rewrite Hn by (simpl in Hi; lia). done.
    + replace (p + Z.of_nat (length (c :: l))) with (p + 1 + Z.of_nat (length l)) by (simpl; lia). done.
Qed.

Lemma is_str_hd m p l : is_str m p l -> load8 m p = hd 0 l.
Proof. destruct l as [|c l]; [by rewrite is_str_nil|rewrite is_str_cons; by intros (_ & -> & _)]. Qed.

Lemma bytes_at_eq m p l n : n = length l -> (forall i, (i < length l)%nat -> load8 m (p + Z.of_nat i) = nth i l 0) ->
  bytes_at m p n = l.
Proof.
  intros -> H. apply list_eq. intros i. unfold bytes_at. rewrite list_lookup_fmap. destruct (decide (i < length l)%nat) as [Hi|Hi].
  - rewrite lookup_seq_lt by done. simpl. rewrite H by done. destruct (lookup_lt_is_Some_2 l i Hi) as [x Hx].
    by rewrite (nth_lookup_Some _ _ _ _ Hx).
  - rewrite lookup_seq_ge by lia. by rewrite lookup_ge_None_2 by lia.
Qed.

Section moves.
Context {K : UEnv}.

(** memmove() copies as if through a temporary buffer. *)
Lemma wp_memmove dst src n (Q : Z -> ustate -> Prop) s : mem_ok (u_mem s) -> 0 <= n ->
  (forall m, mem_ok m -> (forall b, load8 m b = if (dst <=? b) && (b <? dst + n) then load8 (u_mem s) (src + (b - dst)) else load8 (u_mem s) b) ->
     Q dst (set_u_mem m s)) -> wp (memmove dst src n) Q s.
Proof.
  intros Hok Hn HQ. unfold memmove. apply wp_bind.
  assert (Hgo : forall m, (forall b, load8 m b = if (dst <=? b) && (b <? dst + n) then load8 (u_mem s) (src + (b - dst)) else load8 (u_mem s) b) ->
    Q dst (set_u_mem m s)).
  { intros m Hm. apply HQ; [|done]. apply mem_ok_intro. intros b. rewrite Hm. case_match; by apply mem_ok_at. }
  destruct (Z.ltb_spec dst src); apply wp_modify, wp_ret, Hgo; intros b.
  - rewrite copy_up_load by (done || lia). by rewrite Z2Nat.id.
  - rewrite copy_down_load by (done || lia). rewrite Z2Nat.id by done.
    replace (dst + n - n) with dst by lia. by replace (src + n + (b - (dst + n))) with (src + (b - dst)) by lia.
Qed.

End moves.
