(* ===== verification/Uprintf.v ===== *)
(** * Formatted output of user programs (user/printf.c)

    One write() system call per character.  A format is the bytes of a string
    literal; the variable arguments are the 64-bit slots that va_arg() reads. *)

From S2P Require Import Prelude Riscv Bytes CString Ulib.

Section uprintf.
Context {K : UEnv}.

Definition putc (fd c : Z) : U unit := sys (Write fd [u8 c]);; ret tt.

Definition digits : list Z := bytes_of_string "0123456789ABCDEF".
Definition digit (d : Z) : Z := default 0 (znth digits d).

(** The do-while loop: the digits, least significant first. *)
Fixpoint int_digits (fuel : nat) (x base : Z) : list Z :=
  match fuel with
  | O => []
  | S fuel' => digit (x mod base) :: (if x / base =? 0 then [] else int_digits fuel' (x / base) base)
  end.

(** The contents of [buf], printed from its end. *)
Definition printint (fd xx base : Z) (sgn : bool) : U unit :=
  let neg := sgn && (xx <? 0) in
  let x := if neg then u32 (- xx) else u32 xx in
  let buf := int_digits 32 x base ++ (if neg then [45] else []) in
  for_each (rev buf) (putc fd).

Fixpoint ptr_digits (n : nat) (x : Z) : list Z :=
  match n with
  | O => []
  | S n' => digit (Z.shiftr x 60) :: ptr_digits n' (u64 (Z.shiftl x 4))
  end.
Definition printptr (fd x : Z) : U unit :=
  putc fd 48;; putc fd 120;; for_each (ptr_digits 16 x) (putc fd).

(** [state] is true after a '%'; a missing argument is undefined in C, here it reads
    as zero. *)
Fixpoint vprintf (fd : Z) (fmt : list Z) (state : bool) (ap : list Z) : U unit :=
  match fmt with
  | [] => ret tt
  | c :: fmt' =>
      if c =? 0 then ret tt
      else if negb state then
        if c =? 37 then vprintf fd fmt' true ap else putc fd c;; vprintf fd fmt' false ap
      else if c =? 100 then printint fd (i32 (hd 0 ap)) 10 true;; vprintf fd fmt' false (tail ap)
      else if c =? 108 then printint fd (i32 (hd 0 ap)) 10 false;; vprintf fd fmt' false (tail ap)
      else if c =? 120 then printint fd (i32 (hd 0 ap)) 16 false;; vprintf fd fmt' false (tail ap)
      else if c =? 112 then printptr fd (u64 (hd 0 ap));; vprintf fd fmt' false (tail ap)
      else if c =? 115 then
        s <- (if hd 0 ap =? 0 then ret (bytes_of_string "(null)") else ustring (hd 0 ap));;
        for_each s (putc fd);;
        vprintf fd fmt' false (tail ap)
      else if c =? 99 then putc fd (hd 0 ap);; vprintf fd fmt' false (tail ap)
      else if c =? 37 then putc fd c;; vprintf fd fmt' false ap
      else putc fd 37;; putc fd c;; vprintf fd fmt' false ap
  end.

Definition fprintf (fd : Z) (fmt : string) (ap : list Z) : U unit := vprintf fd (bytes_of_string fmt) false ap.
Definition printf (fmt : string) (ap : list Z) : U unit := vprintf 1 (bytes_of_string fmt) false ap.

(** A format whose last character is a newline. *)
Definition fprintln (fd : Z) (fmt : string) (ap : list Z) : U unit := vprintf fd (bytes_of_string fmt ++ [10]) false ap.
Definition println (fmt : string) (ap : list Z) : U unit := fprintln 1 fmt ap.

(** Printing returns and leaves memory alone, when every argument is a null pointer
    or points to a string. *)
Definition printable (m : memory) (p : Z) : Prop := p = 0 \/ exists l, is_str m p l /\ (length l < ufuel)%nat.

Definition is_write (x : call * ans) : Prop := exists fd l, fst x = Write fd l.

Definition only_prints (s s' : ustate) : Prop :=
  u_mem s' = u_mem s /\ u_freep s' = u_freep s /\ exists t, u_trace s' = t ++ u_trace s /\ Forall is_write t.

Lemma only_prints_refl s : only_prints s s.
Proof. split_and!; [done|done|by exists []]. Qed.

Lemma only_prints_trans s s1 s2 : only_prints s s1 -> only_prints s1 s2 -> only_prints s s2.
Proof.
  intros (A1 & A2 & t & A3 & A4) (B1 & B2 & t' & B3 & B4). split_and!; [congruence|congruence|]. exists (t' ++ t). split; [by rewrite B3, A3, <- app_assoc|by apply Forall_app].
Qed.

Lemma wp_putc fd c s : wp (putc fd c) (fun _ s' => only_prints s s') s.
Proof. unfold wp. simpl. split_and!; [done|done|]. eexists [_]. split; [done|]. constructor; [by eexists _, _|done]. Qed.

Lemma wp_put_all fd l : forall s, wp (for_each l (putc fd)) (fun _ s' => only_prints s s') s.
Proof.
  induction l as [|c l IH]; intros s; cbn [for_each].
  - apply wp_ret, only_prints_refl.
  - apply wp_bind. eapply wp_mono; [apply wp_putc|]. intros [] s1 H1. eapply wp_mono; [apply IH|]. intros [] s2 H2. by eapply only_prints_trans.
Qed.

Lemma cstring_str m l : forall fuel p, is_str m p l -> (length l < fuel)%nat -> cstring fuel m p = Some l.
Proof.
  induction l as [|c l IH]; intros [|fuel] p Hs Hf; simpl in Hf; try lia; cbn [cstring].
  - apply is_str_nil in Hs. by rewrite Hs.
  - apply is_str_cons in Hs as (Hc & -> & Hs). destruct (Z.eqb_spec c 0); [done|]. by rewrite IH by (done || lia).
Qed.

Lemma wp_vprintf fd fmt : forall st ap s, Forall (printable (u_mem s)) ap ->
  wp (vprintf fd fmt st ap) (fun _ s' => only_prints s s') s.
Proof.
  assert (Hseq : forall (c : U unit) (k : U unit) s, wp c (fun _ s' => only_prints s s') s ->
    (forall s1, only_prints s s1 -> wp k (fun _ s' => only_prints s1 s') s1) -> wp (c;; k) (fun _ s' => only_prints s s') s).
  { intros c k s Hc Hk. apply wp_bind. eapply wp_mono; [exact Hc|]. intros [] s1 H1. eapply wp_mono; [by apply Hk|].
    intros [] s2 H2. by eapply only_prints_trans. }
  induction fmt as [|c fmt IH]; intros st ap s Hap; cbn [vprintf].
  { apply wp_ret, only_prints_refl. }
  assert (Hrec : forall st ap' s1, (forall p, p ∈ ap' -> p ∈ ap) -> only_prints s s1 -> wp (vprintf fd fmt st ap') (fun _ s' => only_prints s1 s') s1).
  { intros st' ap' s1 Hin (Hm & _). apply IH. rewrite Hm, Forall_forall in *. auto. }
  assert (Htl : forall p, p ∈ tail ap -> p ∈ ap) by (destruct ap; [done|intros; by right]).
  destruct (c =? 0); [apply wp_ret, only_prints_refl|].
  destruct (negb st).
  { destruct (c =? 37); [by apply IH|]. apply Hseq; [apply wp_putc|]. intros. by apply Hrec. }
  do 3 (case_match; [apply Hseq; [apply wp_put_all|intros; by apply Hrec]|]). case_match.
  { apply Hseq; [unfold printptr; apply Hseq; [apply wp_putc|]; intros; apply Hseq; [apply wp_putc|]; intros; apply wp_put_all|intros; by apply Hrec]. }
  case_match.
  { assert (Hp : printable (u_mem s) (hd 0 ap)) by (destruct Hap; [by left|done]). apply wp_bind. destruct (Z.eqb_spec (hd 0 ap) 0) as [Hz|Hz].
    - apply wp_ret. apply Hseq; [apply wp_put_all|intros; by apply Hrec].
    - destruct Hp as [|(l & Hl & Hf)]; [done|]. unfold ustring, upart. apply wp_bind, wp_gets. rewrite (cstring_str _ _ _ _ Hl Hf).
      apply wp_ret. apply Hseq; [apply wp_put_all|intros; by apply Hrec]. }
  case_match; [apply Hseq; [apply wp_putc|intros; by apply Hrec]|]. case_match; [apply Hseq; [apply wp_putc|intros; by apply Hrec]|].
  apply Hseq; [apply wp_putc|]. intros s1 Hs1. apply Hseq; [apply wp_putc|]. intros s2 Hs2. apply Hrec; [done|by eapply only_prints_trans].
Qed.

End uprintf.

(** ** What is printed *)

(** The state after the calls [evs], the oldest first, each with its answer. *)
Definition moved (s : ustate) (evs : list (call * ans)) : ustate := set_u_trace (rev evs ++ u_trace s) s.

Lemma moved_nil s : moved s [] = s.
Proof. by destruct s. Qed.

Lemma moved_app s evs evs' : moved (moved s evs) evs' = moved s (evs ++ evs').
Proof. unfold moved, set_u_trace. cbn. by rewrite rev_app_distr, <- app_assoc. Qed.

(** One write() for every byte. *)
Definition says (fd : Z) (bs : list Z) : list call := map (fun c => Write fd [u8 c]) bs.

(** The characters of a format that stand for themselves. *)
Definition literal (fmt : list Z) : Prop := Forall (fun c => c <> 0 /\ c <> 37) fmt.

Section prints.
Context {K : UEnv}.

Lemma put_all_says fd l : forall s, exists evs, map fst evs = says fd l /\ for_each l (putc fd) s = Ret tt (moved s evs).
Proof.
  induction l as [|c l IH]; intros s; [exists []; by rewrite moved_nil|]. set (e := (Write fd [u8 c], answer (u_trace s) (Write fd [u8 c]))).
  destruct (IH (moved s [e])) as (evs & Hev & Hrun). exists (e :: evs). split; [cbn; by f_equal|]. cbn [for_each]. unfold bind at 1.
  change (putc fd c s) with (@Ret ustate unit tt (moved s [e])). cbv iota beta. by rewrite Hrun, moved_app.
Qed.

Lemma vprintf_literal fd rest ap l : literal l -> forall s,
  exists evs, map fst evs = says fd l /\ vprintf fd (l ++ rest) false ap s = vprintf fd rest false ap (moved s evs).
Proof.
  induction 1 as [|c l [Hc0 Hc37] _ IH]; intros s; [exists []; by rewrite moved_nil|]. set (e := (Write fd [u8 c], answer (u_trace s) (Write fd [u8 c]))).
  destruct (IH (moved s [e])) as (evs & Hev & Hrun). exists (e :: evs). split; [cbn; by f_equal|]. cbn [vprintf app].
  destruct (Z.eqb_spec c 0); [done|]. destruct (Z.eqb_spec c 37); [done|]. cbn [negb]. unfold bind at 1.
  change (putc fd c s) with (@Ret ustate unit tt (moved s [e])). cbv iota beta. by rewrite Hrun, moved_app.
Qed.

(** A format without '%' prints itself. *)
Lemma vprintf_plain fd l ap s : literal l -> exists evs, map fst evs = says fd l /\ vprintf fd l false ap s = Ret tt (moved s evs).
Proof. intros Hl. destruct (vprintf_literal fd [] ap l Hl s) as (evs & Hev & Hrun). rewrite app_nil_r in Hrun. by exists evs. Qed.

(** '%s' prints the string that the argument points to. *)
Lemma vprintf_string fd rest p ap l s : p <> 0 -> is_str (u_mem s) p l -> (length l < ufuel)%nat ->
  exists evs, map fst evs = says fd l /\ vprintf fd (37 :: 115 :: rest) false (p :: ap) s = vprintf fd rest false ap (moved s evs).
Proof.
  intros Hp Hl Hf. destruct (put_all_says fd l s) as (evs & Hev & Hrun). exists evs. split; [done|]. cbn. destruct (Z.eqb_spec p 0); [done|].
  unfold bind, ustring, upart, umem, gets. cbn. by rewrite (cstring_str _ _ _ _ Hl Hf); cbn; rewrite Hrun.
Qed.

End prints.
