(* ===== verification/Grep.v ===== *)
(** * grep (user/grep.c)

    The regular-expression matcher on strings in memory, equal to a declarative
    definition of matching, and the loop that reads its input in pieces and
    prints the lines that match. *)

From S2P Require Import Prelude Riscv Bytes CString Ulib.

(** ** The matcher *)

Definition STAR : Z := 42.
Definition DOT : Z := 46.
Definition DOLLAR : Z := 36.
Definition CARET : Z := 94.

Fixpoint matchhere (fuel : nat) (m : memory) (re text : Z) : option bool :=
  match fuel with
  | O => None
  | S fuel' =>
      if load8 m re =? 0 then Some true
      else if load8 m (re + 1) =? STAR then matchstar fuel' m (load8 m re) (re + 2) text
      else if (load8 m re =? DOLLAR) && (load8 m (re + 1) =? 0) then Some (load8 m text =? 0)
      else if negb (load8 m text =? 0) && ((load8 m re =? DOT) || (load8 m re =? load8 m text))
           then matchhere fuel' m (re + 1) (text + 1)
      else Some false
  end
with matchstar (fuel : nat) (m : memory) (c re text : Z) : option bool :=
  match fuel with
  | O => None
  | S fuel' =>
      match matchhere fuel' m re text with
      | None => None
      | Some true => Some true
      | Some false =>
          if negb (load8 m text =? 0) && ((load8 m text =? c) || (c =? DOT))
          then matchstar fuel' m c re (text + 1) else Some false
      end
  end.

(** [do { if(matchhere(re, text)) return 1; } while( *text++ != 0);] *)
Fixpoint match_any (fuel : nat) (m : memory) (re text : Z) : option bool :=
  match fuel with
  | O => None
  | S fuel' =>
      match matchhere fuel' m re text with
      | None => None
      | Some true => Some true
      | Some false => if load8 m text =? 0 then Some false else match_any fuel' m re (text + 1)
      end
  end.

(** C's [match]. *)
Definition match_ (fuel : nat) (m : memory) (re text : Z) : option bool :=
  if load8 m re =? CARET then matchhere fuel m (re + 1) text else match_any fuel m re text.

(** ** What it means to match *)

(** A pattern: single characters, starred characters and the end of the line; '.'
    stands for any character. *)
Inductive item : Type := One (c : Z) | Many (c : Z) | End_.

Fixpoint items (r : list Z) : list item :=
  match r with
  | [] => []
  | c :: r' =>
      match r' with
      | [] => if c =? DOLLAR then [End_] else [One c]
      | d :: r'' => if d =? STAR then Many c :: items r'' else One c :: items r'
      end
  end.

Definition fits (c x : Z) : Prop := c = DOT \/ c = x.

Inductive sat : list item -> list Z -> Prop :=
| sat_nil t : sat [] t
| sat_end r : sat (End_ :: r) []
| sat_one c r x t : fits c x -> sat r t -> sat (One c :: r) (x :: t)
| sat_many c r xs t : Forall (fits c) xs -> sat r t -> sat (Many c :: r) (xs ++ t).

(** The pattern matches somewhere in the line, or at its start after '^'. *)
Definition matches (r t : list Z) : Prop :=
  match r with
  | c :: r' => if c =? CARET then sat (items r') t else exists pre suf, t = pre ++ suf /\ sat (items r) suf
  | [] => True
  end.

Lemma sat_many_unfold c r t : sat (Many c :: r) t <-> sat r t \/ exists x t', t = x :: t' /\ fits c x /\ sat (Many c :: r) t'.
Proof.
  split.
  - intros H. inversion H as [| | |? ? xs t0 Hf Hs]; subst. destruct xs as [|x xs]; [by left|]. right.
    apply Forall_cons in Hf as [Hx Hf]. exists x, (xs ++ t0). split_and!; [done|done|by constructor].
  - intros [H|(x & t' & -> & Hx & H)]; [by apply (sat_many c r [] t)|]. inversion H as [| | |? ? xs t0 Hf Hs]; subst.
    apply (sat_many c r (x :: xs) t0); [by constructor|done].
Qed.

Section matcher.
Context (m : memory).

(** With fuel for the two strings the matcher answers, and the answer is right. *)
Lemma matcher_spec fuel : (forall r t re text, is_str m re r -> is_str m text t -> (length r + length t < fuel)%nat ->
    exists b, matchhere fuel m re text = Some b /\ (b = true <-> sat (items r) t)) /\
  (forall c r t re text, is_str m re r -> is_str m text t -> (length r + length t + 1 < fuel)%nat ->
    exists b, matchstar fuel m c re text = Some b /\ (b = true <-> sat (Many c :: items r) t)).
Proof.
  induction fuel as [|fuel [IHh IHs]]; [split; intros; lia|]. split.
  - intros r t re text Hr Ht Hf. cbn [matchhere]. pose proof (is_str_hd _ _ _ Ht) as Hth. destruct r as [|c r].
    { apply is_str_nil in Hr. rewrite Hr. exists true. split; [done|]. split; [constructor|done]. }
    apply is_str_cons in Hr as (Hc & Hrc & Hr). rewrite Hrc. destruct (Z.eqb_spec c 0); [done|].
    pose proof (is_str_hd _ _ _ Hr) as Hrh. rewrite Hrh, Hth. destruct r as [|d r]; cbn [hd items].
    + change (0 =? STAR) with false. cbn [Z.eqb]. rewrite andb_true_r. destruct (Z.eqb_spec c DOLLAR) as [->|Hd].
      * eexists. split; [done|]. rewrite Z.eqb_eq. destruct t as [|x t]; simpl; [split; [constructor|done]|].
        apply is_str_cons in Ht as (Hx & _). split; [done|]. intros H; inversion H.
      * destruct t as [|x t]; simpl; [exists false; split; [done|]; split; [done|intros H; inversion H]|].
        apply is_str_cons in Ht as (Hx & _ & Ht). destruct (Z.eqb_spec x 0); [done|]. simpl.
        destruct (Z.eqb_spec c DOT), (Z.eqb_spec c x); simpl.
        4: { exists false. split; [done|]. split; [done|]. intros H. inversion H as [| |? ? ? ? [?|?]|]; subst; done. }
        all: destruct (IHh [] t (re + 1) (text + 1)) as (b & -> & Hb); [done|done|simpl in *; lia|]; exists b; split; [done|]; rewrite Hb;
          split; [intros; constructor; [unfold fits; auto|done]|intros _; constructor].
    + apply is_str_cons in Hr as (Hdn & Hd & Hr'). destruct (Z.eqb_spec d STAR) as [->|Hds].
      * replace (re + 2) with (re + 1 + 1) by lia. apply IHs; [done|done|simpl in *; lia].
      * destruct (Z.eqb_spec d 0); [done|]. rewrite andb_false_r.
        assert (Hr : is_str m (re + 1) (d :: r)) by (by apply is_str_cons).
        destruct t as [|x t]; simpl; [exists false; split; [done|]; split; [done|intros H; inversion H]|].
        apply is_str_cons in Ht as (Hx & _ & Ht). destruct (Z.eqb_spec x 0); [done|]. simpl.
        destruct (Z.eqb_spec c DOT), (Z.eqb_spec c x); simpl.
        4: { exists false. split; [done|]. split; [done|]. intros H. inversion H as [| |? ? ? ? [?|?]|]; subst; done. }
        all: destruct (IHh (d :: r) t (re + 1) (text + 1)) as (b & -> & Hb); [done|done|simpl in *; lia|]; exists b; split; [done|]; rewrite Hb;
          split; [intros; constructor; [unfold fits; auto|done]|intros H; by inversion H].
  - intros c r t re text Hr Ht Hf. cbn [matchstar].
    destruct (IHh r t re text) as (b & -> & Hb); [done|done|lia|]. setoid_rewrite (sat_many_unfold c (items r) t). destruct b.
    { exists true. split; [done|]. split; [|done]. intros _. left. by apply Hb. }
    assert (Hno : ~ sat (items r) t) by (intros H; by apply Hb in H). pose proof (is_str_hd _ _ _ Ht) as ->.
    destruct t as [|x t]; simpl.
    { exists false. split; [done|]. split; [done|]. intros [H|(x & t' & ? & _)]; [by apply Hno in H|done]. }
    apply is_str_cons in Ht as (Hx & _ & Ht). destruct (Z.eqb_spec x 0); [done|]. simpl.
    destruct (Z.eqb_spec x c), (Z.eqb_spec c DOT); simpl.
    4: { exists false. split; [done|]. split; [done|]. intros [H|(x' & t' & [= <- <-] & [?|?] & _)]; [by apply Hno in H|done|congruence]. }
    all: destruct (IHs c r t re (text + 1)) as (b & -> & Hb'); [done|done|simpl in *; lia|]; exists b; split; [done|]; rewrite Hb';
      split; [intros H; right; exists x, t; unfold fits; auto|intros [H|(x' & t' & [= <- <-] & _ & H)]; [by apply Hno in H|done]].
Qed.

Lemma match_any_spec fuel r : forall t re text, is_str m re r -> is_str m text t -> (length r + length t + 1 < fuel)%nat ->
  exists b, match_any fuel m re text = Some b /\ (b = true <-> exists pre suf, t = pre ++ suf /\ sat (items r) suf).
Proof.
  induction fuel as [|fuel IH]; intros t re text Hr Ht Hf; [lia|]. cbn [match_any].
  destruct (proj1 (matcher_spec fuel) r t re text Hr Ht) as (b & -> & Hb); [lia|]. destruct b.
  { exists true. split; [done|]. split; [|done]. intros _. exists [], t. split; [done|by apply Hb]. }
  assert (Hno : ~ sat (items r) t) by (intros H; by apply Hb in H). pose proof (is_str_hd _ _ _ Ht) as ->. destruct t as [|x t]; simpl.
  - exists false. split; [done|]. split; [done|]. intros (pre & suf & H & Hs). symmetry in H. apply app_eq_nil in H as [-> ->]. done.
  - apply is_str_cons in Ht as (Hx & _ & Ht). destruct (Z.eqb_spec x 0); [done|].
    destruct (IH t re (text + 1)) as (b & -> & Hb'); [done|done|simpl in *; lia|]. exists b. split; [done|]. rewrite Hb'. split.
    + intros (pre & suf & -> & Hs). by exists (x :: pre), suf.
    + intros (pre & suf & H & Hs). destruct pre as [|y pre]; simpl in H; [by subst|]. injection H as -> ->. by exists pre, suf.
Qed.

Lemma match_answers fuel r t re text : is_str m re r -> is_str m text t -> (length r + length t + 1 < fuel)%nat ->
  exists b, match_ fuel m re text = Some b /\ (b = true <-> matches r t).
Proof.
  intros Hr Ht Hf. unfold match_. pose proof (is_str_hd _ _ _ Hr) as ->. destruct r as [|c r]; simpl.
  - destruct (match_any_spec fuel [] t re text Hr Ht Hf) as (b & Hm & Hb). exists b. split; [done|]. rewrite Hb. split; [done|].
    intros _. exists [], t. split; [done|constructor].
  - destruct (Z.eqb_spec c CARET) as [->|Hc].
    + apply is_str_cons in Hr as (_ & _ & Hr). apply (proj1 (matcher_spec fuel)); [done|done|simpl in *; lia].
    + exact (match_any_spec fuel (c :: r) t re text Hr Ht Hf).
Qed.

End matcher.

(** C36. grep's matcher terminates on every pattern and line, and answers 1 exactly
    when the pattern ('^', '$', '.', '*' and literal characters) matches the line. *)
Theorem match_decides m fuel r t re text : is_str m re r -> is_str m text t -> (length r + length t + 1 < fuel)%nat ->
  exists b, match_ fuel m re text = Some b /\ (b = true <-> matches r t).
Proof. apply match_answers. Qed.

Definition bytes (s : string) : list Z := bytes_of_string s.
Definition put_str (m : memory) (p : Z) (l : list Z) : memory := write_bytes m p (l ++ [0]).

Lemma match_decides_witness :
  let m := put_str (put_str ∅ 100 (bytes "^a.*c$")) 200 (bytes "abbc") in
  (exists b, match_ 20 m 100 200 = Some b /\ (b = true <-> matches (bytes "^a.*c$") (bytes "abbc"))) /\ match_ 20 m 100 200 = Some true.
Proof.
  set (m := put_str _ _ _). split; [|by vm_compute].
  apply (match_decides m 20 (bytes "^a.*c$") (bytes "abbc") 100 200).
  - split_and!; [by repeat constructor| |by vm_compute]. intros i Hi. by do 6 (destruct i as [|i]; [by vm_compute|]); simpl in Hi; lia.
  - split_and!; [by repeat constructor| |by vm_compute]. intros i Hi. by do 4 (destruct i as [|i]; [by vm_compute|]); simpl in Hi; lia.
  - vm_compute. lia.
Defined.

(** ** A reference matcher *)

Definition fitsb (c x : Z) : bool := (c =? DOT) || (c =? x).

Fixpoint satb (r : list item) (t : list Z) : bool :=
  match r with
  | [] => true
  | End_ :: _ => match t with [] => true | _ => false end
  | One c :: r' => match t with [] => false | x :: t' => fitsb c x && satb r' t' end
  | Many c :: r' =>
      (fix star t := satb r' t || match t with [] => false | x :: t' => fitsb c x && star t' end) t
  end.

Fixpoint satb_any (r : list item) (t : list Z) : bool :=
  satb r t || match t with [] => false | _ :: t' => satb_any r t' end.

Definition matchesb (r t : list Z) : bool :=
  match r with
  | c :: r' => if c =? CARET then satb (items r') t else satb_any (items r) t
  | [] => true
  end.

Lemma fitsb_true c x : fitsb c x = true <-> fits c x.
Proof. unfold fitsb, fits. by rewrite orb_true_iff, !Z.eqb_eq. Qed.

Lemma satb_true r t : satb r t = true <-> sat r t.
Proof.
  revert t. induction r as [|[c|c|] r IH]; intros t; simpl.
  - split; [constructor|done].
  - destruct t as [|x t]; [split; [done|intros H; inversion H]|]. rewrite andb_true_iff, fitsb_true, IH.
    split; [intros [? ?]; by constructor|intros H; by inversion H].
  - induction t as [|x t IHt]; rewrite sat_many_unfold, orb_true_iff, IH.
    + split; [intros [?|?]; [by left|done]|intros [?|(? & ? & ? & _)]; [by left|done]].
    + rewrite andb_true_iff, fitsb_true. rewrite IHt. split.
      * intros [?|[? ?]]; [by left|right; by exists x, t].
      * intros [?|(x' & t' & [= <- <-] & ? & ?)]; [by left|by right].
  - destruct t as [|x t]; split; try done; [constructor|intros H; inversion H].
Qed.

Lemma satb_any_true r t : satb_any r t = true <-> exists pre suf, t = pre ++ suf /\ sat r suf.
Proof.
  induction t as [|x t IH]; simpl; rewrite orb_true_iff, satb_true.
  - split.
    + intros [H|H]; [by exists [], []|done].
    + intros (pre & suf & H & Hs). symmetry in H. apply app_eq_nil in H as [-> ->]. by left.
  - rewrite IH. split.
    + intros [H|(pre & suf & -> & H)]; [by exists [], (x :: t)|by exists (x :: pre), suf].
    + intros ([|y pre] & suf & H & Hs); simpl in H; [subst; by left|]. injection H as -> ->. right. by exists pre, suf.
Qed.

Lemma matchesb_true r t : matchesb r t = true <-> matches r t.
Proof.
  destruct r as [|c r]; cbn [matchesb matches]; [done|]. destruct (c =? CARET); [apply satb_true|apply satb_any_true].
Qed.

(** ** The loop over the input *)

(** The complete lines of some input, and what follows the last newline. *)
Definition NEWLINE : Z := 10.
Fixpoint lines (l : list Z) : list (list Z) * list Z :=
  match l with
  | [] => ([], [])
  | c :: l' =>
      let ls := fst (lines l') in
      let rest := snd (lines l') in
      if c =? NEWLINE then ([] :: ls, rest)
      else match ls with
           | [] => ([], c :: rest)
           | x :: ls' => ((c :: x) :: ls', rest)
           end
  end.

Lemma lines_line ln l : NEWLINE ∉ ln -> lines (ln ++ NEWLINE :: l) = (ln :: fst (lines l), snd (lines l)).
Proof.
  induction ln as [|c ln IH]; intros H; [done|]. apply not_elem_of_cons in H as [Hc H]. cbn [app lines].
  destruct (Z.eqb_spec c NEWLINE); [done|]. by rewrite IH.
Qed.

Lemma lines_none l : NEWLINE ∉ l -> lines l = ([], l).
Proof.
  induction l as [|c l IH]; intros H; [done|]. apply not_elem_of_cons in H as [Hc H]. cbn [lines].
  destruct (Z.eqb_spec c NEWLINE); [done|]. by rewrite IH.
Qed.

Lemma lines_app l l' : lines (l ++ l') =
  (fst (lines l) ++ fst (lines (snd (lines l) ++ l')), snd (lines (snd (lines l) ++ l'))).
Proof.
  induction l as [|c l IH]; [simpl; by destruct (lines l')|]. cbn [app lines]. rewrite IH. cbn [fst snd].
  destruct (c =? NEWLINE) eqn:Hc; [done|]. destruct (fst (lines l)) as [|x ls]; [|done].
  cbn [app fst snd lines]. rewrite Hc. by destruct (fst (lines (snd (lines l) ++ l'))).
Qed.

Lemma lines_rest_none l : NEWLINE ∉ snd (lines l).
Proof.
  induction l as [|c l IH]; [apply not_elem_of_nil|]. cbn [lines]. destruct (Z.eqb_spec c NEWLINE); [done|].
  destruct (fst (lines l)); [|done]. apply not_elem_of_cons. done.
Qed.

Section grep.
Context {K : UEnv} (buf : Z).

(** A turn of the loop over the lines of the buffer. *)
Definition grep_line (pattern p : Z) : U (Z + Z) :=
  q <- strchr p NEWLINE;;
  if q =? 0 then ret (inr p)
  else
    umod (fun m => store8 m q 0);;
    b <- upart (fun m => match_ ufuel m pattern p);;
    when b
      (umod (fun m => store8 m q NEWLINE);;
       write 1 p (q + 1 - p);; ret tt);;
    ret (inl (q + 1)).
Definition grep_lines (pattern p : Z) : U Z := loop (S ufuel) (grep_line pattern) p.

(** A turn of the loop over the input; [m] bytes are left over in the buffer. *)
Definition grep_read (pattern fd m : Z) : U (Z + unit) :=
  n <- read fd (buf + m) (1024 - m - 1);;
  if 0 <? n then
    umod (fun mem => store8 mem (buf + (m + n)) 0);;
    p <- grep_lines pattern buf;;
    if 0 <? m + n then
      memmove buf p (m + n - (p - buf));; ret (inl (m + n - (p - buf)))
    else ret (inl (m + n))
  else ret (inr tt).
Definition grep (pattern fd : Z) : U unit := loop (S ufuel) (grep_read pattern fd) 0.

(** *** What the calls of a program read and print *)

Definition read_by (fd : Z) (e : call * ans) : list Z :=
  match fst e with Read fd' _ => if fd' =? fd then a_data (snd e) else [] | _ => [] end.
Definition written_by (fd : Z) (e : call * ans) : list Z :=
  match fst e with Write fd' bs => if fd' =? fd then bs else [] | _ => [] end.
(** All that was read from, or written to, a descriptor; traces are newest first. *)
Definition input (fd : Z) (t : list (call * ans)) : list Z := concat (map (read_by fd) (rev t)).
Definition output (fd : Z) (t : list (call * ans)) : list Z := concat (map (written_by fd) (rev t)).

Lemma input_cons fd e t : input fd (e :: t) = input fd t ++ read_by fd e.
Proof. unfold input. simpl. rewrite map_app, concat_app. simpl. by rewrite app_nil_r. Qed.
Lemma output_cons fd e t : output fd (e :: t) = output fd t ++ written_by fd e.
Proof. unfold output. simpl. rewrite map_app, concat_app. simpl. by rewrite app_nil_r. Qed.

(** Descriptor [fd] delivers the bytes [l], in pieces the kernel chooses, and then
    end of file. *)
Definition delivers (fd : Z) (l : list Z) : Prop := forall t k n, input fd t = take k l -> 0 < n ->
  exists j, a_ret (answer t (Read fd n)) = Z.of_nat j /\ a_data (answer t (Read fd n)) = take j (drop k l) /\
    (j <= length (drop k l))%nat /\ Z.of_nat j <= n /\ (j = 0%nat <-> drop k l = []).

(** What grep prints for some lines. *)
Definition report (r : list Z) (ls : list (list Z)) : list Z :=
  concat (map (fun ln => if matchesb r ln then ln ++ [NEWLINE] else []) ls).

Lemma report_app r ls ls' : report r (ls ++ ls') = report r ls ++ report r ls'.
Proof. unfold report. by rewrite map_app, concat_app. Qed.

End grep.

(** *** Strings *)

Lemma is_str_frame m m' p l : is_str m p l -> (forall a, p <= a <= p + Z.of_nat (length l) -> load8 m' a = load8 m a) -> is_str m' p l.
Proof.
  intros (H1 & H2 & H3) H. split_and!; [done| |by rewrite H by lia]. intros i Hi. rewrite H by lia. by apply H2.
Qed.

Lemma strchr_loop_spec m c l : c <> 0 -> forall fuel p, is_str m p l -> (length l < fuel)%nat ->
  (c ∉ l /\ strchr_loop fuel m p c = Some 0) \/
  exists ln l', l = ln ++ c :: l' /\ c ∉ ln /\ strchr_loop fuel m p c = Some (p + Z.of_nat (length ln)).
Proof.
  intros Hc. induction l as [|x l IH]; intros [|fuel] p Hs Hf; simpl in Hf; try lia; cbn [strchr_loop].
  - apply is_str_nil in Hs. rewrite Hs. left. split; [apply not_elem_of_nil|done].
  - apply is_str_cons in Hs as (Hx & -> & Hs). unfold truthy. destruct (Z.eqb_spec x 0); [done|]. simpl.
    destruct (Z.eqb_spec x c) as [->|Hne].
    + right. exists [], l. split_and!; [done|apply not_elem_of_nil|simpl; f_equal; lia].
    + destruct (IH fuel (p + 1) Hs ltac:(lia)) as [[H1 H2]|(ln & l' & -> & H1 & H2)].
      * left. split; [by apply not_elem_of_cons|done].
      * right. exists (x :: ln), l'. split_and!; [done|by apply not_elem_of_cons|rewrite H2; simpl; f_equal; lia].
Qed.

Lemma is_str_split m p ln c l' : is_str m p (ln ++ c :: l') ->
  Forall (fun c => c <> 0) ln /\ (forall i, (i < length ln)%nat -> load8 m (p + Z.of_nat i) = nth i ln 0) /\
  load8 m (p + Z.of_nat (length ln)) = c /\ is_str m (p + Z.of_nat (length ln) + 1) l'.
Proof.
  revert p. induction ln as [|x ln IH]; intros p H; cbn [app] in H; apply is_str_cons in H as (Hx & Hl & H).
  - simpl. rewrite Z.add_0_r. split_and!; [constructor|simpl; lia|done|done].
  - destruct (IH _ H) as (H1 & H2 & H3 & H4). simpl length. replace (p + Z.of_nat (S (length ln))) with (p + 1 + Z.of_nat (length ln)) by lia.
    split_and!; [by constructor| |done|done]. intros [|i] Hi; [by rewrite Z.add_0_r|].
    replace (p + Z.of_nat (S i)) with (p + 1 + Z.of_nat i) by lia. apply H2. simpl in Hi. lia.
Qed.

(** *** The loops *)

Section grep_spec.
Context {K : UEnv} (buf pattern fd : Z) (r : list Z).
Context (Hbuf : 0 < buf) (Hdisj : pattern + Z.of_nat (length r) < buf \/ buf + 1024 <= pattern).
Context (Hfuel : (length r + 1025 < ufuel)%nat).

(** The pattern is in place and memory holds bytes. *)
Definition ready (s : ustate) : Prop := mem_ok (u_mem s) /\ is_str (u_mem s) pattern r.

Lemma ready_mem m' s : mem_ok m' -> (forall a, a < buf \/ buf + 1024 <= a -> load8 m' a = load8 (u_mem s) a) ->
  ready s -> ready (set_u_mem m' s).
Proof.
  intros Hok Hout [_ Hp]. split; [done|]. eapply is_str_frame; [exact Hp|]. intros a Ha. apply Hout. lia.
Qed.

Lemma ready_store a v s : buf <= a < buf + 1024 -> ready s -> ready (set_u_mem (store8 (u_mem s) a v) s).
Proof.
  intros Ha Hr. apply ready_mem; [apply store8_ok, Hr| |done]. intros b Hb. apply load8_store8_ne. lia.
Qed.

Lemma ready_trace t s : ready s -> ready (set_u_trace t s).
Proof. done. Qed.

Lemma wp_upart {A} (f : memory -> option A) a (Q : A -> ustate -> Prop) s : f (u_mem s) = Some a -> Q a s -> wp (upart f) Q s.
Proof. intros Hf HQ. apply wp_bind, wp_gets. by rewrite Hf. Qed.

(** One pass over the buffer prints the lines that match. *)
Lemma grep_lines_spec n : forall cur p s, (length cur < n)%nat -> is_str (u_mem s) p cur ->
  buf <= p -> p + Z.of_nat (length cur) < buf + 1024 -> ready s ->
  wp (loop n (grep_line pattern) p)
    (fun p' s' => p' = p + Z.of_nat (length cur) - Z.of_nat (length (snd (lines cur))) /\ buf <= p' /\
       is_str (u_mem s') p' (snd (lines cur)) /\ ready s' /\ input fd (u_trace s') = input fd (u_trace s) /\
       output 1 (u_trace s') = output 1 (u_trace s) ++ report r (fst (lines cur))) s.
Proof.
  induction n as [|n IH]; intros cur p s Hn Hs Hp Hlen Hr; [lia|]. cbn [loop]. apply wp_bind. unfold grep_line at 1, strchr. apply wp_bind.
  destruct (strchr_loop_spec (u_mem s) NEWLINE cur ltac:(done) ufuel p Hs) as [[Hno Hc]|(ln & cur' & -> & Hno & Hc)]; [lia| |].
  - eapply wp_upart; [exact Hc|]. apply wp_ret. rewrite (lines_none _ Hno). simpl. apply wp_ret.
    split_and!; try done; [lia|unfold report; simpl; by rewrite app_nil_r].
  - eapply wp_upart; [exact Hc|]. set (q := p + Z.of_nat (length ln)) in *. rewrite length_app in Hlen, Hn. simpl in Hlen, Hn.
    destruct (Z.eqb_spec q 0); [lia|]. apply wp_bind, wp_modify.
    destruct (is_str_split _ _ _ _ _ Hs) as (L1 & L2 & L3 & L4). fold q in L3, L4.
    set (s1 := set_u_mem (store8 (u_mem s) q 0) s). assert (Hr1 : ready s1) by (apply ready_store; [lia|done]).
    assert (Hln : is_str (u_mem s1) p ln).
    { split_and!; [done| |]; simpl; [intros i Hi; rewrite load8_store8_ne by lia; by apply L2|].
      fold q. rewrite load8_store8_eq. done. }
    destruct (match_answers (u_mem s1) ufuel r ln pattern p (proj2 Hr1) Hln) as (b & Hb & Hbm); [lia|].
    apply wp_bind. eapply wp_upart; [exact Hb|].
    assert (Hbm' : b = matchesb r ln).
    { apply eq_iff_eq_true. by rewrite Hbm, matchesb_true. }
    rewrite (lines_line _ _ Hno). cbn [fst snd]. assert (Hrep : report r (ln :: fst (lines cur')) =
      (if b then ln ++ [NEWLINE] else []) ++ report r (fst (lines cur'))) by (unfold report; simpl; by rewrite <- Hbm').
    rewrite Hrep. apply wp_bind.
    assert (Hnext : forall s2, is_str (u_mem s2) (q + 1) cur' -> ready s2 -> input fd (u_trace s2) = input fd (u_trace s) ->
      output 1 (u_trace s2) = output 1 (u_trace s) ++ (if b then ln ++ [NEWLINE] else []) ->
      wp (loop n (grep_line pattern) (q + 1)) (fun p' s' => p' = p + Z.of_nat (length (ln ++ NEWLINE :: cur')) - Z.of_nat (length (snd (lines cur'))) /\ buf <= p' /\
        is_str (u_mem s') p' (snd (lines cur')) /\ ready s' /\ input fd (u_trace s') = input fd (u_trace s) /\
        output 1 (u_trace s') = output 1 (u_trace s) ++ (if b then ln ++ [NEWLINE] else []) ++ report r (fst (lines cur'))) s2).
    { intros s2 A1 A2 A3 A4. eapply wp_mono; [apply (IH cur' (q + 1) s2); [lia|done|lia|lia|done]|].
      intros p' s' (B1 & B2 & B3 & B4 & B5 & B6). split_and!; [|done|done|done|by rewrite B5|by rewrite B6, A4, <- app_assoc].
      rewrite B1, length_app. simpl. lia. }
    destruct b; unfold when.
    + apply wp_bind, wp_modify. apply wp_bind. unfold write. apply wp_bind, wp_gets. apply wp_bind.
      set (s2 := set_u_mem _ s1). assert (Hs2 : forall a, load8 (u_mem s2) a = load8 (u_mem s) a).
      { intros a. unfold s2. simpl. destruct (Z.eq_dec q a) as [<-|]; [by rewrite load8_store8_eq, L3|]. by rewrite !load8_store8_ne. }
      assert (Hbs : bytes_at (u_mem s2) p (Z.to_nat (q + 1 - p)) = ln ++ [NEWLINE]).
      { apply (bytes_at_eq _ _ (ln ++ [NEWLINE])); [rewrite length_app; simpl; lia|]. intros i Hi. rewrite Hs2. rewrite length_app in Hi. simpl in Hi.
        destruct (decide (i < length ln)%nat); [rewrite app_nth1 by done; by apply L2|].
        rewrite app_nth2 by lia. replace i with (length ln) by lia. rewrite Nat.sub_diag. done. }
      rewrite Hbs. unfold sys. cbn. apply wp_ret. apply wp_ret. apply wp_ret.
      apply Hnext; simpl; [| |by rewrite input_cons, app_nil_r|by rewrite output_cons].
      * eapply is_str_frame; [exact L4|]. intros a Ha. apply Hs2.
      * apply ready_trace, ready_store; [lia|done].
    + apply wp_ret. apply wp_ret. apply Hnext; [|done|done|by rewrite app_nil_r].
      eapply is_str_frame; [exact L4|]. intros a Ha. simpl. apply load8_store8_ne. lia.
Qed.

(** The input: no NUL, no line of more than 1022 bytes. *)
Context (l : list Z) (Hbytes : Forall (fun c => 0 < c < 256) l) (Hdel : delivers fd l).
Context (Hlines : forall k, (length (snd (lines (take k l))) < 1023)%nat) (Hlen : (length l < ufuel)%nat).

(** After [k] bytes of the input: what is left over is at the start of the buffer. *)
Record at_byte (out : list Z) (k : nat) (m : Z) (s : ustate) : Prop := {
  ab_k : (k <= length l)%nat;
  ab_in : input fd (u_trace s) = take k l;
  ab_m : m = Z.of_nat (length (snd (lines (take k l))));
  ab_buf : forall i, (i < length (snd (lines (take k l))))%nat -> load8 (u_mem s) (buf + Z.of_nat i) = nth i (snd (lines (take k l))) 0;
  ab_ready : ready s;
  ab_out : output 1 (u_trace s) = out ++ report r (fst (lines (take k l)))
}.

Lemma lines_Forall (P : Z -> Prop) x : Forall P x -> Forall P (snd (lines x)).
Proof.
  induction 1 as [|c x Hc _ IH]; [constructor|]. cbn [lines]. case_match; [done|]. destruct (fst (lines x)); [by constructor|done].
Qed.

(** What a read of [d] after the left-over [rest] gives. *)
Lemma read_piece rest d s : (forall i, (i < length rest)%nat -> load8 (u_mem s) (buf + Z.of_nat i) = nth i rest 0) ->
  Forall (fun c => 0 < c < 256) (rest ++ d) -> (length rest + length d < 1024)%nat -> ready s ->
  let m := store8 (write_bytes (u_mem s) (buf + Z.of_nat (length rest)) d) (buf + (Z.of_nat (length rest) + Z.of_nat (length d))) 0 in
  is_str m buf (rest ++ d) /\ ready (set_u_mem m s).
Proof.
  intros Hrest Hf Hl Hr m. split.
  - split_and!.
    + eapply Forall_impl; [exact Hf|]. simpl. lia.
    + intros i Hi. unfold m. rewrite length_app in Hi. rewrite load8_store8_ne by lia.
      destruct (decide (i < length rest)%nat) as [Hlt|Hge]; [rewrite write_bytes_out, app_nth1 by lia; by apply Hrest|].
      rewrite app_nth2 by lia. replace (buf + Z.of_nat i) with (buf + Z.of_nat (length rest) + Z.of_nat (i - length rest)) by lia.
      rewrite write_bytes_load by lia. apply Z.mod_small. apply Forall_app in Hf as [_ Hf].
      pose proof (proj1 (Forall_nth _ 0 d) Hf (i - length rest)%nat ltac:(lia)). simpl in *. lia.
    + unfold m. rewrite length_app. replace (buf + (Z.of_nat (length rest) + Z.of_nat (length d))) with (buf + Z.of_nat (length rest + length d)) by lia.
      by rewrite load8_store8_eq.
  - apply ready_mem; [apply store8_ok, write_bytes_ok, Hr| |done]. intros a Ha. unfold m. rewrite load8_store8_ne by lia.
    apply write_bytes_out. lia.
Qed.

Lemma grep_read_spec out n : forall k m s, (length l - k < n)%nat -> at_byte out k m s ->
  wp (loop n (grep_read buf pattern fd) m) (fun _ s' => output 1 (u_trace s') = out ++ report r (fst (lines l)) /\
    input fd (u_trace s') = l) s.
Proof.
  induction n as [|n IH]; intros k m s Hn [B1 B2 B3 B4 B5 B6]; [lia|]. set (rest := snd (lines (take k l))) in *.
  pose proof (Hlines k) as Hrl. fold rest in Hrl. cbn [loop]. apply wp_bind. unfold grep_read at 1, read. apply wp_bind, wp_bind.
  unfold sys. unfold wp at 1. apply wp_bind, wp_modify, wp_ret. cbn [u_trace set_u_trace u_mem set_u_mem].
  destruct (Hdel (u_trace s) k (1024 - m - 1) B2 ltac:(lia)) as (j & J1 & J2 & J3 & J4 & J5). rewrite J1, J2.
  set (a := answer (u_trace s) (Read fd (1024 - m - 1))) in *.
  assert (Hin : input fd ((Read fd (1024 - m - 1), a) :: u_trace s) = take (k + j) l).
  { rewrite input_cons, B2. unfold read_by. cbn [fst snd]. rewrite Z.eqb_refl, J2. apply take_take_drop. }
  rewrite length_drop in J3. destruct (Z.ltb_spec 0 (Z.of_nat j)) as [Hj|Hj].
  - set (d := take j (drop k l)) in *. assert (Hdl : length d = j) by (unfold d; rewrite length_take, length_drop; lia).
    assert (Hfl : Forall (fun c => 0 < c < 256) (rest ++ d)).
    { apply Forall_app. split; [apply lines_Forall|]; unfold d; by repeat (apply Forall_take || apply Forall_drop). }
    set (s0 := set_u_trace ((Read fd (1024 - m - 1), a) :: u_trace s) s).
    destruct (read_piece rest d s0 B4 Hfl ltac:(lia) B5) as [Hstr Hrdy]. rewrite Hdl, <- B3 in Hstr, Hrdy.
    apply wp_bind, wp_modify. cbn [u_mem set_u_mem]. apply wp_bind. unfold grep_lines.
    assert (Hcl : length (rest ++ d) = (length rest + j)%nat) by (by rewrite length_app, Hdl).
    set (s1 := mkustate (store8 (write_bytes (u_mem s) (buf + m) d) (buf + (m + Z.of_nat j)) 0) (u_trace s0) (u_freep s)).
    eapply wp_mono; [apply (grep_lines_spec _ (rest ++ d) buf s1); [lia|exact Hstr|lia|lia|exact Hrdy]|].
    intros p s2 (C1 & C2 & C3 & C4 & C5 & C6). destruct (Z.ltb_spec 0 (m + Z.of_nat j)); [|lia].
    assert (Hla : lines (take (k + j) l) = (fst (lines (take k l)) ++ fst (lines (rest ++ d)), snd (lines (rest ++ d)))).
    { rewrite <- take_take_drop. fold d. apply lines_app. }
    set (rest' := snd (lines (rest ++ d))) in *. pose proof (Hlines (k + j)) as Hrl'. rewrite Hla in Hrl'. cbn [snd] in Hrl'.
    replace (m + Z.of_nat j - (p - buf)) with (Z.of_nat (length rest')) by lia.
    apply wp_bind, wp_memmove; [apply C4|lia|]. intros mem Hmok Hmem. apply wp_ret, (IH (k + j)%nat); [lia|]. split.
    + lia.
    + cbn [u_trace set_u_mem]. rewrite C5. exact Hin.
    + by rewrite Hla.
    + intros i Hi. rewrite Hla in *. cbn [snd u_mem set_u_mem] in *. fold rest' in Hi |- *. rewrite Hmem.
      destruct (Z.leb_spec buf (buf + Z.of_nat i)), (Z.ltb_spec (buf + Z.of_nat i) (buf + Z.of_nat (length rest'))); try lia. simpl.
      replace (p + (buf + Z.of_nat i - buf)) with (p + Z.of_nat i) by lia. by apply C3.
    + apply ready_mem; [done| |done]. intros b Hb. rewrite Hmem.
      destruct (Z.leb_spec buf b), (Z.ltb_spec b (buf + Z.of_nat (length rest'))); try done. lia.
    + cbn [u_trace set_u_mem]. rewrite C6, Hla. cbn [fst u_trace s1 s0]. unfold s0. cbn [u_trace set_u_trace].
      rewrite output_cons, app_nil_r, B6, <- app_assoc, report_app. done.
  - apply wp_ret, wp_ret. cbn [u_trace set_u_mem set_u_trace]. assert (Hd : drop k l = []) by (apply J5; lia).
    assert (Hk : take k l = l) by (apply take_ge; apply (f_equal length) in Hd; rewrite length_drop in Hd; simpl in Hd; lia).
    rewrite Hk in B6. split; [by rewrite output_cons, app_nil_r|]. rewrite Hin. replace j with 0%nat by lia. by rewrite Nat.add_0_r.
Qed.

End grep_spec.

(** C27. grep() prints exactly the complete lines of its input that match the
    pattern, in order, however the kernel cuts the input into reads: it returns,
    having read the whole input, for every input without NUL bytes whose lines fit
    its buffer.  A last line without a newline is not printed. *)
Theorem grep_reports {K : UEnv} buf pattern fd r l s : 0 < buf ->
  (pattern + Z.of_nat (length r) < buf \/ buf + 1024 <= pattern) -> (length r + 1025 < ufuel)%nat ->
  Forall (fun c => 0 < c < 256) l -> delivers fd l ->
  (forall k, (length (snd (lines (take k l))) < 1023)%nat) -> (length l < ufuel)%nat ->
  mem_ok (u_mem s) -> is_str (u_mem s) pattern r -> input fd (u_trace s) = [] ->
  wp (grep buf pattern fd) (fun _ s' => input fd (u_trace s') = l /\
    output 1 (u_trace s') = output 1 (u_trace s) ++ report r (fst (lines l))) s.
Proof.
  intros Hbuf Hdisj Hf Hb Hd Hl Hlen Hok Hp Hin. unfold grep. eapply wp_mono.
  - apply (grep_read_spec buf pattern fd r Hbuf Hdisj Hf l Hb Hd Hl Hlen (output 1 (u_trace s)) _ 0 0); [lia|].
    split; simpl; try done; try lia. unfold report. simpl. by rewrite app_nil_r.
  - intros [] s' [H1 H2]. done.
Qed.

(** A kernel that delivers a file three bytes at a time. *)
Definition file_env (l : list Z) : UEnv := {|
  answer := fun t c => match c with
    | Read fd n => let rest := drop (length (input fd t)) l in
                   let j := Nat.min (Z.to_nat n) (Nat.min 3 (length rest)) in mkans (Z.of_nat j) (take j rest)
    | Write _ bs => mkans (Z.of_nat (length bs)) []
    | _ => mkans 0 []
    end;
  ufuel := 1100
|}.

Lemma file_env_delivers fd l : @delivers (file_env l) fd l.
Proof.
  intros t k n Ht Hn.
  assert (Hr : drop (length (input fd t)) l = drop k l).
  { rewrite Ht, length_take. destruct (decide (k <= length l)%nat); [by rewrite Nat.min_l|].
    rewrite Nat.min_r by lia. rewrite !drop_ge by lia. done. }
  exists (Nat.min (Z.to_nat n) (Nat.min 3 (length (drop k l)))). cbn [answer file_env a_ret a_data]. rewrite Hr.
  split_and!; [done|done|lia|lia|]. split; [intros Hj; apply nil_length_inv; lia|intros ->; simpl; lia].
Qed.

Definition grep_input : list Z := bytes "one" ++ [10] ++ bytes "two" ++ [10] ++ bytes "three" ++ [10] ++ bytes "to".
Definition grep_state : ustate := mkustate (put_str ∅ 100 (bytes "^t.*o")) [] 0.

Lemma grep_reports_witness : wp (@grep (file_env grep_input) 0x1000 100 0) (fun _ s' =>
  output 1 (u_trace s') = bytes "two" ++ [10]) grep_state.
Proof.
  eapply wp_mono.
  - apply (@grep_reports (file_env grep_input) 0x1000 100 0 (bytes "^t.*o") grep_input grep_state).
    + lia.
    + left. vm_compute. reflexivity.
    + simpl. lia.
    + apply Forall_forall. intros c Hc. apply list_elem_of_In in Hc.
      assert (Hb : forallb (fun c => (0 <? c) && (c <? 256)) grep_input = true) by (by vm_compute).
      rewrite forallb_forall in Hb. apply Hb, andb_prop in Hc as [? ?]. lia.
    + apply file_env_delivers.
    + intros k. destruct (decide (k < 17)%nat) as [Hk|Hk]; [by do 17 (destruct k as [|k]; [vm_compute; lia|]); lia|].
      rewrite take_ge by (simpl; lia). vm_compute. lia.
    + simpl. lia.
    + unfold grep_state, put_str. cbn [u_mem]. apply write_bytes_ok, mem_ok_intro. intros a. unfold load8. by rewrite lookup_empty.
    + split_and!; [by repeat constructor| |by vm_compute]. intros i Hi. by do 5 (destruct i as [|i]; [by vm_compute|]); simpl in Hi; lia.
    + reflexivity.
  - intros [] s' [_ H]. rewrite H. by vm_compute.
Defined.

(** A line that fills the buffer ends the search: with 1023 bytes pending, read() is
    asked for none and answers 0, as at the end of the file.  The second line
    matches and is not printed. *)
Example grep_long_line :
  match @grep (file_env (repeat 97 1023 ++ [10] ++ bytes "to" ++ [10])) 0x1000 100 0 grep_state with
  | Ret _ s' => output 1 (u_trace s') = [] /\ fst (hd (Getpid, mkans 0 []) (u_trace s')) = Read 0 0
  | _ => False
  end.
Proof. vm_compute. done. Qed.
