(* ===== verification/Sh.v ===== *)
(** * The shell (user/sh.c)

    The parser reads the line buffer from a pointer [*ps] up to its end [es]: a
    state monad on the pointer, whose panics are the shell's panic().  A parsed
    command keeps the addresses of its words in the line, as the C structures do;
    the structures themselves come from malloc() and are values of [cmd].
    parseexec() fills the argument arrays of its execcmd while redirections are
    already wrapped around it: the redirections are kept in a list until the
    arguments are complete.  runcmd() and main() run on the system calls of
    Ulib.v; the answer to fork() decides which of the two processes is followed. *)

From S2P Require Import Prelude Riscv Bytes CString Ulib Uprintf.

Definition O_RDONLY : Z := 0x000.
Definition O_WRONLY : Z := 0x001.
Definition O_RDWR : Z := 0x002.
Definition O_CREATE : Z := 0x200.
Definition O_TRUNC : Z := 0x400.

Definition MAXARGS : Z := 10.

Inductive cmd : Type :=
| EXEC (argv : list (Z * Z))                        (* argv[i], eargv[i] *)
| REDIR (c : cmd) (file efile mode fd : Z)
| PIPE (left right : cmd)
| LIST (left right : cmd)
| BACK (c : cmd).

(** ** Tokens *)

Definition whitespace : list Z := [32; 9; 13; 10; 11].
Definition symbols : list Z := bytes_of_string "<|>&;()".

(** [strchr] of a character of the line in a literal. *)
Definition inset (set : list Z) (c : Z) : bool := existsb (Z.eqb c) set.

(** The parser's state is [*ps]. *)
Abbreviation P := (M Z).

Section parser.
Context (m : memory) (es : Z).

(** [while(s < es && f( *s)) s++;] *)
Fixpoint skip_while (f : Z -> bool) (n : nat) (s : Z) : Z :=
  match n with
  | O => s
  | S n' => if f (load8 m s) then skip_while f n' (s + 1) else s
  end.
Definition skip (f : Z -> bool) (s : Z) : Z := skip_while f (Z.to_nat (es - s)) s.

Definition gettoken : P (Z * Z * Z) := fun ps =>
  let s := skip (inset whitespace) ps in
  let q := s in
  let c := load8 m s in
  let '(ret, s) :=
    if c =? 0 then (c, s)
    else if inset [124; 40; 41; 59; 38; 60] c then (c, s + 1)                  (* | ( ) ; & < *)
    else if c =? 62 then if load8 m (s + 1) =? 62 then (43, s + 2) else (c, s + 1)   (* > *)
    else (97, skip (fun c => negb (inset whitespace c) && negb (inset symbols c)) s) in
  let eq := s in
  Ret (ret, q, eq) (skip (inset whitespace) s).

Definition peek (toks : list Z) : P bool := fun ps =>
  let s := skip (inset whitespace) ps in
  Ret (truthy (load8 m s) && inset toks (load8 m s)) s.

(** ** The parser *)

(** A redirection: file, efile, mode, fd. *)
Definition redir : Type := Z * Z * Z * Z.
Definition wrap (c : cmd) (rs : list redir) : cmd :=
  fold_left (fun c '(file, efile, mode, fd) => REDIR c file efile mode fd) rs c.

(** A turn of the loop of parseredirs(). *)
Definition redir_turn (rs : list redir) : P (list redir + list redir) :=
  b <- peek [60; 62];;
  if (b : bool) then
    let* (tok, _, _) := gettoken in
    let* (tok', q, eq) := gettoken in
    if negb (tok' =? 97) then panic "missing file for redirection"
    else if tok =? 60 then ret (inl (rs ++ [(q, eq, O_RDONLY, 0)]))
    else if tok =? 62 then ret (inl (rs ++ [(q, eq, Z.lor (Z.lor O_WRONLY O_CREATE) O_TRUNC, 1)]))
    else if tok =? 43 then ret (inl (rs ++ [(q, eq, Z.lor O_WRONLY O_CREATE, 1)]))
    else ret (inl rs)
  else ret (inr rs).

(** The redirections that follow, in order. *)
Definition parseredirs_list (fuel : nat) : P (list redir) := loop fuel redir_turn [].
Definition parseredirs (fuel : nat) (c : cmd) : P cmd := rs <- parseredirs_list fuel;; ret (wrap c rs).

(** A turn of the loop over the arguments. *)
Definition arg_turn (fuel : nat) '((argv, rs) : list (Z * Z) * list redir) :
    P (list (Z * Z) * list redir + list (Z * Z) * list redir) :=
  b <- peek [124; 41; 38; 59];;
  if (b : bool) then ret (inr (argv, rs))
  else
    let* (tok, q, eq) := gettoken in
    if tok =? 0 then ret (inr (argv, rs))
    else if negb (tok =? 97) then panic "syntax"
    else if MAXARGS <=? Z.of_nat (length argv) + 1 then panic "too many args"
    else
      rs' <- parseredirs_list fuel;;
      ret (inl (argv ++ [(q, eq)], rs ++ rs')).
Definition parseargs (fuel : nat) (rs : list redir) : P (list (Z * Z) * list redir) := loop fuel (arg_turn fuel) ([], rs).

(** A turn of the loop over '&'. *)
Definition back_turn (c : cmd) : P (cmd + cmd) :=
  b <- peek [38];;
  if (b : bool) then gettoken;; ret (inl (BACK c)) else ret (inr c).
Definition parseback (fuel : nat) (c : cmd) : P cmd := loop fuel back_turn c.

Fixpoint parseline (fuel : nat) : P cmd :=
  match fuel with
  | O => stop
  | S fuel' =>
      c <- parsepipe fuel';;
      c <- parseback fuel' c;;
      b <- peek [59];;
      if (b : bool) then
        gettoken;;
        r <- parseline fuel';;
        ret (LIST c r)
      else ret c
  end
with parsepipe (fuel : nat) : P cmd :=
  match fuel with
  | O => stop
  | S fuel' =>
      c <- parseexec fuel';;
      b <- peek [124];;
      if (b : bool) then
        gettoken;;
        r <- parsepipe fuel';;
        ret (PIPE c r)
      else ret c
  end
with parseexec (fuel : nat) : P cmd :=
  match fuel with
  | O => stop
  | S fuel' =>
      b <- peek [40];;
      if (b : bool) then parseblock fuel'
      else
        rs <- parseredirs_list fuel';;
        let* (argv, rs) := parseargs fuel' rs in
        ret (wrap (EXEC argv) rs)
  end
with parseblock (fuel : nat) : P cmd :=
  match fuel with
  | O => stop
  | S fuel' =>
      b <- peek [40];;
      if negb b then panic "parseblock"
      else
        gettoken;;
        c <- parseline fuel';;
        b <- peek [41];;
        if negb b then panic "syntax - missing )"
        else
          gettoken;;
          parseredirs fuel' c
  end.

End parser.

(** NUL-terminates the words of a command. *)
Fixpoint nulterminate (c : cmd) (m : memory) : memory :=
  match c with
  | EXEC argv => fold_left (fun m '(_, eq) => store8 m eq 0) argv m
  | REDIR c _ efile _ _ => store8 (nulterminate c m) efile 0
  | PIPE l r => nulterminate r (nulterminate l m)
  | LIST l r => nulterminate r (nulterminate l m)
  | BACK c => nulterminate c m
  end.

(** The recursion of the parser is at most four deep per character. *)
Definition parse_fuel (s es : Z) : nat := 4 * Z.to_nat (es - s) + 5.

(** ** The shell *)

Section shell.
Context {K : UEnv}.

(** panic(): a message on standard error and exit(1). *)
Definition sh_panic {A} (s : string) : U A := fprintln 2 s [];; exit 1.

Definition parsecmd (s : Z) : U cmd :=
  n <- strlen s;;
  let es := s + n in
  m <- umem (fun m => m);;
  match parseline m es (parse_fuel s es) s with
  | Ret c s' =>
      let s' := skip m es (inset whitespace) s' in    (* peek(&s, es, "") *)
      if negb (s' =? es) then
        fprintln 2 "leftovers: %s" [s'];; sh_panic "syntax"
      else
        umod (nulterminate c);;
        ret c
  | Panic msg _ => sh_panic msg
  | Stop _ => stop
  end.

Definition fork1 : U Z :=
  a <- sys Fork;;
  if a_ret a =? -1 then sh_panic "fork" else ret (a_ret a).

(** A successful exec() does not return. *)
Definition exec (path : Z) (argv : list Z) : U Z :=
  p <- ustring path;;
  args <- foldr (fun a k => x <- ustring a;; l <- k;; ret (x :: l)) (ret []) argv;;
  a <- sys (Exec p args);;
  if a_ret a <? 0 then ret (a_ret a) else stop.

Definition wait : U Z := a <- sys Wait;; ret (a_ret a).
Definition dup (fd : Z) : U Z := a <- sys (Dup fd);; ret (a_ret a).
(** The result, and the two descriptors stored. *)
Definition pipe : U (Z * Z * Z) :=
  a <- sys Pipe;; ret (a_ret a, i32 (rd 4 (a_data a) 0), i32 (rd 4 (a_data a) 4)).

Fixpoint runcmd (c : cmd) : U unit :=
  match c with
  | EXEC [] => exit 1
  | EXEC (((arg0, _) :: _) as argv) =>
      exec arg0 (map fst argv);;
      fprintln 2 "exec %s failed" [arg0];;
      exit 0
  | REDIR c file _ mode fd =>
      close fd;;
      r <- open file mode;;
      if r <? 0 then fprintln 2 "open %s failed" [file];; exit 1
      else runcmd c;; exit 0
  | LIST l r =>
      pid <- fork1;;
      when (pid =? 0) (runcmd l);;
      wait;;
      runcmd r;;
      exit 0
  | PIPE l r =>
      let* (e, p0, p1) := pipe in
      if e <? 0 then sh_panic "pipe"
      else
        pid <- fork1;;
        when (pid =? 0) (close 1;; dup p1;; close p0;; close p1;; runcmd l);;
        pid <- fork1;;
        when (pid =? 0) (close 0;; dup p0;; close p0;; close p1;; runcmd r);;
        close p0;; close p1;; wait;; wait;;
        exit 0
  | BACK c =>
      pid <- fork1;;
      when (pid =? 0) (runcmd c);;
      exit 0
  end.

(** [ch] is the address of the local character of gets(). *)
Definition getcmd (ch buf nbuf : Z) : U Z :=
  sys (Write 2 (bytes_of_string "$ "));;
  memset buf 0 nbuf;;
  gets_ ch buf nbuf;;
  c <- umem (fun m => load8 m buf);;
  if c =? 0 then ret (-1) else ret 0.

(** A turn of the loop over the commands. *)
Definition sh_turn (ch buf : Z) : U (unit + unit) :=
  r <- getcmd ch buf 100;;
  if r <? 0 then ret (inr tt)
  else
    cd <- umem (fun m => (load8 m buf =? 99) && (load8 m (buf + 1) =? 100) && (load8 m (buf + 2) =? 32));;
    if (cd : bool) then
      n <- strlen buf;;
      umod (fun m => store8 m (buf + n - 1) 0);;
      p <- ustring (buf + 3);;
      a <- sys (Chdir p);;
      when (a_ret a <? 0) (fprintln 2 "cannot cd %s" [buf + 3]);;
      ret (inl tt)
    else
      pid <- fork1;;
      when (pid =? 0) (c <- parsecmd buf;; runcmd c);;
      wait;;
      ret (inl tt).

Definition main (ch buf : Z) : U unit :=
  loop (S ufuel) (fun _ =>
    a <- sys (Open (bytes_of_string "console") O_RDWR);;
    if a_ret a <? 0 then ret (inr tt)
    else if 3 <=? a_ret a then close (a_ret a);; ret (inr tt)
    else ret (inl tt)) tt;;
  loop (S ufuel) (fun _ => sh_turn ch buf) tt;;
  exit 0.

End shell.
