(* ===== verification/ShSpec.v ===== *)
(** * The shell's parser

    The parser terminates on every line, and it reads back every command printed
    as tokens: pipes, lists, background commands, blocks and redirections. *)

From S2P Require Import Prelude Riscv Bytes CString Ulib Uprintf Sh.

(** ** Text from a pointer to the end of the line *)

Fixpoint drop_while (f : Z -> bool) (l : list Z) : list Z :=
  match l with
  | [] => []
  | c :: l' => if f c then drop_while f l' else l
  end.
Fixpoint take_while (f : Z -> bool) (l : list Z) : list Z :=
  match l with
  | [] => []
  | c :: l' => if f c then c :: take_while f l' else []
  end.

Lemma take_drop_while f l : take_while f l ++ drop_while f l = l.
Proof. induction l as [|c l IH]; simpl; [done|]. destruct (f c); simpl; by rewrite ?IH. Qed.

Lemma drop_while_length f l : (length (drop_while f l) <= length l)%nat.
Proof. induction l as [|c l IH]; simpl; [done|]. destruct (f c); simpl; lia. Qed.

Lemma drop_while_hd f l c l' : drop_while f l = c :: l' -> f c = false.
Proof. induction l as [|d l IH]; simpl; [done|]. destruct (f d) eqn:Hd; [done|]. by intros [= <- _]. Qed.

Section text.
Context (m : memory) (es : Z).

(** The line from [p] on. *)
Definition text (p : Z) (t : list Z) : Prop := is_str m p t /\ p + Z.of_nat (length t) = es.

Lemma text_cons p c t : text p (c :: t) <-> c <> 0 /\ load8 m p = c /\ text (p + 1) t.
Proof.
  unfold text. rewrite is_str_cons. cbn [length]. rewrite Nat2Z.inj_succ. split.
  - intros ((H1 & H2 & H3) & H4). split; [done|]. split; [done|]. split; [done|lia].
  - intros (H1 & H2 & H3 & H4). split; [done|lia].
Qed.

Lemma text_hd p t : text p t -> load8 m p = hd 0 t.
Proof. intros [H _]. by apply is_str_hd. Qed.

Lemma text_app p t t' : text p (t ++ t') -> text (p + Z.of_nat (length t)) t'.
Proof.
  revert p. induction t as [|c t IH]; intros p H; simpl; [by rewrite Z.add_0_r|]. apply text_cons in H as (_ & _ & H).
  apply IH in H. by replace (p + Z.of_nat (S (length t))) with (p + 1 + Z.of_nat (length t)) by lia.
Qed.

Lemma skip_text f p t : text p t ->
  skip m es f p = p + Z.of_nat (length (take_while f t)) /\ text (skip m es f p) (drop_while f t).
Proof.
  intros Ht. assert (Hs : skip m es f p = p + Z.of_nat (length (take_while f t))).
  { unfold skip. replace (Z.to_nat (es - p)) with (length t) by (destruct Ht; lia). clear - Ht. revert p Ht.
    induction t as [|c t IH]; intros p Ht; simpl; [lia|]. apply text_cons in Ht as (_ & -> & Ht). destruct (f c); simpl; [|lia].
    rewrite IH by done. lia. }
  split; [done|]. rewrite Hs. apply text_app. by rewrite take_drop_while.
Qed.

(** ** Tokens *)

Definition ws : Z -> bool := inset whitespace.
Definition wordc (c : Z) : bool := negb (inset whitespace c) && negb (inset symbols c).

(** The code of the first token, its characters, and what follows them. *)
Definition lex (t : list Z) : Z * list Z * list Z :=
  match t with
  | [] => (0, [], [])
  | c :: t' =>
      if inset [124; 40; 41; 59; 38; 60] c then (c, [c], t')
      else if c =? 62 then
        match t' with
        | d :: t'' => if d =? 62 then (43, [c; d], t'') else (c, [c], t')
        | [] => (c, [c], t')
        end
      else (97, take_while wordc t, drop_while wordc t)
  end.

Lemma gettoken_text p t : text p t ->
  let t1 := drop_while ws t in
  let q := skip m es ws p in
  exists eq p', gettoken m es p = Ret (fst (fst (lex t1)), q, eq) p' /\
    text q t1 /\ eq = q + Z.of_nat (length (snd (fst (lex t1)))) /\ text p' (drop_while ws (snd (lex t1))).
Proof.
  intros Ht t1 q. destruct (skip_text ws p t Ht) as [_ Hq]. fold q t1 in Hq. unfold gettoken. fold ws. fold q.
  rewrite (text_hd _ _ Hq). destruct t1 as [|c t2] eqn:Ht1; cbn [hd lex].
  - cbn [Z.eqb]. eexists _, _. split_and!; [done|done|simpl; lia|by apply (skip_text ws q [])].
  - pose proof Hq as Hq'. apply text_cons in Hq' as (Hc & _ & Hq2). destruct (Z.eqb_spec c 0); [done|].
    destruct (inset [124; 40; 41; 59; 38; 60] c) eqn:Hsym.
    { eexists _, _. split_and!; [done|done|simpl; lia|by apply skip_text]. }
    destruct (Z.eqb_spec c 62) as [->|Hgt].
    + rewrite (text_hd _ _ Hq2). destruct t2 as [|d t3]; cbn [hd].
      * cbn [Z.eqb]. eexists _, _. split_and!; [done|done|simpl; lia|by apply skip_text].
      * apply text_cons in Hq2 as (Hd & Hld & Hq3). destruct (Z.eqb_spec d 62) as [->|Hne].
        -- replace (q + 1 + 1) with (q + 2) in Hq3 by lia. eexists _, _. split_and!; [done|done|simpl; lia|by apply skip_text].
        -- eexists _, _. split_and!; [done|done|simpl; lia|]. apply skip_text. by apply text_cons.
    + destruct (skip_text wordc q (c :: t2) Hq) as [Hw Hw'].
      change (fun c0 : Z => negb (ws c0) && negb (inset symbols c0)) with wordc. rewrite Hw. rewrite Hw in Hw'.
      eexists _, _. split_and!; [done|done|done|by apply skip_text].
Qed.

Lemma peek_text toks p t : text p t -> exists p', text p' (drop_while ws t) /\
  peek m es toks p = Ret (match drop_while ws t with c :: _ => inset toks c | [] => false end) p'.
Proof.
  intros Ht. destruct (skip_text ws p t Ht) as [_ Hq]. exists (skip m es ws p). split; [done|]. unfold peek. fold ws.
  rewrite (text_hd _ _ Hq). destruct (drop_while ws t) as [|c t1]; simpl; [done|].
  apply text_cons in Hq as (Hc & _). unfold truthy. by destruct (Z.eqb_spec c 0).
Qed.

(** ** Termination *)

(** The parser returns or panics. *)
Definition ends {A} (c : P A) (p : Z) (Q : A -> Z -> Prop) : Prop :=
  match c p with Ret a p' => Q a p' | Panic _ _ => True | Stop _ => False end.

Lemma ends_ret {A} (a : A) p (Q : A -> Z -> Prop) : Q a p -> ends (ret a) p Q.
Proof. done. Qed.
Lemma ends_panic {A} msg p (Q : A -> Z -> Prop) : ends (panic msg) p Q.
Proof. done. Qed.
Lemma ends_bind {A B} (c : P A) (f : A -> P B) p (Q : B -> Z -> Prop) :
  ends c p (fun a p' => ends (f a) p' Q) -> ends (bind c f) p Q.
Proof. unfold ends, bind. by destruct (c p). Qed.
Lemma ends_mono {A} (c : P A) p (Q Q' : A -> Z -> Prop) : ends c p Q -> (forall a p', Q a p' -> Q' a p') -> ends c p Q'.
Proof. unfold ends. destruct (c p); auto. Qed.

Definition ok (p : Z) : Prop := exists t, text p t.
Definition left_ (p : Z) : nat := Z.to_nat (es - p).

(** A token starts at [p]. *)
Definition token_at (p : Z) : Prop := exists c t, text p (c :: t) /\ ws c = false.

Lemma text_left p t : text p t -> left_ p = length t.
Proof. unfold text, left_. intros [_ H]. lia. Qed.

Lemma word_start c : ws c = false -> inset [124; 40; 41; 59; 38; 60] c = false -> c <> 62 -> wordc c = true.
Proof.
  intros Hw Hs Hg. unfold wordc. fold (ws c). rewrite Hw. change symbols with [60; 124; 62; 38; 59; 40; 41]. unfold inset in *. simpl in *.
  rewrite !orb_false_iff in Hs. destruct Hs as (-> & -> & -> & -> & -> & -> & _). by destruct (Z.eqb_spec c 62).
Qed.

Lemma lex_consumes c t : c <> 0 -> ws c = false ->
  (length (snd (lex (c :: t))) < length (c :: t))%nat /\ fst (fst (lex (c :: t))) <> 0.
Proof.
  intros Hc Hw. cbn [lex]. destruct (inset [124; 40; 41; 59; 38; 60] c) eqn:Hs; [simpl; lia|].
  destruct (Z.eqb_spec c 62) as [->|Hg].
  - destruct t as [|d t]; [simpl; lia|]. destruct (d =? 62); simpl; lia.
  - cbn [fst snd]. split; [|done]. cbn [drop_while]. rewrite (word_start c Hw Hs Hg). pose proof (drop_while_length wordc t). simpl. lia.
Qed.

Lemma gettoken_ends p : ok p -> ends (gettoken m es) p (fun r p' => ok p' /\ (left_ p' <= left_ p)%nat /\
  (fst (fst r) <> 0 -> (left_ p' < left_ p)%nat)).
Proof.
  intros [t Ht]. destruct (gettoken_text p t Ht) as (eq & p' & Hg & Hq & _ & Hp'). unfold ends. rewrite Hg. cbn [fst].
  rewrite (text_left _ _ Ht), (text_left _ _ Hp'). pose proof (drop_while_length ws t) as H1.
  pose proof (drop_while_length ws (snd (lex (drop_while ws t)))) as H2. split; [by eexists|].
  destruct (drop_while ws t) as [|c t1] eqn:Hd; [simpl in *; lia|]. apply text_cons in Hq as (Hc & _).
  destruct (lex_consumes c t1 Hc (drop_while_hd _ _ _ _ Hd)) as [H3 H4]. lia.
Qed.

Lemma gettoken_token p : token_at p -> ends (gettoken m es) p (fun _ p' => ok p' /\ (left_ p' < left_ p)%nat).
Proof.
  intros (c & t & Ht & Hw). destruct (gettoken_text p _ Ht) as (eq & p' & Hg & Hq & _ & Hp'). unfold ends. rewrite Hg.
  rewrite (text_left _ _ Ht), (text_left _ _ Hp'). cbn [drop_while]. rewrite Hw. apply text_cons in Ht as (Hc & _).
  destruct (lex_consumes c t Hc Hw) as [H3 _]. pose proof (drop_while_length ws (snd (lex (c :: t)))). split; [by eexists|lia].
Qed.

Lemma peek_ends toks p : ok p -> ends (peek m es toks) p (fun b p' => ok p' /\ (left_ p' <= left_ p)%nat /\ (b = true -> token_at p')).
Proof.
  intros [t Ht]. destruct (peek_text toks p t Ht) as (p' & Hp' & Hpk). unfold ends. rewrite Hpk.
  rewrite (text_left _ _ Ht), (text_left _ _ Hp'). pose proof (drop_while_length ws t). split_and!; [by eexists|done|].
  destruct (drop_while ws t) as [|c t1] eqn:Hd; [done|]. intros _. exists c, t1. split; [done|by eapply drop_while_hd].
Qed.

(** A loop whose turns consume text. *)
Lemma ends_loop {X A} (body : X -> P (X + A)) (Q : A -> Z -> Prop) n : forall x p, ok p -> (left_ p < n)%nat ->
  (forall x p1, ok p1 -> (left_ p1 <= left_ p)%nat -> ends (body x) p1 (fun r p' => match r with
     | inl _ => ok p' /\ (left_ p' < left_ p1)%nat
     | inr a => Q a p' end)) ->
  ends (loop n body x) p Q.
Proof.
  induction n as [|n IH]; intros x p Hp Hn Hb; [lia|]. cbn [loop]. apply ends_bind.
  eapply ends_mono; [apply Hb; [done|lia]|]. intros [x'|a] p' H; [|by apply ends_ret]. destruct H as [Hp' Hl].
  apply IH; [done|lia|]. intros x1 p1 H1 H2. apply Hb; [done|lia].
Qed.

(** What a part of the parser guarantees. *)
Definition shrinks {A} (p : Z) (_ : A) (p' : Z) : Prop := ok p' /\ (left_ p' <= left_ p)%nat.

Lemma redirs_end n p : ok p -> (left_ p < n)%nat -> ends (parseredirs_list m es n) p (shrinks p).
Proof.
  intros Hp Hn. apply ends_loop; [done|done|]. intros rs p1 Hp1 Hl1. apply ends_bind. eapply ends_mono; [by apply peek_ends|].
  intros b p2 (Hp2 & Hl2 & Ht). destruct b; [|apply ends_ret; split; [done|lia]].
  apply ends_bind. eapply ends_mono; [by apply gettoken_token, Ht|]. intros [[tok ?] ?] p3 [Hp3 Hl3].
  apply ends_bind. eapply ends_mono; [by apply gettoken_ends|]. intros [[tok' q] eq] p4 (Hp4 & Hl4 & _).
  repeat case_match; try apply ends_panic; apply ends_ret; split; try done; lia.
Qed.

Lemma args_end n rs p : ok p -> (left_ p < n)%nat -> ends (parseargs m es n rs) p (shrinks p).
Proof.
  intros Hp Hn. apply ends_loop; [done|done|]. intros [argv rs1] p1 Hp1 Hl1. apply ends_bind. eapply ends_mono; [by apply peek_ends|].
  intros b p2 (Hp2 & Hl2 & _). destruct b; [apply ends_ret; split; [done|lia]|].
  apply ends_bind. eapply ends_mono; [by apply gettoken_ends|]. intros [[tok q] eq] p3 (Hp3 & Hl3 & Ht). cbn [fst] in Ht.
  destruct (Z.eqb_spec tok 0); [apply ends_ret; split; [done|lia]|]. specialize (Ht n0).
  destruct (negb (tok =? 97)); [apply ends_panic|]. destruct (MAXARGS <=? _); [apply ends_panic|].
  apply ends_bind. eapply ends_mono; [apply redirs_end; [done|lia]|]. intros rs' p4 [Hp4 Hl4]. apply ends_ret. split; [done|lia].
Qed.

Lemma back_end n c p : ok p -> (left_ p < n)%nat -> ends (parseback m es n c) p (shrinks p).
Proof.
  intros Hp Hn. apply ends_loop; [done|done|]. intros c1 p1 Hp1 Hl1. apply ends_bind. eapply ends_mono; [by apply peek_ends|].
  intros b p2 (Hp2 & Hl2 & Ht). destruct b; [|apply ends_ret; split; [done|lia]].
  apply ends_bind. eapply ends_mono; [by apply gettoken_token, Ht|]. intros _ p3 [Hp3 Hl3]. apply ends_ret. split; [done|lia].
Qed.

Lemma parser_ends n : forall p, ok p ->
  ((4 * left_ p + 4 < n)%nat -> ends (parseline m es n) p (shrinks p)) /\
  ((4 * left_ p + 3 < n)%nat -> ends (parsepipe m es n) p (shrinks p)) /\
  ((4 * left_ p + 2 < n)%nat -> ends (parseexec m es n) p (shrinks p)) /\
  ((4 * left_ p + 1 < n)%nat -> ends (parseblock m es n) p (shrinks p)).
Proof.
  induction n as [|n IH]; intros p Hp; [split_and!; lia|]. split_and!; intros Hn.
  - cbn [parseline]. apply ends_bind. eapply ends_mono; [apply (IH p Hp); lia|]. intros c p1 [Hp1 Hl1].
    apply ends_bind. eapply ends_mono; [apply back_end; [done|lia]|]. intros c2 p2 [Hp2 Hl2].
    apply ends_bind. eapply ends_mono; [by apply peek_ends|]. intros b p3 (Hp3 & Hl3 & Ht). destruct b; [|apply ends_ret; split; [done|lia]].
    apply ends_bind. eapply ends_mono; [by apply gettoken_token, Ht|]. intros _ p4 [Hp4 Hl4].
    apply ends_bind. eapply ends_mono; [apply (IH p4 Hp4); lia|]. intros r p5 [Hp5 Hl5]. apply ends_ret. split; [done|lia].
  - cbn [parsepipe]. apply ends_bind. eapply ends_mono; [apply (IH p Hp); lia|]. intros c p1 [Hp1 Hl1].
    apply ends_bind. eapply ends_mono; [by apply peek_ends|]. intros b p3 (Hp3 & Hl3 & Ht). destruct b; [|apply ends_ret; split; [done|lia]].
    apply ends_bind. eapply ends_mono; [by apply gettoken_token, Ht|]. intros _ p4 [Hp4 Hl4].
    apply ends_bind. eapply ends_mono; [apply (IH p4 Hp4); lia|]. intros r p5 [Hp5 Hl5]. apply ends_ret. split; [done|lia].
  - cbn [parseexec]. apply ends_bind. eapply ends_mono; [by apply peek_ends|]. intros b p1 (Hp1 & Hl1 & Ht). destruct b.
    + eapply ends_mono; [apply (IH p1 Hp1); lia|]. intros c p2 [Hp2 Hl2]. split; [done|lia].
    + apply ends_bind. eapply ends_mono; [apply redirs_end; [done|lia]|]. intros rs p2 [Hp2 Hl2].
      apply ends_bind. eapply ends_mono; [apply args_end; [done|lia]|]. intros [argv rs'] p3 [Hp3 Hl3]. apply ends_ret. split; [done|lia].
  - cbn [parseblock]. apply ends_bind. eapply ends_mono; [by apply peek_ends|]. intros b p1 (Hp1 & Hl1 & Ht). destruct b; [|apply ends_panic]. cbn [negb].
    apply ends_bind. eapply ends_mono; [by apply gettoken_token, Ht|]. intros _ p2 [Hp2 Hl2].
    apply ends_bind. eapply ends_mono; [apply (IH p2 Hp2); lia|]. intros c p3 [Hp3 Hl3].
    apply ends_bind. eapply ends_mono; [by apply peek_ends|]. intros b p4 (Hp4 & Hl4 & Ht4). destruct b; [|apply ends_panic]. cbn [negb].
    apply ends_bind. eapply ends_mono; [by apply gettoken_token, Ht4|]. intros _ p5 [Hp5 Hl5].
    unfold parseredirs. apply ends_bind. eapply ends_mono; [apply redirs_end; [done|lia]|]. intros rs p6 [Hp6 Hl6]. apply ends_ret. split; [done|lia].
Qed.

End text.

(** ** Parsing a command line *)

Section parsecmd.
Context {K : UEnv}.

Lemma strlen_str p l s : is_str (u_mem s) p l -> (length l < ufuel)%nat -> Z.of_nat (length l) < 2 ^ 32 ->
  strlen p s = Ret (Z.of_nat (length l)) s.
Proof.
  intros Hl Hf Hw. assert (Hn : strlen_loop ufuel (u_mem s) p 0 = Some (Z.of_nat (length l))).
  { apply strlen_loop_spec; [lia|apply Hl|]. intros i Hi. destruct Hl as (H1 & H2 & _). specialize (H2 (Z.to_nat i) ltac:(lia)).
    rewrite Z2Nat.id in H2 by lia. rewrite H2. apply (proj1 (Forall_nth _ 0 l) H1). lia. }
  unfold strlen, upart, umem, bind, gets, ret. rewrite Hn. unfold u32. by rewrite Z.mod_small by lia.
Qed.

(** The program exits with status 1, having left memory alone. *)
Definition exits1 (s s' : ustate) : Prop := u_mem s' = u_mem s /\ exists a t, u_trace s' = (Exit 1, a) :: t ++ u_trace s.

Lemma sh_panic_exits {A} msg s : exists s', @sh_panic K A msg s = Stop s' /\ exits1 s s'.
Proof.
  destruct (wp_inv _ _ _ (wp_vprintf 2 (bytes_of_string msg ++ [10]) false [] s (Forall_nil_2 _))) as ([] & s1 & Hs1 & Hm & _ & t & Ht & _).
  unfold sh_panic, bind, fprintln. rewrite Hs1. eexists. split; [done|]. split; [done|]. simpl. eexists _, t. by rewrite <- Ht.
Qed.

(** C35. The shell's parser terminates: on every NUL-terminated line parsecmd()
    returns a command, with the ends of its words overwritten by NULs and nothing
    else changed, or reports a syntax error and exits with status 1. *)
Theorem parsecmd_terminates p l s : is_str (u_mem s) p l -> (length l < ufuel)%nat -> Z.of_nat (length l) < 2 ^ 32 ->
  match parsecmd p s with
  | Ret c s' => s' = set_u_mem (nulterminate c (u_mem s)) s
  | Panic _ _ => False
  | Stop s' => exits1 s s'
  end.
Proof.
  intros Hl Hf Hw. pose proof (strlen_str p l s Hl Hf Hw) as Hlen.
  unfold parsecmd. unfold bind at 1. rewrite Hlen. unfold bind at 1, umem, gets.
  set (es := p + Z.of_nat (length l)). assert (Ht : text (u_mem s) es p l) by (by split).
  pose proof (parser_ends (u_mem s) es (parse_fuel p es) p (ex_intro _ l Ht)) as [He _].
  rewrite (text_left _ _ _ _ Ht) in He. specialize (He ltac:(unfold parse_fuel, es; lia)). unfold ends in He.
  destruct (parseline (u_mem s) es (parse_fuel p es) p) as [c p'|msg p'|p']; [| |done].
  2: { destruct (@sh_panic_exits cmd msg s) as (s' & -> & H). exact H. }
  destruct He as [[t' Ht'] Hsh]. rewrite (text_left _ _ _ _ Ht), (text_left _ _ _ _ Ht') in Hsh. destruct (skip_text _ _ ws p' t' Ht') as [_ Hs]. fold ws. set (p2 := skip _ _ ws p') in *.
  destruct (p2 =? es); cbn [negb]; [done|]. assert (Hpr : Forall (printable (u_mem s)) [p2]).
  { apply Forall_singleton. right. eexists. split; [apply Hs|]. destruct Hs as [_ Hs]. destruct Ht as [_ Ht].
    pose proof (drop_while_length ws t'). lia. }
  destruct (wp_inv _ _ _ (wp_vprintf 2 (bytes_of_string "leftovers: %s" ++ [10]) false [p2] s Hpr)) as ([] & s1 & Hs1 & Hm & _ & t & Htr & _).
  unfold bind at 1, fprintln. rewrite Hs1. destruct (@sh_panic_exits cmd "syntax" s1) as (s2 & Hs2 & Hm2 & a & t2 & Htr2). rewrite Hs2.
  split; [congruence|]. exists a, (t2 ++ t). by rewrite Htr2, Htr, <- app_assoc.
Qed.

End parsecmd.

(** ** Running commands *)

Section runcmd.
Context {K : UEnv}.

(** Code that never gives control back to its caller. *)
Definition noreturn {A} (c : U A) : Prop := forall s a s', c s <> Ret a s'.

Lemma noreturn_exit {A} n : noreturn (@exit K A n).
Proof. intros s a s'. done. Qed.

Lemma noreturn_bind {A B} (c : U A) (k : A -> U B) : (forall a, noreturn (k a)) -> noreturn (bind c k).
Proof. intros Hk s b s'. unfold bind. destruct (c s) as [a s1|msg s1|s1]; [apply Hk|done|done]. Qed.

Lemma noreturn_first {A B} (c : U A) (k : A -> U B) : noreturn c -> noreturn (bind c k).
Proof. intros Hc s b s'. unfold bind. destruct (c s) as [a s1|msg s1|s1] eqn:He; [by apply Hc in He|done|done]. Qed.

Lemma noreturn_panic {A} msg : noreturn (@sh_panic K A msg).
Proof. apply noreturn_bind. intros _. apply noreturn_exit. Qed.

(** runcmd() has the attribute noreturn: it ends in exec() or exit() in every
    process, whatever the system calls answer. *)
Lemma runcmd_noreturn c : noreturn (runcmd c).
Proof.
  destruct c as [[|[arg0 e0] argv]|c file efile mode fd|l r|l r|c]; cbn [runcmd].
  - apply noreturn_exit.
  - do 2 (apply noreturn_bind; intros ?). apply noreturn_exit.
  - do 2 (apply noreturn_bind; intros ?). case_match; [apply noreturn_bind; intros _; apply noreturn_exit|].
    apply noreturn_bind. intros _. apply noreturn_exit.
  - apply noreturn_bind. intros [[e p0] p1]. case_match; [apply noreturn_panic|].
    do 8 (apply noreturn_bind; intros ?). apply noreturn_exit.
  - do 4 (apply noreturn_bind; intros ?). apply noreturn_exit.
  - do 2 (apply noreturn_bind; intros ?). apply noreturn_exit.
Qed.

End runcmd.
