(* ===== verification/ShPrint.v ===== *)
(** * The shell reads back what is printed

    A command is printed as tokens separated by blanks; the theorem gives the tree
    parsecmd() builds for it, with each word a NUL-terminated string in memory. *)

From S2P Require Import Prelude Riscv Bytes CString Ulib Uprintf Sh ShSpec.

(** ** Tokens *)

Inductive token : Type := Word (w : list Z) | Sym (c : Z) | Gt | GtGt.

Definition chars (k : token) : list Z :=
  match k with Word w => w | Sym c => [c] | Gt => [62] | GtGt => [62; 62] end.
Definition code (k : token) : Z :=
  match k with Word _ => 97 | Sym c => c | Gt => 62 | GtGt => 43 end.

Definition word_ok (w : list Z) : Prop := w <> [] /\ Forall (fun c => wordc c = true /\ c <> 0) w.
Definition token_ok (k : token) : Prop :=
  match k with Word w => word_ok w | Sym c => c ∈ [124; 40; 41; 59; 38; 60] | _ => True end.

(** Every token is followed by a blank. *)
Definition show (ks : list token) : list Z := concat (map (fun k => chars k ++ [32]) ks).

Lemma show_cons k ks : show (k :: ks) = chars k ++ 32 :: show ks.
Proof. unfold show. simpl. by rewrite <- app_assoc. Qed.

Definition starts (toks : list Z) (ks : list token) : bool :=
  match ks with k :: _ => inset toks (hd 0 (chars k)) | [] => false end.

Lemma sym_cases c : c ∈ [124; 40; 41; 59; 38; 60] -> c = 124 \/ c = 40 \/ c = 41 \/ c = 59 \/ c = 38 \/ c = 60.
Proof. rewrite !elem_of_cons, elem_of_nil. tauto. Qed.

Lemma wordc_not_special c : wordc c = true -> ws c = false /\ inset [124; 40; 41; 59; 38; 60] c = false /\ c <> 62 /\ c <> 32.
Proof.
  unfold wordc. fold (ws c). rewrite andb_true_iff, !negb_true_iff. intros [Hw Hs].
  change symbols with [60; 124; 62; 38; 59; 40; 41] in Hs. unfold inset in *. simpl in *. rewrite !orb_false_iff in Hs.
  destruct Hs as (H1 & H2 & H3 & H4 & H5 & H6 & H7 & _). rewrite H1, H2, H4, H5, H6, H7. split; [done|]. split; [done|].
  split; [by intros ->|]. intros ->. done.
Qed.

Lemma token_head k : token_ok k -> exists c cs, chars k = c :: cs /\ ws c = false.
Proof.
  destruct k as [w|c| |]; simpl.
  - intros [Hn Hw]. destruct w as [|c w]; [done|]. apply Forall_cons in Hw as [[Hc _] _]. exists c, w. split; [done|by apply wordc_not_special].
  - intros H. exists c, []. split; [done|]. by apply sym_cases in H as [->|[->|[->|[->|[->| ->]]]]].
  - by exists 62, [].
  - by exists 62, [62].
Qed.

Lemma take_while_word w t : Forall (fun c => wordc c = true /\ c <> 0) w ->
  take_while wordc (w ++ 32 :: t) = w /\ drop_while wordc (w ++ 32 :: t) = 32 :: t.
Proof.
  induction 1 as [|c w [Hc _] _ [IH1 IH2]]; [done|]. simpl. rewrite Hc. by rewrite IH1, IH2.
Qed.

Lemma lex_show k ks : token_ok k -> lex (show (k :: ks)) = (code k, chars k, 32 :: show ks).
Proof.
  intros Hk. rewrite show_cons. destruct k as [w|c| |]; try done.
  - destruct Hk as [Hn Hw]. destruct (take_while_word w (show ks) Hw) as [H1 H2]. destruct w as [|c w]; [done|].
    apply Forall_cons in Hw as [[Hc _] _]. destruct (wordc_not_special c Hc) as (_ & Hs & Hg & _).
    cbn [chars app lex] in *. rewrite Hs. destruct (Z.eqb_spec c 62); [done|]. by rewrite H1, H2.
  - simpl in *. by apply sym_cases in Hk as [->|[->|[->|[->|[->| ->]]]]].
Qed.

Lemma drop_show ks : Forall token_ok ks -> drop_while ws (show ks) = show ks.
Proof.
  intros H. destruct H as [|k ks Hk _]; [done|]. rewrite show_cons. destruct (token_head k Hk) as (c & cs & -> & Hc).
  simpl. by rewrite Hc.
Qed.

Lemma take_show ks : Forall token_ok ks -> take_while ws (show ks) = [].
Proof.
  intros H. destruct H as [|k ks Hk _]; [done|]. rewrite show_cons. destruct (token_head k Hk) as (c & cs & -> & Hc).
  simpl. by rewrite Hc.
Qed.

Section tokens.
Context (m : memory) (es : Z).

(** The tokens [ks] start at [p]. *)
Definition toks (p : Z) (ks : list token) : Prop := Forall token_ok ks /\ text m es p (show ks).

Lemma toks_skip p ks : toks p ks -> skip m es ws p = p.
Proof. intros [Hk Ht]. destruct (skip_text m es ws p _ Ht) as [-> _]. rewrite take_show by done. simpl. lia. Qed.

Lemma peek_toks set p ks : toks p ks -> peek m es set p = Ret (starts set ks) p.
Proof.
  intros H. pose proof (toks_skip p ks H) as Hs. destruct H as [Hk Ht]. unfold peek. fold ws. rewrite Hs, (text_hd _ _ _ _ Ht). f_equal.
  destruct Hk as [|k ks Hk _]; [done|]. rewrite show_cons in *. cbn [starts]. destruct (token_head k Hk) as (c & cs & Hch & Hc).
  rewrite Hch in *. cbn [app hd] in *. apply text_cons in Ht as (Hc0 & _). unfold truthy. by destruct (Z.eqb_spec c 0).
Qed.

(** The word [w] from [q] to the blank at [eq]. *)
Definition word_at (qe : Z * Z) (w : list Z) : Prop :=
  word_ok w /\ (forall i, (i < length w)%nat -> load8 m (fst qe + Z.of_nat i) = nth i w 0) /\
  snd qe = fst qe + Z.of_nat (length w) /\ load8 m (snd qe) = 32.

Lemma gettoken_toks p k ks : toks p (k :: ks) -> exists eq p', gettoken m es p = Ret (code k, p, eq) p' /\ toks p' ks /\
  (forall w, k = Word w -> word_at (p, eq) w).
Proof.
  intros H. pose proof (toks_skip p _ H) as Hs. destruct H as [Hk Ht]. pose proof Hk as Hk'. apply Forall_cons in Hk' as [Hk1 Hk2].
  destruct (gettoken_text m es p _ Ht) as (eq & p' & Hg & Hq & He & Hp'). rewrite drop_show in Hg, He, Hp' by done.
  rewrite lex_show in Hg, He, Hp' by done. cbn [fst snd] in *. rewrite Hs in Hg, He. cbn [drop_while] in Hp'. change (ws 32) with true in Hp'. cbn iota in Hp'.
  rewrite drop_show in Hp' by done. exists eq, p'. split; [done|]. split; [done|]. intros w ->. simpl in *. subst eq.
  rewrite show_cons in Ht. simpl in Ht. pose proof (text_app _ _ _ _ _ Ht) as Ht'. apply text_cons in Ht' as (_ & Hb & _).
  destruct Ht as [(_ & Hn & _) _]. split_and!; [done| |done|done]. intros i Hi. simpl. rewrite Hn by (rewrite length_app; lia). by rewrite app_nth1.
Qed.

Lemma gettoken_end p : toks p [] -> exists q eq p', gettoken m es p = Ret (0, q, eq) p' /\ toks p' [].
Proof.
  intros [_ Ht]. destruct (gettoken_text m es p _ Ht) as (eq & p' & Hg & _ & _ & Hp'). simpl in *. eexists _, eq, p'. split; [done|]. by split.
Qed.

End tokens.

(** ** Commands *)

(** A redirection: '<', '>' or '>>', and its file. *)
Inductive rkind : Type := RIn | ROut | RApp.
Definition rtok (k : rkind) : token := match k with RIn => Sym 60 | ROut => Gt | RApp => GtGt end.
Definition rmode (k : rkind) : Z := match k with RIn => 0 | ROut => 0x601 | RApp => 0x201 end.
Definition rfd (k : rkind) : Z := match k with RIn => 0 | _ => 1 end.

(** The grammar of command lines. *)
Inductive line : Type := Last (p : pipeline) (bg : nat) | Seq (p : pipeline) (bg : nat) (l : line)
with pipeline : Type := Alone (e : simple) | Piped (e : simple) (p : pipeline)
with simple : Type := Words (ws : list (list Z)) (rs : list (rkind * list Z)) | Block (l : line) (rs : list (rkind * list Z)).

Definition redir_toks (rs : list (rkind * list Z)) : list token := concat (map (fun '(k, w) => [rtok k; Word w]) rs).

Fixpoint line_toks (l : line) : list token :=
  match l with
  | Last p bg => pipe_toks p ++ replicate bg (Sym 38)
  | Seq p bg l => pipe_toks p ++ replicate bg (Sym 38) ++ Sym 59 :: line_toks l
  end
with pipe_toks (p : pipeline) : list token :=
  match p with
  | Alone e => simple_toks e
  | Piped e p => simple_toks e ++ Sym 124 :: pipe_toks p
  end
with simple_toks (e : simple) : list token :=
  match e with
  | Words ws rs => map Word ws ++ redir_toks rs
  | Block l rs => Sym 40 :: line_toks l ++ Sym 41 :: redir_toks rs
  end.

(** The tree of a command line, with words for addresses. *)
Inductive tree : Type :=
| TExec (argv : list (list Z))
| TRedir (t : tree) (file : list Z) (mode fd : Z)
| TPipe (left right : tree)
| TList (left right : tree)
| TBack (t : tree).

Definition tredirs (rs : list (rkind * list Z)) (t : tree) : tree :=
  fold_left (fun t '(k, w) => TRedir t w (rmode k) (rfd k)) rs t.

Fixpoint line_tree (l : line) : tree :=
  match l with
  | Last p bg => Nat.iter bg TBack (pipe_tree p)
  | Seq p bg l => TList (Nat.iter bg TBack (pipe_tree p)) (line_tree l)
  end
with pipe_tree (p : pipeline) : tree :=
  match p with
  | Alone e => simple_tree e
  | Piped e p => TPipe (simple_tree e) (pipe_tree p)
  end
with simple_tree (e : simple) : tree :=
  match e with
  | Words ws rs => tredirs rs (TExec ws)
  | Block l rs => tredirs rs (line_tree l)
  end.

(** The words of a command line are words, and no command has ten of them. *)
Definition redirs_ok (rs : list (rkind * list Z)) : Prop := Forall (fun '(_, w) => word_ok w) rs.
Fixpoint line_ok (l : line) : Prop :=
  match l with
  | Last p _ => pipe_ok p
  | Seq p _ l => pipe_ok p /\ line_ok l
  end
with pipe_ok (p : pipeline) : Prop :=
  match p with
  | Alone e => simple_ok e
  | Piped e p => simple_ok e /\ pipe_ok p
  end
with simple_ok (e : simple) : Prop :=
  match e with
  | Words ws rs => Forall word_ok ws /\ (length ws < 10)%nat /\ redirs_ok rs
  | Block l rs => line_ok l /\ redirs_ok rs
  end.

(** A command has the shape of a tree; [W] relates addresses to words. *)
Fixpoint shape (W : Z * Z -> list Z -> Prop) (c : cmd) (t : tree) : Prop :=
  match c, t with
  | EXEC argv, TExec ws => Forall2 W argv ws
  | REDIR c file efile mode fd, TRedir t w mode' fd' => shape W c t /\ W (file, efile) w /\ mode = mode' /\ fd = fd'
  | PIPE l r, TPipe l' r' => shape W l l' /\ shape W r r'
  | LIST l r, TList l' r' => shape W l l' /\ shape W r r'
  | BACK c, TBack t => shape W c t
  | _, _ => False
  end.

(** ** The parser on tokens *)

Lemma show_app ks ks' : show (ks ++ ks') = show ks ++ show ks'.
Proof. unfold show. by rewrite map_app, concat_app. Qed.

Lemma show_length ks : (length ks <= length (show ks))%nat.
Proof. induction ks as [|k ks IH]; [done|]. rewrite show_cons, length_app. simpl. lia. Qed.

(** What may follow a part of a command line. *)
Definition follow (set : list Z) (ks : list token) : Prop :=
  match ks with [] => True | Sym c :: _ => c ∈ set | _ => False end.

Lemma follow_mono set set' ks : (forall c, c ∈ set -> c ∈ set') -> follow set ks -> follow set' ks.
Proof. intros H. destruct ks as [|[w|c| |] ks]; simpl; auto. Qed.

Lemma follow_starts set toks ks : follow set ks -> (forall c, c ∈ set -> inset toks c = false) -> starts toks ks = false.
Proof. destruct ks as [|[w|c| |] ks]; simpl; auto; done. Qed.

Lemma word_not_in c toks : wordc c = true -> Forall (fun d => wordc d = false) toks -> inset toks c = false.
Proof.
  intros Hc Hf. unfold inset. induction Hf as [|d toks Hd _ IH]; [done|]. simpl. rewrite IH. destruct (Z.eqb_spec c d) as [->|]; [congruence|done].
Qed.

(** A fact about each member of a literal set. *)
Ltac by_members :=
  let c := fresh "c" in let Hc := fresh "Hc" in
  intros c Hc; repeat (apply elem_of_cons in Hc as [->|Hc]; [first [by vm_compute | by repeat first [by left|right]]|]); by apply not_elem_of_nil in Hc.

Section parse.
Context (m : memory) (es : Z).

Abbreviation W := (word_at m).
Definition redir_at (r : redir) (kw : rkind * list Z) : Prop :=
  let '(q, eq, mode, fd) := r in W (q, eq) (snd kw) /\ mode = rmode (fst kw) /\ fd = rfd (fst kw).

Lemma wrap_shape rl rs : Forall2 redir_at rl rs -> forall c t, shape W c t -> shape W (wrap c rl) (tredirs rs t).
Proof.
  induction 1 as [|[[[q eq] mode] fd] [k w] rl rs (H1 & H2 & H3) _ IH]; intros c t Hc; [done|]. cbn [wrap tredirs fold_left]. apply IH.
  simpl in *. split_and!; done.
Qed.

Lemma starts_word toks w ks : word_ok w -> Forall (fun d => wordc d = false) toks -> starts toks (Word w :: ks) = false.
Proof.
  intros [Hn Hw] Ht. destruct w as [|c w]; [done|]. apply Forall_cons in Hw as [[Hc _] _]. simpl. by apply word_not_in.
Qed.

Lemma redirs_parse rs : forall n acc p ks, toks m es p (redir_toks rs ++ ks) -> starts [60; 62] ks = false -> (length rs < n)%nat ->
  exists rl p', loop n (redir_turn m es) acc p = Ret (acc ++ rl) p' /\ toks m es p' ks /\ Forall2 redir_at rl rs.
Proof.
  induction rs as [|[k w] rs IH]; intros [|n] acc p ks Hp Hks Hn; simpl in Hn; try lia; cbn [loop].
  - change (redir_toks [] ++ ks) with ks in Hp. unfold redir_turn at 1, bind at 1 2. rewrite (peek_toks _ _ _ _ _ Hp), Hks. exists [], p.
    rewrite app_nil_r. by split_and!.
  - cbn [redir_toks map concat app] in Hp. fold (redir_toks rs) in Hp. unfold redir_turn at 1, bind at 1 2. rewrite (peek_toks _ _ _ _ _ Hp).
    assert (Hst : starts [60; 62] (rtok k :: Word w :: redir_toks rs ++ ks) = true) by (by destruct k). rewrite Hst.
    destruct (gettoken_toks m es p _ _ Hp) as (eq1 & p1 & Hg1 & Hp1 & _). unfold bind at 1. rewrite Hg1.
    destruct (gettoken_toks m es p1 _ _ Hp1) as (eq & p2 & Hg2 & Hp2 & Hw). unfold bind at 1. rewrite Hg2. cbn [code Z.eqb Pos.eqb negb].
    assert (Hgo : forall r, redir_at r (k, w) -> exists rl p', loop n (redir_turn m es) (acc ++ [r]) p2 = Ret (acc ++ rl) p' /\ toks m es p' ks /\
      Forall2 redir_at rl ((k, w) :: rs)).
    { intros r Hr. destruct (IH n (acc ++ [r]) p2 ks Hp2 Hks ltac:(lia)) as (rl & p' & H1 & H2 & H3). exists (r :: rl), p'.
      rewrite <- app_assoc in H1. split_and!; [exact H1|done|by constructor]. }
    specialize (Hw w eq_refl). destruct k; cbn; apply Hgo; by split_and!.
Qed.

Lemma args_parse ws : forall n0 n argv acc p rs ks, toks m es p (map Word ws ++ redir_toks rs ++ ks) -> follow [124; 41; 38; 59] ks ->
  (ws = [] -> rs = []) -> (length argv + length ws < 10)%nat -> (length ws < n)%nat -> (length rs < n0)%nat ->
  exists al rl p', loop n (arg_turn m es n0) (argv, acc) p = Ret (argv ++ al, acc ++ rl) p' /\ toks m es p' ks /\
    Forall2 W al ws /\ Forall2 redir_at rl rs.
Proof.
  induction ws as [|w ws IH]; intros n0 [|n] argv acc p rs ks Hp Hf Hrs Hmax Hn Hn0; simpl in Hn; try lia; cbn [loop].
  - rewrite (Hrs eq_refl) in *. cbn [map app redir_toks concat] in Hp. exists [], [].
    unfold arg_turn at 1, bind at 1 2. rewrite (peek_toks _ _ _ _ _ Hp). destruct ks as [|[w|c| |] ks]; try done; simpl in Hf.
    + cbn [starts]. destruct (gettoken_end m es p Hp) as (q & eq & p' & Hg & Hp'). unfold bind at 1. rewrite Hg. cbn. exists p'.
      rewrite !app_nil_r. by split_and!.
    + assert (Hs : starts [124; 41; 38; 59] (Sym c :: ks) = true).
      { cbn [starts chars hd]. unfold inset. apply existsb_exists. exists c. split; [by apply list_elem_of_In|apply Z.eqb_refl]. }
      rewrite Hs. cbn. exists p. rewrite !app_nil_r. by split_and!.
  - cbn [map app] in Hp. assert (Hok : word_ok w) by (destruct Hp as [Hk _]; by apply Forall_cons in Hk as [? _]).
    unfold arg_turn at 1, bind at 1 2. rewrite (peek_toks _ _ _ _ _ Hp), starts_word by (done || by repeat constructor).
    destruct (gettoken_toks m es p _ _ Hp) as (eq & p1 & Hg & Hp1 & Hw). unfold bind at 1. rewrite Hg. cbn [code Z.eqb Pos.eqb negb].
    destruct (Z.leb_spec MAXARGS (Z.of_nat (length argv) + 1)); [unfold MAXARGS in *; simpl in Hmax; lia|].
    specialize (Hw w eq_refl). destruct ws as [|w2 ws].
    + cbn [map app] in Hp1. destruct (redirs_parse rs n0 [] p1 ks Hp1) as (rl & p2 & Hr & Hp2 & Hrl); [|done|].
      { eapply follow_starts; [exact Hf|]. by_members. }
      unfold bind at 1, parseredirs_list. rewrite Hr. cbn [app].
      destruct (IH n0 n (argv ++ [(p, eq)]) (acc ++ rl) p2 [] ks) as (al & rl2 & p3 & H1 & H2 & H3 & H4);
        [exact Hp2|done|done|rewrite length_app; simpl in *; lia|lia|simpl; lia|].
      inversion H3; subst. inversion H4; subst. exists [(p, eq)], rl, p3. rewrite !app_nil_r in H1. split_and!; [exact H1|done| |done].
      constructor; [done|constructor].
    + destruct (redirs_parse [] n0 [] p1 (map Word (w2 :: ws) ++ redir_toks rs ++ ks)) as (rl & p2 & Hr & Hp2 & Hrl); [done| |simpl; lia|].
      { apply starts_word; [|by repeat constructor]. destruct Hp1 as [Hk _]. by apply Forall_cons in Hk as [? _]. }
      inversion Hrl; subst. unfold bind at 1, parseredirs_list. rewrite Hr. cbn [app].
      destruct (IH n0 n (argv ++ [(p, eq)]) (acc ++ []) p2 rs ks) as (al & rl2 & p3 & H1 & H2 & H3 & H4);
        [exact Hp2|done|done|rewrite length_app; simpl in *; lia|simpl in *; lia|done|].
      exists ((p, eq) :: al), rl2, p3. rewrite app_nil_r, <- app_assoc in H1. split_and!; [|done|by constructor|done].
      rewrite app_nil_r. exact H1.
Qed.

Lemma back_parse bg : forall n c p ks, toks m es p (replicate bg (Sym 38) ++ ks) -> starts [38] ks = false -> (bg < n)%nat ->
  exists p', loop n (back_turn m es) c p = Ret (Nat.iter bg BACK c) p' /\ toks m es p' ks.
Proof.
  induction bg as [|bg IH]; intros [|n] c p ks Hp Hks Hn; try lia; cbn [loop].
  - cbn [replicate app] in Hp. unfold back_turn at 1, bind at 1 2. rewrite (peek_toks _ _ _ _ _ Hp), Hks. by exists p.
  - cbn [replicate app] in Hp. unfold back_turn at 1, bind at 1 2. rewrite (peek_toks _ _ _ _ _ Hp). cbn [starts chars hd inset existsb Z.eqb Pos.eqb orb].
    destruct (gettoken_toks m es p _ _ Hp) as (eq & p1 & Hg & Hp1 & _). unfold bind at 1. rewrite Hg. cbn.
    destruct (IH n (BACK c) p1 ks Hp1 Hks ltac:(lia)) as (p' & H1 & H2). exists p'. split; [|done]. rewrite H1. f_equal. apply Nat.iter_swap.
Qed.

Lemma back_shape bg c t : shape W c t -> shape W (Nat.iter bg BACK c) (Nat.iter bg TBack t).
Proof. intros H. induction bg as [|bg IH]; [done|]. simpl. done. Qed.

(** One step of the parser's functions, on tokens. *)
Lemma then_peek {A} set (k : bool -> P A) p ks : toks m es p ks -> bind (peek m es set) k p = k (starts set ks) p.
Proof. intros H. unfold bind. by rewrite (peek_toks _ _ _ _ _ H). Qed.

Lemma then_ret {A B} (c : P A) (k : A -> P B) p a p' : c p = Ret a p' -> bind c k p = k a p'.
Proof. intros H. unfold bind. by rewrite H. Qed.

Lemma starts_40 e ks : simple_ok e -> follow [124; 41; 38; 59] ks ->
  starts [40] (simple_toks e ++ ks) = match e with Block _ _ => true | _ => false end.
Proof.
  intros He Hf. destruct e as [ws rs|l rs]; [|done]. destruct He as (Hw & _). cbn [simple_toks]. destruct Hw as [|w ws Hw _].
  - destruct rs as [|[[] w] rs]; [|done..]. eapply follow_starts; [exact Hf|by_members].
  - apply starts_word; [done|by repeat constructor].
Qed.

Lemma redir_toks_length rs : length (redir_toks rs) = (2 * length rs)%nat.
Proof. induction rs as [|[k w] rs IH]; [done|]. cbn [redir_toks map concat]. fold (redir_toks rs). rewrite length_app, IH. simpl. lia. Qed.

Lemma follow_redirs ks : follow [124; 41; 38; 59] ks -> starts [60; 62] ks = false.
Proof. intros Hf. eapply follow_starts; [exact Hf|by_members]. Qed.

Lemma words_parse n ws rs ks p : (length ws < 10)%nat -> toks m es p (map Word ws ++ redir_toks rs ++ ks) -> follow [124; 41; 38; 59] ks ->
  (length ws < n)%nat -> (length rs < n)%nat ->
  exists c p', (rs <- parseredirs_list m es n;; let* (argv, rs) := parseargs m es n rs in ret (wrap (EXEC argv) rs)) p = Ret c p' /\
    toks m es p' ks /\ shape W c (tredirs rs (TExec ws)).
Proof.
  intros Hmax Hp Hf Hn Hn'. assert (Hfin : forall al rl, Forall2 W al ws -> Forall2 redir_at rl rs -> shape W (wrap (EXEC al) rl) (tredirs rs (TExec ws))).
  { intros al rl Ha Hr. by apply wrap_shape. }
  destruct ws as [|w ws].
  - destruct (redirs_parse rs n [] p ks Hp (follow_redirs ks Hf) Hn') as (rl & p1 & H1 & H2 & H3).
    destruct (args_parse [] n n [] rl p1 [] ks) as (al & rl2 & p2 & G1 & G2 & G3 & G4); [done|done|done|done|done|simpl; lia|].
    rewrite (then_ret _ _ _ _ _ H1), (then_ret _ _ _ _ _ G1). eexists _, p2. split; [done|]. split; [done|].
    inversion G4; subst. rewrite app_nil_r. by apply Hfin.
  - assert (Hok : word_ok w) by (destruct Hp as [Hk _]; by apply Forall_cons in Hk as [? _]).
    destruct (redirs_parse [] n [] p (map Word (w :: ws) ++ redir_toks rs ++ ks)) as (rl & p1 & H1 & H2 & H3);
      [done|by apply starts_word; [|repeat constructor]|simpl; lia|]. inversion H3; subst.
    destruct (args_parse (w :: ws) n n [] [] p1 rs ks) as (al & rl2 & p2 & G1 & G2 & G3 & G4); [done|done|done|simpl in *; lia|done|done|].
    rewrite (then_ret _ _ _ _ _ H1), (then_ret _ _ _ _ _ G1). eexists _, p2. split; [done|]. split; [done|]. by apply Hfin.
Qed.

Lemma parse_tokens n :
  (forall l ks p, line_ok l -> toks m es p (line_toks l ++ ks) -> follow [41] ks -> (4 * length (show (line_toks l ++ ks)) + 4 < n)%nat ->
     exists c p', parseline m es n p = Ret c p' /\ toks m es p' ks /\ shape W c (line_tree l)) /\
  (forall l ks p, pipe_ok l -> toks m es p (pipe_toks l ++ ks) -> follow [41; 38; 59] ks -> (4 * length (show (pipe_toks l ++ ks)) + 3 < n)%nat ->
     exists c p', parsepipe m es n p = Ret c p' /\ toks m es p' ks /\ shape W c (pipe_tree l)) /\
  (forall e ks p, simple_ok e -> toks m es p (simple_toks e ++ ks) -> follow [124; 41; 38; 59] ks -> (4 * length (show (simple_toks e ++ ks)) + 2 < n)%nat ->
     exists c p', parseexec m es n p = Ret c p' /\ toks m es p' ks /\ shape W c (simple_tree e)) /\
  (forall l rs ks p, simple_ok (Block l rs) -> toks m es p (simple_toks (Block l rs) ++ ks) -> follow [124; 41; 38; 59] ks ->
     (4 * length (show (simple_toks (Block l rs) ++ ks)) + 1 < n)%nat ->
     exists c p', parseblock m es n p = Ret c p' /\ toks m es p' ks /\ shape W c (simple_tree (Block l rs))).
Proof.
  induction n as [|n (IHl & IHp & IHe & IHb)]; [split_and!; intros; lia|]. split_and!.
  - intros l ks p Hok Hp Hf Hn. cbn [parseline]. destruct l as [pl bg|pl bg l]; cbn [line_toks line_tree line_ok] in *.
    + rewrite <- app_assoc in Hp, Hn. pose proof (show_length (replicate bg (Sym 38))) as Hlb. rewrite length_replicate in Hlb.
      rewrite !show_app, !length_app in Hn.
      destruct (IHp pl _ p Hok Hp) as (c & p1 & H1 & H2 & H3); [|rewrite !show_app, !length_app; lia|].
      { destruct bg; [|by simpl; right; left]. eapply follow_mono; [|exact Hf]. by_members. }
      rewrite (then_ret _ _ _ _ _ H1).
      destruct (back_parse bg n c p1 ks H2) as (p2 & G1 & G2); [eapply follow_starts; [exact Hf|by_members]|lia|].
      rewrite (then_ret _ _ _ _ _ G1), (then_peek _ _ _ _ G2). erewrite follow_starts by (exact Hf || by_members).
      exists (Nat.iter bg BACK c), p2. split; [done|]. split; [done|]. by apply back_shape.
    + rewrite <- !app_assoc in Hp, Hn. cbn [app] in Hp, Hn. pose proof (show_length (replicate bg (Sym 38))) as Hlb. rewrite length_replicate in Hlb.
      rewrite !show_app, !length_app, show_cons, !length_app in Hn. cbn [length] in Hn. destruct Hok as [Hok1 Hok2].
      destruct (IHp pl _ p Hok1 Hp) as (c & p1 & H1 & H2 & H3); [|rewrite !show_app, !length_app, show_cons, !length_app; cbn [length]; lia|].
      { destruct bg; simpl; [by right; right; left|by right; left]. }
      rewrite (then_ret _ _ _ _ _ H1). destruct (back_parse bg n c p1 _ H2) as (p2 & G1 & G2); [done|lia|].
      rewrite (then_ret _ _ _ _ _ G1), (then_peek _ _ _ _ G2). cbn [starts chars hd inset existsb Z.eqb Pos.eqb orb].
      destruct (gettoken_toks m es p2 _ _ G2) as (eq & p3 & K1 & K2 & _). rewrite (then_ret _ _ _ _ _ K1).
      destruct (IHl l ks p3 Hok2 K2 Hf) as (r & p4 & R1 & R2 & R3); [lia|]. rewrite (then_ret _ _ _ _ _ R1).
      eexists _, p4. split; [done|]. split; [done|]. split; [by apply back_shape|done].
  - intros l ks p Hok Hp Hf Hn. cbn [parsepipe]. destruct l as [e|e l]; cbn [pipe_toks pipe_tree pipe_ok] in *.
    + destruct (IHe e ks p Hok Hp) as (c & p1 & H1 & H2 & H3); [eapply follow_mono; [|exact Hf]; by_members|lia|].
      rewrite (then_ret _ _ _ _ _ H1), (then_peek _ _ _ _ H2). erewrite follow_starts by (exact Hf || by_members). by exists c, p1.
    + rewrite <- app_assoc in Hp, Hn. cbn [app] in Hp, Hn. rewrite show_app, show_cons, !length_app in Hn. cbn [length] in Hn.
      destruct Hok as [Hok1 Hok2].
      destruct (IHe e _ p Hok1 Hp) as (c & p1 & H1 & H2 & H3); [by left|rewrite show_app, show_cons, !length_app; cbn [length]; lia|].
      rewrite (then_ret _ _ _ _ _ H1), (then_peek _ _ _ _ H2). cbn [starts chars hd inset existsb Z.eqb Pos.eqb orb].
      destruct (gettoken_toks m es p1 _ _ H2) as (eq & p2 & K1 & K2 & _). rewrite (then_ret _ _ _ _ _ K1).
      destruct (IHp l ks p2 Hok2 K2 Hf) as (r & p3 & R1 & R2 & R3); [lia|]. rewrite (then_ret _ _ _ _ _ R1). eexists _, p3. by split_and!.
  - intros e ks p Hok Hp Hf Hn. cbn [parseexec]. rewrite (then_peek _ _ _ _ Hp), starts_40 by done. destruct e as [ws rs|l rs].
    + cbn [simple_toks simple_tree] in *. rewrite <- app_assoc in Hp, Hn. destruct Hok as (_ & Hmax & _).
      pose proof (show_length (map Word ws)) as L1. rewrite length_map in L1. pose proof (show_length (redir_toks rs)) as L2. rewrite redir_toks_length in L2.
      rewrite !show_app, !length_app in Hn. apply words_parse; [done|done|done|lia|lia].
    + apply IHb; [done|done|done|lia].
  - intros l rs ks p [Hok _] Hp Hf Hn. cbn [parseblock simple_toks simple_tree app] in *. rewrite (then_peek _ _ _ _ Hp).
    cbn [starts chars hd inset existsb Z.eqb Pos.eqb orb negb]. destruct (gettoken_toks m es p _ _ Hp) as (eq & p1 & K1 & K2 & _).
    rewrite (then_ret _ _ _ _ _ K1). rewrite <- app_assoc in K2, Hn. cbn [app] in K2, Hn.
    rewrite show_cons, length_app in Hn. cbn [length] in Hn. rewrite show_app, length_app, show_cons, length_app in Hn. cbn [length] in Hn.
    pose proof (show_length (redir_toks rs ++ ks)) as L2. rewrite length_app, redir_toks_length in L2.
    destruct (IHl l _ p1 Hok K2) as (c & p2 & H1 & H2 & H3); [by left|rewrite show_app, length_app, show_cons, length_app; cbn [length]; lia|].
    rewrite (then_ret _ _ _ _ _ H1), (then_peek _ _ _ _ H2). cbn [starts chars hd inset existsb Z.eqb Pos.eqb orb negb].
    destruct (gettoken_toks m es p2 _ _ H2) as (eq' & p3 & K3 & K4 & _). rewrite (then_ret _ _ _ _ _ K3). unfold parseredirs.
    destruct (redirs_parse rs n [] p3 ks K4 (follow_redirs ks Hf) ltac:(lia)) as (rl & p4 & R1 & R2 & R3).
    rewrite (then_ret _ _ _ _ _ R1). eexists _, p4. split; [done|]. split; [done|]. by apply wrap_shape.
Qed.

End parse.

(** ** The words of a parsed command *)

Fixpoint word_ends (c : cmd) : list Z :=
  match c with
  | EXEC argv => map (@snd Z Z) argv
  | REDIR c _ efile _ _ => efile :: word_ends c
  | PIPE l r => word_ends l ++ word_ends r
  | LIST l r => word_ends l ++ word_ends r
  | BACK c => word_ends c
  end.

Lemma nulterminate_load c : forall m a, load8 (nulterminate c m) a = if decide (a ∈ word_ends c) then 0 else load8 m a.
Proof.
  assert (Hexec : forall argv m a, load8 (fold_left (fun m '(_, eq) => store8 m eq 0) argv m) a =
    if decide (a ∈ map (@snd Z Z) argv) then 0 else load8 m a).
  { induction argv as [|[q eq] argv IH]; intros m a; [done|]. cbn [fold_left map snd]. rewrite IH.
    destruct (decide (a ∈ map (@snd Z Z) argv)) as [Hi|Hi]; [rewrite decide_True by (by right); done|].
    destruct (decide (a = eq)) as [->|Hne]; [rewrite decide_True by (by left); by rewrite load8_store8_eq|].
    rewrite decide_False by (by rewrite elem_of_cons; intros [?|?]). by rewrite load8_store8_ne. }
  assert (Hpair : forall c1 c2, (forall m a, load8 (nulterminate c1 m) a = if decide (a ∈ word_ends c1) then 0 else load8 m a) ->
    (forall m a, load8 (nulterminate c2 m) a = if decide (a ∈ word_ends c2) then 0 else load8 m a) ->
    forall m a, load8 (nulterminate c2 (nulterminate c1 m)) a = if decide (a ∈ word_ends c1 ++ word_ends c2) then 0 else load8 m a).
  { intros c1 c2 H1 H2 m a. rewrite H2, H1. destruct (decide (a ∈ word_ends c2)) as [Hi|Hi]; [rewrite decide_True by (apply elem_of_app; by right); done|].
    destruct (decide (a ∈ word_ends c1)) as [Hj|Hj]; [rewrite decide_True by (apply elem_of_app; by left); done|].
    rewrite decide_False by (by rewrite elem_of_app; intros [?|?]). done. }
  induction c as [argv|c IH file efile mode fd|l IHl r IHr|l IHl r IHr|c IH]; intros m a; cbn [nulterminate word_ends]; auto.
  destruct (decide (a = efile)) as [->|Hne]; [rewrite decide_True by (by left); by rewrite load8_store8_eq|].
  rewrite load8_store8_ne, IH by done. destruct (decide (a ∈ word_ends c)); [rewrite decide_True by (by right); done|].
  rewrite decide_False by (by rewrite elem_of_cons; intros [?|?]). done.
Qed.

Lemma shape_ends m c : forall t, shape (word_at m) c t -> forall e, e ∈ word_ends c -> load8 m e = 32.
Proof.
  induction c as [argv|c IH file efile mode fd|l IHl r IHr|l IHl r IHr|c IH]; intros [ws|t w md fd'|t1 t2|t1 t2|t] Hs e He; try done; cbn [shape word_ends] in *.
  - induction Hs as [|[q eq] w argv ws Hw _ IHs]; simpl in He; [by apply not_elem_of_nil in He|].
    apply elem_of_cons in He as [->|He]; [apply Hw|auto].
  - destruct Hs as (Hs & Hw & _). apply elem_of_cons in He as [->|He]; [apply Hw|by eapply IH].
  - destruct Hs. apply elem_of_app in He as [He|He]; [by eapply IHl|by eapply IHr].
  - destruct Hs. apply elem_of_app in He as [He|He]; [by eapply IHl|by eapply IHr].
  - by eapply IH.
Qed.

(** Once terminated, a word is a string. *)
Lemma word_terminated m m' (ends : list Z) q eq w : (forall e, e ∈ ends -> load8 m e = 32) ->
  (forall a, load8 m' a = if decide (a ∈ ends) then 0 else load8 m a) -> eq ∈ ends -> word_at m (q, eq) w -> is_str m' q w.
Proof.
  intros He Hm Hin ((_ & Hw) & Hn & Heq & _). simpl in *. split_and!.
  - eapply Forall_impl; [exact Hw|]. by intros x [_ Hx].
  - intros i Hi. rewrite Hm, decide_False; [by apply Hn|]. intros Hi'. apply He in Hi'. rewrite Hn in Hi' by done.
    pose proof (proj1 (Forall_nth _ 0 w) Hw i Hi) as [Hwc _]. rewrite Hi' in Hwc. done.
  - rewrite <- Heq, Hm. by rewrite decide_True.
Qed.

Lemma shape_terminated m m' (ends : list Z) c : (forall e, e ∈ ends -> load8 m e = 32) ->
  (forall a, load8 m' a = if decide (a ∈ ends) then 0 else load8 m a) ->
  forall t, (forall e, e ∈ word_ends c -> e ∈ ends) -> shape (word_at m) c t -> shape (fun qe w => is_str m' (fst qe) w) c t.
Proof.
  intros He Hm. induction c as [argv|c IH file efile mode fd|l IHl r IHr|l IHl r IHr|c IH];
    intros [ws|t w md fd'|t1 t2|t1 t2|t] Hin Hs; try done; cbn [shape word_ends] in *.
  - induction Hs as [|[q eq] w argv ws Hw _ IHs]; constructor.
    + eapply word_terminated; [exact He|exact Hm| |exact Hw]. apply Hin. by left.
    + apply IHs. intros e Hi. apply Hin. by right.
  - destruct Hs as (Hs & Hw & Hmd). split_and!; [apply IH; [intros e Hi; apply Hin; by right|done]| |apply Hmd|apply Hmd].
    eapply word_terminated; [exact He|exact Hm| |exact Hw]. apply Hin. by left.
  - destruct Hs. split; [apply IHl|apply IHr]; try done; intros e Hi; apply Hin, elem_of_app; auto.
  - destruct Hs. split; [apply IHl|apply IHr]; try done; intros e Hi; apply Hin, elem_of_app; auto.
  - by apply IH.
Qed.

Scheme line_mut := Induction for line Sort Prop
  with pipeline_mut := Induction for pipeline Sort Prop
  with simple_mut := Induction for simple Sort Prop.
Combined Scheme line_ind3 from line_mut, pipeline_mut, simple_mut.

Lemma redir_toks_ok rs : redirs_ok rs -> Forall token_ok (redir_toks rs).
Proof.
  induction 1 as [|[k w] rs Hw _ IH]; [constructor|]. cbn [redir_toks map concat app]. fold (redir_toks rs).
  constructor; [destruct k; simpl; [by repeat first [by left|right]|done|done]|]. by constructor.
Qed.

Lemma toks_ok : (forall l, line_ok l -> Forall token_ok (line_toks l)) /\ (forall p, pipe_ok p -> Forall token_ok (pipe_toks p)) /\
  (forall e, simple_ok e -> Forall token_ok (simple_toks e)).
Proof.
  assert (Hbg : forall bg, Forall token_ok (replicate bg (Sym 38))).
  { intros bg. apply Forall_replicate. simpl. do 4 right. by left. }
  apply line_ind3; cbn [line_ok pipe_ok simple_ok line_toks pipe_toks simple_toks].
  - intros p IHp bg Hp. apply Forall_app. auto.
  - intros p IHp bg l IHl [Hp Hl]. apply Forall_app. split; [auto|]. apply Forall_app. split; [done|]. constructor; [simpl; do 3 right; by left|auto].
  - auto.
  - intros e IHe p IHp [He Hp]. apply Forall_app. split; [auto|]. constructor; [by left|auto].
  - intros ws rs (Hw & _ & Hr). apply Forall_app. split; [|by apply redir_toks_ok]. clear - Hw. induction Hw; constructor; done.
  - intros l IHl rs [Hl Hr]. constructor; [simpl; right; by left|]. apply Forall_app. split; [auto|].
    constructor; [simpl; do 2 right; by left|by apply redir_toks_ok].
Qed.

(** C26. The shell reads back every command line: when a line (pipelines, lists,
    background jobs, blocks and redirections, fewer than ten words per command) is
    printed as tokens, parsecmd() returns the tree of the line, in which every word
    and file name is a NUL-terminated string in memory. *)
Theorem parse_print {K : UEnv} p l s : line_ok l -> is_str (u_mem s) p (show (line_toks l)) ->
  (length (show (line_toks l)) < ufuel)%nat -> Z.of_nat (length (show (line_toks l))) < 2 ^ 32 ->
  exists c, parsecmd p s = Ret c (set_u_mem (nulterminate c (u_mem s)) s) /\
    shape (fun qe w => is_str (nulterminate c (u_mem s)) (fst qe) w) c (line_tree l).
Proof.
  intros Hok Hl Hf Hw. set (m := u_mem s) in *. set (es := p + Z.of_nat (length (show (line_toks l)))).
  assert (Ht : text m es p (show (line_toks l))) by (by split).
  assert (Htk : toks m es p (line_toks l ++ [])) by (rewrite app_nil_r; split; [by apply toks_ok|done]).
  destruct (proj1 (parse_tokens m es (parse_fuel p es)) l [] p Hok Htk) as (c & p' & H1 & H2 & H3); [done| |].
  { rewrite app_nil_r. unfold parse_fuel, es. lia. }
  exists c. split.
  - unfold parsecmd. unfold bind at 1. rewrite (strlen_str p _ s Hl Hf Hw). unfold bind at 1, umem, gets. fold m es. rewrite H1.
    fold ws. rewrite (toks_skip m es p' [] H2). destruct H2 as [_ [_ H2]]. simpl in H2.
    destruct (Z.eqb_spec p' es); [done|lia].
  - apply (shape_terminated m _ (word_ends c)); [by eapply shape_ends|apply nulterminate_load|done|done].
Qed.

(** [( a < f | b ) > g & ; c] *)
Definition line1 : line :=
  Seq (Alone (Block (Last (Piped (Words [[97]] [(RIn, [102])]) (Alone (Words [[98]] []))) 0) [(ROut, [103])])) 1 (Last (Alone (Words [[99]] [])) 0).
Definition sh_env : UEnv := {| answer := fun _ _ => mkans 0 []; ufuel := 200 |}.
Definition sh_state : ustate := mkustate (write_bytes ∅ 100 (show (line_toks line1) ++ [0])) [] 0.

Lemma sh_state_str : is_str (u_mem sh_state) 100 (show (line_toks line1)).
Proof.
  split_and!; [by vm_compute; repeat constructor| |by vm_compute]. intros i Hi.
  by do 26 (destruct i as [|i]; [by vm_compute|]); vm_compute in Hi; lia.
Qed.

Lemma parse_print_witness : exists c, @parsecmd sh_env 100 sh_state = Ret c (set_u_mem (nulterminate c (u_mem sh_state)) sh_state) /\
  shape (fun qe w => is_str (nulterminate c (u_mem sh_state)) (fst qe) w) c (line_tree line1).
Proof.
  apply (@parse_print sh_env 100 line1 sh_state); [|apply sh_state_str|vm_compute; lia|vm_compute; reflexivity].
  cbn. split_and!; repeat constructor; done.
Defined.

Lemma parsecmd_terminates_witness : match @parsecmd sh_env 100 sh_state with Ret _ _ => True | _ => False end /\
  match @parsecmd sh_env 100 (set_u_mem (write_bytes ∅ 100 [40; 97; 0]) sh_state) with Stop s' => exists a t, u_trace s' = (Exit 1, a) :: t | _ => False end.
Proof.
  split.
  - pose proof (@parsecmd_terminates sh_env 100 _ sh_state sh_state_str ltac:(vm_compute; lia) ltac:(vm_compute; reflexivity)) as H. by vm_compute.
  - pose proof (@parsecmd_terminates sh_env 100 [40; 97] (set_u_mem (write_bytes ∅ 100 [40; 97; 0]) sh_state)) as H.
    destruct (parsecmd _ _) as [c s'|msg s'|s'] eqn:Hr; [by vm_compute in Hr|by vm_compute in Hr|].
    destruct H as (_ & a & t & Ht).
    + split_and!; [by repeat constructor| |by vm_compute]. intros i Hi. by do 2 (destruct i as [|i]; [by vm_compute|]); simpl in Hi; lia.
    + simpl. lia.
    + simpl. lia.
    + by exists a, (t ++ []).
Defined.
