(* ===== verification/Umalloc.v ===== *)
(** * The user memory allocator (user/umalloc.c)

    Kernighan and Ritchie's allocator: a circular list of free blocks in address
    order, threaded through their headers.  A header is 16 bytes, a pointer and a
    32-bit size in units of 16 bytes; [base] is the static header that starts the
    list and [u_freep] the static pointer into it, null before the first call. *)

From S2P Require Import Prelude Riscv Bytes CString Ulib.

Section umalloc.
Context {K : UEnv} (base : Z).

(** [p->s.ptr] and [p->s.size] *)
Definition hptr (m : memory) (p : Z) : Z := load64 m p.
Definition hsize (m : memory) (p : Z) : Z := load32 m (p + 8).
Definition set_hptr (p v : Z) : U unit := umod (fun m => store64 m p v).
Definition set_hsize (p v : Z) : U unit := umod (fun m => store32 m (p + 8) v).

(** The search of free(): the block after which [bp] belongs. *)
Fixpoint free_find (fuel : nat) (m : memory) (bp p : Z) : option Z :=
  match fuel with
  | O => None
  | S fuel' =>
      if (p <? bp) && (bp <? hptr m p) then Some p
      else if (hptr m p <=? p) && ((p <? bp) || (bp <? hptr m p)) then Some p
      else free_find fuel' m bp (hptr m p)
  end.

Definition free (ap : Z) : U unit :=
  let bp := ap - 16 in
  p0 <- gets u_freep;;
  p <- upart (fun m => free_find ufuel m bp p0);;
  m <- umem (fun m => m);;
  (if bp + 16 * hsize m bp =? hptr m p then
     set_hsize bp (u32 (hsize m bp + hsize m (hptr m p)));;
     m <- umem (fun m => m);;
     set_hptr bp (hptr m (hptr m p))
   else set_hptr bp (hptr m p));;
  m <- umem (fun m => m);;
  (if p + 16 * hsize m p =? bp then
     set_hsize p (u32 (hsize m p + hsize m bp));;
     m <- umem (fun m => m);;
     set_hptr p (hptr m bp)
   else set_hptr p bp);;
  modify (set_u_freep p).

Definition morecore (nu : Z) : U Z :=
  let nu := if nu <? 4096 then 4096 else nu in
  p <- sbrk (i32 (nu * 16));;
  if p =? -1 then ret 0
  else
    set_hsize p nu;;
    free (p + 16);;
    gets u_freep.

(** A turn of the loop of malloc() with [prevp] and [p]. *)
Definition malloc_turn (nunits : Z) '((prevp, p) : Z * Z) : U (Z * Z + Z) :=
  m <- umem (fun m => m);;
  if nunits <=? hsize m p then
    p' <- (if hsize m p =? nunits then set_hptr prevp (hptr m p);; ret p
           else
             set_hsize p (u32 (hsize m p - nunits));;
             m <- umem (fun m => m);;
             let p' := p + 16 * hsize m p in
             set_hsize p' nunits;;
             ret p');;
    modify (set_u_freep prevp);;
    ret (inr (p' + 16))
  else
    freep <- gets u_freep;;
    if p =? freep then
      p' <- morecore nunits;;
      if p' =? 0 then ret (inr 0)
      else m <- umem (fun m => m);; ret (inl (p', hptr m p'))
    else ret (inl (p, hptr m p)).

Definition malloc (nbytes : Z) : U Z :=
  let nunits := u32 ((nbytes + 16 - 1) / 16 + 1) in
  freep <- gets u_freep;;
  prevp <- (if freep =? 0 then
              modify (set_u_freep base);;
              set_hptr base base;;
              set_hsize base 0;;
              ret base
            else ret freep);;
  m <- umem (fun m => m);;
  loop (S ufuel) (malloc_turn nunits) (prevp, hptr m prevp).

End umalloc.
