(* ===== verification/UmallocSpec.v ===== *)
(** * The user allocator never hands out memory twice (user/umalloc.c)

    The heap is described by its free blocks, in address order and coalesced, and
    the blocks that are in use; all are disjoint.  malloc() moves a block from one
    side to the other, growing the heap when it must, and free() moves it back and
    coalesces.  Neither touches memory in use. *)

From S2P Require Import Prelude Riscv Bytes CString Ulib Umalloc.

(** A block: the address of its header and its size in units of 16 bytes. *)
Abbreviation blk := (Z * Z)%type.

(** ** Headers in memory *)

Lemma hptr_store64_eq m p v : 0 <= v < 2 ^ 64 -> hptr (store64 m p v) p = v.
Proof. apply load64_store64_eq. Qed.
Lemma hptr_store64_ne m p q v : q + 16 <= p \/ p + 16 <= q -> hptr (store64 m p v) q = hptr m q.
Proof. intros H. apply load64_store64_out. lia. Qed.
Lemma hsize_store64 m p q v : q = p \/ q + 16 <= p \/ p + 16 <= q -> hsize (store64 m p v) q = hsize m q.
Proof. intros H. apply load32_store64_out. lia. Qed.
Lemma hptr_store32 m p q v : q = p \/ q + 16 <= p \/ p + 16 <= q -> hptr (store32 m (p + 8) v) q = hptr m q.
Proof. intros H. apply load64_store32_out. lia. Qed.
Lemma hsize_store32_eq m p v : 0 <= v < 2 ^ 32 -> hsize (store32 m (p + 8) v) p = v.
Proof. apply load32_store32_eq. Qed.
Lemma hsize_store32_ne m p q v : q + 16 <= p \/ p + 16 <= q -> hsize (store32 m (p + 8) v) q = hsize m q.
Proof. intros H. apply load32_store32_out. lia. Qed.

(** A header depends on its sixteen bytes only. *)
Lemma header_ext m m' a : (forall x, a <= x < a + 16 -> load8 m' x = load8 m x) -> hptr m' a = hptr m a /\ hsize m' a = hsize m a.
Proof. intros H. split; [apply load64_ext|apply load32_ext]; intros; apply H; lia. Qed.

(** ** Lists of blocks *)

(** The address of the first block, or [e]. *)
Definition head_or (e : Z) (xs : list blk) : Z := match xs with [] => e | (a, _) :: _ => a end.

Lemma head_or_app e xs ys : head_or e (xs ++ ys) = head_or (head_or e ys) xs.
Proof. by destruct xs as [|[a n] xs]. Qed.

(** The headers of [xs] are linked, the last one to [e]. *)
Fixpoint linked (m : memory) (xs : list blk) (e : Z) : Prop :=
  match xs with
  | [] => True
  | (a, n) :: xs' => hptr m a = head_or e xs' /\ hsize m a = n /\ linked m xs' e
  end.

Lemma linked_app m xs ys e : linked m (xs ++ ys) e <-> linked m xs (head_or e ys) /\ linked m ys e.
Proof.
  induction xs as [|[a n] xs IH]; simpl; [tauto|]. rewrite IH, head_or_app. tauto.
Qed.

(** Memory agrees on the headers of [xs]. *)
Definition same_headers (m m' : memory) (xs : list blk) : Prop :=
  Forall (fun '(a, _) => hptr m' a = hptr m a /\ hsize m' a = hsize m a) xs.

Lemma linked_frame m m' xs e : same_headers m m' xs -> linked m xs e -> linked m' xs e.
Proof.
  induction 1 as [|[a n] xs [H1 H2] _ IH]; [done|]. cbn [linked]. rewrite H1, H2. tauto.
Qed.

(** In address order from [lo] on, with a gap after each block. *)
Fixpoint ordered (lo : Z) (xs : list blk) : Prop :=
  match xs with
  | [] => True
  | (a, n) :: xs' => lo <= a /\ 1 <= n /\ ordered (a + 16 * n + 1) xs'
  end.

Lemma ordered_weaken lo lo' xs : lo' <= lo -> ordered lo xs -> ordered lo' xs.
Proof. destruct xs as [|[a n] xs]; simpl; [done|]. intros ? (? & ? & ?). split_and!; (done || lia). Qed.

Lemma ordered_above lo xs : ordered lo xs -> Forall (fun '(a, n) => lo <= a /\ 1 <= n) xs.
Proof.
  revert lo. induction xs as [|[a n] xs IH]; intros lo H; simpl in H; [constructor|]. destruct H as (H1 & H2 & H3). constructor; [done|].
  eapply Forall_impl; [exact (IH _ H3)|]. intros [b k]. simpl. lia.
Qed.

Lemma ordered_app_1 lo xs ys : ordered lo (xs ++ ys) -> ordered lo xs.
Proof.
  revert lo. induction xs as [|[a n] xs IH]; intros lo H; [done|]. destruct H as (? & ? & H). split_and!; [done..|by apply IH].
Qed.

Lemma ordered_app_r lo xs ys : ordered lo (xs ++ ys) -> exists lo', ordered lo' ys.
Proof.
  revert lo. induction xs as [|[a n] xs IH]; intros lo H; [by exists lo|]. destruct H as (_ & _ & H). by apply IH in H.
Qed.

(** Blocks do not overlap. *)
Definition apart (x y : blk) : Prop := fst x + 16 * snd x <= fst y \/ fst y + 16 * snd y <= fst x.

Lemma apart_sym x y : apart x y -> apart y x.
Proof. unfold apart. tauto. Qed.

(** The bytes of the blocks. *)
Definition covers (xs : list blk) (x : Z) : Prop := Exists (fun '(a, n) => a <= x < a + 16 * n) xs.

Lemma covers_cons a n xs x : covers ((a, n) :: xs) x <-> a <= x < a + 16 * n \/ covers xs x.
Proof. apply Exists_cons. Qed.
Lemma covers_app xs ys x : covers (xs ++ ys) x <-> covers xs x \/ covers ys x.
Proof. apply Exists_app. Qed.

(** ** The abstract free list *)

(** A block put before a list, merged with its first block when they touch. *)
Definition join (b n : Z) (xs : list blk) : list blk :=
  match xs with
  | (c, k) :: xs' => if b + 16 * n =? c then (b, n + k) :: xs' else (b, n) :: xs
  | [] => [(b, n)]
  end.

(** Insertion in address order with coalescing on both sides: what free() does. *)
Fixpoint insert_free (b n : Z) (xs : list blk) : list blk :=
  match xs with
  | [] => [(b, n)]
  | (a, k) :: xs' => if b <? a then join b n xs else join a k (insert_free b n xs')
  end.

Lemma head_join e b n xs : head_or e (join b n xs) = b.
Proof. destruct xs as [|[c k] xs]; simpl; [done|]. by case_match. Qed.

Lemma join_far b n xs : b + 16 * n < head_or (b + 16 * n + 1) xs -> join b n xs = (b, n) :: xs.
Proof. destruct xs as [|[c k] xs]; simpl; [done|]. intros H. by destruct (Z.eqb_spec (b + 16 * n) c); [lia|]. Qed.

Lemma ordered_join lo b n xs : lo <= b -> 1 <= n -> ordered (b + 16 * n) xs -> ordered lo (join b n xs).
Proof.
  intros Hl Hn Ho. destruct xs as [|[c k] xs]; [done|]. cbn [join]. destruct Ho as (H1 & H2 & H3).
  destruct (Z.eqb_spec (b + 16 * n) c) as [Hc|Hc]; cbn [ordered]; split_and!; try lia; try done.
  eapply ordered_weaken; [|exact H3]. lia.
Qed.

Lemma covers_join lo b n xs x : 0 <= n -> ordered lo xs -> covers (join b n xs) x <-> b <= x < b + 16 * n \/ covers xs x.
Proof.
  intros Hn Ho. destruct xs as [|[c k] xs]; cbn [join]; [by rewrite covers_cons|]. destruct Ho as (_ & Hk & _).
  destruct (Z.eqb_spec (b + 16 * n) c) as [Hc|Hc]; rewrite !covers_cons; [|done]. intuition lia.
Qed.

Lemma insert_ordered b n xs : 1 <= n -> forall lo, lo <= b -> ordered lo xs -> Forall (apart (b, n)) xs -> ordered lo (insert_free b n xs).
Proof.
  intros Hn. induction xs as [|[a k] xs IH]; intros lo Hl Ho Hf; [done|]. destruct Ho as (H1 & H2 & H3). cbn [insert_free].
  apply Forall_cons in Hf as [Ha Hf]. unfold apart in Ha. simpl in Ha. destruct (Z.ltb_spec b a).
  - apply ordered_join; [done..|]. split_and!; [lia|done..].
  - apply ordered_join; [done..|]. apply IH; [lia| |done]. eapply ordered_weaken; [|exact H3]. lia.
Qed.

Lemma insert_covers b n xs x : 1 <= n -> forall lo, lo <= b -> ordered lo xs -> Forall (apart (b, n)) xs ->
  covers (insert_free b n xs) x <-> b <= x < b + 16 * n \/ covers xs x.
Proof.
  intros Hn. induction xs as [|[a k] xs IH]; intros lo Hl Ho Hf; [by cbn [insert_free]; rewrite covers_cons|]. pose proof Ho as (H1 & H2 & H3). cbn [insert_free].
  apply Forall_cons in Hf as [Ha Hf]. unfold apart in Ha. simpl in Ha. destruct (Z.ltb_spec b a).
  - by erewrite covers_join by (exact Ho || lia).
  - assert (Ho' : ordered (a + 16 * k) xs) by (eapply ordered_weaken; [|exact H3]; lia).
    erewrite covers_join by (lia || (apply insert_ordered; [exact Hn| |exact Ho'|exact Hf]; lia)).
    rewrite (IH (a + 16 * k)), covers_cons by (done || lia). tauto.
Qed.

(** The inserted block lies in one block of the list. *)
Definition room (n : Z) (xs : list blk) : Prop := Exists (fun '(_, k) => n <= k) xs.

Lemma room_join b n j xs : 1 <= n -> 0 <= j -> room j xs \/ j <= n -> Forall (fun '(_, k) => 1 <= k) xs -> room j (join b n xs).
Proof.
  intros Hn Hj Hr Hf. destruct xs as [|[c k] xs]; cbn [join].
  - destruct Hr as [Hr|Hr]; [by apply Exists_nil in Hr|by left].
  - apply Forall_cons in Hf as [Hk _]. unfold room in *. case_match; rewrite !Exists_cons in *; intuition lia.
Qed.

Lemma insert_room b n xs : 1 <= n -> forall lo, ordered lo xs -> lo <= b -> Forall (apart (b, n)) xs -> room n (insert_free b n xs).
Proof.
  intros Hn. induction xs as [|[a k] xs IH]; intros lo Ho Hl Hf; [by left|]. pose proof Ho as (H1 & H2 & H3). cbn [insert_free].
  apply Forall_cons in Hf as [Ha Hf]. unfold apart in Ha. simpl in Ha. destruct (Z.ltb_spec b a).
  - apply room_join; [done|lia|by right|]. eapply Forall_impl; [exact (ordered_above _ _ Ho)|]. intros [??]. tauto.
  - assert (Ho' : ordered (a + 16 * k) xs) by (eapply ordered_weaken; [|exact H3]; lia).
    apply room_join; [done|lia|left; apply (IH (a + 16 * k)); (done || lia)|].
    eapply Forall_impl; [apply (ordered_above (a + 16 * k)), insert_ordered; [done|lia|done..]|]. intros [??]. tauto.
Qed.

Lemma insert_nonempty b n xs : insert_free b n xs <> [].
Proof.
  assert (Hj : forall c k ys, join c k ys <> []) by (intros c k [|[d j] ys]; cbn [join]; [done|by case_match]).
  destruct xs as [|[a k] xs]; cbn [insert_free]; [done|]. case_match; apply Hj.
Qed.

Lemma length_join b n xs : (length (join b n xs) <= S (length xs))%nat.
Proof. destruct xs as [|[c k] xs]; cbn [join]; [done|]. case_match; simpl; lia. Qed.

Lemma length_insert b n xs : (length (insert_free b n xs) <= S (length xs))%nat.
Proof.
  induction xs as [|[a k] xs IH]; cbn [insert_free]; [done|]. case_match; [apply length_join|].
  etransitivity; [apply length_join|]. simpl. lia.
Qed.

Lemma apart_join x b n xs : 1 <= snd x -> apart x (b, n) -> Forall (apart x) xs -> Forall (apart x) (join b n xs).
Proof.
  intros Hx Hb Hf. destruct xs as [|[c k] xs]; cbn [join]; [by constructor|]. destruct (Z.eqb_spec (b + 16 * n) c); [|by constructor].
  apply Forall_cons in Hf as [Hc Hf]. constructor; [|done]. unfold apart in *. simpl in *. lia.
Qed.

Lemma apart_insert x b n xs : 1 <= snd x -> apart x (b, n) -> Forall (apart x) xs -> Forall (apart x) (insert_free b n xs).
Proof.
  intros Hx Hb. induction xs as [|[a k] xs IH]; intros Hf; cbn [insert_free]; [by constructor|]. case_match; [by apply apart_join|].
  apply Forall_cons in Hf as [Ha Hf]. apply apart_join; [done..|by apply IH].
Qed.

Definition below (top : Z) (xs : list blk) : Prop := Forall (fun '(a, n) => a + 16 * n <= top) xs.

Lemma below_join top b n xs : below top ((b, n) :: xs) -> below top (join b n xs).
Proof.
  intros H. apply Forall_cons in H as [Hb Hf]. destruct xs as [|[c k] xs]; cbn [join]; [by constructor|].
  destruct (Z.eqb_spec (b + 16 * n) c); [|by constructor]. apply Forall_cons in Hf as [? Hf]. constructor; [lia|done].
Qed.

Lemma below_insert top b n xs : b + 16 * n <= top -> below top xs -> below top (insert_free b n xs).
Proof.
  intros Hb. induction xs as [|[a k] xs IH]; intros Hf; cbn [insert_free]; [by constructor|]. case_match; [by apply below_join; constructor|].
  apply Forall_cons in Hf as [Ha Hf]. apply below_join. constructor; [done|by apply IH].
Qed.

(** What malloc() does to the list: the end of a large enough block is taken. *)
Definition taken (n b : Z) (xs ys : list blk) : Prop :=
  exists X p k V, xs = X ++ (p, k) :: V /\ n <= k /\ b = p + 16 * (k - n) /\ ys = X ++ (if k =? n then V else (p, k - n) :: V).

Lemma ordered_sub lo X p k j V : 1 <= j <= k -> ordered lo (X ++ (p, k) :: V) -> ordered lo (X ++ V) /\ ordered lo (X ++ (p, j) :: V).
Proof.
  intros Hj. revert lo. induction X as [|[a i] X IH]; intros lo H; cbn [app ordered] in *.
  - destruct H as (H1 & H2 & H3). split; [eapply ordered_weaken; [|exact H3]; lia|]. split_and!; [done|lia|eapply ordered_weaken; [|exact H3]; lia].
  - destruct H as (H1 & H2 & H3). destruct (IH _ H3). done.
Qed.

Lemma taken_ordered n b xs ys lo : 1 <= n -> taken n b xs ys -> ordered lo xs -> ordered lo ys.
Proof.
  intros Hn (X & p & k & V & -> & Hk & _ & ->) Ho. destruct (Z.eqb_spec k n); [apply (ordered_sub lo X p k k V); (done || lia)|].
  apply (ordered_sub lo X p k (k - n) V); (done || lia).
Qed.

Lemma taken_forall (P : blk -> Prop) n b xs ys : (forall p k j, P (p, k) -> 1 <= j <= k -> P (p, j)) -> 1 <= n ->
  taken n b xs ys -> Forall P xs -> Forall P ys.
Proof.
  intros HP Hn (X & p & k & V & -> & Hk & _ & ->) H. rewrite Forall_app, Forall_cons in H. destruct H as (HX & Hp & HV).
  apply Forall_app. split; [done|]. destruct (Z.eqb_spec k n); [done|]. constructor; [|done]. apply (HP p k); [done|lia].
Qed.

Lemma taken_covers n b xs ys x : 1 <= n -> taken n b xs ys -> covers xs x <-> covers ys x \/ b <= x < b + 16 * n.
Proof.
  intros Hn (X & p & k & V & -> & Hk & -> & ->). rewrite !covers_app, covers_cons.
  destruct (Z.eqb_spec k n); rewrite ?covers_cons; intuition lia.
Qed.

(** A part of a block is apart from what the block is apart from. *)
Lemma taken_apart n b xs ys z : 1 <= n -> taken n b xs ys -> Forall (apart z) xs -> apart z (b, n).
Proof.
  intros Hn (X & p & k & V & -> & Hk & -> & _) H. rewrite Forall_app, Forall_cons in H. destruct H as (_ & Hp & _). unfold apart in *. simpl in *. lia.
Qed.

Lemma ordered_apart lo X p k V : ordered lo (X ++ (p, k) :: V) -> Forall (apart (p, k)) (X ++ V).
Proof.
  revert lo. induction X as [|[a i] X IH]; intros lo H; cbn [app] in *; destruct H as (H1 & H2 & H3).
  - eapply Forall_impl; [exact (ordered_above _ _ H3)|]. intros [c j]. unfold apart. simpl. lia.
  - constructor; [|by eapply IH]. apply ordered_above in H3. rewrite Forall_app, Forall_cons in H3. destruct H3 as (_ & [? ?] & _). unfold apart. simpl. lia.
Qed.

Lemma taken_disjoint n b xs ys lo : 1 <= n -> taken n b xs ys -> ordered lo xs -> Forall (apart (b, n)) ys.
Proof.
  intros Hn (X & p & k & V & -> & Hk & -> & ->) Ho. apply ordered_apart in Ho. apply Forall_app in Ho as [HX HV].
  assert (Hsub : forall zs, Forall (apart (p, k)) zs -> Forall (apart (p + 16 * (k - n), n)) zs).
  { intros zs H. eapply Forall_impl; [exact H|]. intros [c j]. unfold apart. simpl. lia. }
  apply Forall_app. split; [by apply Hsub|]. destruct (Z.eqb_spec k n); [by apply Hsub|]. constructor; [unfold apart; simpl; lia|by apply Hsub].
Qed.

(** A block falls between two parts of the list. *)
Lemma split_at b n : 1 <= n -> forall xs lo, ordered lo xs -> Forall (apart (b, n)) xs ->
  exists pre post, xs = pre ++ post /\ Forall (fun '(a, k) => a + 16 * k <= b) pre /\ ordered (b + 16 * n) post.
Proof.
  intros Hn. induction xs as [|[a k] xs IH]; intros lo Ho Hf; [by exists [], []|]. destruct Ho as (H1 & H2 & H3).
  apply Forall_cons in Hf as [Ha Hf]. unfold apart in Ha. simpl in Ha. destruct Ha as [Ha|Ha].
  - exists [], ((a, k) :: xs). split_and!; [done|constructor|]. split_and!; [lia|done..].
  - destruct (IH _ H3 Hf) as (pre & post & -> & Hp & Hq). exists ((a, k) :: pre), post. split_and!; [done|by constructor|done].
Qed.

Lemma insert_here b n xs : 1 <= n -> ordered (b + 16 * n) xs -> insert_free b n xs = join b n xs.
Proof. destruct xs as [|[a k] xs]; [done|]. intros Hn (H1 & _). cbn [insert_free]. destruct (Z.ltb_spec b a); [done|lia]. Qed.

Lemma insert_split b n p k post : 1 <= n -> ordered (b + 16 * n) post -> p + 16 * k <= b ->
  forall A lo, ordered lo (A ++ (p, k) :: post) ->
  insert_free b n (A ++ (p, k) :: post) = A ++ join p k (join b n post).
Proof.
  intros Hn Hpost Hp. induction A as [|[a j] A IH]; intros lo Ho; cbn [app insert_free] in *.
  - destruct Ho as (_ & Hk & _). destruct (Z.ltb_spec b p); [lia|]. by rewrite insert_here.
  - destruct Ho as (H1 & H2 & H3). rewrite (IH _ H3). pose proof (ordered_above _ _ H3) as Hf. rewrite Forall_app, Forall_cons in Hf. destruct Hf as (Hf & [? ?] & _).
    destruct (Z.ltb_spec b a); [lia|]. apply join_far. rewrite head_or_app, head_join.
    destruct A as [|[c i] A]; simpl; [lia|]. apply Forall_cons in Hf as [? _]. lia.
Qed.

(** ** The search of free() *)

(** Addresses ascend, with room for the headers. *)
Fixpoint ascend (lo : Z) (xs : list blk) : Prop :=
  match xs with [] => True | (a, _) :: xs' => lo + 16 <= a /\ ascend a xs' end.

Lemma ordered_ascend lo lo' xs : lo' + 16 <= lo -> ordered lo xs -> ascend lo' xs.
Proof.
  revert lo lo'. induction xs as [|[a n] xs IH]; intros lo lo' Hl H; simpl in *; [done|]. destruct H as (H1 & H2 & H3). split; [lia|].
  eapply IH; [|exact H3]. lia.
Qed.

Lemma ascend_above lo xs : ascend lo xs -> Forall (fun '(a, _) => lo + 16 <= a) xs.
Proof.
  revert lo. induction xs as [|[a n] xs IH]; intros lo H; [constructor|]. destruct H as [H1 H2]. constructor; [done|].
  eapply Forall_impl; [exact (IH _ H2)|]. intros [b j]. lia.
Qed.

Lemma ascend_app lo xs p k ys : ascend lo (xs ++ (p, k) :: ys) ->
  Forall (fun '(a, _) => lo + 16 <= a /\ a + 16 <= p) xs /\ lo + 16 <= p /\ ascend p ys.
Proof.
  revert lo. induction xs as [|[a n] xs IH]; intros lo H; simpl in H; [split_and!; [constructor|apply H|apply H]|]. destruct H as [H1 H2].
  destruct (IH _ H2) as (I1 & I2 & I3). split_and!; [|lia|done]. constructor; [lia|]. eapply Forall_impl; [exact I1|]. intros [b j]. lia.
Qed.

Section find.
Context (m : memory) (base bp : Z) (A : list blk) (p k : Z) (post : list blk).
Context (Hlk : linked m (A ++ (p, k) :: post) base).
Context (Hasc : ascend (base - 16) (A ++ (p, k) :: post)) (Hp : p < bp).
Context (Hpost : Forall (fun '(a, _) => bp < a) post) (Hbase : head_or p A = base).

Lemma base_le_p : base <= p.
Proof. destruct (ascend_app _ _ _ _ _ Hasc) as (_ & H & _). lia. Qed.

Lemma find_here fuel : (0 < fuel)%nat -> free_find fuel m bp p = Some p.
Proof.
  intros Hf. destruct fuel as [|fuel]; [lia|]. cbn [free_find]. apply linked_app in Hlk as [_ (Hn & _ & _)]. rewrite Hn. pose proof base_le_p.
  destruct (Z.ltb_spec p bp); [|lia]. destruct post as [|[a n] post']; simpl.
  - destruct (Z.ltb_spec bp base); [lia|]. destruct (Z.leb_spec base p); [done|lia].
  - apply Forall_cons in Hpost as [Ha _]. destruct (Z.ltb_spec bp a); [done|lia].
Qed.

Lemma find_before A2 : forall A1 fuel, A = A1 ++ A2 -> (length A2 < fuel)%nat -> free_find fuel m bp (head_or p A2) = Some p.
Proof.
  induction A2 as [|[a n] A2 IH]; intros A1 [|fuel] HA Hf; simpl in Hf; try lia; [by apply find_here; lia|].
  cbn [head_or free_find]. pose proof Hlk as Hl. rewrite HA, <- app_assoc in Hl. apply linked_app in Hl as [_ Hl]. cbn [app] in Hl. destruct Hl as (Hn & _ & _).
  rewrite head_or_app in Hn. cbn [head_or] in Hn. rewrite Hn.
  pose proof Hasc as Ha. rewrite HA, <- app_assoc in Ha. cbn [app] in Ha. destruct (ascend_app _ _ _ _ _ Ha) as (_ & _ & Ha2).
  destruct (ascend_app _ _ _ _ _ Ha2) as (Hb & Hap & _).
  assert (Hnext : a < head_or p A2 <= p) by (destruct A2 as [|[b j] A2']; simpl; [lia|apply Forall_cons in Hb as [? _]; lia]).
  destruct (Z.ltb_spec bp (head_or p A2)); [lia|]. rewrite andb_false_r. destruct (Z.leb_spec (head_or p A2) a); [lia|]. cbn [andb].
  apply (IH (A1 ++ [(a, n)])); [by rewrite <- app_assoc|lia].
Qed.

Lemma find_after B2 : forall B1 fuel, post = B1 ++ B2 -> (length B2 + length A < fuel)%nat -> free_find fuel m bp (head_or base B2) = Some p.
Proof.
  induction B2 as [|[b n] B2 IH]; intros B1 fuel HB Hf; simpl in Hf.
  - cbn [head_or]. rewrite <- Hbase. apply (find_before A []); [done|lia].
  - destruct fuel as [|fuel]; [lia|]. cbn [head_or free_find]. pose proof Hlk as Hl. rewrite HB in Hl. apply linked_app in Hl as [_ (_ & _ & Hl)].
    apply linked_app in Hl as [_ (Hn & _ & _)]. rewrite Hn. pose proof Hpost as Hq. rewrite HB in Hq. apply Forall_app in Hq as [_ Hq].
    apply Forall_cons in Hq as [Hb _]. destruct (Z.ltb_spec b bp); [lia|]. cbn [andb orb].
    destruct (ascend_app _ _ _ _ _ Hasc) as (_ & _ & Ha). rewrite HB in Ha. destruct (ascend_app _ _ _ _ _ Ha) as (_ & _ & Ha2). pose proof base_le_p.
    assert (Hnx : (head_or base B2 <=? b) && (bp <? head_or base B2) = false).
    { destruct B2 as [|[c j] B2']; simpl; [destruct (Z.ltb_spec bp base); [lia|]; by rewrite andb_false_r|].
      destruct Ha2 as [Hbc _]. destruct (Z.leb_spec c b); [lia|done]. }
    rewrite Hnx. apply (IH (B1 ++ [(b, n)])); [by rewrite <- app_assoc|lia].
Qed.

Lemma suffix_of x (xs : list blk) e : x ∈ map fst xs -> exists xs1 xs2, xs = xs1 ++ xs2 /\ head_or e xs2 = x.
Proof.
  induction xs as [|[a n] xs IH]; simpl; intros H; [by apply not_elem_of_nil in H|]. apply elem_of_cons in H as [->|H].
  - by exists [], ((a, n) :: xs).
  - destruct (IH H) as (xs1 & xs2 & -> & Hx). by exists ((a, n) :: xs1), xs2.
Qed.

(** From any block of the list, the search ends at the block before [bp]. *)
Lemma free_find_spec freep fuel : freep ∈ map fst (A ++ (p, k) :: post) -> (length A + length post + 1 < fuel)%nat ->
  free_find fuel m bp freep = Some p.
Proof.
  intros Hin Hf. rewrite map_app in Hin. apply elem_of_app in Hin as [Hin|Hin].
  - destruct (suffix_of freep A p Hin) as (A1 & A2 & HA & <-). eapply find_before; [exact HA|]. apply (f_equal length) in HA. rewrite length_app in HA. lia.
  - apply elem_of_cons in Hin as [->|Hin]; [apply find_here; simpl; lia|].
    destruct (suffix_of freep post base Hin) as (B1 & B2 & HB & <-). eapply find_after; [exact HB|]. apply (f_equal length) in HB. rewrite length_app in HB. lia.
Qed.

End find.

(** ** free() *)

(** What free() writes to the header at [b] when [q] is the block after it: [q] is
    absorbed if the blocks touch, and linked otherwise. *)
Definition attach (m : memory) (b q : Z) : memory :=
  if b + 16 * hsize m b =? q
  then let m' := store32 m (b + 8) (u32 (hsize m b + hsize m q)) in store64 m' b (hptr m' q)
  else store64 m b q.

Lemma attach_out m b q x : x < b \/ b + 16 <= x -> load8 (attach m b q) x = load8 m x.
Proof.
  intros H. unfold attach. case_match; cbv zeta; rewrite load8_store64_out by lia; [|done]. by rewrite load8_store32_out by lia.
Qed.

Lemma attach_headers m b q xs : Forall (fun '(a, _) => a + 16 <= b \/ b + 16 <= a) xs -> same_headers m (attach m b q) xs.
Proof.
  intros H. eapply Forall_impl; [exact H|]. intros [a k] Ha. apply header_ext. intros x Hx. apply attach_out. lia.
Qed.

Definition addr_ok (a : Z) : Prop := 0 <= a < 2 ^ 64.

Lemma head_or_ok e xs : addr_ok e -> Forall (fun '(a, _) => addr_ok a) xs -> addr_ok (head_or e xs).
Proof. intros He Hf. destruct xs as [|[a n] xs]; [done|]. by apply Forall_cons in Hf as [? _]. Qed.

Lemma attach_linked m b n xs e : hsize m b = n -> 0 <= n -> linked m xs e -> addr_ok e -> (xs = [] -> b + 16 * n <> e) ->
  Forall (fun '(a, k) => addr_ok a /\ b + 16 <= a /\ 0 <= k /\ n + k < 2 ^ 32) xs ->
  linked (attach m b (head_or e xs)) (join b n xs) e.
Proof.
  intros Hs Hn Hl He Hne Hf.
  assert (Hpost : same_headers m (attach m b (head_or e xs)) xs) by (apply attach_headers; eapply Forall_impl; [exact Hf|]; intros [a k]; lia).
  assert (Hok : Forall (fun '(a, _) => addr_ok a) xs) by (eapply Forall_impl; [exact Hf|]; intros [a k]; tauto).
  unfold attach in *. rewrite Hs in *. destruct xs as [|[c k] xs]; cbn [head_or join linked] in *.
  - destruct (Z.eqb_spec (b + 16 * n) e); [by destruct (Hne eq_refl)|]. by rewrite hptr_store64_eq, hsize_store64 by auto.
  - apply Forall_cons in Hf as [(Hc & Hbc & Hk & Hnk) _]. destruct Hl as (Hl1 & Hl2 & Hl3). apply Forall_cons in Hok as [_ Hok].
    destruct (Z.eqb_spec (b + 16 * n) c) as [Heq|Hneq]; cbv zeta in *; cbn [linked].
    + assert (Hu : u32 (n + hsize m c) = n + k) by (unfold u32; rewrite Hl2; apply Z.mod_small; lia). rewrite Hu in *.
      rewrite hptr_store32, Hl1 in * by lia. rewrite hptr_store64_eq by by apply head_or_ok.
      rewrite hsize_store64, hsize_store32_eq by (auto || lia). split_and!; [done..|].
      apply Forall_cons in Hpost as [_ Hpost]. by eapply linked_frame.
    + rewrite hptr_store64_eq, hsize_store64 by auto. split; [done|]. split; [done|]. by eapply (linked_frame m _ ((c, k) :: xs)).
Qed.

Section heap.
Context {K : UEnv} (base : Z).

(** The free list with its static header. *)
Abbreviation nodes L := ((base, 0) :: L).

Lemma free_run s b p : free_find ufuel (u_mem s) b (u_freep s) = Some p -> p + 16 <= b ->
  free (b + 16) s = Ret tt (mkustate (attach (attach (u_mem s) b (hptr (u_mem s) p)) p b) (u_trace s) p).
Proof.
  intros Hf Hp. unfold free. replace (b + 16 - 16) with b by lia. unfold set_hsize, set_hptr, upart, umem, umod, bind, gets, modify.
  cbn [u_mem u_freep set_u_mem]. rewrite Hf. unfold ret, attach at 2. cbn [u_mem u_trace u_freep set_u_mem].
  destruct (b + 16 * hsize (u_mem s) b =? hptr (u_mem s) p); cbn [u_mem u_trace u_freep set_u_mem]; cbv zeta;
    rewrite ?(hptr_store32 _ b p) by lia;
    match goal with |- context [attach ?m p b] => set (m1 := m) end; unfold attach; by destruct (p + 16 * hsize m1 p =? b).
Qed.

(** The search splits the list at the block before [b]. *)
Lemma nodes_split L b n : 1 <= n -> ordered (base + 16) L -> base + 16 <= b -> Forall (apart (b, n)) L ->
  exists A p k post, nodes L = A ++ (p, k) :: post /\ nodes (insert_free b n L) = A ++ join p k (join b n post) /\
    p + 16 <= b /\ p + 16 * k <= b /\ 0 <= k /\ ordered (b + 16 * n) post /\ Forall (fun '(a, _) => a + 16 <= p) A.
Proof.
  intros Hn Ho Hb Hf. destruct (split_at b n Hn L _ Ho Hf) as (pre & post & -> & Hpre & Hpost).
  destruct pre as [|[p k] A _] using rev_ind.
  - exists [], base, 0, post. cbn [app]. rewrite insert_here by done. rewrite (join_far base 0).
    + split_and!; (done || lia).
    + rewrite head_join. lia.
  - rewrite <- app_assoc in *. cbn [app] in *. apply Forall_app in Hpre as [_ Hpre]. apply Forall_cons in Hpre as [Hp _].
    pose proof (ordered_above _ _ Ho) as Ha. rewrite Forall_app, Forall_cons in Ha. destruct Ha as (Ha & [Hp1 Hk] & _).
    exists ((base, 0) :: A), p, k, post. erewrite insert_split by done. split_and!; try (done || lia). constructor; [lia|].
    clear -Ho. revert Ho. generalize (base + 16). induction A as [|[a j] A IH]; intros lo Ho; constructor.
    + destruct Ho as (_ & ? & H3). apply ordered_above in H3. rewrite Forall_app, Forall_cons in H3. destruct H3 as (_ & [? ?] & _). lia.
    + destruct Ho as (_ & _ & H3). by eapply IH.
Qed.

Lemma nodes_ascend L : ordered (base + 16) L -> ascend (base - 16) (nodes L).
Proof. intros Ho. split; [lia|]. eapply ordered_ascend; [|exact Ho]. lia. Qed.

Lemma sizes_fit lo p k xs top : 0 < p -> p + 16 <= lo -> p + 16 * k <= lo -> ordered lo xs -> below top xs -> top <= 2 ^ 36 ->
  Forall (fun '(a, j) => addr_ok a /\ p + 16 <= a /\ 0 <= j /\ k + j < 2 ^ 32) xs.
Proof.
  intros Hp H16 Hk Ho Ht Htop. apply ordered_above in Ho. eapply Forall_impl; [apply Forall_and; split; [exact Ho|exact Ht]|].
  intros [a j]. unfold addr_ok. lia.
Qed.

(** free() on the list: [insert_free], and no byte outside the free memory changes. *)
Lemma free_list s L b n top : 0 < base -> 1 <= n -> linked (u_mem s) (nodes L) base -> ordered (base + 16) L -> u_freep s ∈ map fst (nodes L) ->
  hsize (u_mem s) b = n -> base + 16 <= b -> Forall (apart (b, n)) L -> below top ((b, n) :: L) -> top <= 2 ^ 36 -> (length L + 1 < ufuel)%nat ->
  wp (free (b + 16)) (fun _ s' => u_trace s' = u_trace s /\ linked (u_mem s') (nodes (insert_free b n L)) base /\
     u_freep s' ∈ map fst (nodes (insert_free b n L)) /\
     forall x, ~ covers ((base, 1) :: (b, n) :: L) x -> load8 (u_mem s') x = load8 (u_mem s) x) s.
Proof.
  intros Hpos Hn Hl Ho Hfp Hs Hb Hf Htop H36 Hfuel.
  destruct (nodes_split L b n Hn Ho Hb Hf) as (A & p & k & post & HL & HI & Hp16 & Hpk & Hk & Hpost & HA).
  assert (Hfind : free_find ufuel (u_mem s) b (u_freep s) = Some p).
  { apply (free_find_spec _ base b A p k post); rewrite <- ?HL; try done.
    - by apply nodes_ascend.
    - lia.
    - eapply Forall_impl; [exact (ordered_above _ _ Hpost)|]. intros [a j]. lia.
    - destruct A as [|[a j] A]; simpl in HL; simplify_eq; done.
    - apply (f_equal length) in HL. rewrite length_app in HL. simpl in HL. lia. }
  eapply wp_eq; [by apply free_run|]. cbn [u_trace u_mem u_freep]. rewrite HI. split; [done|].
  apply Forall_cons in Htop as [Hbt Htop].
  assert (HbL : below top post) by (destruct A as [|[a j] A]; simpl in HL; simplify_eq; [done|]; apply Forall_app in Htop as [_ Htop]; by apply Forall_cons in Htop as [_ ?]).
  pose proof Hl as Hl'. rewrite HL in Hl'. apply linked_app in Hl' as [HlA (Hpn & Hps & Hlp)].
  set (m1 := attach (u_mem s) b (hptr (u_mem s) p)).
  assert (H1 : linked m1 (join b n post) base).
  { unfold m1. rewrite Hpn. apply attach_linked; [done|lia|done|unfold addr_ok; lia|intros _; lia|].
    eapply (sizes_fit (b + 16 * n)); (done || lia). }
  assert (H1p : same_headers (u_mem s) m1 ((p, k) :: A)).
  { apply attach_headers. constructor; [lia|]. eapply Forall_impl; [exact HA|]. intros [a j]. lia. }
  apply Forall_cons in H1p as [[_ H1p] H1A].
  split_and!.
  - apply linked_app. rewrite head_join. split.
    + eapply linked_frame; [apply attach_headers; eapply Forall_impl; [exact HA|]; intros [a j]; lia|]. by eapply linked_frame.
    + rewrite <- (head_join base b n post) at 1. apply attach_linked; [congruence|lia|done|unfold addr_ok; lia|intros Hj; apply (f_equal (head_or (b - 1))) in Hj; rewrite head_join in Hj; simpl in Hj; lia|].
      apply (sizes_fit b _ _ _ top); try (done || lia); [|by apply ordered_join|by apply below_join; constructor].
      destruct A as [|[a j] A]; simpl in HL; simplify_eq; [done|]. apply Forall_cons in HA as [? _]. lia.
  - rewrite map_app. apply elem_of_app. right. destruct (join b n post) as [|[c j] xs]; cbn [join]; [by left|]. case_match; by left.
  - intros x Hx. rewrite !covers_cons in Hx.
    assert (Hx2 : ~ (p <= x < p + 16)).
    { intros ?. apply Hx. destruct A as [|[a j] A]; simpl in HL; simplify_eq; [lia|]. right; right. apply covers_app. right. rewrite covers_cons. left.
      apply ordered_above in Ho. rewrite Forall_app, Forall_cons in Ho. destruct Ho as (_ & [? ?] & _). lia. }
    rewrite attach_out by lia. unfold m1. apply attach_out. lia.
Qed.

(** ** The heap *)

(** The break after the calls of a trace, from [brk0]: the sum of the increments granted. *)
Fixpoint brk (brk0 : Z) (t : list (call * ans)) : Z :=
  match t with
  | [] => brk0
  | (Sbrk n, a) :: t' => if a_ret a =? -1 then brk brk0 t' else brk brk0 t' + n
  | _ :: t' => brk brk0 t'
  end.

(** What umalloc.c relies on from the kernel: sbrk refuses with -1 or returns the old
    break, and a process never grows past [2^36] bytes. *)
Class SbrkLaw (brk0 : Z) : Prop := sbrk_law t n :
  a_ret (answer t (Sbrk n)) = -1 \/ a_ret (answer t (Sbrk n)) = brk brk0 t /\ brk brk0 t + n <= 2 ^ 36.

Context (brk0 : Z) `{HK : SbrkLaw brk0}.

(** The heap with its free blocks [L] and the blocks [live] in use. *)
Record heap (s : ustate) (L live : list blk) : Prop := mkheap {
  h_list : (u_freep s = 0 /\ L = [] /\ live = []) \/ (u_freep s ∈ map fst (nodes L) /\ linked (u_mem s) (nodes L) base);
  h_ordered : ordered (base + 16) L;
  h_free : below (brk brk0 (u_trace s)) L;
  h_live : Forall (fun '(a, n) => base + 16 <= a /\ 1 <= n /\ hsize (u_mem s) a = n) live;
  h_top : below (brk brk0 (u_trace s)) live;
  h_disjoint : ForallOrdPairs apart live;
  h_apart : Forall (fun x => Forall (apart x) L) live;
  h_brk : base + 16 <= brk brk0 (u_trace s) <= 2 ^ 36
}.

(** The bytes of the blocks in use are the same, headers included. *)
Definition keeps (s s' : ustate) (live : list blk) : Prop :=
  forall x, covers live x -> load8 (u_mem s') x = load8 (u_mem s) x.

Lemma keeps_headers s s' live : keeps s s' live -> Forall (fun '(a, n) => base + 16 <= a /\ 1 <= n /\ hsize (u_mem s) a = n) live ->
  Forall (fun '(a, n) => base + 16 <= a /\ 1 <= n /\ hsize (u_mem s') a = n) live.
Proof.
  intros Hk Hf. apply Forall_forall. intros [a n] Hin. pose proof (proj1 (Forall_forall _ _) Hf _ Hin) as (H1 & H2 & H3). split_and!; [done..|].
  rewrite <- H3. apply header_ext. intros x Hx. apply Hk, Exists_exists. exists (a, n). split; [done|]. lia.
Qed.

Lemma covers_apart x xs y : Forall (apart x) xs -> fst x <= y < fst x + 16 * snd x -> ~ covers xs y.
Proof. intros Hf Hy Hc. apply Exists_exists in Hc as ([a n] & Hin & Ha). apply (proj1 (Forall_forall _ _) Hf) in Hin. unfold apart in Hin. simpl in Hin. lia. Qed.

(** A change of the free memory and of the static header keeps the blocks in use. *)
Lemma free_keeps s s' F live : Forall (fun '(a, n) => base + 16 <= a /\ 1 <= n /\ hsize (u_mem s) a = n) live ->
  Forall (fun x => Forall (apart x) F) live ->
  (forall x, ~ covers ((base, 1) :: F) x -> load8 (u_mem s') x = load8 (u_mem s) x) -> keeps s s' live.
Proof.
  intros Hl Ha Hm x Hx. apply Hm. apply Exists_exists in Hx as ([a n] & Hin & Hx).
  pose proof (proj1 (Forall_forall _ _) Hl _ Hin) as (H1 & H2 & H3). pose proof (proj1 (Forall_forall _ _) Ha _ Hin) as Hf.
  rewrite covers_cons. intros [?|Hc]; [lia|]. by apply (covers_apart (a, n) F x Hf) in Hc.
Qed.

Lemma wp_free s L live b n : 0 < base -> heap s L ((b, n) :: live) -> (length L + 1 < ufuel)%nat ->
  wp (free (b + 16)) (fun _ s' => heap s' (insert_free b n L) live /\ u_trace s' = u_trace s /\ keeps s s' live) s.
Proof.
  intros Hpos [[(_ & _ & ?)|[Hfp Hl]] Ho Hfree Hlive Htop Hdis Hap Hbrk] Hfuel; [done|].
  apply Forall_cons in Hlive as [(Hb & Hn & Hs) Hlive]. apply Forall_cons in Htop as [Hbt Htop]. apply Forall_cons in Hap as [Hbap Hap].
  assert (Hd : Forall (apart (b, n)) live /\ ForallOrdPairs apart live) by (inversion Hdis; subst; done). destruct Hd as [Hbl Hdis'].
  eapply wp_mono; [eapply (free_list s L b n (brk brk0 (u_trace s))); try (done || lia); by constructor|].
  cbv beta. intros _ s' (Ht & Hl' & Hfp' & Hm).
  assert (Hk : keeps s s' live).
  { apply (free_keeps s s' ((b, n) :: L)); try done. apply Forall_forall. intros x Hin. constructor; [apply apart_sym; by apply (proj1 (Forall_forall _ _) Hbl)|].
    by apply (proj1 (Forall_forall _ _) Hap). }
  split_and!; [|done..]. rewrite <- Ht in *. split; try done.
  - by right.
  - by apply insert_ordered.
  - by apply below_insert.
  - by eapply keeps_headers.
  - apply Forall_forall. intros x Hin. apply apart_insert.
    + pose proof (proj1 (Forall_forall _ _) Hlive x Hin). destruct x. simpl. tauto.
    + apply apart_sym. by apply (proj1 (Forall_forall _ _) Hbl).
    + by apply (proj1 (Forall_forall _ _) Hap).
Qed.

(** ** Taking a block *)

Lemma take_whole s n prev p : hsize (u_mem s) p = n ->
  malloc_turn n (prev, p) s = Ret (inr (p + 16)) (mkustate (store64 (u_mem s) prev (hptr (u_mem s) p)) (u_trace s) prev).
Proof.
  intros Hs. unfold malloc_turn, set_hsize, set_hptr, umem, umod, bind, gets, modify. cbn [u_mem]. rewrite Hs, Z.leb_refl, Z.eqb_refl. done.
Qed.

Lemma take_tail s n k prev p : hsize (u_mem s) p = k -> 1 <= n < k -> k < 2 ^ 32 ->
  malloc_turn n (prev, p) s = Ret (inr (p + 16 * (k - n) + 16))
    (mkustate (store32 (store32 (u_mem s) (p + 8) (k - n)) (p + 16 * (k - n) + 8) n) (u_trace s) prev).
Proof.
  intros Hs Hn Hk. unfold malloc_turn, set_hsize, set_hptr, umem, umod, bind, gets, modify. cbn [u_mem]. rewrite Hs.
  destruct (Z.leb_spec n k); [|lia]. destruct (Z.eqb_spec k n); [lia|]. cbn [u_mem set_u_mem].
  replace (u32 (k - n)) with (k - n) by (unfold u32; rewrite Z.mod_small; lia). by rewrite hsize_store32_eq by lia.
Qed.

Lemma linked_unlink m U prev kv p kp V : linked m (U ++ (prev, kv) :: (p, kp) :: V) base -> ascend (base - 16) (U ++ (prev, kv) :: (p, kp) :: V) ->
  addr_ok base -> Forall (fun '(a, _) => addr_ok a) V ->
  linked (store64 m prev (hptr m p)) (U ++ (prev, kv) :: V) base.
Proof.
  intros Hl Ha Hb Hok. apply linked_app in Hl as [HU (H1 & H2 & H3 & H4 & HV)]. destruct (ascend_app _ _ _ _ _ Ha) as (HaU & _ & HaV).
  apply ascend_above in HaV. apply Forall_cons in HaV as [_ HaV].
  assert (Hs : forall xs, Forall (fun '(a, _) => a + 16 <= prev \/ prev + 16 <= a) xs -> same_headers m (store64 m prev (hptr m p)) xs).
  { intros xs Hf. eapply Forall_impl; [exact Hf|]. intros [a j] Hj. by rewrite hptr_store64_ne, hsize_store64 by (auto || lia). }
  apply linked_app. split; [|cbn [linked]; split_and!].
  - eapply linked_frame; [apply Hs; eapply Forall_impl; [exact HaU|]; intros [a j]; lia|exact HU].
  - rewrite H3. apply hptr_store64_eq, head_or_ok; done.
  - by rewrite hsize_store64 by auto.
  - eapply linked_frame; [apply Hs; eapply Forall_impl; [exact HaV|]; intros [a j]; lia|exact HV].
Qed.

Lemma linked_shrink m U p kp n V : linked m (U ++ (p, kp) :: V) base -> ascend (base - 16) (U ++ (p, kp) :: V) ->
  1 <= n < kp -> kp < 2 ^ 32 -> Forall (fun '(a, _) => p + 16 * kp <= a) V ->
  let m' := store32 (store32 m (p + 8) (kp - n)) (p + 16 * (kp - n) + 8) n in
  linked m' (U ++ (p, kp - n) :: V) base /\ hsize m' (p + 16 * (kp - n)) = n.
Proof.
  intros Hl Ha Hn Hk HV m'. apply linked_app in Hl as [HU (H1 & H2 & HlV)]. destruct (ascend_app _ _ _ _ _ Ha) as (HaU & _ & _).
  assert (Hs : forall xs, Forall (fun '(a, _) => a + 16 <= p \/ p + 16 * kp <= a) xs -> same_headers m m' xs).
  { intros xs Hf. eapply Forall_impl; [exact Hf|]. intros [a j] Hj. unfold m'. by rewrite !hptr_store32, !hsize_store32_ne by lia. }
  split; [|apply hsize_store32_eq; lia]. apply linked_app. split; [|cbn [linked]; split_and!].
  - eapply linked_frame; [apply Hs; eapply Forall_impl; [exact HaU|]; intros [a j]; lia|exact HU].
  - unfold m'. by rewrite !hptr_store32 by lia.
  - unfold m'. rewrite hsize_store32_ne by lia. apply hsize_store32_eq. lia.
  - eapply linked_frame; [apply Hs; eapply Forall_impl; [exact HV|]; intros [a j]; lia|exact HlV].
Qed.

Lemma heap_take s s' L L' live n b : heap s L live -> 1 <= n -> taken n b L L' -> u_trace s' = u_trace s ->
  u_freep s' ∈ map fst (nodes L') -> linked (u_mem s') (nodes L') base -> hsize (u_mem s') b = n -> keeps s s' live ->
  heap s' L' ((b, n) :: live).
Proof.
  intros [_ Ho Hfree Hlive Htop Hdis Hap Hbrk] Hn Ht Htr Hfp Hl Hs Hk.
  pose proof Ht as (X & p & k & V & HL & Hnk & Hb & HL').
  assert (Hp : base + 16 <= p /\ p + 16 * k <= brk brk0 (u_trace s)).
  { apply ordered_above in Ho. unfold below in Hfree. rewrite HL, Forall_app, Forall_cons in Ho, Hfree. split; [apply Ho|apply Hfree]. }
  rewrite <- Htr in *. split; try done.
  - by right.
  - by eapply taken_ordered.
  - eapply taken_forall; [|exact Hn|exact Ht|exact Hfree]. simpl. lia.
  - constructor; [split_and!; (done || lia)|by eapply keeps_headers].
  - constructor; [lia|done].
  - constructor; [|done]. apply Forall_forall. intros x Hin. apply apart_sym. eapply taken_apart; [exact Hn|exact Ht|].
    by apply (proj1 (Forall_forall _ _) Hap).
  - constructor; [by eapply taken_disjoint|]. apply Forall_forall. intros x Hin. eapply taken_forall; [|exact Hn|exact Ht|by apply (proj1 (Forall_forall _ _) Hap)].
    unfold apart. simpl. lia.
Qed.

Definition took (n : Z) (s : ustate) (L live : list blk) (b : Z) (s' : ustate) : Prop :=
  exists L', taken n b L L' /\ heap s' L' ((b, n) :: live) /\ keeps s s' live /\ u_trace s' = u_trace s.

Lemma wp_take s L live n U prev kv p kp V : 0 < base -> heap s L live -> linked (u_mem s) (nodes L) base -> 1 <= n <= kp ->
  nodes L = U ++ (prev, kv) :: (p, kp) :: V ->
  wp (malloc_turn n (prev, p)) (fun r s' => exists b, r = inr (b + 16) /\ took n s L live b s') s.
Proof.
  intros Hpos Hh Hl Hn HL. pose proof Hh as [_ Ho Hfree Hlive _ _ Hap Hbrk].
  pose proof (nodes_ascend _ Ho) as Hasc. rewrite HL in Hl, Hasc.
  assert (HX : exists X, nodes X = U ++ [(prev, kv)] /\ L = X ++ (p, kp) :: V).
  { destruct U as [|[u j] U]; simpl in HL; simplify_eq; [by exists []|]. exists (U ++ [(prev, kv)]). by rewrite <- app_assoc. }
  destruct HX as (X & HX & ->).
  assert (Hnew : forall W, nodes (X ++ W) = U ++ (prev, kv) :: W) by (intros W; rewrite app_comm_cons, HX, <- app_assoc; done).
  assert (Hin : forall W, prev ∈ map fst (nodes (X ++ W))) by (intros W; rewrite Hnew, map_app; apply elem_of_app; right; by left).
  pose proof (ordered_above _ _ Ho) as Hab. unfold below in Hfree. rewrite Forall_app, Forall_cons in Hab, Hfree. destruct Hab as (HaX & [Hp1 _] & HaV), Hfree as (HfX & Hpt & HfV).
  destruct (ascend_app _ _ _ _ _ Hasc) as (_ & _ & [Hpp _]).
  assert (Hps : hsize (u_mem s) p = kp) by (apply linked_app in Hl as [_ (_ & _ & _ & ? & _)]; done).
  assert (HinX : Exists (fun '(a, _) => a = prev) (nodes X)) by (rewrite HX; apply Exists_app; right; by left).
  assert (Hfr : forall m' f, (forall x, ~ (prev <= x < prev + 16) -> ~ (p <= x < p + 16 * kp) -> load8 m' x = load8 (u_mem s) x) ->
     keeps s (mkustate m' (u_trace s) f) live).
  { intros m' f Hm. apply (free_keeps s _ (X ++ (p, kp) :: V)); [done..|]. intros x Hx. cbn [u_mem]. rewrite covers_cons, covers_app, covers_cons in Hx.
    apply Hm; [|tauto]. intros Hx'. apply Exists_cons in HinX as [->|HinX]; [lia|]. apply Hx. right. left. apply Exists_exists in HinX as ([a j] & Hj & ->).
    apply Exists_exists. exists (prev, j). split; [done|]. apply (proj1 (Forall_forall _ _) HaX) in Hj. lia. }
  destruct (Z.eq_dec kp n) as [->|Hne].
  - eapply wp_eq; [by apply take_whole|]. cbv beta. exists p. split; [done|]. exists (X ++ V).
    assert (Ht : taken n p (X ++ (p, n) :: V) (X ++ V)) by (exists X, p, n, V; rewrite Z.eqb_refl; split_and!; (done || lia)).
    assert (Hk := Hfr (store64 (u_mem s) prev (hptr (u_mem s) p)) prev ltac:(intros; apply load8_store64_out; lia)).
    split_and!; try done. eapply heap_take; try done; [lia|cbn [u_mem u_freep]..].
    + rewrite Hnew. eapply linked_unlink; [done..|unfold addr_ok; lia|]. eapply Forall_impl; [apply Forall_and; split; [exact HaV|exact HfV]|]. intros [a j]. unfold addr_ok. lia.
    + by rewrite hsize_store64 by lia.
  - eapply wp_eq; [apply take_tail; [done|lia|lia]|]. cbv beta. exists (p + 16 * (kp - n)). split; [done|]. exists (X ++ (p, kp - n) :: V).
    assert (Ht : taken n (p + 16 * (kp - n)) (X ++ (p, kp) :: V) (X ++ (p, kp - n) :: V))
      by (exists X, p, kp, V; destruct (Z.eqb_spec kp n); [done|]; split_and!; (done || lia)).
    assert (Hk := Hfr (store32 (store32 (u_mem s) (p + 8) (kp - n)) (p + 16 * (kp - n) + 8) n) prev ltac:(intros; rewrite !load8_store32_out by lia; done)).
    destruct (linked_shrink (u_mem s) (U ++ [(prev, kv)]) p kp n V) as [Hl' Hs']; rewrite <- ?app_assoc; try (done || lia).
    { apply ordered_app_r in Ho as [lo Ho]. destruct Ho as (_ & _ & Ho). eapply Forall_impl; [exact (ordered_above _ _ Ho)|]. intros [a j]. lia. }
    split_and!; try done. eapply heap_take; try done; [lia|]. cbn [u_mem]. rewrite Hnew. by rewrite <- app_assoc in Hl'.
Qed.

(** ** The walk of malloc() *)

Lemma find_pred m L prev p n : linked m (nodes L) base -> prev ∈ map fst (nodes L) -> hptr m prev = p -> 1 <= n <= hsize m p ->
  exists U kv V, nodes L = U ++ (prev, kv) :: (p, hsize m p) :: V.
Proof.
  intros Hl Hin Hp Hn. assert (Hb : hsize m base = 0) by apply Hl. apply list_elem_of_fmap in Hin as ([q kv] & -> & Hin).
  apply list_elem_of_split in Hin as (U & V & HL). exists U, kv. rewrite HL in Hl. apply linked_app in Hl as [_ (H1 & _ & HV)].
  simpl in Hp. rewrite Hp in H1. destruct V as [|[a j] V]; simpl in H1; [subst p; lia|]. subst a. destruct HV as (_ & <- & _). by exists V.
Qed.

(** The list from the block after [f] round to [f]. *)
Lemma ring_from m L f : linked m (nodes L) base -> f ∈ map fst (nodes L) ->
  exists W k, linked m (W ++ [(f, k)]) (hptr m f) /\ nodes L ≡ₚ W ++ [(f, k)] /\ head_or f W = hptr m f.
Proof.
  intros Hl Hin. apply list_elem_of_fmap in Hin as ([q k] & -> & Hin). apply list_elem_of_split in Hin as (A & B & HL).
  rewrite HL in Hl. apply linked_app in Hl as [HA (Hq & Hk & HB)]. cbn [fst].
  assert (Hbase : head_or q A = base) by (destruct A as [|[a j] A]; simpl in HL; simplify_eq; done).
  exists (B ++ A), k. split_and!.
  - rewrite <- app_assoc. apply linked_app. rewrite head_or_app. cbn [head_or]. rewrite Hbase. split; [done|]. apply linked_app. by split.
  - rewrite HL, <- app_assoc, (Permutation_app_comm B), <- app_assoc. done.
  - by rewrite head_or_app, Hbase.
Qed.

Lemma turn_next s n prev p : hsize (u_mem s) p < n -> p <> u_freep s -> malloc_turn n (prev, p) s = Ret (inl (p, hptr (u_mem s) p)) s.
Proof.
  intros Hn Hp. unfold malloc_turn, umem, bind, gets. destruct (Z.leb_spec n (hsize (u_mem s) p)); [lia|]. destruct (Z.eqb_spec p (u_freep s)); done.
Qed.

Lemma nodes_nodup L : ordered (base + 16) L -> NoDup (map fst (nodes L)).
Proof.
  intros Ho. apply nodes_ascend in Ho. revert Ho. generalize (base - 16). induction (nodes L) as [|[a n] xs IH]; intros lo H; cbn [map]; [constructor|].
  destruct H as [_ H]. constructor; [|by eapply IH]. intros Hin. apply list_elem_of_fmap in Hin as ([c j] & Hc & Hin). simpl in Hc. subst c.
  apply ascend_above in H. apply (proj1 (Forall_forall _ _) H) in Hin. lia.
Qed.

(** What remains of a turn of the loop. *)
Definition turn_post (n : Z) (fuel : nat) (Q : Z -> ustate -> Prop) (r : Z * Z + Z) (s : ustate) : Prop :=
  match r with inl x => wp (loop fuel (malloc_turn n) x) Q s | inr a => Q a s end.

Lemma wp_turn n fuel x Q s : wp (malloc_turn n x) (turn_post n fuel Q) s -> wp (loop (S fuel) (malloc_turn n) x) Q s.
Proof. intros H. cbn [loop]. apply wp_bind. eapply wp_mono; [exact H|]. intros [x'|a] s'; [done|intros Ha; by apply wp_ret]. Qed.

Section walk.
Context (n : Z) (s : ustate) (L live : list blk) (Q : Z -> ustate -> Prop) (W : list blk) (k : Z).
Context (Hpos : 0 < base) (Hh : heap s L live) (Hl : linked (u_mem s) (nodes L) base) (Hn : 1 <= n).
Context (HW : linked (u_mem s) (W ++ [(u_freep s, k)]) (hptr (u_mem s) (u_freep s))) (Hperm : nodes L ≡ₚ W ++ [(u_freep s, k)]).
Context (Htook : forall b s', took n s L live b s' -> Q (b + 16) s').

(** The walk takes the first block that fits, or arrives at [freep] where none does. *)
Lemma wp_walk rest : forall P prev p kp fuel, W ++ [(u_freep s, k)] = P ++ (p, kp) :: rest -> prev ∈ map fst (nodes L) -> hptr (u_mem s) prev = p ->
  Forall (fun x => snd x < n) P -> (length rest < fuel)%nat ->
  (~ room n L -> forall prev', wp (malloc_turn n (prev', u_freep s)) (turn_post n (fuel - S (length rest)) Q) s) ->
  wp (loop fuel (malloc_turn n) (prev, p)) Q s.
Proof.
  induction rest as [|[q kq] rest IH]; intros P prev p kp fuel HP Hin Hprev Hsm Hf Hend; (destruct fuel as [|fuel]; [simpl in Hf; lia|]); apply wp_turn;
    pose proof HW as HW'; rewrite HP in HW'; apply linked_app in HW' as [_ (Hpn & Hps & _)];
    (destruct (decide (n <= kp)) as [Hfit|Hfit];
       [destruct (find_pred (u_mem s) L prev p n) as (U & kv & V & HL); [done..|lia|]; rewrite Hps in HL; eapply wp_mono; [by eapply wp_take|];
        intros r s' (b & -> & Ht); by apply Htook|]).
  - apply app_inj_tail in HP as [-> [= <- <-]]. replace fuel with (S fuel - S (length (@nil blk)))%nat by (simpl; lia). apply Hend.
    intros Hr. unfold room in Hr. assert (Hr' : Exists (fun '(_, j) => n <= j) (nodes L)) by by right. rewrite Hperm in Hr'.
    apply Exists_app in Hr' as [Hr'|Hr'].
    + apply Exists_exists in Hr' as ([c j] & Hc & Hj). apply (proj1 (Forall_forall _ _) Hsm) in Hc. simpl in Hc. lia.
    + apply Exists_cons in Hr' as [?|Hr']; [lia|by apply Exists_nil in Hr'].
  - assert (Hne : p <> u_freep s).
    { intros ->. pose proof (nodes_nodup L (h_ordered _ _ _ Hh)) as Hnd. rewrite Hperm, HP, map_app in Hnd. apply NoDup_app in Hnd as (_ & _ & Hnd).
      change (NoDup (u_freep s :: map fst ((q, kq) :: rest))) in Hnd. apply NoDup_cons in Hnd as [Hnd _]. apply Hnd.
      destruct (exists_last (l := (q, kq) :: rest)) as (ys & y & Hy); [done|]. rewrite Hy in *. rewrite app_comm_cons, app_assoc in HP.
      apply app_inj_tail in HP as [_ <-]. rewrite map_app. apply elem_of_app. right. by left. }
    eapply wp_eq; [apply turn_next; [rewrite Hps; lia|done]|]. cbn [turn_post]. rewrite Hpn. cbn [head_or].
    apply (IH (P ++ [(p, kp)]) _ _ kq); [by rewrite <- app_assoc| |by rewrite Hpn|apply Forall_app; split; [done|]; constructor; [simpl; lia|done]|simpl in Hf; lia|].
    + rewrite Hperm, HP, map_app. apply elem_of_app. right. by left.
    + intros Hr prev'. exact (Hend Hr prev').
Qed.

End walk.

(** One round from [freep]. *)
Lemma wp_round n s L live Q fuel : 0 < base -> heap s L live -> linked (u_mem s) (nodes L) base -> u_freep s ∈ map fst (nodes L) -> 1 <= n ->
  (forall b s', took n s L live b s' -> Q (b + 16) s') -> (length L < fuel)%nat ->
  (~ room n L -> forall prev, wp (malloc_turn n (prev, u_freep s)) (turn_post n (fuel - S (length L)) Q) s) ->
  wp (loop fuel (malloc_turn n) (u_freep s, hptr (u_mem s) (u_freep s))) Q s.
Proof.
  intros Hpos Hh Hl Hin Hn Ht Hf Hend. destruct (ring_from _ _ _ Hl Hin) as (W & k & HW & Hperm & Hhd).
  assert (Hp : exists kp rest, W ++ [(u_freep s, k)] = (hptr (u_mem s) (u_freep s), kp) :: rest).
  { rewrite <- Hhd. destruct W as [|[a j] W]; simpl; eauto. }
  destruct Hp as (kp & rest & Hp). pose proof (Permutation_length Hperm) as Hlen. rewrite Hp in Hlen. simpl in Hlen. injection Hlen as Hlen.
  eapply (wp_walk n s L live Q W k Hpos Hh Hl Hn HW Hperm Ht rest [] _ _ kp); [done..|constructor|lia|]. by rewrite <- Hlen.
Qed.

Lemma brk_refused c a t : a_ret a = -1 -> brk brk0 ((Sbrk c, a) :: t) = brk brk0 t.
Proof. intros H. cbn [brk]. by rewrite H. Qed.

Lemma heap_trace s L live t : heap s L live -> brk brk0 t = brk brk0 (u_trace s) -> heap (set_u_trace t s) L live.
Proof. intros [H1 H2 H3 H4 H5 H6 H7 H8] Ht. split; cbn [u_trace u_mem u_freep set_u_trace]; rewrite ?Ht; done. Qed.

(** The kernel grants [nu] units at the old break. *)
Lemma heap_grow s L live nu t : 0 < base -> heap s L live -> u_freep s ∈ map fst (nodes L) -> linked (u_mem s) (nodes L) base -> 1 <= nu < 2 ^ 32 ->
  let p := brk brk0 (u_trace s) in brk brk0 t = p + 16 * nu -> p + 16 * nu <= 2 ^ 36 ->
  let s' := mkustate (store32 (u_mem s) (p + 8) nu) t (u_freep s) in
  heap s' L ((p, nu) :: live) /\ keeps s s' live.
Proof.
  intros Hpos [_ Ho Hfree Hlive Htop Hdis Hap Hbrk] Hfp Hl Hnu p Ht H36 s'.
  assert (Hk : keeps s s' live).
  { intros x Hx. cbn [u_mem s']. apply load8_store32_out. apply Exists_exists in Hx as ([a j] & Hin & Hx). apply (proj1 (Forall_forall _ _) Htop) in Hin. fold p in Hin. lia. }
  split; [|done]. split; cbn [u_trace u_mem u_freep s']; rewrite ?Ht; try done.
  - right. split; [done|]. eapply linked_frame; [|exact Hl]. constructor; [rewrite hptr_store32, hsize_store32_ne by lia; done|].
    apply ordered_above in Ho. eapply Forall_impl; [apply Forall_and; split; [exact Ho|exact Hfree]|]. intros [a j] Ha. fold p in Ha.
    by rewrite hptr_store32, hsize_store32_ne by lia.
  - eapply Forall_impl; [exact Hfree|]. intros [a j]. fold p. lia.
  - constructor; [split_and!; [lia..|apply hsize_store32_eq; lia]|by apply (keeps_headers s s')].
  - constructor; [lia|]. eapply Forall_impl; [exact Htop|]. intros [a j]. fold p. lia.
  - constructor; [|done]. eapply Forall_impl; [exact Htop|]. intros [a j]. fold p. unfold apart. simpl. lia.
  - constructor; [|done]. eapply Forall_impl; [exact Hfree|]. intros [a j]. fold p. unfold apart. simpl. lia.
  - lia.
Qed.

(** The break of a state. *)
Definition ubrk (s : ustate) : Z := brk brk0 (u_trace s).

Definition refused (c : Z) (s s' : ustate) : Prop :=
  exists a, a_ret a = -1 /\ u_trace s' = (Sbrk c, a) :: u_trace s.

Lemma wp_morecore n s L live : 0 < base -> heap s L live -> u_freep s ∈ map fst (nodes L) -> linked (u_mem s) (nodes L) base ->
  1 <= n -> 16 * n < 2 ^ 31 -> (length L + 1 < ufuel)%nat ->
  wp (morecore n) (fun r s' =>
    (r = 0 /\ heap s' L live /\ keeps s s' live /\ refused (16 * Z.max 4096 n) s s') \/
    (r = u_freep s' /\ r <> 0 /\ heap s' (insert_free (ubrk s) (Z.max 4096 n) L) live /\ keeps s s' live /\
     ubrk s' = ubrk s + 16 * Z.max 4096 n /\ u_freep s' ∈ map fst (nodes (insert_free (ubrk s) (Z.max 4096 n) L)))) s.
Proof.
  intros Hpos Hh Hfp Hl Hn H31 Hfuel. unfold morecore. replace (if n <? 4096 then 4096 else n) with (Z.max 4096 n) by (destruct (Z.ltb_spec n 4096); lia).
  set (nu := Z.max 4096 n) in *. rewrite i32_id by lia. replace (nu * 16) with (16 * nu) by lia.
  apply wp_bind. unfold sbrk. apply wp_bind. eapply wp_eq; [reflexivity|]. apply wp_ret.
  set (a := answer (u_trace s) (Sbrk (16 * nu))). destruct (HK (u_trace s) (16 * nu)) as [Ha|[Ha Hlim]]; fold a in Ha; rewrite Ha.
  - rewrite Z.eqb_refl. apply wp_ret. left. split_and!; [done| |done|by exists a]. apply heap_trace; [done|]. by apply brk_refused.
  - pose proof (h_brk _ _ _ Hh) as Hb. fold (ubrk s) in *. destruct (Z.eqb_spec (ubrk s) (-1)); [lia|].
    assert (Ht : brk brk0 ((Sbrk (16 * nu), a) :: u_trace s) = ubrk s + 16 * nu).
    { cbn [brk]. rewrite Ha. fold (ubrk s). destruct (Z.eqb_spec (ubrk s) (-1)); [lia|done]. }
    destruct (heap_grow s L live nu ((Sbrk (16 * nu), a) :: u_trace s)) as [Hg Hk]; try (done || lia). fold (ubrk s) in *.
    apply wp_bind, wp_modify, wp_bind. eapply wp_mono; [apply (wp_free _ L live (ubrk s) nu Hpos Hg Hfuel)|]. intros _ s' (Hh' & Htr & Hk').
    apply wp_gets. right.
    destruct (h_list _ _ _ Hh') as [(_ & Hnil & _)|[Hfp' _]]; [exfalso; by eapply (insert_nonempty (ubrk s))|].
    split_and!; try done.
    + intros H0. rewrite H0 in Hfp'. apply list_elem_of_fmap in Hfp' as ([c j] & Hc & Hin). simpl in Hc. subst c.
      apply elem_of_cons in Hin as [[= ? ?]|Hin]; [lia|]. pose proof (ordered_above _ _ (h_ordered _ _ _ Hh')) as Hab.
      apply (proj1 (Forall_forall _ _) Hab) in Hin. lia.
    + intros x Hx. rewrite (Hk' x Hx). by apply Hk.
    + unfold ubrk at 1. rewrite Htr. exact Ht.
Qed.

(** What malloc() promises for a request of [n] units: a block from the free memory or
    from what the kernel added, apart from every other; 0 only when no free block
    fits and the kernel refuses; and no call to the kernel while a free block fits. *)
Definition malloc_post (n : Z) (s : ustate) (L live : list blk) (r : Z) (s' : ustate) : Prop :=
  (r = 0 /\ ~ room n L /\ heap s' L live /\ keeps s s' live /\ refused (16 * Z.max 4096 n) s s') \/
  exists b L', r = b + 16 /\ heap s' L' ((b, n) :: live) /\ keeps s s' live /\ (room n L -> u_trace s' = u_trace s) /\
    forall x, covers L' x \/ b <= x < b + 16 * n <-> covers L x \/ ubrk s <= x < ubrk s'.

Lemma took_post n s L live b s' : 1 <= n -> took n s L live b s' -> malloc_post n s L live (b + 16) s'.
Proof.
  intros Hn (L' & Ht & Hh & Hk & Htr). right. exists b, L'. split_and!; try done. intros x. rewrite (taken_covers n b L L') by done.
  unfold ubrk. rewrite Htr. intuition lia.
Qed.

Lemma turn_grow s n prev Q : hsize (u_mem s) (u_freep s) < n ->
  wp (morecore n) (fun p' s' => if p' =? 0 then Q (inr 0) s' else Q (inl (p', hptr (u_mem s') p')) s') s ->
  wp (malloc_turn n (prev, u_freep s)) Q s.
Proof.
  intros Hn H. unfold malloc_turn. apply wp_bind, wp_gets. destruct (Z.leb_spec n (hsize (u_mem s) (u_freep s))); [lia|].
  apply wp_bind, wp_gets. rewrite Z.eqb_refl. apply wp_bind. eapply wp_mono; [exact H|]. intros p' s'. cbv beta. case_match; intros HQ.
  - by apply wp_ret.
  - apply wp_bind, wp_gets. by apply wp_ret.
Qed.

Lemma no_room m L f n : linked m (nodes L) base -> f ∈ map fst (nodes L) -> 1 <= n -> ~ room n L -> hsize m f < n.
Proof.
  intros Hl Hin Hn Hr. apply list_elem_of_fmap in Hin as ([c j] & -> & Hin). cbn [fst].
  assert (Hj : hsize m c = j) by (apply list_elem_of_split in Hin as (A & B & HL); rewrite HL in Hl; apply linked_app in Hl as [_ (_ & ? & _)]; done).
  rewrite Hj. apply elem_of_cons in Hin as [[= -> ->]|Hin]; [lia|]. destruct (Z.lt_ge_cases j n); [done|]. exfalso. apply Hr.
  apply Exists_exists. by exists (c, j).
Qed.

(** The second round, after the heap has grown, finds a block. *)
Lemma wp_grown n s s1 L L1 live fuel : 0 < base -> heap s1 L1 live -> u_freep s1 ∈ map fst (nodes L1) -> L1 <> [] -> 1 <= n -> room n L1 ->
  keeps s s1 live -> ~ room n L -> (forall x, covers L1 x <-> covers L x \/ ubrk s <= x < ubrk s1) -> (length L1 < fuel)%nat ->
  wp (loop fuel (malloc_turn n) (u_freep s1, hptr (u_mem s1) (u_freep s1))) (malloc_post n s L live) s1.
Proof.
  intros Hpos Hh Hfp Hne Hn Hr Hk Hnr Hc Hf. destruct (h_list _ _ _ Hh) as [(_ & ? & _)|[_ Hl]]; [done|].
  eapply wp_round; try done. intros b s' (L' & Ht & Hh' & Hk' & Htr). right. exists b, L'. split_and!; try done.
  - intros x Hx. rewrite (Hk' x Hx). by apply Hk.
  - intros x. rewrite <- (taken_covers n b L1 L') by done. rewrite Hc. unfold ubrk. by rewrite Htr.
Qed.

Lemma wp_malloc_loop n s L live : 0 < base -> heap s L live -> u_freep s ∈ map fst (nodes L) -> linked (u_mem s) (nodes L) base ->
  1 <= n -> 16 * n < 2 ^ 31 -> (2 * length L + 1 < ufuel)%nat ->
  wp (loop (S ufuel) (malloc_turn n) (u_freep s, hptr (u_mem s) (u_freep s))) (malloc_post n s L live) s.
Proof.
  intros Hpos Hh Hfp Hl Hn H31 Hf. apply (wp_round n s L live); try (done || lia); [intros b s'; by apply took_post|].
  intros Hnr prev. apply turn_grow; [by eapply no_room|]. eapply wp_mono; [apply (wp_morecore n s L live); (done || lia)|]. cbv beta.
  set (nu := Z.max 4096 n). assert (Hnu : 1 <= nu /\ n <= nu) by lia.
  intros r s1 [(-> & Hh1 & Hk & Hre)|(-> & H0 & Hh1 & Hk & Hb & Hfp1)].
  - left. done.
  - destruct (Z.eqb_spec (u_freep s1) 0); [done|]. cbn [turn_post]. pose proof (h_ordered _ _ _ Hh) as Ho. pose proof (h_brk _ _ _ Hh) as Hbk. fold (ubrk s) in Hbk.
    assert (Hap : Forall (apart (ubrk s, nu)) L).
    { eapply Forall_impl; [exact (h_free _ _ _ Hh)|]. intros [a j] ?. unfold apart. simpl. fold (ubrk s) in *. lia. }
    apply (wp_grown n s s1 L (insert_free (ubrk s) nu L)); try done.
    + apply insert_nonempty.
    + eapply Exists_impl; [apply (insert_room (ubrk s) nu L (proj1 Hnu) (base + 16)); (done || lia)|]. intros [a j]. lia.
    + intros x. rewrite (insert_covers (ubrk s) nu L x (proj1 Hnu) (base + 16)) by (done || lia). rewrite Hb. tauto.
    + pose proof (length_insert (ubrk s) nu L). lia.
Qed.

Lemma disjoint_perm xs ys : xs ≡ₚ ys -> ForallOrdPairs apart xs -> ForallOrdPairs apart ys.
Proof.
  induction 1 as [|x xs ys Hp IH|x y xs|xs ys zs _ IH1 _ IH2]; intros H; [done| | |auto].
  - inversion H as [|? ? Hx Hxs]; subst. constructor; [by rewrite <- Hp|by apply IH].
  - inversion H as [|? ? Hx Hxs]; subst. inversion Hxs as [|? ? Hy Hys]; subst. apply Forall_cons in Hx as [Hxy Hx].
    constructor; [constructor; [by apply apart_sym|done]|by constructor].
Qed.

Lemma heap_perm s L live live' : live ≡ₚ live' -> heap s L live -> heap s L live'.
Proof.
  intros Hp [H1 H2 H3 H4 H5 H6 H7 H8]. split; try done.
  - destruct H1 as [(? & ? & ->)|?]; [|by right]. left. split_and!; [done..|]. symmetry; by apply Permutation_nil_l.
  - by rewrite <- Hp.
  - unfold below. by rewrite <- Hp.
  - by eapply disjoint_perm.
  - by rewrite <- Hp.
Qed.

(** C29. free() of a block in use returns: the free list becomes the abstract list with
    the block inserted in address order and merged with the blocks it touches, so the
    free memory grows by exactly the block; the heap stays well formed with the other
    blocks in use, none of whose bytes changes. *)
Theorem free_returns s L live live' b n : 0 < base -> heap s L live -> live ≡ₚ (b, n) :: live' -> (length L + 1 < ufuel)%nat ->
  wp (free (b + 16)) (fun _ s' => heap s' (insert_free b n L) live' /\ keeps s s' live' /\ u_trace s' = u_trace s /\
    forall x, covers (insert_free b n L) x <-> b <= x < b + 16 * n \/ covers L x) s.
Proof.
  intros Hpos Hh Hp Hf. apply (heap_perm _ _ _ _ Hp) in Hh. eapply wp_mono; [by apply (wp_free s L live')|]. intros _ s' (Hh' & Ht & Hk).
  split_and!; [done..|]. intros x. destruct Hh as [_ Ho _ Hl _ _ Ha _]. apply Forall_cons in Hl as [(H1 & H2 & _) _]. apply Forall_cons in Ha as [Ha _].
  by apply (insert_covers b n L x H2 (base + 16)).
Qed.

(** C28. malloc() of any size below 2 GiB returns, with the first call's set-up of the
    list included.  It returns a block of at least the size asked, taken from the
    free memory or from what the kernel adds to the heap, so that the heap stays well
    formed: the new block overlaps no block in use and no free block, and no byte of
    a block in use changes.  The kernel is asked only when no free block fits, and 0
    is returned only when it refuses. *)
Theorem malloc_hands_out s L live nbytes : 0 < base -> heap s L live -> 0 <= nbytes <= 2 ^ 31 - 32 -> (2 * length L + 1 < ufuel)%nat ->
  let n := (nbytes + 15) / 16 + 1 in
  nbytes <= 16 * (n - 1) < nbytes + 16 /\ wp (malloc base nbytes) (malloc_post n s L live) s.
Proof.
  intros Hpos Hh Hnb Hf n. pose proof (Z.div_mod (nbytes + 15) 16 ltac:(lia)) as Hdm. pose proof (Z.mod_pos_bound (nbytes + 15) 16 ltac:(lia)) as Hmb.
  split; [lia|]. unfold malloc. replace (u32 _) with n by (unfold u32, n; rewrite Z.mod_small; replace (nbytes + 16 - 1) with (nbytes + 15) by lia; lia).
  apply wp_bind, wp_gets. destruct (h_list _ _ _ Hh) as [(H0 & -> & ->)|[Hfp Hl]].
  - rewrite H0. set (s1 := mkustate (store32 (store64 (u_mem s) base base) (base + 8) 0) (u_trace s) base).
    assert (Hb : hptr (u_mem s1) base = base) by (unfold s1; cbn [u_mem]; rewrite hptr_store32 by lia; apply hptr_store64_eq; pose proof (h_brk _ _ _ Hh); lia).
    assert (Hl1 : linked (u_mem s1) (nodes []) base) by (split_and!; [exact Hb|by apply hsize_store32_eq|done]).
    assert (Hh1 : heap s1 [] []) by (split; [right; split; [by left|done]|done|constructor..|exact (h_brk _ _ _ Hh)]).
    apply wp_bind. do 3 (apply wp_bind, wp_modify). apply wp_ret, wp_bind, wp_gets.
    eapply wp_mono; [apply (wp_malloc_loop n s1 [] []); try (done || lia); by left|].
    assert (Hk : forall s', keeps s s' []) by (intros s' x Hx; by apply Exists_nil in Hx).
    intros r s' [(-> & H1 & H2 & _ & H4)|(b & L' & -> & H1 & _ & H2 & H3)]; [left|right; exists b, L']; done.
  - assert (Hnz : u_freep s <> 0).
    { apply list_elem_of_fmap in Hfp as ([c j] & -> & Hin). apply elem_of_cons in Hin as [[= -> ->]|Hin]; [simpl; lia|].
      pose proof (ordered_above _ _ (h_ordered _ _ _ Hh)) as Hab. apply (proj1 (Forall_forall _ _) Hab) in Hin. simpl. lia. }
    apply wp_bind. destruct (Z.eqb_spec (u_freep s) 0); [done|]. apply wp_ret, wp_bind, wp_gets. apply wp_malloc_loop; (done || lia).
Qed.

End heap.

(** ** Witnesses *)

(** A kernel that lets a process grow up to 128 MiB from a break at 64 KiB. *)
Definition grant (t : list (call * ans)) (c : call) : ans :=
  match c with
  | Sbrk n => if brk 65536 t + n <=? 2 ^ 27 then mkans (brk 65536 t) [] else mkans (-1) []
  | _ => mkans (-1) []
  end.
#[local] Instance grant_env : UEnv := {| answer := grant; ufuel := 16 |}.

#[local] Instance grant_law : SbrkLaw 65536.
Proof.
  intros t n. cbn [answer grant_env grant]. destruct (Z.leb_spec (brk 65536 t + n) (2 ^ 27)); cbn [a_ret]; [right; split; [done|lia]|by left].
Qed.

Lemma heap_start m base brk0 : base + 16 <= brk0 <= 2 ^ 36 -> heap base brk0 (mkustate m [] 0) [] [].
Proof. intros H. split; [by left|done|by constructor..|exact H]. Qed.

Lemma malloc_hands_out_witness (s := mkustate ∅ [] 0) :
  100 <= 16 * (8 - 1) < 100 + 16 /\ wp (malloc 4096 100) (malloc_post 4096 65536 8 s [] []) s.
Proof. apply (malloc_hands_out 4096 65536 s [] [] 100); [lia|apply heap_start; lia|lia|vm_compute; lia]. Defined.

Definition one_block : memory := store32 (store32 (store64 ∅ 4096 4096) (4096 + 8) 0) (32768 + 8) 2.
Lemma free_returns_witness (s := mkustate one_block [] 4096) :
  wp (free (32768 + 16)) (fun _ s' => heap 4096 65536 s' [(32768, 2)] [] /\ keeps s s' [] /\ u_trace s' = [] /\
    forall x, covers [(32768, 2)] x <-> 32768 <= x < 32768 + 16 * 2 \/ covers [] x) s.
Proof.
  apply (free_returns 4096 65536 s [] [(32768, 2)] [] 32768 2); [lia| |done|vm_compute; lia].
  split.
  - right. split; [by left|]. split_and!; [by vm_compute|by vm_compute|done].
  - done.
  - constructor.
  - constructor; [|constructor]. split_and!; [lia|lia|by vm_compute].
  - constructor; [vm_compute; congruence|constructor].
  - repeat constructor.
  - repeat constructor.
  - vm_compute. split; congruence.
Defined.

(** A request of 2 GiB or more asks the kernel for a negative increment: the size in
    bytes does not fit the [int] parameter of sbrk(). *)
Example morecore_negative :
  match morecore 134217728 (mkustate one_block [] 4096) with
  | Ret _ s' => map fst (u_trace s') = [Sbrk (-2147483648)]
  | _ => False
  end.
Proof. vm_compute. reflexivity. Qed.
