(* ===== verification/Cmds.v ===== *)
(** * Small user programs

    cat, echo, grep's main, init, kill, ln, ls, mkdir, rm, wc and zombie on the
    system calls of Ulib.v.  [argv] holds the addresses of the arguments, the
    program's name first; the addresses of static and local buffers are parameters.
    The answer to fork() decides which of the two processes is followed. *)

From S2P Require Import Prelude Riscv Bytes CString Ulib Uprintf Grep.

Section cmds.
Context {K : UEnv}.

(** [for(i = 1; i < argc; i++) f(argv[i])] *)
Definition for_args (argv : list Z) (f : Z -> U unit) : U unit := for_each (tail argv) f.

(** [argc <= 1] *)
Definition no_args (argv : list Z) : bool := (length argv <=? 1)%nat.

(** ** cat.c *)

Definition cat (buf fd : Z) : U unit :=
  n <- loop (S ufuel) (fun _ =>
    n <- read fd buf 512;;
    if 0 <? n then
      w <- write 1 buf n;;
      if negb (w =? n) then fprintln 2 "cat: write error" [];; exit 1
      else ret (inl tt)
    else ret (inr n)) tt;;
  when (n <? 0) (fprintln 2 "cat: read error" [];; exit 1).

Definition cat_main (buf : Z) (argv : list Z) : U unit :=
  if no_args argv then cat buf 0;; exit 0
  else
    for_args argv (fun arg =>
      fd <- open arg 0;;
      if fd <? 0 then fprintln 2 "cat: cannot open %s" [arg];; exit 1
      else cat buf fd;; close fd;; ret tt);;
    exit 0.

(** ** echo.c *)

Fixpoint echo_args (args : list Z) : U unit :=
  match args with
  | [] => ret tt
  | arg :: args' =>
      n <- strlen arg;;
      write 1 arg n;;
      sys (Write 1 (match args' with [] => [10] | _ => [32] end));;
      echo_args args'
  end.
Definition echo_main (argv : list Z) : U unit := echo_args (tail argv);; exit 0.

(** ** grep.c *)

Definition grep_main (buf : Z) (argv : list Z) : U unit :=
  match argv with
  | _ :: pattern :: files =>
      if (length files =? 0)%nat then grep buf pattern 0;; exit 0
      else
        for_each files (fun arg =>
          fd <- open arg 0;;
          if fd <? 0 then println "grep: cannot open %s" [arg];; exit 1
          else grep buf pattern fd;; close fd;; ret tt);;
        exit 0
  | _ => fprintln 2 "usage: grep pattern [file ...]" [];; exit 1
  end.

(** ** init.c *)

Definition console : list Z := bytes_of_string "console".

(** A turn of init's loop: start a shell and wait for it. *)
Definition init_turn : U unit :=
  println "init: starting sh" [];;
  a <- sys Fork;;
  let pid := a_ret a in
  if pid <? 0 then println "init: fork failed" [];; exit 1
  else if pid =? 0 then
    e <- sys (Exec (bytes_of_string "sh") [bytes_of_string "sh"]);;
    (if a_ret e <? 0 then println "init: exec sh failed" [];; exit 1 else stop)
  else
    loop (S ufuel) (fun _ =>
      w <- sys Wait;;
      if a_ret w =? pid then ret (inr tt)
      else if a_ret w <? 0 then println "init: wait returned an error" [];; exit 1
      else ret (inl tt)) tt.

Definition init_main : U unit :=
  a <- sys (Open console 2);;
  when (a_ret a <? 0) (sys (Mknod console 1 0);; sys (Open console 2);; ret tt);;
  sys (Dup 0);;
  sys (Dup 0);;
  loop (S ufuel) (fun _ => init_turn;; ret (inl tt)) tt.

(** ** kill.c, ln.c, mkdir.c, rm.c, zombie.c *)

Definition kill_main (argv : list Z) : U unit :=
  if no_args argv then fprintln 2 "usage: kill pid..." [];; exit 1
  else for_args argv (fun arg => pid <- atoi arg;; sys (Kill pid);; ret tt);; exit 0.

Definition ln_main (argv : list Z) : U unit :=
  match argv with
  | [_; old; new] =>
      o <- ustring old;;
      n <- ustring new;;
      a <- sys (Link o n);;
      when (a_ret a <? 0) (fprintln 2 "link %s %s: failed" [old; new]);;
      exit 0
  | _ => fprintln 2 "Usage: ln old new" [];; exit 1
  end.

(** The loop of mkdir.c and rm.c stops at the first failure. *)
Definition until_failure (argv : list Z) (c : list Z -> call) (msg : string) : U unit :=
  for_find (tail argv) (fun arg =>
    p <- ustring arg;;
    a <- sys (c p);;
    if a_ret a <? 0 then fprintln 2 msg [arg];; ret (Some tt) else ret None);;
  ret tt.

Definition mkdir_main (argv : list Z) : U unit :=
  if no_args argv then fprintln 2 "Usage: mkdir files..." [];; exit 1
  else until_failure argv Mkdir "mkdir: %s failed to create";; exit 0.

Definition rm_main (argv : list Z) : U unit :=
  if no_args argv then fprintln 2 "Usage: rm files..." [];; exit 1
  else until_failure argv Unlink "rm: %s failed to delete";; exit 0.

Definition zombie_main : U unit :=
  a <- sys Fork;;
  when (0 <? a_ret a) (sys (Sleep 5);; ret tt);;
  exit 0.

(** ** wc.c *)

Record counts : Type := mkcounts { lines_ : Z; words_ : Z; chars_ : Z; inword : bool }.

Definition wc_space (c : Z) : bool := existsb (Z.eqb c) [32; 13; 9; 10; 11].

Definition wc_char (c : Z) (k : counts) : counts :=
  let ch := i32 (chars_ k + 1) in
  let l := if c =? 10 then i32 (lines_ k + 1) else lines_ k in
  if wc_space c then mkcounts l (words_ k) ch false
  else if inword k then mkcounts l (words_ k) ch true
  else mkcounts l (i32 (words_ k + 1)) ch true.

(** [name] is the argument's address; wc(0, "") passes the empty string. *)
Definition wc (buf fd name : Z) : U unit :=
  let* (k, n) := loop (S ufuel) (fun k =>
    n <- read fd buf 512;;
    if 0 <? n then
      bs <- umem (fun m => bytes_at m buf (Z.to_nat n));;
      ret (inl (fold_left (fun k c => wc_char c k) bs k))
    else ret (inr (k, n))) (mkcounts 0 0 0 false) in
  if n <? 0 then println "wc: read error" [];; exit 1
  else println "%d %d %d %s" [lines_ k; words_ k; chars_ k; name].

Definition wc_main (buf empty : Z) (argv : list Z) : U unit :=
  if no_args argv then wc buf 0 empty;; exit 0
  else
    for_args argv (fun arg =>
      fd <- open arg 0;;
      if fd <? 0 then println "wc: cannot open %s" [arg];; exit 1
      else wc buf fd arg;; close fd;; ret tt);;
    exit 0.

(** ** ls.c *)

Definition DIRSIZ : Z := 14.

(** [for(p=path+strlen(path); p >= path && *p != '/'; p--)] *)
Fixpoint last_slash (n : nat) (m : memory) (path : Z) : Z :=
  match n with
  | O => path - 1
  | S n' => if load8 m (path + Z.of_nat n') =? 47 then path + Z.of_nat n' else last_slash n' m path
  end.

(** [nbuf] is the static buffer. *)
Definition fmtname (nbuf path : Z) : U Z :=
  n <- strlen path;;
  q <- umem (fun m => last_slash (S (Z.to_nat n)) m path);;
  let p := q + 1 in
  k <- strlen p;;
  if DIRSIZ <=? k then ret p
  else
    memmove nbuf p k;;
    memset (nbuf + k) 32 (DIRSIZ - k);;
    ret nbuf.

(** The fields of the struct stat at [st]. *)
Definition st_ino (m : memory) (st : Z) : Z := load32 m (st + 4).
Definition st_type (m : memory) (st : Z) : Z := i16 (load_le 2 m (st + 8)).
Definition st_size (m : memory) (st : Z) : Z := load64 m (st + 16).

(** The local buffers of ls(): path buffer, directory entry and stat. *)
Definition ls (nbuf buf de st path : Z) : U unit :=
  fd <- open path 0;;
  if fd <? 0 then fprintln 2 "ls: cannot open %s" [path]
  else
    r <- fstat fd st;;
    if r <? 0 then
      fprintln 2 "ls: cannot stat %s" [path];;
      close fd;; ret tt
    else
      t <- umem (fun m => st_type m st);;
      (if (t =? 3) || (t =? 2) then
         name <- fmtname nbuf path;;
         m <- umem (fun m => m);;
         println "%s %d %d %l" [name; st_type m st; st_ino m st; st_size m st]
       else if t =? 1 then
         n <- strlen path;;
         if 512 <? n + 1 + DIRSIZ + 1 then println "ls: path too long" []
         else
           strcpy buf path;;
           k <- strlen buf;;
           let p := buf + k + 1 in
           umod (fun m => store8 m (buf + k) 47);;
           loop (S ufuel) (fun _ =>
             r <- read fd de 16;;
             if negb (r =? 16) then ret (inr tt)
             else
               inum <- umem (fun m => load_le 2 m de);;
               if inum =? 0 then ret (inl tt)
               else
                 memmove p (de + 2) DIRSIZ;;
                 umod (fun m => store8 m (p + DIRSIZ) 0);;
                 e <- stat buf st;;
                 if e <? 0 then println "ls: cannot stat %s" [buf];; ret (inl tt)
                 else
                   name <- fmtname nbuf buf;;
                   m <- umem (fun m => m);;
                   println "%s %d %d %d" [name; st_type m st; st_ino m st; st_size m st];;
                   ret (inl tt)) tt
       else ret tt);;
      close fd;;
      ret tt.

Definition ls_main (nbuf buf de st dot : Z) (argv : list Z) : U unit :=
  if no_args argv then ls nbuf buf de st dot;; exit 0
  else for_args argv (ls nbuf buf de st);; exit 0.

End cmds.
