(* ===== verification/Grind.v ===== *)
(** * Stress programs (user/grind.c, user/forktest.c, user/stressfs.c)

    grind makes random system calls in two processes, forktest forks until the
    kernel refuses, stressfs writes files from several processes.  They run on the
    system calls of Ulib.v; the answer to fork() decides which of the two processes
    is followed.  The generator of random numbers is proved equal to the sequence
    its comment names, and forktest to pass on every kernel that counts children. *)

From S2P Require Import Prelude Riscv Bytes CString Ulib Uprintf Sh Cmds.

(** ** grind.c: random numbers *)

(** The new context; the value returned is the same number.  [*ctx] is an unsigned
    long, [x], [hi] and [lo] are long; C's division truncates, which for these
    nonnegative operands is [/]. *)
Definition schrage (x : Z) : Z :=
  let hi := x / 127773 in
  let lo := x mod 127773 in
  16807 * lo - 2836 * hi.

Definition do_rand (ctx : Z) : Z :=
  let x := ctx mod 0x7ffffffe + 1 in
  let x := schrage x in
  let x := if x <? 0 then x + 0x7fffffff else x in
  x - 1.

Section grind.
Context {K : UEnv}.

(** Constant paths and the calls that take them. *)
Definition open_ (path : string) (mode : Z) : U Z := a <- sys (Open (bytes_of_string path) mode);; ret (a_ret a).
Definition unlink_ (path : string) : U Z := a <- sys (Unlink (bytes_of_string path));; ret (a_ret a).
Definition mkdir_ (path : string) : U Z := a <- sys (Mkdir (bytes_of_string path));; ret (a_ret a).
Definition chdir_ (path : string) : U Z := a <- sys (Chdir (bytes_of_string path));; ret (a_ret a).
Definition link_ (old new : string) : U Z := a <- sys (Link (bytes_of_string old) (bytes_of_string new));; ret (a_ret a).
Definition exec_ (path : string) (argv : list string) : U Z :=
  a <- sys (Exec (bytes_of_string path) (map bytes_of_string argv));;
  if a_ret a <? 0 then ret (a_ret a) else stop.
Definition fork : U Z := a <- sys Fork;; ret (a_ret a).
Definition kill (pid : Z) : U Z := a <- sys (Kill pid);; ret (a_ret a).
Definition getpid : U Z := a <- sys Getpid;; ret (a_ret a).
(** wait(&st): the result and the status stored; the variable is not initialised when
    the kernel stores none. *)
Definition wait_st : U (Z * Z) := a <- sys Wait;; ret (a_ret a, i32 (rd 4 (a_data a) 0)).

Definition CREATE_RW : Z := Z.lor O_CREATE O_RDWR.

(** Message on the console or on descriptor [fd], and exit. *)
Definition fail {A} (fd : Z) (msg : string) (status : Z) : U A := fprintln fd msg [];; exit status.

(** fork(), the child's code and the test of the result. *)
Definition forked (child : U unit) : U Z :=
  pid <- fork;;
  if pid =? 0 then child;; exit 0
  else if pid <? 0 then fail 1 "grind: fork failed" 1
  else ret pid.

(** Cases 19 and 22, the ones with pipes: [c], [pbuf] and [hi] are the addresses of
    the local character, of the local buffer and of the constant string. *)
Definition go_pipe (c : Z) : U unit :=
  let* (e, fd0, fd1) := pipe in
  if e <? 0 then fail 1 "grind: pipe failed" 1
  else
    forked (
      fork;;
      fork;;
      w <- sys (Write fd1 [120]);;
      when (negb (a_ret w =? 1)) (println "grind: pipe write failed" []);;
      r <- read fd0 c 1;;
      when (negb (r =? 1)) (println "grind: pipe read failed" []));;
    close fd0;;
    close fd1;;
    wait;;
    ret tt.

Definition go_pipeline (pbuf hi : Z) : U unit :=
  let* (ea, aa0, aa1) := pipe in
  if ea <? 0 then fail 2 "grind: pipe failed" 1
  else
  let* (eb, bb0, bb1) := pipe in
  if eb <? 0 then fail 2 "grind: pipe failed" 1
  else
  pid1 <- fork;;
  if pid1 =? 0 then
    close bb0;;
    close bb1;;
    close aa0;;
    close 1;;
    d <- dup aa1;;
    if negb (d =? 1) then fail 2 "grind: dup failed" 1
    else
      close aa1;;
      exec_ "grindir/../echo" ["echo"; "hi"]%string;;
      fail 2 "grind: echo: not found" 2
  else if pid1 <? 0 then fail 2 "grind: fork failed" 3
  else
  pid2 <- fork;;
  if pid2 =? 0 then
    close aa1;;
    close bb0;;
    close 0;;
    d <- dup aa0;;
    if negb (d =? 0) then fail 2 "grind: dup failed" 4
    else
      close aa0;;
      close 1;;
      d <- dup bb1;;
      if negb (d =? 1) then fail 2 "grind: dup failed" 5
      else
        close bb1;;
        exec_ "/cat" ["cat"]%string;;
        fail 2 "grind: cat: not found" 6
  else if pid2 <? 0 then fail 2 "grind: fork failed" 7
  else
    close aa0;;
    close aa1;;
    close bb1;;
    umod (fun m => write_bytes m pbuf [0; 0; 0; 0]);;
    read bb0 (pbuf + 0) 1;;
    read bb0 (pbuf + 1) 1;;
    read bb0 (pbuf + 2) 1;;
    close bb0;;
    let* (_, st1) := wait_st in
    let* (_, st2) := wait_st in
    bad <- (if negb (st1 =? 0) || negb (st2 =? 0) then ret true
            else r <- strcmp pbuf hi;; ret (negb (r =? 0)));;
    when bad
      (vprintf 1 (bytes_of_string "grind: exec pipeline failed %d %d " ++ [34; 37; 115; 34; 10]) false [st1; st2; pbuf];;
       exit 1).

(** Case 21. *)
Definition go_create (st : Z) : U unit :=
  unlink_ "c";;
  fd1 <- open_ "c" CREATE_RW;;
  if fd1 <? 0 then fail 1 "grind: create c failed" 1
  else
  w <- sys (Write fd1 [120]);;
  if negb (a_ret w =? 1) then fail 1 "grind: write c failed" 1
  else
  r <- fstat fd1 st;;
  if negb (r =? 0) then fail 1 "grind: fstat failed" 1
  else
  m <- umem (fun m => m);;
  if negb (st_size m st =? 1) then println "grind: fstat reports wrong size %d" [i32 (st_size m st)];; exit 1
  else if 200 <? st_ino m st then println "grind: fstat reports crazy i-number %d" [st_ino m st];; exit 1
  else
  close fd1;;
  unlink_ "c";;
  ret tt.

Context (buf c pbuf hi st : Z).

(** One random choice; the result is the new value of [fd]. *)
Definition go_what (what break0 fd : Z) : U Z :=
  match what with
  | 1 => x <- open_ "grindir/../a" CREATE_RW;; close x;; ret fd
  | 2 => x <- open_ "grindir/../grindir/../b" CREATE_RW;; close x;; ret fd
  | 3 => unlink_ "grindir/../a";; ret fd
  | 4 =>
      r <- chdir_ "grindir";;
      if negb (r =? 0) then fail 1 "grind: chdir grindir failed" 1
      else unlink_ "../b";; chdir_ "/";; ret fd
  | 5 => close fd;; open_ "/grindir/../a" CREATE_RW
  | 6 => close fd;; open_ "/./grindir/./../b" CREATE_RW
  | 7 => write fd buf 999;; ret fd
  | 8 => read fd buf 999;; ret fd
  | 9 => mkdir_ "grindir/../a";; x <- open_ "a/../a/./a" CREATE_RW;; close x;; unlink_ "a/a";; ret fd
  | 10 => mkdir_ "/../b";; x <- open_ "grindir/../b/b" CREATE_RW;; close x;; unlink_ "b/b";; ret fd
  | 11 => unlink_ "b";; link_ "../grindir/./../a" "../b";; ret fd
  | 12 => unlink_ "../grindir/../a";; link_ ".././b" "/grindir/../a";; ret fd
  | 13 => forked (ret tt);; wait;; ret fd
  | 14 => forked (fork;; fork;; ret tt);; wait;; ret fd
  | 15 => sbrk 6011;; ret fd
  | 16 =>
      b <- sbrk 0;;
      when (break0 <? b) (b' <- sbrk 0;; sbrk (i32 (- (b' - break0)));; ret tt);;
      ret fd
  | 17 =>
      pid <- forked (x <- open_ "a" CREATE_RW;; close x;; ret tt);;
      r <- chdir_ "../grindir/..";;
      if negb (r =? 0) then fail 1 "grind: chdir failed" 1
      else kill pid;; wait;; ret fd
  | 18 => forked (p <- getpid;; kill p;; ret tt);; wait;; ret fd
  | 19 => go_pipe c;; ret fd
  | 20 =>
      forked (unlink_ "a";; mkdir_ "a";; chdir_ "a";; unlink_ "../a";; open_ "x" CREATE_RW;; unlink_ "x";; ret tt);;
      wait;;
      ret fd
  | 21 => go_create st;; ret fd
  | 22 => go_pipeline pbuf hi;; ret fd
  | _ => ret fd
  end.

(** A turn of the loop, on [fd], [iters] and [rand_next]. *)
Definition go_turn (which_child : bool) (break0 : Z) '((fd, iters, rand_next) : Z * Z * Z) : U (Z * Z * Z) :=
  let iters := (iters + 1) mod 2 ^ 64 in
  when (iters mod 500 =? 0) (sys (Write 1 [if which_child then 66 else 65]);; ret tt);;
  let rand_next := do_rand rand_next in
  let what := Z.rem (i32 rand_next) 23 in
  fd <- go_what what break0 fd;;
  ret (fd, iters, rand_next).

Definition go (which_child : bool) (rand_next : Z) : U unit :=
  break0 <- sbrk 0;;
  mkdir_ "grindir";;
  r <- chdir_ "grindir";;
  if negb (r =? 0) then fail 1 "grind: chdir grindir failed" 1
  else
    chdir_ "/";;
    loop (S ufuel) (fun x => x <- go_turn which_child break0 x;; ret (inl x)) (-1, 0, rand_next).

Definition iter (rand_next : Z) : U unit :=
  unlink_ "a";;
  unlink_ "b";;
  pid1 <- fork;;
  if pid1 <? 0 then fail 1 "grind: fork failed" 1
  else if pid1 =? 0 then go false (Z.lxor rand_next 31);; exit 0
  else
    pid2 <- fork;;
    if pid2 <? 0 then fail 1 "grind: fork failed" 1
    else if pid2 =? 0 then go true (Z.lxor rand_next 7177);; exit 0
    else
      a <- sys Wait;;
      (* st1 keeps its -1 when wait() stores nothing *)
      let st1 := if (length (a_data a) =? 4)%nat then i32 (rd 4 (a_data a) 0) else -1 in
      when (negb (st1 =? 0)) (kill pid1;; kill pid2;; ret tt);;
      wait;;
      exit 0.

Definition grind_main : U unit :=
  loop (S ufuel) (fun rand_next =>
    pid <- fork;;
    (if pid =? 0 then iter rand_next;; exit 0 else ret tt);;
    when (0 <? pid) (wait;; ret tt);;
    sys (Sleep 20);;
    ret (inl ((rand_next + 1) mod 2 ^ 64))) 1.

End grind.

(** ** forktest.c *)

Section forktest.
Context {K : UEnv}.

Definition N : nat := 1000.

(** The strings are constants: strlen() of one is its length. *)
Definition print (s : list Z) : U unit := sys (Write 1 s);; ret tt.
Definition line (s : string) : list Z := bytes_of_string s ++ [10].

(** [for(n=0; n<N; n++)]: the number of forks that succeeded. *)
Fixpoint fork_loop (k : nat) (n : Z) : U Z :=
  match k with
  | O => ret n
  | S k' =>
      pid <- fork;;
      if pid <? 0 then ret n
      else if pid =? 0 then exit 0
      else fork_loop k' (n + 1)
  end.

(** [for(; n > 0; n--)] *)
Fixpoint wait_loop (n : nat) : U unit :=
  match n with
  | O => ret tt
  | S n' =>
      w <- wait;;
      if w <? 0 then print (line "wait stopped early");; exit 1
      else wait_loop n'
  end.

Definition forktest : U unit :=
  print (line "fork test");;
  n <- fork_loop N 0;;
  (if n =? Z.of_nat N then print (line "fork claimed to work N times!");; exit 1 else ret tt);;
  wait_loop (Z.to_nat n);;
  w <- wait;;
  (if negb (w =? -1) then print (line "wait got too many");; exit 1 else ret tt);;
  print (line "fork test OK").

Definition forktest_main : U unit := forktest;; exit 0.

(** ** stressfs.c *)

(** [path] and [data] are the local arrays. *)
Definition stressfs_main (path data : Z) : U unit :=
  umod (fun m => write_bytes m path (bytes_of_string "stressfs0" ++ [0]));;
  println "stressfs starting" [];;
  memset data 97 512;;
  i <- for_find [0; 1; 2; 3] (fun i => pid <- fork;; ret (if 0 <? pid then Some i else None));;
  let i := default 4 i in
  println "write %d" [i];;
  umod (fun m => store8 m (path + 8) (u8 (load8 m (path + 8) + i)));;
  fd <- open path CREATE_RW;;
  for_each (seq 0 20) (fun _ => write fd data 512;; ret tt);;
  close fd;;
  println "read" [];;
  fd <- open path O_RDONLY;;
  for_each (seq 0 20) (fun _ => read fd data 512;; ret tt);;
  close fd;;
  wait;;
  exit 0.

End forktest.

(** ** The random numbers *)

Definition MOD : Z := 0x7fffffff.

(** The product never needs more than 31 bits and a sign. *)
Lemma schrage_spec x : 1 <= x < MOD -> - MOD < schrage x < MOD /\ schrage x mod MOD = 16807 * x mod MOD.
Proof.
  unfold MOD, schrage. intros Hx. pose proof (Z.div_mod x 127773 ltac:(lia)) as Hd. pose proof (Z.mod_pos_bound x 127773 ltac:(lia)).
  set (hi := x / 127773) in *. set (lo := x mod 127773) in *. assert (0 <= hi <= 16807) by lia. split; [lia|].
  replace (16807 * x) with (16807 * lo - 2836 * hi + hi * 0x7fffffff) by lia. by rewrite Z.mod_add by lia.
Qed.

Lemma mult_nonzero x : 1 <= x < MOD -> 16807 * x mod MOD <> 0.
Proof.
  intros Hx H0. apply Z.mod_divide in H0; [|done]. apply Z.gauss in H0; [|reflexivity]. apply Z.divide_pos_le in H0; lia.
Qed.

Lemma mult_inj x y : 1 <= x < MOD -> 1 <= y < MOD -> 16807 * x mod MOD = 16807 * y mod MOD -> x = y.
Proof.
  intros Hx Hy He. assert (Hz : (MOD | 16807 * (x - y))).
  { apply Z.mod_divide; [done|]. rewrite Z.mul_sub_distr_l, Zminus_mod, He, Z.sub_diag. reflexivity. }
  apply Z.gauss in Hz; [|reflexivity]. destruct Hz as [k Hk]. unfold MOD in *. nia.
Qed.

(** C37. do_rand() computes the generator its comment names, 7^5 * x mod (2^31 - 1) on
    x = ctx mod (2^31 - 2) + 1, although it never forms the product: the intermediate
    value fits in 31 bits and a sign, the result is below 2^31 - 2, so that the int
    returned is the new context, and distinct contexts have distinct successors: no
    sequence loses numbers. *)
Theorem do_rand_minimal_standard ctx : 0 <= ctx ->
  do_rand ctx = 16807 * (ctx mod 0x7ffffffe + 1) mod MOD - 1 /\ - 2 ^ 31 < schrage (ctx mod 0x7ffffffe + 1) < 2 ^ 31 /\
  0 <= do_rand ctx < 0x7ffffffe /\ i32 (do_rand ctx) = do_rand ctx /\
  forall ctx', 0 <= ctx < 0x7ffffffe -> 0 <= ctx' < 0x7ffffffe -> do_rand ctx = do_rand ctx' -> ctx = ctx'.
Proof.
  intros Hc. assert (Hval : forall y, do_rand y = 16807 * (y mod 0x7ffffffe + 1) mod MOD - 1 /\ 1 <= y mod 0x7ffffffe + 1 < MOD).
  { intros y. pose proof (Z.mod_pos_bound y 0x7ffffffe ltac:(lia)) as Hy. assert (Hx : 1 <= y mod 0x7ffffffe + 1 < MOD) by (unfold MOD; lia). split; [|done].
    unfold do_rand. destruct (schrage_spec _ Hx) as [Hr <-]. unfold MOD in *. set (z := schrage (y mod 0x7ffffffe + 1)) in *. destruct (Z.ltb_spec z 0).
    - f_equal. rewrite <- (Z.mod_add z 1), (Z.mod_small (z + 1 * _)) by lia. lia.
    - rewrite (Z.mod_small z) by lia. lia. }
  destruct (Hval ctx) as [Hv Hx]. pose proof (mult_nonzero _ Hx). pose proof (Z.mod_pos_bound (16807 * (ctx mod 0x7ffffffe + 1)) MOD ltac:(done)).
  assert (Hb : 0 <= do_rand ctx < 0x7ffffffe) by (rewrite Hv; unfold MOD in *; lia). destruct (schrage_spec _ Hx) as [Hr _].
  split; [done|]. split; [unfold MOD in Hr; lia|]. split; [done|]. split; [apply i32_id; lia|].
  intros ctx' H1 H2. destruct (Hval ctx') as [Hv' Hx']. rewrite Hv, Hv'. intros He. pose proof (mult_inj _ _ Hx Hx' ltac:(lia)) as Hm.
  rewrite !Z.mod_small in Hm by lia. lia.
Qed.

Lemma do_rand_minimal_standard_witness : do_rand 1 = 33613 /\ do_rand (do_rand 1) = 564950497.
Proof.
  destruct (do_rand_minimal_standard 1 ltac:(lia)) as (-> & _). split; [reflexivity|]. 
  change (16807 * (1 mod 2147483646 + 1) mod MOD - 1) with 33613. destruct (do_rand_minimal_standard 33613 ltac:(lia)) as (-> & _). reflexivity.
Defined.

(** ** forktest on a kernel that counts children *)

Definition child_step (e : call * ans) (n : Z) : Z :=
  match fst e with
  | Fork => if 0 <? a_ret (snd e) then n + 1 else n
  | Wait => if 0 <=? a_ret (snd e) then n - 1 else n
  | _ => n
  end.
(** The children of the process that made the calls, most recent first. *)
Definition children (t : list (call * ans)) : Z := foldr child_step 0 t.

(** fork() succeeds while there are fewer than [limit] children, wait() while there
    is one. *)
Record counting (K : UEnv) (limit : Z) : Prop := {
  cn_fork : forall t, if children t <? limit then 0 < a_ret (answer t Fork) else a_ret (answer t Fork) < 0;
  cn_wait : forall t, if 0 <? children t then 0 < a_ret (answer t Wait) else a_ret (answer t Wait) = -1
}.

Section counting.
Context {K : UEnv} (limit : Z) (HK : counting K limit) (Hl : 0 <= limit < 1000).

Lemma wp_sys c (Q : ans -> ustate -> Prop) s : (let a := answer (u_trace s) c in Q a (set_u_trace ((c, a) :: u_trace s) s)) -> wp (sys c) Q s.
Proof. done. Qed.

Lemma wp_print l (Q : unit -> ustate -> Prop) s :
  (forall s', children (u_trace s') = children (u_trace s) -> hd_error (map fst (u_trace s')) = Some (Write 1 l) -> Q tt s') -> wp (print l) Q s.
Proof. intros HQ. apply wp_bind, wp_sys, wp_ret, HQ; done. Qed.

(** The children are counted until the kernel refuses. *)
Lemma wp_fork_loop k : forall n s (Q : Z -> ustate -> Prop), children (u_trace s) = n -> 0 <= n <= limit -> limit < n + Z.of_nat k ->
  (forall s', children (u_trace s') = limit -> Q limit s') -> wp (fork_loop k n) Q s.
Proof.
  induction k as [|k IH]; intros n s Q Hn Hr Hk HQ; [lia|]. cbn [fork_loop]. apply wp_bind. unfold fork. apply wp_bind, wp_sys, wp_ret.
  pose proof (cn_fork _ _ HK (u_trace s)) as Hf. rewrite Hn in Hf. set (a := answer (u_trace s) Fork) in *.
  assert (Hc : children ((Fork, a) :: u_trace s) = if 0 <? a_ret a then n + 1 else n) by (cbn [children foldr child_step fst snd]; by rewrite <- Hn).
  destruct (Z.ltb_spec n limit).
  - destruct (Z.ltb_spec (a_ret a) 0); [lia|]. destruct (Z.eqb_spec (a_ret a) 0); [lia|]. destruct (Z.ltb_spec 0 (a_ret a)); [|lia].
    apply IH; [done|lia|lia|done].
  - destruct (Z.ltb_spec (a_ret a) 0); [|lia]. apply wp_ret. assert (n = limit) as -> by lia. apply HQ. cbn [u_trace set_u_trace]. rewrite Hc.
    destruct (Z.ltb_spec 0 (a_ret a)); [lia|done].
Qed.

(** As many waits succeed as there are children. *)
Lemma wp_wait s (Q : Z -> ustate -> Prop) : (forall w s', (if 0 <? children (u_trace s) then 0 < w /\ children (u_trace s') = children (u_trace s) - 1
  else w = -1 /\ children (u_trace s') = children (u_trace s)) -> Q w s') -> wp wait Q s.
Proof.
  intros HQ. unfold wait. apply wp_bind, wp_sys, wp_ret, HQ. pose proof (cn_wait _ _ HK (u_trace s)) as Hw. cbn [u_trace set_u_trace children foldr child_step fst snd].
  fold (children (u_trace s)). destruct (Z.ltb_spec 0 (children (u_trace s))).
  - split; [done|]. destruct (Z.leb_spec 0 (a_ret (answer (u_trace s) Wait))); lia.
  - split; [done|]. by rewrite Hw.
Qed.

Lemma wp_wait_loop n : forall s (Q : unit -> ustate -> Prop), children (u_trace s) = Z.of_nat n ->
  (forall s', children (u_trace s') = 0 -> Q tt s') -> wp (wait_loop n) Q s.
Proof.
  induction n as [|n IH]; intros s Q Hn HQ; [by apply wp_ret, HQ|]. cbn [wait_loop]. apply wp_bind, wp_wait. intros w s' Hw. rewrite Hn in Hw.
  destruct (Z.ltb_spec 0 (Z.of_nat (S n))); [|lia]. destruct Hw as [Hw Hc]. destruct (Z.ltb_spec w 0); [lia|]. apply IH; [lia|done].
Qed.

(** forktest passes on every kernel that counts children: when fork() succeeds
    until the process has [limit] children, fewer than 1000, and wait() succeeds as
    long as there are children, forktest() returns, its last line says that the test
    is OK, and no child is left. *)
Theorem forktest_passes s : children (u_trace s) = 0 ->
  wp forktest (fun _ s' => children (u_trace s') = 0 /\ hd_error (map fst (u_trace s')) = Some (Write 1 (line "fork test OK"))) s.
Proof.
  intros H0. unfold forktest. apply wp_bind, wp_print. intros s1 H1 _. apply wp_bind, wp_fork_loop; [by rewrite H1|lia|unfold N; lia|].
  intros s2 H2. destruct (Z.eqb_spec limit (Z.of_nat N)); [unfold N in *; lia|]. apply wp_bind, wp_ret, wp_bind, wp_wait_loop; [lia|].
  intros s3 H3. apply wp_bind, wp_wait. intros w s4 Hw. rewrite H3 in Hw. cbn in Hw. destruct Hw as [-> H4]. apply wp_bind, wp_ret, wp_print.
  intros s5 H5 Hh. split; [congruence|done].
Qed.

End counting.

(** A kernel with room for 60 children. *)
Definition kernel60 : UEnv := {| answer := fun t c => match c with
  | Fork => if children t <? 60 then mkans 7 [] else mkans (-1) []
  | Wait => if 0 <? children t then mkans 7 [] else mkans (-1) []
  | _ => mkans 0 []
  end; ufuel := 100 |}.

Lemma forktest_passes_witness : wp (@forktest kernel60) (fun _ s' => children (u_trace s') = 0) (mkustate ∅ [] 0).
Proof.
  eapply wp_mono; [apply (@forktest_passes kernel60 60)|].
  - split; intros t; cbn [answer kernel60]; by case_match.
  - lia.
  - reflexivity.
  - by intros [] s' [H _].
Defined.
