(* ===== verification/Usertests.v ===== *)
(** * The system call tests (user/usertests.c)

    Every test is a program on the system calls of Ulib.v.  [s] is the address of the
    test's name; [buf] is the static buffer, [loc] the local array of the test that
    runs and [junk] what an uninitialised variable holds.  The answer to fork() decides
    which process is followed; a process that is killed, or exits, stops.  Calls with
    pointers outside the program are made by number ([Raw]); whether the program may
    touch an address is a parameter ([reach]).  The theorem is about the driver: which
    tests it runs, in which order, what it prints and when it reports success. *)

From S2P Require Import Prelude Riscv Bytes CString Ulib Uprintf Sh Cmds Umalloc Grind.

Definition BUFSZ : Z := (MAXOPBLOCKS + 2) * 1024.
(** BSIZE and MAXFILE of kernel/fs.h *)
Definition BLOCK : Z := 1024.
Definition MAXFILE : Z := 12 + 256.

(** System call numbers (kernel/syscall.h) *)
Definition SYS_pipe : Z := 4.
Definition SYS_read : Z := 5.
Definition SYS_exec : Z := 7.
Definition SYS_open : Z := 15.
Definition SYS_write : Z := 16.
Definition SYS_unlink : Z := 18.
Definition SYS_link : Z := 19.

Definition CREATE_WR : Z := Z.lor O_CREATE O_WRONLY.

(** [for(i = 0; i < n; i++)] *)
Definition range (n : Z) : list Z := map Z.of_nat (seq 0 (Z.to_nat n)).

Section tests.
Context {K : UEnv} (reach : list (call * ans) -> Z -> bool) (buf loc junk : Z).

(** ** Helpers *)

(** [if(bad){ printf(fmt, ...); exit(1); }], with and without a newline. *)
Definition check (bad : bool) (fmt : string) (ap : list Z) : U unit := when bad (println fmt ap;; exit 1).
Definition check_ (bad : bool) (fmt : string) (ap : list Z) : U unit := when bad (printf fmt ap;; exit 1).

(** Writing a constant string, and the calls on strings in memory. *)
Definition wr (fd : Z) (str : string) : U Z := a <- sys (Write fd (bytes_of_string str));; ret (a_ret a).
Definition unlink (p : Z) : U Z := x <- ustring p;; a <- sys (Unlink x);; ret (a_ret a).
Definition link_to (old : string) (p : Z) : U Z := x <- ustring p;; a <- sys (Link (bytes_of_string old) x);; ret (a_ret a).
Definition raw (num : Z) (args : list Z) : U Z := a <- sys (Raw num args);; ret (a_ret a).
(** exec() returns when it fails. *)
Definition raw_exec (path argv : Z) : U Z := r <- raw SYS_exec [path; argv];; if r <? 0 then ret r else stop.
Definition sleep (n : Z) : U Z := a <- sys (Sleep n);; ret (a_ret a).

(** [wait(&x)]: [x] keeps its value when the kernel stores none. *)
Definition wait_x (x : Z) : U (Z * Z) :=
  a <- sys Wait;; ret (a_ret a, if (length (a_data a) =? 4)%nat then i32 (rd 4 (a_data a) 0) else x).

(** A variable [x] for all the calls, and what to do when it is not 0. *)
Fixpoint wait_all (n : nat) (x : Z) (bad : Z -> U unit) : U unit :=
  match n with
  | O => ret tt
  | S n' => let* (_, x) := wait_x x in when (negb (x =? 0)) (bad x);; wait_all n' x bad
  end.

Definition put (p c : Z) : U unit := umod (fun m => store8 m p (u8 c)).
Definition get (p : Z) : U Z := umem (fun m => load8 m p).

(** Accesses that the kernel may answer with a kill. *)
Definition touch (p : Z) : U unit := ok <- gets (fun s => reach (u_trace s) p);; if ok then ret tt else stop.
Definition peek_ (p : Z) : U Z := touch p;; get p.
Definition poke (p c : Z) : U unit := touch p;; put p c.

(** ** Bad pointers *)

Definition bad_addrs : list Z := [0x80000000; 0xffffffffffffffff].

Definition copyin (s : Z) : U unit :=
  for_each bad_addrs (fun addr =>
    fd <- open_ "copyin1" CREATE_WR;;
    check (fd <? 0) "open(copyin1) failed" [];;
    n <- raw SYS_write [fd; addr; 8192];;
    check (0 <=? n) "write(fd, %p, 8192) returned %d, not -1" [addr; n];;
    close fd;;
    unlink_ "copyin1";;
    n <- raw SYS_write [1; addr; 8192];;
    check (0 <? n) "write(1, %p, 8192) returned %d, not -1 or 0" [addr; n];;
    let* (e, fd0, fd1) := pipe in
    check (e <? 0) "pipe() failed" [];;
    n <- raw SYS_write [fd1; addr; 8192];;
    check (0 <? n) "write(pipe, %p, 8192) returned %d, not -1 or 0" [addr; n];;
    close fd0;;
    close fd1;;
    ret tt).

Definition copyout (s : Z) : U unit :=
  for_each bad_addrs (fun addr =>
    fd <- open_ "README" 0;;
    check (fd <? 0) "open(README) failed" [];;
    n <- raw SYS_read [fd; addr; 8192];;
    check (0 <? n) "read(fd, %p, 8192) returned %d, not -1 or 0" [addr; n];;
    close fd;;
    let* (e, fd0, fd1) := pipe in
    check (e <? 0) "pipe() failed" [];;
    n <- wr fd1 "x";;
    check (negb (n =? 1)) "pipe write failed" [];;
    n <- raw SYS_read [fd0; addr; 8192];;
    check (0 <? n) "read(pipe, %p, 8192) returned %d, not -1 or 0" [addr; n];;
    close fd0;;
    close fd1;;
    ret tt).

Definition copyinstr1 (s : Z) : U unit :=
  for_each bad_addrs (fun addr =>
    fd <- raw SYS_open [addr; CREATE_WR];;
    check (0 <=? fd) "open(%p) returned %d, not -1" [addr; fd]).

(** [loc] is [b]; [big] is the static array of the child. *)
Definition copyinstr2 (big s : Z) : U unit :=
  let b := loc in
  for_each (range MAXPATH) (fun i => put (b + i) 120);;
  put (b + MAXPATH) 0;;
  r <- unlink b;;
  check (negb (r =? -1)) "unlink(%s) returned %d, not -1" [b; r];;
  fd <- open b CREATE_WR;;
  check (negb (fd =? -1)) "open(%s) returned %d, not -1" [b; fd];;
  p <- ustring b;;
  a <- sys (Link p p);;
  check (negb (a_ret a =? -1)) "link(%s, %s) returned %d, not -1" [b; b; a_ret a];;
  a <- sys (Exec p [bytes_of_string "xx"]);;
  r <- (if a_ret a <? 0 then ret (a_ret a) else stop);;
  check (negb (r =? -1)) "exec(%s) returned %d, not -1" [b; fd];;
  pid <- fork;;
  check (pid <? 0) "fork failed" [];;
  (if pid =? 0 then
     for_each (range PGSIZE) (fun i => put (big + i) 120);;
     put (big + PGSIZE) 0;;
     x <- ustring big;;
     a <- sys (Exec (bytes_of_string "echo") [x; x; x]);;
     r <- (if a_ret a <? 0 then ret (a_ret a) else stop);;
     check (negb (r =? -1)) "exec(echo, BIG) returned %d, not -1" [fd];;
     exit 747
   else ret tt);;
  let* (_, st) := wait_x 0 in
  check (negb (st =? 747)) "exec(echo, BIG) succeeded, should have failed" [].

(** The string at [b] has no end inside the program.  [xx] is the argument array. *)
Definition copyinstr3 (xx s : Z) : U unit :=
  sbrk 8192;;
  top <- sbrk 0;;
  when (negb (top mod PGSIZE =? 0)) (sbrk (PGSIZE - top mod PGSIZE);; ret tt);;
  top <- sbrk 0;;
  check (negb (top mod PGSIZE =? 0)) "oops" [];;
  let b := top - 1 in
  poke b 120;;
  r <- raw SYS_unlink [b];;
  check (negb (r =? -1)) "unlink(%s) returned %d, not -1" [b; r];;
  fd <- raw SYS_open [b; CREATE_WR];;
  check (negb (fd =? -1)) "open(%s) returned %d, not -1" [b; fd];;
  r <- raw SYS_link [b; b];;
  check (negb (r =? -1)) "link(%s, %s) returned %d, not -1" [b; b; r];;
  r <- raw_exec b xx;;
  check (negb (r =? -1)) "exec(%s) returned %d, not -1" [b; fd].

Definition rwsbrk (s : Z) : U unit :=
  a <- sbrk 8192;;
  check (a =? -1) "sbrk(rwsbrk) failed" [];;
  r <- sbrk (-8192);;
  check (r =? -1) "sbrk(rwsbrk) shrink failed" [];;
  fd <- open_ "rwsbrk" CREATE_WR;;
  check (fd <? 0) "open(rwsbrk) failed" [];;
  n <- raw SYS_write [fd; a + 4096; 1024];;
  check (0 <=? n) "write(fd, %p, 1024) returned %d, not -1" [a + 4096; n];;
  close fd;;
  unlink_ "rwsbrk";;
  fd <- open_ "README" O_RDONLY;;
  check (fd <? 0) "open(rwsbrk) failed" [];;
  n <- raw SYS_read [fd; a + 4096; 10];;
  check (0 <=? n) "read(fd, %p, 10) returned %d, not -1" [a + 4096; n];;
  close fd;;
  exit 0.

(** ** Files *)

Definition truncate1 (s : Z) : U unit :=
  unlink_ "truncfile";;
  fd1 <- open_ "truncfile" (Z.lor CREATE_WR O_TRUNC);;
  wr fd1 "abcd";;
  close fd1;;
  fd2 <- open_ "truncfile" O_RDONLY;;
  n <- read fd2 loc 32;;
  check (negb (n =? 4)) "%s: read %d bytes, wanted 4" [s; n];;
  fd1 <- open_ "truncfile" (Z.lor O_WRONLY O_TRUNC);;
  fd3 <- open_ "truncfile" O_RDONLY;;
  n <- read fd3 loc 32;;
  when (negb (n =? 0)) (println "aaa fd3=%d" [fd3];; println "%s: read %d bytes, wanted 0" [s; n];; exit 1);;
  n <- read fd2 loc 32;;
  when (negb (n =? 0)) (println "bbb fd2=%d" [fd2];; println "%s: read %d bytes, wanted 0" [s; n];; exit 1);;
  wr fd1 "abcdef";;
  n <- read fd3 loc 32;;
  check (negb (n =? 6)) "%s: read %d bytes, wanted 6" [s; n];;
  n <- read fd2 loc 32;;
  check (negb (n =? 2)) "%s: read %d bytes, wanted 2" [s; n];;
  unlink_ "truncfile";;
  close fd1;;
  close fd2;;
  close fd3;;
  ret tt.

Definition truncate2 (s : Z) : U unit :=
  unlink_ "truncfile";;
  fd1 <- open_ "truncfile" (Z.lor CREATE_WR O_TRUNC);;
  wr fd1 "abcd";;
  fd2 <- open_ "truncfile" (Z.lor O_TRUNC O_WRONLY);;
  n <- wr fd1 "x";;
  check (negb (n =? -1)) "%s: write returned %d, expected -1" [s; n];;
  unlink_ "truncfile";;
  close fd1;;
  close fd2;;
  ret tt.

Definition truncate3 (s : Z) : U unit :=
  fd <- open_ "truncfile" (Z.lor CREATE_WR O_TRUNC);;
  close fd;;
  pid <- fork;;
  check (pid <? 0) "%s: fork failed" [s];;
  (if pid =? 0 then
     for_each (range 100) (fun _ =>
       fd <- open_ "truncfile" O_WRONLY;;
       check (fd <? 0) "%s: open failed" [s];;
       n <- wr fd "1234567890";;
       check (negb (n =? 10)) "%s: write got %d, expected 10" [s; n];;
       close fd;;
       fd <- open_ "truncfile" O_RDONLY;;
       read fd loc 32;;
       close fd;;
       ret tt);;
     exit 0
   else ret tt);;
  for_each (range 150) (fun _ =>
    fd <- open_ "truncfile" (Z.lor CREATE_WR O_TRUNC);;
    check (fd <? 0) "%s: open failed" [s];;
    n <- wr fd "xxx";;
    check (negb (n =? 3)) "%s: write got %d, expected 3" [s; n];;
    close fd;;
    ret tt);;
  let* (_, xstatus) := wait_x junk in
  unlink_ "truncfile";;
  exit xstatus.

Definition iputtest (s : Z) : U unit :=
  r <- mkdir_ "iputdir";;
  check (r <? 0) "%s: mkdir failed" [s];;
  r <- chdir_ "iputdir";;
  check (r <? 0) "%s: chdir iputdir failed" [s];;
  r <- unlink_ "../iputdir";;
  check (r <? 0) "%s: unlink ../iputdir failed" [s];;
  r <- chdir_ "/";;
  check (r <? 0) "%s: chdir / failed" [s].

Definition exitiputtest (s : Z) : U unit :=
  pid <- fork;;
  check (pid <? 0) "%s: fork failed" [s];;
  (if pid =? 0 then
     r <- mkdir_ "iputdir";;
     check (r <? 0) "%s: mkdir failed" [s];;
     r <- chdir_ "iputdir";;
     check (r <? 0) "%s: child chdir failed" [s];;
     r <- unlink_ "../iputdir";;
     check (r <? 0) "%s: unlink ../iputdir failed" [s];;
     exit 0
   else ret tt);;
  let* (_, xstatus) := wait_x junk in
  exit xstatus.

Definition openiputtest (s : Z) : U unit :=
  r <- mkdir_ "oidir";;
  check (r <? 0) "%s: mkdir oidir failed" [s];;
  pid <- fork;;
  check (pid <? 0) "%s: fork failed" [s];;
  (if pid =? 0 then
     fd <- open_ "oidir" O_RDWR;;
     check (0 <=? fd) "%s: open directory for write succeeded" [s];;
     exit 0
   else ret tt);;
  sleep 1;;
  r <- unlink_ "oidir";;
  check (negb (r =? 0)) "%s: unlink failed" [s];;
  let* (_, xstatus) := wait_x junk in
  exit xstatus.

Definition opentest (s : Z) : U unit :=
  fd <- open_ "echo" 0;;
  check (fd <? 0) "%s: open echo failed!" [s];;
  close fd;;
  fd <- open_ "doesnotexist" 0;;
  check (0 <=? fd) "%s: open doesnotexist succeeded!" [s].

Definition writetest (s : Z) : U unit :=
  fd <- open_ "small" CREATE_RW;;
  check (fd <? 0) "%s: error: creat small failed!" [s];;
  for_each (range 100) (fun i =>
    n <- wr fd "aaaaaaaaaa";;
    check (negb (n =? 10)) "%s: error: write aa %d new file failed" [s; i];;
    n <- wr fd "bbbbbbbbbb";;
    check (negb (n =? 10)) "%s: error: write bb %d new file failed" [s; i]);;
  close fd;;
  fd <- open_ "small" O_RDONLY;;
  check (fd <? 0) "%s: error: open small failed!" [s];;
  i <- read fd buf (100 * 10 * 2);;
  check (negb (i =? 100 * 10 * 2)) "%s: read failed" [s];;
  close fd;;
  r <- unlink_ "small";;
  check (r <? 0) "%s: unlink small failed" [s].

(** The first int of the buffer *)
Definition first_int : U Z := umem (fun m => i32 (load32 m buf)).

(** [for(;;)]: [n] blocks have been read. *)
Definition writebig_turn (s fd n : Z) : U (Z + unit) :=
  i <- read fd buf BLOCK;;
  if i =? 0 then
    check_ (n =? MAXFILE - 1) "%s: read only %d blocks from big" [s; n];;
    ret (inr tt)
  else
    check (negb (i =? BLOCK)) "%s: read failed %d" [s; i];;
    x <- first_int;;
    check (negb (x =? n)) "%s: read content of block %d is %d" [s; n; x];;
    ret (inl (n + 1)).

Definition writebig (s : Z) : U unit :=
  fd <- open_ "big" CREATE_RW;;
  check (fd <? 0) "%s: error: creat big failed!" [s];;
  for_each (range MAXFILE) (fun i =>
    umod (fun m => store32 m buf i);;
    w <- write fd buf BLOCK;;
    check (negb (w =? BLOCK)) "%s: error: write big file failed" [s; i]);;
  close fd;;
  fd <- open_ "big" O_RDONLY;;
  check (fd <? 0) "%s: error: open big failed!" [s];;
  loop (S ufuel) (writebig_turn s fd) 0;;
  close fd;;
  r <- unlink_ "big";;
  check (r <? 0) "%s: unlink big failed" [s].

(** [loc] is [name]. *)
Definition createtest (s : Z) : U unit :=
  put loc 97;;
  put (loc + 2) 0;;
  for_each (range 52) (fun i =>
    put (loc + 1) (48 + i);;
    fd <- open loc CREATE_RW;;
    close fd;;
    ret tt);;
  put loc 97;;
  put (loc + 2) 0;;
  for_each (range 52) (fun i => put (loc + 1) (48 + i);; unlink loc;; ret tt).

Definition dirtest (s : Z) : U unit :=
  r <- mkdir_ "dir0";;
  check (r <? 0) "%s: mkdir failed" [s];;
  r <- chdir_ "dir0";;
  check (r <? 0) "%s: chdir dir0 failed" [s];;
  r <- chdir_ "..";;
  check (r <? 0) "%s: chdir .. failed" [s];;
  r <- unlink_ "dir0";;
  check (r <? 0) "%s: unlink dir0 failed" [s].

Definition exectest (s : Z) : U unit :=
  unlink_ "echo-ok";;
  pid <- fork;;
  check (pid <? 0) "%s: fork failed" [s];;
  (if pid =? 0 then
     close 1;;
     fd <- open_ "echo-ok" CREATE_WR;;
     check (fd <? 0) "%s: create failed" [s];;
     check (negb (fd =? 1)) "%s: wrong fd" [s];;
     r <- exec_ "echo" ["echo"; "OK"]%string;;
     check (r <? 0) "%s: exec echo failed" [s]
   else ret tt);;
  let* (w, xstatus) := wait_x junk in
  when (negb (w =? pid)) (println "%s: wait failed!" [s]);;
  when (negb (xstatus =? 0)) (exit xstatus);;
  fd <- open_ "echo-ok" O_RDONLY;;
  check (fd <? 0) "%s: open failed" [s];;
  n <- read fd loc 2;;
  check (negb (n =? 2)) "%s: read failed" [s];;
  unlink_ "echo-ok";;
  b0 <- get loc;;
  b1 <- get (loc + 1);;
  if (b0 =? 79) && (b1 =? 75) then exit 0
  else println "%s: wrong output" [s];; exit 1.

(** ** Processes *)

(** [buf[i] = seq++], and the comparison with it; the sequence is an int. *)
Definition fill (seq n : Z) : U unit := for_each (range n) (fun i => put (buf + i) (seq + i)).

(** [while((n = read(fds[0], buf, cc)) > 0)]: the sequence, the total and [cc]; the
    second result is a wrong byte. *)
Definition pipe1_turn (s fd0 : Z) '((seq, total, cc) : Z * Z * Z) : U (Z * Z * Z + (Z + unit)) :=
  n <- read fd0 buf cc;;
  if 0 <? n then
    bad <- for_find (range n) (fun i => c <- get (buf + i);; ret (if negb (c =? Z.land (seq + i) 0xff) then Some tt else None));;
    match bad with
    | Some _ => println "%s: pipe1 oops 2" [s];; ret (inr (inr tt))
    | None => ret (inl (seq + n, total + n, if BUFSZ <? cc * 2 then BUFSZ else cc * 2))
    end
  else ret (inr (inl total)).

Definition pipe1 (s : Z) : U unit :=
  let* (e, fd0, fd1) := pipe in
  check (negb (e =? 0)) "%s: pipe() failed" [s];;
  pid <- fork;;
  if pid =? 0 then
    close fd0;;
    for_each (range 5) (fun n =>
      fill (n * 1033) 1033;;
      w <- write fd1 buf 1033;;
      check (negb (w =? 1033)) "%s: pipe1 oops 1" [s]);;
    exit 0
  else if 0 <? pid then
    close fd1;;
    r <- loop (S ufuel) (pipe1_turn s fd0) (0, 0, 1);;
    match r with
    | inr _ => ret tt
    | inl total =>
        (* the name is missing from the arguments *)
        check (negb (total =? 5 * 1033)) "%s: pipe1 oops 3 total %d" [total];;
        close fd0;;
        let* (_, xstatus) := wait_x junk in
        exit xstatus
    end
  else println "%s: fork() failed" [s];; exit 1.

Fixpoint killstatus_loop (n : nat) (xst s : Z) : U unit :=
  match n with
  | O => exit 0
  | S n' =>
      pid1 <- fork;;
      check (pid1 <? 0) "%s: fork failed" [s];;
      (if pid1 =? 0 then loop (S ufuel) (fun _ => getpid;; ret (inl tt)) tt else ret tt);;
      sleep 1;;
      kill pid1;;
      let* (_, xst) := wait_x xst in
      check (negb (xst =? -1)) "%s: status should be -1" [s];;
      killstatus_loop n' xst s
  end.
Definition killstatus (s : Z) : U unit := killstatus_loop 100 junk s.

Definition preempt (s : Z) : U unit :=
  pid1 <- fork;;
  check_ (pid1 <? 0) "%s: fork failed" [s];;
  (if pid1 =? 0 then stop else ret tt);;
  pid2 <- fork;;
  check (pid2 <? 0) "%s: fork failed" [s];;
  (if pid2 =? 0 then stop else ret tt);;
  let* (_, fd0, fd1) := pipe in
  pid3 <- fork;;
  check (pid3 <? 0) "%s: fork failed" [s];;
  (if pid3 =? 0 then
     close fd0;;
     w <- wr fd1 "x";;
     when (negb (w =? 1)) (printf "%s: preempt write error" [s]);;
     close fd1;;
     stop
   else ret tt);;
  close fd1;;
  n <- read fd0 buf BUFSZ;;
  if negb (n =? 1) then printf "%s: preempt read error" [s]
  else
    close fd0;;
    printf "kill... " [];;
    kill pid1;;
    kill pid2;;
    kill pid3;;
    printf "wait... " [];;
    wait;;
    wait;;
    wait;;
    ret tt.

Definition exitwait (s : Z) : U unit :=
  for_each (range 100) (fun i =>
    pid <- fork;;
    check (pid <? 0) "%s: fork failed" [s];;
    if negb (pid =? 0) then
      let* (w, xstate) := wait_x junk in
      check (negb (w =? pid)) "%s: wait wrong pid" [s];;
      check (negb (i =? xstate)) "%s: wait wrong exit status" [s]
    else exit i).

Definition reparent (s : Z) : U unit :=
  master_pid <- getpid;;
  for_each (range 200) (fun _ =>
    pid <- fork;;
    check (pid <? 0) "%s: fork failed" [s];;
    if negb (pid =? 0) then
      w <- wait;;
      check (negb (w =? pid)) "%s: wait wrong pid" [s]
    else
      pid2 <- fork;;
      when (pid2 <? 0) (kill master_pid;; exit 1);;
      exit 0);;
  exit 0.

Definition twochildren (s : Z) : U unit :=
  for_each (range 1000) (fun _ =>
    pid1 <- fork;;
    check (pid1 <? 0) "%s: fork failed" [s];;
    if pid1 =? 0 then exit 0
    else
      pid2 <- fork;;
      check (pid2 <? 0) "%s: fork failed" [s];;
      if pid2 =? 0 then exit 0 else wait;; wait;; ret tt).

Definition forkfork (s : Z) : U unit :=
  for_each (range 2) (fun _ =>
    pid <- fork;;
    check_ (pid <? 0) "%s: fork failed" [s];;
    if pid =? 0 then
      for_each (range 200) (fun _ =>
        pid1 <- fork;;
        when (pid1 <? 0) (exit 1);;
        when (pid1 =? 0) (exit 0);;
        wait;;
        ret tt);;
      exit 0
    else ret tt);;
  wait_all 2 junk (fun _ => printf "%s: fork in child failed" [s];; exit 1).

Definition forkforkfork (s : Z) : U unit :=
  unlink_ "stopforking";;
  pid <- fork;;
  check_ (pid <? 0) "%s: fork failed" [s];;
  (if pid =? 0 then
     loop (S ufuel) (fun _ =>
       fd <- open_ "stopforking" 0;;
       when (0 <=? fd) (exit 0);;
       pid <- fork;;
       when (pid <? 0) (fd <- open_ "stopforking" CREATE_RW;; close fd;; ret tt);;
       ret (inl tt)) tt
   else ret tt);;
  sleep 20;;
  fd <- open_ "stopforking" CREATE_RW;;
  close fd;;
  wait;;
  sleep 10;;
  ret tt.

Definition reparent2 (s : Z) : U unit :=
  for_each (range 800) (fun _ =>
    pid1 <- fork;;
    check (pid1 <? 0) "fork failed" [];;
    (if pid1 =? 0 then fork;; fork;; exit 0 else ret tt);;
    wait;;
    ret tt);;
  exit 0.

(** [m1] is the head of a list threaded through the blocks, [base] malloc()'s. *)
Definition mem_alloc (base : Z) (m1 : Z) : U (Z + Z) :=
  m2 <- malloc base 10001;;
  if negb (m2 =? 0) then umod (fun m => store64 m m2 m1);; ret (inl m2) else ret (inr m1).
Definition mem_free (m1 : Z) : U (Z + unit) :=
  if negb (m1 =? 0) then m2 <- umem (fun m => load64 m m1);; free m1;; ret (inl m2) else ret (inr tt).

Definition mem (base s : Z) : U unit :=
  pid <- fork;;
  if pid =? 0 then
    m1 <- loop (S ufuel) (mem_alloc base) 0;;
    loop (S ufuel) mem_free m1;;
    m1 <- malloc base (1024 * 20);;
    check (m1 =? 0) "couldn't allocate mem?!!" [s];;
    free m1;;
    exit 0
  else
    let* (_, xstatus) := wait_x junk in
    when (xstatus =? -1) (exit 0);;
    exit xstatus.

(** ** More files *)

(** How often [c] occurs in the [n] bytes at [p]. *)
Definition occurs (p n c : Z) : U Z := umem (fun m => Z.of_nat (length (filter (fun i => load8 m (p + i) = c) (range n)))).

Definition sharedfd_turn (fd : Z) '((nc, np) : Z * Z) : U (Z * Z + Z * Z) :=
  n <- read fd loc 10;;
  if 0 <? n then
    c <- occurs loc 10 99;;
    p <- occurs loc 10 112;;
    ret (inl (nc + c, np + p))
  else ret (inr (nc, np)).

Definition sharedfd (s : Z) : U unit :=
  unlink_ "sharedfd";;
  fd <- open_ "sharedfd" CREATE_RW;;
  check_ (fd <? 0) "%s: cannot open sharedfd for writing" [s];;
  pid <- fork;;
  memset loc (if pid =? 0 then 99 else 112) 10;;
  for_each (range 1000) (fun _ =>
    w <- write fd loc 10;;
    check (negb (w =? 10)) "%s: write sharedfd failed" [s]);;
  (if pid =? 0 then exit 0
   else
     let* (_, xstatus) := wait_x junk in
     when (negb (xstatus =? 0)) (exit xstatus));;
  close fd;;
  fd <- open_ "sharedfd" 0;;
  check (fd <? 0) "%s: cannot open sharedfd for reading" [s];;
  let* (nc, np) := loop (S ufuel) (sharedfd_turn fd) (0, 0) in
  close fd;;
  unlink_ "sharedfd";;
  if (nc =? 1000 * 10) && (np =? 1000 * 10) then exit 0
  else println "%s: nc/np test fails" [s];; exit 1.

Definition fourfiles_child (pi : Z) (fname : string) (s : Z) : U unit :=
  fd <- open_ fname CREATE_RW;;
  check (fd <? 0) "create failed" [s];;
  memset buf (48 + pi) 500;;
  for_each (range 12) (fun _ =>
    n <- write fd buf 500;;
    check (negb (n =? 500)) "write failed %d" [n]);;
  exit 0.

(** [while((n = read(fd, buf, sizeof(buf))) > 0)] of file [i]; [total] bytes so far. *)
Definition fourfiles_turn (i fd s total : Z) : U (Z + Z) :=
  n <- read fd buf BUFSZ;;
  if 0 <? n then
    for_each (range n) (fun j => c <- get (buf + j);; check (negb (c =? 48 + i)) "wrong char" [s]);;
    ret (inl (total + n))
  else ret (inr total).

Definition fourfiles_names : list (Z * string) := [(0, "f0"); (1, "f1"); (2, "f2"); (3, "f3")]%string.

Definition fourfiles (s : Z) : U unit :=
  for_each fourfiles_names (fun '(pi, fname) =>
    unlink_ fname;;
    pid <- fork;;
    check (pid <? 0) "fork failed" [s];;
    if pid =? 0 then fourfiles_child pi fname s else ret tt);;
  wait_all 4 junk exit;;
  for_each fourfiles_names (fun '(i, fname) =>
    fd <- open_ fname 0;;
    total <- loop (S ufuel) (fourfiles_turn i fd s) 0;;
    close fd;;
    check (negb (total =? 12 * 500)) "wrong length %d" [total];;
    unlink_ fname;;
    ret tt).

(** [loc] is [name]. *)
Definition createdelete_child (pi s : Z) : U unit :=
  put loc (112 + pi);;
  put (loc + 2) 0;;
  for_each (range 20) (fun i =>
    put (loc + 1) (48 + i);;
    fd <- open loc CREATE_RW;;
    check (fd <? 0) "%s: create failed" [s];;
    close fd;;
    when ((0 <? i) && (i mod 2 =? 0))
      (put (loc + 1) (48 + i / 2);;
       r <- unlink loc;;
       check (r <? 0) "%s: unlink failed" [s]));;
  exit 0.

Definition createdelete (s : Z) : U unit :=
  for_each (range 4) (fun pi =>
    pid <- fork;;
    check (pid <? 0) "fork failed" [s];;
    if pid =? 0 then createdelete_child pi s else ret tt);;
  wait_all 4 junk (fun _ => exit 1);;
  put (loc + 2) 0;;
  put (loc + 1) 0;;
  put loc 0;;
  for_each (range 20) (fun i => for_each (range 4) (fun pi =>
    put loc (112 + pi);;
    put (loc + 1) (48 + i);;
    fd <- open loc 0;;
    (if ((i =? 0) || (20 / 2 <=? i)) && (fd <? 0) then println "%s: oops createdelete %s didn't exist" [s; loc];; exit 1
     else if ((1 <=? i) && (i <? 20 / 2)) && (0 <=? fd) then println "%s: oops createdelete %s did exist" [s; loc];; exit 1
     else ret tt);;
    when (0 <=? fd) (close fd;; ret tt)));;
  (* the first letter is 'p' + i *)
  for_each (range 20) (fun i => for_each (range 4) (fun pi =>
    put loc (112 + i);;
    put (loc + 1) (48 + i);;
    unlink loc;;
    ret tt)).

Definition unlinkread (s : Z) : U unit :=
  fd <- open_ "unlinkread" CREATE_RW;;
  check (fd <? 0) "%s: create unlinkread failed" [s];;
  wr fd "hello";;
  close fd;;
  fd <- open_ "unlinkread" O_RDWR;;
  check (fd <? 0) "%s: open unlinkread failed" [s];;
  r <- unlink_ "unlinkread";;
  check (negb (r =? 0)) "%s: unlink unlinkread failed" [s];;
  fd1 <- open_ "unlinkread" CREATE_RW;;
  wr fd1 "yyy";;
  close fd1;;
  n <- read fd buf BUFSZ;;
  check_ (negb (n =? 5)) "%s: unlinkread read failed" [s];;
  c <- get buf;;
  check (negb (c =? 104)) "%s: unlinkread wrong data" [s];;
  w <- write fd buf 10;;
  check (negb (w =? 10)) "%s: unlinkread write failed" [s];;
  close fd;;
  unlink_ "unlinkread";;
  ret tt.

Definition linktest (s : Z) : U unit :=
  unlink_ "lf1";;
  unlink_ "lf2";;
  fd <- open_ "lf1" CREATE_RW;;
  check (fd <? 0) "%s: create lf1 failed" [s];;
  w <- wr fd "hello";;
  check (negb (w =? 5)) "%s: write lf1 failed" [s];;
  close fd;;
  r <- link_ "lf1" "lf2";;
  check (r <? 0) "%s: link lf1 lf2 failed" [s];;
  unlink_ "lf1";;
  r <- open_ "lf1" 0;;
  check (0 <=? r) "%s: unlinked lf1 but it is still there!" [s];;
  fd <- open_ "lf2" 0;;
  check (fd <? 0) "%s: open lf2 failed" [s];;
  n <- read fd buf BUFSZ;;
  check (negb (n =? 5)) "%s: read lf2 failed" [s];;
  close fd;;
  r <- link_ "lf2" "lf2";;
  check (0 <=? r) "%s: link lf2 lf2 succeeded! oops" [s];;
  unlink_ "lf2";;
  r <- link_ "lf2" "lf1";;
  check (0 <=? r) "%s: link non-existent succeeded! oops" [s];;
  r <- link_ "." "lf1";;
  check (0 <=? r) "%s: link . lf1 succeeded! oops" [s].

(** The names of concreate(): [file], the directory entry and the marks [fa]. *)
Definition concreate_make (file i : Z) : U unit :=
  put (file + 1) (48 + i);;
  unlink file;;
  pid <- fork;;
  (if negb (pid =? 0) && (i mod 3 =? 1) then link_to "C0" file;; ret tt
   else if (pid =? 0) && (i mod 5 =? 1) then link_to "C0" file;; ret tt
   else
     fd <- open file CREATE_RW;;
     check (fd <? 0) "concreate create %s failed" [file];;
     close fd;;
     ret tt);;
  if pid =? 0 then exit 0
  else
    let* (_, xstatus) := wait_x junk in
    when (negb (xstatus =? 0)) (exit 1).

(** [i >= sizeof(fa)] is an unsigned comparison, and the name's bytes are unsigned. *)
Definition concreate_list (fd de fa s n : Z) : U (Z + Z) :=
  r <- read fd de 16;;
  if 0 <? r then
    inum <- umem (fun m => load_le 2 m de);;
    if inum =? 0 then ret (inl n)
    else
      c0 <- get (de + 2);;
      c1 <- get (de + 3);;
      c2 <- get (de + 4);;
      if (c0 =? 67) && (c2 =? 0) then
        let i := c1 - 48 in
        check ((i <? 0) || (40 <=? i)) "%s: concreate weird file %s" [s; de + 2];;
        f <- get (fa + i);;
        check (truthy f) "%s: concreate duplicate file %s" [s; de + 2];;
        put (fa + i) 1;;
        ret (inl (n + 1))
      else ret (inl n)
  else ret (inr n).

Definition concreate_race (file i s : Z) : U unit :=
  put (file + 1) (48 + i);;
  pid <- fork;;
  check (pid <? 0) "%s: fork failed" [s];;
  (if ((i mod 3 =? 0) && (pid =? 0)) || ((i mod 3 =? 1) && negb (pid =? 0))
   then for_each (range 6) (fun _ => fd <- open file 0;; close fd;; ret tt)
   else for_each (range 6) (fun _ => unlink file;; ret tt));;
  if pid =? 0 then exit 0 else wait;; ret tt.

Definition concreate (file de fa s : Z) : U unit :=
  put file 67;;
  put (file + 2) 0;;
  for_each (range 40) (concreate_make file);;
  memset fa 0 40;;
  fd <- open_ "." 0;;
  n <- loop (S ufuel) (concreate_list fd de fa s) 0;;
  close fd;;
  check (negb (n =? 40)) "%s: concreate not enough files in directory listing" [s];;
  for_each (range 40) (fun i => concreate_race file i s).

(** [x] is an unsigned int. *)
Fixpoint linkunlink_loop (n : nat) (x : Z) : U unit :=
  match n with
  | O => ret tt
  | S n' =>
      let x := u32 (x * 1103515245 + 12345) in
      (if x mod 3 =? 0 then fd <- open_ "x" CREATE_RW;; close fd
       else if x mod 3 =? 1 then link_ "cat" "x"
       else unlink_ "x");;
      linkunlink_loop n' x
  end.

Definition linkunlink (s : Z) : U unit :=
  unlink_ "x";;
  pid <- fork;;
  check (pid <? 0) "%s: fork failed" [s];;
  linkunlink_loop 100 (if negb (pid =? 0) then 1 else 97);;
  if negb (pid =? 0) then wait;; ret tt else exit 0.

(** The tests of subdir() that must succeed or fail: [if(call() != 0)] and the like. *)
Definition subdir_make (s : Z) : U unit :=
  unlink_ "ff";;
  r <- mkdir_ "dd";;
  check (negb (r =? 0)) "%s: mkdir dd failed" [s];;
  fd <- open_ "dd/ff" CREATE_RW;;
  check (fd <? 0) "%s: create dd/ff failed" [s];;
  wr fd "ff";;
  close fd;;
  r <- unlink_ "dd";;
  check (0 <=? r) "%s: unlink dd (non-empty dir) succeeded!" [s];;
  r <- mkdir_ "/dd/dd";;
  check (negb (r =? 0)) "subdir mkdir dd/dd failed" [s];;
  fd <- open_ "dd/dd/ff" CREATE_RW;;
  check (fd <? 0) "%s: create dd/dd/ff failed" [s];;
  wr fd "FF";;
  close fd;;
  fd <- open_ "dd/dd/../ff" 0;;
  check (fd <? 0) "%s: open dd/dd/../ff failed" [s];;
  cc <- read fd buf BUFSZ;;
  c <- get buf;;
  check (negb (cc =? 2) || negb (c =? 102)) "%s: dd/dd/../ff wrong content" [s];;
  close fd;;
  r <- link_ "dd/dd/ff" "dd/dd/ffff";;
  check (negb (r =? 0)) "link dd/dd/ff dd/dd/ffff failed" [s];;
  r <- unlink_ "dd/dd/ff";;
  check (negb (r =? 0)) "%s: unlink dd/dd/ff failed" [s];;
  r <- open_ "dd/dd/ff" O_RDONLY;;
  check (0 <=? r) "%s: open (unlinked) dd/dd/ff succeeded" [s].

Definition subdir_walk (s : Z) : U unit :=
  r <- chdir_ "dd";;
  check (negb (r =? 0)) "%s: chdir dd failed" [s];;
  r <- chdir_ "dd/../../dd";;
  check (negb (r =? 0)) "%s: chdir dd/../../dd failed" [s];;
  r <- chdir_ "dd/../../../dd";;
  check (negb (r =? 0)) "chdir dd/../../dd failed" [s];;
  r <- chdir_ "./..";;
  check (negb (r =? 0)) "%s: chdir ./.. failed" [s];;
  fd <- open_ "dd/dd/ffff" 0;;
  check (fd <? 0) "%s: open dd/dd/ffff failed" [s];;
  n <- read fd buf BUFSZ;;
  check (negb (n =? 2)) "%s: read dd/dd/ffff wrong len" [s];;
  close fd;;
  r <- open_ "dd/dd/ff" O_RDONLY;;
  check (0 <=? r) "%s: open (unlinked) dd/dd/ff succeeded!" [s].

Definition subdir_refuse (s : Z) : U unit :=
  r <- open_ "dd/ff/ff" CREATE_RW;;
  check (0 <=? r) "%s: create dd/ff/ff succeeded!" [s];;
  r <- open_ "dd/xx/ff" CREATE_RW;;
  check (0 <=? r) "%s: create dd/xx/ff succeeded!" [s];;
  r <- open_ "dd" O_CREATE;;
  check (0 <=? r) "%s: create dd succeeded!" [s];;
  r <- open_ "dd" O_RDWR;;
  check (0 <=? r) "%s: open dd rdwr succeeded!" [s];;
  r <- open_ "dd" O_WRONLY;;
  check (0 <=? r) "%s: open dd wronly succeeded!" [s];;
  r <- link_ "dd/ff/ff" "dd/dd/xx";;
  check (r =? 0) "%s: link dd/ff/ff dd/dd/xx succeeded!" [s];;
  r <- link_ "dd/xx/ff" "dd/dd/xx";;
  check (r =? 0) "%s: link dd/xx/ff dd/dd/xx succeeded!" [s];;
  r <- link_ "dd/ff" "dd/dd/ffff";;
  check (r =? 0) "%s: link dd/ff dd/dd/ffff succeeded!" [s];;
  r <- mkdir_ "dd/ff/ff";;
  check (r =? 0) "%s: mkdir dd/ff/ff succeeded!" [s];;
  r <- mkdir_ "dd/xx/ff";;
  check (r =? 0) "%s: mkdir dd/xx/ff succeeded!" [s];;
  r <- mkdir_ "dd/dd/ffff";;
  check (r =? 0) "%s: mkdir dd/dd/ffff succeeded!" [s];;
  r <- unlink_ "dd/xx/ff";;
  check (r =? 0) "%s: unlink dd/xx/ff succeeded!" [s];;
  r <- unlink_ "dd/ff/ff";;
  check (r =? 0) "%s: unlink dd/ff/ff succeeded!" [s];;
  r <- chdir_ "dd/ff";;
  check (r =? 0) "%s: chdir dd/ff succeeded!" [s];;
  r <- chdir_ "dd/xx";;
  check (r =? 0) "%s: chdir dd/xx succeeded!" [s].

Definition subdir (s : Z) : U unit :=
  subdir_make s;;
  subdir_walk s;;
  subdir_refuse s;;
  r <- unlink_ "dd/dd/ffff";;
  check (negb (r =? 0)) "%s: unlink dd/dd/ff failed" [s];;
  r <- unlink_ "dd/ff";;
  check (negb (r =? 0)) "%s: unlink dd/ff failed" [s];;
  r <- unlink_ "dd";;
  check (r =? 0) "%s: unlink non-empty dd succeeded!" [s];;
  r <- unlink_ "dd/dd";;
  check (r <? 0) "%s: unlink dd/dd failed" [s];;
  r <- unlink_ "dd";;
  check (r <? 0) "%s: unlink dd failed" [s].

(** [for(sz = 499; sz < (MAXOPBLOCKS+2)*BSIZE; sz += 471)] *)
Definition bigwrite_turn (s sz : Z) : U (Z + unit) :=
  if sz <? BUFSZ then
    fd <- open_ "bigwrite" CREATE_RW;;
    check (fd <? 0) "%s: cannot create bigwrite" [s];;
    for_each (range 2) (fun _ =>
      cc <- write fd buf sz;;
      check (negb (cc =? sz)) "%s: write(%d) ret %d" [s; sz; cc]);;
    close fd;;
    unlink_ "bigwrite";;
    ret (inl (sz + 471))
  else ret (inr tt).
Definition bigwrite (s : Z) : U unit := unlink_ "bigwrite";; loop 27 (bigwrite_turn s) 499.

(** The read at turn [i] of bigfile()'s second loop. *)
Definition bigfile_turn (s fd : Z) '((i, total) : Z * Z) : U (Z * Z + Z) :=
  cc <- read fd buf (600 / 2);;
  check (cc <? 0) "%s: read bigfile failed" [s];;
  if cc =? 0 then ret (inr total)
  else
    check (negb (cc =? 600 / 2)) "%s: short read bigfile" [s];;
    c0 <- get buf;;
    c1 <- get (buf + 600 / 2 - 1);;
    check (negb (c0 =? i / 2) || negb (c1 =? i / 2)) "%s: read bigfile wrong data" [s];;
    ret (inl (i + 1, total + cc)).

Definition bigfile (s : Z) : U unit :=
  unlink_ "bigfile.dat";;
  fd <- open_ "bigfile.dat" CREATE_RW;;
  check_ (fd <? 0) "%s: cannot create bigfile" [s];;
  for_each (range 20) (fun i =>
    memset buf i 600;;
    w <- write fd buf 600;;
    check (negb (w =? 600)) "%s: write bigfile failed" [s]);;
  close fd;;
  fd <- open_ "bigfile.dat" 0;;
  check (fd <? 0) "%s: cannot open bigfile" [s];;
  total <- loop (S ufuel) (bigfile_turn s fd) (0, 0);;
  close fd;;
  check (negb (total =? 20 * 600)) "%s: read bigfile wrong total" [s];;
  unlink_ "bigfile.dat";;
  ret tt.

Definition fourteen (s : Z) : U unit :=
  r <- mkdir_ "12345678901234";;
  check (negb (r =? 0)) "%s: mkdir 12345678901234 failed" [s];;
  r <- mkdir_ "12345678901234/123456789012345";;
  check (negb (r =? 0)) "%s: mkdir 12345678901234/123456789012345 failed" [s];;
  fd <- open_ "123456789012345/123456789012345/123456789012345" O_CREATE;;
  check (fd <? 0) "%s: create 123456789012345/123456789012345/123456789012345 failed" [s];;
  close fd;;
  fd <- open_ "12345678901234/12345678901234/12345678901234" 0;;
  check (fd <? 0) "%s: open 12345678901234/12345678901234/12345678901234 failed" [s];;
  close fd;;
  r <- mkdir_ "12345678901234/12345678901234";;
  check (r =? 0) "%s: mkdir 12345678901234/12345678901234 succeeded!" [s];;
  r <- mkdir_ "123456789012345/12345678901234";;
  check (r =? 0) "%s: mkdir 12345678901234/123456789012345 succeeded!" [s];;
  unlink_ "123456789012345/12345678901234";;
  unlink_ "12345678901234/12345678901234";;
  unlink_ "12345678901234/12345678901234/12345678901234";;
  unlink_ "123456789012345/123456789012345/123456789012345";;
  unlink_ "12345678901234/123456789012345";;
  unlink_ "12345678901234";;
  ret tt.

Definition rmdot (s : Z) : U unit :=
  r <- mkdir_ "dots";;
  check (negb (r =? 0)) "%s: mkdir dots failed" [s];;
  r <- chdir_ "dots";;
  check (negb (r =? 0)) "%s: chdir dots failed" [s];;
  r <- unlink_ ".";;
  check (r =? 0) "%s: rm . worked!" [s];;
  r <- unlink_ "..";;
  check (r =? 0) "%s: rm .. worked!" [s];;
  r <- chdir_ "/";;
  check (negb (r =? 0)) "%s: chdir / failed" [s];;
  r <- unlink_ "dots/.";;
  check (r =? 0) "%s: unlink dots/. worked!" [s];;
  r <- unlink_ "dots/..";;
  check (r =? 0) "%s: unlink dots/.. worked!" [s];;
  r <- unlink_ "dots";;
  check (negb (r =? 0)) "%s: unlink dots failed!" [s].

Definition dirfile (s : Z) : U unit :=
  fd <- open_ "dirfile" O_CREATE;;
  check (fd <? 0) "%s: create dirfile failed" [s];;
  close fd;;
  r <- chdir_ "dirfile";;
  check (r =? 0) "%s: chdir dirfile succeeded!" [s];;
  fd <- open_ "dirfile/xx" 0;;
  check (0 <=? fd) "%s: create dirfile/xx succeeded!" [s];;
  fd <- open_ "dirfile/xx" O_CREATE;;
  check (0 <=? fd) "%s: create dirfile/xx succeeded!" [s];;
  r <- mkdir_ "dirfile/xx";;
  check (r =? 0) "%s: mkdir dirfile/xx succeeded!" [s];;
  r <- unlink_ "dirfile/xx";;
  check (r =? 0) "%s: unlink dirfile/xx succeeded!" [s];;
  r <- link_ "README" "dirfile/xx";;
  check (r =? 0) "%s: link to dirfile/xx succeeded!" [s];;
  r <- unlink_ "dirfile";;
  check (negb (r =? 0)) "%s: unlink dirfile failed!" [s];;
  fd <- open_ "." O_RDWR;;
  check (0 <=? fd) "%s: open . for writing succeeded!" [s];;
  fd <- open_ "." 0;;
  w <- wr fd "x";;
  check (0 <? w) "%s: write . succeeded!" [s];;
  close fd;;
  ret tt.

(** NINODE is 50. *)
Definition iref (s : Z) : U unit :=
  for_each (range (Z.of_nat NINODE + 1)) (fun _ =>
    r <- mkdir_ "irefd";;
    check (negb (r =? 0)) "%s: mkdir irefd failed" [s];;
    r <- chdir_ "irefd";;
    check (negb (r =? 0)) "%s: chdir irefd failed" [s];;
    mkdir_ "";;
    link_ "README" "";;
    fd <- open_ "" O_CREATE;;
    when (0 <=? fd) (close fd;; ret tt);;
    fd <- open_ "xx" O_CREATE;;
    when (0 <=? fd) (close fd;; ret tt);;
    unlink_ "xx";;
    ret tt);;
  for_each (range (Z.of_nat NINODE + 1)) (fun _ => chdir_ "..";; unlink_ "irefd";; ret tt);;
  chdir_ "/";;
  ret tt.

(** The loops are those of forktest.c. *)
Fixpoint reap (n : nat) (s : Z) : U unit :=
  match n with
  | O => ret tt
  | S n' => w <- wait;; check (w <? 0) "%s: wait stopped early" [s];; reap n' s
  end.

Definition forktest (s : Z) : U unit :=
  n <- fork_loop N 0;;
  check (n =? 0) "%s: no fork at all!" [s];;
  check (n =? Z.of_nat N) "%s: fork claimed to work 1000 times!" [s];;
  reap (Z.to_nat n) s;;
  w <- wait;;
  check (negb (w =? -1)) "%s: wait got too many" [s].

(** ** Memory *)

Definition TOOMUCH : Z := 1024 * 1024 * 1024.
Definition BIG : Z := 100 * 1024 * 1024.

(** [for(b = a; b < top; b += 4096) *b = c] *)
Definition touch_pages (a top c : Z) : U unit :=
  for_each (range ((top - a + 4095) / 4096)) (fun k => poke (a + 4096 * k) c).

(** 5000 calls of sbrk(1); the last break is returned. *)
Fixpoint sbrk_bytes (n : nat) (i a s : Z) : U Z :=
  match n with
  | O => ret a
  | S n' =>
      b <- sbrk 1;;
      check (negb (b =? a)) "%s: sbrk test failed %d %x %x" [s; i; a; b];;
      poke b 1;;
      sbrk_bytes n' (i + 1) (b + 1) s
  end.

Definition sbrkbasic (s : Z) : U unit :=
  pid <- fork;;
  check (pid <? 0) "fork failed in sbrkbasic" [];;
  (if pid =? 0 then
     a <- sbrk TOOMUCH;;
     when (a =? -1) (exit 0);;
     touch_pages a (a + TOOMUCH) 99;;
     exit 1
   else ret tt);;
  let* (_, xstatus) := wait_x junk in
  check (xstatus =? 1) "%s: too much memory allocated!" [s];;
  a <- sbrk 0;;
  a <- sbrk_bytes 5000 0 a s;;
  pid <- fork;;
  check (pid <? 0) "%s: sbrk test fork failed" [s];;
  sbrk 1;;
  c <- sbrk 1;;
  check (negb (c =? a + 1)) "%s: sbrk test failed post-fork" [s];;
  when (pid =? 0) (exit 0);;
  let* (_, xstatus) := wait_x xstatus in
  exit xstatus.

(** sbrk() takes an int. *)
Definition sbrkmuch (s : Z) : U unit :=
  oldbrk <- sbrk 0;;
  a <- sbrk 0;;
  p <- sbrk (i32 (BIG - a));;
  check (negb (p =? a)) "%s: sbrk test failed to grow big address space; enough phys mem?" [s];;
  eee <- sbrk 0;;
  touch_pages a eee 1;;
  let lastaddr := BIG - 1 in
  poke lastaddr 99;;
  a <- sbrk 0;;
  c <- sbrk (- PGSIZE);;
  check (c =? -1) "%s: sbrk could not deallocate" [s];;
  c <- sbrk 0;;
  check (negb (c =? a - PGSIZE)) "%s: sbrk deallocation produced wrong address, a %x c %x" [s; a; c];;
  a <- sbrk 0;;
  c <- sbrk PGSIZE;;
  bad <- (if negb (c =? a) then ret true else b <- sbrk 0;; ret (negb (b =? a + PGSIZE)));;
  check bad "%s: sbrk re-allocation failed, a %x c %x" [s; a; c];;
  x <- peek_ lastaddr;;
  check (x =? 99) "%s: sbrk de-allocation didn't really deallocate" [s];;
  a <- sbrk 0;;
  b <- sbrk 0;;
  c <- sbrk (i32 (- (b - oldbrk)));;
  check (negb (c =? a)) "%s: sbrk downsize failed, a %x c %x" [s; a; c].

(** A child that touches a forbidden address must be killed. *)
Definition must_die (child : U unit) (s : Z) : U unit :=
  pid <- fork;;
  check (pid <? 0) "%s: fork failed" [s];;
  (if pid =? 0 then child else ret tt);;
  let* (_, xstatus) := wait_x junk in
  when (negb (xstatus =? -1)) (exit 1).

Definition kernmem (s : Z) : U unit :=
  for_each (range 40) (fun k =>
    let a := KERNBASE + 50000 * k in
    must_die (x <- peek_ a;; println "%s: oops could read %x = %x" [s; a; x];; exit 1) s).

(** [for( ; a != 0; a <<= 1)] from MAXVA, bit 38 *)
Definition MAXVAplus (s : Z) : U unit :=
  for_each (range 26) (fun k =>
    let a := Z.shiftl MAXVA k in
    must_die (poke a 99;; println "%s: oops wrote %x" [s; a];; exit 1) s).

(** The children of sbrkfail(): [fds] are the descriptors, [scratch] the byte read. *)
Definition sbrkfail_child (fd1 : Z) : U unit :=
  a <- sbrk 0;;
  sbrk (i32 (BIG - a));;
  wr fd1 "x";;
  loop (S ufuel) (fun _ => sleep 1000;; ret (inl tt)) tt.

Fixpoint sbrkfail_forks (n : nat) (fd0 fd1 scratch : Z) : U (list Z) :=
  match n with
  | O => ret []
  | S n' =>
      pid <- fork;;
      (if pid =? 0 then sbrkfail_child fd1 else ret tt);;
      when (negb (pid =? -1)) (read fd0 scratch 1;; ret tt);;
      pids <- sbrkfail_forks n' fd0 fd1 scratch;;
      ret (pid :: pids)
  end.

(** [n += *(a+i)] for every page *)
Fixpoint sum_pages (k : nat) (a n : Z) : U Z :=
  match k with
  | O => ret n
  | S k' => x <- peek_ a;; sum_pages k' (a + PGSIZE) (i32 (n + x))
  end.

Definition sbrkfail (scratch s : Z) : U unit :=
  let* (e, fd0, fd1) := pipe in
  check (negb (e =? 0)) "%s: pipe() failed" [s];;
  pids <- sbrkfail_forks 10 fd0 fd1 scratch;;
  c <- sbrk PGSIZE;;
  for_each pids (fun pid => if pid =? -1 then ret tt else kill pid;; wait;; ret tt);;
  check (c =? -1) "%s: failed sbrk leaked memory" [s];;
  pid <- fork;;
  check (pid <? 0) "%s: fork failed" [s];;
  (if pid =? 0 then
     a <- sbrk 0;;
     sbrk (10 * BIG);;
     n <- sum_pages (Z.to_nat (10 * BIG / PGSIZE)) a 0;;
     println "%s: allocate a lot of memory succeeded %d" [s; n];;
     exit 1
   else ret tt);;
  let* (_, xstatus) := wait_x junk in
  when (negb (xstatus =? -1) && negb (xstatus =? 2)) (exit 1).

Definition sbrkarg (s : Z) : U unit :=
  a <- sbrk PGSIZE;;
  fd <- open_ "sbrk" CREATE_WR;;
  unlink_ "sbrk";;
  check (fd <? 0) "%s: open sbrk failed" [s];;
  n <- write fd a PGSIZE;;
  check (n <? 0) "%s: write sbrk failed" [s];;
  close fd;;
  a <- sbrk PGSIZE;;
  p <- sys Pipe;;
  umod (fun m => write_bytes m a (a_data p));;
  check (negb (a_ret p =? 0)) "%s: pipe() failed" [s].

(** [str] gives the addresses of constant strings. *)
Context (str : string -> Z).

Definition validatetest (s : Z) : U unit :=
  for_each (range (1100 * 1024 / PGSIZE + 1)) (fun k =>
    r <- raw SYS_link [str "nosuchfile"; PGSIZE * k];;
    check (negb (r =? -1)) "%s: link should not succeed" [s]).

Definition bsstest (uninit s : Z) : U unit :=
  for_each (range 10000) (fun i => c <- get (uninit + i);; check (negb (c =? 0)) "%s: bss test failed" [s]).

Definition bigarg : list Z := bytes_of_string "bigargs test: failed" ++ 10 :: replicate 199 32.

Definition bigargtest (s : Z) : U unit :=
  unlink_ "bigarg-ok";;
  pid <- fork;;
  (if pid =? 0 then
     a <- sys (Exec (bytes_of_string "echo") (replicate (MAXARG - 1) bigarg));;
     (if a_ret a <? 0 then ret tt else stop);;
     fd <- open_ "bigarg-ok" O_CREATE;;
     close fd;;
     exit 0
   else check (pid <? 0) "%s: bigargtest: fork failed" [s]);;
  let* (_, xstatus) := wait_x junk in
  when (negb (xstatus =? 0)) (exit xstatus);;
  fd <- open_ "bigarg-ok" 0;;
  check (fd <? 0) "%s: bigarg test failed!" [s];;
  close fd;;
  ret tt.

(** A name with four digits, and the files of fsfull(); [loc] is [name]. *)
Definition full_name (n : Z) : U unit :=
  put loc 102;;
  put (loc + 1) (48 + n / 1000);;
  put (loc + 2) (48 + n mod 1000 / 100);;
  put (loc + 3) (48 + n mod 100 / 10);;
  put (loc + 4) (48 + n mod 10);;
  put (loc + 5) 0.

Definition fsfull_turn (nfiles : Z) : U (Z + Z) :=
  full_name nfiles;;
  println "writing %s" [loc];;
  fd <- open loc CREATE_RW;;
  if fd <? 0 then println "open %s failed" [loc];; ret (inr nfiles)
  else
    total <- loop (S ufuel) (fun total =>
      cc <- write fd buf BLOCK;;
      ret (if cc <? BLOCK then inr total else inl (total + cc))) 0;;
    println "wrote %d bytes" [total];;
    close fd;;
    ret (if total =? 0 then inr nfiles else inl (nfiles + 1)).

Definition fsfull : U unit :=
  println "fsfull test" [];;
  nfiles <- loop (S ufuel) fsfull_turn 0;;
  for_each (rev (range (nfiles + 1))) (fun n => full_name n;; unlink loc;; ret tt);;
  println "fsfull test finished" [].

Definition argptest (s : Z) : U unit :=
  fd <- open_ "init" O_RDONLY;;
  check (fd <? 0) "%s: open failed" [s];;
  b <- sbrk 0;;
  raw SYS_read [fd; b - 1; -1];;
  close fd;;
  ret tt.

(** stacktest() and textwrite(): the child should be killed. *)
Definition killed_child (child : U unit) (s : Z) : U unit :=
  pid <- fork;;
  (if pid =? 0 then child else check (pid <? 0) "%s: fork failed" [s]);;
  let* (_, xstatus) := wait_x junk in
  if xstatus =? -1 then exit 0 else exit xstatus.

(** [sp] is the stack pointer. *)
Definition stacktest (sp s : Z) : U unit :=
  killed_child (x <- peek_ (sp - PGSIZE);; println "%s: stacktest: read below stack %p" [s; x];; exit 1) s.

Definition textwrite (s : Z) : U unit := killed_child (touch 0;; umod (fun m => store32 m 0 10);; exit 1) s.

(** [loc] is [argv]. *)
Definition pgbug (s : Z) : U unit :=
  let big := 0xeaeb0b5b00002f5e in
  umod (fun m => store64 m loc 0);;
  raw_exec big loc;;
  raw SYS_pipe [big];;
  exit 0.

(** [code] is the address of the instructions that follow. *)
Definition sbrkbugs_child (code : Z) (shrink : U unit) : U unit :=
  pid <- fork;;
  check (pid <? 0) "fork failed" [];;
  (if pid =? 0 then shrink;; touch code;; exit 0 else ret tt);;
  wait;;
  ret tt.

Definition sbrkbugs (code s : Z) : U unit :=
  sbrkbugs_child code (sz <- sbrk 0;; sbrk (i32 (- i32 sz));; ret tt);;
  sbrkbugs_child code (sz <- sbrk 0;; sbrk (i32 (- (i32 sz - 3500)));; ret tt);;
  sbrkbugs_child code (b <- sbrk 0;; sbrk (i32 (10 * 4096 + 2048 - b));; sbrk (-10);; ret tt);;
  exit 0.

Definition sbrklast (s : Z) : U unit :=
  top <- sbrk 0;;
  when (negb (top mod 4096 =? 0)) (sbrk (4096 - top mod 4096);; ret tt);;
  sbrk 4096;;
  sbrk 10;;
  sbrk (-20);;
  top <- sbrk 0;;
  let p := top - 64 in
  poke p 120;;
  poke (p + 1) 0;;
  fd <- open p CREATE_RW;;
  write fd p 1;;
  close fd;;
  fd <- open p O_RDWR;;
  poke p 0;;
  read fd p 1;;
  c <- peek_ p;;
  when (negb (c =? 120)) (exit 1).

Definition sbrk8000 (s : Z) : U unit :=
  sbrk (i32 0x80000004);;
  top <- sbrk 0;;
  x <- peek_ (top - 1);;
  poke (top - 1) (x + 1).

(** [loc] is [argv]. *)
Definition badarg (s : Z) : U unit :=
  for_each (range 50000) (fun _ =>
    umod (fun m => store64 (store64 m loc 0xffffffff) (loc + 8) 0);;
    raw_exec (str "echo") loc;;
    ret tt);;
  exit 0.

(** ** Slow tests *)

(** [loc] is [name]. *)
Definition bigdir_name (i : Z) : U unit :=
  put loc 120;; put (loc + 1) (48 + i / 64);; put (loc + 2) (48 + i mod 64);; put (loc + 3) 0.

Definition bigdir (s : Z) : U unit :=
  unlink_ "bd";;
  fd <- open_ "bd" O_CREATE;;
  check (fd <? 0) "%s: bigdir create failed" [s];;
  close fd;;
  for_each (range 500) (fun i =>
    bigdir_name i;;
    r <- link_to "bd" loc;;
    check (negb (r =? 0)) "%s: bigdir link(bd, %s) failed" [s; loc]);;
  unlink_ "bd";;
  for_each (range 500) (fun i =>
    bigdir_name i;;
    r <- unlink loc;;
    check_ (negb (r =? 0)) "%s: bigdir unlink failed" [s]).

Definition manywrites_child (ci s : Z) : U unit :=
  put loc 98;;
  put (loc + 1) (97 + ci);;
  put (loc + 2) 0;;
  unlink loc;;
  for_each (range 30) (fun _ =>
    for_each (range (ci + 1)) (fun _ =>
      fd <- open loc CREATE_RW;;
      check (fd <? 0) "%s: cannot create %s" [s; loc];;
      cc <- write fd buf BUFSZ;;
      check (negb (cc =? BUFSZ)) "%s: write(%d) ret %d" [s; BUFSZ; cc];;
      close fd;;
      ret tt);;
    unlink loc;;
    ret tt);;
  unlink loc;;
  exit 0.

Definition manywrites (s : Z) : U unit :=
  for_each (range 4) (fun ci =>
    pid <- fork;;
    check (pid <? 0) "fork failed" [];;
    if pid =? 0 then manywrites_child ci s else ret tt);;
  for_each (range 4) (fun _ =>
    let* (_, st) := wait_x 0 in
    when (negb (st =? 0)) (exit st));;
  exit 0.

Definition badwrite (s : Z) : U unit :=
  unlink_ "junk";;
  for_each (range 600) (fun _ =>
    fd <- open_ "junk" CREATE_WR;;
    check (fd <? 0) "open junk failed" [];;
    raw SYS_write [fd; 0xffffffffff; 1];;
    close fd;;
    unlink_ "junk";;
    ret tt);;
  fd <- open_ "junk" CREATE_WR;;
  check (fd <? 0) "open junk failed" [];;
  w <- wr fd "x";;
  check (negb (w =? 1)) "write failed" [];;
  close fd;;
  unlink_ "junk";;
  exit 0.

(** [while(1)]: one page more. *)
Definition grab_page (_ : unit) : U (unit + unit) :=
  a <- sbrk 4096;;
  if a =? -1 then ret (inr tt) else poke (a + 4096 - 1) 1;; ret (inl tt).

Definition execout (s : Z) : U unit :=
  for_each (range 15) (fun avail =>
    pid <- fork;;
    if pid <? 0 then println "fork failed" [];; exit 1
    else if pid =? 0 then
      loop (S ufuel) grab_page tt;;
      for_each (range avail) (fun _ => sbrk (-4096);; ret tt);;
      close 1;;
      exec_ "echo" ["echo"; "x"]%string;;
      exit 0
    else wait;; ret tt);;
  exit 0.

(** The names "big0", "big1", ... and "zz00", "zz01", ... *)
Definition big_name (i : Z) : U unit := put loc 98;; put (loc + 1) 105;; put (loc + 2) 103;; put (loc + 3) (48 + i);; put (loc + 4) 0.
Definition zz_name (i : Z) : U unit := put loc 122;; put (loc + 1) 122;; put (loc + 2) (48 + i / 32);; put (loc + 3) (48 + i mod 32);; put (loc + 4) 0.

Definition CREATE_TRUNC : Z := Z.lor CREATE_RW O_TRUNC.

(** A turn of the first loop of diskfull(): the number of files at its end.  [lbuf] is
    the local buffer of the inner block; a failed write closes the file twice. *)
Definition diskfull_turn (lbuf s fi : Z) : U (Z + Z) :=
  big_name fi;;
  unlink loc;;
  fd <- open loc CREATE_TRUNC;;
  if fd <? 0 then println "%s: could not create file %s" [s; loc];; ret (inr fi)
  else
    failed <- for_find (range MAXFILE) (fun _ =>
      w <- write fd lbuf BLOCK;;
      if negb (w =? BLOCK) then close fd;; ret (Some tt) else ret None);;
    close fd;;
    ret (match failed with Some _ => inr (fi + 1) | None => inl (fi + 1) end).

(** The creation of the files zz.. stops at the first failure. *)
Definition create_zz (nzz : Z) : U unit :=
  for_find (range nzz) (fun i =>
    zz_name i;;
    unlink loc;;
    fd <- open loc CREATE_TRUNC;;
    if fd <? 0 then ret (Some tt) else close fd;; ret None);;
  ret tt.
Definition unlink_zz (nzz : Z) : U unit := for_each (range nzz) (fun i => zz_name i;; unlink loc;; ret tt).

Definition diskfull (lbuf s : Z) : U unit :=
  unlink_ "diskfulldir";;
  fi <- loop (S ufuel) (diskfull_turn lbuf s) 0;;
  create_zz 128;;
  r <- mkdir_ "diskfulldir";;
  (* the name is missing from the arguments *)
  when (r =? 0) (println "%s: mkdir(diskfulldir) unexpectedly succeeded!" []);;
  unlink_ "diskfulldir";;
  unlink_zz 128;;
  for_each (range fi) (fun i => big_name i;; unlink loc;; ret tt).

Definition outofinodes (s : Z) : U unit := create_zz (32 * 32);; unlink_zz (32 * 32).

(** ** The driver *)

Definition test : Type := (Z -> U unit) * Z.

Definition run (f : Z -> U unit) (s : Z) : U bool :=
  printf "test %s: " [s];;
  pid <- fork;;
  check (pid <? 0) "runtest: fork error" [];;
  if pid =? 0 then f s;; exit 0
  else
    let* (_, xstatus) := wait_x junk in
    (if negb (xstatus =? 0) then println "FAILED" [] else println "OK" []);;
    ret (xstatus =? 0).

(** [justone == 0 || strcmp(t->s, justone) == 0] *)
Definition selected (t : test) (justone : Z) : U bool :=
  if justone =? 0 then ret true else r <- strcmp (snd t) justone;; ret (r =? 0).

Fixpoint runtests (tests : list test) (justone : Z) : U Z :=
  match tests with
  | [] => ret 0
  | t :: tests' =>
      sel <- selected t justone;;
      if sel then
        ok <- run (fst t) (snd t);;
        if negb ok then println "SOME TESTS FAILED" [];; ret 1
        else runtests tests' justone
      else runtests tests' justone
  end.

(** [c] is the local character. *)
Definition countfree_child (fd0 fd1 : Z) : U unit :=
  close fd0;;
  loop (S ufuel) (fun _ =>
    a <- sbrk 4096;;
    if a =? -1 then ret (inr tt)
    else
      poke (a + 4096 - 1) 1;;
      w <- wr fd1 "x";;
      check (negb (w =? 1)) "write() failed in countfree()" [];;
      ret (inl tt)) tt;;
  exit 0.

Definition countfree (c : Z) : U Z :=
  let* (e, fd0, fd1) := pipe in
  check (e <? 0) "pipe() failed in countfree()" [];;
  pid <- fork;;
  check (pid <? 0) "fork failed in countfree()" [];;
  (if pid =? 0 then countfree_child fd0 fd1 else ret tt);;
  close fd1;;
  n <- loop (S ufuel) (fun n =>
    cc <- read fd0 c 1;;
    check (cc <? 0) "read() failed in countfree()" [];;
    ret (if cc =? 0 then inr n else inl (n + 1))) 0;;
  close fd0;;
  wait;;
  ret n.

Section tables.
Context (quicktests slowtests : list test) (c : Z).

(** A turn of the loop: the result, or none to go on. *)
Definition drive_turn (quick : bool) (continuous justone : Z) : U (option Z) :=
  println "usertests starting" [];;
  free0 <- countfree c;;
  r <- runtests quicktests justone;;
  if truthy r && negb (continuous =? 2) then ret (Some 1)
  else
  r <- (if negb quick then
          when (justone =? 0) (println "usertests slow tests starting" []);;
          runtests slowtests justone
        else ret 0);;
  if truthy r && negb (continuous =? 2) then ret (Some 1)
  else
  free1 <- countfree c;;
  if free1 <? free0 then
    println "FAILED -- lost some free pages %d (out of %d)" [free1; free0];;
    ret (if negb (continuous =? 2) then Some 1 else None)
  else ret None.

Definition drivetests (quick : bool) (continuous justone : Z) : U Z :=
  loop (S ufuel) (fun _ =>
    r <- drive_turn quick continuous justone;;
    ret (match r with Some r => inr r | None => if truthy continuous then inl tt else inr 0 end)) tt.

(** The options: quick, continuous and justone. *)
Definition options (argv : list Z) : U (bool * Z * Z) :=
  match argv with
  | [_; arg] =>
      q <- strcmp arg (str "-q");;
      if q =? 0 then ret (true, 0, 0)
      else
      c1 <- strcmp arg (str "-c");;
      if c1 =? 0 then ret (false, 1, 0)
      else
      c2 <- strcmp arg (str "-C");;
      if c2 =? 0 then ret (false, 2, 0)
      else
      ch <- get arg;;
      if negb (ch =? 45) then ret (false, 0, arg)
      else println "Usage: usertests [-c] [-C] [-q] [testname]" [];; exit 1
  | _ :: _ :: _ => println "Usage: usertests [-c] [-C] [-q] [testname]" [];; exit 1
  | _ => ret (false, 0, 0)
  end.

Definition usertests_main (argv : list Z) : U unit :=
  let* (quick, continuous, justone) := options argv in
  r <- drivetests quick continuous justone;;
  when (truthy r) (exit 1);;
  println "ALL TESTS PASSED" [];;
  exit 0.

End tables.

(** The tables, with the addresses of the names and of the arrays of the tests. *)
Context (big xx base file de fa scratch uninit sp code lbuf : Z).

Definition quicktests : list test :=
  [ (copyin, str "copyin"); (copyout, str "copyout"); (copyinstr1, str "copyinstr1"); (copyinstr2 big, str "copyinstr2");
    (copyinstr3 xx, str "copyinstr3"); (rwsbrk, str "rwsbrk"); (truncate1, str "truncate1"); (truncate2, str "truncate2");
    (truncate3, str "truncate3"); (openiputtest, str "openiput"); (exitiputtest, str "exitiput"); (iputtest, str "iput");
    (opentest, str "opentest"); (writetest, str "writetest"); (writebig, str "writebig"); (createtest, str "createtest");
    (dirtest, str "dirtest"); (exectest, str "exectest"); (pipe1, str "pipe1"); (killstatus, str "killstatus");
    (preempt, str "preempt"); (exitwait, str "exitwait"); (reparent, str "reparent"); (twochildren, str "twochildren");
    (forkfork, str "forkfork"); (forkforkfork, str "forkforkfork"); (reparent2, str "reparent2"); (mem base, str "mem");
    (sharedfd, str "sharedfd"); (fourfiles, str "fourfiles"); (createdelete, str "createdelete"); (unlinkread, str "unlinkread");
    (linktest, str "linktest"); (concreate file de fa, str "concreate"); (linkunlink, str "linkunlink"); (subdir, str "subdir");
    (bigwrite, str "bigwrite"); (bigfile, str "bigfile"); (fourteen, str "fourteen"); (rmdot, str "rmdot");
    (dirfile, str "dirfile"); (iref, str "iref"); (forktest, str "forktest"); (sbrkbasic, str "sbrkbasic");
    (sbrkmuch, str "sbrkmuch"); (kernmem, str "kernmem"); (MAXVAplus, str "MAXVAplus"); (sbrkfail scratch, str "sbrkfail");
    (sbrkarg, str "sbrkarg"); (validatetest, str "validatetest"); (bsstest uninit, str "bsstest"); (bigargtest, str "bigargtest");
    (argptest, str "argptest"); (stacktest sp, str "stacktest"); (textwrite, str "textwrite"); (pgbug, str "pgbug");
    (sbrkbugs code, str "sbrkbugs"); (sbrklast, str "sbrklast"); (sbrk8000, str "sbrk8000"); (badarg, str "badarg") ].

Definition slowtests : list test :=
  [ (bigdir, str "bigdir"); (manywrites, str "manywrites"); (badwrite, str "badwrite"); (execout, str "execout");
    (diskfull lbuf, str "diskfull"); (outofinodes, str "outofinodes") ].

End tests.

(** ** What the driver reports *)

(** What the calls of a run tell: the answers to fork(), and the statuses that wait()
    stored ([junk] when it stored none). *)
Definition fork_ans (x : call * ans) : option Z := match fst x with Fork => Some (a_ret (snd x)) | _ => None end.
Definition forks (evs : list (call * ans)) : list Z := omap fork_ans evs.
Definition verdict (junk : Z) (x : call * ans) : option Z :=
  match fst x with
  | Wait => Some (if (length (a_data (snd x)) =? 4)%nat then i32 (rd 4 (a_data (snd x)) 0) else junk)
  | _ => None
  end.
Definition verdicts (junk : Z) (evs : list (call * ans)) : list Z := omap (verdict junk) evs.

(** The entries of the table, with the names they point to, that [justone] selects. *)
Definition entry : Type := test * list Z.
Definition is_chosen (one : option (list Z)) (n : list Z) : bool := match one with Some j => bool_decide (n = j) | None => true end.
Definition chosen (one : option (list Z)) (entries : list entry) : list entry := List.filter (fun e => is_chosen one (snd e)) entries.

(** The calls of a test that is announced, one that passed, and one that did not. *)
Definition line (str : string) : list call := says 1 (bytes_of_string str ++ [10]).
Definition banner (e : entry) : list call := says 1 (bytes_of_string "test ") ++ says 1 (snd e) ++ says 1 (bytes_of_string ": ").
Definition passed (e : entry) : list call := banner e ++ [Fork; Wait] ++ line "OK".
Definition failed (e : entry) : list call := banner e ++ [Fork; Wait] ++ line "FAILED" ++ line "SOME TESTS FAILED".

Lemma strcmp_equal m l : forall fuel p q k, is_str m p l -> is_str m q k -> (length l < fuel)%nat ->
  exists r, strcmp_loop fuel m p q = Some r /\ (r = 0 <-> l = k).
Proof.
  induction l as [|c l IH]; intros [|fuel] p q k Hp Hq Hf; simpl in Hf; try lia; cbn [strcmp_loop].
  - apply is_str_nil in Hp. pose proof (is_str_hd _ _ _ Hq) as Hh. rewrite Hp, Hh. cbn [truthy Z.eqb negb andb]. eexists. split; [done|].
    destruct k as [|d k]; [done|]. destruct Hq as (Hd & _). inversion Hd; subst. simpl. split; [lia|done].
  - apply is_str_cons in Hp as (Hc & Hpc & Hp). rewrite Hpc. pose proof (is_str_hd _ _ _ Hq) as Hh. rewrite Hh.
    assert (Htr : truthy c = true) by (unfold truthy; by destruct (Z.eqb_spec c 0)). rewrite Htr. cbn [andb].
    destruct (Z.eqb_spec c (hd 0 k)) as [He|He].
    + destruct k as [|d k]; [by simpl in He|]. simpl in He. subst d. apply is_str_cons in Hq as (_ & _ & Hq). destruct (IH fuel (p + 1) (q + 1) k Hp Hq) as (r & Hr & Hiff); [lia|].
      exists r. split; [done|]. rewrite Hiff. split; [by intros ->|by intros [= ->]].
    + eexists. split; [done|]. destruct k as [|d k]; simpl in *; split; [lia|done|lia|intros [= -> _]; lia].
Qed.

Section driver.
Context {K : UEnv} (junk : Z).
Notation verdicts := (verdicts junk).

(** The function of a test runs in the child, which exits with 0 when it returns. *)
Definition child (e : entry) {A} : U A := fst (fst e) (snd (fst e));; exit 0.

(** A child does not come back. *)
Lemma child_bind e {A B} (f : A -> U B) s : bind (child e) f s = child e s.
Proof. unfold child, bind. by destruct (fst (fst e) (snd (fst e)) s). Qed.

(** How a process leaves runtests() over the entries [es]. *)
Inductive reports (es : list entry) (s : ustate) : res ustate Z -> Prop :=
| all_passed evs : map fst evs = concat (map passed es) -> Forall (fun pid => 0 < pid) (forks evs) ->
    verdicts evs = replicate (length es) 0 -> reports es s (Ret 0 (moved s evs))
| one_failed before e after evs x : es = before ++ e :: after -> map fst evs = concat (map passed before) ++ failed e ->
    Forall (fun pid => 0 < pid) (forks evs) -> verdicts evs = replicate (length before) 0 ++ [x] -> x <> 0 -> reports es s (Ret 1 (moved s evs))
| in_child before e after evs pids : es = before ++ e :: after -> map fst evs = concat (map passed before) ++ banner e ++ [Fork] ->
    forks evs = pids ++ [0] -> Forall (fun pid => 0 < pid) pids -> verdicts evs = replicate (length before) 0 -> reports es s (child e (moved s evs))
| no_child before e after evs pids pid : es = before ++ e :: after ->
    map fst evs = concat (map passed before) ++ banner e ++ [Fork] ++ line "runtest: fork error" -> forks evs = pids ++ [pid] ->
    Forall (fun pid => 0 < pid) pids -> pid < 0 -> verdicts evs = replicate (length before) 0 -> reports es s (exit 1 (moved s evs)).

(** Only printing: no fork() and no wait(). *)
Lemma says_silent fd bs evs : map fst evs = says fd bs -> forks evs = [] /\ verdicts evs = [].
Proof.
  revert bs. induction evs as [|[c a] evs IH]; intros [|b bs] H; try done. injection H as -> H. by apply IH in H.
Qed.

Lemma events_app evs evs' : forks (evs ++ evs') = forks evs ++ forks evs' /\ verdicts (evs ++ evs') = verdicts evs ++ verdicts evs'.
Proof. unfold forks, Usertests.verdicts. by rewrite !omap_app. Qed.

Lemma println_says (str : string) s : literal (bytes_of_string str) ->
  exists evs, map fst evs = line str /\ forks evs = [] /\ verdicts evs = [] /\ println str [] s = Ret tt (moved s evs).
Proof.
  intros Hl. destruct (vprintf_plain 1 (bytes_of_string str ++ [10]) [] s) as (evs & Hev & Hrun); [apply Forall_app; split; [done|by repeat constructor]|].
  exists evs. destruct (says_silent _ _ _ Hev). done.
Qed.

Lemma banner_says (e : entry) s : snd (fst e) <> 0 -> is_str (u_mem s) (snd (fst e)) (snd e) -> (length (snd e) < ufuel)%nat ->
  exists evs, map fst evs = banner e /\ forks evs = [] /\ verdicts evs = [] /\ printf "test %s: " [snd (fst e)] s = Ret tt (moved s evs).
Proof.
  intros Hp Hs Hf. destruct (vprintf_literal 1 (37 :: 115 :: bytes_of_string ": ") [snd (fst e)] (bytes_of_string "test ") ltac:(by repeat constructor) s) as (e1 & He1 & Hr1).
  destruct (vprintf_string 1 (bytes_of_string ": ") (snd (fst e)) [] (snd e) (moved s e1) Hp Hs Hf) as (e2 & He2 & Hr2).
  destruct (vprintf_plain 1 (bytes_of_string ": ") [] (moved (moved s e1) e2) ltac:(by repeat constructor)) as (e3 & He3 & Hr3).
  destruct (says_silent _ _ _ He1) as [F1 V1], (says_silent _ _ _ He2) as [F2 V2], (says_silent _ _ _ He3) as [F3 V3].
  exists (e1 ++ e2 ++ e3). unfold banner. rewrite !map_app, He1, He2, He3, !(proj1 (events_app _ _)), !(proj2 (events_app _ _)), F1, F2, F3, V1, V2, V3.
  split_and!; [done|done|done|]. etransitivity; [exact Hr1|]. by rewrite Hr2, Hr3, !moved_app.
Qed.

(** How a process leaves run(). *)
Inductive ran (e : entry) (s : ustate) : res ustate bool -> Prop :=
| ran_parent evs pid x : map fst evs = banner e ++ [Fork; Wait] ++ line (if x =? 0 then "OK" else "FAILED") -> forks evs = [pid] -> 0 < pid ->
    verdicts evs = [x] -> ran e s (Ret (x =? 0) (moved s evs))
| ran_child evs : map fst evs = banner e ++ [Fork] -> forks evs = [0] -> verdicts evs = [] -> ran e s (child e (moved s evs))
| ran_none evs pid : map fst evs = banner e ++ [Fork] ++ line "runtest: fork error" -> forks evs = [pid] -> pid < 0 -> verdicts evs = [] ->
    ran e s (exit 1 (moved s evs)).

Lemma run_ran (e : entry) s : snd (fst e) <> 0 -> is_str (u_mem s) (snd (fst e)) (snd e) -> (length (snd e) < ufuel)%nat ->
  ran e s (run junk (fst (fst e)) (snd (fst e)) s).
Proof.
  intros Hp Hs Hf. destruct (banner_says e s Hp Hs Hf) as (e1 & B1 & F1 & V1 & R1). unfold run. rewrite (run_bind _ _ _ _ _ R1).
  set (s1 := moved s e1). set (af := answer (u_trace s1) Fork). rewrite (run_bind fork _ (a_ret af) s1 (moved s1 [(Fork, af)]) eq_refl).
  unfold check. destruct (Z.ltb_spec (a_ret af) 0) as [Hneg|Hpos]; cbn [when].
  { destruct (println_says "runtest: fork error" (moved s1 [(Fork, af)])) as (e2 & B2 & F2 & V2 & R2); [by repeat constructor|].
    replace ((_;; _) _) with (@exit K bool 1 (moved s (e1 ++ [(Fork, af)] ++ e2))) by (unfold bind at 1 2; rewrite R2; subst s1; rewrite !moved_app; done).
    apply (ran_none _ _ _ (a_ret af)); [|by rewrite !(proj1 (events_app _ _)), F1, F2|done|by rewrite !(proj2 (events_app _ _)), V1, V2].
    rewrite !map_app, B1, B2. done. }
  rewrite (run_bind (ret tt) _ tt _ _ eq_refl). destruct (Z.eqb_spec (a_ret af) 0) as [Hz|Hz].
  { subst s1. rewrite moved_app. apply ran_child; [by rewrite map_app, B1| |by rewrite (proj2 (events_app _ _)), V1].
    rewrite (proj1 (events_app _ _)), F1. cbn. by rewrite Hz. }
  set (s2 := moved s1 [(Fork, af)]). set (aw := answer (u_trace s2) Wait). set (x := if (length (a_data aw) =? 4)%nat then i32 (rd 4 (a_data aw) 0) else junk).
  rewrite (run_bind (wait_x junk) _ (a_ret aw, x) s2 (moved s2 [(Wait, aw)]) eq_refl).
  destruct (println_says (if x =? 0 then "OK" else "FAILED") (moved s2 [(Wait, aw)])) as (e2 & B2 & F2 & V2 & R2); [case_match; by repeat constructor|].
  rewrite (run_bind _ _ tt _ (moved (moved s2 [(Wait, aw)]) e2)) by (rewrite <- R2; by destruct (x =? 0)).
  subst s2 s1. rewrite !moved_app. apply (ran_parent _ _ _ (a_ret af)); [|by rewrite !(proj1 (events_app _ _)), F1, F2|lia|by rewrite !(proj2 (events_app _ _)), V1, V2].
  by rewrite !map_app, B1, B2.
Qed.

(** [justone] is a null pointer or the name of a test. *)
Definition names_one (one : option (list Z)) (justone : Z) (m : memory) : Prop :=
  match one with None => justone = 0 | Some j => justone <> 0 /\ is_str m justone j end.

(** An entry of the table in memory. *)
Definition entry_ok (m : memory) (e : entry) : Prop := snd (fst e) <> 0 /\ is_str m (snd (fst e)) (snd e) /\ (length (snd e) < ufuel)%nat.

Lemma selected_chosen (e : entry) justone one s : entry_ok (u_mem s) e -> names_one one justone (u_mem s) ->
  selected (fst e) justone s = Ret (is_chosen one (snd e)) s.
Proof.
  intros (_ & Hn & Hl) Hone. unfold selected. destruct one as [j|]; cbn in Hone; [|by subst].
  destruct Hone as [Hj0 Hj]. destruct (Z.eqb_spec justone 0); [done|]. destruct (strcmp_equal _ _ _ _ _ _ Hn Hj Hl) as (r & Hr & Hiff).
  unfold strcmp, upart, umem, gets, bind. rewrite Hr. unfold ret. f_equal. cbn. destruct (Z.eqb_spec r 0), (bool_decide_reflect (snd e = j)); tauto.
Qed.

(** A test that passed, then the rest of the table. *)
Lemma reports_cons e es s evs pid res : map fst evs = passed e -> forks evs = [pid] -> 0 < pid -> verdicts evs = [0] ->
  reports es (moved s evs) res -> reports (e :: es) s res.
Proof.
  intros Hc Hfk Hpid Hv Hrest. destruct Hrest as [ev H1 H2 H3|be e' af ev x -> H1 H2 H3 H4|be e' af ev ps -> H1 H2 H3 H4|be e' af ev ps p -> H1 H2 H3 H4 H5]; rewrite moved_app;
    [apply all_passed|eapply (one_failed _ _ (e :: be) e' af _ x)|eapply (in_child _ _ (e :: be) e' af _ (pid :: ps))|eapply (no_child _ _ (e :: be) e' af _ (pid :: ps) p)];
    try done; rewrite ?map_app, ?(proj1 (events_app _ _)), ?(proj2 (events_app _ _)), ?Hc, ?Hfk, ?Hv, ?H1, ?H2, ?H3, ?H4, ?H5; cbn [map concat]; rewrite <- ?app_assoc; first [done|by constructor].
Qed.

(** C39. The driver of the tests, runtests(), over a table of names in memory.  The tests are
    those that the argument names, all of them without an argument, in the order of the
    table.  For each the driver prints "test ", its name and ": ", forks, waits, and prints
    OK when the status is 0.  It returns 0 when it has done so for all of them; at the
    first status that is not 0 it prints FAILED and SOME TESTS FAILED and returns 1; when
    fork() fails it says so and exits with 1; these are all its calls.  A child, to which
    fork() answers 0, calls the function of the test just announced, with its name, on
    unchanged memory, and exits with 0 when the function returns. *)
Theorem runtests_reports (entries : list entry) justone one s : Forall (entry_ok (u_mem s)) entries -> names_one one justone (u_mem s) ->
  reports (chosen one entries) s (runtests junk (map fst entries) justone s).
Proof.
  induction entries as [|e es IH] in s |- *; intros Hall Hone; cbn [runtests map].
  { rewrite <- (moved_nil s) at 2. by apply all_passed. }
  apply Forall_cons in Hall as [He Hes]. rewrite (run_bind _ _ _ _ _ (selected_chosen e justone one s He Hone)). cbn [chosen List.filter]. fold (chosen one es).
  destruct (is_chosen one (snd e)); [|by apply IH]. destruct He as (Hp & Hs & Hf).
  set (next := fun ok : bool => if negb ok then _ else _). unfold bind at 1.
  destruct (run_ran e s Hp Hs Hf) as [evs pid x Hc Hfk Hpid Hv|evs Hc Hfk Hv|evs pid Hc Hfk Hpid Hv].
  - unfold next. destruct (Z.eqb_spec x 0) as [He|Hx]; cbn [negb]; [subst x; eapply reports_cons; [exact Hc|exact Hfk|done|exact Hv|by apply IH]|].
    destruct (println_says "SOME TESTS FAILED" (moved s evs)) as (e2 & B2 & F2 & V2 & R2); [by repeat constructor|]. rewrite (run_bind _ _ _ _ _ R2), moved_app.
    apply (one_failed _ _ [] e (chosen one es) _ x); [done| | |by rewrite (proj2 (events_app _ _)), Hv, V2|done].
    + rewrite map_app, Hc, B2. cbn. unfold failed. by rewrite <- !app_assoc.
    + rewrite (proj1 (events_app _ _)), Hfk, F2. by constructor.
  - change (reports (e :: chosen one es) s (bind (child e) next (moved s evs))). rewrite child_bind.
    by apply (in_child _ _ [] e (chosen one es) evs []).
  - by apply (no_child _ _ [] e (chosen one es) evs [] pid).
Qed.

End driver.

(** ** A kernel for the witnesses *)

(** Every call succeeds, files are empty, and "p1" to "p9" and the like do not exist. *)
Definition easy_kernel : UEnv := {| answer := fun t c => match c with
  | Fork => mkans 7 []
  | Wait => mkans 7 [0; 0; 0; 0]
  | Open [_; c] _ => if (49 <=? c) && (c <? 58) then mkans (-1) [] else mkans 3 []
  | Open _ _ => mkans 3 []
  | Write _ bs => mkans (Z.of_nat (length bs)) []
  | _ => mkans 0 []
  end; ufuel := 300 |}.

Definition two_names : memory := write_bytes (write_bytes ∅ 16 (bytes_of_string "iput" ++ [0])) 32 (bytes_of_string "dirtest" ++ [0]).
Definition two_tests : list entry :=
  [(@iputtest easy_kernel, 16, bytes_of_string "iput"); (@dirtest easy_kernel, 32, bytes_of_string "dirtest")].

Lemma runtests_reports_witness : let s := mkustate two_names [] 0 in
  @reports easy_kernel 1 two_tests s (@runtests easy_kernel 1 (map fst two_tests) 0 s) /\
  @reports easy_kernel 1 (drop 1 two_tests) s (@runtests easy_kernel 1 (map fst two_tests) 32 s).
Proof.
  intros s. assert (Hok : Forall (@entry_ok easy_kernel (u_mem s)) two_tests).
  { repeat (constructor; [split; [done|]; split; [|cbn; lia]; repeat (apply is_str_cons; split; [discriminate|split; [vm_compute; reflexivity|]]); apply is_str_nil; vm_compute; reflexivity|]). constructor. }
  split; [by apply (@runtests_reports easy_kernel 1 two_tests 0 None)|].
  apply (@runtests_reports easy_kernel 1 two_tests 32 (Some (bytes_of_string "dirtest")) s Hok). split; [done|].
  inversion Hok as [|? ? _ H]; subst. inversion H as [|? ? (_ & Hs & _) _]; subst. exact Hs.
Defined.

(** writebig() accepts a file of which nothing can be read: the test of the number of
    blocks compares with MAXFILE - 1 for equality. *)
Theorem writebig_accepts_nothing buf nm s : wp (@writebig easy_kernel buf nm) (fun _ _ => True) s.
Proof.
  unfold writebig. do 2 apply wp_bind. apply wp_sys, wp_ret, wp_bind, wp_ret, wp_bind.
  eapply wp_mono; [apply (wp_for_each (fun _ _ => True)); [done|]|].
  { intros i l' s1 _. apply wp_bind, wp_modify, wp_bind. unfold write. apply wp_bind, wp_gets, wp_bind, wp_sys, wp_ret.
    cbn [answer easy_kernel a_ret]. unfold bytes_at. rewrite length_map, length_seq. by apply wp_ret. }
  intros [] s1 _. apply wp_bind, wp_bind, wp_sys, wp_ret. do 2 apply wp_bind. apply wp_sys, wp_ret, wp_bind, wp_ret, wp_bind. cbn [loop]. apply wp_bind.
  unfold writebig_turn, read. do 2 apply wp_bind. apply wp_sys, wp_bind, wp_modify, wp_ret. apply wp_bind, wp_ret, wp_ret, wp_ret.
  apply wp_bind, wp_bind, wp_sys, wp_ret. do 2 apply wp_bind. apply wp_sys, wp_ret. by apply wp_ret.
Qed.

(** createdelete() leaves the files of its second child behind: it never unlinks "q0",
    which its check found. *)
Definition opens (p : list Z) (x : call * ans) : bool := match fst x with Open q _ => bool_decide (q = p) && (0 <=? a_ret (snd x)) | _ => false end.
Definition unlinks (p : list Z) (x : call * ans) : bool := match fst x with Unlink q => bool_decide (q = p) | _ => false end.

Theorem createdelete_leaves_files : match @createdelete easy_kernel 64 0 16 (mkustate two_names [] 0) with
  | Ret _ s' => existsb (opens (bytes_of_string "q0")) (u_trace s') = true /\ existsb (unlinks (bytes_of_string "q0")) (u_trace s') = false
  | _ => False
  end.
Proof. vm_compute. by split. Qed.
