(* ===== verification/Spinlock.v ===== *)
(** * Spin locks and interrupt masking (kernel/spinlock.c)

    [acquire], [release], [holding], [push_off] and [pop_off] on the control
    part of the state.  [ctl_equiv] is the equivalence of control states that
    differ only in fields nobody may look at (the saved [intena] of a CPU that
    holds no lock, the owner of a lock that is free); a critical section brings
    the control state back to an equivalent one ([crit]), which is how the other
    components discharge their locking. *)

From S2P Require Import Prelude Riscv Kstate.

Abbreviation C := (M ctl).

(** ** riscv.h and proc.c: the hart and its CPU structure *)

Definition intr_on : C unit := modify (fun c => set_sstatus (Z.lor (sstatus c) SSTATUS_SIE) c).
Definition intr_off : C unit :=
  modify (fun c => set_sstatus (Z.land (sstatus c) (u64 (Z.lnot SSTATUS_SIE))) c).
Definition intr_get_b (c : ctl) : bool := truthy (Z.land (sstatus c) SSTATUS_SIE).
Definition intr_get : C Z := gets (fun c => b2z (intr_get_b c)).

Definition cpuid : C Z := gets (fun c => i32 (hart c)).
Definition mycpu : C Z := cpuid.

(** Reading and writing [cpus[id]]. *)
Definition get_cpu (id : Z) (c : ctl) : cpu := default cpu0 (znth (cpus c) id).
Definition upd_cpu (id : Z) (f : cpu -> cpu) : C unit :=
  modify (fun c => set_cpus (zupd (cpus c) id (f (get_cpu id c))) c).

(** Reading and writing a lock. *)
Definition get_lock (lk : lockid) (c : ctl) : spinlock := default spinlock0 (locks c !! lk).
Definition upd_lock (lk : lockid) (f : spinlock -> spinlock) : C unit :=
  modify (fun c => set_locks (<[lk := f (get_lock lk c)]> (locks c)) c).

(** ** spinlock.c *)

Definition initlock (lk : lockid) (name : string) : C unit :=
  upd_lock lk (fun _ => mkspinlock 0 name None).

Definition push_off : C unit :=
  old <- intr_get;;
  intr_off;;
  id <- mycpu;;
  n <- gets (fun c => noff (get_cpu id c));;
  when (n =? 0) (upd_cpu id (set_intena old));;
  upd_cpu id (fun u => set_noff (noff u + 1) u).

Definition pop_off : C unit :=
  id <- mycpu;;
  on <- intr_get;;
  if truthy on then panic "pop_off - interruptible"
  else
    n <- gets (fun c => noff (get_cpu id c));;
    if n <? 1 then panic "pop_off"
    else
      upd_cpu id (fun u => set_noff (noff u - 1) u);;
      u <- gets (get_cpu id);;
      when ((noff u =? 0) && truthy (intena u)) intr_on.

Definition holding (lk : lockid) : C bool :=
  id <- mycpu;;
  gets (fun c => truthy (locked (get_lock lk c)) && bool_decide (lk_cpu (get_lock lk c) = Some id)).

(** The atomic swap; a lock held by another CPU is never released while this
    thread spins, since the model runs no other thread meanwhile. *)
Definition test_and_set (lk : lockid) : C Z :=
  old <- gets (fun c => locked (get_lock lk c));;
  upd_lock lk (set_locked 1);;
  ret old.

Definition acquire (lk : lockid) : C unit :=
  push_off;;
  h <- holding lk;;
  if (h : bool) then panic "acquire"
  else
    old <- test_and_set lk;;
    if truthy old then stop
    else
      id <- mycpu;;
      upd_lock lk (set_lk_cpu (Some id)).

Definition release (lk : lockid) : C unit :=
  h <- holding lk;;
  if negb h then panic "release"
  else
    upd_lock lk (set_lk_cpu None);;
    upd_lock lk (set_locked 0);;
    pop_off.

(** proc.c's [myproc] uses only the control state. *)
Definition myproc : C (option nat) :=
  push_off;;
  id <- mycpu;;
  p <- gets (fun c => c_proc (get_cpu id c));;
  pop_off;;
  ret p.

(** The same operations as code of the memory manager and of the kernel. *)
Definition macquire (lk : lockid) : MM unit := ctl_mm (acquire lk).
Definition mrelease (lk : lockid) : MM unit := ctl_mm (release lk).
Definition kacquire (lk : lockid) : K unit := lift_ctl (acquire lk).
Definition krelease (lk : lockid) : K unit := lift_ctl (release lk).
Definition kmyproc : K (option nat) := lift_ctl myproc.

(** ** Well-formed control states *)

(** The hart is one of the eight CPUs, a CPU inside a critical section has
    interrupts off. *)
Definition ctl_ok (c : ctl) : Prop :=
  0 <= hart c < Z.of_nat NCPU /\ length (cpus c) = NCPU /\ 0 <= sstatus c < 2 ^ 64 /\
  0 <= noff (get_cpu (hart c) c) /\
  (0 < noff (get_cpu (hart c) c) -> intr_get_b c = false).

Definition free (lk : lockid) (c : ctl) : Prop := locked (get_lock lk c) = 0.
Definition held (lk : lockid) (c : ctl) : Prop :=
  locked (get_lock lk c) = 1 /\ lk_cpu (get_lock lk c) = Some (hart c).

(** CPUs and locks up to the fields that no code can observe. *)
Definition cpu_equiv (u v : cpu) : Prop :=
  c_proc u = c_proc v /\ c_context u = c_context v /\ noff u = noff v /\
  (0 < noff u -> intena u = intena v).
Definition lock_equiv (l k : spinlock) : Prop :=
  locked l = locked k /\ lk_name l = lk_name k /\ (locked l <> 0 -> lk_cpu l = lk_cpu k).

Definition ctl_equiv (c d : ctl) : Prop :=
  hart c = hart d /\ sstatus c = sstatus d /\ Forall2 cpu_equiv (cpus c) (cpus d) /\
  forall lk, lock_equiv (get_lock lk c) (get_lock lk d).

#[export] Instance cpu_equiv_equivalence : Equivalence cpu_equiv.
Proof.
  split.
  - intros u. done.
  - intros u v (?&?&?&?). split_and!; try done. intros. symmetry. auto with lia.
  - intros u v w (?&?&?&?) (?&?&?&?). split_and!; try congruence.
    intros. etrans; [|apply H6]; auto with lia.
Qed.

#[export] Instance lock_equiv_equivalence : Equivalence lock_equiv.
Proof.
  split.
  - intros u. done.
  - intros u v (E&?&?). split_and!; try done. intros. symmetry. apply H0. congruence.
  - intros u v w (E1&?&H1) (E2&?&H2). split_and!; try congruence.
    intros. rewrite H1 by done. apply H2. congruence.
Qed.

#[export] Instance ctl_equiv_equivalence : Equivalence ctl_equiv.
Proof.
  split.
  - intros c. split_and!; done.
  - intros c d (?&?&?&?). split_and!; try done; intros; by symmetry.
  - intros c d e (?&?&?&Hl1) (?&?&?&Hl2). split_and!; try congruence.
    + by etrans.
    + intros lk. by rewrite (Hl1 lk).
Qed.

Lemma ctl_equiv_cpu c d id : ctl_equiv c d -> cpu_equiv (get_cpu id c) (get_cpu id d).
Proof.
  intros (_&_&H&_). unfold get_cpu, znth. case_match; [done|].
  destruct (cpus c !! Z.to_nat id) eqn:E.
  - destruct (Forall2_lookup_l _ _ _ _ _ H E) as (v & -> & ?). done.
  - apply lookup_ge_None in E. rewrite (Forall2_length _ _ _ H) in E.
    apply lookup_ge_None in E. by rewrite E.
Qed.

#[export] Instance ctl_ok_proper : Proper (ctl_equiv ==> iff) ctl_ok.
Proof.
  assert (Hd : forall c d, ctl_equiv c d -> ctl_ok c -> ctl_ok d).
  { intros c d Heq (?&?&?&?&?). pose proof (ctl_equiv_cpu c d (hart d) Heq) as (?&?&Hn&?).
    destruct Heq as (Eh&Es&HF&?). unfold ctl_ok, intr_get_b in *.
    rewrite <- Eh, <- Es in *. rewrite <- Hn. rewrite <- (Forall2_length _ _ _ HF). done. }
  intros c d Heq. split; apply Hd; [done|by symmetry].
Qed.

#[export] Instance free_proper lk : Proper (ctl_equiv ==> iff) (free lk).
Proof. intros c d (_&_&_&H). destruct (H lk) as [E _]. unfold free. by rewrite E. Qed.

#[export] Instance held_proper lk : Proper (ctl_equiv ==> iff) (held lk).
Proof.
  assert (Hd : forall c d, ctl_equiv c d -> held lk c -> held lk d).
  { intros c d (Eh&_&_&H) [H1 H2]. destruct (H lk) as (E&_&Ec). unfold held.
    rewrite <- E, <- Ec, <- Eh by lia. done. }
  intros c d Heq. split; apply Hd; [done|by symmetry].
Qed.

(** ** Symbolic execution of the primitives *)

Lemma cpuid_ok c : 0 <= hart c < Z.of_nat NCPU -> i32 (hart c) = hart c.
Proof.
  intros H. change (Z.of_nat NCPU) with 8 in H. unfold i32, signed.
  rewrite Z.mod_small by lia. case_match; bool_prop; lia.
Qed.

Lemma zupd_zupd {A} (l : list A) i x y : zupd (zupd l i x) i y = zupd l i y.
Proof. unfold zupd. case_match; [done|]. apply list_insert_insert_eq. Qed.

Lemma get_cpu_upd c l id u :
  0 <= id < Z.of_nat (length l) -> get_cpu id (set_cpus (zupd l id u) c) = u.
Proof. intros. unfold get_cpu. simpl. by rewrite znth_zupd_eq. Qed.

Lemma get_lock_upd lk l m c : get_lock lk (set_locks (<[lk := l]> m) c) = l.
Proof. unfold get_lock. simpl. by rewrite lookup_insert_eq. Qed.

Lemma get_lock_upd_ne lk lk' l m c :
  lk <> lk' -> get_lock lk' (set_locks (<[lk := l]> m) c) = default spinlock0 (m !! lk').
Proof. intros. unfold get_lock. simpl. by rewrite lookup_insert_ne. Qed.

(** The state after [push_off]. *)
Definition pushed (c : ctl) : ctl :=
  let u := get_cpu (hart c) c in
  set_cpus (zupd (cpus c) (hart c)
              (set_noff (noff u + 1) (if noff u =? 0 then set_intena (b2z (intr_get_b c)) u else u)))
    (set_sstatus (Z.land (sstatus c) (u64 (Z.lnot SSTATUS_SIE))) c).

Lemma push_off_eq c : ctl_ok c -> push_off c = Ret tt (pushed c).
Proof.
  intros (Hh&Hl&_). unfold push_off, intr_get, intr_off, mycpu, cpuid, upd_cpu, when, gets,
    modify, bind, ret, pushed. simpl. rewrite cpuid_ok by done.
  change (get_cpu (hart c) (set_sstatus _ c)) with (get_cpu (hart c) c).
  destruct (Z.eqb_spec (noff (get_cpu (hart c) c)) 0) as [E|E]; simpl; [|done].
  rewrite get_cpu_upd by (by rewrite Hl). simpl. unfold set_cpus at 1. simpl.
  by rewrite zupd_zupd.
Qed.

(** The state after [pop_off]. *)
Definition popped (c : ctl) : ctl :=
  let u := get_cpu (hart c) c in
  let c' := set_cpus (zupd (cpus c) (hart c) (set_noff (noff u - 1) u)) c in
  if (noff u - 1 =? 0) && truthy (intena u)
  then set_sstatus (Z.lor (sstatus c') SSTATUS_SIE) c' else c'.

Lemma pop_off_eq c :
  ctl_ok c -> 0 < noff (get_cpu (hart c) c) -> pop_off c = Ret tt (popped c).
Proof.
  intros (Hh&Hl&_&_&Hi) Hn. specialize (Hi Hn).
  unfold pop_off, intr_get, intr_on, mycpu, cpuid, upd_cpu, when, gets, modify, bind, ret, popped.
  simpl. rewrite cpuid_ok by done. rewrite Hi. simpl.
  destruct (Z.ltb_spec (noff (get_cpu (hart c) c)) 1); [lia|].
  rewrite get_cpu_upd by (rewrite Hl; done). simpl. by destruct (_ && _).
Qed.

Lemma sie_clear s : 0 <= s < 2 ^ 64 ->
  truthy (Z.land s SSTATUS_SIE) = false -> Z.land s (u64 (Z.lnot SSTATUS_SIE)) = s.
Proof.
  unfold truthy. intros Hs H. bool_prop. apply Z.bits_inj'. intros i Hi.
  rewrite Z.land_spec. unfold u64. destruct (Z.ltb_spec i 64).
  - rewrite Z.mod_pow2_bits_low, Z.lnot_spec by lia.
    apply (f_equal (fun x => Z.testbit x i)) in H. rewrite Z.land_spec, Z.bits_0 in H.
    by destruct (Z.testbit s i), (Z.testbit SSTATUS_SIE i).
  - rewrite Z.mod_pow2_bits_high by lia. rewrite andb_false_r.
    rewrite <- (Z.mod_small s (2 ^ 64)) by done. by rewrite Z.mod_pow2_bits_high by lia.
Qed.

Lemma sie_clear_off s : truthy (Z.land (Z.land s (u64 (Z.lnot SSTATUS_SIE))) SSTATUS_SIE) = false.
Proof.
  rewrite <- Z.land_assoc. change (Z.land (u64 (Z.lnot SSTATUS_SIE)) SSTATUS_SIE) with 0.
  by rewrite Z.land_0_r.
Qed.

Lemma sie_clear_set s : 0 <= s < 2 ^ 64 ->
  truthy (Z.land s SSTATUS_SIE) = true ->
  Z.lor (Z.land s (u64 (Z.lnot SSTATUS_SIE))) SSTATUS_SIE = s.
Proof.
  unfold truthy. intros Hs H. bool_prop. apply Z.bits_inj'. intros i Hi.
  rewrite Z.lor_spec, Z.land_spec.
  assert (H1 : Z.testbit s 1 = true).
  { destruct (Z.testbit s 1) eqn:E; [done|]. destruct H. apply Z.bits_inj'. intros j Hj.
    rewrite Z.land_spec, Z.bits_0. change SSTATUS_SIE with (2 ^ 1).
    destruct (Z.eq_dec j 1) as [->|]; [by rewrite E|].
    rewrite Z.pow2_bits_false by lia. apply andb_false_r. }
  destruct (Z.eq_dec i 1) as [->|].
  { rewrite H1. apply orb_true_r. }
  replace (Z.testbit SSTATUS_SIE i) with false
    by (change SSTATUS_SIE with (2 ^ 1); by rewrite Z.pow2_bits_false by lia).
  rewrite orb_false_r. unfold u64. destruct (Z.ltb_spec i 64).
  - rewrite Z.mod_pow2_bits_low, Z.lnot_spec by lia.
    change SSTATUS_SIE with (2 ^ 1). rewrite Z.pow2_bits_false by lia. apply andb_true_r.
  - rewrite Z.mod_pow2_bits_high by lia. rewrite andb_false_r.
    rewrite <- (Z.mod_small s (2 ^ 64)) by done. by rewrite Z.mod_pow2_bits_high by lia.
Qed.

Lemma land_range s f : 0 <= s < 2 ^ 64 -> 0 <= Z.land s f < 2 ^ 64.
Proof.
  intros. assert (0 <= Z.land s f) by (apply Z.land_nonneg; lia). split; [done|].
  assert (Z.land s f = Z.land s f mod 2 ^ 64) as ->; [|apply Z.mod_pos_bound; lia].
  apply Z.bits_inj'. intros i Hi. destruct (Z.ltb_spec i 64).
  - by rewrite Z.mod_pow2_bits_low.
  - rewrite Z.mod_pow2_bits_high, Z.land_spec by lia.
    rewrite <- (Z.mod_small s (2 ^ 64)) by done. by rewrite Z.mod_pow2_bits_high by lia.
Qed.

Lemma pushed_ok c : ctl_ok c -> ctl_ok (pushed c).
Proof.
  intros (Hh&Hl&Hs&Hn&Hi). unfold ctl_ok, pushed. simpl. rewrite zupd_length.
  rewrite get_cpu_upd by (simpl; rewrite Hl; done).
  split; [done|]. split; [done|]. split; [by apply land_range|]. simpl. split; [lia|].
  intros _. apply sie_clear_off.
Qed.

Lemma pushed_noff c : ctl_ok c ->
  noff (get_cpu (hart (pushed c)) (pushed c)) = noff (get_cpu (hart c) c) + 1.
Proof.
  intros (Hh&Hl&_). unfold pushed. simpl. rewrite get_cpu_upd by (simpl; rewrite Hl; done).
  done.
Qed.

Lemma pushed_cpu c : ctl_ok c ->
  get_cpu (hart c) (pushed c) =
  set_noff (noff (get_cpu (hart c) c) + 1)
    (if noff (get_cpu (hart c) c) =? 0 then set_intena (b2z (intr_get_b c)) (get_cpu (hart c) c)
     else get_cpu (hart c) c).
Proof.
  intros (Hh&Hl&_). unfold pushed. rewrite get_cpu_upd; [done|]. rewrite Hl. done.
Qed.

(** A table of CPUs agrees with another one when the current CPU does and the
    others are untouched. *)
Lemma zupd_cpus_equiv l l' i u v :
  0 <= i < Z.of_nat (length l) -> Forall2 cpu_equiv (zupd l i u) l' ->
  cpu_equiv (default cpu0 (znth l i)) v -> Forall2 cpu_equiv l (zupd l' i v).
Proof.
  intros Hi HF Hv. pose proof (Forall2_length _ _ _ HF) as Hlen. rewrite zupd_length in Hlen.
  unfold zupd, znth in *. destruct (Z.ltb_spec i 0); [lia|].
  apply Forall2_same_length_lookup_2; [by rewrite length_insert|].
  intros k x y Hx Hy. destruct (decide (k = Z.to_nat i)) as [->|Hne].
  - rewrite list_lookup_insert_eq in Hy by lia. rewrite Hx in Hv. simpl in Hv. by injection Hy as <-.
  - rewrite list_lookup_insert_ne in Hy by done.
    eapply Forall2_lookup_lr; [exact HF| |exact Hy]. by rewrite list_lookup_insert_ne.
Qed.

(** Undoing a [push_off], up to the unobservable fields; the state popped may
    itself differ from the one pushed in those fields. *)
Lemma pop_pushed c d :
  ctl_ok c -> ctl_equiv (pushed c) d -> pop_off d = Ret tt (popped d) /\ ctl_equiv c (popped d).
Proof.
  intros Hok Heq. pose proof Hok as (Hh&Hl&Hs&Hn&Hi).
  assert (Hd : ctl_ok d) by (rewrite <- Heq; by apply pushed_ok).
  pose proof (ctl_equiv_cpu _ _ (hart c) Heq) as Hu. rewrite pushed_cpu in Hu by done.
  pose proof Heq as (Eh&Es&HF&HL). simpl in Eh, Es, HF.
  destruct Hu as (Ep&Ec&En&Ei). simpl in Ep, Ec, En, Ei.
  unfold popped. rewrite <- Eh.
  set (u := get_cpu (hart c) c) in *. set (v := get_cpu (hart c) d) in *.
  split.
  { rewrite pop_off_eq; [unfold popped; by rewrite <- Eh|done|]. rewrite <- Eh. fold v. lia. }
  replace (noff v - 1) with (noff u) by lia.
  assert (Hcpus : Forall2 cpu_equiv (cpus c) (zupd (cpus d) (hart c) (set_noff (noff u) v))).
  { eapply zupd_cpus_equiv; [by rewrite Hl|exact HF|]. fold (get_cpu (hart c) c). fold u.
    unfold cpu_equiv. simpl. rewrite <- Ep, <- Ec, <- Ei by lia.
    destruct (Z.eqb_spec (noff u) 0); split_and!; done || lia. }
  rewrite <- Ei by lia. destruct (Z.eqb_spec (noff u) 0) as [E0|E0]; simpl.
  - rewrite truthy_b2z. destruct (intr_get_b c) eqn:Et; split_and!; try done; simpl; rewrite <- Es;
      symmetry; first [by apply sie_clear_set|by apply sie_clear].
  - split_and!; try done. simpl. rewrite <- Es. symmetry. apply sie_clear; [done|].
    apply Hi. lia.
Qed.

(** ** Critical sections *)

(** The state inside the critical section of [lk]. *)
Definition acquired (lk : lockid) (c : ctl) : ctl :=
  set_locks (<[lk := mkspinlock 1 (lk_name (get_lock lk c)) (Some (hart c))]> (locks c)) (pushed c).

Lemma acquire_eq lk c : ctl_ok c -> free lk c -> acquire lk c = Ret tt (acquired lk c).
Proof.
  intros Hok Hf. unfold acquire, bind at 1. rewrite push_off_eq by done.
  unfold holding, test_and_set, mycpu, cpuid, upd_lock, gets, modify, bind, ret. simpl.
  assert (Hg : get_lock lk (pushed c) = get_lock lk c) by done. unfold free in Hf.
  rewrite !Hg, Hf. simpl. rewrite !Hg, Hf. simpl. rewrite get_lock_upd. simpl. destruct Hok as (Hh&_). rewrite cpuid_ok by done.
  unfold acquired, set_locks. simpl. by rewrite insert_insert_eq.
Qed.

(** [acquire] of a lock this CPU already holds is caught. *)
Lemma acquire_held lk c : ctl_ok c -> held lk c -> acquire lk c = Panic "acquire" (pushed c).
Proof.
  intros Hok [H1 H2]. unfold acquire, bind at 1. rewrite push_off_eq by done.
  unfold holding, mycpu, cpuid, gets, bind. simpl.
  assert (Hg : get_lock lk (pushed c) = get_lock lk c) by done. rewrite !Hg, H1, H2.
  destruct Hok as (Hh&_). rewrite cpuid_ok by done. simpl. by rewrite bool_decide_eq_true_2.
Qed.

Lemma holding_false lk c : ctl_ok c -> ~ held lk c -> locked (get_lock lk c) <> 0 ->
  locked (get_lock lk c) = 1 -> holding lk c = Ret false c.
Proof.
  intros (Hh&_) Hn Hl H1. unfold holding, mycpu, cpuid, gets, bind. simpl.
  rewrite cpuid_ok by done. rewrite H1. simpl. rewrite bool_decide_eq_false_2; [done|].
  intros E. by apply Hn.
Qed.

(** The state after [release]. *)
Definition released (lk : lockid) (c : ctl) : ctl :=
  popped (set_locks (<[lk := mkspinlock 0 (lk_name (get_lock lk c)) None]> (locks c)) c).

Lemma release_eq lk c :
  ctl_ok c -> held lk c -> 0 < noff (get_cpu (hart c) c) ->
  release lk c = Ret tt (released lk c).
Proof.
  intros Hok [H1 H2] Hn. unfold release, holding, mycpu, cpuid, upd_lock, gets, modify, bind, ret.
  simpl. destruct Hok as (Hh&Hrest). rewrite cpuid_ok by done. rewrite H1, H2. simpl.
  rewrite bool_decide_eq_true_2 by done. simpl. rewrite get_lock_upd. simpl.
  unfold set_locks at 1. simpl. rewrite insert_insert_eq.
  rewrite pop_off_eq; [done|by split|done].
Qed.

Lemma release_not_held lk c :
  ctl_ok c -> free lk c -> release lk c = Panic "release" c.
Proof.
  intros (Hh&_) Hf. unfold release, holding, mycpu, cpuid, gets, bind. simpl.
  unfold free in Hf. by rewrite Hf.
Qed.

(** The locks of a state after [acquire], and what else survives. *)
Lemma acquired_facts lk c : ctl_ok c ->
  ctl_ok (acquired lk c) /\ held lk (acquired lk c) /\
  (forall lk', lk' <> lk -> get_lock lk' (acquired lk c) = get_lock lk' c) /\
  noff (get_cpu (hart c) (acquired lk c)) = noff (get_cpu (hart c) c) + 1 /\
  c_proc (get_cpu (hart c) (acquired lk c)) = c_proc (get_cpu (hart c) c).
Proof.
  intros Hok. split_and!.
  - pose proof (pushed_ok c Hok). done.
  - unfold held, acquired. by rewrite get_lock_upd.
  - intros lk' Hne. unfold acquired. by rewrite get_lock_upd_ne.
  - exact (pushed_noff c Hok).
  - change (get_cpu (hart c) (acquired lk c)) with (get_cpu (hart c) (pushed c)).
    rewrite pushed_cpu by done. simpl. by case_match.
Qed.

(** A critical section whose body brings the control state back to an
    equivalent one releases the lock and restores the control state. *)
Lemma crit lk c d :
  ctl_ok c -> free lk c -> ctl_equiv (acquired lk c) d ->
  exists e, release lk d = Ret tt e /\ ctl_equiv c e.
Proof.
  intros Hok Hf Heq. destruct (acquired_facts lk c Hok) as (Hok1&Hh1&Ho1&Hn1&_).
  assert (Hd : ctl_ok d) by (by rewrite <- Heq). assert (Hhd : held lk d) by (by rewrite <- Heq).
  pose proof (ctl_equiv_cpu _ _ (hart c) Heq) as (_&_&En&_).
  pose proof Heq as (Eh&Es&HF&HL). simpl in Eh, Es, HF.
  exists (released lk d). split.
  - apply release_eq; [done|done|]. rewrite <- Eh, <- En, Hn1. destruct Hok as (_&_&_&?&_). lia.
  - unfold released. set (d' := set_locks _ d).
    set (c' := set_locks (<[lk := mkspinlock 0 (lk_name (get_lock lk c)) None]> (locks c)) c).
    assert (Hcc : ctl_equiv c c').
    { split_and!; try done. intros lk'. destruct (decide (lk = lk')) as [<-|Hne].
      - unfold c'. rewrite get_lock_upd. unfold free in Hf. split_and!; simpl; [done|done|].
        rewrite Hf. done.
      - unfold c'. by rewrite get_lock_upd_ne. }
    rewrite Hcc. apply pop_pushed; [by rewrite <- Hcc|].
    split_and!; try done. intros lk'. change (get_lock lk' (pushed c')) with (get_lock lk' c').
    unfold c', d'. destruct (decide (lk = lk')) as [<-|Hne].
    + rewrite !get_lock_upd. destruct (HL lk) as (_&E&_). split_and!; simpl; try done.
      rewrite <- E. unfold acquired. by rewrite get_lock_upd.
    + rewrite !get_lock_upd_ne by done. fold (get_lock lk' c) (get_lock lk' d).
      rewrite <- (Ho1 lk') by done. apply HL.
Qed.

(** The same as rules; the state [c] of the rule for release is the control
    state the critical section started from. *)
Lemma wp_macquire lk (Q : unit -> mm -> Prop) s :
  ctl_ok (m_ctl s) -> free lk (m_ctl s) ->
  Q tt (set_m_ctl (acquired lk (m_ctl s)) s) -> wp (macquire lk) Q s.
Proof. intros Hok Hf H. apply wp_lift. unfold wp. by rewrite acquire_eq. Qed.

Lemma wp_mrelease c lk (Q : unit -> mm -> Prop) s :
  ctl_ok c -> free lk c -> ctl_equiv (acquired lk c) (m_ctl s) ->
  (forall e, ctl_equiv c e -> Q tt (set_m_ctl e s)) -> wp (mrelease lk) Q s.
Proof.
  intros Hok Hf Heq H. apply wp_lift. unfold wp.
  destruct (crit lk c (m_ctl s)) as (e & -> & He); try done. by apply H.
Qed.

(** ** Properties *)

(** Doing an operation [n] times. *)
Fixpoint times {S} (n : nat) (m : M S unit) : M S unit :=
  match n with O => ret tt | Datatypes.S n' => m;; times n' m end.

Lemma times_pop c n : ctl_ok c -> forall d, ctl_equiv (Nat.iter n pushed c) d ->
  exists e, times n pop_off d = Ret tt e /\ ctl_equiv c e.
Proof.
  intros Hok. assert (Hoks : forall k, ctl_ok (Nat.iter k pushed c))
    by (induction k; simpl; [done|by apply pushed_ok]).
  induction n as [|n IH]; intros d Heq; [by exists d|]. simpl in *.
  destruct (pop_pushed (Nat.iter n pushed c) d) as [E He]; [apply Hoks|done|].
  destruct (IH (popped d) He) as (e & E' & He'). exists e. split; [|done].
  unfold bind. by rewrite E.
Qed.

Lemma times_push n c : ctl_ok c -> times n push_off c = Ret tt (Nat.iter n pushed c).
Proof.
  revert c. induction n as [|n IH]; intros c Hok; [done|]. simpl. unfold bind.
  rewrite push_off_eq by done. rewrite IH by (by apply pushed_ok). by rewrite <- Nat.iter_succ_r.
Qed.

(** push_off and pop_off are matched: [n] push_offs followed by [n]
    pop_offs bring back the interrupt state and the nesting depth the CPU
    started from, whether interrupts were on or off, and interrupts are off in
    between. *)
Theorem push_pop_matched n c :
  ctl_ok c ->
  exists d e, times n push_off c = Ret tt d /\ ((0 < n)%nat -> intr_get_b d = false) /\
              times n pop_off d = Ret tt e /\ ctl_equiv c e.
Proof.
  intros Hok. rewrite times_push by done. eexists.
  destruct (times_pop c n Hok (Nat.iter n pushed c)) as (e & E & He); [done|].
  exists e. split_and!; try done. intros Hn. destruct n; [lia|]. simpl. apply sie_clear_off.
Qed.

(** acquire on every state of the lock word: a free lock is taken with
    interrupts off, a lock this CPU holds is a panic, and a lock some other CPU
    holds makes the CPU spin with the lock word unchanged. *)
Theorem acquire_cases lk c :
  ctl_ok c -> locked (get_lock lk c) = 0 \/ locked (get_lock lk c) = 1 ->
  acquire lk c =
    if locked (get_lock lk c) =? 0 then Ret tt (acquired lk c)
    else if bool_decide (lk_cpu (get_lock lk c) = Some (hart c)) then Panic "acquire" (pushed c)
    else Stop (set_locks (<[lk := set_locked 1 (get_lock lk c)]> (locks c)) (pushed c)).
Proof.
  intros Hok [H|H].
  - rewrite H. by apply acquire_eq.
  - rewrite H. simpl. destruct (bool_decide _) eqn:E; [apply bool_decide_eq_true in E|].
    + by apply acquire_held.
    + unfold acquire, bind at 1. rewrite push_off_eq by done.
      unfold holding, test_and_set, mycpu, cpuid, upd_lock, gets, modify, bind, ret. simpl.
      assert (Hg : get_lock lk (pushed c) = get_lock lk c) by done.
      destruct Hok as (Hh&_). rewrite !Hg, H, cpuid_ok by done. simpl. rewrite E. simpl.
      by rewrite !Hg, H.
Qed.

(** A CPU outside any critical section, interrupts on, all locks free. *)
Definition ctl0 : ctl := mkctl 0 SSTATUS_SIE (replicate NCPU cpu0) ∅.

Lemma ctl0_ok : ctl_ok ctl0.
Proof. repeat split; by vm_compute. Qed.

Lemma push_pop_matched_witness :
  exists d e, times 3 push_off ctl0 = Ret tt d /\ ((0 < 3)%nat -> intr_get_b d = false) /\
              times 3 pop_off d = Ret tt e /\ ctl_equiv ctl0 e.
Proof. apply (push_pop_matched 3 ctl0). exact ctl0_ok. Defined.

Lemma acquire_cases_witness :
  acquire L_kmem ctl0 = Ret tt (acquired L_kmem ctl0).
Proof.
  assert (H := acquire_cases L_kmem ctl0 ctl0_ok (or_introl eq_refl)).
  exact H.
Defined.
