(* ===== verification/SpinlockConc.v ===== *)
(** * Spin locks under concurrency (kernel/spinlock.c)

    Any number of harts run acquire() and release() on one lock, interleaved at
    every access to shared memory: the two reads of [holding], the atomic swap,
    and the stores to [lk->cpu] and [lk->locked].  Reachable states satisfy an
    invariant by rule induction, from which mutual exclusion follows, and also
    that the unsynchronised reads of [holding] never give a wrong answer. *)

From stdpp Require Import functions.
From S2P Require Import Prelude.

(** Where a hart is in acquire() or release(); the names say what it does next. *)
Inductive pc : Type :=
| Idle                (* outside *)
| AcqRdLocked         (* acquire: holding() reads lk->locked *)
| AcqRdCpu            (* acquire: holding() reads lk->cpu *)
| Swap                (* the amoswap *)
| SetCpu              (* lk->cpu = mycpu() *)
| Critical            (* returned from acquire() *)
| RelRdLocked         (* release: holding() reads lk->locked *)
| RelRdCpu            (* release: holding() reads lk->cpu *)
| ClrCpu              (* lk->cpu = 0 *)
| Unlock              (* the store of 0 to lk->locked *)
| Panicked.           (* panic("acquire") or panic("release") *)

Record lockstate := mklockstate {
  word : Z;             (* lk->locked *)
  owner : option nat;   (* lk->cpu *)
  at_ : nat -> pc       (* every hart's position *)
}.

Definition goto (h : nat) (p : pc) (s : lockstate) : lockstate :=
  mklockstate (word s) (owner s) (<[h := p]> (at_ s)).
Definition with_word (w : Z) (s : lockstate) : lockstate := mklockstate w (owner s) (at_ s).
Definition with_owner (o : option nat) (s : lockstate) : lockstate := mklockstate (word s) o (at_ s).

(** One access by hart [h]. *)
Definition hart_step (h : nat) (s : lockstate) : lockstate :=
  match at_ s h with
  | Idle => goto h AcqRdLocked s
  | AcqRdLocked => if word s =? 0 then goto h Swap s else goto h AcqRdCpu s
  | AcqRdCpu => if bool_decide (owner s = Some h) then goto h Panicked s else goto h Swap s
  | Swap => if word s =? 0 then goto h SetCpu (with_word 1 s) else with_word 1 s
  | SetCpu => goto h Critical (with_owner (Some h) s)
  | Critical => goto h RelRdLocked s
  | RelRdLocked => if word s =? 0 then goto h Panicked s else goto h RelRdCpu s
  | RelRdCpu => if bool_decide (owner s = Some h) then goto h ClrCpu s else goto h Panicked s
  | ClrCpu => goto h Unlock (with_owner None s)
  | Unlock => goto h Idle (with_word 0 s)
  | Panicked => s
  end.

(** initlock() *)
Definition init_lock : lockstate := mklockstate 0 None (fun _ => Idle).

Inductive reachable : lockstate -> Prop :=
| reach_init : reachable init_lock
| reach_step h s : reachable s -> reachable (hart_step h s).

(** The swap succeeded and the store of 0 has not happened. *)
Definition inside (p : pc) : Prop :=
  match p with
  | SetCpu | Critical | RelRdLocked | RelRdCpu | ClrCpu | Unlock => True
  | _ => False
  end.
(** [lk->cpu] is set for the hart. *)
Definition owning (p : pc) : Prop :=
  match p with Critical | RelRdLocked | RelRdCpu | ClrCpu => True | _ => False end.

#[export] Instance pc_eq_dec : EqDecision pc.
Proof. solve_decision. Defined.

#[export] Instance inside_dec p : Decision (inside p).
Proof. destruct p; simpl; apply _. Defined.

Record lock_inv (s : lockstate) : Prop := {
  inv_word : word s = 0 \/ word s = 1;
  inv_free : word s = 0 -> forall h, ~ inside (at_ s h);
  inv_excl : forall h h', inside (at_ s h) -> inside (at_ s h') -> h = h';
  inv_owner : forall h, owner s = Some h <-> owning (at_ s h);
  inv_ok : forall h, at_ s h <> Panicked
}.

Lemma owning_inside p : owning p -> inside p.
Proof. by destruct p. Qed.

Lemma at_goto_eq h p s : at_ (goto h p s) h = p.
Proof. apply fn_lookup_insert. Qed.
Lemma at_goto_ne h h' p s : h <> h' -> at_ (goto h p s) h' = at_ s h'.
Proof. intros. by apply fn_lookup_insert_ne. Qed.

(** A hart moves between two positions on the same side of the swap, with the
    same ownership: nothing else changes. *)
Lemma inv_move h p s :
  lock_inv s -> (inside p <-> inside (at_ s h)) -> (owning p <-> owning (at_ s h)) ->
  p <> Panicked -> lock_inv (goto h p s).
Proof.
  intros [Hw Hf Hx Ho Hp] Hi Hg Hn.
  assert (Hat : forall k, (inside (at_ (goto h p s) k) <-> inside (at_ s k)) /\
                          (owning (at_ (goto h p s) k) <-> owning (at_ s k)) /\
                          at_ (goto h p s) k <> Panicked).
  { intros k. destruct (decide (h = k)) as [<-|Hne].
    - by rewrite at_goto_eq.
    - by rewrite at_goto_ne. }
  split; simpl; try done.
  - intros H k Hk. apply (Hf H k), Hat, Hk.
  - intros k k' Hk Hk'. apply Hx; by apply Hat.
  - intros k. rewrite Ho. symmetry. apply Hat.
  - intros k. apply Hat.
Qed.

Lemma inv_enter h s :
  lock_inv s -> at_ s h = Swap -> word s = 0 -> lock_inv (goto h SetCpu (with_word 1 s)).
Proof.
  intros [Hw Hf Hx Ho Hp] Ha H0.
  assert (Hat : forall k, h <> k -> ~ inside (at_ (goto h SetCpu (with_word 1 s)) k)).
  { intros k Hne. rewrite at_goto_ne by done. by apply Hf. }
  split; simpl.
  - by right.
  - done.
  - intros k k' Hk Hk'. destruct (decide (h = k)) as [<-|Hne].
    + destruct (decide (h = k')) as [<-|Hne']; [done|]. by destruct (Hat k').
    + by destruct (Hat k).
  - intros k. rewrite Ho. destruct (decide (h = k)) as [<-|Hne].
    + rewrite fn_lookup_insert. by rewrite Ha.
    + by rewrite fn_lookup_insert_ne.
  - intros k. destruct (decide (h = k)) as [<-|Hne]; [by rewrite fn_lookup_insert|].
    by rewrite fn_lookup_insert_ne.
Qed.

Lemma inv_own h p o s :
  lock_inv s -> inside (at_ s h) -> inside p -> p <> Panicked ->
  (forall k, o = Some k <-> h = k /\ owning p) ->
  lock_inv (goto h p (with_owner o s)).
Proof.
  intros [Hw Hf Hx Ho Hp] Ha Hi Hn Hown.
  assert (Hin : forall k, inside (at_ (goto h p (with_owner o s)) k) <-> inside (at_ s k)).
  { intros k. destruct (decide (h = k)) as [<-|Hne]; [by rewrite at_goto_eq|by rewrite at_goto_ne]. }
  split.
  - done.
  - intros H k. rewrite Hin. by apply Hf.
  - intros k k'. rewrite !Hin. apply Hx.
  - intros k. simpl. rewrite Hown. destruct (decide (h = k)) as [<-|Hne].
    + rewrite fn_lookup_insert. tauto.
    + rewrite fn_lookup_insert_ne by done. split; [by intros [? _]|].
      intros Hk%owning_inside. by destruct Hne; apply Hx.
  - intros k. destruct (decide (h = k)) as [<-|Hne]; [by rewrite at_goto_eq|].
    rewrite at_goto_ne by done. apply Hp.
Qed.

Lemma inv_leave h s :
  lock_inv s -> at_ s h = Unlock -> lock_inv (goto h Idle (with_word 0 s)).
Proof.
  intros [Hw Hf Hx Ho Hp] Ha.
  assert (Hout : forall k, ~ inside (at_ (goto h Idle (with_word 0 s)) k)).
  { intros k. destruct (decide (h = k)) as [<-|Hne]; [rewrite at_goto_eq; by intros []|].
    rewrite at_goto_ne by done. intros Hk. apply Hne, Hx; [by rewrite Ha|done]. }
  split; simpl.
  - by left.
  - done.
  - intros k k' Hk. by destruct (Hout k).
  - intros k. rewrite Ho. destruct (decide (h = k)) as [<-|Hne].
    + rewrite fn_lookup_insert. by rewrite Ha.
    + by rewrite fn_lookup_insert_ne.
  - intros k. destruct (decide (h = k)) as [<-|Hne]; [by rewrite fn_lookup_insert|].
    by rewrite fn_lookup_insert_ne.
Qed.

Lemma hart_step_inv h s : lock_inv s -> lock_inv (hart_step h s).
Proof.
  intros Hinv. pose proof Hinv as [Hw Hf Hx Ho Hp]. unfold hart_step.
  destruct (at_ s h) eqn:Ha.
  all: try (by apply inv_move; rewrite ?Ha).
  - case_match; by apply inv_move; rewrite ?Ha.
  - case_bool_decide as E; [|by apply inv_move; rewrite ?Ha].
    apply Ho in E. by rewrite Ha in E.
  - destruct (Z.eqb_spec (word s) 0); [by apply inv_enter|].
    destruct Hw as [|Hw]; [done|]. destruct s as [w o a]. simpl in Hw. by subst w.
  - apply inv_own; rewrite ?Ha; try done. intros k. simpl. split; [by intros [= <-]|by intros [<- ?]].
  - destruct (Z.eqb_spec (word s) 0) as [E|]; [|by apply inv_move; rewrite ?Ha].
    destruct (Hf E h). by rewrite Ha.
  - case_bool_decide as E; [by apply inv_move; rewrite ?Ha|].
    destruct E. apply Ho. by rewrite Ha.
  - apply inv_own; rewrite ?Ha; try done. intros k. simpl. split; [done|by intros [_ ?]].
  - by apply inv_leave.
  - by destruct (Hp h).
Qed.

Lemma reachable_inv s : reachable s -> lock_inv s.
Proof.
  induction 1 as [|h s _ IH]; [|by apply hart_step_inv].
  split; simpl; [by left|by intros _ h []|by intros h h' []|by intros h; split|done].
Qed.

(** C1. Mutual exclusion: in every interleaving of any number of harts, at most
    one hart is between a successful swap of acquire() and the store of 0 of
    release(). *)
Theorem mutual_exclusion s h1 h2 :
  reachable s -> inside (at_ s h1) -> inside (at_ s h2) -> h1 = h2.
Proof. intros H%reachable_inv. apply (inv_excl s H). Qed.

(** C33. The checks of acquire() and release() never misfire: although
    [holding] reads the two fields of the lock without synchronisation while
    other harts write them, a hart that acquires and releases in turn never
    reaches either panic. *)
Theorem holding_race_free s h : reachable s -> at_ s h <> Panicked.
Proof. intros H%reachable_inv. apply (inv_ok s H). Qed.

(** The hart [h] runs alone for [n] accesses. *)
Definition solo (n : nat) (h : nat) (s : lockstate) : lockstate := Nat.iter n (hart_step h) s.

Lemma solo_reachable n h s : reachable s -> reachable (solo n h s).
Proof. intros. induction n; simpl; [done|]. by apply reach_step. Qed.

(** Accesses left before the holder's store of 0. *)
Definition to_unlock (p : pc) : nat :=
  match p with
  | SetCpu => 6 | Critical => 5 | RelRdLocked => 4 | RelRdCpu => 3 | ClrCpu => 2 | Unlock => 1
  | _ => 0
  end.

Lemma holder_step h s :
  lock_inv s -> inside (at_ s h) ->
  (to_unlock (at_ s h) = 1%nat /\ word (hart_step h s) = 0) \/
  (inside (at_ (hart_step h s) h) /\ to_unlock (at_ s h) = S (to_unlock (at_ (hart_step h s) h))).
Proof.
  intros [Hw Hf Hx Ho Hp] Hi.
  assert (H1 : word s <> 0) by (intros E; by destruct (Hf E h)).
  apply Z.eqb_neq in H1. pose proof (Ho h) as Hoh. unfold hart_step.
  destruct (at_ s h) eqn:Ha; try done.
  6: by left.
  all: right; rewrite ?H1, ?at_goto_eq; try done.
  rewrite bool_decide_eq_true_2 by (by apply Hoh). by rewrite at_goto_eq.
Qed.

(** ** Progress *)

(** An execution: at time [n] the hart [sched n] makes an access.  Every hart runs again
    and again. *)
Fixpoint run (sched : nat -> nat) (n : nat) (s : lockstate) : lockstate :=
  match n with
  | O => s
  | S n' => hart_step (sched n') (run sched n' s)
  end.
Definition fair (sched : nat -> nat) : Prop := forall h n, exists m, (n <= m)%nat /\ sched m = h.

(** Inside acquire(), before the swap succeeds. *)
Definition acquiring (p : pc) : Prop := match p with AcqRdLocked | AcqRdCpu | Swap => True | _ => False end.

Lemma run_reachable sched n s : reachable s -> reachable (run sched n s).
Proof. intros Hs. induction n as [|n IH]; [done|]. by apply reach_step. Qed.

Lemma step_other h k s : h <> k -> at_ (hart_step k s) h = at_ s h.
Proof. intros Hne. unfold hart_step. repeat case_match; try done; by rewrite at_goto_ne. Qed.

(** A taken lock has a holder. *)
Lemma reachable_held s : reachable s -> word s = 1 -> exists h, inside (at_ s h).
Proof.
  induction 1 as [|k s Hs IH]; [done|]. pose proof (reachable_inv s Hs) as [Hw Hf Hx Ho Hp]. destruct (decide (inside (at_ (hart_step k s) k))) as [Hk|Hk]; [by exists k|].
  intros H1. destruct (decide (word s = 0)) as [H0|H0].
  - exfalso. revert H1 Hk. unfold hart_step. rewrite H0. cbn [Z.eqb]. pose proof (Hf H0 k) as Hn. destruct (at_ s k); simpl in *; rewrite ?fn_lookup_insert; try tauto; repeat case_match; simpl; lia || tauto.
  - destruct IH as [h Hh]; [by destruct Hw|]. exists h. destruct (decide (h = k)) as [->|Hne]; [|by rewrite step_other].
    destruct (holder_step k s (reachable_inv s Hs) Hh) as [[_ Hz]|[Hi _]]; [lia|done].
Qed.

(** The other harts leave a lock that is free, or held by [k], alone unless they take it. *)
Lemma free_stays k s : reachable s -> word s = 0 -> at_ s k <> Swap -> word (hart_step k s) = 0.
Proof.
  intros Hs H0 Hk. pose proof (inv_free s (reachable_inv s Hs) H0 k) as Hn. unfold hart_step. destruct (at_ s k); simpl in *; try tauto; repeat case_match; simpl; tauto || lia.
Qed.

Lemma held_stays k h s : reachable s -> inside (at_ s k) -> h <> k -> word s = 1 -> word (hart_step h s) = 1.
Proof.
  intros Hs Hk Hne H1. pose proof (reachable_inv s Hs) as Hi. assert (Hn : ~ inside (at_ s h)) by (intros Hh; by apply Hne, (inv_excl s Hi)).
  unfold hart_step. destruct (at_ s h); simpl in *; try tauto; repeat case_match; simpl; tauto || lia.
Qed.

Section progress.
Context (sched : nat -> nat) (Hfair : fair sched) (s : lockstate) (Hs : reachable s).
Notation st n := (run sched n%nat s).

Lemma st_reachable n : reachable (st n).
Proof. by apply run_reachable. Qed.

(** At time [n] a hart takes the lock: its swap succeeds. *)
Definition takes (n : nat) : Prop := at_ (st n) (sched n) = Swap /\ inside (at_ (st (S n)) (sched n)).

Lemma taken n : at_ (st n) (sched n) = Swap -> word (st n) = 0 -> takes n.
Proof. intros Ha Hz. split; [done|]. cbn [run]. unfold hart_step. rewrite Ha, Hz. cbn [Z.eqb]. by rewrite at_goto_eq. Qed.

(** Until its next turn at [m] a hart does not move. *)
Lemma stays h n d : (forall j, (n <= j < n + d)%nat -> sched j <> h) -> at_ (st (n + d)) h = at_ (st n) h.
Proof.
  induction d as [|d IH]; intros Hj; [by rewrite Nat.add_0_r|]. replace (n + S d)%nat with (S (n + d)) by lia. cbn [run].
  rewrite step_other by (intros He; by apply (Hj (n + d)%nat); [lia|]). apply IH. intros j Hn. apply Hj. lia.
Qed.

Lemma next_turn h n : exists d, sched (n + d) = h /\ forall j, (n <= j < n + d)%nat -> sched j <> h.
Proof.
  destruct (Hfair h n) as (m & Hm & Hh). remember (m - n)%nat as e eqn:He. revert m n Hm Hh He. induction e as [|e IH]; intros m n Hm Hh He.
  - exists O. split; [by replace (n + 0)%nat with m by lia|intros; lia].
  - destruct (decide (sched n = h)) as [Hn|Hn]; [exists O; rewrite Nat.add_0_r; split; [done|intros; lia]|].
    destruct (IH m (S n)) as (d & Hd & Hj); [lia|done|lia|]. exists (S d). split; [by replace (n + S d)%nat with (S n + d)%nat by lia|].
    intros j Hr. destruct (decide (j = n)) as [->|]; [done|]. apply Hj. lia.
Qed.

(** A hart waits at its swap and the lock is free. *)
Lemma free_taken d : forall n h, sched (n + d) = h -> at_ (st n) h = Swap -> word (st n) = 0 -> exists m, (n <= m)%nat /\ takes m.
Proof.
  induction d as [|d IH]; intros n h Hd Ha Hz.
  - rewrite Nat.add_0_r in Hd. exists n. split; [done|]. apply taken; [by rewrite Hd|done].
  - destruct (decide (at_ (st n) (sched n) = Swap)) as [Hk|Hk]; [exists n; split; [done|by apply taken]|].
    destruct (IH (S n) h) as (m & Hm & Ht); [by replace (S n + d)%nat with (n + S d)%nat by lia| | |exists m; split; [lia|done]].
    + cbn [run]. rewrite step_other; [done|]. intros ->. by apply Hk.
    + apply free_stays; [apply st_reachable|done|done].
Qed.

(** The lock is held by [k]: it is given back, or somebody has taken it. *)
Lemma waits h k n d : at_ (st n) h = Swap -> inside (at_ (st n) k) -> (forall j, (n <= j < n + d)%nat -> sched j <> k) ->
  at_ (st (n + d)) h = Swap /\ at_ (st (n + d)) k = at_ (st n) k /\ word (st (n + d)) = 1.
Proof.
  intros Ha Hk. assert (H1 : word (st n) = 1).
  { pose proof (reachable_inv _ (st_reachable n)) as Hi. destruct (inv_word _ Hi) as [H0|]; [|done]. by destruct (inv_free _ Hi H0 k). }
  intros Hj. induction d as [|d IH]; [rewrite Nat.add_0_r; done|]. destruct IH as (I1 & I2 & I3); [intros j Hr; apply Hj; lia|].
  replace (n + S d)%nat with (S (n + d)) by lia. cbn [run]. assert (Hne : sched (n + d) <> k) by (apply Hj; lia). split_and!.
  - destruct (decide (h = sched (n + d))) as [->|]; [|by rewrite step_other]. unfold hart_step. by rewrite I1, I3.
  - by rewrite step_other.
  - apply (held_stays k); [apply st_reachable|by rewrite I2|done|done].
Qed.

Lemma held_taken c : forall n h k, to_unlock (at_ (st n) k) = c -> at_ (st n) h = Swap -> inside (at_ (st n) k) -> exists m, (n <= m)%nat /\ takes m.
Proof.
  induction c as [|c IH]; intros n h k Hc Ha Hk; [by destruct (at_ (st n) k)|]. destruct (next_turn k n) as (d & Hd & Hj).
  destruct (waits h k n d Ha Hk Hj) as (W1 & W2 & W3). pose proof (st_reachable (n + d)) as Hr.
  assert (Hh : h <> k) by (intros ->; by rewrite Ha in Hk). assert (Ha' : at_ (st (S (n + d))) h = Swap) by (cbn [run]; rewrite Hd; by rewrite step_other).
  destruct (holder_step k (st (n + d)) (reachable_inv _ Hr)) as [[_ Hz]|[Hi Hu]]; [by rewrite W2| |].
  - destruct (next_turn h (S (n + d))) as (e & He & _). destruct (free_taken e (S (n + d)) h He Ha') as (m & Hm & Ht); [cbn [run]; by rewrite Hd|]. exists m. split; [lia|done].
  - rewrite W2 in Hu. destruct (IH (S (n + d)) h k) as (m & Hm & Ht); [cbn [run]; rewrite Hd; lia|done|cbn [run]; by rewrite Hd|]. exists m. split; [lia|done].
Qed.

Lemma swap_taken n h : at_ (st n) h = Swap -> exists m, (n <= m)%nat /\ takes m.
Proof.
  intros Ha. destruct (inv_word _ (reachable_inv _ (st_reachable n))) as [H0|H1].
  - destruct (next_turn h n) as (d & Hd & _). by apply (free_taken d n h).
  - destruct (reachable_held _ (st_reachable n) H1) as [k Hk]. by apply (held_taken _ n h k eq_refl).
Qed.

(** A hart in acquire() gets to its swap. *)
Lemma acquiring_swaps n h : acquiring (at_ (st n) h) -> exists m, (n <= m)%nat /\ at_ (st m) h = Swap.
Proof.
  assert (Hmove : forall n, exists d, at_ (st (S (n + d))) h = at_ (hart_step h (st (n + d))) h /\ at_ (st (n + d)) h = at_ (st n) h).
  { intros k. destruct (next_turn h k) as (d & Hd & Hj). exists d. split; [cbn [run]; by rewrite Hd|by apply stays]. }
  assert (Hcpu : forall n, at_ (st n) h = AcqRdCpu -> exists m, (n <= m)%nat /\ at_ (st m) h = Swap).
  { intros k Ha. destruct (Hmove k) as (d & H1 & H2). rewrite Ha in H2. exists (S (k + d)). split; [lia|]. rewrite H1. unfold hart_step. rewrite H2.
    pose proof (reachable_inv _ (st_reachable (k + d))) as Hi. rewrite bool_decide_eq_false_2; [by rewrite at_goto_eq|]. intros Ho. apply (inv_owner _ Hi) in Ho. by rewrite H2 in Ho. }
  intros Ha. destruct (at_ (st n) h) eqn:Hp; try done; [|by apply Hcpu|by exists n].
  destruct (Hmove n) as (d & H1 & H2). rewrite Hp in H2. revert H1. unfold hart_step at 1. rewrite H2. case_match; rewrite at_goto_eq; intros H1.
  - exists (S (n + d)). split; [lia|done].
  - destruct (Hcpu _ H1) as (m & Hm & Hsw). exists m. split; [lia|done].
Qed.

End progress.


Lemma mutual_exclusion_witness :
  reachable (solo 5 1 init_lock) /\ at_ (solo 5 1 init_lock) 1 = RelRdLocked /\ (1 = 1)%nat.
Proof.
  split; [apply solo_reachable, reach_init|]. split; [reflexivity|].
  apply (mutual_exclusion (solo 5 1 init_lock) 1 1);
    [apply solo_reachable, reach_init|exact I|exact I].
Defined.

Lemma holding_race_free_witness :
  at_ (solo 12 2 (solo 7 1 init_lock)) 2 = Swap /\ at_ (solo 12 2 (solo 7 1 init_lock)) 2 <> Panicked.
Proof.
  split; [reflexivity|]. apply holding_race_free. apply solo_reachable, solo_reachable, reach_init.
Defined.

(** A schedule in which harts 0, then 0 to 2, then 0 to 4 and so on run in turn. *)
Definition rounds (n : nat) : nat := (n - Nat.sqrt n * Nat.sqrt n)%nat.

Lemma rounds_fair : fair rounds.
Proof.
  intros h n. set (k := (h + n)%nat). exists (k * k + h)%nat. split; [unfold k; nia|]. unfold rounds. rewrite (Nat.sqrt_unique (k * k + h) k) by (unfold k; nia). lia.
Qed.

