(* ===== verification/SleepWake.v ===== *)
(** * No lost wakeups: sleep() and wakeup() interleaved (kernel/proc.c)

    A process waits for a condition the way the kernel does everywhere,
      acquire(lk); while(!cond) sleep(chan, lk); ...; release(lk);
    while any number of other threads change the condition under lk and call
    wakeup(chan).  The steps are the lock operations and the stores of sleep(),
    of wakeup() and of the scheduler's hand-over of p->lock; any thread may move
    at any time.  That a lock has one holder at a time is the theorem of
    SpinlockConc, here it is part of the state. *)

From S2P Require Import Prelude Kstate.

#[local] Set Warnings "-clear-no-such-hyp".

(** The next action of the waiting process. *)
Inductive spc : Type :=
| S_AcqLk      (* acquire(lk) *)
| S_Test       (* the test of the condition *)
| S_AcqP       (* sleep: acquire(&p->lock) *)
| S_RelLk      (* sleep: release(lk) *)
| S_SetSleep   (* sleep: p->chan = chan; p->state = SLEEPING *)
| S_Switch     (* sched: the switch; the scheduler then releases p->lock *)
| S_Asleep     (* off the CPU *)
| S_ClrChan    (* sleep: p->chan = 0 *)
| S_RelP       (* sleep: release(&p->lock), then back to acquire(lk) *)
| S_RelEnd     (* release(lk) after the loop *)
| S_Done.

(** The next action of another thread, which holds lk. *)
Inductive opc : Type :=
| O_Change     (* about to change the condition *)
| O_AcqP       (* wakeup: acquire(&p->lock) *)
| O_Check      (* wakeup: the test of state and chan, and the store *)
| O_RelP       (* wakeup: release(&p->lock) *)
| O_RelLk.     (* release(lk) *)

(** Who holds lk, and who holds p->lock. *)
Inductive lkholder : Type := LkFree | LkProc | LkOther (i : nat) (pc : opc).
Inductive pholder : Type := PFree | PProc | POther.

Record swstate := mksw {
  sw_lk : lkholder;
  sw_pl : pholder;
  sw_cond : bool;
  sw_state : procstate;     (* p->state *)
  sw_chan : bool;           (* p->chan == chan *)
  sw_at : spc
}.

Inductive sw_step : swstate -> swstate -> Prop :=
(* the waiting process *)
| sw_acq pl c st ch :
    sw_step (mksw LkFree pl c st ch S_AcqLk) (mksw LkProc pl c st ch S_Test)
| sw_test_true pl st ch :
    sw_step (mksw LkProc pl true st ch S_Test) (mksw LkProc pl true st ch S_RelEnd)
| sw_test_false pl st ch :
    sw_step (mksw LkProc pl false st ch S_Test) (mksw LkProc pl false st ch S_AcqP)
| sw_acq_p lk c st ch :
    sw_step (mksw lk PFree c st ch S_AcqP) (mksw lk PProc c st ch S_RelLk)
| sw_rel_lk pl c st ch :
    sw_step (mksw LkProc pl c st ch S_RelLk) (mksw LkFree pl c st ch S_SetSleep)
| sw_set_sleep lk pl c st ch :
    sw_step (mksw lk pl c st ch S_SetSleep) (mksw lk pl c SLEEPING true S_Switch)
| sw_switch lk c st ch :
    sw_step (mksw lk PProc c st ch S_Switch) (mksw lk PFree c st ch S_Asleep)
(* the scheduler picks the process: acquire(&p->lock), RUNNABLE, swtch *)
| sw_run lk c ch :
    sw_step (mksw lk PFree c RUNNABLE ch S_Asleep) (mksw lk PProc c RUNNING ch S_ClrChan)
| sw_clr_chan lk pl c st ch :
    sw_step (mksw lk pl c st ch S_ClrChan) (mksw lk pl c st false S_RelP)
| sw_rel_p lk c st ch :
    sw_step (mksw lk PProc c st ch S_RelP) (mksw lk PFree c st ch S_AcqLk)
| sw_rel_end pl c st ch :
    sw_step (mksw LkProc pl c st ch S_RelEnd) (mksw LkFree pl c st ch S_Done)
(* the other threads *)
| sw_o_acq i pl c st ch a :
    sw_step (mksw LkFree pl c st ch a) (mksw (LkOther i O_Change) pl c st ch a)
| sw_o_set i pl c st ch a :
    sw_step (mksw (LkOther i O_Change) pl c st ch a) (mksw (LkOther i O_AcqP) pl true st ch a)
| sw_o_clear i pl c st ch a :
    sw_step (mksw (LkOther i O_Change) pl c st ch a) (mksw (LkOther i O_RelLk) pl false st ch a)
| sw_o_acq_p i c st ch a :
    sw_step (mksw (LkOther i O_AcqP) PFree c st ch a) (mksw (LkOther i O_Check) POther c st ch a)
| sw_o_wake i pl c ch a :
    ch = true ->
    sw_step (mksw (LkOther i O_Check) pl c SLEEPING ch a) (mksw (LkOther i O_RelP) pl c RUNNABLE ch a)
| sw_o_skip i pl c st ch a :
    ~ (st = SLEEPING /\ ch = true) ->
    sw_step (mksw (LkOther i O_Check) pl c st ch a) (mksw (LkOther i O_RelP) pl c st ch a)
| sw_o_rel_p i c st ch a :
    sw_step (mksw (LkOther i O_RelP) POther c st ch a) (mksw (LkOther i O_RelLk) PFree c st ch a)
| sw_o_rel_lk i pl c st ch a :
    sw_step (mksw (LkOther i O_RelLk) pl c st ch a) (mksw LkFree pl c st ch a).

(** The process runs and is about to take lk. *)
Definition sw_init (c : bool) : swstate := mksw LkFree PFree c RUNNING false S_AcqLk.

Inductive sw_reachable : swstate -> Prop :=
| swr_init c : sw_reachable (sw_init c)
| swr_step s s' : sw_reachable s -> sw_step s s' -> sw_reachable s'.

Definition sw_steps : swstate -> swstate -> Prop := rtc sw_step.

(** A thread that has set the condition and has not yet looked at p. *)
Definition pending (s : swstate) : Prop :=
  exists i, sw_lk s = LkOther i O_AcqP \/ sw_lk s = LkOther i O_Check.

(** What holds at each position of the waiting process. *)
Definition at_inv (s : swstate) : Prop :=
  match sw_at s with
  | S_AcqLk => sw_pl s <> PProc /\ sw_state s = RUNNING
  | S_Test | S_RelEnd => sw_lk s = LkProc /\ sw_pl s <> PProc /\ sw_state s = RUNNING
  | S_AcqP => sw_lk s = LkProc /\ sw_pl s <> PProc /\ sw_state s = RUNNING /\ sw_cond s = false
  | S_RelLk => sw_lk s = LkProc /\ sw_pl s = PProc /\ sw_state s = RUNNING /\ sw_cond s = false
  | S_SetSleep => sw_pl s = PProc /\ sw_state s = RUNNING /\ (sw_cond s = true -> pending s)
  | S_Switch => sw_pl s = PProc /\ sw_state s = SLEEPING /\ sw_chan s = true /\ (sw_cond s = true -> pending s)
  | S_Asleep => sw_pl s <> PProc /\
      (sw_state s = RUNNABLE \/
       sw_state s = SLEEPING /\ sw_chan s = true /\ (sw_cond s = true -> pending s))
  | S_ClrChan | S_RelP => sw_pl s = PProc /\ sw_state s = RUNNING
  | S_Done => sw_pl s <> PProc /\ sw_state s = RUNNING
  end.

(** The positions inside lk. *)
Definition in_lk (a : spc) : bool :=
  match a with S_Test | S_AcqP | S_RelLk | S_RelEnd => true | _ => false end.

Record sw_inv (s : swstate) : Prop := {
  swi_at : at_inv s;
  swi_other : sw_pl s = POther <-> exists i, sw_lk s = LkOther i O_Check \/ sw_lk s = LkOther i O_RelP;
  swi_lk : sw_lk s = LkProc <-> in_lk (sw_at s) = true
}.

Lemma sw_inv_init c : sw_inv (sw_init c).
Proof.
  split; [done| |done]. split; [done|]. by intros [i [H|H]].
Qed.

Lemma sw_step_inv s s' : sw_inv s -> sw_step s s' -> sw_inv s'.
Proof.
  intros [Hat Ho Hl] Hs. unfold at_inv, pending in Hat.
  destruct Hs; simpl in *; split; unfold at_inv, pending; simpl; try (destruct a; simpl in *);
    try naive_solver.
Qed.

Lemma sw_reachable_inv s : sw_reachable s -> sw_inv s.
Proof. induction 1 as [c|s s' _ IH Hs]; [apply sw_inv_init|by eapply sw_step_inv]. Qed.

(** The next step by a given rule. *)
Ltac sw_by r := eapply rtc_l; [eapply r|].

(** Once runnable, and nobody in its way, the process gets to its test. *)
Lemma runs_to_end ch : exists s', sw_steps (mksw LkFree PFree true RUNNABLE ch S_Asleep) s' /\ sw_at s' = S_Done.
Proof.
  eexists. split; [|].
  - sw_by sw_run. sw_by sw_clr_chan. sw_by sw_rel_p. sw_by sw_acq. sw_by sw_test_true. sw_by sw_rel_end.
    apply rtc_refl.
  - done.
Qed.

(** A thread inside lk leaves it, with the condition true and the process
    runnable. *)
Lemma others_leave i pc pl st ch :
  st = RUNNABLE \/ st = SLEEPING /\ ch = true /\ (pc = O_Change \/ pc = O_AcqP \/ pc = O_Check) ->
  (pc = O_Check \/ pc = O_RelP -> pl = POther) -> (pc <> O_Check -> pc <> O_RelP -> pl = PFree) ->
  exists c' ch', sw_steps (mksw (LkOther i pc) pl true st ch S_Asleep) (mksw LkFree PFree c' RUNNABLE ch' S_Asleep) /\
                 c' = true.
Proof.
  intros Hst Hpo Hpf. exists true, ch. split; [|done].
  assert (Hend : sw_steps (mksw (LkOther i O_RelP) POther true RUNNABLE ch S_Asleep)
                          (mksw LkFree PFree true RUNNABLE ch S_Asleep)).
  { sw_by sw_o_rel_p. sw_by sw_o_rel_lk. apply rtc_refl. }
  assert (Hchk : sw_steps (mksw (LkOther i O_Check) POther true st ch S_Asleep)
                          (mksw LkFree PFree true RUNNABLE ch S_Asleep)
                 \/ ~ (st = RUNNABLE \/ st = SLEEPING /\ ch = true)).
  { destruct Hst as [->|(-> & -> & _)]; left.
    - eapply rtc_l; [apply sw_o_skip; by intros [? _]|exact Hend].
    - eapply rtc_l; [by apply sw_o_wake|exact Hend]. }
  assert (Hchk' : sw_steps (mksw (LkOther i O_Check) POther true st ch S_Asleep)
                           (mksw LkFree PFree true RUNNABLE ch S_Asleep)) by (clear - Hchk Hst; tauto).
  destruct pc.
  - rewrite Hpf by done. sw_by sw_o_set. sw_by sw_o_acq_p. exact Hchk'.
  - rewrite Hpf by done. sw_by sw_o_acq_p. exact Hchk'.
  - rewrite Hpo by tauto. exact Hchk'.
  - rewrite Hpo by tauto. destruct Hst as [->|(_ & _ & [?|[?|?]])]; done.
  - rewrite Hpf by done. destruct Hst as [->|(_ & _ & [?|[?|?]])]; [|done..].
    sw_by sw_o_rel_lk. apply rtc_refl.
Qed.

(** C2. No lost wakeup: whatever the interleaving, if the process is off the CPU
    while the condition it waits for holds, it has been made runnable already
    or a thread that set the condition has still to look at it in wakeup();
    and from there the process can always get to the end of its wait. *)
Theorem no_lost_wakeup s :
  sw_reachable s -> sw_at s = S_Asleep -> sw_cond s = true ->
  (sw_state s = RUNNABLE \/ pending s) /\
  exists s', sw_steps s s' /\ sw_at s' = S_Done.
Proof.
  intros Hr Ha Hc. destruct (sw_reachable_inv s Hr) as [Hat Ho Hl]. unfold at_inv in Hat. rewrite Ha in *.
  destruct Hat as [Hpl Hst]. destruct s as [lk pl c st ch a]. simpl in *. subst a c. split; [tauto|].
  destruct lk as [| |i pc].
  - assert (pl = PFree) as ->.
    { destruct pl; [done|done|]. destruct Ho as [Ho _]. by destruct Ho as [i [H|H]]. }
    destruct Hst as [->|(-> & -> & Hp)]; [apply runs_to_end|]. by destruct (Hp eq_refl) as [i [H|H]].
  - destruct Hl as [Hl _]. by specialize (Hl eq_refl).
  - destruct (others_leave i pc pl st ch) as (c' & ch' & Hsteps & ->).
    + destruct Hst as [->|(-> & -> & Hp)]; [by left|right]. destruct (Hp eq_refl) as [j [H|H]]; simpl in H;
        injection H as -> ->; tauto.
    + intros Hpc. apply Ho. exists i. destruct Hpc as [->| ->]; tauto.
    + intros H1 H2. destruct pl; [done|done|]. destruct Ho as [Ho _]. destruct Ho as [j [H|H]]; [done|..]; congruence.
    + destruct (runs_to_end ch') as (s' & Hs' & Hd). exists s'. split; [|done]. unfold sw_steps in *. by etrans.
Qed.

(** An interleaving that ends asleep, with the waker still to come. *)
Definition sw_wit : swstate := mksw (LkOther 0 O_AcqP) PFree true SLEEPING true S_Asleep.

Lemma sw_wit_reachable : sw_reachable sw_wit.
Proof.
  assert (H : rtc sw_step (sw_init false) sw_wit).
  { sw_by sw_acq. sw_by sw_test_false. sw_by sw_acq_p. sw_by sw_rel_lk. sw_by (sw_o_acq 0).
    sw_by sw_o_set. sw_by sw_set_sleep. sw_by sw_switch. apply rtc_refl. }
  assert (Hg : forall a b, rtc sw_step a b -> sw_reachable a -> sw_reachable b).
  { intros a b Hab. induction Hab as [|x y z Hxy _ IH]; [done|]. intros Hx. apply IH. by eapply swr_step. }
  eapply Hg; [exact H|apply swr_init].
Qed.

Lemma no_lost_wakeup_witness :
  (sw_state sw_wit = RUNNABLE \/ pending sw_wit) /\ exists s', sw_steps sw_wit s' /\ sw_at s' = S_Done.
Proof. apply (no_lost_wakeup sw_wit); [apply sw_wit_reachable|reflexivity|reflexivity]. Defined.
