(* ===== verification/Kalloc.v ===== *)
(** * The physical page allocator (kernel/kalloc.c)

    The free list is a linked list threaded through the free pages themselves,
    in byte memory.  [kmem_inv] says that the list starting at [kmem.freelist]
    is well formed: distinct, page-aligned pages between the end of the kernel
    and PHYSTOP.  Under it kalloc() pops and kfree() pushes, so the allocator
    refines a stack of pages and never hands out a page twice. *)

From S2P Require Import Prelude Riscv Kstate CString Spinlock.

Section kalloc.
Context {E : Env}.

(** ** kalloc.c *)

Definition kfree (pa : Z) : MM unit :=
  if negb (pa mod PGSIZE =? 0) || (pa <? end_) || (PHYSTOP <=? pa)
  then panic "kfree"
  else
    mem_mm (fun m => memset m pa 1 PGSIZE);;
    macquire L_kmem;;
    fl <- gets m_freelist;;
    mem_mm (fun m => store64 m pa fl);;
    modify (set_m_freelist pa);;
    mrelease L_kmem.

Definition kalloc : MM Z :=
  macquire L_kmem;;
  r <- gets m_freelist;;
  when (truthy r) (modify (fun s => set_m_freelist (load64 (m_mem s) r) s));;
  mrelease L_kmem;;
  when (truthy r) (mem_mm (fun m => memset m r 5 PGSIZE));;
  ret r.

(** The loop needs at most one turn per page of the range. *)
Definition freerange (pa_start pa_end : Z) : MM unit :=
  loop (S (Z.to_nat ((pa_end - pa_start) / PGSIZE + 1)))
    (fun p => if p + PGSIZE <=? pa_end
              then kfree p;; ret (inl (p + PGSIZE))
              else ret (inr tt))
    (PGROUNDUP pa_start).

Definition kinit : MM unit :=
  ctl_mm (initlock L_kmem "kmem");;
  freerange end_ PHYSTOP.

(** ** The free list in memory *)

(** A page kfree() accepts. *)
Definition page_ok (p : Z) : Prop := p mod PGSIZE = 0 /\ end_ <= p < PHYSTOP.

Fixpoint fl_rep (m : memory) (r : Z) (l : list Z) : Prop :=
  match l with
  | [] => r = 0
  | p :: l' => r = p /\ fl_rep m (load64 m p) l'
  end.

Record kmem_ok (m : memory) (fl : Z) (l : list Z) : Prop := {
  km_mem : mem_ok m;
  km_rep : fl_rep m fl l;
  km_nodup : NoDup l;
  km_pages : Forall page_ok l
}.

Context {L : LinkerOk}.

Lemma page_ok_pos p : page_ok p -> 0 < p /\ p + PGSIZE <= PHYSTOP.
Proof.
  intros [Hm Hr]. destruct end_in_ram. unfold PGSIZE, PHYSTOP, KERNBASE in *.
  split; [lia|].
  Z.div_mod_to_equations. lia.
Qed.

Lemma page_disjoint p q :
  page_ok p -> page_ok q -> p <> q -> p + PGSIZE <= q \/ q + PGSIZE <= p.
Proof. intros [Hp _] [Hq _] Hne. unfold PGSIZE in *. Z.div_mod_to_equations. lia. Qed.

(** The list depends on the first word of its pages only. *)
Lemma fl_rep_ext m m' r l :
  (forall p, In p l -> load64 m p = load64 m' p) -> fl_rep m r l -> fl_rep m' r l.
Proof.
  revert r. induction l as [|p l IH]; intros r H; simpl; [done|].
  intros [-> Hl]. split; [done|]. rewrite <- H by (by left). apply IH; [|done].
  intros q Hq. apply H. by right.
Qed.

(** Memory outside a page is untouched by any write inside it. *)
Definition same_outside (p : Z) (m m' : memory) : Prop :=
  forall b, b < p \/ p + PGSIZE <= b -> load8 m' b = load8 m b.

Lemma same_outside_load64 p m m' a :
  same_outside p m m' -> a + 8 <= p \/ p + PGSIZE <= a -> load64 m' a = load64 m a.
Proof. intros H Ha. apply load64_ext. intros b Hb. apply H. lia. Qed.

Lemma memset_same_outside m p c : same_outside p m (memset m p c PGSIZE).
Proof. intros b Hb. apply memset_load_out; unfold PGSIZE in *; lia. Qed.

Lemma fl_rep_same_outside p m m' r l :
  same_outside p m m' -> page_ok p -> Forall page_ok l -> ~ In p l -> fl_rep m r l -> fl_rep m' r l.
Proof.
  intros Hs Hp Hl Hni. apply fl_rep_ext. intros q Hq. symmetry.
  eapply same_outside_load64; [done|].
  assert (Hqo : page_ok q) by (by rewrite List.Forall_forall in Hl; apply Hl).
  destruct (page_disjoint p q) as [|]; try done.
  - by intros ->.
  - right. lia.
  - left. unfold PGSIZE in *. lia.
Qed.

(** ** What the operations do *)

(** Ready to run: well-formed control state, the allocator's lock free. *)
Definition mm_ready (c : ctl) : Prop := ctl_ok c /\ free L_kmem c.

Lemma mm_ready_equiv c d : ctl_equiv c d -> mm_ready c -> mm_ready d.
Proof. intros H [? ?]. split; by rewrite <- H. Qed.

Lemma wp_kalloc_cons s p l (Q : Z -> mm -> Prop) :
  mm_ready (m_ctl s) -> kmem_ok (m_mem s) (m_freelist s) (p :: l) ->
  (forall c fl, ctl_equiv (m_ctl s) c -> kmem_ok (memset (m_mem s) p 5 PGSIZE) fl l ->
     page_ok p -> ~ In p l -> Q p (mkmm c (memset (m_mem s) p 5 PGSIZE) fl)) ->
  wp kalloc Q s.
Proof.
  intros [Hok Hf] [Hm [Hr Hrep] Hnd Hpg] HQ. apply NoDup_cons in Hnd as [Hni Hnd'].
  apply Forall_cons in Hpg as [Hp Hpg']. rewrite list_elem_of_In in Hni.
  destruct (page_ok_pos p Hp) as [Hpos _].
  unfold kalloc. wp_step. apply wp_macquire; [done|done|]. wp_steps. simpl. rewrite Hr.
  assert (Ht : truthy p = true) by (unfold truthy; destruct (Z.eqb_spec p 0); [lia|done]).
  rewrite Ht. simpl. wp_steps. apply (wp_mrelease (m_ctl s)); [done|done|done|].
  intros e He. unfold mem_mm. wp_steps. simpl.
  refine (HQ e (load64 (m_mem s) p) He _ Hp Hni).
  split; [by apply memset_ok| |assumption|assumption].
  eapply fl_rep_same_outside; [apply memset_same_outside|done|done|done|done].
Qed.

Lemma wp_kalloc_nil s (Q : Z -> mm -> Prop) :
  mm_ready (m_ctl s) -> m_freelist s = 0 ->
  (forall c, ctl_equiv (m_ctl s) c -> Q 0 (set_m_ctl c s)) -> wp kalloc Q s.
Proof.
  intros [Hok Hf] Hfl HQ. unfold kalloc. wp_step. apply wp_macquire; [done|done|].
  wp_steps. simpl. rewrite Hfl. simpl. wp_steps.
  apply (wp_mrelease (m_ctl s)); [done|done|done|]. intros e He. simpl. wp_steps. by apply HQ.
Qed.

Lemma wp_kfree s p l (Q : unit -> mm -> Prop) :
  mm_ready (m_ctl s) -> kmem_ok (m_mem s) (m_freelist s) l -> page_ok p -> ~ In p l ->
  (forall c m', ctl_equiv (m_ctl s) c -> same_outside p (m_mem s) m' ->
     kmem_ok m' p (p :: l) -> Q tt (mkmm c m' p)) ->
  wp (kfree p) Q s.
Proof.
  intros [Hok Hf] [Hm Hrep Hnd Hpg] Hp Hni HQ. destruct (page_ok_pos p Hp) as [Hpos Hend'].
  pose proof Hp as [Ha Hb]. unfold kfree. rewrite Ha. simpl.
  destruct (Z.ltb_spec p end_); [lia|]. destruct (Z.leb_spec PHYSTOP p); [lia|]. simpl.
  wp_steps. unfold mem_mm. wp_steps. apply wp_macquire; [done|done|]. wp_steps. simpl.
  apply (wp_mrelease (m_ctl s)); [done|done|done|]. intros e He.
  set (m' := store64 (memset (m_mem s) p 1 PGSIZE) p (m_freelist s)).
  assert (Hso : same_outside p (m_mem s) m').
  { intros b Hbb. unfold m'. rewrite load8_store64_out by (unfold PGSIZE in *; lia).
    apply memset_same_outside. unfold PGSIZE in *; lia. }
  refine (HQ e m' He Hso _). split.
  - apply store64_ok. by apply memset_ok.
  - split; [done|]. assert (Hld : load64 m' p = m_freelist s).
    { apply load64_store64_eq. destruct l as [|q l]; simpl in Hrep; [lia|]. destruct Hrep as [-> _].
      apply Forall_cons in Hpg as [Hq _]. destruct (page_ok_pos q Hq).
      unfold PGSIZE, PHYSTOP, KERNBASE in *. lia. }
    rewrite Hld. by eapply fl_rep_same_outside.
  - constructor; [by rewrite list_elem_of_In|done].
  - by constructor.
Qed.

(** kfree() refuses what is not a page of the allocator. *)
Lemma kfree_bad p s : ~ page_ok p -> kfree p s = Panic "kfree" s.
Proof.
  intros H. unfold kfree. destruct (Z.eqb_spec (p mod PGSIZE) 0); simpl; [|done].
  destruct (Z.ltb_spec p end_); simpl; [done|]. destruct (Z.leb_spec PHYSTOP p); [done|].
  destruct H. by split.
Qed.

(** ** Initialisation *)

(** The pages freerange() hands to kfree(), last one first. *)
Fixpoint page_range (p : Z) (n : nat) (acc : list Z) : list Z :=
  match n with
  | O => acc
  | S n' => page_range (p + PGSIZE) n' (p :: acc)
  end.

Lemma In_page_range p n acc q :
  In q (page_range p n acc) <->
  In q acc \/ exists i, 0 <= i < Z.of_nat n /\ q = p + i * PGSIZE.
Proof.
  revert p acc. induction n as [|n IH]; intros p acc; cbn [page_range].
  - split; [by left|]. intros [|(i&?&_)]; [done|lia].
  - rewrite IH. simpl. split.
    + intros [[->|]|(i&?&->)]; [|by left|].
      * right. exists 0. lia.
      * right. exists (i + 1). unfold PGSIZE. lia.
    + intros [|(i&?&->)]; [by left; right|]. destruct (Z.eq_dec i 0) as [->|].
      * left; left. lia.
      * right. exists (i - 1). unfold PGSIZE. lia.
Qed.

(** The body of freerange()'s loop, from a page still to be freed. *)
Lemma wp_freerange_loop n : forall fuel pa_end p l s (Q : unit -> mm -> Prop),
  (n < fuel)%nat -> mm_ready (m_ctl s) -> kmem_ok (m_mem s) (m_freelist s) l ->
  p mod PGSIZE = 0 -> end_ <= p -> pa_end <= PHYSTOP ->
  p + Z.of_nat n * PGSIZE <= pa_end < p + (Z.of_nat n + 1) * PGSIZE ->
  (forall q, In q l -> q < p) ->
  (forall c m fl, ctl_equiv (m_ctl s) c -> kmem_ok m fl (page_range p n l) -> Q tt (mkmm c m fl)) ->
  wp (loop fuel (fun p => if p + PGSIZE <=? pa_end then kfree p;; ret (inl (p + PGSIZE))
                          else ret (inr tt)) p) Q s.
Proof.
  induction n as [|n IH]; intros fuel pa_end p l s Q Hf Hrd Hk Ha He Hb Hn Hlt HQ;
    (destruct fuel as [|fuel]; [lia|]); cbn [loop]; wp_step.
  - destruct (Z.leb_spec (p + PGSIZE) pa_end); [unfold PGSIZE in *; lia|]. wp_steps.
    destruct s as [c m fl]. by apply HQ.
  - destruct (Z.leb_spec (p + PGSIZE) pa_end); [|unfold PGSIZE in *; lia]. wp_step.
    apply (wp_kfree s p l); [done|done| |intros Hin; specialize (Hlt p Hin); lia|].
    { split; [done|]. unfold PGSIZE in *. lia. }
    intros c m' Hc _ Hk'. wp_steps. apply (IH fuel pa_end (p + PGSIZE) (p :: l)).
    + lia.
    + simpl. by eapply mm_ready_equiv.
    + exact Hk'.
    + rewrite <- Zplus_mod_idemp_l, Ha. done.
    + unfold PGSIZE. lia.
    + done.
    + unfold PGSIZE in *. lia.
    + intros q [->|Hq]; [unfold PGSIZE; lia|]. specialize (Hlt q Hq). unfold PGSIZE. lia.
    + intros c' m'' fl' Hc' Hk''. apply HQ; [|done]. by rewrite Hc.
Qed.

Lemma initlock_free lk name c :
  ctl_ok c -> exists c', initlock lk name c = Ret tt c' /\ ctl_ok c' /\ free lk c' /\
    hart c' = hart c /\ cpus c' = cpus c /\ sstatus c' = sstatus c.
Proof.
  intros Hok. eexists. split; [done|]. split_and!; try done.
  unfold free. by rewrite get_lock_upd.
Qed.

(** kinit() turns the memory between the kernel's end and PHYSTOP in a well
    formed free list that holds exactly the pages of that range. *)
Theorem kinit_establishes s :
  ctl_ok (m_ctl s) -> mem_ok (m_mem s) -> m_freelist s = 0 ->
  wp kinit (fun _ s' => exists l, kmem_ok (m_mem s') (m_freelist s') l /\
                                  mm_ready (m_ctl s') /\ forall p, In p l <-> page_ok p) s.
Proof.
  intros Hok Hm Hfl. unfold kinit. wp_step. apply wp_lift. unfold wp at 1.
  destruct (initlock_free L_kmem "kmem" (m_ctl s) Hok) as (c & -> & Hc & Hfree & _).
  destruct end_in_ram as [He1 He2]. unfold freerange.
  assert (Hup : end_ + PGSIZE <= 2 ^ 64) by (unfold PGSIZE, PHYSTOP, KERNBASE in *; lia).
  destruct (PGROUNDUP_spec end_) as [Ha Hr]; [unfold KERNBASE in *; lia|done|].
  set (p0 := PGROUNDUP end_) in *.
  set (n := Z.to_nat ((PHYSTOP - p0) / PGSIZE)).
  assert (Hp0 : p0 <= PHYSTOP) by (unfold PGSIZE, PHYSTOP, KERNBASE in *; Z.div_mod_to_equations; lia).
  assert (Hn : p0 + Z.of_nat n * PGSIZE <= PHYSTOP < p0 + (Z.of_nat n + 1) * PGSIZE).
  { subst n. rewrite Z2Nat.id by (apply Z.div_pos; [lia|done]).
    unfold PGSIZE in *. Z.div_mod_to_equations. lia. }
  apply (wp_freerange_loop n) with (l := []); try done; try lia.
  - subst n. apply Nat.lt_succ_r, Z2Nat.inj_le.
    + apply Z.div_pos; [lia|done].
    + assert (0 <= (PHYSTOP - end_) / PGSIZE) by (apply Z.div_pos; [lia|done]). lia.
    + assert ((PHYSTOP - p0) / PGSIZE <= (PHYSTOP - end_) / PGSIZE) by (apply Z.div_le_mono; [done|lia]).
      lia.
  - simpl. split; [done|done|constructor|done].
  - intros c' m fl Hc' Hk. eexists. split; [exact Hk|]. split; [simpl; by eapply mm_ready_equiv|].
    intros p. rewrite In_page_range. split.
    + intros [[]|(i&Hi&->)]. split; [rewrite Z.mod_add; done|]. unfold PGSIZE in *. lia.
    + intros [Hpa Hpr]. right. exists ((p - p0) / PGSIZE).
      unfold PGSIZE, PHYSTOP, KERNBASE in *. Z.div_mod_to_equations. lia.
Qed.

(** kalloc() and kfree() are pop and push of a stack of distinct pages: with
    a non-empty free list kalloc() returns its first page, filled with junk, and
    the rest stays free, so no page is handed out twice; with an empty list it
    returns 0 and changes nothing. *)
Theorem kalloc_pops s l :
  mm_ready (m_ctl s) -> kmem_ok (m_mem s) (m_freelist s) l ->
  wp kalloc (fun r s' => ctl_equiv (m_ctl s) (m_ctl s') /\
    match l with
    | [] => r = 0 /\ m_mem s' = m_mem s /\ m_freelist s' = 0
    | p :: l' => r = p /\ kmem_ok (m_mem s') (m_freelist s') l' /\ ~ In p l' /\
                 (forall b, p <= b < p + PGSIZE -> load8 (m_mem s') b = 5) /\
                 same_outside p (m_mem s) (m_mem s')
    end) s.
Proof.
  intros Hrd Hk. destruct l as [|p l].
  - pose proof (km_rep _ _ _ Hk) as Hr. simpl in Hr. apply wp_kalloc_nil; [done|done|].
    by intros c Hc.
  - apply (wp_kalloc_cons s p l); [done|done|]. intros c fl Hc Hk' Hp Hni.
    split; [done|]. split; [done|]. split; [done|]. split; [done|]. split.
    + intros b Hb. simpl. by rewrite memset_load_in.
    + apply memset_same_outside.
Qed.

(** kfree() on a page that is not free pushes it, after which kalloc()
    returns that page; kfree() of anything else than a page of the allocator
    (misaligned, below the kernel's end, above PHYSTOP) panics. *)
Theorem kfree_pushes s p l :
  mm_ready (m_ctl s) -> kmem_ok (m_mem s) (m_freelist s) l -> ~ In p l ->
  (page_ok p -> wp (kfree p;; kalloc) (fun r s' => r = p /\ ctl_equiv (m_ctl s) (m_ctl s') /\
                        kmem_ok (m_mem s') (m_freelist s') l /\
                        same_outside p (m_mem s) (m_mem s')) s) /\
  (~ page_ok p -> kfree p s = Panic "kfree" s).
Proof.
  intros Hrd Hk Hni. split; [|apply kfree_bad]. intros Hp. wp_step.
  apply (wp_kfree s p l); try done. intros c m' Hc Hso Hk'.
  apply (wp_kalloc_cons _ p l); simpl; [by eapply mm_ready_equiv|done|].
  intros c' fl Hc' Hk'' _ _. split; [done|]. split; [by rewrite Hc|]. split; [done|].
  intros b Hb. simpl. rewrite memset_same_outside by done. by apply Hso.
Qed.

End kalloc.

(** A machine with two free pages. *)
Definition mm0 : mm := mkmm (set_locks {[ L_kmem := mkspinlock 0 "kmem" None ]} ctl0) ∅ 0.
Definition mm2 : mm :=
  mkmm (m_ctl mm0) (store64 (store64 ∅ 0x80030000 0) 0x80031000 0x80030000) 0x80031000.

Lemma mem_ok_empty : mem_ok ∅.
Proof. apply mem_ok_intro. intros a. unfold load8. by rewrite lookup_empty. Qed.

Lemma mm0_ready : mm_ready (m_ctl mm0).
Proof. split; [apply ctl0_ok|done]. Qed.

Lemma mm2_ok : @kmem_ok env0 (m_mem mm2) (m_freelist mm2) [0x80031000; 0x80030000].
Proof.
  split.
  - simpl. apply store64_ok, store64_ok, mem_ok_empty.
  - by vm_compute.
  - apply (bool_decide_unpack _). by vm_compute.
  - repeat constructor; by vm_compute.
Qed.

Lemma kinit_establishes_witness :
  wp (@kinit env0) (fun _ s' => exists l, @kmem_ok env0 (m_mem s') (m_freelist s') l /\
        mm_ready (m_ctl s') /\ forall p, In p l <-> @page_ok env0 p) mm0.
Proof.
  apply (@kinit_establishes env0 env0_ok mm0);
    [apply mm0_ready|apply mem_ok_empty|reflexivity].
Defined.

Lemma kalloc_pops_witness :
  wp kalloc (fun r s' => r = 0x80031000) mm2.
Proof.
  eapply wp_mono.
  - apply (@kalloc_pops env0 env0_ok mm2 [0x80031000; 0x80030000]); [apply mm0_ready|apply mm2_ok].
  - intros r s' [_ [Hr _]]. exact Hr.
Defined.

Lemma kfree_pushes_witness :
  wp (@kfree env0 0x80040000;; kalloc) (fun r s' => r = 0x80040000) mm2 /\
  @kfree env0 0x80040001 mm2 = Panic "kfree" mm2.
Proof.
  assert (Hni : forall x, x = 0x80040000 \/ x = 0x80040001 -> ~ In x [0x80031000; 0x80030000])
    by (intros x [->| ->] [|[|[]]]; discriminate).
  split.
  - eapply wp_mono.
    + apply (@kfree_pushes env0 env0_ok mm2 0x80040000 [0x80031000; 0x80030000]);
        [apply mm0_ready|apply mm2_ok|apply Hni; by left|split; by vm_compute].
    + intros r s' [Hr _]. exact Hr.
  - apply (@kfree_pushes env0 env0_ok mm2 0x80040001 [0x80031000; 0x80030000]);
      [apply mm0_ready|apply mm2_ok|apply Hni; by right|]. intros [H _]. discriminate H.
Defined.
