(* ===== verification/Vm.v ===== *)
(** * Virtual memory (kernel/vm.c)

    Every function of vm.c on byte memory: page tables are pages of 512 64-bit
    entries, reached from physical addresses the way the code does.  Buffers of
    the kernel that are not in the modelled memory (the source of copyout(), the
    destination of copyin()) are byte lists. *)

From S2P Require Import Prelude Riscv Kstate CString Spinlock Kalloc.

Section vm.
Context {E : Env}.

(** A 64-bit word of memory, read and written. *)
Definition ld64 (a : Z) : MM Z := gets (fun s => load64 (m_mem s) a).
Definition st64 (a v : Z) : MM unit := mem_mm (fun m => store64 m a v).

(** [&pagetable[i]] *)
Definition pte_addr (pagetable i : Z) : Z := pagetable + 8 * i.

(** ** Walking and mapping *)

(** The for loop of walk(), over the levels it goes through. *)
Fixpoint walk_levels (levels : list Z) (pagetable va : Z) (alloc : bool) : MM (option Z) :=
  match levels with
  | [] => ret (Some pagetable)
  | level :: rest =>
      let pte := pte_addr pagetable (PX level va) in
      v <- ld64 pte;;
      if truthy (Z.land v PTE_V) then walk_levels rest (PTE2PA v) va alloc
      else if negb alloc then ret None
      else
        pt' <- kalloc;;
        if pt' =? 0 then ret None
        else
          mem_mm (fun m => memset m pt' 0 PGSIZE);;
          st64 pte (Z.lor (PA2PTE pt') PTE_V);;
          walk_levels rest pt' va alloc
  end.

Definition walk (pagetable va : Z) (alloc : bool) : MM Z :=
  if MAXVA <=? va then panic "walk"
  else
    r <- walk_levels [2; 1] pagetable va alloc;;
    match r with
    | None => ret 0
    | Some pt => ret (pte_addr pt (PX 0 va))
    end.

Definition walkaddr (pagetable va : Z) : MM Z :=
  if MAXVA <=? va then ret 0
  else
    pte <- walk pagetable va false;;
    if pte =? 0 then ret 0
    else
      v <- ld64 pte;;
      if Z.land v PTE_V =? 0 then ret 0
      else if Z.land v PTE_U =? 0 then ret 0
      else ret (PTE2PA v).

(** One turn of the loop of mappages(). *)
Definition mappages_step (pagetable last perm : Z) '((a, pa) : Z * Z) : MM (Z * Z + Z) :=
  pte <- walk pagetable a true;;
  if pte =? 0 then ret (inr (-1))
  else
    v <- ld64 pte;;
    if truthy (Z.land v PTE_V) then panic "mappages: remap"
    else
      st64 pte (Z.lor (Z.lor (PA2PTE pa) perm) PTE_V);;
      if a =? last then ret (inr 0)
      else ret (inl (u64 (a + PGSIZE), u64 (pa + PGSIZE))).

(** The loop ends at [last], or panics in walk() at MAXVA when [last] is below
    its start because the addition wrapped. *)
Definition mappages (pagetable va size pa perm : Z) : MM Z :=
  if size =? 0 then panic "mappages: size"
  else
    let a := PGROUNDDOWN va in
    let last := PGROUNDDOWN (u64 (va + size - 1)) in
    loop (Z.to_nat ((if last <? a then MAXVA - a else last - a) / PGSIZE + 2))
      (mappages_step pagetable last perm) (a, pa).

Definition kvmmap (kpgtbl va pa sz perm : Z) : MM unit :=
  r <- mappages kpgtbl va sz pa perm;;
  if negb (r =? 0) then panic "kvmmap" else ret tt.

(** One turn of the loop of uvmunmap(), up to the address [last]. *)
Definition uvmunmap_step (pagetable last : Z) (do_free : bool) (a : Z) : MM (Z + unit) :=
  if a <? last then
    pte <- walk pagetable a false;;
    if pte =? 0 then panic "uvmunmap: walk"
    else
      v <- ld64 pte;;
      if Z.land v PTE_V =? 0 then panic "uvmunmap: not mapped"
      else if PTE_FLAGS v =? PTE_V then panic "uvmunmap: not a leaf"
      else
        when do_free (kfree (PTE2PA v));;
        st64 pte 0;;
        ret (inl (u64 (a + PGSIZE)))
  else ret (inr tt).

Definition uvmunmap (pagetable va npages : Z) (do_free : bool) : MM unit :=
  if negb (va mod PGSIZE =? 0) then panic "uvmunmap: not aligned"
  else
    loop (S (Z.to_nat npages))
      (uvmunmap_step pagetable (u64 (va + npages * PGSIZE)) do_free) va.

Definition uvmcreate : MM Z :=
  pagetable <- kalloc;;
  if pagetable =? 0 then ret 0
  else
    mem_mm (fun m => memset m pagetable 0 PGSIZE);;
    ret pagetable.

Definition uvmfirst (pagetable : Z) (src : list Z) (sz : Z) : MM unit :=
  if PGSIZE <=? sz then panic "uvmfirst: more than a page"
  else
    mem <- kalloc;;
    mem_mm (fun m => memset m mem 0 PGSIZE);;
    mappages pagetable 0 PGSIZE mem (Z.lor (Z.lor (Z.lor PTE_W PTE_R) PTE_X) PTE_U);;
    mem_mm (fun m => write_bytes m mem (take (Z.to_nat sz) src)).

(** ** Growing, shrinking and freeing a user address space *)

Definition uvmdealloc (pagetable oldsz newsz : Z) : MM Z :=
  if oldsz <=? newsz then ret oldsz
  else
    when (PGROUNDUP newsz <? PGROUNDUP oldsz)
      (let npages := i32 ((PGROUNDUP oldsz - PGROUNDUP newsz) / PGSIZE) in
       uvmunmap pagetable (PGROUNDUP newsz) (u64 npages) true);;
    ret newsz.

(** One turn of the loop of uvmalloc(); [oldsz] is already rounded up. *)
Definition uvmalloc_step (pagetable oldsz newsz xperm a : Z) : MM (Z + Z) :=
  if a <? newsz then
    mem <- kalloc;;
    if mem =? 0 then
      uvmdealloc pagetable a oldsz;;
      ret (inr 0)
    else
      mem_mm (fun m => memset m mem 0 PGSIZE);;
      r <- mappages pagetable a PGSIZE mem (Z.lor (Z.lor PTE_R PTE_U) xperm);;
      if negb (r =? 0) then
        kfree mem;;
        uvmdealloc pagetable a oldsz;;
        ret (inr 0)
      else ret (inl (u64 (a + PGSIZE)))
  else ret (inr newsz).

Definition uvmalloc (pagetable oldsz newsz xperm : Z) : MM Z :=
  if newsz <? oldsz then ret oldsz
  else
    let oldsz := PGROUNDUP oldsz in
    loop (Z.to_nat ((newsz - oldsz) / PGSIZE + 2))
      (uvmalloc_step pagetable oldsz newsz xperm) oldsz.

(** The recursion goes down one level of the table at each call; [fuel] bounds
    its depth. *)
Fixpoint freewalk (fuel : nat) (pagetable : Z) : MM unit :=
  match fuel with
  | O => stop
  | S fuel' =>
      for_each (map Z.of_nat (seq 0 512))
        (fun i =>
           pte <- ld64 (pte_addr pagetable i);;
           if truthy (Z.land pte PTE_V) &&
              (Z.land pte (Z.lor (Z.lor PTE_R PTE_W) PTE_X) =? 0) then
             freewalk fuel' (PTE2PA pte);;
             st64 (pte_addr pagetable i) 0
           else if truthy (Z.land pte PTE_V) then panic "freewalk: leaf"
           else ret tt);;
      kfree pagetable
  end.

(** A Sv39 table has three levels. *)
Definition uvmfree (pagetable sz : Z) : MM unit :=
  when (0 <? sz) (uvmunmap pagetable 0 (PGROUNDUP sz / PGSIZE) true);;
  freewalk 4 pagetable.

(** memmove() here copies a page of physical memory. *)
Definition uvmcopy_step (old new sz i : Z) : MM (Z + Z) :=
  let err := (uvmunmap new 0 (i / PGSIZE) true;; ret (inr (-1))) in
  if i <? sz then
    pte <- walk old i false;;
    if pte =? 0 then panic "uvmcopy: pte should exist"
    else
      v <- ld64 pte;;
      if Z.land v PTE_V =? 0 then panic "uvmcopy: page not present"
      else
        let pa := PTE2PA v in
        let flags := PTE_FLAGS v in
        mem <- kalloc;;
        if mem =? 0 then err
        else
          mem_mm (fun m => memmove m mem pa PGSIZE);;
          r <- mappages new i PGSIZE mem flags;;
          if negb (r =? 0) then (kfree mem;; err)
          else ret (inl (u64 (i + PGSIZE)))
  else ret (inr 0).

Definition uvmcopy (old new sz : Z) : MM Z :=
  loop (Z.to_nat (sz / PGSIZE + 2)) (uvmcopy_step old new sz) 0.

Definition uvmclear (pagetable va : Z) : MM unit :=
  pte <- walk pagetable va false;;
  if pte =? 0 then panic "uvmclear"
  else
    v <- ld64 pte;;
    st64 pte (Z.land v (u64 (Z.lnot PTE_U))).

(** ** Copying between the kernel and user space *)

Definition copyout_step (pagetable : Z) '((dstva, src) : Z * list Z) : MM (Z * list Z + Z) :=
  let len := Z.of_nat (length src) in
  if 0 <? len then
    let va0 := PGROUNDDOWN dstva in
    pa0 <- walkaddr pagetable va0;;
    if pa0 =? 0 then ret (inr (-1))
    else
      let n := Z.min (PGSIZE - (dstva - va0)) len in
      mem_mm (fun m => write_bytes m (pa0 + (dstva - va0)) (take (Z.to_nat n) src));;
      ret (inl (u64 (va0 + PGSIZE), drop (Z.to_nat n) src))
  else ret (inr 0).

Definition copyout (pagetable dstva : Z) (src : list Z) : MM Z :=
  loop (S (length src)) (copyout_step pagetable) (dstva, src).

(** Returns 0 or -1, and the bytes stored from [dst] on. *)
Definition copyin_step (pagetable : Z) '((dst, srcva, len) : list Z * Z * Z) :
    MM (list Z * Z * Z + Z * list Z) :=
  if 0 <? len then
    let va0 := PGROUNDDOWN srcva in
    pa0 <- walkaddr pagetable va0;;
    if pa0 =? 0 then ret (inr (-1, dst))
    else
      let n := Z.min (PGSIZE - (srcva - va0)) len in
      bs <- gets (fun s => bytes_at (m_mem s) (pa0 + (srcva - va0)) (Z.to_nat n));;
      ret (inl (dst ++ bs, u64 (va0 + PGSIZE), len - n))
  else ret (inr (0, dst)).

Definition copyin (pagetable srcva len : Z) : MM (Z * list Z) :=
  loop (S (Z.to_nat len)) (copyin_step pagetable) ([], srcva, len).

(** The inner loop of copyinstr(): copies up to [n] bytes from [p], stops at a
    NUL; the bytes copied and whether the NUL was met. *)
Fixpoint copystr_page (m : memory) (p : Z) (n : nat) : list Z * bool :=
  match n with
  | O => ([], false)
  | S n' => if load8 m p =? 0 then ([0], true)
            else let '(bs, nul) := copystr_page m (p + 1) n' in (load8 m p :: bs, nul)
  end.

Definition copyinstr_step (pagetable : Z) '((dst, srcva, max) : list Z * Z * Z) :
    MM (list Z * Z * Z + Z * list Z) :=
  if 0 <? max then
    let va0 := PGROUNDDOWN srcva in
    pa0 <- walkaddr pagetable va0;;
    if pa0 =? 0 then ret (inr (-1, dst))
    else
      let n := Z.min (PGSIZE - (srcva - va0)) max in
      let* (bs, got_null) := gets (fun s => copystr_page (m_mem s) (pa0 + (srcva - va0)) (Z.to_nat n)) in
      if (got_null : bool) then ret (inr (0, dst ++ bs))
      else ret (inl (dst ++ bs, u64 (va0 + PGSIZE), max - n))
  else ret (inr (-1, dst)).

Definition copyinstr (pagetable srcva max : Z) : MM (Z * list Z) :=
  loop (S (Z.to_nat max)) (copyinstr_step pagetable) ([], srcva, max).

(** ** The kernel's own page table *)

(** proc.c: a page for each process's kernel stack. *)
Definition proc_mapstacks (kpgtbl : Z) : MM unit :=
  for_each (map Z.of_nat (seq 0 NPROC))
    (fun p =>
       pa <- kalloc;;
       if pa =? 0 then panic "kalloc"
       else kvmmap kpgtbl (KSTACK p) pa PGSIZE (Z.lor PTE_R PTE_W)).

Definition kvmmake : MM Z :=
  kpgtbl <- kalloc;;
  mem_mm (fun m => memset m kpgtbl 0 PGSIZE);;
  kvmmap kpgtbl UART0 UART0 PGSIZE (Z.lor PTE_R PTE_W);;
  kvmmap kpgtbl VIRTIO0 VIRTIO0 PGSIZE (Z.lor PTE_R PTE_W);;
  kvmmap kpgtbl PLIC PLIC 0x400000 (Z.lor PTE_R PTE_W);;
  kvmmap kpgtbl KERNBASE KERNBASE (etext - KERNBASE) (Z.lor PTE_R PTE_X);;
  kvmmap kpgtbl etext etext (PHYSTOP - etext) (Z.lor PTE_R PTE_W);;
  kvmmap kpgtbl TRAMPOLINE trampoline PGSIZE (Z.lor PTE_R PTE_X);;
  proc_mapstacks kpgtbl;;
  ret kpgtbl.

Definition kvminit : K unit :=
  pt <- lift_mm kvmmake;;
  modify (fun s => set_k_gl (set_kernel_pagetable pt (k_gl s)) s).

Definition kvminithart : K unit :=
  modify (fun s => set_k_regs (set_satp (MAKE_SATP (kernel_pagetable (k_gl s))) (k_regs s)) s).

End vm.
