(* ===== verification/PageTable.v ===== *)
(** * Page tables (kernel/vm.c): what walk(), mappages() and uvmunmap() do

    A page table is a tree of pages: [tab_at m root path] is the table page
    reached through the valid entries of a path of indices, and [pte_of m root
    va] the leaf entry of a virtual address (0 when a table is missing).
    [pt_ok] states that the tree is a tree: its pages are distinct pages of the
    allocator, none of them free.  Under it walk() with allocation adds table
    pages without changing any translation, a store to a leaf entry changes the
    translation of its page only, and mappages() and uvmunmap() are updates of
    the map from pages to entries. *)

From S2P Require Import Prelude Riscv Kstate CString Spinlock Kalloc Vm.

(** ** The tree *)

Definition valid (v : Z) : bool := truthy (Z.land v PTE_V).
Definition entry (m : memory) (t i : Z) : Z := load64 m (pte_addr t i).

(** An entry that points to a table of the next level has none of the permissions. *)
Definition is_ptr (v : Z) : bool := Z.land v (Z.lor (Z.lor PTE_R PTE_W) PTE_X) =? 0.

Fixpoint tab_at (m : memory) (t : Z) (path : list Z) : option Z :=
  match path with
  | [] => Some t
  | i :: rest => if valid (entry m t i) then tab_at m (PTE2PA (entry m t i)) rest else None
  end.

(** The leaf table and the leaf entry of an address. *)
Definition leaf_tab (m : memory) (root va : Z) : option Z := tab_at m root [PX 2 va; PX 1 va].
Definition pte_of (m : memory) (root va : Z) : Z :=
  match leaf_tab m root va with
  | Some t => entry m t (PX 0 va)
  | None => 0
  end.

Definition idx_ok (i : Z) : Prop := 0 <= i < 512.
Definition path_ok (path : list Z) : Prop := (length path <= 2)%nat /\ Forall idx_ok path.

Lemma tab_at_app m t p q :
  tab_at m t (p ++ q) = match tab_at m t p with Some u => tab_at m u q | None => None end.
Proof.
  revert t. induction p as [|i p IH]; intros t; simpl; [done|].
  destruct (valid (entry m t i)); [apply IH|done].
Qed.

Lemma path_va_ok va : path_ok [PX 2 va; PX 1 va].
Proof. split; [done|]. repeat constructor; apply PX_range; lia. Qed.

Lemma path_ok_app p q : path_ok (p ++ q) -> path_ok p.
Proof. intros [Hl Hf]. rewrite length_app in Hl. apply Forall_app in Hf as [? _]. split; [lia|done]. Qed.

Lemma path_ok_last p i : path_ok (p ++ [i]) -> idx_ok i.
Proof. intros [_ Hf]. apply Forall_app in Hf as [_ Hf]. by apply Forall_cons in Hf as [? _]. Qed.

(** The address of an entry lies in the page of its table. *)
Lemma pte_addr_in t i : idx_ok i -> t <= pte_addr t i /\ pte_addr t i + 8 <= t + PGSIZE.
Proof. unfold idx_ok, pte_addr, PGSIZE. lia. Qed.

(** An entry built from a page and flags is a 64-bit word. *)
Lemma pte_range pa f : 0 <= pa < 2 ^ 56 -> 0 <= f < 1024 -> 0 <= Z.lor (PA2PTE pa) f < 2 ^ 64.
Proof.
  intros Hp Hf. rewrite PA2PTE_div by lia. rewrite lor_flags by done.
  unfold PGSIZE. Z.div_mod_to_equations. lia.
Qed.

Section pagetable.
Context {E : Env} {L : LinkerOk}.

Record pt_ok (m : memory) (root : Z) (l : list Z) : Prop := {
  pt_pages : forall path t, path_ok path -> tab_at m root path = Some t -> page_ok t /\ ~ In t l;
  pt_inj : forall p q t, path_ok p -> path_ok q ->
             tab_at m root p = Some t -> tab_at m root q = Some t -> p = q;
  pt_ptr : forall p i t, path_ok (p ++ [i]) -> tab_at m root p = Some t ->
             valid (entry m t i) = true -> is_ptr (entry m t i) = true;
  pt_low : forall i, 256 <= i < 512 -> valid (entry m root i) = false
}.

(** The table pages of the tree. *)
Definition is_table (m : memory) (root t : Z) : Prop := exists q, path_ok q /\ tab_at m root q = Some t.

Lemma pt_ok_incl m root l l' : (forall p, In p l' -> In p l) -> pt_ok m root l -> pt_ok m root l'.
Proof.
  intros Hi [Hp Hj Hr Hw]. split; [|done..]. intros path t Hk Ht.
  destruct (Hp path t Hk Ht). split; [done|]. auto.
Qed.

(** ** Linking a new, empty table page *)

Section link.
Context (m m' : memory) (root t i new : Z) (path l : list Z).
Context (Hok : pt_ok m root l) (Hpath : path_ok (path ++ [i])).
Context (Ht : tab_at m root path = Some t) (Hinv : valid (entry m t i) = false).
Context (Hnew : page_ok new) (Hfree : In new l).
Context (Hsame : forall u j, page_ok u -> u <> new -> idx_ok j -> u <> t \/ j <> i ->
                   entry m' u j = entry m u j).
Context (Hlink : entry m' t i = Z.lor (PA2PTE new) PTE_V).
Context (Hzero : forall j, idx_ok j -> entry m' new j = 0).

Lemma new_pte : valid (Z.lor (PA2PTE new) PTE_V) = true /\ PTE2PA (Z.lor (PA2PTE new) PTE_V) = new.
Proof.
  destruct (page_ok_pos new Hnew) as [Hp He]. destruct Hnew as [Ha _].
  assert (new < 2 ^ 56) by (unfold PGSIZE, PHYSTOP, KERNBASE in *; lia). split.
  - unfold valid, truthy. rewrite Z.land_lor_distr_l.
    destruct (Z.eqb_spec (Z.lor (Z.land (PA2PTE new) PTE_V) (Z.land PTE_V PTE_V)) 0) as [H0|]; [|done].
    apply Z.lor_eq_0_iff in H0 as [_ H0]. done.
  - apply PTE2PA_pte; [lia|done|done].
Qed.

Lemma new_ptr : is_ptr (Z.lor (PA2PTE new) PTE_V) = true.
Proof.
  apply Z.eqb_eq. rewrite Z.land_lor_distr_l. change (Z.land PTE_V _) with 0. rewrite Z.lor_0_r.
  destruct (page_ok_pos new Hnew) as [Hp He]. rewrite PA2PTE_div by (unfold PGSIZE, PHYSTOP, KERNBASE in *; lia).
  change 1024 with (2 ^ 10). rewrite <- Z.shiftl_mul_pow2 by lia.
  apply Z.bits_inj'. intros n Hn. rewrite Z.land_spec, Z.bits_0, Z.shiftl_spec by done.
  destruct (Z.ltb_spec n 10); [rewrite Z.testbit_neg_r by lia; done|].
  apply andb_false_intro2, Z.bits_above_log2; [done|]. change (Z.log2 _) with 3. lia.
Qed.

Lemma link_step q : forall c u x,
  path_ok (c ++ q) -> tab_at m root c = Some u ->
  tab_at m' u q = Some x <->
  tab_at m u q = Some x \/ (c ++ q = path ++ [i] /\ x = new).
Proof.
  induction q as [|j q IH]; intros c u x Hc Hu; simpl.
  - rewrite app_nil_r. split; [by left|]. intros [|[-> _]]; [done|].
    rewrite tab_at_app, Ht in Hu. simpl in Hu. by rewrite Hinv in Hu.
  - assert (Hcj : path_ok c /\ idx_ok j).
    { split; [by eapply path_ok_app|]. destruct Hc as [_ Hc]. apply Forall_app in Hc as [_ Hc].
      by apply Forall_cons in Hc as [? _]. }
    destruct Hcj as [Hcok Hj]. destruct (pt_pages m root l Hok c u Hcok Hu) as [Hup Hul].
    assert (Hun : u <> new) by (by intros ->).
    destruct (decide (c = path /\ j = i)) as [[-> ->]|Hne].
    + rewrite Ht in Hu. injection Hu as <-. rewrite Hlink, Hinv.
      destruct new_pte as [-> ->]. split.
      * destruct q as [|k q]; simpl; [intros [= <-]; by right|].
        rewrite Hzero; [done|]. destruct Hc as [_ Hc]. apply Forall_app in Hc as [_ Hc].
        apply Forall_cons in Hc as [_ Hc]. by apply Forall_cons in Hc as [? _].
      * intros [|[H ->]]; [done|]. apply app_inv_head in H. injection H as ->. done.
    + assert (Hent : entry m' u j = entry m u j).
      { apply Hsame; try done. destruct (decide (u = t)) as [->|]; [|by left].
        right. intros ->. apply Hne. split; [|done].
        eapply (pt_inj m root l Hok); [done|by eapply path_ok_app|exact Hu|exact Ht]. }
      rewrite Hent. destruct (valid (entry m u j)) eqn:Hv.
      * rewrite (IH (c ++ [j])); rewrite <- ?app_assoc; try done.
        rewrite tab_at_app, Hu. simpl. by rewrite Hv.
      * split; [done|]. intros [|[Heq _]]; [done|].
        destruct (decide (q = [])) as [->|Hq].
        -- apply app_inj_tail in Heq. tauto.
        -- destruct (exists_last Hq) as (q' & k & ->).
           rewrite app_comm_cons, app_assoc in Heq. apply app_inj_tail in Heq as [<- ->].
           rewrite tab_at_app, Hu in Ht. simpl in Ht. by rewrite Hv in Ht.
Qed.

Lemma link_tab q x : path_ok q ->
  tab_at m' root q = Some x <-> tab_at m root q = Some x \/ (q = path ++ [i] /\ x = new).
Proof. intros Hq. by apply (link_step q []). Qed.

Lemma link_pt_ok l' : (path = [] -> i < 256) -> (forall p, In p l' -> In p l) -> ~ In new l' -> pt_ok m' root l'.
Proof.
  intros Hlow Hincl Hn'. split.
  - intros q u Hq Hu. apply link_tab in Hu as [Hu|[-> ->]]; [|done|done].
    destruct (pt_pages m root l Hok q u Hq Hu). split; [done|]. auto.
  - intros p q u Hp Hq Hup Huq. apply link_tab in Hup; [|done]. apply link_tab in Huq; [|done].
    destruct Hup as [Hup|[-> ->]], Huq as [Huq|[-> Hx]]; try done.
    + by eapply (pt_inj m root l Hok).
    + subst u. by destruct (pt_pages m root l Hok p new Hp Hup).
    + by destruct (pt_pages m root l Hok q new Hq Huq).
  - intros p k u Hp Hu Hv. assert (Hk : idx_ok k).
    { by eapply path_ok_last. }
    apply link_tab in Hu as [Hu|[-> ->]]; [| |by eapply path_ok_app]; [|by rewrite Hzero in Hv].
    destruct (pt_pages m root l Hok p u ltac:(by eapply path_ok_app) Hu) as [Hup Hul].
    destruct (decide (u = t /\ k = i)) as [[-> ->]|Hne]; [rewrite Hlink; apply new_ptr|].
    assert (He : entry m' u k = entry m u k) by (apply Hsame; [done|by intros ->|done|]; destruct (decide (u = t)); tauto).
    rewrite He in *. by apply (pt_ptr m root l Hok p k u).
  - intros k Hk. destruct (pt_pages m root l Hok [] root) as [Hrp Hrl]; [by split; [simpl; lia|]|done|].
    rewrite Hsame; [by apply (pt_low m root l Hok)|done|by intros ->|unfold idx_ok; lia|]. destruct (decide (root = t)) as [<-|]; [right|by left].
    assert (path = []) by (eapply (pt_inj m root l Hok); [by eapply path_ok_app|by split; [simpl; lia|]|exact Ht|done]). intros ->. specialize (Hlow ltac:(done)). lia.
Qed.

Lemma link_tables x : is_table m' root x <-> is_table m root x \/ x = new.
Proof.
  split.
  - intros (q & Hq & Hx). apply link_tab in Hx as [Hx|[_ ->]]; [|by right|done]. left. by exists q.
  - intros [(q & Hq & Hx)| ->]; [exists q|exists (path ++ [i])]; (split; [done|]); apply link_tab; [done|by left|done|by right].
Qed.

Lemma link_pte_of va : pte_of m' root va = pte_of m root va.
Proof.
  unfold pte_of, leaf_tab. pose proof (path_va_ok va) as Hva.
  destruct (tab_at m root [PX 2 va; PX 1 va]) as [u|] eqn:Hu.
  - assert (Hu' : tab_at m' root [PX 2 va; PX 1 va] = Some u) by (apply link_tab; [done|by left]).
    rewrite Hu'. destruct (pt_pages m root l Hok _ u Hva Hu) as [Hup Hul].
    apply Hsame; [done|by intros ->|apply PX_range; lia|]. left. intros ->.
    assert (Hp : path = [PX 2 va; PX 1 va])
      by (eapply (pt_inj m root l Hok); [by eapply path_ok_app|exact Hva|exact Ht|exact Hu]).
    rewrite Hp in Hpath. destruct Hpath as [Hlen _]. simpl in Hlen. lia.
  - destruct (tab_at m' root [PX 2 va; PX 1 va]) as [u|] eqn:Hu'; [|done].
    apply link_tab in Hu' as [|[_ ->]]; [congruence| |done]. apply Hzero, PX_range. lia.
Qed.
End link.

(** ** Writing a leaf entry *)

Section leaf.
Context (m : memory) (root va t v : Z) (l : list Z).
Context (Hok : pt_ok m root l) (Ht : leaf_tab m root va = Some t) (Hv : 0 <= v < 2 ^ 64).
Let m' := store64 m (pte_addr t (PX 0 va)) v.

Lemma leaf_entry_ne u j : page_ok u -> idx_ok j -> u <> t \/ j <> PX 0 va ->
  entry m' u j = entry m u j.
Proof.
  intros Hu Hj Hne. destruct (pt_pages m root l Hok _ t (path_va_ok va) Ht) as [Htp _].
  pose proof (PX_range 0 va ltac:(lia)) as Hx. unfold entry, m'. apply load64_store64_out.
  destruct (decide (u = t)) as [->|Hut].
  - destruct Hne as [|Hne]; [done|]. unfold pte_addr. lia.
  - destruct (page_disjoint u t Hu Htp Hut); destruct (pte_addr_in u j Hj), (pte_addr_in t (PX 0 va) Hx); lia.
Qed.

Lemma leaf_tab_at q : path_ok q -> tab_at m' root q = tab_at m root q.
Proof.
  assert (Hg : forall q c u, path_ok (c ++ q) -> tab_at m root c = Some u ->
                 tab_at m' u q = tab_at m u q); [|intros Hq; by apply (Hg q [])].
  clear q. induction q as [|j q IH]; intros c u Hc Hu; [done|]. simpl.
  assert (Hcok : path_ok c) by (by eapply path_ok_app).
  destruct (pt_pages m root l Hok c u Hcok Hu) as [Hup _].
  assert (Hj : idx_ok j).
  { destruct Hc as [_ Hc]. apply Forall_app in Hc as [_ Hc]. by apply Forall_cons in Hc as [? _]. }
  rewrite leaf_entry_ne; [|done|done|].
  - destruct (valid (entry m u j)) eqn:Hv'; [|done]. apply (IH (c ++ [j])).
    + by rewrite <- app_assoc.
    + rewrite tab_at_app, Hu. simpl. by rewrite Hv'.
  - left. intros ->. assert (c = [PX 2 va; PX 1 va]) as ->.
    { eapply (pt_inj m root l Hok); [done|apply path_va_ok|exact Hu|exact Ht]. }
    destruct Hc as [Hlen _]. simpl in Hlen. lia.
Qed.

Lemma leaf_pt_ok : pt_ok m' root l.
Proof.
  destruct Hok as [Hp Hj Hr Hw]. split.
  - intros q u Hq. rewrite leaf_tab_at by done. by apply Hp.
  - intros p q u Hpk Hqk. rewrite !leaf_tab_at by done. by apply Hj.
  - intros p i u Hpi. assert (Hpk : path_ok p) by (by eapply path_ok_app). rewrite leaf_tab_at by done. intros Hu.
    destruct (Hp p u Hpk Hu) as [Hup _]. rewrite leaf_entry_ne; [by apply Hr with p|done| |].
    + by eapply path_ok_last.
    + left. intros ->. assert (p = [PX 2 va; PX 1 va]) as -> by (eapply Hj; [done|apply path_va_ok|exact Hu|exact Ht]).
      destruct Hpi as [Hlen _]. simpl in Hlen. lia.
  - intros i Hi. destruct (Hp [] root) as [Hrp _]; [by split; [simpl; lia|]|done|]. rewrite leaf_entry_ne; [by apply Hw|done|unfold idx_ok; lia|].
    left. intros <-. assert (Hn : [] = [PX 2 va; PX 1 va]); [|done]. eapply Hj; [by split; [simpl; lia|]|apply path_va_ok|done|exact Ht].
Qed.

Lemma leaf_tables x : is_table m' root x <-> is_table m root x.
Proof. split; intros (q & Hq & Hx); exists q; (split; [done|]); [by rewrite <- leaf_tab_at|by rewrite leaf_tab_at]. Qed.

Lemma leaf_pte_of va' : 0 <= va < MAXVA -> 0 <= va' < MAXVA ->
  pte_of m' root va' = if va' / PGSIZE =? va / PGSIZE then v else pte_of m root va'.
Proof.
  intros Hr Hr'. unfold pte_of. unfold leaf_tab. rewrite leaf_tab_at by apply path_va_ok.
  fold (leaf_tab m root va'). pose proof (PX_range 0 va' ltac:(lia)) as Hx.
  destruct (Z.eqb_spec (va' / PGSIZE) (va / PGSIZE)) as [He|He].
  - assert (Hpx : forall k, 0 <= k -> PX k va' = PX k va).
    { intros k Hk. rewrite !PX_div by done. rewrite Z.pow_add_r by lia.
      change (2 ^ 12) with PGSIZE. by rewrite <- !Z.div_div, He by (done || apply Z.pow_pos_nonneg; lia). }
    unfold leaf_tab in *. rewrite !Hpx by lia. rewrite Ht. unfold entry, m'.
    by rewrite load64_store64_eq.
  - destruct (leaf_tab m root va') as [u|] eqn:Hu; [|done].
    destruct (pt_pages m root l Hok _ u (path_va_ok va') Hu) as [Hup _].
    apply leaf_entry_ne; [done|done|]. destruct (decide (u = t)) as [->|]; [|by left].
    right. intros H0. apply He.
    assert (Hpp : [PX 2 va'; PX 1 va'] = [PX 2 va; PX 1 va])
      by (eapply (pt_inj m root l Hok); [apply path_va_ok|apply path_va_ok|exact Hu|exact Ht]).
    injection Hpp as H2 H1. by apply PX_inj.
Qed.
End leaf.

(** ** walk() *)

Lemma walk_levels_read levels t va s :
  walk_levels levels t va false s =
  Ret (tab_at (m_mem s) t (map (fun l => PX l va) levels)) s.
Proof.
  revert t. induction levels as [|k levels IH]; intros t; [done|].
  simpl. unfold bind, ld64, gets, ret. simpl. fold (entry (m_mem s) t (PX k va)).
  fold (valid (entry (m_mem s) t (PX k va))). destruct (valid _); [apply IH|done].
Qed.

(** Without allocation walk() reads: the address of the leaf entry, or 0. *)
Lemma walk_read root va s : va < MAXVA ->
  walk root va false s =
  Ret (match leaf_tab (m_mem s) root va with Some t => pte_addr t (PX 0 va) | None => 0 end) s.
Proof.
  intros Hva. unfold walk. destruct (Z.leb_spec MAXVA va); [lia|].
  unfold bind. rewrite walk_levels_read. unfold leaf_tab. cbn [map].
  by destruct (tab_at (m_mem s) root [PX 2 va; PX 1 va]).
Qed.

(** A byte outside a page; a byte that neither the free pages nor the tables
    of [root] contain. *)
Definition outside (b p : Z) : Prop := b < p \/ p + PGSIZE <= b.
Definition untouched (m : memory) (root : Z) (l : list Z) (b : Z) : Prop :=
  (forall p, In p l -> outside b p) /\
  (forall q t, path_ok q -> tab_at m root q = Some t -> outside b t).

(** A machine whose free list is [l] and in which [root] is a page table. *)
Record vm_inv (root : Z) (l : list Z) (s : mm) : Prop := {
  vi_ready : mm_ready (m_ctl s);
  vi_kmem : kmem_ok (m_mem s) (m_freelist s) l;
  vi_pt : pt_ok (m_mem s) root l
}.

(** From [s] to [s'] table pages may have been taken from the free list, and
    only free pages and tables of [root] were written. *)
Record vm_frame (root : Z) (l : list Z) (s : mm) (l' : list Z) (s' : mm) : Prop := {
  vf_inv : vm_inv root l' s';
  vf_ctl : ctl_equiv (m_ctl s) (m_ctl s');
  vf_free : exists used, l = used ++ l';
  vf_tabs : forall t, is_table (m_mem s') root t <-> is_table (m_mem s) root t \/ In t l /\ ~ In t l';
  vf_frame : forall b, untouched (m_mem s) root l b ->
               load8 (m_mem s') b = load8 (m_mem s) b /\ untouched (m_mem s') root l' b
}.

(** No translation changed either. *)
Definition vm_ext (root : Z) (l : list Z) (s : mm) (l' : list Z) (s' : mm) : Prop :=
  vm_frame root l s l' s' /\ forall va, pte_of (m_mem s') root va = pte_of (m_mem s) root va.

Lemma vm_frame_refl root l s : vm_inv root l s -> vm_frame root l s l s.
Proof. intros H. split; try done; [by exists []|]. intros t. tauto. Qed.

Lemma vm_ext_refl root l s : vm_inv root l s -> vm_ext root l s l s.
Proof. intros H. split; [by apply vm_frame_refl|done]. Qed.

Lemma vm_frame_trans root l1 s1 l2 s2 l3 s3 :
  vm_frame root l1 s1 l2 s2 -> vm_frame root l2 s2 l3 s3 -> vm_frame root l1 s1 l3 s3.
Proof.
  intros [_ Hc1 [u1 ->] Ht1 Hf1] [Hi Hc2 [u2 ->] Ht2 Hf2]. split; try done.
  - by rewrite Hc1.
  - exists (u1 ++ u2). by rewrite app_assoc.
  - intros t. rewrite Ht2, Ht1, !in_app_iff. destruct (in_dec Z.eq_dec t u2), (in_dec Z.eq_dec t l3); tauto.
  - intros b Hb. destruct (Hf1 b Hb) as [E1 Hb1]. destruct (Hf2 b Hb1) as [E2 Hb2].
    split; [congruence|done].
Qed.

Lemma vm_ext_trans root l1 s1 l2 s2 l3 s3 :
  vm_ext root l1 s1 l2 s2 -> vm_ext root l2 s2 l3 s3 -> vm_ext root l1 s1 l3 s3.
Proof.
  intros [H1 Hp1] [H2 Hp2]. split; [by eapply vm_frame_trans|]. intros va. by rewrite Hp2.
Qed.

(** The memory after linking [new], as walk() writes it. *)
Definition linked (m : memory) (t i new : Z) : memory :=
  store64 (memset (memset m new 5 PGSIZE) new 0 PGSIZE) (pte_addr t i) (Z.lor (PA2PTE new) PTE_V).

Lemma linked_entries m t i new :
  page_ok new -> page_ok t -> t <> new -> idx_ok i ->
  (forall u j, page_ok u -> u <> new -> idx_ok j -> u <> t \/ j <> i ->
     entry (linked m t i new) u j = entry m u j) /\
  entry (linked m t i new) t i = Z.lor (PA2PTE new) PTE_V /\
  (forall j, idx_ok j -> entry (linked m t i new) new j = 0) /\
  (forall b, outside b new -> outside b t -> load8 (linked m t i new) b = load8 m b).
Proof.
  intros Hn Ht Hne Hi. destruct (pte_addr_in t i Hi) as [Ha1 Ha2].
  assert (Hb : forall b, outside b new -> load8 (memset (memset m new 5 PGSIZE) new 0 PGSIZE) b = load8 m b).
  { intros b Hb. by rewrite !memset_same_outside. }
  split_and!.
  - intros u j Hu Hun Hj Hd. destruct (pte_addr_in u j Hj) as [Hj1 Hj2]. unfold entry, linked.
    rewrite load64_store64_out.
    + apply load64_ext. intros b Hbr. apply Hb. unfold outside.
      destruct (page_disjoint u new Hu Hn Hun); lia.
    + destruct (decide (u = t)) as [->|Hut].
      * destruct Hd as [|Hd]; [done|]. unfold pte_addr. lia.
      * destruct (page_disjoint u t Hu Ht Hut); lia.
  - unfold entry, linked. apply load64_store64_eq. destruct (page_ok_pos new Hn) as [Hp He].
    apply pte_range; [unfold PGSIZE, PHYSTOP, KERNBASE in *; lia|done].
  - intros j Hj. destruct (pte_addr_in new j Hj) as [Hj1 Hj2]. unfold entry, linked.
    rewrite load64_store64_out by (destruct (page_disjoint t new Ht Hn Hne); lia).
    rewrite (load64_ext _ ∅).
    + by vm_compute.
    + intros b Hbr. rewrite memset_load_in by lia. done.
  - intros b Hb1 Hb2. unfold linked. rewrite load8_store64_out by (unfold outside in *; lia).
    by apply Hb.
Qed.

(** An address below MAXVA uses the lower half of the root table. *)
Lemma PX_low va : 0 <= va < MAXVA -> PX 2 va < 256.
Proof.
  intros Hva. rewrite PX_div by lia. pose proof MAXVA_eq. change (12 + 9 * 2) with 30.
  assert (va / 2 ^ 30 < 256) by (apply Z.div_lt_upper_bound; lia). assert (0 <= va / 2 ^ 30) by (apply Z.div_pos; lia).
  rewrite Z.mod_small by lia. done.
Qed.

(** One level of walk() with allocation. *)
Lemma wp_walk_cons root l s level rest t va path (Q : option Z -> mm -> Prop) :
  vm_inv root l s -> path_ok (path ++ [PX level va]) -> tab_at (m_mem s) root path = Some t -> (path = [] -> PX level va < 256) ->
  (forall t' l' s', vm_ext root l s l' s' ->
     tab_at (m_mem s') root (path ++ [PX level va]) = Some t' ->
     wp (walk_levels rest t' va true) Q s') ->
  (forall s', vm_ext root l s [] s' -> Q None s') ->
  wp (walk_levels (level :: rest) t va true) Q s.
Proof.
  intros Hinv Hpath Ht Hlow Hgo Hfail. cbn [walk_levels]. set (i := PX level va) in *.
  assert (Hi : idx_ok i) by (by eapply path_ok_last).
  wp_step. unfold ld64. wp_step. fold (entry (m_mem s) t i). fold (valid (entry (m_mem s) t i)).
  destruct (valid (entry (m_mem s) t i)) eqn:Hv.
  { apply (Hgo _ l s); [by apply vm_ext_refl|]. rewrite tab_at_app, Ht. simpl. by rewrite Hv. }
  simpl. destruct Hinv as [Hrd Hk Hpt]. wp_step. destruct l as [|new l].
  - pose proof (km_rep _ _ _ Hk) as Hr. simpl in Hr. apply wp_kalloc_nil; [done|done|].
    intros c Hc. simpl. wp_steps. apply Hfail. split; [|done]. split; simpl; try done.
    + split; simpl; try done. by eapply mm_ready_equiv.
    + by exists [].
    + intros t'. tauto.
  - apply (wp_kalloc_cons s new l); [done|done|]. intros c fl Hc Hk' Hn Hni.
    destruct (page_ok_pos new Hn) as [Hpos _]. destruct (Z.eqb_spec new 0); [lia|].
    destruct (pt_pages _ _ _ Hpt path t ltac:(by eapply path_ok_app) Ht) as [Htp Htl].
    assert (Htn : t <> new) by (intros ->; apply Htl; by left).
    destruct (linked_entries (m_mem s) t i new Hn Htp Htn Hi) as (Hsame & Hlink & Hzero & Hfr).
    wp_step. unfold mem_mm at 1. wp_step. wp_step. unfold st64, mem_mm. wp_step. simpl.
    fold (linked (m_mem s) t i new).
    assert (Hl1 : forall p, In p l -> In p (new :: l)) by (intros; by right).
    assert (Hin : In new (new :: l)) by (by left).
    pose proof (link_tab _ _ _ _ _ _ _ _ Hpt Hpath Ht Hv Hn Hin Hsame Hlink Hzero) as Htab.
    apply (Hgo new l); [|cbn [m_mem set_m_mem]; apply (Htab _ new Hpath); right; split; reflexivity].
    split; [split|]; cbn [m_mem m_ctl m_freelist set_m_mem].
    + split; cbn [m_mem m_ctl m_freelist set_m_mem].
      * eapply mm_ready_equiv; [exact Hc|exact Hrd].
      * destruct Hk' as [Hm' Hrep' Hnd' Hpg']. split; [apply store64_ok; by apply memset_ok| |done|done].
        eapply fl_rep_ext; [|exact Hrep']. intros p Hp.
        assert (Hpo : page_ok p) by (rewrite List.Forall_forall in Hpg'; apply Hpg', Hp).
        assert (Hpn : p <> new) by (intros ->; contradiction).
        assert (Hpt' : p <> t) by (intros ->; apply Htl; right; exact Hp).
        apply load64_ext. intros b Hb. rewrite Hfr; [apply memset_same_outside| |];
          unfold outside, PGSIZE in *; [destruct (page_disjoint p new Hpo Hn Hpn)|
          destruct (page_disjoint p new Hpo Hn Hpn)|destruct (page_disjoint p t Hpo Htp Hpt')];
          unfold PGSIZE in *; lia.
      * exact (link_pt_ok _ _ _ _ _ _ _ _ Hpt Hpath Ht Hv Hn Hin Hsame Hlink Hzero l Hlow Hl1 Hni).
    + exact Hc.
    + exists [new]. reflexivity.
    + intros x. rewrite (link_tables _ _ _ _ _ _ _ _ Hpt Hpath Ht Hv Hn Hin Hsame Hlink Hzero).
      split; [intros [H|H]; [left; exact H|right; subst x; split; [left; reflexivity|exact Hni]]|].
      intros [H|[[H|H] Hx]]; [left; exact H|right; symmetry; exact H|contradiction].
    + intros b [Hb1 Hb2]. split.
      * apply Hfr; [exact (Hb1 _ Hin)|exact (Hb2 path t (path_ok_app _ _ Hpath) Ht)].
      * split; [intros p Hp; exact (Hb1 p (Hl1 p Hp))|]. intros q u Hq Hu.
        apply Htab in Hu as [Hu|[_ ->]]; [exact (Hb2 q u Hq Hu)|exact (Hb1 _ Hin)|exact Hq].
    + exact (link_pte_of _ _ _ _ _ _ _ _ Hpt Hpath Ht Hv Hn Hin Hsame Hlink Hzero).
Qed.

(** walk() with allocation: it may add table pages, and gives the address of
    the leaf entry, or 0 when the allocator ran out of pages. *)
Lemma wp_walk_alloc root l s va (Q : Z -> mm -> Prop) :
  vm_inv root l s -> 0 <= va < MAXVA ->
  (forall t l' s', vm_ext root l s l' s' -> leaf_tab (m_mem s') root va = Some t ->
     Q (pte_addr t (PX 0 va)) s') ->
  (forall s', vm_ext root l s [] s' -> Q 0 s') ->
  wp (walk root va true) Q s.
Proof.
  intros Hinv Hva Hgo Hfail. unfold walk. destruct (Z.leb_spec MAXVA va); [lia|]. wp_step.
  pose proof (path_va_ok va) as Hp2.
  apply (wp_walk_cons root l s 2 [1] root va []); [done|by eapply (path_ok_app _ [PX 1 va])|done|intros _; by apply PX_low| |].
  - intros t1 l1 s1 Hx1 Ht1.
    apply (wp_walk_cons root l1 s1 1 [] t1 va [PX 2 va]); [apply Hx1|done|done|done| |].
    + intros t0 l0 s0 Hx0 Ht0. wp_steps. apply (Hgo t0 l0); [|done]. by eapply vm_ext_trans.
    + intros s0 Hx0. wp_steps. apply Hfail. by eapply vm_ext_trans.
  - intros s1 Hx1. wp_steps. by apply Hfail.
Qed.

(** ** A store to a leaf entry, on a machine *)

Lemma kmem_ok_outside m m' t fl l :
  same_outside t m m' -> mem_ok m' -> page_ok t -> ~ In t l -> kmem_ok m fl l -> kmem_ok m' fl l.
Proof.
  intros Hs Hm' Ht Hni [_ Hr Hnd Hpg]. split; [done| |done|done]. by eapply fl_rep_same_outside.
Qed.

Lemma leaf_frame root l s va t v :
  vm_inv root l s -> leaf_tab (m_mem s) root va = Some t -> 0 <= v < 2 ^ 64 ->
  vm_frame root l s l (set_m_mem (store64 (m_mem s) (pte_addr t (PX 0 va)) v) s).
Proof.
  intros [Hrd Hk Hpt] Ht Hv. pose proof (path_va_ok va) as Hp.
  destruct (pt_pages _ _ _ Hpt _ t Hp Ht) as [Htp Htl].
  destruct (pte_addr_in t (PX 0 va)) as [Ha1 Ha2]; [apply PX_range; lia|].
  assert (Hso : same_outside t (m_mem s) (store64 (m_mem s) (pte_addr t (PX 0 va)) v)).
  { intros b Hb. apply load8_store64_out. lia. }
  split; [split|..]; cbn [m_mem m_ctl m_freelist set_m_mem]; [done| | |done|by exists []|intros x; rewrite (leaf_tables _ _ _ _ _ l) by done; tauto|].
  - eapply kmem_ok_outside; [exact Hso| |done|done|done]. apply store64_ok. by destruct Hk.
  - by apply leaf_pt_ok.
  - intros b [Hb1 Hb2]. split; [by apply Hso, (Hb2 _ t Hp Ht)|]. split; [done|].
    intros q u Hq. rewrite (leaf_tab_at _ _ _ _ _ l) by done. by apply Hb2.
Qed.

(** ** mappages() *)

Definition pte_new (pa perm : Z) : Z := Z.lor (Z.lor (PA2PTE pa) perm) PTE_V.

Lemma pte_new_valid pa perm : valid (pte_new pa perm) = true.
Proof.
  unfold valid, pte_new, truthy. rewrite Z.land_lor_distr_l.
  destruct (Z.eqb_spec (Z.lor (Z.land (Z.lor (PA2PTE pa) perm) PTE_V) (Z.land PTE_V PTE_V)) 0) as [H|]; [|done].
  by apply Z.lor_eq_0_iff in H as [_ H].
Qed.

Lemma flags_v perm : 0 <= perm < 1024 -> 0 <= Z.lor perm PTE_V < 1024.
Proof.
  intros [H0 H1]. assert (Hn : 0 <= Z.lor perm PTE_V) by (apply Z.lor_nonneg; done).
  split; [done|]. destruct (Z.eq_dec perm 0) as [->|]; [done|].
  destruct (Z.eq_dec (Z.lor perm PTE_V) 0) as [->|]; [done|].
  change 1024 with (2 ^ 10). apply Z.log2_lt_pow2; [lia|]. rewrite Z.log2_lor by done.
  apply Z.max_lub_lt; [|done]. apply Z.log2_lt_pow2; lia.
Qed.

Lemma pte_new_range pa perm : 0 <= pa < 2 ^ 56 -> 0 <= perm < 1024 -> 0 <= pte_new pa perm < 2 ^ 64.
Proof. intros. unfold pte_new. rewrite <- Z.lor_assoc. apply pte_range; [done|by apply flags_v]. Qed.

Lemma pte_new_pa pa perm : 0 <= pa < 2 ^ 56 -> pa mod PGSIZE = 0 -> 0 <= perm < 1024 ->
  PTE2PA (pte_new pa perm) = pa.
Proof. intros. unfold pte_new. rewrite <- Z.lor_assoc. apply PTE2PA_pte; [done|done|by apply flags_v]. Qed.

(** The map from addresses to leaf entries after mapping [n] pages from [a] on
    to the pages from [pa] on. *)
Definition map_range (f : Z -> Z) (a n pa perm va : Z) : Z :=
  let i := va / PGSIZE - a / PGSIZE in
  if (0 <=? i) && (i <? n) then pte_new (pa + i * PGSIZE) perm else f va.

Definition ptes_are (s : mm) (root : Z) (f : Z -> Z) : Prop :=
  forall va, 0 <= va < MAXVA -> pte_of (m_mem s) root va = f va.

Lemma page_add a i : a mod PGSIZE = 0 -> (a + i * PGSIZE) / PGSIZE = a / PGSIZE + i.
Proof. intros. by apply Z.div_add. Qed.

Lemma pte_of_page m root va : 0 <= va -> pte_of m root (va / PGSIZE * PGSIZE) = pte_of m root va.
Proof.
  intros Hva. unfold pte_of, leaf_tab.
  assert (H : forall k, 0 <= k -> PX k (va / PGSIZE * PGSIZE) = PX k va).
  { intros k Hk. rewrite !PX_div by done. rewrite Z.pow_add_r by lia. change (2 ^ 12) with PGSIZE.
    rewrite <- !Z.div_div by (done || apply Z.pow_pos_nonneg; lia). by rewrite Z.div_mul. }
  by rewrite !H by lia.
Qed.

(** Mapping one page writes one entry. *)
Lemma wp_map_one root l s va v t :
  vm_inv root l s -> leaf_tab (m_mem s) root va = Some t -> 0 <= v < 2 ^ 64 -> 0 <= va < MAXVA ->
  let s' := set_m_mem (store64 (m_mem s) (pte_addr t (PX 0 va)) v) s in
  vm_frame root l s l s' /\
  ptes_are s' root (fun x => if x / PGSIZE =? va / PGSIZE then v else pte_of (m_mem s) root x).
Proof.
  intros Hi Ht Hv Hva s'. split; [by apply leaf_frame|]. intros x Hx. simpl.
  destruct Hi as [_ _ Hpt]. by rewrite (leaf_pte_of _ _ _ _ _ l).
Qed.

Lemma leaf_tab_pos root l s va t :
  vm_inv root l s -> leaf_tab (m_mem s) root va = Some t -> pte_addr t (PX 0 va) =? 0 = false.
Proof.
  intros [_ _ Hpt] Ht. destruct (pt_pages _ _ _ Hpt _ t (path_va_ok va) Ht) as [Htp _].
  apply page_ok_pos in Htp as [Hp _]. destruct (PX_range 0 va ltac:(lia)) as [Hx _].
  unfold pte_addr. destruct (Z.eqb_spec (t + 8 * PX 0 va) 0); [lia|done].
Qed.

Definition map_page (f : Z -> Z) (a v va : Z) : Z := if va / PGSIZE =? a / PGSIZE then v else f va.

Lemma map_range_0 f a pa perm va : map_range f a 0 pa perm va = f va.
Proof.
  unfold map_range. set (i := va / PGSIZE - a / PGSIZE).
  by destruct (Z.leb_spec 0 i), (Z.ltb_spec i 0); try lia.
Qed.

Lemma map_range_succ f a k pa perm va : a mod PGSIZE = 0 -> 0 <= k ->
  map_range f a (k + 1) pa perm va =
  map_range (map_page f a (pte_new pa perm)) (a + PGSIZE) k (pa + PGSIZE) perm va.
Proof.
  intros Ha Hk. unfold map_range, map_page.
  assert (Hpg : (a + PGSIZE) / PGSIZE = a / PGSIZE + 1) by (rewrite <- (page_add a 1) by done; f_equal; lia).
  rewrite Hpg. set (x := va / PGSIZE). set (y := a / PGSIZE).
  replace (pa + PGSIZE + (x - (y + 1)) * PGSIZE) with (pa + (x - y) * PGSIZE) by lia.
  destruct (Z.eqb_spec x y) as [->|Hne].
  - rewrite Z.sub_diag, Z.add_0_r. destruct (Z.leb_spec 0 (y - (y + 1))); [lia|]. simpl.
    by destruct (Z.ltb_spec 0 (k + 1)); [|lia].
  - by destruct (Z.leb_spec 0 (x - (y + 1))), (Z.leb_spec 0 (x - y)), (Z.ltb_spec (x - (y + 1)) k),
      (Z.ltb_spec (x - y) (k + 1)); simpl; try lia.
Qed.

(** A turn of mappages()' loop maps one page, or finds no memory for a table. *)
Lemma wp_mappages_step root last perm a pa l s (Q : Z * Z + Z -> mm -> Prop) :
  vm_inv root l s -> 0 <= perm < 1024 -> 0 <= a < MAXVA -> 0 <= pa < 2 ^ 56 ->
  valid (pte_of (m_mem s) root a) = false ->
  (forall s', vm_ext root l s [] s' -> Q (inr (-1)) s') ->
  (forall l' s', vm_frame root l s l' s' ->
     ptes_are s' root (map_page (pte_of (m_mem s) root) a (pte_new pa perm)) ->
     Q (if a =? last then inr 0 else inl (u64 (a + PGSIZE), u64 (pa + PGSIZE))) s') ->
  wp (mappages_step root last perm (a, pa)) Q s.
Proof.
  intros Hinv Hperm Ha Hpa Hun Hfail HQ. unfold mappages_step. wp_step.
  apply (wp_walk_alloc root l s a); [done|done| |]; [|intros s' Hx; wp_steps; by apply Hfail].
  intros t l1 s1 [Hf Hp] Ht. pose proof (vf_inv _ _ _ _ _ Hf) as Hinv1.
  rewrite (leaf_tab_pos root l1 s1 a t) by done. unfold ld64. wp_steps.
  assert (He : load64 (m_mem s1) (pte_addr t (PX 0 a)) = pte_of (m_mem s1) root a)
    by (unfold pte_of; rewrite Ht; reflexivity).
  rewrite He, Hp. fold (valid (pte_of (m_mem s) root a)). rewrite Hun. wp_step.
  unfold st64, mem_mm. wp_step. fold (pte_new pa perm).
  destruct (wp_map_one root l1 s1 a (pte_new pa perm) t) as [Hf2 Hp2];
    [done|done|by apply pte_new_range|done|]. set (s2 := set_m_mem _ s1) in *.
  specialize (HQ l1 s2 (vm_frame_trans _ _ _ _ _ _ _ Hf Hf2)).
  destruct (a =? last); wp_step; apply HQ; intros x Hx; rewrite Hp2 by done; unfold map_page; by rewrite Hp.
Qed.

Lemma wp_mappages_loop root perm last : 0 <= perm < 1024 -> last < MAXVA ->
  forall n fuel a pa l s (Q : Z -> mm -> Prop),
  (n < fuel)%nat -> vm_inv root l s -> 0 <= a -> a mod PGSIZE = 0 -> last = a + Z.of_nat n * PGSIZE ->
  0 <= pa -> pa + Z.of_nat n * PGSIZE < 2 ^ 56 ->
  (forall i, 0 <= i <= Z.of_nat n -> valid (pte_of (m_mem s) root (a + i * PGSIZE)) = false) ->
  (forall r k l' s', vm_frame root l s l' s' ->
     ptes_are s' root (map_range (pte_of (m_mem s) root) a k pa perm) ->
     r = 0 /\ k = Z.of_nat n + 1 \/ r = -1 /\ l' = [] /\ 0 <= k <= Z.of_nat n -> Q r s') ->
  wp (loop fuel (mappages_step root last perm) (a, pa)) Q s.
Proof.
  intros Hperm Hlast. induction n as [|n IH]; intros fuel a pa l s Q Hfuel Hinv Ha Haa Hl Hpa Hpb Hun HQ;
    (destruct fuel as [|fuel]; [lia|]); cbn [loop]; wp_step.
  all: (apply (wp_mappages_step root last perm a pa l s);
        [done|done|unfold PGSIZE in *; lia|unfold PGSIZE in *; lia| | |]).
  1,4: rewrite <- (Hun 0) by lia; f_equal; f_equal; lia.
  1,3: intros s' [Hf Hp]; wp_steps; apply (HQ (-1) 0 [] s'); [done| |right; split_and!; done || lia];
       intros va _; rewrite map_range_0; apply Hp.
  all: intros l1 s1 Hf Hp.
  - destruct (Z.eqb_spec a last); [|lia]. wp_step. apply (HQ 0 (0 + 1) l1 s1); [done| |left; lia].
    intros va Hva. rewrite map_range_succ, map_range_0 by done. by apply Hp.
  - destruct (Z.eqb_spec a last); [unfold PGSIZE in *; lia|].
    unfold u64. rewrite !Z.mod_small by (pose proof MAXVA_eq; unfold PGSIZE in *; lia).
    apply (IH fuel (a + PGSIZE) (pa + PGSIZE) l1 s1);
      [lia|by destruct Hf|unfold PGSIZE; lia| |lia|unfold PGSIZE; lia|unfold PGSIZE in *; lia| |].
    + rewrite <- Zplus_mod_idemp_l, Haa. done.
    + intros i Hi. replace (a + PGSIZE + i * PGSIZE) with (a + (i + 1) * PGSIZE) by lia.
      rewrite Hp by (unfold PGSIZE in *; lia). unfold map_page. rewrite page_add by done.
      destruct (Z.eqb_spec (a / PGSIZE + (i + 1)) (a / PGSIZE)); [lia|]. apply Hun. lia.
    + intros r k l' s' Hf3 Hp3 Hr. apply (HQ r (k + 1) l' s').
      * by eapply vm_frame_trans.
      * intros va Hva. rewrite Hp3, map_range_succ by (done || lia). unfold map_range, map_page.
        destruct (_ && _); [done|]. by apply Hp.
      * destruct Hr as [[-> ->]|(-> & -> & ?)]; [left|right]; split_and!; done || lia.
Qed.

(** The range of pages mappages() goes through. *)
Definition npages_of (va size : Z) : Z := (va + size - 1) / PGSIZE - va / PGSIZE + 1.

Lemma wp_mappages root va size pa perm l s (Q : Z -> mm -> Prop) :
  vm_inv root l s -> 0 <= perm < 1024 -> 0 <= va -> 0 < size -> va + size <= MAXVA ->
  0 <= pa -> pa + size + PGSIZE < 2 ^ 56 ->
  (forall x, va / PGSIZE <= x / PGSIZE <= (va + size - 1) / PGSIZE ->
     valid (pte_of (m_mem s) root x) = false) ->
  (forall r k l' s', vm_frame root l s l' s' ->
     ptes_are s' root (map_range (pte_of (m_mem s) root) va k pa perm) ->
     r = 0 /\ k = npages_of va size \/ r = -1 /\ l' = [] /\ 0 <= k < npages_of va size -> Q r s') ->
  wp (mappages root va size pa perm) Q s.
Proof.
  intros Hinv Hperm Hva Hsz Hmax Hpa Hpb Hun HQ. unfold mappages.
  destruct (Z.eqb_spec size 0); [lia|]. unfold u64. rewrite Z.mod_small by (pose proof MAXVA_eq; lia).
  rewrite !PGROUNDDOWN_div by (pose proof MAXVA_eq; lia).
  set (x := va / PGSIZE) in *. set (y := (va + size - 1) / PGSIZE) in *.
  assert (Hxy : x <= y) by (apply Z.div_le_mono; [done|lia]).
  assert (Hx : 0 <= x) by (apply Z.div_pos; [lia|done]).
  assert (Hb : y * PGSIZE <= va + size - 1 < y * PGSIZE + PGSIZE /\ x * PGSIZE <= va < x * PGSIZE + PGSIZE)
    by (unfold x, y, PGSIZE; Z.div_mod_to_equations; lia).
  destruct (Z.ltb_spec (y * PGSIZE) (x * PGSIZE)); [unfold PGSIZE in *; lia|].
  rewrite <- Z.mul_sub_distr_r, Z.div_mul by done.
  apply (wp_mappages_loop root perm (y * PGSIZE) Hperm ltac:(lia) (Z.to_nat (y - x)) _ _ _ l);
    [lia|done|unfold PGSIZE; lia|by apply Z.mod_mul|unfold PGSIZE; lia|done|unfold PGSIZE in *; lia| |].
  - intros i Hi. apply Hun. rewrite page_add, Z.div_mul by (done || by apply Z.mod_mul). lia.
  - intros r k l' s' Hf Hp Hr. apply (HQ r k l' s' Hf).
    + intros v Hv. rewrite Hp by done. unfold map_range. by rewrite Z.div_mul.
    + unfold npages_of. fold x y. destruct Hr as [[-> ->]|(-> & -> & ?)]; [left|right]; split_and!; done || lia.
Qed.

(** C5. mappages() on a range of unmapped pages: when it returns 0, exactly the
    pages that the byte range touches are mapped, the i-th to the i-th page from
    [pa] with the given permissions and PTE_V, and every other translation is as
    before; it returns -1 only when the allocator is out of pages, with a prefix
    of the range mapped.  Either way the page table and the free list stay well
    formed and only table pages (old, or taken from the free list) are
    written. *)
Theorem mappages_maps root va size pa perm l s :
  vm_inv root l s -> 0 <= perm < 1024 -> 0 <= va -> 0 < size -> va + size <= MAXVA ->
  0 <= pa -> pa + size + PGSIZE < 2 ^ 56 ->
  (forall x, va / PGSIZE <= x / PGSIZE <= (va + size - 1) / PGSIZE ->
     valid (pte_of (m_mem s) root x) = false) ->
  wp (mappages root va size pa perm) (fun r s' => exists k l',
    vm_inv root l' s' /\ ctl_equiv (m_ctl s) (m_ctl s') /\ (exists used, l = used ++ l') /\
    (forall x, 0 <= x < MAXVA ->
       pte_of (m_mem s') root x = map_range (pte_of (m_mem s) root) va k pa perm x) /\
    (forall b, untouched (m_mem s) root l b -> load8 (m_mem s') b = load8 (m_mem s) b) /\
    (r = 0 /\ k = npages_of va size \/ r = -1 /\ l' = [] /\ 0 <= k < npages_of va size)) s.
Proof.
  intros Hinv Hperm Hva Hsz Hmax Hpa Hpb Hun. apply (wp_mappages root va size pa perm l s); try done.
  intros r k l' s' [Hi Hc Hfree _ Hfr] Hp Hr. exists k, l'.
  split; [exact Hi|]. split; [exact Hc|]. split; [exact Hfree|]. split; [exact Hp|].
  split; [|exact Hr]. intros b Hb. by apply Hfr.
Qed.

End pagetable.
