(* ===== verification/UserMem.v ===== *)
(** * Copying to and from user space (kernel/vm.c)

    copyin(), copyout() and copyinstr() go page by page: they translate the
    page of the user address, copy as much of that page as is wanted and go on
    with the next.  Here they are shown equal to the byte-by-byte reference
    definitions [read_user], [write_user] and [read_ustr], on every input: the
    failures, the bytes already copied when a later page is missing, and the
    wrap-around of addresses included. *)

From S2P Require Import Prelude Riscv Kstate CString Spinlock Kalloc Vm PageTable.

(** The kernel with another physical memory. *)
Definition kset_mem (m : memory) (s : kstate) : kstate := set_k_mm (set_m_mem m (k_mm s)) s.

(** ** User pages *)

Definition user_pte (v : Z) : bool := valid v && truthy (Z.land v PTE_U).

(** The physical page of a user address, 0 when user code may not access it. *)
Definition upage (m : memory) (root va : Z) : Z :=
  if va <? MAXVA then
    let v := pte_of m root va in if user_pte v then PTE2PA v else 0
  else 0.
Definition uaddr (m : memory) (root va : Z) : Z := upage m root va + va mod PGSIZE.

(** ** Byte-by-byte references *)

(** 0 and the bytes, or -1 and the bytes read before the failure. *)
Fixpoint read_user (m : memory) (root va : Z) (n : nat) : Z * list Z :=
  match n with
  | O => (0, [])
  | S n' => if upage m root va =? 0 then (-1, [])
            else let '(r, bs) := read_user m root (va + 1) n' in (r, load8 m (uaddr m root va) :: bs)
  end.

(** 0 and the memory, or -1 and the memory at the failure. *)
Fixpoint write_user (m : memory) (root va : Z) (bs : list Z) : Z * memory :=
  match bs with
  | [] => (0, m)
  | b :: bs' => if upage m root va =? 0 then (-1, m)
                else write_user (store8 m (uaddr m root va) b) root (va + 1) bs'
  end.

(** 0 and a string with its NUL, or -1 and the bytes read so far. *)
Fixpoint read_ustr (m : memory) (root va : Z) (n : nat) : Z * list Z :=
  match n with
  | O => (-1, [])
  | S n' => if upage m root va =? 0 then (-1, [])
            else let b := load8 m (uaddr m root va) in
                 if b =? 0 then (0, [0])
                 else let '(r, bs) := read_ustr m root (va + 1) n' in (r, b :: bs)
  end.

(** ** Pages and addresses *)

Lemma page_lt_MAXVA va va' : va / PGSIZE = va' / PGSIZE -> (va <? MAXVA) = (va' <? MAXVA).
Proof.
  intros H. pose proof MAXVA_eq as HM. unfold PGSIZE in *.
  destruct (Z.ltb_spec va MAXVA), (Z.ltb_spec va' MAXVA); try done;
    rewrite HM in *; Z.div_mod_to_equations; lia.
Qed.

Lemma upage_same m root va va' :
  0 <= va -> 0 <= va' -> va / PGSIZE = va' / PGSIZE -> upage m root va = upage m root va'.
Proof.
  intros H0 H0' H. unfold upage. rewrite (page_lt_MAXVA va va') by done.
  by rewrite <- (pte_of_page m root va), <- (pte_of_page m root va'), H by done.
Qed.

Lemma upage_MAXVA m root va : upage m root va <> 0 -> va < MAXVA.
Proof. unfold upage. by destruct (Z.ltb_spec va MAXVA). Qed.

(** [k] bytes further, in the same page. *)
Lemma page_step va k : 0 <= k -> va mod PGSIZE + k < PGSIZE ->
  (va + k) / PGSIZE = va / PGSIZE /\ (va + k) mod PGSIZE = va mod PGSIZE + k.
Proof. intros H1 H2. unfold PGSIZE in *. Z.div_mod_to_equations. lia. Qed.

Lemma uaddr_step m root va k : 0 <= va -> 0 <= k -> va mod PGSIZE + k < PGSIZE ->
  uaddr m root (va + k) = uaddr m root va + k /\ upage m root (va + k) = upage m root va.
Proof.
  intros H0 Hk Hp. destruct (page_step va k Hk Hp) as [Hd Hm]. unfold uaddr.
  rewrite Hm, (upage_same m root (va + k) va) by (done || lia). lia.
Qed.

Lemma bytes_at_cons m a n : bytes_at m a (S n) = load8 m a :: bytes_at m (a + 1) n.
Proof.
  unfold bytes_at. simpl. rewrite Z.add_0_r. f_equal. rewrite <- seq_shift, map_map.
  apply map_ext. intros i. f_equal. lia.
Qed.

(** A run inside one page is read at once. *)
Lemma read_user_run m root n k : forall va,
  0 <= va -> upage m root va <> 0 -> va mod PGSIZE + Z.of_nat n <= PGSIZE ->
  read_user m root va (n + k) =
  let '(r, bs) := read_user m root (va + Z.of_nat n) k in (r, bytes_at m (uaddr m root va) n ++ bs).
Proof.
  induction n as [|n IH]; intros va H0 Hu Hp.
  - simpl. rewrite Z.add_0_r. by destruct (read_user m root va k).
  - cbn [read_user Nat.add]. destruct (Z.eqb_spec (upage m root va) 0); [done|].
    rewrite bytes_at_cons. destruct n as [|n].
    + change (Z.of_nat 1) with 1. cbn [Nat.add]. by destruct (read_user m root (va + 1) k).
    + destruct (uaddr_step m root va 1 H0) as [Ha Hq]; [lia|lia|].
      destruct (page_step va 1) as [_ Hm]; [lia|lia|].
      rewrite IH; [|lia|by rewrite Hq|lia]. rewrite Ha.
      replace (va + 1 + Z.of_nat (S n)) with (va + Z.of_nat (S (S n))) by lia.
      by destruct (read_user m root _ k).
Qed.

Lemma read_ustr_run m root n k : forall va,
  0 <= va -> upage m root va <> 0 -> va mod PGSIZE + Z.of_nat n <= PGSIZE ->
  read_ustr m root va (n + k) =
  let '(bs, nul) := copystr_page m (uaddr m root va) n in
  if nul then (0, bs)
  else let '(r, cs) := read_ustr m root (va + Z.of_nat n) k in (r, bs ++ cs).
Proof.
  induction n as [|n IH]; intros va H0 Hu Hp.
  - simpl. rewrite Z.add_0_r. by destruct (read_ustr m root va k).
  - cbn [read_ustr Nat.add copystr_page]. destruct (Z.eqb_spec (upage m root va) 0); [done|].
    destruct (Z.eqb_spec (load8 m (uaddr m root va)) 0) as [Hz|Hz]; [done|].
    destruct n as [|n].
    + change (Z.of_nat 1) with 1. cbn [Nat.add copystr_page]. by destruct (read_ustr m root (va + 1) k).
    + destruct (uaddr_step m root va 1 H0) as [Ha Hq]; [lia|lia|].
      destruct (page_step va 1) as [_ Hm]; [lia|lia|].
      rewrite IH; [|lia|by rewrite Hq|lia]. rewrite Ha.
      replace (va + 1 + Z.of_nat (S n)) with (va + Z.of_nat (S (S n))) by lia.
      destruct (copystr_page m (uaddr m root va + 1) (S n)) as [bs []]; [done|].
      by destruct (read_ustr m root _ k).
Qed.

Section usermem.
Context {E : Env} {L : LinkerOk}.

(** walkaddr() translates. *)
Lemma walkaddr_read root l s va :
  vm_inv root l s -> walkaddr root va s = Ret (upage (m_mem s) root va) s.
Proof.
  intros Hi. unfold walkaddr, upage. destruct (Z.leb_spec MAXVA va), (Z.ltb_spec va MAXVA); try lia; [done|].
  unfold bind at 1. rewrite walk_read by done. unfold pte_of, user_pte, valid, truthy.
  destruct (leaf_tab (m_mem s) root va) as [t|] eqn:Ht; [|done].
  rewrite (leaf_tab_pos root l s va t) by done. unfold bind, ld64, gets, entry, ret.
  destruct (Z.land (load64 (m_mem s) (pte_addr t (PX 0 va))) PTE_V =? 0); [done|]. simpl.
  by destruct (Z.land (load64 (m_mem s) (pte_addr t (PX 0 va))) PTE_U =? 0).
Qed.

(** The chunk the loops copy: up to the end of the page or of the data. *)
Lemma chunk_arith va len : 0 <= va < 2 ^ 64 -> 0 < len ->
  let n := Z.min (PGSIZE - (va - PGROUNDDOWN va)) len in
  va - PGROUNDDOWN va = va mod PGSIZE /\ 0 < n <= len /\ 0 <= va mod PGSIZE /\ va mod PGSIZE + n <= PGSIZE /\
  (n < len -> PGROUNDDOWN va + PGSIZE = va + n) /\
  PGROUNDDOWN va / PGSIZE = va / PGSIZE /\ 0 <= PGROUNDDOWN va.
Proof.
  intros Hva Hlen n. unfold n. clear n. rewrite PGROUNDDOWN_div by done. unfold PGSIZE.
  Z.div_mod_to_equations. lia.
Qed.

Lemma u64_page m root va : 0 <= va < 2 ^ 64 -> upage m root va <> 0 ->
  u64 (PGROUNDDOWN va + PGSIZE) = PGROUNDDOWN va + PGSIZE.
Proof.
  intros Hva Hu. apply upage_MAXVA in Hu. pose proof MAXVA_eq as HM. apply Z.mod_small.
  rewrite PGROUNDDOWN_div by done. unfold PGSIZE. Z.div_mod_to_equations. lia.
Qed.

Lemma copyin_loop root l s : vm_inv root l s ->
  forall fuel len va dst, 0 <= len < Z.of_nat fuel -> 0 <= va < 2 ^ 64 ->
  loop fuel (copyin_step root) (dst, va, len) s =
  Ret (let '(r, bs) := read_user (m_mem s) root va (Z.to_nat len) in (r, dst ++ bs)) s.
Proof.
  intros Hi. induction fuel as [|fuel IH]; intros len va dst Hf Hva; [lia|].
  cbn [loop]. unfold bind at 1. unfold copyin_step at 1.
  destruct (Z.ltb_spec 0 len) as [Hlen|Hlen].
  2: { replace len with 0 by lia. unfold ret. simpl. by rewrite app_nil_r. }
  destruct (chunk_arith va len Hva Hlen) as (Ho & Hn & Hm0 & Hp & Hnext & Hpg & Hd0).
  set (n := Z.min _ len) in *. unfold bind at 1. rewrite (walkaddr_read root l) by done.
  rewrite (upage_same _ root (PGROUNDDOWN va) va) by (done || lia).
  destruct (Z.eqb_spec (upage (m_mem s) root va) 0) as [Hu|Hu].
  - unfold ret. replace (Z.to_nat len) with (S (Z.to_nat (len - 1))) by lia. cbn [read_user].
    rewrite Hu. simpl. by rewrite app_nil_r.
  - unfold bind, gets, ret. rewrite Ho. fold (uaddr (m_mem s) root va).
    replace (Z.to_nat len) with (Z.to_nat n + Z.to_nat (len - n))%nat by lia.
    rewrite read_user_run by (done || lia). rewrite Z2Nat.id by lia.
    rewrite (u64_page (m_mem s) root va) by done.
    destruct (Z.eq_dec n len) as [He|He].
    + replace (len - n) with 0 by lia. destruct fuel as [|fuel]; [lia|]. simpl.
      by rewrite app_nil_r.
    + rewrite IH by (pose proof (upage_MAXVA _ _ _ Hu); pose proof MAXVA_eq; unfold PGSIZE in *; lia).
      rewrite Hnext by lia. destruct (read_user _ root (va + n) _). by rewrite app_assoc.
Qed.

Lemma copyinstr_loop root l s : vm_inv root l s ->
  forall fuel len va dst, 0 <= len < Z.of_nat fuel -> 0 <= va < 2 ^ 64 ->
  loop fuel (copyinstr_step root) (dst, va, len) s =
  Ret (let '(r, bs) := read_ustr (m_mem s) root va (Z.to_nat len) in (r, dst ++ bs)) s.
Proof.
  intros Hi. induction fuel as [|fuel IH]; intros len va dst Hf Hva; [lia|].
  cbn [loop]. unfold bind at 1. unfold copyinstr_step at 1.
  destruct (Z.ltb_spec 0 len) as [Hlen|Hlen].
  2: { replace len with 0 by lia. unfold ret. simpl. by rewrite app_nil_r. }
  destruct (chunk_arith va len Hva Hlen) as (Ho & Hn & Hm0 & Hp & Hnext & Hpg & Hd0).
  set (n := Z.min _ len) in *. unfold bind at 1. rewrite (walkaddr_read root l) by done.
  rewrite (upage_same _ root (PGROUNDDOWN va) va) by (done || lia).
  destruct (Z.eqb_spec (upage (m_mem s) root va) 0) as [Hu|Hu].
  - unfold ret. replace (Z.to_nat len) with (S (Z.to_nat (len - 1))) by lia. cbn [read_ustr].
    rewrite Hu. simpl. by rewrite app_nil_r.
  - unfold bind, gets, ret. rewrite Ho. fold (uaddr (m_mem s) root va).
    replace (Z.to_nat len) with (Z.to_nat n + Z.to_nat (len - n))%nat by lia.
    rewrite read_ustr_run by (done || lia). rewrite Z2Nat.id by lia.
    destruct (copystr_page _ _ _) as [bs [|]]; [done|].
    rewrite (u64_page (m_mem s) root va) by done.
    destruct (Z.eq_dec n len) as [He|He].
    + replace (len - n) with 0 by lia. destruct fuel as [|fuel]; [lia|]. simpl.
      by rewrite app_nil_r.
    + rewrite IH by (pose proof (upage_MAXVA _ _ _ Hu); pose proof MAXVA_eq; unfold PGSIZE in *; lia).
      rewrite Hnext by lia. destruct (read_ustr _ root (va + n) _). by rewrite app_assoc.
Qed.

(** ** Writing user memory *)

(** User pages are pages of the allocator, in use, no tables, and different
    user pages have different addresses. *)
Record user_ok (m : memory) (root : Z) (l : list Z) : Prop := {
  uo_pt : pt_ok m root l;
  uo_page : forall va, 0 <= va -> upage m root va <> 0 -> page_ok (upage m root va) /\ ~ In (upage m root va) l;
  uo_sep : forall va q, 0 <= va -> upage m root va <> 0 -> path_ok q ->
             tab_at m root q <> Some (upage m root va);
  uo_inj : forall va va', 0 <= va -> 0 <= va' -> upage m root va <> 0 ->
             upage m root va = upage m root va' -> va / PGSIZE = va' / PGSIZE
}.

(** A user address space in a machine that can run. *)
Definition uvm_inv (root : Z) (l : list Z) (s : mm) : Prop :=
  vm_inv root l s /\ user_ok (m_mem s) root l.

Lemma vm_inv_ctl root l s c : uvm_inv root l s -> mm_ready c -> uvm_inv root l (set_m_ctl c s).
Proof. intros [[H1 H2 H3] H4] Hc. done. Qed.

(** A table tree depends on its own entries only. *)
Lemma tab_at_ext m m' root :
  (forall q t j, path_ok q -> tab_at m root q = Some t -> idx_ok j -> entry m' t j = entry m t j) ->
  forall q, path_ok q -> tab_at m' root q = tab_at m root q.
Proof.
  intros He. assert (Hg : forall q c u, path_ok (c ++ q) -> tab_at m root c = Some u ->
    tab_at m' u q = tab_at m u q); [|intros q Hq; by apply (Hg q [])].
  induction q as [|j q IH]; intros c u Hc Hu; [done|]. simpl.
  assert (Hj : idx_ok j).
  { destruct Hc as [_ Hc]. apply Forall_app in Hc as [_ Hc]. by apply Forall_cons in Hc as [? _]. }
  rewrite (He c u j) by (done || by eapply path_ok_app).
  destruct (valid (entry m u j)) eqn:Hv; [|done]. apply (IH (c ++ [j])); [by rewrite <- app_assoc|].
  rewrite tab_at_app, Hu. simpl. by rewrite Hv.
Qed.

Lemma pte_of_ext m m' root va :
  (forall q t j, path_ok q -> tab_at m root q = Some t -> idx_ok j -> entry m' t j = entry m t j) ->
  pte_of m' root va = pte_of m root va.
Proof.
  intros He. unfold pte_of, leaf_tab. pose proof (path_va_ok va) as Hp.
  rewrite (tab_at_ext m m' root He) by done. destruct (tab_at m root _) as [t|] eqn:Ht; [|done].
  apply (He _ t _ Hp Ht). apply PX_range. lia.
Qed.

(** A store in a user page keeps everything but the byte. *)
Section ustore.
Context (m m' : memory) (root va : Z) (l : list Z).
Context (Hok : user_ok m root l) (Hva : 0 <= va) (Hu : upage m root va <> 0).
Context (Hso : same_outside (upage m root va) m m').

Lemma ustore_entry q t j : path_ok q -> tab_at m root q = Some t -> idx_ok j -> entry m' t j = entry m t j.
Proof.
  intros Hq Ht Hj. destruct (pte_addr_in t j Hj) as [H1 H2].
  destruct (uo_page _ _ _ Hok va Hva Hu) as [Hup _].
  destruct (pt_pages _ _ _ (uo_pt _ _ _ Hok) q t Hq Ht) as [Htp _].
  unfold entry. eapply same_outside_load64; [exact Hso|].
  destruct (page_disjoint t (upage m root va) Htp Hup); [|lia..].
  intros ->. by apply (uo_sep _ _ _ Hok va q).
Qed.

Lemma ustore_tab q : path_ok q -> tab_at m' root q = tab_at m root q.
Proof. apply tab_at_ext. apply ustore_entry. Qed.

Lemma ustore_upage va' : upage m' root va' = upage m root va'.
Proof. unfold upage. by rewrite (pte_of_ext m m' root va' ustore_entry). Qed.

Lemma ustore_ok : user_ok m' root l.
Proof.
  destruct Hok as [[Hp Hj Hr Hw] Hpg Hsep Hinj]. split.
  - split; [intros q t Hq; rewrite ustore_tab by done; by apply Hp| | |].
    + intros p q t Hpk Hqk. rewrite !ustore_tab by done. by apply Hj.
    + intros p i t Hpi. assert (Hpk : path_ok p) by (by eapply path_ok_app). rewrite ustore_tab by done. intros Ht.
      rewrite (ustore_entry p) by (done || by apply path_ok_last in Hpi). by apply Hr with p.
    + intros i Hi. rewrite (ustore_entry []) by (done || (by split; [simpl; lia|]) || (unfold idx_ok; lia)). by apply Hw.
  - intros x. rewrite ustore_upage. apply Hpg.
  - intros x q Hx H0 Hq. rewrite ustore_upage in *. rewrite ustore_tab by done. by apply Hsep.
  - intros x y. rewrite !ustore_upage. apply Hinj.
Qed.

Lemma ustore_inv s : m = m_mem s -> vm_inv root l s -> mem_ok m' -> uvm_inv root l (set_m_mem m' s).
Proof.
  intros Hms [Hrd Hk Hpt] Hm'. rewrite <- Hms in Hk. destruct (uo_page _ _ _ Hok va Hva Hu) as [Hup Hul].
  split; [split; simpl|apply ustore_ok]; [done| |apply ustore_ok].
  eapply kmem_ok_outside; [exact Hso|exact Hm'|exact Hup|exact Hul|exact Hk].
Qed.
End ustore.

Lemma uaddr_in m root va : upage m root va <= uaddr m root va < upage m root va + PGSIZE.
Proof. unfold uaddr. pose proof (Z.mod_pos_bound va PGSIZE ltac:(done)). lia. Qed.

Lemma ustore8_outside m root va b : same_outside (upage m root va) m (store8 m (uaddr m root va) b).
Proof.
  intros x Hx. pose proof (uaddr_in m root va). apply load8_store8_ne. intros <-. lia.
Qed.

(** A run inside one page is written at once. *)
Lemma write_user_run root l xs ys : forall m va,
  user_ok m root l -> 0 <= va -> upage m root va <> 0 -> va mod PGSIZE + Z.of_nat (length xs) <= PGSIZE ->
  write_user m root va (xs ++ ys) =
  write_user (write_bytes m (uaddr m root va) xs) root (va + Z.of_nat (length xs)) ys.
Proof.
  induction xs as [|x xs IH]; intros m va Hok H0 Hu Hp.
  - simpl. by rewrite Z.add_0_r.
  - cbn [app write_user write_bytes length]. destruct (Z.eqb_spec (upage m root va) 0); [done|].
    pose proof (ustore8_outside m root va x) as Hso.
    destruct xs as [|y xs]; [done|]. cbn [length] in *.
    destruct (page_step va 1) as [_ Hm]; [lia|lia|].
    destruct (uaddr_step m root va 1 H0) as [Ha Hq]; [lia|lia|].
    rewrite IH; [|by eapply ustore_ok|lia| |rewrite Hm; cbn [length]; lia].
    + unfold uaddr at 2. rewrite (ustore_upage m _ root va l) by done. fold (uaddr m root (va + 1)).
      rewrite Ha. f_equal. cbn [length]. lia.
    + rewrite (ustore_upage m _ root va l) by done. by rewrite Hq.
Qed.

Lemma copyout_loop root l : forall fuel src va s,
  uvm_inv root l s -> (length src < fuel)%nat -> 0 <= va < 2 ^ 64 ->
  loop fuel (copyout_step root) (va, src) s =
  let '(r, m') := write_user (m_mem s) root va src in Ret r (set_m_mem m' s).
Proof.
  induction fuel as [|fuel IH]; intros src va s [Hi Hok] Hf Hva; [lia|].
  cbn [loop]. unfold bind at 1. unfold copyout_step at 1.
  destruct (Z.ltb_spec 0 (Z.of_nat (length src))) as [Hlen|Hlen].
  2: { destruct src; [|simpl in Hlen; lia]. by destruct s. }
  destruct (chunk_arith va _ Hva Hlen) as (Ho & Hn & Hm0 & Hp & Hnext & Hpg & Hd0).
  set (n := Z.min _ _) in *. unfold bind at 1. rewrite (walkaddr_read root l) by done.
  rewrite (upage_same _ root (PGROUNDDOWN va) va) by (done || lia).
  destruct (Z.eqb_spec (upage (m_mem s) root va) 0) as [Hu|Hu].
  - unfold ret. destruct src; [simpl in Hlen; lia|]. cbn [write_user]. rewrite Hu. by destruct s.
  - unfold bind, mem_mm, modify, ret. rewrite Ho. fold (uaddr (m_mem s) root va).
    rewrite (u64_page (m_mem s) root va) by done.
    set (xs := take (Z.to_nat n) src). set (ys := drop (Z.to_nat n) src).
    assert (Hxs : Z.of_nat (length xs) = n) by (unfold xs; rewrite length_take; lia).
    replace (write_user (m_mem s) root va src) with (write_user (m_mem s) root va (xs ++ ys))
      by (f_equal; apply take_drop).
    rewrite (write_user_run root l) by (done || lia). rewrite Hxs.
    set (m1 := write_bytes _ _ _).
    assert (Hinv1 : uvm_inv root l (set_m_mem m1 s)).
    { apply (ustore_inv (m_mem s) m1 root va l); try done; [lia| |].
      - intros b Hb. apply write_bytes_out. unfold uaddr. lia.
      - apply write_bytes_ok. by destruct Hi as [_ [? _ _ _] _]. }
    destruct (Z.eq_dec n (Z.of_nat (length src))) as [He|He].
    + assert (Hys : ys = []) by (apply nil_length_inv; unfold ys; rewrite length_drop; lia).
      rewrite Hys. destruct fuel as [|fuel]; [lia|]. done.
    + rewrite (IH ys (PGROUNDDOWN va + PGSIZE) (set_m_mem m1 s)); [by rewrite Hnext by lia|done| |].
      * unfold ys. rewrite length_drop. lia.
      * pose proof (upage_MAXVA _ _ _ Hu). pose proof MAXVA_eq. unfold PGSIZE in *. lia.
Qed.

(** ** Reading back *)

Lemma write_user_frame root l bs : forall m va, user_ok m root l -> 0 <= va ->
  let m' := snd (write_user m root va bs) in
  user_ok m' root l /\ (forall x, upage m' root x = upage m root x) /\
  (forall a, (forall i, 0 <= i < Z.of_nat (length bs) -> upage m root (va + i) <> 0 -> a <> uaddr m root (va + i)) ->
     load8 m' a = load8 m a).
Proof.
  induction bs as [|b bs IH]; intros m va Hok Hva; [done|]. cbn [write_user].
  destruct (Z.eqb_spec (upage m root va) 0) as [Hu|Hu]; [done|].
  pose proof (ustore8_outside m root va b) as Hso.
  destruct (IH (store8 m (uaddr m root va) b) (va + 1)) as (H1 & H2 & H3);
    [by eapply ustore_ok|lia|]. pose proof (ustore_upage m _ root va l Hok Hva Hu Hso) as Hup.
  split; [done|]. split; [intros x; rewrite H2; apply Hup|]. intros a Ha. rewrite H3.
  - apply load8_store8_ne. intros <-. apply (Ha 0); [cbn [length]; lia| |]; by rewrite Z.add_0_r.
  - intros i Hi. rewrite Hup. intros Hx. unfold uaddr. rewrite Hup, <- Z.add_assoc.
    apply Ha; [cbn [length]; lia|]. by rewrite Z.add_assoc.
Qed.

Lemma write_read_user root l bs : forall m va, user_ok m root l -> 0 <= va ->
  fst (write_user m root va bs) = 0 ->
  read_user (snd (write_user m root va bs)) root va (length bs) = (0, map u8 bs).
Proof.
  induction bs as [|b bs IH]; intros m va Hok Hva Hr; [done|]. cbn [write_user length read_user map] in *.
  destruct (Z.eqb_spec (upage m root va) 0) as [Hu|Hu]; [done|].
  pose proof (ustore8_outside m root va b) as Hso.
  pose proof (ustore_upage m _ root va l Hok Hva Hu Hso) as Hup.
  pose proof (ustore_ok m _ root va l Hok Hva Hu Hso) as Hok1.
  destruct (write_user_frame root l bs _ (va + 1) Hok1 ltac:(lia)) as (H1 & H2 & H3).
  rewrite IH by (done || lia). rewrite H2, Hup. destruct (Z.eqb_spec (upage m root va) 0); [done|].
  f_equal. f_equal. unfold uaddr at 2. rewrite H2, Hup. fold (uaddr m root va). rewrite H3.
  - apply load8_store8_eq.
  - intros i Hi. unfold uaddr. rewrite !Hup. intros Hx Heq.
    assert (Hpg : va / PGSIZE = (va + 1 + i) / PGSIZE).
    { apply (uo_inj _ _ _ Hok); [done|lia|done|].
      destruct (uo_page _ _ _ Hok va Hva Hu) as [P1 _].
      destruct (uo_page _ _ _ Hok (va + 1 + i) ltac:(lia) Hx) as [P2 _].
      destruct (decide (upage m root va = upage m root (va + 1 + i))) as [|Hd]; [done|].
      pose proof (Z.mod_pos_bound va PGSIZE ltac:(done)). pose proof (Z.mod_pos_bound (va + 1 + i) PGSIZE ltac:(done)).
      destruct (page_disjoint _ _ P1 P2 Hd); lia. }
    rewrite (upage_same m root va (va + 1 + i)) in Heq by (done || lia).
    unfold PGSIZE in *. Z.div_mod_to_equations. lia.
Qed.

Lemma write_user_res root bs : forall m va,
  fst (write_user m root va bs) = 0 \/ fst (write_user m root va bs) = -1.
Proof.
  induction bs as [|b bs IH]; intros m va; [by left|]. cbn [write_user].
  destruct (upage m root va =? 0); [by right|apply IH].
Qed.

Lemma write_user_inv root l bs : forall s va,
  vm_inv root l s -> user_ok (m_mem s) root l -> 0 <= va ->
  uvm_inv root l (set_m_mem (snd (write_user (m_mem s) root va bs)) s).
Proof.
  induction bs as [|b bs IH]; intros s va Hi Hok Hva; cbn [write_user]; [by destruct s|].
  destruct (Z.eqb_spec (upage (m_mem s) root va) 0) as [Hu|Hu]; [by destruct s|].
  destruct (ustore_inv _ _ root va l Hok Hva Hu (ustore8_outside (m_mem s) root va b) s) as [H1 H2];
    [done|done|apply store8_ok; by destruct Hi as [_ [? _ _ _] _]|].
  exact (IH _ (va + 1) H1 H2 ltac:(lia)).
Qed.

(** ** The invariants are decidable *)

Definition idxs : list Z := map Z.of_nat (seq 0 512).

Lemma In_idxs i : In i idxs <-> idx_ok i.
Proof.
  unfold idxs, idx_ok. rewrite in_map_iff. split.
  - intros (n & <- & Hn). apply in_seq in Hn. lia.
  - intros Hi. exists (Z.to_nat i). rewrite in_seq. lia.
Qed.

(** The tables one level below a table, and all the tables of a tree. *)
Definition kids (m : memory) (pt : list Z * Z) : list (list Z * Z) :=
  flat_map (fun i => if valid (entry m pt.2 i) then [(pt.1 ++ [i], PTE2PA (entry m pt.2 i))] else []) idxs.
Definition tabs0 (root : Z) : list (list Z * Z) := [([], root)].
Definition tabs1 (m : memory) (root : Z) : list (list Z * Z) := flat_map (kids m) (tabs0 root).
Definition tabs2 (m : memory) (root : Z) : list (list Z * Z) := flat_map (kids m) (tabs1 m root).
Definition tabs (m : memory) (root : Z) : list (list Z * Z) := tabs0 root ++ tabs1 m root ++ tabs2 m root.

Lemma In_kids m ts p i t : idx_ok i ->
  In (p ++ [i], t) (flat_map (kids m) ts) <->
  exists u, In (p, u) ts /\ valid (entry m u i) = true /\ t = PTE2PA (entry m u i).
Proof.
  intros Hi. rewrite in_flat_map. split.
  - intros ([q u] & Hin & Hk). unfold kids in Hk. apply in_flat_map in Hk as (j & Hj & Hk). simpl in Hk.
    destruct (valid (entry m u j)) eqn:Hv; [|done]. destruct Hk as [Hk|[]].
    injection Hk as Hpq Ht. apply app_inj_tail in Hpq as [-> ->]. by exists u.
  - intros (u & Hin & Hv & ->). exists (p, u). split; [done|]. unfold kids. apply in_flat_map.
    exists i. split; [by apply In_idxs|]. simpl. rewrite Hv. by left.
Qed.

Lemma In_tabs m root q t : path_ok q -> tab_at m root q = Some t -> In (q, t) (tabs m root).
Proof.
  intros [Hlen Hf] Ht. unfold tabs. rewrite !in_app_iff.
  destruct q as [|i [|j [|]]]; simpl in Hlen; [| | |lia].
  - injection Ht as ->. by left; left.
  - apply Forall_cons in Hf as [Hi _]. right; left. apply (In_kids m _ []); [done|]. exists root.
    simpl in Ht. destruct (valid (entry m root i)); [|done]. injection Ht as <-. by split; [left|].
  - apply Forall_cons in Hf as [Hi Hf]. apply Forall_cons in Hf as [Hj _]. right; right.
    apply (In_kids m _ [i]); [done|]. simpl in Ht.
    destruct (valid (entry m root i)) eqn:Hv; [|done]. exists (PTE2PA (entry m root i)).
    destruct (valid (entry m (PTE2PA (entry m root i)) j)); [|done]. injection Ht as <-.
    split; [|done]. apply (In_kids m _ []); [done|]. exists root. by split; [left|].
Qed.

Definition page_okb (p : Z) : bool := (p mod PGSIZE =? 0) && (end_ <=? p) && (p <? PHYSTOP).

Lemma page_okb_ok p : page_okb p = true -> page_ok p.
Proof. unfold page_okb. intros H. bool_prop. split; [done|lia]. Qed.

Lemma NoDup_snd_inj {A} (ts : list (A * Z)) p q t :
  NoDup (map snd ts) -> In (p, t) ts -> In (q, t) ts -> p = q.
Proof.
  induction ts as [|[a u] ts IH]; simpl; intros Hnd Hp Hq; [done|].
  apply NoDup_cons in Hnd as [Hni Hnd]. rewrite list_elem_of_In in Hni.
  assert (Hn : forall x, ~ In (x, u) ts) by (intros x Hx; apply Hni, in_map_iff; by exists (x, u)).
  destruct Hp as [Hp|Hp], Hq as [Hq|Hq].
  - congruence.
  - injection Hp as -> ->. by destruct (Hn q).
  - injection Hq as -> ->. by destruct (Hn p).
  - by apply IH.
Qed.

Definition pages_check (l : list Z) (ts : list (list Z * Z)) : bool :=
  forallb (fun t => page_okb t && negb (existsb (Z.eqb t) l)) (map snd ts) && bool_decide (NoDup (map snd ts)).

Lemma existsb_In t l : existsb (Z.eqb t) l = false -> ~ In t l.
Proof.
  intros H Hin. assert (existsb (Z.eqb t) l = true); [|congruence].
  apply existsb_exists. exists t. by rewrite Z.eqb_refl.
Qed.

Lemma pages_check_ok l ts : pages_check l ts = true ->
  (forall p t, In (p, t) ts -> page_ok t /\ ~ In t l) /\
  (forall p q t, In (p, t) ts -> In (q, t) ts -> p = q).
Proof.
  intros H. apply andb_prop in H as [Hf Hnd]. apply bool_decide_eq_true_1 in Hnd. split.
  - intros p t Hin. rewrite forallb_forall in Hf. specialize (Hf t). apply andb_prop in Hf as [H1 H2].
    + split; [by apply page_okb_ok|]. apply existsb_In. by apply negb_true_iff.
    + apply in_map_iff. by exists (p, t).
  - intros p q t. by apply NoDup_snd_inj.
Qed.

Definition ptrs_check (m : memory) (root : Z) : bool :=
  forallb (fun pt => forallb (fun i => negb (valid (entry m pt.2 i)) || is_ptr (entry m pt.2 i)) idxs) (tabs0 root ++ tabs1 m root).

Lemma ptrs_check_ok m root p i t : ptrs_check m root = true -> path_ok (p ++ [i]) -> tab_at m root p = Some t ->
  valid (entry m t i) = true -> is_ptr (entry m t i) = true.
Proof.
  intros Hc Hp Ht Hv. unfold ptrs_check in Hc. rewrite forallb_forall in Hc.
  assert (Hin : In (p, t) (tabs0 root ++ tabs1 m root)).
  { destruct Hp as [Hlen Hf]. rewrite length_app in Hlen. simpl in Hlen. apply in_app_iff. destruct p as [|j [|k p]]; [| |simpl in Hlen; lia].
    - injection Ht as ->. by left; left.
    - right. apply Forall_cons in Hf as [Hj _]. apply (In_kids m _ []); [done|]. exists root. simpl in Ht.
      destruct (valid (entry m root j)); [|done]. injection Ht as <-. by split; [left|]. }
  specialize (Hc _ Hin). rewrite forallb_forall in Hc. specialize (Hc i). simpl in Hc. rewrite Hv in Hc.
  apply Hc, In_idxs. by eapply path_ok_last.
Qed.

Definition low_check (m : memory) (root : Z) : bool := forallb (fun i => (i <? 256) || negb (valid (entry m root i))) idxs.

Definition pt_check (m : memory) (root : Z) (l : list Z) : bool := pages_check l (tabs m root) && ptrs_check m root && low_check m root.

Lemma pt_check_ok m root l : pt_check m root l = true -> pt_ok m root l.
Proof.
  intros H. apply andb_prop in H as [H Hw]. apply andb_prop in H as [H Hr]. apply pages_check_ok in H as [H1 H2]. split.
  - intros q t Hq Ht. eapply H1. by apply In_tabs.
  - intros p q t Hp Hq Htp Htq. eapply H2; by apply In_tabs.
  - intros p i t Hp Ht. by apply (ptrs_check_ok m root p).
  - intros i Hi. unfold low_check in Hw. rewrite forallb_forall in Hw. specialize (Hw i). rewrite In_idxs in Hw.
    specialize (Hw ltac:(unfold idx_ok; lia)). destruct (Z.ltb_spec i 256); [lia|]. by apply negb_true_iff.
Qed.

(** The user pages of a tree, by their three indices. *)
Definition leaves (m : memory) (root : Z) : list (list Z * Z) :=
  flat_map (fun qt => flat_map (fun i =>
    let v := entry m qt.2 i in
    if user_pte v && negb (PTE2PA v =? 0) then [(qt.1 ++ [i], PTE2PA v)] else []) idxs) (tabs2 m root).

Lemma In_leaves m root va : upage m root va <> 0 ->
  In ([PX 2 va; PX 1 va; PX 0 va], upage m root va) (leaves m root).
Proof.
  intros Hu. assert (Hu' := Hu). unfold upage in Hu'. destruct (va <? MAXVA) eqn:Hmax; [|done].
  destruct (user_pte (pte_of m root va)) eqn:Hv; [|done].
  assert (Heq : upage m root va = PTE2PA (pte_of m root va)) by (unfold upage; by rewrite Hmax, Hv).
  rewrite Heq. unfold pte_of in *. destruct (leaf_tab m root va) as [t|] eqn:Ht; [|done].
  assert (Hin : In ([PX 2 va; PX 1 va], t) (tabs2 m root)).
  { pose proof (In_tabs m root _ t (path_va_ok va) Ht) as Hin. unfold tabs in Hin.
    rewrite !in_app_iff in Hin. destruct Hin as [[|[]]|[Hin|]]; [done| |done].
    unfold tabs1, tabs0 in Hin. simpl in Hin. rewrite app_nil_r in Hin. unfold kids in Hin.
    apply in_flat_map in Hin as (i & _ & Hin). destruct (valid _); [|done]. by destruct Hin as [|[]]. }
  unfold leaves. apply in_flat_map. exists ([PX 2 va; PX 1 va], t). split; [done|]. apply in_flat_map.
  exists (PX 0 va). split; [apply In_idxs, PX_range; lia|]. simpl. rewrite Hv.
  destruct (Z.eqb_spec (PTE2PA (entry m t (PX 0 va))) 0); [done|]. by left.
Qed.

Definition user_check (m : memory) (root : Z) (l : list Z) : bool :=
  pt_check m root l && pages_check (map snd (tabs m root) ++ l) (leaves m root).

Lemma user_check_ok m root l : user_check m root l = true -> user_ok m root l.
Proof.
  intros H. apply andb_prop in H as [Ht Hl]. apply pages_check_ok in Hl as [Hl1 Hl2].
  split; [by apply pt_check_ok|..].
  - intros va Hva Hu. destruct (Hl1 _ _ (In_leaves m root va Hu)) as [? Hni]. split; [done|].
    intros Hin. apply Hni, in_app_iff. by right.
  - intros va q Hva Hu Hq Htab. destruct (Hl1 _ _ (In_leaves m root va Hu)) as [_ Hni].
    apply Hni, in_app_iff. left. apply in_map_iff. exists (q, upage m root va). split; [done|].
    by apply In_tabs.
  - intros va va' Hva Hva' Hu Heq. pose proof (In_leaves m root va Hu) as H1.
    assert (Hu' : upage m root va' <> 0) by (by rewrite <- Heq).
    pose proof (In_leaves m root va' Hu') as H2. rewrite <- Heq in H2.
    specialize (Hl2 _ _ _ H1 H2). injection Hl2 as P2 P1 P0.
    apply upage_MAXVA in Hu, Hu'. by apply PX_inj.
Qed.

(** ** What the kernel's copies do *)

(** C20. copyin() stores exactly the user bytes a byte-by-byte translation
    finds, up to the first that is not mapped for user access, and fails iff
    there is one, for any user address and length; it changes nothing else. *)
Theorem copyin_equiv root l s srcva len :
  vm_inv root l s -> 0 <= srcva < 2 ^ 64 -> 0 <= len ->
  copyin root srcva len s = Ret (read_user (m_mem s) root srcva (Z.to_nat len)) s.
Proof.
  intros Hi Hva Hlen. unfold copyin. rewrite (copyin_loop root l) by (done || lia).
  by destruct (read_user _ _ _ _).
Qed.

(** copyinstr() fetches exactly the string a byte-by-byte translation finds,
    its NUL included, within [max] bytes: it returns 0 iff the NUL is met before
    [max] bytes and before a page that is not mapped for user access. *)
Theorem copyinstr_equiv root l s srcva max :
  vm_inv root l s -> 0 <= srcva < 2 ^ 64 -> 0 <= max ->
  copyinstr root srcva max s = Ret (read_ustr (m_mem s) root srcva (Z.to_nat max)) s.
Proof.
  intros Hi Hva Hlen. unfold copyinstr. rewrite (copyinstr_loop root l) by (done || lia).
  by destruct (read_ustr _ _ _ _).
Qed.

(** C32. copyout() followed by copyin() of the same range: when copyout()
    succeeds, copyin() reads back the bytes; user pages, page tables and the
    free list stay well formed, also when copyout() fails half way. *)
Theorem copyout_copyin root l s dstva src :
  uvm_inv root l s -> 0 <= dstva < 2 ^ 64 -> Forall (fun b => 0 <= b < 2 ^ 8) src ->
  exists r s', copyout root dstva src s = Ret r s' /\ uvm_inv root l s' /\
    (r = 0 \/ r = -1) /\
    (r = 0 -> copyin root dstva (Z.of_nat (length src)) s' = Ret (0, src) s').
Proof.
  intros Huv Hva Hsrc. assert (Hco := copyout_loop root l (S (length src)) src dstva s Huv ltac:(lia) Hva).
  destruct Huv as [Hi Hok]. destruct (write_user_frame root l src (m_mem s) dstva Hok ltac:(lia)) as (H1 & H2 & H3).
  pose proof (write_read_user root l src (m_mem s) dstva Hok ltac:(lia)) as H4.
  pose proof (write_user_inv root l src s dstva Hi Hok ltac:(lia)) as H5.
  fold (copyout root dstva src) in Hco. destruct (write_user (m_mem s) root dstva src) as [r m'] eqn:Hw.
  exists r, (set_m_mem m' s). split; [exact Hco|]. split; [exact H5|]. split.
  - apply (f_equal fst) in Hw. simpl in Hw. rewrite <- Hw. apply write_user_res.
  - intros ->. unfold copyin. rewrite (copyin_loop root l) by (apply H5 || lia). simpl in *. rewrite Nat2Z.id, H4 by done.
    f_equal. f_equal. clear - Hsrc. induction Hsrc as [|b src Hb _ IH]; [done|]. simpl. rewrite IH. f_equal.
    by apply Z.mod_small.
Qed.

End usermem.

(** ** A concrete machine

    Six pages are freed, a page table is created and grown by a page. *)

Definition run {S A} (p : M S A) (s : S) : S := match p s with Ret _ s' => s' | Panic _ s' => s' | Stop s' => s' end.

Definition upages : list Z := [0x80030000; 0x80031000; 0x80032000; 0x80033000; 0x80034000; 0x80035000].
Definition um : mm :=
  run (for_each upages (@kfree env0);; root <- uvmcreate;; @uvmalloc env0 root 0 PGSIZE PTE_W) mm0.
Definition uroot : Z := 0x80035000.
Definition ufree : list Z := [0x80031000; 0x80030000].

Lemma mem_ok_check m :
  forallb (fun '(_, v) => (0 <=? v) && (v <? 256)) (map_to_list m) = true -> mem_ok m.
Proof.
  intros H. apply mem_ok_intro. intros a. unfold load8. destruct (m !! a) as [v|] eqn:Ha; [|done].
  rewrite forallb_forall in H. specialize (H (a, v)). cbn beta iota in H.
  assert (Hin : In (a, v) (map_to_list m)) by (apply list_elem_of_In; by apply elem_of_map_to_list).
  specialize (H Hin). bool_prop. simpl. lia.
Qed.

Lemma um_inv : @uvm_inv env0 uroot ufree um.
Proof.
  split; [split|].
  - split; [split_and!; by vm_compute|by vm_compute].
  - split.
    + apply mem_ok_check. by vm_compute.
    + by vm_compute.
    + apply (bool_decide_unpack _). by vm_compute.
    + repeat constructor; by vm_compute.
  - apply pt_check_ok. by vm_compute.
  - apply user_check_ok. by vm_compute.
Qed.

Lemma copyin_equiv_witness :
  copyin uroot 4090 6 um = Ret (0, [0; 0; 0; 0; 0; 0]) um /\ copyin uroot 4090 7 um = Ret (-1, [0; 0; 0; 0; 0; 0]) um.
Proof.
  split; [rewrite (@copyin_equiv env0 env0_ok uroot ufree um 4090 6 (proj1 um_inv)) by lia|
          rewrite (@copyin_equiv env0 env0_ok uroot ufree um 4090 7 (proj1 um_inv)) by lia];
    refine (f_equal (fun v => Ret v um) _); vm_compute; reflexivity.
Defined.

Lemma copyinstr_equiv_witness : copyinstr uroot 100 20 um = Ret (0, [0]) um.
Proof.
  rewrite (@copyinstr_equiv env0 env0_ok uroot ufree um 100 20 (proj1 um_inv)) by lia.
  refine (f_equal (fun v => Ret v um) _). vm_compute. reflexivity.
Defined.

Lemma copyout_copyin_witness :
  exists r s', copyout uroot 10 [1; 2; 3] um = Ret r s' /\ @uvm_inv env0 uroot ufree s' /\
    (r = 0 \/ r = -1) /\ (r = 0 -> copyin uroot 10 3 s' = Ret (0, [1; 2; 3]) s').
Proof.
  apply (@copyout_copyin env0 env0_ok uroot ufree um 10 [1; 2; 3] um_inv); [lia|].
  repeat constructor; lia.
Defined.

Lemma um_page1 x : 4096 / PGSIZE <= x / PGSIZE <= (4096 + 4096 - 1) / PGSIZE ->
  valid (pte_of (m_mem um) uroot x) = false.
Proof.
  intros Hx. assert (Hp : x / PGSIZE = 1) by (change (4096 / PGSIZE) with 1 in Hx; change ((4096 + 4096 - 1) / PGSIZE) with 1 in Hx; lia).
  rewrite <- pte_of_page by (unfold PGSIZE in *; Z.div_mod_to_equations; lia). rewrite Hp.
  vm_compute. reflexivity.
Qed.

Lemma mappages_maps_witness :
  wp (mappages uroot 4096 4096 0x80010000 PTE_R) (fun r s' => r = 0 \/ r = -1) um.
Proof.
  eapply wp_mono.
  - apply (@mappages_maps env0 env0_ok uroot 4096 4096 0x80010000 PTE_R ufree um (proj1 um_inv));
      [split; reflexivity || discriminate|lia|lia|rewrite MAXVA_eq; lia|lia|unfold PGSIZE; lia|apply um_page1].
  - intros r s' (k & l' & _ & _ & _ & _ & _ & H). destruct H as [[H _]|[H _]]; [by left|by right].
Defined.
