(* ===== verification/AddrSpace.v ===== *)
(** * User address spaces (kernel/vm.c): growing, shrinking, copying and freeing

    A user address space is a finite map from page numbers below [top] to a
    physical page and its flags, on top of a fixed rest of translations (the
    trampoline and the trap frame).  [space] says that a page table in memory
    represents such a map and owns its pages: they are pages of the allocator, none
    is free, none is a table, none is mapped twice.  uvmunmap(), uvmalloc(),
    uvmdealloc(), uvmcopy() and uvmfree() are operations on that map, and every
    page is accounted for: it is free, a table, or a page of the map. *)

From S2P Require Import Prelude Riscv Kstate CString Spinlock Kalloc Vm PageTable UserMem.

(** ** Pages of memory *)

(** Only the pages of [A] changed. *)
Definition only (A : Z -> Prop) (m m' : memory) : Prop :=
  forall b, (forall p, A p -> outside b p) -> load8 m' b = load8 m b.

Definition same_page (m m' : memory) (p : Z) : Prop := forall b, p <= b < p + PGSIZE -> load8 m' b = load8 m b.

Lemma only_refl A m : only A m m.
Proof. by intros b _. Qed.

Lemma only_trans (A : Z -> Prop) m1 m2 m3 : only A m1 m2 -> only A m2 m3 -> only A m1 m3.
Proof. intros H1 H2 b Hb. by rewrite H2, H1. Qed.

Lemma only_mono (A B : Z -> Prop) m m' : (forall p, A p -> B p) -> only A m m' -> only B m m'.
Proof. intros HAB H b Hb. apply H. auto. Qed.

Lemma only_outside p m m' : same_outside p m m' -> only (eq p) m m'.
Proof. intros H b Hb. by apply H, Hb. Qed.

(** ** Maps of pages *)

Abbreviation pagemap := (gmap Z (Z * Z)).

(** A leaf entry; the flags of a user page include V and more. *)
Definition leaf (pa fl : Z) : Z := Z.lor (PA2PTE pa) fl.
Definition flags_ok (fl : Z) : Prop := 0 <= fl < 1024 /\ Z.lor fl PTE_V = fl /\ fl <> PTE_V.

(** The valid entry of an address. *)
Definition view (m : memory) (root va : Z) : option Z :=
  if valid (pte_of m root va) then Some (pte_of m root va) else None.

Definition at_page (pm : pagemap) (rest : Z -> option Z) (i : Z) : option Z :=
  match pm !! i with
  | Some (pa, fl) => Some (leaf pa fl)
  | None => rest i
  end.

Definition user_page (pm : pagemap) (p : Z) : Prop := exists i fl, pm !! i = Some (p, fl).

(** The map without [n] pages from [i] on. *)
Fixpoint cut (i : Z) (n : nat) (pm : pagemap) : pagemap :=
  match n with
  | O => pm
  | S n' => cut (i + 1) n' (delete i pm)
  end.

Lemma cut_lookup n : forall i pm j, cut i n pm !! j = if decide (i <= j < i + Z.of_nat n) then None else pm !! j.
Proof.
  induction n as [|n IH]; intros i pm j; cbn [cut].
  - case_decide; [lia|done].
  - rewrite IH. destruct (decide (j = i)) as [->|Hne].
    + rewrite lookup_delete_eq, (decide_True _ _ (P := i <= i < i + Z.of_nat (S n))) by lia. by case_decide.
    + rewrite lookup_delete_ne by done. repeat case_decide; done || lia.
Qed.

Lemma page_last i : (i * PGSIZE + PGSIZE - 1) / PGSIZE = i.
Proof. replace (i * PGSIZE + PGSIZE - 1) with (PGSIZE - 1 + i * PGSIZE) by lia. by rewrite Z.div_add. Qed.

Section space.
Context {E : Env} {L : LinkerOk}.
Context (top : Z) (rest : Z -> option Z).
Context (Htop : 0 <= top /\ top * PGSIZE <= MAXVA) (Hrest : forall i, 0 <= i < top -> rest i = None).

Record space (root : Z) (l : list Z) (s : mm) (pm : pagemap) : Prop := {
  sp_inv : vm_inv root l s;
  sp_view : forall va, 0 <= va < MAXVA -> view (m_mem s) root va = at_page pm rest (va / PGSIZE);
  sp_keys : forall i pa fl, pm !! i = Some (pa, fl) -> 0 <= i < top /\ flags_ok fl;
  sp_page : forall p, user_page pm p -> page_ok p /\ ~ In p l /\ ~ is_table (m_mem s) root p;
  sp_inj : forall i j p f g, pm !! i = Some (p, f) -> pm !! j = Some (p, g) -> i = j
}.

(** ** Stability *)

Lemma table_page root l s t : vm_inv root l s -> is_table (m_mem s) root t -> page_ok t /\ ~ In t l.
Proof. intros [_ _ Hpt] (q & Hq & Ht). by apply (pt_pages _ _ _ Hpt q). Qed.

Lemma free_page root l s p : vm_inv root l s -> In p l -> page_ok p.
Proof. intros [_ [_ _ _ Hp] _] Hin. rewrite List.Forall_forall in Hp. by apply Hp. Qed.

Lemma only_same_page (A : Z -> Prop) m m' p :
  only A m m' -> page_ok p -> (forall q, A q -> page_ok q /\ q <> p) -> same_page m m' p.
Proof.
  intros Ho Hp HA b Hb. apply Ho. intros q Hq. destruct (HA q Hq) as [Hqo Hne]. unfold outside.
  destruct (page_disjoint q p Hqo Hp Hne); lia.
Qed.

Section stable.
Context (m m' : memory) (root : Z).
Context (Hsame : forall t, is_table m root t -> same_page m m' t).

Lemma stable_entry q t j : path_ok q -> tab_at m root q = Some t -> idx_ok j -> entry m' t j = entry m t j.
Proof.
  intros Hq Ht Hj. destruct (pte_addr_in t j Hj). unfold entry. apply load64_ext. intros b Hb.
  apply (Hsame t); [by exists q|lia].
Qed.

Lemma stable_tables t : is_table m' root t <-> is_table m root t.
Proof. split; intros (q & Hq & Ht); exists q; (split; [done|]); [rewrite <- (tab_at_ext m m' root)|rewrite (tab_at_ext m m' root)]; try done; apply stable_entry. Qed.

Lemma stable_view va : view m' root va = view m root va.
Proof. unfold view. by rewrite (pte_of_ext m m' root va stable_entry). Qed.

Lemma stable_pt_ok l l' : pt_ok m root l -> (forall t, is_table m root t -> ~ In t l') -> pt_ok m' root l'.
Proof.
  intros [Hp Hj Hr Hw] Hl'. pose proof (tab_at_ext m m' root stable_entry) as He. split.
  - intros q t Hq. rewrite He by done. intros Ht. split; [by apply (Hp q)|]. apply Hl'. by exists q.
  - intros p q t Hpk Hqk. rewrite !He by done. by apply Hj.
  - intros p i t Hpi. assert (Hpk : path_ok p) by (by eapply path_ok_app). rewrite He by done. intros Ht.
    rewrite (stable_entry p) by (done || by eapply path_ok_last). by apply Hr with p.
  - intros i Hi. rewrite (stable_entry []) by (done || (by split; [simpl; lia|]) || (unfold idx_ok; lia)). by apply Hw.
Qed.
End stable.

(** A change that leaves the tables alone keeps the address space. *)
Lemma space_stable root l s pm l' s' :
  space root l s pm -> (forall t, is_table (m_mem s) root t -> same_page (m_mem s) (m_mem s') t) ->
  mm_ready (m_ctl s') -> kmem_ok (m_mem s') (m_freelist s') l' ->
  (forall p, is_table (m_mem s) root p \/ user_page pm p -> ~ In p l') -> space root l' s' pm.
Proof.
  intros [Hi Hv Hk Hp Hj] Hs Hrd Hkm Hl'. split; [split|..]; try done.
  - eapply stable_pt_ok; [exact Hs|apply Hi|]. intros t Ht. apply Hl'. by left.
  - intros va Hva. rewrite (stable_view _ _ _ Hs). by apply Hv.
  - intros p Hu. destruct (Hp p Hu) as (H1 & _ & H3). split_and!; [done|apply Hl'; by right|].
    by rewrite (stable_tables _ _ _ Hs).
Qed.

(** A write inside a page that is no table. *)
Lemma same_outside_page p q m m' : same_outside p m m' -> page_ok p -> page_ok q -> q <> p -> same_page m m' q.
Proof.
  intros H Hp Hq Hne. eapply only_same_page; [by apply only_outside|done|]. intros x <-. by split.
Qed.

Lemma tables_same root l s p m' : vm_inv root l s -> same_outside p (m_mem s) m' -> page_ok p -> ~ is_table (m_mem s) root p ->
  forall t, is_table (m_mem s) root t -> same_page (m_mem s) m' t.
Proof.
  intros Hi Hso Hp Hnt t Ht. destruct (table_page root l s t Hi Ht) as [Hto _].
  eapply same_outside_page; [exact Hso|done|done|]. by intros ->.
Qed.

Lemma space_write root l s pm p m' : space root l s pm -> page_ok p -> ~ In p l -> ~ is_table (m_mem s) root p ->
  same_outside p (m_mem s) m' -> mem_ok m' ->
  space root l (set_m_mem m' s) pm /\ forall t, is_table m' root t <-> is_table (m_mem s) root t.
Proof.
  intros Hsp Hp Hl Ht Hso Hm. pose proof (tables_same _ _ _ _ _ (sp_inv _ _ _ _ Hsp) Hso Hp Ht) as Hs. split.
  - eapply space_stable; [exact Hsp|exact Hs|apply Hsp| |].
    + eapply kmem_ok_outside; [exact Hso|exact Hm|exact Hp|exact Hl|apply Hsp].
    + intros q [Hq|Hq]; [by destruct (table_page root l s q (sp_inv _ _ _ _ Hsp) Hq)|].
      by destruct (sp_page _ _ _ _ Hsp q Hq) as (_ & ? & _).
  - intros t. by apply stable_tables.
Qed.

(** ** Allocating and freeing pages beside an address space *)

Lemma wp_kalloc_space root l s pm (Q : Z -> mm -> Prop) : space root l s pm ->
  match l with
  | [] => forall s', space root [] s' pm -> ctl_equiv (m_ctl s) (m_ctl s') -> m_mem s' = m_mem s -> Q 0 s'
  | p :: l' => forall s', space root l' s' pm -> ctl_equiv (m_ctl s) (m_ctl s') ->
      page_ok p -> ~ In p l' -> ~ is_table (m_mem s') root p -> ~ user_page pm p -> same_outside p (m_mem s) (m_mem s') ->
      (forall t, is_table (m_mem s') root t <-> is_table (m_mem s) root t) -> Q p s'
  end -> wp kalloc Q s.
Proof.
  intros Hsp HQ. pose proof (sp_inv _ _ _ _ Hsp) as Hi. destruct Hi as [Hrd Hk Hpt] eqn:Hi'. destruct l as [|p l].
  - pose proof (km_rep _ _ _ Hk) as Hr. simpl in Hr. apply wp_kalloc_nil; [done|done|]. intros c Hc. apply HQ; [|done|done].
    eapply space_stable; [exact Hsp|done|by eapply mm_ready_equiv|done|]. intros q _ [].
  - apply (wp_kalloc_cons s p l); [done|done|]. intros c fl Hc Hk' Hp Hni.
    assert (Hnt : ~ is_table (m_mem s) root p) by (intros Ht; destruct (table_page _ _ _ _ Hi Ht) as [_ []]; by left).
    assert (Hnu : ~ user_page pm p) by (intros Hu; destruct (sp_page _ _ _ _ Hsp p Hu) as (_ & [] & _); by left).
    pose proof (memset_same_outside (m_mem s) p 5) as Hso. pose proof (tables_same _ _ _ _ _ Hi Hso Hp Hnt) as Hs.
    assert (Htab : forall t, is_table (memset (m_mem s) p 5 PGSIZE) root t <-> is_table (m_mem s) root t) by (intros t; by apply stable_tables).
    apply HQ; [|exact Hc|exact Hp|exact Hni|by rewrite Htab|exact Hnu|exact Hso|exact Htab].
    eapply space_stable; [exact Hsp|exact Hs|by eapply mm_ready_equiv|exact Hk'|].
    intros q [Hq|Hq] Hin; [destruct (table_page _ _ _ _ Hi Hq) as [_ []]; by right|].
    destruct (sp_page _ _ _ _ Hsp q Hq) as (_ & [] & _). by right.
Qed.

Lemma wp_kfree_space root l s pm p (Q : unit -> mm -> Prop) : space root l s pm ->
  page_ok p -> ~ In p l -> ~ is_table (m_mem s) root p -> ~ user_page pm p ->
  (forall s', space root (p :: l) s' pm -> ctl_equiv (m_ctl s) (m_ctl s') -> same_outside p (m_mem s) (m_mem s') ->
     (forall t, is_table (m_mem s') root t <-> is_table (m_mem s) root t) -> Q tt s') -> wp (kfree p) Q s.
Proof.
  intros Hsp Hp Hl Hnt Hnu HQ. pose proof (sp_inv _ _ _ _ Hsp) as Hi. destruct Hi as [Hrd Hk Hpt] eqn:Hi'.
  apply (wp_kfree s p l); [done..|]. intros c m' Hc Hso Hk'. pose proof (tables_same _ _ _ _ _ Hi Hso Hp Hnt) as Hs.
  apply HQ; [|exact Hc|exact Hso|intros t; by apply stable_tables].
  eapply space_stable; [exact Hsp|exact Hs|by eapply mm_ready_equiv|exact Hk'|].
  intros q Hq [->|Hin]; [destruct Hq; contradiction|]. destruct Hq as [Hq|Hq].
  - by destruct (table_page _ _ _ _ Hi Hq).
  - by destruct (sp_page _ _ _ _ Hsp q Hq) as (_ & ? & _).
Qed.

(** ** Mapping and unmapping one page *)

(** The pages a change of the tables may write. *)
Definition tables_or (m : memory) (root : Z) (l : list Z) (p : Z) : Prop := is_table m root p \/ In p l.

Lemma frame_only root l s l' s' : vm_frame root l s l' s' -> only (tables_or (m_mem s) root l) (m_mem s) (m_mem s').
Proof.
  intros Hf b Hb. apply (vf_frame _ _ _ _ _ Hf). split; [intros p Hp; apply Hb; by right|].
  intros q t Hq Ht. apply Hb. left. by exists q.
Qed.

Lemma valid_lor_V x : valid (Z.lor x PTE_V) = true.
Proof.
  unfold valid, truthy. rewrite Z.land_lor_distr_l. change (Z.land PTE_V PTE_V) with PTE_V.
  destruct (Z.eqb_spec (Z.lor (Z.land x PTE_V) PTE_V) 0) as [H|]; [|done]. by apply Z.lor_eq_0_iff in H as [_ H].
Qed.

Lemma leaf_valid pa fl : flags_ok fl -> valid (leaf pa fl) = true.
Proof. intros (_ & <- & _). unfold leaf. rewrite Z.lor_assoc. apply valid_lor_V. Qed.

Lemma page_lt_56 p : page_ok p -> 0 <= p < 2 ^ 56.
Proof. intros Hp. destruct (page_ok_pos p Hp). unfold PGSIZE, PHYSTOP, KERNBASE in *. lia. Qed.

(** The flags that uvmalloc() gives its pages. *)
Lemma uflags_ok xperm : 0 <= xperm < 1024 ->
  0 <= Z.lor (Z.lor PTE_R PTE_U) xperm < 1024 /\ flags_ok (Z.lor (Z.lor (Z.lor PTE_R PTE_U) xperm) PTE_V).
Proof.
  intros Hx. assert (Hr : forall a b, 0 <= a < 1024 -> 0 <= b < 1024 -> 0 <= Z.lor a b < 1024).
  { intros a b Ha Hb. assert (Hn : 0 <= Z.lor a b) by (apply Z.lor_nonneg; lia). split; [done|].
    destruct (Z.eq_dec (Z.lor a b) 0) as [->|]; [done|]. change 1024 with (2 ^ 10). apply Z.log2_lt_pow2; [lia|].
    rewrite Z.log2_lor by lia. apply Z.max_lub_lt.
    - destruct (Z.eq_dec a 0) as [->|]; [done|]. apply Z.log2_lt_pow2; lia.
    - destruct (Z.eq_dec b 0) as [->|]; [done|]. apply Z.log2_lt_pow2; lia. }
  assert (H1 : 0 <= Z.lor (Z.lor PTE_R PTE_U) xperm < 1024) by (by apply Hr). split; [done|]. split_and!.
  - by apply Hr.
  - apply Hr; [done|done].
  - by rewrite <- Z.lor_assoc, Z.lor_diag.
  - intros He. apply (f_equal (fun z => Z.testbit z 1)) in He. by rewrite !Z.lor_spec in He.
Qed.

Lemma leaf_pa pa fl : page_ok pa -> flags_ok fl -> PTE2PA (leaf pa fl) = pa.
Proof. intros Hp (Hf & _). apply PTE2PA_pte; [by apply page_lt_56|apply Hp|done]. Qed.

Lemma leaf_flags pa fl : page_ok pa -> flags_ok fl -> PTE_FLAGS (leaf pa fl) = fl.
Proof. intros Hp (Hf & _). apply PTE_FLAGS_pte; [|done]. pose proof (page_lt_56 pa Hp). lia. Qed.

Lemma view_some m root va v : view m root va = Some v -> pte_of m root va = v /\ valid v = true.
Proof. unfold view. destruct (valid (pte_of m root va)) eqn:Hv; [|done]. intros [= <-]. done. Qed.

Lemma view_none m root va : view m root va = None -> valid (pte_of m root va) = false.
Proof. unfold view. by destruct (valid (pte_of m root va)). Qed.

Lemma view_leaf_tab m root va v : view m root va = Some v -> exists t, leaf_tab m root va = Some t /\ entry m t (PX 0 va) = v.
Proof.
  intros H. apply view_some in H as [He Hv]. unfold pte_of in He. destruct (leaf_tab m root va) as [t|]; [by exists t|].
  subst v. by vm_compute in Hv.
Qed.

(** Table pages may have been taken from the free list, nothing was given back. *)
Record grown (root : Z) (l : list Z) (s : mm) (l' : list Z) (s' : mm) : Prop := {
  gr_ctl : ctl_equiv (m_ctl s) (m_ctl s');
  gr_free : exists used, l = used ++ l';
  gr_tabs : forall t, is_table (m_mem s') root t <-> is_table (m_mem s) root t \/ In t l /\ ~ In t l';
  gr_only : only (tables_or (m_mem s) root l) (m_mem s) (m_mem s')
}.

Lemma frame_grown root l s l' s' : vm_frame root l s l' s' -> grown root l s l' s'.
Proof. intros H. split; [apply H..|by eapply frame_only]. Qed.

(** Pages of the address space stay what they are when tables are added. *)
Lemma grown_page root l s l' s' p : grown root l s l' s' -> page_ok p /\ ~ In p l /\ ~ is_table (m_mem s) root p ->
  page_ok p /\ ~ In p l' /\ ~ is_table (m_mem s') root p.
Proof.
  clear Htop Hrest top rest. intros Hg (H1 & H2 & H3). destruct (gr_free _ _ _ _ _ Hg) as [used ->]. split_and!; [done| |].
  - intros H. apply H2, in_app_iff. by right.
  - rewrite (gr_tabs _ _ _ _ _ Hg). tauto.
Qed.

(** mappages() of one page. *)
Lemma wp_mappages_one root l s i pa perm (Q : Z -> mm -> Prop) : vm_inv root l s -> 0 <= i -> (i + 1) * PGSIZE <= MAXVA ->
  0 <= perm < 1024 -> flags_ok (Z.lor perm PTE_V) -> 0 <= pa < 2 ^ 55 ->
  (forall va, 0 <= va < MAXVA -> va / PGSIZE = i -> view (m_mem s) root va = None) ->
  (forall l' s', vm_inv root l' s' -> grown root l s l' s' -> (forall va, 0 <= va < MAXVA -> view (m_mem s') root va =
     if decide (va / PGSIZE = i) then Some (leaf pa (Z.lor perm PTE_V)) else view (m_mem s) root va) -> Q 0 s') ->
  (forall s', vm_inv root [] s' -> grown root l s [] s' -> (forall va, 0 <= va < MAXVA -> view (m_mem s') root va = view (m_mem s) root va) -> Q (-1) s') ->
  wp (mappages root (i * PGSIZE) PGSIZE pa perm) Q s.
Proof.
  clear Htop Hrest top rest. intros Hinv Hi Hmax Hperm Hfl Hpa Hnone Hok Hfail.
  assert (Hn : npages_of (i * PGSIZE) PGSIZE = 1) by (unfold npages_of; rewrite page_last, Z.div_mul by done; lia).
  apply (wp_mappages root (i * PGSIZE) PGSIZE pa perm l s); [done|done|unfold PGSIZE in *; lia|done|lia|lia|unfold PGSIZE in *; lia| |].
  - intros x Hx. rewrite page_last, Z.div_mul in Hx by done. apply view_none, Hnone; [unfold PGSIZE in *; Z.div_mod_to_equations; lia|lia].
  - intros r k l' s' Hf Hp Hrk. pose proof (frame_grown _ _ _ _ _ Hf) as Hg. rewrite Hn in Hrk.
    assert (Hmr : forall va, map_range (pte_of (m_mem s) root) (i * PGSIZE) k pa perm va =
      if decide (va / PGSIZE = i /\ k = 1) then leaf pa (Z.lor perm PTE_V) else pte_of (m_mem s) root va).
    { intros va. unfold map_range, leaf. rewrite Z.div_mul by done. unfold pte_new. rewrite <- Z.lor_assoc.
      case_decide as Hd; [destruct Hd as [-> ->]; rewrite Z.sub_diag; simpl; by rewrite Z.add_0_r|].
      destruct (Z.leb_spec 0 (va / PGSIZE - i)), (Z.ltb_spec (va / PGSIZE - i) k); simpl; try done. lia. }
    destruct Hrk as [[-> ->]|(-> & -> & Hk)].
    + apply (Hok l' s'); [apply Hf|done|]. intros va Hva. unfold view. rewrite !Hp, !Hmr by done. destruct (decide (va / PGSIZE = i)) as [Hd|Hd].
      * rewrite decide_True by done. by rewrite leaf_valid.
      * by rewrite decide_False by tauto.
    + apply Hfail; [apply Hf|done|]. intros va Hva. unfold view. rewrite !Hp, !Hmr by done. by rewrite decide_False by lia.
Qed.

Lemma wp_map_page root l s pm i pa perm (Q : Z -> mm -> Prop) :
  space root l s pm -> 0 <= i < top -> pm !! i = None -> 0 <= perm < 1024 -> flags_ok (Z.lor perm PTE_V) ->
  page_ok pa -> ~ In pa l -> ~ is_table (m_mem s) root pa -> ~ user_page pm pa ->
  (forall l' s', space root l' s' (<[i := (pa, Z.lor perm PTE_V)]> pm) -> grown root l s l' s' -> Q 0 s') ->
  (forall s', space root [] s' pm -> grown root l s [] s' -> Q (-1) s') ->
  wp (mappages root (i * PGSIZE) PGSIZE pa perm) Q s.
Proof.
  intros [Hinv Hview Hkeys Hpage Hinj] Hi Hpm Hperm Hfl Hpa Hpl Hpt Hpu Hok Hfail. destruct (page_ok_pos pa Hpa) as [Hpos Hend].
  apply (wp_mappages_one root l s i pa perm); [done|lia|destruct Htop; unfold PGSIZE in *; lia|done|done|unfold PGSIZE, PHYSTOP, KERNBASE in *; lia| | |].
  - intros va Hva Hd. rewrite Hview by done. unfold at_page. rewrite Hd, Hpm. by apply Hrest.
  - intros l' s' Hinv' Hg Hv. apply (Hok l' s'); [|done]. split; [done|..].
    + intros va Hva. rewrite Hv by done. unfold at_page. case_decide as Hd; [by rewrite Hd, lookup_insert_eq|].
      rewrite lookup_insert_ne by done. by apply Hview.
    + intros j p fl Hj. apply lookup_insert_Some in Hj as [[<- [= <- <-]]|[_ Hj]]; [done|by eapply Hkeys].
    + intros p (j & fl & Hj). apply lookup_insert_Some in Hj as [[<- [= <- <-]]|[_ Hj]]; (eapply grown_page; [exact Hg|]); [done|apply Hpage; by exists j, fl].
    + intros j j' p f g Hj Hj'. apply lookup_insert_Some in Hj, Hj'.
      destruct Hj as [[Ej Ex]|[_ Hj]], Hj' as [[Ej' Ex']|[_ Hj']]; [congruence| | |by eapply Hinj];
        [injection Ex as <- _; destruct Hpu; by exists j', g|injection Ex' as <- _; destruct Hpu; by exists j, f].
  - intros s' Hinv' Hg Hv. apply Hfail; [|done]. split; [done| |done|intros p Hu; eapply grown_page; [done|by apply Hpage]|done].
    intros va Hva. rewrite Hv by done. by apply Hview.
Qed.

(** Clearing a leaf entry. *)
Lemma clear_leaf root l s va0 t : vm_inv root l s -> 0 <= va0 < MAXVA -> leaf_tab (m_mem s) root va0 = Some t ->
  let m' := store64 (m_mem s) (pte_addr t (PX 0 va0)) 0 in
  vm_inv root l (set_m_mem m' s) /\ (forall x, is_table m' root x <-> is_table (m_mem s) root x) /\
  is_table (m_mem s) root t /\ same_outside t (m_mem s) m' /\
  forall va, 0 <= va < MAXVA -> view m' root va = if decide (va / PGSIZE = va0 / PGSIZE) then None else view (m_mem s) root va.
Proof.
  intros Hi Hva0 Ht m'. assert (Hit : is_table (m_mem s) root t) by (eexists; split; [apply path_va_ok|exact Ht]). split_and!.
  - by apply (vf_inv _ _ _ _ _ (leaf_frame root l s va0 t 0 Hi Ht ltac:(lia))).
  - apply (leaf_tables _ _ _ _ _ l); [apply Hi|done].
  - done.
  - intros b Hb. apply load8_store64_out. destruct (pte_addr_in t (PX 0 va0)); [apply PX_range; lia|]. lia.
  - intros va Hva. unfold view, m'. rewrite (leaf_pte_of _ _ _ _ _ l) by (done || lia || apply Hi).
    case_decide as Hd; [by rewrite Hd, Z.eqb_refl|]. by destruct (Z.eqb_spec (va / PGSIZE) (va0 / PGSIZE)).
Qed.

Lemma wp_walk_read root va (Q : Z -> mm -> Prop) s : va < MAXVA ->
  Q (match leaf_tab (m_mem s) root va with Some t => pte_addr t (PX 0 va) | None => 0 end) s -> wp (walk root va false) Q s.
Proof. intros Hva HQ. unfold wp. by rewrite walk_read. Qed.

Lemma page_va root l s pm i pa fl : space root l s pm -> pm !! i = Some (pa, fl) -> 0 <= i * PGSIZE /\ i * PGSIZE + PGSIZE <= MAXVA.
Proof. intros Hsp Hpm. destruct (sp_keys _ _ _ _ Hsp i pa fl Hpm) as [Hi _]. destruct Htop as [H1 H2]. unfold PGSIZE in *. lia. Qed.

Lemma page_view root l s pm i pa fl : space root l s pm -> pm !! i = Some (pa, fl) -> view (m_mem s) root (i * PGSIZE) = Some (leaf pa fl).
Proof.
  intros Hsp Hpm. pose proof (page_va _ _ _ _ _ _ _ Hsp Hpm) as Hva. rewrite (sp_view _ _ _ _ Hsp) by (unfold PGSIZE in *; lia).
  unfold at_page. by rewrite Z.div_mul, Hpm.
Qed.

(** Clearing the entry of a page of the map. *)
Section clear.
Context (root i pa fl t : Z) (l : list Z) (s : mm) (pm : pagemap).
Context (Hsp : space root l s pm) (Hpm : pm !! i = Some (pa, fl)) (Ht : leaf_tab (m_mem s) root (i * PGSIZE) = Some t).
Let a : Z := pte_addr t (PX 0 (i * PGSIZE)).

Lemma clear_tables x : is_table (store64 (m_mem s) a 0) root x <-> is_table (m_mem s) root x.
Proof. apply (leaf_tables _ _ _ _ _ l); [apply Hsp|done]. Qed.

Lemma space_clear : space root l (set_m_mem (store64 (m_mem s) a 0) s) (delete i pm).
Proof.
  pose proof (page_va _ _ _ _ _ _ _ Hsp Hpm) as Hva. destruct (clear_leaf root l s (i * PGSIZE) t (sp_inv _ _ _ _ Hsp)) as (Hi1 & Htab & _ & _ & Hv1);
    [unfold PGSIZE in *; lia|done|]. split; [done|..]; cbn [set_m_mem m_mem].
  - intros va Hr. unfold a. rewrite Hv1, Z.div_mul by done. unfold at_page. case_decide as Hd.
    + rewrite Hd, lookup_delete_eq, Hrest; [done|]. by destruct (sp_keys _ _ _ _ Hsp i pa fl Hpm).
    + rewrite lookup_delete_ne by done. by apply Hsp.
  - intros j p f Hj. apply lookup_delete_Some in Hj as [_ Hj]. by apply Hsp in Hj.
  - intros p (j & f & Hj). apply lookup_delete_Some in Hj as [_ Hj]. rewrite clear_tables. apply Hsp. by exists j, f.
  - intros j j' p f g Hj Hj'. apply lookup_delete_Some in Hj as [_ Hj], Hj' as [_ Hj']. by eapply Hsp.
Qed.

Lemma clear_entry_outside m : same_outside t m (store64 m a 0).
Proof. intros b Hb. apply load8_store64_out. destruct (pte_addr_in t (PX 0 (i * PGSIZE))); [apply PX_range; lia|]. unfold a. lia. Qed.

(** The page is freed first, then its entry is cleared. *)
Lemma space_free_clear c m2 : ctl_equiv (m_ctl s) c -> same_outside pa (m_mem s) m2 -> kmem_ok m2 pa (pa :: l) ->
  let s' := mkmm c (store64 m2 a 0) pa in
  space root (pa :: l) s' (delete i pm) /\ (forall x, is_table (m_mem s') root x <-> is_table (m_mem s) root x) /\
  only (fun p => p = pa \/ is_table (m_mem s) root p) (m_mem s) (m_mem s').
Proof.
  intros Hc Hso Hk2 s'. destruct (sp_page _ _ _ _ Hsp pa) as (Hpa & Hpl & Hpt); [by exists i, fl|]. pose proof space_clear as Hsp1.
  assert (Hit : is_table (m_mem s) root t) by (eexists; split; [apply path_va_ok|exact Ht]).
  destruct (table_page root l s t (sp_inv _ _ _ _ Hsp) Hit) as [Hto Htl]. assert (Hne : t <> pa) by (by intros ->).
  assert (Hso3 : same_outside pa (store64 (m_mem s) a 0) (store64 m2 a 0)) by (intros b Hb; apply load8_store64_congr; by apply Hso).
  pose proof (tables_same _ _ _ _ _ (sp_inv _ _ _ _ Hsp1) Hso3 Hpa ltac:(by rewrite clear_tables)) as Hst. cbn [set_m_mem m_mem] in Hst. split_and!.
  - eapply space_stable; [exact Hsp1|exact Hst|eapply mm_ready_equiv; [exact Hc|apply Hsp]| |].
    + eapply kmem_ok_outside; [apply clear_entry_outside|apply store64_ok, Hk2|done| |done]. intros [|]; [by apply Hne|done].
    + cbn [set_m_mem m_mem]. intros p [Hp|(j & f & Hj)] Hin.
      * rewrite clear_tables in Hp. destruct (table_page _ _ _ _ (sp_inv _ _ _ _ Hsp) Hp) as [_ Hn]. by destruct Hin as [<-|].
      * apply lookup_delete_Some in Hj as [Hij Hj]. destruct (sp_page _ _ _ _ Hsp p) as (_ & Hn & _); [by exists j, f|].
        destruct Hin as [<-|]; [|done]. apply Hij. by eapply Hsp.
  - intros x. cbn [s' m_mem]. rewrite (stable_tables _ _ _ Hst). apply clear_tables.
  - intros b Hb. cbn [s' m_mem]. rewrite clear_entry_outside by (by apply Hb; right). apply Hso, Hb. by left.
Qed.
End clear.

(** A turn of the loop of uvmunmap(), with the page freed. *)
Lemma wp_unmap_step root l s pm last i pa fl (Q : Z + unit -> mm -> Prop) :
  space root l s pm -> pm !! i = Some (pa, fl) -> i * PGSIZE < last ->
  (forall s', space root (pa :: l) s' (delete i pm) -> ctl_equiv (m_ctl s) (m_ctl s') ->
     (forall t, is_table (m_mem s') root t <-> is_table (m_mem s) root t) ->
     only (fun p => p = pa \/ is_table (m_mem s) root p) (m_mem s) (m_mem s') -> Q (inl ((i + 1) * PGSIZE)) s') ->
  wp (uvmunmap_step root last true (i * PGSIZE)) Q s.
Proof.
  intros Hsp Hpm Hlt HQ. destruct (sp_keys _ _ _ _ Hsp i pa fl Hpm) as [Hi Hfl].
  destruct (sp_page _ _ _ _ Hsp pa) as (Hpa & Hpl & Hpt); [by exists i, fl|]. pose proof (page_va _ _ _ _ _ _ _ Hsp Hpm) as Hva.
  destruct (view_leaf_tab _ _ _ _ (page_view _ _ _ _ _ _ _ Hsp Hpm)) as (t & Ht & He). pose proof (sp_inv _ _ _ _ Hsp) as Hinv.
  unfold uvmunmap_step. destruct (Z.ltb_spec (i * PGSIZE) last); [|lia]. wp_step. apply wp_walk_read; [unfold PGSIZE in *; lia|].
  rewrite Ht, (leaf_tab_pos root l s _ t Hinv Ht). unfold ld64. wp_steps. fold (entry (m_mem s) t (PX 0 (i * PGSIZE))). rewrite He.
  pose proof (leaf_valid pa fl Hfl) as Hval. unfold valid, truthy in Hval. apply negb_true_iff in Hval. rewrite Hval.
  rewrite leaf_flags, leaf_pa by done. destruct (Z.eqb_spec fl PTE_V); [by destruct Hfl as (_ & _ & ?)|]. wp_step. cbn [when].
  apply (wp_kfree s pa l); [apply Hinv..|done|done|]. intros c m2 Hc Hso Hk2. unfold st64, mem_mm. wp_steps.
  unfold u64. rewrite Z.mod_small by (pose proof MAXVA_eq; unfold PGSIZE in *; lia). replace (i * PGSIZE + PGSIZE) with ((i + 1) * PGSIZE) by lia.
  destruct (space_free_clear _ _ _ _ _ _ _ _ Hsp Hpm Ht c m2 Hc Hso Hk2) as (H1 & H2 & H3). by apply HQ.
Qed.

(** ** uvmunmap() and uvmdealloc() *)

(** The pages of [n] entries of the map, from [i] on. *)
Definition range_page (pm : pagemap) (i : Z) (n : nat) (p : Z) : Prop :=
  exists j fl, i <= j < i + Z.of_nat n /\ pm !! j = Some (p, fl).

(** Pages went from the map to the free list. *)
Record shrunk (root : Z) (l : list Z) (s : mm) (freed : Z -> Prop) (l' : list Z) (s' : mm) : Prop := {
  sh_ctl : ctl_equiv (m_ctl s) (m_ctl s');
  sh_free : forall p, In p l' <-> In p l \/ freed p;
  sh_tabs : forall t, is_table (m_mem s') root t <-> is_table (m_mem s) root t;
  sh_only : only (fun p => freed p \/ is_table (m_mem s) root p) (m_mem s) (m_mem s')
}.

Lemma range_page_succ pm i n p pa fl : pm !! i = Some (pa, fl) ->
  range_page pm i (S n) p <-> p = pa \/ range_page (delete i pm) (i + 1) n p.
Proof.
  intros Hi. split.
  - intros (j & f & Hj & Hp). destruct (decide (j = i)) as [->|Hne]; [left; congruence|right].
    exists j, f. split; [lia|]. by rewrite lookup_delete_ne.
  - intros [->|(j & f & Hj & Hp)]; [exists i, fl; split; [lia|done]|]. apply lookup_delete_Some in Hp as [_ Hp]. exists j, f. split; [lia|done].
Qed.

Lemma wp_unmap_loop root last n : forall fuel i l s pm (Q : unit -> mm -> Prop), (n < fuel)%nat -> space root l s pm ->
  (forall j, i <= j < i + Z.of_nat n -> is_Some (pm !! j)) -> last = (i + Z.of_nat n) * PGSIZE ->
  (forall l' s', space root l' s' (cut i n pm) -> shrunk root l s (range_page pm i n) l' s' -> Q tt s') ->
  wp (loop fuel (uvmunmap_step root last true) (i * PGSIZE)) Q s.
Proof.
  induction n as [|n IH]; intros fuel i l s pm Q Hfuel Hsp Hin Hlast HQ; (destruct fuel as [|fuel]; [lia|]); cbn [loop]; wp_step.
  - unfold uvmunmap_step. destruct (Z.ltb_spec (i * PGSIZE) last); [lia|]. wp_steps. apply (HQ l s); [done|].
    assert (Hno : forall p, ~ range_page pm i 0 p) by (intros p (j & f & Hj & _); lia).
    split; [done|intros p; specialize (Hno p); tauto|tauto|apply only_refl].
  - destruct (Hin i ltac:(lia)) as [[pa fl] Hpm]. apply (wp_unmap_step root l s pm last i pa fl); [done|done|unfold PGSIZE in *; lia|].
    intros s' Hsp' Hc Htab Ho. apply (IH fuel (i + 1) (pa :: l) s' (delete i pm)); [lia|done| |lia|].
    + intros j Hj. rewrite lookup_delete_ne by lia. apply Hin. lia.
    + intros l2 s2 Hsp2 [Hc2 Hf2 Ht2 Ho2]. apply (HQ l2 s2); [done|]. split.
      * by rewrite Hc.
      * intros p. rewrite Hf2, (range_page_succ pm i n p pa fl Hpm). simpl. intuition congruence.
      * intros t. by rewrite Ht2, Htab.
      * eapply only_trans; [eapply only_mono; [|exact Ho]|eapply only_mono; [|exact Ho2]]; intros p; cbv beta;
          rewrite (range_page_succ pm i n p pa fl Hpm), ?Htab; tauto.
Qed.

Lemma wp_uvmunmap root l s pm i n (Q : unit -> mm -> Prop) : space root l s pm -> 0 <= i -> i + Z.of_nat n <= top ->
  (forall j, i <= j < i + Z.of_nat n -> is_Some (pm !! j)) ->
  (forall l' s', space root l' s' (cut i n pm) -> shrunk root l s (range_page pm i n) l' s' -> Q tt s') ->
  wp (uvmunmap root (i * PGSIZE) (Z.of_nat n) true) Q s.
Proof.
  intros Hsp Hi Hn Hin HQ. unfold uvmunmap. rewrite Z.mod_mul by done. simpl negb. cbv iota.
  apply (wp_unmap_loop root _ n _ i l s pm); [lia|done|done| |done].
  unfold u64. rewrite Z.mod_small; [lia|]. pose proof MAXVA_eq. destruct Htop. unfold PGSIZE in *. lia.
Qed.

(** ** Adding pages

    uvmalloc() and uvmcopy() add pages at the end of the map, one by one, and take
    them all away again when memory runs out. *)

(** The bytes of a page. *)
Definition filled (m : memory) (p : Z) (c : Z -> Z) : Prop := forall k, 0 <= k < PGSIZE -> load8 m (p + k) = c k.

Lemma filled_only (A : Z -> Prop) m m' p c : only A m m' -> page_ok p -> (forall q, A q -> page_ok q /\ q <> p) -> filled m p c -> filled m' p c.
Proof. intros Ho Hp HA Hf k Hk. rewrite (only_same_page A m m' p Ho Hp HA) by lia. by apply Hf. Qed.

Section adding.
Context (root i0 : Z) (l0 : list Z) (s0 : mm) (pm0 : pagemap) (C : Z -> Z -> Z) (F : Z -> Z).
Context (Hi0 : 0 <= i0) (Hpm0 : forall j, i0 <= j -> pm0 !! j = None).

(** The pages from [i0] to [i] are new, with contents [C] and flags [F]. *)
Record added (i : Z) (l : list Z) (s : mm) (pm : pagemap) : Prop := {
  ad_space : space root l s pm;
  ad_ctl : ctl_equiv (m_ctl s0) (m_ctl s);
  ad_free : forall p, In p l -> In p l0;
  ad_old : forall j, ~ i0 <= j < i -> pm !! j = pm0 !! j;
  ad_new : forall j, i0 <= j < i -> exists pa, pm !! j = Some (pa, F j) /\ In pa l0 /\ filled (m_mem s) pa (C j);
  ad_ledger : forall p, is_table (m_mem s) root p \/ range_page pm i0 (Z.to_nat (i - i0)) p <->
                is_table (m_mem s0) root p \/ In p l0 /\ ~ In p l;
  ad_only : only (tables_or (m_mem s0) root l0) (m_mem s0) (m_mem s)
}.

Lemma added_0 : space root l0 s0 pm0 -> added i0 l0 s0 pm0.
Proof.
  intros Hsp. split; [done|done|done|done|intros; lia| |apply only_refl].
  intros p. rewrite Z.sub_diag. split; [intros [H|(j & f & Hj & _)]; [by left|lia]|intros [H|[H1 H2]]; [by left|done]].
Qed.

Lemma added_dom i l s pm : added i l s pm -> i0 <= i -> (forall j, is_Some (pm0 !! j) <-> 0 <= j < i0) -> forall j, is_Some (pm !! j) <-> 0 <= j < i.
Proof.
  intros Ha Hi Hd j. destruct (decide (i0 <= j < i)) as [Hj|Hj].
  - destruct (ad_new _ _ _ _ Ha j Hj) as (pa & -> & _). split; [lia|done].
  - rewrite (ad_old _ _ _ _ Ha j Hj), Hd. lia.
Qed.

Lemma range_page_insert pm i mem fl p : i0 <= i ->
  range_page (<[i := (mem, fl)]> pm) i0 (Z.to_nat (i + 1 - i0)) p <-> p = mem \/ range_page pm i0 (Z.to_nat (i - i0)) p.
Proof.
  intros Hi. split.
  - intros (j & f & Hj & Hp). destruct (decide (j = i)) as [->|Hne]; [rewrite lookup_insert_eq in Hp; left; congruence|].
    rewrite lookup_insert_ne in Hp by done. right. exists j, f. split; [lia|done].
  - intros [->|(j & f & Hj & Hp)]; [exists i, fl; split; [lia|by rewrite lookup_insert_eq]|].
    exists j, f. split; [lia|]. rewrite lookup_insert_ne by lia. done.
Qed.

(** Pages of the map are neither free nor tables. *)
Lemma avoids_page l s pm p : space root l s pm -> user_page pm p -> forall q, tables_or (m_mem s) root l q -> page_ok q /\ q <> p.
Proof.
  intros Hsp Hu q Hq. destruct (sp_page _ _ _ _ Hsp p Hu) as (Hp & Hpl & Hpt). destruct Hq as [Hq|Hq].
  - destruct (table_page _ _ _ _ (sp_inv _ _ _ _ Hsp) Hq). split; [done|]. by intros ->.
  - split; [by eapply free_page; [apply Hsp|]|]. by intros ->.
Qed.

Lemma tables_or_start i l s pm p : added i l s pm -> tables_or (m_mem s) root l p -> tables_or (m_mem s0) root l0 p.
Proof.
  intros Ha [Hp|Hp]; [|right; by apply Ha]. destruct (proj1 (ad_ledger _ _ _ _ Ha p) (or_introl Hp)) as [H|[H _]]; [by left|by right].
Qed.

(** Memory changes of free pages and tables keep the pages added so far. *)
Lemma added_contents i l s pm m' : added i l s pm -> only (tables_or (m_mem s) root l) (m_mem s) m' ->
  (forall j, i0 <= j < i -> exists pa, pm !! j = Some (pa, F j) /\ In pa l0 /\ filled m' pa (C j)) /\
  only (tables_or (m_mem s0) root l0) (m_mem s0) m'.
Proof.
  intros Ha Ho. split.
  - intros j Hj. destruct (ad_new _ _ _ _ Ha j Hj) as (pa & Hpm & Hin & Hf). exists pa. split_and!; [done|done|].
    assert (Hu : user_page pm pa) by (by exists j, (F j)). destruct (sp_page _ _ _ _ (ad_space _ _ _ _ Ha) pa Hu) as [Hpa _].
    eapply filled_only; [exact Ho|exact Hpa| |exact Hf]. apply (avoids_page l s pm); [apply Ha|done].
  - eapply only_trans; [apply Ha|]. eapply only_mono; [|exact Ho]. intros p. by eapply tables_or_start.
Qed.

(** The page just taken is written, then mapped. *)
Lemma added_insert i mem l1 l s m2 pm l3 s3 : i0 <= i -> added i (mem :: l1) s pm -> l = mem :: l1 ->
  (forall t, is_table m2 root t <-> is_table (m_mem s) root t) -> same_outside mem (m_mem s) m2 -> filled m2 mem (C i) ->
  page_ok mem -> ~ In mem l1 -> ~ is_table (m_mem s) root mem ->
  forall s2, m_mem s2 = m2 -> ctl_equiv (m_ctl s) (m_ctl s2) -> grown root l1 s2 l3 s3 ->
  space root l3 s3 (<[i := (mem, F i)]> pm) -> added (i + 1) l3 s3 (<[i := (mem, F i)]> pm).
Proof.
  intros Hi Ha -> Htab Hso Hfill Hmem Hml Hmt s2 Hs2 Hc2 [Hgc [used Hgf] Hgt Hgo] Hsp3. rewrite Hs2 in Hgt, Hgo.
  assert (Ho2 : only (tables_or (m_mem s) root (mem :: l1)) (m_mem s) m2).
  { eapply only_mono; [|by apply only_outside]. intros p <-. right. by left. }
  assert (Ho3 : only (tables_or (m_mem s) root (mem :: l1)) (m_mem s) (m_mem s3)).
  { eapply only_trans; [exact Ho2|]. eapply only_mono; [|exact Hgo]. intros p [Hp|Hp]; [left; by apply Htab|right; by right]. }
  destruct (added_contents _ _ _ _ _ Ha Ho3) as [Hnew Honly]. split.
  - done.
  - etransitivity; [apply Ha|]. etransitivity; [exact Hc2|exact Hgc].
  - intros p Hp. apply (ad_free _ _ _ _ Ha). right. rewrite Hgf. apply in_app_iff. by right.
  - intros j Hj. rewrite lookup_insert_ne by lia. apply (ad_old _ _ _ _ Ha). lia.
  - intros j Hj. destruct (decide (j = i)) as [->|Hne].
    + exists mem. rewrite lookup_insert_eq. split_and!; [done|apply (ad_free _ _ _ _ Ha); by left|].
      eapply filled_only; [exact Hgo|exact Hmem| |exact Hfill]. intros q [Hq|Hq].
      * apply Htab in Hq. destruct (table_page _ _ _ _ (sp_inv _ _ _ _ (ad_space _ _ _ _ Ha)) Hq). split; [done|]. by intros ->.
      * split; [eapply free_page; [apply Ha|by right]|]. by intros ->.
    + rewrite lookup_insert_ne by done. apply Hnew. lia.
  - intros p. rewrite range_page_insert by done. pose proof (ad_ledger _ _ _ _ Ha p) as Hl. rewrite Hgt, Htab.
    assert (H1 : In mem l0) by (apply (ad_free _ _ _ _ Ha); by left).
    assert (H2 : In p l1 -> In p l0) by (intros H; apply (ad_free _ _ _ _ Ha); by right).
    assert (H3 : In p l3 -> In p l1) by (intros H; rewrite Hgf; apply in_app_iff; by right).
    assert (H4 : p = mem -> ~ In p l1) by (by intros ->). assert (H5 : p = mem -> In p l0) by (by intros ->).
    assert (H6 : In p (mem :: l1) <-> p = mem \/ In p l1) by (simpl; clear; intuition). rewrite H6 in Hl. clear - Hl H2 H3 H4 H5.
    destruct (in_dec Z.eq_dec p l1), (in_dec Z.eq_dec p l3), (Z.eq_dec p mem); tauto.
  - done.
Qed.

(** The page just taken is given back. *)
Lemma added_return i mem l1 s pm l3 s3 s4 : added i (mem :: l1) s pm -> ~ In mem l1 -> page_ok mem ->
  (forall t, is_table (m_mem s4) root t <-> is_table (m_mem s) root t \/ In t l1 /\ ~ In t l3) -> (forall p, In p l3 -> In p l1) ->
  ctl_equiv (m_ctl s) (m_ctl s4) -> only (tables_or (m_mem s) root (mem :: l1)) (m_mem s) (m_mem s3) ->
  same_outside mem (m_mem s3) (m_mem s4) -> space root (mem :: l3) s4 pm -> added i (mem :: l3) s4 pm.
Proof.
  intros Ha Hml Hmem Htab Hl3 Hc Ho3 Hso Hsp.
  assert (Ho : only (tables_or (m_mem s) root (mem :: l1)) (m_mem s) (m_mem s4)).
  { eapply only_trans; [exact Ho3|]. eapply only_mono; [|by apply only_outside]. intros p <-. right. by left. }
  destruct (added_contents _ _ _ _ _ Ha Ho) as [Hnew Honly]. split; [done|..|done].
  - etransitivity; [apply Ha|done].
  - intros p Hp. apply (ad_free _ _ _ _ Ha). destruct Hp as [<-|Hp]; [by left|right; auto].
  - apply Ha.
  - done.
  - intros p. pose proof (ad_ledger _ _ _ _ Ha p) as Hl. rewrite Htab.
    assert (H2 : In p l1 -> In p l0) by (intros H; apply (ad_free _ _ _ _ Ha); by right). specialize (Hl3 p).
    assert (H4 : p = mem -> ~ In p l1) by (by intros ->).
    assert (H5 : p = mem -> In p l0) by (intros ->; apply (ad_free _ _ _ _ Ha); by left).
    assert (H6 : In p (mem :: l1) <-> p = mem \/ In p l1) by (simpl; clear; intuition). rewrite H6 in Hl.
    assert (H7 : In p (mem :: l3) <-> p = mem \/ In p l3) by (simpl; clear; intuition). rewrite H7. clear - Hl Hl3 H2 H4 H5.
    destruct (in_dec Z.eq_dec p l1), (in_dec Z.eq_dec p l3), (Z.eq_dec p mem); tauto.
Qed.

(** The page of a turn is taken, written and mapped; when that fails, at most the page
    itself is left on the free list. *)
Lemma wp_add_page {R} i l s pm g perm (ok err : MM R) (Q : R -> mm -> Prop) :
  added i l s pm -> i0 <= i < top -> 0 <= perm < 1024 -> F i = Z.lor perm PTE_V -> flags_ok (F i) ->
  (forall mem m, mem_ok m -> same_outside mem m (g mem m)) -> (forall mem m, mem_ok m -> mem_ok (g mem m)) ->
  (forall mem m, mem_ok m -> In mem l -> same_outside mem (m_mem s) m -> filled (g mem m) mem (C i)) ->
  (forall l' s' pm', added (i + 1) l' s' pm' -> wp ok Q s') ->
  (forall l' s', (length l' <= 1)%nat -> added i l' s' pm -> wp err Q s') ->
  wp (mem <- kalloc;;
      if mem =? 0 then err
      else
        mem_mm (g mem);;
        r <- mappages root (i * PGSIZE) PGSIZE mem perm;;
        if negb (r =? 0) then (kfree mem;; err) else ok) Q s.
Proof.
  intros Ha Hi Hperm HFi HFo Hg1 Hg2 Hg3 Hok Herr. pose proof (ad_space _ _ _ _ Ha) as Hsp. wp_step. apply (wp_kalloc_space root l s pm); [done|].
  destruct l as [|mem l1].
  - intros s1 Hsp1 Hc1 Hm1. apply (Herr []); [simpl; lia|]. destruct Ha as [_ A2 A3 A4 A5 A6 A7]. split; rewrite ?Hm1; try done. by etransitivity.
  - intros s1 Hsp1 Hc1 Hmem Hml Hmt Hmu Hso1 Htab1. destruct (page_ok_pos mem Hmem) as [Hpos _]. destruct (Z.eqb_spec mem 0); [lia|].
    wp_step. unfold mem_mm. wp_step. set (m2 := g mem (m_mem s1)). assert (Hm1 : mem_ok (m_mem s1)) by apply Hsp1.
    assert (Hso12 : same_outside mem (m_mem s1) m2) by (by apply Hg1).
    destruct (space_write root l1 s1 pm mem m2) as [Hsp2 Htab2]; [done|done|done|done|done|by apply Hg2|].
    assert (Hso2 : same_outside mem (m_mem s) m2) by (intros b Hb; by rewrite Hso12, Hso1).
    assert (Htab : forall t, is_table m2 root t <-> is_table (m_mem s) root t) by (intros t; by rewrite Htab2).
    wp_step. apply (wp_map_page root l1 (set_m_mem m2 s1) pm i mem perm); [done|lia| |done|by rewrite <- HFi|done|done|by rewrite Htab2|done| |].
    + rewrite (ad_old _ _ _ _ Ha) by lia. apply Hpm0. lia.
    + intros l3 s3 Hsp3 Hgr. rewrite <- HFi in Hsp3. simpl. apply (Hok l3 s3 (<[i := (mem, F i)]> pm)). eapply (added_insert i mem l1 _ s m2 pm l3 s3) with (s2 := set_m_mem m2 s1); try done;
        [apply Hi|apply Hg3; [done|by left|done]|by rewrite <- Htab1].
    + intros s3 Hsp3 Hgr. simpl. wp_step. apply (wp_kfree_space root [] s3 pm mem); [done|done|by intros []| |done|].
      * rewrite (gr_tabs _ _ _ _ _ Hgr). cbn [set_m_mem m_mem]. rewrite Htab, <- Htab1. tauto.
      * intros s4 Hsp4 Hc4 Hso4 Htab4. apply (Herr [mem]); [simpl; lia|]. eapply (added_return i mem l1 s pm [] s3 s4); try done.
        -- intros t. rewrite Htab4, (gr_tabs _ _ _ _ _ Hgr). cbn [set_m_mem m_mem]. by rewrite Htab.
        -- etransitivity; [exact Hc1|]. etransitivity; [apply Hgr|done].
        -- eapply only_trans; [eapply only_mono; [|by apply only_outside]; intros p <-; right; by left|].
           eapply only_mono; [|apply Hgr]. cbn [set_m_mem m_mem]. intros p [Hp|Hp]; [left; by apply Htab|right; by right].
Qed.

(** Everything is as it was, but that tables may have been added. *)
Record restored (l : list Z) (s : mm) : Prop := {
  rs_space : space root l s pm0;
  rs_ctl : ctl_equiv (m_ctl s0) (m_ctl s);
  rs_ledger : forall p, is_table (m_mem s) root p \/ In p l <-> is_table (m_mem s0) root p \/ In p l0;
  rs_only : only (tables_or (m_mem s0) root l0) (m_mem s0) (m_mem s)
}.

Lemma added_cut i l s pm : i0 <= i -> added i l s pm -> cut i0 (Z.to_nat (i - i0)) pm = pm0.
Proof.
  intros Hi Ha. apply map_eq. intros j. rewrite cut_lookup. case_decide as Hd; [|apply (ad_old _ _ _ _ Ha); lia]. symmetry. apply Hpm0. lia.
Qed.

(** Freeing [n] entries of the map adds at most [n] pages to the free list. *)
Lemma shrunk_length l s pm i n l' s' pm' : space root l' s' pm' -> shrunk root l s (range_page pm i n) l' s' -> (length l' <= length l + n)%nat.
Proof.
  intros Hsp Hs. set (taken := (fun j => fst (default (0, 0) (pm !! (i + Z.of_nat j)))) <$> seq 0 n).
  replace n with (length taken) by (unfold taken; by rewrite length_fmap, length_seq). rewrite <- length_app.
  apply submseteq_length, NoDup_submseteq; [apply (km_nodup _ _ _ (vi_kmem _ _ _ (sp_inv _ _ _ _ Hsp)))|].
  intros p Hp. apply list_elem_of_In, (sh_free _ _ _ _ _ _ Hs) in Hp as [Hp|(j & fl & Hj & Hp)]; apply elem_of_app; [left; by apply list_elem_of_In|right].
  apply list_elem_of_fmap. exists (Z.to_nat (j - i)). replace (i + Z.of_nat (Z.to_nat (j - i))) with j by lia. rewrite Hp. split; [done|].
  apply elem_of_seq. lia.
Qed.

Lemma wp_undo i l s pm (Q : unit -> mm -> Prop) : added i l s pm -> i0 <= i <= top ->
  (forall l' s', restored l' s' -> (length l' <= length l + Z.to_nat (i - i0))%nat -> Q tt s') ->
  wp (uvmunmap root (i0 * PGSIZE) (i - i0) true) Q s.
Proof.
  intros Ha Hi HQ. replace (i - i0) with (Z.of_nat (Z.to_nat (i - i0))) by lia.
  apply (wp_uvmunmap root l s pm i0); [apply Ha|done|lia| |].
  - intros j Hj. destruct (ad_new _ _ _ _ Ha j) as (pa & Hpa & _); [lia|]. by rewrite Hpa.
  - intros l' s' Hsp Hs. rewrite (added_cut i l s pm) in Hsp by (done || lia). apply (HQ l' s'); [|by eapply shrunk_length].
    destruct Hs as [Hc Hf Ht Ho]. split; [done|..].
    + etransitivity; [apply Ha|exact Hc].
    + intros p. rewrite Ht, Hf. pose proof (ad_ledger _ _ _ _ Ha p) as Hl. pose proof (ad_free _ _ _ _ Ha p). clear - Hl H.
      destruct (in_dec Z.eq_dec p l); tauto.
    + eapply only_trans; [apply Ha|]. eapply only_mono; [|exact Ho]. intros p Hp. cbv beta in Hp. pose proof (proj1 (ad_ledger _ _ _ _ Ha p)) as Hl.
      unfold tables_or. tauto.
Qed.

End adding.

(** ** uvmalloc() *)

(** The number of pages of a size. *)
Definition npages (sz : Z) : Z := (sz + PGSIZE - 1) / PGSIZE.

Lemma npages_lt sz i : i * PGSIZE < sz <-> i < npages sz.
Proof. unfold npages, PGSIZE. Z.div_mod_to_equations. lia. Qed.

Lemma PGROUNDUP_npages sz : 0 <= sz <= MAXVA -> PGROUNDUP sz = npages sz * PGSIZE.
Proof. intros H. pose proof MAXVA_eq. apply PGROUNDUP_div; unfold PGSIZE; lia. Qed.

Lemma npages_mul i : npages (i * PGSIZE) = i.
Proof. unfold npages. replace (i * PGSIZE + PGSIZE - 1) with (PGSIZE - 1 + i * PGSIZE) by lia. by rewrite Z.div_add. Qed.

Lemma npages_top sz : sz <= top * PGSIZE -> npages sz <= top.
Proof. unfold npages, PGSIZE. intros. Z.div_mod_to_equations. lia. Qed.

(** uvmdealloc() between page boundaries. *)
Lemma wp_uvmdealloc_pages root i j (Q : Z -> mm -> Prop) s : 0 <= i <= j -> j <= top ->
  wp (uvmunmap root (i * PGSIZE) (j - i) true) (fun _ s' => Q (i * PGSIZE) s') s -> wp (uvmdealloc root (j * PGSIZE) (i * PGSIZE)) Q s.
Proof.
  intros Hi Hj Hwp. destruct Htop as [Ht1 Ht2]. assert (Hm : MAXVA = 274877906944) by (rewrite MAXVA_eq; done). unfold uvmdealloc.
  rewrite !PGROUNDUP_npages, !npages_mul by (unfold PGSIZE in *; lia). destruct (Z.leb_spec (j * PGSIZE) (i * PGSIZE)) as [Hle|Hlt].
  - assert (j = i) as -> by (unfold PGSIZE in *; lia). wp_step. revert Hwp. unfold uvmunmap. rewrite Z.mod_mul, Z.sub_diag, Z.mul_0_l, Z.add_0_r by done.
    simpl. unfold u64. rewrite Z.mod_small by (unfold PGSIZE in *; lia). unfold uvmunmap_step. rewrite Z.ltb_irrefl. unfold wp, bind, ret. done.
  - destruct (Z.ltb_spec (i * PGSIZE) (j * PGSIZE)); [|lia]. cbn [when]. rewrite <- Z.mul_sub_distr_r, Z.div_mul by done.
    rewrite i32_id by (unfold PGSIZE in *; lia). unfold u64. rewrite Z.mod_small by (unfold PGSIZE in *; lia).
    wp_step. eapply wp_mono; [exact Hwp|]. intros ? s' HQ. by wp_step.
Qed.

(** uvmalloc() from a size to a larger one: it returns the new size with every new
    page mapped to a page of its own taken from the free list, zeroed, with the
    permissions asked for, and the old pages mapped as before; or it returns 0 with the
    address space as it was and every page it took given back but those that became page
    tables, and then no more pages are free than were asked for: it only fails when
    memory has run out.  Page tables apart, it writes only pages that were free. *)
Theorem uvmalloc_grows root l s pm oldsz newsz xperm :
  space root l s pm -> (forall j, is_Some (pm !! j) <-> 0 <= j < npages oldsz) ->
  0 <= oldsz <= newsz -> newsz <= top * PGSIZE -> 0 <= xperm < 1024 ->
  let fl := Z.lor (Z.lor (Z.lor PTE_R PTE_U) xperm) PTE_V in
  wp (uvmalloc root oldsz newsz xperm) (fun r s' => exists l',
    r = newsz /\ (exists pm', added root (npages oldsz) l s pm (fun _ _ => 0) (fun _ => fl) (npages newsz) l' s' pm') \/
    r = 0 /\ restored root l s pm l' s' /\ Z.of_nat (length l') <= npages newsz - npages oldsz) s.
Proof.
  intros Hsp Hdom Hsz Hnew Hx fl. destruct Htop as [Ht1 Ht2].
  assert (Hp : 0 <= Z.lor (Z.lor PTE_R PTE_U) xperm < 1024 /\ flags_ok fl) by (by apply uflags_ok). destruct Hp as [Hp1 Hp2].
  assert (Hold : oldsz <= top * PGSIZE) by lia. apply npages_top in Hnew as Hn, Hold as Ho.
  assert (H0 : 0 <= npages oldsz <= npages newsz) by (unfold npages, PGSIZE in *; Z.div_mod_to_equations; lia).
  assert (Hnone : forall j, npages oldsz <= j -> pm !! j = None).
  { intros j Hj. destruct (pm !! j) eqn:Hl; [|done]. assert (0 <= j < npages oldsz); [|lia]. apply Hdom. by rewrite Hl. }
  unfold uvmalloc. destruct (Z.ltb_spec newsz oldsz); [lia|]. rewrite PGROUNDUP_npages by lia. set (i0 := npages oldsz) in *.
  apply (wp_loop (fun a s' => exists i l' pm', a = i * PGSIZE /\ i0 <= i <= npages newsz /\
      added root i0 l s pm (fun _ _ => 0) (fun _ => fl) i l' s' pm') (fun a _ => Z.to_nat (npages newsz - a / PGSIZE))).
  - intros a s1 (i & l1 & pm1 & -> & Hi & Ha). unfold uvmalloc_step. destruct (Z.ltb_spec (i * PGSIZE) newsz) as [Hlt|Hge].
    + apply npages_lt in Hlt. apply (wp_add_page root i0 l s pm (fun _ _ => 0) (fun _ => fl) ltac:(lia) Hnone i l1 s1 pm1 (fun mem m => memset m mem 0 PGSIZE));
        [done|lia|done|done|done|intros; apply memset_same_outside|intros; by apply memset_ok| | |].
      * intros mem m _ _ _ k Hk. by rewrite memset_load_in by lia.
      * intros l2 s2 pm2 Ha2. wp_step. unfold u64. rewrite Z.mod_small by (pose proof MAXVA_eq; unfold PGSIZE in *; lia).
        replace (i * PGSIZE + PGSIZE) with ((i + 1) * PGSIZE) by lia. rewrite !Z.div_mul by done. split; [|lia]. exists (i + 1), l2, pm2. split_and!; [done|lia|lia|done].
      * intros l2 s2 Hlen Ha2. wp_step. apply wp_uvmdealloc_pages; [lia|lia|].
        apply (wp_undo root i0 l s pm (fun _ _ => 0) (fun _ => fl) ltac:(lia) Hnone i l2 s2 pm1); [done|lia|]. intros l3 s3 Hr Hlen3. wp_step. exists l3. right.
        split_and!; [done|done|lia].
    + wp_step. exists l1. left. split; [done|]. exists pm1. assert (i = npages newsz) as <-; [|done]. pose proof (npages_lt newsz i). lia.
  - exists i0, l, pm. split_and!; [done|lia|lia|]. apply added_0; [done..].
  - rewrite Z.div_mul by done. apply Z2Nat.inj_lt; [lia| |]; unfold npages, i0, PGSIZE in *; Z.div_mod_to_equations; lia.
Qed.

End space.

(** ** uvmcopy() *)

Section copy.
Context {E : Env} {L : LinkerOk}.
Context (top : Z) (resto restn : Z -> option Z).
Context (Htop : 0 <= top /\ top * PGSIZE <= MAXVA).
Context (Hresto : forall i, 0 <= i < top -> resto i = None) (Hrestn : forall i, 0 <= i < top -> restn i = None).
Context (old new : Z) (l0 : list Z) (s0 : mm) (pmo : pagemap).
Context (Hold : space top resto old l0 s0 pmo) (Hnew : space top restn new l0 s0 ∅).
Context (Hsep : forall p, is_table (m_mem s0) old p \/ user_page pmo p -> ~ is_table (m_mem s0) new p).

Lemma parent_page p : is_table (m_mem s0) old p \/ user_page pmo p ->
  page_ok p /\ ~ In p l0 /\ forall q, tables_or (m_mem s0) new l0 q -> page_ok q /\ q <> p.
Proof.
  intros Hp. assert (Hpl : page_ok p /\ ~ In p l0).
  { destruct Hp as [Hp|Hp]; [by eapply table_page; [apply Hold|]|]. by destruct (sp_page _ _ _ _ _ _ Hold p Hp) as (? & ? & _). }
  destruct Hpl as [Hpo Hpl]. split_and!; [done|done|]. intros q [Hq|Hq].
  - destruct (table_page _ _ _ _ (sp_inv _ _ _ _ _ _ Hnew) Hq). split; [done|]. intros ->. by apply (Hsep p).
  - split; [eapply free_page; [apply Hnew|done]|]. by intros ->.
Qed.

(** The parent is untouched by what happens to the child. *)
Lemma parent_stays l s pm : space top restn new l s pm -> (forall p, In p l -> tables_or (m_mem s0) new l0 p) -> only (tables_or (m_mem s0) new l0) (m_mem s0) (m_mem s) ->
  space top resto old l s pmo /\ forall p, user_page pmo p -> same_page (m_mem s0) (m_mem s) p.
Proof.
  intros Hsp Hl Ho.
  assert (Hpg : forall p, is_table (m_mem s0) old p \/ user_page pmo p -> same_page (m_mem s0) (m_mem s) p).
  { intros p Hp. destruct (parent_page p Hp) as (H1 & _ & H3). by eapply only_same_page. }
  split; [|intros p Hp; apply Hpg; by right].
  eapply space_stable; [exact Hold|intros t Ht; apply Hpg; by left|apply Hsp|apply Hsp|].
  intros p Hp Hin. destruct (parent_page p Hp) as (_ & _ & H3). by destruct (H3 p (Hl p Hin)).
Qed.
(** The contents and the flags of the parent's pages. *)
Definition src (j : Z) : Z := fst (default (0, 0) (pmo !! j)).
Definition src_flags (j : Z) : Z := snd (default (0, 0) (pmo !! j)).
Definition src_byte (j k : Z) : Z := load8 (m_mem s0) (src j + k).

Lemma src_page j x : pmo !! j = Some x -> pmo !! j = Some (src j, src_flags j) /\ user_page pmo (src j).
Proof. intros H. unfold src, src_flags. rewrite H. destruct x as [pa fl]. split; [done|]. by exists j, fl. Qed.

(** A turn of the loop of uvmcopy(). *)
Lemma wp_uvmcopy_step sz i l s pm (Q : Z + Z -> mm -> Prop) : added top restn new 0 l0 s0 ∅ src_byte src_flags i l s pm ->
  0 <= i < top -> i * PGSIZE < sz -> is_Some (pmo !! i) ->
  (forall l' s' pm', added top restn new 0 l0 s0 ∅ src_byte src_flags (i + 1) l' s' pm' -> Q (inl ((i + 1) * PGSIZE)) s') ->
  (forall l' s', restored top restn new l0 s0 ∅ l' s' -> Q (inr (-1)) s') ->
  wp (uvmcopy_step old new sz (i * PGSIZE)) Q s.
Proof.
  intros Ha Hi Hlt [x Hx] Hok Herr. destruct (src_page i x Hx) as [Hpm Hu]. pose proof (ad_space _ _ _ _ _ _ _ _ _ _ _ _ _ Ha) as Hsp.
  assert (Hl : forall p, In p l -> tables_or (m_mem s0) new l0 p) by (intros p Hp; right; by apply (ad_free _ _ _ _ _ _ _ _ _ _ _ _ _ Ha)).
  destruct (parent_stays l s pm Hsp Hl (ad_only _ _ _ _ _ _ _ _ _ _ _ _ _ Ha)) as [Hpar Hsame].
  destruct (sp_keys _ _ _ _ _ _ Hpar i _ _ Hpm) as [_ Hfl]. destruct (sp_page _ _ _ _ _ _ Hpar _ Hu) as (Hpa & _).
  pose proof (page_va _ _ Htop _ _ _ _ _ _ _ Hpar Hpm) as Hva.
  destruct (view_leaf_tab _ _ _ _ (page_view _ _ Htop _ _ _ _ _ _ _ Hpar Hpm)) as (t & Ht & He).
  unfold uvmcopy_step. destruct (Z.ltb_spec (i * PGSIZE) sz); [|lia]. wp_step. apply wp_walk_read; [unfold PGSIZE in *; lia|].
  rewrite Ht, (leaf_tab_pos old l s _ t (sp_inv _ _ _ _ _ _ Hpar) Ht). unfold ld64. wp_steps. fold (entry (m_mem s) t (PX 0 (i * PGSIZE))). rewrite He.
  pose proof (leaf_valid (src i) (src_flags i) Hfl) as Hval. unfold valid, truthy in Hval. apply negb_true_iff in Hval. rewrite Hval.
  rewrite leaf_flags, leaf_pa, Z.div_mul by done.
  eapply (wp_add_page top restn Htop Hrestn new 0 l0 s0 ∅ src_byte src_flags ltac:(lia) ltac:(intros; apply lookup_empty) i l s pm (fun mem m => memmove m mem (src i) PGSIZE));
    [done|lia|apply Hfl|by destruct Hfl as (_ & Hf & _)|done| |intros; by apply memmove_ok| | |].
  - intros mem m Hm b Hb. rewrite memmove_load by done. destruct (Z.leb_spec mem b), (Z.ltb_spec b (mem + PGSIZE)); simpl; done || lia.
  - intros mem m Hm Hin Hso k Hk. rewrite memmove_load by done. destruct (Z.leb_spec mem (mem + k)), (Z.ltb_spec (mem + k) (mem + PGSIZE)); simpl; try lia.
    replace (src i + (mem + k - mem)) with (src i + k) by lia. unfold src_byte. transitivity (load8 (m_mem s) (src i + k)); [|apply (Hsame _ Hu); lia].
    destruct (parent_page (src i) (or_intror Hu)) as (_ & _ & H3). destruct (H3 mem (Hl mem Hin)) as [Hmo Hne].
    apply (same_outside_page mem (src i) (m_mem s) m Hso Hmo Hpa (not_eq_sym Hne)). lia.
  - intros l' s' pm' Ha'. wp_step. unfold u64. rewrite Z.mod_small by (pose proof MAXVA_eq; unfold PGSIZE in *; lia).
    replace (i * PGSIZE + PGSIZE) with ((i + 1) * PGSIZE) by lia. by eapply Hok.
  - intros l' s' _ Ha'. wp_step. replace i with (i - 0) at 1 by lia. change (uvmunmap new 0) with (uvmunmap new (0 * PGSIZE)).
    apply (wp_undo top restn Htop Hrestn new 0 l0 s0 ∅ src_byte src_flags ltac:(lia) ltac:(intros; apply lookup_empty) i l' s' pm); [done|lia|].
    intros l2 s2 Hr _. wp_step. by eapply Herr.
Qed.

(** uvmcopy() of an address space into an empty one: it returns 0 with every page of
    the parent below the size copied, byte for byte and with its flags, to a page of
    its own that was free; or it returns -1 with the child empty again and every page
    it took given back.  The parent's pages and translations do not change. *)
Theorem uvmcopy_copies sz : 0 <= sz <= top * PGSIZE -> (forall j, 0 <= j < npages sz -> is_Some (pmo !! j)) ->
  wp (uvmcopy old new sz) (fun r s' => exists l',
    space top resto old l' s' pmo /\ (forall p, user_page pmo p -> same_page (m_mem s0) (m_mem s') p) /\
    (r = 0 /\ (exists pmn, added top restn new 0 l0 s0 ∅ src_byte src_flags (npages sz) l' s' pmn) \/
     r = -1 /\ restored top restn new l0 s0 ∅ l' s')) s0.
Proof.
  intros Hsz Hdom. assert (Hn : npages sz <= top) by (apply npages_top; lia). assert (H0 : 0 <= npages sz) by (unfold npages, PGSIZE; Z.div_mod_to_equations; lia).
  unfold uvmcopy. change 0 with (0 * PGSIZE) at 1.
  apply (wp_loop (fun a s => exists i l pm, a = i * PGSIZE /\ 0 <= i <= npages sz /\ added top restn new 0 l0 s0 ∅ src_byte src_flags i l s pm)
    (fun a _ => Z.to_nat (npages sz - a / PGSIZE))).
  - intros a s (i & l & pm & -> & Hi & Ha). destruct (Z.ltb_spec (i * PGSIZE) sz) as [Hlt|Hge].
    + assert (Hin : i < npages sz) by (by apply npages_lt). apply (wp_uvmcopy_step sz i l s pm); [done|lia|done|apply Hdom; lia| |].
      * intros l' s' pm' Ha'. rewrite !Z.div_mul by done. split; [|lia]. exists (i + 1), l', pm'. split_and!; [done|lia|lia|done].
      * intros l' s' Hr. exists l'. destruct (parent_stays l' s' ∅ (rs_space _ _ _ _ _ _ _ _ Hr)) as [H1 H2]; [|apply Hr|].
        -- intros p Hp. apply (rs_ledger _ _ _ _ _ _ _ _ Hr). by right.
        -- split_and!; [done|done|by right].
    + unfold uvmcopy_step. destruct (Z.ltb_spec (i * PGSIZE) sz); [lia|]. wp_step. exists l. assert (i = npages sz) as -> by (pose proof (npages_lt sz i); lia).
      destruct (parent_stays l s pm) as [H1 H2]; [apply Ha| |apply Ha|split_and!; [done|done|left; split; [done|by exists pm]]].
      intros p Hp. right. by apply (ad_free _ _ _ _ _ _ _ _ _ _ _ _ _ Ha).
  - exists 0, l0, ∅. split_and!; [done|lia|lia|]. by apply added_0.
  - simpl. rewrite Z.sub_0_r. apply Z2Nat.inj_lt; [lia| |]; unfold npages, PGSIZE in *; Z.div_mod_to_equations; lia.
Qed.
End copy.
