(* ===== verification/Sched.v ===== *)
(** * Processes and the scheduler (kernel/proc.c), the part below the file system

    The process table, allocation and release of a process, sleep() and
    wakeup(), kill() and the scheduler.  A [struct proc *] is an index in proc[];
    a null pointer that the code would dereference traps, and kerneltrap()
    panics. *)

From S2P Require Import Prelude Riscv Kstate CString Spinlock Kalloc Vm.

Section sched.
Context {E : Env}.

Definition proc_ids : list nat := seq 0 NPROC.

(** Dereferencing a pointer. *)
Definition deref {A} (p : option A) : K A :=
  match p with Some i => ret i | None => panic "kerneltrap" end.
Definition curproc : K nat := p <- kmyproc;; deref p.

(** ** Initialisation and identifiers *)

Definition procinit : K unit :=
  lift_ctl (initlock L_pid "nextpid");;
  lift_ctl (initlock L_wait "wait_lock");;
  for_each proc_ids (fun i =>
    lift_ctl (initlock (L_proc i) "proc");;
    updp i (fun p => set_p_kstack (KSTACK (Z.of_nat i)) (set_p_state UNUSED p))).

Definition allocpid : K Z :=
  kacquire L_pid;;
  pid <- gets (fun s => nextpid (k_pt s));;
  modify (fun s => set_k_pt (set_nextpid (i32 (pid + 1)) (k_pt s)) s);;
  krelease L_pid;;
  ret pid.

(** ** Page tables and memory of a process *)

Definition proc_pagetable (p : nat) : K Z :=
  pr <- getp p;;
  lift_mm (
    pagetable <- uvmcreate;;
    if pagetable =? 0 then ret 0
    else
      r <- mappages pagetable TRAMPOLINE PGSIZE trampoline (Z.lor PTE_R PTE_X);;
      if r <? 0 then uvmfree pagetable 0;; ret 0
      else
        r <- mappages pagetable TRAPFRAME PGSIZE (p_trapframe pr) (Z.lor PTE_R PTE_W);;
        if r <? 0 then
          uvmunmap pagetable TRAMPOLINE 1 false;;
          uvmfree pagetable 0;;
          ret 0
        else ret pagetable).

Definition proc_freepagetable (pagetable sz : Z) : MM unit :=
  uvmunmap pagetable TRAMPOLINE 1 false;;
  uvmunmap pagetable TRAPFRAME 1 false;;
  uvmfree pagetable sz.

Definition freeproc (p : nat) : K unit :=
  pr <- getp p;;
  when (truthy (p_trapframe pr)) (lift_mm (kfree (p_trapframe pr)));;
  updp p (set_p_trapframe 0);;
  when (truthy (p_pagetable pr)) (lift_mm (proc_freepagetable (p_pagetable pr) (p_sz pr)));;
  updp p (fun pr => set_p_sz 0 (set_p_pagetable 0 pr));;
  updp p (fun pr => set_p_parent None (set_p_pid 0 pr));;
  updp p (fun pr => set_p_name (zupd (p_name pr) 0 0) pr);;
  updp p (fun pr => set_p_state UNUSED (set_p_xstate 0 (set_p_killed 0 (set_p_chan None pr)))).

(** The index of the new process, its lock held, or [None]. *)
Definition allocproc : K (option nat) :=
  found <- for_find proc_ids (fun p =>
    kacquire (L_proc p);;
    pr <- getp p;;
    if decide (p_state pr = UNUSED) then ret (Some p)
    else krelease (L_proc p);; ret None);;
  match found with
  | None => ret None
  | Some p =>
      pid <- allocpid;;
      updp p (fun pr => set_p_state USED (set_p_pid pid pr));;
      tf <- lift_mm kalloc;;
      updp p (set_p_trapframe tf);;
      if tf =? 0 then freeproc p;; krelease (L_proc p);; ret None
      else
        pt <- proc_pagetable p;;
        updp p (set_p_pagetable pt);;
        if pt =? 0 then freeproc p;; krelease (L_proc p);; ret None
        else
          updp p (fun pr => set_p_context
            (mkcontext forkret_addr (u64 (p_kstack pr + PGSIZE)) (replicate 12 0)) pr);;
          ret (Some p)
  end.

Definition growproc (n : Z) : K Z :=
  p <- curproc;;
  pr <- getp p;;
  let sz := p_sz pr in
  if 0 <? n then
    sz' <- lift_mm (uvmalloc (p_pagetable pr) sz (u64 (sz + n)) PTE_W);;
    if sz' =? 0 then ret (-1)
    else updp p (set_p_sz sz');; ret 0
  else if n <? 0 then
    sz' <- lift_mm (uvmdealloc (p_pagetable pr) sz (u64 (sz + n)));;
    updp p (set_p_sz sz');; ret 0
  else updp p (set_p_sz sz);; ret 0.

(** ** Giving up and getting the CPU *)

Definition get_noff : K Z :=
  id <- lift_ctl mycpu;; gets (fun s => noff (get_cpu id (k_ctl s))).

Definition sched : K unit :=
  p <- curproc;;
  h <- lift_ctl (holding (L_proc p));;
  if negb h then panic "sched p->lock"
  else
    n <- get_noff;;
    if negb (n =? 1) then panic "sched locks"
    else
      pr <- getp p;;
      if decide (p_state pr = RUNNING) then panic "sched running"
      else
        i <- lift_ctl intr_get;;
        if truthy i then panic "sched interruptible"
        else
          id <- lift_ctl mycpu;;
          ie <- gets (fun s => intena (get_cpu id (k_ctl s)));;
          swtch;;
          id <- lift_ctl mycpu;;
          lift_ctl (upd_cpu id (set_intena ie)).

Definition yield : K unit :=
  p <- curproc;;
  kacquire (L_proc p);;
  updp p (set_p_state RUNNABLE);;
  sched;;
  krelease (L_proc p).

(** One pass over the table; scheduler() makes passes for ever. *)
Definition scheduler_step (id : Z) (p : nat) : K unit :=
  kacquire (L_proc p);;
  pr <- getp p;;
  when (bool_decide (p_state pr = RUNNABLE))
    (updp p (set_p_state RUNNING);;
     lift_ctl (upd_cpu id (set_c_proc (Some p)));;
     swtch;;
     lift_ctl (upd_cpu id (set_c_proc None)));;
  krelease (L_proc p).

Definition scheduler_pass (id : Z) : K unit :=
  lift_ctl intr_on;;
  for_each proc_ids (scheduler_step id).

(** The loop has no end: [passes] bounds the number of passes looked at. *)
Definition scheduler (passes : nat) : K unit :=
  id <- lift_ctl mycpu;;
  lift_ctl (upd_cpu id (set_c_proc None));;
  loop passes (fun _ => scheduler_pass id;; ret (inl tt)) tt.

(** ** Sleeping and waking *)

Definition sleep (ch : chan) (lk : lockid) : K unit :=
  p <- curproc;;
  kacquire (L_proc p);;
  krelease lk;;
  updp p (fun pr => set_p_state SLEEPING (set_p_chan (Some ch) pr));;
  sched;;
  updp p (set_p_chan None);;
  krelease (L_proc p);;
  kacquire lk.

Definition wakeup_step (ch : option chan) (p : nat) : K unit :=
  me <- kmyproc;;
  unless (bool_decide (me = Some p))
    (kacquire (L_proc p);;
     pr <- getp p;;
     when (bool_decide (p_state pr = SLEEPING) && bool_decide (p_chan pr = ch))
       (updp p (set_p_state RUNNABLE));;
     krelease (L_proc p)).

Definition wakeup (ch : option chan) : K unit := for_each proc_ids (wakeup_step ch).

Definition kill_step (pid : Z) (p : nat) : K (option Z) :=
  kacquire (L_proc p);;
  pr <- getp p;;
  if p_pid pr =? pid then
    updp p (set_p_killed 1);;
    when (bool_decide (p_state pr = SLEEPING)) (updp p (set_p_state RUNNABLE));;
    krelease (L_proc p);;
    ret (Some 0)
  else krelease (L_proc p);; ret None.

Definition kill (pid : Z) : K Z :=
  r <- for_find proc_ids (kill_step pid);;
  ret (default (-1) r).

Definition setkilled (p : nat) : K unit :=
  kacquire (L_proc p);;
  updp p (set_p_killed 1);;
  krelease (L_proc p).

Definition killed (p : nat) : K Z :=
  kacquire (L_proc p);;
  k <- gets (fun s => p_killed (get_proc p s));;
  krelease (L_proc p);;
  ret k.

Definition reparent (p : nat) : K unit :=
  for_each proc_ids (fun pp =>
    pr <- getp pp;;
    when (bool_decide (p_parent pr = Some p))
      (ip <- gets (fun s => initproc (k_pt s));;
       updp pp (set_p_parent ip);;
       wakeup (option_map Ch_proc ip))).

(** ** Copies to and from user space or the kernel *)

(** Where bytes go: a user address of the current process, physical memory, or
    an object of the kernel (a local variable), whose new bytes are returned. *)
Inductive dest : Type := ToUser (va : Z) | ToMem (pa : Z) | ToObj.

Definition dest_add (d : dest) (n : Z) : dest :=
  match d with
  | ToUser va => ToUser (u64 (va + n))
  | ToMem pa => ToMem (u64 (pa + n))
  | ToObj => ToObj
  end.

Definition either_copyout (d : dest) (src : list Z) : K (Z * list Z) :=
  p <- kmyproc;;
  match d with
  | ToUser va =>
      p <- deref p;;
      pr <- getp p;;
      r <- lift_mm (copyout (p_pagetable pr) va src);;
      ret (r, [])
  | ToMem pa => lift_mem (fun m => write_bytes m pa src);; ret (0, [])
  | ToObj => ret (0, src)
  end.

(** Where bytes come from: a user address, or an object of the kernel. *)
Inductive source : Type := FromUser (va : Z) | FromObj (bs : list Z).

Definition source_add (d : source) (n : Z) : source :=
  match d with
  | FromUser va => FromUser (u64 (va + n))
  | FromObj bs => FromObj (drop (Z.to_nat n) bs)
  end.

(** 0 or -1, and the bytes stored in the destination. *)
Definition either_copyin (d : source) (len : Z) : K (Z * list Z) :=
  p <- kmyproc;;
  match d with
  | FromUser va =>
      p <- deref p;;
      pr <- getp p;;
      lift_mm (copyin (p_pagetable pr) va len)
  | FromObj bs => ret (0, take (Z.to_nat len) bs)
  end.

End sched.
