(* ===== verification/SchedSpec.v ===== *)
(** * Sleeping, waking and killing (kernel/proc.c)

    What wakeup(), kill(), reparent() and sleep() do to the process table.  The
    rules for the spin locks are lifted to the whole kernel state: [kset_ctl]
    replaces the control state, and operations that leave it equivalent to
    what it was are described by their effect on the rest. *)

From S2P Require Import Prelude Riscv Kstate CString Spinlock Kalloc Vm Sched.

Definition kset_ctl (c : ctl) (s : kstate) : kstate := set_k_mm (set_m_ctl c (k_mm s)) s.

(** The process that runs on this CPU. *)
Definition cur (c : ctl) : option nat := c_proc (get_cpu (hart c) c).

Lemma k_ctl_kset c s : k_ctl (kset_ctl c s) = c.
Proof. done. Qed.
Lemma kset_kset c d s : kset_ctl c (kset_ctl d s) = kset_ctl c s.
Proof. done. Qed.
Lemma kset_same s : kset_ctl (k_ctl s) s = s.
Proof. by destruct s as [[] ? ? ? ? ?]. Qed.

Lemma cur_equiv c d : ctl_equiv c d -> cur c = cur d.
Proof.
  intros H. destruct (ctl_equiv_cpu c d (hart c) H) as [Hp _]. destruct H as (Hh & _).
  unfold cur. by rewrite <- Hh.
Qed.

(** ** Rules *)

Ltac kstep :=
  lazymatch goal with
  | |- wp (getp _) _ _ => apply wp_gets
  | |- wp (updp _ _) _ _ => apply wp_modify
  | _ => wp_step
  end; cbv beta.

Lemma wp_kacquire lk (Q : unit -> kstate -> Prop) s :
  ctl_ok (k_ctl s) -> free lk (k_ctl s) ->
  Q tt (kset_ctl (acquired lk (k_ctl s)) s) -> wp (kacquire lk) Q s.
Proof. intros Hok Hf H. apply wp_lift, wp_lift. unfold wp. by rewrite acquire_eq. Qed.

Lemma wp_krelease c lk (Q : unit -> kstate -> Prop) s :
  ctl_ok c -> free lk c -> ctl_equiv (acquired lk c) (k_ctl s) ->
  (forall e, ctl_equiv c e -> Q tt (kset_ctl e s)) -> wp (krelease lk) Q s.
Proof.
  intros Hok Hf Heq H. apply wp_lift, wp_lift. unfold wp.
  destruct (crit lk c (m_ctl (k_mm s))) as (e & -> & He); try done. by apply H.
Qed.

Lemma wp_kmyproc (Q : option nat -> kstate -> Prop) s :
  ctl_ok (k_ctl s) ->
  (forall c, ctl_equiv (k_ctl s) c -> Q (cur (k_ctl s)) (kset_ctl c s)) -> wp kmyproc Q s.
Proof.
  intros Hok H. apply wp_lift, wp_lift. unfold wp, myproc. unfold bind at 1. fold (k_ctl s).
  rewrite push_off_eq by done. unfold bind at 1, mycpu, cpuid, gets.
  change (hart (pushed (k_ctl s))) with (hart (k_ctl s)).
  rewrite cpuid_ok by (by destruct Hok). unfold bind.
  destruct (pop_pushed (k_ctl s) (pushed (k_ctl s))) as [-> He]; [done|done|]. simpl.
  replace (c_proc (get_cpu (hart (k_ctl s)) (pushed (k_ctl s)))) with (cur (k_ctl s)).
  - by apply H.
  - rewrite pushed_cpu by done. simpl. by case_match.
Qed.

Lemma wp_curproc p (Q : nat -> kstate -> Prop) s :
  ctl_ok (k_ctl s) -> cur (k_ctl s) = Some p ->
  (forall c, ctl_equiv (k_ctl s) c -> Q p (kset_ctl c s)) -> wp curproc Q s.
Proof.
  intros Hok Hc H. unfold curproc. wp_step. apply wp_kmyproc; [done|]. intros c Hcc. rewrite Hc.
  apply wp_ret. by apply H.
Qed.

(** The effect of a pass over the process table. *)
Definition map_procs (f : nat -> proc -> proc) (s : kstate) : kstate :=
  set_k_pt (set_procs (imap f (procs (k_pt s))) (k_pt s)) s.

Lemma alter_imap_step {A} (f : nat -> A -> A) p (l : list A) :
  alter (f p) p (imap (fun i x => if (i <? p)%nat then f i x else x) l) =
  imap (fun i x => if (i <? S p)%nat then f i x else x) l.
Proof.
  apply list_eq. intros i. rewrite list_lookup_alter, !list_lookup_imap.
  destruct (decide (p = i)) as [->|Hne].
  - destruct (l !! i); simpl; [|done]. destruct (Nat.ltb_spec i i), (Nat.ltb_spec i (S i)); try lia. done.
  - destruct (l !! i); simpl; [|done].
    destruct (Nat.ltb_spec i p), (Nat.ltb_spec i (S p)); try lia; done.
Qed.

(** A loop over the table whose body changes entry [p] by [f p] and keeps the
    control state maps [f] over the table. *)
Lemma wp_for_procs (I : ctl -> Prop) (f : nat -> proc -> proc) (body : nat -> K unit) s
    (Q : unit -> kstate -> Prop) :
  (forall c d, ctl_equiv c d -> I c -> I d) -> I (k_ctl s) ->
  length (procs (k_pt s)) = NPROC ->
  (forall p s' (R : unit -> kstate -> Prop), (p < NPROC)%nat -> I (k_ctl s') ->
     (forall c, ctl_equiv (k_ctl s') c -> R tt (kset_ctl c (upd_proc p (f p) s'))) -> wp (body p) R s') ->
  (forall c, ctl_equiv (k_ctl s) c -> Q tt (kset_ctl c (map_procs f s))) ->
  wp (for_each proc_ids body) Q s.
Proof.
  intros HI Hs Hlen Hbody HQ.
  set (st k c := kset_ctl c (map_procs (fun i x => if (i <? k)%nat then f i x else x) s)).
  assert (Hg : forall n k c, (k + n = NPROC)%nat -> ctl_equiv (k_ctl s) c ->
                 wp (for_each (seq k n) body) Q (st k c)).
  { induction n as [|n IH]; intros k c Hk Hc; simpl.
    - apply wp_ret. replace (st k c) with (kset_ctl c (map_procs f s)); [by apply HQ|].
      unfold st, map_procs. f_equal. f_equal. f_equal. apply list_eq. intros i. rewrite !list_lookup_imap.
      destruct (procs (k_pt s) !! i) eqn:Hi; [|done]. simpl. apply lookup_lt_Some in Hi.
      destruct (Nat.ltb_spec i k); [done|lia].
    - wp_step. apply Hbody; [lia|by eapply HI|]. intros d Hd.
      replace (kset_ctl d (upd_proc k (f k) (st k c))) with (st (S k) d).
      + apply IH; [lia|]. by rewrite Hc.
      + unfold st, map_procs, upd_proc, kset_ctl, set_k_pt, set_k_mm, set_procs. simpl.
        by rewrite alter_imap_step. }
  replace s with (st 0%nat (k_ctl s)); [by apply Hg|].
  unfold st. rewrite <- (kset_same s) at 3. f_equal. unfold map_procs. destruct s as [? ? [l ? ?] ? ? ?].
  unfold set_k_pt, set_procs. simpl. f_equal. f_equal. apply list_eq. intros i.
  rewrite list_lookup_imap. by destruct (l !! i).
Qed.

(** ** wakeup() *)

(** What wakeup() does to entry [i] of the table. *)
Definition wake (ch : option chan) (me : option nat) (i : nat) (p : proc) : proc :=
  if bool_decide (me = Some i) then p
  else if bool_decide (p_state p = SLEEPING) && bool_decide (p_chan p = ch)
  then set_p_state RUNNABLE p else p.

(** No process lock is held but, possibly, the caller's own. *)
Definition procs_free (c : ctl) : Prop :=
  ctl_ok c /\ forall i, (i < NPROC)%nat -> cur c <> Some i -> free (L_proc i) c.

Lemma procs_free_equiv c d : ctl_equiv c d -> procs_free c -> procs_free d.
Proof.
  intros H [Hok Hf]. split; [by rewrite <- H|]. intros i Hi Hc. rewrite <- H. apply Hf; [done|].
  by rewrite (cur_equiv c d H).
Qed.

Lemma upd_proc_id p f s : f (get_proc p s) = get_proc p s -> upd_proc p f s = s.
Proof.
  intros H. unfold upd_proc. destruct s as [? ? [l ? ?] ? ? ?]. unfold set_k_pt, set_procs. simpl.
  f_equal. f_equal. apply list_eq. intros i. rewrite list_lookup_alter.
  destruct (decide (p = i)) as [->|]; [|done]. unfold get_proc in H. simpl in H.
  destruct (l !! i); simpl in *; congruence.
Qed.

Lemma upd_proc_ext p f g s : f (get_proc p s) = g (get_proc p s) -> upd_proc p f s = upd_proc p g s.
Proof.
  intros H. unfold upd_proc. f_equal. f_equal. apply list_eq. intros i. rewrite !list_lookup_alter.
  destruct (decide (p = i)) as [->|]; [|done]. unfold get_proc in H.
  destruct (procs (k_pt s) !! i); simpl in *; congruence.
Qed.

Lemma upd_proc_upd p f g s : upd_proc p g (upd_proc p f s) = upd_proc p (fun x => g (f x)) s.
Proof.
  unfold upd_proc, set_k_pt, set_procs. simpl. f_equal. f_equal. apply list_eq. intros i.
  rewrite !list_lookup_alter. destruct (decide (p = i)) as [->|]; [|done].
  rewrite decide_True by done. by destruct (procs (k_pt s) !! i).
Qed.

Lemma get_proc_kset c p s : get_proc p (kset_ctl c s) = get_proc p s.
Proof. done. Qed.

Lemma wp_wakeup_step ch p me s (Q : unit -> kstate -> Prop) :
  (p < NPROC)%nat -> procs_free (k_ctl s) -> cur (k_ctl s) = me ->
  (forall c, ctl_equiv (k_ctl s) c -> Q tt (kset_ctl c (upd_proc p (wake ch me p) s))) ->
  wp (wakeup_step ch p) Q s.
Proof.
  intros Hp [Hok Hfree] Hme HQ. unfold wakeup_step. wp_step. apply wp_kmyproc; [done|]. intros c Hc.
  rewrite Hme. destruct (bool_decide (me = Some p)) eqn:Hb; simpl.
  - apply wp_ret. replace s with (upd_proc p (wake ch me p) s).
    + by apply HQ.
    + apply upd_proc_id. unfold wake. by rewrite Hb.
  - assert (Hf : free (L_proc p) c).
    { rewrite <- Hc. apply Hfree; [done|]. rewrite Hme. intros Heq. by rewrite bool_decide_eq_true_2 in Hb. }
    assert (Hokc : ctl_ok c) by (by rewrite <- Hc).
    kstep. apply wp_kacquire; [done|done|]. kstep. kstep. rewrite k_ctl_kset, !kset_kset.
    set (pr := get_proc p _). change pr with (get_proc p s). clear pr.
    assert (Hend : forall s', k_ctl s' = acquired (L_proc p) c ->
       (forall e, ctl_equiv c e -> Q tt (kset_ctl e s')) -> wp (krelease (L_proc p)) Q s').
    { intros s' Hs' H. apply (wp_krelease c); [done|done|by rewrite Hs'|done]. }
    kstep. destruct (bool_decide (p_state (get_proc p s) = SLEEPING) && bool_decide (p_chan (get_proc p s) = ch)) eqn:Hs; simpl.
    + kstep. apply Hend; [done|]. intros e He.
      replace (upd_proc p (set_p_state RUNNABLE) _)
        with (kset_ctl (acquired (L_proc p) c) (upd_proc p (wake ch me p) s)); [apply HQ; by rewrite Hc|].
      unfold upd_proc, kset_ctl, set_k_pt, set_k_mm. simpl. f_equal. f_equal.
      apply list_eq. intros i. rewrite !list_lookup_alter. destruct (decide (p = i)) as [->|]; [|done].
      unfold get_proc in Hs. destruct (procs (k_pt s) !! i); simpl in *; [|done]. unfold wake. by rewrite Hb, Hs.
    + kstep. apply Hend; [done|]. intros e He. rewrite kset_kset.
      replace s with (upd_proc p (wake ch me p) s); [apply HQ; by rewrite Hc|].
      apply upd_proc_id. unfold wake. by rewrite Hb, Hs.
Qed.

Lemma wp_wakeup ch me s (Q : unit -> kstate -> Prop) :
  procs_free (k_ctl s) -> cur (k_ctl s) = me -> length (procs (k_pt s)) = NPROC ->
  (forall c, ctl_equiv (k_ctl s) c -> Q tt (kset_ctl c (map_procs (wake ch me) s))) ->
  wp (wakeup ch) Q s.
Proof.
  intros Hf Hme Hlen HQ. unfold wakeup.
  apply (wp_for_procs (fun c => procs_free c /\ cur c = me) (wake ch me)); [|done|done| |done].
  - intros c d Hcd [H1 H2]. split; [by eapply procs_free_equiv|]. by rewrite <- (cur_equiv c d Hcd).
  - intros p s' R Hp [H1 H2] HR. by apply wp_wakeup_step with (me := me).
Qed.


(** ** kill() *)

Definition all_free (c : ctl) : Prop :=
  ctl_ok c /\ forall i, (i < NPROC)%nat -> free (L_proc i) c.

Lemma all_free_equiv c d : ctl_equiv c d -> all_free c -> all_free d.
Proof. intros H [Hok Hf]. split; [by rewrite <- H|]. intros i Hi. rewrite <- H. by apply Hf. Qed.

Lemma all_free_procs c : all_free c -> procs_free c.
Proof. intros [Hok Hf]. split; [done|]. auto. Qed.

(** What kill() does to its victim. *)
Definition mark_killed (p : proc) : proc :=
  if bool_decide (p_state p = SLEEPING) then set_p_state RUNNABLE (set_p_killed 1 p) else set_p_killed 1 p.

Lemma wp_kill_step pid p s (Q : option Z -> kstate -> Prop) :
  (p < NPROC)%nat -> all_free (k_ctl s) ->
  (forall c, ctl_equiv (k_ctl s) c ->
     if p_pid (get_proc p s) =? pid then Q (Some 0) (kset_ctl c (upd_proc p mark_killed s))
     else Q None (kset_ctl c s)) ->
  wp (kill_step pid p) Q s.
Proof.
  intros Hp [Hok Hfree] HQ. unfold kill_step. kstep. apply wp_kacquire; [done|by apply Hfree|].
  do 2 kstep. rewrite get_proc_kset.
  assert (Hend : forall (R : unit -> kstate -> Prop) s', k_ctl s' = acquired (L_proc p) (k_ctl s) ->
     (forall e, ctl_equiv (k_ctl s) e -> R tt (kset_ctl e s')) -> wp (krelease (L_proc p)) R s').
  { intros R s' Hs' H. apply (wp_krelease (k_ctl s)); [done|by apply Hfree|by rewrite Hs'|done]. }
  destruct (p_pid (get_proc p s) =? pid).
  - do 2 kstep. kstep. unfold when, mark_killed in *.
    destruct (bool_decide (p_state (get_proc p s) = SLEEPING)) eqn:Hs; kstep; kstep;
      (apply Hend; [done|]); intros e He; kstep;
      rewrite (upd_proc_ext p _ (if bool_decide (p_state (get_proc p s) = SLEEPING)
        then fun x => set_p_state RUNNABLE (set_p_killed 1 x) else set_p_killed 1)) in HQ by (by rewrite Hs);
      rewrite Hs in HQ; rewrite ?upd_proc_upd; by apply HQ.
  - kstep. apply Hend; [done|]. intros e He. kstep. by apply HQ.
Qed.

(** kill(pid) marks the first process with that pid as killed and makes it
    runnable if it sleeps, and touches nothing else; it returns -1 and changes
    nothing when there is none. *)
Theorem kill_spec pid s :
  all_free (k_ctl s) -> length (procs (k_pt s)) = NPROC ->
  wp (kill pid) (fun r s' => exists c, ctl_equiv (k_ctl s) c /\
    match list_find (fun p => p_pid p = pid) (procs (k_pt s)) with
    | Some (i, _) => r = 0 /\ s' = kset_ctl c (upd_proc i mark_killed s)
    | None => r = -1 /\ s' = kset_ctl c s
    end) s.
Proof.
  intros Hf Hlen. unfold kill. wp_step.
  assert (Hg : forall n k c (R : option Z -> kstate -> Prop), (k + n = NPROC)%nat -> ctl_equiv (k_ctl s) c ->
    (forall e, ctl_equiv (k_ctl s) e ->
       match list_find (fun p => p_pid p = pid) (drop k (procs (k_pt s))) with
       | Some (i, _) => R (Some 0) (kset_ctl e (upd_proc (k + i) mark_killed s))
       | None => R None (kset_ctl e s)
       end) -> wp (for_find (seq k n) (kill_step pid)) R (kset_ctl c s)).
  { induction n as [|n IH]; intros k c R Hk Hc HR; simpl.
    - apply wp_ret. specialize (HR c Hc). by rewrite drop_ge in HR by lia.
    - wp_step. apply wp_kill_step; [lia|by eapply all_free_equiv|]. intros d Hd. rewrite get_proc_kset.
      assert (Hd' : ctl_equiv (k_ctl s) d) by (by rewrite Hc).
      destruct (lookup_lt_is_Some_2 (procs (k_pt s)) k) as [x Hx]; [lia|].
      assert (Hgp : get_proc k s = x) by (unfold get_proc; by rewrite Hx). rewrite Hgp.
      rewrite (drop_S _ _ _ Hx) in HR. simpl in HR.
      destruct (Z.eqb_spec (p_pid x) pid) as [He|He].
      + apply wp_ret. specialize (HR d Hd'). rewrite decide_True in HR by done. by rewrite Nat.add_0_r in HR.
      + apply IH; [lia|done|]. intros e Hee. specialize (HR e Hee). rewrite decide_False in HR by done.
        destruct (list_find _ (drop (S k) _)) as [[i y]|]; simpl in HR; [|done].
        by rewrite Nat.add_succ_r in HR. }
  specialize (Hg NPROC 0%nat (k_ctl s)). rewrite kset_same in Hg. apply Hg; [done|done|].
  intros e He. rewrite drop_0.
  destruct (list_find _ _) as [[i y]|]; simpl; apply wp_ret; eauto.
Qed.

(** wakeup(chan) makes exactly the sleepers on that channel runnable, except
    the caller, and changes nothing else. *)
Theorem wakeup_exact ch s :
  procs_free (k_ctl s) -> length (procs (k_pt s)) = NPROC ->
  wp (wakeup ch) (fun _ s' => exists c, ctl_equiv (k_ctl s) c /\
    s' = kset_ctl c (map_procs (fun i p =>
      if decide (cur (k_ctl s) <> Some i /\ p_state p = SLEEPING /\ p_chan p = ch)
      then set_p_state RUNNABLE p else p) s)) s.
Proof.
  intros Hf Hlen. apply (wp_wakeup ch (cur (k_ctl s))); [done|done|done|]. intros c Hc. exists c.
  split; [done|]. f_equal. unfold map_procs. f_equal. f_equal. apply imap_ext. intros i p _. unfold wake.
  repeat case_bool_decide; simpl; case_decide; try done; tauto.
Qed.

(** ** reparent() *)

Lemma wake_parent ch me i ip p : wake ch me i (set_p_parent ip p) = set_p_parent ip (wake ch me i p).
Proof.
  unfold wake. destruct (bool_decide (me = Some i)); [done|].
  change (p_state (set_p_parent ip p)) with (p_state p). change (p_chan (set_p_parent ip p)) with (p_chan p).
  by destruct (bool_decide (p_state p = SLEEPING) && bool_decide (p_chan p = ch)).
Qed.

Lemma wake_wake ch me i p : wake ch me i (wake ch me i p) = wake ch me i p.
Proof.
  unfold wake. destruct (bool_decide (me = Some i)) eqn:Hm; [done|].
  destruct (bool_decide (p_state p = SLEEPING) && bool_decide (p_chan p = ch)) eqn:Hs; [|by rewrite Hs].
  simpl. done.
Qed.

Lemma p_parent_wake ch me i p : p_parent (wake ch me i p) = p_parent p.
Proof. unfold wake. repeat case_match; done. Qed.

(** Entry [i] once reparent() has looked at the first [k] entries, and has
    called wakeup() if [any]. *)
Definition adopt (par : nat) (ip me : option nat) (k : nat) (any : bool) (i : nat) (p : proc) : proc :=
  let p' := if any then wake (option_map Ch_proc ip) me i p else p in
  if (i <? k)%nat && bool_decide (p_parent p = Some par) then set_p_parent ip p' else p'.

Definition has_child (par k : nat) (l : list proc) : bool :=
  existsb (fun p => bool_decide (p_parent p = Some par)) (take k l).

Lemma has_child_S par k l x : l !! k = Some x ->
  has_child par (S k) l = has_child par k l || bool_decide (p_parent x = Some par).
Proof.
  intros Hx. unfold has_child. rewrite (take_S_r _ _ _ Hx), existsb_app. simpl.
  by rewrite orb_false_r.
Qed.

Lemma adopt_step par ip me k l x : l !! k = Some x -> p_parent x = Some par ->
  imap (wake (option_map Ch_proc ip) me) (alter (set_p_parent ip) k (imap (adopt par ip me k (has_child par k l)) l)) =
  imap (adopt par ip me (S k) (has_child par (S k) l)) l.
Proof.
  intros Hx Hp. rewrite (has_child_S par k l x Hx), bool_decide_eq_true_2, orb_true_r by done.
  apply list_eq. intros i. rewrite !list_lookup_imap, list_lookup_alter, list_lookup_imap.
  destruct (decide (k = i)) as [->|Hne].
  - rewrite Hx. simpl. f_equal. unfold adopt. rewrite Nat.ltb_irrefl. simpl.
    destruct (Nat.ltb_spec i (S i)); [|lia]. rewrite bool_decide_eq_true_2 by done. simpl.
    rewrite wake_parent. f_equal. destruct (has_child par i l); [by rewrite wake_wake|done].
  - rewrite list_lookup_imap. destruct (l !! i) as [y|]; [|done]. simpl. f_equal. unfold adopt.
    replace (i <? S k)%nat with (i <? k)%nat
      by (destruct (Nat.ltb_spec i k), (Nat.ltb_spec i (S k)); try lia; done).
    destruct ((i <? k)%nat && bool_decide (p_parent y = Some par)); rewrite ?wake_parent;
      destruct (has_child par k l); by rewrite ?wake_wake.
Qed.

Lemma adopt_skip par ip me k l x : l !! k = Some x -> p_parent x <> Some par ->
  imap (adopt par ip me k (has_child par k l)) l = imap (adopt par ip me (S k) (has_child par (S k) l)) l.
Proof.
  intros Hx Hp. rewrite (has_child_S par k l x Hx), bool_decide_eq_false_2, orb_false_r by done.
  apply list_eq. intros i. rewrite !list_lookup_imap. destruct (l !! i) as [y|] eqn:Hy; [|done]. simpl.
  f_equal. unfold adopt. destruct (decide (i = k)) as [->|].
  - rewrite Hx in Hy. injection Hy as <-. rewrite bool_decide_eq_false_2 by done. by rewrite !andb_false_r.
  - replace (i <? S k)%nat with (i <? k)%nat; [done|].
    destruct (Nat.ltb_spec i k), (Nat.ltb_spec i (S k)); try lia; done.
Qed.

Lemma wp_reparent par me s (Q : unit -> kstate -> Prop) :
  procs_free (k_ctl s) -> cur (k_ctl s) = me -> length (procs (k_pt s)) = NPROC ->
  (forall c, ctl_equiv (k_ctl s) c -> Q tt (kset_ctl c
     (map_procs (adopt par (initproc (k_pt s)) me NPROC (has_child par NPROC (procs (k_pt s)))) s))) ->
  wp (reparent par) Q s.
Proof.
  intros Hf Hme Hlen HQ. unfold reparent. set (ip := initproc (k_pt s)) in *. set (l := procs (k_pt s)) in *.
  assert (Hg : forall n k c, (k + n = NPROC)%nat -> ctl_equiv (k_ctl s) c ->
    wp (for_each (seq k n) (fun pp => pr <- getp pp;;
      when (bool_decide (p_parent pr = Some par))
        (ip <- gets (fun s => initproc (k_pt s));; updp pp (set_p_parent ip);; wakeup (option_map Ch_proc ip)))) Q
      (kset_ctl c (map_procs (adopt par ip me k (has_child par k l)) s))).
  { induction n as [|n IH]; intros k c Hk Hc; simpl.
    - apply wp_ret. replace k with NPROC by lia. by apply HQ.
    - kstep. kstep. kstep. rewrite get_proc_kset.
      destruct (lookup_lt_is_Some_2 l k) as [x Hx]; [lia|].
      assert (Hgp : p_parent (get_proc k (map_procs (adopt par ip me k (has_child par k l)) s)) = p_parent x).
      { unfold get_proc, map_procs. simpl. fold l. rewrite list_lookup_imap, Hx. simpl. unfold adopt.
        rewrite Nat.ltb_irrefl. simpl. destruct (has_child par k l); [apply p_parent_wake|done]. }
      rewrite Hgp. destruct (decide (p_parent x = Some par)) as [Hp|Hp].
      + rewrite bool_decide_eq_true_2 by done. simpl. kstep. kstep. kstep. kstep.
        apply (wp_wakeup _ me); [by eapply procs_free_equiv|change (cur c = me); by rewrite <- (cur_equiv _ c Hc)| |].
        * simpl. by rewrite length_alter, length_imap.
        * intros d Hd. replace (kset_ctl d _) with (kset_ctl d (map_procs (adopt par ip me (S k) (has_child par (S k) l)) s)).
          -- apply IH; [lia|]. by rewrite Hc.
          -- unfold map_procs, upd_proc, kset_ctl, set_k_pt, set_k_mm, set_procs. simpl. fold l. fold ip.
             by rewrite (adopt_step par ip me k l x Hx Hp).
      + rewrite bool_decide_eq_false_2 by done. simpl. kstep. unfold map_procs at 1. fold l.
        rewrite (adopt_skip par ip me k l x Hx Hp). apply IH; [lia|done]. }
  specialize (Hg NPROC 0%nat (k_ctl s)).
  replace (kset_ctl (k_ctl s) (map_procs (adopt par ip me 0 (has_child par 0 l)) s)) with s in Hg; [by apply Hg|].
  rewrite <- (kset_same s) at 1. f_equal. unfold map_procs. fold l. destruct s as [? ? [l0 ? ?] ? ? ?].
  unfold set_k_pt, set_procs. simpl. f_equal. f_equal. apply list_eq. intros i. rewrite list_lookup_imap.
  unfold l. simpl. destruct (l0 !! i); [|done]. simpl. done.
Qed.

(** reparent(p) gives every child of p to init and wakes init when there was
    one; afterwards p has no children (unless p is init itself), and no other
    field of any process changes. *)
Theorem reparent_adopts par s :
  procs_free (k_ctl s) -> length (procs (k_pt s)) = NPROC -> initproc (k_pt s) <> Some par ->
  wp (reparent par) (fun _ s' =>
    (forall i p, procs (k_pt s) !! i = Some p -> exists p', procs (k_pt s') !! i = Some p' /\
       p_parent p' = (if decide (p_parent p = Some par) then initproc (k_pt s) else p_parent p) /\
       (p' = set_p_parent (p_parent p') p \/
        p_state p = SLEEPING /\ p_chan p = option_map Ch_proc (initproc (k_pt s)) /\
        p' = set_p_state RUNNABLE (set_p_parent (p_parent p') p))) /\
    (forall p', In p' (procs (k_pt s')) -> p_parent p' <> Some par) /\
    (forall i p, (exists q, In q (procs (k_pt s)) /\ p_parent q = Some par) ->
       procs (k_pt s) !! i = Some p -> cur (k_ctl s) <> Some i ->
       p_state p = SLEEPING -> p_chan p = option_map Ch_proc (initproc (k_pt s)) ->
       p_state <$> procs (k_pt s') !! i = Some RUNNABLE)) s.
Proof.
  intros Hf Hlen Hip. apply (wp_reparent par (cur (k_ctl s))); [done|done|done|]. intros c Hc.
  set (l := procs (k_pt s)) in *. set (ip := initproc (k_pt s)) in *.
  change (procs (k_pt (kset_ctl c _))) with (imap (adopt par ip (cur (k_ctl s)) NPROC (has_child par NPROC l)) l).
  assert (Hlt : forall i p, l !! i = Some p -> (i <? NPROC)%nat = true).
  { intros i p Hi. apply lookup_lt_Some in Hi. destruct (Nat.ltb_spec i NPROC); [done|lia]. }
  split_and!.
  - intros i p Hi. rewrite list_lookup_imap, Hi. simpl. eexists. split; [done|]. unfold adopt.
    rewrite (Hlt i p Hi). simpl. case_decide as Hp; [rewrite bool_decide_eq_true_2 by done|
      rewrite bool_decide_eq_false_2 by done]; simpl; destruct (has_child par NPROC l); rewrite ?p_parent_wake;
      (split; [done|]); try (left; by destruct p); unfold wake;
      repeat case_bool_decide; simpl; try (left; by destruct p); right; by destruct p.
  - intros p' Hin. apply list_elem_of_In, list_elem_of_lookup in Hin as [i Hi]. rewrite list_lookup_imap in Hi.
    destruct (l !! i) as [p|] eqn:Hl; [|done]. simpl in Hi. injection Hi as <-. unfold adopt.
    rewrite (Hlt i p Hl). simpl. case_bool_decide; [done|]. by destruct (has_child par NPROC l); rewrite ?p_parent_wake.
  - intros i p (q & Hq & Hpq) Hi Hcur Hs Hch. rewrite list_lookup_imap, Hi. simpl. f_equal.
    assert (Hhas : has_child par NPROC l = true).
    { unfold has_child. rewrite take_ge by lia. apply existsb_exists. exists q. split; [done|].
      by apply bool_decide_eq_true_2. }
    assert (Hw : wake (option_map Ch_proc ip) (cur (k_ctl s)) i p = set_p_state RUNNABLE p).
    { unfold wake. rewrite (bool_decide_eq_false_2 (cur _ = Some i)) by done. by rewrite !bool_decide_eq_true_2. }
    unfold adopt. rewrite Hhas, Hw. by destruct ((i <? NPROC)%nat && _).
Qed.

(** ** sched() and sleep() *)

Section switch.
Context {E : Env}.

(** What sched() does after its checks: switch away, and put back the saved
    interrupt state. *)
Definition switch_away (ie : Z) : K unit :=
  swtch;; id <- lift_ctl mycpu;; lift_ctl (upd_cpu id (set_intena ie)).

Definition heldb (lk : lockid) (c : ctl) : bool :=
  truthy (locked (get_lock lk c)) && bool_decide (lk_cpu (get_lock lk c) = Some (hart c)).

Lemma heldb_held lk c : held lk c -> heldb lk c = true.
Proof. intros [H1 H2]. unfold heldb. rewrite H1, H2. by rewrite bool_decide_eq_true_2. Qed.

Lemma curproc_eq p s : ctl_ok (k_ctl s) -> cur (k_ctl s) = Some p ->
  exists c, ctl_equiv (k_ctl s) c /\ curproc s = Ret p (kset_ctl c s).
Proof.
  intros Hok Hc. destruct (wp_inv curproc (fun a s' => a = p /\ exists c, ctl_equiv (k_ctl s) c /\ s' = kset_ctl c s) s)
    as (a & s' & H & -> & c & Hcc & ->).
  - apply (wp_curproc p); [done|done|]. intros c Hcc. split; [done|]. by exists c.
  - by exists c.
Qed.

Lemma heldb_equiv lk c d : ctl_equiv c d -> heldb lk c = heldb lk d.
Proof.
  intros (Hh & _ & _ & Hl). destruct (Hl lk) as (E1 & _ & E2). unfold heldb. rewrite <- E1, <- Hh.
  unfold truthy. destruct (Z.eqb_spec (locked (get_lock lk c)) 0); [done|]. simpl. by rewrite E2.
Qed.

Lemma noff_equiv c d : ctl_equiv c d -> noff (get_cpu (hart c) c) = noff (get_cpu (hart d) d).
Proof. intros H. destruct (ctl_equiv_cpu c d (hart c) H) as (_ & _ & Hn & _). destruct H as (<- & _). done. Qed.

(** What sched() does, by cases. *)
Lemma sched_runs p s :
  ctl_ok (k_ctl s) -> cur (k_ctl s) = Some p ->
  exists c, ctl_equiv (k_ctl s) c /\
    sched s =
      (if negb (heldb (L_proc p) (k_ctl s)) then Panic "sched p->lock" (kset_ctl c s)
       else if negb (noff (get_cpu (hart (k_ctl s)) (k_ctl s)) =? 1) then Panic "sched locks" (kset_ctl c s)
       else if decide (p_state (get_proc p s) = RUNNING) then Panic "sched running" (kset_ctl c s)
       else switch_away (intena (get_cpu (hart c) c)) (kset_ctl c s)) /\
    (noff (get_cpu (hart (k_ctl s)) (k_ctl s)) = 1 -> intr_get_b c = false).
Proof.
  intros Hok Hcur. destruct (curproc_eq p s Hok Hcur) as (c & Hc & Hcp). exists c. split; [done|].
  assert (Hokc : ctl_ok c) by (by rewrite <- Hc). pose proof Hokc as (Hh & _ & _ & _ & Hi).
  rewrite (heldb_equiv _ _ _ Hc), (noff_equiv _ _ Hc). split; [|intros Hn; apply Hi; lia].
  unfold sched. rewrite (run_bind _ _ _ _ _ Hcp).
  assert (Hho : lift_ctl (holding (L_proc p)) (kset_ctl c s) = Ret (heldb (L_proc p) c) (kset_ctl c s)).
  { unfold lift_ctl, lift_mm, ctl_mm, lift, holding, mycpu, cpuid, gets, bind. simpl.
    by rewrite cpuid_ok by done. }
  rewrite (run_bind _ _ _ _ _ Hho). destruct (heldb (L_proc p) c); [|done].
  assert (Hno : get_noff (kset_ctl c s) = Ret (noff (get_cpu (hart c) c)) (kset_ctl c s)).
  { unfold get_noff, lift_ctl, lift_mm, ctl_mm, lift, mycpu, cpuid, gets, bind. simpl. by rewrite cpuid_ok by done. }
  cbn [negb]. rewrite (run_bind _ _ _ _ _ Hno).
  destruct (Z.eqb_spec (noff (get_cpu (hart c) c)) 1) as [Hn|Hn]; [|done]. cbn [negb].
  rewrite (run_bind (getp p) _ (get_proc p s) _ (kset_ctl c s)) by done.
  destruct (decide (p_state (get_proc p s) = RUNNING)); [done|].
  rewrite (run_bind (lift_ctl intr_get) _ 0 _ (kset_ctl c s)).
  2: { unfold lift_ctl, lift_mm, ctl_mm, lift, intr_get, gets. simpl. rewrite Hi by lia. done. }
  cbn [truthy negb Z.eqb].
  rewrite (run_bind (lift_ctl mycpu) _ (hart c) _ (kset_ctl c s)).
  2: { unfold lift_ctl, lift_mm, ctl_mm, lift, mycpu, cpuid, gets. simpl. by rewrite cpuid_ok by done. }
  by rewrite (run_bind (gets _) _ (intena (get_cpu (hart c) c)) _ (kset_ctl c s)).
Qed.

Lemma acquired_comm a b c : a <> b -> acquired a (acquired b c) = acquired b (acquired a c).
Proof.
  intros Hne. unfold acquired, pushed, set_locks, set_cpus, set_sstatus, get_lock, get_cpu, intr_get_b. simpl.
  f_equal. rewrite !lookup_insert_ne by done. by rewrite insert_insert_ne.
Qed.

Lemma cur_acquired lk c : ctl_ok c -> cur (acquired lk c) = cur c.
Proof. intros Hok. destruct (acquired_facts lk c Hok) as (_ & _ & _ & _ & H). exact H. Qed.

Lemma acquired_proper lk c d : ctl_equiv c d -> ctl_equiv (acquired lk c) (acquired lk d).
Proof.
  intros Heq. pose proof Heq as (Hh & Hs & HF & HL).
  pose proof (ctl_equiv_cpu c d (hart c) Heq) as (E1 & E2 & E3 & E4).
  split_and!; simpl; [done|by rewrite Hs| |].
  - rewrite <- Hh. unfold zupd. case_match; [done|]. apply Forall2_insert; [done|].
    unfold intr_get_b. rewrite <- Hs. rewrite <- E3.
    destruct (Z.eqb_spec (noff (get_cpu (hart c) c)) 0); split_and!; simpl; try done.
    intros Hn. destruct (decide (0 < noff (get_cpu (hart c) c))); [by apply E4|]. lia.
  - intros lk'. unfold acquired. destruct (decide (lk = lk')) as [<-|Hne].
    + rewrite !get_lock_upd. destruct (HL lk) as (_ & En & _). by rewrite Hh, En.
    + rewrite !get_lock_upd_ne by done. apply HL.
Qed.

(** How sleep() goes on once it is switched back to. *)
Definition sleep_wake (p : nat) (lk : lockid) (ie : Z) : K unit :=
  switch_away ie;;
  updp p (set_p_chan None);;
  krelease (L_proc p);;
  kacquire lk.

(** The state in which sleep() switches away. *)
Lemma sleep_switch p ch lk c0 s :
  ctl_ok c0 -> noff (get_cpu (hart c0) c0) = 0 -> cur c0 = Some p ->
  free lk c0 -> free (L_proc p) c0 -> lk <> L_proc p ->
  ctl_equiv (acquired lk c0) (k_ctl s) -> (p < length (procs (k_pt s)))%nat ->
  exists c1, let s1 := kset_ctl c1 (upd_proc p (fun x => set_p_state SLEEPING (set_p_chan (Some ch) x)) s) in
    sleep ch lk s = sleep_wake p lk (intena (get_cpu (hart c1) c1)) s1 /\
    ctl_equiv (acquired (L_proc p) c0) c1 /\ intr_get_b c1 = false /\
    p_state (get_proc p s1) = SLEEPING /\ p_chan (get_proc p s1) = Some ch.
Proof.
  intros Hok0 Hn0 Hcur0 Hfl Hfp Hne Heq Hp.
  destruct (acquired_facts lk c0 Hok0) as (Hok1 & Hh1 & Hlk1 & Hn1 & Hp1).
  assert (Hok : ctl_ok (k_ctl s)) by (by rewrite <- Heq).
  assert (Hcur : cur (k_ctl s) = Some p) by (by rewrite <- (cur_equiv _ _ Heq), cur_acquired).
  destruct (curproc_eq p s Hok Hcur) as (c & Hc & Hcp). unfold sleep. rewrite (run_bind _ _ _ _ _ Hcp).
  assert (Hc0 : ctl_equiv (acquired lk c0) c) by (by rewrite Heq).
  assert (Hfpc : free (L_proc p) c).
  { rewrite <- Hc0. unfold free. by rewrite Hlk1. }
  rewrite (run_bind (kacquire (L_proc p)) _ tt _ (kset_ctl (acquired (L_proc p) c) s)).
  2: { unfold kacquire, lift_ctl, lift_mm, ctl_mm, lift. simpl. rewrite acquire_eq; [done|by rewrite <- Hc0|done]. }
  destruct (acquired_facts (L_proc p) c0 Hok0) as (Hok2 & Hh2 & Hlk2 & Hn2 & Hp2).
  assert (Hacq : ctl_equiv (acquired lk (acquired (L_proc p) c0)) (acquired (L_proc p) c)).
  { rewrite acquired_comm by done. by apply acquired_proper. }
  destruct (crit lk (acquired (L_proc p) c0) (acquired (L_proc p) c)) as (e & Hrel & He);
    [done|unfold free; by rewrite Hlk2|done|].
  rewrite (run_bind (krelease lk) _ tt _ (kset_ctl e s)).
  2: { unfold krelease, lift_ctl, lift_mm, ctl_mm, lift. simpl. by rewrite Hrel. }
  set (s2 := upd_proc p (fun x => set_p_state SLEEPING (set_p_chan (Some ch) x)) (kset_ctl e s)).
  rewrite (run_bind (updp p _) _ tt _ s2) by done.
  assert (Hgp : p_state (get_proc p s2) = SLEEPING /\ p_chan (get_proc p s2) = Some ch).
  { unfold get_proc, s2, upd_proc. simpl. rewrite list_lookup_alter, decide_True by done.
    by destruct (lookup_lt_is_Some_2 _ _ Hp) as [x ->]. }
  assert (Hke : k_ctl s2 = e) by done.
  destruct (sched_runs p s2) as (c3 & Hc3 & Hsched & Hintr); rewrite ?Hke in *; [by rewrite <- He| |].
  { by rewrite <- (cur_equiv _ _ He), cur_acquired. }
  assert (Hnoff : noff (get_cpu (hart e) e) = 1) by (rewrite <- (noff_equiv _ _ He); change (hart (acquired (L_proc p) c0)) with (hart c0); lia).
  rewrite heldb_held, Hnoff in Hsched by (by rewrite <- He). cbn [negb Z.eqb] in Hsched.
  change (1 =? 1) with true in Hsched. cbn [negb] in Hsched.
  rewrite decide_False in Hsched by (destruct Hgp as [-> _]; done).
  exists c3. split_and!; [|by rewrite He|by apply Hintr|by destruct Hgp..]. unfold bind at 1. by rewrite Hsched.
Qed.

(** C31. sleep(chan, lk) called with only lk held reaches the switch in a state
    where lk is free, the process is SLEEPING on chan and its own lock is held,
    with interrupts off; nothing else of the machine has changed. *)
Theorem sleep_handoff p ch lk c0 s :
  ctl_ok c0 -> noff (get_cpu (hart c0) c0) = 0 -> cur c0 = Some p ->
  free lk c0 -> free (L_proc p) c0 -> lk <> L_proc p ->
  ctl_equiv (acquired lk c0) (k_ctl s) -> (p < length (procs (k_pt s)))%nat ->
  exists s1 ie, sleep ch lk s = sleep_wake p lk ie s1 /\
    (exists c1, s1 = kset_ctl c1 (upd_proc p (fun x => set_p_state SLEEPING (set_p_chan (Some ch) x)) s)) /\
    ctl_equiv (acquired (L_proc p) c0) (k_ctl s1) /\
    free lk (k_ctl s1) /\ held (L_proc p) (k_ctl s1) /\ intr_get_b (k_ctl s1) = false /\
    p_state (get_proc p s1) = SLEEPING /\ p_chan (get_proc p s1) = Some ch.
Proof.
  intros Hok0 Hn0 Hcur0 Hfl Hfp Hne Heq Hp. destruct (acquired_facts (L_proc p) c0 Hok0) as (_ & Hh & Hlk & _).
  destruct (sleep_switch p ch lk c0 s) as (c1 & Hrun & Hc1 & Hi & Hs & Hch); try done. eexists _, _. split; [exact Hrun|]. split; [by exists c1|].
  rewrite k_ctl_kset. split_and!; try done; [|by rewrite <- Hc1]. rewrite <- Hc1. unfold free. by rewrite Hlk.
Qed.

End switch.

(** ** A concrete machine

    Process 0 is init, process 1 runs on CPU 0 and holds no lock, process 2 is
    its child and sleeps on the clock, init sleeps in wait(). *)

Definition ctl1 : ctl := set_cpus (zupd (cpus ctl0) 0 (set_c_proc (Some 1%nat) cpu0)) ctl0.

Definition procs1 : list proc :=
  [ set_p_state SLEEPING (set_p_chan (Some (Ch_proc 0)) (set_p_pid 1 proc0));
    set_p_state RUNNING (set_p_pid 2 (set_p_parent (Some 0%nat) proc0));
    set_p_state SLEEPING (set_p_chan (Some Ch_ticks) (set_p_pid 3 (set_p_parent (Some 1%nat) proc0))) ] ++
  replicate 61 proc0.

Definition dev0 : devstate :=
  mkdevstate (mkconsole (replicate 128 0) 0 0 0) (mkuart (replicate 32 0) 0 0) 1 0 0 []
    (mkvdisk 0 0 0 (replicate 8 1) 0 (replicate 8 (None, 0)) (replicate 8 (0, 0, 0))).

Definition fs0 : fsstate :=
  mkfsstate [] (mklogstate 0 0 0 0 0 0 (replicate 30 0)) (mksuperblock 0 0 0 0 0 0 0 0) [] [] ∅ ∅ [].

Definition ks1 : kstate :=
  mkkstate (mkmm ctl1 ∅ 0) (mkregs 0 0 0 0 0 0) (mkptable procs1 (Some 0%nat) 4) fs0 dev0 (mkglobals 0 0 1 0).

Lemma ks1_free : all_free (k_ctl ks1).
Proof. split; [repeat split; by vm_compute|]. intros i _. done. Qed.

Lemma kill_spec_witness :
  wp (kill 3) (fun r s' => r = 0 /\ p_state (get_proc 2 s') = RUNNABLE /\ p_killed (get_proc 2 s') = 1) ks1 /\
  wp (kill 9) (fun r s' => r = -1) ks1.
Proof.
  split; eapply wp_mono; try (apply (kill_spec _ ks1); [apply ks1_free|done]).
  - intros r s' (c & _ & H). cbv [procs k_pt ks1 procs1 list_find app] in H.
    destruct H as [-> ->]. done.
  - intros r s' (c & _ & H).
    replace (list_find _ _) with (@None (nat * proc)) in H by (vm_compute; reflexivity).
    by destruct H as [-> _].
Defined.

Lemma wakeup_exact_witness :
  wp (wakeup (Some Ch_ticks)) (fun _ s' => p_state (get_proc 2 s') = RUNNABLE /\
                                           p_state (get_proc 0 s') = SLEEPING) ks1.
Proof.
  eapply wp_mono.
  - apply (wakeup_exact (Some Ch_ticks) ks1); [apply all_free_procs, ks1_free|done].
  - intros _ s' (c & _ & ->). by vm_compute.
Defined.

Lemma reparent_adopts_witness :
  wp (reparent 1) (fun _ s' => forall p', In p' (procs (k_pt s')) -> p_parent p' <> Some 1%nat) ks1.
Proof.
  eapply wp_mono.
  - apply (reparent_adopts 1 ks1); [apply all_free_procs, ks1_free|done|done].
  - intros _ s' (_ & H & _). exact H.
Defined.

Lemma sleep_handoff_witness :
  exists s1 ie, @sleep env0 Ch_ticks L_ticks (kset_ctl (acquired L_ticks ctl1) ks1) =
                @sleep_wake env0 1 L_ticks ie s1 /\
    p_state (get_proc 1 s1) = SLEEPING /\ free L_ticks (k_ctl s1).
Proof.
  destruct (@sleep_handoff env0 1 Ch_ticks L_ticks ctl1 (kset_ctl (acquired L_ticks ctl1) ks1))
    as (s1 & ie & H & _ & _ & Hf & _ & _ & Hs & _);
    [apply ks1_free|done|done|done|done|done|done|vm_compute; lia|].
  exists s1, ie. split; [exact H|]. split; [exact Hs|exact Hf].
Defined.
