(* ===== verification/FreeWalk.v ===== *)
(** * Freeing page tables (kernel/vm.c): freewalk(), uvmfree() and proc_freepagetable()

    freewalk() frees a tree of tables that maps nothing any more, depth first: the
    tables below an entry are freed, then the entry is cleared, and the table itself
    comes last.  Together with the frees of the user pages, every page that an address
    space owned is back on the free list. *)

From S2P Require Import Prelude Riscv Kstate CString Spinlock Kalloc Vm PageTable UserMem AddrSpace Sched SchedSpec.

(** ** Trees of a given depth *)

Definition path_n (n : nat) (q : list Z) : Prop := (length q <= n)%nat /\ Forall idx_ok q.
Definition sub (m : memory) (n : nat) (t u : Z) : Prop := exists q, path_n n q /\ tab_at m t q = Some u.

(** The tables below entry [i] of a table. *)
Definition below (m : memory) (n : nat) (t i u : Z) : Prop := valid (entry m t i) = true /\ sub m n (PTE2PA (entry m t i)) u.

Lemma path_n_cons n i q : path_n (S n) (i :: q) <-> idx_ok i /\ path_n n q.
Proof. unfold path_n. simpl. rewrite Forall_cons. split; [intros [? [? ?]]|intros [? [? ?]]]; split_and!; done || lia. Qed.

Lemma sub_0 m t u : sub m 0 t u <-> u = t.
Proof.
  split; [intros (q & [Hq _] & Hu)|intros ->; exists []; split; [split; [done|constructor]|done]].
  destruct q; simpl in *; [by injection Hu|lia].
Qed.

Lemma sub_S m n t u : sub m (S n) t u <-> u = t \/ exists i, idx_ok i /\ below m n t i u.
Proof.
  split.
  - intros ([|i q] & Hq & Hu); [left; by injection Hu|]. apply path_n_cons in Hq as [Hi Hq]. simpl in Hu.
    destruct (valid (entry m t i)) eqn:Hv; [|done]. right. exists i. split; [done|]. split; [done|]. by exists q.
  - intros [->|(i & Hi & Hv & q & Hq & Hu)]; [exists []; split; [split; [simpl; lia|constructor]|done]|].
    exists (i :: q). split; [by apply path_n_cons|]. simpl. by rewrite Hv.
Qed.

Section freewalk.
Context {E : Env} {L : LinkerOk}.

(** A tree of tables that maps no page. *)
Record bare (m : memory) (n : nat) (t : Z) (l : list Z) : Prop := {
  br_page : forall u, sub m n t u -> page_ok u /\ ~ In u l;
  br_inj : forall p q u, path_n n p -> path_n n q -> tab_at m t p = Some u -> tab_at m t q = Some u -> p = q;
  br_ptr : forall p i u, path_n n p -> idx_ok i -> tab_at m t p = Some u -> valid (entry m u i) = true ->
             is_ptr (entry m u i) = true /\ (length p < n)%nat
}.

Lemma bare_child m n t l i : bare m (S n) t l -> idx_ok i -> valid (entry m t i) = true ->
  bare m n (PTE2PA (entry m t i)) l /\ (forall u, below m n t i u -> u <> t) /\
  (forall j u, idx_ok j -> below m n t i u -> below m n t j u -> i = j).
Proof.
  intros [Hp Hj Hr] Hi Hv.
  assert (Hcons : forall q, tab_at m t (i :: q) = tab_at m (PTE2PA (entry m t i)) q) by (intros q; simpl; by rewrite Hv).
  split_and!.
  - split.
    + intros u Hu. apply Hp. apply sub_S. right. exists i. by split.
    + intros p q u Hpk Hqk Hu Hu'. assert (Hpq : i :: p = i :: q); [|by injection Hpq].
      apply (Hj _ _ u); rewrite ?Hcons; try done; by apply path_n_cons.
    + intros p j u Hpk Hjk Hu Hvu. destruct (Hr (i :: p) j u) as [H1 H2]; rewrite ?Hcons; try done; [by apply path_n_cons|].
      split; [done|]. simpl in H2. lia.
  - intros u (_ & q & Hq & Hu) ->. assert (Hc : [] = i :: q); [|done].
    apply (Hj _ _ t); rewrite ?Hcons; try done; [split; [simpl; lia|constructor]|by apply path_n_cons].
  - intros j u Hjk (_ & q & Hq & Hu) (Hvj & q' & Hq' & Hu'). assert (Hc : i :: q = j :: q'); [|by injection Hc].
    apply (Hj _ _ u); rewrite ?Hcons; try done; [by apply path_n_cons..|]. simpl. by rewrite Hvj.
Qed.

(** A tree depends on its own pages only. *)
Lemma sub_tab_at m m' n : forall t, (forall u, sub m n t u -> same_page m m' u) ->
  forall q, path_n n q -> tab_at m' t q = tab_at m t q.
Proof.
  induction n as [|n IH]; intros t Hs q Hq; (destruct q as [|i q]; [done|]); [destruct Hq as [Hq _]; simpl in Hq; lia|].
  apply path_n_cons in Hq as [Hi Hq]. simpl.
  assert (He : entry m' t i = entry m t i).
  { destruct (pte_addr_in t i Hi). apply load64_ext. intros b Hb. apply (Hs t); [|lia]. apply sub_S. by left. }
  rewrite He. destruct (valid (entry m t i)) eqn:Hv; [|done]. apply IH; [|done]. intros u Hu. apply Hs, sub_S. right. exists i. by split.
Qed.

Lemma sub_entry m m' n t u i : (forall u, sub m n t u -> same_page m m' u) -> sub m n t u -> idx_ok i -> entry m' u i = entry m u i.
Proof. intros Hs Hu Hi. destruct (pte_addr_in u i Hi). apply load64_ext. intros b Hb. apply (Hs u Hu). lia. Qed.

Lemma bare_stable m m' n t l l' : bare m n t l -> (forall u, sub m n t u -> same_page m m' u) -> (forall u, sub m n t u -> ~ In u l') ->
  bare m' n t l' /\ forall u, sub m' n t u <-> sub m n t u.
Proof.
  intros [Hp Hj Hr] Hs Hl'. pose proof (sub_tab_at m m' n t Hs) as He.
  assert (Hsub : forall u, sub m' n t u <-> sub m n t u).
  { intros u. split; intros (q & Hq & Hu); exists q; (split; [done|]); [by rewrite <- He|by rewrite He]. }
  split; [split|done].
  - intros u Hu. apply Hsub in Hu. split; [by apply Hp|by apply Hl'].
  - intros p q u Hpk Hqk. rewrite !He by done. by apply Hj.
  - intros p i u Hpk Hi. rewrite He by done. intros Hu. rewrite (sub_entry m m' n t u i Hs) by (done || by exists p). by apply Hr.
Qed.
(** ** The loop over the entries of a table *)

Section entries.
Context (m0 : memory) (n : nat) (t : Z) (l0 : list Z) (c0 : ctl).
Context (Hb : bare m0 (S n) t l0) (Hc0 : mm_ready c0).

(** The tables below the first [k] entries. *)
Definition below_upto (k u : Z) : Prop := exists i, 0 <= i < k /\ below m0 n t i u.

Record fw_inv (k : Z) (l : list Z) (s : mm) : Prop := {
  fw_range : 0 <= k <= 512;
  fw_ctl : ctl_equiv c0 (m_ctl s);
  fw_kmem : kmem_ok (m_mem s) (m_freelist s) l;
  fw_free : forall p, In p l <-> In p l0 \/ below_upto k p;
  fw_only : only (fun p => p = t \/ below_upto k p) m0 (m_mem s);
  fw_entry : forall j, k <= j < 512 -> entry (m_mem s) t j = entry m0 t j
}.

Lemma below_upto_S k u : 0 <= k -> below_upto (k + 1) u <-> below_upto k u \/ below m0 n t k u.
Proof.
  intros Hk. split.
  - intros (i & Hi & Hu). destruct (decide (i = k)) as [->|]; [by right|left]. exists i. split; [lia|done].
  - intros [(i & Hi & Hu)|Hu]; [exists i|exists k]; (split; [lia|done]).
Qed.

Lemma below_page i u : idx_ok i -> below m0 n t i u -> page_ok u /\ ~ In u l0 /\ u <> t.
Proof.
  intros Hi Hu. destruct (br_page _ _ _ _ Hb u) as [H1 H2]; [apply sub_S; right; by exists i|]. split_and!; [done|done|].
  destruct Hu as [Hv Hu]. destruct (bare_child _ _ _ _ _ Hb Hi Hv) as (_ & Hne & _). apply Hne. by split.
Qed.

Lemma below_other i k u : idx_ok k -> 0 <= i < k -> below m0 n t i u -> ~ below m0 n t k u.
Proof.
  intros Hk Hi Hu Hu'. assert (Hii : idx_ok i) by (unfold idx_ok in *; lia). pose proof Hu as [Hv _].
  destruct (bare_child _ _ _ _ _ Hb Hii Hv) as (_ & _ & Hinj). assert (i = k) by (by eapply Hinj). lia.
Qed.

Lemma root_page : page_ok t /\ ~ In t l0.
Proof. apply (br_page _ _ _ _ Hb). apply sub_S. by left. Qed.

(** An entry that is not in use needs nothing. *)
Lemma fw_skip k l s : fw_inv k l s -> k < 512 -> valid (entry m0 t k) = false -> fw_inv (k + 1) l s.
Proof.
  intros [H0 H1 H2 H3 H4 H5] Hk Hv. assert (Hno : forall u, ~ below m0 n t k u) by (intros u [Hv' _]; congruence).
  assert (Heq : forall u, below_upto (k + 1) u <-> below_upto k u) by (intros u; rewrite below_upto_S by lia; specialize (Hno u); tauto).
  split; [lia|done|done|intros p; by rewrite Heq| |intros j Hj; apply H5; lia].
  eapply only_mono; [|exact H4]. intros p. cbv beta. by rewrite Heq.
Qed.

(** The tree below the next entry is still as it was. *)
Lemma fw_child k l s : fw_inv k l s -> k < 512 -> valid (entry m0 t k) = true ->
  let c := PTE2PA (entry m0 t k) in bare (m_mem s) n c l /\ forall u, sub (m_mem s) n c u <-> sub m0 n c u.
Proof.
  intros [H0 H1 H2 H3 H4 H5] Hk Hv c. assert (Hi : idx_ok k) by (unfold idx_ok; lia). destruct (bare_child _ _ _ _ _ Hb Hi Hv) as (Hbc & _ & _).
  assert (Hbl : forall u, sub m0 n c u -> below m0 n t k u) by (intros u Hu; by split).
  eapply bare_stable; [exact Hbc|..].
  - intros u Hu. destruct (below_page k u Hi (Hbl u Hu)) as (Hpu & _ & Hne). eapply only_same_page; [exact H4|done|].
    intros q [->|(i & Hik & Hq)]; [split; [apply root_page|done]|]. destruct (below_page i q) as (Hpq & _); [unfold idx_ok; lia|done|].
    split; [done|]. intros ->. by apply (below_other i k u Hi Hik Hq), Hbl.
  - intros u Hu Hin. apply H3 in Hin as [Hin|(i & Hik & Hq)].
    + by destruct (below_page k u Hi (Hbl u Hu)) as (_ & ? & _).
    + by apply (below_other i k u Hi Hik Hq), Hbl.
Qed.

(** The tables below the entry are freed, the entry is cleared. *)
Lemma fw_clear k l s l' s' : fw_inv k l s -> k < 512 -> valid (entry m0 t k) = true ->
  ctl_equiv (m_ctl s) (m_ctl s') -> kmem_ok (m_mem s') (m_freelist s') l' ->
  (forall p, In p l' <-> In p l \/ below m0 n t k p) -> only (below m0 n t k) (m_mem s) (m_mem s') ->
  fw_inv (k + 1) l' (set_m_mem (store64 (m_mem s') (pte_addr t k) 0) s').
Proof.
  intros [H0 H1 H2 H3 H4 H5] Hk Hv Hc Hkm Hl Ho. assert (Hi : idx_ok k) by (unfold idx_ok; lia). destruct root_page as [Htp Htl].
  destruct (pte_addr_in t k Hi) as [Ha1 Ha2].
  assert (Hso : same_outside t (m_mem s') (store64 (m_mem s') (pte_addr t k) 0)) by (intros b Hbb; apply load8_store64_out; lia).
  assert (Hnt : forall u, below_upto (k + 1) u -> u <> t).
  { intros u (i & Hik & Hu). by destruct (below_page i u) as (_ & _ & ?); [unfold idx_ok; lia|done|]. }
  assert (Hsame : same_page (m_mem s) (m_mem s') t).
  { eapply only_same_page; [exact Ho|done|]. intros q Hq. destruct (below_page k q Hi Hq) as (? & _ & ?). done. }
  split; cbn [set_m_mem m_mem m_ctl m_freelist].
  - lia.
  - by etransitivity.
  - eapply kmem_ok_outside; [exact Hso|apply store64_ok, Hkm|done| |done]. rewrite Hl, H3. intros [[H|H]|H]; [done| |].
    + apply (Hnt t); [|done]. apply below_upto_S; [lia|by left].
    + apply (Hnt t); [|done]. apply below_upto_S; [lia|by right].
  - intros p. rewrite Hl, H3, below_upto_S by lia. tauto.
  - eapply only_trans; [eapply only_mono; [|exact H4]|eapply only_trans; [eapply only_mono; [|exact Ho]|eapply only_mono; [|by apply only_outside]]];
      intros p; cbv beta; rewrite below_upto_S by lia; [tauto|tauto|]. intros <-. by left.
  - intros j Hj. rewrite <- (H5 j) by lia. unfold entry. rewrite load64_store64_out by (unfold pte_addr; lia).
    apply load64_ext. intros b Hbb. destruct (pte_addr_in t j) as [? ?]; [unfold idx_ok; lia|]. apply Hsame. lia.
Qed.
End entries.

(** ** freewalk() *)

(** The pages of [A] are freed, and only they are written. *)
Definition given_back (l : list Z) (s : mm) (A : Z -> Prop) (l' : list Z) (s' : mm) : Prop :=
  ctl_equiv (m_ctl s) (m_ctl s') /\ kmem_ok (m_mem s') (m_freelist s') l' /\ (forall p, In p l' <-> In p l \/ A p) /\
  only A (m_mem s) (m_mem s').

Lemma seq_idx k : (k < 512)%nat -> map Z.of_nat (seq k (512 - k)) = Z.of_nat k :: map Z.of_nat (seq (S k) (512 - S k)).
Proof. intros Hk. replace (512 - k)%nat with (S (512 - S k)) by lia. done. Qed.

(** A table without valid entries. *)
Lemma wp_freewalk_leaf fuel t l s (Q : unit -> mm -> Prop) : mm_ready (m_ctl s) -> kmem_ok (m_mem s) (m_freelist s) l -> bare (m_mem s) 0 t l ->
  (forall l' s', given_back l s (sub (m_mem s) 0 t) l' s' -> Q tt s') -> wp (freewalk (S fuel) t) Q s.
Proof.
  intros Hrd Hk Hb HQ. cbn [freewalk]. wp_step.
  assert (Hv : forall i, idx_ok i -> valid (entry (m_mem s) t i) = false).
  { intros i Hi. destruct (valid (entry (m_mem s) t i)) eqn:Hv; [|done]. destruct (br_ptr _ _ _ _ Hb [] i t) as [_ H]; [by split|done|done|done|]. simpl in H. lia. }
  eapply wp_mono; [apply (wp_for_each (fun li s' => s' = s /\ forall i, In i li -> idx_ok i))|].
  - split; [done|]. intros i Hin. by apply In_idxs.
  - intros i li s' [-> Hli]. unfold ld64. wp_steps. fold (entry (m_mem s) t i). fold (valid (entry (m_mem s) t i)). rewrite Hv by (apply Hli; by left).
    simpl. wp_step. split; [done|]. intros j Hj. apply Hli. by right.
  - intros _ s' [-> _]. destruct (br_page _ _ _ _ Hb t) as [Htp Htl]; [by apply sub_0|]. apply (wp_kfree s t l); [done..|].
    intros c m' Hc Hso Hk'. apply (HQ (t :: l)). split_and!; [done|done|intros p; rewrite sub_0; simpl; intuition congruence|].
    eapply only_mono; [|by apply only_outside]. intros p <-. by apply sub_0.
Qed.

Lemma wp_freewalk n : forall fuel t l s (Q : unit -> mm -> Prop), (n < fuel)%nat ->
  mm_ready (m_ctl s) -> kmem_ok (m_mem s) (m_freelist s) l -> bare (m_mem s) n t l ->
  (forall l' s', given_back l s (sub (m_mem s) n t) l' s' -> Q tt s') -> wp (freewalk fuel t) Q s.
Proof.
  induction n as [|n IH]; intros fuel t l s Q Hfuel Hrd Hk Hb HQ; (destruct fuel as [|fuel]; [lia|]).
  - by apply (wp_freewalk_leaf fuel t l s).
  - cbn [freewalk]. wp_step. set (m0 := m_mem s) in *. set (c0 := m_ctl s) in *.
    eapply wp_mono; [apply (wp_for_each (fun li s' => exists k l', li = map Z.of_nat (seq k (512 - k)) /\ (k <= 512)%nat /\ fw_inv m0 n t l c0 (Z.of_nat k) l' s'))|].
    + exists 0%nat, l. split_and!; [done|lia|]. assert (Hno : forall u, ~ below_upto m0 n t 0 u) by (intros u (i & Hi & _); lia).
      split; [lia|done|done|intros p; specialize (Hno p); tauto|apply only_refl|done].
    + intros i li s' (k & l' & Heq & Hk512 & Hinv). destruct (decide (k = 512%nat)) as [->|Hk']; [done|].
      rewrite seq_idx in Heq by lia. injection Heq as -> ->. assert (Hi : idx_ok (Z.of_nat k)) by (unfold idx_ok; lia).
      unfold ld64. wp_steps. fold (entry (m_mem s') t (Z.of_nat k)). rewrite (fw_entry _ _ _ _ _ _ _ _ Hinv) by lia.
      fold (valid (entry m0 t (Z.of_nat k))). fold (is_ptr (entry m0 t (Z.of_nat k))). destruct (valid (entry m0 t (Z.of_nat k))) eqn:Hv.
      * destruct (br_ptr _ _ _ _ Hb [] (Z.of_nat k) t) as [-> _]; [by split; [simpl; lia|]|done|done|done|]. cbn [andb]. cbv iota. wp_step.
        destruct (fw_child m0 n t l c0 Hb _ _ _ Hinv ltac:(lia) Hv) as [Hbc Hsub].
        apply (IH fuel _ l' s'); [lia|eapply mm_ready_equiv; [apply Hinv|done]|apply Hinv|done|].
        intros l2 s2 (Hc2 & Hk2 & Hl2 & Ho2). unfold st64, mem_mm. wp_step. exists (S k), l2. split; [done|]. split; [lia|].
        rewrite Nat2Z.inj_succ. apply (fw_clear m0 n t l c0 Hb _ l' s'); [done|lia|done|done|done| |].
        -- intros p. rewrite Hl2, Hsub. unfold below. tauto.
        -- eapply only_mono; [|exact Ho2]. intros p Hp. apply Hsub in Hp. by split.
      * simpl. wp_step. exists (S k), l'. split; [done|]. split; [lia|]. rewrite Nat2Z.inj_succ. apply (fw_skip m0 n t l c0); [done|lia|done].
    + intros _ s' (k & l' & Heq & Hk512 & Hinv). assert (k = 512%nat) as ->.
      { destruct (decide (k = 512%nat)); [done|]. by rewrite seq_idx in Heq by lia. }
      destruct (root_page _ _ _ _ Hb) as [Htp Htl]. destruct Hinv as [_ H1 H2 H3 H4 _].
      assert (Hup : forall u, below_upto m0 n t (Z.of_nat 512) u <-> exists i, idx_ok i /\ below m0 n t i u) by done.
      apply (wp_kfree s' t l'); [eapply mm_ready_equiv; [exact H1|done]|done|done| |].
      * rewrite H3, Hup. intros [|(i & Hi & Hu)]; [done|]. by destruct (below_page m0 n t l Hb i t Hi Hu) as (_ & _ & ?).
      * intros c m' Hc Hso Hk'. apply (HQ (t :: l')). split_and!.
        -- by etransitivity.
        -- done.
        -- intros p. rewrite sub_S. simpl. rewrite H3, Hup. intuition congruence.
        -- eapply only_trans; [eapply only_mono; [|exact H4]|eapply only_mono; [|by apply only_outside]]; intros p; cbv beta; rewrite sub_S, ?Hup; [tauto|]. intros <-. by left.
Qed.

(** ** uvmfree() *)

(** The address of three indices. *)
Lemma va_of_idx i j k : 0 <= i < 256 -> idx_ok j -> idx_ok k -> exists va, 0 <= va < MAXVA /\ PX 2 va = i /\ PX 1 va = j /\ PX 0 va = k.
Proof.
  unfold idx_ok. intros Hi Hj Hk. exists (i * 2 ^ 30 + j * 2 ^ 21 + k * 2 ^ 12). rewrite MAXVA_eq, !PX_div by lia.
  change (2 ^ (12 + 9 * 2)) with 1073741824. change (2 ^ (12 + 9 * 1)) with 2097152. change (2 ^ (12 + 9 * 0)) with 4096.
  change (2 ^ 30) with 1073741824. change (2 ^ 21) with 2097152. change (2 ^ 12) with 4096. change (2 ^ 38) with 274877906944. Z.div_mod_to_equations. lia.
Qed.

(** A page table that maps nothing is bare. *)
Lemma bare_space top root l s : space top (fun _ => None) root l s ∅ -> bare (m_mem s) 2 root l.
Proof.
  intros Hsp. pose proof (vi_pt _ _ _ (sp_inv _ _ _ _ _ _ Hsp)) as Hpt. split.
  - intros u (q & Hq & Hu). by apply (pt_pages _ _ _ Hpt q).
  - intros p q u. apply (pt_inj _ _ _ Hpt).
  - intros p i u Hp Hi Hu Hv. destruct (decide (length p < 2)%nat) as [Hlt|Hge].
    + split; [|done]. apply (pt_ptr _ _ _ Hpt p i u); [|done|done]. destruct Hp as [Hl Hf]. split; [rewrite length_app; simpl; lia|].
      apply Forall_app. split; [done|by constructor].
    + exfalso. destruct p as [|a [|b [|]]]; [simpl in Hge; lia..| |destruct Hp as [Hl _]; simpl in Hl; lia].
      destruct Hp as [_ Hf]. apply Forall_cons in Hf as [Ha Hf]. apply Forall_cons in Hf as [Hb _].
      assert (Ha' : 0 <= a < 256).
      { destruct (decide (a < 256)); [unfold idx_ok in Ha; lia|]. simpl in Hu. rewrite (pt_low _ _ _ Hpt a) in Hu by (unfold idx_ok in Ha; lia). done. }
      destruct (va_of_idx a b i Ha' Hb Hi) as (va & Hva & <- & <- & <-). pose proof (sp_view _ _ _ _ _ _ Hsp va Hva) as Hview.
      unfold view, pte_of, leaf_tab, at_page in Hview. rewrite Hu, Hv, lookup_empty in Hview. done.
Qed.

Definition space_page (m : memory) (root : Z) (pm : pagemap) (p : Z) : Prop := is_table m root p \/ user_page pm p.

Lemma wp_uvmfree top root l s pm sz (Q : unit -> mm -> Prop) : 0 <= top /\ top * PGSIZE <= MAXVA ->
  space top (fun _ => None) root l s pm -> (forall j, is_Some (pm !! j) <-> 0 <= j < npages sz) -> 0 <= sz <= top * PGSIZE ->
  (forall l' s', given_back l s (space_page (m_mem s) root pm) l' s' -> Q tt s') -> wp (uvmfree root sz) Q s.
Proof.
  intros Htop Hsp Hdom Hsz HQ. assert (Hn : 0 <= npages sz <= top) by (split; [unfold npages, PGSIZE; Z.div_mod_to_equations; lia|apply npages_top; lia]).
  assert (Hfw : forall l1 s1, space top (fun _ => None) root l1 s1 ∅ -> shrunk root l s (user_page pm) l1 s1 -> wp (freewalk 4 root) Q s1).
  { intros l1 s1 Hsp1 [Hc Hf Ht Ho]. apply (wp_freewalk 2 4 root l1 s1); [lia|apply Hsp1|apply Hsp1|by eapply bare_space|].
    intros l2 s2 (Hc2 & Hk2 & Hl2 & Ho2). assert (Hsub : forall p, sub (m_mem s1) 2 root p <-> is_table (m_mem s) root p) by exact Ht. apply (HQ l2 s2). split_and!.
    - by etransitivity.
    - done.
    - intros p. rewrite Hl2, Hf, Hsub. unfold space_page. tauto.
    - unfold space_page. eapply only_trans; (eapply only_mono; [|eassumption]); intros p; cbv beta; rewrite ?Hsub; tauto. }
  unfold uvmfree. wp_step. destruct (Z.ltb_spec 0 sz) as [Hpos|Hz]; cbn [when].
  - rewrite PGROUNDUP_npages, Z.div_mul by (done || lia). replace (npages sz) with (Z.of_nat (Z.to_nat (npages sz))) by lia.
    assert (Hr : forall p, range_page pm 0 (Z.to_nat (npages sz)) p <-> user_page pm p).
    { intros p. split; [intros (j & f & _ & Hj); by exists j, f|]. intros (j & f & Hj). exists j, f. split; [|done].
      assert (0 <= j < npages sz) by (apply Hdom; by rewrite Hj). lia. }
    change (uvmunmap root 0) with (uvmunmap root (0 * PGSIZE)). apply (wp_uvmunmap top (fun _ => None) Htop ltac:(done) root l s pm 0); [done|lia|lia| |].
    + intros j Hj. apply Hdom. lia.
    + intros l1 s1 Hsp1 [Hc Hf Ht Ho]. apply (Hfw l1).
      * assert (Hcut : cut 0 (Z.to_nat (npages sz)) pm = ∅); [|by rewrite <- Hcut]. apply map_eq. intros j. rewrite cut_lookup, lookup_empty.
        case_decide; [done|]. destruct (pm !! j) eqn:Hj; [|done]. assert (0 <= j < npages sz) by (apply Hdom; by rewrite Hj). lia.
      * split; [done|intros p; by rewrite Hf, Hr|done|]. eapply only_mono; [|exact Ho]. intros p. cbv beta. by rewrite Hr.
  - assert (sz = 0) as -> by lia. assert (Hempty : pm = ∅).
    { apply map_eq. intros j. rewrite lookup_empty. destruct (pm !! j) eqn:Hj; [|done]. assert (0 <= j < npages 0) by (apply Hdom; by rewrite Hj).
      change (npages 0) with 0 in *. lia. }
    wp_step. apply (Hfw l); [by rewrite <- Hempty|]. assert (Hno : forall p, ~ user_page pm p) by (intros p (j & f & Hj); by rewrite Hempty, lookup_empty in Hj).
    split; [done|intros p; specialize (Hno p); tauto|done|apply only_refl].
Qed.

(** ** The pages at the top: trampoline and trap frame *)

Definition upd_rest (rest : Z -> option Z) (i : Z) (v : option Z) (j : Z) : option Z := if decide (j = i) then v else rest j.

Lemma wp_map_rest top rest root l s pm i pa perm (Q : Z -> mm -> Prop) : space top rest root l s pm ->
  0 <= top <= i -> (i + 1) * PGSIZE <= MAXVA -> rest i = None -> 0 <= perm < 1024 -> flags_ok (Z.lor perm PTE_V) -> 0 <= pa < 2 ^ 55 ->
  (forall l' s', space top (upd_rest rest i (Some (leaf pa (Z.lor perm PTE_V)))) root l' s' pm -> grown root l s l' s' -> Q 0 s') ->
  (forall s', space top rest root [] s' pm -> grown root l s [] s' -> Q (-1) s') ->
  wp (mappages root (i * PGSIZE) PGSIZE pa perm) Q s.
Proof.
  intros Hsp Hi Hmax Hr Hperm Hfl Hpa Hok Hfail.
  assert (Hpm : pm !! i = None) by (destruct (pm !! i) as [[p f]|] eqn:Hp; [destruct (sp_keys _ _ _ _ _ _ Hsp i p f Hp); lia|done]).
  destruct Hsp as [Hinv Hview Hkeys Hpage Hinj]. apply (wp_mappages_one root l s i pa perm); [done|lia|done|done|done|done| | |].
  - intros va Hva Hd. rewrite Hview by done. unfold at_page. by rewrite Hd, Hpm.
  - intros l' s' Hinv' Hg Hv. apply (Hok l' s'); [|done]. split; [done| |done|intros p Hu; eapply grown_page; [done|by apply Hpage]|done].
    intros va Hva. rewrite Hv by done. unfold at_page, upd_rest. case_decide as Hd; [by rewrite Hd, Hpm|]. by apply Hview.
  - intros s' Hinv' Hg Hv. apply Hfail; [|done]. split; [done| |done|intros p Hu; eapply grown_page; [done|by apply Hpage]|done].
    intros va Hva. rewrite Hv by done. by apply Hview.
Qed.

Lemma wp_unmap_rest top rest root l s pm i pa fl (Q : unit -> mm -> Prop) : space top rest root l s pm ->
  0 <= top <= i -> (i + 1) * PGSIZE <= MAXVA -> rest i = Some (leaf pa fl) -> flags_ok fl -> 0 <= pa < 2 ^ 55 ->
  (forall s', space top (upd_rest rest i None) root l s' pm -> shrunk root l s (fun _ => False) l s' -> Q tt s') ->
  wp (uvmunmap root (i * PGSIZE) 1 false) Q s.
Proof.
  intros Hsp Hi Hmax Hr Hfl Hpa HQ. pose proof (sp_inv _ _ _ _ _ _ Hsp) as Hinv.
  assert (Hpm : pm !! i = None) by (destruct (pm !! i) as [[p f]|] eqn:Hp; [destruct (sp_keys _ _ _ _ _ _ Hsp i p f Hp); lia|done]).
  assert (Hva : 0 <= i * PGSIZE < MAXVA) by (unfold PGSIZE in *; lia).
  assert (Hv : view (m_mem s) root (i * PGSIZE) = Some (leaf pa fl)) by (rewrite (sp_view _ _ _ _ _ _ Hsp) by done; unfold at_page; by rewrite Z.div_mul, Hpm).
  destruct (view_leaf_tab _ _ _ _ Hv) as (t & Ht & He). destruct (clear_leaf root l s (i * PGSIZE) t Hinv Hva Ht) as (Hi1 & Htab & Hit & Hso1 & Hv1).
  unfold uvmunmap. rewrite Z.mod_mul by done. simpl negb. cbv iota. change (S (Z.to_nat 1)) with 2%nat. unfold u64.
  assert (HM := MAXVA_eq). rewrite Z.mod_small by (unfold PGSIZE in *; lia). cbn [loop]. wp_step. unfold uvmunmap_step at 1.
  destruct (Z.ltb_spec (i * PGSIZE) (i * PGSIZE + 1 * PGSIZE)); [|unfold PGSIZE in *; lia]. wp_step. apply wp_walk_read; [lia|].
  rewrite Ht, (leaf_tab_pos root l s _ t Hinv Ht). unfold ld64. wp_steps. fold (entry (m_mem s) t (PX 0 (i * PGSIZE))). rewrite He.
  pose proof (leaf_valid pa fl Hfl) as Hval. unfold valid, truthy in Hval. apply negb_true_iff in Hval. rewrite Hval.
  assert (Hflags : PTE_FLAGS (leaf pa fl) = fl) by (apply PTE_FLAGS_pte; [lia|apply Hfl]). rewrite Hflags.
  destruct (Z.eqb_spec fl PTE_V); [by destruct Hfl as (_ & _ & ?)|]. wp_step. cbn [when]. wp_step. unfold st64, mem_mm. wp_steps.
  unfold u64. rewrite Z.mod_small by (unfold PGSIZE in *; lia). unfold uvmunmap_step.
  destruct (Z.ltb_spec (i * PGSIZE + PGSIZE) (i * PGSIZE + 1 * PGSIZE)); [lia|]. wp_steps. apply HQ.
  - split; [done|..]; cbn [set_m_mem m_mem].
    + intros va Hr'. rewrite Hv1, Z.div_mul by done. unfold at_page, upd_rest. case_decide as Hd; [by rewrite Hd, Hpm|]. by apply Hsp.
    + apply Hsp.
    + intros p Hu. rewrite Htab. by apply Hsp.
    + apply Hsp.
  - split; cbn [set_m_mem m_mem m_ctl]; [done|tauto|done|]. eapply only_mono; [|by apply only_outside]. intros p <-. by right.
Qed.

(** ** proc_pagetable() and proc_freepagetable() *)

Lemma space_ext top rest rest' root l s pm : (forall i, rest i = rest' i) -> space top rest root l s pm -> space top rest' root l s pm.
Proof. intros He [H1 H2 H3 H4 H5]. split; try done. intros va Hva. rewrite H2 by done. unfold at_page. by rewrite He. Qed.

(** An empty table. *)
Lemma zero_table top root l s : page_ok root -> ~ In root l -> filled (m_mem s) root (fun _ => 0) -> mm_ready (m_ctl s) ->
  kmem_ok (m_mem s) (m_freelist s) l ->
  space top (fun _ => None) root l s ∅ /\ forall t, is_table (m_mem s) root t <-> t = root.
Proof.
  intros Hp Hl Hf Hrd Hk.
  assert (He : forall j, idx_ok j -> entry (m_mem s) root j = 0).
  { intros j Hj. destruct (pte_addr_in root j Hj). unfold entry. rewrite (load64_ext _ ∅); [by vm_compute|]. intros b Hb.
    replace b with (root + (b - root)) by lia. rewrite Hf by lia. done. }
  assert (Ht : forall q t, path_ok q -> tab_at (m_mem s) root q = Some t -> q = [] /\ t = root).
  { intros [|i q] t Hq Ht; [by injection Ht as <-|]. destruct Hq as [_ Hq]. apply Forall_cons in Hq as [Hi _]. simpl in Ht. by rewrite He in Ht. }
  split; [split|].
  - split; [done|done|]. split.
    + intros q t Hq Hqt. by apply Ht in Hqt as [_ ->].
    + intros p q t Hpk Hqk Hp' Hq'. apply Ht in Hp' as [-> _], Hq' as [-> _]; done.
    + intros p j t Hpk Hpt Hv. apply Ht in Hpt as [-> ->]; [|by eapply path_ok_app]. by rewrite He in Hv by (by eapply path_ok_last).
    + intros j Hj. by rewrite He by (unfold idx_ok; lia).
  - intros va Hva. unfold view, pte_of, leaf_tab, at_page. destruct (tab_at (m_mem s) root [PX 2 va; PX 1 va]) as [t|] eqn:Htt; [|done].
    by apply Ht in Htt as [? _]; [|apply path_va_ok].
  - intros j pa fl Hj. by rewrite lookup_empty in Hj.
  - intros p (j & fl & Hj). by rewrite lookup_empty in Hj.
  - intros j k p f g Hj. by rewrite lookup_empty in Hj.
  - intros t. split; [intros (q & Hq & Hqt); by apply (Ht q t Hq) in Hqt as [_ ->]|intros ->; exists []; split; [split; [simpl; lia|constructor]|done]].
Qed.

(** The free list holds the same pages as before; only they were written. *)
Definition reclaimed (l : list Z) (s : mm) (l' : list Z) (s' : mm) : Prop :=
  ctl_equiv (m_ctl s) (m_ctl s') /\ kmem_ok (m_mem s') (m_freelist s') l' /\ (forall p, In p l' <-> In p l) /\ only (fun p => In p l) (m_mem s) (m_mem s').

(** [root] was built from free pages. *)
Record built_from_free (l : list Z) (s : mm) (root : Z) (l' : list Z) (s' : mm) : Prop := {
  bf_ctl : ctl_equiv (m_ctl s) (m_ctl s');
  bf_ledger : forall p, In p l <-> In p l' \/ is_table (m_mem s') root p;
  bf_only : only (fun p => In p l) (m_mem s) (m_mem s')
}.

Lemma wp_uvmcreate top l s (Q : Z -> mm -> Prop) : mm_ready (m_ctl s) -> kmem_ok (m_mem s) (m_freelist s) l ->
  (forall root l' s', page_ok root -> space top (fun _ => None) root l' s' ∅ -> built_from_free l s root l' s' -> Q root s') ->
  (forall l' s', reclaimed l s l' s' -> Q 0 s') -> wp uvmcreate Q s.
Proof.
  intros Hrd Hk Hok Hfail. unfold uvmcreate. wp_step. destruct l as [|p l].
  - pose proof (km_rep _ _ _ Hk) as Hr. simpl in Hr. apply wp_kalloc_nil; [done|done|]. intros c Hc. simpl. wp_step. apply (Hfail []).
    split_and!; [done|done|done|apply only_refl].
  - apply (wp_kalloc_cons s p l); [done|done|]. intros c fl Hc Hk' Hp Hni. destruct (page_ok_pos p Hp) as [Hpos _].
    destruct (Z.eqb_spec p 0); [lia|]. unfold mem_mm. wp_steps. set (m1 := memset (m_mem s) p 5 PGSIZE) in *. cbn [m_mem set_m_mem m_ctl m_freelist].
    destruct (zero_table top p l (mkmm c (memset m1 p 0 PGSIZE) fl)) as [Hsp Ht]; cbn [m_mem m_ctl m_freelist]; [done|done| | | |].
    + intros k Hk0. by rewrite memset_load_in by lia.
    + by eapply mm_ready_equiv.
    + eapply kmem_ok_outside; [apply memset_same_outside|apply memset_ok, Hk'|done|done|done].
    + apply (Hok p l); [done|exact Hsp|]. split; cbn [m_mem m_ctl m_freelist].
      * done.
      * intros x. rewrite (Ht x). simpl. intuition congruence.
      * intros b Hb. assert (Hbp : outside b p) by (apply Hb; by left). unfold m1. transitivity (load8 (memset (m_mem s) p 5 PGSIZE) b); by apply memset_same_outside.
Qed.

(** An operation on the new table takes its pages from the free list too. *)
Lemma built_grown l s root l1 s1 l2 s2 : built_from_free l s root l1 s1 -> vm_inv root l1 s1 -> grown root l1 s1 l2 s2 -> built_from_free l s root l2 s2.
Proof.
  intros [Hc Hl Ho] Hinv [Hgc [used ->] Hgt Hgo]. split.
  - by etransitivity.
  - intros p. rewrite Hl, Hgt, in_app_iff. destruct (in_dec Z.eq_dec p l2); tauto.
  - eapply only_trans; [exact Ho|]. eapply only_mono; [|exact Hgo]. intros p Hp. apply Hl. destruct Hp; tauto.
Qed.

Lemma built_shrunk l s root l1 s1 s2 : built_from_free l s root l1 s1 -> shrunk root l1 s1 (fun _ => False) l1 s2 -> built_from_free l s root l1 s2.
Proof.
  intros [Hc Hl Ho] [Hsc _ Hst Hso]. split.
  - by etransitivity.
  - intros p. by rewrite Hl, Hst.
  - eapply only_trans; [exact Ho|]. eapply only_mono; [|exact Hso]. intros p [[]|Hp]. apply Hl. by right.
Qed.

(** Freeing the new table gives everything back. *)
Lemma wp_uvmfree_built top l s root l1 s1 (Q : unit -> mm -> Prop) : 0 <= top /\ top * PGSIZE <= MAXVA -> built_from_free l s root l1 s1 ->
  space top (fun _ => None) root l1 s1 ∅ -> (forall l' s', reclaimed l s l' s' -> Q tt s') -> wp (uvmfree root 0) Q s1.
Proof.
  intros Htop [Hc Hl Ho] Hsp HQ. apply (wp_uvmfree top root l1 s1 ∅ 0); [done|done| |unfold PGSIZE in *; lia|].
  - intros j. rewrite lookup_empty. change (npages 0) with 0. split; [intros H; by apply is_Some_None in H|lia].
  - intros l' s' (Hc' & Hk' & Hl' & Ho'). assert (Hno : forall p, ~ user_page ∅ p) by (intros p (j & f & Hj); by rewrite lookup_empty in Hj).
    apply (HQ l' s'). split_and!; [by etransitivity|done|intros p; rewrite Hl', Hl; unfold space_page; specialize (Hno p); tauto|].
    eapply only_trans; [exact Ho|]. eapply only_mono; [|exact Ho']. intros p [Hp|Hp]; [apply Hl; by right|by destruct (Hno p)].
Qed.

(** The user part of an address space ends at the trap frame. *)
Definition utop : Z := TRAPFRAME / PGSIZE.

Lemma utop_ok : 0 <= utop /\ utop * PGSIZE <= MAXVA.
Proof. by vm_compute. Qed.

(** The translations above: the trap frame's page and the trampoline. *)
Definition proc_rest (tf : Z) : Z -> option Z :=
  upd_rest (upd_rest (fun _ => None) (utop + 1) (Some (leaf trampoline (Z.lor (Z.lor PTE_R PTE_X) PTE_V))))
    utop (Some (leaf tf (Z.lor (Z.lor PTE_R PTE_W) PTE_V))).

Lemma proc_rest_low tf i : 0 <= i < utop -> proc_rest tf i = None.
Proof. intros Hi. unfold proc_rest, upd_rest. rewrite !decide_False by lia. done. Qed.

Lemma trampoline_range : 0 <= trampoline < 2 ^ 55.
Proof. destruct trampoline_in_kernel, end_in_ram. unfold PHYSTOP, KERNBASE in *. lia. Qed.

Lemma wp_unmap_trampoline root l s rest pm (Q : unit -> mm -> Prop) : space utop rest root l s pm ->
  rest (utop + 1) = Some (leaf trampoline (Z.lor (Z.lor PTE_R PTE_X) PTE_V)) ->
  (forall s', space utop (upd_rest rest (utop + 1) None) root l s' pm -> shrunk root l s (fun _ => False) l s' -> Q tt s') ->
  wp (uvmunmap root TRAMPOLINE 1 false) Q s.
Proof.
  intros Hsp Hr HQ. replace TRAMPOLINE with ((utop + 1) * PGSIZE) by (vm_compute; reflexivity).
  apply (wp_unmap_rest utop rest root l s pm (utop + 1) trampoline (Z.lor (Z.lor PTE_R PTE_X) PTE_V)); [done|by vm_compute|by vm_compute|done|by vm_compute|apply trampoline_range|done].
Qed.

(** proc_pagetable() on memory, with the trap frame at [tf]. *)
Definition pagetable_mm (tf : Z) : MM Z :=
  pagetable <- uvmcreate;;
  if pagetable =? 0 then ret 0
  else
    r <- mappages pagetable TRAMPOLINE PGSIZE trampoline (Z.lor PTE_R PTE_X);;
    if r <? 0 then uvmfree pagetable 0;; ret 0
    else
      r <- mappages pagetable TRAPFRAME PGSIZE tf (Z.lor PTE_R PTE_W);;
      if r <? 0 then
        uvmunmap pagetable TRAMPOLINE 1 false;;
        uvmfree pagetable 0;;
        ret 0
      else ret pagetable.

Lemma proc_pagetable_eq q : proc_pagetable q = (pr <- getp q;; lift_mm (pagetable_mm (p_trapframe pr))).
Proof. done. Qed.

Lemma wp_proc_pagetable_mm tf l s (Q : Z -> mm -> Prop) : 0 <= tf < 2 ^ 55 -> mm_ready (m_ctl s) -> kmem_ok (m_mem s) (m_freelist s) l ->
  (forall root l' s', page_ok root -> space utop (proc_rest tf) root l' s' ∅ -> built_from_free l s root l' s' -> Q root s') ->
  (forall l' s', reclaimed l s l' s' -> Q 0 s') ->
  wp (pagetable_mm tf) Q s.
Proof.
  intros Htf Hrd Hk Hok Hfail. unfold pagetable_mm. wp_step. apply (wp_uvmcreate utop l s); [done|done| |intros l' s' Hr; simpl; wp_step; by eapply Hfail].
  intros root l1 s1 Hroot Hsp1 Hb1. destruct (page_ok_pos root Hroot) as [Hpos _]. destruct (Z.eqb_spec root 0); [lia|]. wp_step.
  replace TRAMPOLINE with ((utop + 1) * PGSIZE) at 1 by (vm_compute; reflexivity).
  apply (wp_map_rest utop (fun _ => None) root l1 s1 ∅ (utop + 1) trampoline); [done|by vm_compute|by vm_compute|done|by vm_compute|by vm_compute|apply trampoline_range| |].
  - intros l2 s2 Hsp2 Hg2. pose proof (built_grown _ _ _ _ _ _ _ Hb1 (sp_inv _ _ _ _ _ _ Hsp1) Hg2) as Hb2. simpl. wp_step.
    replace TRAPFRAME with (utop * PGSIZE) by (vm_compute; reflexivity).
    eapply (wp_map_rest utop _ root l2 s2 ∅ utop tf); [done|by vm_compute|by vm_compute|by vm_compute|by vm_compute|by vm_compute|done| |].
    + intros l3 s3 Hsp3 Hg3. simpl. wp_step. eapply Hok; [done|exact Hsp3|]. by eapply built_grown; [|apply Hsp2|].
    + intros s3 Hsp3 Hg3. simpl. wp_step. eapply wp_unmap_trampoline; [exact Hsp3|unfold upd_rest; by rewrite decide_True|].
      intros s4 Hsp4 Hs4. wp_step. eapply (wp_uvmfree_built utop l s root [] s4); [apply utop_ok| | |].
      * eapply built_shrunk; [|exact Hs4]. by eapply built_grown; [|apply Hsp2|].
      * eapply space_ext; [|exact Hsp4]. intros j. unfold upd_rest. by repeat case_decide.
      * intros l5 s5 Hr. wp_step. by eapply Hfail.
  - intros s2 Hsp2 Hg2. simpl. wp_step. eapply (wp_uvmfree_built utop l s root [] s2); [apply utop_ok|by eapply built_grown; [|apply Hsp1|]|done|].
    intros l5 s5 Hr. wp_step. by eapply Hfail.
Qed.

Lemma wp_proc_freepagetable root l s pm tf sz (Q : unit -> mm -> Prop) : 0 <= tf < 2 ^ 55 -> space utop (proc_rest tf) root l s pm ->
  (forall j, is_Some (pm !! j) <-> 0 <= j < npages sz) -> 0 <= sz <= utop * PGSIZE ->
  (forall l' s', given_back l s (space_page (m_mem s) root pm) l' s' -> Q tt s') -> wp (proc_freepagetable root sz) Q s.
Proof.
  intros Htf Hsp Hdom Hsz HQ. unfold proc_freepagetable. wp_step.
  eapply wp_unmap_trampoline; [exact Hsp|unfold proc_rest, upd_rest; rewrite decide_False by (by vm_compute); by rewrite decide_True|].
  intros s1 Hsp1 [Hc1 _ Ht1 Ho1]. wp_step. replace TRAPFRAME with (utop * PGSIZE) by (vm_compute; reflexivity).
  eapply (wp_unmap_rest utop _ root l s1 pm utop tf (Z.lor (Z.lor PTE_R PTE_W) PTE_V));
    [exact Hsp1|by vm_compute|by vm_compute|unfold proc_rest, upd_rest; rewrite decide_False by (by vm_compute); by rewrite decide_True|by vm_compute|done|].
  intros s2 Hsp2 [Hc2 _ Ht2 Ho2]. apply (wp_uvmfree utop root l s2 pm sz); [apply utop_ok| |done|done|].
  - eapply space_ext; [|exact Hsp2]. intros j. unfold proc_rest, upd_rest. by repeat case_decide.
  - intros l3 s3 (Hc3 & Hk3 & Hl3 & Ho3). assert (Hsp_eq : forall p, space_page (m_mem s2) root pm p <-> space_page (m_mem s) root pm p).
    { intros p. unfold space_page. by rewrite Ht2, Ht1. }
    apply (HQ l3 s3). split_and!; [etransitivity; [exact Hc1|]; by etransitivity|done|intros p; by rewrite Hl3, Hsp_eq|].
    eapply only_trans; [|eapply only_trans; [|]]; (eapply only_mono; [|eassumption]); intros p; cbv beta; rewrite ?Hsp_eq, ?Ht1; unfold space_page; tauto.
Qed.

(** ** The memory of a process, from fork() to freeproc() *)

Section child.
Context (old : Z) (tfp tf sz : Z) (l : list Z) (s0 : mm) (pmo : pagemap).
Context (Htf : 0 <= tf < 2 ^ 55) (Hold : space utop (proc_rest tfp) old l s0 pmo).
Context (Hsz : 0 <= sz <= utop * PGSIZE) (Hdom : forall j, 0 <= j < npages sz -> is_Some (pmo !! j)).

Definition parent_page (p : Z) : Prop := is_table (m_mem s0) old p \/ user_page pmo p.

Lemma parent_not_free p : parent_page p -> page_ok p /\ ~ In p l.
Proof.
  intros [Hp|Hp]; [by eapply table_page; [apply Hold|]|]. by destruct (sp_page _ _ _ _ _ _ Hold p Hp) as (? & ? & _).
Qed.

(** The parent survives whatever happens to pages that were free. *)
Definition parent_kept (l' : list Z) (s' : mm) : Prop :=
  space utop (proc_rest tfp) old l' s' pmo /\ forall p, user_page pmo p -> same_page (m_mem s0) (m_mem s') p.

Lemma parent_kept_intro l' s' : ctl_equiv (m_ctl s0) (m_ctl s') -> kmem_ok (m_mem s') (m_freelist s') l' ->
  (forall p, In p l' -> In p l) -> only (fun p => In p l) (m_mem s0) (m_mem s') -> parent_kept l' s'.
Proof.
  intros Hc Hk Hl Ho. assert (Hpg : forall p, parent_page p -> same_page (m_mem s0) (m_mem s') p).
  { intros p Hp. destruct (parent_not_free p Hp) as [Hpo Hpl]. eapply only_same_page; [exact Ho|done|]. intros q Hq.
    split; [eapply free_page; [apply Hold|done]|by intros ->]. }
  split; [|intros p Hp; apply Hpg; by right]. eapply space_stable; [exact Hold|intros t Ht; apply Hpg; by left| |done|].
  - eapply mm_ready_equiv; [exact Hc|apply Hold].
  - intros p Hp Hin. destruct (parent_not_free p Hp) as [_ Hpl]. auto.
Qed.

(** A child that owns, with the free list, the pages that were free. *)
Record child_of (root sz' : Z) (l' : list Z) (s' : mm) (pm : pagemap) : Prop := {
  ch_space : space utop (proc_rest tf) root l' s' pm;
  ch_dom : forall j, is_Some (pm !! j) <-> 0 <= j < npages sz';
  ch_ledger : forall p, In p l' \/ space_page (m_mem s') root pm p <-> In p l;
  ch_ctl : ctl_equiv (m_ctl s0) (m_ctl s');
  ch_only : only (fun p => In p l) (m_mem s0) (m_mem s')
}.

Lemma child_built root l1 s1 : space utop (proc_rest tf) root l1 s1 ∅ -> built_from_free l s0 root l1 s1 -> child_of root 0 l1 s1 ∅.
Proof.
  intros Hsp [Hc Hl Ho]. split; [done| | |done|done].
  - intros j. rewrite lookup_empty. change (npages 0) with 0. split; [intros H; by apply is_Some_None in H|lia].
  - intros p. rewrite Hl. unfold space_page. assert (~ user_page ∅ p) by (intros (j & f & Hj); by rewrite lookup_empty in Hj). tauto.
Qed.

(** uvmcopy() into the new table. *)
Lemma wp_child_copy root l1 s1 (Q : Z -> mm -> Prop) : child_of root 0 l1 s1 ∅ ->
  (forall l2 s2 pm, child_of root sz l2 s2 pm ->
     (forall j pa fl, pmo !! j = Some (pa, fl) -> 0 <= j < npages sz ->
        exists pa', pm !! j = Some (pa', fl) /\ forall k, 0 <= k < PGSIZE -> load8 (m_mem s2) (pa' + k) = load8 (m_mem s0) (pa + k)) -> Q 0 s2) ->
  (forall l2 s2, child_of root 0 l2 s2 ∅ -> Q (-1) s2) -> wp (uvmcopy old root sz) Q s1.
Proof.
  intros [Hsp Hd Hl Hc Ho] Hok Hfail.
  assert (Hno : forall p, ~ user_page ∅ p) by (intros p (j & f & Hj); by rewrite lookup_empty in Hj).
  assert (Hl1 : forall p, In p l <-> In p l1 \/ is_table (m_mem s1) root p) by (intros p; rewrite <- Hl; unfold space_page; specialize (Hno p); tauto).
  destruct (parent_kept_intro l1 s1 Hc (vi_kmem _ _ _ (sp_inv _ _ _ _ _ _ Hsp))) as [Hpar Hsame]; [intros p Hp; apply Hl1; by left|done|].
  assert (Htab : forall t, is_table (m_mem s1) old t <-> is_table (m_mem s0) old t).
  { intros t. apply stable_tables. intros u Hu. destruct (parent_not_free u (or_introl Hu)) as [Huo Hul]. eapply only_same_page; [exact Ho|done|].
    intros q Hq. split; [eapply free_page; [apply Hold|done]|by intros ->]. }
  eapply wp_mono; [apply (uvmcopy_copies utop (proc_rest tfp) (proc_rest tf) utop_ok (proc_rest_low tf) old root l1 s1 pmo Hpar Hsp); [|done|done]|].
  - intros p Hp Ht. destruct (parent_not_free p) as [_ Hpl]; [destruct Hp as [Hp|Hp]; [left; by apply Htab|by right]|]. apply Hpl, Hl1. by right.
  - intros r s2 (l2 & _ & _ & [(-> & pm & Ha)|(-> & Hr)]).
    + apply (Hok l2 s2 pm).
      * assert (Hdm : forall j, is_Some (pm !! j) <-> 0 <= j < npages sz) by (eapply added_dom; [|exact Ha|unfold npages, PGSIZE; Z.div_mod_to_equations; lia|exact Hd]; lia).
        split; [apply Ha|done| | |].
        -- intros p. rewrite Hl1. pose proof (ad_ledger _ _ _ _ _ _ _ _ _ _ _ _ _ Ha p) as Hg. pose proof (ad_free _ _ _ _ _ _ _ _ _ _ _ _ _ Ha p) as Hf.
           assert (Hu : user_page pm p <-> range_page pm 0 (Z.to_nat (npages sz - 0)) p).
           { split; [intros (j & f & Hj)|intros (j & f & _ & Hj); by exists j, f]. exists j, f. split; [|done].
             assert (0 <= j < npages sz) by (apply Hdm; by rewrite Hj). lia. }
           unfold space_page. rewrite Hu. clear - Hg Hf. destruct (in_dec Z.eq_dec p l2); tauto.
        -- etransitivity; [exact Hc|apply Ha].
        -- eapply only_trans; [exact Ho|]. eapply only_mono; [|apply Ha]. intros p Hp. apply Hl1. destruct Hp; tauto.
      * intros j pa fl Hj Hr. destruct (ad_new _ _ _ _ _ _ _ _ _ _ _ _ _ Ha j Hr) as (pa' & Hpm & _ & Hf). exists pa'. unfold src_flags, src_byte, src in *.
        rewrite Hj in *. split; [done|]. intros k Hk. rewrite (Hf k Hk). simpl. apply (Hsame pa); [by exists j, fl|lia].
    + apply (Hfail l2 s2). destruct Hr as [H1 H2 H3 H4]. split; [done|done| | |].
      * intros p. rewrite Hl1. specialize (H3 p). unfold space_page. specialize (Hno p). tauto.
      * by etransitivity.
      * eapply only_trans; [exact Ho|]. eapply only_mono; [|exact H4]. intros p Hp. apply Hl1. destruct Hp; tauto.
Qed.

(** proc_freepagetable() of the child. *)
Lemma wp_child_free root sz' l2 s2 pm (Q : unit -> mm -> Prop) : child_of root sz' l2 s2 pm -> 0 <= sz' <= utop * PGSIZE ->
  (forall l3 s3, reclaimed l s0 l3 s3 -> parent_kept l3 s3 -> Q tt s3) -> wp (proc_freepagetable root sz') Q s2.
Proof.
  intros [Hsp Hd Hl Hc Ho] Hs' HQ. apply (wp_proc_freepagetable root l2 s2 pm tf); [done|done|done|done|].
  intros l3 s3 (Hc3 & Hk3 & Hl3 & Ho3).
  assert (Hr : reclaimed l s0 l3 s3).
  { split_and!; [by etransitivity|done|intros p; rewrite Hl3; apply Hl|]. eapply only_trans; [exact Ho|]. eapply only_mono; [|exact Ho3].
    intros p Hp. apply Hl. by right. }
  apply (HQ l3 s3); [done|]. destruct Hr as (R1 & R2 & R3 & R4). apply parent_kept_intro; [done|done|intros p; apply R3|done].
Qed.
End child.

(** The memory of a child, from fork() to freeproc(): proc_pagetable(), uvmcopy() of
    the parent and proc_freepagetable() with the child's size (0 when the copy failed)
    leave exactly the pages free that were free before, whether memory runs out on the
    way or not, and the parent's translations and the bytes of its pages as they were. *)
Theorem child_memory_reclaimed q old tfp sz l s pmo :
  0 <= p_trapframe (get_proc q s) < 2 ^ 55 -> space utop (proc_rest tfp) old l (k_mm s) pmo ->
  0 <= sz <= utop * PGSIZE -> (forall j, 0 <= j < npages sz -> is_Some (pmo !! j)) ->
  wp (pt <- proc_pagetable q;;
      if pt =? 0 then ret tt
      else
        r <- lift_mm (uvmcopy old pt sz);;
        lift_mm (proc_freepagetable pt (if r <? 0 then 0 else sz)))
     (fun _ s' => exists l', (forall p, In p l' <-> In p l) /\ space utop (proc_rest tfp) old l' (k_mm s') pmo /\
        (forall p, user_page pmo p -> same_page (m_mem (k_mm s)) (m_mem (k_mm s')) p) /\
        ctl_equiv (m_ctl (k_mm s)) (m_ctl (k_mm s'))) s.
Proof.
  intros Htf Hold Hsz Hdom. set (tf := p_trapframe (get_proc q s)) in *. set (s0 := k_mm s) in *.
  assert (Hend : forall l' s', reclaimed l s0 l' s' -> parent_kept old tfp s0 pmo l' s' ->
    exists l'', (forall p, In p l'' <-> In p l) /\ space utop (proc_rest tfp) old l'' s' pmo /\
      (forall p, user_page pmo p -> same_page (m_mem s0) (m_mem s') p) /\ ctl_equiv (m_ctl s0) (m_ctl s')).
  { intros l' s' (H1 & _ & H3 & _) [H5 H6]. by exists l'. }
  rewrite proc_pagetable_eq. wp_step. wp_step. unfold getp. wp_step. apply wp_lift. fold tf s0.
  apply (wp_proc_pagetable_mm tf l s0); [done|apply Hold|apply Hold| |].
  - intros root l1 s1 Hroot Hsp1 Hb1. destruct (page_ok_pos root Hroot) as [Hpos _]. destruct (Z.eqb_spec root 0); [lia|].
    assert (Hch : child_of tf l s0 root 0 l1 s1 ∅) by (eapply child_built; eassumption). wp_step. apply wp_lift.
    apply (wp_child_copy old tfp tf sz l s0 pmo Htf Hold Hsz Hdom root l1 s1); [done| |].
    + intros l2 s2 pm Hc2 _. simpl. apply wp_lift.
      eapply (wp_child_free old tfp tf); [done|exact Hold|exact Hc2|done|exact Hend].
    + intros l2 s2 Hc2. simpl. apply wp_lift.
      eapply (wp_child_free old tfp tf); [done|exact Hold|exact Hc2|lia|exact Hend].
  - intros l' s' Hr. simpl. wp_step. apply (Hend l' s'); [done|]. destruct Hr as (R1 & R2 & R3 & R4).
    eapply parent_kept_intro; try done. intros p. apply R3.
Qed.

End freewalk.

(** ** A concrete machine

    Eight pages are freed; the parent gets a page table and one page of memory. *)

Definition dpages : list Z := map (fun i => 0x80030000 + Z.of_nat i * PGSIZE) (seq 0 8).
Definition demo_mm : mm := run (for_each dpages (@kfree env0)) mm0.

Lemma demo_mm_ready : mm_ready (m_ctl demo_mm).
Proof. split; [split_and!; by vm_compute|by vm_compute]. Qed.

Lemma demo_mm_kmem : @kmem_ok env0 (m_mem demo_mm) (m_freelist demo_mm) (rev dpages).
Proof.
  split.
  - apply mem_ok_check. by vm_compute.
  - by vm_compute.
  - apply (bool_decide_unpack _). by vm_compute.
  - repeat constructor; by vm_compute.
Qed.

Definition demo_tf : Z := 0x80070000.
Definition demo_parent : MM Z := pt <- @pagetable_mm env0 demo_tf;; if pt =? 0 then ret 0 else @uvmalloc env0 pt 0 PGSIZE PTE_W.

Definition returned {A} (r : res mm A) (d : A) : A := match r with Ret a _ => a | _ => d end.

Lemma returned_bind {A B} (m : MM A) (f : A -> MM B) s0 d a s : m s0 = Ret a s -> returned ((a <- m;; f a) s0) d = returned (f a s) d.
Proof. intros He. unfold bind. by rewrite He. Qed.

Lemma returned_both (m : MM Z) (b : bool) s : returned ((t <- m;; ret (b && negb (t =? 0))) s) false = true -> b = true /\ returned (m s) 0 =? 0 = false.
Proof. unfold bind. destruct (m s) as [t s'| |]; simpl; [|done..]. by destruct b, (t =? 0). Qed.

(** A process with a page of memory exists, and memory is left for another table. *)
Lemma demo_space : exists old l s pm, @space env0 utop (@proc_rest env0 demo_tf) old l s pm /\ (forall j, is_Some (pm !! j) <-> 0 <= j < npages PGSIZE) /\
  (forall p, In p l \/ space_page (m_mem s) old pm p -> In p (rev dpages)) /\ returned (uvmcreate s) 0 =? 0 = false.
Proof.
  assert (Hwp : wp demo_parent (fun r s => r = 0 \/ exists old l pm, @space env0 utop (@proc_rest env0 demo_tf) old l s pm /\
    (forall j, is_Some (pm !! j) <-> 0 <= j < npages PGSIZE) /\ forall p, In p l \/ space_page (m_mem s) old pm p -> In p (rev dpages)) demo_mm).
  { unfold demo_parent. wp_step. apply (@wp_proc_pagetable_mm env0 env0_ok demo_tf (rev dpages)); [by vm_compute|apply demo_mm_ready|apply demo_mm_kmem| |].
    - intros root l1 s1 Hroot Hsp Hb. destruct (@page_ok_pos env0 env0_ok root Hroot) as [Hpos _]. destruct (Z.eqb_spec root 0); [lia|]. eapply wp_mono.
      + apply (@uvmalloc_grows env0 env0_ok utop _ utop_ok (proc_rest_low demo_tf) root l1 s1 ∅ 0 PGSIZE PTE_W Hsp); [|done|by vm_compute|done].
        intros j. rewrite lookup_empty. change (npages 0) with 0. split; [intros H; by apply is_Some_None in H|lia].
      + intros r s' (l' & [(-> & pm & Ha)|[-> _]]); [right|by left]. exists root, l', pm. split; [apply Ha|].
        assert (Hd : forall j, is_Some (pm !! j) <-> 0 <= j < npages PGSIZE).
        { eapply added_dom; [|exact Ha|done|]; [done|]. intros j. rewrite lookup_empty. change (npages 0) with 0. split; [intros H; by apply is_Some_None in H|lia]. }
        split; [done|]. intros p Hp. apply (bf_ledger _ _ _ _ _ Hb). pose proof (ad_free _ _ _ _ _ _ _ _ _ _ _ _ _ Ha p). pose proof (ad_ledger _ _ _ _ _ _ _ _ _ _ _ _ _ Ha p) as Hlg.
        assert (user_page pm p -> range_page pm (npages 0) (Z.to_nat (npages PGSIZE - npages 0)) p); [|unfold space_page in Hp; tauto].
        intros (j & fl & Hj). exists j, fl. split; [|done]. assert (0 <= j < npages PGSIZE) by (apply Hd; by rewrite Hj). change (npages 0) with 0. lia.
    - intros l' s' _. simpl. wp_step. by left. }
  assert (Hc : returned ((r <- demo_parent;; t <- uvmcreate;; ret (negb (r =? 0) && negb (t =? 0))) demo_mm) false = true) by (vm_compute; reflexivity).
  destruct (wp_inv _ _ _ Hwp) as (r & s & He & Hr). apply (eq_trans (eq_sym (returned_bind _ _ _ _ _ _ He))) in Hc. clear He. apply returned_both in Hc as [Hc1 Hc2].
  destruct Hr as [->|(old & l & pm & H1 & H2 & H3)]; [discriminate Hc1|]. exists old, l, s, pm. split_and!; [exact H1|exact H2|exact H3|exact Hc2].
Qed.

Lemma uvmalloc_grows_witness : exists root l s pm, wp (@uvmalloc env0 root PGSIZE (2 * PGSIZE) PTE_W) (fun r _ => r = 2 * PGSIZE \/ r = 0) s /\
  @space env0 utop (@proc_rest env0 demo_tf) root l s pm.
Proof.
  destruct demo_space as (root & l & s & pm & Hsp & Hdom & _). exists root, l, s, pm. split; [|done]. eapply wp_mono.
  - apply (@uvmalloc_grows env0 env0_ok utop _ utop_ok (proc_rest_low demo_tf) root l s pm PGSIZE (2 * PGSIZE) PTE_W Hsp Hdom); [done|by vm_compute|done].
  - intros r s' (l' & [[-> _]|[-> _]]); [by left|by right].
Defined.

(** A second, empty page table beside it. *)
Lemma demo_pair : exists old new l s pm, @space env0 utop (@proc_rest env0 demo_tf) old l s pm /\ @space env0 utop (fun _ => None) new l s ∅ /\
  (forall j, is_Some (pm !! j) <-> 0 <= j < npages PGSIZE) /\ (forall p, In p l \/ space_page (m_mem s) old pm p -> In p (rev dpages)) /\
  (forall p, is_table (m_mem s) old p \/ user_page pm p -> ~ is_table (m_mem s) new p).
Proof.
  destruct demo_space as (old & l & s & pmo & Hsp & Hdom & Hin & Hnz).
  assert (Hwp : wp uvmcreate (fun new s1 => new = 0 \/ exists l1, @space env0 utop (fun _ => None) new l1 s1 ∅ /\ @built_from_free l s new l1 s1) s).
  { apply (@wp_uvmcreate env0 env0_ok utop l s); [apply Hsp|apply Hsp| |intros; by left]. intros root l1 s1 _ Hsp1 Hb. right. by exists l1. }
  destruct (wp_inv _ _ _ Hwp) as (new & s1 & He & [->|(l1 & Hnew & Hb)]); [by rewrite He in Hnz|].
  destruct (@parent_kept_intro env0 old demo_tf l s pmo Hsp l1 s1) as [Hpar _]; [apply Hb|apply Hnew|intros p Hp; apply (bf_ledger _ _ _ _ _ Hb); by left|apply Hb|].
  assert (Htab : forall t, is_table (m_mem s1) old t -> is_table (m_mem s) old t).
  { intros t. apply (stable_tables (m_mem s) (m_mem s1) old). intros u Hu. destruct (@parent_not_free env0 old demo_tf l s pmo Hsp u (or_introl Hu)) as [Huo Hul].
    eapply (@only_same_page env0); [apply Hb|done|]. intros q Hq. split; [by eapply (@free_page env0); [apply Hsp|]|by intros ->]. }
  exists old, new, l1, s1, pmo. split; [done|]. split; [done|]. split; [done|]. split.
  - intros p [Hp|[Hp|Hp]]; apply Hin; [left; apply (bf_ledger _ _ _ _ _ Hb); by left|right; left; by apply Htab|right; by right].
  - intros p Hp Ht. destruct (@parent_not_free env0 old demo_tf l s pmo Hsp p) as [_ Hpl]; [destruct Hp as [Hp|Hp]; [left; by apply Htab|by right]|].
    apply Hpl, (bf_ledger _ _ _ _ _ Hb). by right.
Qed.

Lemma uvmcopy_copies_witness : exists old new l s pmo, wp (@uvmcopy env0 old new PGSIZE) (fun r _ => r = 0 \/ r = -1) s /\
  @space env0 utop (@proc_rest env0 demo_tf) old l s pmo /\ @space env0 utop (fun _ => None) new l s ∅.
Proof.
  destruct demo_pair as (old & new & l & s & pmo & Hpar & Hnew & Hdom & _ & Hap). exists old, new, l, s, pmo. split; [|by split]. eapply wp_mono.
  - apply (@uvmcopy_copies env0 env0_ok utop _ (fun _ => None) utop_ok ltac:(done) old new l s pmo Hpar Hnew); [done|by vm_compute|intros j Hj; by apply Hdom].
  - intros r s' (l' & _ & _ & [[-> _]|[-> _]]); [by left|by right].
Defined.

Lemma child_memory_reclaimed_witness : exists old l s pmo q, @space env0 utop (@proc_rest env0 demo_tf) old l (k_mm s) pmo /\
  wp (pt <- @proc_pagetable env0 q;;
      if pt =? 0 then ret tt
      else r <- lift_mm (@uvmcopy env0 old pt PGSIZE);; lift_mm (@proc_freepagetable env0 pt (if r <? 0 then 0 else PGSIZE)))
     (fun _ s' => exists l', forall p, In p l' <-> In p l) s.
Proof.
  destruct demo_space as (old & l & s & pmo & Hsp & Hdom & _). exists old, l, (set_k_mm s ks1), pmo, 0%nat. split; [done|]. eapply wp_mono.
  - apply (@child_memory_reclaimed env0 env0_ok 0 old demo_tf PGSIZE l (set_k_mm s ks1) pmo); [by vm_compute|exact Hsp|by vm_compute|intros j Hj; by apply Hdom].
  - intros _ s' (l' & H & _). by exists l'.
Defined.
