(* ===== verification/Uart.v ===== *)
(** * The UART driver (kernel/uart.c) and kernel output (kernel/printf.c)

    Device registers are read from the environment and written to a trace.  The
    transmit buffer is a ring of 32 bytes with 64-bit counters.  consputc() of
    console.c is here too, since printf() is built on it. *)

From S2P Require Import Prelude Riscv Kstate CString Spinlock Kalloc Vm Sched Bytes.

Definition RHR : Z := 0.
Definition THR : Z := 0.
Definition IER : Z := 1.
Definition IER_RX_ENABLE : Z := Z.shiftl 1 0.
Definition IER_TX_ENABLE : Z := Z.shiftl 1 1.
Definition FCR : Z := 2.
Definition FCR_FIFO_ENABLE : Z := Z.shiftl 1 0.
Definition FCR_FIFO_CLEAR : Z := Z.shiftl 3 1.
Definition LCR : Z := 3.
Definition LCR_EIGHT_BITS : Z := Z.shiftl 3 0.
Definition LCR_BAUD_LATCH : Z := Z.shiftl 1 7.
Definition LSR : Z := 5.
Definition LSR_RX_READY : Z := Z.shiftl 1 0.
Definition LSR_TX_IDLE : Z := Z.shiftl 1 5.
Definition UART_TX_BUF_SIZE : Z := 32.

Section uart.
Context {E : Env}.

Definition ReadReg (reg : Z) : K Z := v <- mmio_read (UART0 + reg);; ret (u8 v).
Definition WriteReg (reg v : Z) : K unit := mmio_write (UART0 + reg) (u8 v).

Definition get_uart : K uart := gets (fun s => kuart (k_dev s)).
Definition upd_uart (f : uart -> uart) : K unit :=
  modify (fun s => set_k_dev (set_kuart (f (kuart (k_dev s))) (k_dev s)) s).

Definition uartinit : K unit :=
  WriteReg IER 0x00;;
  WriteReg LCR LCR_BAUD_LATCH;;
  WriteReg 0 0x03;;
  WriteReg 1 0x00;;
  WriteReg LCR LCR_EIGHT_BITS;;
  WriteReg FCR (Z.lor FCR_FIFO_ENABLE FCR_FIFO_CLEAR);;
  WriteReg IER (Z.lor IER_TX_ENABLE IER_RX_ENABLE);;
  lift_ctl (initlock L_uart "uart").

(** The loop sends at most the bytes of the buffer. *)
Definition uartstart : K unit :=
  u0 <- get_uart;;
  loop (S (Z.to_nat (u64 (tx_w u0 - tx_r u0)))) (fun _ =>
    u <- get_uart;;
    if tx_w u =? tx_r u then ret (inr tt)
    else
      lsr <- ReadReg LSR;;
      if Z.land lsr LSR_TX_IDLE =? 0 then ret (inr tt)
      else
        let c := default 0 (znth (tx_buf u) (tx_r u mod UART_TX_BUF_SIZE)) in
        upd_uart (set_tx_r (u64 (tx_r u + 1)));;
        wakeup (Some Ch_uart);;
        WriteReg THR c;;
        ret (inl tt)) tt.

Definition uartputc (c : Z) : K unit :=
  kacquire L_uart;;
  pk <- gets (fun s => panicked (k_dev s));;
  if truthy pk then stop
  else
    loop (S turns) (fun _ =>
      u <- get_uart;;
      if tx_w u =? u64 (tx_r u + UART_TX_BUF_SIZE)
      then sleep Ch_uart L_uart;; ret (inl tt)
      else ret (inr tt)) tt;;
    upd_uart (fun u => set_tx_buf (zupd (tx_buf u) (tx_w u mod UART_TX_BUF_SIZE) (u8 c)) u);;
    upd_uart (fun u => set_tx_w (u64 (tx_w u + 1)) u);;
    uartstart;;
    krelease L_uart.

(** It spins until the device is idle. *)
Definition uartputc_sync (c : Z) : K unit :=
  lift_ctl push_off;;
  pk <- gets (fun s => panicked (k_dev s));;
  if truthy pk then stop
  else
    loop (S turns) (fun _ =>
      lsr <- ReadReg LSR;;
      if Z.land lsr LSR_TX_IDLE =? 0 then ret (inl tt) else ret (inr tt)) tt;;
    WriteReg THR c;;
    lift_ctl pop_off.

Definition uartgetc : K Z :=
  lsr <- ReadReg LSR;;
  if truthy (Z.land lsr 0x01) then ReadReg RHR else ret (-1).

(** ** consputc() and printf.c *)

Definition BACKSPACE : Z := 0x100.

Definition consputc (c : Z) : K unit :=
  if c =? BACKSPACE then uartputc_sync 8;; uartputc_sync 32;; uartputc_sync 8
  else uartputc_sync c.

Definition digits : list Z := bytes_of_string "0123456789abcdef".
Definition digit (d : Z) : Z := default 0 (znth digits d).

(** The do-while loop of printint(): the digits of [x], least significant
    first; a 32-bit value has at most 32 of them in any base. *)
Fixpoint int_digits (fuel : nat) (x base : Z) : list Z :=
  match fuel with
  | O => []
  | S fuel' => digit (x mod base) ::
               (if x / base =? 0 then [] else int_digits fuel' (x / base) base)
  end.

(** The characters printint() prints, in order. *)
Definition int_string (xx base : Z) (sign : bool) : list Z :=
  let neg := sign && (xx <? 0) in
  let x := if neg then u32 (- xx) else u32 xx in
  rev (int_digits 32 x base ++ (if neg then [45] else [])).

Definition printint (xx base : Z) (sign : bool) : K unit :=
  for_each (int_string xx base sign) consputc.

Fixpoint ptr_digits (n : nat) (x : Z) : list Z :=
  match n with
  | O => []
  | S n' => digit (Z.shiftr x 60) :: ptr_digits n' (u64 (Z.shiftl x 4))
  end.

Definition printptr (x : Z) : K unit :=
  consputc 48;; consputc 120;; for_each (ptr_digits 16 x) consputc.

(** Arguments of printf(): an int, a 64-bit value, a string (or null). *)
Inductive parg : Type := AInt (z : Z) | APtr (z : Z) | AStr (s : option (list Z)).

(** va_arg at a given type; a missing or mistyped argument is undefined in C,
    here it reads as zero. *)
Definition arg_int (a : list parg) : Z := match a with AInt z :: _ => z | _ => 0 end.
Definition arg_ptr (a : list parg) : Z := match a with APtr z :: _ => z | _ => 0 end.
Definition arg_str (a : list parg) : option (list Z) := match a with AStr s :: _ => s | _ => None end.

Fixpoint printf_loop (fmt : list Z) (ap : list parg) : K unit :=
  match fmt with
  | [] => ret tt
  | c :: rest =>
      if c =? 0 then ret tt
      else if negb (c =? 37) then consputc c;; printf_loop rest ap
      else
        match rest with
        | [] => ret tt
        | c :: rest =>
            if c =? 0 then ret tt
            else if c =? 100 then printint (arg_int ap) 10 true;; printf_loop rest (tail ap)
            else if c =? 120 then printint (arg_int ap) 16 true;; printf_loop rest (tail ap)
            else if c =? 112 then printptr (arg_ptr ap);; printf_loop rest (tail ap)
            else if c =? 115 then
              for_each (cstr (default (bytes_of_string "(null)") (arg_str ap))) consputc;;
              printf_loop rest (tail ap)
            else if c =? 37 then consputc 37;; printf_loop rest ap
            else consputc 37;; consputc c;; printf_loop rest ap
        end
  end.

Definition printf (fmt : option (list Z)) (ap : list parg) : K unit :=
  locking <- gets (fun s => pr_locking (k_dev s));;
  when (truthy locking) (kacquire L_pr);;
  match fmt with
  | None => panic "null fmt"
  | Some fmt =>
      printf_loop fmt ap;;
      when (truthy locking) (krelease L_pr)
  end.

Definition prints (s : string) : K unit := printf (Some (bytes_of_string s)) [].

(** The newline character. *)
Definition NL : Z := 10.

(** panic(): what is printed before the machine freezes.  Callers use the
    outcome [Panic] of the monad, which keeps the state before the message. *)
Definition kpanic (s : list Z) : K unit :=
  modify (fun st => set_k_dev (set_pr_locking 0 (k_dev st)) st);;
  prints "panic: ";;
  printf (Some s) [];;
  printf (Some [NL]) [];;
  modify (fun st => set_k_dev (set_panicked 1 (k_dev st)) st);;
  stop.

Definition printfinit : K unit :=
  lift_ctl (initlock L_pr "pr");;
  modify (fun s => set_k_dev (set_pr_locking 1 (k_dev s)) s).

End uart.
