(* ===== verification/Console.v ===== *)
(** * The console (kernel/console.c) *)

From S2P Require Import Prelude Riscv Kstate CString Spinlock Kalloc Vm Sched Bytes Uart.

Section console.
Context {E : Env}.

Definition INPUT_BUF_SIZE : Z := 128.

(** [C('D')] and the like. *)
Definition Ctl (x : Z) : Z := x - 64.

Definition get_cons : K console := gets (fun s => cons (k_dev s)).
Definition upd_cons (f : console -> console) : K unit :=
  modify (fun s => set_k_dev (set_cons (f (cons (k_dev s))) (k_dev s)) s).

(** The loop of consolewrite(), over the indices of the bytes to write. *)
Fixpoint consolewrite_loop (src : source) (i : Z) (n : nat) : K Z :=
  match n with
  | O => ret i
  | S n' =>
      let* (r, bs) := either_copyin (source_add src i) 1 in
      if r =? -1 then ret i
      else uartputc (hd 0 bs);; consolewrite_loop src (i + 1) n'
  end.

Definition consolewrite (src : source) (n : Z) : K Z := consolewrite_loop src 0 (Z.to_nat n).

(** The inner loop of consoleread(): waits for input; [true] when killed. *)
Definition cons_wait : K bool :=
  loop (S turns) (fun _ =>
    c <- get_cons;;
    if c_r c =? c_w c then
      p <- curproc;;
      k <- killed p;;
      if truthy k then ret (inr true)
      else sleep Ch_cons L_cons;; ret (inl tt)
    else ret (inr false)) tt.

(** The outer loop: [n] bytes are still wanted; the result, and the bytes that
    went to a kernel object. *)
Fixpoint consoleread_loop (target : Z) (dst : dest) (n : nat) : K (Z * list Z) :=
  match n with
  | O => krelease L_cons;; ret (target, [])
  | S n' =>
      k <- cons_wait;;
      if (k : bool) then krelease L_cons;; ret (-1, [])
      else
        c <- get_cons;;
        let ch := default 0 (znth (c_buf c) (c_r c mod INPUT_BUF_SIZE)) in
        upd_cons (set_c_r (u32 (c_r c + 1)));;
        if ch =? Ctl 68 then
          when (Z.of_nat n <? target) (upd_cons (fun c => set_c_r (u32 (c_r c - 1)) c));;
          krelease L_cons;; ret (target - Z.of_nat n, [])
        else
          let* (r, bs) := either_copyout dst [ch] in
          if r =? -1 then krelease L_cons;; ret (target - Z.of_nat n, [])
          else if ch =? NL then krelease L_cons;; ret (target - Z.of_nat n', bs)
          else
            let* (r, bs') := consoleread_loop target (dest_add dst 1) n' in
            ret (r, bs ++ bs')
  end.

Definition consoleread (dst : dest) (n : Z) : K (Z * list Z) :=
  kacquire L_cons;;
  if 0 <? n then consoleread_loop n dst (Z.to_nat n)
  else krelease L_cons;; ret (0, []).

(** proc.c's procdump(), which ^P on the console calls. *)
Definition state_name (s : procstate) : list Z :=
  bytes_of_string (match s with
                   | UNUSED => "unused" | USED => "used" | SLEEPING => "sleep "
                   | RUNNABLE => "runble" | RUNNING => "run   " | ZOMBIE => "zombie"
                   end).

Definition procdump : K unit :=
  printf (Some [NL]) [];;
  for_each proc_ids (fun i =>
    p <- getp i;;
    if decide (p_state p = UNUSED) then ret tt
    else
      printf (Some (bytes_of_string "%d %s %s"))
        [AInt (p_pid p); AStr (Some (state_name (p_state p))); AStr (Some (p_name p))];;
      printf (Some [NL]) []).

(** The while loop of ^U goes back at most to the committed input. *)
Definition kill_line : K unit :=
  c0 <- get_cons;;
  loop (S (Z.to_nat (u32 (c_e c0 - c_w c0)))) (fun _ =>
    c <- get_cons;;
    if negb (c_e c =? c_w c) &&
       negb (default 0 (znth (c_buf c) (u32 (c_e c - 1) mod INPUT_BUF_SIZE)) =? NL)
    then upd_cons (fun c => set_c_e (u32 (c_e c - 1)) c);; consputc BACKSPACE;; ret (inl tt)
    else ret (inr tt)) tt.

Definition consoleintr (c : Z) : K unit :=
  kacquire L_cons;;
  (if c =? Ctl 80 then procdump
   else if c =? Ctl 85 then kill_line
   else if (c =? Ctl 72) || (c =? 0x7f) then
     co <- get_cons;;
     when (negb (c_e co =? c_w co))
       (upd_cons (fun c => set_c_e (u32 (c_e c - 1)) c);; consputc BACKSPACE)
   else
     co <- get_cons;;
     when (negb (c =? 0) && (u32 (c_e co - c_r co) <? INPUT_BUF_SIZE))
       (let c := if c =? 13 then NL else c in
        consputc c;;
        upd_cons (fun co => set_c_buf (zupd (c_buf co) (c_e co mod INPUT_BUF_SIZE) (u8 c)) co);;
        upd_cons (fun co => set_c_e (u32 (c_e co + 1)) co);;
        co <- get_cons;;
        when ((c =? NL) || (c =? Ctl 68) || (u32 (c_e co - c_r co) =? INPUT_BUF_SIZE))
          (upd_cons (fun co => set_c_w (c_e co) co);;
           wakeup (Some Ch_cons))));;
  krelease L_cons.

(** The connection to devsw[CONSOLE] is [devsw] of File.v. *)
Definition consoleinit : K unit :=
  lift_ctl (initlock L_cons "cons");;
  uartinit.

(** uart.c's interrupt handler, which hands input to consoleintr(). *)
Definition uartintr : K unit :=
  loop (S turns) (fun _ =>
    c <- uartgetc;;
    if c =? -1 then ret (inr tt)
    else consoleintr c;; ret (inl tt)) tt;;
  kacquire L_uart;;
  uartstart;;
  krelease L_uart.

End console.
