(* ===== verification/ConsoleSpec.v ===== *)
(** * The console's line discipline (kernel/console.c, kernel/uart.c)

    The input ring of the console, whose counters run modulo 2^32, holds the
    input that readers may take and, after it, the line being edited.
    consoleintr() is an editor of that line, consoleread() takes one line. *)

From S2P Require Import Prelude Riscv Kstate CString Spinlock Kalloc Vm PageTable UserMem Sched SchedSpec.
From S2P Require Import Bytes Uart Console.

(** ** Segments of a ring *)

Section ring.
Context (N : Z) (HN : 0 < N).

(** [n] entries of a ring from counter [a] on. *)
Definition seg (buf : list Z) (a : Z) (n : nat) : list Z :=
  map (fun k => default 0 (znth buf ((a + Z.of_nat k) mod N))) (seq 0 n).

Lemma seg_length buf a n : length (seg buf a n) = n.
Proof. unfold seg. by rewrite length_map, length_seq. Qed.

Lemma seg_mod buf a b n : a mod N = b mod N -> seg buf a n = seg buf b n.
Proof.
  intros H. apply map_ext. intros k. do 2 f_equal. rewrite <- (Z.add_mod_idemp_l a), H by lia.
  by rewrite Z.add_mod_idemp_l by lia.
Qed.

Lemma seg_app buf a n m : seg buf a (n + m) = seg buf a n ++ seg buf (a + Z.of_nat n) m.
Proof.
  unfold seg. rewrite seq_app, map_app. f_equal. simpl. rewrite <- (Nat.add_0_r n) at 1. rewrite <- fmap_add_seq.
  rewrite map_map. apply map_ext. intros k. do 3 f_equal. lia.
Qed.

Lemma seg_S buf a n : seg buf a (S n) = default 0 (znth buf (a mod N)) :: seg buf (a + 1) n.
Proof. change (S n) with (1 + n)%nat. rewrite seg_app. unfold seg at 1. simpl. by rewrite Z.add_0_r. Qed.

Lemma ring_inj a i j : 0 <= i < j -> j - i < N -> (a + i) mod N <> (a + j) mod N.
Proof.
  intros Hij Hd Heq. assert (H : (a + j - (a + i)) mod N = 0) by (by rewrite Zminus_mod, Heq, Z.sub_diag, Z.mod_0_l by lia).
  replace (a + j - (a + i)) with (j - i) in H by lia. rewrite Z.mod_small in H by lia. lia.
Qed.

Lemma seg_upd_out buf a n i b :
  (forall k, 0 <= k < Z.of_nat n -> (a + k) mod N <> i mod N) -> seg (zupd buf (i mod N) b) a n = seg buf a n.
Proof.
  intros H. apply map_ext_in. intros k Hk. apply in_seq in Hk. f_equal. apply znth_zupd_ne. intros Heq.
  apply (H (Z.of_nat k)); [lia|done].
Qed.

Lemma seg_snoc buf a n b : Z.of_nat (length buf) = N -> Z.of_nat n < N ->
  seg (zupd buf ((a + Z.of_nat n) mod N) b) a (S n) = seg buf a n ++ [b].
Proof.
  intros Hl Hn. rewrite <- Nat.add_1_r, seg_app. f_equal.
  - apply seg_upd_out. intros k Hk. apply ring_inj; lia.
  - unfold seg. simpl. rewrite Z.add_0_r. rewrite znth_zupd_eq; [done|]. rewrite Hl. by apply Z.mod_pos_bound.
Qed.

Lemma seg_take buf a n k : (k <= n)%nat -> take k (seg buf a n) = seg buf a k.
Proof.
  intros H. replace n with (k + (n - k))%nat by lia. rewrite seg_app, take_app_le by (by rewrite seg_length).
  apply take_ge. by rewrite seg_length.
Qed.

End ring.

(** Counters of 32 bits whose ring sizes divide 2^32. *)
Definition is_u32 (z : Z) : Prop := 0 <= z < 2 ^ 32.

Lemma u32_is_u32 z : is_u32 (u32 z).
Proof. apply Z.mod_pos_bound. lia. Qed.

Lemma u32_mod128 z : u32 z mod 128 = z mod 128.
Proof.
  unfold u32. change (2 ^ 32) with (128 * 33554432). rewrite Z.rem_mul_r by lia.
  rewrite Z.mul_comm, Z.mod_add, Z.mod_mod by lia. done.
Qed.

(** ** Output *)

(** The UART always accepts a byte. *)
Class UartIdle {E : Env} : Prop :=
  uart_idle : forall n, Z.land (u8 (mmio n (UART0 + LSR))) LSR_TX_IDLE <> 0.

(** [s'] is [s] after some output: only the traffic with the devices and the
    unobservable part of the control state differ. *)
Definition traffic (n : nat) (tr : list (Z * Z)) (s : kstate) : kstate :=
  set_k_dev (set_mmio_reads n (set_mmio_writes tr (k_dev s))) s.

Lemma traffic_traffic n tr n' tr' s : traffic n tr (traffic n' tr' s) = traffic n tr s.
Proof. done. Qed.
Lemma traffic_same s : traffic (mmio_reads (k_dev s)) (mmio_writes (k_dev s)) s = s.
Proof. by destruct s as [? ? ? ? [] ?]. Qed.
Lemma traffic_kset n tr c s : traffic n tr (kset_ctl c s) = kset_ctl c (traffic n tr s).
Proof. done. Qed.

Section output.
Context {E : Env} {U : UartIdle}.

(** A machine whose output works. *)
Definition can_print (s : kstate) : Prop := ctl_ok (k_ctl s) /\ panicked (k_dev s) = 0.

Lemma wp_uartputc_sync c (Q : unit -> kstate -> Prop) s :
  can_print s ->
  (forall d n, ctl_equiv (k_ctl s) d ->
     Q tt (kset_ctl d (traffic n ((UART0 + THR, u8 c) :: mmio_writes (k_dev s)) s))) ->
  wp (uartputc_sync c) Q s.
Proof.
  intros [Hok Hp] HQ. unfold uartputc_sync. wp_step. apply wp_lift, wp_lift. unfold wp. fold (k_ctl s).
  rewrite push_off_eq by done. cbv beta iota.
  change (wp (pk <- gets (fun s => panicked (k_dev s));;
    (if truthy pk then stop else
     loop (S turns) (fun _ => lsr <- ReadReg LSR;; if Z.land lsr LSR_TX_IDLE =? 0 then ret (inl tt) else ret (inr tt)) tt;;
     WriteReg THR c;; lift_ctl pop_off)) Q (kset_ctl (pushed (k_ctl s)) s)).
  do 2 wp_step. simpl. rewrite Hp. simpl. wp_step. cbn [loop]. unfold ReadReg, mmio_read. wp_steps.
  pose proof (uart_idle (mmio_reads (k_dev s))) as Hi. simpl. destruct (Z.eqb_spec (Z.land (u8 (mmio (mmio_reads (k_dev s)) (UART0 + LSR))) LSR_TX_IDLE) 0); [done|].
  wp_steps. unfold WriteReg, mmio_write. wp_steps. apply wp_lift, wp_lift. unfold wp. simpl.
  destruct (pop_pushed (k_ctl s) (pushed (k_ctl s))) as [-> He]; [done|done|]. by apply (HQ _ (S (mmio_reads (k_dev s)))).
Qed.

Lemma can_print_traffic d n tr s : can_print s -> ctl_equiv (k_ctl s) d -> can_print (kset_ctl d (traffic n tr s)).
Proof. intros [Hok Hp] Hd. split; [by rewrite k_ctl_kset, <- Hd|done]. Qed.

(** Output of any kind, where the locks satisfy [P]: it ends, and changes nothing
    but the traffic. *)
Definition prints_where (P : ctl -> Prop) (m : K unit) : Prop := forall (Q : unit -> kstate -> Prop) s,
  can_print s -> P (k_ctl s) ->
  (forall d n tr, ctl_equiv (k_ctl s) d -> Q tt (kset_ctl d (traffic n tr s))) -> wp m Q s.

Definition stable (P : ctl -> Prop) : Prop := forall c d, ctl_equiv c d -> P c -> P d.

Lemma prints_ret P : prints_where P (ret tt).
Proof.
  intros Q s Hs _ HQ. apply wp_ret. rewrite <- (traffic_same s), <- (kset_same s). by apply HQ.
Qed.

Lemma prints_bind P m k : stable P -> prints_where P m -> prints_where P k -> prints_where P (m;; k).
Proof.
  intros HP Hm Hk Q s Hs HPs HQ. wp_step. apply Hm; [done|done|]. intros d n tr Hd.
  apply Hk; [by apply can_print_traffic|by eapply HP|].
  intros d' n' tr' Hd'. rewrite traffic_kset, traffic_traffic, kset_kset. apply HQ. by rewrite Hd.
Qed.

(** Output that needs no lock. *)
Definition prints_only : K unit -> Prop := prints_where (fun _ => True).

Lemma prints_seq m k : prints_only m -> prints_only k -> prints_only (m;; k).
Proof. by apply prints_bind. Qed.

Lemma prints_for_each {I} (l : list I) f : (forall x, prints_only (f x)) -> prints_only (for_each l f).
Proof. intros Hf. induction l; simpl; [apply prints_ret|by apply prints_seq]. Qed.

Lemma prints_consputc c : prints_only (consputc c).
Proof.
  assert (H : forall c, prints_only (uartputc_sync c)).
  { intros x Q s Hs _ HQ. apply wp_uartputc_sync; [done|]. intros d n Hd. by apply HQ. }
  unfold consputc. destruct (c =? BACKSPACE); [|apply H].
  apply prints_seq; [apply H|]. apply prints_seq; apply H.
Qed.

Lemma prints_printf_loop fmt : forall ap, prints_only (printf_loop fmt ap).
Proof.
  induction fmt as [fmt IH] using (induction_ltof1 _ (@length Z)). unfold ltof in IH. intros ap.
  destruct fmt as [|c fmt]; [apply prints_ret|]. cbn [printf_loop].
  assert (IH1 : forall ap, prints_only (printf_loop fmt ap)) by (intros; apply IH; simpl; lia).
  assert (Hp : forall l, prints_only (for_each l consputc)) by (intros; apply prints_for_each, prints_consputc).
  destruct (c =? 0); [apply prints_ret|]. destruct (negb (c =? 37)); [by apply prints_seq; [apply prints_consputc|]|].
  destruct fmt as [|d fmt]; [apply prints_ret|].
  assert (IH2 : forall ap, prints_only (printf_loop fmt ap)) by (intros; apply IH; simpl; lia).
  assert (Hptr : forall x, prints_only (printptr x)).
  { intros x. apply prints_seq; [apply prints_consputc|]. apply prints_seq; [apply prints_consputc|apply Hp]. }
  destruct (d =? 0); [apply prints_ret|]. destruct (d =? 100); [by apply prints_seq; [apply Hp|]|].
  destruct (d =? 120); [by apply prints_seq; [apply Hp|]|]. destruct (d =? 112); [by apply prints_seq|].
  destruct (d =? 115); [by apply prints_seq|].
  destruct (d =? 37); (apply prints_seq; [apply prints_consputc|]); [done|].
  by apply prints_seq; [apply prints_consputc|].
Qed.

Lemma stable_free lk : stable (free lk).
Proof. intros c d H Hf. by rewrite <- H. Qed.

Lemma prints_printf fmt ap : prints_where (free L_pr) (printf (Some fmt) ap).
Proof.
  intros Q s Hs Hf HQ. unfold printf. do 2 wp_step. destruct (truthy (pr_locking (k_dev s))); simpl when.
  - wp_step. destruct Hs as [Hok Hp]. apply wp_kacquire; [done|done|]. wp_step.
    assert (Hok' : ctl_ok (acquired L_pr (k_ctl s))) by (by destruct (acquired_facts L_pr (k_ctl s) Hok)).
    apply prints_printf_loop; [done|done|]. intros d n tr Hd. rewrite traffic_kset, kset_kset.
    apply (wp_krelease (k_ctl s)); [done|done|done|]. intros e He. by apply HQ.
  - do 3 wp_step. apply prints_printf_loop; [done|done|]. intros d n tr Hd. apply wp_ret. by apply HQ.
Qed.

(** ^P only prints. *)
Lemma prints_procdump : prints_where (free L_pr) procdump.
Proof.
  unfold procdump. apply prints_bind; [apply stable_free|apply prints_printf|]. generalize proc_ids. intros l.
  induction l as [|i l IH]; simpl; [apply prints_ret|]. apply prints_bind; [apply stable_free| |done].
  intros Q s Hs Hf HQ. do 2 kstep. case_decide.
  - apply wp_ret. rewrite <- (traffic_same s), <- (kset_same s). by apply HQ.
  - by apply (prints_bind _ _ _ (stable_free _) (prints_printf _ _) (prints_printf _ _)).
Qed.

End output.

(** ** Printing numbers *)

Definition digit_val (c : Z) : Z := if c <=? 57 then c - 48 else c - 87.
Definition numval (base : Z) (l : list Z) : Z := fold_left (fun a c => a * base + digit_val c) l 0.

(** The number a string of digits stands for, after an optional minus sign. *)
Definition read_int (base : Z) (l : list Z) : Z :=
  match l with
  | c :: l' => if c =? 45 then - numval base l' else numval base l
  | [] => 0
  end.

Lemma digit_ok d : 0 <= d < 16 -> digit_val (digit d) = d /\ 48 <= digit d < 128.
Proof.
  intros H. assert (Hall : forallb (fun k => (digit_val (digit (Z.of_nat k)) =? Z.of_nat k) && (48 <=? digit (Z.of_nat k)) &&
    (digit (Z.of_nat k) <? 128)) (seq 0 16) = true) by (vm_compute; reflexivity).
  rewrite forallb_forall in Hall. specialize (Hall (Z.to_nat d)). rewrite Z2Nat.id in Hall by lia.
  assert (Hin : In (Z.to_nat d) (seq 0 16)) by (apply in_seq; lia). specialize (Hall Hin). bool_prop. lia.
Qed.

Lemma int_digits_ok base fuel : 2 <= base <= 16 -> forall x k, 0 <= x < base ^ Z.of_nat k -> (0 < k <= fuel)%nat ->
  numval base (rev (int_digits fuel x base)) = x /\ (length (int_digits fuel x base) <= k)%nat /\
  Forall (fun c => 48 <= c < 128) (int_digits fuel x base).
Proof.
  intros Hb. unfold numval. setoid_rewrite <- fold_left_rev_right. setoid_rewrite rev_involutive.
  induction fuel as [|fuel IH]; intros x k Hx Hk; [lia|]. cbn [int_digits].
  pose proof (Z.mod_pos_bound x base ltac:(lia)) as Hm. destruct (digit_ok (x mod base) ltac:(lia)) as [Hd1 Hd2].
  pose proof (Z.div_mod x base ltac:(lia)) as Hdm. destruct (Z.eqb_spec (x / base) 0) as [H0|H0].
  - simpl. split_and!; [rewrite Hd1; lia|lia|by apply Forall_singleton].
  - destruct k as [|[|k]]; [lia| |].
    + exfalso. apply H0. apply Z.div_small. change (Z.of_nat 1) with 1 in Hx. lia.
    + destruct (IH (x / base) (S k)) as (H1 & H2 & H3); [| |].
      * split; [apply Z.div_pos; lia|]. apply Z.div_lt_upper_bound; [lia|].
        rewrite <- Z.pow_succ_r by lia. rewrite <- Nat2Z.inj_succ. lia.
      * destruct fuel as [|fuel]; [|lia]. lia.
      * simpl. split_and!; [rewrite H1, Hd1; lia|lia|by constructor].
Qed.

Section printint.
Context {E : Env} {U : UartIdle}.

(** Plain characters reach the UART one by one, in order. *)
Lemma wp_print_chars cs : forall (Q : unit -> kstate -> Prop) s,
  can_print s -> Forall (fun c => 0 <= c < 256) cs ->
  (forall d n, ctl_equiv (k_ctl s) d ->
     Q tt (kset_ctl d (traffic n (rev (map (pair (UART0 + THR)) cs) ++ mmio_writes (k_dev s)) s))) ->
  wp (for_each cs consputc) Q s.
Proof.
  induction cs as [|c cs IH]; intros Q s Hs Hcs HQ; simpl.
  - apply wp_ret. rewrite <- (traffic_same s), <- (kset_same s). by apply HQ.
  - inversion Hcs as [|? ? Hc Hcs']; subst. wp_step. unfold consputc at 1. destruct (Z.eqb_spec c BACKSPACE) as [Hbs|_]; [unfold BACKSPACE in Hbs; lia|].
    apply wp_uartputc_sync; [done|]. intros d n Hd. apply IH; [by apply can_print_traffic|done|]. intros e n' He.
    rewrite traffic_kset, traffic_traffic, kset_kset. simpl in HQ. rewrite <- app_assoc in HQ.
    replace (u8 c) with c in * by (symmetry; by apply Z.mod_small). apply HQ. by rewrite Hd.
Qed.

(** printint() of a 32-bit integer in base 10 or 16 sends to the UART the
    digits of the number, most significant first, after a minus sign when it is
    negative; they fit in the 16-byte buffer that the code reserves. *)
Theorem printint_prints xx base s :
  can_print s -> base = 10 \/ base = 16 -> -2 ^ 31 <= xx < 2 ^ 31 ->
  exists cs, read_int base cs = xx /\ (length cs <= 16)%nat /\
    wp (printint xx base true) (fun _ s' => exists d n, ctl_equiv (k_ctl s) d /\
      s' = kset_ctl d (traffic n (rev (map (pair (UART0 + THR)) cs) ++ mmio_writes (k_dev s)) s)) s.
Proof.
  intros Hs Hb Hxx. exists (int_string xx base true). unfold printint, int_string. simpl andb.
  set (x := if xx <? 0 then u32 (- xx) else u32 xx).
  assert (Hx : x = Z.abs xx).
  { unfold x, u32. destruct (Z.ltb_spec xx 0); rewrite Z.mod_small by lia; lia. }
  destruct (int_digits_ok base 32 ltac:(lia) x 10) as (H1 & H2 & H3); [|lia|].
  { assert (10 ^ 10 <= base ^ Z.of_nat 10) by (destruct Hb as [-> | ->]; vm_compute; discriminate). lia. }
  assert (Hr : Forall (fun c => 48 <= c < 128) (rev (int_digits 32 x base))) by (by apply Forall_rev).
  destruct (Z.ltb_spec xx 0) as [Hneg|Hpos]; rewrite rev_app_distr;
    [change (rev [45]) with [45]|change (rev (@nil Z)) with (@nil Z)]; cbn [app].
  - split_and!.
    + cbn [read_int]. change (45 =? 45) with true. cbv iota. rewrite H1. lia.
    + cbn [length]. rewrite length_rev. lia.
    + apply wp_print_chars; [done| |intros d n Hd; by exists d, n]. constructor; [lia|].
      eapply Forall_impl; [done|]. simpl. lia.
  - split_and!.
    + unfold read_int. destruct (rev (int_digits 32 x base)) as [|c cs] eqn:Hc; [unfold numval in H1; simpl in H1; lia|].
      inversion Hr as [|? ? Hc1 _]; subst. destruct (Z.eqb_spec c 45); [lia|]. rewrite H1. lia.
    + rewrite length_rev. lia.
    + apply wp_print_chars; [done| |intros d n Hd; by exists d, n]. eapply Forall_impl; [done|]. simpl. lia.
Qed.

End printint.

(** ** The input ring *)

(** The input that readers may take, and the line being edited. *)
Definition committed (c : console) : list Z := seg INPUT_BUF_SIZE (c_buf c) (c_r c) (Z.to_nat (u32 (c_w c - c_r c))).
Definition pending (c : console) : list Z := seg INPUT_BUF_SIZE (c_buf c) (c_w c) (Z.to_nat (u32 (c_e c - c_w c))).

Definition cons_ok (c : console) : Prop :=
  length (c_buf c) = 128%nat /\ is_u32 (c_r c) /\ is_u32 (c_w c) /\ is_u32 (c_e c) /\
  u32 (c_w c - c_r c) + u32 (c_e c - c_w c) <= INPUT_BUF_SIZE /\
  Forall (fun b => b <> NL) (pending c).

Lemma ring_diff a b : is_u32 a -> is_u32 b -> b = u32 (a + u32 (b - a)).
Proof. unfold is_u32, u32. intros Ha Hb. Z.div_mod_to_equations. lia. Qed.

Lemma ring_diff_eq a b : is_u32 a -> is_u32 b -> (a =? b) = (u32 (b - a) =? 0).
Proof.
  unfold is_u32, u32. intros Ha Hb. destruct (Z.eqb_spec a b), (Z.eqb_spec ((b - a) mod 2 ^ 32) 0); try done;
    exfalso; Z.div_mod_to_equations; lia.
Qed.

(** The numbers of committed and of pending bytes. *)
Definition ncom (c : console) : Z := u32 (c_w c - c_r c).
Definition npend (c : console) : Z := u32 (c_e c - c_w c).

Lemma cons_used c : cons_ok c -> u32 (c_e c - c_r c) = ncom c + npend c.
Proof.
  intros (_ & Hr & Hw & He & Hs & _). unfold ncom, npend, INPUT_BUF_SIZE, is_u32, u32 in *. Z.div_mod_to_equations. lia.
Qed.

Lemma committed_length c : length (committed c) = Z.to_nat (ncom c).
Proof. apply seg_length. Qed.
Lemma pending_length c : length (pending c) = Z.to_nat (npend c).
Proof. apply seg_length. Qed.

Lemma n_nonneg c : 0 <= ncom c /\ 0 <= npend c.
Proof. unfold ncom, npend. split; apply u32_is_u32. Qed.

(** Erasing the last pending byte. *)
Definition erase (c : console) : console := set_c_e (u32 (c_e c - 1)) c.

Lemma erase_spec c : cons_ok c -> 0 < npend c ->
  cons_ok (erase c) /\ committed (erase c) = committed c /\ pending (erase c) = removelast (pending c) /\
  npend (erase c) = npend c - 1.
Proof.
  intros (Hl & Hr & Hw & He & Hs & Hp) Hn.
  assert (Hn' : npend (erase c) = npend c - 1).
  { unfold npend, erase, is_u32, u32 in *. simpl. Z.div_mod_to_equations. lia. }
  assert (Hpe : pending (erase c) = removelast (pending c)).
  { unfold pending. fold (npend (erase c)). fold (npend c). rewrite Hn'.
    rewrite removelast_firstn_len, seg_length. symmetry.
    replace (pred (Z.to_nat (npend c))) with (Z.to_nat (npend c - 1)) by lia.
    apply seg_take. lia. }
  split_and!; try done.
  split; [done|]. split; [done|]. split; [done|]. split; [apply u32_is_u32|]. split.
  - fold (ncom (erase c)). fold (npend (erase c)). rewrite Hn'. unfold ncom, erase. simpl. unfold npend in *. lia.
  - rewrite Hpe, removelast_firstn_len. by apply Forall_take.
Qed.

(** Adding a byte, and committing the line. *)
Definition add_byte (b : Z) (c : console) : console :=
  set_c_e (u32 (c_e c + 1)) (set_c_buf (zupd (c_buf c) (c_e c mod INPUT_BUF_SIZE) (u8 b)) c).
Definition commit_line (c : console) : console := set_c_w (c_e c) c.

Lemma add_byte_spec b c : cons_ok c -> ncom c + npend c < INPUT_BUF_SIZE ->
  committed (add_byte b c) = committed c /\ pending (add_byte b c) = pending c ++ [u8 b] /\
  ncom (add_byte b c) = ncom c /\ npend (add_byte b c) = npend c + 1.
Proof.
  intros (Hl & Hr & Hw & He & Hs & Hp) Hn. destruct (n_nonneg c) as [Hc0 Hp0].
  assert (Hn' : npend (add_byte b c) = npend c + 1).
  { unfold ncom, npend, add_byte, is_u32, INPUT_BUF_SIZE, u32 in *. simpl. Z.div_mod_to_equations. lia. }
  assert (Hee : c_e c mod INPUT_BUF_SIZE = (c_w c + Z.of_nat (Z.to_nat (npend c))) mod INPUT_BUF_SIZE).
  { rewrite Z2Nat.id by done. rewrite (ring_diff (c_w c) (c_e c)) at 1 by done. apply u32_mod128. }
  assert (Hee' : c_e c mod INPUT_BUF_SIZE = (c_r c + (ncom c + npend c)) mod INPUT_BUF_SIZE).
  { rewrite (ring_diff (c_r c) (c_e c)) at 1 by done. rewrite cons_used by done. apply u32_mod128. }
  split_and!; try done.
  - unfold committed, add_byte. simpl. fold (ncom c). rewrite Hee'. apply seg_upd_out. intros k Hk.
    apply ring_inj; [done|lia|lia].
  - unfold pending. fold (npend (add_byte b c)). rewrite Hn'. fold (npend c). unfold add_byte. simpl. rewrite Hee.
    replace (Z.to_nat (npend c + 1)) with (S (Z.to_nat (npend c))) by lia. apply seg_snoc; [done|rewrite Hl; done|lia].
Qed.

Lemma commit_line_spec c : length (c_buf c) = 128%nat -> is_u32 (c_r c) -> is_u32 (c_w c) -> is_u32 (c_e c) ->
  ncom c + npend c <= INPUT_BUF_SIZE ->
  cons_ok (commit_line c) /\ committed (commit_line c) = committed c ++ pending c /\ pending (commit_line c) = [].
Proof.
  intros Hl Hr Hw He Hs. destruct (n_nonneg c) as [Hc0 Hp0].
  assert (Hn : ncom (commit_line c) = ncom c + npend c).
  { unfold ncom, npend, commit_line, is_u32, INPUT_BUF_SIZE, u32 in *. simpl. Z.div_mod_to_equations. lia. }
  assert (Hz : npend (commit_line c) = 0) by (unfold npend; simpl; by rewrite Z.sub_diag).
  assert (Hp : pending (commit_line c) = []) by (apply nil_length_inv; by rewrite pending_length, Hz).
  split_and!; [|clear Hp|done].
  - split; [done|]. split; [done|]. split; [done|]. split; [done|].
    fold (ncom (commit_line c)). fold (npend (commit_line c)). rewrite Hp, Hn, Hz. split; [lia|constructor].
  - unfold committed at 1. fold (ncom (commit_line c)). rewrite Hn. rewrite Z2Nat.inj_add by done. simpl.
    rewrite seg_app. f_equal. rewrite Z2Nat.id by done. apply seg_mod; [done|]. unfold INPUT_BUF_SIZE.
    rewrite (ring_diff (c_r c) (c_w c)) by done. by rewrite u32_mod128.
Qed.

(** A new byte, with the line kept or handed over. *)
Lemma add_byte_ok b c : cons_ok c -> ncom c + npend c < INPUT_BUF_SIZE -> 0 <= b < 256 ->
  (cons_ok (commit_line (add_byte b c)) /\
   committed (commit_line (add_byte b c)) = committed c ++ pending c ++ [b] /\ pending (commit_line (add_byte b c)) = []) /\
  (b <> NL -> cons_ok (add_byte b c) /\ committed (add_byte b c) = committed c /\ pending (add_byte b c) = pending c ++ [b]).
Proof.
  intros Hco Hlt Hb. destruct (add_byte_spec b c Hco Hlt) as (A1 & A2 & A3 & A4).
  replace (u8 b) with b in A2 by (symmetry; by apply Z.mod_small). pose proof Hco as (Hl & Hr & Hw & He & Hs & Hp).
  assert (Hl' : length (c_buf (add_byte b c)) = 128%nat) by (simpl; by rewrite zupd_length).
  assert (He' : is_u32 (c_e (add_byte b c))) by apply u32_is_u32. split.
  - destruct (commit_line_spec (add_byte b c)) as (C1 & C2 & C3); try done; [lia|].
    by rewrite C2, A1, A2.
  - intros Hn. split_and!; [|done|done]. split; [done|]. split; [done|]. split; [done|]. split; [done|].
    fold (ncom (add_byte b c)). fold (npend (add_byte b c)). rewrite A2. split; [lia|].
    apply Forall_app. split; [done|]. by constructor.
Qed.

(** ** The line editor *)

(** What one input character does to the input and to the line being edited. *)
Definition edit (c : Z) '((com, pend) : list Z * list Z) : list Z * list Z :=
  if c =? Ctl 80 then (com, pend)
  else if c =? Ctl 85 then (com, [])
  else if (c =? Ctl 72) || (c =? 0x7f) then (com, removelast pend)
  else if (c =? 0) || (length com + length pend =? 128)%nat then (com, pend)
  else
    let b := if c =? 13 then NL else c in
    if (b =? NL) || (b =? Ctl 68) || (length com + length pend =? 127)%nat then (com ++ pend ++ [b], [])
    else (com, pend ++ [b]).

Definition set_console (c : console) (s : kstate) : kstate := set_k_dev (set_cons c (k_dev s)) s.

Section console.
Context {E : Env} {U : UartIdle}.

(** The state inside consoleintr(): the console's lock is held, the ring is [co],
    and something has been echoed. *)
Definition in_intr (d : ctl) (n : nat) (tr : list (Z * Z)) (co : console) (s : kstate) : kstate :=
  kset_ctl d (traffic n tr (set_console co s)).

Lemma wp_echo x c0 d n tr co s (Q : unit -> kstate -> Prop) :
  ctl_ok c0 -> panicked (k_dev s) = 0 -> ctl_equiv c0 d ->
  (forall d n tr, ctl_equiv c0 d -> Q tt (in_intr d n tr co s)) ->
  wp (consputc x) Q (in_intr d n tr co s).
Proof.
  intros Hok Hp Hd HQ. apply prints_consputc; [split; [change (ctl_ok d); by rewrite <- Hd|done]|done|].
  intros d' n' tr' Hd'. apply (HQ d' n' tr'). by rewrite Hd.
Qed.

Lemma wp_kill_line c0 d n tr co s (Q : unit -> kstate -> Prop) :
  ctl_ok c0 -> panicked (k_dev s) = 0 -> ctl_equiv c0 d -> cons_ok co ->
  (forall d n tr co', ctl_equiv c0 d -> cons_ok co' -> committed co' = committed co -> pending co' = [] ->
     Q tt (in_intr d n tr co' s)) ->
  wp kill_line Q (in_intr d n tr co s).
Proof.
  intros Hok Hp Hd Hco HQ. unfold kill_line. wp_step. apply wp_gets. change (cons (k_dev (in_intr d n tr co s))) with co.
  apply (wp_loop (fun _ s' => exists d n tr co', s' = in_intr d n tr co' s /\ ctl_equiv c0 d /\ cons_ok co' /\
      committed co' = committed co /\ npend co' <= npend co) (fun _ s' => Z.to_nat (npend (cons (k_dev s'))))).
  - clear d n tr Hd. intros [] s' (d & n & tr & co' & -> & Hd & Hco' & Hcom & Hle). wp_step. apply wp_gets.
    change (cons (k_dev (in_intr d n tr co' s))) with co'. pose proof Hco' as (Hl & Hr & Hw & He & Hs & Hnl).
    rewrite Z.eqb_sym, (ring_diff_eq (c_w co') (c_e co')) by done. fold (npend co').
    destruct (n_nonneg co') as [_ Hp0]. destruct (Z.eqb_spec (npend co') 0) as [H0|H0]; simpl negb; cbn [andb].
    + wp_step. apply HQ; try done. apply nil_length_inv. rewrite pending_length. lia.
    + assert (Hlast : exists l, pending co' = l ++ [default 0 (znth (c_buf co') (u32 (c_e co' - 1) mod INPUT_BUF_SIZE))]).
      { exists (seg INPUT_BUF_SIZE (c_buf co') (c_w co') (Z.to_nat (npend co' - 1))). unfold pending. fold (npend co').
        replace (Z.to_nat (npend co')) with (Z.to_nat (npend co' - 1) + 1)%nat by lia. rewrite seg_app. f_equal.
        unfold seg. simpl. do 3 f_equal. unfold INPUT_BUF_SIZE. rewrite u32_mod128, Z.add_0_r, Z2Nat.id by lia.
        rewrite (ring_diff (c_w co') (c_e co')) by done. fold (npend co').
        rewrite (Zminus_mod (u32 _)), u32_mod128, <- Zminus_mod. f_equal. lia. }
      destruct Hlast as [pl Hlast]. rewrite Hlast in Hnl. apply Forall_app in Hnl as [_ Hnl]. inversion Hnl as [|? ? Hb _]; subst.
      destruct (Z.eqb_spec (default 0 (znth (c_buf co') (u32 (c_e co' - 1) mod INPUT_BUF_SIZE))) NL); [done|]. simpl negb. cbv iota.
      wp_step. apply wp_modify.
      change (wp (consputc BACKSPACE;; ret (inl tt)) (fun (r : unit + unit) s' => match r with
        | inl _ => (exists d n tr co'', s' = in_intr d n tr co'' s /\ ctl_equiv c0 d /\ cons_ok co'' /\ committed co'' = committed co /\ npend co'' <= npend co)
             /\ (Z.to_nat (npend (cons (k_dev s'))) < Z.to_nat (npend co'))%nat
        | inr a => Q a s' end) (in_intr d n tr (erase co') s)).
      destruct (erase_spec co' Hco' ltac:(lia)) as (E1 & E2 & E3 & E4).
      wp_step. apply (wp_echo _ c0); [done|done|done|]. intros d' n' tr' Hd'. wp_step. split.
      * exists d', n', tr', (erase co'). split_and!; [done|done|done|by rewrite E2|lia].
      * change (cons (k_dev (in_intr d' n' tr' (erase co') s))) with (erase co'). lia.
  - exists d, n, tr, co. done.
  - simpl. change (cons (k_dev (in_intr d n tr co s))) with co. fold (npend co). lia.
Qed.

(** The kernel when a character arrives. *)
Record intr_ready (s : kstate) : Prop := {
  ir_free : all_free (k_ctl s);
  ir_cons : free L_cons (k_ctl s);
  ir_pr : free L_pr (k_ctl s);
  ir_panic : panicked (k_dev s) = 0;
  ir_procs : length (procs (k_pt s)) = NPROC;
  ir_ok : cons_ok (cons (k_dev s))
}.

Definition view (c : console) : list Z * list Z := (committed c, pending c).

(** The end of the handler, without and with a line for the readers. *)
Lemma wp_intr_release s d n tr co (Q : unit -> kstate -> Prop) :
  intr_ready s -> ctl_equiv (acquired L_cons (k_ctl s)) d ->
  (forall d, ctl_equiv (k_ctl s) d -> Q tt (in_intr d n tr co s)) -> wp (krelease L_cons) Q (in_intr d n tr co s).
Proof.
  intros [[Hok Hf] Hfc _ _ _ _] Hd HQ. apply (wp_krelease (k_ctl s)); [done|done|done|]. intros e He. by apply HQ.
Qed.

Lemma wp_intr_wake s d n tr co (Q : unit -> kstate -> Prop) :
  intr_ready s -> ctl_equiv (acquired L_cons (k_ctl s)) d ->
  (forall d, ctl_equiv (k_ctl s) d -> Q tt (in_intr d n tr co (map_procs (wake (Some Ch_cons) (cur (k_ctl s))) s))) ->
  wp (wakeup (Some Ch_cons)) (fun _ s' => wp (krelease L_cons) Q s') (in_intr d n tr co s).
Proof.
  intros [[Hok Hf] Hfc _ _ Hlen _] Hd HQ. destruct (acquired_facts L_cons (k_ctl s) Hok) as (H1 & _ & H3 & _ & _).
  apply (wp_wakeup _ (cur (k_ctl s))).
  - apply all_free_procs. apply (all_free_equiv (acquired L_cons (k_ctl s))); [done|]. split; [done|].
    intros i Hi. unfold free. rewrite H3 by done. by apply Hf.
  - change (cur d = cur (k_ctl s)). rewrite <- (cur_equiv _ d Hd). by apply cur_acquired.
  - done.
  - intros e He. apply (wp_krelease (k_ctl s)); [done|done| |].
    + change (ctl_equiv (acquired L_cons (k_ctl s)) e). by rewrite Hd.
    + intros f Hff. by apply HQ.
Qed.

(** The default case of the switch. *)
Lemma wp_insert_char c s n tr (Q : unit -> kstate -> Prop) :
  let co := cons (k_dev s) in let c1 := acquired L_cons (k_ctl s) in
  intr_ready s -> 0 <= c < 256 ->
  (forall d n tr, ctl_equiv c1 d -> c = 0 \/ ncom co + npend co = INPUT_BUF_SIZE -> Q tt (in_intr d n tr co s)) ->
  (let b := if c =? 13 then NL else c in let co' := add_byte b co in
   c <> 0 -> ncom co + npend co < INPUT_BUF_SIZE ->
   if (b =? NL) || (b =? Ctl 68) || (ncom co + npend co =? 127)
   then forall d n tr, ctl_equiv c1 d -> wp (wakeup (Some Ch_cons)) Q (in_intr d n tr (commit_line co') s)
   else forall d n tr, ctl_equiv c1 d -> Q tt (in_intr d n tr co' s)) ->
  wp (co <- get_cons;;
      when (negb (c =? 0) && (u32 (c_e co - c_r co) <? INPUT_BUF_SIZE))
        (let c := if c =? 13 then NL else c in
         consputc c;;
         upd_cons (fun co => set_c_buf (zupd (c_buf co) (c_e co mod INPUT_BUF_SIZE) (u8 c)) co);;
         upd_cons (fun co => set_c_e (u32 (c_e co + 1)) co);;
         co <- get_cons;;
         when ((c =? NL) || (c =? Ctl 68) || (u32 (c_e co - c_r co) =? INPUT_BUF_SIZE))
           (upd_cons (fun co => set_c_w (c_e co) co);;
            wakeup (Some Ch_cons)))) Q (in_intr c1 n tr co s).
Proof.
  intros co c1 Hs Hc Hno Hyes. pose proof Hs as [[Hok _] _ _ Hpan _ Hco]. fold co in Hco.
  destruct (acquired_facts L_cons (k_ctl s) Hok) as (Hok1 & _). fold c1 in Hok1.
  wp_step. apply wp_gets. change (cons (k_dev (in_intr c1 n tr co s))) with co. rewrite cons_used by done.
  pose proof Hco as (_ & _ & _ & _ & Hsz & _). fold (ncom co) (npend co) in Hsz.
  destruct (Z.eqb_spec c 0) as [H0|H0]; [|destruct (Z.ltb_spec (ncom co + npend co) INPUT_BUF_SIZE) as [Hlt|Hge]]; simpl; unfold when.
  1,3: wp_step; apply Hno; [done|]; (by left) || (right; lia).
  specialize (Hyes H0 Hlt). set (b := if c =? 13 then NL else c) in *. wp_step.
  apply (wp_echo _ c1); [done|done|done|]. intros d n' tr' Hd. wp_step. apply wp_modify. wp_step. apply wp_modify. wp_step. apply wp_gets.
  set (s1 := set_k_dev _ _). assert (Hs1 : s1 = in_intr d n' tr' (add_byte b co) s) by done. rewrite Hs1. clear Hs1 s1.
  change (cons (k_dev (in_intr d n' tr' (add_byte b co) s))) with (add_byte b co).
  replace (u32 (c_e (add_byte b co) - c_r (add_byte b co)) =? INPUT_BUF_SIZE) with (ncom co + npend co =? 127).
  - destruct (_ || _); [|apply wp_ret; by apply Hyes]. wp_step. apply wp_modify. by apply (Hyes d n' tr').
  - pose proof (cons_used co Hco) as Hu. pose proof Hco as (_ & Hr & _ & He & _). destruct (n_nonneg co).
    unfold add_byte, INPUT_BUF_SIZE, is_u32, u32 in *. simpl.
    destruct (Z.eqb_spec (ncom co + npend co) 127), (Z.eqb_spec (((c_e co + 1) mod 2 ^ 32 - c_r co) mod 2 ^ 32) 128); try done;
      exfalso; Z.div_mod_to_equations; lia.
Qed.

(** C23. consoleintr() is a line editor: ^U empties the line being edited,
    backspace takes away its last byte, ^P only prints, any other character is
    appended when the ring has room, with carriage return as newline; newline, ^D
    and a full ring hand the line over to the readers.  Committed input is never
    changed, a sleeping reader is woken exactly when there is new input for it, and
    besides the echo nothing else in the kernel changes. *)
Theorem consoleintr_edits c s :
  intr_ready s -> 0 <= c < 256 ->
  wp (consoleintr c) (fun _ s' => exists d n tr co,
    ctl_equiv (k_ctl s) d /\ cons_ok co /\ view co = edit c (view (cons (k_dev s))) /\
    s' = kset_ctl d (traffic n tr (set_console co
      (if decide (committed co = committed (cons (k_dev s))) then s
       else map_procs (wake (Some Ch_cons) (cur (k_ctl s))) s)))) s.
Proof.
  intros Hs Hc. pose proof Hs as [[Hok Hf] Hfc Hfp Hpan Hlen Hco]. set (co := cons (k_dev s)) in *.
  set (Q := fun (_ : unit) (s' : kstate) => _). unfold consoleintr. wp_step. apply wp_kacquire; [done|done|].
  set (c1 := acquired L_cons (k_ctl s)).
  destruct (acquired_facts L_cons (k_ctl s) Hok) as (Hok1 & _ & H3 & _ & _). fold c1 in Hok1, H3.
  replace (kset_ctl c1 s) with (in_intr c1 (mmio_reads (k_dev s)) (mmio_writes (k_dev s)) co s)
    by (unfold in_intr, set_console, co; by destruct s as [? ? ? ? [] ?]).
  generalize (mmio_reads (k_dev s)) (mmio_writes (k_dev s)). intros n tr.
  assert (Hsame : forall d n tr co', ctl_equiv c1 d -> cons_ok co' -> committed co' = committed co ->
      view co' = edit c (view co) -> wp (krelease L_cons) Q (in_intr d n tr co' s)).
  { intros d n' tr' co' Hd Hok' Hcom Hv. apply wp_intr_release; [done|done|]. intros e He. exists e, n', tr', co'.
    rewrite decide_True by done. done. }
  pose proof Hco as (Hl & Hr & Hw & He & Hsz & Hnl). pose proof Hsame as Hkept.
  unfold view, edit in Hsame. wp_step.
  destruct (Z.eqb_spec c (Ctl 80)) as [HP|HP]; [|destruct (Z.eqb_spec c (Ctl 85)) as [HU|HU];
    [|destruct ((c =? Ctl 72) || (c =? 127)) eqn:HH]].
  - apply prints_procdump; [done| |].
    + change (free L_pr c1). unfold free. by rewrite H3.
    + intros d n' tr' Hd. by apply (Hsame d n' tr' co).
  - apply (wp_kill_line c1); [done|done|done|done|]. intros d n' tr' co' Hd Hok' Hcom Hp. apply Hsame; try done. by rewrite Hcom, Hp.
  - wp_step. apply wp_gets. change (cons (k_dev (in_intr c1 n tr co s))) with co.
    rewrite Z.eqb_sym, (ring_diff_eq (c_w co) (c_e co)) by done. fold (npend co). destruct (n_nonneg co) as [_ Hp0].
    destruct (Z.eqb_spec (npend co) 0) as [H0|H0]; simpl negb; unfold when.
    + wp_step. apply Hsame; try done. assert (Hp : pending co = []) by (apply nil_length_inv; rewrite pending_length; lia).
      by rewrite Hp.
    + wp_step. apply wp_modify. destruct (erase_spec co Hco ltac:(lia)) as (E1 & E2 & E3 & _).
      apply (wp_echo _ c1 c1 n tr (erase co) s); [done|done|done|]. intros d n' tr' Hd. apply Hsame; try done. by rewrite E2, E3.
  - apply wp_insert_char; [done|done| |].
    + intros d n' tr' Hd Hcase. apply Hsame; try done. destruct (n_nonneg co).
      destruct Hcase as [->|Hfull]; [done|]. destruct (c =? 0); [done|].
      replace (length (committed co) + length (pending co) =? 128)%nat with true; [done|]. symmetry. apply Nat.eqb_eq.
      rewrite committed_length, pending_length. unfold INPUT_BUF_SIZE in *. fold co in Hfull. lia.
    + cbv zeta. fold co. intros H0 Hlt. pose proof (add_byte_ok (if c =? 13 then NL else c) co Hco Hlt) as Hadd.
      assert (Hb : 0 <= (if c =? 13 then NL else c) < 256) by (destruct (c =? 13); unfold NL; lia).
      set (b := if c =? 13 then NL else c) in *. destruct (Hadd Hb) as (Hcm & Hkeep). clear Hadd.
      assert (Hed : edit c (view co) = if (b =? NL) || (b =? Ctl 68) || (ncom co + npend co =? 127)
        then (committed co ++ pending co ++ [b], []) else (committed co, pending co ++ [b])).
      { unfold edit, view. rewrite (proj2 (Z.eqb_neq _ _) HP), (proj2 (Z.eqb_neq _ _) HU), HH, (proj2 (Z.eqb_neq _ _) H0).
        rewrite <- (Z2Nat.id (ncom co)), <- (Z2Nat.id (npend co)), <- committed_length, <- pending_length in Hlt |- * by apply n_nonneg.
        unfold INPUT_BUF_SIZE in Hlt. fold b.
        destruct (Nat.eqb_spec (length (committed co) + length (pending co)) 128); [lia|]. cbn [orb].
        replace (Z.of_nat (length (committed co)) + Z.of_nat (length (pending co)) =? 127)
          with (length (committed co) + length (pending co) =? 127)%nat; [done|].
        destruct (Nat.eqb_spec (length (committed co) + length (pending co)) 127),
          (Z.eqb_spec (Z.of_nat (length (committed co)) + Z.of_nat (length (pending co))) 127); lia || done. }
      destruct ((b =? NL) || (b =? Ctl 68) || (ncom co + npend co =? 127)) eqn:Hcase.
      * intros d n' tr' Hd. apply wp_intr_wake; [done|done|]. intros e Hee. exists e, n', tr', (commit_line (add_byte b co)).
        destruct Hcm as (C1 & C2 & C3). rewrite C2. split_and!; [done|done|unfold view at 1; by rewrite C2, C3, Hed|].
        rewrite decide_False; [done|]. rewrite <- (app_nil_r (committed co)) at 2. intros Heq.
        apply app_inv_head in Heq. by apply app_eq_nil in Heq as [_ Heq].
      * apply orb_false_elim in Hcase as [Hcase _]. apply orb_false_elim in Hcase as [Hbn _]. apply Z.eqb_neq in Hbn.
        intros d n' tr' Hd. destruct (Hkeep Hbn) as (K1 & K2 & K3).
        apply Hkept; [done|done|done|]. unfold view at 1. by rewrite K2, K3, Hed.
Qed.

(** ** Reading *)

(** The bytes consoleread() takes from the input for a request of [n] bytes, and
    the input left: a line with its newline, or what comes before ^D, which is kept
    for the next read unless it is the first byte.  [None]: the reader waits. *)
Fixpoint take_line (first : bool) (q : list Z) (n : nat) {struct n} : option (list Z * list Z) :=
  match n with
  | O => Some ([], q)
  | S n' =>
      match q with
      | [] => None
      | b :: q' =>
          if b =? Ctl 68 then Some ([], if first then q' else b :: q')
          else if b =? NL then Some ([b], q')
          else match take_line false q' n' with
               | Some (bs, r) => Some (b :: bs, r)
               | None => None
               end
      end
  end.

Definition advance (c : console) : console := set_c_r (u32 (c_r c + 1)) c.

Lemma advance_spec c : cons_ok c -> 0 < ncom c ->
  committed c = default 0 (znth (c_buf c) (c_r c mod INPUT_BUF_SIZE)) :: committed (advance c) /\
  cons_ok (advance c) /\ pending (advance c) = pending c.
Proof.
  intros (Hl & Hr & Hw & He & Hs & Hp) Hn.
  assert (Hn' : ncom (advance c) = ncom c - 1).
  { unfold ncom, advance, is_u32, u32 in *. simpl. Z.div_mod_to_equations. lia. }
  split_and!; [| |done].
  - unfold committed. fold (ncom c) (ncom (advance c)). rewrite Hn'.
    replace (Z.to_nat (ncom c)) with (S (Z.to_nat (ncom c - 1))) by lia. rewrite seg_S. f_equal. simpl.
    apply seg_mod; [done|]. unfold INPUT_BUF_SIZE. by rewrite u32_mod128.
  - split; [done|]. split; [apply u32_is_u32|]. split; [done|]. split; [done|].
    fold (ncom (advance c)) (npend (advance c)). rewrite Hn'. split; [|done]. fold (ncom c) (npend c) in Hs.
    change (npend (advance c)) with (npend c). lia.
Qed.

Lemma unadvance c : is_u32 (c_r c) -> set_c_r (u32 (c_r (advance c) - 1)) (advance c) = c.
Proof.
  intros Hr. destruct c as [b r w e]. unfold advance, set_c_r, is_u32, u32 in *. simpl in *. f_equal. Z.div_mod_to_equations. lia.
Qed.

(** A process that reads the console, about to take its lock. *)
Record cons_reader `{LinkerOk} (pr : nat) (root : Z) (l : list Z) (s : kstate) : Prop := {
  cr_free : all_free (k_ctl s);
  cr_cons : free L_cons (k_ctl s);
  cr_cur : cur (k_ctl s) = Some pr;
  cr_root : p_pagetable (get_proc pr s) = root;
  cr_vm : uvm_inv root l (k_mm s);
  cr_ok : cons_ok (cons (k_dev s))
}.

(** The state inside consoleread(). *)
Definition in_read (d : ctl) (m : memory) (co : console) (s : kstate) : kstate :=
  kset_ctl d (kset_mem m (set_console co s)).

Context {L : LinkerOk}.

Lemma wp_read_release pr root l s d m co (Q : Z * list Z -> kstate -> Prop) x :
  cons_reader pr root l s -> ctl_equiv (acquired L_cons (k_ctl s)) d ->
  (forall d, ctl_equiv (k_ctl s) d -> Q x (in_read d m co s)) -> wp (krelease L_cons;; ret x) Q (in_read d m co s).
Proof.
  intros [[Hok _] Hfc _ _ _ _] Hd HQ. wp_step. apply (wp_krelease (k_ctl s)); [done|done|done|].
  intros e He. wp_step. by apply HQ.
Qed.

Lemma wp_copyout_byte pr root l s d m co va b (Q : Z * list Z -> kstate -> Prop) :
  cons_reader pr root l s -> ctl_equiv (acquired L_cons (k_ctl s)) d ->
  uvm_inv root l (set_m_mem m (k_mm s)) -> 0 <= va < 2 ^ 64 -> upage m root va <> 0 ->
  (forall d, ctl_equiv (acquired L_cons (k_ctl s)) d ->
     uvm_inv root l (set_m_mem (store8 m (uaddr m root va) b) (k_mm s)) ->
     Q (0, []) (in_read d (store8 m (uaddr m root va) b) co s)) ->
  wp (either_copyout (ToUser va) [b]) Q (in_read d m co s).
Proof.
  intros [[Hok _] Hfc Hcur Hroot Hvm0 _] Hd Hvm Hva Hup HQ.
  destruct (acquired_facts L_cons (k_ctl s) Hok) as (Hok1 & _ & H3 & _ & _).
  unfold either_copyout. wp_step. apply wp_kmyproc; [change (ctl_ok d); by rewrite <- Hd|]. intros e He.
  change (cur (k_ctl (in_read d m co s))) with (cur d). rewrite <- (cur_equiv _ d Hd), cur_acquired, Hcur by done. unfold deref.
  change (ctl_equiv d e) in He. assert (Hce : ctl_equiv (acquired L_cons (k_ctl s)) e) by (by rewrite Hd).
  do 4 kstep. rewrite get_proc_kset. change (get_proc pr _) with (get_proc pr s). rewrite Hroot. wp_step. apply wp_lift.
  assert (Hmm : mm_ready e).
  { apply (mm_ready_equiv (acquired L_cons (k_ctl s))); [done|]. split; [done|]. unfold free. rewrite H3 by done.
    by destruct Hvm0 as [[[_ Hk] _ _] _]. }
  unfold wp at 1. set (mm1 := k_mm _). change mm1 with (set_m_ctl e (set_m_mem m (k_mm s))). clear mm1.
  unfold copyout. rewrite (copyout_loop root l); [|by apply (vm_inv_ctl root l (set_m_mem m (k_mm s)))|simpl; lia|done].
  simpl m_mem. cbn [write_user]. destruct (Z.eqb_spec (upage m root va) 0); [done|]. wp_step. apply (HQ e Hce).
  destruct Hvm as [Hv1 Hv2]. pose proof (write_user_inv root l [b] _ va Hv1 Hv2 ltac:(lia)) as Hw. simpl in Hw.
  by destruct (Z.eqb_spec (upage m root va) 0).
Qed.

Lemma wp_consoleread_loop pr root l s target : cons_reader pr root l s -> forall n va co m d bs rest m' (Q : Z * list Z -> kstate -> Prop),
  ctl_equiv (acquired L_cons (k_ctl s)) d -> uvm_inv root l (set_m_mem m (k_mm s)) -> cons_ok co ->
  0 <= va -> va + Z.of_nat n < 2 ^ 64 -> Z.of_nat n <= target ->
  take_line (Z.of_nat n =? target) (committed co) n = Some (bs, rest) -> write_user m root va bs = (0, m') ->
  (forall d co', ctl_equiv (k_ctl s) d -> cons_ok co' -> committed co' = rest -> pending co' = pending co ->
     Q (target - Z.of_nat n + Z.of_nat (length bs), []) (in_read d m' co' s)) ->
  wp (consoleread_loop target (ToUser va) n) Q (in_read d m co s).
Proof.
  intros Hcr. induction n as [|n IH]; intros va co m d bs rest m' Q Hd Hvm Hco Hva Hlim Hle Htl Hwu HQ.
  { simpl in *. injection Htl as <- <-. injection Hwu as <-. eapply wp_read_release; [done|done|]. intros e He.
    specialize (HQ e co He Hco eq_refl eq_refl). by rewrite Z.sub_0_r, Z.add_0_r in HQ. }
  cbn [consoleread_loop take_line] in *. destruct (committed co) as [|b q] eqn:Hcom; [done|].
  assert (Hn : 0 < ncom co).
  { apply (f_equal length) in Hcom. rewrite committed_length in Hcom. simpl in Hcom. lia. }
  destruct (advance_spec co Hco Hn) as (Hc1 & Hc2 & Hc3). rewrite Hcom in Hc1. injection Hc1 as Hb Hq. subst q.
  pose proof Hco as (_ & Hr & Hw & _).
  wp_step. unfold cons_wait. cbn [loop]. do 2 wp_step. apply wp_gets. change (cons (k_dev (in_read d m co s))) with co.
  rewrite (ring_diff_eq (c_r co) (c_w co)) by done. fold (ncom co). destruct (Z.eqb_spec (ncom co) 0); [lia|].
  do 3 wp_step. apply wp_gets. change (cons (k_dev (in_read d m co s))) with co. rewrite <- Hb.
  wp_step. apply wp_modify. set (s1 := set_k_dev _ _). assert (Hs1 : s1 = in_read d m (advance co) s) by done. rewrite Hs1. clear Hs1 s1.
  destruct (Z.eqb_spec b (Ctl 68)) as [HD|HD].
  - wp_step. destruct (Z.eqb_spec (Z.of_nat (S n)) target) as [Hf|Hf], (Z.ltb_spec (Z.of_nat (S n)) target); try lia; unfold when;
      injection Htl as <- <-; injection Hwu as <-; cbn [length] in HQ; rewrite Z.add_0_r in HQ.
    + wp_step. eapply wp_read_release; [done|done|]. intros e He. by apply (HQ e (advance co)).
    + apply wp_modify. set (s1 := set_k_dev _ _). assert (Hs1 : s1 = in_read d m co s).
      { unfold s1. change (set_k_dev _ _) with (in_read d m (set_c_r (u32 (c_r (advance co) - 1)) (advance co)) s).
        by rewrite unadvance. }
      rewrite Hs1. eapply wp_read_release; [done|done|]. intros e He. by apply (HQ e co).
  - assert (Hbs : exists bs', bs = b :: bs').
    { destruct (b =? NL); [injection Htl as <- <-; by eexists|]. destruct (take_line false _ n) as [[bs' r']|]; [|done].
      injection Htl as <- <-. by eexists. }
    destruct Hbs as [bs' ->]. cbn [write_user] in Hwu. destruct (Z.eqb_spec (upage m root va) 0); [done|].
    wp_step. eapply wp_copyout_byte; [done|done|done|lia|done|]. clear d Hd. intros d Hd Hvm1. simpl.
    destruct (Z.eqb_spec b NL) as [HN|HN].
    + injection Htl as <- <-. injection Hwu as <-. eapply wp_read_release; [done|done|]. intros e He.
      replace (target - Z.of_nat n) with (target - Z.of_nat (S n) + Z.of_nat (length [b])) by (cbn [length]; lia).
      by apply (HQ e (advance co)).
    + destruct (take_line false _ n) as [[bs'' r']|] eqn:Htl'; [|done]. injection Htl as -> ->.
      wp_step. unfold u64. rewrite Z.mod_small by lia.
      eapply (IH (va + 1) (advance co) _ d bs' rest m'); try done; try lia.
      * destruct (Z.eqb_spec (Z.of_nat n) target); [lia|done].
      * intros e co' He Hco' Hcm Hpd. wp_step. simpl.
        replace (target - Z.of_nat n + Z.of_nat (length bs')) with (target - Z.of_nat (S n) + Z.of_nat (length (b :: bs')))
          by (cbn [length]; lia). apply (HQ e co'); [done|done|done|]. by rewrite Hpd.
Qed.

(** C40. A read of the console that finds a whole line, an end of file or enough
    bytes in the input, for a destination that is mapped, returns without waiting: the
    bytes of that line go to the caller's memory, at most n of them, their number is returned, and exactly those
    bytes (and a leading ^D) leave the input; the line being edited is untouched. *)
Theorem consoleread_line pr root l s va n bs rest m' :
  cons_reader pr root l s -> 0 <= va -> 0 < n -> va + n < 2 ^ 64 ->
  take_line true (committed (cons (k_dev s))) (Z.to_nat n) = Some (bs, rest) ->
  write_user (k_mem s) root va bs = (0, m') ->
  wp (consoleread (ToUser va) n) (fun r s' => exists d co,
    ctl_equiv (k_ctl s) d /\ cons_ok co /\ r = (Z.of_nat (length bs), []) /\
    committed co = rest /\ pending co = pending (cons (k_dev s)) /\
    s' = kset_ctl d (kset_mem m' (set_console co s))) s.
Proof.
  intros Hcr Hva Hn Hlim Htl Hwu. pose proof Hcr as [[Hok _] Hfc _ _ Hvm Hco]. unfold consoleread. wp_step.
  apply wp_kacquire; [done|done|]. destruct (Z.ltb_spec 0 n); [|lia].
  replace (kset_ctl (acquired L_cons (k_ctl s)) s)
    with (in_read (acquired L_cons (k_ctl s)) (k_mem s) (cons (k_dev s)) s)
    by (unfold in_read, kset_mem, set_console; by destruct s as [[] ? ? ? [] ?]).
  eapply wp_consoleread_loop with (m' := m'); try done; try lia.
  - unfold k_mem. by replace (set_m_mem (m_mem (k_mm s)) (k_mm s)) with (k_mm s) by (by destruct (k_mm s)).
  - rewrite Z2Nat.id, Z.eqb_refl by lia. exact Htl.
  - intros d co Hd Hok' Hcom Hp. exists d, co. split_and!; try done. f_equal. lia.
Qed.

End console.

(** ** A concrete console

    The counters are about to wrap; "hi" and a newline are in the input, and the
    line being edited is "a". *)

Definition env_idle : Env := {|
  world := fun _ _ => None; mmio := fun _ _ => 0x20;
  end_ := 0x80021000; etext := 0x80008000; trampoline := 0x80007000;
  uservec := 0x80007000; userret := 0x80007090;
  forkret_addr := 0x80001a00; usertrap_addr := 0x80002800; kernelvec := 0x80005c00;
  kaddr := @kaddr env0; turns := 3
|}.

Lemma env_idle_uart : @UartIdle env_idle.
Proof. intros n. vm_compute. discriminate. Qed.

Definition cons1 : console :=
  mkconsole ([105; 10; 97] ++ replicate 124 0 ++ [104]) (2 ^ 32 - 1) 2 3.

Definition ks_cons : kstate :=
  set_console cons1 (set_k_mm (set_m_ctl ctl1 um) (upd_proc 1 (set_p_pagetable uroot) ks1)).

Lemma cons1_ok : cons_ok cons1.
Proof.
  split; [reflexivity|]. split; [done|]. split; [done|]. split; [done|]. split; [vm_compute; discriminate|].
  change (pending cons1) with [97]. repeat constructor. discriminate.
Qed.

Lemma consoleintr_edits_witness :
  wp (@consoleintr env_idle 13) (fun _ s' =>
    committed (cons (k_dev s')) = [104; 105; 10; 97; 10] /\ pending (cons (k_dev s')) = []) ks_cons.
Proof.
  eapply wp_mono.
  - apply (@consoleintr_edits env_idle env_idle_uart 13 ks_cons); [|lia].
    split; [exact ks1_free|reflexivity|reflexivity|reflexivity|reflexivity|exact cons1_ok].
  - intros _ s' (d & n & tr & co & _ & _ & Hv & ->). injection Hv as H1 H2. split; [exact H1|exact H2].
Defined.

Lemma consoleread_line_witness :
  wp (@consoleread env0 (ToUser 100) 80) (fun r s' =>
    fst r = 3 /\ committed (cons (k_dev s')) = [] /\ pending (cons (k_dev s')) = [97]) ks_cons.
Proof.
  assert (Hr : @cons_reader env0 env0_ok 1 uroot ufree ks_cons).
  { split; [exact ks1_free|reflexivity|reflexivity|reflexivity| |exact cons1_ok].
    apply vm_inv_ctl; [exact um_inv|]. split; [apply ks1_free|reflexivity]. }
  eapply wp_mono.
  - apply (@consoleread_line env0 env0_ok 1 uroot ufree ks_cons 100 80 [104; 105; 10] []
      (snd (write_user (k_mem ks_cons) uroot 100 [104; 105; 10])) Hr);
      [lia|lia|lia|vm_compute; reflexivity|].
    assert (Hw : fst (write_user (k_mem ks_cons) uroot 100 [104; 105; 10]) = 0) by (vm_compute; reflexivity).
    rewrite <- Hw. apply surjective_pairing.
  - intros r s' (d & co & _ & _ & -> & H1 & H2 & ->). split; [reflexivity|]. split; [exact H1|exact H2].
Defined.

Lemma printint_prints_witness :
  exists cs, read_int 10 cs = -2 ^ 31 /\ (length cs <= 16)%nat /\
    wp (@printint env_idle (-2 ^ 31) 10 true) (fun _ s' =>
      mmio_writes (k_dev s') = rev (map (pair (UART0 + THR)) cs)) ks_cons.
Proof.
  destruct (@printint_prints env_idle env_idle_uart (-2 ^ 31) 10 ks_cons) as (cs & H1 & H2 & H3);
    [split; [apply ks1_free|reflexivity]|by left|lia|].
  exists cs. split; [exact H1|]. split; [exact H2|]. eapply wp_mono; [exact H3|].
  intros _ s' (d & n & _ & ->). apply app_nil_r.
Defined.
