(* ===== verification/Sleeplock.v ===== *)
(** * Sleep locks (kernel/sleeplock.c)

    A sleep lock belongs to a buffer or to an inode ([sleepid]); its spinlock is
    [L_sleep] and the channel its waiters sleep on is its own address. *)

From S2P Require Import Prelude Riscv Kstate CString Spinlock Kalloc Vm Sched.

Section sleeplock.
Context {E : Env}.

Definition get_sleep (lk : sleepid) (s : kstate) : sleeplock :=
  match lk with
  | SLbuf i => default sleeplock0 (b_lock <$> bufs (k_fs s) !! i)
  | SLinode i => default sleeplock0 (i_lock <$> inodes (k_fs s) !! i)
  end.

Definition upd_sleep (lk : sleepid) (f : sleeplock -> sleeplock) : K unit :=
  modify (fun s =>
    let fs := k_fs s in
    set_k_fs (match lk with
              | SLbuf i => set_bufs (alter (fun b => set_b_lock (f (b_lock b)) b) i (bufs fs)) fs
              | SLinode i => set_inodes (alter (fun ip => set_i_lock (f (i_lock ip)) ip) i (inodes fs)) fs
              end) s).

Definition initsleeplock (lk : sleepid) (name : string) : K unit :=
  lift_ctl (initlock (L_sleep lk) "sleep lock");;
  upd_sleep lk (fun _ => mksleeplock 0 name 0).

(** The waiting loop is re-entered once per wakeup. *)
Definition acquiresleep (lk : sleepid) : K unit :=
  kacquire (L_sleep lk);;
  loop (S turns) (fun _ =>
    l <- gets (get_sleep lk);;
    if truthy (sl_locked l) then sleep (Ch_sleep lk) (L_sleep lk);; ret (inl tt)
    else ret (inr tt)) tt;;
  upd_sleep lk (set_sl_locked 1);;
  p <- curproc;;
  pr <- getp p;;
  upd_sleep lk (set_sl_pid (p_pid pr));;
  krelease (L_sleep lk).

Definition releasesleep (lk : sleepid) : K unit :=
  kacquire (L_sleep lk);;
  upd_sleep lk (fun l => set_sl_pid 0 (set_sl_locked 0 l));;
  wakeup (Some (Ch_sleep lk));;
  krelease (L_sleep lk).

Definition holdingsleep (lk : sleepid) : K bool :=
  kacquire (L_sleep lk);;
  l <- gets (get_sleep lk);;
  r <- (if truthy (sl_locked l) then
          p <- curproc;;
          pr <- getp p;;
          ret (sl_pid l =? p_pid pr)
        else ret false);;
  krelease (L_sleep lk);;
  ret r.

End sleeplock.
