(* ===== verification/Bio.v ===== *)
(** * The buffer cache (kernel/bio.c)

    The cache is an array of buffers on a doubly linked list, whose head is the
    last entry of the array ([bhead]).  [DiskDriver] is the interface to the disk
    driver: one request, synchronous for its caller. *)

From S2P Require Import Prelude Riscv Kstate CString Spinlock Kalloc Vm Sched Bytes Sleeplock.

Definition BSIZE : Z := 1024.

(** What bio.c calls in the driver: [disk_rw b write]. *)
Class DiskDriver : Type := { disk_rw : nat -> bool -> K unit }.

Section bio.
Context {E : Env} {D : DiskDriver}.

(** The index of [&bcache.head]. *)
Definition bhead : nat := NBUF.

Definition buf0 : buf := mkbuf 0 0 0 0 sleeplock0 0 0 0 (replicate 1024 0).
Definition get_buf (b : nat) (s : kstate) : buf := default buf0 (bufs (k_fs s) !! b).
Definition getb (b : nat) : K buf := gets (get_buf b).
Definition updb (b : nat) (f : buf -> buf) : K unit :=
  modify (fun s => set_k_fs (set_bufs (alter f b (bufs (k_fs s))) (k_fs s)) s).

(** [b->next = bcache.head.next; b->prev = &bcache.head;
     bcache.head.next->prev = b; bcache.head.next = b;] *)
Definition push_front (b : nat) : K unit :=
  hd <- getb bhead;;
  updb b (fun x => set_b_prev bhead (set_b_next (b_next hd) x));;
  updb (b_next hd) (set_b_prev b);;
  updb bhead (set_b_next b).

Definition binit : K unit :=
  lift_ctl (initlock L_bcache "bcache");;
  updb bhead (fun h => set_b_next bhead (set_b_prev bhead h));;
  for_each (seq 0 NBUF) (fun b =>
    hd <- getb bhead;;
    updb b (fun x => set_b_prev bhead (set_b_next (b_next hd) x));;
    initsleeplock (SLbuf b) "buffer";;
    updb (b_next hd) (set_b_prev b);;
    updb bhead (set_b_next b)).

(** A walk along the list from [b], by [next] or [prev], to the first buffer
    that satisfies [f]; the list has NBUF buffers. *)
Fixpoint bfind (fuel : nat) (dir : buf -> nat) (f : buf -> bool) (b : nat) : K (option nat) :=
  match fuel with
  | O => stop
  | S fuel' =>
      if decide (b = bhead) then ret None
      else
        x <- getb b;;
        if f x then ret (Some b) else bfind fuel' dir f (dir x)
  end.

Definition bget (dev blockno : Z) : K nat :=
  kacquire L_bcache;;
  hd <- getb bhead;;
  r <- bfind (S NBUF) b_next (fun x => (b_dev x =? dev) && (b_blockno x =? blockno)) (b_next hd);;
  match r with
  | Some b =>
      updb b (fun x => set_b_refcnt (u32 (b_refcnt x + 1)) x);;
      krelease L_bcache;;
      acquiresleep (SLbuf b);;
      ret b
  | None =>
      r <- bfind (S NBUF) b_prev (fun x => b_refcnt x =? 0) (b_prev hd);;
      match r with
      | Some b =>
          updb b (fun x => set_b_refcnt 1 (set_b_valid 0 (set_b_blockno blockno (set_b_dev dev x))));;
          krelease L_bcache;;
          acquiresleep (SLbuf b);;
          ret b
      | None => panic "bget: no buffers"
      end
  end.

(** The parameters are unsigned: callers' ints are converted. *)
Definition bread (dev blockno : Z) : K nat :=
  b <- bget (u32 dev) (u32 blockno);;
  x <- getb b;;
  when (b_valid x =? 0)
    (disk_rw b false;;
     updb b (set_b_valid 1));;
  ret b.

Definition bwrite (b : nat) : K unit :=
  h <- holdingsleep (SLbuf b);;
  if negb h then panic "bwrite" else disk_rw b true.

Definition brelse (b : nat) : K unit :=
  h <- holdingsleep (SLbuf b);;
  if negb h then panic "brelse"
  else
    releasesleep (SLbuf b);;
    kacquire L_bcache;;
    updb b (fun x => set_b_refcnt (u32 (b_refcnt x - 1)) x);;
    x <- getb b;;
    when (b_refcnt x =? 0)
      (updb (b_next x) (set_b_prev (b_prev x));;
       updb (b_prev x) (set_b_next (b_next x));;
       push_front b);;
    krelease L_bcache.

Definition bpin (b : nat) : K unit :=
  kacquire L_bcache;;
  updb b (fun x => set_b_refcnt (u32 (b_refcnt x + 1)) x);;
  krelease L_bcache.

Definition bunpin (b : nat) : K unit :=
  kacquire L_bcache;;
  updb b (fun x => set_b_refcnt (u32 (b_refcnt x - 1)) x);;
  krelease L_bcache.

(** The contents of a buffer. *)
Definition bdata (b : nat) : K (list Z) := x <- getb b;; ret (b_data x).
Definition set_bdata (b : nat) (f : list Z -> list Z) : K unit :=
  updb b (fun x => set_b_data (f (b_data x)) x).

End bio.
