(* ===== verification/FsRun.v ===== *)
(** * File-system code run by one thread

    The buffer cache and the log take and release spin locks and sleep locks, and
    wake sleepers, around what they do to the caches and the disk.  When no lock is
    in the way, the thread runs through without being switched out: [fsrun] is a
    Hoare triple on the file system's state alone, which hides the locks and the
    process table.  The rules for the sleep locks of sleeplock.c are here. *)

From S2P Require Import Prelude Riscv Kstate CString Spinlock Kalloc Vm Sched SchedSpec Sleeplock Bio.

(** ** Threads that nobody disturbs *)

(** A process was left alone, or woken up. *)
Definition woken (p q : proc) : Prop := q = p \/ p_state p = SLEEPING /\ q = set_p_state RUNNABLE p.

Lemma woken_refl l : Forall2 woken l l.
Proof. induction l; constructor; [by left|done]. Qed.

Lemma woken_trans l l' l'' : Forall2 woken l l' -> Forall2 woken l' l'' -> Forall2 woken l l''.
Proof.
  intros H1. revert l''. induction H1 as [|p q l l' Hpq _ IH]; intros l'' H; inversion H as [|? r ? ? Hqr Hl]; subst;
    constructor; [|by apply IH].
  destruct Hpq as [->|[Hs ->]]; [done|]. destruct Hqr as [->|[Hs' _]]; [by right|]. simpl in Hs'. done.
Qed.

Lemma woken_wake ch me l : Forall2 woken l (imap (wake ch me) l).
Proof.
  apply Forall2_same_length_lookup_2; [by rewrite length_imap|].
  intros i p q Hp Hq. rewrite list_lookup_imap, Hp in Hq. simpl in Hq. injection Hq as <-. unfold wake.
  destruct (bool_decide (me = Some i)); [by left|]. case_bool_decide; simpl; [|by left]. case_bool_decide; [by right|by left].
Qed.

(** The control state with at most one spin lock taken. *)
Definition with_lock (o : option lockid) (c : ctl) : ctl :=
  match o with None => c | Some lk => acquired lk c end.

(** What the disk driver needs to take a request from a process: a condition on its
    own memory and variables and on the process table, which nothing else changes. *)
Class DiskReady : Type := {
  ready : nat -> kstate -> Prop;
  ready_frame : forall pr s s', ready pr s -> k_mem s' = k_mem s -> vdisk_ (k_dev s') = vdisk_ (k_dev s) ->
    Forall2 woken (procs (k_pt s)) (procs (k_pt s')) -> ready pr s'
}.

Section running.
Context {DR : DiskReady}.

(** Process [pr], with process id [pid], runs on [c0]'s hart, where every spin lock
    is free, and has taken the lock [o] since; the disk is ready for it. *)
Record running (pr : nat) (pid : Z) (o : option lockid) (c0 : ctl) (s : kstate) : Prop := {
  ru_ok : ctl_ok c0;
  ru_free : forall lk, free lk c0;
  ru_cur : cur c0 = Some pr;
  ru_noff : noff (get_cpu (hart c0) c0) = 0;
  ru_ctl : ctl_equiv (with_lock o c0) (k_ctl s);
  ru_procs : length (procs (k_pt s)) = NPROC;
  ru_pid : p_pid (get_proc pr s) = pid;
  ru_ready : ready pr s
}.

Lemma running_ok pr pid o c0 s : running pr pid o c0 s -> ctl_ok (k_ctl s).
Proof.
  intros H. rewrite <- (ru_ctl _ _ _ _ _ H). destruct o; [|apply H]. simpl.
  destruct (acquired_facts l c0 (ru_ok _ _ _ _ _ H)) as [? _]. done.
Qed.

Lemma running_cur pr pid o c0 s : running pr pid o c0 s -> cur (k_ctl s) = Some pr.
Proof.
  intros H. rewrite <- (cur_equiv _ _ (ru_ctl _ _ _ _ _ H)). destruct o; [|apply H]. simpl.
  rewrite cur_acquired by apply H. apply H.
Qed.

Lemma running_other pr pid o c0 s lk : running pr pid o c0 s -> Some lk <> o -> free lk (k_ctl s).
Proof.
  intros H Hne. rewrite <- (ru_ctl _ _ _ _ _ H). destruct o as [lk'|]; [|apply H]. simpl.
  destruct (acquired_facts lk' c0 (ru_ok _ _ _ _ _ H)) as (_ & _ & Ho & _). unfold free.
  rewrite Ho by congruence. apply (ru_free _ _ _ _ _ H).
Qed.

Lemma pid_woken pr l l' : Forall2 woken l l' -> p_pid (default proc0 (l' !! pr)) = p_pid (default proc0 (l !! pr)).
Proof.
  intros H. destruct (l !! pr) as [p|] eqn:Hl.
  - destruct (Forall2_lookup_l _ _ _ _ _ H Hl) as (q & -> & [->|[_ ->]]); done.
  - apply lookup_ge_None in Hl. rewrite lookup_ge_None_2; [done|]. by rewrite <- (Forall2_length _ _ _ H).
Qed.

(** A step that changes the locks, the file system and who is asleep. *)
Lemma running_frame pr pid o o' c0 s s' : running pr pid o c0 s -> ctl_equiv (with_lock o' c0) (k_ctl s') -> k_mem s' = k_mem s ->
  vdisk_ (k_dev s') = vdisk_ (k_dev s) -> Forall2 woken (procs (k_pt s)) (procs (k_pt s')) -> running pr pid o' c0 s'.
Proof.
  intros [] Hc Hm Hd Hw. split; try done.
  - by rewrite <- (Forall2_length _ _ _ Hw).
  - rewrite <- ru_pid0. by apply pid_woken.
  - by eapply ready_frame.
Qed.

End running.

(** ** Triples on the file system's state *)

Section fsrun.
Context {DR : DiskReady} (pr : nat) (pid : Z).

(** Code that starts with the lock [o] taken and ends with [o'] taken. *)
Definition crun {A} (o : option lockid) (m : K A) (F : fsstate) (o' : option lockid) (Q : A -> fsstate -> Prop) : Prop :=
  forall c0 s, running pr pid o c0 s -> k_fs s = F ->
    wp m (fun a s' => Q a (k_fs s') /\ running pr pid o' c0 s' /\ Forall2 woken (procs (k_pt s)) (procs (k_pt s'))) s.

Definition fsrun {A} (m : K A) (F : fsstate) (Q : A -> fsstate -> Prop) : Prop := crun None m F None Q.

Lemma crun_ret {A} o (a : A) F (Q : A -> fsstate -> Prop) : Q a F -> crun o (ret a) F o Q.
Proof. intros H c0 s Hs <-. apply wp_ret. split_and!; [done|done|apply woken_refl]. Qed.

Lemma crun_bind {A B} o o1 o2 (m : K A) (f : A -> K B) F (Q : B -> fsstate -> Prop) :
  crun o m F o1 (fun a F' => crun o1 (f a) F' o2 Q) -> crun o (bind m f) F o2 Q.
Proof.
  intros H c0 s Hs HF. apply wp_bind. eapply wp_mono; [by apply H|]. intros a s' (Hf & Hs' & Hw).
  eapply wp_mono; [by apply Hf|]. intros b s'' (HQ & Hs'' & Hw'). split_and!; [done|done|by eapply woken_trans].
Qed.

Lemma crun_mono {A} o o' (m : K A) F (P Q : A -> fsstate -> Prop) :
  crun o m F o' P -> (forall a F', P a F' -> Q a F') -> crun o m F o' Q.
Proof. intros H Hi c0 s Hs HF. eapply wp_mono; [by apply H|]. intros a s' (HP & Hr). auto. Qed.

Lemma crun_gets {A} o (g : fsstate -> A) F (Q : A -> fsstate -> Prop) :
  Q (g F) F -> crun o (gets (fun s => g (k_fs s))) F o Q.
Proof. intros H c0 s Hs <-. apply wp_gets. split_and!; [done|done|apply woken_refl]. Qed.

Lemma crun_modify o (g : fsstate -> fsstate) F (Q : unit -> fsstate -> Prop) :
  Q tt (g F) -> crun o (modify (fun s => set_k_fs (g (k_fs s)) s)) F o Q.
Proof.
  intros H c0 s Hs <-. apply wp_modify. split_and!; [done| |apply woken_refl]. eapply running_frame; [done|apply Hs|done|done|apply woken_refl].
Qed.

Lemma crun_kacquire lk F (Q : unit -> fsstate -> Prop) : Q tt F -> crun None (kacquire lk) F (Some lk) Q.
Proof.
  intros H c0 s Hs <-. pose proof Hs as [H1 H2 H3 Hnoff H4 H5 H6 H7]. apply wp_kacquire; [by eapply running_ok|by eapply running_other|].
  split_and!; [done| |apply woken_refl]. eapply running_frame; [done|by apply acquired_proper|done|done|apply woken_refl].
Qed.

Lemma crun_krelease lk F (Q : unit -> fsstate -> Prop) : Q tt F -> crun (Some lk) (krelease lk) F None Q.
Proof.
  intros H c0 s Hs <-. pose proof Hs as [H1 H2 H3 Hnoff H4 H5 H6 H7]. apply (wp_krelease c0); [done|done|done|]. intros e He.
  split_and!; [done| |apply woken_refl]. eapply running_frame; [done|done|done|done|apply woken_refl].
Qed.

Lemma crun_wakeup o ch F (Q : unit -> fsstate -> Prop) :
  (forall i, o <> Some (L_proc i)) -> Q tt F -> crun o (wakeup ch) F o Q.
Proof.
  intros Ho H c0 s Hs <-. apply (wp_wakeup ch (Some pr)).
  - split; [by eapply running_ok|]. intros i _ _. eapply running_other; [done|]. intros He. by apply (Ho i).
  - by eapply running_cur.
  - apply Hs.
  - intros c Hc. pose proof Hs as [H1 H2 H3 Hnoff H4 H5 H6 H7]. split_and!; [done| |apply woken_wake].
    eapply running_frame; [done|simpl; by rewrite H4|done|done|apply woken_wake].
Qed.

(** [myproc()->pid] *)
Lemma crun_curpid {A} o (f : proc -> K A) F o' (Q : A -> fsstate -> Prop) :
  (forall p, p_pid p = pid -> crun o (f p) F o' Q) -> crun o (p <- curproc;; x <- getp p;; f x) F o' Q.
Proof.
  intros H c0 s Hs <-. pose proof Hs as [H1 H2 H3 Hnoff H4 H5 H6 H7]. wp_step. apply (wp_curproc pr); [by eapply running_ok|by eapply running_cur|].
  intros c Hc. do 2 kstep. rewrite get_proc_kset. eapply wp_mono; [apply (H (get_proc pr s) H6 c0)|]; try done.
  eapply running_frame; [done|simpl; by rewrite H4|done|done|apply woken_refl].
Qed.

Lemma crun_for_each {I} (P : list I -> fsstate -> Prop) (body : I -> K unit) l F (Q : unit -> fsstate -> Prop) :
  P l F -> (forall i l' F, P (i :: l') F -> fsrun (body i) F (fun _ F' => P l' F')) ->
  (forall F', P [] F' -> Q tt F') -> fsrun (for_each l body) F Q.
Proof.
  intros H Hb HQ. revert F H. induction l as [|i l IH]; intros F H; simpl.
  - apply crun_ret. by apply HQ.
  - eapply crun_bind, crun_mono; [by apply Hb|]. intros [] F' H'. by apply IH.
Qed.

Lemma crun_for_find {I A} (Inv : fsstate -> Prop) (found : I -> option A) (body : I -> K (option A)) l F
    (Q : option A -> fsstate -> Prop) : Inv F ->
  (forall i F, i ∈ l -> Inv F -> found i = None -> fsrun (body i) F (fun r F' => r = None /\ Inv F')) ->
  (forall i l1 l2 F, Inv F -> l = l1 ++ i :: l2 -> (forall j, j ∈ l1 -> found j = None) -> found i <> None ->
     fsrun (body i) F (fun r F' => r = found i /\ Q r F')) ->
  (forall F', Inv F' -> (forall j, j ∈ l -> found j = None) -> Q None F') -> fsrun (for_find l body) F Q.
Proof.
  intros HF Hnone Hsome Hend.
  assert (Hgo : forall l2 l1 F, l = l1 ++ l2 -> Inv F -> (forall j, j ∈ l1 -> found j = None) -> fsrun (for_find l2 body) F Q).
  { induction l2 as [|i l2 IH]; intros l1 F1 Hl HI Hbefore; cbn [for_find].
    - apply crun_ret, Hend; [done|]. rewrite app_nil_r in Hl. by subst.
    - eapply crun_bind. destruct (found i) as [x|] eqn:Hi.
      + pose proof (Hsome i l1 l2 F1 HI Hl Hbefore) as H. rewrite Hi in H. eapply crun_mono; [by apply H|]. intros r F2 [-> HQ]. by apply crun_ret.
      + eapply crun_mono; [apply Hnone; [rewrite Hl; apply elem_of_app; right; by left|done|done]|]. intros r F2 [-> HI2]. apply (IH (l1 ++ [i])); [by rewrite <- app_assoc|done|].
        intros j Hj. apply elem_of_app in Hj as [Hj|Hj]; [by apply Hbefore|]. apply list_elem_of_singleton in Hj. by subst. }
  apply (Hgo l []); [done|done|]. intros j Hj. by apply not_elem_of_nil in Hj.
Qed.

(** A loop with an invariant and a measure. *)
Lemma crun_loop {X A} o (Inv : X -> fsstate -> Prop) (mu : X -> nat) (body : X -> K (X + A)) (Q : A -> fsstate -> Prop) :
  (forall x F, Inv x F -> crun o (body x) F o (fun r F' => match r with
     | inl x' => Inv x' F' /\ (mu x' < mu x)%nat
     | inr a => Q a F'
     end)) ->
  forall fuel x F, Inv x F -> (mu x < fuel)%nat -> crun o (loop fuel body x) F o Q.
Proof.
  intros Hb fuel. induction fuel as [|fuel IH]; intros x F HI Hf; [lia|]. cbn [loop]. eapply crun_bind, crun_mono; [by apply Hb|].
  intros [x'|a] F'; [|intros HQ; by apply crun_ret]. intros [HI' Hm]. apply IH; [done|lia].
Qed.

(** [myproc()] where its result is not used. *)
Lemma crun_kmyproc o F (Q : option nat -> fsstate -> Prop) : Q (Some pr) F -> crun o kmyproc F o Q.
Proof.
  intros H c0 s Hs <-. pose proof Hs as [H1 H2 H3 Hnoff H4 H5 H6 H7]. apply wp_kmyproc; [by eapply running_ok|]. intros c Hc.
  rewrite (running_cur _ _ _ _ _ Hs). split_and!; [done| |apply woken_refl]. eapply running_frame; [done|simpl; by rewrite H4|done|done|apply woken_refl].
Qed.

(** A second lock, taken and released around one update. *)
Lemma crun_nested lk lk' (g : fsstate -> fsstate) F (Q : unit -> fsstate -> Prop) : lk' <> lk -> Q tt (g F) ->
  crun (Some lk) (kacquire lk';; modify (fun s => set_k_fs (g (k_fs s)) s);; krelease lk') F (Some lk) Q.
Proof.
  intros Hne H c0 s Hs <-. pose proof Hs as [H1 H2 H3 Hnoff H4 H5 H6 H7].
  assert (Hf : free lk' (k_ctl s)) by (eapply running_other; [exact Hs|by intros [= ->]]).
  apply wp_bind, wp_kacquire; [by eapply running_ok|done|].
  apply wp_bind, wp_modify. apply (wp_krelease (k_ctl s)); [by eapply running_ok|done|done|]. intros e He.
  split_and!; [done| |apply woken_refl]. eapply running_frame; [done|simpl; by rewrite H4|done|done|apply woken_refl].
Qed.

End fsrun.

(** ** Buffers *)

Definition getB (b : nat) (F : fsstate) : buf := default buf0 (bufs F !! b).
Definition updB (b : nat) (f : buf -> buf) (F : fsstate) : fsstate := set_bufs (alter f b (bufs F)) F.

Lemma getB_upd_eq b f F : (b < length (bufs F))%nat -> getB b (updB b f F) = f (getB b F).
Proof.
  intros Hb. unfold getB, updB. simpl. rewrite list_lookup_alter_eq.
  by destruct (lookup_lt_is_Some_2 _ _ Hb) as [x ->].
Qed.

Lemma getB_upd_ne b b' f F : b <> b' -> getB b' (updB b f F) = getB b' F.
Proof. intros Hb. unfold getB, updB. simpl. by rewrite list_lookup_alter_ne. Qed.

Lemma updB_upd b f g F : updB b g (updB b f F) = updB b (fun x => g (f x)) F.
Proof.
  unfold updB, set_bufs. simpl. f_equal. apply list_eq. intros i. rewrite !list_lookup_alter.
  destruct (decide (b = i)) as [->|]; [|done]. rewrite decide_True by done. by destruct (bufs F !! i).
Qed.

Lemma updB_length b f F : length (bufs (updB b f F)) = length (bufs F).
Proof. unfold updB. simpl. apply length_alter. Qed.

Definition locked_by (pid : Z) (l : sleeplock) : sleeplock := set_sl_pid pid (set_sl_locked 1 l).
Definition unlocked (l : sleeplock) : sleeplock := set_sl_pid 0 (set_sl_locked 0 l).
Definition upd_lock_of (f : sleeplock -> sleeplock) (x : buf) : buf := set_b_lock (f (b_lock x)) x.

Section sleeplocks.
Context {E : Env} {DR : DiskReady} (pr : nat) (pid : Z).

Lemma get_sleep_buf b s : get_sleep (SLbuf b) s = b_lock (getB b (k_fs s)).
Proof. unfold get_sleep, getB. by destruct (bufs (k_fs s) !! b). Qed.

Lemma fsrun_acquiresleep b F (Q : unit -> fsstate -> Prop) :
  sl_locked (b_lock (getB b F)) = 0 -> Q tt (updB b (upd_lock_of (locked_by pid)) F) ->
  fsrun pr pid (acquiresleep (SLbuf b)) F Q.
Proof.
  intros Hl HQ. unfold acquiresleep. eapply crun_bind, crun_kacquire. cbn [loop].
  eapply crun_bind, crun_bind, crun_bind. intros c0 s Hs <-. apply wp_gets. split_and!; [|exact Hs|apply woken_refl].
  rewrite get_sleep_buf, Hl. apply crun_ret, crun_ret. eapply crun_bind.
  apply (crun_modify _ _ _ (updB b (fun x => set_b_lock (set_sl_locked 1 (b_lock x)) x))). apply crun_curpid. intros p <-.
  eapply crun_bind, (crun_modify _ _ _ (updB b (fun x => set_b_lock (set_sl_pid (p_pid p) (b_lock x)) x))).
  apply crun_krelease. by rewrite updB_upd.
Qed.

Lemma fsrun_releasesleep b F (Q : unit -> fsstate -> Prop) :
  Q tt (updB b (upd_lock_of unlocked) F) -> fsrun pr pid (releasesleep (SLbuf b)) F Q.
Proof.
  intros HQ. unfold releasesleep. eapply crun_bind, crun_kacquire.
  eapply crun_bind, (crun_modify _ _ _ (updB b (upd_lock_of unlocked))).
  eapply crun_bind, crun_wakeup; [done|]. by apply crun_krelease.
Qed.

Lemma fsrun_holdingsleep b F (Q : bool -> fsstate -> Prop) :
  Q (truthy (sl_locked (b_lock (getB b F))) && (sl_pid (b_lock (getB b F)) =? pid)) F ->
  fsrun pr pid (holdingsleep (SLbuf b)) F Q.
Proof.
  intros HQ. unfold holdingsleep. eapply crun_bind, crun_kacquire.
  eapply crun_bind. intros c0 s Hs <-. apply wp_gets. split_and!; [|exact Hs|apply woken_refl]. rewrite get_sleep_buf.
  destruct (truthy (sl_locked (b_lock (getB b (k_fs s))))); simpl in HQ.
  - eapply crun_bind. apply crun_curpid. intros p Hp. apply crun_ret. eapply crun_bind, crun_krelease, crun_ret. by rewrite Hp.
  - eapply crun_bind, crun_ret, crun_bind, crun_krelease, crun_ret. done.
Qed.

End sleeplocks.
