(* ===== verification/BioSpec.v ===== *)
(** * The buffer cache is a cache (kernel/bio.c)

    The abstract state [absview] of the cache gives, per block, its contents as the
    kernel sees them, the number of references and whether it is locked.  The
    representation [Cached] ties it to the buffers, their LRU list and the disk:
    blocks without references agree with the disk, so any of them may be recycled.
    bread(), bwrite(), brelse(), bpin() and bunpin() are proved against it. *)

From S2P Require Import Prelude Riscv Bytes Dll Kstate CString Spinlock Kalloc Vm Sched SchedSpec Sleeplock.
From S2P Require Import Bio FsRun.

(** ** The interface of the disk driver *)

Definition zero_block : list Z := replicate 1024 0.
Definition block (F : fsstate) (n : Z) : list Z := default zero_block (disk F !! n).

Definition write_block (n : Z) (d : list Z) (F : fsstate) : fsstate :=
  set_disk (<[n := d]> (disk F)) (set_disk_writes ((n, d) :: disk_writes F) F).

(** A request of the driver is one block transfer. *)
Class DiskLaws {D : DiskDriver} {DR : DiskReady} : Prop := {
  disk_read : forall pr pid F b, (b < NBUF)%nat -> length (bufs F) = S NBUF -> b_disk (getB b F) = 0 ->
    0 <= b_blockno (getB b F) < 2 ^ 31 ->
    fsrun pr pid (disk_rw b false) F
      (fun _ F' => F' = updB b (set_b_data (block F (b_blockno (getB b F)))) F);
  disk_write : forall pr pid F b, (b < NBUF)%nat -> length (bufs F) = S NBUF -> b_disk (getB b F) = 0 ->
    0 <= b_blockno (getB b F) < 2 ^ 31 ->
    fsrun pr pid (disk_rw b true) F
      (fun _ F' => F' = write_block (b_blockno (getB b F)) (b_data (getB b F)) F)
}.

(** A driver that transfers blocks at once. *)
Definition ideal_driver : DiskDriver := {| disk_rw := fun b write =>
  modify (fun s => set_k_fs (let F := k_fs s in
    if (write : bool) then write_block (b_blockno (getB b F)) (b_data (getB b F)) F
    else updB b (set_b_data (block F (b_blockno (getB b F)))) F) s) |}.

(** It takes requests at any time. *)
Definition always_ready : DiskReady := {| ready := fun _ _ => True; ready_frame := fun _ _ _ _ _ _ _ => I |}.

Lemma ideal_laws : @DiskLaws ideal_driver always_ready.
Proof.
  split; intros pr pid F b _ _ _ _.
  - by apply (crun_modify pr pid None (fun F => updB b (set_b_data (block F (b_blockno (getB b F)))) F)).
  - by apply (crun_modify pr pid None (fun F => write_block (b_blockno (getB b F)) (b_data (getB b F)) F)).
Qed.

(** ** Finding blocks in the cache *)

Definition fupd {A} (f : Z -> A) (n : Z) (v : A) : Z -> A := fun m => if decide (m = n) then v else f m.

Lemma fupd_eq {A} (f : Z -> A) n v : fupd f n v n = v.
Proof. unfold fupd. by rewrite decide_True. Qed.
Lemma fupd_ne {A} (f : Z -> A) n v m : m <> n -> fupd f n v m = f m.
Proof. intros. unfold fupd. by rewrite decide_False. Qed.

Section cache.
Context (dev : Z).

(** Buffer [b] holds block [n] of the device. *)
Definition at_buf (F : fsstate) (b : nat) (n : Z) : Prop :=
  (b < NBUF)%nat /\ b_dev (getB b F) = dev /\ b_blockno (getB b F) = n.

Definition is_block (n : Z) (x : buf) : bool := (b_dev x =? dev) && (b_blockno x =? n).
Definition find_buf (F : fsstate) (n : Z) : option nat := first_index (is_block n) (take NBUF (bufs F)).

(** The contents of a block, its references and its lock. *)
Definition view (F : fsstate) (n : Z) : list Z :=
  match find_buf F n with Some b => b_data (getB b F) | None => block F n end.
Definition refs (F : fsstate) (n : Z) : Z :=
  match find_buf F n with Some b => b_refcnt (getB b F) | None => 0 end.
Definition lockd (F : fsstate) (n : Z) : bool :=
  match find_buf F n with Some b => truthy (sl_locked (b_lock (getB b F))) | None => false end.

(** The number of buffers in use. *)
Definition bsum (f : nat -> Z) : Z := foldr (fun b n => f b + n) 0 (seq 0 NBUF).
Definition in_use (F : fsstate) (b : nat) : Z := b2z (truthy (b_refcnt (getB b F))).
Definition busy (F : fsstate) : Z := bsum (in_use F).

(** ** Well-formed caches *)

(** A buffer that holds a block, or one that was never used. *)
Definition buf_ok (pid : Z) (F : fsstate) (x : buf) : Prop :=
  (b_dev x = dev /\ b_valid x = 1 \/ b_dev x = 0 /\ b_valid x = 0 /\ b_refcnt x = 0) /\
  0 <= b_refcnt x < 2 ^ 32 /\ b_disk x = 0 /\ length (b_data x) = 1024%nat /\
  (b_refcnt x = 0 -> sl_locked (b_lock x) = 0 /\ (b_dev x = dev -> b_data x = block F (b_blockno x))) /\
  (sl_locked (b_lock x) = 0 \/ sl_locked (b_lock x) = 1 /\ sl_pid (b_lock x) = pid).

Definition nxt (F : fsstate) (b : nat) : nat := b_next (getB b F).
Definition prv (F : fsstate) (b : nat) : nat := b_prev (getB b F).

Record cache_ok (pid : Z) (F : fsstate) : Prop := {
  ck_len : length (bufs F) = S NBUF;
  ck_list : exists l, l ≡ₚ seq 0 NBUF /\ linked bhead (nxt F) (prv F) l;
  ck_buf : forall b, (b < NBUF)%nat -> buf_ok pid F (getB b F);
  ck_uniq : forall b b' n, at_buf F b n -> at_buf F b' n -> b = b';
  ck_disk : forall n, length (block F n) = 1024%nat
}.

Lemma getB_take b F : (b < NBUF)%nat -> length (bufs F) = S NBUF -> take NBUF (bufs F) !! b = Some (getB b F).
Proof.
  intros Hb Hl. rewrite lookup_take_lt by done. unfold getB. by destruct (lookup_lt_is_Some_2 (bufs F) b) as [x ->]; [lia|].
Qed.

Lemma is_block_true n x : is_block n x = true <-> b_dev x = dev /\ b_blockno x = n.
Proof. unfold is_block. rewrite andb_true_iff, !Z.eqb_eq. done. Qed.

Lemma find_buf_Some pid F b n : cache_ok pid F -> find_buf F n = Some b <-> at_buf F b n.
Proof.
  intros Hc. split.
  - intros H. apply first_index_Some in H as (x & Hx & Hb). apply is_block_true in Hb.
    assert (Hlt : (b < NBUF)%nat) by (apply lookup_lt_Some in Hx; rewrite length_take in Hx; lia).
    rewrite (getB_take b F Hlt (ck_len _ _ Hc)) in Hx. injection Hx as <-. done.
  - intros Hat. destruct (find_buf F n) as [b'|] eqn:Hf.
    + f_equal. eapply (ck_uniq _ _ Hc b' b n); [|done]. apply first_index_Some in Hf as (x & Hx & Hb). apply is_block_true in Hb.
      assert (Hlt : (b' < NBUF)%nat) by (apply lookup_lt_Some in Hx; rewrite length_take in Hx; lia).
      rewrite (getB_take b' F Hlt (ck_len _ _ Hc)) in Hx. injection Hx as <-. done.
    + exfalso. destruct Hat as (Hb & H1 & H2). pose proof (getB_take b F Hb (ck_len _ _ Hc)) as Hx.
      apply first_index_None in Hf. eapply Forall_lookup_1 in Hf; [|exact Hx].
      apply not_true_iff_false in Hf. apply Hf, is_block_true. done.
Qed.

Lemma find_buf_None pid F n : cache_ok pid F -> find_buf F n = None -> forall b, ~ at_buf F b n.
Proof. intros Hc Hf b Hat. apply (find_buf_Some pid F b n Hc) in Hat. congruence. Qed.

Lemma at_buf_view pid F b n : cache_ok pid F -> at_buf F b n ->
  view F n = b_data (getB b F) /\ refs F n = b_refcnt (getB b F) /\ lockd F n = truthy (sl_locked (b_lock (getB b F))).
Proof. intros Hc Hat. unfold view, refs, lockd. apply (find_buf_Some pid F b n Hc) in Hat. by rewrite Hat. Qed.

(** ** Abstract states *)

Record absview := mkabs {
  av : Z -> list Z;     (* the contents of the blocks *)
  ar : Z -> Z;          (* their references *)
  al : Z -> bool;       (* are they locked? *)
  ab : Z;               (* buffers in use *)
  ad : Z -> list Z;     (* the disk *)
  aw : list (Z * list Z)  (* what was written to the disk, newest first *)
}.

Record Cached (pid : Z) (a : absview) (F : fsstate) : Prop := {
  ca_ok : cache_ok pid F;
  ca_view : forall n, view F n = av a n;
  ca_refs : forall n, refs F n = ar a n;
  ca_lock : forall n, lockd F n = al a n;
  ca_busy : busy F = ab a;
  ca_disk : forall n, block F n = ad a n;
  ca_writes : disk_writes F = aw a
}.

(** What none of the operations on buffers touches. *)
Definition same_rest (F F' : fsstate) : Prop :=
  klog F' = klog F /\ sb F' = sb F /\ inodes F' = inodes F /\ files F' = files F /\ pipes F' = pipes F.

(** Buffers stay with the blocks that are referenced. *)
Definition keeps (F F' : fsstate) : Prop := forall b n, at_buf F b n -> 0 < refs F n -> at_buf F' b n.

(** ** Counting buffers *)

Lemma bsum_ext f g : (forall b, (b < NBUF)%nat -> f b = g b) -> bsum f = bsum g.
Proof.
  intros H. unfold bsum. assert (Hs : forall l, (forall b, b ∈ l -> f b = g b) ->
    foldr (fun b n => f b + n) 0 l = foldr (fun b n => g b + n) 0 l).
  { intros l Hl. induction l as [|x l IH]; [done|]. simpl. rewrite Hl by left. f_equal. apply IH. intros b Hb. apply Hl. by right. }
  apply Hs. intros b Hb. apply H. apply elem_of_seq in Hb. lia.
Qed.

Lemma bsum_upd f g b : (b < NBUF)%nat -> (forall b', b' <> b -> f b' = g b') -> bsum g = bsum f - f b + g b.
Proof.
  intros Hb H. unfold bsum. assert (Hs : forall n k, (k <= b < k + n)%nat ->
    foldr (fun b n => g b + n) 0 (seq k n) = foldr (fun b n => f b + n) 0 (seq k n) - f b + g b).
  { assert (Hout : forall n k, (b < k \/ k + n <= b)%nat -> foldr (fun b n => g b + n) 0 (seq k n) = foldr (fun b n => f b + n) 0 (seq k n)).
    { induction n as [|n IH]; intros k Hk; [done|]. simpl. rewrite IH by lia. rewrite (H k) by lia. done. }
    induction n as [|n IH]; intros k Hk; [lia|]. simpl. destruct (decide (k = b)) as [->|Hne].
    - rewrite Hout by lia. lia.
    - rewrite IH by lia. rewrite (H k) by done. lia. }
  apply Hs. lia.
Qed.

Lemma bsum_free f : (forall b, f b = 0 \/ f b = 1) -> bsum f < Z.of_nat NBUF -> exists b, (b < NBUF)%nat /\ f b = 0.
Proof.
  intros Hf. unfold bsum. assert (Hs : forall n k, foldr (fun b n => f b + n) 0 (seq k n) < Z.of_nat n ->
    exists b, (k <= b < k + n)%nat /\ f b = 0).
  { induction n as [|n IH]; intros k; cbn [seq foldr]; [lia|]. intros Hlt. destruct (Hf k) as [H0|H1]; [exists k; lia|].
    destruct (IH (S k)) as (b & Hb & Hfb); [lia|]. exists b. split; [lia|done]. }
  intros Hlt. destruct (Hs NBUF 0%nat Hlt) as (b & Hb & Hfb). exists b. split; [lia|done].
Qed.

Lemma in_use_01 F b : in_use F b = 0 \/ in_use F b = 1.
Proof. unfold in_use, b2z. case_match; auto. Qed.

(** ** Caches that agree on the identity of every buffer *)

Lemma find_buf_eq pid F F' n : cache_ok pid F -> cache_ok pid F' ->
  (forall b, at_buf F b n <-> at_buf F' b n) -> find_buf F' n = find_buf F n.
Proof.
  intros Hc Hc' H. destruct (find_buf F n) as [b|] eqn:Hf.
  - apply (find_buf_Some pid F' b n Hc'), H, (find_buf_Some pid F b n Hc). done.
  - destruct (find_buf F' n) as [b|] eqn:Hf'; [|done]. exfalso.
    apply (find_buf_Some pid F' b n Hc'), H in Hf'. by apply (find_buf_None pid F n Hc Hf b).
Qed.

(** Everything of a buffer but its place in the list. *)
Definition core (x : buf) : buf := set_b_prev 0 (set_b_next 0 x).

Lemma core_eq x y : core x = core y ->
  b_valid x = b_valid y /\ b_disk x = b_disk y /\ b_dev x = b_dev y /\ b_blockno x = b_blockno y /\
  b_lock x = b_lock y /\ b_refcnt x = b_refcnt y /\ b_data x = b_data y.
Proof. destruct x, y. unfold core, set_b_prev, set_b_next. simpl. by intros [= -> -> -> -> -> -> ->]. Qed.

(** Only pointers changed. *)
Lemma cached_relink pid a F F' l : Cached pid a F ->
  length (bufs F') = length (bufs F) -> (forall b, core (getB b F') = core (getB b F)) ->
  disk F' = disk F -> disk_writes F' = disk_writes F ->
  l ≡ₚ seq 0 NBUF -> linked bhead (nxt F') (prv F') l -> Cached pid a F'.
Proof.
  intros [Hc H1 H2 H3 H4 H5 H6] Hlen Hcore Hd Hw Hl Hlk.
  assert (Hblk : forall n, block F' n = block F n) by (intros n; unfold block; by rewrite Hd).
  assert (Hat : forall b n, at_buf F b n <-> at_buf F' b n).
  { intros b n. unfold at_buf. destruct (core_eq _ _ (Hcore b)) as (_ & _ & -> & -> & _). done. }
  assert (Hc' : cache_ok pid F').
  { destruct Hc as [K1 K2 K3 K4 K5]. split.
    - by rewrite Hlen.
    - by exists l.
    - intros b Hb. specialize (K3 b Hb). unfold buf_ok in *.
      destruct (core_eq _ _ (Hcore b)) as (-> & -> & -> & -> & -> & -> & ->). by rewrite Hblk.
    - intros b b' n Hb Hb'. apply Hat in Hb, Hb'. by eapply K4.
    - intros n. by rewrite Hblk. }
  assert (Hf : forall n, find_buf F' n = find_buf F n) by (intros n; by eapply find_buf_eq).
  split; [done| | | | |by intros n; rewrite Hblk|by rewrite Hw].
  - intros n. rewrite <- H1. unfold view. rewrite Hf, Hblk. destruct (find_buf F n) as [b|]; [|done].
    by destruct (core_eq _ _ (Hcore b)) as (_ & _ & _ & _ & _ & _ & ->).
  - intros n. rewrite <- H2. unfold refs. rewrite Hf. destruct (find_buf F n) as [b|]; [|done].
    by destruct (core_eq _ _ (Hcore b)) as (_ & _ & _ & _ & _ & -> & _).
  - intros n. rewrite <- H3. unfold lockd. rewrite Hf. destruct (find_buf F n) as [b|]; [|done].
    by destruct (core_eq _ _ (Hcore b)) as (_ & _ & _ & _ & -> & _ & _).
  - rewrite <- H4. apply bsum_ext. intros b _. unfold in_use. by destruct (core_eq _ _ (Hcore b)) as (_ & _ & _ & _ & _ & -> & _).
Qed.

(** One buffer changed and kept its block. *)
Definition keeps_id (f : buf -> buf) : Prop := forall x,
  b_dev (f x) = b_dev x /\ b_blockno (f x) = b_blockno x /\ b_next (f x) = b_next x /\ b_prev (f x) = b_prev x.

Lemma updB_links b f F : (forall x, b_next (f x) = b_next x /\ b_prev (f x) = b_prev x) -> (b < length (bufs F))%nat ->
  (forall b', nxt (updB b f F) b' = nxt F b') /\ (forall b', prv (updB b f F) b' = prv F b').
Proof.
  intros Hf Hb. unfold nxt, prv. split; intros b'; (destruct (decide (b = b')) as [<-|Hne];
    [rewrite getB_upd_eq by done; apply Hf|by rewrite getB_upd_ne by done]).
Qed.

Definition a_set (n : Z) (x : buf) (d : Z) (a : absview) : absview :=
  mkabs (fupd (av a) n (b_data x)) (fupd (ar a) n (b_refcnt x)) (fupd (al a) n (truthy (sl_locked (b_lock x))))
        (ab a + d) (ad a) (aw a).

Lemma cached_update pid a F b n f : Cached pid a F -> at_buf F b n -> keeps_id f ->
  buf_ok pid F (f (getB b F)) ->
  Cached pid (a_set n (f (getB b F)) (b2z (truthy (b_refcnt (f (getB b F)))) - b2z (truthy (b_refcnt (getB b F)))) a)
    (updB b f F) /\
  (forall b' m, at_buf F b' m <-> at_buf (updB b f F) b' m).
Proof.
  intros [Hc H1 H2 H3 H4 H5 H6] Hat Hid Hok. pose proof Hc as [K1 K2 K3 K4 K5].
  assert (Hb : (b < length (bufs F))%nat) by (rewrite K1; destruct Hat; lia).
  assert (Hg : forall b', getB b' (updB b f F) = if decide (b' = b) then f (getB b F) else getB b' F).
  { intros b'. case_decide as Hd; [subst; by apply getB_upd_eq|apply getB_upd_ne; congruence]. }
  assert (Hatt : forall b' m, at_buf F b' m <-> at_buf (updB b f F) b' m).
  { intros b' m. unfold at_buf. rewrite Hg. case_decide as Hd; [subst b'|done]. destruct (Hid (getB b F)) as (-> & -> & _). done. }
  assert (Hc' : cache_ok pid (updB b f F)).
  { split; [by rewrite updB_length| | | |done].
    - destruct K2 as (l & Hl & Hlk). exists l. split; [done|].
      destruct (updB_links b f F) as [N1 N2]; [intros x; split; apply Hid|done|]. by eapply linked_ext.
    - intros b' Hb'. rewrite Hg. case_decide; [done|by apply K3].
    - intros b1 b2 m A1 A2. apply Hatt in A1, A2. by eapply K4. }
  split; [|done].
  assert (Hfn : forall m, find_buf (updB b f F) m = find_buf F m) by (intros m; eapply find_buf_eq; eauto).
  apply (find_buf_Some pid F b n Hc) in Hat as Hfb.
  assert (Hother : forall m b', m <> n -> find_buf F m = Some b' -> b' <> b).
  { intros m b' Hm Hf ->. apply (find_buf_Some pid F b m Hc) in Hf. destruct Hat as (_ & _ & <-), Hf as (_ & _ & <-). done. }
  split; try done; simpl.
  - intros m. unfold fupd. case_decide as Hd; [subst m|]; unfold view; rewrite Hfn.
    + rewrite Hfb, Hg, decide_True by done. done.
    + rewrite <- H1. unfold view. destruct (find_buf F m) as [b'|] eqn:Hf; [|done]. rewrite Hg, decide_False; [done|by eapply Hother].
  - intros m. unfold fupd. case_decide as Hd; [subst m|]; unfold refs; rewrite Hfn.
    + rewrite Hfb, Hg, decide_True by done. done.
    + rewrite <- H2. unfold refs. destruct (find_buf F m) as [b'|] eqn:Hf; [|done]. rewrite Hg, decide_False; [done|by eapply Hother].
  - intros m. unfold fupd. case_decide as Hd; [subst m|]; unfold lockd; rewrite Hfn.
    + rewrite Hfb, Hg, decide_True by done. done.
    + rewrite <- H3. unfold lockd. destruct (find_buf F m) as [b'|] eqn:Hf; [|done]. rewrite Hg, decide_False; [done|by eapply Hother].
  - rewrite <- H4. unfold busy. rewrite (bsum_upd (in_use F) (in_use (updB b f F)) b).
    + unfold in_use. rewrite Hg, decide_True by done. lia.
    + by destruct Hat.
    + intros b' Hne. unfold in_use. by rewrite Hg, decide_False.
Qed.

(** A block was written to the disk. *)
Definition a_write (n : Z) (a : absview) : absview :=
  mkabs (av a) (ar a) (al a) (ab a) (fupd (ad a) n (av a n)) ((n, av a n) :: aw a).

Lemma block_write n d F m : block (write_block n d F) m = fupd (block F) n d m.
Proof.
  unfold block, write_block, fupd. simpl. case_decide; [subst; by rewrite lookup_insert_eq|].
  by rewrite lookup_insert_ne.
Qed.

Lemma cached_write pid a F b n : Cached pid a F -> at_buf F b n ->
  Cached pid (a_write n a) (write_block n (b_data (getB b F)) F).
Proof.
  intros [Hc H1 H2 H3 H4 H5 H6] Hat. pose proof Hc as [K1 K2 K3 K4 K5].
  set (F' := write_block n (b_data (getB b F)) F). pose proof (fun m => block_write n (b_data (getB b F)) F m) as Hblk. fold F' in Hblk.
  destruct (at_buf_view pid F b n Hc Hat) as (Hv & _).
  assert (Hc' : cache_ok pid F').
  { split; [done|done| |done|].
    - intros b' Hb'. specialize (K3 b' Hb') as (O1 & O2 & O3 & O4 & O5 & O6). change (getB b' F') with (getB b' F).
      unfold buf_ok. split_and!; try done; try apply O2. intros H0. destruct (O5 H0) as [P1 P2]. split; [done|]. intros Hd.
      rewrite Hblk. unfold fupd. case_decide as He; [|by apply P2].
      assert (Hb : b' = b) by (eapply (K4 b' b n); [split_and!|]; done). by rewrite Hb.
    - intros m. rewrite Hblk. unfold fupd. case_decide; [|done]. destruct Hat as (Hb & _). by destruct (K3 b Hb) as (_ & _ & _ & ? & _). }
  split; try done; simpl.
  - intros m. rewrite <- H1. unfold view. change (find_buf F' m) with (find_buf F m).
    destruct (find_buf F m) as [b'|] eqn:Hf; [done|]. rewrite Hblk. unfold fupd. case_decide as He; [|done]. subst m. exfalso.
    by apply (find_buf_None pid F n Hc Hf b).
  - intros m. rewrite Hblk. unfold fupd. case_decide; [by rewrite <- H1|apply H5].
  - by rewrite <- H1, Hv, <- H6.
Qed.

(** A buffer without references was given to a block that was not cached. *)
Definition fill (n : Z) (pid : Z) (d : list Z) (x : buf) : buf :=
  mkbuf 1 (b_disk x) dev n (locked_by pid (b_lock x)) 1 (b_prev x) (b_next x) d.

Definition a_load (n : Z) (a : absview) : absview :=
  mkabs (av a) (fupd (ar a) n 1) (fupd (al a) n true) (ab a + 1) (ad a) (aw a).

Lemma cached_recycle pid a F b n : Cached pid a F -> (b < NBUF)%nat -> b_refcnt (getB b F) = 0 ->
  find_buf F n = None ->
  let F' := updB b (fill n pid (block F n)) F in
  Cached pid (a_load n a) F' /\ at_buf F' b n /\
  (forall b' m, b' <> b -> at_buf F b' m -> at_buf F' b' m).
Proof.
  intros [Hc H1 H2 H3 H4 H5 H6] Hb Hr Hnone F'. pose proof Hc as [K1 K2 K3 K4 K5].
  assert (Hb' : (b < length (bufs F))%nat) by (rewrite K1; lia). set (x := getB b F) in *.
  assert (Hg : forall b', getB b' F' = if decide (b' = b) then fill n pid (block F n) x else getB b' F).
  { intros b'. case_decide as Hd; [subst; by apply getB_upd_eq|apply getB_upd_ne; congruence]. }
  assert (Hatb : at_buf F' b n) by (unfold at_buf; rewrite Hg, decide_True by done; done).
  assert (Hato : forall b' m, b' <> b -> at_buf F' b' m <-> at_buf F b' m).
  { intros b' m Hne. unfold at_buf. by rewrite Hg, decide_False. }
  assert (Hno := find_buf_None pid F n Hc Hnone). pose proof (K3 b Hb) as (O1 & O2 & O3 & O4 & O5 & O6). fold x in O1, O2, O3, O4, O5, O6.
  destruct (O5 Hr) as [Hul Hclean].
  assert (Hc' : cache_ok pid F').
  { split; [by unfold F'; rewrite updB_length| | | |done].
    - destruct K2 as (l & Hl & Hlk). exists l. split; [done|].
      destruct (updB_links b (fill n pid (block F n)) F) as [N1 N2]; [done|done|]. by eapply linked_ext.
    - intros b' Hlt. rewrite Hg. case_decide; [|by apply K3]. unfold buf_ok, fill, locked_by. simpl.
      split; [by left|]. split; [done|]. split; [done|]. split; [apply K5|]. split; [done|by right].
    - intros b1 b2 m A1 A2. destruct (decide (b1 = b)) as [->|N1], (decide (b2 = b)) as [->|N2]; [done| | |].
      + exfalso. destruct A1 as (_ & _ & <-). rewrite Hg, decide_True in A2 by done. apply Hato in A2; [|done]. by apply (Hno b2).
      + exfalso. destruct A2 as (_ & _ & <-). rewrite Hg, decide_True in A1 by done. apply Hato in A1; [|done]. by apply (Hno b1).
      + apply Hato in A1, A2; try done. by eapply K4. }
  split; [|split; [done|by intros b' m Hne; apply Hato]].
  assert (Hfn : find_buf F' n = Some b) by (by apply (find_buf_Some pid)).
  assert (Hfo : forall m, m <> n -> find_buf F' m = if decide (find_buf F m = Some b) then None else find_buf F m).
  { intros m Hm. case_decide as Hd.
    - destruct (find_buf F' m) as [b'|] eqn:Hf; [|done]. exfalso. apply (find_buf_Some pid F' b' m Hc') in Hf.
      destruct (decide (b' = b)) as [->|Hne].
      + destruct Hf as (_ & _ & Hbm). rewrite Hg, decide_True in Hbm by done. by simpl in Hbm.
      + apply Hato in Hf; [|done]. apply (find_buf_Some pid F b m Hc) in Hd. apply Hne. by eapply K4.
    - destruct (find_buf F m) as [b'|] eqn:Hf.
      + apply (find_buf_Some pid F' b' m Hc'), Hato; [congruence|]. by apply (find_buf_Some pid).
      + destruct (find_buf F' m) as [b'|] eqn:Hf'; [|done]. exfalso. apply (find_buf_Some pid F' b' m Hc') in Hf'.
        destruct (decide (b' = b)) as [->|Hne].
        * destruct Hf' as (_ & _ & Hbm). rewrite Hg, decide_True in Hbm by done. by simpl in Hbm.
        * apply Hato in Hf'; [|done]. by apply (find_buf_None pid F m Hc Hf b'). }
  split; try done; simpl.
  - intros m. rewrite <- H1. unfold view. destruct (decide (m = n)) as [->|Hm].
    + rewrite Hfn, Hnone, Hg, decide_True by done. done.
    + rewrite Hfo by done. case_decide as Hd.
      * rewrite Hd. apply (find_buf_Some pid F b m Hc) in Hd. destruct Hd as (_ & Hd1 & <-). symmetry. by apply Hclean.
      * destruct (find_buf F m) as [b'|] eqn:Hf; [|done]. by rewrite Hg, decide_False by congruence.
  - intros m. unfold fupd. case_decide as Hm; unfold refs; [subst m|].
    + rewrite Hfn, Hg, decide_True by done. done.
    + rewrite Hfo, <- H2 by done. unfold refs. case_decide as Hd; [by rewrite Hd|].
      destruct (find_buf F m) as [b'|] eqn:Hf; [|done]. by rewrite Hg, decide_False by congruence.
  - intros m. unfold fupd. case_decide as Hm; unfold lockd; [subst m|].
    + rewrite Hfn, Hg, decide_True by done. done.
    + rewrite Hfo, <- H3 by done. unfold lockd. case_decide as Hd; [rewrite Hd; fold x; by rewrite Hul|].
      destruct (find_buf F m) as [b'|] eqn:Hf; [|done]. by rewrite Hg, decide_False by congruence.
  - rewrite <- H4. unfold busy. rewrite (bsum_upd (in_use F) (in_use F') b); [|done|].
    + unfold in_use. rewrite Hg, decide_True by done. fold x. rewrite Hr. simpl. lia.
    + intros b' Hne. unfold in_use. by rewrite Hg, decide_False.
Qed.

End cache.

(** ** The operations *)

Lemma cached_ext dev pid a a' F : Cached dev pid a F ->
  (forall n, av a n = av a' n) -> (forall n, ar a n = ar a' n) -> (forall n, al a n = al a' n) -> ab a = ab a' ->
  (forall n, ad a n = ad a' n) -> aw a = aw a' -> Cached dev pid a' F.
Proof.
  intros [Hc H1 H2 H3 H4 H5 H6] E1 E2 E3 E4 E5 E6. split; [done| | | | | |].
  - intros n. by rewrite H1.
  - intros n. by rewrite H2.
  - intros n. by rewrite H3.
  - by rewrite H4.
  - intros n. by rewrite H5.
  - by rewrite H6.
Qed.

(** bread(n) takes a reference to the block and its lock. *)
Definition a_get (n : Z) (a : absview) : absview :=
  mkabs (av a) (fupd (ar a) n (ar a n + 1)) (fupd (al a) n true) (ab a + b2z (ar a n =? 0)) (ad a) (aw a).

(** brelse(n) gives both back. *)
Definition a_put (n : Z) (a : absview) : absview :=
  mkabs (av a) (fupd (ar a) n (ar a n - 1)) (fupd (al a) n false) (ab a - b2z (ar a n =? 1)) (ad a) (aw a).

(** The contents of a block change. *)
Definition a_data (n : Z) (d : list Z) (a : absview) : absview :=
  mkabs (fupd (av a) n d) (ar a) (al a) (ab a) (ad a) (aw a).

(** References from the log. *)
Definition a_pin (n k : Z) (a : absview) : absview :=
  mkabs (av a) (fupd (ar a) n (ar a n + k)) (al a)
    (ab a + b2z (truthy (ar a n + k)) - b2z (truthy (ar a n))) (ad a) (aw a).

Section ops.
Context {E : Env} {D : DiskDriver} {DR : DiskReady} {L : DiskLaws} (pr : nat) (pid dev : Z).
Context (Hdev : 0 < dev < 2 ^ 32).

(** A walk along the list finds the first buffer that passes the test. *)
Lemma crun_bfind o dir d p f l F : (forall b, dir (getB b F) = d b) -> chain d p (l ++ [bhead]) -> bhead ∉ l ->
  forall fuel (Q : option nat -> fsstate -> Prop), (length l < fuel)%nat ->
  Q (List.find (fun b => f (getB b F)) l) F -> crun pr pid o (bfind fuel dir f (hd bhead l)) F o Q.
Proof.
  intros Hd. induction l as [|x l IH]; intros Hc Hh fuel Q Hf HQ; destruct fuel as [|fuel]; try (simpl in Hf; lia); cbn [bfind hd].
  - rewrite decide_True by done. by apply crun_ret.
  - rewrite not_elem_of_cons in Hh. destruct Hh as [Hx Hh]. rewrite decide_False by congruence.
    eapply crun_bind, (crun_gets pr pid o (getB x)). cbn [List.find] in HQ. destruct (f (getB x F)); [by apply crun_ret|].
    rewrite Hd. replace (d x) with (hd bhead l).
    + apply IH; [|done|simpl in Hf; lia|done]. destruct l; [done|]. by cbn [app] in Hc; apply chain_cons in Hc as (_ & _ & ?).
    + destruct l; simpl in Hc; symmetry; apply Hc.
Qed.

Lemma cache_order F : cache_ok dev pid F -> exists l,
  (forall b, b ∈ l <-> (b < NBUF)%nat) /\ length l = NBUF /\ linked bhead (nxt F) (prv F) l.
Proof.
  intros Hc. destruct (ck_list _ _ _ Hc) as (l & Hl & Hlk). exists l. split_and!; [|by rewrite Hl, length_seq|done].
  intros b. rewrite Hl, elem_of_seq. lia.
Qed.

Lemma find_spec f l : match List.find f l with
  | Some b => b ∈ l /\ f b = true
  | None => forall b : nat, b ∈ l -> f b = false
  end.
Proof.
  destruct (List.find f l) as [b|] eqn:Hf.
  - apply find_some in Hf as [H1 H2]. by rewrite list_elem_of_In.
  - intros b Hb. apply list_elem_of_In in Hb. by eapply find_none.
Qed.

(** What bget() does to the buffer it finds, and to the one it recycles. *)
Definition take_ref (x : buf) : buf := upd_lock_of (locked_by pid) (set_b_refcnt (u32 (b_refcnt x + 1)) x).
Definition recycle (n : Z) (x : buf) : buf :=
  upd_lock_of (locked_by pid) (set_b_refcnt 1 (set_b_valid 0 (set_b_blockno n (set_b_dev dev x)))).

Lemma fsrun_bget F n (Q : nat -> fsstate -> Prop) : cache_ok dev pid F ->
  lockd dev F n = false -> 0 < refs dev F n \/ busy F < Z.of_nat NBUF ->
  (forall b, at_buf dev F b n -> Q b (updB b take_ref F)) ->
  (find_buf dev F n = None -> forall b, (b < NBUF)%nat -> b_refcnt (getB b F) = 0 -> Q b (updB b (recycle n) F)) ->
  fsrun pr pid (bget dev n) F Q.
Proof.
  intros Hc Hlk Hav Hhit Hmiss. destruct (cache_order F Hc) as (l & Hl & Hlen & Hlinked).
  pose proof Hlinked as (_ & Hh & _). unfold bget. eapply crun_bind, crun_kacquire.
  eapply crun_bind, (crun_gets pr pid _ (getB bhead)).
  change (b_next (getB bhead F)) with (nxt F bhead). rewrite (linked_next _ _ _ _ Hlinked).
  eapply crun_bind, (crun_bfind _ b_next (nxt F) (prv F)); [done| |done|lia|].
  { pose proof Hlinked as (_ & _ & Hch). destruct l; [done|]. cbn [app] in *. by apply chain_cons in Hch as (_ & _ & ?). }
  pose proof (find_spec (fun b => (b_dev (getB b F) =? dev) && (b_blockno (getB b F) =? n)) l) as Hf.
  destruct (List.find _ l) as [b|].
  - destruct Hf as [Hb Hid]. apply Hl in Hb. apply andb_prop in Hid as [H1 H2]. apply Z.eqb_eq in H1, H2.
    assert (Hat : at_buf dev F b n) by done. destruct (at_buf_view dev pid F b n Hc Hat) as (_ & _ & Hlk').
    assert (Hb' : (b < length (bufs F))%nat) by (rewrite (ck_len _ _ _ Hc); lia).
    eapply crun_bind, (crun_modify pr pid _ (updB b (fun x => set_b_refcnt (u32 (b_refcnt x + 1)) x))).
    eapply crun_bind, crun_krelease, crun_bind, fsrun_acquiresleep.
    + rewrite getB_upd_eq by done. simpl. rewrite Hlk in Hlk'. unfold truthy in Hlk'. destruct (Z.eqb_spec (sl_locked (b_lock (getB b F))) 0); done.
    + apply crun_ret. rewrite updB_upd. by apply Hhit.
  - assert (Hnone : find_buf dev F n = None).
    { destruct (find_buf dev F n) as [b|] eqn:Hfb; [|done]. exfalso. apply (find_buf_Some dev pid F b n Hc) in Hfb as (Hb & H1 & H2).
      apply Hl, Hf in Hb. by rewrite H1, H2, !Z.eqb_refl in Hb. }
    assert (Hbusy : busy F < Z.of_nat NBUF) by (destruct Hav as [Hr|]; [unfold refs in Hr; rewrite Hnone in Hr; lia|done]).
    destruct (bsum_free (in_use F) (in_use_01 F) Hbusy) as (v & Hv & Hv0).
    change (b_prev (getB bhead F)) with (prv F bhead). rewrite (linked_prev _ _ _ _ Hlinked).
    pose proof (linked_rev _ _ _ _ Hlinked) as (_ & Hhr & Hchr).
    eapply crun_bind, (crun_bfind _ b_prev (prv F) (nxt F)); [done| |done|rewrite length_rev; lia|].
    { destruct (rev l); [done|]. cbn [app] in *. by apply chain_cons in Hchr as (_ & _ & ?). }
    pose proof (find_spec (fun b => b_refcnt (getB b F) =? 0) (rev l)) as Hf2. destruct (List.find _ (rev l)) as [b|].
    + destruct Hf2 as [Hb Hr]. rewrite list_elem_of_In, <- in_rev, <- list_elem_of_In in Hb. apply Hl in Hb. apply Z.eqb_eq in Hr.
      assert (Hb' : (b < length (bufs F))%nat) by (rewrite (ck_len _ _ _ Hc); lia).
      eapply crun_bind, (crun_modify pr pid _ (updB b (fun x => set_b_refcnt 1 (set_b_valid 0 (set_b_blockno n (set_b_dev dev x)))))).
      eapply crun_bind, crun_krelease, crun_bind, fsrun_acquiresleep.
      * rewrite getB_upd_eq by done. simpl. by destruct (ck_buf _ _ _ Hc b Hb) as (_ & _ & _ & _ & Hz & _); apply Hz.
      * apply crun_ret. rewrite updB_upd. by apply Hmiss.
    + exfalso. specialize (Hf2 v). rewrite list_elem_of_In, <- in_rev, <- list_elem_of_In in Hf2. apply Hl, Hf2 in Hv.
      unfold in_use, b2z, truthy in Hv0. by rewrite Hv in Hv0.
Qed.

Lemma same_rest_updB b f F : same_rest F (updB b f F).
Proof. done. Qed.

Lemma fsrun_bread a F n (Q : nat -> fsstate -> Prop) : Cached dev pid a F -> 0 <= n < 2 ^ 31 ->
  al a n = false -> ar a n < 2 ^ 32 - 1 -> 0 < ar a n \/ ab a < Z.of_nat NBUF ->
  (forall b F', Cached dev pid (a_get n a) F' -> at_buf dev F' b n -> keeps dev F F' -> same_rest F F' -> Q b F') ->
  fsrun pr pid (bread dev n) F Q.
Proof.
  intros Hca Hn Hlk Hmax Hav HQ. pose proof Hca as [Hc H1 H2 H3 H4 H5 H6]. unfold bread, u32.
  rewrite (Z.mod_small dev), (Z.mod_small n) by lia. eapply crun_bind, fsrun_bget;
    [done|by rewrite H3|by rewrite H2, H4| |].
  - intros b Hat. pose proof Hat as (Hb & Hd & Hbn). pose proof (ck_buf _ _ _ Hc b Hb) as (O1 & O2 & O3 & O4 & O5 & O6).
    destruct (at_buf_view dev pid F b n Hc Hat) as (Hv & Hr & _). rewrite H2 in Hr. rewrite H1 in Hv.
    assert (Hu : u32 (b_refcnt (getB b F) + 1) = ar a n + 1) by (rewrite <- Hr; apply Z.mod_small; lia).
    destruct O1 as [[_ Hval]|(Hd0 & _)]; [|lia].
    destruct (cached_update dev pid a F b n take_ref Hca Hat) as [Hca' Hat']; [done| |].
    { unfold buf_ok, take_ref, locked_by, upd_lock_of. simpl. rewrite Hu. split; [by left|]. split; [lia|]. split; [done|]. split; [done|].
      split; [lia|by right]. }
    assert (Hb' : (b < length (bufs F))%nat) by (rewrite (ck_len _ _ _ Hc); lia).
    eapply crun_bind, (crun_gets pr pid _ (getB b)). rewrite getB_upd_eq by done. change (b_valid (take_ref _)) with (b_valid (getB b F)).
    rewrite Hval. eapply crun_bind, crun_ret. apply crun_ret. apply HQ; [|by apply Hat'|by intros b' m ? _; apply Hat'|done].
    eapply cached_ext; [exact Hca'|..]; try done; simpl.
    + intros m. unfold fupd. case_decide; [by subst|done].
    + intros m. unfold fupd. case_decide; [by subst|done].
    + rewrite Hu, <- Hr. unfold truthy. destruct (Z.eqb_spec (ar a n) 0), (Z.eqb_spec (ar a n + 1) 0); simpl; lia.
  - intros Hnone b Hb Hr. assert (Hb' : (b < length (bufs F))%nat) by (rewrite (ck_len _ _ _ Hc); lia).
    pose proof (ck_buf _ _ _ Hc b Hb) as (O1 & O2 & O3 & O4 & O5 & O6). set (F1 := updB b (recycle n) F).
    assert (Hl1 : length (bufs F1) = S NBUF) by (unfold F1; rewrite updB_length; apply Hc).
    assert (Hg1 : getB b F1 = recycle n (getB b F)) by (by apply getB_upd_eq).
    eapply crun_bind, (crun_gets pr pid _ (getB b)). rewrite Hg1. change (b_valid (recycle n _) =? 0) with true. simpl when.
    eapply crun_bind, crun_bind, crun_mono; [apply disk_read; [done|done|by rewrite Hg1|by rewrite Hg1]|]. intros [] F2 ->.
    apply (crun_modify pr pid _ (updB b (set_b_valid 1))), crun_ret.
    destruct (cached_recycle dev pid a F b n Hca Hb Hr Hnone) as (Hca' & Hat' & Hk).
    assert (HF : updB b (set_b_valid 1) (updB b (set_b_data (block F1 (b_blockno (getB b F1)))) F1) =
                 updB b (fill dev n pid (block F n)) F) by (rewrite Hg1; unfold F1 at 2; by rewrite !updB_upd).
    rewrite HF. apply HQ; [|done| |done].
    + assert (Har : ar a n = 0) by (rewrite <- H2; unfold refs; by rewrite Hnone).
      eapply cached_ext; [exact Hca'|..]; try done; simpl; rewrite Har; done.
    + intros b' m Hat'' Hpos. apply Hk; [|done]. intros ->. destruct (at_buf_view dev pid F b m Hc Hat'') as (_ & Hr' & _). lia.
Qed.

(** The contents of a buffer, read and written. *)
Lemma fsrun_bdata a F b n (Q : list Z -> fsstate -> Prop) : Cached dev pid a F -> at_buf dev F b n ->
  Q (av a n) F -> fsrun pr pid (bdata b) F Q.
Proof.
  intros Hca Hat HQ. unfold bdata. eapply crun_bind, (crun_gets pr pid _ (getB b)), crun_ret.
  destruct (at_buf_view dev pid F b n (ca_ok _ _ _ _ Hca) Hat) as (Hv & _). by rewrite <- Hv, (ca_view _ _ _ _ Hca).
Qed.

Lemma fsrun_set_bdata a F b n f (Q : unit -> fsstate -> Prop) : Cached dev pid a F -> at_buf dev F b n ->
  0 < ar a n -> length (f (av a n)) = 1024%nat ->
  (forall F', Cached dev pid (a_data n (f (av a n)) a) F' -> (forall b' m, at_buf dev F b' m <-> at_buf dev F' b' m) ->
     same_rest F F' -> Q tt F') ->
  fsrun pr pid (set_bdata b f) F Q.
Proof.
  intros Hca Hat Hr Hlen HQ. pose proof Hca as [Hc H1 H2 H3 H4 H5 H6]. pose proof Hat as (Hb & _).
  destruct (at_buf_view dev pid F b n Hc Hat) as (Hv & Hrf & Hlk). rewrite H1 in Hv. rewrite H2 in Hrf. rewrite H3 in Hlk.
  pose proof (ck_buf _ _ _ Hc b Hb) as (O1 & O2 & O3 & O4 & O5 & O6).
  destruct (cached_update dev pid a F b n (fun x => set_b_data (f (b_data x)) x) Hca Hat) as [Hca' Hat']; [done| |].
  { unfold buf_ok. simpl. rewrite <- Hv, <- Hrf. split; [by rewrite Hrf|]. split; [lia|]. split; [done|]. split; [done|]. split; [lia|done]. }
  apply (crun_modify pr pid _ (updB b (fun x => set_b_data (f (b_data x)) x))). apply HQ; [|done|done].
  eapply cached_ext; [exact Hca'|..]; try done; simpl.
  - intros m. by rewrite Hv.
  - intros m. unfold fupd. case_decide; [by subst|done].
  - intros m. unfold fupd. case_decide; [by subst|done].
  - lia.
Qed.

(** bwrite() of a block this process has locked. *)
Lemma fsrun_bwrite a F b n (Q : unit -> fsstate -> Prop) : Cached dev pid a F -> at_buf dev F b n -> al a n = true -> 0 <= n < 2 ^ 31 ->
  (forall F', Cached dev pid (a_write n a) F' -> (forall b' m, at_buf dev F b' m <-> at_buf dev F' b' m) ->
     same_rest F F' -> Q tt F') ->
  fsrun pr pid (bwrite b) F Q.
Proof.
  intros Hca Hat Hlk Hn HQ. pose proof Hca as [Hc H1 H2 H3 H4 H5 H6]. pose proof Hat as (Hb & _ & Hbn).
  destruct (at_buf_view dev pid F b n Hc Hat) as (Hv & _ & Hl). rewrite H3, Hlk in Hl.
  pose proof (ck_buf _ _ _ Hc b Hb) as (_ & _ & O3 & _ & _ & O6). unfold bwrite.
  eapply crun_bind, fsrun_holdingsleep. destruct O6 as [O6|[O6 O7]]; [by rewrite O6 in Hl|]. rewrite O6, O7, Z.eqb_refl. simpl.
  eapply crun_mono; [apply disk_write; [done|apply Hc|done|by rewrite Hbn]|]. intros [] F' ->. rewrite Hbn.
  apply HQ; [|done|done]. by apply cached_write.
Qed.

(** Pointer updates, on the functions that [linked] speaks of. *)
Lemma nxt_set_next c v F : (c < length (bufs F))%nat -> forall y, nxt (updB c (set_b_next v) F) y = upd (nxt F) c v y.
Proof.
  intros Hc y. unfold nxt, upd. case_decide; [subst; by rewrite getB_upd_eq|]. by rewrite getB_upd_ne by congruence.
Qed.
Lemma prv_set_prev c v F : (c < length (bufs F))%nat -> forall y, prv (updB c (set_b_prev v) F) y = upd (prv F) c v y.
Proof.
  intros Hc y. unfold prv, upd. case_decide; [subst; by rewrite getB_upd_eq|]. by rewrite getB_upd_ne by congruence.
Qed.
Lemma nxt_set_prev c v F : (c < length (bufs F))%nat -> forall y, nxt (updB c (set_b_prev v) F) y = nxt F y.
Proof. intros Hc y. unfold nxt. destruct (decide (c = y)) as [<-|]; [by rewrite getB_upd_eq|by rewrite getB_upd_ne]. Qed.
Lemma prv_set_next c v F : (c < length (bufs F))%nat -> forall y, prv (updB c (set_b_next v) F) y = prv F y.
Proof. intros Hc y. unfold prv. destruct (decide (c = y)) as [<-|]; [by rewrite getB_upd_eq|by rewrite getB_upd_ne]. Qed.

Lemma core_updB c f F : (forall x, core (f x) = core x) -> forall b, core (getB b (updB c f F)) = core (getB b F).
Proof.
  intros Hf b. destruct (decide (c = b)) as [<-|]; [|by rewrite getB_upd_ne].
  unfold getB, updB. simpl. rewrite list_lookup_alter_eq. by destruct (bufs F !! c); simpl.
Qed.

(** Moving a buffer to the front of the list. *)
Definition unlink (b : nat) (F : fsstate) : fsstate :=
  updB (prv F b) (set_b_next (nxt F b)) (updB (nxt F b) (set_b_prev (prv F b)) F).
Definition to_front (b : nat) (F : fsstate) : fsstate :=
  updB bhead (set_b_next b) (updB (nxt F bhead) (set_b_prev b)
    (updB b (fun x => set_b_prev bhead (set_b_next (nxt F bhead) x)) F)).

Lemma core_front b F b' : core (getB b' (to_front b (unlink b F))) = core (getB b' F).
Proof. unfold to_front, unlink. by rewrite !core_updB. Qed.

Lemma cached_move_front a F b : Cached dev pid a F -> (b < NBUF)%nat -> Cached dev pid a (to_front b (unlink b F)).
Proof.
  intros Hca Hb. pose proof (ca_ok _ _ _ _ Hca) as Hc. pose proof (ck_len _ _ _ Hc) as Hlen.
  destruct (ck_list _ _ _ Hc) as (l & Hl & Hlk). assert (Hin : b ∈ l) by (rewrite Hl, elem_of_seq; lia).
  assert (Hlt : forall y, y ∈ l -> (y < NBUF)%nat) by (intros y Hy; rewrite Hl, elem_of_seq in Hy; lia).
  apply list_elem_of_split in Hin as (l1 & l2 & ->).
  pose proof (linked_remove _ _ _ _ _ _ Hlk) as Hrem. pose proof Hlk as (Hnd & Hh & Hch).
  assert (Hends : (nxt F b <= NBUF)%nat /\ (prv F b <= NBUF)%nat).
  { destruct (linked_neighbours _ _ _ _ _ _ Hlk) as [H1 H2].
    split; [destruct H1 as [->|H1%Hlt]|destruct H2 as [->|H2%Hlt]]; unfold bhead; lia. }
  set (F1 := updB (nxt F b) (set_b_prev (prv F b)) F). assert (Hlen1 : length (bufs F1) = S NBUF) by (unfold F1; by rewrite updB_length).
  set (F2 := unlink b F). assert (Hlen2 : length (bufs F2) = S NBUF) by (unfold F2, unlink; by rewrite !updB_length).
  assert (Hlk2 : linked bhead (nxt F2) (prv F2) (l1 ++ l2)).
  { eapply linked_ext; [| |exact Hrem]; intros y; unfold F2, unlink; fold F1.
    - rewrite nxt_set_next by lia. unfold upd. case_decide; [done|]. apply nxt_set_prev. lia.
    - rewrite prv_set_next by lia. unfold F1. apply prv_set_prev. lia. }
  assert (Hbl : b ∉ l1 ++ l2).
  { apply NoDup_app in Hnd as (_ & Hd & Hn2). apply NoDup_cons in Hn2 as [Hb2 _]. rewrite not_elem_of_app. split; [|done].
    intros Hb1. apply (Hd b Hb1). left. }
  assert (Hbh : b <> bhead) by (unfold bhead; lia).
  pose proof (linked_push _ _ _ _ _ Hlk2 Hbl Hbh) as Hpush.
  assert (Hn2 : (nxt F2 bhead <= NBUF)%nat).
  { rewrite (linked_next _ _ _ _ Hlk2). destruct (l1 ++ l2) as [|y l'] eqn:Hll; [simpl; unfold bhead; lia|]. simpl.
    assert (Hy : y ∈ l1 ++ l2) by (rewrite Hll; left). rewrite elem_of_app in Hy.
    assert (Hy' : y ∈ l1 ++ b :: l2) by (rewrite elem_of_app, elem_of_cons; tauto). apply Hlt in Hy'. lia. }
  set (F3 := updB b (fun x => set_b_prev bhead (set_b_next (nxt F2 bhead) x)) F2).
  assert (Hlen3 : length (bufs F3) = S NBUF) by (unfold F3; by rewrite updB_length).
  assert (H3n : forall y, nxt F3 y = upd (nxt F2) b (nxt F2 bhead) y).
  { intros y. unfold F3, nxt at 1, upd. case_decide; [subst; by rewrite getB_upd_eq by lia|]. by rewrite getB_upd_ne by congruence. }
  assert (H3p : forall y, prv F3 y = upd (prv F2) b bhead y).
  { intros y. unfold F3, prv at 1, upd. case_decide; [subst; by rewrite getB_upd_eq by lia|]. by rewrite getB_upd_ne by congruence. }
  apply (cached_relink dev pid a F _ (b :: l1 ++ l2)); try done.
  - unfold to_front. rewrite !updB_length. by rewrite Hlen2, Hlen.
  - intros b'. apply core_front.
  - rewrite <- Hl. by rewrite Permutation_middle.
  - eapply linked_ext; [| |exact Hpush]; intros y; unfold to_front; fold F3.
    + rewrite nxt_set_next by (rewrite updB_length; unfold bhead; lia). unfold upd at 1 2. case_decide; [done|].
      rewrite nxt_set_prev by lia. apply H3n.
    + rewrite prv_set_next by (rewrite updB_length; unfold bhead; lia). rewrite prv_set_prev by lia.
      unfold upd at 1 2. case_decide; [done|]. apply H3p.
Qed.

(** A change of the reference count by one. *)
Definition add_ref (k : Z) (x : buf) : buf := set_b_refcnt (u32 (b_refcnt x + k)) x.

Lemma cached_add_ref a F b n k : Cached dev pid a F -> at_buf dev F b n -> 0 <= ar a n + k < 2 ^ 32 ->
  (ar a n + k = 0 -> al a n = false /\ av a n = ad a n) ->
  Cached dev pid (a_pin n k a) (updB b (add_ref k) F) /\ (forall b' m, at_buf dev F b' m <-> at_buf dev (updB b (add_ref k) F) b' m).
Proof.
  intros Hca Hat Hk Hz. pose proof Hca as [Hc H1 H2 H3 H4 H5 H6]. pose proof Hat as (Hb & Hd & Hbn).
  destruct (at_buf_view dev pid F b n Hc Hat) as (Hv & Hr & Hl). rewrite H1 in Hv. rewrite H2 in Hr. rewrite H3 in Hl.
  pose proof (ck_buf _ _ _ Hc b Hb) as (O1 & O2 & O3 & O4 & O5 & O6).
  assert (Hu : u32 (b_refcnt (getB b F) + k) = ar a n + k) by (rewrite <- Hr; by apply Z.mod_small).
  destruct O1 as [O1|(Hd0 & _)]; [|lia].
  destruct (cached_update dev pid a F b n (add_ref k) Hca Hat) as [Hca' Hat']; [done| |].
  { unfold buf_ok, add_ref. simpl. rewrite Hu. split; [by left|]. split; [done|]. split; [done|]. split; [done|]. split; [|done].
    intros H0. destruct (Hz H0) as [Z1 Z2]. rewrite Z1 in Hl. split.
    - unfold truthy in Hl. by destruct (Z.eqb_spec (sl_locked (b_lock (getB b F))) 0).
    - intros _. by rewrite <- Hv, Hbn, H5. }
  split; [|done]. eapply cached_ext; [exact Hca'|..]; try done; simpl.
  - intros m. unfold fupd. case_decide; [by subst|done].
  - intros m. by rewrite Hu.
  - intros m. unfold fupd. case_decide; [by subst|done].
  - rewrite Hu, <- Hr. lia.
Qed.

Lemma fsrun_bpin a F b n (Q : unit -> fsstate -> Prop) : Cached dev pid a F -> at_buf dev F b n ->
  0 <= ar a n -> ar a n + 1 < 2 ^ 32 ->
  (forall F', Cached dev pid (a_pin n 1 a) F' -> (forall b' m, at_buf dev F b' m <-> at_buf dev F' b' m) -> same_rest F F' -> Q tt F') ->
  fsrun pr pid (bpin b) F Q.
Proof.
  intros Hca Hat H0 Hk HQ. unfold bpin. eapply crun_bind, crun_kacquire, crun_bind, (crun_modify pr pid _ (updB b (add_ref 1))).
  apply crun_krelease. destruct (cached_add_ref a F b n 1 Hca Hat) as [Hca' Hat']; [lia|lia|]. by apply HQ.
Qed.

Lemma fsrun_bunpin a F b n (Q : unit -> fsstate -> Prop) : Cached dev pid a F -> at_buf dev F b n ->
  1 < ar a n -> ar a n < 2 ^ 32 ->
  (forall F', Cached dev pid (a_pin n (-1) a) F' -> (forall b' m, at_buf dev F b' m <-> at_buf dev F' b' m) -> same_rest F F' -> Q tt F') ->
  fsrun pr pid (bunpin b) F Q.
Proof.
  intros Hca Hat H0 Hk HQ. unfold bunpin. eapply crun_bind, crun_kacquire, crun_bind, (crun_modify pr pid _ (updB b (add_ref (-1)))).
  apply crun_krelease. destruct (cached_add_ref a F b n (-1) Hca Hat) as [Hca' Hat']; [lia|lia|]. by apply HQ.
Qed.

(** brelse() of a block this process has locked; the last reference may go only
    when the disk has the contents. *)
Lemma fsrun_brelse a F b n (Q : unit -> fsstate -> Prop) : Cached dev pid a F -> at_buf dev F b n ->
  al a n = true -> (ar a n = 1 -> av a n = ad a n) ->
  (forall F', Cached dev pid (a_put n a) F' -> (forall b' m, at_buf dev F b' m <-> at_buf dev F' b' m) -> same_rest F F' -> Q tt F') ->
  fsrun pr pid (brelse b) F Q.
Proof.
  intros Hca Hat Hlk Hcl HQ. pose proof Hca as [Hc H1 H2 H3 H4 H5 H6]. pose proof Hat as (Hb & Hd & Hbn).
  destruct (at_buf_view dev pid F b n Hc Hat) as (Hv & Hr & Hl). rewrite H1 in Hv. rewrite H2 in Hr. rewrite H3, Hlk in Hl.
  pose proof (ck_buf _ _ _ Hc b Hb) as (O1 & O2 & O3 & O4 & O5 & O6). destruct O1 as [O1|(Hd0 & _)]; [|lia].
  assert (Hpos : 0 < ar a n).
  { destruct (Z.eq_dec (ar a n) 0) as [Hz|]; [|lia]. rewrite <- Hr in O5. destruct (O5 Hz) as [Hu _]. by rewrite Hu in Hl. }
  unfold brelse. eapply crun_bind, fsrun_holdingsleep. destruct O6 as [O6|[O6 O7]]; [by rewrite O6 in Hl|]. rewrite O6, O7, Z.eqb_refl. simpl.
  eapply crun_bind, fsrun_releasesleep, crun_bind, crun_kacquire, crun_bind.
  apply (crun_modify pr pid _ (updB b (fun x => set_b_refcnt (u32 (b_refcnt x - 1)) x))). rewrite updB_upd.
  set (f := fun x => set_b_refcnt (u32 (b_refcnt (upd_lock_of unlocked x) - 1)) (upd_lock_of unlocked x)).
  assert (Hu : b_refcnt (f (getB b F)) = ar a n - 1) by (unfold f; simpl; rewrite <- Hr; apply Z.mod_small; lia).
  destruct (cached_update dev pid a F b n f Hca Hat) as [Hca' Hat']; [done| |].
  { unfold buf_ok. rewrite Hu. unfold f. simpl. split; [by left|]. split; [lia|]. split; [done|]. split; [done|]. split; [|by left].
    intros H0. split; [done|]. intros _. rewrite <- Hv, Hbn, H5. apply Hcl. lia. }
  set (F1 := updB b f F) in *. assert (Hlen : length (bufs F1) = S NBUF) by (unfold F1; rewrite updB_length; apply Hc).
  assert (Hg1 : getB b F1 = f (getB b F)) by (apply getB_upd_eq; rewrite (ck_len _ _ _ Hc); lia).
  assert (Hput : Cached dev pid (a_put n a) F1).
  { eapply cached_ext; [exact Hca'|..]; try done; cbn [a_set a_put av ar al ab ad aw].
    - intros m. unfold fupd. case_decide; [by subst|done].
    - intros m. by rewrite Hu.
    - rewrite Hu, <- Hr. unfold truthy.
      destruct (Z.eqb_spec (ar a n - 1) 0), (Z.eqb_spec (ar a n) 0), (Z.eqb_spec (ar a n) 1); simpl; lia. }
  eapply crun_bind, (crun_gets pr pid _ (getB b)). rewrite Hg1, Hu.
  change (b_next (f (getB b F))) with (nxt F b). change (b_prev (f (getB b F))) with (prv F b).
  assert (Hnp : nxt F1 b = nxt F b /\ prv F1 b = prv F b) by (unfold nxt, prv; by rewrite Hg1). destruct Hnp as [Hn1 Hp1].
  eapply crun_bind. destruct (Z.eqb_spec (ar a n - 1) 0); unfold when.
  - eapply crun_bind, (crun_modify pr pid _ (updB (nxt F b) (set_b_prev (prv F b)))).
    eapply crun_bind, (crun_modify pr pid _ (updB (prv F b) (set_b_next (nxt F b)))).
    unfold push_front. eapply crun_bind, (crun_gets pr pid _ (getB bhead)). rewrite <- Hn1, <- Hp1. fold (unlink b F1).
    change (b_next (getB bhead (unlink b F1))) with (nxt (unlink b F1) bhead).
    eapply crun_bind, (crun_modify pr pid _ (updB b (fun x => set_b_prev bhead (set_b_next (nxt (unlink b F1) bhead) x)))).
    eapply crun_bind, (crun_modify pr pid _ (updB (nxt (unlink b F1) bhead) (set_b_prev b))).
    apply (crun_modify pr pid _ (updB bhead (set_b_next b))). fold (to_front b (unlink b F1)).
    apply crun_krelease. assert (Hcf := cached_move_front _ F1 b Hput Hb). apply HQ; [done| |done].
    intros b' m. rewrite Hat'. unfold at_buf, F1. fold F1.
    assert (Hce : core (getB b' (to_front b (unlink b F1))) = core (getB b' F1)) by apply core_front.
    destruct (core_eq _ _ Hce) as (_ & _ & -> & -> & _). done.
  - apply crun_ret, crun_krelease. by apply HQ.
Qed.

End ops.

(** ** binit() *)

(** Nobody uses the cache. *)
Definition idle (a : absview) : Prop := (forall n, ar a n = 0) /\ (forall n, al a n = false) /\ ab a = 0.

(** The abstract state of a cache. *)
Definition abs_of (dev : Z) (F : fsstate) : absview :=
  mkabs (view dev F) (refs dev F) (lockd dev F) (busy F) (block F) (disk_writes F).

Lemma cached_abs dev pid F : cache_ok dev pid F -> Cached dev pid (abs_of dev F) F.
Proof. by split. Qed.

(** A buffer is unused. *)
Definition unused (x : buf) : Prop :=
  b_dev x = 0 /\ b_valid x = 0 /\ b_refcnt x = 0 /\ b_disk x = 0 /\ sl_locked (b_lock x) = 0 /\ length (b_data x) = 1024%nat.

Lemma unused_idle dev pid F l : 0 < dev -> length (bufs F) = S NBUF -> Forall unused (bufs F) ->
  l ≡ₚ seq 0 NBUF -> linked bhead (nxt F) (prv F) l -> (forall n, length (block F n) = 1024%nat) ->
  cache_ok dev pid F /\ idle (abs_of dev F) /\ forall n, view dev F n = block F n.
Proof.
  intros Hdev Hlen Hun Hl Hlk Hblk.
  assert (Hg : forall b, unused (getB b F)).
  { intros b. unfold getB. destruct (bufs F !! b) as [x|] eqn:Hx; [by eapply Forall_lookup_1|done]. }
  assert (Hat : forall b n, ~ at_buf dev F b n) by (intros b n (_ & H & _); destruct (Hg b); lia).
  assert (Hc : cache_ok dev pid F).
  { split; [done|by exists l| |by intros b b' n H; apply Hat in H|done]. intros b Hb.
    destruct (Hg b) as (U1 & U2 & U3 & U4 & U5 & U6). unfold buf_ok. rewrite U3. split_and!; try done; [by right|lia|by left]. }
  assert (Hf : forall n, find_buf dev F n = None).
  { intros n. destruct (find_buf dev F n) as [b|] eqn:Hf; [|done]. apply (find_buf_Some dev pid F b n Hc) in Hf. by apply Hat in Hf. }
  split_and!; [done| |intros n; unfold view; by rewrite Hf]. unfold idle, abs_of, refs, lockd. simpl. split_and!; try (intros n; by rewrite Hf).
  unfold busy. rewrite (bsum_ext _ (fun _ => 0)); [done|]. intros b _. unfold in_use. destruct (Hg b) as (_ & _ & -> & _). done.
Qed.

(** A turn of the loop of binit(). *)
Definition push_new (b : nat) (F : fsstate) : fsstate :=
  let h := getB bhead F in
  updB bhead (set_b_next b) (updB (b_next h) (set_b_prev b)
    (updB b (set_b_lock (mksleeplock 0 "buffer" 0)) (updB b (fun x => set_b_prev bhead (set_b_next (b_next h) x)) F))).

Lemma wp_initlock lk name (Q : unit -> kstate -> Prop) s :
  (forall m, Q tt (set_k_mm m s)) -> wp (lift_ctl (initlock lk name)) Q s.
Proof. intros H. apply wp_lift, wp_lift. apply wp_modify. apply H. Qed.

Lemma wp_push_new b (Q : unit -> kstate -> Prop) s :
  (forall m, Q tt (set_k_fs (push_new b (k_fs s)) (set_k_mm m s))) ->
  wp (hd <- getb bhead;;
      updb b (fun x => set_b_prev bhead (set_b_next (b_next hd) x));;
      initsleeplock (SLbuf b) "buffer";;
      updb (b_next hd) (set_b_prev b);;
      updb bhead (set_b_next b)) Q s.
Proof.
  intros H. apply wp_bind, wp_gets, wp_bind, wp_modify. unfold initsleeplock. apply wp_bind, wp_bind, wp_initlock. intros m.
  apply wp_modify, wp_bind, wp_modify, wp_modify. apply H.
Qed.

Definition bufs_init : list buf := bufs (fold_left (fun F b => push_new b F) (seq 0 NBUF)
  (updB bhead (fun h => set_b_next bhead (set_b_prev bhead h)) (set_bufs (replicate (S NBUF) buf0) fs0))).

(** The table after binit(), evaluated: every buffer is unused and they are linked
    in descending order. *)
Lemma bufs_init_ok : length bufs_init = S NBUF /\ Forall unused bufs_init /\
  linked bhead (fun b => b_next (default buf0 (bufs_init !! b))) (fun b => b_prev (default buf0 (bufs_init !! b))) (rev (seq 0 NBUF)).
Proof.
  split; [by vm_compute|]. split.
  - assert (Hb : forallb (fun x => (b_dev x =? 0) && (b_valid x =? 0) && (b_refcnt x =? 0) && (b_disk x =? 0) &&
      (sl_locked (b_lock x) =? 0) && Nat.eqb (length (b_data x)) 1024) bufs_init = true) by (by vm_compute).
    rewrite forallb_forall in Hb. apply Forall_forall. intros x Hx. apply list_elem_of_In, Hb in Hx.
    rewrite !andb_true_iff, !Z.eqb_eq, Nat.eqb_eq in Hx. unfold unused. tauto.
  - split; [|split; [|by vm_compute]].
    + rewrite reverse_rev || idtac. apply (NoDup_Permutation_proper _ (seq 0 NBUF)); [symmetry; apply Permutation_rev|apply NoDup_seq].
    + rewrite list_elem_of_In, <- in_rev, <- list_elem_of_In, elem_of_seq. unfold bhead. lia.
Qed.

Lemma init_idle dev pid F : 0 < dev -> (forall n, length (block F n) = 1024%nat) ->
  cache_ok dev pid (set_bufs bufs_init F) /\ idle (abs_of dev (set_bufs bufs_init F)) /\
  forall n, view dev (set_bufs bufs_init F) n = block F n.
Proof.
  intros Hdev Hblk. destruct bufs_init_ok as (L1 & L2 & L3). revert L1 L2 L3. generalize bufs_init. intros B L1 L2 L3.
  apply (unused_idle dev pid (set_bufs B F) (rev (seq 0 NBUF))); try done. symmetry. apply Permutation_rev.
Qed.

Lemma push_new_set b G F : push_new b (set_bufs (bufs G) F) = set_bufs (bufs (push_new b G)) F.
Proof. done. Qed.

Lemma wp_push_all l F (Q : unit -> kstate -> Prop) s : k_fs s = F ->
  (forall s', k_fs s' = fold_left (fun F b => push_new b F) l F -> Q tt s') ->
  wp (for_each l (fun b =>
    hd <- getb bhead;;
    updb b (fun x => set_b_prev bhead (set_b_next (b_next hd) x));;
    initsleeplock (SLbuf b) "buffer";;
    updb (b_next hd) (set_b_prev b);;
    updb bhead (set_b_next b))) Q s.
Proof.
  revert F s. induction l as [|b l IH]; intros F s HF HQ; cbn [for_each].
  - apply wp_ret. by apply HQ.
  - apply wp_bind, wp_push_new. intros m. eapply IH; [simpl; by rewrite HF|]. intros s' Hs'. by apply HQ.
Qed.

Lemma push_all_set l G F : fold_left (fun F b => push_new b F) l (set_bufs (bufs G) F) =
  set_bufs (bufs (fold_left (fun F b => push_new b F) l G)) F.
Proof. revert G. induction l as [|b l IH]; intros G; [done|]. cbn [fold_left]. by rewrite push_new_set, IH. Qed.

(** binit() makes the zeroed table of buffers a well-formed cache in which no
    block is referenced or locked: the kernel sees the disk. *)
Theorem binit_establishes dev pid s : 0 < dev -> bufs (k_fs s) = replicate (S NBUF) buf0 ->
  (forall n, length (block (k_fs s) n) = 1024%nat) ->
  wp binit (fun _ s' => exists a, Cached dev pid a (k_fs s') /\ idle a /\ same_rest (k_fs s) (k_fs s') /\
    (forall n, av a n = block (k_fs s) n) /\ forall n, ad a n = block (k_fs s) n) s.
Proof.
  intros Hdev Hb Hblk. unfold binit. apply wp_bind, wp_initlock. intros m. apply wp_bind, wp_modify.
  eapply wp_push_all; [reflexivity|]. intros s' HF.
  set (G := updB bhead (fun h => set_b_next bhead (set_b_prev bhead h)) (set_bufs (replicate (S NBUF) buf0) fs0)).
  assert (HG : k_fs s' = set_bufs bufs_init (k_fs s)).
  { rewrite HF. unfold bufs_init. fold G. rewrite <- push_all_set. f_equal. unfold G. cbn. by rewrite Hb. }
  destruct (init_idle dev pid (k_fs s) Hdev Hblk) as (Hc & Hi & Hv). rewrite HG.
  exists (abs_of dev (set_bufs bufs_init (k_fs s))). split; [by apply cached_abs|]. split; [done|]. done.
Qed.

(** C25. bread() of a block nobody has locked, when it is cached or a buffer is free,
    returns a buffer that holds the block, with its current contents, locked by the
    caller and referenced once more; no other block's contents, references or lock
    change, no referenced block loses its buffer, and the disk is not written. *)
Theorem bread_refines {E : Env} {D : DiskDriver} {DR : DiskReady} {L : DiskLaws} pr pid dev a n c0 s : 0 < dev < 2 ^ 32 ->
  running pr pid None c0 s -> Cached dev pid a (k_fs s) -> 0 <= n < 2 ^ 31 -> al a n = false ->
  ar a n < 2 ^ 32 - 1 -> 0 < ar a n \/ ab a < Z.of_nat NBUF ->
  wp (bread dev n) (fun b s' => running pr pid None c0 s' /\ Cached dev pid (a_get n a) (k_fs s') /\
    at_buf dev (k_fs s') b n /\ b_data (getB b (k_fs s')) = av a n /\ b_valid (getB b (k_fs s')) = 1 /\
    keeps dev (k_fs s) (k_fs s') /\ same_rest (k_fs s) (k_fs s')) s.
Proof.
  intros Hdev Hrun Hca Hn Hlk Hr Hav. eapply wp_mono.
  - apply (fsrun_bread pr pid dev Hdev a (k_fs s) n (fun b F' => Cached dev pid (a_get n a) F' /\ at_buf dev F' b n /\
      keeps dev (k_fs s) F' /\ same_rest (k_fs s) F')) with (c0 := c0); done.
  - intros b s' ((Hca' & Hat & Hk & Hsr) & Hrun' & _). pose proof (ca_ok _ _ _ _ Hca') as Hc.
    destruct (at_buf_view dev pid _ b n Hc Hat) as (Hv & _). rewrite (ca_view _ _ _ _ Hca') in Hv. pose proof Hat as (Hb & Hd & _).
    destruct (ck_buf _ _ _ Hc b Hb) as ([[_ ?]|[? _]] & _); [|lia]. split_and!; done.
Qed.

(** ** A concrete cache *)

(** The machine of SchedSpec.v with an empty cache and an empty disk. *)
Definition fs_boot : fsstate := set_bufs (replicate (S NBUF) buf0) fs0.
Definition ks_boot : kstate := set_k_fs fs_boot ks1.

Lemma binit_establishes_witness : wp binit (fun _ s' => exists a, Cached 1 2 a (k_fs s') /\ idle a) ks_boot.
Proof.
  eapply wp_mono.
  - apply (binit_establishes 1 2 ks_boot); [lia|reflexivity|]. intros n. unfold block. simpl. by rewrite lookup_empty.
  - intros [] s' (a & H1 & H2 & _). by exists a.
Defined.

(** After binit(). *)
Definition fs_idle : fsstate := set_bufs bufs_init fs0.

Lemma fs_idle_ok : cache_ok 1 2 fs_idle /\ idle (abs_of 1 fs_idle) /\ forall n, view 1 fs_idle n = zero_block.
Proof.
  assert (Hblk : forall n, block fs0 n = zero_block) by (intros n; unfold block; simpl; by rewrite lookup_empty).
  destruct (init_idle 1 2 fs0) as (H1 & H2 & H3); [lia|intros n; by rewrite Hblk|].
  split; [exact H1|]. split; [exact H2|]. intros n. unfold fs_idle. by rewrite H3.
Qed.

Lemma running_idle F : @running always_ready 1 2 None ctl1 (set_k_fs F ks1).
Proof. split; try done. Qed.

Lemma bread_refines_witness : wp (@bread env0 ideal_driver 1 7) (fun b s' => at_buf 1 (k_fs s') b 7 /\
  b_data (getB b (k_fs s')) = zero_block) (set_k_fs fs_idle ks1).
Proof.
  destruct fs_idle_ok as (Hc & (I1 & I2 & I3) & Hv). eapply wp_mono.
  - apply (@bread_refines env0 ideal_driver always_ready ideal_laws 1 2 1 (abs_of 1 fs_idle) 7 ctl1); [lia|apply running_idle|by apply cached_abs|lia|apply I2|
      rewrite I1; lia|right; rewrite I3; unfold NBUF; simpl; lia].
  - intros b s' (_ & _ & H1 & H2 & _). split; [done|]. rewrite H2. apply Hv.
Defined.
