(* ===== verification/Log.v ===== *)
(** * The log (kernel/log.c)

    The redo log: begin_op(), log_write(), end_op() and commit(), and recovery
    when the file system is mounted.  A log header on disk is a 32-bit count and
    the 32-bit block numbers. *)

From S2P Require Import Prelude Riscv Kstate CString Spinlock Kalloc Vm Sched Bytes Sleeplock Bio.

Section log.
Context {E : Env} {D : DiskDriver}.

Definition getlog : K logstate := gets (fun s => klog (k_fs s)).
Definition updlog (f : logstate -> logstate) : K unit :=
  modify (fun s => set_k_fs (set_klog (f (klog (k_fs s))) (k_fs s)) s).

(** [log.lh.block[i]] *)
Definition lh_nth (l : logstate) (i : Z) : Z := default 0 (znth (lh_block l) i).

(** [for(tail = 0; tail < n; tail++)] *)
Definition upto (n : Z) : list Z := map Z.of_nat (seq 0 (Z.to_nat n)).

(** The loop re-reads log.lh.n, which no body changes. *)
Definition install_trans (recovering : bool) : K unit :=
  l <- getlog;;
  for_each (upto (lh_n l)) (fun tail =>
    l <- getlog;;
    lbuf <- bread (l_dev l) (l_start l + tail + 1);;
    dbuf <- bread (l_dev l) (lh_nth l tail);;
    d <- bdata lbuf;;
    set_bdata dbuf (fun _ => d);;
    bwrite dbuf;;
    unless recovering (bunpin dbuf);;
    brelse lbuf;;
    brelse dbuf).

Definition read_head : K unit :=
  l <- getlog;;
  b <- bread (l_dev l) (l_start l);;
  d <- bdata b;;
  let n := i32 (rd 4 d 0) in
  updlog (set_lh_n n);;
  for_each (upto n) (fun i =>
    updlog (fun l => set_lh_block (zupd (lh_block l) i (i32 (rd 4 d (4 + 4 * i)))) l));;
  brelse b.

Definition write_head : K unit :=
  l <- getlog;;
  b <- bread (l_dev l) (l_start l);;
  set_bdata b (fun d => wr 4 d 0 (lh_n l));;
  for_each (upto (lh_n l)) (fun i =>
    set_bdata b (fun d => wr 4 d (4 + 4 * i) (lh_nth l i)));;
  bwrite b;;
  brelse b.

Definition recover_from_log : K unit :=
  read_head;;
  install_trans true;;
  updlog (set_lh_n 0);;
  write_head.

(** [sizeof(struct logheader)] *)
Definition sizeof_logheader : Z := 4 + 4 * LOGSIZE.

Definition initlog (dev : Z) (sb : superblock) : K unit :=
  if BSIZE <=? sizeof_logheader then panic "initlog: too big logheader"
  else
    lift_ctl (initlock L_log "log");;
    updlog (fun l => set_l_dev dev (set_l_size (i32 (sb_nlog sb)) (set_l_start (i32 (sb_logstart sb)) l)));;
    recover_from_log.

(** The waiting loop is re-entered once per wakeup. *)
Definition begin_op : K unit :=
  kacquire L_log;;
  loop (S turns) (fun _ =>
    l <- getlog;;
    if truthy (l_committing l) then sleep Ch_log L_log;; ret (inl tt)
    else if LOGSIZE <? lh_n l + (l_outstanding l + 1) * MAXOPBLOCKS
    then sleep Ch_log L_log;; ret (inl tt)
    else
      updlog (set_l_outstanding (l_outstanding l + 1));;
      krelease L_log;;
      ret (inr tt)) tt.

Definition write_log : K unit :=
  l <- getlog;;
  for_each (upto (lh_n l)) (fun tail =>
    l <- getlog;;
    to <- bread (l_dev l) (l_start l + tail + 1);;
    from <- bread (l_dev l) (lh_nth l tail);;
    d <- bdata from;;
    set_bdata to (fun _ => d);;
    bwrite to;;
    brelse from;;
    brelse to).

Definition commit : K unit :=
  l <- getlog;;
  when (0 <? lh_n l)
    (write_log;;
     write_head;;
     install_trans false;;
     updlog (set_lh_n 0);;
     write_head).

Definition end_op : K unit :=
  kacquire L_log;;
  updlog (fun l => set_l_outstanding (l_outstanding l - 1) l);;
  l <- getlog;;
  if truthy (l_committing l) then panic "log.committing"
  else
    let do_commit := l_outstanding l =? 0 in
    (if do_commit then updlog (set_l_committing 1) else wakeup (Some Ch_log));;
    krelease L_log;;
    when do_commit
      (commit;;
       kacquire L_log;;
       updlog (set_l_committing 0);;
       wakeup (Some Ch_log);;
       krelease L_log).

(** The search of log_write(): the index of the block in the header, or n. *)
Fixpoint log_index (bs : list Z) (blockno : Z) : nat :=
  match bs with
  | [] => 0
  | b :: bs' => if u32 b =? blockno then 0 else S (log_index bs' blockno)
  end.

Definition log_write (b : nat) : K unit :=
  kacquire L_log;;
  l <- getlog;;
  if (LOGSIZE <=? lh_n l) || (l_size l - 1 <=? lh_n l) then panic "too big a transaction"
  else if l_outstanding l <? 1 then panic "log_write outside of trans"
  else
    x <- getb b;;
    let i := Z.of_nat (log_index (take (Z.to_nat (lh_n l)) (lh_block l)) (b_blockno x)) in
    updlog (fun l => set_lh_block (zupd (lh_block l) i (i32 (b_blockno x))) l);;
    when (i =? lh_n l)
      (bpin b;;
       updlog (fun l => set_lh_n (lh_n l + 1) l));;
    krelease L_log.

End log.
