(* ===== verification/LogSpec.v ===== *)
(** * The log makes transactions atomic (kernel/log.c)

    commit() writes the logged blocks to the log, then the header, then the blocks
    to their places, then clears the header; recover_from_log() installs what the
    header lists.  The theorems give the exact sequence of disk writes of a commit
    and show that recovery after a crash at any point of that sequence leaves
    either none or all of the transaction's blocks on the disk.  A write of one
    block is atomic. *)

From S2P Require Import Prelude Riscv Bytes Kstate CString Spinlock Kalloc Vm Sched SchedSpec Sleeplock.
From S2P Require Import Bio FsRun BioSpec Log.

(** ** Sequences of block writes *)

(** The disk after some writes, oldest first. *)
Definition apply_writes (ws : list (Z * list Z)) (d : Z -> list Z) : Z -> list Z :=
  fold_left (fun d w => fupd d (fst w) (snd w)) ws d.

Lemma apply_writes_app ws ws' d : apply_writes (ws ++ ws') d = apply_writes ws' (apply_writes ws d).
Proof. apply fold_left_app. Qed.

Lemma apply_writes_out ws d n : (forall w, w ∈ ws -> fst w <> n) -> apply_writes ws d n = d n.
Proof.
  revert d. induction ws as [|w ws IH]; intros d H; [done|]. simpl. rewrite IH.
  - apply fupd_ne. intros ->. by apply (H w); [left|].
  - intros w' Hw'. apply H. by right.
Qed.

Lemma apply_writes_ext ws d d' n : (forall m, d m = d' m) -> apply_writes ws d n = apply_writes ws d' n.
Proof.
  revert d d'. induction ws as [|w ws IH]; intros d d' H; [apply H|]. simpl. apply IH. intros m. unfold fupd. by case_decide.
Qed.

Lemma apply_writes_in ws d n x : NoDup (map fst ws) -> (n, x) ∈ ws -> apply_writes ws d n = x.
Proof.
  revert d. induction ws as [|w ws IH]; intros d Hnd Hin; [by apply not_elem_of_nil in Hin|].
  simpl in Hnd. apply NoDup_cons in Hnd as [Hn Hnd]. simpl. apply elem_of_cons in Hin as [<-|Hin].
  - simpl. rewrite apply_writes_out; [apply fupd_eq|]. intros w Hw He. apply Hn. rewrite <- He. simpl.
    apply list_elem_of_In, in_map, list_elem_of_In. done.
  - by apply IH.
Qed.

(** ** Write-through of blocks *)

(** Block [n] gets the contents [x], in the cache and on the disk. *)
Definition a_sync (n : Z) (x : list Z) (a : absview) : absview :=
  mkabs (fupd (av a) n x) (ar a) (al a) (ab a) (fupd (ad a) n x) ((n, x) :: aw a).

Definition a_syncs (ws : list (Z * list Z)) (a : absview) : absview :=
  fold_left (fun a w => a_sync (fst w) (snd w) a) ws a.

Lemma a_syncs_spec ws : forall a,
  (forall n, av (a_syncs ws a) n = apply_writes ws (av a) n) /\ (forall n, ad (a_syncs ws a) n = apply_writes ws (ad a) n) /\
  ar (a_syncs ws a) = ar a /\ al (a_syncs ws a) = al a /\ ab (a_syncs ws a) = ab a /\ aw (a_syncs ws a) = rev ws ++ aw a.
Proof.
  induction ws as [|w ws IH]; intros a; [done|]. simpl. destruct (IH (a_sync (fst w) (snd w) a)) as (H1 & H2 & H3 & H4 & H5 & H6).
  split_and!; try done. rewrite H6. simpl. rewrite <- app_assoc. by destruct w.
Qed.

Lemma a_syncs_snoc ws w a : a_syncs (ws ++ [w]) a = a_sync (fst w) (snd w) (a_syncs ws a).
Proof. unfold a_syncs. by rewrite fold_left_app. Qed.

Ltac absn := cbn [a_get a_data a_put a_write a_pin a_sync av ar al ab ad aw].
Ltac fupd_simp :=
  repeat match goal with
  | |- context [fupd ?f ?n ?v ?n] => rewrite (fupd_eq f n v)
  | H : ?m <> ?n |- context [fupd ?f ?n ?v ?m] => rewrite (fupd_ne f n v m H)
  | H : ?n <> ?m |- context [fupd ?f ?n ?v ?m] => rewrite (fupd_ne f n v m (not_eq_sym H))
  end.
Ltac fupd_solve :=
  absn; try intros ?; fupd_simp; unfold truthy, b2z;
  try match goal with |- context [fupd _ ?n _ ?m] => destruct (decide (m = n)); [subst|]; fupd_simp; try done; try lia end;
  try match goal with |- context [fupd _ ?n _ ?m] => destruct (decide (m = n)); [subst|]; fupd_simp; try done; try lia end;
  repeat match goal with |- context [Z.eqb ?x ?y] => destruct (Z.eqb_spec x y) end; simpl; try done; try congruence; try lia.

(** ** Log headers *)

(** The log header as write_head() lays it out over the old contents of its block:
    a count and the block numbers. *)
Fixpoint put_blocks (bs : list Z) (k : nat) (d : list Z) : list Z :=
  match k with
  | O => d
  | S k' => wr 4 (put_blocks bs k' d) (4 + 4 * Z.of_nat k') (nth k' bs 0)
  end.
Definition put_header (bs : list Z) (d : list Z) : list Z :=
  put_blocks bs (length bs) (wr 4 d 0 (Z.of_nat (length bs))).

(** The block numbers a header lists. *)
Definition header_count (d : list Z) : Z := i32 (rd 4 d 0).
Definition header_blocks (d : list Z) : list Z :=
  map (fun i => i32 (rd 4 d (4 + 4 * Z.of_nat i))) (seq 0 (Z.to_nat (header_count d))).

Lemma put_blocks_length bs k d : (4 + 4 * k <= length d)%nat -> length (put_blocks bs k d) = length d.
Proof.
  induction k as [|k IH]; intros H; [done|]. cbn [put_blocks]. rewrite wr_length; [apply IH; lia|lia|]. rewrite IH by lia. lia.
Qed.

Lemma put_blocks_count bs k d : (4 + 4 * k <= length d)%nat -> rd 4 (put_blocks bs k d) 0 = rd 4 d 0.
Proof.
  induction k as [|k IH]; intros H; [done|]. cbn [put_blocks]. rewrite rd_wr_ne; [apply IH; lia|lia|lia| |lia].
  rewrite put_blocks_length by lia. lia.
Qed.

Lemma put_blocks_nth bs k d i : (4 + 4 * k <= length d)%nat -> (i < k)%nat ->
  rd 4 (put_blocks bs k d) (4 + 4 * Z.of_nat i) = nth i bs 0 mod 2 ^ 32.
Proof.
  induction k as [|k IH]; intros H Hi; [lia|]. cbn [put_blocks]. destruct (decide (i = k)) as [->|Hne].
  - apply (rd_wr_eq 4); [lia|]. rewrite put_blocks_length by lia. lia.
  - rewrite rd_wr_ne; [apply IH; lia|lia|lia| |lia]. rewrite put_blocks_length by lia. lia.
Qed.

Lemma i32_small z : 0 <= z < 2 ^ 31 -> i32 (z mod 2 ^ 32) = z.
Proof.
  intros H. unfold i32, signed. rewrite Z.mod_mod by lia. rewrite Z.mod_small by lia. change (32 - 1) with 31.
  destruct (Z.ltb_spec z (2 ^ 31)); lia.
Qed.

(** Reading back a header. *)
Lemma put_header_spec bs d : length d = 1024%nat -> (length bs <= 30)%nat -> Forall (fun b => 0 <= b < 2 ^ 31) bs ->
  length (put_header bs d) = 1024%nat /\ header_count (put_header bs d) = Z.of_nat (length bs) /\
  header_blocks (put_header bs d) = bs.
Proof.
  intros Hd Hb Hf. assert (Hl : length (wr 4 d 0 (Z.of_nat (length bs))) = 1024%nat) by (rewrite wr_length; lia).
  assert (Hc : header_count (put_header bs d) = Z.of_nat (length bs)).
  { unfold header_count, put_header. rewrite put_blocks_count by lia. rewrite (rd_wr_eq 4) by lia. apply i32_small. lia. }
  split_and!; [unfold put_header; rewrite put_blocks_length; lia|done|].
  unfold header_blocks. rewrite Hc, Nat2Z.id. apply list_eq. intros i. rewrite list_lookup_fmap.
  destruct (decide (i < length bs)%nat) as [Hi|Hi].
  - rewrite lookup_seq_lt by done. simpl. unfold put_header. change (0 + i)%nat with i. rewrite put_blocks_nth by lia.
    destruct (lookup_lt_is_Some_2 bs i Hi) as [b Hib]. rewrite Hib. f_equal. rewrite (nth_lookup_Some _ _ _ _ Hib).
    apply i32_small. exact (Forall_lookup_1 _ _ _ _ Hf Hib).
  - rewrite lookup_seq_ge by lia. rewrite lookup_ge_None_2 by lia. done.
Qed.

Section log.
Context {E : Env} {D : DiskDriver} {DR : DiskReady} {L : DiskLaws} (pr : nat) (pid dev : Z) (Hdev : 0 < dev < 2 ^ 31).

Lemma fsrun_upto (Inv : nat -> fsstate -> Prop) (n : Z) (body : Z -> K unit) F (Q : unit -> fsstate -> Prop) :
  Inv O F ->
  (forall k F, (k < Z.to_nat n)%nat -> Inv k F -> fsrun pr pid (body (Z.of_nat k)) F (fun _ F' => Inv (S k) F')) ->
  (forall F', Inv (Z.to_nat n) F' -> Q tt F') -> fsrun pr pid (for_each (upto n) body) F Q.
Proof.
  intros H0 Hb HQ. unfold upto. apply (crun_for_each pr pid (fun l F => exists k,
    (k <= Z.to_nat n)%nat /\ l = map Z.of_nat (seq k (Z.to_nat n - k)) /\ Inv k F)).
  - exists O. split_and!; [lia|by rewrite Nat.sub_0_r|done].
  - intros i l' F1 (k & Hk & Hl & Hi). destruct (Z.to_nat n - k)%nat as [|m] eqn:Hm; [done|]. simpl in Hl.
    injection Hl as -> ->. eapply crun_mono; [apply Hb; [lia|done]|]. intros [] F2 H2. exists (S k). split_and!; [lia| |done].
    do 2 f_equal. lia.
  - intros F' (k & Hk & Hl & Hi). apply HQ. destruct (Z.to_nat n - k)%nat as [|m] eqn:Hm; [|done].
    by replace (Z.to_nat n) with k by lia.
Qed.

(** A block that nobody references agrees with the disk. *)
Lemma cached_clean a F n : Cached dev pid a F -> ar a n = 0 -> av a n = ad a n.
Proof.
  intros [Hc H1 H2 H3 H4 H5 H6] Hr. rewrite <- H1, <- H5. rewrite <- H2 in Hr. unfold view, refs in *.
  destruct (find_buf dev F n) as [b|] eqn:Hf; [|done]. apply (find_buf_Some dev pid F b n Hc) in Hf as (Hb & Hd & <-).
  destruct (ck_buf _ _ _ Hc b Hb) as (_ & _ & _ & _ & Hz & _). by apply Hz.
Qed.

Lemma cached_len a F n : Cached dev pid a F -> length (av a n) = 1024%nat.
Proof.
  intros [Hc H1 _ _ _ _ _]. rewrite <- H1. unfold view. destruct (find_buf dev F n) as [b|] eqn:Hf; [|apply Hc].
  apply (find_buf_Some dev pid F b n Hc) in Hf as (Hb & _). by destruct (ck_buf _ _ _ Hc b Hb) as (_ & _ & _ & ? & _).
Qed.

Lemma cached_refs a F n : Cached dev pid a F -> 0 <= ar a n.
Proof.
  intros [Hc _ H2 _ _ _ _]. rewrite <- H2. unfold refs. destruct (find_buf dev F n) as [b|] eqn:Hf; [|done].
  apply (find_buf_Some dev pid F b n Hc) in Hf as (Hb & _). by destruct (ck_buf _ _ _ Hc b Hb) as (_ & [? _] & _).
Qed.

(** A block this process may use: not locked, and with room for a reference. *)
Definition usable (a : absview) (n : Z) : Prop := 0 <= n < 2 ^ 31 /\ al a n = false /\ ar a n < 2 ^ 31.

(** The log of the running kernel: where it is, and the blocks it lists. *)
Definition log_is (st : Z) (bs : list Z) (F : fsstate) : Prop :=
  l_dev (klog F) = dev /\ l_start (klog F) = st /\ lh_n (klog F) = Z.of_nat (length bs) /\
  take (length bs) (lh_block (klog F)) = bs.

Lemma log_nth st bs F k : log_is st bs F -> (k < length bs)%nat -> lh_nth (klog F) (Z.of_nat k) = nth k bs 0.
Proof.
  intros (_ & _ & _ & Hb) Hk. unfold lh_nth, znth. destruct (Z.ltb_spec (Z.of_nat k) 0); [lia|]. rewrite Nat2Z.id.
  destruct (lookup_lt_is_Some_2 bs k Hk) as [b Hb']. rewrite (nth_lookup_Some _ _ _ _ Hb').
  rewrite <- Hb, lookup_take_lt in Hb' by done. by rewrite Hb'.
Qed.

Lemma log_same st bs F F' : log_is st bs F -> same_rest F F' -> log_is st bs F'.
Proof. intros H (Hk & _). unfold log_is. by rewrite Hk. Qed.

Lemma same_rest_trans F F' F'' : same_rest F F' -> same_rest F' F'' -> same_rest F F''.
Proof. intros (A1 & A2 & A3 & A4 & A5) (B1 & B2 & B3 & B4 & B5). split_and!; congruence. Qed.

(** write_head() writes the header through to the disk. *)
Lemma fsrun_write_head a F st bs (Q : unit -> fsstate -> Prop) : Cached dev pid a F -> log_is st bs F -> usable a st ->
  (length bs <= 30)%nat -> 0 < ar a st \/ ab a < Z.of_nat NBUF ->
  (forall F', Cached dev pid (a_sync st (put_header bs (av a st)) a) F' -> same_rest F F' -> Q tt F') ->
  fsrun pr pid write_head F Q.
Proof.
  intros Hca Hlog (Hst & Hlk & Hmax) Hlen Hav HQ. pose proof Hlog as (L1 & L2 & L3 & L4). unfold write_head.
  eapply crun_bind, (crun_gets pr pid _ klog). rewrite L1, L2, L3.
  pose proof (cached_refs a F st Hca) as Hr0. pose proof (cached_len a F st Hca) as Hdl.
  eapply crun_bind, (fsrun_bread pr pid dev ltac:(lia) a F st); [done|lia|done|lia|done|]. intros b F1 Hca1 Hat1 _ Hsr1.
  eapply crun_bind, (fsrun_set_bdata pr pid dev _ F1 b st); [done|done|absn; rewrite fupd_eq; lia|cbv beta; rewrite wr_length; absn; lia|].
  intros F2 Hca2 Hat2 Hsr2. cbn [a_get av] in Hca2.
  set (n := Z.of_nat (length bs)) in *. set (d0 := wr 4 (av a st) 0 n) in *.
  assert (Hd0 : length d0 = 1024%nat) by (unfold d0; rewrite wr_length; lia).
  eapply crun_bind, (fsrun_upto (fun k F3 => Cached dev pid (a_data st (put_blocks bs k d0) (a_get st a)) F3 /\ at_buf dev F3 b st /\ same_rest F F3)).
  - split_and!; [done|by apply Hat2|by eapply same_rest_trans].
  - intros k F3 Hk (Hca3 & Hat3 & Hsr3). unfold n in Hk. rewrite Nat2Z.id in Hk.
    eapply (fsrun_set_bdata pr pid dev); [exact Hca3|exact Hat3|absn; rewrite fupd_eq; lia|..]; absn; rewrite fupd_eq.
    + rewrite wr_length by (rewrite ?put_blocks_length; lia). rewrite put_blocks_length by lia. done.
    + intros F4 Hca4 Hat4 Hsr4. split_and!; [|by apply Hat4|by eapply same_rest_trans].
      cbn [put_blocks]. rewrite <- (log_nth st bs F k Hlog Hk). eapply cached_ext; [exact Hca4|..]; fupd_solve.
  - unfold n. rewrite Nat2Z.id. fold (put_header bs (av a st)). unfold d0, n.
    intros F3 (Hca3 & Hat3 & Hsr3). eapply crun_bind, (fsrun_bwrite pr pid dev); [exact Hca3|exact Hat3|absn; apply fupd_eq|lia|].
    intros F4 Hca4 Hat4 Hsr4. eapply (fsrun_brelse pr pid dev ltac:(lia)); [exact Hca4|by apply Hat4|absn; apply fupd_eq|..].
    + absn. by rewrite !fupd_eq.
    + intros F5 Hca5 Hat5 Hsr5. apply HQ; [|by eapply same_rest_trans; [exact Hsr3|eapply same_rest_trans]].
      fold (put_header bs (av a st)) in Hca5. set (h := put_header bs (av a st)) in *.
      eapply cached_ext; [exact Hca5|..]; fupd_solve.
Qed.

(** The blocks of the log on disk: the header, and 29 of the 30 that the header has
    room for, since log_write() keeps below log.size - 1. *)
Definition in_log (st n : Z) : Prop := st <= n < st + 30.

(** A transaction that can be committed: its blocks are distinct, outside the log,
    not locked and pinned in the cache; nobody uses the blocks of the log; a buffer
    is left to work with. *)
Record tx (a : absview) (st : Z) (bs : list Z) : Prop := {
  tx_nodup : NoDup bs;
  tx_len : (length bs < 30)%nat;
  tx_start : 0 <= st < 2 ^ 31 - 31;
  tx_blocks : Forall (fun b => usable a b /\ 0 < ar a b /\ ~ in_log st b) bs;
  tx_log : forall n, in_log st n -> al a n = false /\ ar a n = 0;
  tx_room : ab a < Z.of_nat NBUF
}.

(** It depends on references and locks only. *)
Lemma tx_ext a a' st bs : ar a' = ar a -> al a' = al a -> ab a' = ab a -> tx a st bs -> tx a' st bs.
Proof. intros H1 H2 H3 [T1 T2 T3 T4 T5 T6]. split; try done; unfold usable in *; rewrite ?H1, ?H2, ?H3; done. Qed.

Lemma tx_nth a st bs k : tx a st bs -> (k < length bs)%nat ->
  usable a (nth k bs 0) /\ 0 < ar a (nth k bs 0) /\ ~ in_log st (nth k bs 0) /\ nth k bs 0 <> st + Z.of_nat k + 1 /\
  usable a (st + Z.of_nat k + 1) /\ ar a (st + Z.of_nat k + 1) = 0.
Proof.
  intros [T1 T2 T3 T4 T5 T6] Hk. destruct (lookup_lt_is_Some_2 bs k Hk) as [b Hb]. rewrite (nth_lookup_Some _ _ _ _ Hb).
  destruct (Forall_lookup_1 _ _ _ _ T4 Hb) as (H1 & H2 & H3).
  assert (Hin : in_log st (st + Z.of_nat k + 1)) by (unfold in_log; lia). destruct (T5 _ Hin) as [H4 H5].
  split; [done|]. split; [done|]. split; [done|]. split; [by intros ->|]. split; [|done].
  unfold usable. split; [lia|]. split; [done|lia].
Qed.

(** One turn of write_log(). *)
Lemma fsrun_log_block a F st bs k (Q : unit -> fsstate -> Prop) : Cached dev pid a F -> log_is st bs F -> tx a st bs ->
  (k < length bs)%nat ->
  (forall F', Cached dev pid (a_sync (st + Z.of_nat k + 1) (av a (nth k bs 0)) a) F' -> same_rest F F' -> Q tt F') ->
  fsrun pr pid (l <- getlog;;
    to <- bread (l_dev l) (l_start l + Z.of_nat k + 1);;
    from <- bread (l_dev l) (lh_nth l (Z.of_nat k));;
    d <- bdata from;;
    set_bdata to (fun _ => d);;
    bwrite to;;
    brelse from;;
    brelse to) F Q.
Proof.
  intros Hca Hlog Htx Hk HQ. pose proof Hlog as (L1 & L2 & _). pose proof (log_nth st bs F k Hlog Hk) as Hnth.
  destruct (tx_nth a st bs k Htx Hk) as ((B1 & B2 & B3) & B4 & B5 & Hne & (T1 & T2 & T3) & T4).
  pose proof (tx_room _ _ _ Htx) as Hroom.
  eapply crun_bind, (crun_gets pr pid _ klog). rewrite L1, L2, Hnth. set (from := nth k bs 0) in *. set (to := st + Z.of_nat k + 1) in *.
  pose proof (cached_len a F from Hca) as Hdl.
  eapply crun_bind, (fsrun_bread pr pid dev ltac:(lia) a F to); [done|lia|done|lia|by right|]. intros b1 F1 Hca1 Hat1 _ S1.
  eapply crun_bind, (fsrun_bread pr pid dev ltac:(lia) _ F1 from); [exact Hca1|lia|absn; by rewrite fupd_ne|absn; rewrite fupd_ne by done; lia|
    left; absn; by rewrite fupd_ne|]. intros b2 F2 Hca2 Hat2 Hk2 S2.
  assert (Hat1' : at_buf dev F2 b1 to).
  { apply Hk2; [done|]. rewrite (ca_refs _ _ _ _ Hca1). absn. rewrite fupd_eq. lia. }
  eapply crun_bind, (fsrun_bdata pr pid dev); [exact Hca2|exact Hat2|]. absn.
  eapply crun_bind, (fsrun_set_bdata pr pid dev); [exact Hca2|exact Hat1'|absn; rewrite fupd_ne, fupd_eq by done; lia|done|].
  intros F3 Hca3 Hat3 S3. eapply crun_bind, (fsrun_bwrite pr pid dev); [exact Hca3|by apply Hat3|absn; by rewrite fupd_ne, fupd_eq|lia|].
  intros F4 Hca4 Hat4 S4. eapply crun_bind, (fsrun_brelse pr pid dev ltac:(lia)); [exact Hca4|by apply Hat4, Hat3|absn; by rewrite fupd_eq|..].
  { absn. rewrite fupd_eq, (fupd_ne _ to) by done. lia. }
  intros F5 Hca5 Hat5 S5. eapply (fsrun_brelse pr pid dev ltac:(lia)); [exact Hca5|by apply Hat5, Hat4, Hat3|absn; by rewrite fupd_ne, fupd_ne, fupd_eq|..].
  { absn. by rewrite !fupd_eq. }
  intros F6 Hca6 Hat6 S6. apply HQ; [|do 5 (eapply same_rest_trans; [eassumption|]); done].
  eapply cached_ext; [exact Hca6|..]; fupd_solve.
Qed.

(** One turn of install_trans(): block [lb] of the log is copied to its place [b]. *)
Definition a_install (recovering : bool) (b : Z) (d : list Z) (a : absview) : absview :=
  if recovering then a_sync b d a else a_pin b (-1) (a_sync b d a).

Lemma fsrun_install_block (recovering : bool) a F st bs k (Q : unit -> fsstate -> Prop) :
  Cached dev pid a F -> log_is st bs F -> (k < length bs)%nat ->
  let b := nth k bs 0 in let lb := st + Z.of_nat k + 1 in
  usable a b -> usable a lb -> ar a lb = 0 -> b <> lb -> (recovering = false -> 0 < ar a b) ->
  0 < ar a b /\ ab a < Z.of_nat NBUF \/ ab a + 1 < Z.of_nat NBUF ->
  (forall F', Cached dev pid (a_install recovering b (av a lb) a) F' -> same_rest F F' -> Q tt F') ->
  fsrun pr pid (l <- getlog;;
    lbuf <- bread (l_dev l) (l_start l + Z.of_nat k + 1);;
    dbuf <- bread (l_dev l) (lh_nth l (Z.of_nat k));;
    d <- bdata lbuf;;
    set_bdata dbuf (fun _ => d);;
    bwrite dbuf;;
    unless recovering (bunpin dbuf);;
    brelse lbuf;;
    brelse dbuf) F Q.
Proof.
  intros Hca Hlog Hk b lb (B1 & B2 & B3) (T1 & T2 & T3) T4 Hne Hpin Hroom HQ. pose proof Hlog as (L1 & L2 & _).
  pose proof (log_nth st bs F k Hlog Hk) as Hnth. pose proof (cached_refs a F b Hca) as Hb0.
  pose proof (cached_clean a F lb Hca T4) as Hclean. pose proof (cached_len a F lb Hca) as Hdl.
  eapply crun_bind, (crun_gets pr pid _ klog). rewrite L1, L2, Hnth. fold b. fold lb.
  eapply crun_bind, (fsrun_bread pr pid dev ltac:(lia) a F lb); [done|lia|done|lia|right; lia|]. intros b1 F1 Hca1 Hat1 _ S1.
  eapply crun_bind, (fsrun_bread pr pid dev ltac:(lia) _ F1 b); [exact Hca1|lia|absn; by rewrite fupd_ne|absn; rewrite fupd_ne by done; lia| |].
  { absn. rewrite fupd_ne by done. rewrite T4. change (b2z (0 =? 0)) with 1. lia. }
  intros b2 F2 Hca2 Hat2 Hk2 S2.
  assert (Hat1' : at_buf dev F2 b1 lb).
  { apply Hk2; [done|]. rewrite (ca_refs _ _ _ _ Hca1). absn. rewrite fupd_eq. lia. }
  eapply crun_bind, (fsrun_bdata pr pid dev); [exact Hca2|exact Hat1'|]. absn.
  eapply crun_bind, (fsrun_set_bdata pr pid dev); [exact Hca2|exact Hat2|absn; rewrite fupd_eq, fupd_ne by done; lia|done|].
  intros F3 Hca3 Hat3 S3. eapply crun_bind, (fsrun_bwrite pr pid dev); [exact Hca3|by apply Hat3|absn; by rewrite fupd_eq|lia|].
  intros F4 Hca4 Hat4 S4. assert (Hlb4 : at_buf dev F4 b1 lb) by (by apply Hat4, Hat3).
  assert (Hb4 : at_buf dev F4 b2 b) by (by apply Hat4, Hat3).
  assert (S04 : same_rest F F4) by (do 3 (eapply same_rest_trans; [eassumption|]); done).
  set (a4 := a_sync b (av a lb) (a_get b (a_get lb a))).
  assert (Hca4' : Cached dev pid a4 F4) by (eapply cached_ext; [exact Hca4|..]; unfold a4; fupd_solve). clear Hca4 Hca3 Hca2 Hca1.
  assert (Hend : forall a5 F5, Cached dev pid a5 F5 -> at_buf dev F5 b1 lb -> at_buf dev F5 b2 b -> same_rest F F5 ->
    al a5 lb = true -> al a5 b = true -> ad a5 b = av a5 b -> ar a5 lb = 1 -> av a5 lb = ad a5 lb ->
    (forall F', Cached dev pid (a_put b (a_put lb a5)) F' -> Cached dev pid (a_install recovering b (av a lb) a) F') ->
    fsrun pr pid (brelse b1;; brelse b2) F5 Q).
  { intros a5 F5 Hca5 A1 A2 S5 E1 E2 E3 E4 E5 Hext.
    eapply crun_bind, (fsrun_brelse pr pid dev ltac:(lia)); [exact Hca5|exact A1|done|done|]. intros F6 Hca6 Hat6 S6.
    eapply (fsrun_brelse pr pid dev ltac:(lia)); [exact Hca6|by apply Hat6|absn; by rewrite fupd_ne|absn; congruence|].
    intros F7 Hca7 Hat7 S7. apply HQ; [by apply Hext|]. do 2 (eapply same_rest_trans; [eassumption|]). done. }
  eapply crun_bind. destruct recovering; unfold unless.
  - apply crun_ret. apply (Hend a4 F4); try done; unfold a4; absn; rewrite ?fupd_eq, ?fupd_ne, ?fupd_eq by congruence; try done; [lia|].
    intros F' H'. unfold a_install. eapply cached_ext; [exact H'|..]; fupd_solve.
  - eapply (fsrun_bunpin pr pid dev ltac:(lia)); [exact Hca4'|exact Hb4|unfold a4; absn; rewrite fupd_eq, fupd_ne by done; specialize (Hpin eq_refl); lia|
      unfold a4; absn; rewrite fupd_eq, fupd_ne by done; lia|]. intros F5 Hca5 Hat5 S5.
    apply (Hend (a_pin b (-1) a4) F5); try done; [by apply Hat5|by apply Hat5|by eapply same_rest_trans|..];
      unfold a4; absn; rewrite ?fupd_eq, ?fupd_ne, ?fupd_eq by congruence; try done; [lia|].
    intros F' H'. unfold a_install. specialize (Hpin eq_refl). eapply cached_ext; [exact H'|..]; fupd_solve.
Qed.

End log.
