(* ===== verification/LogCrash.v ===== *)
(** * Commit and recovery (kernel/log.c)

    The loops of write_log(), install_trans() and read_head(), the exact sequence
    of disk writes of commit(), and recovery from a crash at any point of it. *)

From S2P Require Import Prelude Riscv Bytes Kstate CString Spinlock Kalloc Vm Sched SchedSpec Sleeplock.
From S2P Require Import Bio FsRun BioSpec Log LogSpec.

(** ** What is written *)

(** Blocks [0..k) of the transaction, in the log and at home. *)
Definition log_writes (st : Z) (bs : list Z) (v : Z -> list Z) (k : nat) : list (Z * list Z) :=
  map (fun i => (st + Z.of_nat i + 1, v (nth i bs 0))) (seq 0 k).
Definition home_writes (bs : list Z) (x : nat -> list Z) (k : nat) : list (Z * list Z) :=
  map (fun i => (nth i bs 0, x i)) (seq 0 k).

(** The writes of a commit of the blocks [bs] with contents [v]; [h] is the block
    of the header before. *)
Definition commit_writes (st : Z) (bs : list Z) (v : Z -> list Z) (h : list Z) : list (Z * list Z) :=
  log_writes st bs v (length bs) ++ [(st, put_header bs h)] ++
  home_writes bs (fun i => v (nth i bs 0)) (length bs) ++ [(st, put_header [] (put_header bs h))].

(** The writes of a recovery from the disk [d]. *)
Definition recovery_writes (st : Z) (d : Z -> list Z) : list (Z * list Z) :=
  let bs := header_blocks (d st) in
  home_writes bs (fun i => d (st + Z.of_nat i + 1)) (length bs) ++ [(st, put_header [] (d st))].

Definition recovered (st : Z) (d : Z -> list Z) : Z -> list Z := apply_writes (recovery_writes st d) d.

Lemma log_writes_S st bs v k : log_writes st bs v (S k) = log_writes st bs v k ++ [(st + Z.of_nat k + 1, v (nth k bs 0))].
Proof. unfold log_writes. by rewrite seq_S, map_app. Qed.
Lemma home_writes_S bs x k : home_writes bs x (S k) = home_writes bs x k ++ [(nth k bs 0, x k)].
Proof. unfold home_writes. by rewrite seq_S, map_app. Qed.

Lemma log_writes_in st bs v k w : w ∈ log_writes st bs v k -> st < fst w <= st + Z.of_nat k.
Proof. intros H. apply list_elem_of_In, in_map_iff in H as (i & <- & Hi). apply in_seq in Hi. simpl. lia. Qed.

Lemma home_writes_in bs x k w : (k <= length bs)%nat -> w ∈ home_writes bs x k -> fst w ∈ bs.
Proof.
  intros Hk H. apply list_elem_of_In, in_map_iff in H as (i & <- & Hi). apply in_seq in Hi. simpl.
  apply list_elem_of_In, nth_In. lia.
Qed.

Lemma home_writes_keys bs x k : (k <= length bs)%nat -> map fst (home_writes bs x k) = take k bs.
Proof.
  induction k as [|k IH]; intros Hk; [done|]. rewrite home_writes_S, map_app, IH by lia. simpl.
  destruct (lookup_lt_is_Some_2 bs k) as [b Hb]; [lia|]. rewrite (nth_lookup_Some _ _ _ _ Hb). by erewrite take_S_r.
Qed.

Lemma home_writes_out bs x k d n : (k <= length bs)%nat -> n ∉ bs -> apply_writes (home_writes bs x k) d n = d n.
Proof. intros Hk Hn. apply apply_writes_out. intros w Hw <-. by eapply Hn, home_writes_in. Qed.

Lemma home_writes_at bs x k d i : NoDup bs -> (k <= length bs)%nat -> (i < k)%nat ->
  apply_writes (home_writes bs x k) d (nth i bs 0) = x i.
Proof.
  intros Hnd Hk Hi. apply apply_writes_in.
  - rewrite home_writes_keys by done. by apply (sublist_NoDup _ _ Hnd), sublist_take.
  - apply list_elem_of_In, in_map_iff. exists i. split; [done|]. apply in_seq. lia.
Qed.

Lemma log_writes_out st bs v k d n : n <= st \/ st + Z.of_nat k < n -> apply_writes (log_writes st bs v k) d n = d n.
Proof. intros Hn. apply apply_writes_out. intros w Hw <-. apply log_writes_in in Hw. lia. Qed.

Lemma log_writes_at st bs v k d i : (i < k)%nat ->
  apply_writes (log_writes st bs v k) d (st + Z.of_nat i + 1) = v (nth i bs 0).
Proof.
  intros Hi. apply apply_writes_in.
  - unfold log_writes. rewrite map_map. simpl. apply NoDup_fmap_2_strong; [intros; lia|apply NoDup_seq].
  - apply list_elem_of_In, in_map_iff. exists i. split; [done|]. apply in_seq. lia.
Qed.

(** A block that is only ever given the contents [x] and [y]. *)
Lemma apply_writes_cases ws d n x y : (forall w, w ∈ ws -> fst w <> n \/ w = (n, x) \/ w = (n, y)) ->
  apply_writes ws d n = d n \/ apply_writes ws d n = x \/ apply_writes ws d n = y.
Proof.
  induction ws as [|w ws IH] using rev_ind; intros H; [by left|]. rewrite apply_writes_app. simpl.
  destruct (H w) as [Hne|Hw]; [apply elem_of_app; right; by left| |].
  - rewrite fupd_ne by done. apply IH. intros w' Hw'. apply H, elem_of_app. by left.
  - right. destruct Hw as [->| ->]; rewrite fupd_eq; auto.
Qed.

Section runs.
Context {E : Env} {D : DiskDriver} {DR : DiskReady} {L : DiskLaws} (pr : nat) (pid dev : Z) (Hdev : 0 < dev < 2 ^ 31).

Lemma cached_klog a F l : Cached dev pid a F -> Cached dev pid a (set_klog l F).
Proof. intros [[K1 K2 K3 K4 K5] H1 H2 H3 H4 H5 H6]. by split. Qed.

(** Read of the log's state. *)
Lemma log_is_len st bs F : log_is dev st bs F -> Z.to_nat (lh_n (klog F)) = length bs.
Proof. intros (_ & _ & -> & _). lia. Qed.

(** write_log() copies the transaction to the log. *)
Lemma fsrun_write_log a F st bs (Q : unit -> fsstate -> Prop) : Cached dev pid a F -> log_is dev st bs F -> tx a st bs ->
  (forall F', Cached dev pid (a_syncs (log_writes st bs (av a) (length bs)) a) F' -> same_rest F F' -> Q tt F') ->
  fsrun pr pid write_log F Q.
Proof.
  intros Hca Hlog Htx HQ. unfold write_log. eapply crun_bind, (crun_gets pr pid _ klog).
  apply (fsrun_upto pr pid (fun k F' => Cached dev pid (a_syncs (log_writes st bs (av a) k) a) F' /\ same_rest F F'));
    rewrite ?(log_is_len st bs F Hlog).
  - done.
  - intros k F1 Hk [Hca1 S1]. destruct (a_syncs_spec (log_writes st bs (av a) k) a) as (E1 & _ & E3 & E4 & E5 & _).
    apply (fsrun_log_block pr pid dev Hdev _ F1 st bs k _ Hca1 (log_same dev _ _ _ _ Hlog S1)); [by apply (tx_ext a)|done|].
    intros F2 Hca2 S2. split; [|by eapply same_rest_trans]. rewrite log_writes_S, a_syncs_snoc. simpl.
    destruct (tx_nth a st bs k Htx Hk) as (_ & _ & Hout & _). rewrite E1, log_writes_out in Hca2; [done|].
    unfold in_log in Hout. pose proof (tx_len _ _ _ Htx). lia.
  - intros F' [Hca' S']. by apply HQ.
Qed.

(** The effect of install_trans(): the blocks are written through, and unpinned
    unless recovering. *)
Record installed (recovering : bool) (a : absview) (ws : list (Z * list Z)) (a' : absview) : Prop := {
  in_av : forall n, av a' n = apply_writes ws (av a) n;
  in_ad : forall n, ad a' n = apply_writes ws (ad a) n;
  in_ar : forall n, ar a' n = ar a n - b2z (negb recovering && bool_decide (n ∈ map fst ws));
  in_al : forall n, al a' n = al a n;
  in_ab : ab a' <= ab a;
  in_aw : aw a' = rev ws ++ aw a
}.

Lemma installed_snoc recovering a ws a' b d : installed recovering a ws a' -> b ∉ map fst ws ->
  (recovering = false -> 0 < ar a b) -> installed recovering a (ws ++ [(b, d)]) (a_install recovering b d a').
Proof.
  intros [I1 I2 I3 I4 I5 I6] Hb Hr.
  assert (Hrb : recovering = false -> ar a' b = ar a b).
  { intros ->. rewrite I3, bool_decide_eq_false_2 by done. simpl. lia. }
  split; intros; rewrite ?apply_writes_app, ?rev_app_distr, ?map_app; unfold a_install;
    destruct recovering; cbn [a_pin a_sync av ar al ab ad aw negb andb fst snd map rev app];
    rewrite ?I6; try done; try (simpl; unfold fupd; case_decide; [done|apply I1 || apply I2]).
  - rewrite (Hrb eq_refl). unfold fupd. case_decide as Hn.
    + subst n. rewrite bool_decide_eq_true_2 by (apply elem_of_app; right; by left). done.
    + rewrite I3. simpl. do 2 f_equal. apply bool_decide_ext. rewrite elem_of_app, list_elem_of_singleton. naive_solver.
  - rewrite (Hrb eq_refl). specialize (Hr eq_refl). unfold truthy.
    destruct (Z.eqb_spec (ar a b + -1) 0), (Z.eqb_spec (ar a b) 0); simpl; lia.
Qed.

(** A log whose blocks can be installed. *)
Record installable (recovering : bool) (a : absview) (st : Z) (bs : list Z) : Prop := {
  ia_nodup : NoDup bs;
  ia_len : (length bs < 30)%nat;
  ia_start : 0 <= st < 2 ^ 31 - 31;
  ia_blocks : forall b, b ∈ bs -> usable a b /\ ~ in_log st b;
  ia_pinned : recovering = false -> forall b, b ∈ bs -> 0 < ar a b;
  ia_log : forall n, in_log st n -> al a n = false /\ ar a n = 0;
  ia_room : ab a + b2z recovering < Z.of_nat NBUF
}.

Lemma nth_in (bs : list Z) k : (k < length bs)%nat -> nth k bs 0 ∈ bs.
Proof. intros H. by apply list_elem_of_In, nth_In. Qed.

Lemma nth_fresh (bs : list Z) k : NoDup bs -> (k < length bs)%nat -> nth k bs 0 ∉ take k bs.
Proof.
  intros Hnd Hk. destruct (lookup_lt_is_Some_2 bs k Hk) as [b Hb]. rewrite (nth_lookup_Some _ _ _ _ Hb). intros Hin.
  apply list_elem_of_lookup in Hin as (i & Hi). pose proof (lookup_lt_Some _ _ _ Hi) as Hl. rewrite length_take in Hl.
  rewrite lookup_take_lt in Hi by lia. pose proof (NoDup_lookup _ _ _ _ Hnd Hi Hb). lia.
Qed.

Lemma fsrun_install_trans recovering a F st bs (Q : unit -> fsstate -> Prop) : Cached dev pid a F -> log_is dev st bs F ->
  installable recovering a st bs ->
  (forall a' F', installed recovering a (home_writes bs (fun i => av a (st + Z.of_nat i + 1)) (length bs)) a' ->
     Cached dev pid a' F' -> same_rest F F' -> Q tt F') ->
  fsrun pr pid (install_trans recovering) F Q.
Proof.
  intros Hca Hlog [A1 A2 A3 A4 A5 A6 A7] HQ. set (x := fun i : nat => av a (st + Z.of_nat i + 1)) in *.
  unfold install_trans. eapply crun_bind, (crun_gets pr pid _ klog).
  apply (fsrun_upto pr pid (fun k F' => exists a', installed recovering a (home_writes bs x k) a' /\ Cached dev pid a' F' /\ same_rest F F'));
    rewrite ?(log_is_len st bs F Hlog).
  - exists a. split_and!; [|done|done]. split; try done. intros n. rewrite bool_decide_eq_false_2 by apply not_elem_of_nil.
    rewrite andb_false_r. simpl. lia.
  - intros k F1 Hk (a1 & I1 & Hca1 & S1). pose proof I1 as [B1 B2 B3 B4 B5 B6].
    pose proof (home_writes_keys bs x k ltac:(lia)) as Hkeys. rewrite Hkeys in B3. pose proof (nth_in bs k Hk) as Hin.
    destruct (A4 _ Hin) as [(U1 & U2 & U3) Hout]. pose proof (nth_fresh bs k A1 Hk) as Hfr.
    assert (Hlb : in_log st (st + Z.of_nat k + 1)) by (unfold in_log; lia). destruct (A6 _ Hlb) as [L1 L2].
    assert (Hnb : st + Z.of_nat k + 1 ∉ bs) by (intros Hi; by apply (A4 _ Hi)).
    assert (Hrb : ar a1 (nth k bs 0) = ar a (nth k bs 0)).
    { rewrite B3, bool_decide_eq_false_2 by done. rewrite andb_false_r. simpl. lia. }
    assert (Hrl : ar a1 (st + Z.of_nat k + 1) = 0).
    { rewrite B3, bool_decide_eq_false_2; [rewrite andb_false_r; simpl; lia|]. intros Hi. by apply Hnb, (subseteq_take k bs). }
    apply (fsrun_install_block pr pid dev Hdev recovering a1 F1 st bs k _ Hca1 (log_same dev _ _ _ _ Hlog S1) Hk).
    + unfold usable. rewrite B4, Hrb. done.
    + unfold usable. rewrite B4, Hrl, L1. split; [lia|done].
    + done.
    + intros He. by rewrite He in Hin.
    + intros Hr. rewrite Hrb. by apply A5.
    + destruct recovering; simpl in A7; [right; lia|left]. rewrite Hrb. split; [by apply A5|lia].
    + intros F2 Hca2 S2. exists (a_install recovering (nth k bs 0) (av a1 (st + Z.of_nat k + 1)) a1).
      split_and!; [|done|by eapply same_rest_trans]. rewrite B1, home_writes_out by (done || lia). rewrite home_writes_S.
      apply installed_snoc; [done|by rewrite Hkeys|intros Hr; by apply A5].
  - intros F' (a' & I' & Hca' & S'). by eapply HQ.
Qed.

Lemma fsrun_set_lh_n n F (Q : unit -> fsstate -> Prop) : Q tt (set_klog (set_lh_n n (klog F)) F) ->
  fsrun pr pid (updlog (set_lh_n n)) F Q.
Proof. intros H. by apply (crun_modify pr pid _ (fun F => set_klog (set_lh_n n (klog F)) F)). Qed.

Lemma log_is_cleared st bs F : log_is dev st bs F -> log_is dev st [] (set_klog (set_lh_n 0 (klog F)) F).
Proof. intros (H1 & H2 & H3 & H4). split_and!; done. Qed.

(** The log's state with the count cleared; the other tables are as they were. *)
Definition cleared (F F' : fsstate) : Prop :=
  klog F' = set_lh_n 0 (klog F) /\ sb F' = sb F /\ inodes F' = inodes F /\ files F' = files F /\ pipes F' = pipes F.

Lemma home_writes_ext bs x y k : (forall i, (i < k)%nat -> x i = y i) -> home_writes bs x k = home_writes bs y k.
Proof. intros H. unfold home_writes. apply map_ext_in. intros i Hi. apply in_seq in Hi. by rewrite H by lia. Qed.

Lemma commit_writes_apply st bs v h d : apply_writes (commit_writes st bs v h) d =
  fupd (apply_writes (home_writes bs (fun i => v (nth i bs 0)) (length bs))
    (fupd (apply_writes (log_writes st bs v (length bs)) d) st (put_header bs h))) st (put_header [] (put_header bs h)).
Proof. unfold commit_writes. by rewrite !apply_writes_app. Qed.

(** The cache and the disk after commit(). *)
Record committed (a : absview) (st : Z) (bs : list Z) (a' : absview) : Prop := {
  cm_av : forall n, av a' n = apply_writes (commit_writes st bs (av a) (av a st)) (av a) n;
  cm_ad : forall n, ad a' n = apply_writes (commit_writes st bs (av a) (av a st)) (ad a) n;
  cm_ar : forall n, ar a' n = ar a n - b2z (bool_decide (n ∈ bs));
  cm_al : forall n, al a' n = al a n;
  cm_ab : ab a' <= ab a;
  cm_aw : aw a' = rev (commit_writes st bs (av a) (av a st)) ++ aw a
}.

Lemma fsrun_commit a F st bs (Q : unit -> fsstate -> Prop) : Cached dev pid a F -> log_is dev st bs F -> tx a st bs ->
  bs <> [] ->
  (forall a' F', committed a st bs a' -> Cached dev pid a' F' -> cleared F F' -> Q tt F') ->
  fsrun pr pid commit F Q.
Proof.
  intros Hca Hlog Htx Hne HQ. pose proof Htx as [T1 T2 T3 T4 T5 T6]. rewrite Forall_forall in T4.
  unfold commit. eapply crun_bind, (crun_gets pr pid _ klog). pose proof Hlog as (_ & _ & -> & _).
  destruct (Z.ltb_spec 0 (Z.of_nat (length bs))); [|destruct bs; [done|simpl in *; lia]]. unfold when.
  eapply crun_bind, fsrun_write_log; [done|done|done|]. intros F1 Hca1 S1.
  set (W1 := log_writes st bs (av a) (length bs)) in *. destruct (a_syncs_spec W1 a) as (E1 & E2 & E3 & E4 & E5 & E6).
  set (a1 := a_syncs W1 a) in *. assert (Hst : in_log st st) by (unfold in_log; lia). destruct (T5 st Hst) as [Ls Rs].
  assert (Hh : av a1 st = av a st) by (rewrite E1; apply log_writes_out; lia).
  pose proof (log_same dev _ _ _ _ Hlog S1) as Hlog1.
  eapply crun_bind, (fsrun_write_head pr pid dev Hdev a1 F1 st bs); [done|done| |lia|rewrite E5; by right|].
  { unfold usable. rewrite E3, E4, Ls, Rs. split; [lia|done]. }
  rewrite Hh. intros F2 Hca2 S2. set (h1 := put_header bs (av a st)) in *. set (a2 := a_sync st h1 a1) in *.
  pose proof (log_same dev _ _ _ _ Hlog1 S2) as Hlog2.
  assert (Hx : forall i, (i < length bs)%nat -> av a2 (st + Z.of_nat i + 1) = av a (nth i bs 0)).
  { intros i Hi. unfold a2. absn. rewrite fupd_ne by lia. rewrite E1. by apply log_writes_at. }
  eapply crun_bind, (fsrun_install_trans false a2 F2 st bs); [done|done| |].
  { split; unfold a2, usable; absn; rewrite ?E3, ?E4, ?E5; try done; [| |simpl; lia].
    - intros b Hb. by destruct (T4 b Hb) as (? & _ & ?).
    - intros _ b Hb. by destruct (T4 b Hb) as (_ & ? & _). }
  intros a3 F3 I3 Hca3 S3. rewrite (home_writes_ext _ _ _ _ Hx) in I3. pose proof I3 as [B1 B2 B3 B4 B5 B6].
  assert (Hstb : st ∉ bs) by (intros Hi; by destruct (T4 st Hi) as (_ & _ & Hn)).
  set (W3 := home_writes bs (fun i => av a (nth i bs 0)) (length bs)) in *.
  assert (Hk3 : map fst W3 = bs) by (unfold W3; rewrite home_writes_keys by done; apply firstn_all).
  assert (Hh3 : av a3 st = h1).
  { rewrite B1. unfold W3. rewrite home_writes_out by done. unfold a2. absn. apply fupd_eq. }
  pose proof (log_is_cleared _ _ _ (log_same dev _ _ _ _ Hlog2 S3)) as Hlog3.
  eapply crun_bind, fsrun_set_lh_n.
  eapply (fsrun_write_head pr pid dev Hdev a3 _ st []); [by apply cached_klog|done| |simpl; lia| |].
  { unfold usable. rewrite B4, B3. unfold a2. absn. rewrite E3, E4, Ls, Rs, Hk3, bool_decide_eq_false_2 by done. simpl. split; [lia|done]. }
  { right. unfold a2 in B5. cbn [a_sync ab] in B5. lia. }
  rewrite Hh3. intros F4 Hca4 S4. eapply HQ; [|exact Hca4|].
  - unfold a2 in *. cbn [a_sync av ar al ab ad aw] in B1, B2, B3, B4, B5, B6.
    split; absn.
    + intros n. rewrite commit_writes_apply. fold W1 W3 h1. unfold fupd at 1 2. case_decide; [done|].
      rewrite B1. apply apply_writes_ext. intros m. unfold fupd. case_decide; [done|apply E1].
    + intros n. rewrite commit_writes_apply. fold W1 W3 h1. unfold fupd at 1 2. case_decide; [done|].
      rewrite B2. apply apply_writes_ext. intros m. unfold fupd. case_decide; [done|apply E2].
    + intros n. rewrite B3, Hk3, E3. done.
    + intros n. by rewrite B4, E4.
    + lia.
    + rewrite B6, E6. unfold commit_writes. fold W1 W3 h1. rewrite !rev_app_distr. simpl. by rewrite <- !app_assoc.
  - pose proof (same_rest_trans _ _ _ (same_rest_trans _ _ _ S1 S2) S3) as (A1 & A2 & A3 & A4 & A5).
    destruct S4 as (B1' & B2' & B3' & B4' & B5').
    unfold cleared. simpl in *. rewrite B1', B2', B3', B4', B5', A1, A2, A3, A4, A5. done.
Qed.

Lemma take_zupd (l : list Z) (k : nat) v : (k < length l)%nat -> take (S k) (zupd l (Z.of_nat k) v) = take k l ++ [v].
Proof.
  intros Hk. unfold zupd. rewrite (proj2 (Z.ltb_ge _ _)) by lia. rewrite Nat2Z.id.
  erewrite take_S_r by (by apply list_lookup_insert_eq). by rewrite take_insert_ge.
Qed.

(** The log of a kernel that starts: where it is, and a table of block numbers. *)
Definition log_at (st : Z) (F : fsstate) : Prop :=
  l_dev (klog F) = dev /\ l_start (klog F) = st /\ length (lh_block (klog F)) = 30%nat.

(** read_head() reads the list of blocks. *)
Lemma fsrun_read_head a F st (Q : unit -> fsstate -> Prop) : Cached dev pid a F -> log_at st F -> usable a st ->
  0 <= header_count (av a st) < 30 -> ar a st = 0 -> ab a < Z.of_nat NBUF ->
  (forall F', Cached dev pid a F' -> log_is dev st (header_blocks (av a st)) F' -> Q tt F') ->
  fsrun pr pid read_head F Q.
Proof.
  intros Hca (L1 & L2 & L3) (Hst & Hlk & Hmax) Hn Hr Hroom HQ. unfold read_head.
  eapply crun_bind, (crun_gets pr pid _ klog). rewrite L1, L2. pose proof (cached_clean pid dev a F st Hca Hr) as Hcl.
  eapply crun_bind, (fsrun_bread pr pid dev ltac:(lia) a F st); [done|lia|done|lia|by right|]. intros b F1 Hca1 Hat1 _ (S1 & _).
  eapply crun_bind, (fsrun_bdata pr pid dev); [exact Hca1|exact Hat1|]. cbn [a_get av]. fold (header_count (av a st)).
  set (h := av a st) in *. set (n := header_count h) in *.
  eapply crun_bind, fsrun_set_lh_n. set (x := fun i : nat => i32 (rd 4 h (4 + 4 * Z.of_nat i))).
  eapply crun_bind, (fsrun_upto pr pid (fun k F2 => Cached dev pid (a_get st a) F2 /\ at_buf dev F2 b st /\ log_at st F2 /\
    lh_n (klog F2) = n /\ take k (lh_block (klog F2)) = map x (seq 0 k))).
  - split_and!; [by apply cached_klog|done| |done|done]. unfold log_at. simpl. by rewrite S1.
  - intros k F2 Hk (Hca2 & Hat2 & (M1 & M2 & M3) & M4 & M5).
    apply (crun_modify pr pid _ (fun F => set_klog (set_lh_block (zupd (lh_block (klog F)) (Z.of_nat k) (x k)) (klog F)) F)).
    split_and!; [by apply cached_klog|done| |done|].
    + unfold log_at. simpl. by rewrite zupd_length.
    + cbn [klog set_klog lh_block set_lh_block]. rewrite take_zupd by lia. by rewrite M5, seq_S, map_app.
  - intros F2 (Hca2 & Hat2 & (M1 & M2 & M3) & M4 & M5).
    eapply (fsrun_brelse pr pid dev ltac:(lia)); [exact Hca2|exact Hat2|cbn [a_get al]; apply fupd_eq|done|].
    intros F3 Hca3 _ (S3 & _). apply HQ.
    + eapply cached_ext; [exact Hca3|..]; fupd_solve.
    + assert (Hl : length (header_blocks h) = Z.to_nat n) by (unfold header_blocks; by rewrite length_map, length_seq).
      unfold log_is. rewrite S3, Hl, M5, M4. split_and!; try done. lia.
Qed.

(** The cache and the disk after recovery. *)
Record recovered_to (a : absview) (st : Z) (a' : absview) : Prop := {
  rc_av : forall n, av a' n = apply_writes (recovery_writes st (ad a)) (av a) n;
  rc_ad : forall n, ad a' n = recovered st (ad a) n;
  rc_ar : forall n, ar a' n = ar a n;
  rc_al : forall n, al a' n = al a n;
  rc_aw : aw a' = rev (recovery_writes st (ad a)) ++ aw a
}.

Lemma fsrun_recover a F st (Q : unit -> fsstate -> Prop) : Cached dev pid a F -> log_at st F ->
  0 <= header_count (ad a st) < 30 -> installable true a st (header_blocks (ad a st)) ->
  (forall a' F', recovered_to a st a' -> Cached dev pid a' F' -> log_is dev st [] F' -> Q tt F') ->
  fsrun pr pid recover_from_log F Q.
Proof.
  intros Hca Hlat Hn Hia HQ. pose proof Hia as [A1 A2 A3 A4 A5 A6 A7]. cbn [b2z] in A7.
  assert (Hclean : forall n, in_log st n -> av a n = ad a n) by (intros m Hm; eapply cached_clean; [done|by apply A6]).
  assert (Hst : in_log st st) by (unfold in_log; lia). pose proof (Hclean st Hst) as Hcs. destruct (A6 st Hst) as [Ls Rs].
  assert (Hu : usable a st) by (unfold usable; rewrite Ls, Rs; split; [lia|done]).
  unfold recover_from_log. eapply crun_bind, fsrun_read_head; [done|done|done|by rewrite Hcs|done|lia|].
  rewrite Hcs. set (bs := header_blocks (ad a st)) in *. intros F1 Hca1 Hlog1.
  eapply crun_bind, (fsrun_install_trans true a F1 st bs); [done|done|done|]. intros a2 F2 I2 Hca2 S2.
  assert (Hx : forall i, (i < length bs)%nat -> av a (st + Z.of_nat i + 1) = ad a (st + Z.of_nat i + 1)).
  { intros i Hi. apply Hclean. unfold in_log. lia. }
  rewrite (home_writes_ext _ _ _ _ Hx) in I2. pose proof I2 as [B1 B2 B3 B4 B5 B6].
  pose proof (log_is_cleared _ _ _ (log_same dev _ _ _ _ Hlog1 S2)) as Hlog2.
  eapply crun_bind, fsrun_set_lh_n.
  assert (Hstb : st ∉ bs) by (intros Hi; by destruct (A4 st Hi) as (_ & Hnl)).
  assert (Hh2 : av a2 st = ad a st) by (rewrite B1, home_writes_out; done).
  eapply (fsrun_write_head pr pid dev Hdev a2 _ st []); [by apply cached_klog|done| |simpl; lia|right; lia|].
  { unfold usable. rewrite B4, B3. simpl. rewrite Ls, Rs. split; [lia|done]. }
  rewrite Hh2. intros F3 Hca3 S3. eapply HQ; [|exact Hca3|by eapply log_same].
  assert (HW : recovery_writes st (ad a) = home_writes bs (fun i => ad a (st + Z.of_nat i + 1)) (length bs) ++ [(st, put_header [] (ad a st))]) by done.
  split; unfold recovered; rewrite ?HW; absn.
  - intros n. rewrite apply_writes_app. simpl. unfold fupd. case_decide; [done|apply B1].
  - intros n. rewrite apply_writes_app. simpl. unfold fupd. case_decide; [done|apply B2].
  - intros n. rewrite B3. simpl. lia.
  - done.
  - rewrite B6, rev_app_distr. done.
Qed.

End runs.

(** ** Crashes *)

Lemma header_blocks_nil h : header_count h = 0 -> header_blocks h = [].
Proof. intros H. unfold header_blocks. by rewrite H. Qed.

Lemma take_map_seq {A} (f : nat -> A) m j : (j <= m)%nat -> take j (map f (seq 0 m)) = map f (seq 0 j).
Proof.
  intros Hj. replace m with (j + (m - j))%nat by lia. rewrite seq_app, map_app.
  apply take_app_length'. by rewrite length_map, length_seq.
Qed.

Section crash.
Context (st : Z) (bs : list Z) (v : Z -> list Z) (d : Z -> list Z).
Context (Hnd : NoDup bs) (Hlen : (length bs < 30)%nat) (Hout : forall b, b ∈ bs -> 0 <= b < 2 ^ 31 /\ ~ in_log st b).
Context (Hd : forall n, length (d n) = 1024%nat).

(** The disk with the whole transaction installed. *)
Definition new_disk (n : Z) : list Z := if decide (n ∈ bs) then v n else d n.

Lemma new_disk_writes j d' n : (forall m, ~ in_log st m -> d' m = d m) -> (j <= length bs)%nat -> ~ in_log st n ->
  apply_writes (home_writes bs (fun i => v (nth i bs 0)) (length bs)) (apply_writes (home_writes bs (fun i => v (nth i bs 0)) j) d') n = new_disk n.
Proof.
  intros Hd' Hj Hn. unfold new_disk. case_decide as Hin.
  - apply list_elem_of_In, (In_nth _ _ 0) in Hin as (i & Hi & <-). by rewrite home_writes_at.
  - rewrite !home_writes_out by (done || lia). by apply Hd'.
Qed.

(** Recovery of a disk with an empty header changes nothing but the header. *)
Lemma recovered_empty d' n : header_count (d' st) = 0 -> n <> st -> recovered st d' n = d' n.
Proof.
  intros Hc Hn. unfold recovered, recovery_writes. rewrite (header_blocks_nil _ Hc). simpl. by apply fupd_ne.
Qed.

(** Recovery of a disk with the transaction in the log installs it. *)
Lemma recovered_full d' n : header_blocks (d' st) = bs ->
  (forall i, (i < length bs)%nat -> d' (st + Z.of_nat i + 1) = v (nth i bs 0)) -> ~ in_log st n ->
  (n ∉ bs -> d' n = d n) -> recovered st d' n = new_disk n.
Proof.
  intros Hb Hx Hn Hdn. unfold recovered, recovery_writes. rewrite Hb, apply_writes_app. simpl.
  rewrite fupd_ne by (intros ->; apply Hn; unfold in_log; lia).
  rewrite (home_writes_ext bs _ _ _ Hx). unfold new_disk. case_decide as Hin.
  - apply list_elem_of_In, (In_nth _ _ 0) in Hin as (i & Hi & <-). by rewrite home_writes_at.
  - rewrite home_writes_out by done. by apply Hdn.
Qed.

Lemma header_facts : length (d st) = 1024%nat ->
  header_blocks (put_header bs (d st)) = bs /\ header_count (put_header [] (put_header bs (d st))) = 0.
Proof.
  intros Hl. destruct (put_header_spec bs (d st)) as (H1 & _ & H2); [done|lia|apply Forall_forall; intros b Hb; by apply Hout|].
  split; [done|]. destruct (put_header_spec [] (put_header bs (d st))) as (_ & H3 & _); [done|simpl; lia|done|done].
Qed.

(** Before the header is written nothing of the transaction survives; after it, all of it. *)
Lemma crash_recovered k n : header_count (d st) = 0 -> ~ in_log st n ->
  recovered st (apply_writes (take k (commit_writes st bs v (d st))) d) n =
  if decide (k <= length bs)%nat then d n else new_disk n.
Proof.
  intros H0 Hn. assert (Hns : n <> st) by (intros ->; apply Hn; unfold in_log; lia).
  destruct (header_facts (Hd st)) as [Hb Hc]. set (h1 := put_header bs (d st)) in *.
  set (W1 := log_writes st bs v (length bs)). set (W3 := home_writes bs (fun i => v (nth i bs 0)) (length bs)).
  assert (Hw1 : length W1 = length bs) by (unfold W1, log_writes; by rewrite length_map, length_seq).
  assert (Hw3 : length W3 = length bs) by (unfold W3, home_writes; by rewrite length_map, length_seq).
  assert (Hstb : st ∉ bs) by (intros Hi; apply (Hout _ Hi); unfold in_log; lia).
  assert (HW : commit_writes st bs v (d st) = W1 ++ (st, h1) :: W3 ++ [(st, put_header [] h1)]) by done. rewrite HW.
  case_decide as Hk.
  - rewrite take_app_le by lia. unfold W1, log_writes. rewrite take_map_seq by done. fold (log_writes st bs v k). rewrite recovered_empty.
    + apply log_writes_out. unfold in_log in Hn. lia.
    + rewrite log_writes_out by lia. done.
    + done.
  - destruct (decide (k <= length bs + 1 + length bs)%nat) as [Hk2|Hk2].
    + set (j := (k - length bs - 1)%nat).
      assert (Ht : take k (W1 ++ (st, h1) :: W3 ++ [(st, put_header [] h1)]) = W1 ++ (st, h1) :: home_writes bs (fun i => v (nth i bs 0)) j).
      { rewrite take_app_ge by lia. f_equal. rewrite Hw1. replace (k - length bs)%nat with (S j) by lia. simpl. f_equal.
        rewrite take_app_le by lia. apply take_map_seq. lia. }
      rewrite Ht, apply_writes_app. cbn [apply_writes fold_left fst snd]. fold (apply_writes W1 d).
      set (d1 := fupd (apply_writes W1 d) st h1). fold (apply_writes (home_writes bs (fun i => v (nth i bs 0)) j) d1).
      apply recovered_full; [| |done|].
      * rewrite home_writes_out by (done || lia). unfold d1. by rewrite fupd_eq.
      * intros i Hi. rewrite home_writes_out; [|lia|intros Hin; apply (Hout _ Hin); unfold in_log; lia].
        unfold d1. rewrite fupd_ne by lia. by apply log_writes_at.
      * intros Hnb. rewrite home_writes_out by (done || lia). unfold d1. rewrite fupd_ne by done. apply log_writes_out. unfold in_log in Hn. lia.
    + rewrite take_ge by (rewrite length_app; simpl; rewrite length_app; simpl; lia). rewrite <- HW, commit_writes_apply.
      rewrite recovered_empty; [|by rewrite fupd_eq|done]. rewrite fupd_ne by done. fold h1.
      apply (new_disk_writes 0 (fupd (apply_writes W1 d) st h1)); [|lia|done]. intros m Hm. rewrite fupd_ne by (intros ->; apply Hm; unfold in_log; lia).
      apply log_writes_out. unfold in_log in Hm. lia.
Qed.

(** Every disk of a crash has a header that can be recovered. *)
Lemma crash_header k : header_count (d st) = 0 ->
  let h := apply_writes (take k (commit_writes st bs v (d st))) d st in
  0 <= header_count h < 30 /\ NoDup (header_blocks h) /\ forall b, b ∈ header_blocks h -> 0 <= b < 2 ^ 31 /\ ~ in_log st b.
Proof.
  intros H0 h. destruct (header_facts (Hd st)) as [Hb Hc].
  assert (Hcases : h = d st \/ h = put_header bs (d st) \/ h = put_header [] (put_header bs (d st))).
  { apply apply_writes_cases. intros w Hw. apply (subseteq_take k) in Hw. unfold commit_writes in Hw.
    rewrite !elem_of_app, !list_elem_of_singleton in Hw. destruct Hw as [Hw|[->|[Hw| ->]]]; auto.
    - apply log_writes_in in Hw. left. lia.
    - apply home_writes_in in Hw; [|done]. left. intros He. rewrite He in Hw. apply (Hout _ Hw). unfold in_log. lia. }
  assert (Hnil : forall x, header_count x = 0 -> 0 <= header_count x < 30 /\ NoDup (header_blocks x) /\
    forall b, b ∈ header_blocks x -> 0 <= b < 2 ^ 31 /\ ~ in_log st b).
  { intros x Hx. rewrite (header_blocks_nil x Hx), Hx. split_and!; [lia|lia|constructor|]. intros b Hin. by apply not_elem_of_nil in Hin. }
  destruct Hcases as [->|[->| ->]]; [by apply Hnil| |by apply Hnil]. rewrite Hb. split_and!; try done.
  - by destruct (put_header_spec bs (d st)) as (_ & -> & _); [|lia|apply Forall_forall; intros b Hin; by apply Hout|lia].
  - destruct (put_header_spec bs (d st)) as (_ & -> & _); [done|lia|apply Forall_forall; intros b Hin; by apply Hout|lia].
Qed.

End crash.

Lemma recovery_header st d k : length (d st) = 1024%nat -> (forall b, b ∈ header_blocks (d st) -> ~ in_log st b) ->
  apply_writes (take k (recovery_writes st d)) d st = d st \/
  header_count (apply_writes (take k (recovery_writes st d)) d st) = 0 /\
  header_blocks (apply_writes (take k (recovery_writes st d)) d st) = [].
Proof.
  intros Hl Hout. assert (H : apply_writes (take k (recovery_writes st d)) d st = d st \/
    apply_writes (take k (recovery_writes st d)) d st = put_header [] (d st) \/
    apply_writes (take k (recovery_writes st d)) d st = put_header [] (d st)).
  { apply apply_writes_cases. intros w Hw. apply (subseteq_take k) in Hw. unfold recovery_writes in Hw.
    rewrite elem_of_app, list_elem_of_singleton in Hw. destruct Hw as [Hw| ->]; [|auto].
    apply home_writes_in in Hw; [|done]. left. intros He. rewrite He in Hw. apply (Hout _ Hw). unfold in_log. lia. }
  destruct (put_header_spec [] (d st)) as (_ & H1 & H2); [done|simpl; lia|constructor|].
  destruct H as [->|[->| ->]]; auto.
Qed.

(** A recovery that is cut short is completed by the next one. *)
Lemma recovery_restarted st d j n : NoDup (header_blocks (d st)) -> (length (header_blocks (d st)) < 30)%nat ->
  (forall b, b ∈ header_blocks (d st) -> ~ in_log st b) -> length (d st) = 1024%nat -> ~ in_log st n ->
  recovered st (apply_writes (take j (recovery_writes st d)) d) n = recovered st d n.
Proof.
  intros Hnd Hlen Hout Hl Hn. assert (Hns : n <> st) by (intros ->; apply Hn; unfold in_log; lia).
  set (bs := header_blocks (d st)) in *. set (x := fun i : nat => d (st + Z.of_nat i + 1)).
  assert (Hstb : st ∉ bs) by (intros Hi; apply (Hout _ Hi); unfold in_log; lia).
  assert (Hr : forall m, m <> st -> recovered st d m = apply_writes (home_writes bs x (length bs)) d m).
  { intros m Hm. unfold recovered, recovery_writes. rewrite apply_writes_app. simpl. by rewrite fupd_ne. }
  rewrite Hr by done. destruct (decide (j <= length bs)%nat) as [Hj|Hj].
  - unfold recovery_writes at 1. fold bs x. rewrite take_app_le by (unfold home_writes; rewrite length_map, length_seq; lia).
    unfold home_writes at 1. rewrite take_map_seq by done. fold (home_writes bs x j).
    set (d' := apply_writes (home_writes bs x j) d). assert (Hd' : d' st = d st) by (unfold d'; by rewrite home_writes_out).
    unfold recovered, recovery_writes. rewrite Hd'. fold bs. rewrite apply_writes_app. simpl. rewrite fupd_ne by done.
    rewrite (home_writes_ext bs _ x).
    + destruct (decide (n ∈ bs)) as [Hin|Hin].
      * apply list_elem_of_In, (In_nth _ _ 0) in Hin as (i & Hi & <-). by rewrite !home_writes_at.
      * rewrite !home_writes_out by (done || lia). unfold d'. by rewrite home_writes_out.
    + intros i Hi. unfold d'. rewrite home_writes_out; [done|done|]. intros Hin. apply (Hout _ Hin). unfold in_log. lia.
  - assert (Hw : length (recovery_writes st d) = S (length bs)).
    { unfold recovery_writes, home_writes. rewrite length_app, length_map, length_seq. simpl. fold bs. lia. }
    rewrite take_ge by lia. fold (recovered st d). rewrite recovered_empty; [by apply Hr| |done].
    unfold recovered, recovery_writes. rewrite apply_writes_app. simpl. rewrite fupd_eq.
    by destruct (put_header_spec [] (d st)) as (_ & ? & _); [|simpl; lia|constructor|].
Qed.

(** ** The theorems *)

(** A kernel that has just booted with the disk [d]: its cache is idle and its log
    knows where the log is on disk. *)
Definition booted {DR : DiskReady} (pr : nat) (pid dev st : Z) (d : Z -> list Z) (s : kstate) : Prop :=
  (exists c0, running pr pid None c0 s) /\ (exists a, Cached dev pid a (k_fs s) /\ idle a) /\
  log_at dev st (k_fs s) /\ (forall n, block (k_fs s) n = d n).

Section theorems.
Context {E : Env} {D : DiskDriver} {DR : DiskReady} {L : DiskLaws}.

Lemma recover_wp pr pid dev st d s : 0 < dev < 2 ^ 31 -> 0 <= st < 2 ^ 31 - 31 -> booted pr pid dev st d s ->
  0 <= header_count (d st) < 30 -> NoDup (header_blocks (d st)) ->
  (forall b, b ∈ header_blocks (d st) -> 0 <= b < 2 ^ 31 /\ ~ in_log st b) ->
  wp recover_from_log (fun _ s' => disk_writes (k_fs s') = rev (recovery_writes st d) ++ disk_writes (k_fs s) /\
    (forall n, block (k_fs s') n = recovered st d n) /\ log_is dev st [] (k_fs s')) s.
Proof.
  intros Hdev Hst ((c0 & Hrun) & (a & Hca & I1 & I2 & I3) & Hlat & Hd) Hn Hnd Hout.
  assert (Hda : forall n, ad a n = d n) by (intros n; by rewrite <- (ca_disk _ _ _ _ Hca), Hd).
  assert (HR : recovery_writes st (ad a) = recovery_writes st d).
  { unfold recovery_writes. rewrite Hda. f_equal. by apply home_writes_ext. }
  eapply wp_mono.
  - apply (fsrun_recover pr pid dev Hdev a (k_fs s) st (fun _ F' => disk_writes F' = rev (recovery_writes st d) ++ disk_writes (k_fs s) /\
      (forall n, block F' n = recovered st d n) /\ log_is dev st [] F')) with (c0 := c0); try done.
    + by rewrite Hda.
    + rewrite Hda. split; try done.
      * unfold header_blocks. rewrite length_map, length_seq. lia.
      * intros b Hb. destruct (Hout b Hb) as [H1 H2]. split; [|done]. unfold usable. rewrite I1, I2. split; [lia|done].
      * by rewrite I3.
    + intros a' F' [R1 R2 R3 R4 R5] Hca' Hlog'. split_and!; [|intros n|done].
      * rewrite (ca_writes _ _ _ _ Hca'), R5, HR. by rewrite (ca_writes _ _ _ _ Hca).
      * rewrite (ca_disk _ _ _ _ Hca'), R2. unfold recovered. rewrite HR. by apply apply_writes_ext.
  - intros [] s' [H _]. exact H.
Qed.

(** Outside the log, a commit writes the listed blocks home. *)
Lemma committed_outside a st bs a' : tx a st bs -> committed a st bs a' ->
  (forall n, ~ in_log st n -> av a' n = av a n) /\ (forall n, ~ in_log st n -> ad a' n = if decide (n ∈ bs) then av a n else ad a n).
Proof.
  intros [T1 T2 T3 T4 T5 T6] [C1 C2 C3 C4 C5 C6].
  assert (Happ : forall d n, ~ in_log st n ->
    apply_writes (commit_writes st bs (av a) (av a st)) d n = new_disk bs (av a) d n).
  { intros d n Hn. rewrite commit_writes_apply, fupd_ne by (intros ->; apply Hn; unfold in_log; lia).
    apply (new_disk_writes st bs (av a) d T1 0 (fupd (apply_writes (log_writes st bs (av a) (length bs)) d) st (put_header bs (av a st)))); [|lia|done].
    intros m Hm. unfold in_log in Hm. rewrite fupd_ne by lia. apply log_writes_out. lia. }
  split; intros n Hn; [rewrite C1|rewrite C2]; rewrite Happ by done; unfold new_disk; by case_decide.
Qed.

(** commit() of a transaction writes, in this order, its blocks to the log, the
    header that lists them, the blocks to their places and the empty header; it
    leaves every block outside the log with the contents the kernel saw, drops the
    log's reference to each block, and empties the log. *)
Theorem commit_installs pr pid dev st bs a c0 s : 0 < dev < 2 ^ 31 -> running pr pid None c0 s ->
  Cached dev pid a (k_fs s) -> log_is dev st bs (k_fs s) -> tx a st bs -> bs <> [] ->
  wp commit (fun _ s' => exists a', Cached dev pid a' (k_fs s') /\ running pr pid None c0 s' /\
    disk_writes (k_fs s') = rev (commit_writes st bs (av a) (av a st)) ++ disk_writes (k_fs s) /\
    (forall n, ~ in_log st n -> av a' n = av a n) /\
    (forall n, ~ in_log st n -> ad a' n = if decide (n ∈ bs) then av a n else ad a n) /\
    (forall n, ar a' n = ar a n - b2z (bool_decide (n ∈ bs))) /\ (forall n, al a' n = al a n) /\
    cleared (k_fs s) (k_fs s')) s.
Proof.
  intros Hdev Hrun Hca Hlog Htx Hne. eapply wp_mono.
  - apply (fsrun_commit pr pid dev Hdev a (k_fs s) st bs (fun _ F' => exists a', committed a st bs a' /\ Cached dev pid a' F' /\ cleared (k_fs s) F'))
      with (c0 := c0); try done. intros a' F' H1 H2 H3. by exists a'.
  - intros [] s' ((a' & Hcm & Hca' & Hcl) & Hrun' & _). exists a'. destruct (committed_outside _ _ _ _ Htx Hcm) as [Hav Had].
    destruct Hcm as [C1 C2 C3 C4 C5 C6]. split_and!; try done. rewrite (ca_writes _ _ _ _ Hca'), C6. by rewrite (ca_writes _ _ _ _ Hca).
Qed.

(** C7. Commits are atomic: let the machine stop after any number [k] of the disk
    writes of a commit, boot again and recover.  Outside the log the disk then holds
    what it held before the commit, when the crash came before the header was
    written, and otherwise all the blocks of the transaction as the kernel saw them. *)
Theorem crash_atomic pr pid dev st bs a c0 s : 0 < dev < 2 ^ 31 -> running pr pid None c0 s ->
  Cached dev pid a (k_fs s) -> log_is dev st bs (k_fs s) -> tx a st bs -> bs <> [] ->
  header_count (block (k_fs s) st) = 0 ->
  let ws := commit_writes st bs (av a) (av a st) in
  wp commit (fun _ s' => disk_writes (k_fs s') = rev ws ++ disk_writes (k_fs s) /\
    forall k pr2 pid2 s2, booted pr2 pid2 dev st (apply_writes (take k ws) (block (k_fs s))) s2 ->
    wp recover_from_log (fun _ s3 => forall n, ~ in_log st n -> block (k_fs s3) n =
      if decide (k <= length bs)%nat then block (k_fs s) n
      else if decide (n ∈ bs) then view dev (k_fs s) n else block (k_fs s) n) s2) s.
Proof.
  intros Hdev Hrun Hca Hlog Htx Hne H0 ws. pose proof Htx as [T1 T2 T3 T4 T5 T6]. rewrite Forall_forall in T4.
  assert (Hst : in_log st st) by (unfold in_log; lia).
  assert (Hh : av a st = block (k_fs s) st).
  { rewrite (ca_disk _ _ _ _ Hca). eapply cached_clean; [done|by apply T5]. }
  eapply wp_mono.
  { apply (fsrun_commit pr pid dev Hdev a (k_fs s) st bs (fun _ F' => disk_writes F' = rev (commit_writes st bs (av a) (av a st)) ++ disk_writes (k_fs s)))
      with (c0 := c0); try done. intros a' F' H1 H2 H3. rewrite (ca_writes _ _ _ _ H2), (cm_aw _ _ _ _ H1). by rewrite (ca_writes _ _ _ _ Hca). }
  intros [] s' [Hw _]. split; [done|]. unfold ws. rewrite Hh.
  set (d := block (k_fs s)) in *. intros k pr2 pid2 s2 Hboot.
  assert (Hout : forall b, b ∈ bs -> 0 <= b < 2 ^ 31 /\ ~ in_log st b) by (intros b Hb; by destruct (T4 b Hb) as ((? & _) & _ & ?)).
  assert (Hd : forall n, length (d n) = 1024%nat) by apply (ck_disk _ _ _ (ca_ok _ _ _ _ Hca)).
  destruct (crash_header st bs (av a) d T1 T2 Hout Hd k H0) as (Hc & Hnd & Hbl).
  eapply wp_mono; [by apply (recover_wp pr2 pid2 dev st _ s2 Hdev T3 Hboot)|].
  intros [] s3 (_ & Hrec & _) n Hn. rewrite Hrec, (crash_recovered st bs (av a) d T1 T2 Hout Hd k n H0 Hn).
  case_decide; [done|]. unfold new_disk. case_decide; [|done]. by rewrite (ca_view _ _ _ _ Hca).
Qed.

(** C24. Recovery can itself be interrupted: let the machine stop after any number of
    the disk writes of recover_from_log(), boot again and recover.  The disk outside
    the log is the same as when the first recovery completes. *)
Theorem recovery_restartable pr pid dev st d s : 0 < dev < 2 ^ 31 -> 0 <= st < 2 ^ 31 - 31 ->
  booted pr pid dev st d s -> 0 <= header_count (d st) < 30 -> NoDup (header_blocks (d st)) ->
  (forall b, b ∈ header_blocks (d st) -> 0 <= b < 2 ^ 31 /\ ~ in_log st b) ->
  let ws := recovery_writes st d in
  wp recover_from_log (fun _ s' => disk_writes (k_fs s') = rev ws ++ disk_writes (k_fs s) /\
    header_count (block (k_fs s') st) = 0 /\
    forall k pr2 pid2 s2, booted pr2 pid2 dev st (apply_writes (take k ws) d) s2 ->
    wp recover_from_log (fun _ s3 => forall n, ~ in_log st n -> block (k_fs s3) n = block (k_fs s') n) s2) s.
Proof.
  intros Hdev Hst Hboot Hn Hnd Hout ws. subst ws. eapply wp_mono; [by apply (recover_wp pr pid dev st d s)|].
  intros [] s' (Hw & Hrec & _). pose proof Hboot as (_ & (a & Hca & _) & _ & Hd).
  assert (Hl : length (d st) = 1024%nat) by (rewrite <- Hd; apply (ck_disk _ _ _ (ca_ok _ _ _ _ Hca))).
  assert (Hlen : (length (header_blocks (d st)) < 30)%nat) by (unfold header_blocks; rewrite length_map, length_seq; lia).
  split; [done|]. split.
  { rewrite Hrec. unfold recovered, recovery_writes. rewrite apply_writes_app. simpl. rewrite fupd_eq.
    by destruct (put_header_spec [] (d st)) as (_ & ? & _); [|simpl; lia|constructor|]. }
  intros k pr2 pid2 s2 Hboot2.
  assert (Hbs : forall b, b ∈ header_blocks (d st) -> ~ in_log st b) by (intros b Hb; by apply Hout).
  destruct (recovery_header st d k Hl Hbs) as [He|[Hc0 He]].
  - eapply wp_mono; [apply (recover_wp pr2 pid2 dev st _ s2 Hdev Hst Hboot2); by rewrite He|].
    intros [] s3 (_ & Hrec3 & _) n Hnn. by rewrite Hrec3, Hrec, recovery_restarted.
  - eapply wp_mono; [apply (recover_wp pr2 pid2 dev st _ s2 Hdev Hst Hboot2); rewrite ?He|].
    + lia.
    + constructor.
    + intros b Hb. by apply not_elem_of_nil in Hb.
    + intros [] s3 (_ & Hrec3 & _) n Hnn. by rewrite Hrec3, Hrec, recovery_restarted.
Qed.

End theorems.

(** ** A concrete transaction

    Block 50 has been overwritten and is pinned; the log starts at block 2. *)

Definition ones : list Z := replicate 1024 1.
Definition klog1 (n : Z) (bs : list Z) : logstate := mklogstate 2 30 0 1 1 n (bs ++ replicate (30 - length bs) 0).
Definition fs_tx : fsstate := set_klog (klog1 1 [50]) (updB 0 (fun x => set_b_data ones (upd_lock_of unlocked x))
  (updB 0 (fill 1 50 2 (block fs_idle 50)) fs_idle)).
Definition ks_tx : kstate := set_k_fs fs_tx ks1.

(** A block that was read into buffer [b], overwritten, pinned and released. *)
Lemma cached_dirty dev pid a F b n d : 0 < dev -> Cached dev pid a F -> (b < NBUF)%nat -> b_refcnt (getB b F) = 0 ->
  find_buf dev F n = None -> length d = 1024%nat ->
  Cached dev pid (mkabs (fupd (av a) n d) (fupd (ar a) n 1) (fupd (al a) n false) (ab a + 1) (ad a) (aw a))
    (updB b (fun x => set_b_data d (upd_lock_of unlocked x)) (updB b (fill dev n pid (block F n)) F)).
Proof.
  intros Hdev Hca Hb Hr Hf Hd. destruct (cached_recycle dev pid _ F b n Hca Hb Hr Hf) as (Hca1 & Hat1 & _).
  assert (Hlen : (b < length (bufs F))%nat) by (rewrite (ck_len _ _ _ (ca_ok _ _ _ _ Hca)); lia).
  pose proof (getB_upd_eq b (fill dev n pid (block F n)) F Hlen) as Hg. set (F1 := updB b (fill dev n pid (block F n)) F) in *.
  destruct (cached_update dev pid _ F1 b n (fun x => set_b_data d (upd_lock_of unlocked x)) Hca1 Hat1) as [Hca2 _]; [done| |].
  - pose proof (ck_buf _ _ _ (ca_ok _ _ _ _ Hca) b Hb) as (_ & _ & O3 & _). rewrite Hg. unfold buf_ok. simpl. split_and!; try done; auto; lia.
  - rewrite Hg in Hca2. eapply cached_ext; [exact Hca2|..]; unfold a_set, a_load; fupd_solve.
Qed.

Lemma fs_tx_ok : exists a, Cached 1 2 a fs_tx /\ tx a 2 [50] /\ av a 50 = ones /\ av a 2 = zero_block.
Proof.
  destruct fs_idle_ok as (Hc & (I1 & I2 & I3) & Hv). pose proof (cached_abs 1 2 _ Hc) as Hca.
  assert (Hf : find_buf 1 fs_idle 50 = None) by (by vm_compute). assert (Hr : b_refcnt (getB 0 fs_idle) = 0) by (by vm_compute).
  eexists. split; [|split].
  - unfold fs_tx. apply cached_klog, cached_dirty; [lia|exact Hca|unfold NBUF; lia|exact Hr|exact Hf|by vm_compute].
  - split; cbn [av ar al ab ad aw].
    + apply NoDup_singleton.
    + simpl. lia.
    + lia.
    + apply Forall_singleton. unfold usable, in_log. cbn [av ar al ab ad aw]. rewrite !fupd_eq. lia.
    + intros n Hn. unfold in_log in Hn. rewrite !fupd_ne by lia. split; [apply I2|apply I1].
    + rewrite I3. unfold NBUF. lia.
  - cbn [av]. rewrite fupd_eq, fupd_ne by lia. split; [reflexivity|apply Hv].
Qed.

Lemma commit_installs_witness : wp (@commit env0 ideal_driver) (fun _ s' => exists a', Cached 1 2 a' (k_fs s') /\
  ad a' 50 = ones /\ ad a' 51 = zero_block /\ lh_n (klog (k_fs s')) = 0 /\ length (disk_writes (k_fs s')) = 4%nat) ks_tx.
Proof.
  destruct fs_tx_ok as (a & Hca & Htx & Hv & Hz). eapply wp_mono.
  - apply (@commit_installs env0 ideal_driver always_ready ideal_laws 1 2 1 2 [50] a ctl1 ks_tx); [lia|apply running_idle|exact Hca| |exact Htx|done].
    split_and!; done.
  - intros [] s' (a' & H1 & _ & H3 & _ & H5 & _ & _ & (H8 & _)). exists a'. split; [done|]. split_and!.
    + rewrite H5 by (unfold in_log; lia). rewrite decide_True by by left. done.
    + rewrite H5 by (unfold in_log; lia). rewrite decide_False by (by rewrite list_elem_of_singleton).
      rewrite <- (ca_disk _ _ _ _ Hca). by vm_compute.
    + by rewrite H8.
    + rewrite H3, length_app, length_rev. reflexivity.
Defined.

(** The machine booted after two of the writes: the log block and the header. *)
Definition fs_crash : fsstate := set_klog (klog1 0 []) (set_bufs bufs_init
  (set_disk (<[2 := put_header [50] zero_block]> (<[3 := ones]> ∅)) fs0)).

Lemma fs_crash_booted : @booted always_ready 1 2 1 2 (block fs_crash) (set_k_fs fs_crash ks1).
Proof.
  unfold fs_crash. set (F := set_disk _ fs0). destruct (init_idle 1 2 F) as (H1 & H2 & H3).
  - lia.
  - intros n. unfold block, F. simpl. destruct (decide (n = 2)) as [->|]; [by vm_compute|]. rewrite lookup_insert_ne by done.
    destruct (decide (n = 3)) as [->|]; [by vm_compute|]. by rewrite lookup_insert_ne.
  - split_and!; [exists ctl1; apply running_idle| |by vm_compute|done].
    eexists. split; [by apply cached_klog, cached_abs|done].
Qed.

Lemma block_crash n : block fs_crash n = if decide (n = 2) then put_header [50] zero_block else if decide (n = 3) then ones else zero_block.
Proof.
  unfold block, fs_crash. simpl. case_decide as H2; [subst; by rewrite lookup_insert_eq|]. rewrite lookup_insert_ne by done.
  case_decide as H3; [subst; by rewrite lookup_insert_eq|]. by rewrite lookup_insert_ne.
Qed.

Lemma crash_atomic_witness : wp (@commit env0 ideal_driver) (fun _ _ =>
  wp (@recover_from_log env0 ideal_driver) (fun _ s3 => block (k_fs s3) 50 = ones) (set_k_fs fs_crash ks1)) ks_tx.
Proof.
  destruct fs_tx_ok as (a & Hca & Htx & Hv & Hz). assert (Hb : forall n, block fs_tx n = zero_block) by done. eapply wp_mono.
  - apply (@crash_atomic env0 ideal_driver always_ready ideal_laws 1 2 1 2 [50] a ctl1 ks_tx); [lia|apply running_idle|exact Hca| |exact Htx|done|by vm_compute].
    split_and!; done.
  - intros [] s' (_ & H). rewrite Hz in H. eapply wp_mono.
    + apply (H 2%nat 1%nat 2). destruct fs_crash_booted as (B1 & B2 & B3 & B4). split; [exact B1|]. split; [exact B2|]. split; [exact B3|].
      intros n. cbn [k_fs set_k_fs]. rewrite block_crash. cbn. unfold fupd. rewrite Hv. change (block fs_tx n) with zero_block.
      by repeat case_decide.
    + intros [] s3 H3. rewrite H3 by (unfold in_log; lia). rewrite decide_False by (simpl; lia). rewrite decide_True by by left.
      rewrite (ca_view _ _ _ _ Hca). exact Hv.
Defined.

Lemma recovery_restartable_witness : wp (@recover_from_log env0 ideal_driver) (fun _ s' =>
  header_count (block (k_fs s') 2) = 0 /\
  wp (@recover_from_log env0 ideal_driver) (fun _ s3 => block (k_fs s3) 50 = block (k_fs s') 50) (set_k_fs fs_crash ks1))
  (set_k_fs fs_crash ks1).
Proof.
  assert (Hh : header_blocks (block fs_crash 2) = [50]) by (by vm_compute). eapply wp_mono.
  - apply (@recovery_restartable env0 ideal_driver always_ready ideal_laws 1 2 1 2 (block fs_crash)); [lia|lia|apply fs_crash_booted|..].
    + change (header_count (block fs_crash 2)) with 1. lia.
    + rewrite Hh. apply NoDup_singleton.
    + rewrite Hh. intros b Hb. apply list_elem_of_singleton in Hb as ->. unfold in_log. lia.
  - intros [] s' (_ & H1 & H2). split; [exact H1|]. eapply wp_mono.
    + apply (H2 0%nat 1%nat 2). apply fs_crash_booted.
    + intros [] s3 H3. apply H3. unfold in_log. lia.
Defined.
