(* ===== verification/LogOps.v ===== *)
(** * Transactions of the file system (kernel/log.c)

    begin_op(), log_write() and end_op() on the cache and the log: log_write()
    lists a block once and pins it, end_op() of the last operation commits, and a
    whole transaction makes what it wrote durable. *)

From S2P Require Import Prelude Riscv Bytes Kstate CString Spinlock Kalloc Vm Sched SchedSpec Sleeplock.
From S2P Require Import Bio FsRun BioSpec Log LogSpec LogCrash.

(** ** log_write() *)

(** The blocks of the transaction once [n] is written. *)
Definition log_add (n : Z) (bs : list Z) : list Z := if decide (n ∈ bs) then bs else bs ++ [n].

Lemma log_index_spec bs n : 0 <= n < 2 ^ 31 -> Forall (fun b => 0 <= b < 2 ^ 31) bs ->
  (n ∈ bs /\ bs !! log_index bs n = Some n) \/ (n ∉ bs /\ log_index bs n = length bs).
Proof.
  intros Hn. induction bs as [|b bs IH]; intros Hf; [right; split; [apply not_elem_of_nil|done]|].
  apply Forall_cons in Hf as [Hb Hf]. simpl. unfold u32. rewrite Z.mod_small by lia. destruct (Z.eqb_spec b n) as [->|Hne].
  - left. split; [by left|done].
  - destruct (IH Hf) as [[H1 H2]|[H1 H2]]; [left; split; [by right|done]|right]. split; [|by rewrite H2].
    rewrite not_elem_of_cons. done.
Qed.

Lemma zupd_same (l : list Z) k v : l !! k = Some v -> zupd l (Z.of_nat k) v = l.
Proof. intros H. unfold zupd. rewrite (proj2 (Z.ltb_ge _ _)) by lia. rewrite Nat2Z.id. by apply list_insert_id. Qed.

(** Two logs that differ only in what they list. *)
Definition same_log (l l' : logstate) : Prop :=
  l_start l' = l_start l /\ l_size l' = l_size l /\ l_outstanding l' = l_outstanding l /\
  l_committing l' = l_committing l /\ l_dev l' = l_dev l.

(** What the operations on blocks leave alone. *)
Definition kept (F F' : fsstate) : Prop :=
  sb F' = sb F /\ inodes F' = inodes F /\ files F' = files F /\ pipes F' = pipes F /\ same_log (klog F) (klog F').

Lemma kept_refl F : kept F F.
Proof. done. Qed.
Lemma kept_trans F1 F2 F3 : kept F1 F2 -> kept F2 F3 -> kept F1 F3.
Proof. unfold kept, same_log. intros. destruct_and?. split_and!; congruence. Qed.
Lemma same_rest_kept F F' : same_rest F F' -> kept F F'.
Proof. intros (H1 & H2 & H3 & H4 & H5). unfold kept. by rewrite H1. Qed.

Section ops.
Context {E : Env} {D : DiskDriver} {DR : DiskReady} {L : DiskLaws} (pr : nat) (pid dev : Z) (Hdev : 0 < dev < 2 ^ 31).

(** A log that is ready for transactions: its geometry, and the blocks listed. *)
Record log_ok (st : Z) (bs : list Z) (F : fsstate) : Prop := {
  lo_is : log_is dev st bs F;
  lo_table : length (lh_block (klog F)) = 30%nat;
  lo_blocks : Forall (fun b => 0 <= b < 2 ^ 31) bs
}.

Lemma crun_updlog o f F (Q : unit -> fsstate -> Prop) : Q tt (set_klog (f (klog F)) F) -> crun pr pid o (updlog f) F o Q.
Proof. intros H. by apply (crun_modify pr pid o (fun F => set_klog (f (klog F)) F)). Qed.

Lemma fsrun_log_write a F b n st bs (Q : unit -> fsstate -> Prop) : Cached dev pid a F -> at_buf dev F b n ->
  0 <= n < 2 ^ 31 -> 0 < ar a n < 2 ^ 32 - 1 -> log_ok st bs F ->
  (length bs < 30)%nat -> Z.of_nat (length bs) < l_size (klog F) - 1 -> 1 <= l_outstanding (klog F) ->
  (forall F', Cached dev pid (if decide (n ∈ bs) then a else a_pin n 1 a) F' -> log_ok st (log_add n bs) F' ->
     (forall b' m, at_buf dev F b' m <-> at_buf dev F' b' m) -> kept F F' -> Q tt F') ->
  fsrun pr pid (log_write b) F Q.
Proof.
  intros Hca Hat Hn Hr [Hlog Htab Hbl] Hlen Hsz Hout HQ. pose proof Hlog as (L1 & L2 & L3 & L4). unfold log_write.
  eapply crun_bind, crun_kacquire, crun_bind, (crun_gets pr pid _ klog). rewrite L3.
  destruct (Z.leb_spec LOGSIZE (Z.of_nat (length bs))); [unfold LOGSIZE, MAXOPBLOCKS in *; lia|].
  destruct (Z.leb_spec (l_size (klog F) - 1) (Z.of_nat (length bs))); [lia|]. cbn [orb].
  destruct (Z.ltb_spec (l_outstanding (klog F)) 1); [lia|].
  eapply crun_bind, (crun_gets pr pid _ (getB b)). pose proof Hat as (Hb & _ & Hbn). rewrite Hbn, Nat2Z.id, L4.
  eapply crun_bind, crun_updlog. rewrite (i32_id n) by lia.
  destruct (log_index_spec bs n Hn Hbl) as [[Hin Hi]|[Hin Hi]].
  - pose proof (lookup_lt_Some _ _ _ Hi) as Hlt. rewrite <- L4 in Hi at 2. rewrite lookup_take_lt in Hi by done. rewrite zupd_same by done.
    destruct (Z.eqb_spec (Z.of_nat (log_index bs n)) (Z.of_nat (length bs))); [lia|].
    eapply crun_bind, crun_ret, crun_krelease. rewrite decide_True in HQ by done. unfold log_add in HQ. rewrite decide_True in HQ by done.
    apply HQ; [by apply cached_klog|by split|done|done].
  - rewrite Hi, Z.eqb_refl. unfold when. set (F1 := set_klog _ F). eapply crun_bind, crun_bind.
    apply (crun_nested pr pid L_log L_bcache (updB b (fun x => set_b_refcnt (u32 (b_refcnt x + 1)) x)) F1); [done|].
    apply crun_updlog, crun_krelease. assert (Hca1 : Cached dev pid a F1) by (by apply cached_klog).
    destruct (cached_add_ref pid dev ltac:(lia) a F1 b n 1 Hca1 Hat) as [Hca2 Hat2]; [lia|lia|].
    rewrite decide_False in HQ by done. unfold log_add in HQ. rewrite decide_False in HQ by done.
    apply HQ; [by apply cached_klog| |done|done]. split.
    + unfold log_is, F1. cbn [set_klog klog updB set_bufs l_dev l_start lh_n lh_block set_lh_n set_lh_block].
      rewrite length_app. split_and!; [done|done|rewrite L3; simpl; lia|].
      rewrite Nat.add_1_r. rewrite take_zupd by lia. by rewrite L4.
    + unfold F1. simpl. by rewrite zupd_length.
    + apply Forall_app. split; [done|]. by apply Forall_singleton.
Qed.

(** ** begin_op() and end_op() *)

(** begin_op() does not wait when no commit is under way and the log has room for
    MAXOPBLOCKS blocks of this and of every operation under way. *)
Lemma fsrun_begin_op F (Q : unit -> fsstate -> Prop) : l_committing (klog F) = 0 ->
  lh_n (klog F) + (l_outstanding (klog F) + 1) * MAXOPBLOCKS <= LOGSIZE ->
  Q tt (set_klog (set_l_outstanding (l_outstanding (klog F) + 1) (klog F)) F) ->
  fsrun pr pid begin_op F Q.
Proof.
  intros Hc Hr HQ. unfold begin_op. eapply crun_bind, crun_kacquire. cbn [loop].
  eapply crun_bind, crun_bind, (crun_gets pr pid _ klog). rewrite Hc. cbn [truthy Z.eqb negb].
  destruct (Z.ltb_spec LOGSIZE (lh_n (klog F) + (l_outstanding (klog F) + 1) * MAXOPBLOCKS)); [lia|].
  eapply crun_bind, crun_updlog, crun_bind, crun_krelease. apply crun_ret, crun_ret. done.
Qed.

Lemma fsrun_end_op_more F (Q : unit -> fsstate -> Prop) : l_committing (klog F) = 0 -> l_outstanding (klog F) <> 1 ->
  Q tt (set_klog (set_l_outstanding (l_outstanding (klog F) - 1) (klog F)) F) -> fsrun pr pid end_op F Q.
Proof.
  intros Hc Ho HQ. unfold end_op. eapply crun_bind, crun_kacquire, crun_bind, crun_updlog.
  eapply crun_bind, (crun_gets pr pid _ klog). cbn [klog set_klog l_committing set_l_outstanding]. rewrite Hc. cbn [truthy Z.eqb negb].
  cbn [l_outstanding set_l_outstanding]. destruct (Z.eqb_spec (l_outstanding (klog F) - 1) 0); [lia|].
  eapply crun_bind, crun_wakeup; [done|]. eapply crun_bind, crun_krelease. by apply crun_ret.
Qed.

(** The log's state in which the last operation's end_op() commits. *)
Definition ending (F : fsstate) : fsstate := set_klog (set_l_committing 1 (set_l_outstanding (l_outstanding (klog F) - 1) (klog F))) F.

Lemma fsrun_end_op_last F (P : fsstate -> Prop) (Q : unit -> fsstate -> Prop) : l_committing (klog F) = 0 -> l_outstanding (klog F) = 1 ->
  fsrun pr pid commit (ending F) (fun _ F' => P F') ->
  (forall F', P F' -> Q tt (set_klog (set_l_committing 0 (klog F')) F')) -> fsrun pr pid end_op F Q.
Proof.
  intros Hc Ho HP HQ. unfold end_op. eapply crun_bind, crun_kacquire, crun_bind, crun_updlog.
  eapply crun_bind, (crun_gets pr pid _ klog). cbn [klog set_klog l_committing set_l_outstanding]. rewrite Hc. cbn [truthy Z.eqb negb].
  cbn [l_outstanding set_l_outstanding]. rewrite Ho. cbn [Z.sub Z.eqb Z.add Z.opp Z.pos_sub Pos.eqb].
  eapply crun_bind, crun_updlog, crun_bind, crun_krelease. unfold when. eapply crun_bind, crun_mono.
  - unfold ending in HP. rewrite Ho in HP. exact HP.
  - intros [] F' H'. eapply crun_bind, crun_kacquire, crun_bind, crun_updlog, crun_bind, crun_wakeup; [done|].
    apply crun_krelease. by apply HQ.
Qed.

(** The state after it, but for the cache. *)
Definition ended (F F' : fsstate) : Prop :=
  klog F' = set_l_committing 0 (set_lh_n 0 (klog (ending F))) /\ sb F' = sb F /\ inodes F' = inodes F /\ files F' = files F /\ pipes F' = pipes F.

(** end_op() of the last operation commits what the transaction lists. *)
Lemma fsrun_end_op a F st bs (Q : unit -> fsstate -> Prop) : Cached dev pid a F -> log_is dev st bs F -> tx a st bs -> bs <> [] ->
  l_committing (klog F) = 0 -> l_outstanding (klog F) = 1 ->
  (forall a' F', committed a st bs a' -> Cached dev pid a' F' -> log_is dev st [] F' ->
     l_outstanding (klog F') = 0 -> l_committing (klog F') = 0 -> ended F F' -> Q tt F') ->
  fsrun pr pid end_op F Q.
Proof.
  intros Hca Hlog Htx Hne Hc Ho HQ.
  apply (fsrun_end_op_last F (fun F' => exists a', committed a st bs a' /\ Cached dev pid a' F' /\ cleared (ending F) F')); [done|done| |].
  - eapply fsrun_commit; [done|by apply cached_klog|exact Hlog|done|done|]. intros a' F' H1 H2 H3. by exists a'.
  - intros F' (a' & H1 & H2 & (K & K')). destruct Hlog as (L1 & L2 & L3 & L4). apply (HQ a'); [done|by apply cached_klog|..];
      unfold log_is; cbn [klog set_klog set_l_committing l_dev l_start lh_n lh_block l_outstanding l_committing]; rewrite ?K; [|simpl; lia|done|].
    + by split_and!.
    + unfold ended. cbn [klog set_klog sb inodes files pipes]. destruct K' as (-> & -> & -> & ->). done.
Qed.

(** ** A transaction *)

(** One operation that overwrites a block, as the file system's are written:
    begin_op(), bread(), the new contents, log_write(), brelse(), end_op(). *)
Definition write_op (n : Z) (d : list Z) : K unit :=
  begin_op;;
  b <- bread dev n;;
  set_bdata b (fun _ => d);;
  log_write b;;
  brelse b;;
  end_op.

End ops.

Section theorems.
Context {E : Env} {D : DiskDriver} {DR : DiskReady} {L : DiskLaws}.

(** A transaction of one block between two commits. *)
Lemma fsrun_write_op pr pid dev a F st n d (Q : unit -> fsstate -> Prop) : 0 < dev < 2 ^ 31 -> Cached dev pid a F ->
  log_ok dev st [] F -> l_committing (klog F) = 0 -> l_outstanding (klog F) = 0 -> 1 < l_size (klog F) ->
  0 <= st < 2 ^ 31 - 31 -> (forall m, in_log st m -> al a m = false /\ ar a m = 0) ->
  0 <= n < 2 ^ 31 -> ~ in_log st n -> al a n = false -> ar a n < 2 ^ 31 - 1 ->
  ab a + b2z (ar a n =? 0) < Z.of_nat NBUF -> length d = 1024%nat ->
  (forall a' F', committed (a_put n (a_pin n 1 (a_data n d (a_get n a)))) st [n] a' -> Cached dev pid a' F' -> log_is dev st [] F' ->
     l_outstanding (klog F') = 0 -> l_committing (klog F') = 0 -> Q tt F') ->
  fsrun pr pid (write_op dev n d) F Q.
Proof.
  intros Hdev Hca Hlog Hc Ho Hsz Hst Hun Hn Hnl Hlk Hmax Hroom Hd HQ. pose proof (lo_is _ _ _ _ Hlog) as (_ & _ & Hln & _).
  pose proof (cached_refs pid dev a F n Hca) as Hr0.
  unfold write_op. eapply crun_bind, fsrun_begin_op; [done|rewrite Hln, Ho; unfold LOGSIZE, MAXOPBLOCKS; simpl; lia|].
  set (F1 := set_klog _ F). assert (Hca1 : Cached dev pid a F1) by (by apply cached_klog).
  eapply crun_bind, (fsrun_bread pr pid dev ltac:(lia) a F1 n); [done|lia|done|lia| |].
  { destruct (Z.eqb_spec (ar a n) 0); [right|left]; simpl in *; lia. }
  intros b F2 Hca2 Hat2 _ (S2 & _). eapply crun_bind, (fsrun_set_bdata pr pid dev _ F2 b n); [done|done|absn; rewrite fupd_eq; lia|done|].
  intros F3 Hca3 Hat3 (S3 & _). assert (Hk3 : klog F3 = klog F1) by (by rewrite S3, S2).
  assert (Hlog3 : log_ok dev st [] F3) by (destruct Hlog as [? ? ?]; split; unfold log_is; rewrite ?Hk3; done).
  eapply crun_bind, (fsrun_log_write pr pid dev Hdev _ F3 b n st []); [exact Hca3|by apply Hat3|done|absn; rewrite fupd_eq; lia|done|simpl; lia|..];
    rewrite ?Hk3; unfold F1; cbn [klog set_klog l_size set_l_outstanding l_outstanding]; [simpl; lia|lia|].
  intros F4 Hca4 Hlog4 Hat4 Hs4. rewrite decide_False in Hca4 by apply not_elem_of_nil.
  eapply crun_bind, (fsrun_brelse pr pid dev ltac:(lia)); [exact Hca4|by apply Hat4, Hat3|absn; apply fupd_eq|absn; rewrite !fupd_eq; lia|].
  intros F5 Hca5 Hat5 (S5 & _). destruct Hs4 as (_ & _ & _ & _ & Hs4). rewrite <- S5 in Hs4. destruct Hs4 as (A1 & A2 & A3 & A4 & A5).
  eapply (fsrun_end_op pr pid dev Hdev _ F5 st [n]); [exact Hca5| | |done|by rewrite A4, Hk3|rewrite A3, Hk3; unfold F1; simpl; lia|intros a' F' ? ? ? ? ? _; by apply (HQ a')].
  - pose proof (lo_is _ _ _ _ Hlog4) as H4. unfold log_is in *. by rewrite S5.
  - split; absn.
    + apply NoDup_singleton.
    + simpl. lia.
    + done.
    + apply Forall_singleton. unfold usable. absn. rewrite !fupd_eq. split_and!; try done; lia.
    + intros m Hm. destruct (Hun m Hm). assert (m <> n) by (by intros ->). by rewrite !fupd_ne.
    + rewrite !fupd_eq. unfold truthy in *. destruct (Z.eqb_spec (ar a n) 0), (Z.eqb_spec (ar a n + 1) 0), (Z.eqb_spec (ar a n + 1 + 1) 0), (Z.eqb_spec (ar a n + 1 + 1) 1);
        simpl in *; lia.
Qed.

(** log_write() of a locked block in an operation lists the block in the log
    exactly once and pins it the first time (absorption); a full log and a write
    outside an operation are the two panics. *)
Theorem log_write_absorbs pr pid dev a b n st bs c0 s : 0 < dev < 2 ^ 31 -> running pr pid None c0 s ->
  Cached dev pid a (k_fs s) -> at_buf dev (k_fs s) b n -> 0 <= n < 2 ^ 31 -> 0 < ar a n < 2 ^ 32 - 1 ->
  log_ok dev st bs (k_fs s) ->
  let l := klog (k_fs s) in
  if decide (LOGSIZE <= lh_n l \/ l_size l - 1 <= lh_n l) then exists s', log_write b s = Panic "too big a transaction" s'
  else if decide (l_outstanding l < 1) then exists s', log_write b s = Panic "log_write outside of trans" s'
  else wp (log_write b) (fun _ s' => running pr pid None c0 s' /\ log_ok dev st (log_add n bs) (k_fs s') /\
    Cached dev pid (if decide (n ∈ bs) then a else a_pin n 1 a) (k_fs s') /\
    (forall b' m, at_buf dev (k_fs s) b' m <-> at_buf dev (k_fs s') b' m) /\ same_log l (klog (k_fs s'))) s.
Proof.
  intros Hdev Hrun Hca Hat Hn Hr Hlog l. pose proof (lo_is _ _ _ _ Hlog) as (_ & _ & Hln & _). fold l in Hln.
  assert (Hacq : wp (kacquire L_log) (fun _ s' => k_fs s' = k_fs s) s).
  { eapply wp_mono; [apply (crun_kacquire pr pid L_log (k_fs s) (fun _ F' => F' = k_fs s)) with (c0 := c0); done|]. intros [] s' [H _]. done. }
  apply wp_inv in Hacq as ([] & s1 & Hacq & Hs1).
  assert (Hgo : log_write b s = (l <- getlog;;
    if (LOGSIZE <=? lh_n l) || (l_size l - 1 <=? lh_n l) then panic "too big a transaction"
    else if l_outstanding l <? 1 then panic "log_write outside of trans"
    else
      x <- getb b;;
      let i := Z.of_nat (log_index (take (Z.to_nat (lh_n l)) (lh_block l)) (b_blockno x)) in
      updlog (fun l => set_lh_block (zupd (lh_block l) i (i32 (b_blockno x))) l);;
      when (i =? lh_n l) (bpin b;; updlog (fun l => set_lh_n (lh_n l + 1) l));;
      krelease L_log) s1) by (unfold log_write; unfold bind at 1; by rewrite Hacq).
  case_decide as H1; [|case_decide as H2].
  - exists s1. rewrite Hgo. unfold bind, getlog, gets. rewrite Hs1. fold l.
    rewrite (proj2 (orb_true_iff _ _)); [done|]. destruct H1; [left|right]; by apply Z.leb_le.
  - exists s1. rewrite Hgo. unfold bind, getlog, gets. rewrite Hs1. fold l.
    rewrite (proj2 (orb_false_iff _ _)) by (split; apply Z.leb_gt; lia). by rewrite (proj2 (Z.ltb_lt _ _)).
  - eapply wp_mono.
    + apply (fsrun_log_write pr pid dev Hdev a (k_fs s) b n st bs (fun _ F' => log_ok dev st (log_add n bs) F' /\
        Cached dev pid (if decide (n ∈ bs) then a else a_pin n 1 a) F' /\
        (forall b' m, at_buf dev (k_fs s) b' m <-> at_buf dev F' b' m) /\ same_log l (klog F'))) with (c0 := c0); try done; try (intros F' ? ? ? (_ & _ & _ & _ & ?); done);
        unfold LOGSIZE, MAXOPBLOCKS in H1; fold l; lia.
    + intros [] s' ((A1 & A2 & A3 & A4) & A5 & _). done.
Qed.

(** C8. A transaction is durable: begin_op(), an overwritten block logged with
    log_write(), and end_op() leave the new contents on the disk and in the cache,
    change no other block outside the log, keep every reference and lock count, and
    leave the log empty; the disk writes are those of one commit. *)
Theorem transaction_durable pr pid dev a st n d c0 s : 0 < dev < 2 ^ 31 -> running pr pid None c0 s -> Cached dev pid a (k_fs s) ->
  log_ok dev st [] (k_fs s) -> l_committing (klog (k_fs s)) = 0 -> l_outstanding (klog (k_fs s)) = 0 -> 1 < l_size (klog (k_fs s)) ->
  0 <= st < 2 ^ 31 - 31 -> (forall m, in_log st m -> al a m = false /\ ar a m = 0) ->
  0 <= n < 2 ^ 31 -> ~ in_log st n -> al a n = false -> ar a n < 2 ^ 31 - 1 ->
  ab a + b2z (ar a n =? 0) < Z.of_nat NBUF -> length d = 1024%nat ->
  wp (write_op dev n d) (fun _ s' => exists a', Cached dev pid a' (k_fs s') /\ running pr pid None c0 s' /\
    log_is dev st [] (k_fs s') /\ l_outstanding (klog (k_fs s')) = 0 /\ l_committing (klog (k_fs s')) = 0 /\
    (forall m, ~ in_log st m -> av a' m = fupd (av a) n d m /\ ad a' m = fupd (ad a) n d m) /\
    (forall m, ar a' m = ar a m /\ al a' m = al a m) /\
    disk_writes (k_fs s') = rev (commit_writes st [n] (fupd (av a) n d) (av a st)) ++ disk_writes (k_fs s)) s.
Proof.
  intros Hdev Hrun Hca Hlog Hc Ho Hsz Hst Hun Hn Hnl Hlk Hmax Hroom Hd. set (a0 := a_put n (a_pin n 1 (a_data n d (a_get n a)))).
  assert (Hns : st <> n) by (intros ->; apply Hnl; unfold in_log; lia).
  eapply wp_mono.
  - apply (fsrun_write_op pr pid dev a (k_fs s) st n d (fun _ F' => exists a', committed a0 st [n] a' /\ Cached dev pid a' F' /\
      log_is dev st [] F' /\ l_outstanding (klog F') = 0 /\ l_committing (klog F') = 0)) with (c0 := c0); try done.
    intros a' F' A1 A2 A3 A4 A5. by exists a'.
  - intros [] s' ((a' & [C1 C2 C3 C4 C5 C6] & Hca' & Hl' & Ho' & Hc') & Hrun' & _). exists a'.
    assert (Hav : av a0 = fupd (av a) n d) by done. assert (Had : ad a0 = ad a) by done.
    rewrite Hav, Had in *. rewrite (fupd_ne _ n d st Hns) in *.
    assert (Happ : forall f m, ~ in_log st m -> apply_writes (commit_writes st [n] (fupd (av a) n d) (av a st)) f m = fupd f n d m).
    { intros f m Hm. unfold commit_writes, log_writes, home_writes. cbn [apply_writes fold_left map seq app length fst snd nth].
      unfold in_log in Hm. rewrite fupd_eq. rewrite (fupd_ne _ st) by lia. unfold fupd. case_decide; [done|]. rewrite decide_False by lia.
      rewrite decide_False by lia. done. }
    split_and!; try done.
    + intros m Hm. rewrite C1, C2, !Happ by done. split; [|done]. unfold fupd. by case_decide.
    + intros m. rewrite C3, C4. unfold a0. absn. destruct (decide (m = n)) as [->|Hm].
      * rewrite !fupd_eq, bool_decide_eq_true_2 by by left. rewrite Hlk. split; [cbn [b2z]; lia|done].
      * rewrite !fupd_ne by done. rewrite bool_decide_eq_false_2 by (by rewrite list_elem_of_singleton). split; [cbn [b2z]; lia|done].
    + rewrite (ca_writes _ _ _ _ Hca'), C6. f_equal. by rewrite (ca_writes _ _ _ _ Hca).
Qed.

End theorems.

(** ** Concrete operations *)

Definition klog_ops (outstanding : Z) : logstate := mklogstate 2 30 outstanding 0 1 0 (replicate 30 0).

Lemma log_write_absorbs_witness :
  wp (log_write 0) (fun _ s' => lh_n (klog (k_fs s')) = 1) (set_k_fs (set_klog (klog_ops 1) fs_tx) ks1) /\
  exists s', log_write 0 (set_k_fs (set_klog (klog_ops 0) fs_tx) ks1) = Panic "log_write outside of trans" s'.
Proof.
  destruct fs_tx_ok as (a & Hca & Htx & _). pose proof (proj1 (Forall_singleton _ _) (tx_blocks _ _ _ Htx)) as (H1 & H2 & _).
  assert (Hat : forall o, at_buf 1 (set_klog (klog_ops o) fs_tx) 0 50) by (intros o; split; [unfold NBUF; lia|split; by vm_compute]).
  assert (Hok : forall o, log_ok 1 2 [] (set_klog (klog_ops o) fs_tx)) by (intros o; by split).
  assert (H3 : 0 < ar a 50 < 2 ^ 32 - 1) by (destruct H1 as (_ & _ & ?); lia). split.
  - eapply wp_mono.
    + pose proof (log_write_absorbs 1 2 1 a 0 50 2 [] ctl1 (set_k_fs (set_klog (klog_ops 1) fs_tx) ks1) ltac:(lia)
        (running_idle _) (cached_klog _ _ _ _ _ Hca) (Hat 1) ltac:(lia) H3 (Hok 1)) as H.
      cbv zeta in H. rewrite decide_False, decide_False in H by (vm_compute; intuition congruence). exact H.
    + intros [] s' (_ & [(_ & _ & H & _) _ _] & _). rewrite H. reflexivity.
  - pose proof (log_write_absorbs 1 2 1 a 0 50 2 [] ctl1 (set_k_fs (set_klog (klog_ops 0) fs_tx) ks1) ltac:(lia)
      (running_idle _) (cached_klog _ _ _ _ _ Hca) (Hat 0) ltac:(lia) H3 (Hok 0)) as H.
    cbv zeta in H. rewrite decide_False, decide_True in H by (vm_compute; intuition congruence). exact H.
Defined.

Lemma transaction_durable_witness : wp (@write_op env0 ideal_driver 1 50 ones) (fun _ s' => exists a', Cached 1 2 a' (k_fs s') /\
  ad a' 50 = ones /\ ad a' 51 = zero_block /\ length (disk_writes (k_fs s')) = 4%nat) (set_k_fs (set_klog (klog_ops 0) fs_idle) ks1).
Proof.
  destruct fs_idle_ok as (Hc & (I1 & I2 & I3) & Hv). eapply wp_mono.
  - apply (@transaction_durable env0 ideal_driver always_ready ideal_laws 1 2 1 (abs_of 1 fs_idle) 2 50 ones ctl1); try (unfold in_log; lia).
    + apply running_idle.
    + by apply cached_klog, cached_abs.
    + split; [|reflexivity|constructor]. split; [reflexivity|]. split; [reflexivity|]. split; reflexivity.
    + reflexivity.
    + reflexivity.
    + simpl. lia.
    + intros m _. split; [apply I2|apply I1].
    + apply I2.
    + rewrite I1. lia.
    + rewrite I1, I3. unfold NBUF. simpl. lia.
    + reflexivity.
  - intros [] s' (a' & H1 & _ & _ & _ & _ & H6 & _ & H8). exists a'. split; [done|]. split_and!.
    + destruct (H6 50) as [_ ->]; [unfold in_log; lia|]. by rewrite fupd_eq.
    + destruct (H6 51) as [_ ->]; [unfold in_log; lia|]. rewrite fupd_ne by lia. by vm_compute.
    + rewrite H8, length_app, length_rev. reflexivity.
Defined.

(** begin_op() reserves MAXOPBLOCKS entries of LOGSIZE for each operation, but
    log_write() stops one entry below log.size, which mkfs sets to LOGSIZE: a third
    operation is admitted to an empty log, and the three together panic on the last
    of the blocks that they have reserved. *)
Definition klog_full : logstate := mklogstate 2 30 3 0 1 29 (map Z.of_nat (seq 100 29) ++ [0]).

Example reservation_overrun :
  (LOGSIZE <? 0 + (2 + 1) * MAXOPBLOCKS) = false /\ l_outstanding klog_full * MAXOPBLOCKS = lh_n klog_full + 1 /\
  exists s', log_write 0 (set_k_fs (set_klog klog_full fs_tx) ks1) = Panic "too big a transaction" s'.
Proof. split; [reflexivity|]. split; [reflexivity|]. eexists. reflexivity. Qed.
