(* ===== verification/FsTxn.v ===== *)
(** * Operations on blocks inside a transaction (kernel/bio.c, kernel/log.c)

    Between begin_op() and end_op() the file system reads blocks with bread(),
    changes them, lists them with log_write() and gives them back with brelse().
    [txn] describes such a moment: what the kernel sees of every block, the blocks
    the transaction has listed, the buffers this process holds, and how many more
    blocks it may list.  The rules below are what fs.c is verified with: nothing
    reaches the disk before the commit. *)

From S2P Require Import Prelude Riscv Bytes Kstate CString Spinlock Kalloc Vm Sched SchedSpec Sleeplock.
From S2P Require Import Bio FsRun BioSpec Log LogSpec LogCrash LogOps.

Lemma elem_of_cons_ne (n m : Z) l : m <> n -> m ∈ n :: l <-> m ∈ l.
Proof. intros H. rewrite elem_of_cons. tauto. Qed.

(** Is [n] one of [l]? *)
Definition cnt (l : list Z) (n : Z) : Z := b2z (bool_decide (n ∈ l)).

Lemma cnt_in l n : n ∈ l -> cnt l n = 1.
Proof. intros H. unfold cnt. by rewrite bool_decide_eq_true_2. Qed.
Lemma cnt_out l n : n ∉ l -> cnt l n = 0.
Proof. intros H. unfold cnt. by rewrite bool_decide_eq_false_2. Qed.
Lemma cnt_01 l n : 0 <= cnt l n <= 1.
Proof. unfold cnt, b2z. case_match; lia. Qed.
Lemma cnt_mono l l' n : (forall m, m ∈ l -> m ∈ l') -> cnt l n <= cnt l' n.
Proof. intros H. destruct (decide (n ∈ l)) as [Hd|Hd]; [rewrite !cnt_in by auto; lia|]. rewrite (cnt_out l) by done. apply cnt_01. Qed.
Lemma cnt_cons n m l : n ∉ l -> cnt (n :: l) m = if decide (m = n) then 1 else cnt l m.
Proof.
  intros H. case_decide as Hd; [subst; apply cnt_in; by left|]. unfold cnt. f_equal. apply bool_decide_ext. by apply elem_of_cons_ne.
Qed.

Lemma log_add_in n bs m : m ∈ log_add n bs <-> m = n \/ m ∈ bs.
Proof. unfold log_add. case_decide; [split; [by right|by intros [->|]]|]. rewrite elem_of_app, list_elem_of_singleton. tauto. Qed.

Lemma log_add_NoDup n bs : NoDup bs -> NoDup (log_add n bs).
Proof.
  intros H. unfold log_add. case_decide; [done|]. apply NoDup_app. split_and!; [done| |apply NoDup_singleton].
  intros x Hx Hn. apply list_elem_of_singleton in Hn. by subst.
Qed.

Lemma log_add_length n bs : Z.of_nat (length (log_add n bs)) = Z.of_nat (length bs) + 1 - cnt bs n.
Proof. unfold log_add. case_decide; [rewrite cnt_in by done; lia|]. rewrite cnt_out by done. rewrite length_app. simpl. lia. Qed.

Lemma cnt_log_add n bs m : cnt (log_add n bs) m = if decide (m = n) then 1 else cnt bs m.
Proof.
  case_decide as Hd; [apply cnt_in, log_add_in; by left|]. unfold cnt. f_equal. apply bool_decide_ext. rewrite log_add_in. tauto.
Qed.

(** The buffers of [held] that only this process references. *)
Definition lone (a : absview) (held : list (nat * Z)) : Z := foldr (fun x n => b2z (ar a x.2 =? 1) + n) 0 held.

Lemma lone_le a held : 0 <= lone a held <= Z.of_nat (length held).
Proof. induction held as [|x held IH]; simpl; [lia|]. unfold b2z. case_match; lia. Qed.

Lemma lone_ext a a' held : (forall n, n ∈ held.*2 -> ar a' n = ar a n) -> lone a' held = lone a held.
Proof.
  intros H. induction held as [|x held IH]; simpl; [done|]. rewrite IH, H; [done|by left|]. intros n Hn. apply H. by right.
Qed.

#[export] Hint Resolve kept_refl same_rest_kept : fs.

Section txn.
Context {E : Env} {D : DiskDriver} {DR : DiskReady} {L : DiskLaws} (pr : nat) (pid dev : Z) (Hdev : 0 < dev < 2 ^ 31).
Context (st : Z) (users : list Z) (disk0 : Z -> list Z) (writes0 : list (Z * list Z)).

(** A moment of a transaction that has listed [bs] and may list [k] more blocks,
    in which this process holds the buffers [held] and no other process holds one;
    others may have references to the blocks [users].
    The disk is as at the beginning, and what differs from it is listed. *)
Record txn_abs (k : Z) (held : list (nat * Z)) (bs : list Z) (a : absview) (F : fsstate) : Prop := {
  tn_cached : Cached dev pid a F;
  tn_log : log_ok dev st bs F;
  tn_nodup : NoDup bs;
  tn_open : 1 <= l_outstanding (klog F);
  tn_room : 0 <= k /\ Z.of_nat (length bs) + k < 30 /\ Z.of_nat (length bs) + k < l_size (klog F) - 1;
  tn_bufs : ab a + k + 1 <= Z.of_nat NBUF + lone a held;
  tn_held : NoDup held.*2;
  tn_at : forall b n, (b, n) ∈ held -> at_buf dev F b n;
  tn_locks : forall n, al a n = bool_decide (n ∈ held.*2);
  tn_refs : forall n, cnt bs n + cnt held.*2 n <= ar a n <= 2 ^ 30 + cnt bs n + cnt held.*2 n;
  tn_users : forall n, cnt bs n + cnt held.*2 n < ar a n -> n ∈ users;
  tn_clean : forall n, n ∉ bs -> av a n = ad a n;
  tn_start : 0 <= st < 2 ^ 31 - 31;
  tn_blocks : forall n, n ∈ bs -> ~ in_log st n;
  tn_logfree : forall n, in_log st n -> ar a n = 0;
  tn_disk : (forall n, ad a n = disk0 n) /\ aw a = writes0
}.

(** The kernel sees the blocks [v]. *)
Definition txn (k : Z) (held : list (nat * Z)) (bs : list Z) (v : Z -> list Z) (F : fsstate) : Prop :=
  exists a, txn_abs k held bs a F /\ forall n, av a n = v n.

(** A block that operations may touch. *)
Definition loggable (n : Z) : Prop := 0 <= n < 2 ^ 31 /\ ~ in_log st n.

Lemma txn_ext k held bs v v' F : txn k held bs v F -> (forall n, v n = v' n) -> txn k held bs v' F.
Proof. intros (a & H & Hv) He. exists a. split; [done|]. intros n. by rewrite Hv. Qed.

Lemma txn_len k held bs v F n : txn k held bs v F -> length (v n) = 1024%nat.
Proof. intros (a & H & <-). eapply cached_len, H. Qed.

Lemma txn_weaken k k' held bs v F : txn k held bs v F -> 0 <= k' <= k -> txn k' held bs v F.
Proof. intros (a & [] & Hv) Hk. exists a. split; [|done]. split; try done; lia. Qed.

(** The state may change outside the cache and the log. *)
Lemma txn_frame k held bs v F F' : txn k held bs v F -> bufs F' = bufs F -> disk F' = disk F -> disk_writes F' = disk_writes F ->
  klog F' = klog F -> txn k held bs v F'.
Proof.
  destruct F, F'. simpl. intros (a & [] & Hv) -> -> -> ->. exists a. split; [|done]. split; try done.
  - destruct tn_cached0 as [[] ? ? ? ? ? ?]. by split.
  - destruct tn_log0. by split.
Qed.

(** Code that gives every buffer back leaves the transaction as it was. *)
Lemma txn_same k bs a F F' : txn_abs k [] bs a F -> Cached dev pid a F' -> same_rest F F' -> txn_abs k [] bs a F'.
Proof.
  intros [] Hca (Hl & _). split; try done; rewrite ?Hl; try done.
  - destruct tn_log0 as [[] ?]. split; unfold log_is; rewrite ?Hl; done.
  - intros b n Hn. by apply not_elem_of_nil in Hn.
Qed.

Lemma txn_bread k held bs v F n (Q : nat -> fsstate -> Prop) : txn k held bs v F -> loggable n -> n ∉ held.*2 ->
  Z.of_nat (length held) <= k ->
  (forall b F', txn k ((b, n) :: held) bs v F' -> same_rest F F' -> Q b F') -> fsrun pr pid (bread dev n) F Q.
Proof.
  intros (a & [] & Hv) (Hn & Hnl) Hnh Hk HQ. pose proof (lone_le a held) as Hlone. pose proof (tn_refs0 n) as Hr. rewrite (cnt_out held.*2) in Hr by done.
  pose proof (cnt_01 bs n). apply (fsrun_bread pr pid dev ltac:(lia) a F n); [done|lia|rewrite tn_locks0; by apply bool_decide_eq_false_2|lia|lia|].
  intros b F' Hca Hat Hkeep Hsr. apply HQ; [|done]. exists (a_get n a). split; [|done]. destruct Hsr as (Hl & _).
  assert (Hne : forall m, m ∈ held.*2 -> m <> n) by (by intros m Hm ->). split; absn; try done.
  - destruct tn_log0 as [[] ?]. split; unfold log_is; rewrite ?Hl; done.
  - by rewrite Hl.
  - by rewrite Hl.
  - cbn [lone foldr snd]. fold (lone (a_get n a) held). rewrite (lone_ext a) by (intros m Hm; absn; rewrite fupd_ne; [done|by apply Hne]).
    absn. rewrite fupd_eq. destruct (Z.eqb_spec (ar a n) 0), (Z.eqb_spec (ar a n + 1) 1); simpl; lia.
  - csimpl. by apply NoDup_cons.
  - intros b' m [[= -> ->]|Hin]%elem_of_cons; [done|]. apply Hkeep; [by apply tn_at0|]. rewrite (ca_refs _ _ _ _ tn_cached0).
    pose proof (tn_refs0 m). assert (m ∈ held.*2) by (apply list_elem_of_fmap; by exists (b', m)). rewrite (cnt_in held.*2) in * by done.
    pose proof (cnt_01 bs m). lia.
  - intros m. csimpl. unfold fupd. case_decide as Hd; [subst; symmetry; apply bool_decide_eq_true_2; by left|].
    rewrite tn_locks0. apply bool_decide_ext. symmetry. by apply elem_of_cons_ne.
  - intros m. csimpl. rewrite cnt_cons by done. unfold fupd. specialize (tn_refs0 m). case_decide; [subst; lia|done].
  - intros m. csimpl. rewrite cnt_cons by done. unfold fupd. specialize (tn_users0 m). case_decide; [|done]. subst.
    rewrite (cnt_out held.*2) in tn_users0 by done. intros. apply tn_users0. lia.
  - intros m Hm. rewrite fupd_ne; [by apply tn_logfree0|]. by intros ->.
Qed.

Lemma txn_bdata k held bs v F b n (Q : list Z -> fsstate -> Prop) : txn k held bs v F -> (b, n) ∈ held -> Q (v n) F ->
  fsrun pr pid (bdata b) F Q.
Proof.
  intros (a & Ht & Hv) Hin HQ. apply (fsrun_bdata pr pid dev a F b n); [apply Ht|by apply (tn_at _ _ _ _ _ Ht)|]. by rewrite Hv.
Qed.

Lemma txn_brelse k held bs v F b n (Q : unit -> fsstate -> Prop) : txn k ((b, n) :: held) bs v F ->
  (forall F', txn k held bs v F' -> same_rest F F' -> Q tt F') -> fsrun pr pid (brelse b) F Q.
Proof.
  intros (a & [] & Hv) HQ. change (((b, n) :: held).*2) with (n :: held.*2) in *. apply NoDup_cons in tn_held0 as [Hnh Hnd].
  pose proof (tn_refs0 n) as Hr. rewrite (cnt_in (n :: held.*2)) in Hr by by left. pose proof (cnt_01 bs n).
  apply (fsrun_brelse pr pid dev ltac:(lia) a F b n); [done|apply tn_at0; by left|rewrite tn_locks0; apply bool_decide_eq_true_2; by left|intros H1; apply tn_clean0; intros Hin; rewrite cnt_in in Hr by done; lia|].
  intros F' Hca Hat Hsr. apply HQ; [|done]. exists (a_put n a). split; [|done]. destruct Hsr as (Hl & _).
  assert (Hne : forall m, m ∈ held.*2 -> m <> n) by (by intros m Hm ->). split; absn; try done.
  - destruct tn_log0 as [[] ?]. split; unfold log_is; rewrite ?Hl; done.
  - by rewrite Hl.
  - by rewrite Hl.
  - cbn [lone foldr snd] in tn_bufs0. fold (lone a held) in tn_bufs0. rewrite (lone_ext a) by (intros m Hm; absn; rewrite fupd_ne; [done|by apply Hne]). lia.
  - intros b' m Hin. apply Hat, tn_at0. by right.
  - intros m. unfold fupd. case_decide as Hd; [subst; symmetry; by apply bool_decide_eq_false_2|].
    rewrite tn_locks0. apply bool_decide_ext. by apply elem_of_cons_ne.
  - intros m. specialize (tn_refs0 m). rewrite cnt_cons in tn_refs0 by done. unfold fupd.
    case_decide as Hd; [|done]. subst. rewrite (cnt_out held.*2) by done. lia.
  - intros m. specialize (tn_users0 m). change (((b, n) :: held).*2) with (n :: held.*2) in tn_users0. rewrite cnt_cons in tn_users0 by done.
    unfold fupd. case_decide as Hd; [|done]. subst. rewrite (cnt_out held.*2) by done. intros. apply tn_users0. lia.
  - intros m Hm. unfold fupd. case_decide as Hd; [|by apply tn_logfree0]. subst. pose proof (tn_logfree0 _ Hm). lia.
Qed.

(** A change of a held block that is logged: the transaction lists the block, and
    pays for it unless it was listed before. *)
Lemma txn_log k held bs v F b n f (Q : unit -> fsstate -> Prop) : txn (k + 1 - cnt bs n) ((b, n) :: held) bs v F -> 0 <= k -> loggable n ->
  length (f (v n)) = 1024%nat ->
  (forall F', txn k ((b, n) :: held) (log_add n bs) (fupd v n (f (v n))) F' -> kept F F' -> Q tt F') ->
  fsrun pr pid (set_bdata b f;; log_write b) F Q.
Proof.
  intros (a & [] & Hv) Hk (Hn & Hnl) Hlen HQ. change (((b, n) :: held).*2) with (n :: held.*2) in *. pose proof tn_held0 as [Hnh Hnd]%NoDup_cons.
  pose proof (tn_refs0 n) as Hr. rewrite (cnt_in (n :: held.*2)) in Hr by by left. pose proof (cnt_01 bs n) as H01. rewrite <- Hv in *.
  assert (Hat0 : at_buf dev F b n) by (apply tn_at0; by left).
  eapply crun_bind, (fsrun_set_bdata pr pid dev a F b n); [done|done|lia|done|]. intros F1 Hca1 Hat1 Hsr1. pose proof Hsr1 as (Hl1 & _).
  assert (Hlog1 : log_ok dev st bs F1) by (destruct tn_log0 as [[] ?]; split; unfold log_is; rewrite ?Hl1; done).
  eapply (fsrun_log_write pr pid dev Hdev _ F1 b n st bs); [exact Hca1|by apply Hat1|done|absn; lia|done|lia|rewrite Hl1; lia|by rewrite Hl1|].
  intros F2 Hca2 Hlog2 Hat2 Hkp. assert (Hkept : kept F F2) by (eapply kept_trans; [by apply same_rest_kept|done]).
  apply HQ; [|done]. destruct Hkept as (_ & _ & _ & _ & _ & L2 & L3 & _).
  set (a1 := a_data n (f (av a n)) a) in *. set (a2 := if decide (n ∈ bs) then a1 else a_pin n 1 a1) in *.
  assert (Hr2 : forall m, ar a2 m = ar a m + (if decide (m = n) then 1 - cnt bs n else 0)).
  { intros m. unfold a2. destruct (decide (n ∈ bs)); [rewrite cnt_in by done|rewrite cnt_out by done]; unfold a1; absn; unfold fupd; case_decide; subst; lia. }
  assert (Ha2 : av a2 = fupd (av a) n (f (av a n)) /\ al a2 = al a /\ ad a2 = ad a /\ aw a2 = aw a) by (unfold a2; by case_decide).
  destruct Ha2 as (A1 & A2 & A3 & A4).
  assert (Hne : forall m, m ∈ held.*2 -> m <> n) by (by intros m Hm ->).
  exists a2. split; [|intros m; rewrite A1; unfold fupd; by case_decide]. split; rewrite ?A1, ?A2, ?A3, ?A4; try done.
  - by apply log_add_NoDup.
  - by rewrite L3.
  - rewrite log_add_length, L2. lia.
  - cbn [lone foldr snd] in *. fold (lone a held) in tn_bufs0. fold (lone a2 held).
    rewrite (lone_ext a a2) by (intros m Hm; rewrite Hr2, decide_False; [lia|by apply Hne]). rewrite Hr2, decide_True by done.
    unfold a2. destruct (decide (n ∈ bs)); [rewrite cnt_in in * by done|rewrite cnt_out in * by done]; unfold a1; absn; unfold truthy;
      destruct (Z.eqb_spec (ar a n) 1), (Z.eqb_spec (ar a n) 0), (Z.eqb_spec (ar a n + 1) 0), (Z.eqb_spec (ar a n + (1 - 1)) 1), (Z.eqb_spec (ar a n + (1 - 0)) 1); simpl in *; lia.
  - intros b' m Hin. by apply Hat2, Hat1, tn_at0.
  - intros m. rewrite Hr2, cnt_log_add. specialize (tn_refs0 m). change (((b, n) :: held).*2) with (n :: held.*2). case_decide; [subst; lia|lia].
  - intros m. rewrite Hr2, cnt_log_add. specialize (tn_users0 m). change (((b, n) :: held).*2) with (n :: held.*2) in tn_users0 |- *.
    case_decide; [subst|]; intros; apply tn_users0; lia.
  - intros m Hm. rewrite log_add_in in Hm. rewrite fupd_ne by tauto. apply tn_clean0. tauto.
  - intros m [->|Hm]%log_add_in; [done|by apply tn_blocks0].
  - intros m Hm. rewrite Hr2. case_decide; [by subst|]. rewrite tn_logfree0; [done|done].
Qed.

(** ** Whole updates *)

Lemma crun_assoc {A B C} o o' (m : K A) (f : A -> K B) (g : B -> K C) F (Q : C -> fsstate -> Prop) :
  crun pr pid o (bind (bind m f) g) F o' Q -> crun pr pid o (bind m (fun x => bind (f x) g)) F o' Q.
Proof.
  intros H c0 s Hs HF. pose proof (H c0 s Hs HF) as Hw. unfold wp, bind in *. by destruct (m s).
Qed.

(** [...; log_write(bp); brelse(bp); ...] *)
Lemma txn_update {B} k held bs v F b n f (m : K B) (Q : B -> fsstate -> Prop) : txn (k + 1 - cnt bs n) ((b, n) :: held) bs v F -> 0 <= k -> loggable n ->
  length (f (v n)) = 1024%nat ->
  (forall F', txn k held (log_add n bs) (fupd v n (f (v n))) F' -> kept F F' -> fsrun pr pid m F' Q) ->
  fsrun pr pid (set_bdata b f;; log_write b;; brelse b;; m) F Q.
Proof.
  intros Ht Hk Hn Hl HQ. apply crun_assoc. eapply crun_bind, txn_log; [done..|]. intros F1 Ht1 Hk1.
  eapply crun_bind, txn_brelse; [done|]. intros F2 Ht2 Hs2. apply HQ; [done|]. eapply kept_trans; [done|by apply same_rest_kept].
Qed.

(** [bp = bread(n); ...; log_write(bp); brelse(bp)] *)
Lemma txn_overwrite k k' held bs v F n f (Q : unit -> fsstate -> Prop) : txn k held bs v F -> 0 <= k' <= k - 1 + cnt bs n -> loggable n -> n ∉ held.*2 ->
  Z.of_nat (length held) <= k -> length (f (v n)) = 1024%nat ->
  (forall F', txn k' held (log_add n bs) (fupd v n (f (v n))) F' -> kept F F' -> Q tt F') ->
  fsrun pr pid (bp <- bread dev n;; set_bdata bp f;; log_write bp;; brelse bp) F Q.
Proof.
  intros Ht Hk Hn Hh Hr Hl HQ. eapply crun_bind, txn_bread; [done..|]. intros b F1 Ht1 Hs1.
  apply crun_assoc. pose proof (cnt_01 bs n). eapply crun_bind, (txn_log k'); [eapply txn_weaken; [exact Ht1|lia]|lia|done|done|].
  intros F2 Ht2 Hk2. eapply txn_brelse; [done|]. intros F3 Ht3 Hs3.
  apply HQ; [done|]. eapply kept_trans; [by apply same_rest_kept|]. eapply kept_trans; [done|by apply same_rest_kept].
Qed.

End txn.

(** ** Between operations *)

Section ends.
Context {E : Env} {D : DiskDriver} {DR : DiskReady} {L : DiskLaws} (pr : nat) (pid dev : Z) (Hdev : 0 < dev < 2 ^ 31) (st : Z) (users : list Z).

(** No more buffers are in use than blocks. *)
Lemma busy_le a F : Cached dev pid a F -> (forall n, 0 < ar a n -> n ∈ users) -> ab a <= Z.of_nat (length users).
Proof.
  intros Hca Hu. pose proof (ca_ok _ _ _ _ Hca) as Hc. rewrite <- (ca_busy _ _ _ _ Hca). unfold busy.
  set (used := filter (fun b => b_refcnt (getB b F) <> 0) (seq 0 NBUF)).
  assert (Hsum : bsum (in_use F) = Z.of_nat (length used)).
  { unfold bsum, used. induction (seq 0 NBUF) as [|b l IH]; [done|]. cbn [foldr]. rewrite IH, filter_cons. unfold in_use, truthy.
    destruct (Z.eqb_spec (b_refcnt (getB b F)) 0); [rewrite decide_False by tauto|rewrite decide_True by done]; simpl; lia. }
  rewrite Hsum. apply inj_le. rewrite <- (length_fmap (fun b => b_blockno (getB b F)) used). apply submseteq_length, NoDup_submseteq.
  - apply NoDup_fmap_2_strong; [|apply NoDup_filter, NoDup_seq]. intros b b' Hb Hb' He.
    apply list_elem_of_filter in Hb as [Hr Hb], Hb' as [Hr' Hb']. apply elem_of_seq in Hb, Hb'.
    destruct (ck_buf _ _ _ Hc b ltac:(lia)) as (O & _), (ck_buf _ _ _ Hc b' ltac:(lia)) as (O' & _).
    apply (ck_uniq _ _ _ Hc b b' (b_blockno (getB b F))); (split; [lia|]); split; tauto || lia.
  - intros n Hn. apply list_elem_of_fmap in Hn as (b & -> & Hb). apply list_elem_of_filter in Hb as [Hr Hb]. apply elem_of_seq in Hb.
    apply Hu. rewrite <- (ca_refs _ _ _ _ Hca). destruct (ck_buf _ _ _ Hc b ltac:(lia)) as (O & O2 & _).
    assert (Hat : at_buf dev F b (b_blockno (getB b F))) by (split; [lia|]; split; tauto).
    destruct (at_buf_view dev pid F b _ Hc Hat) as (_ & -> & _). lia.
Qed.

(** No operation is under way: the log is empty, no buffer is locked, and the
    kernel sees the disk [v] outside the log. *)
Record quiet (v : Z -> list Z) (a : absview) (F : fsstate) : Prop := {
  qu_cached : Cached dev pid a F;
  qu_log : log_ok dev st [] F;
  qu_idle : l_outstanding (klog F) = 0 /\ l_committing (klog F) = 0;
  qu_size : MAXOPBLOCKS < l_size (klog F) - 1;
  qu_bufs : Z.of_nat (length users) + MAXOPBLOCKS < Z.of_nat NBUF;
  qu_locks : forall n, al a n = false;
  qu_refs : forall n, ar a n <= 2 ^ 30;
  qu_users : forall n, 0 < ar a n -> n ∈ users;
  qu_clean : forall n, av a n = ad a n;
  qu_view : forall n, ~ in_log st n -> av a n = v n;
  qu_start : 0 <= st < 2 ^ 31 - 31;
  qu_logfree : forall n, in_log st n -> ar a n = 0
}.

(** The state of the log inside the first operation. *)
Definition opened (F : fsstate) : fsstate := set_klog (set_l_outstanding (l_outstanding (klog F) + 1) (klog F)) F.

Lemma quiet_opened v a F : quiet v a F -> txn pid dev st users (ad a) (aw a) MAXOPBLOCKS [] [] (av a) (opened F).
Proof.
  intros []. destruct qu_idle0 as [Ho Hc]. exists a. split; [|done]. unfold MAXOPBLOCKS in *.
  pose proof (busy_le _ _ qu_cached0 qu_users0) as Hbusy. assert (Hnil : forall n, cnt [] n = 0) by (intros n; apply cnt_out, not_elem_of_nil).
  split; try done.
  - by apply cached_klog.
  - destruct qu_log0. by split.
  - apply NoDup_nil_2.
  - simpl. lia.
  - simpl. lia.
  - apply NoDup_nil_2.
  - intros b n H. by apply not_elem_of_nil in H.
  - intros n. change ([].*2) with (@nil Z). rewrite !Hnil. pose proof (cached_refs pid dev _ _ n qu_cached0). specialize (qu_refs0 n). lia.
  - intros n H. by apply not_elem_of_nil in H.
Qed.

Lemma quiet_begin v a F (Q : unit -> fsstate -> Prop) : quiet v a F ->
  (forall F', txn pid dev st users (ad a) (aw a) MAXOPBLOCKS [] [] (av a) F' ->
     l_outstanding (klog F') = 1 -> l_committing (klog F') = 0 -> l_size (klog F') = l_size (klog F) ->
     sb F' = sb F -> inodes F' = inodes F -> files F' = files F -> pipes F' = pipes F -> Q tt F') ->
  fsrun pr pid begin_op F Q.
Proof.
  intros Hq HQ. pose proof (quiet_opened v a F Hq) as Ht. destruct Hq. destruct qu_idle0 as [Ho Hc]. pose proof (lo_is _ _ _ _ qu_log0) as (L1 & L2 & L3 & L4).
  apply fsrun_begin_op; [done|rewrite L3, Ho; unfold LOGSIZE, MAXOPBLOCKS; simpl; lia|].
  apply HQ; try done. simpl. lia.
Qed.

(** end_op() of a transaction that listed something makes it durable. *)
Lemma txn_end disk0 writes0 k bs v F (Q : unit -> fsstate -> Prop) : txn pid dev st users disk0 writes0 k [] bs v F -> bs <> [] ->
  l_outstanding (klog F) = 1 -> l_committing (klog F) = 0 -> MAXOPBLOCKS < l_size (klog F) - 1 -> Z.of_nat (length users) + MAXOPBLOCKS < Z.of_nat NBUF ->
  (forall a' F', quiet v a' F' -> sb F' = sb F -> inodes F' = inodes F -> files F' = files F -> pipes F' = pipes F -> Q tt F') ->
  fsrun pr pid end_op F Q.
Proof.
  intros (a & [] & Hv) Hne Ho Hc Hsz Hus HQ. assert (Hnil : forall n, cnt [] n = 0) by (intros n; apply cnt_out, not_elem_of_nil).
  assert (Htx : tx a st bs).
  { split; try done; [lia| | |cbn [lone foldr] in tn_bufs0; lia].
    - apply Forall_forall. intros n Hn. pose proof (tn_refs0 n) as Hr. rewrite cnt_in in Hr by done. change ([].*2) with (@nil Z) in Hr. rewrite Hnil in Hr.
      pose proof (lo_blocks _ _ _ _ tn_log0) as Hb. rewrite Forall_forall in Hb. specialize (Hb n Hn). unfold usable. rewrite tn_locks0.
      split_and!; try done; try lia. by apply tn_blocks0.
    - intros n Hn. split; [by rewrite tn_locks0|by apply tn_logfree0]. }
  eapply (fsrun_end_op pr pid dev Hdev a F st bs); [done|apply tn_log0|done|done|done|done|].
  intros a' F' Hcm Hca' Hlog' Ho' Hc' (Hk & H1 & H2 & H3 & H4). apply (HQ a'); [|done..].
  destruct (committed_outside _ _ _ _ Htx Hcm) as [Hav Had]. pose proof Hcm as [C1 C2 C3 C4 C5 C6].
  assert (Hr : forall n, ar a' n = ar a n - cnt bs n) by done.
  split; try done.
  - split; [done|by rewrite Hk; apply tn_log0|constructor].
  - by rewrite Hk.
  - intros n. by rewrite C4, tn_locks0.
  - intros n. rewrite Hr. specialize (tn_refs0 n). change ([].*2) with (@nil Z) in tn_refs0. rewrite Hnil in tn_refs0. lia.
  - intros n. rewrite Hr. specialize (tn_users0 n). change ([].*2) with (@nil Z) in tn_users0. rewrite Hnil in tn_users0. intros. apply tn_users0. lia.
  - intros n. destruct (decide (in_log st n)) as [Hin|Hin].
    + eapply cached_clean; [done|]. rewrite Hr, (tn_logfree0 n Hin), cnt_out; [done|]. intros Hb. by apply (tn_blocks0 n Hb).
    + rewrite Hav, Had by done. case_decide; [done|by apply tn_clean0].
  - intros n Hn. by rewrite Hav, Hv.
  - intros n Hn. rewrite Hr, (tn_logfree0 n Hn), cnt_out; [done|]. intros Hb. by apply (tn_blocks0 n Hb).
Qed.

End ends.
