(* ===== verification/Fs.v ===== *)
(** * The file system (kernel/fs.c)

    Block allocation, inodes, their contents, directories and paths.  The
    superblock, the bitmap, the inode blocks and the directory entries are the
    bytes the code reads and writes; an in-memory inode is an entry of
    itable.inode[]. *)

From S2P Require Import Prelude Riscv Kstate CString Spinlock Kalloc Vm Sched Bytes Uart Sleeplock Bio.
From S2P Require Import Log.

(** ** kernel/fs.h and kernel/stat.h *)

Definition ROOTINO : Z := 1.
Definition FSMAGIC : Z := 0x10203040.
Definition NDIRECT : Z := 12.
Definition NINDIRECT : Z := BSIZE / 4.
Definition MAXFILE : Z := NDIRECT + NINDIRECT.
Definition sizeof_dinode : Z := 64.
Definition IPB : Z := BSIZE / sizeof_dinode.
Definition BPB : Z := BSIZE * 8.
Definition DIRSIZ : nat := 14.
Definition sizeof_dirent : Z := 16.
Definition T_DIR : Z := 1.
Definition T_FILE : Z := 2.
Definition T_DEVICE : Z := 3.

Definition IBLOCK (i : Z) (sb : superblock) : Z := u32 (i / IPB + sb_inodestart sb).
Definition BBLOCK (b : Z) (sb : superblock) : Z := u32 (b / BPB + sb_bmapstart sb).

(** [struct superblock] as it lies in block 1. *)
Definition sb_of_bytes (d : list Z) : superblock :=
  mksuperblock (rd 4 d 0) (rd 4 d 4) (rd 4 d 8) (rd 4 d 12) (rd 4 d 16) (rd 4 d 20) (rd 4 d 24) (rd 4 d 28).

(** [struct dinode]: the fields of an on-disk inode at offset [o] of a block. *)
Record dinode := mkdinode {
  di_type : Z; di_major : Z; di_minor : Z; di_nlink : Z; di_size : Z; di_addrs : list Z
}.

Definition dinode_of_bytes (d : list Z) (o : Z) : dinode :=
  mkdinode (i16 (rd 2 d o)) (i16 (rd 2 d (o + 2))) (i16 (rd 2 d (o + 4))) (i16 (rd 2 d (o + 6)))
    (rd 4 d (o + 8)) (map (fun k => rd 4 d (o + 12 + 4 * Z.of_nat k)) (seq 0 13)).

Definition dinode_bytes (di : dinode) : list Z :=
  enc_le 2 (di_type di) ++ enc_le 2 (di_major di) ++ enc_le 2 (di_minor di) ++ enc_le 2 (di_nlink di) ++
  enc_le 4 (di_size di) ++ flat_map (enc_le 4) (di_addrs di).

Definition put_dinode (d : list Z) (o : Z) (di : dinode) : list Z :=
  splice d (Z.to_nat o) (dinode_bytes di).

(** The offset of an inode in its block. *)
Definition dinode_off (inum : Z) : Z := inum mod IPB * sizeof_dinode.

Section fs.
Context {E : Env} {D : DiskDriver}.

Definition getsb : K superblock := gets (fun s => sb (k_fs s)).
Definition inode0 : inode := mkinode 0 0 0 sleeplock0 0 0 0 0 0 0 (replicate 13 0).
Definition get_inode (i : nat) (s : kstate) : inode := default inode0 (inodes (k_fs s) !! i).
Definition geti (i : nat) : K inode := gets (get_inode i).
Definition updi (i : nat) (f : inode -> inode) : K unit :=
  modify (fun s => set_k_fs (set_inodes (alter f i (inodes (k_fs s))) (k_fs s)) s).

(** ** Blocks *)

Definition readsb (dev : Z) : K unit :=
  bp <- bread dev 1;;
  d <- bdata bp;;
  modify (fun s => set_k_fs (set_sb (sb_of_bytes d) (k_fs s)) s);;
  brelse bp.

Definition fsinit (dev : Z) : K unit :=
  readsb dev;;
  sb <- getsb;;
  if negb (sb_magic sb =? FSMAGIC) then panic "invalid file system"
  else initlog dev sb.

Definition bzero (dev bno : Z) : K unit :=
  bp <- bread dev bno;;
  set_bdata bp (fun _ => replicate (Z.to_nat BSIZE) 0);;
  log_write bp;;
  brelse bp.

(** The inner loop of balloc(): the first free bit among the next [n] from
    [bi] on. *)
Fixpoint find_free (d : list Z) (bi : Z) (n : nat) : option Z :=
  match n with
  | O => None
  | S n' =>
      let m := Z.shiftl 1 (bi mod 8) in
      if Z.land (default 0 (znth d (bi / 8))) m =? 0 then Some bi else find_free d (bi + 1) n'
  end.

(** The outer loop goes through the blocks of the bitmap. *)
Definition balloc (dev : Z) : K Z :=
  sb <- getsb;;
  r <- for_find (map (fun k => Z.of_nat k * BPB) (seq 0 (Z.to_nat ((sb_size sb + BPB - 1) / BPB)))) (fun b =>
    bp <- bread dev (BBLOCK b sb);;
    d <- bdata bp;;
    match find_free d 0 (Z.to_nat (Z.min BPB (sb_size sb - b))) with
    | Some bi =>
        let m := Z.shiftl 1 (bi mod 8) in
        set_bdata bp (fun d => zupd d (bi / 8) (Z.lor (default 0 (znth d (bi / 8))) m));;
        log_write bp;;
        brelse bp;;
        bzero dev (b + bi);;
        ret (Some (b + bi))
    | None => brelse bp;; ret None
    end);;
  match r with
  | Some b => ret b
  | None => printf (Some (bytes_of_string "balloc: out of blocks" ++ [NL])) [];; ret 0
  end.

Definition bfree (dev b : Z) : K unit :=
  sb <- getsb;;
  bp <- bread dev (BBLOCK b sb);;
  let bi := b mod BPB in
  let m := Z.shiftl 1 (bi mod 8) in
  d <- bdata bp;;
  let v := default 0 (znth d (bi / 8)) in
  if Z.land v m =? 0 then panic "freeing free block"
  else
    set_bdata bp (fun d => zupd d (bi / 8) (u8 (Z.land v (Z.lnot m))));;
    log_write bp;;
    brelse bp.

(** ** Inodes *)

Definition inode_ids : list nat := seq 0 NINODE.

Definition iinit : K unit :=
  lift_ctl (initlock L_itable "itable");;
  for_each inode_ids (fun i => initsleeplock (SLinode i) "inode").

(** The table scan of iget(): [inl] an entry of the inode, or [inr] the first
    free entry. *)
Fixpoint iget_scan (l : list (nat * inode)) (dev inum : Z) (empty : option nat) : nat + option nat :=
  match l with
  | [] => inr empty
  | (i, ip) :: l' =>
      if (0 <? i_ref ip) && (i_dev ip =? dev) && (i_inum ip =? inum) then inl i
      else iget_scan l' dev inum
             (match empty with
              | None => if i_ref ip =? 0 then Some i else None
              | Some _ => empty
              end)
  end.

Definition iget (dev inum : Z) : K nat :=
  kacquire L_itable;;
  l <- gets (fun s => inodes (k_fs s));;
  match iget_scan (zip (seq 0 (length l)) l) dev inum None with
  | inl i =>
      updi i (fun ip => set_i_ref (i_ref ip + 1) ip);;
      krelease L_itable;;
      ret i
  | inr None => panic "iget: no inodes"
  | inr (Some i) =>
      updi i (fun ip => set_i_valid 0 (set_i_ref 1 (set_i_inum inum (set_i_dev dev ip))));;
      krelease L_itable;;
      ret i
  end.

Definition ialloc (dev type : Z) : K (option nat) :=
  sb <- getsb;;
  r <- for_find (map Z.of_nat (seq 1 (Z.to_nat (sb_ninodes sb - 1)))) (fun inum =>
    bp <- bread dev (IBLOCK inum sb);;
    d <- bdata bp;;
    if di_type (dinode_of_bytes d (dinode_off inum)) =? 0 then
      set_bdata bp (fun d => put_dinode d (dinode_off inum) (mkdinode type 0 0 0 0 (replicate 13 0)));;
      log_write bp;;
      brelse bp;;
      ip <- iget dev inum;;
      ret (Some ip)
    else brelse bp;; ret None);;
  match r with
  | Some ip => ret (Some ip)
  | None => printf (Some (bytes_of_string "ialloc: no inodes" ++ [NL])) [];; ret None
  end.

Definition dinode_of_inode (ip : inode) : dinode :=
  mkdinode (i_type ip) (i_major ip) (i_minor ip) (i_nlink ip) (i_size ip) (i_addrs ip).

Definition iupdate (i : nat) : K unit :=
  sb <- getsb;;
  ip <- geti i;;
  bp <- bread (i_dev ip) (IBLOCK (i_inum ip) sb);;
  ip <- geti i;;
  set_bdata bp (fun d => put_dinode d (dinode_off (i_inum ip)) (dinode_of_inode ip));;
  log_write bp;;
  brelse bp.

Definition idup (i : nat) : K nat :=
  kacquire L_itable;;
  updi i (fun ip => set_i_ref (i_ref ip + 1) ip);;
  krelease L_itable;;
  ret i.

Definition inode_of_dinode (di : dinode) (ip : inode) : inode :=
  set_i_addrs (di_addrs di) (set_i_size (di_size di) (set_i_nlink (di_nlink di)
    (set_i_minor (di_minor di) (set_i_major (di_major di) (set_i_type (di_type di) ip))))).

Definition ilock (i : option nat) : K unit :=
  match i with
  | None => panic "ilock"
  | Some i =>
      ip <- geti i;;
      if i_ref ip <? 1 then panic "ilock"
      else
        acquiresleep (SLinode i);;
        ip <- geti i;;
        when (i_valid ip =? 0)
          (sb <- getsb;;
           bp <- bread (i_dev ip) (IBLOCK (i_inum ip) sb);;
           d <- bdata bp;;
           updi i (fun ip => inode_of_dinode (dinode_of_bytes d (dinode_off (i_inum ip))) ip);;
           brelse bp;;
           updi i (set_i_valid 1);;
           ip <- geti i;;
           if i_type ip =? 0 then panic "ilock: no type" else ret tt)
  end.

Definition iunlock (i : option nat) : K unit :=
  match i with
  | None => panic "iunlock"
  | Some i =>
      h <- holdingsleep (SLinode i);;
      if negb h then panic "iunlock"
      else
        ip <- geti i;;
        if i_ref ip <? 1 then panic "iunlock" else releasesleep (SLinode i)
  end.

(** ** Contents of an inode *)

Definition addr_nth (ip : inode) (n : Z) : Z := default 0 (znth (i_addrs ip) n).
Definition set_addr (n v : Z) (ip : inode) : inode := set_i_addrs (zupd (i_addrs ip) n v) ip.

Definition bmap (i : nat) (bn : Z) : K Z :=
  ip <- geti i;;
  if bn <? NDIRECT then
    let addr := addr_nth ip bn in
    if addr =? 0 then
      addr <- balloc (i_dev ip);;
      if addr =? 0 then ret 0
      else updi i (set_addr bn addr);; ret addr
    else ret addr
  else
    let bn := bn - NDIRECT in
    if bn <? NINDIRECT then
      let addr := addr_nth ip NDIRECT in
      addr <- (if addr =? 0 then
                 addr <- balloc (i_dev ip);;
                 when (negb (addr =? 0)) (updi i (set_addr NDIRECT addr));;
                 ret addr
               else ret addr);;
      if addr =? 0 then ret 0
      else
        bp <- bread (i_dev ip) addr;;
        d <- bdata bp;;
        let addr := rd 4 d (4 * bn) in
        addr <- (if addr =? 0 then
                   addr <- balloc (i_dev ip);;
                   when (negb (addr =? 0))
                     (set_bdata bp (fun d => wr 4 d (4 * bn) addr);;
                      log_write bp);;
                   ret addr
                 else ret addr);;
        brelse bp;;
        ret addr
    else panic "bmap: out of range".

Definition itrunc (i : nat) : K unit :=
  for_each (upto NDIRECT) (fun k =>
    ip <- geti i;;
    when (negb (addr_nth ip k =? 0))
      (bfree (i_dev ip) (addr_nth ip k);;
       updi i (set_addr k 0)));;
  ip <- geti i;;
  when (negb (addr_nth ip NDIRECT =? 0))
    (bp <- bread (i_dev ip) (addr_nth ip NDIRECT);;
     for_each (upto NINDIRECT) (fun j =>
       d <- bdata bp;;
       when (negb (rd 4 d (4 * j) =? 0)) (bfree (i_dev ip) (rd 4 d (4 * j))));;
     brelse bp;;
     bfree (i_dev ip) (addr_nth ip NDIRECT);;
     updi i (set_addr NDIRECT 0));;
  updi i (set_i_size 0);;
  iupdate i.

Definition iput (i : option nat) : K unit :=
  kacquire L_itable;;
  i <- deref i;;
  ip <- geti i;;
  when ((i_ref ip =? 1) && truthy (i_valid ip) && (i_nlink ip =? 0))
    (acquiresleep (SLinode i);;
     krelease L_itable;;
     itrunc i;;
     updi i (set_i_type 0);;
     iupdate i;;
     updi i (set_i_valid 0);;
     releasesleep (SLinode i);;
     kacquire L_itable);;
  updi i (fun ip => set_i_ref (i_ref ip - 1) ip);;
  krelease L_itable.

Definition iunlockput (i : option nat) : K unit := iunlock i;; iput i.

(** [struct stat]: dev, ino, type, nlink and, aligned at 16, size. *)
Definition stati (ip : inode) : list Z :=
  enc_le 4 (i_dev ip) ++ enc_le 4 (i_inum ip) ++ enc_le 2 (i_type ip) ++ enc_le 2 (i_nlink ip) ++
  replicate 4 0 ++ enc_le 8 (i_size ip).

(** One turn of readi()'s loop: the destination, the offset, the bytes read and
    those that went to a kernel object. *)
Definition readi_step (i : nat) (n : Z) '((dst, off, tot, acc) : dest * Z * Z * list Z) :
    K (dest * Z * Z * list Z + Z * list Z) :=
  if tot <? n then
    addr <- bmap i (off / BSIZE);;
    if addr =? 0 then ret (inr (tot, acc))
    else
      ip <- geti i;;
      bp <- bread (i_dev ip) addr;;
      let m := Z.min (n - tot) (BSIZE - off mod BSIZE) in
      d <- bdata bp;;
      let* (r, bs) := either_copyout dst (slice d (Z.to_nat (off mod BSIZE)) (Z.to_nat m)) in
      brelse bp;;
      if r =? -1 then ret (inr (-1, acc))
      else ret (inl (dest_add dst m, u32 (off + m), u32 (tot + m), acc ++ bs))
  else ret (inr (tot, acc)).

(** Every turn but the last fills a block. *)
Definition readi (i : nat) (dst : dest) (off n : Z) : K (Z * list Z) :=
  ip <- geti i;;
  if (i_size ip <? off) || (u32 (off + n) <? off) then ret (0, [])
  else
    let n := if i_size ip <? u32 (off + n) then u32 (i_size ip - off) else n in
    loop (Z.to_nat (n / BSIZE + 3)) (readi_step i n) (dst, off, 0, []).

Definition writei_step (i : nat) (n : Z) '((src, off, tot) : source * Z * Z) :
    K (source * Z * Z + Z * Z) :=
  if tot <? n then
    addr <- bmap i (off / BSIZE);;
    if addr =? 0 then ret (inr (tot, off))
    else
      ip <- geti i;;
      bp <- bread (i_dev ip) addr;;
      let m := Z.min (n - tot) (BSIZE - off mod BSIZE) in
      let* (r, bs) := either_copyin src m in
      set_bdata bp (fun d => splice d (Z.to_nat (off mod BSIZE)) bs);;
      if r =? -1 then brelse bp;; ret (inr (tot, off))
      else
        log_write bp;;
        brelse bp;;
        ret (inl (source_add src m, u32 (off + m), u32 (tot + m)))
  else ret (inr (tot, off)).

Definition writei (i : nat) (src : source) (off n : Z) : K Z :=
  ip <- geti i;;
  if (i_size ip <? off) || (u32 (off + n) <? off) then ret (-1)
  else if MAXFILE * BSIZE <? u32 (off + n) then ret (-1)
  else
    let* (tot, off) := loop (Z.to_nat (n / BSIZE + 3)) (writei_step i n) (src, off, 0) in
    ip <- geti i;;
    when (i_size ip <? off) (updi i (set_i_size off));;
    iupdate i;;
    ret (i32 tot).

(** ** Directories *)

Definition namecmp (s t : list Z) : Z := strncmp_l DIRSIZ s t.

(** [struct dirent] *)
Definition de_inum (de : list Z) : Z := rd 2 de 0.
Definition de_name (de : list Z) : list Z := slice de 2 DIRSIZ.
Definition mk_dirent (inum : Z) (name : list Z) : list Z := enc_le 2 inum ++ strncpy_l DIRSIZ name.

(** The offsets of the entries of a directory of a given size. *)
Definition dir_offs (size : Z) : list Z :=
  map (fun k => Z.of_nat k * sizeof_dirent) (seq 0 (Z.to_nat ((size + sizeof_dirent - 1) / sizeof_dirent))).

(** The inode and the offset of its entry. *)
Definition dirlookup (dp : nat) (name : list Z) : K (option (nat * Z)) :=
  d <- geti dp;;
  if negb (i_type d =? T_DIR) then panic "dirlookup not DIR"
  else
    for_find (dir_offs (i_size d)) (fun off =>
      let* (r, de) := readi dp ToObj off sizeof_dirent in
      if negb (r =? sizeof_dirent) then panic "dirlookup read"
      else if de_inum de =? 0 then ret None
      else if namecmp name (de_name de) =? 0 then
        d <- geti dp;;
        ip <- iget (i_dev d) (de_inum de);;
        ret (Some (ip, off))
      else ret None).

Definition dirlink (dp : nat) (name : list Z) (inum : Z) : K Z :=
  r <- dirlookup dp name;;
  match r with
  | Some (ip, _) => iput (Some ip);; ret (-1)
  | None =>
      d <- geti dp;;
      r <- for_find (dir_offs (i_size d)) (fun off =>
        let* (r, de) := readi dp ToObj off sizeof_dirent in
        if negb (r =? sizeof_dirent) then panic "dirlink read"
        else if de_inum de =? 0 then ret (Some off) else ret None);;
      let off := default (Z.of_nat (length (dir_offs (i_size d))) * sizeof_dirent) r in
      w <- writei dp (FromObj (mk_dirent inum name)) off sizeof_dirent;;
      if negb (w =? sizeof_dirent) then ret (-1) else ret 0
  end.

(** ** Paths *)

(** A path is the bytes before its NUL. *)
Definition SLASH : Z := 47.

Fixpoint skip_slashes (path : list Z) : list Z :=
  match path with
  | c :: path' => if c =? SLASH then skip_slashes path' else path
  | [] => []
  end.

(** The element at the start of a path and what follows it. *)
Fixpoint split_elem (path : list Z) : list Z * list Z :=
  match path with
  | [] => ([], [])
  | c :: path' => if c =? SLASH then ([], path)
                  else let '(e, r) := split_elem path' in (c :: e, r)
  end.

(** The rest of the path and the new contents of [name]. *)
Definition skipelem (path name : list Z) : option (list Z * list Z) :=
  match skip_slashes path with
  | [] => None
  | path =>
      let '(s, path) := split_elem path in
      let name := if (DIRSIZ <=? length s)%nat then splice name 0 (take DIRSIZ s)
                  else splice name 0 (s ++ [0]) in
      Some (skip_slashes path, name)
  end.

(** The loop ends because every element shortens the path. *)
Fixpoint namex_loop (fuel : nat) (ip : nat) (path : list Z) (nameiparent : bool) (name : list Z) :
    K (option nat * list Z) :=
  match fuel with
  | O => stop
  | S fuel' =>
      match skipelem path name with
      | None =>
          if nameiparent then iput (Some ip);; ret (None, name)
          else ret (Some ip, name)
      | Some (path, name) =>
          ilock (Some ip);;
          x <- geti ip;;
          if negb (i_type x =? T_DIR) then iunlockput (Some ip);; ret (None, name)
          else if nameiparent && bool_decide (path = []) then iunlock (Some ip);; ret (Some ip, name)
          else
            next <- dirlookup ip name;;
            match next with
            | None => iunlockput (Some ip);; ret (None, name)
            | Some (next, _) =>
                iunlockput (Some ip);;
                namex_loop fuel' next path nameiparent name
            end
      end
  end.

Definition namex (path : list Z) (nameiparent : bool) (name : list Z) : K (option nat * list Z) :=
  ip <- (if hd 0 path =? SLASH then iget ROOTDEV ROOTINO
         else
           p <- curproc;;
           pr <- getp p;;
           cwd <- deref (p_cwd pr);;
           idup cwd);;
  namex_loop (S (length path)) ip path nameiparent name.

(** The arrays [name] are uninitialised locals of the callers. *)
Definition namei (path : list Z) : K (option nat) :=
  r <- namex path false (replicate DIRSIZ 0);; ret (fst r).

Definition nameiparent (path name : list Z) : K (option nat * list Z) := namex path true name.

End fs.
