(* ===== verification/FsSpec.v ===== *)
(** * What the file system's data formats and searches mean (kernel/fs.c)

    Path elements, directory entries, on-disk inodes and the block bitmap: the
    pure parts of fs.c against their specifications. *)

From S2P Require Import Prelude Riscv Bytes Kstate Bio Fs.

(** ** Paths *)

(** The pieces of a path between its slashes, empty ones included. *)
Fixpoint pieces (path : list Z) : list (list Z) :=
  match path with
  | [] => [[]]
  | c :: path' =>
      if c =? SLASH then [] :: pieces path'
      else match pieces path' with
           | x :: xs => (c :: x) :: xs
           | [] => [[c]]
           end
  end.

Definition nonempty (l : list Z) : bool := match l with [] => false | _ => true end.
Definition elems (path : list Z) : list (list Z) := List.filter nonempty (pieces path).

Lemma elems_slash path : elems (SLASH :: path) = elems path.
Proof. done. Qed.

Lemma skip_slashes_elems path : elems (skip_slashes path) = elems path.
Proof.
  induction path as [|c path IH]; [done|]. simpl. destruct (Z.eqb_spec c SLASH) as [->|]; [|done].
  by rewrite IH, elems_slash.
Qed.

Lemma skip_slashes_shorter path : (length (skip_slashes path) <= length path)%nat.
Proof. induction path as [|c path IH]; simpl; [lia|]. destruct (c =? SLASH); simpl; lia. Qed.

Lemma skip_slashes_head path c r : skip_slashes path = c :: r -> c <> SLASH.
Proof.
  induction path as [|d path IH]; simpl; [done|]. destruct (Z.eqb_spec d SLASH); [done|].
  by intros [= -> _].
Qed.

Lemma split_elem_spec path e r : split_elem path = (e, r) ->
  path = e ++ r /\ Forall (fun c => c <> SLASH) e /\ (r = [] \/ exists r', r = SLASH :: r').
Proof.
  revert e r. induction path as [|c path IH]; intros e r; simpl.
  - intros [= <- <-]. split_and!; [done|done|by left].
  - destruct (Z.eqb_spec c SLASH) as [->|Hc].
    + intros [= <- <-]. split_and!; [done|done|right; by eexists].
    + destruct (split_elem path) as [e' r']. intros [= <- <-].
      destruct (IH e' r' eq_refl) as (-> & Hf & Hr). split_and!; [done|by constructor|done].
Qed.

Lemma pieces_app e r : Forall (fun c => c <> SLASH) e -> r = [] \/ (exists r', r = SLASH :: r') ->
  exists x, pieces (e ++ r) = e :: x /\ List.filter nonempty x = elems r.
Proof.
  intros He Hr. induction He as [|c e Hc _ IH]; simpl.
  - destruct Hr as [->|[r' ->]]; [by exists []|]. exists (pieces r'). by rewrite elems_slash.
  - destruct (Z.eqb_spec c SLASH); [done|]. destruct IH as (x & -> & Hx). by exists x.
Qed.

Lemma cstr_nozero l : Forall (fun c => c <> 0) l -> cstr l = l.
Proof. induction 1 as [|c l Hc _ IH]; [done|]. simpl. destruct (Z.eqb_spec c 0); [done|]. by rewrite IH. Qed.

Lemma cstr_app_zero l r : Forall (fun c => c <> 0) l -> cstr (l ++ 0 :: r) = l.
Proof. induction 1 as [|c l Hc _ IH]; [done|]. simpl. destruct (Z.eqb_spec c 0); [done|]. by rewrite IH. Qed.

(** skipelem() takes the first element off a path: it finds none iff the path
    has no elements, and otherwise leaves a path with the remaining elements and
    no leading slash, shorter than before, and puts the element, cut at DIRSIZ
    bytes, in name. *)
Theorem skipelem_elems path name :
  Forall (fun c => c <> 0) path -> length name = DIRSIZ ->
  match skipelem path name with
  | None => elems path = []
  | Some (rest, name') => exists e,
      elems path = e :: elems rest /\ cstr name' = take DIRSIZ e /\ length name' = DIRSIZ /\
      (length rest < length path)%nat /\ (forall r, rest <> SLASH :: r) /\ Forall (fun c => c <> 0) rest
  end.
Proof.
  intros Hnz Hn. unfold skipelem. pose proof (skip_slashes_elems path) as He.
  pose proof (skip_slashes_shorter path) as Hsh.
  assert (Hss : forall p, Forall (fun c => c <> 0) p -> Forall (fun c => c <> 0) (skip_slashes p)).
  { intros p Hp. induction Hp as [|c p Hc Hp IH]; [done|]. simpl. destruct (c =? SLASH); [done|by constructor]. }
  pose proof (Hss path Hnz) as Hnz'. destruct (skip_slashes path) as [|c p] eqn:Hp; [by rewrite <- He|].
  pose proof (skip_slashes_head path c p Hp) as Hc. destruct (split_elem (c :: p)) as [e r] eqn:Hsp.
  destruct (split_elem_spec (c :: p) e r Hsp) as (Happ & Hf & Hr).
  assert (Hne : exists d e', e = d :: e').
  { destruct e as [|d e']; [|by eexists _, _]. simpl in Happ. destruct Hr as [->|[r' ->]]; congruence. }
  assert (Hlen : (length r < length path)%nat).
  { destruct Hne as (d & e' & ->). apply (f_equal length) in Happ. rewrite length_app in Happ. simpl in Happ, Hsh. lia. }
  rewrite Happ in Hnz'. apply Forall_app in Hnz' as [Hze Hzr].
  exists e. split_and!.
  - rewrite <- He, Happ. destruct (pieces_app e r Hf Hr) as (x & Hx & Hfx). unfold elems at 1. rewrite Hx.
    destruct Hne as (d & e' & ->). simpl. by rewrite Hfx, skip_slashes_elems.
  - destruct (Nat.leb_spec DIRSIZ (length e)).
    + unfold splice. rewrite length_take, Nat.min_l, drop_ge, app_nil_r by lia. simpl.
      apply cstr_nozero. by apply Forall_take.
    + unfold splice. simpl. rewrite <- app_assoc. simpl. rewrite cstr_app_zero by done.
      by rewrite take_ge by lia.
  - destruct (Nat.leb_spec DIRSIZ (length e)); rewrite splice_length; rewrite ?length_take, ?length_app; cbn [length]; lia.
  - pose proof (skip_slashes_shorter r). lia.
  - intros q Hq. by apply skip_slashes_head in Hq.
  - by apply Hss.
Qed.

Lemma skipelem_elems_witness :
  match skipelem (bytes_of_string "///a//bb") (replicate DIRSIZ 0) with
  | None => False
  | Some (rest, name') => rest = bytes_of_string "bb" /\ cstr name' = bytes_of_string "a"
  end.
Proof.
  pose proof (skipelem_elems (bytes_of_string "///a//bb") (replicate DIRSIZ 0)
    ltac:(repeat constructor; discriminate) eq_refl) as H.
  destruct (skipelem _ _) as [[rest name']|] eqn:He; [|discriminate H].
  destruct H as (e & H1 & H2 & _). vm_compute in He. injection He as <- <-. split; reflexivity.
Defined.

(** ** On-disk inodes *)

(** The values the fields of a [struct dinode] can hold. *)
Definition is_short (z : Z) : Prop := -2 ^ 15 <= z < 2 ^ 15.
Definition is_uint (z : Z) : Prop := 0 <= z < 2 ^ 32.

Definition dinode_ok (di : dinode) : Prop :=
  is_short (di_type di) /\ is_short (di_major di) /\ is_short (di_minor di) /\ is_short (di_nlink di) /\
  is_uint (di_size di) /\ Forall is_uint (di_addrs di) /\ length (di_addrs di) = 13%nat.

Lemma i16_mod z : is_short z -> i16 (z mod 2 ^ 16) = z.
Proof.
  unfold is_short, i16, signed. intros H. rewrite Z.mod_mod by lia.
  change (16 - 1) with 15. destruct (Z.ltb_spec (z mod 2 ^ 16) (2 ^ 15)) as [Hl|Hl].
  - destruct (Z_lt_le_dec z 0); [|rewrite Z.mod_small; lia].
    rewrite <- (Z.mod_add z 1), Z.mod_small in Hl by lia. lia.
  - destruct (Z_lt_le_dec z 0); [|rewrite Z.mod_small in Hl; lia].
    rewrite <- (Z.mod_add z 1), Z.mod_small by lia. lia.
Qed.

Lemma uint_mod z : is_uint z -> z mod 2 ^ 32 = z.
Proof. intros. by apply Z.mod_small. Qed.

Lemma rd_slice n l off o : 0 <= o -> 0 <= off ->
  rd n l (o + off) = dec_le (take n (drop (Z.to_nat off) (drop (Z.to_nat o) l))).
Proof. intros. unfold rd, slice. rewrite drop_drop. do 3 f_equal. lia. Qed.

Lemma dec_field n v (xs ys l : list Z) k : l = xs ++ enc_le n v ++ ys -> length xs = k ->
  dec_le (take n (drop k l)) = v mod 2 ^ (8 * Z.of_nat n).
Proof.
  intros -> <-. rewrite drop_app_length. rewrite take_app_le by (by rewrite enc_le_length).
  rewrite take_ge by (by rewrite enc_le_length). apply dec_enc_le.
Qed.

Lemma enc_addrs_length l : length (flat_map (enc_le 4) l) = (4 * length l)%nat.
Proof. induction l as [|a l IH]; [done|]. cbn [flat_map length]. rewrite length_app, enc_le_length, IH. lia. Qed.

Lemma dinode_bytes_length di : length (di_addrs di) = 13%nat -> length (dinode_bytes di) = 64%nat.
Proof.
  intros H. unfold dinode_bytes. rewrite !length_app, !enc_le_length, enc_addrs_length, H. done.
Qed.

Lemma dec_addrs l k a xs ys z : l !! k = Some a -> z = xs ++ flat_map (enc_le 4) l ++ ys ->
  dec_le (take 4 (drop (length xs + 4 * k) z)) = a mod 2 ^ 32.
Proof.
  revert k xs. induction l as [|b l IH]; intros k xs Hk ->; [done|]. cbn [flat_map].
  destruct k as [|k]; cbn [lookup list_lookup] in Hk.
  - injection Hk as ->. rewrite Nat.mul_0_r, Nat.add_0_r. eapply (dec_field 4); [|done]. by rewrite <- app_assoc.
  - specialize (IH k (xs ++ enc_le 4 b)). rewrite length_app, enc_le_length in IH.
    replace (length xs + 4 * S k)%nat with (length xs + 4 + 4 * k)%nat by lia.
    apply IH; [done|]. by rewrite <- !app_assoc.
Qed.

(** The fields of an inode, read back from its 64 bytes. *)
Lemma dinode_of_bytes_id di pre post : dinode_ok di ->
  dinode_of_bytes (pre ++ dinode_bytes di ++ post) (Z.of_nat (length pre)) = di.
Proof.
  intros (Ht & Hma & Hmi & Hn & Hs & Ha & Hl). unfold dinode_of_bytes.
  assert (Hrd : forall n off, 0 <= off -> rd n (pre ++ dinode_bytes di ++ post) (Z.of_nat (length pre) + off) =
    dec_le (take n (drop (Z.to_nat off) (dinode_bytes di ++ post)))).
  { intros n off Ho. rewrite rd_slice by lia. by rewrite Nat2Z.id, drop_app_length. }
  rewrite <- (Z.add_0_r (Z.of_nat (length pre))) at 1. rewrite !Hrd by lia.
  destruct di as [t ma mi n sz ad]. cbn [di_type di_major di_minor di_nlink di_size di_addrs] in *. f_equal.
  - erewrite (dec_field 2 t []); [by apply i16_mod|reflexivity|done].
  - erewrite (dec_field 2 ma (enc_le 2 t)); [by apply i16_mod|reflexivity|done].
  - erewrite (dec_field 2 mi (enc_le 2 t ++ enc_le 2 ma)); [by apply i16_mod|reflexivity|done].
  - erewrite (dec_field 2 n (enc_le 2 t ++ enc_le 2 ma ++ enc_le 2 mi)); [by apply i16_mod|reflexivity|done].
  - erewrite (dec_field 4 sz (enc_le 2 t ++ enc_le 2 ma ++ enc_le 2 mi ++ enc_le 2 n));
      [by apply uint_mod|reflexivity|done].
  - apply list_eq. intros k. rewrite list_lookup_fmap. destruct (decide (k < 13)%nat) as [Hk|Hk].
    + rewrite lookup_seq_lt by done. destruct (lookup_lt_is_Some_2 ad k) as [a Hak]; [lia|]. rewrite Hak.
      cbn [fmap option_fmap option_map]. f_equal. rewrite <- Z.add_assoc, Hrd by lia.
      replace (Z.to_nat (12 + 4 * Z.of_nat (0 + k))) with
        (length (enc_le 2 t ++ enc_le 2 ma ++ enc_le 2 mi ++ enc_le 2 n ++ enc_le 4 sz) + 4 * k)%nat
        by (rewrite !length_app, !enc_le_length; lia).
      erewrite dec_addrs; [|done|reflexivity]. apply uint_mod. by eapply Forall_lookup_1 in Hak.
    + rewrite lookup_seq_ge by lia. rewrite lookup_ge_None_2 by lia. done.
Qed.

Lemma dinode_off_bounds inum : 0 <= dinode_off inum /\ dinode_off inum + 64 <= BSIZE.
Proof. unfold dinode_off, IPB, sizeof_dinode, BSIZE. change (1024 / 64) with 16. pose proof (Z.mod_pos_bound inum 16). lia. Qed.

Lemma dinode_of_bytes_ext d d' o : 0 <= o ->
  slice d (Z.to_nat o) 64 = slice d' (Z.to_nat o) 64 -> dinode_of_bytes d o = dinode_of_bytes d' o.
Proof.
  intros Ho H. assert (Hr : forall n k, 0 <= k -> k + Z.of_nat n <= 64 -> rd n d (o + k) = rd n d' (o + k)).
  { intros n k Hk Hn. rewrite !rd_slice by lia. f_equal. unfold slice in H.
    assert (Hs : forall l : list Z, take n (drop (Z.to_nat k) l) = take n (drop (Z.to_nat k) (take 64 l))).
    { intros l. rewrite !take_drop_commute, take_take. do 2 f_equal. lia. }
    rewrite Hs, (Hs (drop (Z.to_nat o) d')). by rewrite H. }
  unfold dinode_of_bytes. rewrite <- (Z.add_0_r o) at 1 6. rewrite !Hr by lia. f_equal.
  apply map_ext_in. intros k Hk. apply in_seq in Hk. rewrite <- Z.add_assoc. apply Hr; lia.
Qed.

(** Writing an inode into its block. *)
Lemma put_dinode_spec d inum di :
  length d = Z.to_nat BSIZE -> 0 <= inum -> dinode_ok di ->
  let d' := put_dinode d (dinode_off inum) di in
  length d' = Z.to_nat BSIZE /\
  dinode_of_bytes d' (dinode_off inum) = di /\
  forall j, 0 <= j -> j <> inum -> j / IPB = inum / IPB ->
    dinode_of_bytes d' (dinode_off j) = dinode_of_bytes d (dinode_off j).
Proof.
  intros Hd Hi Hdi d'. destruct (dinode_off_bounds inum) as [Ho Ho']. set (o := dinode_off inum) in *.
  assert (Hl : length (dinode_bytes di) = 64%nat) by (apply dinode_bytes_length, Hdi).
  assert (Hb : (Z.to_nat o + length (dinode_bytes di) <= length d)%nat) by (rewrite Hl, Hd; lia).
  split_and!.
  - unfold d', put_dinode. rewrite splice_length; done.
  - unfold d', put_dinode, splice. rewrite <- (dinode_of_bytes_id di (take (Z.to_nat o) d)
      (drop (Z.to_nat o + length (dinode_bytes di)) d) Hdi) at 3. f_equal. rewrite length_take. lia.
  - intros j Hj Hne Hblk. destruct (dinode_off_bounds j) as [Hp Hp']. apply dinode_of_bytes_ext; [done|].
    unfold d', put_dinode. apply slice_splice_out; [done|]. rewrite Hl.
    assert (j mod IPB <> inum mod IPB).
    { intros Hm. apply Hne. rewrite (Z.div_mod j IPB), (Z.div_mod inum IPB) by done. congruence. }
    unfold o, dinode_off, sizeof_dinode in *. lia.
Qed.

(** An inode that iupdate() writes into its block is read back by ilock()
    with every field intact, and no other inode of the block changes. *)
Theorem dinode_roundtrip d inum di :
  length d = Z.to_nat BSIZE -> 0 <= inum -> dinode_ok di ->
  let d' := put_dinode d (dinode_off inum) di in
  length d' = Z.to_nat BSIZE /\
  dinode_of_bytes d' (dinode_off inum) = di /\
  forall j, 0 <= j -> j <> inum -> j / IPB = inum / IPB ->
    dinode_of_bytes d' (dinode_off j) = dinode_of_bytes d (dinode_off j).
Proof. apply put_dinode_spec. Qed.

Lemma dinode_roundtrip_witness :
  let di := mkdinode T_FILE 0 0 1 1234 (map Z.of_nat (seq 40 13)) in
  let d' := put_dinode (replicate 1024 7) (dinode_off 17) di in
  dinode_of_bytes d' (dinode_off 17) = di /\
  dinode_of_bytes d' (dinode_off 18) = dinode_of_bytes (replicate 1024 7) (dinode_off 18).
Proof.
  pose proof (dinode_roundtrip (replicate 1024 7) 17 (mkdinode T_FILE 0 0 1 1234 (map Z.of_nat (seq 40 13)))
    eq_refl ltac:(lia)) as H.
  destruct H as (_ & H1 & H2).
  - unfold dinode_ok, is_short, is_uint, T_FILE. simpl. split_and!; try lia.
    repeat (apply Forall_cons_2; [lia|]). apply Forall_nil_2.
  - split; [exact H1|]. apply H2; [lia|lia|reflexivity].
Defined.

(** ** Directory entries *)

Lemma cstr_notin l : Forall (fun c => c <> 0) (cstr l).
Proof. induction l as [|c l IH]; simpl; [constructor|]. destruct (Z.eqb_spec c 0); by constructor. Qed.

Lemma cstr_hd l : hd 0 l <> 0 -> cstr l = hd 0 l :: cstr (tail l).
Proof. destruct l as [|c l]; [done|]. simpl. intros. by destruct (Z.eqb_spec c 0). Qed.

Lemma cstr_hd0 l : hd 0 l = 0 -> cstr l = [].
Proof. destruct l as [|c l]; [done|]. simpl. by intros ->. Qed.

Lemma i32_sub_0 a b : 0 <= a < 256 -> 0 <= b < 256 -> i32 (a - b) = 0 <-> a = b.
Proof.
  intros Ha Hb. unfold i32, signed. change (32 - 1) with 31. destruct (Z_lt_le_dec (a - b) 0).
  - rewrite <- (Z.mod_add (a - b) 1) by lia. rewrite Z.mod_small by lia. destruct (Z.ltb_spec (a - b + 1 * 2 ^ 32) (2 ^ 31)); lia.
  - rewrite Z.mod_small by lia. destruct (Z.ltb_spec (a - b) (2 ^ 31)); lia.
Qed.

(** strncmp() finds two strings equal iff their first n bytes are. *)
Lemma strncmp_l_0 n p q : Forall (fun c => 0 <= c < 256) p -> Forall (fun c => 0 <= c < 256) q ->
  strncmp_l n p q = 0 <-> take n (cstr p) = take n (cstr q).
Proof.
  revert p q. induction n as [|n IH]; intros p q Hp Hq; [done|]. cbn [strncmp_l].
  assert (Hh : forall l, Forall (fun c => 0 <= c < 256) l -> 0 <= hd 0 l < 256 /\ Forall (fun c => 0 <= c < 256) (tail l)).
  { intros l Hl. destruct Hl; simpl; [split; [lia|constructor]|done]. }
  destruct (Hh p Hp) as [Hp1 Hp2], (Hh q Hq) as [Hq1 Hq2].
  destruct (Z.eqb_spec (hd 0 p) 0) as [Hp0|Hp0]; [|destruct (Z.eqb_spec (hd 0 p) (hd 0 q)) as [He|He]]; simpl.
  - rewrite i32_sub_0 by done. rewrite (cstr_hd0 p), Hp0 by done. split.
    + intros Hq0. by rewrite cstr_hd0.
    + intros H. destruct (Z.eq_dec (hd 0 q) 0); [done|]. by rewrite (cstr_hd q) in H.
  - rewrite IH by done. rewrite (cstr_hd p), (cstr_hd q), <- He by congruence. simpl. split; congruence.
  - rewrite i32_sub_0 by done. split; [done|]. rewrite (cstr_hd p) by done. intros H.
    destruct (Z.eq_dec (hd 0 q) 0) as [Hq0|Hq0]; [by rewrite (cstr_hd0 q) in H|].
    rewrite (cstr_hd q) in H by done. simpl in H. congruence.
Qed.

Lemma strncpy_l_length n t : length (strncpy_l n t) = n.
Proof. unfold strncpy_l. rewrite length_app, length_replicate, length_take. lia. Qed.

Lemma cstr_strncpy n t : cstr (strncpy_l n t) = take n (cstr t).
Proof.
  unfold strncpy_l. assert (Hf : Forall (fun c => c <> 0) (take n (cstr t))) by apply Forall_take, cstr_notin.
  destruct (n - length (take n (cstr t)))%nat; simpl.
  - rewrite app_nil_r. by apply cstr_nozero.
  - by apply cstr_app_zero.
Qed.

Lemma cstr_length l : (length (cstr l) <= length l)%nat.
Proof. induction l as [|c l IH]; simpl; [done|]. case_match; simpl; lia. Qed.

Lemma Forall_cstr (P : Z -> Prop) l : Forall P l -> Forall P (cstr l).
Proof. induction 1 as [|c l Hc _ IH]; simpl; [constructor|]. destruct (c =? 0); by constructor. Qed.

(** The entry that dirlink() writes has 16 bytes and holds the inode number
    and the name: dirlookup()'s comparison finds it under the names that agree
    with it in the first DIRSIZ bytes, and under no others. *)
Theorem dirent_roundtrip inum name key :
  0 <= inum < 2 ^ 16 -> Forall (fun c => 0 <= c < 256) name -> Forall (fun c => 0 <= c < 256) key ->
  let de := mk_dirent inum name in
  Z.of_nat (length de) = sizeof_dirent /\ de_inum de = inum /\
  (namecmp key (de_name de) = 0 <-> take DIRSIZ (cstr key) = take DIRSIZ (cstr name)).
Proof.
  intros Hi Hn Hk de. unfold de, mk_dirent. split_and!.
  - rewrite length_app, enc_le_length, strncpy_l_length. done.
  - unfold de_inum, rd, slice. change (Z.to_nat 0) with 0%nat. rewrite (dec_field 2 inum [] (strncpy_l DIRSIZ name)) by done.
    by apply Z.mod_small.
  - unfold namecmp, de_name, slice. rewrite drop_app_length' by done.
    rewrite take_ge by (by rewrite strncpy_l_length). rewrite strncmp_l_0; [|done|].
    + by rewrite cstr_strncpy, take_take, Nat.min_id.
    + unfold strncpy_l. apply Forall_app. split; [by apply Forall_take, Forall_cstr|].
      apply Forall_replicate. lia.
Qed.

Lemma dirent_roundtrip_witness :
  namecmp (bytes_of_string "a_name_of_14_b_and_more") (de_name (mk_dirent 7 (bytes_of_string "a_name_of_14_b"))) = 0 /\
  namecmp (bytes_of_string "console") (de_name (mk_dirent 7 (bytes_of_string "cons"))) <> 0.
Proof.
  assert (Hb : forall s, Forall (fun c => 0 <= c < 256) (bytes_of_string s)).
  { intros s. induction s as [|c s IH]; simpl; constructor; [|done]. pose proof (Ascii.nat_ascii_bounded c). lia. }
  split.
  - apply (dirent_roundtrip 7 (bytes_of_string "a_name_of_14_b") (bytes_of_string "a_name_of_14_b_and_more"));
      [lia|apply Hb|apply Hb|reflexivity].
  - intros H. apply (dirent_roundtrip 7 (bytes_of_string "cons") (bytes_of_string "console")) in H;
      [vm_compute in H; discriminate H|lia|apply Hb|apply Hb].
Defined.

(** ** The block bitmap *)

(** Is block [b] of a bitmap block marked in use? *)
Definition in_use (d : list Z) (b : Z) : bool :=
  negb (Z.land (default 0 (znth d (b / 8))) (Z.shiftl 1 (b mod 8)) =? 0).

(** The search of balloc() finds the lowest free block of the bitmap's range,
    and fails only when every block of it is in use. *)
Theorem find_free_first d b n :
  match find_free d b n with
  | Some x => b <= x < b + Z.of_nat n /\ in_use d x = false /\ forall y, b <= y < x -> in_use d y = true
  | None => forall y, b <= y < b + Z.of_nat n -> in_use d y = true
  end.
Proof.
  revert b. induction n as [|n IH]; intros b; cbn [find_free]; [lia|].
  destruct (_ =? 0) eqn:Hb.
  - split_and!; [lia|lia|unfold in_use; by rewrite Hb|lia].
  - assert (Hu : in_use d b = true) by (unfold in_use; by rewrite Hb). specialize (IH (b + 1)).
    destruct (find_free d (b + 1) n) as [x|].
    + destruct IH as (H1 & H2 & H3). split_and!; [lia|lia|done|]. intros y Hy.
      destruct (Z.eq_dec y b) as [->|]; [done|]. apply H3. lia.
    + intros y Hy. destruct (Z.eq_dec y b) as [->|]; [done|]. apply IH. lia.
Qed.

Lemma in_use_bit d b : 0 <= b -> in_use d b = Z.testbit (default 0 (znth d (b / 8))) (b mod 8).
Proof.
  intros Hb. unfold in_use. set (v := default 0 (znth d (b / 8))). pose proof (Z.mod_pos_bound b 8 ltac:(lia)) as Hm.
  destruct (Z.testbit v (b mod 8)) eqn:Ht.
  - apply negb_true_iff, Z.eqb_neq. intros H0. apply (f_equal (fun z => Z.testbit z (b mod 8))) in H0.
    rewrite Z.land_spec, Ht, Z.shiftl_spec, Z.sub_diag, Z.bits_0 in H0 by lia. done.
  - apply negb_false_iff, Z.eqb_eq. apply Z.bits_inj'. intros n Hn. rewrite Z.land_spec, Z.bits_0, Z.shiftl_spec by lia.
    destruct (decide (n = b mod 8)) as [->|Hne]; [by rewrite Ht|]. replace (Z.testbit 1 (n - b mod 8)) with false; [apply andb_false_r|].
    symmetry. destruct (Z_lt_le_dec (n - b mod 8) 0); [by apply Z.testbit_neg_r|]. apply (Z.bits_above_log2 1); [lia|simpl; lia].
Qed.

(** One byte of the bitmap changes. *)
Lemma in_use_zupd d i x b : length d = 1024%nat -> 0 <= i < 8192 -> 0 <= b ->
  in_use (zupd d (i / 8) x) b = if b / 8 =? i / 8 then Z.testbit x (b mod 8) else in_use d b.
Proof.
  intros Hl Hi Hb. rewrite !in_use_bit by done. pose proof (Z.div_mod i 8 ltac:(lia)). pose proof (Z.mod_pos_bound i 8 ltac:(lia)).
  destruct (Z.eqb_spec (b / 8) (i / 8)) as [->|Hne]; [rewrite znth_zupd_eq by lia; done|by rewrite znth_zupd_ne].
Qed.

Lemma shift_bit b i : 0 <= i -> Z.testbit (Z.shiftl 1 i) b = (b =? i).
Proof.
  intros Hi. rewrite Z.shiftl_1_l. rewrite Z.pow2_bits_eqb by done. apply Z.eqb_sym.
Qed.

Lemma lor_bit d i b : 0 <= b -> b / 8 = i / 8 ->
  Z.testbit (Z.lor (default 0 (znth d (i / 8))) (Z.shiftl 1 (i mod 8))) (b mod 8) = (b =? i) || Z.testbit (default 0 (znth d (b / 8))) (b mod 8).
Proof.
  intros Hb He. pose proof (Z.mod_pos_bound i 8 ltac:(lia)). rewrite Z.lor_spec, shift_bit, He, orb_comm by lia. f_equal.
  pose proof (Z.div_mod i 8 ltac:(lia)). pose proof (Z.div_mod b 8 ltac:(lia)). destruct (Z.eqb_spec (b mod 8) (i mod 8)), (Z.eqb_spec b i); lia || done.
Qed.

(** The bit of block [i] of a bitmap block set by balloc() and cleared by bfree(). *)
Definition mark (i : Z) (d : list Z) : list Z := zupd d (i / 8) (Z.lor (default 0 (znth d (i / 8))) (Z.shiftl 1 (i mod 8))).
Definition unmark (i : Z) (d : list Z) : list Z := zupd d (i / 8) (u8 (Z.land (default 0 (znth d (i / 8))) (Z.lnot (Z.shiftl 1 (i mod 8))))).

Lemma mark_spec i d b : length d = 1024%nat -> 0 <= i < 8192 -> 0 <= b -> in_use (mark i d) b = (b =? i) || in_use d b.
Proof.
  intros Hl Hi Hb. unfold mark. rewrite in_use_zupd by done. destruct (Z.eqb_spec (b / 8) (i / 8)) as [He|Hne].
  - by rewrite lor_bit, <- in_use_bit.
  - destruct (Z.eqb_spec b i); [by subst|done].
Qed.

Lemma unmark_spec i d b : length d = 1024%nat -> 0 <= i < 8192 -> 0 <= b -> in_use (unmark i d) b = negb (b =? i) && in_use d b.
Proof.
  intros Hl Hi Hb. unfold unmark. rewrite in_use_zupd by done. pose proof (Z.mod_pos_bound i 8 ltac:(lia)). pose proof (Z.mod_pos_bound b 8 ltac:(lia)).
  destruct (Z.eqb_spec (b / 8) (i / 8)) as [He|Hne].
  - unfold u8. rewrite Z.mod_pow2_bits_low by lia. rewrite Z.land_spec, Z.lnot_spec, shift_bit, in_use_bit, He, andb_comm by lia. do 2 f_equal.
    pose proof (Z.div_mod i 8 ltac:(lia)). pose proof (Z.div_mod b 8 ltac:(lia)). destruct (Z.eqb_spec (b mod 8) (i mod 8)), (Z.eqb_spec b i); lia || done.
  - destruct (Z.eqb_spec b i); [by subst|done].
Qed.
