(* ===== verification/FsImage.v ===== *)
(** * Files on the disk

    What an inode's block addresses mean, as functions of the contents of the
    disk's blocks: the block that holds a given part of a file, the file's bytes
    and the entries of a directory.  The kernel's reads and the image that mkfs
    builds are both described by these. *)

From S2P Require Import Prelude Riscv Bytes Kstate Bio Fs FsSpec.

(** ** Blocks of a file *)

(** The address in slot [k] of an inode, and in entry [j] of a block of addresses. *)
Definition slot (addrs : list Z) (k : Z) : Z := default 0 (znth addrs k).
Definition entry (d : list Z) (j : Z) : Z := rd 4 d (4 * j).

(** The block of part [bn] of a file. *)
Definition block_of (img : Z -> list Z) (addrs : list Z) (bn : Z) : Z :=
  if bn <? NDIRECT then slot addrs bn else entry (img (slot addrs NDIRECT)) (bn - NDIRECT).

Definition file_byte (img : Z -> list Z) (addrs : list Z) (k : Z) : Z :=
  default 0 (znth (img (block_of img addrs (k / BSIZE))) (k mod BSIZE)).

Definition file_bytes (img : Z -> list Z) (addrs : list Z) (off n : Z) : list Z :=
  map (fun k => file_byte img addrs (off + Z.of_nat k)) (seq 0 (Z.to_nat n)).

Lemma file_bytes_length img addrs off n : length (file_bytes img addrs off n) = Z.to_nat n.
Proof. unfold file_bytes. by rewrite length_map, length_seq. Qed.

Lemma file_bytes_lookup img addrs off n k : (k < Z.to_nat n)%nat ->
  file_bytes img addrs off n !! k = Some (file_byte img addrs (off + Z.of_nat k)).
Proof. intros H. unfold file_bytes. rewrite list_lookup_fmap, lookup_seq_lt by done. done. Qed.

Lemma file_bytes_app img addrs off n m : 0 <= n -> 0 <= m ->
  file_bytes img addrs off (n + m) = file_bytes img addrs off n ++ file_bytes img addrs (off + n) m.
Proof.
  intros Hn Hm. unfold file_bytes. rewrite Z2Nat.inj_add, seq_app, map_app by done. f_equal.
  apply list_eq. intros i. rewrite !list_lookup_fmap. destruct (decide (i < Z.to_nat m)%nat).
  - rewrite !lookup_seq_lt by done. simpl. do 2 f_equal. lia.
  - by rewrite !lookup_seq_ge by lia.
Qed.

Lemma file_bytes_ext img img' addrs addrs' off n :
  (forall k, off <= k < off + n -> file_byte img addrs k = file_byte img' addrs' k) ->
  file_bytes img addrs off n = file_bytes img' addrs' off n.
Proof. intros H. apply map_ext_in. intros k Hk. apply in_seq in Hk. apply H. lia. Qed.

(** A part of one block. *)
Lemma file_bytes_block img addrs off m : 0 <= off -> 0 <= m -> m <= BSIZE - off mod BSIZE ->
  length (img (block_of img addrs (off / BSIZE))) = Z.to_nat BSIZE ->
  file_bytes img addrs off m = slice (img (block_of img addrs (off / BSIZE))) (Z.to_nat (off mod BSIZE)) (Z.to_nat m).
Proof.
  intros Ho Hm Hb Hl. pose proof (Z.mod_pos_bound off BSIZE ltac:(done)) as Hmod. apply list_eq. intros i. unfold slice.
  destruct (decide (i < Z.to_nat m)%nat) as [Hi|Hi].
  - rewrite file_bytes_lookup, lookup_take_lt, lookup_drop by done. unfold file_byte, znth, BSIZE in *.
    assert (Hdm : (off + Z.of_nat i) / 1024 = off / 1024 /\ (off + Z.of_nat i) mod 1024 = off mod 1024 + Z.of_nat i).
    { pose proof (Z.div_mod off 1024 ltac:(lia)) as Hdm. split.
      - symmetry. apply (Z.div_unique _ _ _ (off mod 1024 + Z.of_nat i)); lia.
      - symmetry. apply (Z.mod_unique _ _ (off / 1024)); lia. }
    destruct Hdm as [-> ->]. destruct (Z.ltb_spec (off mod 1024 + Z.of_nat i) 0); [lia|].
    replace (Z.to_nat (off mod 1024 + Z.of_nat i)) with (Z.to_nat (off mod 1024) + i)%nat by lia.
    destruct (lookup_lt_is_Some_2 (img (block_of img addrs (off / 1024))) (Z.to_nat (off mod 1024) + i)) as [x Hx]; [lia|]. by rewrite Hx.
  - rewrite lookup_ge_None_2 by (rewrite file_bytes_length; lia). by rewrite lookup_take_ge by lia.
Qed.

(** The inode on the disk. *)
Definition disk_inode (img : Z -> list Z) (sb : superblock) (inum : Z) : dinode :=
  dinode_of_bytes (img (IBLOCK inum sb)) (dinode_off inum).

(** ** Directories *)

(** The entries of a directory: offset, inode number and name, free entries left out. *)
Definition dirent_at (img : Z -> list Z) (addrs : list Z) (off : Z) : list Z := file_bytes img addrs off sizeof_dirent.

Definition dir_entries (img : Z -> list Z) (addrs : list Z) (size : Z) : list (Z * (Z * list Z)) :=
  List.filter (fun e => negb (fst (snd e) =? 0))
    (map (fun off => (off, (de_inum (dirent_at img addrs off), cstr (de_name (dirent_at img addrs off))))) (dir_offs size)).

(** The first entry of a name; names count up to DIRSIZ bytes. *)
Definition dir_find (name : list Z) (es : list (Z * (Z * list Z))) : option (Z * (Z * list Z)) :=
  List.find (fun e => bool_decide (snd (snd e) = take DIRSIZ (cstr name))) es.

Lemma filter_none {A} (p : A -> bool) l : (forall x, x ∈ l -> p x = false) -> List.filter p l = [].
Proof. intros H. induction l as [|x l IH]; [done|]. simpl. rewrite H by left. apply IH. intros y Hy. apply H. by right. Qed.
Lemma filter_all {A} (p : A -> bool) l : (forall x, x ∈ l -> p x = true) -> List.filter p l = l.
Proof. intros H. induction l as [|x l IH]; [done|]. simpl. rewrite H by left. f_equal. apply IH. intros y Hy. apply H. by right. Qed.
