(* ===== verification/FsAlloc.v ===== *)
(** * Allocation of blocks (kernel/fs.c)

    balloc(), bzero() and bfree() inside a transaction, against the bitmap read as
    a set of blocks in use. *)

From S2P Require Import Prelude Riscv Bytes Kstate CString Spinlock Kalloc Vm Sched SchedSpec Uart Sleeplock.
From S2P Require Import Bio FsRun BioSpec Log LogSpec LogOps FsTxn Fs FsSpec FsImage.

(** Is block [b] marked in use in the bitmap? *)
Definition used (S : superblock) (v : Z -> list Z) (b : Z) : bool := in_use (v (BBLOCK b S)) (b mod BPB).

(** Allocating block [b] marks it and fills it with zeros; freeing clears its mark. *)
Definition alloc (S : superblock) (b : Z) (v : Z -> list Z) : Z -> list Z :=
  fupd (fupd v (BBLOCK b S) (mark (b mod BPB) (v (BBLOCK b S)))) b zero_block.
Definition unalloc (S : superblock) (b : Z) (v : Z -> list Z) : Z -> list Z :=
  fupd v (BBLOCK b S) (unmark (b mod BPB) (v (BBLOCK b S))).

(** The disk: the log, the inodes, the bitmap, and data from block [dstart] on. *)
Record layout (st : Z) (S : superblock) (dstart : Z) : Prop := {
  ly_log : 0 <= st /\ st + LOGSIZE <= sb_inodestart S;
  ly_inodes : 0 < sb_ninodes S /\ sb_inodestart S + (sb_ninodes S - 1) / IPB < sb_bmapstart S;
  ly_bitmap : sb_bmapstart S + (sb_size S - 1) / BPB < dstart;
  ly_data : 0 < dstart /\ dstart <= sb_size S < 2 ^ 31
}.

(** The bitmap's blocks. *)
Definition is_bitmap (S : superblock) (n : Z) : Prop := sb_bmapstart S <= n <= sb_bmapstart S + (sb_size S - 1) / BPB.

Lemma mod_BPB b : 0 <= b mod BPB < 8192.
Proof. by apply Z.mod_pos_bound. Qed.

Section layout.
Context {st : Z} {S : superblock} {dstart : Z} (Hly : layout st S dstart).

Lemma ly_start : 0 <= st /\ st + 30 <= sb_inodestart S /\ sb_inodestart S < sb_bmapstart S /\ 0 < sb_bmapstart S < dstart /\ dstart < 2 ^ 31.
Proof.
  destruct Hly as [[L0 L1] [L2 L2'] L3 L4]. unfold LOGSIZE, MAXOPBLOCKS in L1. pose proof (Z.div_pos (sb_ninodes S - 1) IPB ltac:(lia) ltac:(done)).
  pose proof (Z.div_pos (sb_size S - 1) BPB ltac:(lia) ltac:(done)). lia.
Qed.

Lemma loggable_meta n : sb_inodestart S <= n < sb_size S -> loggable st n.
Proof. intros Hn. pose proof ly_start. destruct Hly as [_ _ _ L4]. unfold loggable, in_log, LOGSIZE, MAXOPBLOCKS. lia. Qed.

Lemma bblock_eq b : 0 <= b < sb_size S -> BBLOCK b S = sb_bmapstart S + b / BPB.
Proof.
  intros Hb. pose proof ly_start. destruct Hly as [_ _ L3 L4]. unfold BBLOCK, u32. pose proof (Z.div_pos b BPB ltac:(lia) ltac:(done)).
  pose proof (Z.div_le_mono b (sb_size S - 1) BPB ltac:(done) ltac:(lia)). rewrite Z.mod_small; lia.
Qed.

Lemma bblock_range b : 0 <= b < sb_size S -> is_bitmap S (BBLOCK b S) /\ BBLOCK b S < dstart /\ loggable st (BBLOCK b S).
Proof.
  intros Hb. pose proof ly_start. rewrite bblock_eq by done. destruct Hly as [_ _ L3 L4]. unfold is_bitmap. pose proof (Z.div_pos b BPB ltac:(lia) ltac:(done)).
  pose proof (Z.div_le_mono b (sb_size S - 1) BPB ltac:(done) ltac:(lia)). split; [lia|]. split; [lia|]. apply loggable_meta. lia.
Qed.

(** The marks after an allocation and after a release. *)
Lemma used_alloc v b y : (forall n, length (v n) = 1024%nat) -> dstart <= b < sb_size S -> 0 <= y < sb_size S -> used S (alloc S b v) y = (y =? b) || used S v y.
Proof.
  intros Hl Hb Hy. pose proof ly_start. destruct (bblock_range y Hy) as (_ & Hy' & _). unfold used, alloc. rewrite fupd_ne by lia.
  pose proof (mod_BPB b) as Hm. pose proof (mod_BPB y) as Hm'.
  destruct (Z.eq_dec (BBLOCK y S) (BBLOCK b S)) as [He|He].
  - rewrite He, fupd_eq, mark_spec by (done || lia). f_equal. rewrite !bblock_eq in He by lia.
    pose proof (Z.div_mod b BPB ltac:(done)). pose proof (Z.div_mod y BPB ltac:(done)). destruct (Z.eqb_spec (y mod BPB) (b mod BPB)), (Z.eqb_spec y b); (lia || done || congruence).
  - rewrite fupd_ne by done. destruct (Z.eqb_spec y b); [by subst|done].
Qed.

Lemma used_release v b y : (forall n, length (v n) = 1024%nat) -> dstart <= b < sb_size S -> 0 <= y < sb_size S -> used S (unalloc S b v) y = negb (y =? b) && used S v y.
Proof.
  intros Hl Hb Hy. pose proof ly_start. unfold used, unalloc.
  pose proof (mod_BPB b) as Hm. pose proof (mod_BPB y) as Hm'.
  destruct (Z.eq_dec (BBLOCK y S) (BBLOCK b S)) as [He|He].
  - rewrite He, fupd_eq, unmark_spec by (done || lia). do 2 f_equal. rewrite !bblock_eq in He by lia.
    pose proof (Z.div_mod b BPB ltac:(done)). pose proof (Z.div_mod y BPB ltac:(done)). destruct (Z.eqb_spec (y mod BPB) (b mod BPB)), (Z.eqb_spec y b); (lia || done || congruence).
  - rewrite fupd_ne by done. destruct (Z.eqb_spec y b); [by subst|done].
Qed.

Lemma alloc_other v b n : dstart <= b < sb_size S -> ~ is_bitmap S n -> n <> b -> alloc S b v n = v n.
Proof.
  intros Hb Hn Hne. pose proof ly_start. unfold alloc. rewrite !fupd_ne; [done| |done]. intros ->. apply Hn. apply bblock_range. lia.
Qed.

Lemma release_other v b n : dstart <= b < sb_size S -> ~ is_bitmap S n -> unalloc S b v n = v n.
Proof. intros Hb Hn. pose proof ly_start. unfold unalloc. rewrite fupd_ne; [done|]. intros ->. apply Hn. apply bblock_range. lia. Qed.

End layout.

(** ** The search for a free block *)

Section search.
Context {st : Z} {S : superblock} {dstart : Z} (Hly : layout st S dstart) (v : Z -> list Z).

(** The first blocks that the bitmap's blocks describe. *)
Definition bases : list Z := map (fun k => Z.of_nat k * BPB) (seq 0 (Z.to_nat ((sb_size S + BPB - 1) / BPB))).

Lemma bases_lookup k b : bases !! k = Some b <-> b = Z.of_nat k * BPB /\ b < sb_size S.
Proof.
  unfold bases. rewrite list_lookup_fmap. pose proof (ly_data _ _ _ Hly) as Hd. unfold BPB, BSIZE.
  pose proof (Z.div_mod (sb_size S + 1024 * 8 - 1) (1024 * 8) ltac:(lia)). pose proof (Z.mod_pos_bound (sb_size S + 1024 * 8 - 1) (1024 * 8) ltac:(lia)).
  split.
  - intros H1. destruct (seq _ _ !! k) as [x|] eqn:Hx; [|done]. apply lookup_seq in Hx as [-> Hk]. injection H1 as <-. split; [done|]. lia.
  - intros [-> Hs]. rewrite lookup_seq_lt by lia. done.
Qed.

Lemma bases_in b : b ∈ bases -> 0 <= b < sb_size S /\ b mod BPB = 0.
Proof.
  intros Hb. apply list_elem_of_lookup in Hb as (k & Hk). apply bases_lookup in Hk as [-> Hk]. split; [unfold BPB, BSIZE in *; lia|]. by apply Z.mod_mul.
Qed.

Lemma bases_base y : 0 <= y < sb_size S -> y / BPB * BPB ∈ bases.
Proof.
  intros Hy. apply (list_elem_of_lookup_2 _ (Z.to_nat (y / BPB))), bases_lookup. pose proof (Z.div_mod y BPB ltac:(done)). pose proof (mod_BPB y).
  pose proof (Z.div_pos y BPB ltac:(lia) ltac:(done)). split; [by rewrite Z2Nat.id|lia].
Qed.

Lemma bases_before l1 b l2 y : bases = l1 ++ b :: l2 -> 0 <= y < b -> y / BPB * BPB ∈ l1.
Proof.
  intros Hl Hy. assert (Hb : bases !! length l1 = Some b) by (by rewrite Hl, list_lookup_middle). apply bases_lookup in Hb as [Hb Hs].
  pose proof (bases_base y ltac:(lia)) as Hin. rewrite Hl in Hin. apply elem_of_app in Hin as [Hin|Hin]; [done|]. exfalso.
  apply list_elem_of_lookup in Hin as (k & Hk). assert (Hk' : bases !! (length l1 + k)%nat = Some (y / BPB * BPB)).
  { by rewrite Hl, lookup_app_r, Nat.add_comm, Nat.add_sub by lia. }
  apply bases_lookup in Hk' as [Hk' _]. pose proof (Z.div_mod y BPB ltac:(done)). pose proof (mod_BPB y). unfold BPB, BSIZE in *. lia.
Qed.

Definition search (b : Z) : option Z := find_free (v (BBLOCK b S)) 0 (Z.to_nat (Z.min BPB (sb_size S - b))).

Lemma same_bitmap b i : b mod BPB = 0 -> 0 <= b -> 0 <= i < BPB -> (b + i) mod BPB = i /\ BBLOCK (b + i) S = BBLOCK b S.
Proof.
  intros Hb H0 Hi. pose proof (Z.div_mod b BPB ltac:(done)). assert (Hd : (b + i) / BPB = b / BPB) by (symmetry; apply (Z.div_unique _ _ _ i); lia).
  split; [symmetry; apply (Z.mod_unique _ _ (b / BPB)); lia|]. unfold BBLOCK. by rewrite Hd.
Qed.

Lemma search_spec b : b ∈ bases ->
  match search b with
  | Some i => 0 <= i < BPB /\ b + i < sb_size S /\ used S v (b + i) = false /\ forall y, b <= y < b + i -> used S v y = true
  | None => forall y, b <= y < Z.min (b + BPB) (sb_size S) -> used S v y = true
  end.
Proof.
  intros Hin. apply bases_in in Hin as [Hb Hm]. unfold search. pose proof (find_free_first (v (BBLOCK b S)) 0 (Z.to_nat (Z.min BPB (sb_size S - b)))) as Hf.
  assert (Hu : forall y, b <= y < b + BPB -> used S v y = in_use (v (BBLOCK b S)) (y - b)).
  { intros y Hy. destruct (same_bitmap b (y - b) Hm) as [H1 H2]; [lia|lia|]. unfold used. replace (b + (y - b)) with y in * by lia. by rewrite H1, H2. }
  assert (0 < BPB) by done. destruct (find_free _ _ _) as [i|].
  - destruct Hf as (H1 & H2 & H3). split_and!; try lia; [rewrite Hu by lia; by replace (b + i - b) with i by lia|].
    intros y Hy. rewrite Hu by lia. apply H3. lia.
  - intros y Hy. rewrite Hu by lia. apply Hf. lia.
Qed.

End search.

(** ** The operations *)

Section ops.
Context {E : Env} {D : DiskDriver} {DR : DiskReady} {L : DiskLaws} (pr : nat) (pid dev : Z) (Hdev : 0 < dev < 2 ^ 31).
Context (st : Z) (users : list Z) (disk0 : Z -> list Z) (writes0 : list (Z * list Z)).
Context (S : superblock) (dstart : Z) (Hly : layout st S dstart).
Notation txn := (txn pid dev st users disk0 writes0).

Lemma txn_lens k held bs v F : txn k held bs v F -> forall n, length (v n) = 1024%nat.
Proof. intros H n. by eapply txn_len. Qed.

(** bzero() *)
Lemma txn_bzero k held bs v F n (Q : unit -> fsstate -> Prop) : txn (k + 1) held bs v F -> 0 <= k -> loggable st n -> n ∉ held.*2 ->
  Z.of_nat (length held) <= k + 1 ->
  (forall F', txn k held (log_add n bs) (fupd v n zero_block) F' -> kept F F' -> Q tt F') -> fsrun pr pid (bzero dev n) F Q.
Proof.
  intros Ht Hk Hn Hh Hr HQ. unfold bzero. pose proof (cnt_01 bs n).
  eapply (txn_overwrite pr pid dev Hdev st users disk0 writes0 (k + 1) k held bs v F n (fun _ => replicate (Z.to_nat BSIZE) 0));
    [exact Ht|lia|done|done|lia|done|exact HQ].
Qed.

(** Blocks that a process may hold while it allocates. *)
Definition data_held (v : Z -> list Z) (held : list (nat * Z)) : Prop :=
  forall n, n ∈ held.*2 -> dstart <= n < sb_size S /\ used S v n = true.

(** The message of balloc() when the bitmap is full. *)
Definition out_of_blocks : K Z := printf (Some (bytes_of_string "balloc: out of blocks" ++ [NL])) [];; ret 0.

(** balloc() takes the lowest free block, marks it and clears it; on a full disk it
    goes on to its message without having changed anything. *)
Lemma txn_balloc k held bs v F (Q : Z -> fsstate -> Prop) : txn (k + 2) held bs v F -> 0 <= k -> Z.of_nat (length held) <= k + 1 -> sb F = S ->
  (forall b, 0 <= b < dstart -> used S v b = true) -> data_held v held ->
  (forall b bs' F', dstart <= b < sb_size S -> used S v b = false -> (forall y, 0 <= y < b -> used S v y = true) ->
     (forall n, n ∈ bs' <-> n = b \/ n = BBLOCK b S \/ n ∈ bs) ->
     txn k held bs' (alloc S b v) F' -> kept F F' -> Q b F') ->
  (forall F', (forall y, 0 <= y < sb_size S -> used S v y = true) -> txn (k + 2) held bs v F' -> kept F F' -> fsrun pr pid out_of_blocks F' Q) ->
  fsrun pr pid (balloc dev) F Q.
Proof.
  intros Ht Hk Hlen HS Hmeta Hheld HQ Hfull. unfold balloc. eapply crun_bind, (crun_gets pr pid _ sb). rewrite HS. eapply crun_bind.
  pose proof (ly_start Hly) as Hly0. pose proof (txn_lens _ _ _ _ _ Ht) as Hl.
  apply (crun_for_find pr pid (fun F' => txn (k + 2) held bs v F' /\ kept F F') (fun b => (fun i => b + i) <$> search (S := S) v b)).
  - by split.
  - intros b F1 Hb [Ht1 Hk1] Hnone. destruct (bases_in Hly b Hb) as [Hb1 Hb2]. destruct (bblock_range Hly b Hb1) as (_ & Hb3 & Hb4).
    eapply crun_bind, (txn_bread pr pid dev Hdev); [exact Ht1|done| |lia|].
    { intros Hin. apply Hheld in Hin. lia. }
    intros bp F2 Ht2 Hs2. eapply crun_bind, (txn_bdata pr pid dev); [exact Ht2|by left|].
    unfold search in Hnone. destruct (find_free _ _ _); [done|]. eapply crun_bind, (txn_brelse pr pid dev); [done|exact Ht2|].
    intros F3 Ht3 Hs3. apply crun_ret. split; [done|]. split; [done|]. eapply kept_trans; [done|]. eapply kept_trans; by apply same_rest_kept.
  - intros b l1 l2 F1 [Ht1 Hk1] Hsplit Hbefore Hsome. assert (Hb : b ∈ bases (S := S)) by (unfold bases; rewrite Hsplit; apply elem_of_app; right; by left).
    destruct (bases_in Hly b Hb) as [Hb1 Hb2]. destruct (bblock_range Hly b Hb1) as (_ & Hb3 & Hb4).
    eapply crun_bind, (txn_bread pr pid dev Hdev); [exact Ht1|done| |lia|].
    { intros Hin. apply Hheld in Hin. lia. }
    intros bp F2 Ht2 Hs2. eapply crun_bind, (txn_bdata pr pid dev); [exact Ht2|by left|].
    pose proof (search_spec Hly v b Hb) as Hsp. unfold search in *. destruct (find_free _ _ _) as [i|]; [|done]. destruct Hsp as (Hi & Hbi & Hfree & Hlow).
    destruct (same_bitmap (S := S) b i Hb2) as [Hbm Hbb]; [lia|lia|]. pose proof (cnt_01 bs (BBLOCK b S)).
    assert (Hdata : dstart <= b + i) by (destruct (Z_lt_le_dec (b + i) dstart); [rewrite Hmeta in Hfree by lia; done|done]).
    cbv zeta. eapply (txn_update pr pid dev Hdev st users disk0 writes0 (k + 1) held bs v F2 bp (BBLOCK b S) (mark i));
      [eapply txn_weaken; [exact Ht2|lia]|lia|done|unfold mark; rewrite zupd_length; apply Hl|].
    intros F3 Ht3 Hk3. eapply crun_bind, txn_bzero; [exact Ht3|done|apply (loggable_meta Hly); lia| | |].
    { intros Hin. apply Hheld in Hin as [_ Hin]. congruence. }
    { lia. }
    intros F4 Ht4 Hk4. apply crun_ret. split; [done|]. apply crun_ret.
    apply (HQ (b + i) (log_add (b + i) (log_add (BBLOCK b S) bs))); [lia|done| | |unfold alloc; by rewrite Hbm, Hbb|].
    + intros y Hy. destruct (Z_lt_le_dec y b) as [Hyb|Hyb]; [|apply Hlow; lia].
      pose proof (bases_before Hly l1 b l2 y Hsplit ltac:(lia)) as Hin. pose proof (Hbefore _ Hin) as Hn.
      pose proof (search_spec Hly v (y / BPB * BPB)) as Hs. unfold search in Hs. destruct (find_free _ _ _); [done|]. apply Hs.
      * unfold bases. rewrite Hsplit. apply elem_of_app. by left.
      * pose proof (Z.div_mod y BPB ltac:(done)). pose proof (mod_BPB y). unfold BPB, BSIZE in *. lia.
    + intros n. rewrite !log_add_in, Hbb. done.
    + eapply kept_trans; [exact Hk1|]. eapply kept_trans; [by apply same_rest_kept|]. by eapply kept_trans.
  - intros F1 [Ht1 Hk1] Hnone. apply Hfull; [|done|done]. intros y Hy. pose proof (bases_base Hly y Hy) as Hin. pose proof (Hnone _ Hin) as Hn.
    pose proof (search_spec Hly v _ Hin) as Hs. unfold search in Hs, Hn. destruct (find_free _ _ _); [done|]. apply Hs.
    pose proof (Z.div_mod y BPB ltac:(done)). pose proof (mod_BPB y). unfold BPB, BSIZE in *. lia.
Qed.

(** bfree() of a block in use clears its mark. *)
Lemma txn_bfree k held bs v F b (Q : unit -> fsstate -> Prop) : txn (k + 1 - cnt bs (BBLOCK b S)) held bs v F -> 0 <= k ->
  Z.of_nat (length held) <= k + 1 - cnt bs (BBLOCK b S) -> sb F = S ->
  dstart <= b < sb_size S -> used S v b = true -> data_held v held ->
  (forall F', txn k held (log_add (BBLOCK b S) bs) (unalloc S b v) F' -> kept F F' -> Q tt F') ->
  fsrun pr pid (bfree dev b) F Q.
Proof.
  intros Ht Hk Hlen HS Hb Hu Hheld HQ. unfold bfree. eapply crun_bind, (crun_gets pr pid _ sb). rewrite HS.
  pose proof (ly_start Hly) as Hly0. destruct (bblock_range Hly b ltac:(lia)) as (_ & Hb3 & Hb4).
  eapply crun_bind, (txn_bread pr pid dev Hdev); [exact Ht|done| |done|].
  { intros Hin. apply Hheld in Hin. lia. }
  intros bp F1 Ht1 Hs1. cbv zeta. eapply crun_bind, (txn_bdata pr pid dev); [exact Ht1|by left|].
  unfold used, in_use in Hu. apply negb_true_iff in Hu. rewrite Hu. apply crun_assoc.
  eapply crun_bind, (txn_log pr pid dev Hdev st users disk0 writes0 k); [exact Ht1|done|done|by rewrite zupd_length; eapply txn_lens|]. intros F2 Ht2 Hk2.
  eapply (txn_brelse pr pid dev Hdev); [exact Ht2|]. intros F3 Ht3 Hs3. apply HQ; [exact Ht3|].
  eapply kept_trans; [by apply same_rest_kept|]. eapply kept_trans; [done|by apply same_rest_kept].
Qed.

(** balloc() inside an operation, on a disk with a free block, returns the lowest
    one; it is marked in use and full of zeros, every other mark and every other block
    outside the bitmap is as before, and nothing has been written to the disk. *)
Theorem balloc_allocates k bs v c0 s : running pr pid None c0 s -> txn (k + 2) [] bs v (k_fs s) -> 0 <= k -> sb (k_fs s) = S ->
  (forall b, 0 <= b < dstart -> used S v b = true) -> (exists b, 0 <= b < sb_size S /\ used S v b = false) ->
  wp (balloc dev) (fun b s' => running pr pid None c0 s' /\ dstart <= b < sb_size S /\ used S v b = false /\ (forall y, 0 <= y < b -> used S v y = true) /\
    exists bs' v', txn k [] bs' v' (k_fs s') /\ kept (k_fs s) (k_fs s') /\ v' b = zero_block /\
      (forall y, 0 <= y < sb_size S -> used S v' y = (y =? b) || used S v y) /\ (forall n, ~ is_bitmap S n -> n <> b -> v' n = v n)) s.
Proof.
  intros Hrun Ht Hk HS Hmeta (x & Hx & Hfree). pose proof (txn_lens _ _ _ _ _ Ht) as Hl. eapply wp_mono.
  - apply (txn_balloc k [] bs v (k_fs s) (fun b F' => dstart <= b < sb_size S /\ used S v b = false /\ (forall y, 0 <= y < b -> used S v y = true) /\
      exists bs', txn k [] bs' (alloc S b v) F' /\ kept (k_fs s) F')) with (c0 := c0); try (done || (simpl; lia)).
    + intros n Hn. by apply not_elem_of_nil in Hn.
    + intros b bs' F' H1 H2 H3 _ H4 H5. do 3 (split; [done|]). by exists bs'.
    + intros F' Hfull. by rewrite Hfull in Hfree.
  - intros b s' ((H1 & H2 & H3 & bs' & H4 & H5) & Hr & _). do 4 (split; [done|]). exists bs', (alloc S b v). do 2 (split; [done|]). split_and!.
    + apply fupd_eq.
    + intros y Hy. by apply (used_alloc Hly).
    + intros n Hn Hne. by apply (alloc_other Hly).
Qed.

(** bfree() undoes balloc(): allocating a block and freeing it again leaves every
    mark of the bitmap as it was. *)
Theorem balloc_bfree k bs v c0 s : running pr pid None c0 s -> txn (k + 2) [] bs v (k_fs s) -> 0 <= k -> sb (k_fs s) = S ->
  (forall b, 0 <= b < dstart -> used S v b = true) -> (exists b, 0 <= b < sb_size S /\ used S v b = false) ->
  wp (b <- balloc dev;; bfree dev b) (fun _ s' => running pr pid None c0 s' /\
    exists bs' v', txn k [] bs' v' (k_fs s') /\ kept (k_fs s) (k_fs s') /\ forall y, 0 <= y < sb_size S -> used S v' y = used S v y) s.
Proof.
  intros Hrun Ht Hk HS Hmeta (x & Hx & Hfree). pose proof (txn_lens _ _ _ _ _ Ht) as Hl. pose proof (ly_start Hly). eapply wp_mono.
  - apply (crun_bind pr pid None None None (balloc dev) (bfree dev) (k_fs s) (fun _ F' => exists bs' v', txn k [] bs' v' F' /\ kept (k_fs s) F' /\
      forall y, 0 <= y < sb_size S -> used S v' y = used S v y)) with (c0 := c0); [|done|done].
    apply (txn_balloc k [] bs v (k_fs s)); try (done || (simpl; lia)); [intros n Hn; by apply not_elem_of_nil in Hn| |intros F' Hfull; by rewrite Hfull in Hfree].
    intros b bs1 F1 Hb Hu _ Hbs Ht1 Hk1. assert (Hin : BBLOCK b S ∈ bs1) by (apply Hbs; auto).
    pose proof (cnt_in bs1 (BBLOCK b S) Hin) as Hcnt. apply (txn_bfree k [] bs1 (alloc S b v) F1 b); try (done || (simpl; lia)).
    + rewrite Hcnt. by replace (k + 1 - 1) with k by lia.
    + by destruct Hk1 as (-> & _).
    + rewrite (used_alloc Hly) by (done || lia). by rewrite Z.eqb_refl.
    + intros n Hn. by apply not_elem_of_nil in Hn.
    + intros F2 Ht2 Hk2. eexists _, _. split; [exact Ht2|]. split; [by eapply kept_trans|]. intros y Hy.
      rewrite (used_release Hly); [|by eapply txn_lens|done|done]. rewrite (used_alloc Hly) by done. destruct (Z.eqb_spec y b) as [->|]; [by rewrite Hu|done].
  - intros [] s' (H1 & Hr & _). done.
Qed.

End ops.
