(* ===== verification/File.v ===== *)
(** * Open files and pipes (kernel/file.c, kernel/pipe.c)

    A [struct file *] is an index in ftable.file[].  A pipe lives in a page from
    kalloc(); the map [pipes] holds its fields, by the address of the page. *)

From S2P Require Import Prelude Riscv Kstate CString Spinlock Kalloc Vm Sched Bytes Uart Console Sleeplock.
From S2P Require Import Bio Log Fs.

Section file.
Context {E : Env} {D : DiskDriver}.

Definition get_file (i : nat) (s : kstate) : file := default file0 (files (k_fs s) !! i).
Definition getf (i : nat) : K file := gets (get_file i).
Definition updf (i : nat) (f : file -> file) : K unit :=
  modify (fun s => set_k_fs (set_files (alter f i (files (k_fs s))) (k_fs s)) s).

Definition file_ids : list nat := seq 0 NFILE.

Definition fileinit : K unit := lift_ctl (initlock L_ftable "ftable").

Definition filealloc : K (option nat) :=
  kacquire L_ftable;;
  r <- for_find file_ids (fun f =>
    x <- getf f;;
    if f_ref x =? 0 then
      updf f (set_f_ref 1);;
      krelease L_ftable;;
      ret (Some f)
    else ret None);;
  match r with
  | Some f => ret (Some f)
  | None => krelease L_ftable;; ret None
  end.

Definition filedup (f : nat) : K nat :=
  kacquire L_ftable;;
  x <- getf f;;
  if f_ref x <? 1 then panic "filedup"
  else
    updf f (set_f_ref (f_ref x + 1));;
    krelease L_ftable;;
    ret f.

(** ** Pipes *)

Definition PIPESIZE : Z := 512.

Definition get_pipe (pi : Z) (s : kstate) : pipe := default pipe0 (pipes (k_fs s) !! pi).
Definition getpi (pi : Z) : K pipe := gets (get_pipe pi).
Definition updpi (pi : Z) (f : pipe -> pipe) : K unit :=
  modify (fun s => set_k_fs (set_pipes (<[pi := f (get_pipe pi s)]> (pipes (k_fs s))) (k_fs s)) s).
Definition free_pipe (pi : Z) : K unit :=
  lift_mm (kfree pi);;
  modify (fun s => set_k_fs (set_pipes (delete pi (pipes (k_fs s))) (k_fs s)) s).

Definition pipeclose (pi : Z) (writable : bool) : K unit :=
  kacquire (L_pipe pi);;
  (if writable then updpi pi (set_pi_writeopen 0);; wakeup (Some (Ch_nread pi))
   else updpi pi (set_pi_readopen 0);; wakeup (Some (Ch_nwrite pi)));;
  p <- getpi pi;;
  if (pi_readopen p =? 0) && (pi_writeopen p =? 0) then
    krelease (L_pipe pi);;
    free_pipe pi
  else krelease (L_pipe pi).

(** One turn of the loop of pipewrite(): [inl] the next index, [inr] the result
    of a return, or of a break. *)
Definition pipewrite_step (pr : nat) (pi addr n i : Z) : K (Z + (Z + Z)) :=
  if i <? n then
    p <- getpi pi;;
    k <- (if pi_readopen p =? 0 then ret 1 else killed pr);;
    if truthy k then krelease (L_pipe pi);; ret (inr (inl (-1)))
    else if pi_nwrite p =? u32 (pi_nread p + PIPESIZE) then
      wakeup (Some (Ch_nread pi));;
      sleep (Ch_nwrite pi) (L_pipe pi);;
      ret (inl i)
    else
      x <- getp pr;;
      let* (r, bs) := lift_mm (copyin (p_pagetable x) (u64 (addr + i)) 1) in
      if r =? -1 then ret (inr (inr i))
      else
        updpi pi (fun p => set_pi_nwrite (u32 (pi_nwrite p + 1))
          (set_pi_data (zupd (pi_data p) (pi_nwrite p mod PIPESIZE) (hd 0 bs)) p));;
        ret (inl (i + 1))
  else ret (inr (inr i)).

(** At most [n] turns write a byte, the others follow a wakeup. *)
Definition pipewrite (pi addr n : Z) : K Z :=
  pr <- curproc;;
  kacquire (L_pipe pi);;
  r <- loop (S (Z.to_nat n + turns)) (pipewrite_step pr pi addr n) 0;;
  match r with
  | inl e => ret e
  | inr i =>
      wakeup (Some (Ch_nread pi));;
      krelease (L_pipe pi);;
      ret i
  end.

(** The copying loop of piperead(). *)
Fixpoint piperead_copy (pr : nat) (pi addr i : Z) (n : nat) : K Z :=
  match n with
  | O => ret i
  | S n' =>
      p <- getpi pi;;
      if pi_nread p =? pi_nwrite p then ret i
      else
        let ch := default 0 (znth (pi_data p) (pi_nread p mod PIPESIZE)) in
        updpi pi (set_pi_nread (u32 (pi_nread p + 1)));;
        x <- getp pr;;
        r <- lift_mm (copyout (p_pagetable x) (u64 (addr + i)) [ch]);;
        if r =? -1 then ret i
        else piperead_copy pr pi addr (i + 1) n'
  end.

Definition piperead (pi addr n : Z) : K Z :=
  pr <- curproc;;
  kacquire (L_pipe pi);;
  dead <- loop (S turns) (fun _ =>
    p <- getpi pi;;
    if (pi_nread p =? pi_nwrite p) && truthy (pi_writeopen p) then
      k <- killed pr;;
      if truthy k then krelease (L_pipe pi);; ret (inr true)
      else sleep (Ch_nread pi) (L_pipe pi);; ret (inl tt)
    else ret (inr false)) tt;;
  if (dead : bool) then ret (-1)
  else
    i <- piperead_copy pr pi addr 0 (Z.to_nat n);;
    wakeup (Some (Ch_nwrite pi));;
    krelease (L_pipe pi);;
    ret i.

(** ** Closing, and files in general *)

Definition fileclose (f : nat) : K unit :=
  kacquire L_ftable;;
  x <- getf f;;
  if f_ref x <? 1 then panic "fileclose"
  else
    updf f (set_f_ref (f_ref x - 1));;
    if 0 <? f_ref x - 1 then krelease L_ftable
    else
      ff <- getf f;;
      updf f (fun x => set_f_type FD_NONE (set_f_ref 0 x));;
      krelease L_ftable;;
      match f_type ff with
      | FD_PIPE => pipeclose (f_pipe ff) (truthy (f_writable ff))
      | FD_INODE | FD_DEVICE => begin_op;; iput (f_ip ff);; end_op
      | FD_NONE => ret tt
      end.

Definition pipealloc : K (option (nat * nat)) :=
  f0 <- filealloc;;
  f1 <- (match f0 with None => ret None | Some _ => filealloc end);;
  let bad pi :=
    when (negb (pi =? 0)) (lift_mm (kfree pi));;
    (match f0 with Some f => fileclose f | None => ret tt end);;
    (match f1 with Some f => fileclose f | None => ret tt end);;
    ret None in
  match f0, f1 with
  | Some f0, Some f1 =>
      pi <- lift_mm kalloc;;
      if pi =? 0 then bad 0
      else
        updpi pi (fun _ => mkpipe (replicate 512 5) 0 0 1 1);;
        lift_ctl (initlock (L_pipe pi) "pipe");;
        updf f0 (fun x => set_f_pipe pi (set_f_writable 0 (set_f_readable 1 (set_f_type FD_PIPE x))));;
        updf f1 (fun x => set_f_pipe pi (set_f_writable 1 (set_f_readable 0 (set_f_type FD_PIPE x))));;
        ret (Some (f0, f1))
  | _, _ => bad 0
  end.

Definition filestat (f : nat) (addr : Z) : K Z :=
  p <- curproc;;
  x <- getf f;;
  match f_type x with
  | FD_INODE | FD_DEVICE =>
      ilock (f_ip x);;
      i <- deref (f_ip x);;
      ip <- geti i;;
      iunlock (f_ip x);;
      pr <- getp p;;
      r <- lift_mm (copyout (p_pagetable pr) addr (stati ip));;
      if r <? 0 then ret (-1) else ret 0
  | _ => ret (-1)
  end.

(** devsw[], which consoleinit() fills at CONSOLE (1) only. *)
Definition devsw_read (major : Z) : option (dest -> Z -> K (Z * list Z)) :=
  if major =? 1 then Some consoleread else None.
Definition devsw_write (major : Z) : option (source -> Z -> K Z) :=
  if major =? 1 then Some consolewrite else None.

Definition fileread (f : nat) (addr n : Z) : K Z :=
  x <- getf f;;
  if f_readable x =? 0 then ret (-1)
  else
    match f_type x with
    | FD_PIPE => piperead (f_pipe x) addr n
    | FD_DEVICE =>
        if (f_major x <? 0) || (NDEV <=? f_major x) then ret (-1)
        else match devsw_read (f_major x) with
             | None => ret (-1)
             | Some rd => r <- rd (ToUser addr) n;; ret (fst r)
             end
    | FD_INODE =>
        ilock (f_ip x);;
        i <- deref (f_ip x);;
        x <- getf f;;
        let* (r, _) := readi i (ToUser addr) (f_off x) (u32 n) in
        when (0 <? i32 r) (updf f (fun x => set_f_off (u32 (f_off x + r)) x));;
        iunlock (Some i);;
        ret (i32 r)
    | FD_NONE => panic "fileread"
    end.

(** The loop of filewrite() for an inode. *)
Definition filewrite_max : Z := ((MAXOPBLOCKS - 1 - 1 - 2) / 2) * BSIZE.

Definition filewrite_step (f : nat) (addr n i : Z) : K (Z + Z) :=
  if i <? n then
    let n1 := Z.min (n - i) filewrite_max in
    begin_op;;
    x <- getf f;;
    ilock (f_ip x);;
    ip <- deref (f_ip x);;
    x <- getf f;;
    r <- writei ip (FromUser (u64 (addr + i))) (f_off x) n1;;
    when (0 <? r) (updf f (fun x => set_f_off (u32 (f_off x + r)) x));;
    iunlock (Some ip);;
    end_op;;
    if negb (r =? n1) then ret (inr i) else ret (inl (i + r))
  else ret (inr i).

Definition filewrite (f : nat) (addr n : Z) : K Z :=
  x <- getf f;;
  if f_writable x =? 0 then ret (-1)
  else
    match f_type x with
    | FD_PIPE => pipewrite (f_pipe x) addr n
    | FD_DEVICE =>
        if (f_major x <? 0) || (NDEV <=? f_major x) then ret (-1)
        else match devsw_write (f_major x) with
             | None => ret (-1)
             | Some wr => wr (FromUser addr) n
             end
    | FD_INODE =>
        i <- loop (Z.to_nat (n / filewrite_max + 2)) (filewrite_step f addr n) 0;;
        ret (if i =? n then n else -1)
    | FD_NONE => panic "filewrite"
    end.

End file.
