(* ===== verification/Tables.v ===== *)
(** * The tables of in-memory inodes and of open files (kernel/fs.c, kernel/file.c)

    Both tables hold reference-counted entries.  The specification of the inode
    table is a count of references per inode: iget() and idup() add one, iput()
    takes one away, and an inode never has two entries. *)

From S2P Require Import Prelude Riscv Kstate CString Spinlock Kalloc Vm Sched SchedSpec Sleeplock Bio Log Fs.
From S2P Require Import File.

(** ** The inode table *)

Definition same_inode (dev inum : Z) (ip : inode) : bool := (i_dev ip =? dev) && (i_inum ip =? inum).

(** The references of one entry to an inode, and of the whole table. *)
Definition refs_of (dev inum : Z) (ip : inode) : Z := if same_inode dev inum ip then i_ref ip else 0.
Definition refcount (dev inum : Z) (l : list inode) : Z :=
  foldr (fun ip n => refs_of dev inum ip + n) 0 l.

Definition itable_inv (l : list inode) : Prop :=
  length l = NINODE /\ Forall (fun ip => 0 <= i_ref ip) l /\
  forall i j a b, l !! i = Some a -> l !! j = Some b -> 0 < i_ref a -> 0 < i_ref b ->
    i_dev a = i_dev b -> i_inum a = i_inum b -> i = j.

(** An entry that iget() may return for the inode. *)
Definition holds_inode (dev inum : Z) (ip : inode) : bool := (0 <? i_ref ip) && same_inode dev inum ip.

Lemma refcount_insert dev inum l i x y : l !! i = Some x ->
  refcount dev inum (<[i := y]> l) = refcount dev inum l - refs_of dev inum x + refs_of dev inum y.
Proof.
  revert i. induction l as [|z l IH]; intros [|i] Hi; simplify_eq/=; [lia|]. rewrite (IH _ Hi). lia.
Qed.

Lemma refcount_zero dev inum l : Forall (fun ip => 0 <= i_ref ip) l ->
  Forall (fun ip => holds_inode dev inum ip = false) l -> refcount dev inum l = 0.
Proof.
  induction 1 as [|x l Hx _ IH]; intros H; [done|]. inversion H as [|? ? Hh Hl]; subst. simpl.
  rewrite (IH Hl). unfold refs_of, holds_inode in *. destruct (same_inode dev inum x); [|done].
  rewrite andb_true_r in Hh. bool_prop. lia.
Qed.

Lemma iget_scan_eq dev inum l k empty :
  iget_scan (zip (seq k (length l)) l) dev inum empty =
  match first_index (holds_inode dev inum) l with
  | Some i => inl (k + i)%nat
  | None => inr (match empty with
                 | Some e => Some e
                 | None => Nat.add k <$> first_index (fun ip => i_ref ip =? 0) l
                 end)
  end.
Proof.
  revert k empty. induction l as [|x l IH]; intros k empty; simpl; [by destruct empty|].
  replace ((0 <? i_ref x) && (i_dev x =? dev) && (i_inum x =? inum)) with (holds_inode dev inum x)
    by (unfold holds_inode, same_inode; by rewrite andb_assoc).
  destruct (holds_inode dev inum x); [by rewrite Nat.add_0_r|].
  rewrite IH. destruct (first_index (holds_inode dev inum) l); cbn [fmap option_fmap option_map].
  - f_equal. lia.
  - destruct empty; [done|]. destruct (i_ref x =? 0); cbn [fmap option_fmap option_map]; [f_equal; f_equal; lia|].
      destruct (first_index _ l); cbn [fmap option_fmap option_map]; [|done]. do 2 f_equal. lia.
Qed.

Definition set_itable (l : list inode) (s : kstate) : kstate := set_k_fs (set_inodes l (k_fs s)) s.

Section tables.
Context {E : Env} {D : DiskDriver}.

Lemma alter_insert {A} (f : A -> A) (l : list A) i x : l !! i = Some x -> alter f i l = <[i := f x]> l.
Proof.
  intros H. apply list_eq. intros j. rewrite list_lookup_alter. destruct (decide (i = j)) as [->|].
  - rewrite H, list_lookup_insert_eq; [done|by eapply lookup_lt_Some].
  - by rewrite list_lookup_insert_ne.
Qed.

Lemma alter_back {A} (f g : A -> A) (l : list A) i x : l !! i = Some x -> g (f x) = x -> alter g i (alter f i l) = l.
Proof.
  intros H Hg. apply list_eq. intros j. rewrite !list_lookup_alter. destruct (decide (i = j)) as [->|]; [|done].
  rewrite decide_True, H by done. simpl. by rewrite Hg.
Qed.

(** The new entry iget() makes of a free one. *)
Definition fresh_inode (dev inum : Z) (ip : inode) : inode :=
  set_i_valid 0 (set_i_ref 1 (set_i_inum inum (set_i_dev dev ip))).

Definition more_refs (n : Z) (ip : inode) : inode := set_i_ref (i_ref ip + n) ip.

(** iget() as a function of the table: the entry, and its new contents. *)
Definition iget_ref (dev inum : Z) (l : list inode) : option (nat * list inode) :=
  match first_index (holds_inode dev inum) l with
  | Some i => Some (i, alter (more_refs 1) i l)
  | None =>
      match first_index (fun ip => i_ref ip =? 0) l with
      | Some i => Some (i, alter (fresh_inode dev inum) i l)
      | None => None
      end
  end.

Lemma iget_runs dev inum s :
  ctl_ok (k_ctl s) -> free L_itable (k_ctl s) ->
  match iget_ref dev inum (inodes (k_fs s)) with
  | Some (i, l) => wp (iget dev inum) (fun r s' => r = i /\
      exists c, ctl_equiv (k_ctl s) c /\ s' = kset_ctl c (set_itable l s)) s
  | None => exists s', iget dev inum s = Panic "iget: no inodes" s'
  end.
Proof.
  intros Hok Hf. pose proof (iget_scan_eq dev inum (inodes (k_fs s)) 0 None) as Hscan. unfold iget_ref.
  destruct (first_index (holds_inode dev inum) (inodes (k_fs s))) as [i|];
    [|destruct (first_index (fun ip => i_ref ip =? 0) (inodes (k_fs s))) as [i|]].
  1,2: unfold iget; wp_step; (apply wp_kacquire; [done|done|]); wp_step; wp_step;
    change (inodes (k_fs (kset_ctl (acquired L_itable (k_ctl s)) s))) with (inodes (k_fs s));
    rewrite Hscan; cbn [fmap option_fmap option_map Nat.add];
    wp_step; apply wp_modify; wp_step; (apply (wp_krelease (k_ctl s)); [done|done|done|]);
    intros e He; wp_step; (split; [done|]); exists e; done.
  unfold iget, bind. destruct (wp_inv (kacquire L_itable) (fun _ s' => s' = kset_ctl (acquired L_itable (k_ctl s)) s) s)
    as ([] & s' & -> & ->); [by apply wp_kacquire|].
  unfold gets. change (inodes (k_fs (kset_ctl (acquired L_itable (k_ctl s)) s))) with (inodes (k_fs s)).
  rewrite Hscan. simpl. eexists. reflexivity.
Qed.

Lemma itable_insert l i x y : itable_inv l -> l !! i = Some x -> 0 <= i_ref y ->
  (forall j z, l !! j = Some z -> j <> i -> 0 < i_ref y -> holds_inode (i_dev y) (i_inum y) z = false) ->
  itable_inv (<[i := y]> l).
Proof.
  intros (Hl & Hp & Hu) Hi Hy Hn. split_and!.
  - by rewrite length_insert.
  - by apply Forall_insert.
  - assert (Hno : forall j z, l !! j = Some z -> j <> i -> 0 < i_ref y -> 0 < i_ref z ->
        i_dev y = i_dev z -> i_inum y = i_inum z -> False).
    { intros j z Hj Hji Hy0 Hz Hd Hn'. specialize (Hn j z Hj Hji Hy0). unfold holds_inode, same_inode in Hn.
      rewrite Hd, Hn', !Z.eqb_refl in Hn. simpl in Hn. rewrite andb_true_r in Hn. bool_prop. lia. }
    intros j k a b Hj Hk Ha Hb Hd Hin. destruct (decide (j = i)) as [->|], (decide (k = i)) as [->|]; [done| | |].
    + rewrite list_lookup_insert_eq in Hj by (by eapply lookup_lt_Some). injection Hj as <-.
      rewrite list_lookup_insert_ne in Hk by done. exfalso. by eapply Hno.
    + rewrite list_lookup_insert_eq in Hk by (by eapply lookup_lt_Some). injection Hk as <-.
      rewrite list_lookup_insert_ne in Hj by done. exfalso. by eapply (Hno j a).
    + rewrite list_lookup_insert_ne in Hj, Hk by done. by eapply Hu.
Qed.

Lemma holds_inode_true dev inum ip : holds_inode dev inum ip = true ->
  0 < i_ref ip /\ i_dev ip = dev /\ i_inum ip = inum.
Proof. unfold holds_inode, same_inode. intros H. bool_prop. done. Qed.

(** C30. iget() returns an entry of the requested inode and adds one reference to
    it and none to any other inode; the table never gets two entries of one inode;
    an entry it recycles was unreferenced and is marked as not read from disk.  It
    panics exactly when the inode has no entry and no entry is free. *)
Theorem iget_counts dev inum s :
  ctl_ok (k_ctl s) -> free L_itable (k_ctl s) -> itable_inv (inodes (k_fs s)) ->
  match iget dev inum s with
  | Ret i s' =>
      let l := inodes (k_fs s) in let l' := inodes (k_fs s') in
      itable_inv l' /\
      (exists ip, l' !! i = Some ip /\ holds_inode dev inum ip = true /\
                  (refcount dev inum l = 0 -> i_valid ip = 0)) /\
      (forall d n, refcount d n l' = refcount d n l + (if (d =? dev) && (n =? inum) then 1 else 0)) /\
      (forall j, j <> i -> l' !! j = l !! j) /\
      (exists c, ctl_equiv (k_ctl s) c /\ s' = kset_ctl c (set_itable l' s))
  | Panic msg _ => msg = "iget: no inodes"%string /\ refcount dev inum (inodes (k_fs s)) = 0 /\
                   Forall (fun ip => 0 < i_ref ip) (inodes (k_fs s))
  | Stop _ => False
  end.
Proof.
  intros Hok Hf Hinv. pose proof (iget_runs dev inum s Hok Hf) as Hrun. unfold iget_ref in Hrun.
  set (l := inodes (k_fs s)) in *. destruct Hinv as (Hlen & Hpos & Huniq) eqn:Hinv'. clear Hinv'.
  destruct (first_index (holds_inode dev inum) l) as [i|] eqn:H1.
  - apply wp_inv in Hrun as (r & s' & -> & -> & c & Hc & ->). simpl.
    destruct (first_index_Some _ _ _ H1) as (x & Hx & Hh). apply holds_inode_true in Hh as (Hr & Hd & Hn).
    rewrite (alter_insert _ _ _ _ Hx). split_and!.
    + eapply itable_insert; [done|done|simpl; lia|]. intros j z Hj Hji _. simpl. apply not_true_is_false. intros Hz.
      apply holds_inode_true in Hz as (Hz & Hzd & Hzn). apply Hji. eapply Huniq; eauto; congruence.
    + exists (more_refs 1 x). rewrite list_lookup_insert_eq by (by eapply lookup_lt_Some). split; [done|].
      unfold holds_inode, same_inode. simpl. rewrite Hd, Hn, !Z.eqb_refl. split; [by destruct (Z.ltb_spec 0 (i_ref x + 1)); [|lia]|].
      intros H0. pose proof (refcount_insert dev inum l i x (set_i_ref 0 x) Hx) as He. exfalso.
      assert (Hge : forall l, Forall (fun ip => 0 <= i_ref ip) l -> 0 <= refcount dev inum l).
      { induction 1 as [|y k Hy _ IH]; simpl; [lia|]. unfold refs_of. destruct (same_inode dev inum y); lia. }
      assert (0 <= refcount dev inum (<[i := set_i_ref 0 x]> l)) by (apply Hge, Forall_insert; [done|simpl; lia]).
      unfold refs_of, same_inode in He. simpl in He. rewrite Hd, Hn, !Z.eqb_refl in He. simpl in He. lia.
    + intros d n. rewrite (refcount_insert _ _ _ _ _ _ Hx). unfold refs_of, same_inode. simpl. rewrite Hd, Hn.
      rewrite (Z.eqb_sym dev), (Z.eqb_sym inum). destruct ((d =? dev) && (n =? inum)); lia.
    + intros j Hj. by rewrite list_lookup_insert_ne.
    + exists c. done.
  - pose proof (first_index_None _ _ H1) as Hnone. pose proof (refcount_zero dev inum l Hpos Hnone) as H0.
    destruct (first_index (fun ip => i_ref ip =? 0) l) as [i|] eqn:H2.
    + apply wp_inv in Hrun as (r & s' & -> & -> & c & Hc & ->). simpl.
      destruct (first_index_Some _ _ _ H2) as (x & Hx & Hr). apply Z.eqb_eq in Hr.
      rewrite (alter_insert _ _ _ _ Hx). split_and!.
      * eapply itable_insert; [done|done|simpl; lia|]. intros j z Hj _ _. simpl. by eapply Forall_lookup_1 in Hnone.
      * exists (fresh_inode dev inum x). rewrite list_lookup_insert_eq by (by eapply lookup_lt_Some). split; [done|].
        unfold holds_inode, same_inode. simpl. by rewrite !Z.eqb_refl.
      * intros d n. rewrite (refcount_insert _ _ _ _ _ _ Hx). unfold refs_of, same_inode. simpl. rewrite Hr.
        rewrite (Z.eqb_sym dev), (Z.eqb_sym inum). destruct (_ && _), ((d =? dev) && (n =? inum)); lia.
      * intros j Hj. by rewrite list_lookup_insert_ne.
      * exists c. done.
    + destruct Hrun as [s' ->]. split_and!; [done|done|]. apply first_index_None in H2.
      apply Forall_forall. intros ip Hip. rewrite Forall_forall in H2, Hpos. specialize (H2 ip Hip).
      specialize (Hpos ip Hip). simpl in *. bool_prop. lia.
Qed.

(** A reference taken with idup() can be given back with iput() without any
    effect: an inode in use is neither truncated nor written, whatever its link
    count, and the table and the rest of the kernel are as before. *)
Theorem idup_iput i ip s :
  ctl_ok (k_ctl s) -> free L_itable (k_ctl s) -> inodes (k_fs s) !! i = Some ip -> 1 <= i_ref ip ->
  wp (j <- idup i;; iput (Some j)) (fun _ s' => exists c, ctl_equiv (k_ctl s) c /\ s' = kset_ctl c s) s.
Proof.
  intros Hok Hf Hi Hr. wp_step. unfold idup. wp_step. apply wp_kacquire; [done|done|]. wp_step. apply wp_modify.
  wp_step. apply (wp_krelease (k_ctl s)); [done|done|done|]. intros c Hc. wp_step.
  unfold iput. assert (Hokc : ctl_ok c) by (by rewrite <- Hc). assert (Hfc : free L_itable c) by (by rewrite <- Hc).
  wp_step. apply wp_kacquire; [done|done|]. unfold deref. do 2 wp_step. wp_step. apply wp_gets. unfold get_inode. simpl.
  rewrite list_lookup_alter_eq, Hi. simpl. unfold when.
  replace (i_ref ip + 1 =? 1) with false by (symmetry; apply Z.eqb_neq; lia). simpl. wp_step. wp_step. wp_step. apply wp_modify.
  apply (wp_krelease c); [done|done|done|]. intros e He. exists e. split; [by rewrite Hc|]. simpl.
  rewrite (alter_back _ _ _ _ ip Hi).
  - by destruct s as [[] ? ? [] ? ?].
  - unfold set_i_ref. simpl. replace (i_ref ip + 1 - 1) with (i_ref ip) by lia. by destruct ip.
Qed.

(** ** The file table *)

Definition set_ftable (l : list file) (s : kstate) : kstate := set_k_fs (set_files l (k_fs s)) s.

Lemma wp_filealloc_scan c (Q : option nat -> kstate -> Prop) s n k :
  ctl_ok c -> free L_ftable c -> k_ctl s = acquired L_ftable c ->
  (k + n = length (files (k_fs s)))%nat ->
  match first_index (fun f => f_ref f =? 0) (drop k (files (k_fs s))) with
  | Some i => forall e, ctl_equiv c e ->
      Q (Some (k + i)%nat) (kset_ctl e (set_ftable (alter (set_f_ref 1) (k + i)%nat (files (k_fs s))) s))
  | None => Q None s
  end ->
  wp (for_find (seq k n) (fun f =>
    x <- getf f;;
    if f_ref x =? 0 then updf f (set_f_ref 1);; krelease L_ftable;; ret (Some f) else ret None)) Q s.
Proof.
  intros Hok Hf Hc. revert k. induction n as [|n IH]; intros k Hk HQ; simpl.
  - rewrite drop_ge in HQ by lia. by apply wp_ret.
  - destruct (lookup_lt_is_Some_2 (files (k_fs s)) k) as [x Hx]; [lia|].
    rewrite (drop_S _ _ _ Hx) in HQ. simpl in HQ. do 2 wp_step. apply wp_gets. unfold get_file. rewrite Hx. simpl.
    destruct (f_ref x =? 0).
    + wp_step. apply wp_modify. wp_step. apply (wp_krelease c); [done|done|by rewrite <- Hc|]. intros e He.
      do 2 wp_step. rewrite <- (Nat.add_0_r k). by apply HQ.
    + wp_step. apply IH; [lia|]. destruct (first_index _ (drop (S k) _)); [|done]. cbn [fmap option_fmap option_map] in HQ.
      by rewrite Nat.add_succ_r in HQ.
Qed.

(** filealloc() takes the first unused entry of the table and makes it
    referenced once, and returns 0 without changing anything when every entry is
    in use; its lock is free again in both cases. *)
Theorem filealloc_first s :
  ctl_ok (k_ctl s) -> free L_ftable (k_ctl s) -> length (files (k_fs s)) = NFILE ->
  wp filealloc (fun r s' => exists c, ctl_equiv (k_ctl s) c /\
    match r with
    | Some i => exists f, files (k_fs s) !! i = Some f /\ f_ref f = 0 /\
        (forall j g, (j < i)%nat -> files (k_fs s) !! j = Some g -> f_ref g <> 0) /\
        s' = kset_ctl c (set_ftable (<[i := set_f_ref 1 f]> (files (k_fs s))) s)
    | None => Forall (fun f => f_ref f <> 0) (files (k_fs s)) /\ s' = kset_ctl c s
    end) s.
Proof.
  intros Hok Hf Hlen. unfold filealloc. wp_step. apply wp_kacquire; [done|done|]. wp_step. unfold file_ids.
  apply (wp_filealloc_scan (k_ctl s)); [done|done|done|done|]. rewrite drop_0.
  change (files (k_fs (kset_ctl _ s))) with (files (k_fs s)).
  destruct (first_index _ _) as [i|] eqn:Hi.
  - intros e He. wp_step. exists e. split; [done|]. simpl.
    destruct (first_index_Some _ _ _ Hi) as (f & Hif & Hf0). exists f. apply Z.eqb_eq in Hf0. split_and!; [done|done| |].
    + clear -Hi. revert i Hi. induction (files (k_fs s)) as [|h l IH]; intros i Hi j g Hj Hg; [done|]. simpl in Hi.
      destruct (Z.eqb_spec (f_ref h) 0); [injection Hi as <-; lia|].
      destruct (first_index _ l) as [i'|] eqn:Hi'; [|done]. injection Hi as <-.
      destruct j as [|j]; simpl in Hg; [by injection Hg as <-|]. eapply (IH i'); [done| |done]. lia.
    + by rewrite (alter_insert _ _ _ _ Hif).
  - wp_step. apply (wp_krelease (k_ctl s)); [done|done|done|]. intros e He. wp_step. exists e. split; [done|].
    split; [|done]. eapply Forall_impl; [by apply first_index_None|]. simpl. intros f Hff. by bool_prop.
Qed.

(** filedup() adds a reference that fileclose() takes away again: while a
    file is referenced elsewhere, closing it releases neither its pipe nor its
    inode, and leaves the table as it was.  Both panic on an unreferenced file. *)
Theorem filedup_fileclose i f s :
  ctl_ok (k_ctl s) -> free L_ftable (k_ctl s) -> files (k_fs s) !! i = Some f ->
  (1 <= f_ref f ->
   wp (j <- filedup i;; fileclose j) (fun _ s' => exists c, ctl_equiv (k_ctl s) c /\ s' = kset_ctl c s) s) /\
  (f_ref f < 1 -> (exists s', filedup i s = Panic "filedup" s') /\ (exists s', fileclose i s = Panic "fileclose" s')).
Proof.
  intros Hok Hf Hi. assert (Hacq : kacquire L_ftable s = Ret tt (kset_ctl (acquired L_ftable (k_ctl s)) s)).
  { destruct (wp_inv (kacquire L_ftable) (fun _ s' => s' = kset_ctl (acquired L_ftable (k_ctl s)) s) s)
      as ([] & s' & -> & ->); [by apply wp_kacquire|done]. }
  assert (Hg : forall c, get_file i (kset_ctl c s) = f) by (intros c; unfold get_file; simpl; by rewrite Hi).
  split; intros Hr.
  - wp_step. unfold filedup. wp_step. apply wp_kacquire; [done|done|]. wp_step. apply wp_gets. rewrite Hg.
    destruct (Z.ltb_spec (f_ref f) 1); [lia|]. wp_step. apply wp_modify. wp_step.
    apply (wp_krelease (k_ctl s)); [done|done|done|]. intros c Hc. wp_step. unfold fileclose.
    assert (Hokc : ctl_ok c) by (by rewrite <- Hc). assert (Hfc : free L_ftable c) by (by rewrite <- Hc).
    wp_step. apply wp_kacquire; [done|done|]. wp_step. apply wp_gets. unfold get_file. simpl.
    rewrite list_lookup_alter_eq, Hi. simpl. destruct (Z.ltb_spec (f_ref f + 1) 1); [lia|]. wp_step. apply wp_modify.
    destruct (Z.ltb_spec 0 (f_ref f + 1 - 1)); [|lia]. apply (wp_krelease c); [done|done|done|].
    intros e He. exists e. split; [by rewrite Hc|]. simpl.
    rewrite (alter_back _ _ _ _ f Hi).
    + by destruct s as [[] ? ? [] ? ?].
    + unfold set_f_ref. simpl. replace (f_ref f + 1 - 1) with (f_ref f) by lia. by destruct f.
  - split; eexists; unfold filedup, fileclose, bind; rewrite Hacq; unfold getf, gets; rewrite Hg;
      (destruct (Z.ltb_spec (f_ref f) 1); [reflexivity|lia]).
Qed.

End tables.

(** ** A concrete state

    The root inode is referenced twice, entry 1 is free; file 0 is referenced
    once. *)

Definition inodes1 : list inode :=
  mkinode 1 1 2 sleeplock0 1 T_DIR 0 0 1 64 (replicate 13 0) :: replicate 49 inode0.

Definition ks_tables : kstate :=
  set_k_fs (set_files (set_f_ref 1 file0 :: replicate 99 file0) (set_inodes inodes1 (k_fs ks1))) ks1.

Lemma inodes1_inv : itable_inv inodes1.
Proof.
  unfold inodes1. split_and!; [done| |].
  - constructor; [done|]. apply Forall_replicate. done.
  - assert (Hz : forall i a, inodes1 !! i = Some a -> 0 < i_ref a -> i = O).
    { intros [|i] a Hi Ha; [done|]. change (replicate 49 inode0 !! i = Some a) in Hi. apply lookup_replicate in Hi as [-> _].
      simpl in Ha. lia. }
    intros i j a b Hi Hj Ha Hb _ _. by rewrite (Hz i a), (Hz j b).
Qed.

Lemma iget_counts_witness :
  match @iget 1 5 ks_tables with
  | Ret i s' => i = 1%nat /\ refcount 1 5 (inodes (k_fs s')) = 1 /\ refcount 1 1 (inodes (k_fs s')) = 2
  | _ => False
  end.
Proof.
  pose proof (iget_counts 1 5 ks_tables (proj1 ks1_free) eq_refl inodes1_inv) as H.
  destruct (iget 1 5 ks_tables) as [i s'|m s'|s'] eqn:He; [|vm_compute in He; discriminate He|exact H].
  destruct H as (_ & _ & H & _). rewrite !H. split; [|split; reflexivity].
  apply (f_equal (fun r => match r with Ret i _ => i | _ => O end)) in He. vm_compute in He. by symmetry.
Defined.

Lemma idup_iput_witness : exists c, wp (j <- idup 0;; @iput env0 {| disk_rw := fun _ _ => ret tt |} (Some j))
  (fun _ s' => inodes (k_fs s') = inodes1) ks_tables /\ ctl_ok c.
Proof.
  exists ctl1. split; [|apply ks1_free]. eapply wp_mono.
  - apply (@idup_iput env0 {| disk_rw := fun _ _ => ret tt |} 0 (mkinode 1 1 2 sleeplock0 1 T_DIR 0 0 1 64 (replicate 13 0)) ks_tables
      (proj1 ks1_free) eq_refl eq_refl). simpl. lia.
  - intros _ s' (c & _ & ->). reflexivity.
Defined.

Lemma filealloc_first_witness : wp filealloc (fun r _ => r = Some 1%nat) ks_tables.
Proof.
  destruct (wp_inv _ _ _ (filealloc_first ks_tables (proj1 ks1_free) eq_refl eq_refl)) as (r & s' & He & c & _ & H).
  unfold wp. rewrite He. destruct r as [[|[|i]]|]; [|reflexivity| |].
  - destruct H as (f & Hf & H0 & _). injection Hf as <-. discriminate H0.
  - destruct H as (f & _ & _ & Hj & _). exfalso. apply (Hj 1%nat file0); [lia|reflexivity|reflexivity].
  - destruct H as [H _]. apply Forall_forall with (x := file0) in H; [done|]. right. left.
Defined.

Lemma filedup_fileclose_witness :
  wp (j <- filedup 0;; @fileclose env0 {| disk_rw := fun _ _ => ret tt |} j)
     (fun _ s' => files (k_fs s') = files (k_fs ks_tables)) ks_tables /\
  exists s', filedup 3 ks_tables = Panic "filedup" s'.
Proof.
  split.
  - destruct (@filedup_fileclose env0 {| disk_rw := fun _ _ => ret tt |} 0 (set_f_ref 1 file0) ks_tables
      (proj1 ks1_free) eq_refl eq_refl) as [H _].
    eapply wp_mono; [apply H; simpl; lia|]. intros _ s' (c & _ & ->). reflexivity.
  - destruct (@filedup_fileclose env0 {| disk_rw := fun _ _ => ret tt |} 3 file0 ks_tables
      (proj1 ks1_free) eq_refl eq_refl) as [_ H]. apply H. simpl. lia.
Defined.
