(* ===== verification/FsRead.v ===== *)
(** * Reading files and directories (kernel/fs.c)

    bmap(), readi() and dirlookup() against the meaning of the blocks they read:
    with the cache in the state of an abstract disk, readi() delivers the bytes
    of the file, and dirlookup() finds the first entry of a name. *)

From S2P Require Import Prelude Riscv Kstate CString Bytes Spinlock Kalloc Vm Sched SchedSpec Sleeplock Bio FsRun BioSpec.
From S2P Require Import Log LogSpec Fs FsSpec FsImage File Tables.

Definition getI (i : nat) (F : fsstate) : inode := default inode0 (inodes F !! i).

(** Part [bn] of the file has a block, which this process may use. *)
Definition mapped (a : absview) (addrs : list Z) (bn : Z) : Prop :=
  block_of (av a) addrs bn <> 0 /\ usable a (block_of (av a) addrs bn) /\
  (NDIRECT <= bn -> slot addrs NDIRECT <> 0 /\ usable a (slot addrs NDIRECT)).

(** With a free entry in the table, iget() succeeds. *)
Lemma iget_free dev inum l j ip : l !! j = Some ip -> i_ref ip = 0 -> iget_ref dev inum l <> None.
Proof.
  intros Hj Hr. unfold iget_ref. case_match; [done|]. destruct (first_index (fun ip => i_ref ip =? 0) l) eqn:Hf; [done|].
  apply first_index_None in Hf. apply (Forall_lookup_1 _ _ _ _ Hf) in Hj. apply Z.eqb_neq in Hj. done.
Qed.

Section read.
Context {E : Env} {D : DiskDriver} {DR : DiskReady} {L : DiskLaws} (pr : nat) (pid dev : Z) (Hdev : 0 < dev < 2 ^ 31).

(** Taking a block and giving it back changes nothing. *)
Lemma cached_visit a F n : al a n = false -> Cached dev pid (a_put n (a_get n a)) F -> Cached dev pid a F.
Proof.
  intros Hl H. eapply cached_ext; [exact H|..]; try done; cbn [a_put a_get av ar al ab ad aw].
  - intros m. destruct (decide (m = n)) as [->|]; [rewrite !fupd_eq; lia|by rewrite !fupd_ne by done].
  - intros m. destruct (decide (m = n)) as [->|]; [by rewrite fupd_eq|by rewrite !fupd_ne by done].
  - rewrite fupd_eq. destruct (Z.eqb_spec (ar a n) 0), (Z.eqb_spec (ar a n + 1) 1); simpl; lia.
Qed.

(** The cache is in the buffers and on the disk. *)
Definition same_cache (F F' : fsstate) : Prop := bufs F' = bufs F /\ disk F' = disk F /\ disk_writes F' = disk_writes F.

Lemma cached_same a F F' : same_cache F F' -> Cached dev pid a F -> Cached dev pid a F'.
Proof.
  destruct F, F'. intros (H1 & H2 & H3). simpl in *. subst. intros [[C1 C2 C3 C4 C5] C6 C7 C8 C9 C10 C11]. by split.
Qed.

Lemma at_buf_same F F' b n : same_cache F F' -> at_buf dev F b n -> at_buf dev F' b n.
Proof. intros (H1 & _). unfold at_buf, getB. by rewrite H1. Qed.

(** [bp = bread(dev, n); ... bp->data ...; brelse(bp); ...], where the block is not
    written: brelse() restores the state. *)
Lemma fsrun_peek {B} a F n (k : nat -> list Z -> K B) (Q : B -> fsstate -> Prop) :
  Cached dev pid a F -> usable a n -> ab a < Z.of_nat NBUF ->
  (forall bp F1, same_rest F F1 -> (forall F2 (R : unit -> fsstate -> Prop), same_cache F1 F2 ->
     (forall F', Cached dev pid a F' -> same_rest F2 F' -> R tt F') -> fsrun pr pid (brelse bp) F2 R) -> fsrun pr pid (k bp (av a n)) F1 Q) ->
  fsrun pr pid (bp <- bread dev n;; d <- bdata bp;; k bp d) F Q.
Proof.
  intros Hca (Hn & Hlk & Hr) Hab Hk. assert (Hdev2 : 0 < dev < 2 ^ 32) by lia. pose proof (cached_refs pid dev a F n Hca) as Hr0.
  eapply crun_bind, (fsrun_bread pr pid dev Hdev2 a); [done|lia|done|lia|by right|]. intros bp F1 Hca1 Hat _ Hsr.
  eapply crun_bind, (fsrun_bdata pr pid dev (a_get n a)); [done|done|]. cbn [a_get av]. apply Hk; [done|]. intros F2 R Hsc HR.
  apply (fsrun_brelse pr pid dev Hdev2 (a_get n a) F2 bp n); [by eapply cached_same|by eapply at_buf_same|cbn; by rewrite fupd_eq| |].
  - cbn [a_get ar av ad]. rewrite fupd_eq. intros H1. apply (cached_clean pid dev a F); [done|lia].
  - intros F3 Hca3 _ Hsr3. apply HR; [by apply (cached_visit _ _ n)|done].
Qed.

Lemma crun_geti o i F (Q : inode -> fsstate -> Prop) : Q (getI i F) F -> crun pr pid o (geti i) F o Q.
Proof. intros H. by apply (crun_gets pr pid o (getI i)). Qed.

(** bmap() of a part that has a block. *)
Lemma fsrun_bmap a F i bn (Q : Z -> fsstate -> Prop) : Cached dev pid a F -> i_dev (getI i F) = dev -> 0 <= bn < MAXFILE ->
  ab a < Z.of_nat NBUF -> mapped a (i_addrs (getI i F)) bn ->
  (forall F', Cached dev pid a F' -> same_rest F F' -> Q (block_of (av a) (i_addrs (getI i F)) bn) F') ->
  fsrun pr pid (bmap i bn) F Q.
Proof.
  intros Hca Hd Hbn Hab (H0 & Hu & Hind) HQ. unfold bmap. eapply crun_bind, crun_geti. unfold block_of in *.
  destruct (Z.ltb_spec bn NDIRECT) as [Hlt|Hge].
  - change (addr_nth (getI i F) bn) with (slot (i_addrs (getI i F)) bn). destruct (Z.eqb_spec (slot (i_addrs (getI i F)) bn) 0); [done|].
    apply crun_ret. by apply HQ.
  - destruct (Hind Hge) as [Hi0 Hiu]. unfold MAXFILE in Hbn. destruct (Z.ltb_spec (bn - NDIRECT) NINDIRECT); [|lia].
    change (addr_nth (getI i F) NDIRECT) with (slot (i_addrs (getI i F)) NDIRECT).
    destruct (Z.eqb_spec (slot (i_addrs (getI i F)) NDIRECT) 0); [done|]. eapply crun_bind, crun_ret.
    destruct (Z.eqb_spec (slot (i_addrs (getI i F)) NDIRECT) 0); [done|]. rewrite Hd.
    apply (fsrun_peek a); [done..|]. intros bp F1 Hsr1 Hrel. cbv zeta. unfold entry in *.
    destruct (Z.eqb_spec (rd 4 (av a (slot (i_addrs (getI i F)) NDIRECT)) (4 * (bn - NDIRECT))) 0); [done|].
    eapply crun_bind, crun_ret, crun_bind, Hrel; [done|]. intros F' Hca' Hsr. apply crun_ret. apply HQ; [done|by eapply same_rest_trans].
Qed.

(** ** readi() *)

(** The file of an inode: its size fits, and every part of it has a block. *)
Record file_ok (a : absview) (ip : inode) : Prop := {
  fo_dev : i_dev ip = dev;
  fo_size : 0 <= i_size ip <= MAXFILE * BSIZE;
  fo_mapped : forall bn, 0 <= bn -> bn * BSIZE < i_size ip -> mapped a (i_addrs ip) bn
}.

(** Turns left of the loop of readi(). *)
Definition turns_left (n off tot : Z) : nat :=
  if tot <? n then Z.to_nat ((n - tot + off mod BSIZE + (BSIZE - 1)) / BSIZE) else 0.

Lemma same_getI i F F' : same_rest F F' -> getI i F' = getI i F.
Proof. intros (_ & _ & H & _). unfold getI. by rewrite H. Qed.

Lemma turns_step n off tot : 0 <= off -> tot < n ->
  let m := Z.min (n - tot) (BSIZE - off mod BSIZE) in (turns_left n (off + m) (tot + m) < turns_left n off tot)%nat.
Proof.
  intros Ho Ht m. unfold turns_left, BSIZE in *. pose proof (Z.mod_pos_bound off 1024 ltac:(lia)) as Hmod.
  destruct (Z.ltb_spec tot n); [|lia]. destruct (Z.ltb_spec (tot + m) n) as [Hlt|Hge].
  - assert (Hm : m = 1024 - off mod 1024) by lia. assert (H0 : (off + m) mod 1024 = 0).
    { rewrite Hm. pose proof (Z.div_mod off 1024 ltac:(lia)). symmetry. apply (Z.mod_unique _ _ (off / 1024 + 1)); lia. }
    rewrite H0, Hm. replace (n - tot + off mod 1024 + (1024 - 1)) with (n - (tot + (1024 - off mod 1024)) + 0 + (1024 - 1) + 1 * 1024) by lia.
    rewrite Z.div_add by lia. assert (0 <= (n - (tot + (1024 - off mod 1024)) + 0 + (1024 - 1)) / 1024) by (apply Z.div_pos; lia). lia.
  - assert (1 <= (n - tot + off mod 1024 + (1024 - 1)) / 1024) by (apply Z.div_le_lower_bound; lia). lia.
Qed.

Lemma turns_enough n off : 0 <= n -> (turns_left n off 0 < Z.to_nat (n / BSIZE + 3))%nat.
Proof.
  intros Hn. unfold turns_left, BSIZE in *. pose proof (Z.mod_pos_bound off 1024 ltac:(lia)). pose proof (Z.div_pos n 1024 ltac:(lia) ltac:(lia)).
  destruct (Z.ltb_spec 0 n); [|lia].
  assert ((n - 0 + off mod 1024 + (1024 - 1)) / 1024 < n / 1024 + 3); [|lia]. apply Z.div_lt_upper_bound; [lia|].
  pose proof (Z.div_mod n 1024 ltac:(lia)). pose proof (Z.mod_pos_bound n 1024 ltac:(lia)). lia.
Qed.

Lemma fsrun_readi a F i off n (Q : Z * list Z -> fsstate -> Prop) : Cached dev pid a F -> file_ok a (getI i F) -> ab a < Z.of_nat NBUF ->
  0 <= off <= i_size (getI i F) -> 0 <= n -> off + n < 2 ^ 32 ->
  (forall F', Cached dev pid a F' -> same_rest F F' ->
     let n' := Z.min n (i_size (getI i F) - off) in Q (n', file_bytes (av a) (i_addrs (getI i F)) off n') F') ->
  fsrun pr pid (readi i ToObj off n) F Q.
Proof.
  intros Hca [Hd Hs Hmap] Hab Hoff Hn H32 HQ. unfold readi. eapply crun_bind, crun_geti. set (ip := getI i F) in *.
  assert (Hmax : MAXFILE * BSIZE = 274432) by done.
  replace (u32 (off + n)) with (off + n) by (unfold u32; rewrite Z.mod_small; lia).
  destruct (Z.ltb_spec (i_size ip) off); [lia|]. destruct (Z.ltb_spec (off + n) off); [lia|]. cbn [orb].
  set (n' := Z.min n (i_size ip - off)) in *. assert (Hn' : 0 <= n' <= i_size ip - off) by lia.
  replace (if i_size ip <? off + n then u32 (i_size ip - off) else n) with n'.
  2: { destruct (Z.ltb_spec (i_size ip) (off + n)); [|lia]. unfold u32. rewrite Z.mod_small; lia. }
  apply (crun_loop pr pid None (fun '(d, o, t, acc) G => d = ToObj /\ Cached dev pid a G /\ same_rest F G /\ o = off + t /\ 0 <= t <= n' /\
    acc = file_bytes (av a) (i_addrs ip) off t) (fun '(_, o, t, _) => turns_left n' o t)).
  - intros [[[d o] t] acc] G (-> & HcaG & HsrG & Ho & Ht & Hacc). unfold readi_step. destruct (Z.ltb_spec t n') as [Hlt|Hge].
    + pose proof (Z.mod_pos_bound o BSIZE ltac:(done)) as Hmod. pose proof (Z.div_mod o BSIZE ltac:(done)) as Hdm. unfold BSIZE in Hmod, Hdm.
      assert (Hbn : 0 <= o / BSIZE < MAXFILE /\ o / BSIZE * BSIZE < i_size ip) by (unfold MAXFILE, NDIRECT, NINDIRECT, BSIZE in *; change (1024 / 4) with 256; lia).
      pose proof (same_getI i F G HsrG) as HI. fold ip in HI. pose proof (Hmap _ (proj1 (proj1 Hbn)) (proj2 Hbn)) as (Hb0 & Hbu & Hbi).
      eapply crun_bind, (fsrun_bmap a); [done|by rewrite HI|apply Hbn|done|by rewrite HI|]. intros G1 HcaG1 HsrG1. rewrite HI.
      destruct (Z.eqb_spec (block_of (av a) (i_addrs ip) (o / BSIZE)) 0); [done|].
      eapply crun_bind, crun_geti. rewrite (same_getI i G G1 HsrG1), HI, Hd. cbv zeta.
      apply (fsrun_peek a); [done..|]. intros bp G2 HsrG2 Hrel. eapply crun_bind. unfold either_copyout. eapply crun_bind, crun_kmyproc, crun_ret.
      eapply crun_bind, Hrel; [done|]. intros G3 HcaG3 HsrG3. change (0 =? -1) with false. apply crun_ret.
      set (m := Z.min (n' - t) (BSIZE - o mod BSIZE)). assert (Hm : 0 < m <= n' - t) by (unfold m, BSIZE; lia).
      unfold u32. rewrite !Z.mod_small by lia. split; [|by apply turns_step; lia]. split_and!; try (done || lia).
      * do 3 (eapply same_rest_trans; [|done]). done.
      * rewrite Hacc, file_bytes_app by lia. f_equal. rewrite <- Ho. symmetry. apply file_bytes_block; [lia|lia|unfold m; lia|].
        by rewrite (cached_len pid dev a G).
    + apply crun_ret. replace t with n' in * by lia. rewrite Hacc. by apply HQ.
  - split_and!; try (done || lia).
  - cbv beta iota. apply turns_enough; lia.
Qed.

(** ** dirlookup() *)

Lemma cached_inodes a F l : Cached dev pid a F -> Cached dev pid a (set_inodes l F).
Proof. intros [[H1 H2 H3 H4 H5] H6 H7 H8 H9 H10 H11]. by split. Qed.

Lemma fsrun_iget F inum i l (Q : nat -> fsstate -> Prop) : iget_ref dev inum (inodes F) = Some (i, l) -> Q i (set_inodes l F) ->
  fsrun pr pid (iget dev inum) F Q.
Proof.
  intros Hr HQ c0 s Hs <-. pose proof (ru_ctl _ _ _ _ _ Hs) as H4.
  pose proof (iget_runs dev inum s (running_ok _ _ _ _ _ Hs) (running_other _ _ _ _ _ L_itable Hs ltac:(done))) as Hrun. rewrite Hr in Hrun.
  eapply wp_mono; [exact Hrun|]. intros r s' (-> & c & Hc & ->). split_and!; [done| |apply woken_refl].
  eapply running_frame; [done|cbn; by rewrite H4|done|done|apply woken_refl].
Qed.

(** Does the entry at [off] match? *)
Definition entry_matches (a : absview) (addrs name : list Z) (off : Z) : bool :=
  negb (de_inum (dirent_at (av a) addrs off) =? 0) && (namecmp name (de_name (dirent_at (av a) addrs off)) =? 0).

Record dir_ok (a : absview) (ip : inode) : Prop := {
  do_file : file_ok a ip;
  do_type : i_type ip = T_DIR;
  do_size : i_size ip mod sizeof_dirent = 0;
  do_bytes : forall k, 0 <= k < i_size ip -> 0 <= file_byte (av a) (i_addrs ip) k < 256
}.

Lemma dir_offs_in size off : 0 <= size -> size mod sizeof_dirent = 0 -> off ∈ dir_offs size -> 0 <= off /\ off + sizeof_dirent <= size.
Proof.
  unfold dir_offs, sizeof_dirent. intros Hs Hm Hin. apply list_elem_of_fmap in Hin as (k & -> & Hk). apply elem_of_seq in Hk.
  pose proof (Z.div_mod size 16 ltac:(lia)). replace (size + 16 - 1) with (15 + size / 16 * 16) in Hk by lia.
  rewrite Z.div_add in Hk by lia. change (15 / 16) with 0 in Hk. lia.
Qed.

(** An entry matches when it is in use and its name is the one looked for. *)
Lemma entry_matches_find a ip name : dir_ok a ip -> Forall (fun c => 0 <= c < 256) name ->
  dir_find name (dir_entries (av a) (i_addrs ip) (i_size ip)) =
  (fun off => let de := dirent_at (av a) (i_addrs ip) off in (off, (de_inum de, cstr (de_name de)))) <$>
    List.find (entry_matches a (i_addrs ip) name) (dir_offs (i_size ip)).
Proof.
  intros [[_ Hs _] _ Hm Hb] Hn. unfold dir_find, dir_entries. pose proof (dir_offs_in (i_size ip)) as Hin.
  induction (dir_offs (i_size ip)) as [|off offs IH]; [done|]. cbn [map List.filter List.find fst snd]. unfold entry_matches at 1.
  set (de := dirent_at (av a) (i_addrs ip) off).
  assert (Hde : length de = 16%nat /\ Forall (fun c => 0 <= c < 256) de).
  { unfold de, dirent_at. split; [apply file_bytes_length|]. destruct (Hin off) as [H1 H2]; [lia|done|by left|].
    apply Forall_lookup. intros k x Hk. pose proof (lookup_lt_Some _ _ _ Hk) as Hk'. rewrite file_bytes_length in Hk'.
    rewrite file_bytes_lookup in Hk by done. injection Hk as <-. apply Hb. unfold sizeof_dirent in *. lia. }
  destruct Hde as [Hlen Hby]. destruct (Z.eqb_spec (de_inum de) 0); cbn [negb andb]; [by apply IH; intros; apply Hin; [..|right]|].
  cbn [List.find fst snd]. assert (Hnm : length (de_name de) = 14%nat) by (unfold de_name; apply slice_length; rewrite Hlen; unfold DIRSIZ; lia).
  assert (Heq : namecmp name (de_name de) = 0 <-> cstr (de_name de) = take DIRSIZ (cstr name)).
  { unfold namecmp. rewrite strncmp_l_0; [|done|by apply Forall_take, Forall_drop]. rewrite (take_ge (cstr (de_name de))); [done|].
    etransitivity; [apply cstr_length|]. by rewrite Hnm. }
  destruct (Z.eqb_spec (namecmp name (de_name de)) 0) as [H0|H0]; case_bool_decide as Hb'; try tauto.
  by apply IH; intros; apply Hin; [..|right].
Qed.

Lemma find_app {A} (p : A -> bool) l1 x l2 : (forall y, y ∈ l1 -> p y = false) -> p x = true -> List.find p (l1 ++ x :: l2) = Some x.
Proof.
  intros H Hx. induction l1 as [|y l1 IH]; simpl; [by rewrite Hx|]. rewrite H by left. apply IH. intros z Hz. apply H. by right.
Qed.
Lemma find_none {A} (p : A -> bool) l : (forall y, y ∈ l -> p y = false) -> List.find p l = None.
Proof. intros H. induction l as [|y l IH]; simpl; [done|]. rewrite H by left. apply IH. intros z Hz. apply H. by right. Qed.

Lemma fsrun_dirlookup a F i name (Q : option (nat * Z) -> fsstate -> Prop) : Cached dev pid a F -> dir_ok a (getI i F) -> ab a < Z.of_nat NBUF ->
  Forall (fun c => 0 <= c < 256) name -> (forall inum, iget_ref dev inum (inodes F) <> None) ->
  (forall F', Cached dev pid a F' ->
     match dir_find name (dir_entries (av a) (i_addrs (getI i F)) (i_size (getI i F))) with
     | None => same_rest F F' -> Q None F'
     | Some (off, (inum, _)) => forall ip l, iget_ref dev inum (inodes F) = Some (ip, l) -> inodes F' = l -> same_rest (set_inodes l F) F' -> Q (Some (ip, off)) F'
     end) ->
  fsrun pr pid (dirlookup i name) F Q.
Proof.
  intros Hca Hdir Hab Hn Hig HQ. pose proof Hdir as [Hf Ht Hm Hb]. pose proof Hf as [Hd Hs _]. unfold dirlookup. eapply crun_bind, crun_geti.
  rewrite entry_matches_find in HQ by done. set (ip := getI i F) in *. rewrite Ht, Z.eqb_refl. cbn [negb].
  set (found := fun off => if entry_matches a (i_addrs ip) name off
    then (fun x => (fst x, off)) <$> iget_ref dev (de_inum (dirent_at (av a) (i_addrs ip) off)) (inodes F) else None).
  assert (Hread : forall off G (k : Z * list Z -> K (option (nat * Z))) R, Cached dev pid a G /\ same_rest F G -> off ∈ dir_offs (i_size ip) ->
    (forall G', Cached dev pid a G' -> same_rest F G' -> fsrun pr pid (k (sizeof_dirent, dirent_at (av a) (i_addrs ip) off)) G' R) ->
    fsrun pr pid (bind (readi i ToObj off sizeof_dirent) k) G R).
  { intros off G k R [HcaG HsrG] Hin Hk. destruct (dir_offs_in (i_size ip) off) as [H1 H2]; [lia|done|done|].
    pose proof (same_getI i F G HsrG) as HI. fold ip in HI. assert (MAXFILE * BSIZE = 274432) by done. assert (sizeof_dirent = 16) by done.
    eapply crun_bind, (fsrun_readi a); rewrite ?HI; [done|done|done|lia|lia|lia|]. intros G' HcaG' HsrG'.
    rewrite Z.min_l by lia. apply Hk; [done|by eapply same_rest_trans]. }
  apply (crun_for_find pr pid (fun G => Cached dev pid a G /\ same_rest F G) found).
  - done.
  - intros off G Hin HG Hno. apply Hread; [done|done|]. intros G' HcaG' HsrG'. rewrite Z.eqb_refl. cbn [negb].
    unfold found, entry_matches in Hno. destruct (Z.eqb_spec (de_inum (dirent_at (av a) (i_addrs ip) off)) 0); [by apply crun_ret|].
    destruct (Z.eqb_spec (namecmp name (de_name (dirent_at (av a) (i_addrs ip) off))) 0); [|by apply crun_ret].
    simpl in Hno. destruct (iget_ref dev _ (inodes F)) eqn:Hi; [done|]. by apply Hig in Hi.
  - intros off l1 l2 G HG Hl Hbefore Hfound. apply Hread; [done|rewrite Hl; apply elem_of_app; right; by left|].
    intros G' HcaG' HsrG'. rewrite Z.eqb_refl. cbn [negb].
    assert (Hm1 : entry_matches a (i_addrs ip) name off = true) by (unfold found in Hfound; by case_match).
    rewrite Hl, (find_app _ l1 off l2) in HQ; [|intros y Hy; apply Hbefore in Hy; unfold found in Hy|done].
    2: { destruct (entry_matches a (i_addrs ip) name y); [|done]. destruct (iget_ref dev _ (inodes F)) eqn:Hi; [done|]. by apply Hig in Hi. }
    pose proof Hm1 as Hm2. unfold entry_matches in Hm2. apply andb_prop in Hm2 as [Hm2 Hm3]. apply negb_true_iff in Hm2. rewrite Hm2, Hm3.
    unfold found. rewrite Hm1. set (inum := de_inum (dirent_at (av a) (i_addrs ip) off)) in *.
    destruct (iget_ref dev inum (inodes F)) as [[j l]|] eqn:Hi; [|by apply Hig in Hi].
    eapply crun_bind, crun_geti. rewrite (same_getI i F G' HsrG'). fold ip. rewrite Hd.
    assert (HiG : iget_ref dev inum (inodes G') = Some (j, l)) by (destruct HsrG' as (_ & _ & -> & _); done).
    eapply crun_bind, (fsrun_iget G' inum j l _ HiG), crun_ret. split; [done|].
    specialize (HQ (set_inodes l G') (cached_inodes _ _ _ HcaG')). cbn in HQ. apply (HQ j l); [done|done|]. destruct HsrG' as (? & ? & ? & ? & ?). by split_and!.
  - intros G' [HcaG' HsrG'] Hall. rewrite find_none in HQ; [by apply (HQ G')|]. intros y Hy. apply Hall in Hy. unfold found in Hy.
    destruct (entry_matches a (i_addrs ip) name y); [|done]. destruct (iget_ref dev _ (inodes F)) eqn:Hi; [done|]. by apply Hig in Hi.
Qed.

(** ** ilock() *)

Definition updI (i : nat) (f : inode -> inode) (F : fsstate) : fsstate := set_inodes (alter f i (inodes F)) F.

Lemma getI_upd i f F : (i < length (inodes F))%nat -> getI i (updI i f F) = f (getI i F).
Proof. intros H. unfold getI, updI. simpl. rewrite list_lookup_alter_eq. by destruct (lookup_lt_is_Some_2 _ _ H) as [x ->]. Qed.

Lemma updI_upd i f g F : updI i g (updI i f F) = updI i (fun x => g (f x)) F.
Proof.
  unfold updI, set_inodes. simpl. f_equal. apply list_eq. intros j. rewrite !list_lookup_alter.
  destruct (decide (i = j)) as [->|]; [|done]. rewrite decide_True by done. by destruct (inodes F !! j).
Qed.

Lemma cached_updI a F i f : Cached dev pid a F -> Cached dev pid a (updI i f F).
Proof. apply cached_inodes. Qed.

Definition lock_inode (ip : inode) : inode := set_i_lock (locked_by pid (i_lock ip)) ip.

Lemma fsrun_acquire_inode i F (Q : unit -> fsstate -> Prop) :
  sl_locked (i_lock (getI i F)) = 0 -> Q tt (updI i lock_inode F) -> fsrun pr pid (acquiresleep (SLinode i)) F Q.
Proof.
  intros Hl HQ. unfold acquiresleep. eapply crun_bind, crun_kacquire. cbn [loop].
  eapply crun_bind, crun_bind, crun_bind. intros c0 s Hs <-. apply wp_gets. split_and!; [|exact Hs|apply woken_refl].
  assert (Hg : get_sleep (SLinode i) s = i_lock (getI i (k_fs s))) by (unfold get_sleep, getI; by destruct (inodes (k_fs s) !! i)).
  rewrite Hg, Hl. apply crun_ret, crun_ret. eapply crun_bind.
  apply (crun_modify _ _ _ (updI i (fun x => set_i_lock (set_sl_locked 1 (i_lock x)) x))). apply crun_curpid. intros p Hp.
  eapply crun_bind, (crun_modify _ _ _ (updI i (fun x => set_i_lock (set_sl_pid (p_pid p) (i_lock x)) x))).
  apply crun_krelease. rewrite updI_upd, Hp. exact HQ.
Qed.

(** What ilock() makes of an entry. *)
Definition load_inode (di : dinode) (ip : inode) : inode :=
  if i_valid ip =? 0 then set_i_valid 1 (inode_of_dinode di (lock_inode ip)) else lock_inode ip.

Lemma fsrun_ilock a F i (Q : unit -> fsstate -> Prop) : let ip := getI i F in let di := disk_inode (av a) (sb F) (i_inum ip) in
  Cached dev pid a F -> (i < length (inodes F))%nat -> 1 <= i_ref ip -> i_dev ip = dev -> sl_locked (i_lock ip) = 0 -> ab a < Z.of_nat NBUF ->
  (i_valid ip = 0 -> di_type di <> 0 /\ usable a (IBLOCK (i_inum ip) (sb F))) ->
  (forall F', Cached dev pid a F' -> same_rest (updI i (load_inode di) F) F' -> Q tt F') ->
  fsrun pr pid (ilock (Some i)) F Q.
Proof.
  intros ip di Hca Hi Hr Hd Hl Hab Hv HQ. unfold ilock. eapply crun_bind, crun_geti. fold ip. destruct (Z.ltb_spec (i_ref ip) 1); [lia|].
  eapply crun_bind, fsrun_acquire_inode; [done|]. eapply crun_bind, crun_geti. rewrite getI_upd by done. fold ip.
  assert (Hlen : forall f, length (inodes (updI i f F)) = length (inodes F)) by (intros; unfold updI; simpl; apply length_alter).
  assert (Hload : forall f, f ip = load_inode di ip -> updI i f F = updI i (load_inode di) F).
  { intros f Hf. unfold updI. f_equal. apply list_eq. intros j. rewrite !list_lookup_alter. case_decide; [|done]. subst j.
    destruct (lookup_lt_is_Some_2 _ _ Hi) as [x Hx]. assert (Hx' : ip = x) by (unfold ip, getI; by rewrite Hx). rewrite Hx. simpl. by rewrite <- Hx', Hf. }
  change (i_valid (lock_inode ip)) with (i_valid ip). destruct (Z.eqb_spec (i_valid ip) 0) as [H0|H0]; cbn [when].
  2: { apply crun_ret. apply HQ; [by apply cached_updI|]. rewrite <- (Hload lock_inode); [done|]. unfold load_inode. by destruct (Z.eqb_spec (i_valid ip) 0). }
  destruct (Hv H0) as [Ht Hu]. eapply crun_bind. apply (crun_gets pr pid _ sb). change (i_dev (lock_inode ip)) with (i_dev ip). rewrite Hd.
  apply (fsrun_peek a); [by apply cached_updI|exact Hu|done|]. intros bp F1 Hsr1 Hrel.
  set (g := fun x => inode_of_dinode (dinode_of_bytes (av a (IBLOCK (i_inum (lock_inode ip)) (sb (updI i lock_inode F)))) (dinode_off (i_inum x))) x).
  eapply crun_bind, (crun_modify pr pid _ (updI i g)), crun_bind, Hrel; [done|]. intros F2 Hca2 Hsr2.
  eapply crun_bind, (crun_modify pr pid _ (updI i (set_i_valid 1))), crun_bind, crun_geti.
  assert (Hin : inodes (updI i (set_i_valid 1) F2) = inodes (updI i (load_inode di) F)).
  { rewrite <- (Hload (fun x => set_i_valid 1 (g (lock_inode x)))) by (unfold load_inode; by rewrite H0).
    rewrite <- (updI_upd i (fun x => g (lock_inode x))), <- (updI_upd i lock_inode). unfold updI at 1 2 3. simpl. f_equal.
    destruct Hsr2 as (_ & _ & -> & _). unfold updI. simpl. f_equal. by destruct Hsr1 as (_ & _ & -> & _). }
  assert (Hget : getI i (updI i (set_i_valid 1) F2) = load_inode di ip) by (unfold getI at 1; rewrite Hin; by apply (getI_upd i (load_inode di))).
  rewrite Hget. unfold load_inode at 1. rewrite H0, Z.eqb_refl. cbn [i_type set_i_valid inode_of_dinode set_i_addrs set_i_size set_i_nlink set_i_minor set_i_major set_i_type].
  destruct (Z.eqb_spec (di_type di) 0); [done|]. apply crun_ret, HQ; [by apply cached_updI|].
  destruct Hsr1 as (? & ? & _ & ? & ?), Hsr2 as (? & ? & _ & ? & ?). unfold same_rest. rewrite Hin. simpl in *. split_and!; congruence.
Qed.

(** ** The theorems *)

(** C17. readi() into a kernel object, on a file whose parts all have a block, returns
    the bytes of the file from the offset on: as many as asked, cut at the end of
    the file, across block boundaries and the indirect block; an offset past the
    end and a sum past 32 bits give 0.  The cache's contents, the references, the
    disk and the other tables stay as they were. *)
Theorem readi_reads a i off n c0 s : running pr pid None c0 s -> Cached dev pid a (k_fs s) -> file_ok a (getI i (k_fs s)) ->
  ab a < Z.of_nat NBUF -> 0 <= off < 2 ^ 32 -> 0 <= n < 2 ^ 32 ->
  let size := i_size (getI i (k_fs s)) in
  let n' := if (size <? off) || (2 ^ 32 <=? off + n) then 0 else Z.min n (size - off) in
  wp (readi i ToObj off n) (fun r s' => r = (n', file_bytes (av a) (i_addrs (getI i (k_fs s))) off n') /\
    running pr pid None c0 s' /\ Cached dev pid a (k_fs s') /\ same_rest (k_fs s) (k_fs s')) s.
Proof.
  intros Hrun Hca Hf Hab Ho Hn size n'. unfold n', size in *. clear n' size.
  destruct (Z.leb_spec (2 ^ 32) (off + n)) as [Hbig|Hsmall]; [|destruct (Z.ltb_spec (i_size (getI i (k_fs s))) off) as [Hpast|Hin]].
  1,2: (rewrite ?orb_true_r; unfold readi; apply wp_bind, wp_gets; fold (getI i (k_fs s));
    match goal with |- wp (if ?b then _ else _) _ _ => replace b with true end; [apply wp_ret; done|]).
  - symmetry. apply orb_true_intro. right. apply Z.ltb_lt. unfold u32. rewrite <- (Z.mod_unique (off + n) (2 ^ 32) 1 (off + n - 2 ^ 32)); lia.
  - symmetry. apply orb_true_intro. left. by apply Z.ltb_lt.
  - cbn [orb]. eapply wp_mono.
    + apply (fsrun_readi a (k_fs s) i off n (fun r F' => r = (Z.min n (i_size (getI i (k_fs s)) - off),
        file_bytes (av a) (i_addrs (getI i (k_fs s))) off (Z.min n (i_size (getI i (k_fs s)) - off))) /\
        Cached dev pid a F' /\ same_rest (k_fs s) F')) with (c0 := c0); try (done || lia).
    + intros r s' ((-> & H1 & H2) & H3 & _). done.
Qed.

(** C18. dirlookup() of a well-formed directory finds the first entry in use whose name
    is the one looked for, names counting up to DIRSIZ bytes, and returns its offset
    with a reference from iget() to its inode; it returns none iff there is no such
    entry.  Nothing else changes. *)
Theorem dirlookup_finds a i name c0 s : running pr pid None c0 s -> Cached dev pid a (k_fs s) -> dir_ok a (getI i (k_fs s)) ->
  ab a < Z.of_nat NBUF -> Forall (fun c => 0 <= c < 256) name -> (forall inum, iget_ref dev inum (inodes (k_fs s)) <> None) ->
  let ip := getI i (k_fs s) in
  wp (dirlookup i name) (fun r s' => running pr pid None c0 s' /\ Cached dev pid a (k_fs s') /\
    match dir_find name (dir_entries (av a) (i_addrs ip) (i_size ip)) with
    | None => r = None /\ same_rest (k_fs s) (k_fs s')
    | Some (off, (inum, _)) => exists j l, r = Some (j, off) /\ iget_ref dev inum (inodes (k_fs s)) = Some (j, l) /\
        same_rest (set_inodes l (k_fs s)) (k_fs s')
    end) s.
Proof.
  intros Hrun Hca Hd Hab Hn Hig ip. eapply wp_mono.
  - apply (fsrun_dirlookup a (k_fs s) i name (fun r F' => Cached dev pid a F' /\
      match dir_find name (dir_entries (av a) (i_addrs ip) (i_size ip)) with
      | None => r = None /\ same_rest (k_fs s) F'
      | Some (off, (inum, _)) => exists j l, r = Some (j, off) /\ iget_ref dev inum (inodes (k_fs s)) = Some (j, l) /\
          same_rest (set_inodes l (k_fs s)) F'
      end)) with (c0 := c0); try done.
    intros F' Hca'. fold ip. destruct (dir_find _ _) as [[off [inum nm]]|]; [|done]. intros j l Hi _ Hsr. split; [done|]. by exists j, l.
  - intros r s' ((H1 & H2) & H3 & _). done.
Qed.

End read.

(** ** Witnesses *)

(** A disk with one block of data, and an inode that has it. *)
Definition one_fs0 (d : list Z) (type size : Z) : fsstate :=
  mkfsstate (bufs fs0) (klog fs0) (sb fs0) (mkinode 1 2 1 sleeplock0 1 type 0 0 1 size (50 :: replicate 12 0) :: replicate 49 inode0)
    (files fs0) (pipes fs0) {[ 50 := d ]} (disk_writes fs0).
Definition one_fs (d : list Z) (type size : Z) : fsstate := set_bufs bufs_init (one_fs0 d type size).

Lemma one_block d type size b : block (one_fs0 d type size) b = if decide (b = 50) then d else zero_block.
Proof. unfold block. cbn [disk one_fs0]. case_decide; [subst; by rewrite lookup_singleton_eq|by rewrite lookup_singleton_ne]. Qed.

Lemma one_ok d type size : length d = 1024%nat -> let F := one_fs d type size in
  Cached 1 2 (abs_of 1 F) F /\ (forall n, usable (abs_of 1 F) n <-> 0 <= n < 2 ^ 31) /\ ab (abs_of 1 F) < Z.of_nat NBUF /\ av (abs_of 1 F) 50 = d.
Proof.
  intros Hd F. destruct (init_idle 1 2 (one_fs0 d type size)) as (H1 & (I1 & I2 & I3) & H3); [lia| |].
  { intros n. rewrite one_block. by case_decide. }
  fold (one_fs d type size) in *. fold F in H1, I1, I2, I3, H3. split; [by apply cached_abs|]. split.
  - intros n. unfold usable. rewrite I1, I2. split; [tauto|]. intros Hn. split; [done|]. split; [reflexivity|lia].
  - rewrite I3. split; [unfold NBUF; simpl; lia|]. change (av (abs_of 1 F) 50) with (view 1 F 50). rewrite H3, one_block. by rewrite decide_True.
Qed.

Lemma one_file_ok d type size : length d = 1024%nat -> 0 <= size <= 1024 -> let F := one_fs d type size in file_ok 1 (abs_of 1 F) (getI 0 F).
Proof.
  intros Hd Hsz F. destruct (one_ok d type size Hd) as (_ & Hu & _). fold F in Hu. assert (HM : MAXFILE * BSIZE = 274432) by reflexivity.
  assert (HI : i_size (getI 0 F) = size /\ i_addrs (getI 0 F) = 50 :: replicate 12 0) by done. destruct HI as [HI1 HI2]. split; rewrite ?HI1, ?HI2.
  - reflexivity.
  - lia.
  - intros bn Hb0 Hb. unfold BSIZE in Hb. assert (bn = 0) as -> by lia. unfold mapped.
    change (block_of (av (abs_of 1 F)) (50 :: replicate 12 0) 0) with 50. split; [lia|]. split; [by apply Hu|]. unfold NDIRECT. lia.
Qed.

Lemma readi_reads_witness : wp (@readi env0 ideal_driver 0 ToObj 998 100) (fun r _ => r = (22, replicate 22 7)) (set_k_fs (one_fs (replicate 1024 7) T_FILE 1020) ks1).
Proof.
  destruct (one_ok (replicate 1024 7) T_FILE 1020 eq_refl) as (Hca & _ & Hab & Hv). pose proof (one_file_ok (replicate 1024 7) T_FILE 1020 eq_refl ltac:(lia)) as Hf.
  eapply wp_mono.
  - apply (@readi_reads env0 ideal_driver always_ready ideal_laws 1 2 1 ltac:(lia) (abs_of 1 (one_fs (replicate 1024 7) T_FILE 1020)) 0 998 100 ctl1);
      [apply running_idle|exact Hca|exact Hf|exact Hab|lia|lia].
  - intros r s' [-> _]. change (i_size (getI 0 (k_fs (set_k_fs (one_fs (replicate 1024 7) T_FILE 1020) ks1)))) with 1020.
    change (i_addrs (getI 0 (k_fs (set_k_fs (one_fs (replicate 1024 7) T_FILE 1020) ks1)))) with (50 :: replicate 12 0).
    change (if (1020 <? 998) || (2 ^ 32 <=? 998 + 100) then 0 else Z.min 100 (1020 - 998)) with 22. f_equal.
Defined.

(** A directory with two entries. *)
Definition demo_dir : list Z :=
  mk_dirent 1 (bytes_of_string ".") ++ mk_dirent 0 (bytes_of_string "gone") ++ mk_dirent 5 (bytes_of_string "init") ++ replicate 976 0.

Lemma demo_dir_at img off : img 50 = demo_dir -> 0 <= off <= 1008 -> off mod 16 = 0 ->
  dirent_at img (50 :: replicate 12 0) off = slice demo_dir (Z.to_nat off) 16.
Proof.
  intros Hi Ho Hm. pose proof (Z.div_mod off 16 ltac:(lia)). unfold dirent_at. assert (Hd : off / BSIZE = 0) by (apply Z.div_small; unfold BSIZE; lia).
  assert (Hm' : off mod BSIZE = off) by (apply Z.mod_small; unfold BSIZE; lia).
  assert (Hb : block_of img (50 :: replicate 12 0) 0 = 50) by reflexivity.
  rewrite file_bytes_block; rewrite ?Hd, ?Hm', ?Hb, ?Hi; [reflexivity|lia|unfold sizeof_dirent; lia|unfold sizeof_dirent, BSIZE; lia|reflexivity].
Qed.

Lemma demo_dir_find img : img 50 = demo_dir ->
  dir_find (bytes_of_string "init") (dir_entries img (50 :: replicate 12 0) 48) = Some (32, (5, bytes_of_string "init")).
Proof.
  intros Hi. unfold dir_entries. change (dir_offs 48) with [0; 16; 32]. cbn [map]. rewrite !(demo_dir_at img) by (done || lia). vm_compute. reflexivity.
Qed.

Lemma demo_dir_ok : let F := one_fs demo_dir T_DIR 48 in dir_ok 1 (abs_of 1 F) (getI 0 F).
Proof.
  intros F. destruct (one_ok demo_dir T_DIR 48 eq_refl) as (_ & _ & _ & Hv). fold F in Hv. split.
  - apply one_file_ok; [reflexivity|lia].
  - reflexivity.
  - reflexivity.
  - intros k Hk. change (i_size (getI 0 F)) with 48 in Hk. change (i_addrs (getI 0 F)) with (50 :: replicate 12 0).
    unfold file_byte. rewrite (Z.div_small k BSIZE), (Z.mod_small k BSIZE) by (unfold BSIZE; lia).
    change (block_of (av (abs_of 1 F)) (50 :: replicate 12 0) 0) with 50. rewrite Hv. unfold znth. case_match; [simpl; lia|].
    assert (Hall : Forall (fun c => 0 <= c < 256) demo_dir) 
      by (apply Forall_forall; intros c Hc; apply list_elem_of_In in Hc;
          assert (Hb : forallb (fun c => (0 <=? c) && (c <? 256)) demo_dir = true) by (vm_compute; reflexivity);
          apply (proj1 (forallb_forall _ _) Hb) in Hc; lia).
    destruct (demo_dir !! Z.to_nat k) as [c|] eqn:Hc; [|simpl; lia]. exact (Forall_lookup_1 _ _ _ _ Hall Hc).
Qed.

Lemma dirlookup_finds_witness : wp (@dirlookup env0 ideal_driver 0 (bytes_of_string "init"))
  (fun r _ => exists j, r = Some (j, 32)) (set_k_fs (one_fs demo_dir T_DIR 48) ks1).
Proof.
  destruct (one_ok demo_dir T_DIR 48 eq_refl) as (Hca & _ & Hab & Hv). eapply wp_mono.
  - apply (@dirlookup_finds env0 ideal_driver always_ready ideal_laws 1 2 1 ltac:(lia) (abs_of 1 (one_fs demo_dir T_DIR 48)) 0 (bytes_of_string "init") ctl1);
      [apply running_idle|exact Hca|exact demo_dir_ok|exact Hab|apply bytes_of_string_bytes|].
    intros inum. apply (iget_free 1 inum _ 1 inode0); reflexivity.
  - intros r s' (_ & _ & H).
    change (i_size (getI 0 (k_fs (set_k_fs (one_fs demo_dir T_DIR 48) ks1)))) with 48 in H.
    change (i_addrs (getI 0 (k_fs (set_k_fs (one_fs demo_dir T_DIR 48) ks1)))) with (50 :: replicate 12 0) in H.
    rewrite (demo_dir_find _ Hv) in H. destruct H as (j & l & -> & _). by exists j.
Defined.
