(* ===== verification/PathSpec.v ===== *)
(** * Path names (kernel/fs.c)

    namex() walks a path with ilock(), dirlookup() and iunlockput() and the reference
    counts of the inode table.  The meaning of a path is a walk over the disk's
    directories; namex() returns a reference to the inode the walk ends at, and leaves
    every other reference as it found it. *)

From S2P Require Import Prelude Riscv Kstate CString Bytes Spinlock Kalloc Vm Sched SchedSpec Sleeplock Bio FsRun BioSpec.
From S2P Require Import Log LogSpec Fs FsSpec FsImage File Tables FsRead.

(** ** What a path means *)

Section tree.
Context (img : Z -> list Z) (S : superblock).

Definition is_dir (i : Z) : bool := di_type (disk_inode img S i) =? T_DIR.
Definition entries (i : Z) : list (Z * (Z * list Z)) := let di := disk_inode img S i in dir_entries img (di_addrs di) (di_size di).

(** The inode that the names [es] lead to from the inode [i]. *)
Fixpoint resolve (i : Z) (es : list (list Z)) : option Z :=
  match es with
  | [] => Some i
  | e :: es' =>
      if is_dir i then
        match dir_find e (entries i) with
        | Some (_, (j, _)) => resolve j es'
        | None => None
        end
      else None
  end.

(** For nameiparent(): the directory that the last name is looked up in. *)
Definition resolve_parent (i : Z) (es : list (list Z)) : option Z :=
  match rev es with
  | [] => None
  | _ :: r => match resolve i (rev r) with Some d => if is_dir d then Some d else None | None => None end
  end.

Lemma resolve_parent_one i e : resolve_parent i [e] = if is_dir i then Some i else None.
Proof. done. Qed.

Lemma resolve_parent_cons i e f es : resolve_parent i (e :: f :: es) =
  if is_dir i then match dir_find e (entries i) with Some (_, (j, _)) => resolve_parent j (f :: es) | None => None end else None.
Proof.
  unfold resolve_parent. change (rev (e :: f :: es)) with (rev (f :: es) ++ [e]). destruct (rev (f :: es)) as [|x r] eqn:Hr.
  - apply (f_equal length) in Hr. rewrite length_rev in Hr. done.
  - cbn [app]. rewrite rev_app_distr. cbn [rev app resolve]. destruct (is_dir i); [|done]. by destruct (dir_find e (entries i)) as [[off [j nm]]|].
Qed.

Definition target (parent : bool) (i : Z) (es : list (list Z)) : option Z := if parent then resolve_parent i es else resolve i es.

End tree.

(** ** The inode table during a walk *)

Definition one (i j : nat) : Z := if decide (j = i) then 1 else 0.

Section walk.
Context {E : Env} {D : DiskDriver} {DR : DiskReady} {L : DiskLaws} (pr : nat) (pid dev : Z) (Hdev : 0 < dev < 2 ^ 31).
Context (a : absview) (S : superblock) (G : Z -> Prop).

(** The inode [ip] as it is on the disk. *)
Definition loaded (ip : inode) : Prop := let di := disk_inode (av a) S (i_inum ip) in
  i_type ip = di_type di /\ i_nlink ip = di_nlink di /\ i_size ip = di_size di /\ i_addrs ip = di_addrs di.

(** The inodes of [G] are in use, their directories are well formed, and no name leads
    out of [G]. *)
Record tree_ok : Prop := {
  tr_use : forall i, G i -> let di := disk_inode (av a) S i in di_type di <> 0 /\ di_nlink di <> 0 /\ usable a (IBLOCK i S);
  tr_dir : forall i, G i -> is_dir (av a) S i = true -> dir_ok dev a (inode_of_dinode (disk_inode (av a) S i) (set_i_dev dev inode0));
  tr_next : forall i e off j nm, G i -> is_dir (av a) S i = true -> dir_find e (entries (av a) S i) = Some (off, (j, nm)) -> G j;
  tr_busy : ab a < Z.of_nat NBUF
}.

(** The table [l] is [l0] with [c j] references more to entry [j]; the entry [lk] is
    locked by this process and no other is locked. *)
Record table (l0 : list inode) (c : nat -> Z) (lk : option nat) (l : list inode) : Prop := {
  tb_len : length l = length l0;
  tb_more : forall j, 0 <= c j;
  tb_ref : forall j x0 x, l0 !! j = Some x0 -> l !! j = Some x -> 0 <= i_ref x0 /\ i_ref x = i_ref x0 + c j /\ (0 < i_ref x0 -> i_dev x = i_dev x0 /\ i_inum x = i_inum x0);
  tb_good : forall j x, l !! j = Some x -> 0 < i_ref x -> i_dev x = dev /\ G (i_inum x) /\ (i_valid x <> 0 -> loaded x);
  tb_lock : forall j x, l !! j = Some x -> if decide (lk = Some j) then sl_locked (i_lock x) = 1 /\ sl_pid (i_lock x) = pid else sl_locked (i_lock x) = 0
}.

(** An update of one entry. *)
Lemma table_alter l0 c c' lk lk' l i f x : table l0 c lk l -> l !! i = Some x ->
  (forall j, 0 <= c' j) -> (forall j, j <> i -> c' j = c j) -> i_ref (f x) - i_ref x = c' i - c i ->
  (0 < i_ref x -> i_dev (f x) = i_dev x /\ i_inum (f x) = i_inum x) ->
  (0 < i_ref (f x) -> i_dev (f x) = dev /\ G (i_inum (f x)) /\ (i_valid (f x) <> 0 -> loaded (f x))) ->
  (forall j, j <> i -> (lk = Some j <-> lk' = Some j)) ->
  (if decide (lk' = Some i) then sl_locked (i_lock (f x)) = 1 /\ sl_pid (i_lock (f x)) = pid else sl_locked (i_lock (f x)) = 0) ->
  table l0 c' lk' (alter f i l).
Proof.
  intros [T1 T2 T3 T4 T5] Hi Hc Hne Hr Hid Hg Hlk Hl.
  assert (Hlook : forall j y, alter f i l !! j = Some y -> j = i /\ y = f x \/ j <> i /\ l !! j = Some y).
  { intros j y. rewrite list_lookup_alter. destruct (decide (i = j)) as [<-|Hj]; [rewrite Hi; intros [= <-]; by left|intros Hy; right; by split]. }
  split; [by rewrite length_alter|done|..].
  - intros j x0 y H0 Hy. apply Hlook in Hy as [[-> ->]|[Hj Hy]].
    + destruct (T3 i x0 x H0 Hi) as (R1 & R2 & R3). pose proof (T2 i). split; [done|]. split; [lia|]. intros Hpos. destruct Hid as [-> ->]; [lia|]. by apply R3.
    + rewrite Hne by done. by apply T3.
  - intros j y Hy Hpos. apply Hlook in Hy as [[-> ->]|[Hj Hy]]; [by apply Hg|by apply (T4 j)].
  - intros j y Hy. apply Hlook in Hy as [[-> ->]|[Hj Hy]]; [exact Hl|]. pose proof (T5 j y Hy) as H5. specialize (Hlk j Hj).
    destruct (decide (lk = Some j)), (decide (lk' = Some j)); tauto.
Qed.

Lemma table_lookup l0 c lk l i : table l0 c lk l -> (0 < c i \/ exists x0, l0 !! i = Some x0 /\ 0 < i_ref x0) -> (i < length l0)%nat ->
  exists x, l !! i = Some x /\ 0 < i_ref x /\ i_dev x = dev /\ G (i_inum x).
Proof.
  intros T Hc Hi. destruct (lookup_lt_is_Some_2 l0 i Hi) as [x0 H0]. destruct (lookup_lt_is_Some_2 l i) as [x Hx]; [by rewrite (tb_len _ _ _ _ T)|].
  destruct (tb_ref _ _ _ _ T i x0 x H0 Hx) as (R1 & R2 & _). pose proof (tb_more _ _ _ _ T i). exists x.
  assert (Hpos : 0 < i_ref x) by (destruct Hc as [Hc|(y & Hy & Hpos)]; [lia|]; rewrite H0 in Hy; injection Hy as ->; lia).
  destruct (tb_good _ _ _ _ T i x Hx Hpos) as (? & ? & _). done.
Qed.

(** iget() *)
Lemma table_iget l0 c lk l inum n l' : table l0 c lk l -> G inum -> iget_ref dev inum l = Some (n, l') ->
  table l0 (fun j => c j + one n j) lk l' /\ exists x, l' !! n = Some x /\ i_inum x = inum.
Proof.
  intros T HG. unfold iget_ref. assert (Hone : forall n j, 0 <= c j + one n j) by (intros k j; pose proof (tb_more _ _ _ _ T j); unfold one; case_decide; lia).
  assert (Hne : forall n j, j <> n -> c j + one n j = c j) by (intros k j Hj; unfold one; rewrite decide_False by done; lia).
  assert (Heq : forall n, c n + one n n - c n = 1) by (intros k; unfold one; rewrite decide_True by done; lia).
  destruct (first_index (holds_inode dev inum) l) as [k|] eqn:Hf.
  - intros [= <- <-]. apply first_index_Some in Hf as (x & Hk & Hh). apply holds_inode_true in Hh as (Hr & Hd & Hi).
    split; [|exists (more_refs 1 x); by rewrite list_lookup_alter_eq, Hk].
    eapply (table_alter l0 c); [exact T|exact Hk|apply Hone|apply Hne|rewrite Heq; cbn; lia|done| |done|exact (tb_lock _ _ _ _ T k x Hk)].
    intros _. exact (tb_good _ _ _ _ T k x Hk ltac:(lia)).
  - destruct (first_index (fun ip => i_ref ip =? 0) l) as [k|] eqn:Hf2; [|done]. intros [= <- <-]. apply first_index_Some in Hf2 as (x & Hk & Hz%Z.eqb_eq).
    split; [|exists (fresh_inode dev inum x); by rewrite list_lookup_alter_eq, Hk].
    eapply (table_alter l0 c); [exact T|exact Hk|apply Hone|apply Hne|rewrite Heq; cbn; lia|lia| |done|exact (tb_lock _ _ _ _ T k x Hk)].
    intros _. split_and!; [done|done|]. intros Hv. done.
Qed.

(** ilock(), iunlock() and iput() of an entry. *)
Lemma table_lock l0 c l i x : table l0 c None l -> l !! i = Some x -> 0 < i_ref x ->
  let y := load_inode pid (disk_inode (av a) S (i_inum x)) x in
  table l0 c (Some i) (alter (load_inode pid (disk_inode (av a) S (i_inum x))) i l) /\ loaded y /\ i_inum y = i_inum x /\ i_ref y = i_ref x /\ i_valid y <> 0 /\ i_dev y = i_dev x.
Proof.
  intros T Hi Hpos y. destruct (tb_good _ _ _ _ T i x Hi Hpos) as (Hd & HG & Hv).
  assert (Hy : loaded y /\ i_inum y = i_inum x /\ i_ref y = i_ref x /\ i_valid y <> 0 /\ i_dev y = i_dev x /\ sl_locked (i_lock y) = 1 /\ sl_pid (i_lock y) = pid).
  { unfold y, load_inode, loaded. destruct (Z.eqb_spec (i_valid x) 0) as [H0|H0]; [done|]. split_and!; try done; by apply Hv. }
  destruct Hy as (Y1 & Y2 & Y3 & Y4 & Y5 & Y6). split; [|by split_and!].
  eapply (table_alter l0 c); [exact T|exact Hi|apply T|done|fold y; lia|done| | |].
  - intros _. fold y. rewrite Y2, Y5. done.
  - intros j Hj. split; [done|]. by intros [= ->].
  - by rewrite decide_True.
Qed.

Definition unlock_inode (ip : inode) : inode := set_i_lock (unlocked (i_lock ip)) ip.

Lemma table_unlock l0 c l i x : table l0 c (Some i) l -> l !! i = Some x -> table l0 c None (alter unlock_inode i l).
Proof.
  intros T Hi. eapply (table_alter l0 c); [exact T|exact Hi|apply T|done|cbn; lia|done|exact (tb_good _ _ _ _ T i x Hi)| |done].
  intros j Hj. split; [by intros [= ->]|done].
Qed.

Lemma table_put l0 c c' l i x : table l0 c None l -> l !! i = Some x -> (forall j, 0 <= c' j) -> (forall j, c j = c' j + one i j) ->
  table l0 c' None (alter (fun ip => set_i_ref (i_ref ip - 1) ip) i l).
Proof.
  intros T Hi Hc He. eapply (table_alter l0 c); [exact T|exact Hi|done| | |done| |done|by apply (tb_lock _ _ _ _ T i x)].
  - intros j Hj. rewrite He. unfold one. rewrite decide_False by done. lia.
  - rewrite (He i). unfold one. rewrite decide_True by done. cbn. lia.
  - cbn. intros Hp. apply (tb_good _ _ _ _ T i x Hi). lia.
Qed.

(** ** The operations of the walk *)

Context (F0 : fsstate) (Htree : tree_ok).

(** The state between two operations. *)
Record st (c : nat -> Z) (lk : option nat) (F : fsstate) : Prop := {
  st_cache : Cached dev pid a F;
  st_sb : sb F = S;
  st_tab : table (inodes F0) c lk (inodes F);
  st_rest : klog F = klog F0 /\ files F = files F0 /\ pipes F = pipes F0
}.

Lemma st_inodes c lk c' lk' l F F' : st c lk F -> Cached dev pid a F' -> same_rest (set_inodes l F) F' -> table (inodes F0) c' lk' l -> st c' lk' F'.
Proof. intros [H1 H2 H3 (R1 & R2 & R3)] Hca (S1 & S2 & S3 & S4 & S5) Ht. simpl in *. split; [done|congruence|by rewrite S3|split_and!; congruence]. Qed.

Lemma st_ext c c' lk F : st c lk F -> (forall j, c' j = c j) -> st c' lk F.
Proof.
  intros [H1 H2 [T1 T2 T3 T4 T5] H4] He. split; [done|done| |done]. split; [done|intros j; rewrite He; apply T2| |done|done]. intros j x0 x. rewrite He. apply T3.
Qed.

Lemma st_getI c lk F i : st c lk F -> (i < length (inodes F0))%nat -> inodes F !! i = Some (getI i F).
Proof. intros H Hi. unfold getI. destruct (lookup_lt_is_Some_2 (inodes F) i) as [x ->]; [|done]. by rewrite (tb_len _ _ _ _ (st_tab _ _ _ H)). Qed.

Lemma st_pos c lk F i : st c lk F -> 0 < c i -> (i < length (inodes F0))%nat -> 0 < i_ref (getI i F) /\ i_dev (getI i F) = dev /\ G (i_inum (getI i F)).
Proof. intros H Hc Hi. destruct (table_lookup _ _ _ _ i (st_tab _ _ _ H) (or_introl Hc) Hi) as (x & Hx & ? & ? & ?). unfold getI. by rewrite Hx. Qed.

Lemma fsrun_iget_st c lk F inum (Q : nat -> fsstate -> Prop) : st c lk F -> G inum -> iget_ref dev inum (inodes F) <> None ->
  (forall n F', st (fun j => c j + one n j) lk F' -> i_inum (getI n F') = inum -> (n < length (inodes F0))%nat -> Q n F') -> fsrun pr pid (iget dev inum) F Q.
Proof.
  intros Hst HG Hno HQ. destruct (iget_ref dev inum (inodes F)) as [[n l]|] eqn:Hi; [|done]. apply (fsrun_iget pr pid dev F inum n l); [done|].
  destruct (table_iget _ _ _ _ _ _ _ (st_tab _ _ _ Hst) HG Hi) as (Ht & x & Hx & Hn). apply HQ.
  - eapply st_inodes; [exact Hst|apply cached_inodes, Hst| |exact Ht]. done.
  - unfold getI. cbn [inodes set_inodes]. by rewrite Hx.
  - rewrite <- (tb_len _ _ _ _ Ht). by eapply lookup_lt_Some.
Qed.

Lemma fsrun_ilock_st c F i (Q : unit -> fsstate -> Prop) : st c None F -> 0 < c i -> (i < length (inodes F0))%nat ->
  (forall F', st c (Some i) F' -> i_inum (getI i F') = i_inum (getI i F) -> loaded (getI i F') -> i_valid (getI i F') <> 0 -> Q tt F') -> fsrun pr pid (ilock (Some i)) F Q.
Proof.
  intros Hst Hc Hi HQ. destruct (st_pos _ _ _ _ Hst Hc Hi) as (Hpos & Hd & HG). pose proof (st_getI _ _ _ _ Hst Hi) as Hx. pose proof (st_tab _ _ _ Hst) as T.
  pose proof (tb_lock _ _ _ _ T i _ Hx) as Hl. rewrite decide_False in Hl by done. destruct (tr_use Htree _ HG) as (Hu1 & Hu2 & Hu3).
  apply (fsrun_ilock pr pid dev Hdev a); [apply Hst|by eapply lookup_lt_Some|lia|done|done|apply Htree|rewrite (st_sb _ _ _ Hst); by split|].
  intros F' Hca Hsr. rewrite (st_sb _ _ _ Hst) in Hsr. destruct (table_lock _ _ _ _ _ T Hx Hpos) as (T' & Y1 & Y2 & Y3 & Y4 & Y5).
  assert (Hg : getI i F' = load_inode pid (disk_inode (av a) S (i_inum (getI i F))) (getI i F)) by (rewrite (same_getI i _ _ Hsr); apply getI_upd; by eapply lookup_lt_Some).
  apply HQ; [eapply st_inodes; [exact Hst|done|exact Hsr|exact T']|by rewrite Hg|by rewrite Hg|by rewrite Hg].
Qed.

Lemma inum_updI i f F k : (forall x, i_inum (f x) = i_inum x) -> i_inum (getI k (updI i f F)) = i_inum (getI k F).
Proof.
  intros Hf. unfold getI, updI. cbn [inodes set_inodes]. rewrite list_lookup_alter. destruct (decide (i = k)) as [->|]; [|done]. destruct (inodes F !! k); [apply Hf|done].
Qed.

(** holdingsleep() and releasesleep() of an inode. *)
Lemma fsrun_holding_inode i F (Q : bool -> fsstate -> Prop) :
  Q (truthy (sl_locked (i_lock (getI i F))) && (sl_pid (i_lock (getI i F)) =? pid)) F -> fsrun pr pid (holdingsleep (SLinode i)) F Q.
Proof.
  intros HQ. unfold holdingsleep. eapply crun_bind, crun_kacquire. eapply crun_bind. intros c0 s Hs <-. apply wp_gets. split_and!; [|exact Hs|apply woken_refl].
  assert (Hg : get_sleep (SLinode i) s = i_lock (getI i (k_fs s))) by (unfold get_sleep, getI; by destruct (inodes (k_fs s) !! i)). rewrite Hg.
  destruct (truthy (sl_locked (i_lock (getI i (k_fs s))))); simpl in HQ.
  - eapply crun_bind. apply crun_curpid. intros p Hp. apply crun_ret. eapply crun_bind, crun_krelease, crun_ret. by rewrite Hp.
  - eapply crun_bind, crun_ret, crun_bind, crun_krelease, crun_ret. done.
Qed.

Lemma fsrun_release_inode i F (Q : unit -> fsstate -> Prop) : Q tt (updI i unlock_inode F) -> fsrun pr pid (releasesleep (SLinode i)) F Q.
Proof.
  intros HQ. unfold releasesleep. eapply crun_bind, crun_kacquire. eapply crun_bind, (crun_modify _ _ _ (updI i unlock_inode)).
  eapply crun_bind, crun_wakeup; [done|]. by apply crun_krelease.
Qed.

Lemma fsrun_iunlock_st c F i (Q : unit -> fsstate -> Prop) : st c (Some i) F -> 0 < c i -> (i < length (inodes F0))%nat ->
  (forall F', st c None F' -> (forall k, i_inum (getI k F') = i_inum (getI k F)) -> Q tt F') -> fsrun pr pid (iunlock (Some i)) F Q.
Proof.
  intros Hst Hc Hi HQ. destruct (st_pos _ _ _ _ Hst Hc Hi) as (Hpos & Hd & HG). pose proof (st_getI _ _ _ _ Hst Hi) as Hx. pose proof (st_tab _ _ _ Hst) as T.
  pose proof (tb_lock _ _ _ _ T i _ Hx) as Hl. rewrite decide_True in Hl by done. destruct Hl as [L1 L2].
  unfold iunlock. eapply crun_bind, fsrun_holding_inode. rewrite L1, L2, Z.eqb_refl. cbn [truthy andb negb Z.eqb]. eapply crun_bind, crun_geti.
  destruct (Z.ltb_spec (i_ref (getI i F)) 1); [lia|]. apply fsrun_release_inode, HQ; [|intros k; by apply inum_updI].
  eapply st_inodes; [exact Hst|apply cached_updI, Hst|done|by eapply table_unlock].
Qed.

(** The link count of an inode of the tree is not 0, so iput() only drops the
    reference. *)
Lemma fsrun_iput_st c c' F i (Q : unit -> fsstate -> Prop) : st c None F -> (i < length (inodes F0))%nat -> (forall j, 0 <= c' j) -> (forall j, c j = c' j + one i j) ->
  (forall F', st c' None F' -> (forall k, i_inum (getI k F') = i_inum (getI k F)) -> Q tt F') -> fsrun pr pid (iput (Some i)) F Q.
Proof.
  intros Hst Hi Hn He HQ. assert (Hc : 0 < c i) by (rewrite He; specialize (Hn i); unfold one; rewrite decide_True by done; lia).
  destruct (st_pos _ _ _ _ Hst Hc Hi) as (Hpos & Hd & HG). pose proof (st_getI _ _ _ _ Hst Hi) as Hx. pose proof (st_tab _ _ _ Hst) as T.
  destruct (tb_good _ _ _ _ T i _ Hx Hpos) as (_ & _ & Hv). destruct (tr_use Htree _ HG) as (_ & Hnl & _).
  unfold iput. eapply crun_bind, crun_kacquire. eapply crun_bind, crun_ret, crun_bind, crun_geti.
  assert (Hif : (i_ref (getI i F) =? 1) && truthy (i_valid (getI i F)) && (i_nlink (getI i F) =? 0) = false).
  { unfold truthy. destruct (Z.eqb_spec (i_valid (getI i F)) 0) as [|Hvz]; [by rewrite andb_false_r|]. destruct (Hv Hvz) as (_ & -> & _).
    destruct (Z.eqb_spec (di_nlink (disk_inode (av a) S (i_inum (getI i F)))) 0); [done|]. by rewrite andb_false_r. }
  rewrite Hif. cbn [when]. eapply crun_bind, crun_ret, crun_bind, (crun_modify pr pid _ (updI i (fun ip => set_i_ref (i_ref ip - 1) ip))), crun_krelease. apply HQ.
  - eapply st_inodes; [exact Hst|apply cached_updI, Hst|done|by eapply table_put].
  - intros k. by apply inum_updI.
Qed.

(** ** dirlookup() *)

Lemma dir_ok_ext x y : dir_ok dev a x -> i_dev y = i_dev x -> i_type y = i_type x -> i_size y = i_size x -> i_addrs y = i_addrs x -> dir_ok dev a y.
Proof. intros [[F1 F2 F3] D1 D2 D3] H1 H2 H3 H4. split; [split|..]; rewrite ?H1, ?H2, ?H3, ?H4; done. Qed.

(** Two entries of the table are free. *)
Context (Hspare : exists j k x y, j <> k /\ inodes F0 !! j = Some x /\ inodes F0 !! k = Some y /\ i_ref x = 0 /\ i_ref y = 0).

Lemma st_spare c i lk F : st c lk F -> (forall j, j <> i -> c j = 0) -> forall inum, iget_ref dev inum (inodes F) <> None.
Proof.
  intros Hst Hc inum. destruct Hspare as (j & k & x & y & Hne & Hj & Hk & Hx & Hy). pose proof (st_tab _ _ _ Hst) as T.
  assert (Hfree : forall m z, inodes F0 !! m = Some z -> i_ref z = 0 -> m <> i -> exists w, inodes F !! m = Some w /\ i_ref w = 0).
  { intros m z Hm Hz Hmi. destruct (lookup_lt_is_Some_2 (inodes F) m) as [w Hw]; [rewrite (tb_len _ _ _ _ T); by eapply lookup_lt_Some|]. exists w. split; [done|].
    destruct (tb_ref _ _ _ _ T m z w Hm Hw) as (_ & -> & _). rewrite Hc by done. lia. }
  destruct (decide (j = i)) as [->|Hji].
  - destruct (Hfree k y Hk Hy (not_eq_sym Hne)) as (w & Hw & Hw0). by eapply iget_free.
  - destruct (Hfree j x Hj Hx Hji) as (w & Hw & Hw0). by eapply iget_free.
Qed.

Lemma fsrun_dirlookup_st F i name (Q : option (nat * Z) -> fsstate -> Prop) : let inum := i_inum (getI i F) in
  st (one i) (Some i) F -> (i < length (inodes F0))%nat -> loaded (getI i F) -> is_dir (av a) S inum = true -> Forall (fun c => 0 <= c < 256) name ->
  (forall F', match dir_find name (entries (av a) S inum) with
     | None => st (one i) (Some i) F' -> Q None F'
     | Some (off, (k, _)) => forall n, st (fun j => one i j + one n j) (Some i) F' -> i_inum (getI n F') = k -> (n < length (inodes F0))%nat -> Q (Some (n, off)) F'
     end) -> fsrun pr pid (dirlookup i name) F Q.
Proof.
  intros inum Hst Hi (L1 & L2 & L3 & L4) Hdir Hn HQ. assert (Hci : 0 < one i i) by (unfold one; by rewrite decide_True).
  destruct (st_pos _ _ _ _ Hst Hci Hi) as (Hpos & Hd & HG). fold inum in HG, L1, L2, L3, L4. unfold entries in HQ.
  apply (fsrun_dirlookup pr pid dev Hdev a); [apply Hst| |apply Htree|done| |].
  - eapply dir_ok_ext; [exact (tr_dir Htree inum HG Hdir)|done..].
  - apply (st_spare (one i) i (Some i)); [done|]. intros j Hj. unfold one. by rewrite decide_False.
  - intros F' Hca. specialize (HQ F'). rewrite L3, L4. destruct (dir_find name _) as [[off [k nm]]|] eqn:Hf.
    + intros n l Hig Hin Hsr. assert (HGk : G k) by (eapply (tr_next Htree inum name off k nm); [done|done|exact Hf]).
      destruct (table_iget _ _ _ _ _ _ _ (st_tab _ _ _ Hst) HGk Hig) as (Ht & x & Hx & Hk). apply HQ.
      * by eapply st_inodes; [exact Hst| | |].
      * unfold getI. by rewrite Hin, Hx.
      * rewrite <- (tb_len _ _ _ _ Ht). by eapply lookup_lt_Some.
    + intros Hsr. apply HQ. eapply st_inodes; [exact Hst|done| |apply Hst]. by destruct F.
Qed.

(** ** namex() *)

Lemma skipelem_bytes (P R : Z -> Prop) path name rest name' : R 0 -> (forall c, P c -> R c) -> Forall P path -> Forall R name ->
  skipelem path name = Some (rest, name') -> Forall P rest /\ Forall R name'.
Proof.
  intros H0 HPR Hp Hn. assert (Hss : forall p, Forall P p -> Forall P (skip_slashes p)).
  { intros p Hf. induction Hf as [|c p Hc Hf IH]; [done|]. simpl. destruct (c =? SLASH); [done|by constructor]. }
  unfold skipelem. pose proof (Hss path Hp) as Hp'. destruct (skip_slashes path) as [|c p]; [done|]. destruct (split_elem (c :: p)) as [e r] eqn:Hs.
  destruct (split_elem_spec (c :: p) e r Hs) as (He & _ & _). rewrite He in Hp'. apply Forall_app in Hp' as [H1 H2]. intros [= <- <-]. split; [by apply Hss|].
  apply (Forall_impl P R) in H1; [|done]. unfold splice. match goal with |- context [if ?b then _ else _] => destruct b end; repeat apply Forall_app_2; try (by apply Forall_take); try (by apply Forall_drop); try done; by constructor.
Qed.

Lemma elems_nil path : (forall r, path <> SLASH :: r) -> elems path = [] -> path = [].
Proof.
  destruct path as [|c path]; [done|]. intros Hc. unfold elems. cbn [pieces]. destruct (Z.eqb_spec c SLASH) as [->|]; [by destruct (Hc path)|].
  by destruct (pieces path).
Qed.

Lemma elems_all (P : Z -> Prop) path : Forall P path -> Forall (Forall P) (elems path).
Proof.
  intros Hp. apply Forall_forall. intros e He. apply list_elem_of_In, List.filter_In in He as [He _]. apply list_elem_of_In in He. revert e He. apply Forall_forall.
  induction Hp as [|c path Hc Hp IH]; cbn [pieces]; [by repeat constructor|]. destruct (c =? SLASH); [by constructor|].
  destruct (pieces path) as [|x xs]; [by repeat constructor|]. inversion IH; subst. by repeat constructor.
Qed.

Lemma dir_find_name e name es : Forall (fun c => c <> 0) e -> cstr name = take DIRSIZ e -> dir_find name es = dir_find e es.
Proof. intros He Hn. unfold dir_find. by rewrite Hn, (cstr_nozero e) by done; rewrite take_take, Nat.min_id. Qed.

(** What namex() returns from the inode [i], and the state it leaves. *)
Definition arrived (parent : bool) (i : Z) (es : list (list Z)) (r : option nat * list Z) (F : fsstate) : Prop :=
  match target (av a) S parent i es with
  | Some k => exists n, fst r = Some n /\ st (one n) None F /\ (n < length (inodes F0))%nat /\ i_inum (getI n F) = k
  | None => fst r = None /\ st (fun _ => 0) None F
  end /\
  (parent = true -> fst r <> None -> forall es' e, es = es' ++ [e] -> cstr (snd r) = take DIRSIZ e).

Lemma one_nonneg i j : 0 <= one i j.
Proof. unfold one. case_decide; lia. Qed.

(** iunlockput() at the end of a turn. *)
Lemma fsrun_iunlockput_st c c' F i (Q : unit -> fsstate -> Prop) : st c (Some i) F -> (i < length (inodes F0))%nat -> (forall j, 0 <= c' j) -> (forall j, c j = c' j + one i j) ->
  (forall F', st c' None F' -> (forall k, i_inum (getI k F') = i_inum (getI k F)) -> Q tt F') -> fsrun pr pid (iunlockput (Some i)) F Q.
Proof.
  intros Hst Hi Hn He HQ. assert (Hc : 0 < c i) by (rewrite He; specialize (Hn i); unfold one; rewrite decide_True by done; lia).
  unfold iunlockput. eapply crun_bind, (fsrun_iunlock_st c); [done|done|done|]. intros F1 H1 Hg1. eapply (fsrun_iput_st c c'); [done|done|done|done|].
  intros F2 H2 Hg2. apply HQ; [done|]. intros k. by rewrite Hg2.
Qed.

Lemma fsrun_namex_loop parent fuel : forall i path name F (Q : option nat * list Z -> fsstate -> Prop), st (one i) None F -> (i < length (inodes F0))%nat ->
  Forall (fun c => 0 < c < 256) path -> length name = DIRSIZ -> Forall (fun c => 0 <= c < 256) name -> (length path < fuel)%nat ->
  (forall r F', arrived parent (i_inum (getI i F)) (elems path) r F' -> Q r F') -> fsrun pr pid (namex_loop fuel i path parent name) F Q.
Proof.
  induction fuel as [|fuel IH]; intros i path name F Q Hst Hi Hp Hln Hbn Hfuel HQ; [lia|]. cbn [namex_loop].
  assert (Hnz : Forall (fun c => c <> 0) path) by (eapply Forall_impl; [exact Hp|]; intros c Hc; cbn in Hc; lia).
  pose proof (skipelem_elems path name Hnz Hln) as Hsk. destruct (skipelem path name) as [[rest name']|] eqn:Hske.
  2: { destruct parent.
    - eapply crun_bind, (fsrun_iput_st (one i) (fun _ => 0)); [done|done|done|done|]. intros F1 H1 _. apply crun_ret, HQ. rewrite Hsk. split; [done|]. by intros _ [].
    - apply crun_ret, HQ. rewrite Hsk. split; [by exists i|done]. }
  destruct Hsk as (e & He & Hcs & Hln' & Hlen & Hsl & Hnz'). destruct (skipelem_bytes (fun c => 0 < c < 256) (fun c => 0 <= c < 256) _ _ _ _ ltac:(done) ltac:(intros c Hc; cbn in *; lia) Hp Hbn Hske) as [Hrp Hbn'].
  assert (Hez : Forall (fun c => c <> 0) e) by (pose proof (elems_all _ _ Hnz) as H; rewrite He in H; by inversion H).
  rewrite He in HQ. eapply crun_bind, (fsrun_ilock_st (one i)); [done|unfold one; by rewrite decide_True|done|]. intros F1 H1 Hin1 Hld1 _. eapply crun_bind, crun_geti.
  set (inum := i_inum (getI i F)) in *. pose proof Hld1 as (Ht & _). rewrite Hin1 in Ht.
  assert (Hty : (i_type (getI i F1) =? T_DIR) = is_dir (av a) S inum) by (by rewrite Ht). rewrite Hty.
  assert (Hsub : forall j, one i j = 0 + one i j) by (intros; lia).
  destruct (is_dir (av a) S inum) eqn:Hdir; cbn [negb].
  2: { eapply crun_bind, (fsrun_iunlockput_st (one i) (fun _ => 0)); [done|done|done|done|]. intros F2 H2 _. apply crun_ret, HQ. unfold arrived, target.
    destruct parent; [destruct (elems rest) as [|f es] eqn:Her; [rewrite resolve_parent_one|rewrite resolve_parent_cons]|cbn [resolve]]; rewrite Hdir; split; (done || by intros _ []). }
  destruct (parent && bool_decide (rest = [])) eqn:Hpar.
  { apply andb_prop in Hpar as [-> Hr%bool_decide_eq_true]. subst rest. eapply crun_bind, (fsrun_iunlock_st (one i)); [done|unfold one; by rewrite decide_True|done|].
    intros F2 H2 Hin2. apply crun_ret, HQ. unfold arrived, target. change (elems []) with (@nil (list Z)). rewrite resolve_parent_one, Hdir. split; [exists i; by rewrite Hin2|].
    intros _ _ es' e' Hes. destruct es' as [|? [|? ?]]; [|done..]. by injection Hes as ->. }
  assert (Hnext : target (av a) S parent inum (e :: elems rest) = match dir_find e (entries (av a) S inum) with Some (_, (j, _)) => target (av a) S parent j (elems rest) | None => None end).
  { unfold target. destruct parent; [|cbn [resolve]; by rewrite Hdir]. destruct (elems rest) as [|f es] eqn:Her; [|by rewrite resolve_parent_cons, Hdir].
    apply (elems_nil rest Hsl) in Her. subst rest. done. }
  eapply crun_bind, (fsrun_dirlookup_st F1 i); [done|done|done|by rewrite Hin1|done|]. rewrite Hin1, (dir_find_name e name') by done. intros F2.
  destruct (dir_find e (entries (av a) S inum)) as [[off [k nm]]|].
  - intros n H2 Hk Hn. eapply crun_bind, (fsrun_iunlockput_st _ (one n)); [exact H2|done|apply one_nonneg|intros j; cbv beta; lia|]. intros F3 H3 Hin3.
    apply IH; [done|done|done|done|done|lia|]. intros r F4 Har. apply HQ. rewrite Hin3, Hk in Har. destruct Har as [A1 A2]. split; [by rewrite Hnext|].
    intros Hp1 Hr es' e' Hes. destruct es' as [|x es']; [|injection Hes as -> Hes; by apply (A2 Hp1 Hr es')].
    injection Hes as -> Hes. apply (elems_nil rest Hsl) in Hes. subst rest parent. done.
  - intros H2. eapply crun_bind, (fsrun_iunlockput_st (one i) (fun _ => 0)); [done|done|done|done|]. intros F3 H3 _. apply crun_ret, HQ. split; [by rewrite Hnext|]. by intros _ [].
Qed.

(** The reference to the directory a walk starts at. *)
Lemma fsrun_idup_st F i x0 (Q : nat -> fsstate -> Prop) : st (fun _ => 0) None F -> inodes F0 !! i = Some x0 -> 0 < i_ref x0 ->
  (forall F', st (one i) None F' -> i_inum (getI i F') = i_inum x0 -> Q i F') -> fsrun pr pid (idup i) F Q.
Proof.
  intros Hst H0 Hpos HQ. assert (Hi : (i < length (inodes F0))%nat) by (by eapply lookup_lt_Some). pose proof (st_getI _ _ _ _ Hst Hi) as Hx. pose proof (st_tab _ _ _ Hst) as T.
  destruct (tb_ref _ _ _ _ T i x0 _ H0 Hx) as (R1 & R2 & R3). destruct (R3 Hpos) as [_ Hin].
  unfold idup. eapply crun_bind, crun_kacquire, crun_bind, (crun_modify pr pid _ (updI i (fun ip => set_i_ref (i_ref ip + 1) ip))), crun_bind, crun_krelease, crun_ret.
  apply HQ; [|by rewrite inum_updI]. eapply st_inodes; [exact Hst|apply cached_updI, Hst|done|].
  eapply (table_alter (inodes F0) (fun _ => 0)); [exact T|exact Hx|apply one_nonneg| |unfold one; rewrite decide_True by done; cbn; lia|done| |done|exact (tb_lock _ _ _ _ T i _ Hx)].
  - intros j Hj. unfold one. by rewrite decide_False.
  - intros _. exact (tb_good _ _ _ _ T i _ Hx ltac:(lia)).
Qed.

End walk.

(** C14. namex() in a file system whose directories are well formed, with two free entries in
    the inode table.  From the root for an absolute path, from the current directory
    otherwise, it follows the elements of the path: namei() returns a reference to the
    inode they lead to, nameiparent() one to the directory before the last element, and
    that element in name; both return none iff a name on the way is missing or is
    looked up in something that is not a directory, and nameiparent() also for a path
    without an element.  Every other reference is as
    before, no inode is left locked, and the cache's contents, the disk and the log are
    unchanged. *)
Theorem namex_resolves {E : Env} {D : DiskDriver} {DR : DiskReady} {L : DiskLaws} pr pid a G path parent name cw x0 c0 s : let F := k_fs s in
  running pr pid None c0 s -> tree_ok ROOTDEV a (sb F) G -> G ROOTINO -> st pid ROOTDEV a (sb F) G F (fun _ => 0) None F ->
  (exists j k x y, j <> k /\ inodes F !! j = Some x /\ inodes F !! k = Some y /\ i_ref x = 0 /\ i_ref y = 0) ->
  p_cwd (get_proc pr s) = Some cw -> inodes F !! cw = Some x0 -> 0 < i_ref x0 ->
  Forall (fun c => 0 < c < 256) path -> length name = DIRSIZ -> Forall (fun c => 0 <= c < 256) name ->
  let start := if hd 0 path =? SLASH then ROOTINO else i_inum x0 in
  wp (namex path parent name) (fun r s' => running pr pid None c0 s' /\ arrived pid ROOTDEV a (sb F) G F parent start (elems path) r (k_fs s')) s.
Proof.
  intros F Hrun Htree Hroot Hst Hspare Hcw Hx0 Hpos Hp Hln Hbn start. assert (Hdev : 0 < ROOTDEV < 2 ^ 31) by (unfold ROOTDEV; lia).
  unfold namex. apply wp_bind.
  apply (wp_mono _ (fun i s1 => running pr pid None c0 s1 /\ (i < length (inodes F))%nat /\ st pid ROOTDEV a (sb F) G F (one i) None (k_fs s1) /\ i_inum (getI i (k_fs s1)) = start)).
  - unfold start. destruct (hd 0 path =? SLASH).
    + eapply wp_mono; [apply (fsrun_iget_st pr pid ROOTDEV Hdev a (sb F) G F (fun _ => 0) None F ROOTINO (fun i F1 => (i < length (inodes F))%nat /\
        st pid ROOTDEV a (sb F) G F (one i) None F1 /\ i_inum (getI i F1) = ROOTINO)) with (c0 := c0); [done|done| | |done|done]|].
      * eapply (st_spare pid ROOTDEV a (sb F) G F Hspare (fun _ => 0) 0%nat); [exact Hst|done].
      * intros n F' H1 H2 H3. split_and!; [done| |done]. eapply st_ext; [exact H1|]. intros j. cbv beta. lia.
      * intros i s1 ((H1 & H2 & H3) & H4 & _). done.
    + apply wp_bind. apply (wp_curproc pr); [by eapply running_ok|by eapply running_cur|]. intros c Hc. wp_step. apply wp_gets. rewrite get_proc_kset, Hcw. wp_step. apply wp_ret.
      eapply wp_mono; [apply (fsrun_idup_st pr pid ROOTDEV Hdev a (sb F) G F F cw x0 (fun i F1 => (i < length (inodes F))%nat /\
        st pid ROOTDEV a (sb F) G F (one i) None F1 /\ i_inum (getI i F1) = i_inum x0)) with (c0 := c0); [done|done|done| | |done]|].
      * intros F' H1 H2. split_and!; [by eapply lookup_lt_Some|done|done].
      * eapply running_frame; [exact Hrun|cbn; rewrite (ru_ctl _ _ _ _ _ Hrun); exact Hc|done|done|apply woken_refl].
      * intros i s1 ((H1 & H2 & H3) & H4 & _). done.
  - intros i s1 (H1 & H2 & H3 & H4). eapply wp_mono.
    + apply (fsrun_namex_loop pr pid ROOTDEV Hdev a (sb F) G F Htree Hspare parent (S (length path)) i path name (k_fs s1)
        (fun r F1 => arrived pid ROOTDEV a (sb F) G F parent start (elems path) r F1)) with (c0 := c0); [done|done|done|done|done|lia| |done|done].
      intros r F' Har. by rewrite H4 in Har.
    + intros r s2 (H5 & H6 & _). done.
Qed.
