(* ===== verification/FsFile.v ===== *)
(** * Files that grow (kernel/fs.c)

    The block addresses of an inode as 269 pointers: 12 direct blocks, the indirect
    block and its 256 entries.  A well-formed file has distinct pointers to blocks
    in use; bmap() extends it with fresh blocks and keeps what it had. *)

From S2P Require Import Prelude Riscv Bytes Kstate CString Spinlock Kalloc Vm Sched SchedSpec Uart Sleeplock.
From S2P Require Import Bio FsRun BioSpec Log LogSpec LogOps FsTxn Fs FsSpec FsImage FsAlloc Tables FsRead.

(** ** Pointers *)

Definition NPTR : Z := 269.

(** The pointer of part [bn] of a file. *)
Definition pos (bn : Z) : Z := if bn <? NDIRECT then bn else bn + 1.

Definition ptr (v : Z -> list Z) (addrs : list Z) (p : Z) : Z :=
  if p <=? NDIRECT then slot addrs p
  else if slot addrs NDIRECT =? 0 then 0 else entry (v (slot addrs NDIRECT)) (p - 13).

Lemma ptr_slot v addrs p : p <= NDIRECT -> ptr v addrs p = slot addrs p.
Proof. intros H. unfold ptr. destruct (Z.leb_spec p NDIRECT); [done|lia]. Qed.

Lemma ptr_entry v addrs p : NDIRECT < p -> slot addrs NDIRECT <> 0 -> ptr v addrs p = entry (v (slot addrs NDIRECT)) (p - 13).
Proof. intros H H0. unfold ptr. destruct (Z.leb_spec p NDIRECT); [lia|]. by destruct (Z.eqb_spec (slot addrs NDIRECT) 0). Qed.

Lemma ptr_none v addrs p : NDIRECT < p -> slot addrs NDIRECT = 0 -> ptr v addrs p = 0.
Proof. intros H H0. unfold ptr. destruct (Z.leb_spec p NDIRECT); [lia|]. by rewrite H0. Qed.

Lemma pos_range bn : 0 <= bn < MAXFILE -> 0 <= pos bn < NPTR /\ pos bn <> NDIRECT.
Proof. unfold pos, NPTR, MAXFILE, NINDIRECT, NDIRECT, BSIZE. change (1024 / 4) with 256. destruct (Z.ltb_spec bn 12); lia. Qed.

Lemma pos_inj bn bn' : 0 <= bn -> 0 <= bn' -> pos bn = pos bn' -> bn = bn'.
Proof. unfold pos, NDIRECT. destruct (Z.ltb_spec bn 12), (Z.ltb_spec bn' 12); lia. Qed.

Lemma block_of_ptr v addrs bn : 0 <= bn -> ptr v addrs (pos bn) <> 0 -> block_of v addrs bn = ptr v addrs (pos bn).
Proof.
  intros Hb H0. unfold block_of, pos in *. unfold NDIRECT in *. destruct (Z.ltb_spec bn 12).
  - rewrite ptr_slot by (unfold NDIRECT; lia). done.
  - destruct (Z.eq_dec (slot addrs 12) 0) as [He|He].
    + exfalso. apply H0. apply ptr_none; [unfold NDIRECT; lia|done].
    + rewrite ptr_entry by (unfold NDIRECT; (done || lia)). unfold NDIRECT. f_equal. lia.
Qed.

Lemma slot_zupd addrs p q x : 0 <= p < Z.of_nat (length addrs) -> slot (zupd addrs p x) q = if decide (q = p) then x else slot addrs q.
Proof. intros Hp. unfold slot. case_decide as Hd; [subst; by rewrite znth_zupd_eq|by rewrite znth_zupd_ne]. Qed.

Lemma entry_put d j x i : length d = 1024%nat -> 0 <= j < 256 -> 0 <= i < 256 -> 0 <= x < 2 ^ 32 ->
  entry (wr 4 d (4 * j) x) i = if decide (i = j) then x else entry d i.
Proof.
  intros Hl Hj Hi Hx. unfold entry. case_decide as Hd.
  - subst. rewrite rd_wr_eq by (simpl; lia). apply Z.mod_small. simpl. lia.
  - rewrite rd_wr_ne; [done|simpl; lia..].
Qed.

Lemma entry_zero_block i : entry zero_block i = 0.
Proof.
  unfold entry, rd, slice, zero_block. rewrite drop_replicate, take_replicate. generalize (4 `min` (1024 - Z.to_nat (4 * i)))%nat.
  intros n. induction n as [|n IH]; [done|]. cbn [replicate dec_le]. by rewrite IH.
Qed.

(** ** Well-formed files *)

Section files.
Context {st : Z} {S : superblock} {dstart : Z} (Hly : layout st S dstart) (dev : Z).

(** The pointers of a file lead to distinct blocks in use, and every part of it has
    one. *)
Record file_wf (v : Z -> list Z) (ip : inode) : Prop := {
  fw_dev : i_dev ip = dev;
  fw_len : length (i_addrs ip) = 13%nat;
  fw_size : 0 <= i_size ip <= MAXFILE * BSIZE;
  fw_ptr : forall p, 0 <= p < NPTR -> ptr v (i_addrs ip) p <> 0 ->
    dstart <= ptr v (i_addrs ip) p < sb_size S /\ used S v (ptr v (i_addrs ip) p) = true;
  fw_inj : forall p q, 0 <= p < NPTR -> 0 <= q < NPTR -> ptr v (i_addrs ip) p <> 0 -> ptr v (i_addrs ip) p = ptr v (i_addrs ip) q -> p = q;
  fw_full : forall bn, 0 <= bn -> bn * BSIZE < i_size ip -> ptr v (i_addrs ip) (pos bn) <> 0
}.

(** The file [ip] of the blocks [v] has become [ip'] in [v']: it kept its pointers,
    and no block in use but its indirect block changed. *)
Record grown (v : Z -> list Z) (ip : inode) (v' : Z -> list Z) (ip' : inode) : Prop := {
  gr_same : ip' = set_i_addrs (i_addrs ip') ip;
  gr_wf : file_wf v' ip';
  gr_ptr : forall p, 0 <= p < NPTR -> ptr v (i_addrs ip) p <> 0 -> ptr v' (i_addrs ip') p = ptr v (i_addrs ip) p;
  gr_used : forall y, 0 <= y < sb_size S -> used S v y = true -> used S v' y = true;
  gr_fresh : forall p, 0 <= p < NPTR -> ptr v' (i_addrs ip') p <> ptr v (i_addrs ip) p ->
    dstart <= ptr v' (i_addrs ip') p < sb_size S /\ used S v (ptr v' (i_addrs ip') p) = false;
  gr_frame : forall n, ~ is_bitmap S n -> (dstart <= n < sb_size S -> used S v n = true) -> n <> slot (i_addrs ip) NDIRECT -> v' n = v n
}.

Lemma grown_refl v ip : file_wf v ip -> grown v ip v ip.
Proof. intros H. split; try done. by destruct ip. Qed.

Lemma grown_trans v1 ip1 v2 ip2 v3 ip3 : grown v1 ip1 v2 ip2 -> grown v2 ip2 v3 ip3 -> grown v1 ip1 v3 ip3.
Proof.
  intros [A1 A2 A3 A4 A5 A6] [B1 B2 B3 B4 B5 B6]. pose proof (ly_start Hly). split.
  - rewrite B1, A1. done.
  - done.
  - intros p Hp H0. rewrite B3; rewrite ?A3; done.
  - intros y Hy Hu. by apply B4, A4.
  - intros p Hp Hne. destruct (Z.eq_dec (ptr v3 (i_addrs ip3) p) (ptr v2 (i_addrs ip2) p)) as [He|He]; [rewrite He in *; by apply A5|].
    destruct (B5 p Hp He) as [Hr Hf]. split; [done|]. apply not_true_iff_false. intros Hu. rewrite A4 in Hf; [done|lia|done].
  - intros n Hb Hu Hn. rewrite B6; [by apply A6|done| |].
    + intros Hd. apply A4; [lia|by apply Hu].
    + intros He. destruct (A5 NDIRECT ltac:(done)) as [Hr Hf]; rewrite !ptr_slot in * by done; rewrite <- He in *; [done|]. by rewrite Hu in Hf.
Qed.

(** A pointer is set to a fresh block. *)
Lemma wf_add v ip v' ip' p b : file_wf v ip -> 0 <= p < NPTR -> ptr v (i_addrs ip) p = 0 -> dstart <= b < sb_size S -> used S v b = false ->
  i_dev ip' = i_dev ip -> i_size ip' = i_size ip -> length (i_addrs ip') = 13%nat ->
  (forall q, 0 <= q < NPTR -> ptr v' (i_addrs ip') q = if decide (q = p) then b else ptr v (i_addrs ip) q) ->
  (forall y, 0 <= y < sb_size S -> used S v' y = (y =? b) || used S v y) -> file_wf v' ip'.
Proof.
  intros [W1 W2 W3 W4 W5 W6] Hp H0 Hb Hu Hd Hs Hl Hptr Hused. pose proof (ly_start Hly) as Hst. split; rewrite ?Hd, ?Hs; try done.
  - intros q Hq. rewrite Hptr by done. intros Hne. rewrite Hused by (case_decide; [lia|]; pose proof (W4 q Hq Hne); lia).
    case_decide; [by rewrite Z.eqb_refl|]. destruct (W4 q Hq Hne) as [? ->]. by rewrite orb_true_r.
  - intros q r Hq Hr. rewrite !Hptr by done. do 2 case_decide; subst; try done.
    + intros _ ->. destruct (W4 r Hr) as [_ Hc]; [lia|congruence].
    + intros Hne <-. destruct (W4 q Hq) as [_ Hc]; [lia|congruence].
    + by apply W5.
  - intros bn H1 H2. unfold MAXFILE, NINDIRECT, NDIRECT, BSIZE in *. change (1024 / 4) with 256 in *.
    destruct (pos_range bn) as [Hr _]; [unfold MAXFILE, NINDIRECT, NDIRECT, BSIZE; change (1024 / 4) with 256; lia|].
    rewrite Hptr by done. case_decide; [lia|by apply W6].
Qed.

(** A slot of the inode. *)
Lemma grown_slot v ip p b : (forall n, length (v n) = 1024%nat) -> file_wf v ip -> 0 <= p <= NDIRECT -> slot (i_addrs ip) p = 0 ->
  dstart <= b < sb_size S -> used S v b = false -> let v' := alloc S b v in let ip' := set_addr p b ip in
  grown v ip v' ip' /\ ptr v' (i_addrs ip') p = b /\ v' b = zero_block.
Proof.
  intros Hl Hw Hp H0 Hb Hu v' ip'. pose proof (ly_start Hly) as Hst. pose proof (fw_len _ _ Hw) as Hlen. assert (Hp' : 0 <= p <= 12) by (unfold NDIRECT in Hp; lia).
  assert (Hslot : forall q, slot (i_addrs ip') q = if decide (q = p) then b else slot (i_addrs ip) q) by (intros q; apply slot_zupd; lia).
  assert (Hzero : v' b = zero_block) by apply fupd_eq.
  assert (Hused : forall y, 0 <= y < sb_size S -> used S v' y = (y =? b) || used S v y) by (intros y Hy; by apply (used_alloc Hly)).
  assert (Hptr : forall q, 0 <= q < NPTR -> ptr v' (i_addrs ip') q = if decide (q = p) then b else ptr v (i_addrs ip) q).
  { intros q Hq. unfold ptr. rewrite !Hslot. unfold NDIRECT. destruct (Z.leb_spec q 12); [done|]. rewrite (decide_False (P := q = p)) by lia.
    destruct (decide (12 = p)) as [<-|Hne].
    - unfold NDIRECT in *. rewrite H0, Hzero, entry_zero_block. destruct (b =? 0); done.
    - destruct (Z.eqb_spec (slot (i_addrs ip) 12) 0) as [|Hs]; [done|]. f_equal.
      destruct (fw_ptr _ _ Hw 12) as [Hr Hu']; rewrite ?ptr_slot in * by done; [done|done|]. apply (alloc_other Hly); [done| |intros He; by rewrite He in Hu'; congruence].
      destruct Hly as [_ _ L3 _]. unfold is_bitmap. lia. }
  split; [|split; [by rewrite Hptr, decide_True by (unfold NPTR; lia || done)|done]]. split.
  - done.
  - eapply (wf_add v ip v' ip' p b); try done; [unfold NPTR; lia|rewrite ptr_slot by lia; done|]. unfold ip', set_addr. cbn. by rewrite zupd_length.
  - intros q Hq Hne. rewrite Hptr by done. case_decide; [|done]. subst. rewrite ptr_slot in Hne by lia. done.
  - intros y Hy Hy'. rewrite Hused, Hy' by done. apply orb_true_r.
  - intros q Hq. rewrite Hptr by done. by case_decide.
  - intros n Hn Hn' _. apply (alloc_other Hly); [done|done|]. intros ->. by rewrite Hn' in Hu.
Qed.

(** An entry of the indirect block. *)
Lemma grown_entry v ip j b : (forall n, length (v n) = 1024%nat) -> file_wf v ip -> 0 <= j < 256 -> let ib := slot (i_addrs ip) NDIRECT in
  ib <> 0 -> entry (v ib) j = 0 -> dstart <= b < sb_size S -> used S v b = false ->
  let v' := fupd (alloc S b v) ib (wr 4 (v ib) (4 * j) b) in
  grown v ip v' ip /\ ptr v' (i_addrs ip) (13 + j) = b /\ v' b = zero_block.
Proof.
  intros Hl Hw Hj ib Hib H0 Hb Hu v'. pose proof (ly_start Hly) as Hst. destruct Hly as [_ _ L3 L4].
  destruct (fw_ptr _ _ Hw NDIRECT) as [Hr Hu']; rewrite ?ptr_slot in * by done; [done|done|]. fold ib in Hr, Hu'.
  assert (Hne : ib <> b) by (intros ->; congruence).
  assert (Hzero : v' b = zero_block) by (unfold v'; rewrite fupd_ne by done; apply fupd_eq).
  assert (Hused : forall y, 0 <= y < sb_size S -> used S v' y = (y =? b) || used S v y).
  { intros y Hy. rewrite <- (used_alloc Hly) by done. unfold used, v'. rewrite fupd_ne; [done|]. destruct (bblock_range Hly y Hy). lia. }
  assert (Hptr : forall q, 0 <= q < NPTR -> ptr v' (i_addrs ip) q = if decide (q = 13 + j) then b else ptr v (i_addrs ip) q).
  { intros q Hq. unfold NPTR in Hq. destruct (Z_le_gt_dec q NDIRECT) as [Hle|Hgt]; [rewrite !ptr_slot, decide_False by (unfold NDIRECT in *; lia); done|].
    unfold NDIRECT in Hgt. rewrite !ptr_entry by (unfold NDIRECT; (done || lia)). fold ib. unfold v'. rewrite fupd_eq, entry_put by (done || lia).
    do 2 case_decide; (done || lia). }
  split; [|split; [by rewrite Hptr, decide_True by (unfold NPTR; lia || done)|done]]. split.
  - by destruct ip.
  - eapply (wf_add v ip v' ip (13 + j) b); try done; [unfold NPTR; lia| |apply Hw].
    rewrite ptr_entry by (unfold NDIRECT; (done || lia)). fold ib. by replace (13 + j - 13) with j by lia.
  - intros q Hq Hq0. rewrite Hptr by done. case_decide; [|done]. subst. rewrite ptr_entry in Hq0 by (unfold NDIRECT; (done || lia)).
    fold ib in Hq0. replace (13 + j - 13) with j in Hq0 by lia. done.
  - intros y Hy Hy'. rewrite Hused, Hy' by done. apply orb_true_r.
  - intros q Hq. rewrite Hptr by done. by case_decide.
  - intros n Hn Hn' Hni. unfold v'. rewrite fupd_ne by done. apply (alloc_other Hly); [done|done|]. intros ->. by rewrite Hn' in Hu.
Qed.

End files.

(** ** Room on the disk *)

(** At least [k] blocks are free. *)
Definition avail (S : superblock) (v : Z -> list Z) (k : Z) : Prop :=
  exists l, NoDup l /\ k <= Z.of_nat (length l) /\ forall b, b ∈ l -> 0 <= b < sb_size S /\ used S v b = false.

Lemma avail_weaken S v k k' : avail S v k -> k' <= k -> avail S v k'.
Proof. intros (l & H1 & H2 & H3) Hk. exists l. split_and!; [done|lia|done]. Qed.

Lemma avail_alloc S v v' b k : avail S v (k + 1) -> (forall y, 0 <= y < sb_size S -> used S v' y = (y =? b) || used S v y) -> avail S v' k.
Proof.
  intros (l & H1 & H2 & H3) Hu. exists (filter (fun y => y <> b) l). split_and!; [by apply NoDup_filter| |].
  - assert (Hl : (length l <= 1 + length (filter (fun y => y <> b) l))%nat); [|lia].
    change (1 + length (filter (fun y => y <> b) l))%nat with (length (b :: filter (fun y => y <> b) l)). apply submseteq_length, NoDup_submseteq; [done|].
    intros y Hy. destruct (decide (y = b)) as [->|]; [by left|right]. by apply list_elem_of_filter.
  - intros y Hy. apply list_elem_of_filter in Hy as [Hne Hy]. destruct (H3 y Hy) as [Hr Hf]. split; [done|]. rewrite Hu, Hf, orb_false_r by done. by apply Z.eqb_neq.
Qed.

Lemma avail_pos S v k : avail S v k -> 0 < k -> exists b, 0 <= b < sb_size S /\ used S v b = false.
Proof. intros (l & _ & H2 & H3) Hk. destruct l as [|b l]; [simpl in *; lia|]. exists b. apply H3. by left. Qed.

(** What an indirect block still costs: in entries of the log, and in blocks. *)
Definition icost (bs addrs : list Z) : Z := if decide (slot addrs NDIRECT <> 0 /\ slot addrs NDIRECT ∈ bs) then 0 else 2.
Definition bcost (addrs : list Z) : Z := if slot addrs NDIRECT =? 0 then 1 else 0.

Lemma icost_nonneg bs addrs : 0 <= icost bs addrs <= 2.
Proof. unfold icost. case_decide; lia. Qed.
Lemma bcost_nonneg addrs : 0 <= bcost addrs <= 1.
Proof. unfold bcost. case_match; lia. Qed.

(** All that changed outside the cache and the log is inode [i]. *)
Definition moved (i : nat) (F F' : fsstate) : Prop :=
  sb F' = sb F /\ inodes F' = <[i := getI i F']> (inodes F) /\ files F' = files F /\ pipes F' = pipes F /\ same_log (klog F) (klog F').

Lemma kept_getI i F F' : kept F F' -> getI i F' = getI i F.
Proof. intros (_ & H & _). unfold getI. by rewrite H. Qed.

Lemma moved_kept i F F' : (i < length (inodes F))%nat -> kept F F' -> moved i F F'.
Proof.
  intros Hi Hk. pose proof (kept_getI i F F' Hk) as HI. destruct Hk as (H1 & H2 & H3 & H4 & H5). split_and!; try done. rewrite HI, H2. symmetry.
  apply list_insert_id. unfold getI. by destruct (lookup_lt_is_Some_2 _ _ Hi) as [x ->].
Qed.

Lemma moved_trans i F1 F2 F3 : moved i F1 F2 -> moved i F2 F3 -> moved i F1 F3.
Proof.
  intros (A1 & A2 & A3 & A4 & (A5 & A6 & A7 & A8 & A9)) (B1 & B2 & B3 & B4 & (B5 & B6 & B7 & B8 & B9)). split_and!; try congruence.
  - rewrite B2, A2. apply list_insert_insert_eq.
  - unfold same_log. split_and!; congruence.
Qed.

Lemma moved_length i F F' : moved i F F' -> length (inodes F') = length (inodes F).
Proof. intros (_ & -> & _). apply length_insert. Qed.

Lemma moved_upd i f F : (i < length (inodes F))%nat -> moved i F (updI i f F) /\ getI i (updI i f F) = f (getI i F).
Proof.
  intros Hi. pose proof (getI_upd i f F Hi) as HI. split; [|done]. split_and!; try done. rewrite HI. unfold updI. cbn [inodes set_inodes].
  apply list_eq. intros j. rewrite list_lookup_alter. case_decide as Hd; [subst j|by rewrite list_lookup_insert_ne].
  rewrite list_lookup_insert_eq by done. unfold getI. by destruct (lookup_lt_is_Some_2 _ _ Hi) as [x ->].
Qed.

(** ** bmap() *)

Section bmap.
Context {E : Env} {D : DiskDriver} {DR : DiskReady} {L : DiskLaws} (pr : nat) (pid dev : Z) (Hdev : 0 < dev < 2 ^ 31).
Context (st : Z) (users : list Z) (disk0 : Z -> list Z) (writes0 : list (Z * list Z)).
Context (S : superblock) (dstart : Z) (Hly : layout st S dstart).
Notation txn := (txn pid dev st users disk0 writes0).
Notation file_wf := (file_wf (S := S) (dstart := dstart) dev).
Notation grown := (grown (S := S) (dstart := dstart) dev).

(** The blocks of the log, the inodes and the bitmap are marked in use. *)
Definition meta_used (v : Z -> list Z) : Prop := forall b, 0 <= b < dstart -> used S v b = true.

Lemma grown_meta v ip v' ip' : grown v ip v' ip' -> meta_used v -> meta_used v'.
Proof. intros Hg Hm b Hb. pose proof (ly_data _ _ _ Hly). apply (gr_used _ _ _ _ _ Hg); [lia|by apply Hm]. Qed.

(** Blocks of the file may be read and written. *)
Lemma ptr_loggable v ip p : file_wf v ip -> 0 <= p < NPTR -> ptr v (i_addrs ip) p <> 0 -> loggable st (ptr v (i_addrs ip) p).
Proof.
  intros Hw Hp H0. destruct (fw_ptr _ _ _ Hw p Hp H0) as [Hr _]. apply (loggable_meta Hly). pose proof (ly_start Hly). lia.
Qed.

(** A part that has a block: nothing changes. *)
Lemma txn_bmap_mapped k bs v F i bn (Q : Z -> fsstate -> Prop) : let ip := getI i F in txn k [] bs v F -> file_wf v ip -> 0 <= bn < MAXFILE ->
  ptr v (i_addrs ip) (pos bn) <> 0 ->
  (forall F', txn k [] bs v F' -> kept F F' -> Q (ptr v (i_addrs ip) (pos bn)) F') -> fsrun pr pid (bmap i bn) F Q.
Proof.
  intros ip Ht Hw Hbn H0 HQ. unfold bmap. eapply crun_bind, crun_geti. fold ip. unfold pos in *. destruct (Z.ltb_spec bn NDIRECT) as [Hlt|Hge].
  - rewrite ptr_slot in * by lia. change (addr_nth ip bn) with (slot (i_addrs ip) bn). destruct (Z.eqb_spec (slot (i_addrs ip) bn) 0); [done|].
    apply crun_ret. apply HQ; [done|apply kept_refl].
  - unfold MAXFILE in Hbn. destruct (Z.ltb_spec (bn - NDIRECT) NINDIRECT); [|lia]. change (addr_nth ip NDIRECT) with (slot (i_addrs ip) NDIRECT).
    assert (Hib : slot (i_addrs ip) NDIRECT <> 0) by (intros He; apply H0, ptr_none; [lia|done]).
    rewrite ptr_entry in * by (done || lia). replace (bn + 1 - 13) with (bn - NDIRECT) in * by (unfold NDIRECT; lia).
    destruct (Z.eqb_spec (slot (i_addrs ip) NDIRECT) 0); [done|]. eapply crun_bind, crun_ret.
    destruct (Z.eqb_spec (slot (i_addrs ip) NDIRECT) 0); [done|]. rewrite (fw_dev _ _ _ Hw).
    eapply crun_bind, (txn_bread pr pid dev Hdev); [exact Ht| |apply not_elem_of_nil| |].
    { pose proof (ptr_loggable v ip NDIRECT Hw ltac:(done)) as Hp. rewrite ptr_slot in Hp by done. by apply Hp. }
    { destruct Ht as (a & [] & _). simpl. lia. }
    intros bp F1 Ht1 Hs1. eapply crun_bind, (txn_bdata pr pid dev); [exact Ht1|by left|]. cbv zeta.
    change (rd 4 (v (slot (i_addrs ip) NDIRECT)) (4 * (bn - NDIRECT))) with (entry (v (slot (i_addrs ip) NDIRECT)) (bn - NDIRECT)).
    destruct (Z.eqb_spec (entry (v (slot (i_addrs ip) NDIRECT)) (bn - NDIRECT)) 0); [done|].
    eapply crun_bind, crun_ret, crun_bind, (txn_brelse pr pid dev Hdev); [exact Ht1|]. intros F2 Ht2 Hs2. apply crun_ret. apply HQ; [done|].
    eapply kept_trans; by apply same_rest_kept.
Qed.

(** balloc() with a free block. *)
Lemma txn_balloc_free k held bs v F (Q : Z -> fsstate -> Prop) c : txn (k + 2) held bs v F -> 0 <= k -> Z.of_nat (length held) <= k + 1 -> sb F = S ->
  meta_used v -> data_held S dstart v held -> avail S v (c + 1) -> 0 <= c ->
  (forall b bs' F', dstart <= b < sb_size S -> used S v b = false -> b ∈ bs' -> (forall n, n ∈ bs -> n ∈ bs') ->
     txn k held bs' (alloc S b v) F' -> kept F F' -> avail S (alloc S b v) c -> Q b F') ->
  fsrun pr pid (balloc dev) F Q.
Proof.
  intros Ht Hk Hlen HS Hm Hh Ha Hc HQ. eapply (txn_balloc pr pid dev Hdev); try done.
  - intros b bs' F' Hb Hu _ Hbs Ht' Hk'. eapply (HQ b bs'); try done; [apply Hbs; by left|intros n Hn; apply Hbs; auto|].
    eapply avail_alloc; [done|]. intros y Hy. apply (used_alloc Hly v b y); [intros n; eapply txn_len; exact Ht|done|done].
  - intros F' Hfull. exfalso. destruct (avail_pos _ _ _ Ha) as (b & Hb & Hu); [lia|]. rewrite Hfull in Hu by done. done.
Qed.

(** The second half of bmap(): a fresh block for an entry of the indirect block. *)
Lemma txn_bmap_entry k bs v F i j (Q : Z -> fsstate -> Prop) c : let ip := getI i F in let ib := slot (i_addrs ip) NDIRECT in
  txn (k + 3 - cnt bs ib) [] bs v F -> 0 <= k -> sb F = S -> meta_used v -> file_wf v ip -> ib <> 0 -> 0 <= j < NINDIRECT ->
  entry (v ib) j = 0 -> avail S v (c + 1) -> 0 <= c ->
  (forall b bs' v' F', txn k [] bs' v' F' -> kept F F' -> grown v ip v' ip -> ptr v' (i_addrs ip) (13 + j) = b -> b <> 0 -> v' b = zero_block -> b ∈ bs' ->
     ib ∈ bs' -> (forall n, n ∈ bs -> n ∈ bs') -> avail S v' c -> Q b F') ->
  fsrun pr pid (bp <- bread dev ib;; d <- bdata bp;;
    addr <- (if rd 4 d (4 * j) =? 0 then
               addr <- balloc dev;;
               when (negb (addr =? 0)) (set_bdata bp (fun d => wr 4 d (4 * j) addr);; log_write bp);;
               ret addr
             else ret (rd 4 d (4 * j)));;
    brelse bp;; ret addr) F Q.
Proof.
  intros ip ib Ht Hk HS Hm Hw Hib Hj H0 Ha Hc HQ. pose proof (cnt_01 bs ib) as H01. pose proof (txn_lens _ _ _ _ _ _ _ _ _ _ _ Ht) as Hl.
  pose proof (ly_start Hly) as Hst. destruct (fw_ptr _ _ _ Hw NDIRECT) as [Hr Hu]; rewrite ?ptr_slot in * by done; [done|done|]. fold ib in Hr, Hu.
  assert (Hlog : loggable st ib) by (apply (loggable_meta Hly); lia).
  eapply crun_bind, (txn_bread pr pid dev Hdev); [exact Ht|done|apply not_elem_of_nil|simpl; lia|].
  intros bp F1 Ht1 Hs1. eapply crun_bind, (txn_bdata pr pid dev); [exact Ht1|by left|].
  change (rd 4 (v ib) (4 * j)) with (entry (v ib) j). rewrite H0, Z.eqb_refl. eapply crun_bind.
  assert (Hheld : data_held S dstart v [(bp, ib)]) by (intros n Hn; apply list_elem_of_singleton in Hn as ->; done).
  eapply crun_bind, (txn_balloc_free (k + 1 - cnt bs ib) _ bs v F1 _ c); try done; [by replace (k + 1 - cnt bs ib + 2) with (k + 3 - cnt bs ib) by lia|lia|simpl; lia|destruct Hs1 as (_ & -> & _); done|].
  intros b bs1 F2 Hb Hub Hb1 Hsub Ht2 Hk2 Ha2. destruct (Z.eqb_spec b 0); [lia|]. cbn [negb when].
  assert (Hne : ib <> b) by (intros ->; congruence).
  assert (Hv : alloc S b v ib = v ib) by (apply (alloc_other Hly); [done|destruct Hly; unfold is_bitmap; lia|done]).
  assert (Hc1 : cnt bs ib <= cnt bs1 ib) by (by apply cnt_mono).
  assert (HN : NINDIRECT = 256) by done. pose proof (cnt_01 bs1 ib) as H01'.
  eapply crun_bind, (txn_log pr pid dev Hdev st users disk0 writes0 k [] bs1 (alloc S b v) F2 bp ib (fun d => wr 4 d (4 * j) b)); 
    [eapply txn_weaken; [exact Ht2|lia]|done|done|rewrite Hv, wr_length; rewrite ?Hl; simpl; lia|].
  rewrite Hv. intros F3 Ht3 Hk3. apply crun_ret. eapply crun_bind, (txn_brelse pr pid dev Hdev); [exact Ht3|]. intros F4 Ht4 Hs4. apply crun_ret.
  destruct (grown_entry Hly dev v ip j b Hl Hw ltac:(lia) Hib H0 Hb Hub) as (G1 & G2 & G3). fold ib in G1, G2, G3.
  eapply HQ; [exact Ht4| |exact G1|exact G2|lia|exact G3|apply log_add_in; auto|apply log_add_in; auto|intros m Hn; apply log_add_in; auto|].
  - eapply kept_trans; [by apply same_rest_kept|]. eapply kept_trans; [done|]. eapply kept_trans; [done|by apply same_rest_kept].
  - destruct Ha2 as (l & A1 & A2 & A3). exists l. split_and!; [done|done|]. intros y Hy. destruct (A3 y Hy) as [Hy' Hf]. split; [done|].
    unfold used in *. rewrite fupd_ne; [done|]. destruct (bblock_range Hly y Hy'). lia.
Qed.

Lemma txn_updI k bs v F i f : txn k [] bs v F -> txn k [] bs v (updI i f F).
Proof. intros H. by eapply txn_frame. Qed.

Lemma icost_mono bs bs' addrs addrs' : (forall n, n ∈ bs -> n ∈ bs') -> slot addrs' NDIRECT = slot addrs NDIRECT -> icost bs' addrs' <= icost bs addrs.
Proof. intros Hb Hs. unfold icost. rewrite Hs. case_decide as H1; case_decide as H2; try lia. destruct H2 as [H2 H3]. by destruct H1; auto. Qed.

(** What bmap() has done for part [bn] without a block: the part has a fresh block
    of zeros, which is in the log, and what the indirect block still costs has been
    paid. *)
Definition fresh_post (k : Z) (bs : list Z) (v : Z -> list Z) (F : fsstate) (i : nat) (bn c : Z) (Q : Z -> fsstate -> Prop) : Prop :=
  forall b bs' v' F', let ip' := getI i F' in txn (k + icost bs' (i_addrs ip')) [] bs' v' F' -> moved i F F' -> grown v (getI i F) v' ip' ->
    ptr v' (i_addrs ip') (pos bn) = b -> b <> 0 -> v' b = zero_block -> b ∈ bs' -> (forall n, n ∈ bs -> n ∈ bs') ->
    avail S v' (c + bcost (i_addrs ip')) -> Q b F'.

(** Setting a slot of the inode to a fresh block. *)
Lemma txn_slot k (bs : list Z) v F i p b bs1 F1 : let ip := getI i F in let F2 := updI i (set_addr p b) F1 in
  (forall n, length (v n) = 1024%nat) -> file_wf v ip -> (i < length (inodes F))%nat -> 0 <= p <= NDIRECT -> slot (i_addrs ip) p = 0 ->
  dstart <= b < sb_size S -> used S v b = false -> txn k [] bs1 (alloc S b v) F1 -> kept F F1 -> (forall n, n ∈ bs -> n ∈ bs1) ->
  txn k [] bs1 (alloc S b v) F2 /\ moved i F F2 /\ getI i F2 = set_addr p b ip /\ grown v ip (alloc S b v) (set_addr p b ip) /\
  slot (i_addrs (set_addr p b ip)) p = b /\ (p <> NDIRECT -> slot (i_addrs (set_addr p b ip)) NDIRECT = slot (i_addrs ip) NDIRECT).
Proof.
  intros ip F2 Hl Hw Hi Hp H0 Hb Hub Ht1 Hk1 Hsub. assert (Hi1 : (i < length (inodes F1))%nat) by (by destruct Hk1 as (_ & -> & _)).
  destruct (moved_upd i (set_addr p b) F1 Hi1) as [Hmv HI]. rewrite (kept_getI i F F1 Hk1) in HI.
  destruct (grown_slot Hly dev v ip p b Hl Hw Hp H0 Hb Hub) as (G1 & G2 & G3). rewrite ptr_slot in G2 by lia.
  split_and!; try done; [by apply txn_updI|by eapply moved_trans; [eapply moved_kept|]|].
  intros Hne. unfold set_addr. cbn [i_addrs set_i_addrs]. rewrite slot_zupd, decide_False; [done|done|]. rewrite (fw_len _ _ _ Hw). unfold NDIRECT in Hp. lia.
Qed.

Lemma no_held v : data_held S dstart v [].
Proof. intros n Hn. by apply not_elem_of_nil in Hn. Qed.

Lemma txn_bmap_direct k bs v F i bn (Q : Z -> fsstate -> Prop) c : let ip := getI i F in
  txn (k + 2 + icost bs (i_addrs ip)) [] bs v F -> 0 <= k -> sb F = S -> meta_used v -> file_wf v ip -> (i < length (inodes F))%nat ->
  0 <= bn < NDIRECT -> slot (i_addrs ip) bn = 0 -> avail S v (c + 1 + bcost (i_addrs ip)) -> 0 <= c ->
  fresh_post k bs v F i bn c Q -> fsrun pr pid (bmap i bn) F Q.
Proof.
  intros ip Ht Hk HS Hm Hw Hi Hbn H0 Ha Hc HQ. pose proof (txn_lens _ _ _ _ _ _ _ _ _ _ _ Ht) as Hl. pose proof (ly_start Hly) as Hst.
  pose proof (icost_nonneg bs (i_addrs ip)) as Hic. pose proof (bcost_nonneg (i_addrs ip)) as Hbc.
  unfold bmap. eapply crun_bind, crun_geti. fold ip. rewrite (fw_dev _ _ _ Hw). destruct (Z.ltb_spec bn NDIRECT) as [_|]; [|lia].
  change (addr_nth ip bn) with (slot (i_addrs ip) bn). rewrite H0, Z.eqb_refl.
  eapply crun_bind, (txn_balloc_free (k + icost bs (i_addrs ip)) [] bs v F _ (c + bcost (i_addrs ip))); try (done || (simpl; lia) || apply no_held);
    [by replace (k + icost bs (i_addrs ip) + 2) with (k + 2 + icost bs (i_addrs ip)) by lia|
     by replace (c + bcost (i_addrs ip) + 1) with (c + 1 + bcost (i_addrs ip)) by lia|].
  intros b bs1 F1 Hb Hub Hb1 Hsub Ht1 Hk1 Ha1. destruct (Z.eqb_spec b 0); [lia|].
  eapply crun_bind, (crun_modify pr pid _ (updI i (set_addr bn b))), crun_ret.
  destruct (txn_slot _ bs v F i bn b bs1 F1 Hl Hw Hi ltac:(lia) H0 Hb Hub Ht1 Hk1 Hsub) as (Ht2 & Hmv & HI & Hg & Hs & Hsn). fold ip in HI, Hg, Hs, Hsn.
  specialize (Hsn ltac:(lia)). pose proof (icost_mono bs bs1 (i_addrs ip) _ Hsub Hsn) as Him. pose proof (icost_nonneg bs1 (i_addrs (set_addr bn b ip))).
  apply (HQ b bs1 (alloc S b v)); rewrite ?HI; try done.
  - eapply txn_weaken; [exact Ht2|lia].
  - unfold pos. destruct (Z.ltb_spec bn NDIRECT); [|lia]. by rewrite ptr_slot by lia.
  - apply fupd_eq.
  - unfold bcost. by rewrite Hsn.
Qed.

(** The indirect block is there, or has just been allocated. *)
Lemma txn_bmap_tail k bs v F i bn (Q : Z -> fsstate -> Prop) c : let ip := getI i F in let ib := slot (i_addrs ip) NDIRECT in
  txn (k + 3 - cnt bs ib) [] bs v F -> 0 <= k -> sb F = S -> meta_used v -> file_wf v ip -> (i < length (inodes F))%nat -> ib <> 0 ->
  NDIRECT <= bn < MAXFILE -> entry (v ib) (bn - NDIRECT) = 0 -> avail S v (c + 1) -> 0 <= c ->
  fresh_post k bs v F i bn c Q ->
  fsrun pr pid (bp <- bread dev ib;; d <- bdata bp;;
    addr <- (if rd 4 d (4 * (bn - NDIRECT)) =? 0 then
               addr <- balloc dev;;
               when (negb (addr =? 0)) (set_bdata bp (fun d => wr 4 d (4 * (bn - NDIRECT)) addr);; log_write bp);;
               ret addr
             else ret (rd 4 d (4 * (bn - NDIRECT))));;
    brelse bp;; ret addr) F Q.
Proof.
  intros ip ib Ht Hk HS Hm Hw Hi Hib Hbn H0 Ha Hc HQ. assert (HN : NINDIRECT = 256) by done. unfold MAXFILE in Hbn.
  eapply (txn_bmap_entry k bs v F i (bn - NDIRECT) _ c); try (done || lia).
  intros b2 bs2 v2 F2 Ht2 Hk2 G4 G5 G6 G7 G8 G9 G10 G11. pose proof (kept_getI i F F2 Hk2) as HI2. fold ip ib in HI2, G4, G5, G9.
  assert (Hic0 : icost bs2 (i_addrs ip) = 0) by (unfold icost; by rewrite decide_True).
  assert (Hbc0 : bcost (i_addrs ip) = 0) by (unfold bcost; fold ib; by destruct (Z.eqb_spec ib 0)).
  apply (HQ b2 bs2 v2); rewrite ?HI2, ?Hic0, ?Hbc0, ?Z.add_0_r; try done; [by apply moved_kept|].
  rewrite <- G5. f_equal. unfold pos, NDIRECT in *. destruct (Z.ltb_spec bn 12); lia.
Qed.

(** A part without a block gets a fresh one, and the indirect block if need be. *)
Lemma txn_bmap_fresh k bs v F i bn (Q : Z -> fsstate -> Prop) c : let ip := getI i F in
  txn (k + 2 + icost bs (i_addrs ip)) [] bs v F -> 0 <= k -> sb F = S -> meta_used v -> file_wf v ip -> (i < length (inodes F))%nat ->
  0 <= bn < MAXFILE -> ptr v (i_addrs ip) (pos bn) = 0 -> avail S v (c + 1 + bcost (i_addrs ip)) -> 0 <= c ->
  fresh_post k bs v F i bn c Q -> fsrun pr pid (bmap i bn) F Q.
Proof.
  intros ip Ht Hk HS Hm Hw Hi Hbn H0 Ha Hc HQ. unfold pos in H0. destruct (Z.ltb_spec bn NDIRECT) as [Hlt|Hge].
  { rewrite ptr_slot in H0 by lia. apply (txn_bmap_direct k bs v F i bn Q c); (done || lia). }
  pose proof (txn_lens _ _ _ _ _ _ _ _ _ _ _ Ht) as Hl. pose proof (ly_start Hly) as Hst. unfold bmap. eapply crun_bind, crun_geti. fold ip.
  rewrite (fw_dev _ _ _ Hw). destruct (Z.ltb_spec bn NDIRECT); [lia|]. unfold MAXFILE in Hbn. destruct (Z.ltb_spec (bn - NDIRECT) NINDIRECT); [|lia].
  change (addr_nth ip NDIRECT) with (slot (i_addrs ip) NDIRECT). eapply crun_bind. destruct (Z.eqb_spec (slot (i_addrs ip) NDIRECT) 0) as [Hz|Hnz].
  - assert (Hic2 : icost bs (i_addrs ip) = 2) by (unfold icost; rewrite decide_False by (rewrite Hz; tauto); done).
    assert (Hbc1 : bcost (i_addrs ip) = 1) by (unfold bcost; by rewrite Hz). rewrite Hic2, Hbc1 in *.
    eapply crun_bind, (txn_balloc_free (k + 2) [] bs v F _ (c + 1)); try (done || (simpl; lia) || apply no_held).
    intros b bs1 F1 Hb Hub Hb1 Hsub Ht1 Hk1 Ha1. destruct (Z.eqb_spec b 0) as [|Hb0]; [lia|]. cbn [negb when].
    eapply crun_bind, (crun_modify pr pid _ (updI i (set_addr NDIRECT b))), crun_ret. destruct (Z.eqb_spec b 0); [lia|].
    destruct (txn_slot _ bs v F i NDIRECT b bs1 F1 Hl Hw Hi ltac:(done) Hz Hb Hub Ht1 Hk1 Hsub) as (Ht2 & Hmv & HI & Hg & Hs & _). fold ip in HI, Hg, Hs.
    set (F2 := updI i (set_addr NDIRECT b) F1) in *. rewrite <- HI in Hg, Hs. rewrite <- Hs.
    eapply (txn_bmap_tail k bs1 (alloc S b v) F2 i bn _ c); rewrite ?Hs; try (done || (unfold MAXFILE; lia)).
    + rewrite cnt_in by done. by replace (k + 3 - 1) with (k + 2) by lia.
    + by destruct Hmv as (-> & _).
    + by eapply grown_meta.
    + apply Hg.
    + by rewrite (moved_length _ _ _ Hmv).
    + unfold alloc. rewrite fupd_eq. apply entry_zero_block.
    + intros b2 bs2 v2 F3 ip' Ht3 Hk3 G3 G4 G5 G6 G7 G8 G9. apply (HQ b2 bs2 v2); try done; [by eapply moved_trans|by eapply (grown_trans Hly)|auto].
  - apply crun_ret. destruct (Z.eqb_spec (slot (i_addrs ip) NDIRECT) 0); [done|].
    rewrite ptr_entry in H0 by (done || lia). replace (bn + 1 - 13) with (bn - NDIRECT) in H0 by (unfold NDIRECT; lia).
    assert (Hbc0 : bcost (i_addrs ip) = 0) by (unfold bcost; by destruct (Z.eqb_spec (slot (i_addrs ip) NDIRECT) 0)).
    assert (Hcn : 3 - cnt bs (slot (i_addrs ip) NDIRECT) <= 2 + icost bs (i_addrs ip)).
    { unfold icost. case_decide as Hd; [rewrite cnt_in by tauto; lia|]. pose proof (cnt_01 bs (slot (i_addrs ip) NDIRECT)). lia. }
    pose proof (cnt_01 bs (slot (i_addrs ip) NDIRECT)) as H01.
    eapply (txn_bmap_tail k bs v F i bn _ c); try (done || (unfold MAXFILE; lia)); [fold ip; eapply txn_weaken; [exact Ht|lia]|].
    eapply avail_weaken; [exact Ha|lia].
Qed.

End bmap.
