(* ===== verification/FsWrite.v ===== *)
(** * Writing files (kernel/fs.c)

    writei() inside a transaction: the bytes of the file afterwards, the blocks it
    takes from the disk and the entries it needs in the log. *)

From S2P Require Import Prelude Riscv Bytes Kstate CString Spinlock Kalloc Vm Sched SchedSpec Uart Sleeplock.
From S2P Require Import Bio FsRun BioSpec Log LogSpec LogOps FsTxn Fs FsSpec FsImage FsAlloc File Tables FsRead FsFile.

(** ** Bytes of a file *)

Section bytes.
Context {st : Z} {S : superblock} {dstart : Z} (Hly : layout st S dstart) (dev : Z).
Notation file_wf := (file_wf (S := S) (dstart := dstart) dev).
Notation grown := (grown (S := S) (dstart := dstart) dev).

(** Part [bn] of the file has a block. *)
Definition has (v : Z -> list Z) (addrs : list Z) (bn : Z) : Prop := ptr v addrs (pos bn) <> 0.

Lemma data_not_bitmap n : dstart <= n -> ~ is_bitmap S n.
Proof. intros Hn. destruct Hly as [_ _ L3 _]. unfold is_bitmap. lia. Qed.

Lemma file_byte_ptr v addrs k : 0 <= k -> has v addrs (k / BSIZE) -> file_byte v addrs k = default 0 (znth (v (ptr v addrs (pos (k / BSIZE)))) (k mod BSIZE)).
Proof. intros Hk H0. unfold file_byte. rewrite block_of_ptr; [done|by apply Z.div_pos|done]. Qed.

Lemma part_range k : 0 <= k < MAXFILE * BSIZE -> 0 <= k / BSIZE < MAXFILE.
Proof. intros Hk. split; [apply Z.div_pos; [lia|done]|apply Z.div_lt_upper_bound; [done|lia]]. Qed.

(** A file that grows keeps its bytes. *)
Lemma grown_block v ip v' ip' bn : file_wf v ip -> grown v ip v' ip' -> 0 <= bn < MAXFILE -> has v (i_addrs ip) bn ->
  v' (ptr v (i_addrs ip) (pos bn)) = v (ptr v (i_addrs ip) (pos bn)).
Proof.
  intros Hw Hg Hbn H0. destruct (pos_range bn Hbn) as [Hp Hpn]. destruct (fw_ptr _ _ _ Hw _ Hp H0) as [Hr Hu]. apply (gr_frame _ _ _ _ _ Hg); [|done|].
  - apply data_not_bitmap. lia.
  - intros He. apply Hpn. apply (fw_inj _ _ _ Hw); [done|done|done|]. by rewrite (ptr_slot _ _ NDIRECT) by done.
Qed.

Lemma grown_has v ip v' ip' bn : grown v ip v' ip' -> 0 <= bn < MAXFILE -> has v (i_addrs ip) bn -> has v' (i_addrs ip') bn.
Proof. intros Hg Hbn H0. unfold has. rewrite (gr_ptr _ _ _ _ _ Hg); [done|by apply pos_range|done]. Qed.

Lemma grown_byte v ip v' ip' k : file_wf v ip -> grown v ip v' ip' -> 0 <= k < MAXFILE * BSIZE -> has v (i_addrs ip) (k / BSIZE) ->
  file_byte v' (i_addrs ip') k = file_byte v (i_addrs ip) k.
Proof.
  intros Hw Hg Hk H0. pose proof (part_range k Hk) as Hbn.
  rewrite !file_byte_ptr; [|lia|done|lia|by eapply grown_has].
  rewrite (gr_ptr _ _ _ _ _ Hg); [|by apply pos_range|done]. by rewrite (grown_block v ip v' ip').
Qed.

(** Overwriting a data block changes neither the pointers nor the bitmap. *)
Lemma overwrite_ptr v ip bn d : file_wf v ip -> 0 <= bn < MAXFILE -> has v (i_addrs ip) bn ->
  forall p, 0 <= p < NPTR -> ptr (fupd v (ptr v (i_addrs ip) (pos bn)) d) (i_addrs ip) p = ptr v (i_addrs ip) p.
Proof.
  intros Hw Hbn H0 p Hp. destruct (pos_range bn Hbn) as [Hpb Hpn]. unfold ptr at 1 3. destruct (p <=? NDIRECT); [done|].
  destruct (Z.eqb_spec (slot (i_addrs ip) NDIRECT) 0); [done|]. rewrite fupd_ne; [done|]. intros He. apply Hpn. symmetry.
  apply (fw_inj _ _ _ Hw); [done|done|by rewrite ptr_slot|]. by rewrite ptr_slot by done.
Qed.

Lemma overwrite_used v ip bn d y : file_wf v ip -> 0 <= bn < MAXFILE -> has v (i_addrs ip) bn -> 0 <= y < sb_size S ->
  used S (fupd v (ptr v (i_addrs ip) (pos bn)) d) y = used S v y.
Proof.
  intros Hw Hbn H0 Hy. destruct (pos_range bn Hbn) as [Hpb _]. destruct (fw_ptr _ _ _ Hw _ Hpb H0) as [Hr _]. unfold used.
  rewrite fupd_ne; [done|]. destruct (bblock_range Hly y Hy). lia.
Qed.

Lemma overwrite_wf v ip bn d : file_wf v ip -> 0 <= bn < MAXFILE -> has v (i_addrs ip) bn ->
  file_wf (fupd v (ptr v (i_addrs ip) (pos bn)) d) ip.
Proof.
  intros Hw Hbn H0. pose proof (overwrite_ptr v ip bn d Hw Hbn H0) as Hptr. pose proof (overwrite_used v ip bn d) as Hu. pose proof (ly_start Hly).
  destruct Hw as [W1 W2 W3 W4 W5 W6]. split; try done.
  - intros p Hp. rewrite Hptr by done. intros Hne. pose proof (W4 p Hp Hne) as [Hr Hu']. split; [done|]. rewrite Hu; [done|by split|done|done|lia].
  - intros p q Hp Hq. rewrite !Hptr by done. by apply W5.
  - intros bn' Hb' Hs. rewrite Hptr; [by apply W6|]. apply pos_range. unfold MAXFILE, NINDIRECT, NDIRECT, BSIZE in *. change (1024 / 4) with 256 in *. lia.
Qed.

Lemma znth_splice d o bs k : 0 <= o -> 0 <= k -> o + Z.of_nat (length bs) <= Z.of_nat (length d) ->
  znth (splice d (Z.to_nat o) bs) k = if (o <=? k) && (k <? o + Z.of_nat (length bs)) then znth bs (k - o) else znth d k.
Proof.
  intros Ho Hk Hl. unfold znth. destruct (Z.ltb_spec k 0); [lia|]. destruct (Z.leb_spec o k); cbn [andb].
  - destruct (Z.ltb_spec k (o + Z.of_nat (length bs))), (Z.ltb_spec (k - o) 0); try lia.
    + unfold splice. rewrite lookup_app_r by (rewrite length_take; lia). rewrite length_take, Nat.min_l by lia. rewrite lookup_app_l by lia. f_equal. lia.
    + apply lookup_splice_out; lia.
  - destruct (Z.ltb_spec (k - o) 0); [|lia]. apply lookup_splice_out; lia.
Qed.

(** The bytes after a part of block [bn] was overwritten. *)
Lemma overwrite_byte v ip bn o bs k : let b := ptr v (i_addrs ip) (pos bn) in (forall n, length (v n) = 1024%nat) ->
  file_wf v ip -> 0 <= bn < MAXFILE -> has v (i_addrs ip) bn -> 0 <= o -> o + Z.of_nat (length bs) <= BSIZE ->
  0 <= k < MAXFILE * BSIZE -> has v (i_addrs ip) (k / BSIZE) ->
  file_byte (fupd v b (splice (v b) (Z.to_nat o) bs)) (i_addrs ip) k =
    if (bn * BSIZE + o <=? k) && (k <? bn * BSIZE + o + Z.of_nat (length bs)) then default 0 (znth bs (k - (bn * BSIZE + o))) else file_byte v (i_addrs ip) k.
Proof.
  intros b Hl Hw Hbn H0 Ho Hlen Hk Hh. pose proof (part_range k Hk) as Hbk.
  pose proof (overwrite_ptr v ip bn (splice (v b) (Z.to_nat o) bs) Hw Hbn H0) as Hptr. fold b in Hptr.
  destruct (pos_range _ Hbk) as [Hpk _]. destruct (pos_range _ Hbn) as [Hpb _]. rewrite !file_byte_ptr; [|lia|done|lia|unfold has; by rewrite Hptr]. rewrite Hptr by done.
  pose proof (Z.div_mod k BSIZE ltac:(done)) as Hdm. pose proof (Z.mod_pos_bound k BSIZE ltac:(done)) as Hmod. unfold BSIZE in Hdm, Hmod, Hlen |- *.
  destruct (Z.eq_dec (k / 1024) bn) as [He|Hne].
  - rewrite He. fold b. rewrite fupd_eq, znth_splice by (rewrite ?Hl; lia).
    replace (k mod 1024 - o) with (k - (bn * 1024 + o)) by lia.
    destruct (Z.leb_spec o (k mod 1024)), (Z.leb_spec (bn * 1024 + o) k); try lia; cbn [andb]; [|done].
    destruct (Z.ltb_spec (k mod 1024) (o + Z.of_nat (length bs))), (Z.ltb_spec k (bn * 1024 + o + Z.of_nat (length bs))); (lia || done).
  - rewrite fupd_ne.
    + destruct (Z.leb_spec (bn * 1024 + o) k), (Z.ltb_spec k (bn * 1024 + o + Z.of_nat (length bs))); try done. exfalso. lia.
    + intros He. apply Hne. apply pos_inj; [apply Hbk|apply Hbn|]. by apply (fw_inj _ _ _ Hw).
Qed.

End bytes.

(** ** Inodes on the disk *)

Section inodes.
Context {st : Z} {S : superblock} {dstart : Z} (Hly : layout st S dstart) (dev : Z).
Notation file_wf := (file_wf (S := S) (dstart := dstart) dev).

Lemma iblock_bounds inum : 0 <= inum < sb_ninodes S -> sb_inodestart S <= IBLOCK inum S < sb_bmapstart S.
Proof.
  intros Hi. pose proof (ly_start Hly). destruct Hly as [_ [L2 L2'] _ L4]. unfold IBLOCK, u32. pose proof (Z.div_pos inum IPB ltac:(lia) ltac:(done)).
  pose proof (Z.div_le_mono inum (sb_ninodes S - 1) IPB ltac:(done) ltac:(lia)). rewrite Z.mod_small; lia.
Qed.

Lemma iblock_loggable inum : 0 <= inum < sb_ninodes S -> loggable st (IBLOCK inum S) /\ IBLOCK inum S < dstart /\ ~ is_bitmap S (IBLOCK inum S).
Proof.
  intros Hi. pose proof (iblock_bounds inum Hi). pose proof (ly_start Hly). pose proof (ly_data _ _ _ Hly). unfold is_bitmap.
  split; [apply (loggable_meta Hly); lia|lia].
Qed.

(** Writing an inode to its block changes that inode and no other. *)
Lemma disk_inode_put v inum di : 0 <= inum < sb_ninodes S -> length (v (IBLOCK inum S)) = 1024%nat -> dinode_ok di ->
  let v' := fupd v (IBLOCK inum S) (put_dinode (v (IBLOCK inum S)) (dinode_off inum) di) in
  disk_inode v' S inum = di /\ forall j, 0 <= j < sb_ninodes S -> j <> inum -> disk_inode v' S j = disk_inode v S j.
Proof.
  intros Hin Hl Hdi v'. destruct (put_dinode_spec _ inum di Hl ltac:(lia) Hdi) as (_ & Hd1 & Hd2).
  split; [unfold disk_inode, v'; by rewrite fupd_eq|]. intros j Hj Hne. unfold disk_inode, v'.
  destruct (Z.eq_dec (IBLOCK j S) (IBLOCK inum S)) as [He|He]; [|by rewrite fupd_ne]. rewrite He, fupd_eq, Hd2; [done|lia|done|].
  pose proof (ly_start Hly) as Hst. revert He. unfold IBLOCK, u32. destruct Hly as [_ [L2 L2'] _ L4].
  pose proof (Z.div_pos j IPB ltac:(lia) ltac:(done)). pose proof (Z.div_pos inum IPB ltac:(lia) ltac:(done)).
  pose proof (Z.div_le_mono j (sb_ninodes S - 1) IPB ltac:(done) ltac:(lia)). pose proof (Z.div_le_mono inum (sb_ninodes S - 1) IPB ltac:(done) ltac:(lia)).
  rewrite !Z.mod_small by lia. lia.
Qed.

(** A write to a block that is neither data nor bitmap leaves files as they are. *)
Section meta.
Context (v : Z -> list Z) (ip : inode) (n : Z) (d : list Z) (Hw : file_wf v ip) (Hn : n < dstart) (Hnb : ~ is_bitmap S n).

Lemma meta_ptr p : ptr (fupd v n d) (i_addrs ip) p = ptr v (i_addrs ip) p.
Proof.
  unfold ptr. destruct (p <=? NDIRECT); [done|]. destruct (Z.eqb_spec (slot (i_addrs ip) NDIRECT) 0) as [|Hs]; [done|]. rewrite fupd_ne; [done|].
  intros He. destruct (fw_ptr _ _ _ Hw NDIRECT) as [Hr _]; rewrite ?ptr_slot in * by done; (done || lia).
Qed.

Lemma used_meta y : 0 <= y < sb_size S -> used S (fupd v n d) y = used S v y.
Proof. intros Hy. unfold used. rewrite fupd_ne; [done|]. intros He. apply Hnb. rewrite <- He. by apply (bblock_range Hly). Qed.

Lemma meta_wf : file_wf (fupd v n d) ip.
Proof.
  pose proof (ly_start Hly). destruct Hw as [W1 W2 W3 W4 W5 W6]. split; try done.
  - intros p Hp. rewrite meta_ptr. intros H0. rewrite used_meta; [by apply W4|]. pose proof (W4 p Hp H0). lia.
  - intros p q. rewrite !meta_ptr. apply W5.
  - intros bn. rewrite meta_ptr. apply W6.
Qed.

Lemma meta_byte k : 0 <= k < MAXFILE * BSIZE -> has v (i_addrs ip) (k / BSIZE) -> file_byte (fupd v n d) (i_addrs ip) k = file_byte v (i_addrs ip) k.
Proof.
  intros Hk Hh. rewrite !file_byte_ptr; [|lia|done|lia|unfold has; by rewrite meta_ptr]. rewrite meta_ptr, fupd_ne; [done|].
  destruct (pos_range _ (part_range k Hk)) as [Hp _]. destruct (fw_ptr _ _ _ Hw _ Hp Hh) as [Hr _]. lia.
Qed.

End meta.

(** The fields of an inode that a write may change fit in the inode on the disk. *)
Lemma addrs_fit v ip : file_wf v ip -> Forall (fun a => 0 <= a < 2 ^ 32) (i_addrs ip).
Proof.
  intros Hw. pose proof (ly_start Hly). pose proof (ly_data _ _ _ Hly). apply Forall_lookup. intros p a Hp. pose proof (lookup_lt_Some _ _ _ Hp) as Hlt. rewrite (fw_len _ _ _ Hw) in Hlt.
  assert (Ha : ptr v (i_addrs ip) (Z.of_nat p) = a).
  { rewrite ptr_slot by (unfold NDIRECT; lia). unfold slot, znth. destruct (Z.ltb_spec (Z.of_nat p) 0); [lia|]. by rewrite Nat2Z.id, Hp. }
  destruct (Z.eq_dec a 0) as [->|Hne]; [lia|]. destruct (fw_ptr _ _ _ Hw (Z.of_nat p)) as [Hr _]; [unfold NPTR; lia|by rewrite Ha|]. rewrite Ha in Hr. lia.
Qed.

End inodes.

(** ** The cost of a write *)

(** Turns of writei()'s loop that start at a block boundary, and may take a fresh
    block; and the one, if any, that does not. *)
Definition odd_turn (n o t : Z) : Z := if t <? n then b2z (negb (o mod BSIZE =? 0)) else 0.
Definition full_turns (n o t : Z) : Z := Z.of_nat (turns_left n o t) - odd_turn n o t.

(** Entries of the log for the data: a fresh block also needs its mark in the bitmap. *)
Definition wcost (n o t : Z) : Z := 2 * full_turns n o t + odd_turn n o t.

Lemma full_turns_nonneg n o t : 0 <= full_turns n o t.
Proof.
  unfold full_turns, odd_turn, turns_left, b2z, BSIZE. destruct (Z.ltb_spec t n); [|lia]. pose proof (Z.mod_pos_bound o 1024 ltac:(lia)).
  assert (1 <= (n - t + o mod 1024 + (1024 - 1)) / 1024) by (apply Z.div_le_lower_bound; lia). case_match; lia.
Qed.

Lemma wcost_nonneg n o t : 0 <= wcost n o t.
Proof. unfold wcost. pose proof (full_turns_nonneg n o t). unfold odd_turn, b2z in *. repeat case_match; lia. Qed.

(** One turn. *)
Lemma turn_cost n o t : 0 <= o -> t < n -> let m := Z.min (n - t) (BSIZE - o mod BSIZE) in
  odd_turn n (o + m) (t + m) = 0 /\
  (if o mod BSIZE =? 0 then odd_turn n o t = 0 /\ full_turns n (o + m) (t + m) + 1 <= full_turns n o t
   else odd_turn n o t = 1 /\ full_turns n (o + m) (t + m) <= full_turns n o t).
Proof.
  intros Ho Ht m. pose proof (turns_step n o t Ho Ht) as Hts. cbv zeta in Hts. fold m in Hts. assert (Hodd : odd_turn n (o + m) (t + m) = 0).
  { unfold odd_turn. destruct (Z.ltb_spec (t + m) n); [|done]. unfold m, BSIZE in *. pose proof (Z.mod_pos_bound o 1024 ltac:(lia)).
    rewrite Z.min_r by lia. pose proof (Z.div_mod o 1024 ltac:(lia)). replace (o + (1024 - o mod 1024)) with (0 + (o / 1024 + 1) * 1024) by lia.
    by rewrite Z.mod_add. }
  split; [done|]. unfold full_turns. rewrite Hodd. unfold odd_turn. destruct (Z.ltb_spec t n); [|lia].
  destruct (Z.eqb_spec (o mod BSIZE) 0); simpl; lia.
Qed.

(** A chunk of filewrite() fits in an operation: the log entries of the data, of the
    indirect block and of the inode are at most MAXOPBLOCKS. *)
Lemma chunk_cost off n : 0 <= off -> 0 <= n <= 3 * BSIZE -> wcost n off 0 + 2 + 1 <= MAXOPBLOCKS.
Proof.
  intros Ho Hn. unfold wcost, full_turns, odd_turn, turns_left, MAXOPBLOCKS, BSIZE in *. destruct (Z.ltb_spec 0 n); [|simpl; lia].
  pose proof (Z.mod_pos_bound off 1024 ltac:(lia)). destruct (Z.eqb_spec (off mod 1024) 0) as [->|Hne]; cbn [negb b2z].
  - assert ((n - 0 + 0 + (1024 - 1)) / 1024 < 4) by (apply Z.div_lt_upper_bound; lia). lia.
  - assert ((n - 0 + off mod 1024 + (1024 - 1)) / 1024 < 5) by (apply Z.div_lt_upper_bound; lia). lia.
Qed.

(** ** The loop *)

Section loop.
Context {E : Env} {D : DiskDriver} {DR : DiskReady} {L : DiskLaws} (pr : nat) (pid dev : Z) (Hdev : 0 < dev < 2 ^ 31).
Context (st : Z) (users : list Z) (disk0 : Z -> list Z) (writes0 : list (Z * list Z)).
Context (S : superblock) (dstart : Z) (Hly : layout st S dstart).
Notation txn := (txn pid dev st users disk0 writes0).
Notation file_wf := (file_wf (S := S) (dstart := dstart) dev).
Notation grown := (grown (S := S) (dstart := dstart) dev).

(** Block [n] is not of the file, and its contents matter. *)
Definition foreign (v : Z -> list Z) (ip : inode) (n : Z) : Prop :=
  ~ is_bitmap S n /\ (dstart <= n < sb_size S -> used S v n = true) /\ forall p, 0 <= p < NPTR -> ptr v (i_addrs ip) p <> n.

(** The first [t] bytes of [data] have been written to the file at [off]. *)
Record wrote (v0 : Z -> list Z) (ip0 : inode) (off : Z) (data : list Z) (t : Z) (v : Z -> list Z) (ip : inode) : Prop := {
  wt_same : ip = set_i_addrs (i_addrs ip) ip0;
  wt_wf : file_wf v ip;
  wt_has : forall bn, 0 <= bn -> bn * BSIZE < off + t -> has v (i_addrs ip) bn;
  wt_new : forall k, off <= k < off + t -> file_byte v (i_addrs ip) k = default 0 (znth data (k - off));
  wt_old : forall k, 0 <= k < i_size ip0 -> ~ (off <= k < off + t) -> file_byte v (i_addrs ip) k = file_byte v0 (i_addrs ip0) k;
  wt_used : forall y, 0 <= y < sb_size S -> used S v0 y = true -> used S v y = true;
  wt_fresh : forall p, 0 <= p < NPTR -> ptr v (i_addrs ip) p <> ptr v0 (i_addrs ip0) p ->
    dstart <= ptr v (i_addrs ip) p < sb_size S /\ used S v0 (ptr v (i_addrs ip) p) = false;
  wt_frame : forall n, foreign v0 ip0 n -> v n = v0 n
}.

Lemma wrote_init v ip off data : file_wf v ip -> 0 <= off <= i_size ip -> wrote v ip off data 0 v ip.
Proof.
  intros Hw Ho. split; try done; try lia; [by destruct ip|]. intros bn Hb Hs. apply (fw_full _ _ _ Hw); [done|lia].
Qed.

Lemma bn_range bn k : 0 <= bn -> bn * BSIZE < k -> k <= MAXFILE * BSIZE -> 0 <= bn < MAXFILE.
Proof. unfold MAXFILE, NINDIRECT, NDIRECT, BSIZE. change (1024 / 4) with 256. lia. Qed.

(** One turn of the loop, on the file. *)
Section turn.
Context (v0 : Z -> list Z) (ip0 : inode) (off : Z) (data : list Z) (t : Z) (v : Z -> list Z) (ip : inode) (Hwr : wrote v0 ip0 off data t v ip).
Context (v1 : Z -> list Z) (ip1 : inode) (Hg : grown v ip v1 ip1) (Hl1 : forall n, length (v1 n) = 1024%nat).
Context (m : Z) (Hoff : 0 <= off) (Ht : 0 <= t) (Hm : 0 < m <= BSIZE - (off + t) mod BSIZE) (Hdata : t + m <= Z.of_nat (length data)) (Hmax : off + t + m <= MAXFILE * BSIZE).
Let bn := (off + t) / BSIZE.
Let b := ptr v1 (i_addrs ip1) (pos bn).
Context (Hhas : has v1 (i_addrs ip1) bn).
Let bytes := take (Z.to_nat m) (drop (Z.to_nat t) data).
Let v' := fupd v1 b (splice (v1 b) (Z.to_nat ((off + t) mod BSIZE)) bytes).

Lemma turn_bn : 0 <= bn < MAXFILE /\ off + t = bn * BSIZE + (off + t) mod BSIZE /\ 0 <= (off + t) mod BSIZE /\ Z.of_nat (length bytes) = m.
Proof.
  pose proof (Z.div_mod (off + t) BSIZE ltac:(done)) as Hdm. pose proof (Z.mod_pos_bound (off + t) BSIZE ltac:(done)) as Hmod. fold bn in Hdm.
  split; [apply part_range; lia|]. split; [lia|]. split; [lia|]. unfold bytes. rewrite length_take, length_drop. lia.
Qed.

Lemma turn_ptr p : 0 <= p < NPTR -> ptr v' (i_addrs ip1) p = ptr v1 (i_addrs ip1) p.
Proof. apply (overwrite_ptr (S := S) (dstart := dstart) dev v1 ip1 bn); [apply Hg|apply turn_bn|done]. Qed.

Lemma turn_has bn' : 0 <= bn' -> bn' * BSIZE < off + (t + m) -> has v1 (i_addrs ip1) bn'.
Proof.
  intros Hb Hlt. destruct turn_bn as (Hbn & Heq & Hmod & _). destruct (Z_lt_le_dec (bn' * BSIZE) (off + t)) as [Hs|Hs].
  - eapply grown_has; [exact Hg|eapply bn_range; [done|exact Hlt|lia]|by apply (wt_has _ _ _ _ _ _ _ Hwr)].
  - assert (bn' = bn) as ->; [|done]. unfold BSIZE in *. lia.
Qed.

(** Every byte after the turn. *)
Lemma turn_byte k : 0 <= k < MAXFILE * BSIZE -> has v1 (i_addrs ip1) (k / BSIZE) ->
  file_byte v' (i_addrs ip1) k = if (off + t <=? k) && (k <? off + (t + m)) then default 0 (znth data (k - off)) else file_byte v1 (i_addrs ip1) k.
Proof.
  intros Hk Hh. destruct turn_bn as (Hbn & Heq & Hmod & Hlen). unfold v', b.
  rewrite (overwrite_byte dev v1 ip1 bn ((off + t) mod BSIZE) bytes k Hl1 (gr_wf _ _ _ _ _ Hg) Hbn Hhas); [|lia|lia|done|done].
  rewrite <- Heq, Hlen. replace (off + t + m) with (off + (t + m)) by lia. destruct (Z.leb_spec (off + t) k), (Z.ltb_spec k (off + (t + m))); try done. cbn [andb]. f_equal.
  unfold znth, bytes. destruct (Z.ltb_spec (k - (off + t)) 0), (Z.ltb_spec (k - off) 0); try lia. rewrite lookup_take_lt, lookup_drop by lia. f_equal. lia.
Qed.

Lemma wrote_turn : wrote v0 ip0 off data (t + m) v' ip1.
Proof.
  destruct turn_bn as (Hbn & Heq & Hmod & Hlen). destruct Hwr as [W1 W2 W3 W4 W5 W6 W7 W8]. pose proof (gr_wf _ _ _ _ _ Hg) as Hw1. pose proof (ly_start Hly) as Hst.
  assert (Hsz : i_size ip = i_size ip0) by (rewrite W1; done).
  assert (Hb : forall p, 0 <= p < NPTR -> ptr v1 (i_addrs ip1) p <> ptr v0 (i_addrs ip0) p ->
    dstart <= ptr v1 (i_addrs ip1) p < sb_size S /\ used S v0 (ptr v1 (i_addrs ip1) p) = false).
  { intros p Hp Hne. destruct (Z.eq_dec (ptr v1 (i_addrs ip1) p) (ptr v (i_addrs ip) p)) as [He|He]; [rewrite He in *; by apply W7|].
    destruct (gr_fresh _ _ _ _ _ Hg p Hp He) as [Hr Hf]. split; [done|]. apply not_true_iff_false. intros Hu. rewrite W6 in Hf; [done|lia|done]. }
  split.
  - rewrite (gr_same _ _ _ _ _ Hg), W1. done.
  - by apply (overwrite_wf Hly).
  - intros bn' H0 Hlt. unfold has. rewrite turn_ptr; [by apply turn_has|]. apply pos_range. eapply bn_range; [done|exact Hlt|lia].
  - intros k Hk. pose proof (Z.div_mod k BSIZE ltac:(done)). pose proof (Z.mod_pos_bound k BSIZE ltac:(done)). assert (Hk0 : 0 <= k / BSIZE) by (apply Z.div_pos; [lia|done]).
    rewrite turn_byte; [|lia|apply turn_has; lia]. destruct (Z.leb_spec (off + t) k), (Z.ltb_spec k (off + (t + m))); try lia; try done; cbn [andb].
    rewrite (grown_byte Hly dev v ip v1 ip1); [apply W4; lia|done|done|lia|apply W3; lia].
  - intros k Hk Hout. pose proof (fw_size _ _ _ W2) as Hs. rewrite Hsz in Hs. pose proof (Z.div_mod k BSIZE ltac:(done)). pose proof (Z.mod_pos_bound k BSIZE ltac:(done)).
    assert (Hh : has v (i_addrs ip) (k / BSIZE)) by (apply (fw_full _ _ _ W2); [apply Z.div_pos; [lia|done]|lia]).
    rewrite turn_byte; [|lia|eapply grown_has; [exact Hg|apply part_range; lia|done]].
    destruct (Z.leb_spec (off + t) k), (Z.ltb_spec k (off + (t + m))); try lia; cbn [andb];
      (rewrite (grown_byte Hly dev v ip v1 ip1); [apply W5; lia|done|done|lia|done]).
  - intros y Hy Hu. unfold v', b. rewrite (overwrite_used Hly dev) by done. apply (gr_used _ _ _ _ _ Hg); [done|by apply W6].
  - intros p Hp. rewrite turn_ptr by done. by apply Hb.
  - intros n (F1 & F2 & F3). unfold v'. assert (Hneb : n <> b).
    { intros ->. destruct (pos_range _ Hbn) as [Hp _]. destruct (fw_ptr _ _ _ Hw1 _ Hp Hhas) as [Hr _]. fold b in Hr.
      pose proof (F2 Hr) as Hu. destruct (Hb (pos bn) Hp) as [_ Hf]; [intros He; by apply (F3 _ Hp)|]. fold b in Hf. congruence. }
    rewrite fupd_ne by done. rewrite (gr_frame _ _ _ _ _ Hg); [by apply W8|done| |].
    + intros Hr. apply W6; [lia|by apply F2].
    + intros ->. rewrite <- (ptr_slot v) in F2, F3 by done. destruct (Z.eq_dec (ptr v (i_addrs ip) NDIRECT) (ptr v0 (i_addrs ip0) NDIRECT)) as [He|He].
      * apply (F3 NDIRECT); [done|]. by rewrite He.
      * destruct (W7 NDIRECT ltac:(done) He) as [Hr Hf]. rewrite F2 in Hf by done. done.
Qed.

End turn.

(** The second half of a turn: part of block [b] is overwritten. *)
Lemma txn_put k k' bs v G i n o t src bytes b (Q : _ -> fsstate -> Prop) : let m := Z.min (n - t) (BSIZE - o mod BSIZE) in
  txn k [] bs v G -> 0 <= k' <= k - 1 + cnt bs b -> i_dev (getI i G) = dev -> loggable st b -> 0 <= o -> t < n ->
  take (Z.to_nat m) src = bytes -> Z.of_nat (length bytes) = m ->
  (forall G', txn k' [] (log_add b bs) (fupd v b (splice (v b) (Z.to_nat (o mod BSIZE)) bytes)) G' -> kept G G' ->
     Q (inl (FromObj (drop (Z.to_nat m) src), u32 (o + m), u32 (t + m))) G') ->
  fsrun pr pid (ip <- geti i;; bp <- bread (i_dev ip) b;;
    let m := Z.min (n - t) (BSIZE - o mod BSIZE) in
    let* (r, bs) := either_copyin (FromObj src) m in
    set_bdata bp (fun d => splice d (Z.to_nat (o mod BSIZE)) bs);;
    if r =? -1 then brelse bp;; ret (inr (t, o))
    else log_write bp;; brelse bp;; ret (inl (source_add (FromObj src) m, u32 (o + m), u32 (t + m)))) G Q.
Proof.
  intros m Ht Hk Hd Hb Ho Htn Hsrc Hlen HQ. pose proof (cnt_01 bs b) as H01. pose proof (Z.mod_pos_bound o BSIZE ltac:(done)) as Hmod. unfold BSIZE in Hmod.
  eapply crun_bind, crun_geti. rewrite Hd. eapply crun_bind, (txn_bread pr pid dev Hdev); [exact Ht|done|apply not_elem_of_nil|simpl; lia|].
  intros bp G1 Ht1 Hs1. cbv zeta. fold m. eapply crun_bind. unfold either_copyin. eapply crun_bind, crun_kmyproc, crun_ret. change (0 =? -1) with false. cbv iota.
  rewrite Hsrc. eapply (txn_update pr pid dev Hdev st users disk0 writes0 k'); [eapply txn_weaken; [exact Ht1|lia]|lia|done| |].
  { rewrite splice_length; [by eapply txn_len|]. rewrite (txn_len pid dev st users disk0 writes0 _ _ _ _ _ b Ht). unfold m, BSIZE in *. lia. }
  intros G2 Ht2 Hk2. apply crun_ret. apply HQ; [exact Ht2|]. eapply kept_trans; [by apply same_rest_kept|done].
Qed.

Section writei.
Context (i : nat) (k c : Z) (Hk : 0 <= k) (Hc : 0 <= c) (bs0 : list Z) (v0 : Z -> list Z) (ip0 : inode) (off : Z) (data : list Z) (F0 : fsstate).
Let n := Z.of_nat (length data).
Context (HS : sb F0 = S) (Hi : (i < length (inodes F0))%nat) (Hoff : 0 <= off) (Hmax : off + n <= MAXFILE * BSIZE).

(** After [t] bytes: what may still be spent suffices for the rest. *)
Definition wst (t : Z) (G : fsstate) : Prop := exists v bs, let ip := getI i G in
  txn (k + icost bs (i_addrs ip) + wcost n (off + t) t) [] bs v G /\ (forall x, x ∈ bs0 -> x ∈ bs) /\ moved i F0 G /\
  wrote v0 ip0 off data t v ip /\ meta_used S dstart v /\ avail S v (c + bcost (i_addrs ip) + full_turns n (off + t) t).

Lemma avail_ext v v' j : avail S v j -> (forall y, 0 <= y < sb_size S -> used S v' y = used S v y) -> avail S v' j.
Proof. intros (l & H1 & H2 & H3) Hu. exists l. split_and!; [done|done|]. intros y Hy. destruct (H3 y Hy). by rewrite Hu. Qed.

(** A turn after bmap() has found or made the block [b]. *)
Lemma txn_turn_put t v ip K bs1 v1 G1 : let o := off + t in let m := Z.min (n - t) (BSIZE - o mod BSIZE) in let ip1 := getI i G1 in
  let b := ptr v1 (i_addrs ip1) (pos (o / BSIZE)) in
  0 <= t < n -> wrote v0 ip0 off data t v ip -> grown v ip v1 ip1 -> b <> 0 -> txn K [] bs1 v1 G1 -> moved i F0 G1 -> meta_used S dstart v1 ->
  (forall x, x ∈ bs0 -> x ∈ bs1) -> k + icost bs1 (i_addrs ip1) + wcost n (o + m) (t + m) <= K - 1 + cnt bs1 b ->
  avail S v1 (c + bcost (i_addrs ip1) + full_turns n (o + m) (t + m)) ->
  fsrun pr pid (ip <- geti i;; bp <- bread (i_dev ip) b;;
    let m := Z.min (n - t) (BSIZE - o mod BSIZE) in
    let* (r, bs) := either_copyin (FromObj (drop (Z.to_nat t) data)) m in
    set_bdata bp (fun d => splice d (Z.to_nat (o mod BSIZE)) bs);;
    if r =? -1 then brelse bp;; ret (inr (t, o))
    else log_write bp;; brelse bp;; ret (inl (source_add (FromObj (drop (Z.to_nat t) data)) m, u32 (o + m), u32 (t + m)))) G1
    (fun r G' => r = inl (FromObj (drop (Z.to_nat (t + m)) data), off + (t + m), t + m) /\ wst (t + m) G').
Proof.
  intros o m ip1 b Ht Hwr Hg Hb0 Ht1 Hmv Hmeta Hsub Hcost Hav. pose proof (gr_wf _ _ _ _ _ Hg) as Hw1.
  pose proof (Z.mod_pos_bound o BSIZE ltac:(done)) as Hmod. assert (Hm : 0 < m <= BSIZE - o mod BSIZE /\ m <= n - t) by (unfold m; lia).
  assert (HM : MAXFILE * BSIZE = 274432) by done. assert (Hbn : 0 <= o / BSIZE < MAXFILE) by (apply part_range; lia). destruct (pos_range _ Hbn) as [Hp _].
  pose proof (icost_mono bs1 (log_add b bs1) (i_addrs ip1) (i_addrs ip1) ltac:(intros; apply log_add_in; auto) eq_refl) as Hic.
  pose proof (icost_nonneg (log_add b bs1) (i_addrs ip1)). pose proof (wcost_nonneg n (o + m) (t + m)).
  eapply (txn_put K (k + icost (log_add b bs1) (i_addrs ip1) + wcost n (o + m) (t + m)) bs1 v1 G1 i n o t _ (take (Z.to_nat m) (drop (Z.to_nat t) data)) b);
    [done|lia|apply Hw1|by apply (ptr_loggable dev st S dstart Hly v1 ip1)|unfold o; lia|lia|done|rewrite length_take, length_drop; unfold m in *; lia|].
  intros G' Ht' Hk'. fold m. assert (HI : getI i G' = ip1) by (by apply kept_getI). split.
  - unfold u32. rewrite !Z.mod_small by lia. rewrite drop_drop, <- Z2Nat.inj_add by lia. unfold o. by rewrite Z.add_assoc.
  - exists (fupd v1 b (splice (v1 b) (Z.to_nat (o mod BSIZE)) (take (Z.to_nat m) (drop (Z.to_nat t) data)))), (log_add b bs1). cbv zeta. rewrite HI.
    replace (off + (t + m)) with (o + m) by (unfold o; lia). split; [exact Ht'|]. split; [intros x Hx; apply log_add_in; auto|].
    split; [eapply moved_trans; [exact Hmv|apply moved_kept; [by rewrite (moved_length _ _ _ Hmv)|done]]|].
    assert (Hused : forall y, 0 <= y < sb_size S -> used S (fupd v1 b (splice (v1 b) (Z.to_nat (o mod BSIZE)) (take (Z.to_nat m) (drop (Z.to_nat t) data)))) y = used S v1 y)
      by (intros y Hy; by apply (overwrite_used Hly dev)).
    split; [apply (wrote_turn v0 ip0 off data t v ip Hwr v1 ip1 Hg); [intros x; by eapply txn_len|done|lia|apply Hm|fold n; lia|unfold o in *; lia|exact Hb0]|].
    split; [|by eapply avail_ext]. intros y Hy. pose proof (ly_data _ _ _ Hly). rewrite Hused by lia. by apply Hmeta.
Qed.

Lemma txn_turn t G : wst t G -> 0 <= t < n -> let m := Z.min (n - t) (BSIZE - (off + t) mod BSIZE) in
  fsrun pr pid (writei_step i n (FromObj (drop (Z.to_nat t) data), off + t, t)) G
    (fun r G' => r = inl (FromObj (drop (Z.to_nat (t + m)) data), off + (t + m), t + m) /\ wst (t + m) G').
Proof.
  intros (v & bs & Ht & Hsub & Hmv & Hwr & Hmeta & Hav) Htn m. set (ip := getI i G) in *. set (o := off + t) in *. pose proof (wt_wf _ _ _ _ _ _ _ Hwr) as Hw.
  assert (HM : MAXFILE * BSIZE = 274432) by done. assert (Hbn : 0 <= o / BSIZE < MAXFILE) by (apply part_range; lia). pose proof (moved_length _ _ _ Hmv) as Hlen.
  unfold writei_step. destruct (Z.ltb_spec t n); [|lia]. destruct (turn_cost n o t ltac:(unfold o; lia) ltac:(lia)) as [Hodd Hcost]. fold m in Hodd, Hcost.
  pose proof (full_turns_nonneg n (o + m) (t + m)) as Hnn. pose proof (icost_nonneg bs (i_addrs ip)) as Hic. eapply crun_bind.
  destruct (Z.eq_dec (ptr v (i_addrs ip) (pos (o / BSIZE))) 0) as [Hz|Hnz].
  - assert (Hal : o mod BSIZE = 0).
    { destruct (Z.eq_dec (o mod BSIZE) 0) as [|Hne]; [done|]. exfalso. pose proof (Z.div_mod o BSIZE ltac:(done)). pose proof (Z.mod_pos_bound o BSIZE ltac:(done)).
      apply (wt_has _ _ _ _ _ _ _ Hwr (o / BSIZE)); [lia|unfold o in *; lia|done]. }
    rewrite Hal in Hcost. change (0 =? 0) with true in Hcost. destruct Hcost as [Hodd0 Hft].
    eapply (txn_bmap_fresh pr pid dev Hdev st users disk0 writes0 S dstart Hly (k + wcost n (o + m) (t + m)) bs v G i (o / BSIZE) _ (c + full_turns n (o + m) (t + m)));
      [|pose proof (wcost_nonneg n (o + m) (t + m)); lia|by destruct Hmv as (-> & _)|done|done|by rewrite Hlen|done|done| |lia|].
    + eapply txn_weaken; [exact Ht|]. fold ip. unfold wcost. lia.
    + eapply avail_weaken; [exact Hav|]. fold ip. lia.
    + intros b bs1 v1 G1 ip1 Ht1 Hmv1 Hg Hb Hb0 Hz1 Hin Hsub1 Hav1. destruct (Z.eqb_spec b 0); [done|]. rewrite <- Hb. subst b.
      eapply (txn_turn_put t v ip _ bs1 v1 G1); try done; [by eapply moved_trans|by eapply (grown_meta dev st S dstart Hly)|auto| |].
      * fold ip1 o m. rewrite cnt_in by done. lia.
      * eapply avail_weaken; [exact Hav1|]. fold ip1 o m. lia.
  - eapply (txn_bmap_mapped pr pid dev Hdev st users disk0 writes0 S dstart Hly); [exact Ht|done|done|done|]. intros G1 Ht1 Hk1. fold ip.
    destruct (Z.eqb_spec (ptr v (i_addrs ip) (pos (o / BSIZE))) 0); [done|]. assert (HI : getI i G1 = ip) by (by apply kept_getI).
    rewrite <- HI. eapply (txn_turn_put t v ip _ bs v G1); fold o m; rewrite ?HI; try done.
    + by apply grown_refl.
    + eapply moved_trans; [exact Hmv|]. apply moved_kept; [by rewrite Hlen|done].
    + pose proof (cnt_01 bs (ptr v (i_addrs ip) (pos (o / BSIZE)))). unfold wcost in *. destruct (o mod BSIZE =? 0); lia.
    + eapply avail_weaken; [exact Hav|]. destruct (o mod BSIZE =? 0); lia.
Qed.

(** The loop writes everything. *)
Lemma txn_write_loop (Q : Z * Z -> fsstate -> Prop) G : wst 0 G -> (forall G', wst n G' -> Q (n, off + n) G') ->
  fsrun pr pid (loop (Z.to_nat (n / BSIZE + 3)) (writei_step i n) (FromObj data, off, 0)) G Q.
Proof.
  intros H0 HQ. apply (crun_loop pr pid None (fun '(src, o, t) G => src = FromObj (drop (Z.to_nat t) data) /\ o = off + t /\ 0 <= t <= n /\ wst t G)
    (fun '(_, o, t) => turns_left n o t)).
  - intros [[src o] t] G1 (-> & -> & Ht & Hst). destruct (Z.eq_dec t n) as [->|Hne].
    + unfold writei_step. rewrite Z.ltb_irrefl. apply crun_ret. by apply HQ.
    + eapply crun_mono; [by apply txn_turn; [exact Hst|lia]|]. intros r G2 [-> Hst2]. cbv beta iota.
      pose proof (Z.mod_pos_bound (off + t) BSIZE ltac:(done)). split.
      * split_and!; try done; lia.
      * rewrite Z.add_assoc. apply turns_step; lia.
  - split_and!; try (done || lia).
  - cbv beta iota. apply turns_enough; lia.
Qed.

End writei.

(** iupdate() writes the inode to its block. *)
Lemma txn_iupdate k k' bs v F i (Q : unit -> fsstate -> Prop) : let ip := getI i F in let n := IBLOCK (i_inum ip) S in
  txn k [] bs v F -> 0 <= k' <= k - 1 + cnt bs n -> sb F = S -> i_dev ip = dev -> 0 <= i_inum ip < sb_ninodes S -> dinode_ok (dinode_of_inode ip) ->
  (forall F', txn k' [] (log_add n bs) (fupd v n (put_dinode (v n) (dinode_off (i_inum ip)) (dinode_of_inode ip))) F' -> kept F F' -> Q tt F') ->
  fsrun pr pid (iupdate i) F Q.
Proof.
  intros ip n Ht Hk HS Hd Hin Hdi HQ. unfold iupdate. eapply crun_bind, (crun_gets pr pid _ sb). rewrite HS. eapply crun_bind, crun_geti. fold ip n.
  destruct (iblock_loggable Hly _ Hin) as (Hl1 & Hl2 & Hl3). fold n in Hl1, Hl2, Hl3. rewrite Hd. pose proof (cnt_01 bs n).
  eapply crun_bind, (txn_bread pr pid dev Hdev); [exact Ht|done|apply not_elem_of_nil|simpl; lia|]. intros bp F1 Ht1 Hs1.
  eapply crun_bind, crun_geti. rewrite (same_getI i F F1 Hs1). fold ip. apply crun_assoc.
  eapply crun_bind, (txn_log pr pid dev Hdev st users disk0 writes0 k'); [eapply txn_weaken; [exact Ht1|lia]|lia|done| |].
  { destruct (put_dinode_spec (v n) (i_inum ip) (dinode_of_inode ip)) as [Hlen _]; [by eapply txn_len|lia|done|]. exact Hlen. }
  intros F2 Ht2 Hk2. eapply (txn_brelse pr pid dev Hdev); [exact Ht2|]. intros F3 Ht3 Hs3. apply HQ; [exact Ht3|].
  eapply kept_trans; [by apply same_rest_kept|]. eapply kept_trans; [done|by apply same_rest_kept].
Qed.

(** The file after writei(), its inode on the disk, and what did not change. *)
Record written (v0 : Z -> list Z) (ip0 : inode) (off : Z) (data : list Z) (v : Z -> list Z) (ip : inode) : Prop := {
  wn_inode : ip = set_i_size (Z.max (i_size ip0) (off + Z.of_nat (length data))) (set_i_addrs (i_addrs ip) ip0);
  wn_wf : file_wf v ip;
  wn_new : file_bytes v (i_addrs ip) off (Z.of_nat (length data)) = data;
  wn_old : forall k, 0 <= k < i_size ip0 -> ~ (off <= k < off + Z.of_nat (length data)) -> file_byte v (i_addrs ip) k = file_byte v0 (i_addrs ip0) k;
  wn_disk : disk_inode v S (i_inum ip0) = dinode_of_inode ip;
  wn_inodes : forall j, 0 <= j < sb_ninodes S -> j <> i_inum ip0 -> disk_inode v S j = disk_inode v0 S j;
  wn_used : forall y, 0 <= y < sb_size S -> used S v0 y = true -> used S v y = true;
  wn_frame : forall n, foreign v0 ip0 n -> n <> IBLOCK (i_inum ip0) S -> v n = v0 n
}.

Lemma written_byte v0 ip0 off data v ip x : written v0 ip0 off data v ip -> 0 <= x < Z.max (i_size ip0) (off + Z.of_nat (length data)) -> 0 <= off <= i_size ip0 ->
  file_byte v (i_addrs ip) x =
    if (off <=? x) && (x <? off + Z.of_nat (length data)) then default 0 (znth data (x - off)) else file_byte v0 (i_addrs ip0) x.
Proof.
  intros Hwn Hx Ho. destruct (Z.leb_spec off x), (Z.ltb_spec x (off + Z.of_nat (length data))); cbn [andb]; try (apply (wn_old _ _ _ _ _ _ Hwn); lia).
  pose proof (wn_new _ _ _ _ _ _ Hwn) as Hnew. unfold znth. destruct (Z.ltb_spec (x - off) 0); [lia|].
  rewrite <- Hnew at 1. rewrite file_bytes_lookup by lia. cbn [default from_option id]. f_equal. lia.
Qed.

Lemma meta_foreign v ip n : file_wf v ip -> 0 < n < dstart -> ~ is_bitmap S n -> foreign v ip n.
Proof.
  intros Hw Hn Hb. split_and!; [done|lia|]. intros p Hp He. destruct (fw_ptr _ _ _ Hw p Hp) as [Hr _]; lia.
Qed.

(** The file with its new size, before the inode is written. *)
Lemma wrote_sized v0 ip0 off data v ip : let n := Z.of_nat (length data) in let ip' := set_i_size (Z.max (i_size ip0) (off + n)) ip in
  wrote v0 ip0 off data n v ip -> 0 <= off -> off + n <= MAXFILE * BSIZE -> file_wf v ip'.
Proof.
  intros n ip' Hwr Ho Hmax. pose proof (wt_wf _ _ _ _ _ _ _ Hwr) as [W1 W2 W3 W4 W5 W6].
  assert (Hsz : i_size ip = i_size ip0) by (rewrite (wt_same _ _ _ _ _ _ _ Hwr); done). split; try done.
  - unfold ip'. cbn [i_size set_i_size]. lia.
  - intros bn Hb Hs. unfold ip' in Hs. cbn [i_size set_i_size] in Hs. destruct (Z_lt_le_dec (bn * BSIZE) (off + n)); [by apply (wt_has _ _ _ _ _ _ _ Hwr)|].
    apply W6; [done|]. lia.
Qed.

Lemma wrote_written v0 ip0 off data v ip : let n := Z.of_nat (length data) in let ip' := set_i_size (Z.max (i_size ip0) (off + n)) ip in
  let ib := IBLOCK (i_inum ip0) S in
  wrote v0 ip0 off data n v ip -> (forall x, length (v x) = 1024%nat) -> 0 <= off -> off + n <= MAXFILE * BSIZE -> 0 <= i_inum ip0 < sb_ninodes S ->
  file_wf v0 ip0 -> dinode_ok (dinode_of_inode ip') ->
  written v0 ip0 off data (fupd v ib (put_dinode (v ib) (dinode_off (i_inum ip0)) (dinode_of_inode ip'))) ip'.
Proof.
  intros n ip' ib Hwr Hl Ho Hmax Hin Hw0 Hdi. pose proof (wrote_sized v0 ip0 off data v ip Hwr Ho Hmax) as Hw'. fold n ip' in Hw'. pose proof (ly_start Hly) as Hst.
  destruct (iblock_loggable Hly _ Hin) as (_ & Hib & Hibb). fold ib in Hib, Hibb. pose proof (iblock_bounds Hly _ Hin) as Hir. fold ib in Hir.
  destruct (disk_inode_put Hly v (i_inum ip0) (dinode_of_inode ip') Hin (Hl ib) Hdi) as [Hd1 Hd2]. fold ib in Hd1, Hd2.
  pose proof (wt_wf _ _ _ _ _ _ _ Hwr) as Hw. assert (Hsz : i_size ip = i_size ip0) by (rewrite (wt_same _ _ _ _ _ _ _ Hwr); done).
  assert (Hbyte : forall k, 0 <= k < Z.max (i_size ip0) (off + n) ->
    file_byte (fupd v ib (put_dinode (v ib) (dinode_off (i_inum ip0)) (dinode_of_inode ip'))) (i_addrs ip) k = file_byte v (i_addrs ip) k).
  { intros k Hk. apply (meta_byte dev v ip ib _ Hw Hib); [pose proof (fw_size _ _ _ Hw'); cbn in *; lia|].
    pose proof (Z.div_mod k BSIZE ltac:(done)). pose proof (Z.mod_pos_bound k BSIZE ltac:(done)). apply (fw_full _ _ _ Hw' (k / BSIZE)); [apply Z.div_pos; [lia|done]|cbn; lia]. }
  split; fold n.
  - unfold ip'. rewrite (wt_same _ _ _ _ _ _ _ Hwr). done.
  - by apply (meta_wf Hly).
  - apply list_eq. intros k. change (i_addrs ip') with (i_addrs ip). destruct (decide (k < length data)%nat) as [Hk|Hk].
    + rewrite file_bytes_lookup by lia. rewrite Hbyte by lia. rewrite (wt_new _ _ _ _ _ _ _ Hwr) by lia. unfold znth.
      destruct (Z.ltb_spec (off + Z.of_nat k - off) 0); [lia|]. replace (Z.to_nat (off + Z.of_nat k - off)) with k by lia.
      by destruct (lookup_lt_is_Some_2 data k Hk) as [x ->].
    + rewrite !lookup_ge_None_2; [done|lia|rewrite file_bytes_length; lia].
  - intros k Hk Hout. change (i_addrs ip') with (i_addrs ip). rewrite Hbyte by lia. by apply (wt_old _ _ _ _ _ _ _ Hwr).
  - done.
  - intros j Hj Hne. rewrite Hd2 by done. pose proof (iblock_bounds Hly j Hj) as Hjr. destruct (iblock_loggable Hly _ Hj) as (_ & Hj1 & Hj2).
    unfold disk_inode. rewrite (wt_frame _ _ _ _ _ _ _ Hwr); [done|]. apply meta_foreign; [done|lia|done].
  - intros y Hy Hu. rewrite (used_meta Hly) by done. by apply (wt_used _ _ _ _ _ _ _ Hwr).
  - intros x Hx Hne. rewrite fupd_ne by done. by apply (wt_frame _ _ _ _ _ _ _ Hwr).
Qed.

(** writei() from a kernel object, with room in the log and on the disk. *)
Lemma txn_writei k c bs v F i off data (Q : Z -> fsstate -> Prop) : let ip := getI i F in let n := Z.of_nat (length data) in
  txn (k + 1 + icost bs (i_addrs ip) + wcost n off 0) [] bs v F -> 0 <= k -> 0 <= c -> sb F = S -> (i < length (inodes F))%nat ->
  file_wf v ip -> meta_used S dstart v -> 0 <= i_inum ip < sb_ninodes S -> dinode_ok (dinode_of_inode ip) ->
  0 <= off <= i_size ip -> off + n <= MAXFILE * BSIZE -> avail S v (c + bcost (i_addrs ip) + full_turns n off 0) ->
  (forall v' bs' F', txn k [] bs' v' F' -> IBLOCK (i_inum ip) S ∈ bs' -> (forall x, x ∈ bs -> x ∈ bs') -> moved i F F' ->
     written v ip off data v' (getI i F') -> meta_used S dstart v' -> avail S v' c -> Q n F') ->
  fsrun pr pid (writei i (FromObj data) off n) F Q.
Proof.
  intros ip n Ht Hk Hc HS Hi Hw Hmeta Hin Hdi Hoff Hmax Hav HQ. assert (HM : MAXFILE * BSIZE = 274432) by done. assert (Hn : 0 <= n) by (unfold n; lia).
  unfold writei. eapply crun_bind, crun_geti. fold ip. unfold u32. rewrite Z.mod_small by lia.
  destruct (Z.ltb_spec (i_size ip) off); [lia|]. destruct (Z.ltb_spec (off + n) off); [lia|]. cbn [orb].
  destruct (Z.ltb_spec (MAXFILE * BSIZE) (off + n)); [lia|]. eapply crun_bind.
  apply (txn_write_loop i (k + 1) c ltac:(lia) Hc bs v ip off data F HS Hi ltac:(lia) Hmax).
  { exists v, bs. cbv zeta. fold ip n. rewrite Z.add_0_r. split_and!; try done; [by apply moved_kept|by apply wrote_init]. }
  intros G (v1 & bs1 & Ht1 & Hsub & Hmv & Hwr & Hmeta1 & Hav1). fold n in Ht1, Hwr, Hav1 |- *. set (ip1 := getI i G) in *.
  eapply crun_bind, crun_geti. fold ip1. assert (Hsz : i_size ip1 = i_size ip) by (rewrite (wt_same _ _ _ _ _ _ _ Hwr); done).
  set (ip2 := set_i_size (Z.max (i_size ip) (off + n)) ip1). pose proof (moved_length _ _ _ Hmv) as Hlen.
  pose proof (wrote_sized v ip off data v1 ip1 Hwr ltac:(lia) Hmax) as Hw2. fold n ip2 in Hw2. 
  assert (Hdi2 : dinode_ok (dinode_of_inode ip2)).
  { assert (Hd1 : dinode_of_inode ip2 = mkdinode (i_type ip) (i_major ip) (i_minor ip) (i_nlink ip) (i_size ip2) (i_addrs ip2)) by (unfold ip2; rewrite (wt_same _ _ _ _ _ _ _ Hwr); done).
    rewrite Hd1. destruct Hdi as (? & ? & ? & ? & _ & _). unfold dinode_ok. split_and!; try done; [|by eapply (addrs_fit Hly)|apply Hw2].
    pose proof (fw_size _ _ _ Hw2). unfold is_uint. cbn [di_size]. lia. }
  assert (Hstep : forall G2, txn (k + 1) [] bs1 v1 G2 -> moved i G G2 -> getI i G2 = ip2 -> fsrun pr pid (iupdate i;; ret (i32 n)) G2 Q).
  { intros G2 Ht2 Hmv2 HI. assert (Hinum : i_inum ip2 = i_inum ip /\ i_dev ip2 = dev) by (unfold ip2; rewrite (wt_same _ _ _ _ _ _ _ Hwr); split; [done|apply Hw]).
    destruct Hinum as [Hinum Hd2]. pose proof (cnt_01 bs1 (IBLOCK (i_inum ip) S)).
    eapply crun_bind, (txn_iupdate (k + 1) k bs1 v1 G2 i); rewrite ?HI, ?Hinum; try done; [lia|by destruct Hmv2 as (-> & _), Hmv as (-> & _)|].
    intros F' Ht' Hk'. apply crun_ret. rewrite i32_id by lia. assert (HI' : getI i F' = ip2) by (by rewrite (kept_getI i G2 F' Hk')).
    pose proof (moved_length _ _ _ Hmv2) as Hlen2. pose proof (iblock_loggable Hly _ Hin) as (_ & Hib & Hibb).
    eapply HQ; [exact Ht'|apply log_add_in; by left|intros x Hx; apply log_add_in; auto| | | |].
    - eapply moved_trans; [exact Hmv|]. eapply moved_trans; [exact Hmv2|]. apply moved_kept; [lia|done].
    - rewrite HI'. apply wrote_written; try (done || lia). intros x. by eapply txn_len.
    - intros y Hy. pose proof (ly_data _ _ _ Hly). rewrite (used_meta Hly) by (done || lia). by apply Hmeta1.
    - eapply avail_ext; [eapply avail_weaken; [exact Hav1|]|intros y Hy; by apply (used_meta Hly)].
      pose proof (bcost_nonneg (i_addrs ip1)). pose proof (full_turns_nonneg n (off + n) n). lia. }
  assert (Ht1' : txn (k + 1) [] bs1 v1 G).
  { eapply txn_weaken; [exact Ht1|]. pose proof (icost_nonneg bs1 (i_addrs ip1)). pose proof (wcost_nonneg n (off + n) n). lia. }
  destruct (Z.ltb_spec (i_size ip1) (off + n)) as [Hlt|Hge]; cbn [when].
  - eapply crun_bind, (crun_modify pr pid _ (updI i (set_i_size (off + n)))). destruct (moved_upd i (set_i_size (off + n)) G ltac:(lia)) as [Hm2 HI2].
    apply Hstep; [by apply txn_updI|done|]. rewrite HI2. fold ip1. unfold ip2. by rewrite Z.max_r by lia.
  - eapply crun_bind, crun_ret. apply Hstep; [done|by apply moved_kept; [lia|]|]. fold ip1. unfold ip2. rewrite Z.max_l, <- Hsz by lia. by destruct ip1.
Qed.

End loop.

(** ** Operations *)

Section theorems.
Context {E : Env} {D : DiskDriver} {DR : DiskReady} {L : DiskLaws} (pr : nat) (pid dev : Z) (Hdev : 0 < dev < 2 ^ 31) (st : Z) (users : list Z).
Context (S : superblock) (dstart : Z) (Hly : layout st S dstart).
Notation quiet := (quiet pid dev st users).
Notation file_wf := (file_wf (S := S) (dstart := dstart) dev).

(** An operation that writes a chunk of a locked inode, as filewrite() and the
    directory operations do it. *)
Definition write_chunk (i : nat) (data : list Z) (off : Z) : K Z :=
  begin_op;;
  r <- writei i (FromObj data) off (Z.of_nat (length data));;
  end_op;;
  ret r.

(** A file is readable when its blocks are free to use. *)
Definition data_ready (v : Z -> list Z) (a : absview) : Prop := forall n, dstart <= n < sb_size S -> usable a n /\ av a n = v n.

Lemma quiet_ready v a F : quiet v a F -> data_ready v a.
Proof.
  intros Hq n Hn. pose proof (ly_start Hly). pose proof (ly_data _ _ _ Hly). destruct (loggable_meta Hly n ltac:(lia)) as [_ Hnl].
  split; [|by apply (qu_view _ _ _ _ _ _ _ Hq)]. split; [lia|]. split; [apply (qu_locks _ _ _ _ _ _ _ Hq)|]. pose proof (qu_refs _ _ _ _ _ _ _ Hq n). lia.
Qed.

Lemma txn_ready disk0 writes0 k bs v a F : txn_abs pid dev st users disk0 writes0 k [] bs a F -> (forall n, av a n = v n) -> data_ready v a.
Proof.
  intros Ht Hv n Hn. pose proof (ly_start Hly). pose proof (ly_data _ _ _ Hly). split; [|done]. split; [lia|].
  split; [by rewrite (tn_locks _ _ _ _ _ _ _ _ _ _ _ Ht)|]. pose proof (tn_refs _ _ _ _ _ _ _ _ _ _ _ Ht n). pose proof (cnt_01 bs n). rewrite (cnt_out ([].*2)) in * by apply not_elem_of_nil. lia.
Qed.

Lemma ready_file_ok v a ip : data_ready v a -> file_wf v ip -> file_ok dev a ip.
Proof.
  intros Hdata Hw. assert (Hind : slot (i_addrs ip) NDIRECT <> 0 -> dstart <= slot (i_addrs ip) NDIRECT < sb_size S).
  { intros Hz. destruct (fw_ptr _ _ _ Hw NDIRECT) as [Hr _]; rewrite ?ptr_slot in * by done; done. }
  split; [apply Hw|apply Hw|]. intros bn Hb Hs. pose proof (fw_full _ _ _ Hw bn Hb Hs) as Hp0. pose proof (fw_size _ _ _ Hw).
  assert (Hbn : 0 <= bn < MAXFILE) by (eapply bn_range; [done|exact Hs|lia]). destruct (pos_range bn Hbn) as [Hp Hpn].
  assert (Hblk : block_of (av a) (i_addrs ip) bn = ptr v (i_addrs ip) (pos bn)).
  { rewrite <- (block_of_ptr v) by done. unfold block_of. destruct (Z.ltb_spec bn NDIRECT); [done|]. f_equal. apply Hdata, Hind. intros Hz. apply Hp0. apply ptr_none; [|done].
    unfold pos. destruct (Z.ltb_spec bn NDIRECT); lia. }
  unfold mapped. rewrite Hblk. split; [done|]. split; [apply Hdata; by apply (fw_ptr _ _ _ Hw)|]. intros Hge.
  assert (Hz : slot (i_addrs ip) NDIRECT <> 0) by (intros Hz; apply Hp0; apply ptr_none; [unfold pos; destruct (Z.ltb_spec bn NDIRECT); lia|done]).
  split; [done|]. apply Hdata. by apply Hind.
Qed.

Lemma ready_byte v a ip k : data_ready v a -> file_wf v ip -> 0 <= k < i_size ip -> file_byte (av a) (i_addrs ip) k = file_byte v (i_addrs ip) k.
Proof.
  intros Hrd Hw Hk. pose proof (fw_size _ _ _ Hw). pose proof (Z.div_mod k BSIZE ltac:(done)). pose proof (Z.mod_pos_bound k BSIZE ltac:(done)).
  assert (Hh : has v (i_addrs ip) (k / BSIZE)) by (apply (fw_full _ _ _ Hw); [apply Z.div_pos; [lia|done]|lia]).
  assert (Hdata : forall p, 0 <= p < NPTR -> ptr v (i_addrs ip) p <> 0 -> av a (ptr v (i_addrs ip) p) = v (ptr v (i_addrs ip) p)).
  { intros p Hp Hp0. destruct (fw_ptr _ _ _ Hw p Hp Hp0) as [Hr _]. by apply Hrd. }
  assert (Hptr : forall p, ptr (av a) (i_addrs ip) p = ptr v (i_addrs ip) p).
  { intros p. unfold ptr. destruct (p <=? NDIRECT); [done|]. destruct (Z.eqb_spec (slot (i_addrs ip) NDIRECT) 0) as [|Hs]; [done|].
    pose proof (Hdata NDIRECT) as Hd. rewrite ptr_slot in Hd by done. by rewrite Hd. }
  destruct (pos_range _ (part_range k ltac:(lia))) as [Hp _]. rewrite !file_byte_ptr; [|lia|done|lia|unfold has; by rewrite Hptr]. by rewrite Hptr, Hdata.
Qed.

Lemma ready_bytes v a ip off n : data_ready v a -> file_wf v ip -> 0 <= off -> off + n <= i_size ip ->
  file_bytes (av a) (i_addrs ip) off n = file_bytes v (i_addrs ip) off n.
Proof. intros Hrd Hw Ho Hn. apply file_bytes_ext. intros k Hk. apply ready_byte; (done || lia). Qed.

Lemma fsrun_write_chunk a F i off data (Q : Z -> fsstate -> Prop) : let ip := getI i F in let n := Z.of_nat (length data) in
  quiet (av a) a F -> sb F = S -> (i < length (inodes F))%nat -> file_wf (av a) ip -> meta_used S dstart (av a) ->
  0 <= i_inum ip < sb_ninodes S -> dinode_ok (dinode_of_inode ip) ->
  0 <= off <= i_size ip -> n <= 3 * BSIZE -> off + n <= MAXFILE * BSIZE -> avail S (av a) (bcost (i_addrs ip) + full_turns n off 0) ->
  (forall v' a' F', quiet v' a' F' -> written dev S dstart (av a) ip off data v' (getI i F') -> meta_used S dstart v' -> sb F' = sb F ->
     inodes F' = <[i := getI i F']> (inodes F) -> files F' = files F -> pipes F' = pipes F -> Q n F') ->
  fsrun pr pid (write_chunk i data off) F Q.
Proof.
  intros ip n Hq HS Hi Hw Hmeta Hin Hdi Hoff Hn Hmax Hav HQ. unfold write_chunk. pose proof Hq as [_ _ _ Hsz Hus _ _ _ _ _ _ _].
  pose proof (chunk_cost off n ltac:(lia) ltac:(unfold n; lia)) as Hcost. pose proof (icost_nonneg [] (i_addrs ip)) as Hic. pose proof (wcost_nonneg n off 0) as Hwn.
  eapply crun_bind, (quiet_begin pr pid dev Hdev st users); [exact Hq|]. intros F1 Ht1 Ho1 Hc1 Hs1 H1 H2 H3 H4.
  assert (HI1 : getI i F1 = ip) by (unfold getI; by rewrite H2).
  eapply crun_bind, (txn_writei pr pid dev Hdev st users (ad a) (aw a) S dstart Hly 0 0 [] (av a) F1 i off data); rewrite ?HI1; try (done || lia).
  - eapply txn_weaken; [exact Ht1|]. fold n. lia.
  - by rewrite H1.
  - by rewrite H2.
  - intros v' bs' F2 Ht2 Hin2 _ Hmv Hwn2 Hmeta2 _. pose proof Hmv as (M1 & M2 & M3 & M4 & (_ & M5 & M6 & M7 & _)).
    eapply crun_bind, (txn_end pr pid dev Hdev st users); [exact Ht2|by intros ->; apply not_elem_of_nil in Hin2|by rewrite M6|by rewrite M7| |done|].
    { by rewrite M5, Hs1. }
    intros a' F3 Hq3 E1 E2 E3 E4. apply crun_ret. assert (HI3 : getI i F3 = getI i F2) by (unfold getI; by rewrite E2).
    apply (HQ v' a' F3); rewrite ?HI3; try done; congruence.
Qed.

(** C10. A write of at most three blocks from a kernel object to a well-formed file, with
    as many blocks free as it may need, begin_op(), writei() and end_op(), needs at most MAXOPBLOCKS entries of the log, returns the number of
    bytes, and is durable: the file on the disk, in the new state, has the new bytes
    at the offset and the old ones elsewhere, the inode on the disk has the new size
    and block addresses, fresh blocks were free before, and no other inode and no
    block in use outside the file has changed.  No pointer of the file is shared and
    every block it points to is marked in use. *)
Theorem writei_durable a i off data c0 s : let ip := getI i (k_fs s) in let n := Z.of_nat (length data) in
  running pr pid None c0 s -> quiet (av a) a (k_fs s) -> sb (k_fs s) = S -> (i < length (inodes (k_fs s)))%nat ->
  file_wf (av a) ip -> meta_used S dstart (av a) -> 0 <= i_inum ip < sb_ninodes S -> dinode_ok (dinode_of_inode ip) ->
  0 <= off <= i_size ip -> n <= 3 * BSIZE -> off + n <= MAXFILE * BSIZE -> avail S (av a) (bcost (i_addrs ip) + full_turns n off 0) ->
  wp (write_chunk i data off) (fun r s' => r = n /\ running pr pid None c0 s' /\
    exists v' a', quiet v' a' (k_fs s') /\ written dev S dstart (av a) ip off data v' (getI i (k_fs s')) /\ meta_used S dstart v' /\
      inodes (k_fs s') = <[i := getI i (k_fs s')]> (inodes (k_fs s))) s.
Proof.
  intros ip n Hrun Hq HS Hi Hw Hmeta Hin Hdi Hoff Hn Hmax Hav. eapply wp_mono.
  - apply (fsrun_write_chunk a (k_fs s) i off data (fun r F' => r = n /\ exists v' a', quiet v' a' F' /\ written dev S dstart (av a) ip off data v' (getI i F') /\
      meta_used S dstart v' /\ inodes F' = <[i := getI i F']> (inodes (k_fs s)))) with (c0 := c0); try done.
    intros v' a' F' H1 H2 H3 _ H4 _ _. split; [done|]. by exists v', a'.
  - intros r s' ((H1 & H2) & H3 & _). done.
Qed.

(** C11. What was written is read back: readi() after such an operation, over the whole
    range or any part of the file, returns the new bytes where they were written and
    the old bytes elsewhere. *)
Theorem write_then_read a i off data o m c0 s : let ip := getI i (k_fs s) in let n := Z.of_nat (length data) in
  running pr pid None c0 s -> quiet (av a) a (k_fs s) -> sb (k_fs s) = S -> (i < length (inodes (k_fs s)))%nat ->
  file_wf (av a) ip -> meta_used S dstart (av a) -> 0 <= i_inum ip < sb_ninodes S -> dinode_ok (dinode_of_inode ip) ->
  0 <= off <= i_size ip -> n <= 3 * BSIZE -> off + n <= MAXFILE * BSIZE -> avail S (av a) (bcost (i_addrs ip) + full_turns n off 0) ->
  0 <= o -> 0 <= m -> o + m <= Z.max (i_size ip) (off + n) ->
  wp (write_chunk i data off;; readi i ToObj o m) (fun r s' => running pr pid None c0 s' /\ fst r = m /\ length (snd r) = Z.to_nat m /\
    forall k, (k < Z.to_nat m)%nat -> snd r !! k = Some (let x := o + Z.of_nat k in
      if (off <=? x) && (x <? off + n) then default 0 (znth data (x - off)) else file_byte (av a) (i_addrs ip) x)) s.
Proof.
  intros ip n Hrun Hq HS Hi Hw Hmeta Hin Hdi Hoff Hn Hmax Hav Ho Hm Hom.
  set (R := fun (r : Z * list Z) => fst r = m /\ length (snd r) = Z.to_nat m /\ forall k, (k < Z.to_nat m)%nat -> snd r !! k = Some (let x := o + Z.of_nat k in
      if (off <=? x) && (x <? off + n) then default 0 (znth data (x - off)) else file_byte (av a) (i_addrs ip) x)).
  eapply wp_mono.
  - apply (crun_bind pr pid None None None (write_chunk i data off) (fun _ => readi i ToObj o m) (k_fs s) (fun r _ => R r)) with (c0 := c0); [|done|done].
    eapply (fsrun_write_chunk a (k_fs s) i off data); try done.
    intros v' a' F' Hq' Hwn Hmeta' _ _ _ _. pose proof (wn_wf _ _ _ _ _ _ _ _ _ Hwn) as Hw'. set (ip' := getI i F') in *.
    assert (Hsz : i_size ip' = Z.max (i_size ip) (off + n)) by (rewrite (wn_inode _ _ _ _ _ _ _ _ _ Hwn); done).
    assert (HM : MAXFILE * BSIZE = 274432) by done. pose proof (fw_size _ _ _ Hw) as Hs0.
    pose proof (busy_le pid dev Hdev users a' F' (qu_cached _ _ _ _ _ _ _ Hq') (qu_users _ _ _ _ _ _ _ Hq')) as Hbusy.
    pose proof (qu_bufs _ _ _ _ _ _ _ Hq') as Hroom. unfold MAXOPBLOCKS in Hroom.
    apply (fsrun_readi pr pid dev Hdev a' F' i o m); fold ip'; [apply Hq'|by eapply ready_file_ok; [eapply quiet_ready|]|lia|lia|done|lia|].
    intros F2 _ _. cbv zeta. rewrite Z.min_l by lia. unfold R. cbn [fst snd]. split_and!; [done|by rewrite file_bytes_length|]. intros k Hk.
    rewrite (ready_bytes v' a'); [|by eapply quiet_ready|done|done|lia]. rewrite file_bytes_lookup by done. f_equal. apply (written_byte dev S dstart (av a) ip off data v' ip' _ Hwn); [fold n; lia|exact Hoff].
  - intros r s' (HR & Hr & _). done.
Qed.

End theorems.
