(* ===== verification/FsDir.v ===== *)
(** * Directory entries (kernel/fs.c)

    dirlink() inside a transaction: the directory afterwards has the new entry, and
    every other name leads where it led before. *)

From S2P Require Import Prelude Riscv Kstate CString Bytes Spinlock Kalloc Vm Sched SchedSpec Uart Sleeplock.
From S2P Require Import Bio FsRun BioSpec Log LogSpec LogOps FsTxn Fs FsSpec FsImage FsAlloc File Tables FsRead FsFile FsWrite.

(** ** Entries as a search over offsets *)

Section entries.
Context (v : Z -> list Z) (addrs : list Z).

Definition names (name : list Z) (off : Z) : bool :=
  negb (de_inum (dirent_at v addrs off) =? 0) && bool_decide (cstr (de_name (dirent_at v addrs off)) = take DIRSIZ (cstr name)).

Definition entry_of (off : Z) : Z * (Z * list Z) := (off, (de_inum (dirent_at v addrs off), cstr (de_name (dirent_at v addrs off)))).

Lemma dir_find_offs name size : dir_find name (dir_entries v addrs size) = entry_of <$> List.find (names name) (dir_offs size).
Proof.
  unfold dir_find, dir_entries, names. induction (dir_offs size) as [|off offs IH]; [done|]. cbn [map List.filter List.find fst snd].
  destruct (de_inum (dirent_at v addrs off) =? 0); cbn [negb andb]; [done|]. cbn [List.find fst snd]. by case_bool_decide.
Qed.

End entries.

Lemma find_ext {A} (p q : A -> bool) l : (forall x, x ∈ l -> p x = q x) -> List.find p l = List.find q l.
Proof. intros H. induction l as [|x l IH]; [done|]. simpl. rewrite H by left. case_match; [done|]. apply IH. intros y Hy. apply H. by right. Qed.

Lemma find_snoc {A} (p : A -> bool) l x : List.find p (l ++ [x]) = match List.find p l with Some y => Some y | None => if p x then Some x else None end.
Proof. induction l as [|y l IH]; simpl; [done|]. destruct (p y); done. Qed.

Lemma dir_offs_next size : 0 <= size -> size mod sizeof_dirent = 0 -> dir_offs (size + sizeof_dirent) = dir_offs size ++ [size].
Proof.
  unfold dir_offs, sizeof_dirent. intros Hs Hm. pose proof (Z.div_mod size 16 ltac:(lia)) as Hd. rewrite Hm in Hd.
  replace ((size + 16 + 16 - 1) / 16) with (size / 16 + 1) by (apply (Z.div_unique _ _ _ 15); lia).
  replace ((size + 16 - 1) / 16) with (size / 16) by (apply (Z.div_unique _ _ _ 15); lia).
  pose proof (Z.div_pos size 16 ltac:(lia) ltac:(lia)). rewrite Z2Nat.inj_add, seq_app, map_app by lia. f_equal. change (Z.to_nat 1) with 1%nat. cbn [seq map]. f_equal. lia.
Qed.

Lemma dir_offs_length size : 0 <= size -> size mod sizeof_dirent = 0 -> Z.of_nat (length (dir_offs size)) * sizeof_dirent = size.
Proof.
  unfold dir_offs, sizeof_dirent. intros Hs Hm. rewrite length_map, length_seq. pose proof (Z.div_mod size 16 ltac:(lia)) as Hd. rewrite Hm in Hd.
  replace ((size + 16 - 1) / 16) with (size / 16) by (apply (Z.div_unique _ _ _ 15); lia). pose proof (Z.div_pos size 16 ltac:(lia) ltac:(lia)). lia.
Qed.

Lemma dir_offs_NoDup size : NoDup (dir_offs size).
Proof. apply NoDup_fmap_2; [|apply NoDup_seq]. intros x y. unfold sizeof_dirent. lia. Qed.

Lemma dir_offs_mult size off : off ∈ dir_offs size -> off mod sizeof_dirent = 0.
Proof. intros Hin. apply list_elem_of_fmap in Hin as (k & -> & _). by apply Z.mod_mul. Qed.

(** ** A new entry *)

(** The directory [v', addrs', size'] is [v, addrs, size] with an entry written at
    [off], which was free or at the end. *)
Section added.
Context (v v' : Z -> list Z) (addrs addrs' : list Z) (size off inum : Z) (name : list Z).
Context (Hsize : 0 <= size) (Hmod : size mod sizeof_dirent = 0) (Hinum : 0 < inum < 2 ^ 16).
Context (Hnew : dirent_at v' addrs' off = mk_dirent inum name).
Context (Hold : forall o, o ∈ dir_offs size -> o <> off -> dirent_at v' addrs' o = dirent_at v addrs o).
Context (Hfree : off = size \/ off ∈ dir_offs size /\ de_inum (dirent_at v addrs off) = 0).
Let size' := Z.max size (off + sizeof_dirent).

Lemma new_name key : names v' addrs' key off = bool_decide (take DIRSIZ (cstr name) = take DIRSIZ (cstr key)).
Proof.
  unfold names. rewrite Hnew. unfold mk_dirent, de_inum, de_name, rd, slice. change (Z.to_nat 0) with 0%nat.
  rewrite (dec_field 2 inum [] (strncpy_l DIRSIZ name)), Z.mod_small by (done || (simpl; lia)). destruct (Z.eqb_spec inum 0); [lia|]. cbn [negb andb].
  rewrite drop_app_length' by done. rewrite take_ge by (by rewrite strncpy_l_length). by rewrite cstr_strncpy.
Qed.

Lemma old_name key : names v addrs key off = false \/ off = size.
Proof. destruct Hfree as [->|[_ H0]]; [by right|left]. unfold names. by rewrite H0. Qed.

(** The offsets of the new directory. *)
Lemma added_offs : dir_offs size' = dir_offs size /\ off ∈ dir_offs size \/ dir_offs size' = dir_offs size ++ [off] /\ off = size /\ off ∉ dir_offs size.
Proof.
  unfold size', sizeof_dirent. destruct Hfree as [->|[Hin _]].
  - right. rewrite Z.max_r by lia. split; [by apply dir_offs_next|]. split; [done|]. intros Hin. apply dir_offs_in in Hin; [|done|done]. unfold sizeof_dirent in Hin. lia.
  - left. pose proof (dir_offs_in size off Hsize Hmod Hin) as [H1 H2]. unfold sizeof_dirent in H2. by rewrite Z.max_l by lia.
Qed.

(** The names of the other offsets are as before. *)
Lemma added_names key o : o ∈ dir_offs size -> o <> off -> names v' addrs' key o = names v addrs key o.
Proof. intros Hin Hne. unfold names. by rewrite Hold. Qed.

(** A name that was not there leads to the new entry. *)
Lemma added_new : dir_find name (dir_entries v addrs size) = None ->
  dir_find name (dir_entries v' addrs' size') = Some (off, (inum, take DIRSIZ (cstr name))).
Proof.
  rewrite !dir_find_offs. intros Hnone. apply fmap_None in Hnone. assert (Hno : forall o, o ∈ dir_offs size -> names v addrs name o = false).
  { intros o Ho. apply list_elem_of_In in Ho. by apply (List.find_none _ _ Hnone). }
  assert (Hoff : names v' addrs' name off = true) by (rewrite new_name; by apply bool_decide_eq_true_2).
  assert (Hfind : List.find (names v' addrs' name) (dir_offs size') = Some off).
  { destruct added_offs as [[-> Hin]|[-> [He Hout]]].
    - apply list_elem_of_split in Hin as (l1 & l2 & Hl). rewrite Hl.
      assert (Hnd : NoDup (l1 ++ off :: l2)) by (rewrite <- Hl; apply dir_offs_NoDup). apply NoDup_app in Hnd as (_ & Hd & _).
      apply find_app; [|done]. intros y Hy. rewrite added_names; [apply Hno| |]; try (rewrite Hl; apply elem_of_app; by left).
      intros ->. apply (Hd off Hy). by left.
    - rewrite find_snoc, Hoff, (find_none _ (dir_offs size)); [done|]. intros y Hy. rewrite added_names; [by apply Hno|done|]. intros ->. done. }
  rewrite Hfind. cbn [fmap option_fmap option_map]. unfold entry_of. rewrite Hnew. unfold mk_dirent, de_inum, de_name, rd, slice. change (Z.to_nat 0) with 0%nat.
  rewrite (dec_field 2 inum [] (strncpy_l DIRSIZ name)), Z.mod_small by (done || (simpl; lia)).
  rewrite drop_app_length' by done. rewrite take_ge by (by rewrite strncpy_l_length). by rewrite cstr_strncpy.
Qed.

(** Any other name leads where it led before. *)
Lemma added_other key : take DIRSIZ (cstr key) <> take DIRSIZ (cstr name) ->
  dir_find key (dir_entries v' addrs' size') = dir_find key (dir_entries v addrs size).
Proof.
  intros Hne. rewrite !dir_find_offs. assert (Hoff : names v' addrs' key off = false) by (rewrite new_name; apply bool_decide_eq_false_2; congruence).
  assert (Heq : forall o, o ∈ dir_offs size -> names v' addrs' key o = names v addrs key o).
  { intros o Ho. destruct (decide (o = off)) as [->|]; [|by apply added_names]. rewrite Hoff. destruct (old_name key) as [->|He]; [done|].
    subst off. apply dir_offs_in in Ho; [|done|done]. unfold sizeof_dirent in Ho. lia. }
  assert (Hfind : List.find (names v' addrs' key) (dir_offs size') = List.find (names v addrs key) (dir_offs size)).
  { destruct added_offs as [[-> _]|[-> _]]; [by apply find_ext|]. rewrite find_snoc, Hoff, (find_ext _ (names v addrs key)) by done. by case_match. }
  rewrite Hfind. destruct (List.find (names v addrs key) (dir_offs size)) as [o|] eqn:Ho; [|done]. simpl. f_equal. apply List.find_some in Ho as [Ho Hn].
  apply list_elem_of_In in Ho. unfold entry_of. rewrite Hold; [done|done|]. intros ->. destruct (old_name key) as [Hf|He]; [congruence|].
  subst off. apply dir_offs_in in Ho; [|done|done]. unfold sizeof_dirent in Ho. lia.
Qed.

End added.

(** ** dirlink() *)

(** The entry that dirlink() uses: the first free one, or a new one at the end. *)
Definition free_entry (v : Z -> list Z) (addrs : list Z) (size : Z) : Z :=
  default size (List.find (fun off => de_inum (dirent_at v addrs off) =? 0) (dir_offs size)).

Lemma free_entry_spec v addrs size : let off := free_entry v addrs size in off = size \/ off ∈ dir_offs size /\ de_inum (dirent_at v addrs off) = 0.
Proof.
  unfold free_entry. destruct (List.find _ _) as [o|] eqn:Ho; [right|by left]. apply List.find_some in Ho as [Ho H0]. apply list_elem_of_In in Ho. by apply Z.eqb_eq in H0.
Qed.

Lemma wcost_entry off : 0 <= off -> off mod sizeof_dirent = 0 -> wcost 16 off 0 <= 2 /\ full_turns 16 off 0 <= 1.
Proof.
  intros Ho Hm. unfold wcost, full_turns, odd_turn, turns_left, BSIZE, sizeof_dirent in *. cbn [Z.ltb Z.compare].
  pose proof (Z.div_mod off 16 ltac:(lia)). pose proof (Z.div_mod off 1024 ltac:(lia)). pose proof (Z.mod_pos_bound off 1024 ltac:(lia)).
  assert ((16 - 0 + off mod 1024 + (1024 - 1)) / 1024 < 2) by (apply Z.div_lt_upper_bound; lia).
  destruct (Z.eqb_spec (off mod 1024) 0); cbn [negb b2z]; lia.
Qed.

Section dirlink.
Context {E : Env} {D : DiskDriver} {DR : DiskReady} {L : DiskLaws} (pr : nat) (pid dev : Z) (Hdev : 0 < dev < 2 ^ 31).
Context (st : Z) (users : list Z) (disk0 : Z -> list Z) (writes0 : list (Z * list Z)).
Context (S : superblock) (dstart : Z) (Hly : layout st S dstart).
Notation txn := (txn pid dev st users disk0 writes0).
Notation file_wf := (file_wf (S := S) (dstart := dstart) dev).
Notation written := (written dev S dstart).

(** A well-formed directory. *)
Record dir_wf (v : Z -> list Z) (ip : inode) : Prop := {
  dw_file : file_wf v ip;
  dw_type : i_type ip = T_DIR;
  dw_size : i_size ip mod sizeof_dirent = 0;
  dw_bytes : forall k, 0 <= k < i_size ip -> is_byte (file_byte v (i_addrs ip) k)
}.

Lemma txn_room k bs a F : txn_abs pid dev st users disk0 writes0 k [] bs a F -> ab a < Z.of_nat NBUF.
Proof.
  intros Ht. pose proof (tn_bufs _ _ _ _ _ _ _ _ _ _ _ Ht) as Hb. pose proof (tn_room _ _ _ _ _ _ _ _ _ _ _ Ht). cbn [lone foldr] in Hb. lia.
Qed.

(** readi() inside a transaction. *)
Lemma txn_readi k bs v F i off n (Q : Z * list Z -> fsstate -> Prop) : let ip := getI i F in txn k [] bs v F -> file_wf v ip -> 0 <= off <= i_size ip -> 0 <= n -> off + n < 2 ^ 32 ->
  (forall F', txn k [] bs v F' -> same_rest F F' -> let n' := Z.min n (i_size ip - off) in Q (n', file_bytes v (i_addrs ip) off n') F') ->
  fsrun pr pid (readi i ToObj off n) F Q.
Proof.
  intros ip (a & Ht & Hv) Hw Ho Hn H32 HQ. pose proof (txn_ready pid dev st users S dstart Hly disk0 writes0 k bs v a F Ht Hv) as Hrd.
  apply (fsrun_readi pr pid dev Hdev a F i off n); [apply Ht|by eapply (ready_file_ok dev S dstart v)|by eapply txn_room|done|done|done|].
  intros F' Hca Hsr n'. fold ip in n' |- *. rewrite (ready_bytes dev S dstart v a ip) by (done || (unfold n'; lia)). apply HQ; [|done]. exists a. split; [by eapply txn_same|done].
Qed.

(** dirlookup() of a name that is not there. *)
Lemma txn_dirlookup_none k bs v F i name (Q : option (nat * Z) -> fsstate -> Prop) : let ip := getI i F in txn k [] bs v F -> dir_wf v ip -> Forall is_byte name ->
  (forall inum, iget_ref dev inum (inodes F) <> None) -> dir_find name (dir_entries v (i_addrs ip) (i_size ip)) = None ->
  (forall F', txn k [] bs v F' -> same_rest F F' -> Q None F') -> fsrun pr pid (dirlookup i name) F Q.
Proof.
  intros ip (a & Ht & Hv) [Hw Hty Hsz Hby] Hnm Hig Hnone HQ. pose proof (txn_ready pid dev st users S dstart Hly disk0 writes0 k bs v a F Ht Hv) as Hrd.
  assert (Hbyte : forall j, 0 <= j < i_size ip -> file_byte (av a) (i_addrs ip) j = file_byte v (i_addrs ip) j) by (intros j Hj; by apply (ready_byte dev S dstart)).
  assert (Hent : dir_entries (av a) (i_addrs ip) (i_size ip) = dir_entries v (i_addrs ip) (i_size ip)).
  { unfold dir_entries. f_equal. apply map_ext_in. intros off Hin. apply list_elem_of_In in Hin. destruct (dir_offs_in _ _ (proj1 (fw_size _ _ _ Hw)) Hsz Hin) as [H1 H2].
    unfold dirent_at. rewrite (ready_bytes dev S dstart v a ip) by done. done. }
  apply (fsrun_dirlookup pr pid dev Hdev a F i name); [apply Ht| |by eapply txn_room|done|done|].
  - split; [by eapply (ready_file_ok dev S dstart v)|done|done|]. intros j Hj. fold ip in Hj |- *. rewrite Hbyte by done. by apply Hby.
  - intros F' Hca. fold ip. rewrite Hent, Hnone. intros Hsr. apply HQ; [|done]. exists a. split; [by eapply txn_same|done].
Qed.

(** The scan for a free entry. *)
Lemma txn_scan k bs v F i (Q : option Z -> fsstate -> Prop) : let ip := getI i F in txn k [] bs v F -> dir_wf v ip ->
  (forall F', txn k [] bs v F' -> same_rest F F' -> Q (List.find (fun off => de_inum (dirent_at v (i_addrs ip) off) =? 0) (dir_offs (i_size ip))) F') ->
  fsrun pr pid (for_find (dir_offs (i_size ip)) (fun off =>
    let* (r, de) := readi i ToObj off sizeof_dirent in
    if negb (r =? sizeof_dirent) then panic "dirlink read" else if de_inum de =? 0 then ret (Some off) else ret None)) F Q.
Proof.
  intros ip Ht [Hw Hty Hsz Hby] HQ. pose proof (fw_size _ _ _ Hw) as Hs. assert (HM : MAXFILE * BSIZE = 274432) by done. assert (H16 : sizeof_dirent = 16) by done.
  assert (Hread : forall off G (kk : Z * list Z -> K (option Z)) R, txn k [] bs v G /\ same_rest F G -> off ∈ dir_offs (i_size ip) ->
    (forall G', txn k [] bs v G' /\ same_rest F G' -> fsrun pr pid (kk (sizeof_dirent, dirent_at v (i_addrs ip) off)) G' R) -> fsrun pr pid (bind (readi i ToObj off sizeof_dirent) kk) G R).
  { intros off G kk R [HtG HsG] Hin Hkk. destruct (dir_offs_in (i_size ip) off) as [H1 H2]; [lia|done|done|].
    pose proof (same_getI i F G HsG) as HI. fold ip in HI. eapply crun_bind, (txn_readi k bs v G i off sizeof_dirent); rewrite ?HI; [done|done|lia|lia|lia|].
    intros G' HtG' HsG'. rewrite Z.min_l by lia. apply Hkk. split; [done|by eapply same_rest_trans]. }
  apply (crun_for_find pr pid (fun G => txn k [] bs v G /\ same_rest F G) (fun off => if de_inum (dirent_at v (i_addrs ip) off) =? 0 then Some off else None)).
  - done.
  - intros off G Hin HG Hno. apply Hread; [done|done|]. intros G' HG'. rewrite Z.eqb_refl. cbn [negb]. destruct (_ =? 0); [done|by apply crun_ret].
  - intros off l1 l2 G HG Hl Hbefore Hfound. apply Hread; [done|rewrite Hl; apply elem_of_app; right; by left|]. intros G' [HtG' HsG']. rewrite Z.eqb_refl. cbn [negb].
    destruct (de_inum (dirent_at v (i_addrs ip) off) =? 0) eqn:H0; [|done]. apply crun_ret. split; [done|].
    specialize (HQ G' HtG' HsG'). rewrite Hl, (find_app _ l1 off l2) in HQ; [done| |done]. intros y Hy. apply Hbefore in Hy. by case_match.
  - intros G' [HtG' HsG'] Hall. specialize (HQ G' HtG' HsG'). rewrite find_none in HQ; [done|]. intros y Hy. apply Hall in Hy. by case_match.
Qed.

Lemma mk_dirent_bytes inum name : Forall is_byte name -> Forall is_byte (mk_dirent inum name) /\ length (mk_dirent inum name) = 16%nat.
Proof.
  intros Hn. unfold mk_dirent. split; [|by rewrite length_app, enc_le_length, strncpy_l_length]. apply Forall_app. split; [apply enc_le_bytes|].
  unfold strncpy_l. apply Forall_app. split; [by apply Forall_take, Forall_cstr|]. apply Forall_replicate. unfold is_byte. lia.
Qed.

(** What a write of an entry does to the directory. *)
Lemma written_dir v ip off inum name v' ip' : dir_wf v ip -> Forall is_byte name -> 0 < inum < 2 ^ 16 -> off = free_entry v (i_addrs ip) (i_size ip) ->
  written v ip off (mk_dirent inum name) v' ip' ->
  dir_wf v' ip' /\
  (dir_find name (dir_entries v (i_addrs ip) (i_size ip)) = None ->
   dir_find name (dir_entries v' (i_addrs ip') (i_size ip')) = Some (off, (inum, take DIRSIZ (cstr name)))) /\
  (forall key, take DIRSIZ (cstr key) <> take DIRSIZ (cstr name) ->
   dir_find key (dir_entries v' (i_addrs ip') (i_size ip')) = dir_find key (dir_entries v (i_addrs ip) (i_size ip))).
Proof.
  intros [Hw Hty Hsz Hby] Hnm Hinum Hoff Hwn. destruct (mk_dirent_bytes inum name Hnm) as [Hmb Hml]. pose proof (fw_size _ _ _ Hw) as Hs.
  pose proof (free_entry_spec v (i_addrs ip) (i_size ip)) as Hfree. rewrite <- Hoff in Hfree. cbv zeta in Hfree.
  assert (H16 : sizeof_dirent = 16) by done. assert (Ho : 0 <= off <= i_size ip /\ off mod sizeof_dirent = 0).
  { destruct Hfree as [->|[Hin _]]; [split; [lia|done]|]. pose proof (dir_offs_in _ _ (proj1 Hs) Hsz Hin). split; [lia|by eapply dir_offs_mult]. }
  assert (Hip : i_size ip' = Z.max (i_size ip) (off + sizeof_dirent) /\ i_type ip' = T_DIR)
    by (rewrite (wn_inode _ _ _ _ _ _ _ _ _ Hwn), Hml; split; [done|exact Hty]). destruct Hip as [Hsz' Hty'].
  assert (Hbyte : forall k, 0 <= k < i_size ip' -> file_byte v' (i_addrs ip') k =
    if (off <=? k) && (k <? off + 16) then default 0 (znth (mk_dirent inum name) (k - off)) else file_byte v (i_addrs ip) k).
  { intros k Hk. rewrite (written_byte dev S dstart _ _ _ _ _ _ _ Hwn), Hml; [done|rewrite Hml; lia|lia]. }
  assert (Hnew : dirent_at v' (i_addrs ip') off = mk_dirent inum name).
  { pose proof (wn_new _ _ _ _ _ _ _ _ _ Hwn) as Hnew. rewrite Hml in Hnew. exact Hnew. }
  assert (Hold : forall o, o ∈ dir_offs (i_size ip) -> o <> off -> dirent_at v' (i_addrs ip') o = dirent_at v (i_addrs ip) o).
  { intros o Hin Hne. pose proof (dir_offs_in _ _ (proj1 Hs) Hsz Hin) as [H1 H2]. pose proof (dir_offs_mult _ _ Hin) as Hm. apply file_bytes_ext. intros k Hk. rewrite H16 in *.
    pose proof (Z.div_mod o 16 ltac:(lia)). pose proof (Z.div_mod off 16 ltac:(lia)).
    rewrite Hbyte by lia. destruct (Z.leb_spec off k), (Z.ltb_spec k (off + 16)); try done. exfalso. lia. }
  pose proof (added_new v v' (i_addrs ip) (i_addrs ip') (i_size ip) off inum name (proj1 Hs) Hsz Hinum Hnew Hold Hfree) as Hadd.
  pose proof (added_other v v' (i_addrs ip) (i_addrs ip') (i_size ip) off inum name (proj1 Hs) Hsz Hinum Hnew Hold Hfree) as Hoth.
  rewrite <- Hsz' in Hadd, Hoth. split; [|done]. split; [apply Hwn|done| |].
  - rewrite Hsz'. destruct (Z.max_spec (i_size ip) (off + sizeof_dirent)) as [[_ ->]|[_ ->]]; [|done]. rewrite H16 in *.
    rewrite <- (Z.mod_add off 1 16) in Ho by lia. replace (off + 1 * 16) with (off + 16) in Ho by lia. apply Ho.
  - intros k Hk. rewrite Hbyte by done. destruct (Z.leb_spec off k), (Z.ltb_spec k (off + 16)); cbn [andb]; try (apply Hby; lia).
    unfold znth. destruct (Z.ltb_spec (k - off) 0); [lia|]. destruct (lookup_lt_is_Some_2 (mk_dirent inum name) (Z.to_nat (k - off))) as [x Hx]; [lia|].
    rewrite Hx. exact (Forall_lookup_1 _ _ _ _ Hmb Hx).
Qed.

(** The log entries that dirlink() needs: the entry's block with its mark in the
    bitmap, the indirect block with its own, and the inode. *)
Lemma txn_dirlink k c bs v F i name inum (Q : Z -> fsstate -> Prop) : let ip := getI i F in txn (k + 5) [] bs v F -> 0 <= k -> 0 <= c -> sb F = S -> (i < length (inodes F))%nat ->
  dir_wf v ip -> meta_used S dstart v -> 0 <= i_inum ip < sb_ninodes S -> dinode_ok (dinode_of_inode ip) -> i_size ip + 16 <= MAXFILE * BSIZE ->
  Forall is_byte name -> 0 < inum < 2 ^ 16 -> (forall inum, iget_ref dev inum (inodes F) <> None) ->
  dir_find name (dir_entries v (i_addrs ip) (i_size ip)) = None -> avail S v (c + 2) ->
  (forall v' bs' F', txn k [] bs' v' F' -> IBLOCK (i_inum ip) S ∈ bs' -> (forall x, x ∈ bs -> x ∈ bs') -> moved i F F' -> meta_used S dstart v' -> avail S v' c ->
     written v ip (free_entry v (i_addrs ip) (i_size ip)) (mk_dirent inum name) v' (getI i F') -> Q 0 F') ->
  fsrun pr pid (dirlink i name inum) F Q.
Proof.
  intros ip Ht Hk Hc HS Hi Hd Hmeta Hin Hdi Hmax Hnm Hinum Hig Hnone Hav HQ. pose proof Hd as [Hw Hty Hsz Hby]. pose proof (fw_size _ _ _ Hw) as Hs.
  destruct (mk_dirent_bytes inum name Hnm) as [_ Hml]. unfold dirlink. eapply crun_bind, (txn_dirlookup_none (k + 5) bs v); [done|done|done|done|done|].
  intros F1 Ht1 Hs1. pose proof (same_getI i F F1 Hs1) as HI1. fold ip in HI1. eapply crun_bind, crun_geti. rewrite HI1.
  eapply crun_bind. rewrite <- HI1. eapply (txn_scan (k + 5) bs v F1 i); [done|by rewrite HI1|]. rewrite HI1. intros F2 Ht2 Hs2. cbv zeta.
  rewrite dir_offs_length by (done || lia). fold (free_entry v (i_addrs ip) (i_size ip)). set (off := free_entry v (i_addrs ip) (i_size ip)) in *.
  assert (Ho : 0 <= off <= i_size ip /\ off mod sizeof_dirent = 0).
  { pose proof (free_entry_spec v (i_addrs ip) (i_size ip)) as Hfr. cbv zeta in Hfr. fold off in Hfr. destruct Hfr as [He|[Hino _]]; [rewrite He; split; [lia|done]|].
    pose proof (dir_offs_in _ _ (proj1 Hs) Hsz Hino). unfold sizeof_dirent in *. split; [lia|by eapply dir_offs_mult]. }
  destruct Ho as [Ho Hm]. destruct (wcost_entry off (proj1 Ho) Hm) as [Hwc Hft]. pose proof (wcost_nonneg 16 off 0) as Hwn.
  assert (Hkp : kept F F2) by (eapply kept_trans; apply same_rest_kept; done). pose proof (kept_getI i F F2 Hkp) as HI2. fold ip in HI2.
  pose proof (icost_nonneg bs (i_addrs ip)) as Hic. pose proof (bcost_nonneg (i_addrs ip)) as Hbc.
  change sizeof_dirent with 16. assert (Hlen : 16 = Z.of_nat (length (mk_dirent inum name))) by (rewrite Hml; done).
  eapply crun_bind. rewrite Hlen at 1. apply (txn_writei pr pid dev Hdev st users disk0 writes0 S dstart Hly k c bs v F2 i off (mk_dirent inum name)); rewrite ?HI2, <- ?Hlen; try (done || lia).
  - eapply txn_weaken; [exact Ht2|lia].
  - by destruct Hkp as (-> & _).
  - by destruct Hkp as (_ & -> & _).
  - eapply avail_weaken; [exact Hav|lia].
  - intros v' bs' F3 Ht3 Hin3 Hsub Hmv Hwr Hmeta' Hav'. rewrite Z.eqb_refl. cbn [negb]. apply crun_ret.
    apply (HQ v' bs' F3); try done. eapply moved_trans; [by apply moved_kept|done].
Qed.

End dirlink.

(** ** Adding an entry, as an operation *)

Section theorem.
Context {E : Env} {D : DiskDriver} {DR : DiskReady} {L : DiskLaws} (pr : nat) (pid dev : Z) (Hdev : 0 < dev < 2 ^ 31) (st : Z) (users : list Z).
Context (S : superblock) (dstart : Z) (Hly : layout st S dstart).

Definition link_op (i : nat) (name : list Z) (inum : Z) : K Z :=
  begin_op;;
  r <- dirlink i name inum;;
  end_op;;
  ret r.

(** C12. An operation that enters a new name into a directory with dirlink(), which
    takes the first free entry or appends one, returns 0 and is durable: on the disk
    the directory stays well formed, the name leads to the inode given, every other
    name leads where it led before, and no other inode has changed. *)
Theorem dirlink_adds a i name inum c0 s : let ip := getI i (k_fs s) in
  running pr pid None c0 s -> quiet pid dev st users (av a) a (k_fs s) -> sb (k_fs s) = S -> (i < length (inodes (k_fs s)))%nat ->
  dir_wf dev S dstart (av a) ip -> meta_used S dstart (av a) -> 0 <= i_inum ip < sb_ninodes S -> dinode_ok (dinode_of_inode ip) ->
  i_size ip + 16 <= MAXFILE * BSIZE -> Forall is_byte name -> 0 < inum < 2 ^ 16 -> (forall x, iget_ref dev x (inodes (k_fs s)) <> None) ->
  dir_find name (dir_entries (av a) (i_addrs ip) (i_size ip)) = None -> avail S (av a) 2 ->
  wp (link_op i name inum) (fun r s' => r = 0 /\ running pr pid None c0 s' /\ exists v' a', let ip' := getI i (k_fs s') in
    quiet pid dev st users v' a' (k_fs s') /\ dir_wf dev S dstart v' ip' /\ meta_used S dstart v' /\
    dir_find name (dir_entries v' (i_addrs ip') (i_size ip')) = Some (free_entry (av a) (i_addrs ip) (i_size ip), (inum, take DIRSIZ (cstr name))) /\
    (forall key, take DIRSIZ (cstr key) <> take DIRSIZ (cstr name) ->
       dir_find key (dir_entries v' (i_addrs ip') (i_size ip')) = dir_find key (dir_entries (av a) (i_addrs ip) (i_size ip))) /\
    disk_inode v' S (i_inum ip) = dinode_of_inode ip' /\
    (forall j, 0 <= j < sb_ninodes S -> j <> i_inum ip -> disk_inode v' S j = disk_inode (av a) S j)) s.
Proof.
  intros ip Hrun Hq HS Hi Hd Hmeta Hin Hdi Hmax Hnm Hinum Hig Hnone Hav.
  set (Post := fun (r : Z) F' => r = 0 /\ exists v' a', quiet pid dev st users v' a' F' /\ meta_used S dstart v' /\
    written dev S dstart (av a) ip (free_entry (av a) (i_addrs ip) (i_size ip)) (mk_dirent inum name) v' (getI i F')).
  assert (Hrun' : fsrun pr pid (link_op i name inum) (k_fs s) Post).
  { unfold link_op. eapply crun_bind, (quiet_begin pr pid dev Hdev st users); [exact Hq|]. intros F1 Ht1 Ho1 Hc1 Hs1 H1 H2 H3 H4.
    assert (HI1 : getI i F1 = ip) by (unfold getI; by rewrite H2).
    eapply crun_bind, (txn_dirlink pr pid dev Hdev st users (ad a) (aw a) S dstart Hly 5 0 [] (av a) F1 i name inum); rewrite ?HI1; try (done || lia); [by rewrite H1|by rewrite H2|by rewrite H2|].
    intros v' bs' F2 Ht2 Hin2 _ Hmv Hmeta2 _ Hwn2. pose proof Hmv as (M1 & M2 & M3 & M4 & (_ & M5 & M6 & M7 & _)).
    eapply crun_bind, (txn_end pr pid dev Hdev st users); [exact Ht2|by intros ->; apply not_elem_of_nil in Hin2|by rewrite M6|by rewrite M7|by rewrite M5, Hs1; apply Hq|apply Hq|].
    intros a' F3 Hq3 E1 E2 E3 E4. apply crun_ret. assert (HI3 : getI i F3 = getI i F2) by (unfold getI; by rewrite E2).
    split; [done|]. exists v', a'. by rewrite HI3. }
  eapply wp_mono; [by apply (Hrun' c0 s)|]. intros r s' ((-> & v' & a' & Hq' & Hmeta' & Hwn) & Hr & _). split; [done|]. split; [done|]. exists v', a'.
  destruct (written_dir dev S dstart _ _ _ _ _ _ _ Hd Hnm Hinum eq_refl Hwn) as (Hd' & Hnew & Hoth). cbv zeta. split_and!; try done; [by apply Hnew| |].
  - apply (wn_disk _ _ _ _ _ _ _ _ _ Hwn).
  - apply (wn_inodes _ _ _ _ _ _ _ _ _ Hwn).
Qed.

End theorem.
