(* ===== verification/FsTrunc.v ===== *)
(** * Truncating a file (kernel/fs.c)

    itrunc() inside a transaction: every block of the file is free afterwards, and
    no other. *)

From S2P Require Import Prelude Riscv Kstate CString Bytes Spinlock Kalloc Vm Sched SchedSpec Uart Sleeplock.
From S2P Require Import Bio FsRun BioSpec Log LogSpec LogOps FsTxn Fs FsSpec FsImage FsAlloc File Tables FsRead FsFile FsWrite FsDir.

(** ** The cost of freeing blocks *)

(** The blocks of the bitmap, and how many of them the transaction has not listed. *)
Definition bitmap_blocks (S : superblock) : list Z := map (fun k => sb_bmapstart S + Z.of_nat k) (seq 0 (Z.to_nat ((sb_size S - 1) / BPB + 1))).
Definition unlisted (bs : list Z) (l : list Z) : Z := foldr (fun n c => 1 - cnt bs n + c) 0 l.

Lemma unlisted_nonneg bs l : 0 <= unlisted bs l <= Z.of_nat (length l).
Proof. induction l as [|n l IH]; simpl; [lia|]. pose proof (cnt_01 bs n). lia. Qed.

Lemma unlisted_add bs n l : NoDup l -> unlisted (log_add n bs) l = unlisted bs l - (if decide (n ∈ l) then 1 - cnt bs n else 0).
Proof.
  induction l as [|m l IH]; intros Hnd; [done|]. apply NoDup_cons in Hnd as [Hm Hnd]. cbn [unlisted foldr]. fold (unlisted (log_add n bs) l) (unlisted bs l).
  rewrite IH, cnt_log_add by done. destruct (decide (m = n)) as [->|Hne].
  - rewrite (decide_False (P := n ∈ l)) by done. rewrite decide_True by by left. lia.
  - destruct (decide (n ∈ l)) as [Hin|Hin]; [rewrite decide_True by (by right); lia|]. rewrite decide_False; [lia|]. rewrite elem_of_cons. by intros [->|].
Qed.

Lemma bitmap_blocks_NoDup S : NoDup (bitmap_blocks S).
Proof. apply NoDup_fmap_2; [|apply NoDup_seq]. intros x y. lia. Qed.

Lemma bitmap_blocks_length S : 0 < sb_size S -> Z.of_nat (length (bitmap_blocks S)) = (sb_size S - 1) / BPB + 1.
Proof. intros H. unfold bitmap_blocks. rewrite length_map, length_seq. pose proof (Z.div_pos (sb_size S - 1) BPB ltac:(lia) ltac:(done)). lia. Qed.

(** ** The marks while blocks are freed *)

Section frees.
Context {st : Z} {S : superblock} {dstart : Z} (Hly : layout st S dstart) (dev : Z).
Context (v : Z -> list Z) (ip : inode) (Hw : file_wf (S := S) (dstart := dstart) dev v ip).

Lemma bblock_in y : 0 <= y < sb_size S -> BBLOCK y S ∈ bitmap_blocks S.
Proof.
  intros Hy. rewrite (bblock_eq Hly) by done. apply list_elem_of_fmap. exists (Z.to_nat (y / BPB)). pose proof (Z.div_pos y BPB ltac:(lia) ltac:(done)).
  pose proof (Z.div_le_mono y (sb_size S - 1) BPB ltac:(done) ltac:(lia)). split; [lia|]. apply elem_of_seq. lia.
Qed.

(** The blocks at the positions [done] have been freed. *)
Record freed (done : list Z) (v' : Z -> list Z) : Prop := {
  fd_used : forall y, 0 <= y < sb_size S -> used S v' y = used S v y && negb (bool_decide (y <> 0 /\ y ∈ map (ptr v (i_addrs ip)) done));
  fd_other : forall n, ~ is_bitmap S n -> v' n = v n
}.

Lemma freed_nil : freed [] v.
Proof. split; [|done]. intros y Hy. rewrite bool_decide_eq_false_2, andb_true_r; [done|]. intros [_ H]. by apply not_elem_of_nil in H. Qed.

(** The block at a position that has not been freed is still marked, and can be. *)
Lemma freed_used done v' p : freed done v' -> (forall q, q ∈ done -> 0 <= q < NPTR) -> 0 <= p < NPTR -> p ∉ done -> ptr v (i_addrs ip) p <> 0 ->
  dstart <= ptr v (i_addrs ip) p < sb_size S /\ used S v' (ptr v (i_addrs ip) p) = true.
Proof.
  intros [H1 _] Hd Hp Hn H0. pose proof (ly_start Hly). destruct (fw_ptr _ _ _ Hw p Hp H0) as [Hr Hu]. split; [done|]. rewrite H1, Hu by lia. cbn [andb].
  rewrite bool_decide_eq_false_2; [done|]. intros [_ Hin]. apply list_elem_of_fmap in Hin as (q & Hq & Hin). apply Hn.
  assert (p = q) as ->; [|done]. apply (fw_inj _ _ _ Hw); auto.
Qed.

Lemma freed_add done v' p : (forall n, length (v' n) = 1024%nat) -> freed done v' -> dstart <= ptr v (i_addrs ip) p < sb_size S ->
  freed (p :: done) (unalloc S (ptr v (i_addrs ip) p) v').
Proof.
  intros Hl [H1 H2] Hr. pose proof (ly_start Hly). split.
  - intros y Hy. rewrite (used_release Hly) by done. rewrite H1 by done. destruct (Z.eqb_spec y (ptr v (i_addrs ip) p)) as [He|Hne]; cbn [negb andb].
    + symmetry. apply andb_false_intro2. apply negb_false_iff, bool_decide_eq_true_2. split; [lia|]. rewrite He. by left.
    + do 2 f_equal. apply bool_decide_ext. cbn [map]. rewrite elem_of_cons. tauto.
  - intros n Hn. rewrite (release_other Hly) by done. by apply H2.
Qed.

End frees.

(** Only the positions that have a block matter. *)
Lemma freed_ext {S v ip} done done' v' : freed (S := S) v ip done v' -> (forall q, q ∈ done -> q ∈ done') ->
  (forall q, q ∈ done' -> ptr v (i_addrs ip) q <> 0 -> q ∈ done) -> freed (S := S) v ip done' v'.
Proof.
  intros [H1 H2] Hq Hq'. split; [|done]. intros y Hy. rewrite H1 by done. do 2 f_equal. apply bool_decide_ext. rewrite !list_elem_of_fmap.
  split; intros [? (q & -> & ?)]; (split; [done|]); exists q; (split; [done|]); auto.
Qed.

(** Slots below [j] set to zero. *)
Definition zeroed (j : nat) (addrs : list Z) : list Z := replicate j 0 ++ drop j addrs.

Lemma zeroed_slot j addrs q : (j <= length addrs)%nat -> Z.of_nat j <= q -> slot (zeroed j addrs) q = slot addrs q.
Proof.
  intros Hj Hq. unfold slot, znth, zeroed. destruct (Z.ltb_spec q 0); [lia|]. rewrite lookup_app_r by (rewrite length_replicate; lia).
  rewrite length_replicate, lookup_drop. do 2 f_equal. lia.
Qed.

Lemma zeroed_next j addrs : (j < length addrs)%nat -> zupd (zeroed j addrs) (Z.of_nat j) 0 = zeroed (1 + j) addrs.
Proof.
  intros Hj. unfold zupd, zeroed. destruct (Z.ltb_spec (Z.of_nat j) 0); [lia|]. rewrite Nat2Z.id.
  rewrite insert_app_r_alt by (rewrite length_replicate; lia). rewrite length_replicate, Nat.sub_diag.
  destruct (lookup_lt_is_Some_2 addrs j Hj) as [x Hx]. rewrite (drop_S _ x) by done. cbn [insert list_insert].
  change (1 + j)%nat with (Datatypes.S j). rewrite replicate_S_end, <- app_assoc. done.
Qed.

Lemma zeroed_skip j addrs : (j < length addrs)%nat -> slot addrs (Z.of_nat j) = 0 -> zeroed j addrs = zeroed (1 + j) addrs.
Proof.
  intros Hj H0. rewrite <- zeroed_next by done. unfold zupd. destruct (Z.ltb_spec (Z.of_nat j) 0); [lia|]. symmetry. apply list_insert_id.
  rewrite Nat2Z.id. unfold zeroed. rewrite lookup_app_r, length_replicate, Nat.sub_diag, lookup_drop, Nat.add_0_r by (rewrite length_replicate; lia).
  unfold slot, znth in H0. destruct (Z.ltb_spec (Z.of_nat j) 0); [lia|]. rewrite Nat2Z.id in H0. destruct (lookup_lt_is_Some_2 addrs j Hj) as [x Hx]. rewrite Hx in *. by simpl in H0; subst.
Qed.

(** ** itrunc() *)

Section itrunc.
Context {E : Env} {D : DiskDriver} {DR : DiskReady} {L : DiskLaws} (pr : nat) (pid dev : Z) (Hdev : 0 < dev < 2 ^ 31).
Context (st : Z) (users : list Z) (disk0 : Z -> list Z) (writes0 : list (Z * list Z)).
Context (S : superblock) (dstart : Z) (Hly : layout st S dstart).
Notation txn := (txn pid dev st users disk0 writes0).
Notation file_wf := (file_wf (S := S) (dstart := dstart) dev).

Context (i : nat) (v : Z -> list Z) (F0 : fsstate) (Hw : file_wf v (getI i F0)) (HS : sb F0 = S) (Hi : (i < length (inodes F0))%nat).
Let ip := getI i F0.

Lemma ip_dev : i_dev ip = dev.
Proof. apply Hw. Qed.

(** The blocks at the positions [fr] are free, the inode's addresses are [addrs], and
    there is room in the log for the rest of the bitmap and [k] more blocks. *)
Definition tst (k : Z) (held : list (nat * Z)) (fr addrs : list Z) (G : fsstate) : Prop := exists v' bs,
  txn (k + unlisted bs (bitmap_blocks S)) held bs v' G /\ freed (S := S) v ip fr v' /\ moved i F0 G /\ getI i G = set_i_addrs addrs ip.

Definition positions (fr : list Z) : Prop := forall q, q ∈ fr -> 0 <= q < NPTR.

Lemma tst_kept k held fr addrs v' bs G G' : txn (k + unlisted bs (bitmap_blocks S)) held bs v' G' -> freed (S := S) v ip fr v' -> moved i F0 G ->
  getI i G = set_i_addrs addrs ip -> kept G G' -> tst k held fr addrs G'.
Proof.
  intros H1 H2 H3 H4 Hk. exists v', bs. split; [done|]. split; [done|]. split; [|by rewrite (kept_getI i G G' Hk)].
  eapply moved_trans; [exact H3|]. apply moved_kept; [by rewrite (moved_length _ _ _ H3)|done].
Qed.

(** bfree() of the block at position [p]. *)
Lemma txn_free k held fr addrs G p (Q : unit -> fsstate -> Prop) : tst k held fr addrs G -> 0 <= k -> Z.of_nat (length held) <= k ->
  positions fr -> 0 <= p < NPTR -> p ∉ fr -> ptr v (i_addrs ip) p <> 0 ->
  (forall n, n ∈ held.*2 -> exists q, 0 <= q < NPTR /\ q ∉ fr /\ n = ptr v (i_addrs ip) q /\ n <> 0) ->
  (forall G', tst k held (p :: fr) addrs G' -> Q tt G') -> fsrun pr pid (bfree dev (ptr v (i_addrs ip) p)) G Q.
Proof.
  intros (v' & bs & Ht & Hfd & Hmv & HI) Hk Hlen Hpos Hp Hn H0 Hheld HQ. set (b := ptr v (i_addrs ip) p) in *. pose proof (ly_start Hly) as Hst.
  destruct (freed_used Hly dev v ip Hw fr v' p Hfd Hpos Hp Hn H0) as [Hr Hu]. fold b in Hr, Hu.
  pose proof (unlisted_add bs (BBLOCK b S) (bitmap_blocks S) (bitmap_blocks_NoDup S)) as Hun. rewrite decide_True in Hun by (apply (bblock_in Hly); lia).
  pose proof (unlisted_nonneg bs (bitmap_blocks S)) as Hnn. pose proof (unlisted_nonneg (log_add (BBLOCK b S) bs) (bitmap_blocks S)) as Hnn'.
  eapply (txn_bfree pr pid dev Hdev st users disk0 writes0 S dstart Hly (k + unlisted (log_add (BBLOCK b S) bs) (bitmap_blocks S)));
    [replace (k + unlisted (log_add (BBLOCK b S) bs) (bitmap_blocks S) + 1 - cnt bs (BBLOCK b S)) with (k + unlisted bs (bitmap_blocks S)) by lia; exact Ht|
     lia|lia|by destruct Hmv as (-> & _)|done|done| |].
  - intros n Hin. destruct (Hheld n Hin) as (q & Hq & Hqn & -> & Hq0). by apply (freed_used Hly dev v ip Hw fr v' q).
  - intros G' Ht' Hk'. apply HQ. eapply tst_kept; [exact Ht'| |exact Hmv|exact HI|done]. by apply (freed_add Hly); [eapply txn_lens| |].
Qed.

Lemma tst_ext k held fr fr' addrs G : tst k held fr addrs G -> (forall q, q ∈ fr -> q ∈ fr') ->
  (forall q, q ∈ fr' -> ptr v (i_addrs ip) q <> 0 -> q ∈ fr) -> tst k held fr' addrs G.
Proof. intros (v' & bs & H1 & H2 & H3) Hq Hq'. exists v', bs. split_and!; try done; [by eapply freed_ext|apply H3..]. Qed.

Lemma tst_upd k fr addrs G f addrs' : tst k [] fr addrs G -> f (set_i_addrs addrs ip) = set_i_addrs addrs' ip -> tst k [] fr addrs' (updI i f G).
Proof.
  intros (v' & bs & H1 & H2 & H3 & H4) Hf. destruct (moved_upd i f G) as [Hm HI]; [by rewrite (moved_length _ _ _ H3)|]. exists v', bs.
  split; [by apply txn_updI|]. split; [done|]. split; [by eapply moved_trans|]. by rewrite HI, H4.
Qed.

(** The positions of the direct blocks, and of the entries of the indirect block. *)
Definition firsts (o j : nat) : list Z := map (fun k => Z.of_nat (o + k)) (seq 0 j).

Lemma firsts_in o j q : q ∈ firsts o j <-> Z.of_nat o <= q < Z.of_nat (o + j).
Proof.
  unfold firsts. rewrite list_elem_of_fmap. split.
  - intros (x & -> & Hx). apply elem_of_seq in Hx. lia.
  - intros Hq. exists (Z.to_nat q - o)%nat. split; [lia|]. apply elem_of_seq. lia.
Qed.

(** The direct blocks. *)
Lemma txn_trunc_direct k G (Q : unit -> fsstate -> Prop) : tst k [] [] (i_addrs ip) G -> 0 <= k ->
  (forall G', tst k [] (firsts 0 12) (zeroed 12 (i_addrs ip)) G' -> Q tt G') ->
  fsrun pr pid (for_each (upto NDIRECT) (fun k => ip <- geti i;;
    when (negb (addr_nth ip k =? 0)) (bfree (i_dev ip) (addr_nth ip k);; updi i (set_addr k 0)))) G Q.
Proof.
  intros H0 Hk HQ. apply (fsrun_upto pr pid (fun j G => tst k [] (firsts 0 j) (zeroed j (i_addrs ip)) G)); [exact H0| |exact HQ].
  intros j G1 Hj HG. change (Z.to_nat NDIRECT) with 12%nat in Hj. pose proof (fw_len _ _ _ Hw) as Hlen. fold ip in Hlen. pose proof HG as (_ & _ & _ & _ & _ & HI).
  assert (Hext : forall addrs G', tst k [] (Z.of_nat j :: firsts 0 j) addrs G' -> tst k [] (firsts 0 (Datatypes.S j)) addrs G').
  { intros addrs G' H. eapply tst_ext; [exact H| |]; intros q; rewrite elem_of_cons, !firsts_in; lia. }
  assert (Hsl : slot (zeroed j (i_addrs ip)) (Z.of_nat j) = ptr v (i_addrs ip) (Z.of_nat j)) by (rewrite ptr_slot, zeroed_slot by (unfold NDIRECT; lia); done).
  eapply crun_bind, crun_geti. rewrite HI. change (addr_nth (set_i_addrs (zeroed j (i_addrs ip)) ip) (Z.of_nat j)) with (slot (zeroed j (i_addrs ip)) (Z.of_nat j)).
  rewrite Hsl. change (i_dev (set_i_addrs (zeroed j (i_addrs ip)) ip)) with (i_dev ip). rewrite ip_dev.
  destruct (Z.eqb_spec (ptr v (i_addrs ip) (Z.of_nat j)) 0) as [Hz|Hnz]; cbn [negb when].
  - apply crun_ret. rewrite <- zeroed_skip; [|lia|].
    { eapply tst_ext; [exact HG| |]; intros q; rewrite !firsts_in; [lia|]. intros Hq Hq0. destruct (Z.eq_dec q (Z.of_nat j)); [congruence|lia]. }
    by rewrite <- (ptr_slot v) by (unfold NDIRECT; lia).
  - eapply crun_bind, txn_free; [exact HG|done|simpl; lia| |unfold NPTR; lia| |done| |].
    + intros q Hq. apply firsts_in in Hq. unfold NPTR. lia.
    + rewrite firsts_in. lia.
    + intros n Hn. by apply not_elem_of_nil in Hn.
    + intros G2 HG2. apply (crun_modify pr pid _ (updI i (set_addr (Z.of_nat j) 0))). apply Hext. eapply tst_upd; [exact HG2|].
      unfold set_addr. cbn [i_addrs set_i_addrs]. rewrite zeroed_next by lia. done.
Qed.

(** The entries of the indirect block, which is held. *)
Lemma txn_trunc_entries k b G (Q : unit -> fsstate -> Prop) : let ib := ptr v (i_addrs ip) NDIRECT in ib <> 0 -> 1 <= k ->
  tst k [(b, ib)] (firsts 0 12) (zeroed 12 (i_addrs ip)) G ->
  (forall G', tst k [(b, ib)] (firsts 13 256 ++ firsts 0 12) (zeroed 12 (i_addrs ip)) G' -> Q tt G') ->
  fsrun pr pid (for_each (upto NINDIRECT) (fun j => d <- bdata b;; when (negb (rd 4 d (4 * j) =? 0)) (bfree dev (rd 4 d (4 * j))))) G Q.
Proof.
  intros ib H0 Hk HG0 HQ. apply (fsrun_upto pr pid (fun j G => tst k [(b, ib)] (firsts 13 j ++ firsts 0 12) (zeroed 12 (i_addrs ip)) G)); [exact HG0| |exact HQ].
  intros j G1 Hj HG. change (Z.to_nat NINDIRECT) with 256%nat in Hj. pose proof HG as (v' & bs & Ht & Hfd & _ & _).
  destruct (fw_ptr _ _ _ Hw NDIRECT ltac:(done) H0) as [Hir _]. fold ip ib in Hir.
  eapply crun_bind, (txn_bdata pr pid dev); [exact Ht|by left|]. rewrite (fd_other _ _ _ _ Hfd ib) by (apply (data_not_bitmap Hly); lia).
  assert (He : rd 4 (v ib) (4 * Z.of_nat j) = ptr v (i_addrs ip) (Z.of_nat (13 + j))).
  { rewrite ptr_entry; [|unfold NDIRECT; lia|by rewrite <- (ptr_slot v) by done]. unfold ib. rewrite ptr_slot by done. unfold entry. do 2 f_equal. lia. }
  rewrite He. destruct (Z.eqb_spec (ptr v (i_addrs ip) (Z.of_nat (13 + j))) 0) as [Hz|Hnz]; cbn [negb when].
  - apply crun_ret. eapply tst_ext; [exact HG| |]; intros q; rewrite !elem_of_app, !firsts_in; [lia|]. intros Hq Hq0.
    destruct (Z.eq_dec q (Z.of_nat (13 + j))) as [->|]; [done|lia].
  - eapply txn_free; [exact HG|lia|simpl; lia| |unfold NPTR; lia| |done| |].
    + intros q. rewrite elem_of_app, !firsts_in. unfold NPTR. lia.
    + rewrite elem_of_app, !firsts_in. lia.
    + intros n Hn. apply list_elem_of_singleton in Hn as ->. exists NDIRECT. split_and!; try done. rewrite elem_of_app, !firsts_in. unfold NDIRECT. lia.
    + intros G2 HG2. eapply tst_ext; [exact HG2| |]; intros q; rewrite elem_of_cons, !elem_of_app, !firsts_in; lia.
Qed.

(** The indirect block and what it points to. *)
Lemma txn_trunc_indirect k G (Q : unit -> fsstate -> Prop) : tst k [] (firsts 0 12) (zeroed 12 (i_addrs ip)) G -> 1 <= k ->
  (forall G', tst k [] (firsts 0 269) (replicate 13 0) G' -> Q tt G') ->
  fsrun pr pid (ip <- geti i;;
    when (negb (addr_nth ip NDIRECT =? 0))
      (bp <- bread (i_dev ip) (addr_nth ip NDIRECT);;
       for_each (upto NINDIRECT) (fun j =>
         d <- bdata bp;;
         when (negb (rd 4 d (4 * j) =? 0)) (bfree (i_dev ip) (rd 4 d (4 * j))));;
       brelse bp;;
       bfree (i_dev ip) (addr_nth ip NDIRECT);;
       updi i (set_addr NDIRECT 0))) G Q.
Proof.
  intros HG Hk HQ. pose proof HG as (v' & bs & Ht & Hfd & Hmv & HI). pose proof (fw_len _ _ _ Hw) as Hlen. fold ip in Hlen.
  pose proof (zeroed_slot 12 (i_addrs ip) 12 ltac:(lia) ltac:(lia)) as Hsl. fold NDIRECT in Hsl. rewrite <- (ptr_slot v (i_addrs ip)) in Hsl by done.
  assert (Hz13 : zeroed 13 (i_addrs ip) = replicate 13 0) by (unfold zeroed; by rewrite drop_ge, app_nil_r by lia).
  eapply crun_bind, crun_geti. rewrite HI. change (addr_nth (set_i_addrs (zeroed 12 (i_addrs ip)) ip) NDIRECT) with (slot (zeroed 12 (i_addrs ip)) NDIRECT).
  rewrite Hsl. change (i_dev (set_i_addrs (zeroed 12 (i_addrs ip)) ip)) with (i_dev ip). rewrite ip_dev. set (ib := ptr v (i_addrs ip) NDIRECT) in *.
  destruct (Z.eqb_spec ib 0) as [Hz|Hnz]; cbn [negb when].
  - apply crun_ret, HQ. rewrite <- Hz13, <- zeroed_skip; [|lia|by rewrite <- (ptr_slot v) by done]. eapply tst_ext; [exact HG| |]; intros q; rewrite !firsts_in; [lia|].
    intros Hq Hq0. destruct (Z.eq_dec q NDIRECT) as [->|Hne]; [done|]. unfold NDIRECT in *. destruct (Z_lt_le_dec q 12); [lia|].
    exfalso. apply Hq0, ptr_none; [unfold NDIRECT; lia|]. by rewrite <- (ptr_slot v) by done.
  - pose proof (unlisted_nonneg bs (bitmap_blocks S)) as Hun.
    eapply crun_bind, (txn_bread pr pid dev Hdev); [exact Ht|by eapply (ptr_loggable)|apply not_elem_of_nil|simpl; lia|]. intros b G1 Ht1 Hs1.
    eapply crun_bind, (txn_trunc_entries k); [done|done|by eapply tst_kept; eauto with fs|].
    intros G2 (v2 & bs2 & Ht2 & Hfd2 & Hmv2 & HI2). eapply crun_bind, (txn_brelse pr pid dev Hdev); [exact Ht2|]. intros G3 Ht3 Hs3.
    eapply crun_bind, (txn_free k); [by eapply tst_kept; eauto with fs|lia|simpl; lia| |done| |exact Hnz|intros n Hn; by apply not_elem_of_nil in Hn|].
    + intros q. rewrite elem_of_app, !firsts_in. unfold NPTR. lia.
    + rewrite elem_of_app, !firsts_in. unfold NDIRECT. lia.
    + intros G4 HG4. apply (crun_modify pr pid _ (updI i (set_addr NDIRECT 0))), HQ. rewrite <- Hz13. eapply tst_ext; [eapply tst_upd; [exact HG4|]| |].
      * unfold set_addr. cbn [i_addrs set_i_addrs]. by rewrite (zeroed_next 12) by lia.
      * intros q. rewrite elem_of_cons, elem_of_app, !firsts_in. unfold NDIRECT. lia.
      * intros q. rewrite elem_of_cons, elem_of_app, !firsts_in. unfold NDIRECT. lia.
Qed.

(** The file without its blocks. *)
Definition emptied : inode := set_i_size 0 (set_i_addrs (replicate 13 0) ip).

(** What itrunc() has done. *)
Record truncated (v' : Z -> list Z) (ip' : inode) : Prop := {
  tr_inode : ip' = emptied;
  tr_wf : file_wf v' ip';
  tr_freed : forall p, 0 <= p < NPTR -> ptr v (i_addrs ip) p <> 0 -> used S v' (ptr v (i_addrs ip) p) = false;
  tr_used : forall y, 0 <= y < sb_size S -> (forall p, 0 <= p < NPTR -> ptr v (i_addrs ip) p <> y) -> used S v' y = used S v y;
  tr_disk : disk_inode v' S (i_inum ip) = dinode_of_inode ip';
  tr_others : forall j, 0 <= j < sb_ninodes S -> j <> i_inum ip -> disk_inode v' S j = disk_inode v S j;
  tr_frame : forall n, ~ is_bitmap S n -> n <> IBLOCK (i_inum ip) S -> v' n = v n
}.

Lemma slot_no_block p : slot (replicate 13 0) p = 0.
Proof.
  unfold slot, znth. destruct (p <? 0); [done|]. destruct (replicate 13 0 !! Z.to_nat p) as [x|] eqn:Hx; [|done]. by apply lookup_replicate in Hx as [-> _].
Qed.

Lemma ptr_zeros v' p : ptr v' (replicate 13 0) p = 0.
Proof. unfold ptr. rewrite !slot_no_block. by case_match. Qed.

Lemma emptied_wf v' : file_wf v' emptied.
Proof.
  split; cbn [i_addrs i_size i_dev emptied set_i_size set_i_addrs]; [apply ip_dev|done|done|..].
  - intros p _. by rewrite ptr_zeros.
  - intros p q _ _. by rewrite ptr_zeros.
  - intros bn Hb. unfold BSIZE. lia.
Qed.

Lemma emptied_dinode : dinode_ok (dinode_of_inode ip) -> dinode_ok (dinode_of_inode emptied).
Proof. intros (? & ? & ? & ? & _ & _). unfold dinode_ok. split_and!; try done. by apply Forall_replicate. Qed.

(** The blocks are free, and then the inode is written. *)
Lemma freed_truncated v' : let ib := IBLOCK (i_inum ip) S in freed (S := S) v ip (firsts 0 269) v' -> (forall n, length (v' n) = 1024%nat) ->
  0 <= i_inum ip < sb_ninodes S -> dinode_ok (dinode_of_inode ip) ->
  truncated (fupd v' ib (put_dinode (v' ib) (dinode_off (i_inum ip)) (dinode_of_inode emptied))) emptied.
Proof.
  intros ib [H1 H2] Hl Hin Hdi. destruct (disk_inode_put Hly v' (i_inum ip) _ Hin (Hl ib) (emptied_dinode Hdi)) as [Hd1 Hd2]. fold ib in Hd1, Hd2.
  pose proof (ly_start Hly) as Hst. destruct (iblock_loggable Hly _ Hin) as (_ & Hib & Hibb). fold ib in Hib, Hibb. split; try done.
  - apply emptied_wf.
  - intros p Hp Hp0. destruct (fw_ptr _ _ _ Hw p Hp Hp0) as [Hr Hu]. fold ip in Hr, Hu. rewrite (used_meta Hly), H1 by (done || lia). apply andb_false_intro2, negb_false_iff, bool_decide_eq_true_2.
    split; [done|]. apply list_elem_of_fmap. exists p. split; [done|]. apply firsts_in. unfold NPTR in Hp. lia.
  - intros y Hy Hno. rewrite (used_meta Hly), H1 by done. rewrite bool_decide_eq_false_2, andb_true_r; [done|]. intros [_ Hin']. apply list_elem_of_fmap in Hin' as (p & Hp & Hin').
    apply firsts_in in Hin'. apply (Hno p); [unfold NPTR; lia|done].
  - intros j Hj Hne. rewrite Hd2 by done. unfold disk_inode. rewrite H2; [done|]. by apply (iblock_loggable Hly).
  - intros n Hn Hne. rewrite fupd_ne by done. by apply H2.
Qed.

(** itrunc(), with room in the log for the bitmap and the inode. *)
Lemma txn_itrunc k bs (Q : unit -> fsstate -> Prop) : txn (k + 1 + unlisted bs (bitmap_blocks S)) [] bs v F0 -> 0 <= k ->
  0 <= i_inum ip < sb_ninodes S -> dinode_ok (dinode_of_inode ip) ->
  (forall v' bs' F', txn k [] bs' v' F' -> IBLOCK (i_inum ip) S ∈ bs' -> moved i F0 F' -> truncated v' (getI i F') -> Q tt F') ->
  fsrun pr pid (itrunc i) F0 Q.
Proof.
  intros Ht Hk Hin Hdi HQ. unfold itrunc. eapply crun_bind, (txn_trunc_direct (k + 1)); [|lia|].
  { exists v, bs. split_and!; [exact Ht|apply freed_nil|..]; try (apply moved_kept; [done|apply kept_refl]). fold ip. by destruct ip. }
  intros G1 HG1. apply crun_assoc. eapply crun_bind, txn_trunc_indirect; [exact HG1|lia|]. intros G2 (v2 & bs2 & Ht2 & Hfd & Hmv & HI).
  pose proof (unlisted_nonneg bs2 (bitmap_blocks S)) as Hun. destruct (moved_upd i (set_i_size 0) G2) as [Hm3 HI3]; [by rewrite (moved_length _ _ _ Hmv)|].
  eapply crun_bind, (crun_modify pr pid _ (updI i (set_i_size 0))). set (G3 := updI i (set_i_size 0) G2) in *. rewrite HI in HI3. change (getI i G3 = emptied) in HI3.
  assert (Hin3 : i_inum (getI i G3) = i_inum ip) by by rewrite HI3. pose proof (cnt_01 bs2 (IBLOCK (i_inum ip) S)).
  eapply (txn_iupdate pr pid dev Hdev st users disk0 writes0 S dstart Hly (k + 1) k); rewrite ?Hin3; rewrite ?HI3; try done.
  - eapply txn_weaken; [by apply txn_updI|lia].
  - lia.
  - destruct Hm3 as (-> & _), Hmv as (-> & _). done.
  - apply ip_dev.
  - by apply emptied_dinode.
  - intros F' Ht' Hk'. eapply HQ; [exact Ht'|apply log_add_in; by left| |].
    + eapply moved_trans; [exact Hmv|]. eapply moved_trans; [exact Hm3|]. apply moved_kept; [|done]. by rewrite (moved_length _ _ _ Hm3), (moved_length _ _ _ Hmv).
    + rewrite (kept_getI i G3 F' Hk'), HI3. apply freed_truncated; try done. intros n. by eapply txn_len.
Qed.

End itrunc.

(** ** The operation *)

Section theorems.
Context {E : Env} {D : DiskDriver} {DR : DiskReady} {L : DiskLaws} (pr : nat) (pid dev : Z) (Hdev : 0 < dev < 2 ^ 31) (st : Z) (users : list Z).
Context (S : superblock) (dstart : Z) (Hly : layout st S dstart).
Notation quiet := (quiet pid dev st users).
Notation file_wf := (file_wf (S := S) (dstart := dstart) dev).

(** Truncating a locked inode, as open() with O_TRUNC does it. *)
Definition trunc_op (i : nat) : K unit := begin_op;; itrunc i;; end_op.

Lemma trunc_room bs : 0 < sb_size S -> (sb_size S - 1) / BPB + 2 <= MAXOPBLOCKS -> 1 + unlisted bs (bitmap_blocks S) <= MAXOPBLOCKS.
Proof. intros H1 H2. pose proof (unlisted_nonneg bs (bitmap_blocks S)) as [_ H]. rewrite bitmap_blocks_length in H by done. lia. Qed.

Lemma fsrun_trunc_op a F i (Q : unit -> fsstate -> Prop) : let ip := getI i F in
  quiet (av a) a F -> sb F = S -> (i < length (inodes F))%nat -> file_wf (av a) ip -> 0 <= i_inum ip < sb_ninodes S -> dinode_ok (dinode_of_inode ip) ->
  (sb_size S - 1) / BPB + 2 <= MAXOPBLOCKS ->
  (forall v' a' F', quiet v' a' F' -> truncated dev S dstart i (av a) F v' (getI i F') -> inodes F' = <[i := getI i F']> (inodes F) -> Q tt F') ->
  fsrun pr pid (trunc_op i) F Q.
Proof.
  intros ip Hq HS Hi Hw Hin Hdi Hroom HQ. unfold trunc_op. pose proof Hq as [_ _ _ Hsz Hus _ _ _ _ _ _ _]. pose proof (ly_start Hly). pose proof (ly_data _ _ _ Hly).
  eapply crun_bind, (quiet_begin pr pid dev Hdev st users); [exact Hq|]. intros F1 Ht1 Ho1 Hc1 Hs1 H1 H2 H3 H4.
  assert (HI1 : getI i F1 = ip) by (unfold getI; by rewrite H2).
  eapply crun_bind, (txn_itrunc pr pid dev Hdev st users (ad a) (aw a) S dstart Hly i (av a) F1) with (k := 0) (bs := []); rewrite ?HI1; try (done || congruence || lia).
  - eapply txn_weaken; [exact Ht1|]. pose proof (trunc_room [] ltac:(lia) Hroom). pose proof (unlisted_nonneg [] (bitmap_blocks S)). lia.
  - intros v' bs' F2 Ht2 Hin2 Hmv Htr. pose proof Hmv as (M1 & M2 & M3 & M4 & (_ & M5 & M6 & M7 & _)).
    eapply (txn_end pr pid dev Hdev st users); [exact Ht2|by intros ->; apply not_elem_of_nil in Hin2|by rewrite M6|by rewrite M7|by rewrite M5, Hs1|done|].
    intros a' F3 Hq3 E1 E2 E3 E4. assert (HI3 : getI i F3 = getI i F2) by (unfold getI; by rewrite E2). apply (HQ v' a' F3); rewrite ?HI3; [done| |congruence].
    destruct Htr as [T1 T2 T3 T4 T5 T6 T7]. unfold emptied in *. rewrite HI1 in *. by split.
Qed.

(** Truncating a well-formed file, begin_op(), itrunc() and end_op(), on a disk whose
    bitmap and one inode block fit in MAXOPBLOCKS: it succeeds and is durable.  Every
    block of the file, direct, indirect and the indirect block itself, is free
    afterwards and no other mark of the bitmap has changed; the inode on the disk has
    size 0 and no block; no other inode and no block outside the bitmap and the
    inode's own has changed. *)
Theorem itrunc_frees a i c0 s : let ip := getI i (k_fs s) in
  running pr pid None c0 s -> quiet (av a) a (k_fs s) -> sb (k_fs s) = S -> (i < length (inodes (k_fs s)))%nat ->
  file_wf (av a) ip -> 0 <= i_inum ip < sb_ninodes S -> dinode_ok (dinode_of_inode ip) -> (sb_size S - 1) / BPB + 2 <= MAXOPBLOCKS ->
  wp (trunc_op i) (fun _ s' => running pr pid None c0 s' /\
    exists v' a', quiet v' a' (k_fs s') /\ truncated dev S dstart i (av a) (k_fs s) v' (getI i (k_fs s')) /\
      inodes (k_fs s') = <[i := getI i (k_fs s')]> (inodes (k_fs s))) s.
Proof.
  intros ip Hrun Hq HS Hi Hw Hin Hdi Hroom. eapply wp_mono.
  - apply (fsrun_trunc_op a (k_fs s) i (fun _ F' => exists v' a', quiet v' a' F' /\ truncated dev S dstart i (av a) (k_fs s) v' (getI i F') /\
      inodes F' = <[i := getI i F']> (inodes (k_fs s)))) with (c0 := c0); try done. intros v' a' F' H1 H2 H3. by exists v', a'.
  - intros r s' (H1 & H2 & _). done.
Qed.

End theorems.
