(* ===== verification/FsPut.v ===== *)
(** * Giving up an inode (kernel/fs.c)

    iput() of the last reference to an inode that no directory names: it truncates the
    file, marks the inode free on the disk and leaves the entry of the table free. *)

From S2P Require Import Prelude Riscv Kstate CString Bytes Spinlock Kalloc Vm Sched SchedSpec Uart Sleeplock.
From S2P Require Import Bio FsRun BioSpec Log LogSpec LogCrash LogOps FsTxn Fs FsSpec FsImage FsAlloc File Tables FsRead PathSpec FsFile FsWrite FsTrunc.

(** A free sleep lock is taken while a spin lock is held. *)
Lemma crun_acquire_inode {E : Env} {DR : DiskReady} pr pid lk i F (Q : unit -> fsstate -> Prop) : L_sleep (SLinode i) <> lk ->
  sl_locked (i_lock (getI i F)) = 0 -> Q tt (updI i (lock_inode pid) F) -> crun pr pid (Some lk) (acquiresleep (SLinode i)) F (Some lk) Q.
Proof.
  intros Hne Hl HQ c0 s Hs <-. pose proof (running_ok _ _ _ _ _ Hs) as Hok.
  assert (Hf : free (L_sleep (SLinode i)) (k_ctl s)) by (eapply running_other; [exact Hs|by intros [= He]]).
  destruct (acquired_facts (L_sleep (SLinode i)) _ Hok) as [Hok' _].
  unfold acquiresleep. apply wp_bind, wp_kacquire; [done|done|]. cbn [loop]. apply wp_bind, wp_bind, wp_bind, wp_gets.
  set (s1 := kset_ctl _ s). assert (Hg : get_sleep (SLinode i) s1 = i_lock (getI i (k_fs s))) by (unfold get_sleep, getI, s1; cbn; by destruct (inodes (k_fs s) !! i)).
  rewrite Hg, Hl. apply wp_ret, wp_ret, wp_bind, wp_modify. apply wp_bind, (wp_curproc pr); [done|cbn; rewrite cur_acquired by done; by eapply running_cur|]. intros c Hc.
  apply wp_bind, wp_gets. rewrite get_proc_kset. apply wp_bind, wp_modify. apply (wp_krelease (k_ctl s)); [done|done|exact Hc|]. intros e He.
  split_and!; [|eapply running_frame; [exact Hs|cbn; rewrite (ru_ctl _ _ _ _ _ Hs); exact He|done|done|apply woken_refl]|apply woken_refl].
  change (Q tt (updI i (fun x => set_i_lock (set_sl_pid (p_pid (get_proc pr s)) (i_lock x)) x) (updI i (fun x => set_i_lock (set_sl_locked 1 (i_lock x)) x) (k_fs s)))).
  rewrite updI_upd, (ru_pid _ _ _ _ _ Hs). exact HQ.
Qed.

Section put.
Context {E : Env} {D : DiskDriver} {DR : DiskReady} {L : DiskLaws} (pr : nat) (pid dev : Z) (Hdev : 0 < dev < 2 ^ 31) (st : Z) (users : list Z).
Context (S : superblock) (dstart : Z) (Hly : layout st S dstart).
Notation quiet := (quiet pid dev st users).
Notation file_wf := (file_wf (S := S) (dstart := dstart) dev).

(** The inode [ip] is free on the disk [v'], and its blocks with it; nothing else has
    changed since [v]. *)
Record discarded (v : Z -> list Z) (ip : inode) (v' : Z -> list Z) : Prop := {
  di_free : disk_inode v' S (i_inum ip) = mkdinode 0 (i_major ip) (i_minor ip) (i_nlink ip) 0 (replicate 13 0);
  di_freed : forall p, 0 <= p < NPTR -> ptr v (i_addrs ip) p <> 0 -> used S v' (ptr v (i_addrs ip) p) = false;
  di_used : forall y, 0 <= y < sb_size S -> (forall p, 0 <= p < NPTR -> ptr v (i_addrs ip) p <> y) -> used S v' y = used S v y;
  di_others : forall j, 0 <= j < sb_ninodes S -> j <> i_inum ip -> disk_inode v' S j = disk_inode v S j;
  di_frame : forall n, ~ is_bitmap S n -> n <> IBLOCK (i_inum ip) S -> v' n = v n
}.

(** The entry is free. *)
Definition vacated (ip ip' : inode) : Prop :=
  i_dev ip' = i_dev ip /\ i_inum ip' = i_inum ip /\ i_ref ip' = 0 /\ i_valid ip' = 0 /\ sl_locked (i_lock ip') = 0.

(** The type is cleared after the truncation. *)
Lemma truncated_discarded i v F ip' v' : let ip := getI i F in let ib := IBLOCK (i_inum ip) S in
  file_wf v ip -> truncated dev S dstart i v F v' ip' -> (forall n, length (v' n) = 1024%nat) -> 0 <= i_inum ip < sb_ninodes S -> dinode_ok (dinode_of_inode ip) ->
  discarded v ip (fupd v' ib (put_dinode (v' ib) (dinode_off (i_inum ip)) (dinode_of_inode (set_i_type 0 (emptied i F))))).
Proof.
  intros ip ib Hw [T1 T2 T3 T4 T5 T6 T7] Hl Hin Hdi. assert (Hdi' : dinode_ok (dinode_of_inode (set_i_type 0 (emptied i F)))).
  { destruct Hdi as (_ & ? & ? & ? & _ & _). unfold dinode_ok. split_and!; try done. by apply Forall_replicate. }
  destruct (disk_inode_put Hly v' (i_inum ip) _ Hin (Hl ib) Hdi') as [Hd1 Hd2]. fold ib in Hd1, Hd2.
  pose proof (ly_start Hly) as Hst. destruct (iblock_loggable Hly _ Hin) as (_ & Hib & Hibb). fold ib in Hib, Hibb. split.
  - exact Hd1.
  - intros p Hp Hp0. destruct (fw_ptr _ _ _ Hw p Hp Hp0) as [Hr _]. pose proof (ly_data _ _ _ Hly). rewrite (used_meta Hly) by (done || lia). by apply T3.
  - intros y Hy Hno. rewrite (used_meta Hly) by done. by apply T4.
  - intros j Hj Hne. rewrite Hd2 by done. by apply T6.
  - intros n Hn Hne. rewrite fupd_ne by done. by apply T7.
Qed.

(** iput() of the last reference inside a transaction. *)
Lemma txn_iput disk0 writes0 k bs v F i (Q : unit -> fsstate -> Prop) : let ip := getI i F in
  txn pid dev st users disk0 writes0 (k + 1 + unlisted bs (bitmap_blocks S)) [] bs v F -> 0 <= k -> sb F = S -> (i < length (inodes F))%nat ->
  i_ref ip = 1 -> i_valid ip <> 0 -> i_nlink ip = 0 -> sl_locked (i_lock ip) = 0 -> file_wf v ip -> 0 <= i_inum ip < sb_ninodes S -> dinode_ok (dinode_of_inode ip) ->
  (forall v' bs' F', txn pid dev st users disk0 writes0 k [] bs' v' F' -> bs' <> [] -> moved i F F' -> discarded v ip v' -> vacated ip (getI i F') -> Q tt F') ->
  fsrun pr pid (iput (Some i)) F Q.
Proof.
  intros ip Ht Hk HS Hi Hr Hv Hnl Hlk Hw Hin Hdi HQ. unfold iput. eapply crun_bind, crun_kacquire, crun_bind, crun_ret, crun_bind, crun_geti. fold ip.
  assert (Hif : (i_ref ip =? 1) && truthy (i_valid ip) && (i_nlink ip =? 0) = true) by (rewrite Hr, Hnl; unfold truthy; by destruct (Z.eqb_spec (i_valid ip) 0)).
  rewrite Hif. cbn [when]. clear Hif. eapply crun_bind, crun_bind, crun_acquire_inode; [done|done|]. destruct (moved_upd i (lock_inode pid) F Hi) as [Hm0 HI0]. set (F0 := updI i (lock_inode pid) F) in *.
  pose proof (moved_length _ _ _ Hm0) as Hl0. eapply crun_bind, crun_krelease.
  eapply crun_bind, (txn_itrunc pr pid dev Hdev st users disk0 writes0 S dstart Hly i v F0) with (k := k) (bs := bs); rewrite ?HI0; try done.
  { by destruct Hw. }
  { lia. }
  { by apply txn_updI. }
  intros v1 bs1 F1 Ht1 Hib1 Hm1 Htr. destruct (moved_upd i (set_i_type 0) F1) as [Hm2 HI2]; [rewrite (moved_length _ _ _ Hm1); lia|].
  eapply crun_bind, (crun_modify pr pid _ (updI i (set_i_type 0))). set (F2 := updI i (set_i_type 0) F1) in *.
  pose proof (tr_inode _ _ _ _ _ _ _ _ Htr) as HI1. rewrite HI1 in HI2. set (ip2 := set_i_type 0 (emptied i F0)) in *.
  assert (Hip2 : i_inum ip2 = i_inum ip /\ i_dev ip2 = dev /\ i_ref ip2 = 1) by (unfold ip2, emptied; rewrite HI0; split_and!; [done|apply Hw|exact Hr]). destruct Hip2 as (J1 & J2 & J3).
  assert (Hdi2 : dinode_ok (dinode_of_inode ip2)).
  { destruct Hdi as (_ & ? & ? & ? & _ & _). unfold ip2, emptied. rewrite HI0. unfold dinode_ok. split_and!; try done. by apply Forall_replicate. }
  change (i_inum (lock_inode pid ip)) with (i_inum ip) in Hib1.
  eapply crun_bind, (txn_iupdate pr pid dev Hdev st users disk0 writes0 S dstart Hly k k bs1 v1 F2 i); rewrite ?HI2, ?J1; try done.
  { by apply txn_updI. }
  { rewrite cnt_in by done. lia. }
  { destruct Hm2 as (-> & _), Hm1 as (-> & _). done. }
  intros F3 Ht3 Hk3. eapply crun_bind, (crun_modify pr pid _ (updI i (set_i_valid 0))). eapply crun_bind, fsrun_release_inode. eapply crun_kacquire.
  eapply crun_bind, (crun_modify pr pid _ (updI i (fun x => set_i_ref (i_ref x - 1) x))), crun_krelease. rewrite !updI_upd.
  assert (Hm3 : moved i F F3).
  { eapply moved_trans; [exact Hm0|]. eapply moved_trans; [exact Hm1|]. eapply moved_trans; [exact Hm2|]. apply moved_kept; [|done].
    rewrite (moved_length _ _ _ Hm2), (moved_length _ _ _ Hm1). lia. }
  match goal with |- Q tt (updI i ?f F3) => destruct (moved_upd i f F3) as [Hm4 HI4]; [by rewrite (moved_length _ _ _ Hm3)|] end.
  eapply HQ; [apply txn_updI; exact Ht3|intros Hn; assert (Hin2 : IBLOCK (i_inum ip) S ∈ log_add (IBLOCK (i_inum ip) S) bs1) by (apply log_add_in; by left); rewrite Hn in Hin2; by apply not_elem_of_nil in Hin2|
    by eapply moved_trans| |].
  - pose proof (truncated_discarded i v F0 (getI i F1) v1) as Hdis. rewrite HI0 in Hdis. cbv zeta in Hdis.
    destruct Hdis as [D1 D2 D3 D4 D5]; [by destruct Hw|exact Htr|intros n; by eapply txn_len|exact Hin|exact Hdi|]. by split.
  - rewrite HI4, (kept_getI i F2 F3 Hk3), HI2. split_and!; [change (i_dev ip2 = i_dev ip); rewrite J2; symmetry; apply Hw|exact J1|change (i_ref ip2 - 1 = 0); lia|done|done].
Qed.

Lemma quiet_updI v a F i f : quiet v a F -> quiet v a (updI i f F).
Proof. intros [? [] ? ? ? ? ? ? ? ? ? ?]. split; try done; by apply cached_updI. Qed.

(** As exit() gives up its directory and fileclose() a file. *)
Definition put_op (i : nat) : K unit := begin_op;; iput (Some i);; end_op.

Lemma fsrun_put_op a F i (Q : unit -> fsstate -> Prop) : let ip := getI i F in
  quiet (av a) a F -> sb F = S -> (i < length (inodes F))%nat -> i_ref ip = 1 -> i_valid ip <> 0 -> i_nlink ip = 0 -> sl_locked (i_lock ip) = 0 ->
  file_wf (av a) ip -> 0 <= i_inum ip < sb_ninodes S -> dinode_ok (dinode_of_inode ip) -> (sb_size S - 1) / BPB + 2 <= MAXOPBLOCKS ->
  (forall v' a' F', quiet v' a' F' -> discarded (av a) ip v' -> vacated ip (getI i F') -> inodes F' = <[i := getI i F']> (inodes F) -> Q tt F') ->
  fsrun pr pid (put_op i) F Q.
Proof.
  intros ip Hq HS Hi Hr Hv Hnl Hlk Hw Hin Hdi Hroom HQ. unfold put_op. pose proof Hq as [_ _ _ Hsz Hus _ _ _ _ _ _ _]. pose proof (ly_start Hly). pose proof (ly_data _ _ _ Hly).
  eapply crun_bind, (quiet_begin pr pid dev Hdev st users); [exact Hq|]. intros F1 Ht1 Ho1 Hc1 Hs1 H1 H2 H3 H4.
  assert (HI1 : getI i F1 = ip) by (unfold getI; by rewrite H2).
  eapply crun_bind, (txn_iput (ad a) (aw a) 0 [] (av a) F1 i); rewrite ?HI1; try (done || congruence || lia).
  - eapply txn_weaken; [exact Ht1|]. pose proof (trunc_room S [] ltac:(lia) Hroom). pose proof (unlisted_nonneg [] (bitmap_blocks S)). lia.
  - intros v' bs' F2 Ht2 Hne Hmv Hdis Hva. pose proof Hmv as (M1 & M2 & M3 & M4 & (_ & M5 & M6 & M7 & _)).
    eapply (txn_end pr pid dev Hdev st users); [exact Ht2|done|by rewrite M6|by rewrite M7|by rewrite M5, Hs1|done|].
    intros a' F3 Hq3 E1 E2 E3 E4. assert (HI3 : getI i F3 = getI i F2) by (unfold getI; by rewrite E2). apply (HQ v' a' F3); rewrite ?HI3; [done|done|done|congruence].
Qed.

(** C13. begin_op(), iput() and end_op() with the last reference to a valid inode that no
    directory names, on a disk whose bitmap and one inode block fit in MAXOPBLOCKS: it
    succeeds and is durable.  The inode is free on the disk, with type 0, no size and no
    blocks; every block of the file is free and no other mark of the bitmap, inode or
    block has changed; the entry of the inode table has no reference, is not valid and
    not locked, and every other entry is as before. *)
Theorem iput_discards a i c0 s : let ip := getI i (k_fs s) in
  running pr pid None c0 s -> quiet (av a) a (k_fs s) -> sb (k_fs s) = S -> (i < length (inodes (k_fs s)))%nat ->
  i_ref ip = 1 -> i_valid ip <> 0 -> i_nlink ip = 0 -> sl_locked (i_lock ip) = 0 ->
  file_wf (av a) ip -> 0 <= i_inum ip < sb_ninodes S -> dinode_ok (dinode_of_inode ip) -> (sb_size S - 1) / BPB + 2 <= MAXOPBLOCKS ->
  wp (put_op i) (fun _ s' => running pr pid None c0 s' /\
    exists v' a', quiet v' a' (k_fs s') /\ discarded (av a) ip v' /\ vacated ip (getI i (k_fs s')) /\
      inodes (k_fs s') = <[i := getI i (k_fs s')]> (inodes (k_fs s))) s.
Proof.
  intros ip Hrun Hq HS Hi Hr Hv Hnl Hlk Hw Hin Hdi Hroom. eapply wp_mono.
  - apply (fsrun_put_op a (k_fs s) i (fun _ F' => exists v' a', quiet v' a' F' /\ discarded (av a) ip v' /\ vacated ip (getI i F') /\
      inodes F' = <[i := getI i F']> (inodes (k_fs s)))) with (c0 := c0); try done. intros v' a' F' H1 H2 H3 H4. by exists v', a'.
  - intros r s' (H1 & H2 & _). done.
Qed.

End put.
