(* ===== verification/FsDemo.v ===== *)
(** * The file system on a small disk

    A disk with the layout of mkfs and one file or directory, and the theorems about
    allocation, writing, truncation and directory entries applied to it. *)

From S2P Require Import Prelude Riscv Kstate CString Bytes Spinlock Kalloc Vm Sched SchedSpec Uart Sleeplock.
From S2P Require Import Bio FsRun BioSpec Log LogSpec LogCrash LogOps FsTxn Fs FsSpec FsImage FsAlloc File Tables FsRead FsFile FsWrite FsDir FsTrunc FsPut.

(** ** A small disk *)

(** The layout of mkfs, with one file, in block 46. *)
Definition demo_sb : superblock := mksuperblock FSMAGIC 2000 1954 200 30 2 32 45.
Definition demo_map : list Z := replicate 5 255 ++ 127 :: replicate 1018 0.

Section demo.
Context (d : list Z) (type size : Z) (Hd : length d = 1024%nat) (Hsize : 0 <= size <= 1024) (Htype : 0 <= type <= 3).

Definition demo_inode : inode := mkinode 1 3 1 sleeplock0 1 type 0 0 1 size (46 :: replicate 12 0).
Definition demo_fs0 : fsstate :=
  mkfsstate (bufs fs0) (klog_ops 0) demo_sb (demo_inode :: replicate 49 inode0)
    (files fs0) (pipes fs0) {[ 45 := demo_map; 46 := d ]} (disk_writes fs0).
Definition demo_fs : fsstate := set_bufs bufs_init demo_fs0.
Definition demo_abs : absview := abs_of 1 demo_fs.

Lemma demo_layout : layout 2 demo_sb 46.
Proof. split; vm_compute; repeat split; congruence. Qed.

Definition demo_disk (n : Z) : list Z := if decide (n = 45) then demo_map else if decide (n = 46) then d else zero_block.

Lemma demo_fs_block n : block demo_fs0 n = demo_disk n.
Proof.
  unfold block, demo_disk. cbn [disk demo_fs0]. case_decide; [subst; by rewrite lookup_insert_eq|]. rewrite lookup_insert_ne by done.
  case_decide; [subst; by rewrite lookup_singleton_eq|]. by rewrite lookup_singleton_ne.
Qed.

Lemma demo_init : cache_ok 1 2 demo_fs /\ idle demo_abs /\ forall n, av demo_abs n = demo_disk n.
Proof.
  destruct (init_idle 1 2 demo_fs0) as (Hc & Hi & Hv); [lia|intros n; rewrite demo_fs_block; unfold demo_disk; by repeat case_decide|].
  split; [exact Hc|]. split; [exact Hi|]. intros n. rewrite <- demo_fs_block. apply Hv.
Qed.

Lemma demo_view n : av demo_abs n = demo_disk n.
Proof. apply demo_init. Qed.

Lemma demo_quiet : quiet 2 1 2 [] (av demo_abs) demo_abs demo_fs.
Proof.
  destruct demo_init as (Hc & (I1 & I2 & I3) & Hv). split.
  - by apply cached_abs.
  - split; [repeat split|reflexivity|constructor].
  - split; reflexivity.
  - vm_compute. reflexivity.
  - vm_compute. reflexivity.
  - exact I2.
  - intros n. rewrite I1. lia.
  - intros n. rewrite I1. lia.
  - intros n. rewrite Hv, <- demo_fs_block. reflexivity.
  - reflexivity.
  - lia.
  - intros n _. apply I1.
Qed.

(** The marks of the disk: blocks 0 to 46 are in use. *)
Lemma demo_used b : 0 <= b < 2000 -> used demo_sb (av demo_abs) b = (b <? 47).
Proof.
  intros Hb. unfold used. assert (Hbb : BBLOCK b demo_sb = 45) by (unfold BBLOCK; rewrite (Z.div_small b) by (change BPB with 8192; lia); reflexivity).
  rewrite Hbb, demo_view, (Z.mod_small b) by (change BPB with 8192; lia). unfold demo_disk. rewrite decide_True by done.
  assert (Hall : forallb (fun k => Bool.eqb (in_use demo_map (Z.of_nat k)) (Z.of_nat k <? 47)) (seq 0 2000) = true) by (vm_compute; reflexivity).
  rewrite forallb_forall in Hall. specialize (Hall (Z.to_nat b)). rewrite Z2Nat.id in Hall by lia. apply Bool.eqb_prop, Hall, in_seq. lia.
Qed.

Lemma demo_ptr v p : 0 <= p -> ptr v (46 :: replicate 12 0) p = if p =? 0 then 46 else 0.
Proof.
  intros Hp. destruct (Z_le_gt_dec p NDIRECT) as [Hle|Hgt].
  - rewrite ptr_slot by done. unfold NDIRECT in Hle. unfold slot, znth. destruct (Z.ltb_spec p 0); [lia|]. destruct (Z.eqb_spec p 0) as [->|]; [done|].
    destruct (Z.to_nat p) as [|k] eqn:Hk; [lia|]. cbn [lookup list_lookup]. destruct (replicate 12 0 !! k) as [x|] eqn:Hx; [|done].
    apply lookup_replicate in Hx as [-> _]. done.
  - rewrite ptr_none; [|lia|done]. unfold NDIRECT in Hgt. destruct (Z.eqb_spec p 0); [lia|done].
Qed.

Lemma demo_wf : file_wf (S := demo_sb) (dstart := 46) 1 (av demo_abs) demo_inode.
Proof.
  split; try done.
  - assert (MAXFILE * BSIZE = 274432) by done. cbn [i_size demo_inode]. lia.
  - intros p Hp. cbn [i_addrs demo_inode]. rewrite demo_ptr by lia. destruct (p =? 0); [|done]. intros _. split; [cbn; lia|]. by rewrite demo_used by lia.
  - intros p q Hp Hq. cbn [i_addrs demo_inode]. rewrite !demo_ptr by lia. destruct (Z.eqb_spec p 0), (Z.eqb_spec q 0); try done. by subst.
  - intros bn Hb Hs. cbn [i_addrs demo_inode i_size] in *. unfold BSIZE in Hs. assert (bn = 0) as -> by lia. by rewrite demo_ptr.
Qed.

Lemma demo_dinode_ok : dinode_ok (dinode_of_inode demo_inode).
Proof.
  unfold dinode_ok, is_short, is_uint. cbn [dinode_of_inode demo_inode di_type di_major di_minor di_nlink di_size di_addrs i_type i_major i_minor i_nlink i_size i_addrs].
  split_and!; try lia; [|done]. constructor; [lia|]. apply Forall_replicate. lia.
Qed.

Lemma demo_meta : meta_used demo_sb 46 (av demo_abs).
Proof. intros b Hb. rewrite demo_used by lia. apply Z.ltb_lt. lia. Qed.

Lemma demo_avail k : k <= 1953 -> avail demo_sb (av demo_abs) k.
Proof.
  intros Hk. exists (map Z.of_nat (seq 47 1953)). split; [|split].
  - apply NoDup_fmap_2; [intros x y; lia|apply NoDup_seq].
  - rewrite length_map, length_seq. lia.
  - intros b Hb. apply list_elem_of_fmap in Hb as (x & -> & Hx). apply elem_of_seq in Hx. split; [cbn; lia|]. rewrite demo_used by lia. apply Z.ltb_ge. lia.
Qed.

Lemma demo_txn : txn 2 1 2 [] (ad demo_abs) (aw demo_abs) (8 + 2) [] [] (av demo_abs) (k_fs (set_k_fs (opened demo_fs) ks1)).
Proof. exact (quiet_opened 2 1 ltac:(lia) 2 [] _ _ _ demo_quiet). Qed.

Lemma demo_free : exists b, 0 <= b < sb_size demo_sb /\ used demo_sb (av demo_abs) b = false.
Proof. exists 47. split; [cbn; lia|]. by rewrite demo_used by lia. Qed.

End demo.

(** A file of 1020 bytes. *)
Definition file_data : list Z := replicate 1024 5.
Definition file_fs : fsstate := demo_fs file_data T_FILE 1020.
Definition file_abs : absview := demo_abs file_data T_FILE 1020.

(** A write of 100 bytes at 1000 fills block 46 and takes block 47. *)
Lemma writei_durable_witness : wp (@write_chunk env0 ideal_driver 0 (replicate 100 7) 1000) (fun r s' => r = 100 /\
  i_size (getI 0 (k_fs s')) = 1100 /\ exists v', file_bytes v' (i_addrs (getI 0 (k_fs s'))) 1000 100 = replicate 100 7 /\
    file_byte v' (i_addrs (getI 0 (k_fs s'))) 999 = 5) (set_k_fs file_fs ks1).
Proof.
  eapply wp_mono.
  - apply (@writei_durable env0 ideal_driver always_ready ideal_laws 1 2 1 ltac:(lia) 2 [] demo_sb 46 demo_layout file_abs 0 1000 (replicate 100 7) ctl1);
      [apply running_idle|exact (demo_quiet file_data T_FILE 1020 eq_refl)|reflexivity|simpl; lia|exact (demo_wf file_data T_FILE 1020 eq_refl ltac:(lia))|exact (demo_meta file_data T_FILE 1020 eq_refl)|cbn; lia| |cbn; lia|cbn; unfold BSIZE; lia|vm_compute; congruence|].
    + exact (demo_dinode_ok file_data T_FILE 1020 eq_refl ltac:(lia) ltac:(unfold T_FILE; lia)).
    + apply (demo_avail file_data T_FILE 1020 eq_refl). vm_compute. congruence.
  - intros r s' (-> & _ & v' & a' & _ & Hwn & _). split; [reflexivity|]. split; [rewrite (wn_inode _ _ _ _ _ _ _ _ _ Hwn); reflexivity|]. exists v'.
    split; [exact (wn_new _ _ _ _ _ _ _ _ _ Hwn)|].
    rewrite (wn_old _ _ _ _ _ _ _ _ _ Hwn); [|cbn; lia|cbn; lia]. unfold file_byte. change (block_of (av file_abs) (i_addrs (getI 0 (k_fs (set_k_fs file_fs ks1)))) (999 / BSIZE)) with 46.
    rewrite (demo_view file_data T_FILE 1020 eq_refl). reflexivity.
Defined.

Lemma write_then_read_witness : wp (@write_chunk env0 ideal_driver 0 (replicate 100 7) 1000;; @readi env0 ideal_driver 0 ToObj 990 110)
  (fun r _ => fst r = 110 /\ snd r !! 5%nat = Some 5 /\ snd r !! 50%nat = Some 7) (set_k_fs file_fs ks1).
Proof.
  eapply wp_mono.
  - apply (@write_then_read env0 ideal_driver always_ready ideal_laws 1 2 1 ltac:(lia) 2 [] demo_sb 46 demo_layout file_abs 0 1000 (replicate 100 7) 990 110 ctl1);
      [apply running_idle|exact (demo_quiet file_data T_FILE 1020 eq_refl)|reflexivity|simpl; lia|exact (demo_wf file_data T_FILE 1020 eq_refl ltac:(lia))|exact (demo_meta file_data T_FILE 1020 eq_refl)|cbn; lia|exact (demo_dinode_ok file_data T_FILE 1020 eq_refl ltac:(lia) ltac:(unfold T_FILE; lia))|cbn; lia|cbn; unfold BSIZE; lia|
       vm_compute; congruence| |lia|lia|cbn; lia].
    apply (demo_avail file_data T_FILE 1020 eq_refl). vm_compute. congruence.
  - intros r s' (_ & H1 & _ & H3). split; [exact H1|]. split.
    + rewrite H3 by lia. cbn zeta. change ((1000 <=? 990 + Z.of_nat 5) && (990 + Z.of_nat 5 <? 1000 + Z.of_nat (length (replicate 100 7)))) with false. cbv iota.
      unfold file_byte. change (block_of (av file_abs) (i_addrs (getI 0 (k_fs (set_k_fs file_fs ks1)))) ((990 + Z.of_nat 5) / BSIZE)) with 46. rewrite (demo_view file_data T_FILE 1020 eq_refl). reflexivity.
    + rewrite H3 by lia. reflexivity.
Defined.

Lemma balloc_allocates_witness : wp (@balloc env0 ideal_driver 1) (fun b _ => b = 47) (set_k_fs (opened file_fs) ks1).
Proof.
  eapply wp_mono.
  - apply (@balloc_allocates env0 ideal_driver always_ready ideal_laws 1 2 1 ltac:(lia) 2 [] (ad file_abs) (aw file_abs) demo_sb 46 demo_layout 8 [] (av file_abs) ctl1);
      [apply running_idle|exact (demo_txn file_data T_FILE 1020 eq_refl)|lia|reflexivity|exact (demo_meta file_data T_FILE 1020 eq_refl)|exact (demo_free file_data T_FILE 1020 eq_refl)].
  - intros b s' (_ & H1 & H2 & H3 & _). cbn in H1. rewrite (demo_used file_data T_FILE 1020 eq_refl) in H2 by lia. apply Z.ltb_ge in H2. destruct (Z.eq_dec b 47) as [|Hne]; [done|].
    pose proof (H3 47 ltac:(lia)) as H. rewrite (demo_used file_data T_FILE 1020 eq_refl) in H by lia. discriminate H.
Defined.

Lemma balloc_bfree_witness : wp (b <- @balloc env0 ideal_driver 1;; @bfree env0 ideal_driver 1 b)
  (fun _ s' => exists v' bs', txn 2 1 2 [] (ad file_abs) (aw file_abs) 8 [] bs' v' (k_fs s') /\ used demo_sb v' 46 = true /\ used demo_sb v' 47 = false)
  (set_k_fs (opened file_fs) ks1).
Proof.
  eapply wp_mono.
  - apply (@balloc_bfree env0 ideal_driver always_ready ideal_laws 1 2 1 ltac:(lia) 2 [] (ad file_abs) (aw file_abs) demo_sb 46 demo_layout 8 [] (av file_abs) ctl1);
      [apply running_idle|exact (demo_txn file_data T_FILE 1020 eq_refl)|lia|reflexivity|exact (demo_meta file_data T_FILE 1020 eq_refl)|exact (demo_free file_data T_FILE 1020 eq_refl)].
  - intros [] s' (_ & bs' & v' & H1 & _ & H3). exists v', bs'. split; [exact H1|]. rewrite !H3, !(demo_used file_data T_FILE 1020 eq_refl) by (cbn; lia). done.
Defined.

(** Truncating the file frees block 46 and nothing else. *)
Lemma itrunc_frees_witness : wp (@trunc_op env0 ideal_driver 0) (fun _ s' => i_size (getI 0 (k_fs s')) = 0 /\
  exists v', used demo_sb v' 46 = false /\ used demo_sb v' 45 = true /\ di_addrs (disk_inode v' demo_sb 3) = replicate 13 0) (set_k_fs file_fs ks1).
Proof.
  eapply wp_mono.
  - apply (@itrunc_frees env0 ideal_driver always_ready ideal_laws 1 2 1 ltac:(lia) 2 [] demo_sb 46 demo_layout file_abs 0 ctl1);
      [apply running_idle|exact (demo_quiet file_data T_FILE 1020 eq_refl)|reflexivity|simpl; lia|exact (demo_wf file_data T_FILE 1020 eq_refl ltac:(lia))|cbn; lia| |vm_compute; congruence].
    exact (demo_dinode_ok file_data T_FILE 1020 eq_refl ltac:(lia) ltac:(unfold T_FILE; lia)).
  - intros r s' (_ & v' & a' & _ & [T1 T2 T3 T4 T5 T6 T7] & _). split; [rewrite T1; reflexivity|]. exists v'.
    change (i_addrs (getI 0 (k_fs (set_k_fs file_fs ks1)))) with (46 :: replicate 12 0) in T3, T4. split; [apply (T3 0); [unfold NPTR; lia|discriminate]|]. split.
    + rewrite T4; [|cbn; lia|].
      * by rewrite (demo_used file_data T_FILE 1020 eq_refl) by lia.
      * intros p Hp. rewrite (demo_ptr file_data eq_refl) by lia. by destruct (p =? 0).
    + change (i_inum (getI 0 (k_fs (set_k_fs file_fs ks1)))) with 3 in T5. rewrite T5, T1. reflexivity.
Defined.

(** The file after its last name was removed. *)
Definition unlinked_fs : fsstate := updI 0 (set_i_nlink 0) file_fs.

Lemma iput_discards_witness : wp (@put_op env0 ideal_driver 0) (fun _ s' => i_ref (getI 0 (k_fs s')) = 0 /\
  exists v', used demo_sb v' 46 = false /\ used demo_sb v' 45 = true /\ di_type (disk_inode v' demo_sb 3) = 0) (set_k_fs unlinked_fs ks1).
Proof.
  eapply wp_mono.
  - apply (@iput_discards env0 ideal_driver always_ready ideal_laws 1 2 1 ltac:(lia) 2 [] demo_sb 46 demo_layout file_abs 0 ctl1);
      [apply running_idle|apply quiet_updI, (demo_quiet file_data T_FILE 1020 eq_refl)|reflexivity|simpl; lia|reflexivity|discriminate|reflexivity|reflexivity| |cbn; lia| |vm_compute; congruence].
    + by destruct (demo_wf file_data T_FILE 1020 eq_refl ltac:(lia)).
    + destruct (demo_dinode_ok file_data T_FILE 1020 eq_refl ltac:(lia) ltac:(unfold T_FILE; lia)) as (? & ? & ? & _ & ? & ? & ?). by split_and!.
  - intros r s' (_ & v' & a' & _ & [D1 D2 D3 D4 D5] & (_ & _ & V3 & _) & _). split; [exact V3|]. exists v'.
    change (i_addrs (getI 0 (k_fs (set_k_fs unlinked_fs ks1)))) with (46 :: replicate 12 0) in D2, D3. split; [apply (D2 0); [unfold NPTR; lia|discriminate]|]. split.
    + rewrite D3; [|cbn; lia|].
      * by rewrite (demo_used file_data T_FILE 1020 eq_refl) by lia.
      * intros p Hp. rewrite (demo_ptr file_data eq_refl) by lia. by destruct (p =? 0).
    + change (i_inum (getI 0 (k_fs (set_k_fs unlinked_fs ks1)))) with 3 in D1. rewrite D1. reflexivity.
Defined.

(** The directory of FsRead.v, with the entries ".", a free one and "init". *)
Lemma demo_dir_bytes : Forall is_byte demo_dir.
Proof.
  apply Forall_forall. intros x Hx. apply list_elem_of_In in Hx. assert (Hb : forallb (fun c => (0 <=? c) && (c <? 256)) demo_dir = true) by (vm_compute; reflexivity).
  apply (proj1 (forallb_forall _ _) Hb) in Hx. unfold is_byte. lia.
Qed.

Lemma dir_demo_wf : dir_wf 1 demo_sb 46 (av (demo_abs demo_dir T_DIR 48)) (demo_inode T_DIR 48).
Proof.
  pose proof (demo_wf demo_dir T_DIR 48 eq_refl ltac:(lia)) as Hw. split; [exact Hw|reflexivity|reflexivity|]. intros k Hk. cbn [i_size demo_inode] in Hk.
  pose proof (Z.div_small k BSIZE ltac:(unfold BSIZE; lia)) as Hq. pose proof (Z.mod_small k BSIZE ltac:(unfold BSIZE; lia)) as Hr.
  unfold file_byte. rewrite Hq, Hr. change (block_of _ (i_addrs (demo_inode T_DIR 48)) 0) with 46. rewrite (demo_view demo_dir T_DIR 48 eq_refl).
  change (demo_disk demo_dir 46) with demo_dir. unfold znth. destruct (Z.ltb_spec k 0); [lia|].
  destruct (lookup_lt_is_Some_2 demo_dir (Z.to_nat k)) as [x Hx]; [change (length demo_dir) with 1024%nat; lia|]. rewrite Hx. exact (Forall_lookup_1 _ _ _ _ demo_dir_bytes Hx).
Qed.

Lemma dir_demo_entry v off : v 46 = demo_dir -> 0 <= off <= 1008 -> off mod 16 = 0 -> dirent_at v (46 :: replicate 12 0) off = slice demo_dir (Z.to_nat off) 16.
Proof.
  intros Hi Ho Hm. pose proof (Z.div_mod off 16 ltac:(lia)). unfold dirent_at. assert (Hq : off / BSIZE = 0) by (apply Z.div_small; unfold BSIZE; lia).
  assert (Hr : off mod BSIZE = off) by (apply Z.mod_small; unfold BSIZE; lia). assert (Hb : block_of v (46 :: replicate 12 0) 0 = 46) by reflexivity.
  rewrite file_bytes_block; rewrite ?Hq, ?Hr, ?Hb, ?Hi; [reflexivity|lia|unfold sizeof_dirent; lia|unfold sizeof_dirent, BSIZE; lia|reflexivity].
Qed.

(** The entry "sh" goes into the free slot, at 16. *)
Lemma dirlink_adds_witness : wp (@link_op env0 ideal_driver 0 (bytes_of_string "sh") 9)
  (fun r s' => r = 0 /\ exists v', dir_find (bytes_of_string "sh") (dir_entries v' (i_addrs (getI 0 (k_fs s'))) (i_size (getI 0 (k_fs s')))) = Some (16, (9, bytes_of_string "sh")))
  (set_k_fs (demo_fs demo_dir T_DIR 48) ks1).
Proof.
  assert (Hv : av (demo_abs demo_dir T_DIR 48) 46 = demo_dir) by (rewrite (demo_view demo_dir T_DIR 48 eq_refl); reflexivity).
  eapply wp_mono.
  - apply (@dirlink_adds env0 ideal_driver always_ready ideal_laws 1 2 1 ltac:(lia) 2 [] demo_sb 46 demo_layout (demo_abs demo_dir T_DIR 48) 0 (bytes_of_string "sh") 9 ctl1).
    + apply running_idle.
    + exact (demo_quiet demo_dir T_DIR 48 eq_refl).
    + reflexivity.
    + simpl. lia.
    + exact dir_demo_wf.
    + exact (demo_meta demo_dir T_DIR 48 eq_refl).
    + cbn. lia.
    + exact (demo_dinode_ok demo_dir T_DIR 48 eq_refl ltac:(lia) ltac:(unfold T_DIR; lia)).
    + vm_compute. congruence.
    + apply bytes_of_string_bytes.
    + lia.
    + intros x. apply (iget_free 1 x _ 1 inode0); reflexivity.
    + change (i_addrs (getI 0 (k_fs (set_k_fs (demo_fs demo_dir T_DIR 48) ks1)))) with (46 :: replicate 12 0).
      change (i_size (getI 0 (k_fs (set_k_fs (demo_fs demo_dir T_DIR 48) ks1)))) with 48. unfold dir_entries. change (dir_offs 48) with [0; 16; 32]. cbn [map].
      rewrite !(dir_demo_entry _ _ Hv) by (reflexivity || lia). vm_compute. reflexivity.
    + apply (demo_avail demo_dir T_DIR 48 eq_refl). lia.
  - intros r s' (-> & _ & v' & a' & _ & _ & _ & Hf & _). split; [reflexivity|]. exists v'. rewrite Hf. do 2 f_equal.
Defined.
