(* ===== verification/PipeSpec.v ===== *)
(** * Pipes are queues (kernel/pipe.c)

    The ring buffer of a pipe, whose counters run modulo 2^32, holds a queue of
    at most PIPESIZE bytes: pipewrite() appends the bytes of the writer's memory
    and piperead() moves the oldest bytes to the reader's. *)

From S2P Require Import Prelude Riscv Kstate CString Spinlock Kalloc Vm PageTable UserMem Sched SchedSpec.
From S2P Require Import Sleeplock Bio Log Fs File.

(** ** The ring *)

Definition pipe_count (p : pipe) : Z := u32 (pi_nwrite p - pi_nread p).

Definition pipe_ok (p : pipe) : Prop :=
  length (pi_data p) = 512%nat /\ 0 <= pi_nread p < 2 ^ 32 /\ 0 <= pi_nwrite p < 2 ^ 32 /\
  pipe_count p <= PIPESIZE.

(** The bytes in a pipe, oldest first. *)
Definition queue (p : pipe) : list Z :=
  map (fun k => default 0 (znth (pi_data p) ((pi_nread p + Z.of_nat k) mod PIPESIZE)))
      (seq 0 (Z.to_nat (pipe_count p))).

(** The updates of the loops of pipewrite() and piperead(). *)
Definition push (p : pipe) (b : Z) : pipe :=
  set_pi_nwrite (u32 (pi_nwrite p + 1)) (set_pi_data (zupd (pi_data p) (pi_nwrite p mod PIPESIZE) b) p).
Definition pop (p : pipe) : pipe := set_pi_nread (u32 (pi_nread p + 1)) p.

Lemma u32_mod512 z : u32 z mod PIPESIZE = z mod PIPESIZE.
Proof.
  unfold u32, PIPESIZE. change (2 ^ 32) with (512 * 8388608). rewrite Z.rem_mul_r by lia.
  rewrite Z.mul_comm, Z.mod_add, Z.mod_mod by lia. done.
Qed.

Lemma queue_length p : length (queue p) = Z.to_nat (pipe_count p).
Proof. unfold queue. by rewrite length_map, length_seq. Qed.

Lemma pipe_full p : pipe_ok p -> (pi_nwrite p =? u32 (pi_nread p + PIPESIZE)) = (pipe_count p =? PIPESIZE).
Proof.
  intros (_ & Hr & Hw & Hc). unfold pipe_count, u32, PIPESIZE in *.
  destruct (Z.eqb_spec (pi_nwrite p) ((pi_nread p + 512) mod 2 ^ 32)), (Z.eqb_spec ((pi_nwrite p - pi_nread p) mod 2 ^ 32) 512);
    try done; exfalso; Z.div_mod_to_equations; lia.
Qed.

Lemma pipe_empty p : pipe_ok p -> (pi_nread p =? pi_nwrite p) = (pipe_count p =? 0).
Proof.
  intros (_ & Hr & Hw & _). unfold pipe_count, u32.
  destruct (Z.eqb_spec (pi_nread p) (pi_nwrite p)), (Z.eqb_spec ((pi_nwrite p - pi_nread p) mod 2 ^ 32) 0);
    try done; exfalso; Z.div_mod_to_equations; lia.
Qed.

Lemma push_count p b : pipe_ok p -> pipe_count p < PIPESIZE -> pipe_count (push p b) = pipe_count p + 1.
Proof.
  intros (_ & Hr & Hw & _). unfold pipe_count, push, u32, PIPESIZE. simpl. intros. Z.div_mod_to_equations. lia.
Qed.

Lemma pop_count p : pipe_ok p -> 0 < pipe_count p -> pipe_count (pop p) = pipe_count p - 1.
Proof.
  intros (_ & Hr & Hw & _). unfold pipe_count, pop, u32. simpl. intros. Z.div_mod_to_equations. lia.
Qed.

Lemma push_ok p b : pipe_ok p -> pipe_count p < PIPESIZE -> pipe_ok (push p b).
Proof.
  intros Hok Hc. pose proof (push_count p b Hok Hc). destruct Hok as (H1 & H2 & H3 & H4).
  split; [simpl; by rewrite zupd_length|]. split; [done|]. split; [apply u32_range|lia].
Qed.

Lemma pop_ok p : pipe_ok p -> 0 < pipe_count p -> pipe_ok (pop p).
Proof.
  intros Hok Hc. pose proof (pop_count p Hok Hc). destruct Hok as (H1 & H2 & H3 & H4).
  split; [done|]. split; [apply u32_range|]. split; [done|lia].
Qed.

Lemma ring_index p k : pipe_ok p -> 0 <= k <= pipe_count p -> pipe_count p < PIPESIZE ->
  (pi_nread p + k) mod PIPESIZE = pi_nwrite p mod PIPESIZE <-> k = pipe_count p.
Proof.
  intros (_ & Hr & Hw & Hc) Hk Hk2. assert (He : pi_nwrite p mod PIPESIZE = (pi_nread p + pipe_count p) mod PIPESIZE).
  { rewrite <- (u32_mod512 (pi_nread p + _)). f_equal. unfold pipe_count, u32. rewrite Z.add_mod_idemp_r by lia.
    replace (pi_nread p + (pi_nwrite p - pi_nread p)) with (pi_nwrite p) by lia. by rewrite Z.mod_small. }
  rewrite He. unfold PIPESIZE in *. split; [|by intros ->]. intros. Z.div_mod_to_equations. lia.
Qed.

(** Writing a byte appends it to the queue. *)
Lemma queue_push p b : pipe_ok p -> pipe_count p < PIPESIZE -> queue (push p b) = queue p ++ [b].
Proof.
  intros Hok Hc. assert (H0 : 0 <= pipe_count p) by (unfold pipe_count; apply u32_range).
  apply list_eq. intros k. unfold queue at 1. rewrite push_count by done. rewrite list_lookup_fmap.
  assert (Hl : length (pi_data p) = 512%nat) by apply Hok. pose proof (Z.mod_pos_bound (pi_nwrite p) PIPESIZE ltac:(done)).
  destruct (decide (k < Z.to_nat (pipe_count p))%nat) as [Hk|Hk]; [|destruct (decide (k = Z.to_nat (pipe_count p))) as [He|He]].
  - rewrite lookup_seq_lt by lia. rewrite lookup_app_l by (by rewrite queue_length). unfold queue.
    rewrite list_lookup_fmap, lookup_seq_lt by done. simpl. f_equal. f_equal. apply znth_zupd_ne. intros Heq.
    symmetry in Heq. apply ring_index in Heq; [lia|done|lia|lia].
  - rewrite lookup_seq_lt by lia. rewrite lookup_app_r by (rewrite queue_length; lia). rewrite queue_length.
    replace (k - Z.to_nat (pipe_count p))%nat with 0%nat by lia. simpl. f_equal.
    replace ((pi_nread p + Z.of_nat k) mod PIPESIZE) with (pi_nwrite p mod PIPESIZE).
    + rewrite znth_zupd_eq; [done|]. rewrite Hl. unfold PIPESIZE in *. lia.
    + symmetry. apply ring_index; [done|lia|lia|lia].
  - rewrite lookup_seq_ge by lia. rewrite lookup_ge_None_2; [done|]. rewrite length_app, queue_length. simpl. lia.
Qed.

(** Reading takes the head of the queue. *)
Lemma queue_pop p : pipe_ok p -> 0 < pipe_count p ->
  queue p = default 0 (znth (pi_data p) (pi_nread p mod PIPESIZE)) :: queue (pop p).
Proof.
  intros Hok Hc. unfold queue. rewrite pop_count by done.
  replace (Z.to_nat (pipe_count p)) with (S (Z.to_nat (pipe_count p - 1))) by lia. simpl. rewrite Z.add_0_r. f_equal.
  rewrite <- seq_shift, map_map. apply map_ext. intros k. do 2 f_equal.
  rewrite <- u32_mod512. rewrite <- (u32_mod512 (u32 (pi_nread p + 1) + Z.of_nat k)). f_equal. unfold u32. rewrite Z.add_mod_idemp_l by lia. f_equal. lia.
Qed.

(** ** Copies of a few bytes *)

Lemma read_user_nth m root n : forall va i, (i < n)%nat ->
  let bs := snd (read_user m root va n) in
  ((i < length bs)%nat -> upage m root (va + Z.of_nat i) <> 0 /\
     bs !! i = Some (load8 m (uaddr m root (va + Z.of_nat i)))) /\
  (i = length bs -> upage m root (va + Z.of_nat i) = 0).
Proof.
  induction n as [|n IH]; intros va i Hi; [lia|]. cbn [read_user].
  destruct (Z.eqb_spec (upage m root va) 0) as [Hu|Hu]; simpl.
  - split; [lia|]. intros ->. by rewrite Z.add_0_r.
  - destruct (read_user m root (va + 1) n) as [r bs] eqn:Hr. simpl. destruct i as [|i].
    + rewrite Z.add_0_r. split; [done|]. lia.
    + specialize (IH (va + 1) i ltac:(lia)). rewrite Hr in IH. simpl in IH.
      replace (va + Z.of_nat (S i)) with (va + 1 + Z.of_nat i) by lia. split; intros; apply IH; lia.
Qed.

Lemma read_user_length m root n va : (length (snd (read_user m root va n)) <= n)%nat.
Proof.
  revert va. induction n as [|n IH]; intros va; [done|]. cbn [read_user]. destruct (_ =? 0); simpl; [lia|].
  specialize (IH (va + 1)). destruct (read_user m root (va + 1) n). simpl in *. lia.
Qed.

(** How many of the next [n] user addresses are mapped before the first that
    is not. *)
Fixpoint mapped (m : memory) (root va : Z) (n : nat) : nat :=
  match n with
  | O => O
  | S n' => if upage m root va =? 0 then O else S (mapped m root (va + 1) n')
  end.

Definition set_pipe (pi : Z) (p : pipe) (s : kstate) : kstate :=
  set_k_fs (set_pipes (<[pi := p]> (pipes (k_fs s))) (k_fs s)) s.

Section pipe.
Context {E : Env} {L : LinkerOk}.

Lemma wp_killed p (Q : Z -> kstate -> Prop) s :
  ctl_ok (k_ctl s) -> free (L_proc p) (k_ctl s) ->
  (forall c, ctl_equiv (k_ctl s) c -> Q (p_killed (get_proc p s)) (kset_ctl c s)) -> wp (killed p) Q s.
Proof.
  intros Hok Hf HQ. unfold killed. wp_step. apply wp_kacquire; [done|done|]. do 2 wp_step. wp_step.
  apply (wp_krelease (k_ctl s)); [done|done|done|]. intros e He. wp_step. by apply HQ.
Qed.

(** A process that uses a pipe, about to take its lock. *)
Record pipe_user (pr : nat) (root : Z) (l : list Z) (pi : Z) (p : pipe) (s : kstate) : Prop := {
  pu_free : all_free (k_ctl s);
  pu_lock : free (L_pipe pi) (k_ctl s);
  pu_cur : cur (k_ctl s) = Some pr;
  pu_pr : (pr < NPROC)%nat;
  pu_procs : length (procs (k_pt s)) = NPROC;
  pu_alive : p_killed (get_proc pr s) = 0;
  pu_root : p_pagetable (get_proc pr s) = root;
  pu_vm : uvm_inv root l (k_mm s);
  pu_pipe : pipes (k_fs s) !! pi = Some p;
  pu_ok : pipe_ok p
}.

(** With the pipe's lock held, the other locks are as before. *)
Lemma held_pipe pr root l pi p s c : pipe_user pr root l pi p s ->
  ctl_equiv (acquired (L_pipe pi) (k_ctl s)) c ->
  all_free c /\ mm_ready c /\ cur c = Some pr.
Proof.
  intros [[Hok Hf] Hlk Hcur _ _ _ _ Hvm _ _] Hc.
  destruct (acquired_facts (L_pipe pi) (k_ctl s) Hok) as (H1 & _ & H3 & _ & _).
  split_and!.
  - eapply all_free_equiv; [done|]. split; [done|]. intros i Hi. unfold free. rewrite H3 by done. by apply Hf.
  - eapply mm_ready_equiv; [done|]. destruct Hvm as [[[_ Hm] _ _] _]. split; [done|]. unfold free. by rewrite H3.
  - rewrite <- (cur_equiv _ c Hc). by rewrite cur_acquired.
Qed.

Definition pushes (p : pipe) (bs : list Z) : pipe := fold_left push bs p.

Lemma pushes_spec bs : forall p, pipe_ok p -> pipe_count p + Z.of_nat (length bs) <= PIPESIZE ->
  pipe_ok (pushes p bs) /\ queue (pushes p bs) = queue p ++ bs /\
  pipe_count (pushes p bs) = pipe_count p + Z.of_nat (length bs) /\
  pi_readopen (pushes p bs) = pi_readopen p /\ pi_writeopen (pushes p bs) = pi_writeopen p.
Proof.
  induction bs as [|b bs IH]; intros p Hok Hc; cbn [length] in Hc.
  - rewrite app_nil_r. simpl. split_and!; try done; lia.
  - destruct (IH (push p b)) as (H1 & H2 & H3 & H4); [by apply push_ok; [|lia]|rewrite push_count by (done || lia); lia|].
    simpl. split_and!; try apply H4; [done| |].
    + rewrite H2, queue_push by (done || lia). by rewrite <- app_assoc.
    + rewrite H3, push_count by (done || lia). lia.
Qed.

(** One turn of the writing loop. *)
Lemma wp_pipewrite_step pr root l pi p s n addr i c (Q : Z + (Z + Z) -> kstate -> Prop) bs :
  pipe_user pr root l pi p s -> pi_readopen p <> 0 ->
  bs = snd (read_user (k_mem s) root addr (Z.to_nat n)) ->
  0 <= addr -> 0 <= n -> addr + n < 2 ^ 64 -> pipe_count p + n <= PIPESIZE ->
  0 <= i <= Z.of_nat (length bs) -> ctl_equiv (acquired (L_pipe pi) (k_ctl s)) c ->
  (forall e, ctl_equiv c e -> i < Z.of_nat (length bs) ->
     Q (inl (i + 1)) (kset_ctl e (set_pipe pi (pushes p (take (Z.to_nat (i + 1)) bs)) s))) ->
  (forall e, ctl_equiv c e -> i = Z.of_nat (length bs) -> Q (inr (inr i)) (kset_ctl e (set_pipe pi (pushes p bs) s))) ->
  wp (pipewrite_step pr pi addr n i) Q (kset_ctl c (set_pipe pi (pushes p (take (Z.to_nat i) bs)) s)).
Proof.
  intros Hu Hro Hbs Ha Hn0 Han Hcnt Hi Hc Hgo Hend. pose proof (held_pipe _ _ _ _ _ _ _ Hu Hc) as ([Hok Hfree] & Hmm & _).
  assert (Hlen : (length bs <= Z.to_nat n)%nat) by (rewrite Hbs; apply read_user_length).
  assert (Hti : length (take (Z.to_nat i) bs) = Z.to_nat i) by (rewrite length_take; lia).
  destruct (pushes_spec (take (Z.to_nat i) bs) p) as (Hpo & _ & Hpc & Hpr & _); [apply Hu|rewrite Hti; lia|].
  unfold pipewrite_step. destruct (Z.ltb_spec i n).
  2: { wp_step. rewrite take_ge by lia. apply Hend; [done|lia]. }
  wp_step. apply wp_gets. unfold get_pipe. simpl. rewrite lookup_insert_eq. simpl. rewrite Hpr.
  destruct (Z.eqb_spec (pi_readopen p) 0); [done|]. wp_step. apply wp_killed; [done|by apply Hfree, Hu|].
  intros d Hd. rewrite kset_kset. replace (p_killed _) with 0 by (symmetry; apply Hu). change (truthy 0) with false. cbv iota.
  rewrite pipe_full by done. rewrite Hpc, Hti. destruct (Z.eqb_spec (pipe_count p + Z.of_nat (Z.to_nat i)) PIPESIZE); [lia|].
  do 2 kstep. replace (p_pagetable _) with root by (symmetry; apply Hu). change (k_ctl (kset_ctl c _)) with c in Hd.
  destruct (read_user_nth (k_mem s) root (Z.to_nat n) addr (Z.to_nat i)) as [Hr1 Hr2]; [lia|].
  rewrite <- Hbs, Z2Nat.id in Hr1, Hr2 by lia.
  assert (Hci : forall s', s' = k_mm (kset_ctl d (set_pipe pi (pushes p (take (Z.to_nat i) bs)) s)) ->
    copyin root (u64 (addr + i)) 1 s' = Ret (read_user (k_mem s) root (addr + i) 1) s').
  { intros s' ->. unfold copyin. rewrite (copyin_loop root l).
    - unfold u64. rewrite Z.mod_small by lia. change (m_mem _) with (k_mem s). change (Z.to_nat 1) with 1%nat.
      by destruct (read_user _ _ _ 1).
    - apply vm_inv_ctl; [apply Hu|]. by eapply mm_ready_equiv.
    - done.
    - apply Z.mod_pos_bound. lia. }
  wp_step. apply wp_lift. unfold wp at 1. rewrite Hci by done. cbn [read_user].
  destruct (decide (i < Z.of_nat (length bs))) as [Hlt|Hge].
  - destruct Hr1 as [Hup Hb]; [lia|]. destruct (Z.eqb_spec (upage (k_mem s) root (addr + i)) 0); [done|]. simpl.
    wp_step. apply wp_modify. wp_step. specialize (Hgo d Hd Hlt).
    replace (Z.to_nat (i + 1)) with (S (Z.to_nat i)) in Hgo by lia. rewrite (take_S_r _ _ _ Hb) in Hgo.
    unfold pushes in Hgo at 1. rewrite fold_left_app in Hgo. fold (pushes p (take (Z.to_nat i) bs)) in Hgo. simpl in Hgo.
    unfold updpi, get_pipe, set_pipe, kset_ctl, set_k_fs, set_k_mm, set_pipes in *. simpl in *.
    rewrite lookup_insert_eq, insert_insert_eq. exact Hgo.
  - rewrite Hr2 by lia. simpl. wp_step. specialize (Hend d Hd ltac:(lia)).
    rewrite take_ge by lia. done.
Qed.

(** C21. pipewrite() of at most as many bytes as the pipe has room for does not
    block: it appends to the queue the bytes of the caller's memory, up to the first
    that is not mapped, returns their number, wakes exactly the readers that wait
    on the pipe, and changes nothing else; the counters may wrap around. *)
Theorem pipewrite_appends pr root l pi p addr n s :
  pipe_user pr root l pi p s -> pi_readopen p <> 0 -> 0 <= addr -> 0 <= n -> addr + n < 2 ^ 64 ->
  Z.of_nat (length (queue p)) + n <= PIPESIZE ->
  wp (pipewrite pi addr n) (fun r s' =>
    let bs := snd (read_user (k_mem s) root addr (Z.to_nat n)) in
    exists c p', ctl_equiv (k_ctl s) c /\ r = Z.of_nat (length bs) /\
      pipe_ok p' /\ queue p' = queue p ++ bs /\
      pi_readopen p' = pi_readopen p /\ pi_writeopen p' = pi_writeopen p /\
      s' = kset_ctl c (map_procs (wake (Some (Ch_nread pi)) (Some pr)) (set_pipe pi p' s))) s.
Proof.
  intros Hu Hro Ha Hn Han Hroom. set (bs := snd (read_user (k_mem s) root addr (Z.to_nat n))).
  assert (Hcnt0 : 0 <= pipe_count p) by apply u32_range. rewrite queue_length, Z2Nat.id in Hroom by done.
  assert (Hlen : (length bs <= Z.to_nat n)%nat) by apply read_user_length.
  destruct (pu_free _ _ _ _ _ _ Hu) as [Hok Hfree]. pose proof (pu_lock _ _ _ _ _ _ Hu) as Hlk.
  unfold pipewrite. wp_step. apply (wp_curproc pr); [done|apply Hu|]. intros c1 Hc1.
  wp_step. apply wp_kacquire; rewrite ?k_ctl_kset; [by rewrite <- Hc1|by rewrite <- Hc1|]. wp_step. rewrite kset_kset.
  apply (wp_loop (fun i s' => 0 <= i <= Z.of_nat (length bs) /\ exists c,
      ctl_equiv (acquired (L_pipe pi) (k_ctl s)) c /\
      s' = kset_ctl c (set_pipe pi (pushes p (take (Z.to_nat i) bs)) s)) (fun i _ => Z.to_nat (n - i))).
  - intros i s' (Hi & c & Hc & ->). eapply (wp_pipewrite_step pr root l pi p s n addr i c); try done.
    + intros e He Hlt. split; [|lia]. split; [lia|]. exists e. split; [by rewrite Hc|done].
    + intros e He Hiq. wp_step. assert (Hce : ctl_equiv (acquired (L_pipe pi) (k_ctl s)) e) by (by rewrite Hc).
      destruct (held_pipe _ _ _ _ _ _ _ Hu Hce) as (Haf & _ & Hcur).
      apply (wp_wakeup _ (Some pr)); [by apply all_free_procs|done|apply Hu|]. intros f Hf. wp_step.
      apply (wp_krelease (k_ctl s)); [done|done|by rewrite Hce|]. intros g Hg. wp_step.
      destruct (pushes_spec bs p) as (P1 & P2 & _ & P4 & P5); [apply Hu|lia|]. exists g, (pushes p bs). done.
  - split; [lia|]. exists (acquired (L_pipe pi) c1). split; [by apply acquired_proper|]. simpl. unfold pushes. simpl.
    unfold set_pipe. rewrite insert_id by apply Hu. by destruct s as [? ? ? [] ? ?].
  - lia.
Qed.

(** What the copying loop of piperead() does to a queue and a memory: the number
    of bytes delivered, the memory, and the queue left.  The byte at which a copy
    fails is lost. *)
Fixpoint deliver (m : memory) (root va : Z) (q : list Z) (n : nat) {struct n} : nat * memory * list Z :=
  match n, q with
  | O, _ => (O, m, q)
  | _, [] => (O, m, [])
  | S n', b :: q' =>
      if upage m root va =? 0 then (O, m, q')
      else let '(k, m', r) := deliver (store8 m (uaddr m root va) b) root (va + 1) q' n' in (S k, m', r)
  end.

Lemma deliver_spec root n : forall m va q,
  let '(k, m', r) := deliver m root va q n in
  let '(e, m'') := write_user m root va (take n q) in
  m' = m'' /\
  (e = 0 /\ k = length (take n q) /\ r = drop k q \/ e = -1 /\ (k < length (take n q))%nat /\ r = drop (S k) q).
Proof.
  induction n as [|n IH]; intros m va q; [simpl; split; [done|by left]|].
  destruct q as [|b q]; simpl; [split; [done|by left]|]. destruct (upage m root va =? 0).
  - split; [done|]. right. split_and!; [done|lia|done].
  - specialize (IH (store8 m (uaddr m root va) b) (va + 1) q). destruct (deliver _ _ _ _ _) as [[k m'] r].
    destruct (write_user _ _ _ _) as [e m'']. destruct IH as [-> [(-> & -> & ->)|(-> & Hk & ->)]]; (split; [done|]).
    + by left.
    + right. split_and!; [done|lia|done].
Qed.

(** The copying loop: the pipe ends up with the queue that [deliver] leaves. *)
Lemma wp_piperead_copy pr root l pi s c0 n : forall i p m addr c (Q : Z -> kstate -> Prop),
  p_pagetable (get_proc pr s) = root -> mm_ready c0 -> ctl_equiv c0 c ->
  uvm_inv root l (set_m_ctl c0 (set_m_mem m (k_mm s))) ->
  pipe_ok p -> 0 <= addr -> 0 <= i -> addr + i + Z.of_nat n < 2 ^ 64 ->
  (forall e p' k m' r, deliver m root (addr + i) (queue p) n = (k, m', r) -> ctl_equiv c0 e ->
     pipe_ok p' -> queue p' = r -> pi_readopen p' = pi_readopen p -> pi_writeopen p' = pi_writeopen p ->
     Q (i + Z.of_nat k) (kset_ctl e (kset_mem m' (set_pipe pi p' s)))) ->
  wp (piperead_copy pr pi addr i n) Q (kset_ctl c (kset_mem m (set_pipe pi p s))).
Proof.
  induction n as [|n IH]; intros i p m addr c Q Hroot Hmm Hc Hvm Hp Ha Hi Hlim HQ; cbn [piperead_copy].
  { apply wp_ret. rewrite <- (Z.add_0_r i). by eapply (HQ c p O m). }
  wp_step. apply wp_gets. unfold get_pipe. simpl. rewrite lookup_insert_eq. simpl. rewrite pipe_empty by done.
  destruct (Z.eqb_spec (pipe_count p) 0) as [H0|H0].
  - apply wp_ret. rewrite <- (Z.add_0_r i). eapply (HQ c p O m []); try done.
    + cbn [deliver]. destruct (queue p) eqn:Hq; [done|]. apply (f_equal length) in Hq. rewrite queue_length in Hq.
      simpl in Hq. lia.
    + apply nil_length_inv. rewrite queue_length. lia.
  - assert (Hpos : 0 < pipe_count p) by (pose proof (u32_range (pi_nwrite p - pi_nread p)); unfold pipe_count in *; lia).
    pose proof (queue_pop p Hp Hpos) as Hq. set (b := default 0 _) in *.
    wp_step. apply wp_modify. do 2 kstep. change (get_proc pr _) with (get_proc pr s).
    replace (p_pagetable _) with root. wp_step. apply wp_lift. unfold wp at 1.
    assert (Hs1 : uvm_inv root l (set_m_ctl c (set_m_mem m (k_mm s)))).
    { apply (vm_inv_ctl root l (set_m_ctl c0 (set_m_mem m (k_mm s))) c Hvm). by eapply mm_ready_equiv. }
    set (mm1 := k_mm _). change mm1 with (set_m_ctl c (set_m_mem m (k_mm s))). clear mm1. unfold copyout. unfold u64.
    rewrite (copyout_loop root l) by (done || simpl; rewrite ?Z.mod_small; lia). rewrite Z.mod_small by lia. simpl m_mem. cbn [write_user].
    rewrite Hq in HQ. cbn [deliver] in HQ. destruct (Z.eqb_spec (upage m root (addr + i)) 0) as [Hu|Hu].
    + simpl. wp_step. rewrite <- (Z.add_0_r i). specialize (HQ c (pop p) O m _ eq_refl Hc (pop_ok p Hp Hpos) eq_refl eq_refl eq_refl).
      unfold get_pipe, set_pipe, kset_ctl, kset_mem, set_k_fs, set_k_mm, set_pipes in *. simpl in *.
      rewrite lookup_insert_eq, insert_insert_eq. exact HQ.
    + simpl.
      set (m1 := store8 m (uaddr m root (addr + i)) b). assert (Hvm1 : uvm_inv root l (set_m_ctl c0 (set_m_mem m1 (k_mm s)))).
      { destruct Hvm as [Hv1 Hv2]. pose proof (write_user_inv root l [b] _ (addr + i) Hv1 Hv2 ltac:(lia)) as Hw. simpl in Hw.
        destruct (Z.eqb_spec (upage m root (addr + i)) 0); [done|]. exact Hw. }
      assert (Hnext : wp (piperead_copy pr pi addr (i + 1) n) Q (kset_ctl c (kset_mem m1 (set_pipe pi (pop p) s)))).
      { apply IH; try done; [by apply pop_ok|lia|lia|]. intros e p' k m' r Hdl He Hp' Hq' Hr Hw.
        replace (i + 1 + Z.of_nat k) with (i + Z.of_nat (S k)) by lia. apply (HQ e p' (S k) m' r); try done.
        rewrite <- Z.add_assoc in *. fold m1. by rewrite Hdl. }
      unfold get_pipe, set_pipe, kset_ctl, kset_mem, set_k_fs, set_k_mm, set_pipes in *. simpl in *.
      rewrite lookup_insert_eq, insert_insert_eq. exact Hnext.
Qed.

(** C22. piperead() from a pipe that holds bytes, or that nobody writes to any
    more, does not block: it moves the oldest bytes of the queue, at most n, to the
    caller's memory, returns their number (0 at end of file), wakes exactly the
    writers that wait, and changes nothing else.  When a byte cannot be stored the
    call returns the number of bytes before it, and that byte is lost. *)
Theorem piperead_delivers pr root l pi p addr n s :
  pipe_user pr root l pi p s -> queue p <> [] \/ pi_writeopen p = 0 ->
  0 <= addr -> 0 <= n -> addr + n < 2 ^ 64 ->
  wp (piperead pi addr n) (fun r s' =>
    let bs := take (Z.to_nat n) (queue p) in
    let '(e, m') := write_user (k_mem s) root addr bs in
    exists c p', ctl_equiv (k_ctl s) c /\ pipe_ok p' /\
      pi_readopen p' = pi_readopen p /\ pi_writeopen p' = pi_writeopen p /\
      (e = 0 /\ r = Z.of_nat (length bs) /\ queue p' = drop (length bs) (queue p) \/
       e = -1 /\ 0 <= r < Z.of_nat (length bs) /\ queue p' = drop (S (Z.to_nat r)) (queue p)) /\
      s' = kset_ctl c (map_procs (wake (Some (Ch_nwrite pi)) (Some pr)) (kset_mem m' (set_pipe pi p' s)))) s.
Proof.
  intros Hu Hne Ha Hn Han. destruct (pu_free _ _ _ _ _ _ Hu) as [Hok Hfree]. pose proof (pu_lock _ _ _ _ _ _ Hu) as Hlk.
  unfold piperead. wp_step. apply (wp_curproc pr); [done|apply Hu|]. intros c1 Hc1.
  wp_step. apply wp_kacquire; rewrite ?k_ctl_kset; [by rewrite <- Hc1|by rewrite <- Hc1|]. rewrite kset_kset.
  assert (Hc : ctl_equiv (acquired (L_pipe pi) (k_ctl s)) (acquired (L_pipe pi) c1)) by (by apply acquired_proper).
  set (c := acquired (L_pipe pi) c1) in *. destruct (held_pipe _ _ _ _ _ _ _ Hu Hc) as (Haf & Hmm & Hcur).
  wp_step. cbn [loop]. do 2 wp_step. apply wp_gets. unfold get_pipe. simpl. rewrite (pu_pipe _ _ _ _ _ _ Hu). simpl.
  assert (Hgo : (pi_nread p =? pi_nwrite p) && truthy (pi_writeopen p) = false).
  { rewrite pipe_empty by apply Hu. destruct Hne as [Hne|Hne]; [|rewrite Hne; apply andb_false_r].
    destruct (Z.eqb_spec (pipe_count p) 0) as [H0|]; [|done]. exfalso. apply Hne, nil_length_inv. rewrite queue_length. lia. }
  rewrite Hgo. do 3 wp_step.
  replace (kset_ctl c s) with (kset_ctl c (kset_mem (k_mem s) (set_pipe pi p s))).
  2: { unfold set_pipe, kset_mem. rewrite insert_id by apply Hu. by destruct s as [[] ? ? [] ? ?]. }
  eapply (wp_piperead_copy pr root l pi s c); try done; try apply Hu; try lia.
  - apply (vm_inv_ctl root l (k_mm s)); [apply Hu|done].
  - intros e p' k m' r Hdl He Hp' Hq Hr Hw. rewrite Z.add_0_r in Hdl. rewrite Z.add_0_l.
    pose proof (deliver_spec root (Z.to_nat n) (k_mem s) addr (queue p)) as Hds. rewrite Hdl in Hds.
    destruct (write_user _ _ _ _) as [er m'']. destruct Hds as [-> Hds].
    destruct (held_pipe _ _ _ _ _ _ e Hu) as (Haf' & _ & Hcur'); [by rewrite Hc|].
    wp_step. apply (wp_wakeup _ (Some pr)); [by apply all_free_procs|done|apply Hu|]. intros f Hf. wp_step.
    apply (wp_krelease (k_ctl s)); [done|done|by rewrite Hc, He|]. intros g Hg. wp_step.
    exists g, p'. split_and!; try done. rewrite Hq.
    destruct Hds as [(-> & -> & ->)|(-> & Hk & ->)]; [left|right].
    + done.
    + split_and!; [done|lia|lia|]. by rewrite Nat2Z.id.
Qed.

End pipe.

(** ** A concrete pipe

    Its counters are about to wrap around and it holds one byte; process 1 uses
    the address space of UserMem.v. *)

Definition pipe1 : pipe := mkpipe (replicate 512 9) (2 ^ 32 - 2) (2 ^ 32 - 1) 1 1.

Definition ks_pipe : kstate :=
  set_pipe 0x80031000 pipe1 (set_k_mm (set_m_ctl ctl1 um) (upd_proc 1 (set_p_pagetable uroot) ks1)).

Lemma ks_pipe_user : @pipe_user env0 1 uroot ufree 0x80031000 pipe1 ks_pipe.
Proof.
  split.
  - exact ks1_free.
  - reflexivity.
  - reflexivity.
  - apply Nat.ltb_lt. reflexivity.
  - reflexivity.
  - reflexivity.
  - reflexivity.
  - apply vm_inv_ctl; [exact um_inv|]. split; [apply ks1_free|reflexivity].
  - apply lookup_insert_eq.
  - repeat split; done.
Qed.

Lemma pipewrite_appends_witness :
  wp (@pipewrite env0 0x80031000 100 3) (fun r s' =>
    r = 3 /\ queue (get_pipe 0x80031000 s') = [9; 0; 0; 0]) ks_pipe.
Proof.
  assert (Hq : queue pipe1 = [9]) by (vm_compute; reflexivity).
  assert (Hr : snd (read_user (k_mem ks_pipe) uroot 100 (Z.to_nat 3)) = [0; 0; 0]) by (vm_compute; reflexivity).
  pose proof (@pipewrite_appends env0 env0_ok 1 uroot ufree 0x80031000 pipe1 100 3 ks_pipe ks_pipe_user
    ltac:(done) ltac:(lia) ltac:(lia) ltac:(lia)) as H.
  rewrite Hq in H. specialize (H ltac:(vm_compute; discriminate)). apply wp_inv in H as (r & s' & He & H).
  unfold wp. rewrite He. rewrite Hr in H. destruct H as (c & p' & _ & -> & Hok & Hqq & _ & _ & ->).
  split; [reflexivity|exact Hqq].
Defined.

Lemma piperead_delivers_witness :
  wp (@piperead env0 0x80031000 100 3) (fun r s' =>
    r = 1 /\ queue (get_pipe 0x80031000 s') = [] /\ load8 (k_mem s') (uaddr (k_mem ks_pipe) uroot 100) = 9) ks_pipe.
Proof.
  assert (Hq : queue pipe1 = [9]) by (vm_compute; reflexivity).
  pose proof (@piperead_delivers env0 env0_ok 1 uroot ufree 0x80031000 pipe1 100 3 ks_pipe ks_pipe_user
    ltac:(left; rewrite Hq; discriminate) ltac:(lia) ltac:(lia) ltac:(lia)) as H.
  rewrite Hq in H. apply wp_inv in H as (r & s' & He & H). unfold wp. rewrite He. cbn [take length write_user] in H.
  change (Z.to_nat 3) with 3%nat in H. cbn [take length write_user] in H.
  replace (upage (k_mem ks_pipe) uroot 100 =? 0) with false in H by (vm_compute; reflexivity).
  destruct H as (c & p' & _ & _ & _ & _ & [(_ & -> & Hqq)|(H & _)] & ->); [|discriminate H].
  unfold get_pipe. simpl. split; [done|]. split; [exact Hqq|]. apply load8_store8_eq.
Defined.
