(* ===== verification/Proc.v ===== *)
(** * The life of a process (kernel/proc.c, usertrapret() of kernel/trap.c)

    userinit(), fork(), exit(), wait() and the way to user space.  The fields of
    a trapframe are the 64-bit words of its page, at the offsets of proc.h. *)

From S2P Require Import Prelude Riscv Kstate CString Spinlock Kalloc Vm Sched Bytes Uart Console Sleeplock.
From S2P Require Import Bio Log Fs File.

(** Offsets in [struct trapframe]. *)
Definition TF_kernel_satp : Z := 0.
Definition TF_kernel_sp : Z := 8.
Definition TF_kernel_trap : Z := 16.
Definition TF_epc : Z := 24.
Definition TF_kernel_hartid : Z := 32.
Definition TF_sp : Z := 48.
Definition TF_a0 : Z := 112.
Definition TF_a1 : Z := 120.
Definition TF_a7 : Z := 168.
Definition sizeof_trapframe : nat := 288.

Section proc.
Context {E : Env} {D : DiskDriver}.

Definition tf_get (p : nat) (off : Z) : K Z :=
  pr <- getp p;; gets (fun s => load64 (k_mem s) (p_trapframe pr + off)).
Definition tf_set (p : nat) (off v : Z) : K unit :=
  pr <- getp p;; lift_mem (fun m => store64 m (p_trapframe pr + off) v).

(** ** To user space *)

(** The result is the satp value passed to userret in the trampoline. *)
Definition usertrapret : K Z :=
  p <- curproc;;
  lift_ctl intr_off;;
  modify (fun s => set_k_regs (set_stvec (u64 (TRAMPOLINE + (uservec - trampoline))) (k_regs s)) s);;
  satp <- gets (fun s => satp (k_regs s));;
  tf_set p TF_kernel_satp satp;;
  pr <- getp p;;
  tf_set p TF_kernel_sp (u64 (p_kstack pr + PGSIZE));;
  tf_set p TF_kernel_trap usertrap_addr;;
  tp <- gets (fun s => hart (k_ctl s));;
  tf_set p TF_kernel_hartid tp;;
  lift_ctl (modify (fun c =>
    set_sstatus (Z.lor (Z.land (sstatus c) (u64 (Z.lnot SSTATUS_SPP))) SSTATUS_SPIE) c));;
  epc <- tf_get p TF_epc;;
  modify (fun s => set_k_regs (set_sepc epc (k_regs s)) s);;
  ret (MAKE_SATP (p_pagetable pr)).

Definition forkret : K Z :=
  p <- curproc;;
  krelease (L_proc p);;
  first <- gets (fun s => forkret_first (k_gl s));;
  when (truthy first)
    (modify (fun s => set_k_gl (set_forkret_first 0 (k_gl s)) s);;
     fsinit ROOTDEV);;
  usertrapret.

(** ** Creation *)

Definition initcode : list Z := [
  0x17; 0x05; 0x00; 0x00; 0x13; 0x05; 0x45; 0x02;
  0x97; 0x05; 0x00; 0x00; 0x93; 0x85; 0x35; 0x02;
  0x93; 0x08; 0x70; 0x00; 0x73; 0x00; 0x00; 0x00;
  0x93; 0x08; 0x20; 0x00; 0x73; 0x00; 0x00; 0x00;
  0xef; 0xf0; 0x9f; 0xff; 0x2f; 0x69; 0x6e; 0x69;
  0x74; 0x00; 0x00; 0x24; 0x00; 0x00; 0x00; 0x00;
  0x00; 0x00; 0x00; 0x00].

Definition userinit : K unit :=
  p <- allocproc;;
  modify (fun s => set_k_pt (set_initproc p (k_pt s)) s);;
  p <- deref p;;
  pr <- getp p;;
  lift_mm (uvmfirst (p_pagetable pr) initcode (Z.of_nat (length initcode)));;
  updp p (set_p_sz PGSIZE);;
  tf_set p TF_epc 0;;
  tf_set p TF_sp PGSIZE;;
  updp p (fun pr => set_p_name (safestrcpy_l (p_name pr) (bytes_of_string "initcode") 16) pr);;
  cwd <- namei (bytes_of_string "/");;
  updp p (set_p_cwd cwd);;
  updp p (set_p_state RUNNABLE);;
  krelease (L_proc p).

(** The loop of fork() over the descriptors. *)
Definition dup_files (p np : nat) : K unit :=
  for_each (seq 0 NOFILE) (fun i =>
    pr <- getp p;;
    match p_ofile pr !! i with
    | Some (Some f) => f' <- filedup f;; updp np (fun pr => set_p_ofile (<[i := Some f']> (p_ofile pr)) pr)
    | _ => ret tt
    end).

Definition fork : K Z :=
  p <- curproc;;
  np <- allocproc;;
  match np with
  | None => ret (-1)
  | Some np =>
      pr <- getp p;;
      npr <- getp np;;
      r <- lift_mm (uvmcopy (p_pagetable pr) (p_pagetable npr) (p_sz pr));;
      if r <? 0 then
        freeproc np;;
        krelease (L_proc np);;
        ret (-1)
      else
        updp np (set_p_sz (p_sz pr));;
        lift_mem (fun m => write_bytes m (p_trapframe npr) (bytes_at m (p_trapframe pr) sizeof_trapframe));;
        tf_set np TF_a0 0;;
        dup_files p np;;
        pr <- getp p;;
        cwd <- deref (p_cwd pr);;
        cwd <- idup cwd;;
        updp np (set_p_cwd (Some cwd));;
        updp np (fun npr => set_p_name (safestrcpy_l (p_name npr) (p_name pr) 16) npr);;
        npr <- getp np;;
        let pid := p_pid npr in
        krelease (L_proc np);;
        kacquire L_wait;;
        updp np (set_p_parent (Some p));;
        krelease L_wait;;
        kacquire (L_proc np);;
        updp np (set_p_state RUNNABLE);;
        krelease (L_proc np);;
        ret pid
  end.

(** ** Termination *)

Definition close_files (p : nat) : K unit :=
  for_each (seq 0 NOFILE) (fun fd =>
    pr <- getp p;;
    match p_ofile pr !! fd with
    | Some (Some f) => fileclose f;; updp p (fun pr => set_p_ofile (<[fd := None]> (p_ofile pr)) pr)
    | _ => ret tt
    end).

(** It does not return. *)
Definition exit {A} (status : Z) : K A :=
  p <- curproc;;
  ip <- gets (fun s => initproc (k_pt s));;
  if bool_decide (ip = Some p) then panic "init exiting"
  else
    close_files p;;
    begin_op;;
    pr <- getp p;;
    iput (p_cwd pr);;
    end_op;;
    updp p (set_p_cwd None);;
    kacquire L_wait;;
    reparent p;;
    pr <- getp p;;
    wakeup (option_map Ch_proc (p_parent pr));;
    kacquire (L_proc p);;
    updp p (fun pr => set_p_state ZOMBIE (set_p_xstate status pr));;
    krelease L_wait;;
    sched;;
    panic "zombie exit".

(** The scan of wait(): [Some r] to return [r]; otherwise whether there are
    children. *)
Fixpoint wait_scan (l : list nat) (p : nat) (addr : Z) (havekids : bool) : K (option Z * bool) :=
  match l with
  | [] => ret (None, havekids)
  | pp :: l' =>
      ppr <- getp pp;;
      if bool_decide (p_parent ppr = Some p) then
        kacquire (L_proc pp);;
        ppr <- getp pp;;
        if decide (p_state ppr = ZOMBIE) then
          let pid := p_pid ppr in
          pr <- getp p;;
          r <- (if negb (addr =? 0) then lift_mm (copyout (p_pagetable pr) addr (enc_le 4 (p_xstate ppr)))
                else ret 0);;
          if r <? 0 then
            krelease (L_proc pp);;
            krelease L_wait;;
            ret (Some (-1), true)
          else
            freeproc pp;;
            krelease (L_proc pp);;
            krelease L_wait;;
            ret (Some pid, true)
        else
          krelease (L_proc pp);;
          wait_scan l' p addr true
      else wait_scan l' p addr havekids
  end.

Definition wait (addr : Z) : K Z :=
  p <- curproc;;
  kacquire L_wait;;
  loop (S turns) (fun _ =>
    let* (r, havekids) := wait_scan proc_ids p addr false in
    match r with
    | Some r => ret (inr r)
    | None =>
        k <- (if (havekids : bool) then killed p else ret 1);;
        if truthy k then krelease L_wait;; ret (inr (-1))
        else sleep (Ch_proc p) L_wait;; ret (inl tt)
    end) tt.

End proc.
