(* ===== verification/ForkSpec.v ===== *)
(** * fork() clones a process or leaves no trace (kernel/proc.c)

    The process table, the page allocator, the address spaces, the open files and the
    in-memory inodes meet in fork().  The states of the proofs are [at_ mm P n F]: a
    base state with its memory and locks [mm], its process table [P], its next process
    id [n] and its file system [F] replaced, so that what a call does not name is kept
    by construction. *)

From S2P Require Import Prelude Riscv Kstate CString Spinlock Kalloc Vm PageTable UserMem AddrSpace Sched SchedSpec FreeWalk.
From S2P Require Import Bytes Sleeplock Bio FsRun Log Fs File Proc.

(** ** Vacant slots *)

(** What procinit() and freeproc() leave in a slot of the table. *)
Record vacant (q : proc) : Prop := {
  va_state : p_state q = UNUSED;
  va_wait : p_chan q = None /\ p_killed q = 0 /\ p_xstate q = 0;
  va_mem : p_trapframe q = 0 /\ p_pagetable q = 0 /\ p_sz q = 0;
  va_files : p_ofile q = replicate NOFILE None
}.

Definition slots_ok (P : list proc) : Prop :=
  length P = NPROC /\ Forall (fun q => p_state q = UNUSED -> vacant q) P.

(** The slot [i] is the first that is not in use. *)
Definition first_unused (P : list proc) (i : nat) (q : proc) : Prop :=
  P !! i = Some q /\ p_state q = UNUSED /\ forall j x, (j < i)%nat -> P !! j = Some x -> p_state x <> UNUSED.

(** freeproc() on the fields of [q]. *)
Definition freed (q : proc) : proc :=
  mkproc UNUSED None 0 0 0 None (p_kstack q) 0 0 0 (p_context q) (p_ofile q) (p_cwd q) (zupd (p_name q) 0 0).

Lemma freed_vacant q : p_ofile q = replicate NOFILE None -> vacant (freed q).
Proof. intros H. by split. Qed.

Lemma slots_insert P i q : slots_ok P -> (p_state q = UNUSED -> vacant q) -> slots_ok (<[i := q]> P).
Proof. intros [Hl Hf] Hq. split; [by rewrite length_insert|]. by apply Forall_insert. Qed.

Section fork.
Context {E : Env} {L : LinkerOk}.

(** ** The state, by its parts *)

Section parts.
Context (s0 : kstate).

Definition at_ (mm : mm) (P : list proc) (n : Z) (F : fsstate) : kstate :=
  set_k_fs F (set_k_pt (mkptable P (initproc (k_pt s0)) n) (set_k_mm mm s0)).

Lemma at_ctl c : kset_ctl c s0 = at_ (set_m_ctl c (k_mm s0)) (procs (k_pt s0)) (nextpid (k_pt s0)) (k_fs s0).
Proof. unfold at_. by destruct s0 as [? ? [] ? ? ?]. Qed.

Lemma wp_mm {A} (m : MM A) mm P n F (Q : A -> kstate -> Prop) : wp m (fun a mm' => Q a (at_ mm' P n F)) mm -> wp (lift_mm m) Q (at_ mm P n F).
Proof. intros H. apply wp_lift. exact H. Qed.

Lemma wp_memory f mm P n F (Q : unit -> kstate -> Prop) : Q tt (at_ (set_m_mem (f (m_mem mm)) mm) P n F) -> wp (lift_mem f) Q (at_ mm P n F).
Proof. intros H. apply wp_mm, wp_modify, H. Qed.

Lemma wp_getp i q mm P n F (Q : proc -> kstate -> Prop) : P !! i = Some q -> Q q (at_ mm P n F) -> wp (getp i) Q (at_ mm P n F).
Proof. intros Hi HQ. apply wp_gets. unfold get_proc. simpl. by rewrite Hi. Qed.

Lemma wp_updp i q f mm P n F (Q : unit -> kstate -> Prop) : (i < length P)%nat -> Q tt (at_ mm (<[i := f q]> P) n F) -> wp (updp i f) Q (at_ mm (<[i := q]> P) n F).
Proof.
  intros Hi HQ. apply wp_modify. replace (<[i := f q]> P) with (alter f i (<[i := q]> P)) in HQ; [exact HQ|].
  apply list_eq. intros j. rewrite list_lookup_alter. destruct (decide (i = j)) as [->|Hne]; [by rewrite !list_lookup_insert_eq|by rewrite !list_lookup_insert_ne].
Qed.

(** ** Locks *)

(** The control state is [c] up to saved interrupt flags. *)
Definition same_mm (a b : mm) : Prop := ctl_equiv (m_ctl a) (m_ctl b) /\ m_mem b = m_mem a /\ m_freelist b = m_freelist a.

Lemma same_mm_refl a : same_mm a a.
Proof. done. Qed.

Lemma same_mm_trans a b c : same_mm a b -> same_mm b c -> same_mm a c.
Proof. intros (H1 & H2 & H3) (H4 & H5 & H6). split_and!; [by etransitivity|by rewrite H5|by rewrite H6]. Qed.

Lemma wp_acquire lk mm P n F (Q : unit -> kstate -> Prop) : ctl_ok (m_ctl mm) -> free lk (m_ctl mm) ->
  Q tt (at_ (set_m_ctl (acquired lk (m_ctl mm)) mm) P n F) -> wp (kacquire lk) Q (at_ mm P n F).
Proof. intros H1 H2 HQ. by apply wp_kacquire. Qed.

Lemma wp_release c lk mm P n F (Q : unit -> kstate -> Prop) : ctl_ok c -> free lk c -> ctl_equiv (acquired lk c) (m_ctl mm) ->
  (forall e, ctl_equiv c e -> Q tt (at_ (set_m_ctl e mm) P n F)) -> wp (krelease lk) Q (at_ mm P n F).
Proof. intros H1 H2 H3 HQ. apply (wp_krelease c); [done|done|done|]. intros e He. exact (HQ e He). Qed.

(** The search for a slot that is not in use, in the order of the table; a slot found
    stays locked. *)
Lemma wp_find_unused mm P n F (Q : option nat -> kstate -> Prop) : ctl_ok (m_ctl mm) -> (forall i, free (L_proc i) (m_ctl mm)) -> length P = NPROC ->
  (forall i q mm', first_unused P i q -> ctl_equiv (acquired (L_proc i) (m_ctl mm)) (m_ctl mm') -> m_mem mm' = m_mem mm -> m_freelist mm' = m_freelist mm ->
     Q (Some i) (at_ mm' P n F)) ->
  (forall mm', same_mm mm mm' -> (forall q, q ∈ P -> p_state q <> UNUSED) -> Q None (at_ mm' P n F)) ->
  wp (for_find proc_ids (fun p =>
    kacquire (L_proc p);;
    pr <- getp p;;
    if decide (p_state pr = UNUSED) then ret (Some p)
    else krelease (L_proc p);; ret None)) Q (at_ mm P n F).
Proof.
  intros Hok Hfr Hlen Hfound Hnone. unfold proc_ids.
  enough (Hgo : forall k j mm1, (j + k = NPROC)%nat -> same_mm mm mm1 -> (forall i x, (i < j)%nat -> P !! i = Some x -> p_state x <> UNUSED) ->
    wp (for_find (seq j k) _) Q (at_ mm1 P n F)) by (apply Hgo; [done|done|intros; lia]).
  induction k as [|k IH]; intros j mm1 Hj Hs Hbefore; cbn [seq for_find].
  - apply wp_ret, Hnone; [done|]. intros q Hq. apply list_elem_of_lookup_1 in Hq as [i Hi]. apply (Hbefore i); [|done]. apply lookup_lt_Some in Hi. lia.
  - destruct (lookup_lt_is_Some_2 P j) as [q Hq]; [lia|]. destruct Hs as (Hc & Hm & Hfl). wp_step. wp_step. apply wp_acquire; [by rewrite <- Hc|rewrite <- Hc; apply Hfr|].
    wp_step. apply (wp_getp _ q); [done|]. case_decide as Hu.
    + wp_step. wp_step. apply (Hfound j q); [done|by apply acquired_proper|done|done].
    + wp_step. apply (wp_release (m_ctl mm)); [done|apply Hfr|by apply acquired_proper|]. intros e He. wp_step. apply IH; [lia|done|].
      intros i x Hi Hx. destruct (decide (i = j)) as [->|]; [congruence|]. apply (Hbefore i); [lia|done].
Qed.

Lemma wp_set_nextpid n' mm P n F (Q : unit -> kstate -> Prop) : Q tt (at_ mm P n' F) ->
  wp (modify (fun s => set_k_pt (set_nextpid n' (k_pt s)) s)) Q (at_ mm P n F).
Proof. intros HQ. apply wp_modify. exact HQ. Qed.

Lemma wp_allocpid mm P n F (Q : Z -> kstate -> Prop) : ctl_ok (m_ctl mm) -> free L_pid (m_ctl mm) ->
  (forall mm', same_mm mm mm' -> Q n (at_ mm' P (i32 (n + 1)) F)) -> wp allocpid Q (at_ mm P n F).
Proof.
  intros Hok Hf HQ. unfold allocpid. wp_step. apply wp_acquire; [exact Hok|exact Hf|]. wp_step. apply wp_gets. wp_step. apply wp_set_nextpid. wp_step.
  apply (wp_release (m_ctl mm)); [exact Hok|exact Hf|reflexivity|]. intros e He. wp_step. apply HQ. by split_and!.
Qed.

(** ** freeproc() *)

Lemma wp_bind_inv {S A B} (m : M S A) (f : A -> M S B) Q s : wp (bind m f) Q s -> wp m (fun a s' => wp (f a) Q s') s.
Proof. unfold wp, bind. by destruct (m s). Qed.

(** What it does to the memory. *)
Definition free_mm (q : proc) : MM unit :=
  when (truthy (p_trapframe q)) (kfree (p_trapframe q));;
  when (truthy (p_pagetable q)) (proc_freepagetable (p_pagetable q) (p_sz q)).

Lemma wp_freeproc i q mm P n F (Q : unit -> kstate -> Prop) : (i < length P)%nat ->
  wp (free_mm q) (fun _ mm' => Q tt (at_ mm' (<[i := freed q]> P) n F)) mm -> wp (freeproc i) Q (at_ mm (<[i := q]> P) n F).
Proof.
  intros Hi HQ. unfold freeproc. unfold free_mm in HQ. wp_step. apply (wp_getp i q); [by rewrite list_lookup_insert_eq|]. wp_step.
  apply wp_bind_inv in HQ.
  apply (wp_mono _ (fun _ s => exists mm1, s = at_ mm1 (<[i := q]> P) n F /\
    wp (when (truthy (p_pagetable q)) (proc_freepagetable (p_pagetable q) (p_sz q))) (fun _ mm' => Q tt (at_ mm' (<[i := freed q]> P) n F)) mm1)).
  - destruct (truthy (p_trapframe q)); cbn [when] in *; [|apply wp_ret; eexists; split; [done|exact HQ]]. apply wp_mm. eapply wp_mono; [exact HQ|]. intros [] mm1 H1. by exists mm1.
  - intros [] s (mm1 & -> & H1). wp_step. apply wp_updp; [done|]. wp_step.
    apply (wp_mono _ (fun _ s => exists mm2, s = at_ mm2 (<[i := set_p_trapframe 0 q]> P) n F /\ Q tt (at_ mm2 (<[i := freed q]> P) n F))).
    + destruct (truthy (p_pagetable q)); cbn [when] in *; [|apply wp_ret; eexists; split; [done|exact H1]]. apply wp_mm. eapply wp_mono; [exact H1|]. intros [] mm2 H2. by exists mm2.
    + intros [] s (mm2 & -> & H2). do 3 (wp_step; apply wp_updp; [done|]). apply wp_updp; [done|]. exact H2.
Qed.

End parts.

(** ** The pages of a process *)

Lemma tf_range tf : page_ok tf -> 0 <= tf < 2 ^ 55.
Proof. intros Hp. destruct (page_ok_pos tf Hp). unfold PHYSTOP, KERNBASE, PGSIZE in *. lia. Qed.

Lemma truthy_page p : page_ok p -> truthy p = true.
Proof. intros Hp. destruct (page_ok_pos p Hp). unfold truthy. destruct (Z.eqb_spec p 0); [lia|done]. Qed.

(** freeproc() of a process with a trap frame and a page table gives back exactly the
    frame and the pages of its space. *)
Lemma wp_free_owned tf root sz l s pm q (Q : unit -> mm -> Prop) : space utop (proc_rest tf) root l s pm ->
  (forall j, is_Some (pm !! j) <-> 0 <= j < npages sz) -> 0 <= sz <= utop * PGSIZE ->
  page_ok tf /\ ~ In tf l /\ ~ space_page (m_mem s) root pm tf -> p_trapframe q = tf -> p_pagetable q = root -> p_sz q = sz -> truthy root = true ->
  (forall l' s', given_back l s (fun a => a = tf \/ space_page (m_mem s) root pm a) l' s' -> Q tt s') -> wp (free_mm q) Q s.
Proof.
  intros Hsp Hd Hsz (Hp & Hn & Hs) Hq Hpt Hqsz Hroot HQ. unfold free_mm. rewrite Hq, Hpt, Hqsz, truthy_page, Hroot by done. cbn [when]. wp_step.
  eapply (wp_kfree_space utop (proc_rest tf) root l s pm tf); [done|done|done|intros H; apply Hs; by left|intros H; apply Hs; by right|].
  intros s3 Hsp3 Hc3 Ho3 Ht3. eapply (wp_proc_freepagetable root (tf :: l) s3 pm tf); [by apply tf_range|done|done|done|].
  intros l4 s4 (G1 & G2 & G3 & G4). assert (Heq : forall a, space_page (m_mem s3) root pm a <-> space_page (m_mem s) root pm a) by (intros a; unfold space_page; by rewrite Ht3).
  apply (HQ l4). split_and!; [by etransitivity|done| |].
  - intros a. rewrite G3, Heq. simpl. intuition congruence.
  - eapply only_trans; [eapply only_mono; [|by apply only_outside]; intros a <-; by left|]. eapply only_mono; [|exact G4]. intros a Ha. right. by apply Heq.
Qed.

(** ** The pages of the child *)

Section pages.
Context (old tfp tf : Z) (l1 : list Z) (m1 : mm) (pmo : pagemap).

(** kalloc() has taken the page of the trap frame. *)
Record took (s1 : mm) : Prop := {
  tk_space : space utop (proc_rest tfp) old l1 s1 pmo;
  tk_ctl : ctl_equiv (m_ctl m1) (m_ctl s1);
  tk_page : page_ok tf /\ ~ In tf l1;
  tk_out : same_outside tf (m_mem m1) (m_mem s1)
}.

Lemma took_only s1 : took s1 -> only (fun p => In p (tf :: l1)) (m_mem m1) (m_mem s1).
Proof. intros H. eapply only_mono; [|apply only_outside, H]. intros p <-. by left. Qed.

(** What the child got is given back, and the trap frame with it: first without a page
    table, then with one. *)
Lemma reclaimed_tf s1 l2 s2 s3 : took s1 -> reclaimed l1 s1 l2 s2 -> ctl_equiv (m_ctl s2) (m_ctl s3) -> kmem_ok (m_mem s3) (m_freelist s3) (tf :: l2) ->
  same_outside tf (m_mem s2) (m_mem s3) -> reclaimed (tf :: l1) m1 (tf :: l2) s3.
Proof.
  intros Ht (R1 & R2 & R3 & R4) Hc Hk Ho. split_and!; [|done| |].
  - etransitivity; [apply Ht|]. by etransitivity.
  - intros p. simpl. by rewrite R3.
  - eapply only_trans; [by apply took_only|]. eapply only_trans; [eapply only_mono; [|exact R4]; intros p Hp; by right|].
    eapply only_mono; [|by apply only_outside]. intros p <-. by left.
Qed.

Lemma wp_free_tf s1 l2 s2 q (Q : unit -> mm -> Prop) : took s1 -> reclaimed l1 s1 l2 s2 -> p_trapframe q = tf -> p_pagetable q = 0 ->
  (forall l3 s3, reclaimed (tf :: l1) m1 l3 s3 -> Q tt s3) -> wp (free_mm q) Q s2.
Proof.
  intros Ht Hr Hq Hpt HQ. unfold free_mm. destruct (tk_page _ Ht) as [Hp Hn]. rewrite Hq, Hpt, truthy_page by done. cbn [when]. wp_step.
  pose proof Hr as (R1 & R2 & R3 & R4). apply (wp_kfree s2 tf l2); [eapply mm_ready_equiv; [exact R1|]; apply (tk_space _ Ht)|done|done|by rewrite R3|].
  intros c m' Hc Ho Hk. change (truthy 0) with false. cbn [when]. wp_step. eapply HQ. eapply reclaimed_tf; [done|exact Hr|done|exact Hk|done].
Qed.

Lemma wp_free_child s1 root sz l2 s2 pm q (Q : unit -> mm -> Prop) : took s1 -> child_of tf l1 s1 root sz l2 s2 pm -> 0 <= sz <= utop * PGSIZE ->
  p_trapframe q = tf -> p_pagetable q = root -> p_sz q = sz -> truthy root = true ->
  (forall l3 s3, reclaimed (tf :: l1) m1 l3 s3 -> Q tt s3) -> wp (free_mm q) Q s2.
Proof.
  intros Ht [Hsp Hd Hl Hc Ho] Hsz Hq Hpt Hqsz Hroot HQ. destruct (tk_page _ Ht) as [Hp Hn].
  assert (Hntf : ~ In tf l2 /\ ~ space_page (m_mem s2) root pm tf) by (pose proof (Hl tf); tauto).
  eapply wp_free_owned; [exact Hsp|exact Hd|done|by split|done|done|done|done|]. intros l3 s3 (G1 & G2 & G3 & G4). apply (HQ l3). split_and!; [|done| |].
  - etransitivity; [apply Ht|]. by etransitivity.
  - intros p. rewrite G3. simpl. rewrite <- (Hl p). intuition congruence.
  - eapply only_trans; [by apply took_only|]. eapply only_trans; [eapply only_mono; [|exact Ho]; intros p Hpin; by right|].
    eapply only_mono; [|exact G4]. intros p [->|Hpin]; [by left|]. right. apply Hl. by right.
Qed.

End pages.

(** kalloc() beside the parent. *)
Lemma wp_kalloc_cases old tfp l m1 pmo (Q : Z -> mm -> Prop) : space utop (proc_rest tfp) old l m1 pmo ->
  (forall s', reclaimed l m1 l s' -> Q 0 s') ->
  (forall tf l1 s1, l = tf :: l1 -> took old tfp tf l1 m1 pmo s1 -> Q tf s1) -> wp kalloc Q m1.
Proof.
  intros Hsp H0 H1. apply (wp_kalloc_space utop (proc_rest tfp) old l m1 pmo); [done|]. destruct l as [|tf l1].
  - intros s' Hsp' Hc' Hm'. apply H0. split_and!; [done|apply Hsp'|done|rewrite Hm'; apply only_refl].
  - intros s1 Hsp' Hc' Hp Hn _ _ Hso _. by apply (H1 tf l1 s1).
Qed.

(** ** allocproc() *)

(** The process that allocproc() returns. *)
Definition newproc (pid tf root : Z) (q : proc) : proc :=
  set_p_context (mkcontext forkret_addr (u64 (p_kstack q + PGSIZE)) (replicate 12 0))
    (set_p_pagetable root (set_p_trapframe tf (set_p_state USED (set_p_pid pid q)))).

(** A slot was taken and given back, or none was free. *)
Definition slot_back (P P' : list proc) : Prop :=
  P' = P /\ (forall q, q ∈ P -> p_state q <> UNUSED) \/
  exists i q q', first_unused P i q /\ vacant q' /\ p_kstack q' = p_kstack q /\ P' = <[i := q']> P.

(** The lock of slot [i] has been taken. *)
Definition locked_at (i : nat) (a b : mm) : Prop :=
  ctl_equiv (acquired (L_proc i) (m_ctl a)) (m_ctl b) /\ m_mem b = m_mem a /\ m_freelist b = m_freelist a.

Lemma space_ctl rest root l s s' pm : space utop rest root l s pm -> m_mem s' = m_mem s -> m_freelist s' = m_freelist s -> mm_ready (m_ctl s') ->
  space utop rest root l s' pm.
Proof.
  intros Hsp Hm Hf Hrd. eapply space_stable; [exact Hsp|intros t _ b _; by rewrite Hm|done|rewrite Hm, Hf; apply Hsp|].
  intros p [Hp|Hp]; [by eapply table_page; [apply Hsp|]|by apply (sp_page _ _ _ _ _ _ Hsp)].
Qed.

Section alloc.
Context (s0 : kstate) (mm : mm) (P : list proc) (F : fsstate).
Context (Hok : ctl_ok (m_ctl mm)) (Hfree : forall lk, free lk (m_ctl mm)) (HP : slots_ok P).
Context (old tfp : Z) (l : list Z) (pmo : pagemap) (Hold : space utop (proc_rest tfp) old l mm pmo).

Lemma locked_ready i m1 : locked_at i mm m1 -> ctl_ok (m_ctl m1) /\ forall lk, lk <> L_proc i -> free lk (m_ctl m1).
Proof.
  intros (Hc & _). destruct (acquired_facts (L_proc i) _ Hok) as (H1 & _ & H3 & _). split; [by rewrite <- Hc|].
  intros lk Hlk. rewrite <- Hc. unfold free. rewrite H3 by done. apply Hfree.
Qed.

Lemma locked_same i m1 m2 : locked_at i mm m1 -> same_mm m1 m2 -> locked_at i mm m2.
Proof. intros (H1 & H2 & H3) (H4 & H5 & H6). split_and!; [by etransitivity|by rewrite H5|by rewrite H6]. Qed.

Lemma locked_space i m1 : locked_at i mm m1 -> space utop (proc_rest tfp) old l m1 pmo.
Proof.
  intros Hl. destruct (locked_ready i m1 Hl) as [H1 H2]. destruct Hl as (_ & Hm & Hfl). eapply space_ctl; [exact Hold|done|done|]. split; [done|by apply H2].
Qed.

Lemma wp_unlock_slot i m1 l' s P' n (Q : unit -> kstate -> Prop) : locked_at i mm m1 -> reclaimed l m1 l' s ->
  (forall mm', reclaimed l mm l' mm' -> Q tt (at_ s0 mm' P' n F)) -> wp (krelease (L_proc i)) Q (at_ s0 s P' n F).
Proof.
  intros (Hc & Hm & _) (R1 & R2 & R3 & R4) HQ. apply (wp_release s0 (m_ctl mm)); [done|apply Hfree|by etransitivity|].
  intros e He. apply HQ. split_and!; [done|done|done|]. by rewrite <- Hm.
Qed.

Lemma slot_freed i q q' : first_unused P i q -> p_kstack q' = p_kstack q -> p_ofile q' = p_ofile q -> slot_back P (<[i := freed q']> P).
Proof.
  intros Hq Hk Hf. right. exists i, q, (freed q'). split_and!; [done| |done|done]. apply freed_vacant. rewrite Hf. destruct Hq as (Hi & Hu & _).
  destruct HP as [_ Hall]. rewrite Forall_lookup in Hall. by apply (Hall i q Hi Hu).
Qed.

(** The end of a failed allocation. *)
Lemma wp_abandon {A} (a : A) i q q' m1 s n (Q : A -> kstate -> Prop) : first_unused P i q -> p_kstack q' = p_kstack q -> p_ofile q' = p_ofile q -> locked_at i mm m1 ->
  wp (free_mm q') (fun _ s' => exists l', reclaimed l m1 l' s') s ->
  (forall l' mm' P', reclaimed l mm l' mm' -> slot_back P P' -> Q a (at_ s0 mm' P' n F)) ->
  wp (freeproc i;; krelease (L_proc i);; ret a) Q (at_ s0 s (<[i := q']> P) n F).
Proof.
  intros Hq Hk Hf Hl Hfr HQ. wp_step. apply wp_freeproc; [by eapply lookup_lt_Some, Hq|]. eapply wp_mono; [exact Hfr|]. intros [] s' (l' & Hr).
  wp_step. apply (wp_unlock_slot i m1 l'); [done|done|]. intros mm' Hr'. wp_step. eapply HQ; [exact Hr'|by eapply slot_freed].
Qed.

Lemma wp_allocproc n (Q : option nat -> kstate -> Prop) :
  (forall i q tf l1 m1 s1 root l2 s2, first_unused P i q -> vacant q -> l = tf :: l1 -> locked_at i mm m1 -> took old tfp tf l1 m1 pmo s1 ->
     page_ok root -> child_of tf l1 s1 root 0 l2 s2 ∅ -> Q (Some i) (at_ s0 s2 (<[i := newproc n tf root q]> P) (i32 (n + 1)) F)) ->
  (forall l' mm' P' n', reclaimed l mm l' mm' -> slot_back P P' -> Q None (at_ s0 mm' P' n' F)) ->
  wp allocproc Q (at_ s0 mm P n F).
Proof.
  intros Hsome Hnone. unfold allocproc. wp_step. apply wp_find_unused; [done|done|apply HP| |].
  2:{ intros mm' (Hc & Hm & Hfl) Hno. wp_step. apply (Hnone l mm' P n); [|by left]. split_and!; [done|rewrite Hm, Hfl; apply Hold|done|rewrite Hm; apply only_refl]. }
  intros i q ma Hfu Hca Hma Hfa. assert (Hla : locked_at i mm ma) by done. destruct (locked_ready i ma Hla) as [Hoka Hfra]. pose proof Hfu as (Hi & Hu & Hbefore).
  assert (Hv : vacant q) by (destruct HP as [_ Hall]; rewrite Forall_lookup in Hall; by apply (Hall i q Hi Hu)).
  assert (Hlt : (i < length P)%nat) by (by eapply lookup_lt_Some). wp_step. apply wp_allocpid; [done|by apply Hfra|]. intros m1 Hs1.
  pose proof (locked_same i ma m1 Hla Hs1) as Hl1. pose proof (locked_space i m1 Hl1) as Hsp1. rewrite <- (list_insert_id P i q Hi) at 1.
  wp_step. apply wp_updp; [done|]. wp_step. apply wp_mm. apply (wp_kalloc_cases old tfp l m1 pmo); [done| |].
  { intros s' Hr'. wp_step. apply wp_updp; [done|]. cbn [Z.eqb]. eapply (wp_abandon None i q); [done|done|done|exact Hl1| |intros; by eapply Hnone].
    unfold free_mm. destruct (va_mem _ Hv) as (_ & Hpt & _). cbn [p_trapframe p_pagetable set_p_trapframe set_p_state set_p_pid]. rewrite Hpt. change (truthy 0) with false. cbn [when]. wp_step. wp_step.
    by exists l. }
  intros tf l1 s1 Hl Htk. wp_step. apply wp_updp; [done|]. destruct (tk_page _ _ _ _ _ _ _ Htk) as [Hp Hn].
  destruct (Z.eqb_spec tf 0); [destruct (page_ok_pos tf Hp); lia|]. rewrite proc_pagetable_eq. wp_step. wp_step.
  eapply wp_getp; [by rewrite list_lookup_insert_eq|]. apply wp_mm. cbn [p_trapframe set_p_trapframe].
  apply (wp_proc_pagetable_mm tf l1 s1); [by apply tf_range|apply (tk_space _ _ _ _ _ _ _ Htk)|apply (tk_space _ _ _ _ _ _ _ Htk)| |].
  - intros root l2 s2 Hroot Hsp2 Hb2. wp_step. apply wp_updp; [done|]. destruct (Z.eqb_spec root 0); [destruct (page_ok_pos root Hroot); lia|].
    wp_step. apply wp_updp; [done|]. wp_step. eapply (Hsome i q tf l1 m1 s1 root l2 s2); [done|done|done|done|done|done|eapply (child_built tf 0); [by apply tf_range|by vm_compute|done|done]].
  - intros l2 s2 Hr2. wp_step. apply wp_updp; [done|]. cbn [Z.eqb]. eapply (wp_abandon None i q); [done|done|done|exact Hl1| |intros; by eapply Hnone].
    eapply wp_free_tf; [exact Htk|exact Hr2|done|done|]. intros l3 s3 Hr3. exists l3. by rewrite Hl.
Qed.

End alloc.

(** ** Open files *)

(** The descriptors of [o] that name file [f]. *)
Definition uses (f : nat) (o : list (option nat)) : Z := Z.of_nat (length (filter (fun x => x = Some f) o)).

(** The file table with a reference more for every descriptor. *)
Definition referenced (o : list (option nat)) (fs : list file) : list file :=
  imap (fun f x => set_f_ref (f_ref x + uses f o) x) fs.

Lemma uses_snoc f o x : uses f (o ++ [x]) = uses f o + if decide (x = Some f) then 1 else 0.
Proof. unfold uses. rewrite filter_app, length_app, Nat2Z.inj_add. f_equal. cbn [filter list_filter]. by case_decide. Qed.

Lemma referenced_nil fs : referenced [] fs = fs.
Proof.
  apply list_eq. intros i. unfold referenced. rewrite list_lookup_imap. destruct (fs !! i) as [x|]; simpl; [|done].
  change (uses i []) with 0. rewrite Z.add_0_r. by destruct x.
Qed.

Lemma referenced_none o fs : referenced (o ++ [None]) fs = referenced o fs.
Proof. apply imap_ext. intros i x _. by rewrite uses_snoc, decide_False, Z.add_0_r. Qed.

Lemma referenced_lookup o fs f x : fs !! f = Some x -> referenced o fs !! f = Some (set_f_ref (f_ref x + uses f o) x).
Proof. intros Hf. unfold referenced. by rewrite list_lookup_imap, Hf. Qed.

Lemma referenced_some o fs f x : fs !! f = Some x ->
  alter (set_f_ref (f_ref x + uses f o + 1)) f (referenced o fs) = referenced (o ++ [Some f]) fs.
Proof.
  intros Hf. apply list_eq. intros i. rewrite list_lookup_alter. case_decide as Hi.
  - subst i. rewrite !(referenced_lookup _ _ _ x) by done. simpl. rewrite uses_snoc, decide_True by done. by rewrite Z.add_assoc.
  - unfold referenced. rewrite !list_lookup_imap. destruct (fs !! i); [|done]. simpl. rewrite uses_snoc, decide_False by congruence. by rewrite Z.add_0_r.
Qed.

Section files.
Context (s0 : kstate) (P : list proc) (n : Z).

Lemma wp_filedup f x mm P' F (Q : nat -> kstate -> Prop) : ctl_ok (m_ctl mm) -> free L_ftable (m_ctl mm) -> files F !! f = Some x -> 1 <= f_ref x ->
  (forall mm', same_mm mm mm' -> Q f (at_ s0 mm' P' n (set_files (alter (set_f_ref (f_ref x + 1)) f (files F)) F))) ->
  wp (filedup f) Q (at_ s0 mm P' n F).
Proof.
  intros Hok Hfr Hf Hr HQ. unfold filedup. wp_step. apply wp_acquire; [done|done|]. wp_step. apply wp_gets. unfold get_file. cbn [k_fs at_ set_k_fs]. rewrite Hf.
  change (default file0 (Some x)) with x. destruct (Z.ltb_spec (f_ref x) 1); [lia|]. wp_step. apply wp_modify. wp_step.
  apply (wp_release s0 (m_ctl mm) L_ftable (set_m_ctl (acquired L_ftable (m_ctl mm)) mm) P' n (set_files (alter (set_f_ref (f_ref x + 1)) f (files F)) F)); [done|done|done|].
  intros e He. wp_step. by apply HQ.
Qed.

Lemma wp_idup i mm P' F (Q : nat -> kstate -> Prop) : ctl_ok (m_ctl mm) -> free L_itable (m_ctl mm) ->
  (forall mm', same_mm mm mm' -> Q i (at_ s0 mm' P' n (set_inodes (alter (fun ip => set_i_ref (i_ref ip + 1) ip) i (inodes F)) F))) ->
  wp (idup i) Q (at_ s0 mm P' n F).
Proof.
  intros Hok Hfr HQ. unfold idup. wp_step. apply wp_acquire; [done|done|]. wp_step. apply wp_modify. wp_step.
  apply (wp_release s0 (m_ctl mm) L_itable (set_m_ctl (acquired L_itable (m_ctl mm)) mm) P' n (set_inodes (alter (fun ip => set_i_ref (i_ref ip + 1) ip) i (inodes F)) F)); [done|done|done|].
  intros e He. wp_step. by apply HQ.
Qed.

(** fork()'s loop gives the child the parent's descriptors. *)
Lemma wp_dup_files p np pr q mm F (Q : unit -> kstate -> Prop) : ctl_ok (m_ctl mm) -> free L_ftable (m_ctl mm) ->
  P !! p = Some pr -> p <> np -> (np < length P)%nat -> length (p_ofile pr) = NOFILE -> p_ofile q = replicate NOFILE None ->
  (forall f, Some f ∈ p_ofile pr -> exists x, files F !! f = Some x /\ 1 <= f_ref x) ->
  (forall mm', same_mm mm mm' -> Q tt (at_ s0 mm' (<[np := set_p_ofile (p_ofile pr) q]> P) n (set_files (referenced (p_ofile pr) (files F)) F))) ->
  wp (dup_files p np) Q (at_ s0 mm (<[np := q]> P) n F).
Proof.
  intros Hok Hfr Hp Hne Hnp Hlen Hq Hopen HQ. unfold dup_files. set (o := p_ofile pr) in *.
  set (st j mm' := at_ s0 mm' (<[np := set_p_ofile (take j o ++ replicate (NOFILE - j) None) q]> P) n (set_files (referenced (take j o) (files F)) F)).
  match goal with |- wp (for_each _ ?b) _ _ => set (body := b) end.
  enough (Hgo : forall k j mm', (j + k = NOFILE)%nat -> same_mm mm mm' -> wp (for_each (seq j k) body) Q (st j mm')).
  { pose proof (Hgo NOFILE 0%nat mm eq_refl (same_mm_refl mm)) as H. unfold st in H. rewrite take_0, referenced_nil, app_nil_l, Nat.sub_0_r, <- Hq in H.
    replace (set_p_ofile (p_ofile q) q) with q in H by (by destruct q). replace (set_files (files F) F) with F in H by (by destruct F). exact H. }
  induction k as [|k IH]; intros j mm' Hj Hs; cbn [seq for_each].
  - apply wp_ret. unfold st. rewrite take_ge by lia. replace (NOFILE - j)%nat with 0%nat by lia. rewrite app_nil_r. by apply HQ.
  - destruct (lookup_lt_is_Some_2 o j) as [x Hx]; [lia|]. pose proof (take_S_r _ _ _ Hx) as Ht. destruct Hs as (Hc & Hm & Hfl) eqn:Hs'. clear Hs'.
    wp_step. unfold body at 1. wp_step. apply (wp_getp s0 p pr); [by rewrite list_lookup_insert_ne|]. fold o. rewrite Hx.
    assert (Hnext : take j o ++ replicate (NOFILE - j) None = take j o ++ [None] ++ replicate (NOFILE - S j) None) by (by replace (NOFILE - j)%nat with (S (NOFILE - S j)) by lia).
    destruct x as [f|].
    + destruct (Hopen f) as (y & Hy & Hr); [by eapply list_elem_of_lookup_2|]. wp_step. pose proof (referenced_lookup (take j o) _ _ _ Hy) as Hrl.
      eapply wp_filedup; [by rewrite <- Hc|by rewrite <- Hc|exact Hrl|simpl; unfold uses; lia|]. intros mm2 Hs2. apply wp_updp; [done|].
      assert (Hs3 : same_mm mm mm2) by (eapply same_mm_trans; [exact Hs|done]). pose proof (IH (S j) mm2 ltac:(lia) Hs3) as H. unfold st in H. rewrite Ht in H.
      rewrite <- (referenced_some _ _ _ y Hy), <- app_assoc in H. cbn [files set_files p_ofile set_p_ofile f_ref set_f_ref]. rewrite Hnext.
      rewrite insert_app_r_alt by (rewrite length_take; lia). rewrite length_take. replace (j - j `min` length o)%nat with 0%nat by lia. exact H.
    + wp_step. unfold st in IH |- *. pose proof (IH (S j) mm' ltac:(lia) Hs) as H. rewrite Ht, referenced_none, <- app_assoc, <- Hnext in H. exact H.
Qed.

End files.

(** ** The trap frame *)

(** [*(np->trapframe) = *(p->trapframe)] and a0 cleared. *)
Definition tf_copy (m : memory) (tfp tf : Z) : memory :=
  store64 (write_bytes m tf (bytes_at m tfp sizeof_trapframe)) (tf + TF_a0) 0.

Lemma tf_copy_ok m tfp tf : mem_ok m -> mem_ok (tf_copy m tfp tf).
Proof. intros Hm. by apply store64_ok, write_bytes_ok. Qed.

Lemma tf_copy_out m tfp tf : same_outside tf m (tf_copy m tfp tf).
Proof.
  intros b Hb. unfold tf_copy. rewrite load8_store64_out by (unfold TF_a0, PGSIZE in *; lia). apply write_bytes_out.
  unfold bytes_at, sizeof_trapframe. rewrite length_map, length_seq. unfold PGSIZE in *. lia.
Qed.

Lemma tf_copy_word m tfp tf off : mem_ok m -> 0 <= off <= 280 -> off mod 8 = 0 ->
  load64 (tf_copy m tfp tf) (tf + off) = if off =? TF_a0 then 0 else load64 m (tfp + off).
Proof.
  intros Hm Hr Ho. unfold tf_copy. destruct (Z.eqb_spec off TF_a0) as [->|Hne]; [by apply load64_store64_eq|].
  rewrite load64_store64_out by (unfold TF_a0 in *; Z.div_mod_to_equations; lia). apply (load_le_shift 8). intros i Hi.
  rewrite <- !Z.add_assoc. apply copy_bytes_load; [done|]. unfold sizeof_trapframe. lia.
Qed.

(** ** The address spaces after the copy *)

Section grown_child.
Context (old tfp tf : Z) (l1 : list Z) (m1 s1 : mm) (pmo : pagemap) (Hold : space utop (proc_rest tfp) old (tf :: l1) m1 pmo).
Context (Htk : took old tfp tf l1 m1 pmo s1).
Context (root sz : Z) (l2 : list Z) (s2 : mm) (pm : pagemap) (Hch : child_of tf l1 s1 root sz l2 s2 pm).
Context (mm' : mm) (Hm : m_mem mm' = tf_copy (m_mem s2) tfp tf) (Hfl : m_freelist mm' = m_freelist s2) (Hrd : mm_ready (m_ctl mm')).

Lemma tf_apart : page_ok tf /\ ~ In tf l2 /\ ~ space_page (m_mem s2) root pm tf.
Proof. destruct (tk_page _ _ _ _ _ _ _ Htk) as [Hp Hn]. pose proof (ch_ledger _ _ _ _ _ _ _ _ Hch tf). tauto. Qed.

Lemma child_pages_only : only (fun p => In p (tf :: l1)) (m_mem m1) (m_mem s2).
Proof. eapply only_trans; [by eapply took_only|]. eapply only_mono; [|apply Hch]. intros p Hp. by right. Qed.

Lemma child_end : space utop (proc_rest tf) root l2 mm' pm /\ (forall t, is_table (m_mem mm') root t <-> is_table (m_mem s2) root t) /\
  only (fun p => In p (tf :: l1)) (m_mem m1) (m_mem mm') /\ kmem_ok (m_mem mm') (m_freelist mm') l2.
Proof.
  destruct tf_apart as (Hp & Hn & Hs). pose proof (ch_space _ _ _ _ _ _ _ _ Hch) as Hsp.
  destruct (space_write utop (proc_rest tf) root l2 s2 pm tf (tf_copy (m_mem s2) tfp tf)) as [H1 H2];
    [done|done|done|intros H; apply Hs; by left|apply tf_copy_out|apply tf_copy_ok, Hsp|].
  assert (H3 : space utop (proc_rest tf) root l2 mm' pm) by (by eapply space_ctl). split_and!; [done|by rewrite Hm| |apply H3].
  rewrite Hm. eapply only_trans; [apply child_pages_only|]. eapply only_mono; [|apply only_outside, tf_copy_out]. intros p <-. by left.
Qed.

(** The pages copied have kept their bytes. *)
Lemma copied_bytes pa pa' j fl : pm !! j = Some (pa', fl) -> user_page pmo pa -> (forall k, 0 <= k < PGSIZE -> load8 (m_mem s2) (pa' + k) = load8 (m_mem s1) (pa + k)) ->
  forall k, 0 <= k < PGSIZE -> load8 (m_mem mm') (pa' + k) = load8 (m_mem m1) (pa + k).
Proof.
  intros Hj Hpa Hb k Hk. destruct tf_apart as (Hp & _ & Hs). destruct (sp_page _ _ _ _ _ _ (ch_space _ _ _ _ _ _ _ _ Hch) pa') as (Hpo & _); [by exists j, fl|].
  assert (Hne : pa' <> tf) by (intros ->; apply Hs; right; by exists j, fl). destruct (sp_page _ _ _ _ _ _ Hold pa Hpa) as (Hpp & Hpn & _).
  rewrite Hm, (same_outside_page tf pa' _ _ (tf_copy_out (m_mem s2) tfp tf)), Hb by (done || lia).
  apply (same_outside_page tf pa); [apply (tk_out _ _ _ _ _ _ _ Htk)|done|done|intros ->; apply Hpn; by left|lia].
Qed.

(** The parent's trap frame has not changed, the child's is its copy. *)
Lemma tf_words off : page_ok tfp /\ ~ In tfp (tf :: l1) -> 0 <= off <= 280 -> off mod 8 = 0 -> load64 (m_mem mm') (tf + off) = if off =? TF_a0 then 0 else load64 (m_mem m1) (tfp + off).
Proof.
  intros [Hp Hn] Ho1 Ho2. rewrite Hm, tf_copy_word by (done || apply (ch_space _ _ _ _ _ _ _ _ Hch)). destruct (off =? TF_a0); [done|]. apply load64_ext. intros b Hb.
  apply (only_same_page _ _ _ tfp child_pages_only Hp); [|unfold PGSIZE; lia].
  intros q Hq. split; [by eapply free_page; [apply Hold|]|by intros ->].
Qed.

End grown_child.

(** ** Becoming runnable *)

Lemma wp_publish s0 c np p q pid mm P n F (Q : Z -> kstate -> Prop) : ctl_ok c -> (forall lk, free lk c) -> ctl_equiv (acquired (L_proc np) c) (m_ctl mm) ->
  (np < length P)%nat ->
  (forall e, ctl_equiv c e -> Q pid (at_ s0 (set_m_ctl e mm) (<[np := set_p_state RUNNABLE (set_p_parent (Some p) q)]> P) n F)) ->
  wp (krelease (L_proc np);; kacquire L_wait;; updp np (set_p_parent (Some p));; krelease L_wait;;
      kacquire (L_proc np);; updp np (set_p_state RUNNABLE);; krelease (L_proc np);; ret pid) Q (at_ s0 mm (<[np := q]> P) n F).
Proof.
  intros Hok Hfr Hc Hnp HQ. wp_step. apply (wp_release s0 c); [done|apply Hfr|done|]. intros e1 H1. wp_step.
  apply wp_acquire; [simpl; by rewrite <- H1|simpl; rewrite <- H1; apply Hfr|]. wp_step. apply wp_updp; [done|]. wp_step.
  apply (wp_release s0 e1); [by rewrite <- H1|rewrite <- H1; apply Hfr|reflexivity|]. intros e2 H2. wp_step.
  assert (H3 : ctl_equiv c e2) by (by etransitivity). apply wp_acquire; [simpl; by rewrite <- H3|simpl; rewrite <- H3; apply Hfr|]. wp_step. apply wp_updp; [done|]. wp_step.
  apply (wp_release s0 e2); [by rewrite <- H3|rewrite <- H3; apply Hfr|reflexivity|]. intros e3 H4. wp_step. apply (HQ e3). by etransitivity.
Qed.

(** ** fork() *)

(** Process [p] can call fork(): it runs with no spin lock held, its memory is mapped
    and its trap frame, its files and its directory are there; the free pages are [l]. *)
Record caller (p : nat) (pr : proc) (l : list Z) (pmo : pagemap) (s : kstate) : Prop := {
  ca_ok : ctl_ok (k_ctl s) /\ (forall lk, free lk (k_ctl s)) /\ cur (k_ctl s) = Some p;
  ca_slots : slots_ok (procs (k_pt s)) /\ procs (k_pt s) !! p = Some pr /\ p_state pr <> UNUSED;
  ca_space : space utop (proc_rest (p_trapframe pr)) (p_pagetable pr) l (k_mm s) pmo;
  ca_size : 0 <= p_sz pr <= utop * PGSIZE /\ forall j, 0 <= j < npages (p_sz pr) -> is_Some (pmo !! j);
  ca_frame : page_ok (p_trapframe pr) /\ ~ In (p_trapframe pr) l;
  ca_files : length (p_ofile pr) = NOFILE /\ forall f, Some f ∈ p_ofile pr -> exists x, files (k_fs s) !! f = Some x /\ 1 <= f_ref x;
  ca_cwd : is_Some (p_cwd pr)
}.

(** The child [npr] in slot [np] is a copy of the caller. *)
Record cloned (p : nat) (pr : proc) (l : list Z) (pmo : pagemap) (s : kstate) (np : nat) (npr : proc) (l' : list Z) (pm : pagemap) (s' : kstate) : Prop := {
  cl_slot : exists q, first_unused (procs (k_pt s)) np q /\ p_kstack npr = p_kstack q;
  cl_table : procs (k_pt s') = <[np := npr]> (procs (k_pt s)) /\ nextpid (k_pt s') = i32 (nextpid (k_pt s) + 1);
  cl_state : p_state npr = RUNNABLE /\ p_pid npr = nextpid (k_pt s) /\ p_parent npr = Some p /\ p_chan npr = None /\ p_killed npr = 0 /\ p_xstate npr = 0;
  cl_context : p_context npr = mkcontext forkret_addr (u64 (p_kstack npr + PGSIZE)) (replicate 12 0);
  cl_files : p_ofile npr = p_ofile pr /\ p_cwd npr = p_cwd pr;
  cl_refs : k_fs s' = set_inodes (alter (fun ip => set_i_ref (i_ref ip + 1) ip) (default 0%nat (p_cwd pr)) (inodes (k_fs s)))
              (set_files (referenced (p_ofile pr) (files (k_fs s))) (k_fs s));
  cl_space : p_sz npr = p_sz pr /\ space utop (proc_rest (p_trapframe npr)) (p_pagetable npr) l' (k_mm s') pm /\
             forall j, is_Some (pm !! j) <-> 0 <= j < npages (p_sz pr);
  cl_copy : forall j pa fl, pmo !! j = Some (pa, fl) -> 0 <= j < npages (p_sz pr) ->
              exists pa', pm !! j = Some (pa', fl) /\ forall k, 0 <= k < PGSIZE -> load8 (k_mem s') (pa' + k) = load8 (k_mem s) (pa + k);
  cl_frame : forall off, 0 <= off <= 280 -> off mod 8 = 0 ->
              load64 (k_mem s') (p_trapframe npr + off) = if off =? TF_a0 then 0 else load64 (k_mem s) (p_trapframe pr + off);
  cl_pages : forall a, In a l <-> a = p_trapframe npr \/ In a l' \/ space_page (k_mem s') (p_pagetable npr) pm a;
  cl_apart : ~ In (p_trapframe npr) l' /\ ~ space_page (k_mem s') (p_pagetable npr) pm (p_trapframe npr)
}.

(** The caller and everything outside the pages that were free are as before, and every
    lock is released. *)
Definition caller_kept (pr : proc) (l : list Z) (pmo : pagemap) (s : kstate) (l' : list Z) (s' : kstate) : Prop :=
  ctl_equiv (k_ctl s) (k_ctl s') /\ parent_kept (p_pagetable pr) (p_trapframe pr) (k_mm s) pmo l' (k_mm s') /\
  only (fun a => In a l) (k_mem s) (k_mem s').

Section body.
Context (p : nat) (pr : proc) (l : list Z) (pmo : pagemap) (s : kstate) (Hca : caller p pr l pmo s).

Lemma kept_intro l' mm' P n F : ctl_equiv (k_ctl s) (m_ctl mm') -> kmem_ok (m_mem mm') (m_freelist mm') l' -> (forall a, In a l' -> In a l) ->
  only (fun a => In a l) (k_mem s) (m_mem mm') -> caller_kept pr l pmo s l' (at_ s mm' P n F).
Proof. intros H1 H2 H3 H4. split_and!; [done| |done]. eapply parent_kept_intro; [apply Hca|done|done|done|done]. Qed.

(** After allocproc() and uvmcopy() have succeeded. *)
Lemma wp_fork_rest mm np q tf l1 m1 s1 root l2 s2 pm (Q : Z -> kstate -> Prop) : same_mm (k_mm s) mm ->
  first_unused (procs (k_pt s)) np q -> vacant q -> l = tf :: l1 -> locked_at np mm m1 -> took (p_pagetable pr) (p_trapframe pr) tf l1 m1 pmo s1 -> page_ok root ->
  child_of tf l1 s1 root (p_sz pr) l2 s2 pm ->
  (forall j pa fl, pmo !! j = Some (pa, fl) -> 0 <= j < npages (p_sz pr) ->
     exists pa', pm !! j = Some (pa', fl) /\ forall k, 0 <= k < PGSIZE -> load8 (m_mem s2) (pa' + k) = load8 (m_mem s1) (pa + k)) ->
  (forall npr s', cloned p pr l pmo s np npr l2 pm s' -> caller_kept pr l pmo s l2 s' -> Q (p_pid npr) s') ->
  let npr := newproc (nextpid (k_pt s)) tf root q in
  wp (updp np (set_p_sz (p_sz pr));;
      lift_mem (fun m => write_bytes m (p_trapframe npr) (bytes_at m (p_trapframe pr) sizeof_trapframe));;
      tf_set np TF_a0 0;;
      dup_files p np;;
      pr <- getp p;;
      cwd <- deref (p_cwd pr);;
      cwd <- idup cwd;;
      updp np (set_p_cwd (Some cwd));;
      updp np (fun npr => set_p_name (safestrcpy_l (p_name npr) (p_name pr) 16) npr);;
      npr <- getp np;;
      let pid := p_pid npr in
      krelease (L_proc np);;
      kacquire L_wait;;
      updp np (set_p_parent (Some p));;
      krelease L_wait;;
      kacquire (L_proc np);;
      updp np (set_p_state RUNNABLE);;
      krelease (L_proc np);;
      ret pid) Q (at_ s s2 (<[np := npr]> (procs (k_pt s))) (i32 (nextpid (k_pt s) + 1)) (k_fs s)).
Proof.
  intros Hsm Hfu Hv Hl Hlk Htk Hroot Hch Hcopy HQ npr. pose proof Hca as [(Hok & Hfr & Hcur) (Hsl & Hp & Hst) Hsp [Hsz Hdom] [Hpf Hnf] [Hlen Hopen] [cw Hcw]].
  destruct Hsm as (Hc0 & Hm0 & Hf0) eqn:Hsm'. clear Hsm'.
  assert (Hok' : ctl_ok (m_ctl mm)) by (by rewrite <- Hc0). assert (Hfr' : forall lk, free lk (m_ctl mm)) by (intros lk; rewrite <- Hc0; apply Hfr).
  destruct (locked_ready mm Hok' Hfr' np m1 Hlk) as [Hok1 Hfr1]. pose proof Hfu as (Hq & Hu & _).
  assert (Hnp : (np < length (procs (k_pt s)))%nat) by (by eapply lookup_lt_Some). assert (Hne : p <> np) by (intros ->; congruence).
  assert (Hc2 : ctl_equiv (m_ctl m1) (m_ctl s2)) by (etransitivity; [apply Htk|apply Hch]).
  wp_step. apply wp_updp; [done|]. wp_step. apply wp_memory. wp_step. unfold tf_set. wp_step. eapply wp_getp; [by rewrite list_lookup_insert_eq|]. apply wp_memory.
  cbn [m_mem set_m_mem p_trapframe set_p_sz npr newproc set_p_context set_p_pagetable set_p_trapframe].
  fold (tf_copy (m_mem s2) (p_trapframe pr) tf). set (s3 := set_m_mem _ _). assert (Hc3 : ctl_equiv (m_ctl m1) (m_ctl s3)) by exact Hc2. wp_step.
  apply (wp_dup_files s (procs (k_pt s)) _ p np pr); [by rewrite <- Hc3|rewrite <- Hc3; by apply Hfr1|done|done|done|done|apply Hv|done|].
  intros s4 Hs4. wp_step. apply (wp_getp s p pr); [by rewrite list_lookup_insert_ne|]. wp_step. rewrite Hcw. apply wp_ret. wp_step.
  assert (Hc4 : ctl_equiv (m_ctl m1) (m_ctl s4)) by (etransitivity; [exact Hc3|apply Hs4]).
  apply wp_idup; [by rewrite <- Hc4|rewrite <- Hc4; by apply Hfr1|]. intros s5 Hs5. wp_step. apply wp_updp; [done|]. wp_step. apply wp_updp; [done|].
  wp_step. eapply wp_getp; [by rewrite list_lookup_insert_eq|]. cbv zeta. set (F' := set_inodes _ _).
  apply (wp_publish s (m_ctl mm)); [done|done|destruct Hlk as (H1 & _); rewrite H1, Hc4; apply Hs5|done|].
  intros e He. set (mm' := set_m_ctl e s5). set (npr' := set_p_state RUNNABLE _). change (p_pid _) with (p_pid npr').
  assert (Hm' : m_mem mm' = tf_copy (m_mem s2) (p_trapframe pr) tf) by (change (m_mem mm') with (m_mem s5); destruct Hs5 as (_ & -> & _); by destruct Hs4 as (_ & -> & _)).
  assert (Hf' : m_freelist mm' = m_freelist s2) by (change (m_freelist mm') with (m_freelist s5); destruct Hs5 as (_ & _ & ->); by destruct Hs4 as (_ & _ & ->)).
  assert (Hrd' : mm_ready (m_ctl mm')) by (change (m_ctl mm') with e; split; [by rewrite <- He|rewrite <- He; apply Hfr']).
  assert (Hm1 : m_mem m1 = k_mem s) by (destruct Hlk as (_ & -> & _); exact Hm0).
  assert (Hold1 : space utop (proc_rest (p_trapframe pr)) (p_pagetable pr) (tf :: l1) m1 pmo).
  { rewrite <- Hl. eapply (locked_space mm); [done|done| |exact Hlk]. eapply space_ctl; [exact Hsp|done|done|]. split; [done|apply Hfr']. }
  destruct (child_end _ _ _ _ _ _ _ Htk _ _ _ _ _ Hch mm' Hm' Hf' Hrd') as (Hend & Htab & Honly & Hkm).
  destruct (tf_apart _ _ _ _ _ _ _ Htk _ _ _ _ _ Hch) as (Hptf & Hntf & Hstf).
  assert (Hspt : forall a, space_page (m_mem mm') root pm a <-> space_page (m_mem s2) root pm a) by (intros a; unfold space_page; by rewrite Htab).
  apply HQ; [split|apply kept_intro].
  - exists q. by split.
  - done.
  - split_and!; [done|done|done|apply Hv|apply Hv|apply Hv].
  - done.
  - split; [done|]. by rewrite Hcw.
  - unfold F'. by rewrite Hcw.
  - split_and!; [done|exact Hend|apply Hch].
  - intros j pa fl Hj Hr. destruct (Hcopy j pa fl Hj Hr) as (pa' & Hpa' & Hb). exists pa'. split; [done|]. change (k_mem (at_ _ _ _ _ _)) with (m_mem mm'). rewrite <- Hm1.
    eapply copied_bytes; [exact Hold1|exact Htk|exact Hch|done|exact Hpa'|by exists j, fl|done].
  - intros off H1 H2. change (k_mem (at_ _ _ _ _ _)) with (m_mem mm'). rewrite <- Hm1. eapply tf_words; [exact Hold1|exact Htk|exact Hch|exact Hm'|split; [done|]; change (p_trapframe npr') with tf; by rewrite <- Hl|done|done].
  - intros a. change (k_mem (at_ _ _ _ _ _)) with (m_mem mm'). change (p_pagetable npr') with root. rewrite Hspt, Hl. pose proof (ch_ledger _ _ _ _ _ _ _ _ Hch a) as Ha. simpl. rewrite <- Ha.
    change (p_trapframe npr') with tf. intuition congruence.
  - change (k_mem (at_ _ _ _ _ _)) with (m_mem mm'). change (p_pagetable npr') with root. change (p_trapframe npr') with tf. by rewrite Hspt.
  - by etransitivity.
  - done.
  - intros a Ha. rewrite Hl. right. apply (ch_ledger _ _ _ _ _ _ _ _ Hch). by left.
  - rewrite <- Hm1, Hl. exact Honly.
Qed.

Lemma cloned_slots np npr l' pm s' : cloned p pr l pmo s np npr l' pm s' -> slots_ok (procs (k_pt s')).
Proof.
  intros H. destruct (cl_table _ _ _ _ _ _ _ _ _ _ H) as [-> _]. destruct (cl_state _ _ _ _ _ _ _ _ _ _ H) as (Hr & _). apply slots_insert; [apply Hca|]. by rewrite Hr.
Qed.

Lemma slot_back_slots P' : slot_back (procs (k_pt s)) P' -> slots_ok P'.
Proof. intros [[-> _]|(i & q & q' & _ & Hv & _ & ->)]; [apply Hca|]. by apply slots_insert; [apply Hca|]. Qed.

End body.

(** C3. fork() by a running process.  Either it returns the process id of a child in the
    first slot of the table that was not in use: RUNNABLE, with the caller as its parent,
    its kernel context at forkret(), the caller's descriptors and directory, each with a
    reference more, a copy of every page of the caller with the same flags in a page of
    its own, and the caller's trap frame except that a0 is 0.  Or it returns -1, with
    the same pages free, the same references, and the
    slot it had taken vacant.  In both cases the caller's memory and every page that was
    in use are untouched, each page that was free is free, the child's trap frame or part
    of the child's space, and every lock is released. *)
Theorem fork_clones p pr l pmo s : caller p pr l pmo s ->
  wp fork (fun r s' => exists l', caller_kept pr l pmo s l' s' /\ slots_ok (procs (k_pt s')) /\
    ((exists np npr pm, cloned p pr l pmo s np npr l' pm s' /\ r = p_pid npr) \/
     (r = -1 /\ (forall a, In a l' <-> In a l) /\ k_fs s' = k_fs s /\ slot_back (procs (k_pt s)) (procs (k_pt s'))))) s.
Proof.
  intros Hca. pose proof Hca as [(Hok & Hfr & Hcur) (Hsl & Hp & Hst) Hsp [Hsz Hdom] _ _ _]. unfold fork. wp_step. apply (wp_curproc p); [done|done|]. intros c Hc.
  rewrite at_ctl.
  set (mm := set_m_ctl c (k_mm s)). assert (Hsm : same_mm (k_mm s) mm) by done. assert (Hok' : ctl_ok (m_ctl mm)) by (change (m_ctl mm) with c; by rewrite <- Hc).
  assert (Hfr' : forall lk, free lk (m_ctl mm)) by (intros lk; change (m_ctl mm) with c; rewrite <- Hc; apply Hfr).
  assert (Hsp' : space utop (proc_rest (p_trapframe pr)) (p_pagetable pr) l mm pmo) by (eapply space_ctl; [exact Hsp|done|done|split; [done|apply Hfr']]).
  assert (Hfail : forall l' mm' P' n', reclaimed l mm l' mm' -> slot_back (procs (k_pt s)) P' ->
    exists l'', caller_kept pr l pmo s l'' (at_ s mm' P' n' (k_fs s)) /\ slots_ok P' /\
      ((exists np npr pm, cloned p pr l pmo s np npr l'' pm (at_ s mm' P' n' (k_fs s)) /\ -1 = p_pid npr) \/
       (-1 = -1 /\ (forall a, In a l'' <-> In a l) /\ k_fs s = k_fs s /\ slot_back (procs (k_pt s)) P'))).
  { intros l' mm' P' n' (R1 & R2 & R3 & R4) Hb. exists l'. split_and!; [|exact (slot_back_slots _ _ _ _ _ Hca P' Hb)|by right].
    eapply kept_intro; [exact Hca|etransitivity; [exact Hc|exact R1]|exact R2|apply R3|exact R4]. }
  wp_step. eapply wp_allocproc; [done|done|done|exact Hsp'| |intros l' mm' P' n' Hr Hb; wp_step; by eapply Hfail].
  intros np q tf l1 m1 s1 root l2 s2 Hfu Hv Hl Hlk Htk Hroot Hch. assert (Hne : p <> np) by (destruct Hfu as (Hq & Hu & _); intros ->; congruence).
  assert (Hnp : (np < length (procs (k_pt s)))%nat) by (by eapply lookup_lt_Some, Hfu). assert (Hptf : page_ok tf) by apply (tk_page _ _ _ _ _ _ _ Htk).
  wp_step. apply (wp_getp s p pr); [by rewrite list_lookup_insert_ne|]. wp_step. eapply wp_getp; [by rewrite list_lookup_insert_eq|].
  change (p_pagetable (newproc _ _ _ _)) with root. wp_step. apply wp_mm.
  apply (wp_child_copy (p_pagetable pr) (p_trapframe pr) tf (p_sz pr) l1 s1 pmo (tf_range tf Hptf) (tk_space _ _ _ _ _ _ _ Htk) Hsz Hdom root l2 s2); [done| |].
  - intros l3 s3 pm Hch3 Hcopy. cbn [Z.ltb Z.compare]. eapply (wp_fork_rest p pr l pmo s Hca mm np q tf l1 m1 s1 root l3 s3 pm); [done..|].
    intros npr s' Hcl Hk. exists l3. split_and!; [done|by eapply cloned_slots|]. left. by exists np, npr, pm.
  - intros l3 s3 Hch3. cbn [Z.ltb Z.compare]. eapply (wp_abandon s mm _ _ Hok' Hfr' Hsl l (-1) np q); [done|done|done|exact Hlk| |intros; by eapply Hfail].
    eapply wp_free_child; [exact Htk|exact Hch3|lia|done|done|apply Hv|by apply truthy_page|intros l4 s4 H4; exists l4; by rewrite Hl].
Qed.

End fork.

(** ** A concrete machine

    Process 1 has a page of memory, an open file and a directory. *)

Definition fork_parent (pt : Z) : proc :=
  mkproc RUNNING None 0 0 2 (Some 0%nat) 0 PGSIZE pt demo_tf context0 (Some 0%nat :: Some 0%nat :: replicate 14 None) (Some 0%nat) (replicate 16 0).

Definition ks_fork (pt : Z) (m : mm) : kstate :=
  set_k_fs (set_files [set_f_ref 2 file0] (set_inodes [inode0] fs0))
    (set_k_pt (mkptable (proc0 :: fork_parent pt :: replicate 62 proc0) (Some 0%nat) 7) (set_k_mm (set_m_ctl ctl1 m) ks1)).

Lemma ks_fork_caller : exists pt l m pmo, @caller env0 1 (fork_parent pt) l pmo (ks_fork pt m).
Proof.
  destruct demo_space as (pt & l & m & pmo & Hsp & Hdom & Hl & _). exists pt, l, m, pmo. split.
  - split_and!; [by repeat split; vm_compute|done|done].
  - split_and!; [|done|done]. split; [done|]. assert (Hv : p_state proc0 = UNUSED -> vacant proc0) by done. constructor; [done|]. constructor; [done|]. by apply Forall_replicate.
  - eapply (@space_ctl env0); [exact Hsp|done|done|]. split; [by repeat split; vm_compute|done].
  - split; [by vm_compute|]. intros j Hj. by apply Hdom.
  - split; [by vm_compute|]. intros Hin. assert (Hin' : In demo_tf (rev dpages)) by (apply Hl; by left). revert Hin'. clear. vm_compute. intuition discriminate.
  - split; [done|]. intros f Hf. exists (set_f_ref 2 file0). assert (f = 0%nat) as ->; [|by split].
    apply elem_of_cons in Hf as [[= ->]|Hf]; [done|]. apply elem_of_cons in Hf as [[= ->]|Hf]; [done|]. by apply elem_of_replicate in Hf as [? _].
  - by eexists.
Qed.

Lemma fork_clones_witness : exists pt m, wp (@fork env0) (fun r _ => r = 7 \/ r = -1) (ks_fork pt m).
Proof.
  destruct ks_fork_caller as (pt & l & m & pmo & Hca). exists pt, m. eapply wp_mono; [apply (@fork_clones env0 env0_ok 1 _ l pmo _ Hca)|].
  intros r s' (l' & _ & _ & [(np & npr & pm & Hcl & ->)|(-> & _)]); [left|by right]. by destruct (cl_state _ _ _ _ _ _ _ _ _ _ Hcl) as (_ & -> & _).
Defined.
