(* ===== verification/WaitSpec.v ===== *)
(** * wait() reaps a child that has exited (kernel/proc.c)

    The scan of the process table under wait_lock, the copy of the exit status to the
    caller and freeproc() of the child.  States are [at_] of ForkSpec.v. *)

From S2P Require Import Prelude Riscv Kstate CString Spinlock Kalloc Vm PageTable UserMem AddrSpace Sched SchedSpec FreeWalk.
From S2P Require Import Bytes Sleeplock Bio FsRun Log Fs File Proc ForkSpec.

Definition zombie_of (p : nat) (x : proc) : Prop := p_parent x = Some p /\ p_state x = ZOMBIE.

Definition first_zombie (p : nat) (P : list proc) (i : nat) (q : proc) : Prop :=
  P !! i = Some q /\ zombie_of p q /\ forall j x, (j < i)%nat -> P !! j = Some x -> ~ zombie_of p x.

Section wait.
Context {E : Env} {L : LinkerOk}.

(** The end of the scan at the zombie [i]. *)
Definition reap (i : nat) (q : proc) (p : nat) (addr : Z) : K (option Z * bool) :=
  pr <- getp p;;
  r <- (if negb (addr =? 0) then lift_mm (copyout (p_pagetable pr) addr (enc_le 4 (p_xstate q))) else ret 0);;
  if r <? 0 then krelease (L_proc i);; krelease L_wait;; ret (Some (-1), true)
  else freeproc i;; krelease (L_proc i);; krelease L_wait;; ret (Some (p_pid q), true).

(** The scan stops at the first zombie among the caller's children, its lock held. *)
Lemma wp_wait_scan s0 p addr mm P n F (Q : option Z * bool -> kstate -> Prop) : ctl_ok (m_ctl mm) -> (forall i, free (L_proc i) (m_ctl mm)) -> length P = NPROC ->
  (forall i q mm', first_zombie p P i q -> locked_at i mm mm' -> wp (reap i q p addr) Q (at_ s0 mm' P n F)) ->
  (forall mm' kids, same_mm mm mm' -> (forall x, x ∈ P -> ~ zombie_of p x) -> (kids = true -> exists x, x ∈ P /\ p_parent x = Some p) -> Q (None, kids) (at_ s0 mm' P n F)) ->
  wp (wait_scan proc_ids p addr false) Q (at_ s0 mm P n F).
Proof.
  intros Hok Hfr Hlen Hfound Hnone. unfold proc_ids.
  enough (Hgo : forall k j mm1 kids, (j + k = NPROC)%nat -> same_mm mm mm1 -> (forall i x, (i < j)%nat -> P !! i = Some x -> ~ zombie_of p x) ->
    (kids = true -> exists x, x ∈ P /\ p_parent x = Some p) -> wp (wait_scan (seq j k) p addr kids) Q (at_ s0 mm1 P n F)) by (apply Hgo; [done|done|intros; lia|done]).
  induction k as [|k IH]; intros j mm1 kids Hj Hs Hbefore Hk; cbn [seq wait_scan].
  - apply wp_ret, Hnone; [done| |done]. intros q Hq. apply list_elem_of_lookup_1 in Hq as [i Hi]. apply (Hbefore i); [|done]. apply lookup_lt_Some in Hi. lia.
  - destruct (lookup_lt_is_Some_2 P j) as [q Hq]; [lia|]. pose proof Hs as (Hc & Hm & Hfl). wp_step. apply (wp_getp s0 j q); [done|].
    assert (Hstep : ~ zombie_of p q -> forall i x, (i < S j)%nat -> P !! i = Some x -> ~ zombie_of p x).
    { intros Hz i x Hi Hx. destruct (decide (i = j)) as [->|]; [congruence|]. apply (Hbefore i); [lia|done]. }
    case_bool_decide as Hpar; [|by apply IH; [lia|done|apply Hstep; by intros [? _]|done]].
    wp_step. apply wp_acquire; [by rewrite <- Hc|rewrite <- Hc; apply Hfr|]. wp_step. apply (wp_getp s0 j q); [done|]. case_decide as Hz.
    + apply (Hfound j q); [done|]. split_and!; [by apply acquired_proper|done|done].
    + wp_step. apply (wp_release s0 (m_ctl mm)); [done|apply Hfr|by apply acquired_proper|]. intros e He. apply IH; [lia|done|apply Hstep; by intros [_ ?]|].
      intros _. exists q. split; [by eapply list_elem_of_lookup_2|done].
Qed.

(** The status stored in the caller's memory: 0 or -1, and the memory. *)
Definition stored (m : memory) (pt addr status : Z) : Z * memory :=
  if addr =? 0 then (0, m) else write_user m pt addr (enc_le 4 status).

(** A zombie child and its memory, and the caller's pages apart from it. *)
Record dead (p : nat) (pr : proc) (l : list Z) (s : kstate) (i : nat) (q : proc) (pm : pagemap) : Prop := {
  de_slot : first_zombie p (procs (k_pt s)) i q /\ p_ofile q = replicate NOFILE None;
  de_space : space utop (proc_rest (p_trapframe q)) (p_pagetable q) l (k_mm s) pm;
  de_size : 0 <= p_sz q <= utop * PGSIZE /\ forall j, is_Some (pm !! j) <-> 0 <= j < npages (p_sz q);
  de_frame : page_ok (p_trapframe q) /\ ~ In (p_trapframe q) l /\ ~ space_page (k_mem s) (p_pagetable q) pm (p_trapframe q);
  de_apart : forall va, 0 <= va -> upage (k_mem s) (p_pagetable pr) va <> 0 -> ~ is_table (k_mem s) (p_pagetable q) (upage (k_mem s) (p_pagetable pr) va)
}.

Definition dead_page (q : proc) (pm : pagemap) (m : memory) (a : Z) : Prop := a = p_trapframe q \/ space_page m (p_pagetable q) pm a.

(** ** The exit status *)

Lemma uvm_ctl root l s s' : uvm_inv root l s -> m_mem s' = m_mem s -> m_freelist s' = m_freelist s -> mm_ready (m_ctl s') -> uvm_inv root l s'.
Proof. intros [[H1 H2 H3] H4] Hm Hf Hrd. split; [split|]; rewrite ?Hm, ?Hf; done. Qed.

(** Storing it touches no table of the child. *)
Lemma wp_status s0 pr q pm l addr mm P n F (Q : Z -> kstate -> Prop) : uvm_inv (p_pagetable pr) l mm -> 0 <= addr < 2 ^ 64 ->
  space utop (proc_rest (p_trapframe q)) (p_pagetable q) l mm pm ->
  (forall va, 0 <= va -> upage (m_mem mm) (p_pagetable pr) va <> 0 -> ~ is_table (m_mem mm) (p_pagetable q) (upage (m_mem mm) (p_pagetable pr) va)) ->
  (forall r m1, stored (m_mem mm) (p_pagetable pr) addr (p_xstate q) = (r, m1) -> space utop (proc_rest (p_trapframe q)) (p_pagetable q) l (set_m_mem m1 mm) pm ->
     (forall t, is_table m1 (p_pagetable q) t <-> is_table (m_mem mm) (p_pagetable q) t) -> Q r (at_ s0 (set_m_mem m1 mm) P n F)) ->
  wp (if negb (addr =? 0) then lift_mm (copyout (p_pagetable pr) addr (enc_le 4 (p_xstate q))) else ret 0) Q (at_ s0 mm P n F).
Proof.
  intros Hu Ha Hsp Hap HQ. unfold stored in HQ. destruct (addr =? 0); cbn [negb].
  { apply wp_ret. replace mm with (set_m_mem (m_mem mm) mm) by (by destruct mm). by apply HQ; [|destruct mm|]. }
  apply wp_mm. unfold wp, copyout. rewrite (copyout_loop (p_pagetable pr) l) by (done || lia).
  destruct (write_user_frame (p_pagetable pr) l (enc_le 4 (p_xstate q)) (m_mem mm) addr (proj2 Hu) ltac:(lia)) as (_ & _ & Hfr).
  pose proof (write_user_inv (p_pagetable pr) l (enc_le 4 (p_xstate q)) mm addr (proj1 Hu) (proj2 Hu) ltac:(lia)) as [Hvi _].
  destruct (write_user (m_mem mm) (p_pagetable pr) addr (enc_le 4 (p_xstate q))) as [r m1]. cbn [snd] in *.
  assert (Hsame : forall t, is_table (m_mem mm) (p_pagetable q) t -> same_page (m_mem mm) m1 t).
  { intros t Ht b Hb. apply Hfr. intros i Hi Hne ->. destruct (uo_page _ _ _ (proj2 Hu) (addr + i) ltac:(lia) Hne) as [Hpo _].
    destruct (table_page _ _ _ _ (sp_inv _ _ _ _ _ _ Hsp) Ht) as [Hto _]. pose proof (uaddr_in (m_mem mm) (p_pagetable pr) (addr + i)).
    assert (Hd : upage (m_mem mm) (p_pagetable pr) (addr + i) <> t) by (intros He; apply (Hap (addr + i)); [lia|done|by rewrite He]).
    destruct (page_disjoint _ _ Hpo Hto Hd); lia. }
  apply HQ; [done| |intros t; by apply stable_tables]. eapply space_stable; [exact Hsp|exact Hsame|apply Hvi|apply Hvi|].
  intros a [Hin|Hin]; [by eapply table_page; [apply Hsp|]|by apply (sp_page _ _ _ _ _ _ Hsp)].
Qed.

(** ** wait() *)

(** Both locks are released. *)
Lemma wp_unlock_both {A} s0 c i mm P n F (a : A) (Q : A -> kstate -> Prop) : ctl_ok c -> (forall lk, free lk c) -> ctl_equiv (acquired (L_proc i) (acquired L_wait c)) (m_ctl mm) ->
  (forall e, ctl_equiv c e -> Q a (at_ s0 (set_m_ctl e mm) P n F)) -> wp (krelease (L_proc i);; krelease L_wait;; ret a) Q (at_ s0 mm P n F).
Proof.
  intros Hok Hfr Hc HQ. destruct (acquired_facts L_wait c Hok) as (H1 & _ & H3 & _). wp_step.
  apply (wp_release s0 (acquired L_wait c)); [done|unfold free; rewrite H3 by done; apply Hfr|done|]. intros e He. wp_step.
  apply (wp_release s0 c); [done|apply Hfr|done|]. intros e' He'. wp_step. by apply HQ.
Qed.

(** What wait() returns and leaves, for the status stored with result [rc] in the
    memory [m1]. *)
Definition reaped (l : list Z) (s : kstate) (i : nat) (q : proc) (pm : pagemap) (rc : Z) (m1 : memory) (r : Z) (s' : kstate) : Prop :=
  k_fs s' = k_fs s /\ nextpid (k_pt s') = nextpid (k_pt s) /\ ctl_equiv (k_ctl s) (k_ctl s') /\
  if rc <? 0 then r = -1 /\ procs (k_pt s') = procs (k_pt s) /\ k_mem s' = m1 /\ m_freelist (k_mm s') = m_freelist (k_mm s)
  else r = p_pid q /\ procs (k_pt s') = <[i := freed q]> (procs (k_pt s)) /\ slots_ok (procs (k_pt s')) /\
    exists l', kmem_ok (k_mem s') (m_freelist (k_mm s')) l' /\ (forall a, In a l' <-> In a l \/ dead_page q pm (k_mem s) a) /\
      only (dead_page q pm (k_mem s)) m1 (k_mem s').

Section reaping.
Context (p : nat) (pr : proc) (l : list Z) (s : kstate) (addr : Z) (i : nat) (q : proc) (pm : pagemap).
Context (Hok : ctl_ok (k_ctl s)) (Hfr : forall lk, free lk (k_ctl s)) (Hsl : slots_ok (procs (k_pt s))) (Hp : procs (k_pt s) !! p = Some pr).
Context (Hu : uvm_inv (p_pagetable pr) l (k_mm s)) (Ha : 0 <= addr < 2 ^ 64) (Hd : dead p pr l s i q pm).

Lemma wp_reap mm : ctl_equiv (acquired (L_proc i) (acquired L_wait (k_ctl s))) (m_ctl mm) -> m_mem mm = k_mem s -> m_freelist mm = m_freelist (k_mm s) ->
  wp (reap i q p addr) (fun r s' => exists z, r = (Some z, true) /\ let '(rc, m1) := stored (k_mem s) (p_pagetable pr) addr (p_xstate q) in reaped l s i q pm rc m1 z s')
    (at_ s mm (procs (k_pt s)) (nextpid (k_pt s)) (k_fs s)).
Proof.
  intros Hc Hm Hfl. destruct Hd as [(Hfz & Hof) Hsp [Hsz Hdom] (Hpf & Hnf & Hsf) Hap]. pose proof Hfz as (Hq & (Hpar & Hz) & _).
  assert (Hlt : (i < length (procs (k_pt s)))%nat) by (by eapply lookup_lt_Some).
  assert (Hrd : mm_ready (m_ctl mm)).
  { eapply mm_ready_equiv; [exact Hc|]. destruct (acquired_facts L_wait _ Hok) as (H1 & _ & H3 & _). destruct (acquired_facts (L_proc i) _ H1) as (H4 & _ & H6 & _).
    split; [done|]. unfold free. rewrite H6, H3 by done. apply Hfr. }
  unfold reap. wp_step. apply (wp_getp s p pr); [done|]. wp_step.
  apply (wp_status s pr q pm l); [by eapply uvm_ctl|done|by eapply space_ctl|by rewrite Hm|]. rewrite Hm. intros rc m1 Hst Hsp1 Htab. rewrite Hst. destruct (rc <? 0) eqn:Hrc.
  - apply (wp_unlock_both s (k_ctl s)); [done|done|done|]. intros e He. exists (-1). split; [done|]. split_and!; [done|done|done|]. by rewrite Hrc.
  - assert (Hspeq : forall a, space_page m1 (p_pagetable q) pm a <-> space_page (k_mem s) (p_pagetable q) pm a) by (intros a; unfold space_page; by rewrite Htab).
    rewrite <- (list_insert_id (procs (k_pt s)) i q Hq) at 1. wp_step. apply wp_freeproc; [done|].
    eapply (wp_free_owned (p_trapframe q) (p_pagetable q) (p_sz q)); [exact Hsp1|done|done|split; [done|split; [done|intros Hx; by apply Hsf, Hspeq]]|done|done|done| |].
    + apply truthy_page. destruct (table_page _ _ _ (p_pagetable q) (sp_inv _ _ _ _ _ _ Hsp)) as [? _]; [|done]. exists []. split; [split; [simpl; lia|done]|done].
    + intros l' s1 (G1 & G2 & G3 & G4). apply (wp_unlock_both s (k_ctl s)); [done|done|by etransitivity|]. intros e He. exists (p_pid q). split; [done|].
      split_and!; [done|done|done|]. rewrite Hrc. split_and!; [done|done|apply slots_insert; [done|]; intros _; by apply freed_vacant|].
      exists l'. split_and!; [done|intros a; rewrite G3; unfold dead_page; by rewrite Hspeq|]. eapply only_mono; [|exact G4]. intros a [->|Hin]; [by left|right; by apply Hspeq].
Qed.

End reaping.

(** C4. wait(addr) by a process with a child that has exited takes the first such child of
    the table.  With addr 0, or a status that can be stored, it returns the child's
    process id, with the status in the caller's memory, the child's slot vacant and the
    child's trap frame, page tables and pages, and nothing else, added to the free pages;
    when the status cannot be stored it returns -1 and the child stays.  The file system
    is not touched and every lock is released. *)
Theorem wait_reaps p pr l s i q pm addr : ctl_ok (k_ctl s) -> (forall lk, free lk (k_ctl s)) -> cur (k_ctl s) = Some p ->
  slots_ok (procs (k_pt s)) -> procs (k_pt s) !! p = Some pr -> uvm_inv (p_pagetable pr) l (k_mm s) -> 0 <= addr < 2 ^ 64 -> dead p pr l s i q pm ->
  wp (wait addr) (fun r s' => let '(rc, m1) := stored (k_mem s) (p_pagetable pr) addr (p_xstate q) in reaped l s i q pm rc m1 r s') s.
Proof.
  intros Hok Hfr Hcur Hsl Hp Hu Ha Hd. unfold wait. wp_step. apply (wp_curproc p); [done|done|]. intros c Hc. rewrite at_ctl. wp_step.
  assert (Hokc : ctl_ok c) by (by rewrite <- Hc). assert (Hfrc : forall lk, free lk c) by (intros lk; rewrite <- Hc; apply Hfr).
  apply wp_acquire; [done|apply Hfrc|]. cbn [loop]. wp_step. wp_step. destruct (acquired_facts L_wait c Hokc) as (H1 & _ & H3 & _).
  apply wp_wait_scan; [done|intros j; unfold free; cbn [m_ctl set_m_ctl]; rewrite H3 by done; apply Hfrc|apply Hsl| |].
  - intros j x mm' Hfz (Hc' & Hm' & Hf'). assert (Heq : j = i /\ x = q).
    { destruct Hd as [((Hq & Hzq & Hbq) & _) _ _ _ _]. destruct Hfz as (Hx & Hzx & Hbx). destruct (Nat.lt_trichotomy j i) as [Hlt|[->|Hlt]].
      - by destruct (Hbq j x Hlt Hx). - split; [done|congruence]. - by destruct (Hbx i q Hlt Hq). }
    destruct Heq as [-> ->]. eapply wp_mono; [eapply wp_reap; [exact Hok|exact Hfr|exact Hsl|exact Hp|exact Hu|exact Ha|exact Hd| |exact Hm'|exact Hf']|].
    + rewrite <- Hc'. by do 2 apply acquired_proper.
    + intros r s' (z & -> & Hz). wp_step. wp_step. exact Hz.
  - intros mm' kids _ Hno _. destruct Hd as [((Hq & Hzq & _) & _) _ _ _ _]. destruct (Hno q); [by eapply list_elem_of_lookup_2|done].
Qed.

End wait.

(** ** A concrete machine

    Process 1 has an empty address space, its child in slot 2 has exited with status 5. *)

Definition wait_parent (pt : Z) : proc := set_p_state RUNNING (set_p_pid 2 (set_p_pagetable pt proc0)).
Definition wait_child (pt : Z) : proc :=
  mkproc ZOMBIE None 0 5 3 (Some 1%nat) 0 PGSIZE pt demo_tf context0 (replicate NOFILE None) None (replicate 16 0).
Definition ks_wait (new old : Z) (m : mm) : kstate :=
  set_k_pt (mkptable (proc0 :: wait_parent new :: wait_child old :: replicate 61 proc0) (Some 0%nat) 7) (set_k_mm (set_m_ctl ctl1 m) ks1).

Lemma no_user_pages root l s : @space env0 utop (fun _ => None) root l s ∅ -> (forall va, 0 <= va -> upage (m_mem s) root va = 0) /\ @uvm_inv env0 root l s.
Proof.
  intros Hsp. assert (Hup : forall va, 0 <= va -> upage (m_mem s) root va = 0).
  { intros va Hva. unfold upage. destruct (Z.ltb_spec va MAXVA); [|done]. pose proof (sp_view _ _ _ _ _ _ Hsp va ltac:(lia)) as Hv. unfold at_page in Hv. rewrite lookup_empty in Hv.
    apply view_none in Hv. unfold user_pte. by rewrite Hv. }
  split; [done|]. split; [apply Hsp|]. split; [apply Hsp|..]; intros; by rewrite Hup in *.
Qed.

Lemma wait_reaps_witness : exists new old m, wp (@wait env0 0) (fun r s' => r = 3 /\ p_state (get_proc 2 s') = UNUSED) (ks_wait new old m).
Proof.
  destruct demo_pair as (old & new & l & m & pm & Hsp & Hnew & Hdom & Hin & Hap). exists new, old, m. set (s := ks_wait new old m).
  assert (Hrd : mm_ready ctl1) by (split; [by repeat split; vm_compute|done]). destruct (no_user_pages new l m Hnew) as [Hup Hu].
  assert (Htf : ~ In demo_tf (rev dpages)) by (vm_compute; intuition discriminate).
  eapply wp_mono; [apply (@wait_reaps env0 env0_ok 1 (wait_parent new) l s 2 (wait_child old) pm 0); [by repeat split; vm_compute|done|done| |done| |done|split]|].
  - split; [done|]. assert (Hv : p_state proc0 = UNUSED -> vacant proc0) by done. do 3 (constructor; [done|]). by apply Forall_replicate.
  - exact (@uvm_ctl env0 new l m (k_mm s) Hu eq_refl eq_refl Hrd).
  - split; [|done]. split; [done|]. split; [done|]. intros j x Hj Hx [Hx1 _]. destruct j as [|[|j]]; [|..|lia]; injection Hx as <-; done.
  - exact (@space_ctl env0 _ _ _ m (k_mm s) pm Hsp eq_refl eq_refl Hrd).
  - split; [by vm_compute|done].
  - split; [by vm_compute|]. split; intros Hx; apply Htf, Hin; [by left|by right].
  - intros va Hva Hx. destruct Hx. exact (Hup va Hva).
  - intros r s' (_ & _ & _ & Hr). destruct Hr as (-> & Hp & _). split; [done|]. unfold get_proc. by rewrite Hp.
Defined.
