(* ===== verification/ProcSpec.v ===== *)
(** * The process table at boot, and the size of a process (kernel/proc.c)

    procinit() makes 64 vacant slots with their own kernel stacks, growproc() (the
    sbrk() system call) resizes the caller's address space.  States are [at_] of
    ForkSpec.v. *)

From S2P Require Import Prelude Riscv Kstate CString Spinlock Kalloc Vm PageTable UserMem AddrSpace Sched SchedSpec FreeWalk.
From S2P Require Import Bytes Sleeplock Bio FsRun Log Fs File Proc ForkSpec.

(** ** growproc() *)

Section grow.
Context {E : Env} {L : LinkerOk}.

(** uvmdealloc() to a smaller size, which need not be a multiple of the page size. *)
Lemma wp_uvmdealloc_to rest root l s pm oldsz newsz (Q : Z -> mm -> Prop) : let k := Z.to_nat (npages oldsz - npages newsz) in
  (forall i, 0 <= i < utop -> rest i = None) ->
  space utop rest root l s pm -> (forall j, is_Some (pm !! j) <-> 0 <= j < npages oldsz) -> 0 <= newsz < oldsz -> oldsz <= utop * PGSIZE ->
  (forall l' s', space utop rest root l' s' (cut (npages newsz) k pm) -> shrunk root l s (range_page pm (npages newsz) k) l' s' -> Q newsz s') ->
  wp (uvmdealloc root oldsz newsz) Q s.
Proof.
  intros k Hrest Hsp Hdom Hlt Htop HQ. pose proof MAXVA_eq as HM. pose proof utop_ok as [Hu1 Hu2].
  assert (Hn : 0 <= npages newsz <= npages oldsz /\ npages oldsz <= utop) by (pose proof (npages_top utop oldsz Htop); unfold npages, PGSIZE in *; Z.div_mod_to_equations; lia).
  unfold uvmdealloc. destruct (Z.leb_spec oldsz newsz); [lia|]. rewrite !PGROUNDUP_npages by lia.
  destruct (Z.ltb_spec (npages newsz * PGSIZE) (npages oldsz * PGSIZE)) as [Hd|Hd]; cbn [when].
  - rewrite <- Z.mul_sub_distr_r, Z.div_mul by done. rewrite i32_id by (unfold PGSIZE in *; lia). unfold u64. rewrite Z.mod_small by (unfold PGSIZE in *; lia).
    replace (npages oldsz - npages newsz) with (Z.of_nat k) by (unfold k, PGSIZE in *; lia). wp_step.
    apply (wp_uvmunmap utop rest utop_ok Hrest root l s pm); [done|lia|lia|intros j Hj; apply Hdom; lia|]. intros l' s' H1 H2. wp_step. by eapply HQ.
  - assert (Hk : k = 0%nat) by (unfold k, PGSIZE in *; lia). wp_step. wp_step. apply (HQ l s); rewrite Hk; [done|].
    assert (Hno : forall p, ~ range_page pm (npages newsz) 0 p) by (intros p (j & f & Hj & _); lia).
    split; [done|intros p; specialize (Hno p); tauto|tauto|apply only_refl].
Qed.

(** The flags of memory that sbrk() adds. *)
Definition sbrk_flags : Z := Z.lor (Z.lor (Z.lor PTE_R PTE_U) PTE_W) PTE_V.

(** What growproc(n) does to a process [pr] with the page map [pm] and the free pages
    [l]: it grows; or memory runs out, with no more pages [l'] free than the new pages
    asked for; or it shrinks. *)
Definition resized (pr : proc) (n : Z) (l : list Z) (s : kstate) (pm : pagemap) (r sz' : Z) (l' : list Z) (s' : kstate) (pm' : pagemap) : Prop :=
  let rest := proc_rest (p_trapframe pr) in let pt := p_pagetable pr in let sz := p_sz pr in
  0 < n /\ r = 0 /\ sz' = sz + n /\ added utop rest pt (npages sz) l (k_mm s) pm (fun _ _ => 0) (fun _ => sbrk_flags) (npages sz') l' (k_mm s') pm' \/
  0 < n /\ r = -1 /\ sz' = sz /\ pm' = pm /\ restored utop rest pt l (k_mm s) pm l' (k_mm s') /\
    Z.of_nat (length l') <= npages (sz + n) - npages sz \/
  n <= 0 /\ r = 0 /\ sz' = (if sz + n <? 0 then sz else sz + n) /\
    let k := Z.to_nat (npages sz - npages sz') in pm' = cut (npages sz') k pm /\ shrunk pt l (k_mm s) (range_page pm (npages sz') k) l' (k_mm s').

Lemma cut_0 i pm : cut i 0 pm = pm.
Proof. done. Qed.

Lemma shrunk_nothing root l s s' pm i : ctl_equiv (m_ctl s) (m_ctl s') -> m_mem s' = m_mem s -> shrunk root l s (range_page pm i 0) l s'.
Proof.
  intros Hc Hm. assert (Hno : forall p, ~ range_page pm i 0 p) by (intros p (j & f & Hj & _); lia).
  split; [done|intros p; specialize (Hno p); tauto|by rewrite Hm|rewrite Hm; apply only_refl].
Qed.

(** C6. growproc(n), for a size that stays below the trap frame.  For n > 0 it returns 0 with
    the size larger by n and every new page zeroed, readable and writable, in a page that
    was free; or -1, only when memory has run out: no more pages are then free than the new
    pages asked for, size and mapped pages are as they were, and every page taken is free
    again but those that became page tables of the process, which keeps them.  For n <= 0 it
    returns 0 with the size smaller by -n and exactly the pages above the new size given
    back, unless the size would become negative: then the process is left alone.  The
    mapped pages are those below the new size again, and nothing but the size of the
    caller changes in the process table. *)
Theorem growproc_resizes p pr l s pm n : ctl_ok (k_ctl s) -> free L_kmem (k_ctl s) -> cur (k_ctl s) = Some p -> procs (k_pt s) !! p = Some pr ->
  space utop (proc_rest (p_trapframe pr)) (p_pagetable pr) l (k_mm s) pm -> (forall j, is_Some (pm !! j) <-> 0 <= j < npages (p_sz pr)) ->
  0 <= p_sz pr <= utop * PGSIZE -> - 2 ^ 31 <= n < 2 ^ 31 -> p_sz pr + n <= utop * PGSIZE ->
  wp (growproc n) (fun r s' => exists sz' l' pm', procs (k_pt s') = <[p := set_p_sz sz' pr]> (procs (k_pt s)) /\ k_fs s' = k_fs s /\
    space utop (proc_rest (p_trapframe pr)) (p_pagetable pr) l' (k_mm s') pm' /\ (forall j, is_Some (pm' !! j) <-> 0 <= j < npages sz') /\
    resized pr n l s pm r sz' l' s' pm') s.
Proof.
  intros Hok Hfr Hcur Hp Hsp Hdom Hsz Hn Htop. unfold growproc. wp_step. apply (wp_curproc p); [done|done|]. intros c Hc. rewrite at_ctl. wp_step.
  apply (wp_getp s p pr); [done|]. set (mm := set_m_ctl c (k_mm s)). set (sz := p_sz pr) in *.
  assert (Hlt : (p < length (procs (k_pt s)))%nat) by (by eapply lookup_lt_Some). pose proof MAXVA_eq as HM. pose proof utop_ok as [Hu1 Hu2].
  assert (Hrd : mm_ready (m_ctl mm)) by (eapply mm_ready_equiv; [exact Hc|by split]).
  assert (Hsp' : space utop (proc_rest (p_trapframe pr)) (p_pagetable pr) l mm pm) by (by eapply space_ctl).
  rewrite <- (list_insert_id (procs (k_pt s)) p pr Hp) at 1. destruct (Z.ltb_spec 0 n) as [Hpos|Hpos]; [|destruct (Z.ltb_spec n 0) as [Hneg|Hneg]].
  - wp_step. apply wp_mm. unfold u64. rewrite Z.mod_small by lia. eapply wp_mono; [apply (uvmalloc_grows utop (proc_rest (p_trapframe pr)) utop_ok (proc_rest_low _)); [exact Hsp'|done|lia|done|done]|].
    intros r mm' (l' & [(-> & pm' & Ha)|(-> & Hr & Hlen)]).
    + destruct (Z.eqb_spec (sz + n) 0); [lia|]. wp_step. apply wp_updp; [done|]. wp_step. exists (sz + n), l', pm'. split_and!; [done|done|apply Ha| |].
      * eapply added_dom; [|exact Ha| |exact Hdom]; unfold npages, PGSIZE in *; Z.div_mod_to_equations; lia.
      * left. split_and!; [done|done|done|]. destruct Ha as [A1 A2 A3 A4 A5 A6 A7]. split; try done. by etransitivity.
    + cbn [Z.eqb]. wp_step. exists sz, l', pm. destruct Hr as [R1 R2 R3 R4]. split_and!; [cbn; f_equal; by destruct pr|done|done|done|]. right. left.
      split_and!; [done|done|done|done| |done]. split; try done. by etransitivity.
  - wp_step. apply wp_mm. destruct (Z.ltb_spec (sz + n) 0) as [Hlow|Hlow].
    + unfold uvmdealloc, u64. replace ((sz + n) mod 2 ^ 64) with (sz + n + 2 ^ 64) by (apply (Z.mod_unique _ _ (-1)); lia). destruct (Z.leb_spec sz (sz + n + 2 ^ 64)); [|lia].
      wp_step. wp_step. apply wp_updp; [done|]. wp_step. exists sz, l, pm. split_and!; [done|done|done|done|]. right. right. fold sz. cbv zeta. destruct (Z.ltb_spec (sz + n) 0); [|lia].
      rewrite Z.sub_diag. split_and!; [lia|done|done|done|by apply shrunk_nothing].
    + unfold u64. rewrite Z.mod_small by lia. apply (wp_uvmdealloc_to (proc_rest (p_trapframe pr)) _ l mm pm); [apply proc_rest_low|done|done|lia|lia|].
      intros l' mm' Hsp2 [S1 S2 S3 S4]. wp_step. apply wp_updp; [done|]. wp_step. eexists (sz + n), l', _. split_and!; [done|done|exact Hsp2| |].
      * intros j. rewrite cut_lookup. case_decide as Hj; [split; [intros H; by apply is_Some_None in H|lia]|]. rewrite Hdom. fold sz.
        assert (npages (sz + n) <= npages sz) by (unfold npages, PGSIZE; Z.div_mod_to_equations; lia). lia.
      * right. right. fold sz. cbv zeta. destruct (Z.ltb_spec (sz + n) 0); [lia|]. split_and!; [lia|done|done|done|]. split; try done. by etransitivity.
  - assert (n = 0) as -> by lia. wp_step. apply wp_updp; [done|]. wp_step. exists sz, l, pm. split_and!; [done|done|done|done|]. right. right. fold sz. cbv zeta. rewrite Z.add_0_r.
    destruct (Z.ltb_spec sz 0); [lia|]. rewrite Z.sub_diag. split_and!; [lia|done|done|done|by apply shrunk_nothing].
Qed.

End grow.

Lemma growproc_resizes_witness : exists pt m, wp (@growproc env0 5000) (fun r s' => exists sz, get_proc 1 s' = set_p_sz sz (fork_parent pt) /\
  (r = 0 /\ sz = 9096 \/ r = -1 /\ sz = 4096)) (ks_fork pt m).
Proof.
  destruct demo_space as (pt & l & m & pm & Hsp & Hdom & _). exists pt, m. eapply wp_mono.
  - apply (@growproc_resizes env0 env0_ok 1 (fork_parent pt) l (ks_fork pt m) pm 5000); [by repeat split; vm_compute|done|done|done| |exact Hdom|by vm_compute|done|by vm_compute].
    eapply (@space_ctl env0); [exact Hsp|done|done|]. split; [by repeat split; vm_compute|done].
  - intros r s' (sz & l' & pm' & Hp & _ & _ & _ & Hr). exists sz. unfold get_proc. rewrite Hp. split; [done|].
    destruct Hr as [(_ & -> & -> & _)|[(_ & -> & -> & _)|(Hn & _)]]; [by left|by right|lia].
Defined.

(** ** procinit() *)

Section init.
Context (s0 : kstate).

(** A process of the table after procinit(). *)
Definition boot_proc (i : nat) (q : proc) : proc := set_p_kstack (KSTACK (Z.of_nat i)) (set_p_state UNUSED q).

Lemma wp_initlock_at lk name mm P n F (Q : unit -> kstate -> Prop) : ctl_ok (m_ctl mm) ->
  (forall c, ctl_ok c -> free lk c -> (forall lk', free lk' (m_ctl mm) -> free lk' c) -> Q tt (at_ s0 (set_m_ctl c mm) P n F)) ->
  wp (lift_ctl (initlock lk name)) Q (at_ s0 mm P n F).
Proof.
  intros Hok HQ. apply wp_mm, wp_lift, wp_modify. apply HQ; [done|unfold free; by rewrite get_lock_upd|].
  intros lk' Hf. unfold free in *. destruct (decide (lk' = lk)) as [->|Hne]; [by rewrite get_lock_upd|by rewrite get_lock_upd_ne].
Qed.

Lemma wp_init_procs k j : forall mm P n F (Q : unit -> kstate -> Prop), ctl_ok (m_ctl mm) -> (j + k = length P)%nat ->
  (forall mm', ctl_ok (m_ctl mm') -> m_mem mm' = m_mem mm -> (forall i, (j <= i < j + k)%nat -> free (L_proc i) (m_ctl mm')) -> (forall lk, free lk (m_ctl mm) -> free lk (m_ctl mm')) ->
     Q tt (at_ s0 mm' (imap (fun i q => if (j <=? i)%nat then boot_proc i q else q) P) n F)) ->
  wp (for_each (seq j k) (fun i =>
    lift_ctl (initlock (L_proc i) "proc");;
    updp i (fun p => set_p_kstack (KSTACK (Z.of_nat i)) (set_p_state UNUSED p)))) Q (at_ s0 mm P n F).
Proof.
  revert j. induction k as [|k IH]; intros j mm P n F Q Hok Hl HQ; cbn [seq for_each].
  - apply wp_ret. replace P with (imap (fun i q => if (j <=? i)%nat then boot_proc i q else q) P) at 1; [by apply HQ; [|done|intros; lia|]|].
    apply list_eq. intros i. rewrite list_lookup_imap. destruct (P !! i) eqn:Hi; [|done]. simpl. apply lookup_lt_Some in Hi. destruct (Nat.leb_spec j i); [lia|done].
  - wp_step. wp_step. apply wp_initlock_at; [done|]. intros c H1 H2 H3. destruct (lookup_lt_is_Some_2 P j) as [q Hq]; [lia|].
    rewrite <- (list_insert_id P j q Hq) at 1. apply wp_updp; [lia|]. apply IH; [done|rewrite length_insert; lia|]. intros mm' G1 G2 G3 G4.
    replace (imap _ (<[j := _]> P)) with (imap (fun i q => if (j <=? i)%nat then boot_proc i q else q) P).
    + apply HQ; [done|done| |intros lk Hlk; by apply G4, H3]. intros i Hi. destruct (decide (i = j)) as [->|]; [by apply G4|apply G3; lia].
    + apply list_eq. intros i. rewrite !list_lookup_imap. destruct (decide (i = j)) as [->|Hne].
      * by rewrite list_lookup_insert_eq, Hq, Nat.leb_refl, (proj2 (Nat.leb_gt (S j) j)) by lia.
      * rewrite list_lookup_insert_ne by done. destruct (P !! i); [|done]. destruct (Nat.leb_spec j i), (Nat.leb_spec (S j) i); [done|lia|lia|done].
Qed.

End init.

(** C38. procinit() on a process table that is zero (bss), whatever the states in it: every
    slot becomes vacant, which fork() and wait() rely on and preserve, the locks of the table are free, and the kernel stacks
    are pages below the trampoline with at least a page, the guard page, between any two
    of them. *)
Theorem procinit_vacant s : ctl_ok (k_ctl s) -> length (procs (k_pt s)) = NPROC ->
  Forall (fun q => set_p_state UNUSED q = proc0) (procs (k_pt s)) ->
  wp procinit (fun _ s' => slots_ok (procs (k_pt s')) /\ Forall vacant (procs (k_pt s')) /\ ctl_ok (k_ctl s') /\
    (forall i, (i < NPROC)%nat -> free (L_proc i) (k_ctl s')) /\ free L_pid (k_ctl s') /\ free L_wait (k_ctl s') /\
    (forall i q, procs (k_pt s') !! i = Some q -> p_kstack q mod PGSIZE = 0 /\ 0 < p_kstack q /\ p_kstack q + 2 * PGSIZE <= TRAMPOLINE) /\
    (forall i j q r, procs (k_pt s') !! i = Some q -> procs (k_pt s') !! j = Some r -> (i < j)%nat -> p_kstack r + 2 * PGSIZE <= p_kstack q)) s.
Proof.
  intros Hok Hlen Hz. unfold procinit. rewrite <- (kset_same s), at_ctl. wp_step. apply wp_initlock_at; [done|]. intros c1 H1 H2 _. wp_step. apply wp_initlock_at; [done|]. intros c2 H3 H4 H5.
  apply wp_init_procs; [done|done|]. intros mm' G1 _ G3 G4. cbn [procs k_pt at_ set_k_fs set_k_pt].
  assert (Hlk : forall i q, imap (fun i q => if (0 <=? i)%nat then boot_proc i q else q) (procs (k_pt s)) !! i = Some q -> (i < NPROC)%nat /\ q = boot_proc i proc0).
  { intros i q. rewrite list_lookup_imap. intros Hq. apply fmap_Some in Hq as (x & Hx & ->). rewrite <- Hlen.
    split; [by eapply lookup_lt_Some|]. unfold boot_proc. cbn [Nat.leb]. by rewrite (proj1 (Forall_lookup _ _) Hz i x Hx). }
  assert (Hv : Forall vacant (imap (fun i q => if (0 <=? i)%nat then boot_proc i q else q) (procs (k_pt s)))).
  { apply Forall_lookup. intros i q Hq. apply Hlk in Hq as [_ ->]. done. }
  assert (HT : TRAMPOLINE = 2 ^ 38 - 4096) by (vm_compute; reflexivity).
  split_and!; [split; [by rewrite length_imap|by eapply Forall_impl; [exact Hv|]]|done|done| | | | |].
  - intros i Hi. apply G3. simpl. lia.
  - by apply G4, H5.
  - by apply G4.
  - intros i q Hq. apply Hlk in Hq as [Hi ->]. cbn [p_kstack boot_proc set_p_kstack]. unfold KSTACK, PGSIZE, NPROC in *. split_and!; [|lia|lia]. rewrite HT. Z.div_mod_to_equations. lia.
  - intros i j q r Hq Hr Hij. apply Hlk in Hq as [Hi ->], Hr as [Hj ->]. cbn [p_kstack boot_proc set_p_kstack]. unfold KSTACK, PGSIZE in *. lia.
Qed.

Definition ks_bss : kstate := set_k_pt (mkptable (replicate NPROC (set_p_state RUNNABLE proc0)) None 1) ks1.

Lemma procinit_vacant_witness : wp procinit (fun _ s' => slots_ok (procs (k_pt s')) /\ free (L_proc 63) (k_ctl s')) ks_bss.
Proof.
  eapply wp_mono; [apply (procinit_vacant ks_bss (proj1 ks1_free) eq_refl); by apply Forall_replicate|]. intros [] s' (H1 & _ & _ & H4 & _). split; [exact H1|]. apply H4. unfold NPROC. lia.
Defined.
