(* ===== verification/Exec.v ===== *)
(** * exec() (kernel/exec.c) *)

From S2P Require Import Prelude Riscv Kstate CString Spinlock Kalloc Vm Sched Bytes Uart Console Sleeplock.
From S2P Require Import Bio Log Fs File Proc.

(** ** kernel/elf.h *)

Definition ELF_MAGIC : Z := 0x464C457F.
Definition ELF_PROG_LOAD : Z := 1.
Definition sizeof_elfhdr : Z := 64.
Definition sizeof_proghdr : Z := 56.

Definition elf_magic (h : list Z) : Z := rd 4 h 0.
Definition elf_entry (h : list Z) : Z := rd 8 h 24.
Definition elf_phoff (h : list Z) : Z := rd 8 h 32.
Definition elf_phnum (h : list Z) : Z := rd 2 h 56.

Definition ph_type (h : list Z) : Z := rd 4 h 0.
Definition ph_flags (h : list Z) : Z := rd 4 h 4.
Definition ph_off (h : list Z) : Z := rd 8 h 8.
Definition ph_vaddr (h : list Z) : Z := rd 8 h 16.
Definition ph_filesz (h : list Z) : Z := rd 8 h 32.
Definition ph_memsz (h : list Z) : Z := rd 8 h 40.

Definition flags2perm (flags : Z) : Z :=
  let perm := if truthy (Z.land flags 0x1) then PTE_X else 0 in
  if truthy (Z.land flags 0x2) then Z.lor perm PTE_W else perm.

Section exec.
Context {E : Env} {D : DiskDriver}.

Definition loadseg_step (pagetable va : Z) (ip : nat) (offset sz i : Z) : K (Z + Z) :=
  if i <? sz then
    pa <- lift_mm (walkaddr pagetable (u64 (va + i)));;
    if pa =? 0 then panic "loadseg: address should exist"
    else
      let n := if sz - i <? PGSIZE then sz - i else PGSIZE in
      let* (r, _) := readi ip (ToMem pa) (u32 (offset + i)) n in
      if negb (r =? n) then ret (inr (-1)) else ret (inl (u32 (i + PGSIZE)))
  else ret (inr 0).

Definition loadseg (pagetable va : Z) (ip : nat) (offset sz : Z) : K Z :=
  loop (Z.to_nat (sz / PGSIZE + 2)) (loadseg_step pagetable va ip offset sz) 0.

(** The program headers: [Some sz] when all were loaded, [None] for [goto bad];
    in both cases the size reached. *)
Fixpoint load_prog (n : nat) (pagetable : Z) (ip : nat) (off sz : Z) : K (bool * Z) :=
  match n with
  | O => ret (true, sz)
  | S n' =>
      let* (r, ph) := readi ip ToObj (u32 off) sizeof_proghdr in
      if negb (r =? sizeof_proghdr) then ret (false, sz)
      else if negb (ph_type ph =? ELF_PROG_LOAD) then load_prog n' pagetable ip (i32 (off + sizeof_proghdr)) sz
      else if ph_memsz ph <? ph_filesz ph then ret (false, sz)
      else if u64 (ph_vaddr ph + ph_memsz ph) <? ph_vaddr ph then ret (false, sz)
      else if negb (ph_vaddr ph mod PGSIZE =? 0) then ret (false, sz)
      else
        sz1 <- lift_mm (uvmalloc pagetable sz (u64 (ph_vaddr ph + ph_memsz ph)) (flags2perm (ph_flags ph)));;
        if sz1 =? 0 then ret (false, sz)
        else
          r <- loadseg pagetable (ph_vaddr ph) ip (u32 (ph_off ph)) (u32 (ph_filesz ph));;
          if r <? 0 then ret (false, sz1)
          else load_prog n' pagetable ip (i32 (off + sizeof_proghdr)) sz1
  end.

(** Pushing the argument strings: [None] for [goto bad], else the stack pointer
    and the addresses of the strings. *)
Fixpoint push_args (pagetable stackbase sp : Z) (argc : nat) (argv : list (list Z)) (ustack : list Z) :
    K (option (Z * list Z)) :=
  match argv with
  | [] => ret (Some (sp, ustack))
  | a :: argv' =>
      if (MAXARG <=? argc)%nat then ret None
      else
        let sp := u64 (sp - (Z.of_nat (length a) + 1)) in
        let sp := sp - sp mod 16 in
        if sp <? stackbase then ret None
        else
          r <- lift_mm (copyout pagetable sp (a ++ [0]));;
          if r <? 0 then ret None
          else push_args pagetable stackbase sp (S argc) argv' (ustack ++ [sp])
  end.

(** The last element of a path: what follows its last slash. *)
Fixpoint path_last (s last : list Z) : list Z :=
  match s with
  | [] => last
  | c :: s' => if c =? SLASH then path_last s' s' else path_last s' last
  end.

Definition exec_bad (pagetable sz : Z) (ip : option nat) : K Z :=
  when (negb (pagetable =? 0)) (lift_mm (proc_freepagetable pagetable sz));;
  match ip with
  | Some i => iunlockput (Some i);; end_op
  | None => ret tt
  end;;
  ret (-1).

(** The part after the program is in memory: the stack and the commit. *)
Definition exec_commit (path : list Z) (argv : list (list Z)) (entry pagetable sz : Z) : K Z :=
  p <- curproc;;
  pr <- getp p;;
  let oldsz := p_sz pr in
  let sz := PGROUNDUP sz in
  sz1 <- lift_mm (uvmalloc pagetable sz (u64 (sz + 2 * PGSIZE)) PTE_W);;
  if sz1 =? 0 then exec_bad pagetable sz None
  else
    let sz := sz1 in
    lift_mm (uvmclear pagetable (u64 (sz - 2 * PGSIZE)));;
    let sp := sz in
    let stackbase := u64 (sp - PGSIZE) in
    r <- push_args pagetable stackbase sp 0 argv [];;
    match r with
    | None => exec_bad pagetable sz None
    | Some (sp, ustack) =>
        let argc := Z.of_nat (length ustack) in
        let ustack := ustack ++ [0] in
        let sp := u64 (sp - (argc + 1) * 8) in
        let sp := sp - sp mod 16 in
        if sp <? stackbase then exec_bad pagetable sz None
        else
          r <- lift_mm (copyout pagetable sp (flat_map (enc_le 8) ustack));;
          if r <? 0 then exec_bad pagetable sz None
          else
            tf_set p TF_a1 sp;;
            updp p (fun pr => set_p_name (safestrcpy_l (p_name pr) (path_last path path) 16) pr);;
            pr <- getp p;;
            let oldpagetable := p_pagetable pr in
            updp p (fun pr => set_p_sz sz (set_p_pagetable pagetable pr));;
            tf_set p TF_epc entry;;
            tf_set p TF_sp sp;;
            lift_mm (proc_freepagetable oldpagetable oldsz);;
            ret argc
    end.

Definition exec (path : list Z) (argv : list (list Z)) : K Z :=
  p <- curproc;;
  begin_op;;
  ip <- namei path;;
  match ip with
  | None => end_op;; ret (-1)
  | Some ip =>
      ilock (Some ip);;
      let* (r, elf) := readi ip ToObj 0 sizeof_elfhdr in
      if negb (r =? sizeof_elfhdr) then exec_bad 0 0 (Some ip)
      else if negb (elf_magic elf =? ELF_MAGIC) then exec_bad 0 0 (Some ip)
      else
        pagetable <- proc_pagetable p;;
        if pagetable =? 0 then exec_bad 0 0 (Some ip)
        else
          let* (ok, sz) := load_prog (Z.to_nat (elf_phnum elf)) pagetable ip (i32 (elf_phoff elf)) 0 in
          if negb ok then exec_bad pagetable sz (Some ip)
          else
            iunlockput (Some ip);;
            end_op;;
            exec_commit path argv (elf_entry elf) pagetable sz
  end.

End exec.
