(* ===== verification/Syscall.v ===== *)
(** * System calls (kernel/syscall.c, kernel/sysproc.c, kernel/sysfile.c) *)

From S2P Require Import Prelude Riscv Kstate CString Spinlock Kalloc Vm Sched Bytes Uart Console Sleeplock.
From S2P Require Import Bio Log Fs File Proc Exec.

Section syscall.
Context {E : Env} {D : DiskDriver}.

(** ** Arguments *)

(** The value, or [None] for -1. *)
Definition fetchaddr (addr : Z) : K (option Z) :=
  p <- curproc;;
  pr <- getp p;;
  if (p_sz pr <=? addr) || (p_sz pr <? u64 (addr + 8)) then ret None
  else
    let* (r, bs) := lift_mm (copyin (p_pagetable pr) addr 8) in
    if negb (r =? 0) then ret None else ret (Some (dec_le bs)).

(** The string without its NUL, or [None] for -1; the C function returns its
    length. *)
Definition fetchstr (addr max : Z) : K (option (list Z)) :=
  p <- curproc;;
  pr <- getp p;;
  let* (r, buf) := lift_mm (copyinstr (p_pagetable pr) addr max) in
  if r <? 0 then ret None else ret (Some (cstr buf)).

Definition argraw (n : Z) : K Z :=
  p <- curproc;;
  if (0 <=? n) && (n <=? 5) then tf_get p (TF_a0 + 8 * n) else panic "argraw".

Definition argint (n : Z) : K Z := v <- argraw n;; ret (i32 v).
Definition argaddr (n : Z) : K Z := argraw n.
Definition argstr (n max : Z) : K (option (list Z)) := addr <- argaddr n;; fetchstr addr max.

(** ** kernel/sysproc.c *)

Definition sys_exit : K Z := n <- argint 0;; exit n.
Definition sys_getpid : K Z := p <- curproc;; pr <- getp p;; ret (p_pid pr).
Definition sys_fork : K Z := fork.
Definition sys_wait : K Z := p <- argaddr 0;; wait p.

Definition sys_sbrk : K Z :=
  n <- argint 0;;
  p <- curproc;;
  pr <- getp p;;
  let addr := p_sz pr in
  r <- growproc n;;
  if r <? 0 then ret (-1) else ret addr.

(** [ticks - ticks0 < n] compares unsigned numbers. *)
Definition sys_sleep : K Z :=
  n <- argint 0;;
  kacquire L_ticks;;
  ticks0 <- gets (fun s => ticks (k_gl s));;
  loop (S turns) (fun _ =>
    t <- gets (fun s => ticks (k_gl s));;
    if u32 (t - ticks0) <? u32 n then
      p <- curproc;;
      k <- killed p;;
      if truthy k then krelease L_ticks;; ret (inr (-1))
      else sleep Ch_ticks L_ticks;; ret (inl tt)
    else krelease L_ticks;; ret (inr 0)) tt.

Definition sys_kill : K Z := pid <- argint 0;; kill pid.

Definition sys_uptime : K Z :=
  kacquire L_ticks;;
  t <- gets (fun s => ticks (k_gl s));;
  krelease L_ticks;;
  ret t.

(** ** kernel/sysfile.c: descriptors *)

Definition O_RDONLY : Z := 0x000.
Definition O_WRONLY : Z := 0x001.
Definition O_RDWR : Z := 0x002.
Definition O_CREATE : Z := 0x200.
Definition O_TRUNC : Z := 0x400.

(** The descriptor and its file, or [None] for -1. *)
Definition argfd (n : Z) : K (option (Z * nat)) :=
  fd <- argint n;;
  if (fd <? 0) || (Z.of_nat NOFILE <=? fd) then ret None
  else
    p <- curproc;;
    pr <- getp p;;
    match znth (p_ofile pr) fd with
    | Some (Some f) => ret (Some (fd, f))
    | _ => ret None
    end.

Definition set_ofile (p : nat) (fd : Z) (f : option nat) : K unit :=
  updp p (fun pr => set_p_ofile (zupd (p_ofile pr) fd f) pr).

Definition fdalloc (f : nat) : K Z :=
  p <- curproc;;
  r <- for_find (upto (Z.of_nat NOFILE)) (fun fd =>
    pr <- getp p;;
    match znth (p_ofile pr) fd with
    | Some (Some _) => ret None
    | _ => set_ofile p fd (Some f);; ret (Some fd)
    end);;
  ret (default (-1) r).

Definition sys_dup : K Z :=
  r <- argfd 0;;
  match r with
  | None => ret (-1)
  | Some (_, f) =>
      fd <- fdalloc f;;
      if fd <? 0 then ret (-1) else filedup f;; ret fd
  end.

Definition sys_read : K Z :=
  p <- argaddr 1;;
  n <- argint 2;;
  r <- argfd 0;;
  match r with
  | None => ret (-1)
  | Some (_, f) => fileread f p n
  end.

Definition sys_write : K Z :=
  p <- argaddr 1;;
  n <- argint 2;;
  r <- argfd 0;;
  match r with
  | None => ret (-1)
  | Some (_, f) => filewrite f p n
  end.

Definition sys_close : K Z :=
  r <- argfd 0;;
  match r with
  | None => ret (-1)
  | Some (fd, f) =>
      p <- curproc;;
      set_ofile p fd None;;
      fileclose f;;
      ret 0
  end.

Definition sys_fstat : K Z :=
  st <- argaddr 1;;
  r <- argfd 0;;
  match r with
  | None => ret (-1)
  | Some (_, f) => filestat f st
  end.

(** ** kernel/sysfile.c: paths *)

(** Two string arguments, the second only fetched when the first is good. *)
Definition argstr2 : K (option (list Z * list Z)) :=
  a <- argstr 0 MAXPATH;;
  match a with
  | None => ret None
  | Some a => b <- argstr 1 MAXPATH;; ret (option_map (pair a) b)
  end.

Definition name0 : list Z := replicate DIRSIZ 0.

(** The label [bad] of sys_link(). *)
Definition link_bad (ip : nat) : K Z :=
  ilock (Some ip);;
  updi ip (fun x => set_i_nlink (i16 (i_nlink x - 1)) x);;
  iupdate ip;;
  iunlockput (Some ip);;
  end_op;;
  ret (-1).

Definition sys_link : K Z :=
  a <- argstr2;;
  match a with
  | None => ret (-1)
  | Some (old, new) =>
      begin_op;;
      ip <- namei old;;
      match ip with
      | None => end_op;; ret (-1)
      | Some ip =>
          ilock (Some ip);;
          x <- geti ip;;
          if i_type x =? T_DIR then iunlockput (Some ip);; end_op;; ret (-1)
          else
            updi ip (fun x => set_i_nlink (i16 (i_nlink x + 1)) x);;
            iupdate ip;;
            iunlock (Some ip);;
            let* (dp, name) := nameiparent new name0 in
            match dp with
            | None => link_bad ip
            | Some dp =>
                ilock (Some dp);;
                d <- geti dp;;
                x <- geti ip;;
                r <- (if negb (i_dev d =? i_dev x) then ret (-1) else dirlink dp name (i_inum x));;
                if r <? 0 then iunlockput (Some dp);; link_bad ip
                else
                  iunlockput (Some dp);;
                  iput (Some ip);;
                  end_op;;
                  ret 0
            end
      end
  end.

Definition isdirempty (dp : nat) : K bool :=
  d <- geti dp;;
  r <- for_find (drop 2 (dir_offs (i_size d))) (fun off =>
    let* (r, de) := readi dp ToObj off sizeof_dirent in
    if negb (r =? sizeof_dirent) then panic "isdirempty: readi"
    else if negb (de_inum de =? 0) then ret (Some tt) else ret None);;
  ret (match r with Some _ => false | None => true end).

Definition unlink_bad (dp : nat) : K Z :=
  iunlockput (Some dp);;
  end_op;;
  ret (-1).

(** The part of sys_unlink() after the entry and its inode are found. *)
Definition unlink_entry (dp ip : nat) (off : Z) : K Z :=
  ilock (Some ip);;
  x <- geti ip;;
  if i_nlink x <? 1 then panic "unlink: nlink < 1"
  else
    full <- (if i_type x =? T_DIR then e <- isdirempty ip;; ret (negb e) else ret false);;
    if (full : bool) then iunlockput (Some ip);; unlink_bad dp
    else
      w <- writei dp (FromObj (replicate 16 0)) off sizeof_dirent;;
      if negb (w =? sizeof_dirent) then panic "unlink: writei"
      else
        x <- geti ip;;
        when (i_type x =? T_DIR)
          (updi dp (fun d => set_i_nlink (i16 (i_nlink d - 1)) d);;
           iupdate dp);;
        iunlockput (Some dp);;
        updi ip (fun x => set_i_nlink (i16 (i_nlink x - 1)) x);;
        iupdate ip;;
        iunlockput (Some ip);;
        end_op;;
        ret 0.

Definition DOT : list Z := [46].
Definition DOTDOT : list Z := [46; 46].

Definition sys_unlink : K Z :=
  a <- argstr 0 MAXPATH;;
  match a with
  | None => ret (-1)
  | Some path =>
      begin_op;;
      let* (dp, name) := nameiparent path name0 in
      match dp with
      | None => end_op;; ret (-1)
      | Some dp =>
          ilock (Some dp);;
          if (namecmp name DOT =? 0) || (namecmp name DOTDOT =? 0) then unlink_bad dp
          else
            r <- dirlookup dp name;;
            match r with
            | None => unlink_bad dp
            | Some (ip, off) => unlink_entry dp ip off
            end
      end
  end.

(** The label [fail] of create(). *)
Definition create_fail (dp ip : nat) : K (option nat) :=
  updi ip (set_i_nlink 0);;
  iupdate ip;;
  iunlockput (Some ip);;
  iunlockput (Some dp);;
  ret None.

Definition create (path : list Z) (type major minor : Z) : K (option nat) :=
  let* (dp, name) := nameiparent path name0 in
  match dp with
  | None => ret None
  | Some dp =>
      ilock (Some dp);;
      r <- dirlookup dp name;;
      match r with
      | Some (ip, _) =>
          iunlockput (Some dp);;
          ilock (Some ip);;
          x <- geti ip;;
          if (type =? T_FILE) && ((i_type x =? T_FILE) || (i_type x =? T_DEVICE)) then ret (Some ip)
          else iunlockput (Some ip);; ret None
      | None =>
          d <- geti dp;;
          ip <- ialloc (i_dev d) type;;
          match ip with
          | None => iunlockput (Some dp);; ret None
          | Some ip =>
              ilock (Some ip);;
              updi ip (fun x => set_i_nlink 1 (set_i_minor minor (set_i_major major x)));;
              iupdate ip;;
              x <- geti ip;;
              d <- geti dp;;
              r <- (if type =? T_DIR then
                      r <- dirlink ip DOT (i_inum x);;
                      if r <? 0 then ret r else dirlink ip DOTDOT (i_inum d)
                    else ret 0);;
              if r <? 0 then create_fail dp ip
              else
                r <- dirlink dp name (i_inum x);;
                if r <? 0 then create_fail dp ip
                else
                  when (type =? T_DIR)
                    (updi dp (fun d => set_i_nlink (i16 (i_nlink d + 1)) d);;
                     iupdate dp);;
                  iunlockput (Some dp);;
                  ret (Some ip)
          end
      end
  end.

(** The part of sys_open() once the inode is locked. *)
Definition open_inode (ip : nat) (omode : Z) : K Z :=
  x <- geti ip;;
  if (i_type x =? T_DEVICE) && ((i_major x <? 0) || (NDEV <=? i_major x)) then
    iunlockput (Some ip);; end_op;; ret (-1)
  else
    f <- filealloc;;
    fd <- (match f with None => ret (-1) | Some f => fdalloc f end);;
    match f with
    | Some f =>
        if fd <? 0 then
          fileclose f;; iunlockput (Some ip);; end_op;; ret (-1)
        else
          x <- geti ip;;
          (if i_type x =? T_DEVICE then updf f (fun y => set_f_major (i_major x) (set_f_type FD_DEVICE y))
           else updf f (fun y => set_f_off 0 (set_f_type FD_INODE y)));;
          updf f (set_f_ip (Some ip));;
          updf f (set_f_readable (b2z (negb (truthy (Z.land omode O_WRONLY)))));;
          updf f (set_f_writable (b2z (truthy (Z.land omode O_WRONLY) || truthy (Z.land omode O_RDWR))));;
          when (truthy (Z.land omode O_TRUNC) && (i_type x =? T_FILE)) (itrunc ip);;
          iunlock (Some ip);;
          end_op;;
          ret fd
    | None => iunlockput (Some ip);; end_op;; ret (-1)
    end.

Definition sys_open : K Z :=
  omode <- argint 1;;
  a <- argstr 0 MAXPATH;;
  match a with
  | None => ret (-1)
  | Some path =>
      begin_op;;
      if truthy (Z.land omode O_CREATE) then
        ip <- create path T_FILE 0 0;;
        match ip with
        | None => end_op;; ret (-1)
        | Some ip => open_inode ip omode
        end
      else
        ip <- namei path;;
        match ip with
        | None => end_op;; ret (-1)
        | Some ip =>
            ilock (Some ip);;
            x <- geti ip;;
            if (i_type x =? T_DIR) && negb (omode =? O_RDONLY) then
              iunlockput (Some ip);; end_op;; ret (-1)
            else open_inode ip omode
        end
  end.

(** The common end of sys_mkdir() and sys_mknod(). *)
Definition put_new (ip : option nat) : K Z :=
  match ip with
  | None => end_op;; ret (-1)
  | Some ip => iunlockput (Some ip);; end_op;; ret 0
  end.

Definition sys_mkdir : K Z :=
  begin_op;;
  a <- argstr 0 MAXPATH;;
  ip <- (match a with None => ret None | Some path => create path T_DIR 0 0 end);;
  put_new ip.

Definition sys_mknod : K Z :=
  begin_op;;
  major <- argint 1;;
  minor <- argint 2;;
  a <- argstr 0 MAXPATH;;
  ip <- (match a with None => ret None | Some path => create path T_DEVICE (i16 major) (i16 minor) end);;
  put_new ip.

Definition sys_chdir : K Z :=
  p <- curproc;;
  begin_op;;
  a <- argstr 0 MAXPATH;;
  ip <- (match a with None => ret None | Some path => namei path end);;
  match ip with
  | None => end_op;; ret (-1)
  | Some ip =>
      ilock (Some ip);;
      x <- geti ip;;
      if negb (i_type x =? T_DIR) then iunlockput (Some ip);; end_op;; ret (-1)
      else
        iunlock (Some ip);;
        pr <- getp p;;
        iput (p_cwd pr);;
        end_op;;
        updp p (set_p_cwd (Some ip));;
        ret 0
  end.

(** ** exec and pipe *)

(** The loop of sys_exec(): the pages taken so far, last one first, and the
    argument strings, or [None] for [goto bad]. *)
Fixpoint exec_args (n : nat) (uargv i : Z) (pages : list Z) (argv : list (list Z)) :
    K (list Z * option (list (list Z))) :=
  match n with
  | O => ret (pages, None)
  | S n' =>
      a <- fetchaddr (u64 (uargv + 8 * i));;
      match a with
      | None => ret (pages, None)
      | Some uarg =>
          if uarg =? 0 then ret (pages, Some argv)
          else
            pg <- lift_mm kalloc;;
            if pg =? 0 then ret (pages, None)
            else
              s <- fetchstr uarg PGSIZE;;
              match s with
              | None => ret (pg :: pages, None)
              | Some s =>
                  lift_mem (fun m => write_bytes m pg (s ++ [0]));;
                  exec_args n' uargv (i + 1) (pg :: pages) (argv ++ [s])
              end
      end
  end.

Definition sys_exec : K Z :=
  uargv <- argaddr 1;;
  a <- argstr 0 MAXPATH;;
  match a with
  | None => ret (-1)
  | Some path =>
      let* (pages, argv) := exec_args MAXARG uargv 0 [] [] in
      r <- (match argv with None => ret (-1) | Some argv => exec path argv end);;
      for_each (rev pages) (fun pg => lift_mm (kfree pg));;
      ret r
  end.

Definition sys_pipe : K Z :=
  p <- curproc;;
  fdarray <- argaddr 0;;
  a <- pipealloc;;
  match a with
  | None => ret (-1)
  | Some (rf, wf) =>
      fd0 <- fdalloc rf;;
      fd1 <- (if fd0 <? 0 then ret (-1) else fdalloc wf);;
      if (fd0 <? 0) || (fd1 <? 0) then
        when (0 <=? fd0) (set_ofile p fd0 None);;
        fileclose rf;; fileclose wf;; ret (-1)
      else
        pr <- getp p;;
        r <- lift_mm (copyout (p_pagetable pr) fdarray (enc_le 4 fd0));;
        r <- (if r <? 0 then ret r else lift_mm (copyout (p_pagetable pr) (u64 (fdarray + 4)) (enc_le 4 fd1)));;
        if r <? 0 then
          set_ofile p fd0 None;;
          set_ofile p fd1 None;;
          fileclose rf;; fileclose wf;; ret (-1)
        else ret 0
  end.

(** ** The dispatcher *)

Definition syscalls (num : Z) : option (K Z) :=
  match num with
  | 1 => Some sys_fork | 2 => Some sys_exit | 3 => Some sys_wait | 4 => Some sys_pipe
  | 5 => Some sys_read | 6 => Some sys_kill | 7 => Some sys_exec | 8 => Some sys_fstat
  | 9 => Some sys_chdir | 10 => Some sys_dup | 11 => Some sys_getpid | 12 => Some sys_sbrk
  | 13 => Some sys_sleep | 14 => Some sys_uptime | 15 => Some sys_open | 16 => Some sys_write
  | 17 => Some sys_mknod | 18 => Some sys_unlink | 19 => Some sys_link | 20 => Some sys_mkdir
  | 21 => Some sys_close
  | _ => None
  end.

Definition NSYSCALLS : Z := 22.

Definition syscall : K unit :=
  p <- curproc;;
  a7 <- tf_get p TF_a7;;
  let num := i32 a7 in
  match (if (0 <? num) && (num <? NSYSCALLS) then syscalls num else None) with
  | Some f => r <- f;; tf_set p TF_a0 (u64 r)
  | None =>
      pr <- getp p;;
      printf (Some (bytes_of_string "%d %s: unknown sys call %d" ++ [NL]))
        [AInt (p_pid pr); AStr (Some (p_name pr)); AInt num];;
      tf_set p TF_a0 (u64 (-1))
  end.

End syscall.
