(* ===== verification/Virtio.v ===== *)
(** * The disk driver (kernel/virtio_disk.c, kernel/virtio.h)

    The descriptor table and the two rings lie in pages of physical memory that
    the device reads and writes; the request headers and the status bytes are
    kernel objects whose addresses ([kaddr]) the driver puts in descriptors.
    [virtio_driver] makes this driver an instance of the interface that the
    buffer cache uses. *)

From S2P Require Import Prelude Riscv Kstate CString Spinlock Kalloc Vm Sched Bytes Sleeplock Bio.

(** ** kernel/virtio.h *)

Definition VIRTIO_MMIO_MAGIC_VALUE : Z := 0x000.
Definition VIRTIO_MMIO_VERSION : Z := 0x004.
Definition VIRTIO_MMIO_DEVICE_ID : Z := 0x008.
Definition VIRTIO_MMIO_VENDOR_ID : Z := 0x00c.
Definition VIRTIO_MMIO_DEVICE_FEATURES : Z := 0x010.
Definition VIRTIO_MMIO_DRIVER_FEATURES : Z := 0x020.
Definition VIRTIO_MMIO_QUEUE_SEL : Z := 0x030.
Definition VIRTIO_MMIO_QUEUE_NUM_MAX : Z := 0x034.
Definition VIRTIO_MMIO_QUEUE_NUM : Z := 0x038.
Definition VIRTIO_MMIO_QUEUE_READY : Z := 0x044.
Definition VIRTIO_MMIO_QUEUE_NOTIFY : Z := 0x050.
Definition VIRTIO_MMIO_INTERRUPT_STATUS : Z := 0x060.
Definition VIRTIO_MMIO_INTERRUPT_ACK : Z := 0x064.
Definition VIRTIO_MMIO_STATUS : Z := 0x070.
Definition VIRTIO_MMIO_QUEUE_DESC_LOW : Z := 0x080.
Definition VIRTIO_MMIO_QUEUE_DESC_HIGH : Z := 0x084.
Definition VIRTIO_MMIO_DRIVER_DESC_LOW : Z := 0x090.
Definition VIRTIO_MMIO_DRIVER_DESC_HIGH : Z := 0x094.
Definition VIRTIO_MMIO_DEVICE_DESC_LOW : Z := 0x0a0.
Definition VIRTIO_MMIO_DEVICE_DESC_HIGH : Z := 0x0a4.
Definition VIRTIO_CONFIG_S_ACKNOWLEDGE : Z := 1.
Definition VIRTIO_CONFIG_S_DRIVER : Z := 2.
Definition VIRTIO_CONFIG_S_DRIVER_OK : Z := 4.
Definition VIRTIO_CONFIG_S_FEATURES_OK : Z := 8.
Definition VIRTIO_BLK_F_RO : Z := 5.
Definition VIRTIO_BLK_F_SCSI : Z := 7.
Definition VIRTIO_BLK_F_CONFIG_WCE : Z := 11.
Definition VIRTIO_BLK_F_MQ : Z := 12.
Definition VIRTIO_F_ANY_LAYOUT : Z := 27.
Definition VIRTIO_RING_F_INDIRECT_DESC : Z := 28.
Definition VIRTIO_RING_F_EVENT_IDX : Z := 29.
Definition NUM : nat := 8.
Definition NUMZ : Z := Z.of_nat NUM.
Definition VRING_DESC_F_NEXT : Z := 1.
Definition VRING_DESC_F_WRITE : Z := 2.
Definition VIRTIO_BLK_T_IN : Z := 0.
Definition VIRTIO_BLK_T_OUT : Z := 1.

Section virtio.
Context {E : Env}.

Definition RR (r : Z) : K Z := v <- mmio_read (VIRTIO0 + r);; ret (u32 v).
Definition RW (r v : Z) : K unit := mmio_write (VIRTIO0 + r) (u32 v).

Definition getd : K vdisk := gets (fun s => vdisk_ (k_dev s)).
Definition updd (f : vdisk -> vdisk) : K unit :=
  modify (fun s => set_k_dev (set_vdisk_ (f (vdisk_ (k_dev s))) (k_dev s)) s).

(** Words of 16, 32 and 64 bits of physical memory. *)
Definition kld (n : nat) (a : Z) : K Z := gets (fun s => load_le n (k_mem s) a).
Definition kst (n : nat) (a v : Z) : K unit := lift_mem (fun m => store_le n m a v).

(** [struct virtq_desc]: addr at 0, len at 8, flags at 12, next at 14. *)
Definition set_desc (d : vdisk) (i addr len flags next : Z) : K unit :=
  let a := v_desc d + 16 * i in
  kst 8 a addr;; kst 4 (a + 8) len;; kst 2 (a + 12) flags;; kst 2 (a + 14) next.

(** [struct virtq_avail]: flags at 0, idx at 2, ring at 4. *)
Definition avail_idx (d : vdisk) : Z := v_avail d + 2.
Definition avail_ring (d : vdisk) (i : Z) : Z := v_avail d + 4 + 2 * i.

(** [struct virtq_used]: flags at 0, idx at 2, ring of (id, len) at 4. *)
Definition used_idx (d : vdisk) : Z := v_used d + 2.
Definition used_id (d : vdisk) (i : Z) : Z := v_used d + 4 + 8 * i.

Definition clear_bit (v n : Z) : Z := Z.land v (Z.lnot (Z.shiftl 1 n)).

Definition virtio_disk_init : K unit :=
  lift_ctl (initlock L_vdisk "virtio_disk");;
  magic <- RR VIRTIO_MMIO_MAGIC_VALUE;;
  if negb (magic =? 0x74726976) then panic "could not find virtio disk"
  else
  version <- RR VIRTIO_MMIO_VERSION;;
  if negb (version =? 2) then panic "could not find virtio disk"
  else
  device <- RR VIRTIO_MMIO_DEVICE_ID;;
  if negb (device =? 2) then panic "could not find virtio disk"
  else
  vendor <- RR VIRTIO_MMIO_VENDOR_ID;;
  if negb (vendor =? 0x554d4551) then panic "could not find virtio disk"
  else
  RW VIRTIO_MMIO_STATUS 0;;
  let status := VIRTIO_CONFIG_S_ACKNOWLEDGE in
  RW VIRTIO_MMIO_STATUS status;;
  let status := Z.lor status VIRTIO_CONFIG_S_DRIVER in
  RW VIRTIO_MMIO_STATUS status;;
  features <- RR VIRTIO_MMIO_DEVICE_FEATURES;;
  let features := fold_left clear_bit
    [VIRTIO_BLK_F_RO; VIRTIO_BLK_F_SCSI; VIRTIO_BLK_F_CONFIG_WCE; VIRTIO_BLK_F_MQ;
     VIRTIO_F_ANY_LAYOUT; VIRTIO_RING_F_EVENT_IDX; VIRTIO_RING_F_INDIRECT_DESC] features in
  RW VIRTIO_MMIO_DRIVER_FEATURES features;;
  RW VIRTIO_MMIO_STATUS (Z.lor status VIRTIO_CONFIG_S_FEATURES_OK);;
  status <- RR VIRTIO_MMIO_STATUS;;
  if Z.land status VIRTIO_CONFIG_S_FEATURES_OK =? 0 then panic "virtio disk FEATURES_OK unset"
  else
  RW VIRTIO_MMIO_QUEUE_SEL 0;;
  ready <- RR VIRTIO_MMIO_QUEUE_READY;;
  if truthy ready then panic "virtio disk should not be ready"
  else
  max <- RR VIRTIO_MMIO_QUEUE_NUM_MAX;;
  if max =? 0 then panic "virtio disk has no queue 0"
  else if max <? NUMZ then panic "virtio disk max queue too short"
  else
  desc <- lift_mm kalloc;;
  avail <- lift_mm kalloc;;
  used <- lift_mm kalloc;;
  updd (fun d => set_v_used used (set_v_avail avail (set_v_desc desc d)));;
  if (desc =? 0) || (avail =? 0) || (used =? 0) then panic "virtio disk kalloc"
  else
  lift_mem (fun m => memset m desc 0 PGSIZE);;
  lift_mem (fun m => memset m avail 0 PGSIZE);;
  lift_mem (fun m => memset m used 0 PGSIZE);;
  RW VIRTIO_MMIO_QUEUE_NUM NUMZ;;
  RW VIRTIO_MMIO_QUEUE_DESC_LOW desc;;
  RW VIRTIO_MMIO_QUEUE_DESC_HIGH (Z.shiftr desc 32);;
  RW VIRTIO_MMIO_DRIVER_DESC_LOW avail;;
  RW VIRTIO_MMIO_DRIVER_DESC_HIGH (Z.shiftr avail 32);;
  RW VIRTIO_MMIO_DEVICE_DESC_LOW used;;
  RW VIRTIO_MMIO_DEVICE_DESC_HIGH (Z.shiftr used 32);;
  RW VIRTIO_MMIO_QUEUE_READY 0x1;;
  updd (set_v_free (replicate NUM 1));;
  RW VIRTIO_MMIO_STATUS (Z.lor status VIRTIO_CONFIG_S_DRIVER_OK).

(** ** Descriptors *)

Definition is_free (d : vdisk) (i : Z) : bool := truthy (default 0 (znth (v_free d) i)).

Definition alloc_desc : K Z :=
  r <- for_find (map Z.of_nat (seq 0 NUM)) (fun i =>
    d <- getd;;
    if is_free d i then updd (fun d => set_v_free (zupd (v_free d) i 0) d);; ret (Some i)
    else ret None);;
  ret (default (-1) r).

Definition free_desc (i : Z) : K unit :=
  if NUMZ <=? i then panic "free_desc 1"
  else
    d <- getd;;
    if is_free d i then panic "free_desc 2"
    else
      set_desc d i 0 0 0 0;;
      updd (fun d => set_v_free (zupd (v_free d) i 1) d);;
      wakeup (Some Ch_disk_free).

(** A chain has at most NUM descriptors, since each is freed once. *)
Definition free_chain (i : Z) : K unit :=
  loop (S NUM) (fun i =>
    d <- getd;;
    flag <- kld 2 (v_desc d + 16 * i + 12);;
    nxt <- kld 2 (v_desc d + 16 * i + 14);;
    free_desc i;;
    if truthy (Z.land flag VRING_DESC_F_NEXT) then ret (inl nxt) else ret (inr tt)) i.

(** [None] for -1, with what was taken given back. *)
Definition alloc3_desc : K (option (Z * Z * Z)) :=
  i0 <- alloc_desc;;
  if i0 <? 0 then ret None
  else
    i1 <- alloc_desc;;
    if i1 <? 0 then free_desc i0;; ret None
    else
      i2 <- alloc_desc;;
      if i2 <? 0 then free_desc i0;; free_desc i1;; ret None
      else ret (Some (i0, i1, i2)).

(** ** Requests *)

Definition set_info (i : Z) (b : option nat) (d : vdisk) : vdisk :=
  set_v_info (zupd (v_info d) i (b, snd (default (None, 0) (znth (v_info d) i)))) d.
Definition set_status (i st : Z) (d : vdisk) : vdisk :=
  set_v_info (zupd (v_info d) i (fst (default (None, 0) (znth (v_info d) i)), st)) d.

(** The three descriptors and the request header. *)
Definition format_request (b : nat) (write : bool) (sector : Z) '((i0, i1, i2) : Z * Z * Z) : K unit :=
  updd (fun d => set_v_ops (zupd (v_ops d) i0
    (if write then VIRTIO_BLK_T_OUT else VIRTIO_BLK_T_IN, 0, sector)) d);;
  d <- getd;;
  set_desc d i0 (kaddr (O_ops (Z.to_nat i0))) 16 VRING_DESC_F_NEXT i1;;
  set_desc d i1 (kaddr (O_bdata b)) BSIZE
    (Z.lor (if write then 0 else VRING_DESC_F_WRITE) VRING_DESC_F_NEXT) i2;;
  updd (set_status i0 0xff);;
  set_desc d i2 (kaddr (O_status (Z.to_nat i0))) 1 VRING_DESC_F_WRITE 0.

Definition virtio_disk_rw (b : nat) (write : bool) : K unit :=
  x <- getb b;;
  let sector := u32 (b_blockno x * (BSIZE / 512)) in
  kacquire L_vdisk;;
  idx <- loop (S turns) (fun _ =>
    r <- alloc3_desc;;
    match r with
    | Some idx => ret (inr idx)
    | None => sleep Ch_disk_free L_vdisk;; ret (inl tt)
    end) tt;;
  format_request b write sector idx;;
  let '(i0, _, _) := idx in
  updb b (set_b_disk 1);;
  updd (set_info i0 (Some b));;
  d <- getd;;
  ai <- kld 2 (avail_idx d);;
  kst 2 (avail_ring d (ai mod NUMZ)) i0;;
  kst 2 (avail_idx d) (u16 (ai + 1));;
  RW VIRTIO_MMIO_QUEUE_NOTIFY 0;;
  loop (S turns) (fun _ =>
    x <- getb b;;
    if b_disk x =? 1 then sleep (Ch_buf b) L_vdisk;; ret (inl tt) else ret (inr tt)) tt;;
  updd (set_info i0 None);;
  free_chain i0;;
  krelease L_vdisk.

(** The loop follows the device's index, at most 2^16 entries ahead. *)
Definition virtio_disk_intr : K unit :=
  kacquire L_vdisk;;
  st <- RR VIRTIO_MMIO_INTERRUPT_STATUS;;
  RW VIRTIO_MMIO_INTERRUPT_ACK (Z.land st 0x3);;
  d0 <- getd;;
  ui0 <- kld 2 (used_idx d0);;
  loop (S (Z.to_nat (u16 (ui0 - v_used_idx d0)))) (fun _ =>
    d <- getd;;
    ui <- kld 2 (used_idx d);;
    if v_used_idx d =? ui then ret (inr tt)
    else
      id <- kld 4 (used_id d (v_used_idx d mod NUMZ));;
      let '(b, status) := default (None, 0) (znth (v_info d) (i32 id)) in
      if negb (status =? 0) then panic "virtio_disk_intr status"
      else
        b <- deref b;;
        updb b (set_b_disk 0);;
        wakeup (Some (Ch_buf b));;
        updd (fun d => set_v_used_idx (u16 (v_used_idx d + 1)) d);;
        ret (inl tt)) tt;;
  krelease L_vdisk.

End virtio.

#[export] Instance virtio_driver `{Env} : DiskDriver := {| disk_rw := virtio_disk_rw |}.
