(* ===== verification/VirtioSpec.v ===== *)
(** * The disk driver transfers blocks (kernel/virtio_disk.c)

    virtio_disk_rw() puts a request into the rings, sleeps until the interrupt
    handler has seen it done, and gives its descriptors back.  The device is a
    parameter: what it does with a request in the available ring is the virtio
    specification's.  With it, a process that waits is woken by virtio_disk_intr(), and
    the driver keeps the promise that the buffer cache relies on ([DiskLaws]): one
    call is one transfer of a block. *)

From S2P Require Import Prelude Riscv Kstate CString Bytes Spinlock Kalloc Vm Sched SchedSpec Sleeplock.
From S2P Require Import Bio FsRun BioSpec Virtio.

(** ** Descriptors in memory *)

(** The fields of descriptor [i]: address, length, flags, next. *)
Definition desc_at (m : memory) (d : vdisk) (i : Z) : Z * Z * Z * Z :=
  let a := v_desc d + 16 * i in
  (load_le 8 m a, load_le 4 m (a + 8), load_le 2 m (a + 12), load_le 2 m (a + 14)).

(** What set_desc() does to memory. *)
Definition put_desc (d : vdisk) (i addr len flags next : Z) (m : memory) : memory :=
  let a := v_desc d + 16 * i in
  store_le 2 (store_le 2 (store_le 4 (store_le 8 m a addr) (a + 8) len) (a + 12) flags) (a + 14) next.

Lemma put_desc_out n d i addr len flags next m a : a + Z.of_nat n <= v_desc d + 16 * i \/ v_desc d + 16 * i + 16 <= a ->
  load_le n (put_desc d i addr len flags next m) a = load_le n m a.
Proof. intros H. unfold put_desc. rewrite !load_le_store_le_out by (simpl; lia). done. Qed.

Lemma put_desc_ok d i addr len flags next m : mem_ok m -> mem_ok (put_desc d i addr len flags next m).
Proof. intros H. unfold put_desc. by repeat apply store_le_ok. Qed.

Lemma desc_at_eq d i addr len flags next m :
  desc_at (put_desc d i addr len flags next m) d i = (u64 addr, u32 len, u16 flags, u16 next).
Proof.
  unfold desc_at, put_desc. cbv zeta.
  rewrite !(load_le_store_le_out 8), !(load_le_store_le_out 4) by (simpl; lia).
  rewrite (load_le_store_le_eq 8), (load_le_store_le_eq 4). f_equal; [f_equal|].
  - rewrite (load_le_store_le_out 2) by (simpl; lia). by rewrite load_le_store_le_eq.
  - by rewrite load_le_store_le_eq.
Qed.

Lemma desc_at_ne d i j addr len flags next m : i <> j -> desc_at (put_desc d j addr len flags next m) d i = desc_at m d i.
Proof. intros H. unfold desc_at. cbv zeta. by rewrite !put_desc_out by (simpl; lia). Qed.

Lemma desc_at_link m d i a l f n : desc_at m d i = (a, l, f, n) ->
  load_le 2 m (v_desc d + 16 * i + 12) = f /\ load_le 2 m (v_desc d + 16 * i + 14) = n.
Proof. intros H. split; [exact (f_equal (fun x => snd (fst x)) H)|exact (f_equal snd H)]. Qed.

(** Descriptors depend on the bytes of the table only. *)
Lemma desc_at_ext m m' d i : 0 <= i < 8 -> (forall a, v_desc d <= a < v_desc d + 4096 -> load8 m' a = load8 m a) -> desc_at m' d i = desc_at m d i.
Proof. intros Hi H. unfold desc_at. cbv zeta. f_equal; [f_equal; [f_equal|]|]; apply load_le_ext; intros b Hb; apply H; simpl in Hb; lia. Qed.

Definition apart (x y : Z) : Prop := x + 4096 <= y \/ y + 4096 <= x.

(** ** The device *)

(** What the device finds in the ring: its next entry is the head [h] of a chain of
    three descriptors, the request header, the data of buffer [b] and the status byte,
    for a transfer at [sector]. *)
Record pending {E : Env} (s : kstate) (h : Z) (write : bool) (sector : Z) (b : nat) : Prop := {
  pd_head : 0 <= h < 8;
  pd_buf : (b < NBUF)%nat;
  pd_avail : let d := vdisk_ (k_dev s) in let u := load_le 2 (k_mem s) (used_idx d) in
    load_le 2 (k_mem s) (avail_idx d) = u16 (u + 1) /\ load_le 2 (k_mem s) (avail_ring d (u mod 8)) = h;
  pd_chain : let d := vdisk_ (k_dev s) in let m := k_mem s in exists i1 i2, 0 <= i1 < 8 /\ 0 <= i2 < 8 /\
    desc_at m d h = (u64 (kaddr (O_ops (Z.to_nat h))), 16, VRING_DESC_F_NEXT, i1) /\
    desc_at m d i1 = (u64 (kaddr (O_bdata b)), BSIZE, Z.lor (if write then 0 else VRING_DESC_F_WRITE) VRING_DESC_F_NEXT, i2) /\
    desc_at m d i2 = (u64 (kaddr (O_status (Z.to_nat h))), 1, VRING_DESC_F_WRITE, 0);
  pd_header : znth (v_ops (vdisk_ (k_dev s))) h = Some (if write then VIRTIO_BLK_T_OUT else VIRTIO_BLK_T_IN, 0, sector)
}.

(** A transfer between a buffer and the two sectors of a block. *)
Definition transfer (write : bool) (n : Z) (b : nat) (F : fsstate) : fsstate :=
  if write then write_block n (b_data (getB b F)) F else updB b (set_b_data (block F n)) F.

(** What the device has done: the transfer, the status byte, and an entry in the used
    ring. *)
Record served (s : kstate) (h : Z) (write : bool) (sector : Z) (b : nat) (s' : kstate) : Prop := {
  sv_fs : k_fs s' = transfer write (sector / 2) b (k_fs s);
  sv_dev : k_dev s' = set_vdisk_ (set_status h 0 (vdisk_ (k_dev s))) (k_dev s);
  sv_used : let d := vdisk_ (k_dev s) in let u := load_le 2 (k_mem s) (used_idx d) in
    load_le 2 (k_mem s') (used_idx d) = u16 (u + 1) /\ load_le 4 (k_mem s') (used_id d (u mod 8)) = h;
  sv_mem : forall a, ~ (v_used (vdisk_ (k_dev s)) <= a < v_used (vdisk_ (k_dev s)) + 4096) -> load8 (k_mem s') a = load8 (k_mem s) a;
  sv_ok : mem_ok (k_mem s) -> mem_ok (k_mem s');
  sv_pt : k_pt s' = k_pt s;
  sv_gl : k_gl s' = k_gl s
}.

(** The device, and what happens while process [pr] sleeps: the device serves the
    request, the interrupt handler runs on a hart that holds no lock, and the scheduler
    resumes the process where it left when it has become runnable. *)
Class Device {E : Env} (pr : nat) : Type := {
  dv : kstate -> kstate;
  hctl : kstate -> ctl;
  dv_serves : forall s h write sector b, pending s h write sector b -> served s h write sector b (dv s);
  hctl_ok : forall s, ctl_ok (hctl s) /\ (forall lk, free lk (hctl s)) /\ cur (hctl s) = None;
  dv_world : forall n s s2, p_state (get_proc pr s) = SLEEPING -> held (L_proc pr) (k_ctl s) ->
    virtio_disk_intr (kset_ctl (hctl s) (dv s)) = Ret tt s2 -> p_state (get_proc pr s2) = RUNNABLE ->
    world n s = Some (kset_ctl (k_ctl s) (upd_proc pr (set_p_state RUNNING) s2));
  dv_turns : (0 < turns)%nat
}.

Lemma set_info_length i b d : length (v_info (set_info i b d)) = length (v_info d).
Proof. apply zupd_length. Qed.
Lemma set_status_length i st d : length (v_info (set_status i st d)) = length (v_info d).
Proof. apply zupd_length. Qed.
Lemma set_info_fst i b d : 0 <= i < Z.of_nat (length (v_info d)) -> fst <$> znth (v_info (set_info i b d)) i = Some b.
Proof. intros Hi. unfold set_info. cbn [v_info set_v_info]. by rewrite znth_zupd_eq. Qed.

(** ** Running the driver *)

(** The driver is idle: every descriptor is free and the rings are empty. *)
Record vd_idle (m : memory) (d : vdisk) : Prop := {
  vi_free : v_free d = replicate 8 1;
  vi_info : length (v_info d) = 8%nat;
  vi_ops : length (v_ops d) = 8%nat;
  vi_used : load_le 2 m (used_idx d) = v_used_idx d;
  vi_avail : load_le 2 m (avail_idx d) = v_used_idx d;
  vi_pages : apart (v_desc d) (v_avail d) /\ apart (v_desc d) (v_used d) /\ apart (v_avail d) (v_used d);
  vi_mem : mem_ok m
}.

(** The driver takes requests from a running process when it is idle. *)
Definition vd_ready (pr : nat) (s : kstate) : Prop :=
  vd_idle (k_mem s) (vdisk_ (k_dev s)) /\ (pr < length (procs (k_pt s)))%nat /\ p_state (get_proc pr s) = RUNNING /\ p_chan (get_proc pr s) = None.

Lemma woken_running l l' pr p : Forall2 woken l l' -> l !! pr = Some p -> p_state p = RUNNING -> l' !! pr = Some p.
Proof. intros H Hl Hp. destruct (Forall2_lookup_l _ _ _ _ _ H Hl) as (q & Hq & [->|[Hs _]]); [done|congruence]. Qed.

Lemma vd_ready_frame pr s s' : vd_ready pr s -> k_mem s' = k_mem s -> vdisk_ (k_dev s') = vdisk_ (k_dev s) ->
  Forall2 woken (procs (k_pt s)) (procs (k_pt s')) -> vd_ready pr s'.
Proof.
  intros (H1 & H2 & H3 & H4) Hm Hd Hw. unfold vd_ready. rewrite Hm, Hd, <- (Forall2_length _ _ _ Hw). split; [done|]. split; [done|].
  unfold get_proc in *. destruct (lookup_lt_is_Some_2 _ _ H2) as [p Hp]. rewrite Hp in H3, H4. by rewrite (woken_running _ _ pr p Hw Hp H3).
Qed.

(** Requests come from process [pr]. *)
Definition virtio_ready (pr : nat) : DiskReady := {|
  ready := fun pr' s => pr' = pr /\ vd_ready pr s;
  ready_frame := fun pr' s s' H Hm Hd Hw => conj (proj1 H) (vd_ready_frame pr s s' (proj2 H) Hm Hd Hw)
|}.

(** ** The interrupt handler *)

Lemma u16_next v : 0 <= v < 2 ^ 16 -> 0 <= u16 (v + 1) < 2 ^ 16 /\ u16 (v + 1) <> v /\ u16 (u16 (v + 1) - v) = 1.
Proof.
  intros Hv. unfold u16. destruct (Z.eq_dec v (2 ^ 16 - 1)) as [->|Hne]; [by vm_compute|].
  rewrite (Z.mod_small (v + 1)) by lia. split; [lia|]. split; [lia|]. by replace (v + 1 - v) with 1 by lia.
Qed.

(** The state of the kernel that a handler sees and leaves, but for locks and the
    trace of the device's registers. *)
Record sees (F : fsstate) (m : memory) (d : vdisk) (P : list proc) (s : kstate) : Prop := {
  se_fs : k_fs s = F; se_mem : k_mem s = m; se_dev : vdisk_ (k_dev s) = d; se_procs : procs (k_pt s) = P
}.

Lemma wp_RR {E : Env} F m d P c r s (Q : Z -> kstate -> Prop) : sees F m d P s -> k_ctl s = c ->
  (forall x s', sees F m d P s' -> k_ctl s' = c -> Q x s') -> wp (RR r) Q s.
Proof. intros [] Hc HQ. apply wp_bind. unfold mmio_read. apply wp_bind, wp_gets, wp_bind, wp_modify, wp_ret, wp_ret, HQ; [by split|done]. Qed.

(** virtio_disk_intr() with one new entry in the used ring. *)
Lemma wp_virtio_disk_intr {E : Env} F m d P s b h (Q : unit -> kstate -> Prop) : sees F m d P s ->
  ctl_ok (k_ctl s) -> (forall lk, free lk (k_ctl s)) -> cur (k_ctl s) = None -> length P = NPROC ->
  0 <= v_used_idx d < 2 ^ 16 -> load_le 2 m (used_idx d) = u16 (v_used_idx d + 1) -> load_le 4 m (used_id d (v_used_idx d mod 8)) = h -> 0 <= h < 8 ->
  znth (v_info d) h = Some (Some b, 0) ->
  (forall s', sees (updB b (set_b_disk 0) F) m (set_v_used_idx (u16 (v_used_idx d + 1)) d) (imap (wake (Some (Ch_buf b)) None) P) s' -> Q tt s') ->
  wp virtio_disk_intr Q s.
Proof.
  intros Hs Hok Hfree Hcur HP Hv Hui Hid Hh Hinfo HQ. destruct (u16_next _ Hv) as (_ & Hne & Hone). pose proof Hs as [S1 S2 S3 S4].
  destruct (acquired_facts L_vdisk (k_ctl s) Hok) as (Hok1 & _ & Hlk1 & _). unfold virtio_disk_intr.
  apply wp_bind, wp_kacquire; [done|apply Hfree|]. set (c1 := acquired L_vdisk (k_ctl s)) in *.
  eapply wp_bind, (wp_RR F m d P c1); [by split|done|]. intros x s1 [A1 A2 A3 A4] C1. apply wp_bind, wp_modify. unfold RW, mmio_write.
  set (s2 := set_k_dev _ s1). apply wp_bind, wp_gets. change (vdisk_ (k_dev s2)) with (vdisk_ (k_dev s1)). rewrite A3.
  apply wp_bind, wp_gets. change (k_mem s2) with (k_mem s1). rewrite A2, Hui, Hone. apply wp_bind. change (S (Z.to_nat 1)) with 2%nat. cbn [loop].
  apply wp_bind, wp_bind, wp_gets. change (vdisk_ (k_dev s2)) with (vdisk_ (k_dev s1)). rewrite A3. apply wp_bind, wp_gets. change (k_mem s2) with (k_mem s1). rewrite A2, Hui.
  destruct (Z.eqb_spec (v_used_idx d) (u16 (v_used_idx d + 1))); [congruence|]. apply wp_bind, wp_gets. change (k_mem s2) with (k_mem s1). rewrite A2.
  change NUMZ with 8. rewrite Hid, i32_id, Hinfo by lia. cbn [default from_option id Z.eqb negb]. change (negb (0 =? 0)) with false. cbv iota.
  apply wp_bind, wp_ret, wp_bind, wp_modify. set (s3 := set_k_fs _ s2).
  apply wp_bind, (wp_wakeup _ None).
  { change (k_ctl s3) with (k_ctl s1). rewrite C1. split; [done|]. intros i _ _. unfold free. rewrite Hlk1 by done. apply Hfree. }
  { change (k_ctl s3) with (k_ctl s1). rewrite C1. unfold c1. by rewrite cur_acquired. }
  { change (procs (k_pt s3)) with (procs (k_pt s1)). by rewrite A4. }
  intros c Hc. change (k_ctl s3) with (k_ctl s1) in Hc. rewrite C1 in Hc. apply wp_bind, wp_modify, wp_ret, wp_bind, wp_bind, wp_gets, wp_bind, wp_gets.
  match goal with |- wp _ _ ?t => set (s4 := t) end.
  assert (H4 : sees (updB b (set_b_disk 0) F) m (set_v_used_idx (u16 (v_used_idx d + 1)) d) (imap (wake (Some (Ch_buf b)) None) P) s4).
  { split; unfold s4; [|done| |].
    - change (updB b (set_b_disk 0) (k_fs s1) = updB b (set_b_disk 0) F). by rewrite A1.
    - change (set_v_used_idx (u16 (v_used_idx (vdisk_ (k_dev s1)) + 1)) (vdisk_ (k_dev s1)) = set_v_used_idx (u16 (v_used_idx d + 1)) d). by rewrite A3.
    - change (imap (wake (Some (Ch_buf b)) None) (procs (k_pt s1)) = imap (wake (Some (Ch_buf b)) None) P). by rewrite A4. }
  pose proof H4 as [B1 B2 B3 B4]. rewrite B3, B2.
  change (used_idx (set_v_used_idx (u16 (v_used_idx d + 1)) d)) with (used_idx d). rewrite Hui. cbn [v_used_idx set_v_used_idx]. rewrite Z.eqb_refl.
  apply wp_ret, wp_ret. apply (wp_krelease (k_ctl s)); [done|apply Hfree|done|]. intros e _. apply HQ. by split.
Qed.

Section driver.
Context {E : Env} (pr : nat) {V : Device pr} (c0 : ctl) (P0 : list proc).
Context (Hok : ctl_ok c0) (Hfree : forall lk, free lk c0) (Hcur : cur c0 = Some pr) (Hnoff : noff (get_cpu (hart c0) c0) = 0).
Context (HP : length P0 = NPROC) (p0 : proc) (Hp0 : P0 !! pr = Some p0) (Hrun0 : p_state p0 = RUNNING) (Hchan0 : p_chan p0 = None).

(** The parts of the state that the driver works on, with the lock [o] taken. *)
Record at_ (o : option lockid) (F : fsstate) (m : memory) (d : vdisk) (s : kstate) : Prop := {
  at_ctl : ctl_equiv (with_lock o c0) (k_ctl s);
  at_procs : Forall2 woken P0 (procs (k_pt s));
  at_fs : k_fs s = F;
  at_mem : k_mem s = m;
  at_dev : vdisk_ (k_dev s) = d
}.

Lemma at_ok o F m d s : at_ o F m d s -> ctl_ok (k_ctl s).
Proof. intros H. rewrite <- (at_ctl _ _ _ _ _ H). destruct o as [lk|]; [|done]. simpl. by destruct (acquired_facts lk c0 Hok). Qed.

Lemma at_cur o F m d s : at_ o F m d s -> cur (k_ctl s) = Some pr.
Proof. intros H. rewrite <- (cur_equiv _ _ (at_ctl _ _ _ _ _ H)). destruct o; [|done]. simpl. by rewrite cur_acquired. Qed.

Lemma at_other o F m d s lk : at_ o F m d s -> Some lk <> o -> free lk (k_ctl s).
Proof.
  intros H Hne. rewrite <- (at_ctl _ _ _ _ _ H). destruct o as [lk'|]; [|apply Hfree]. simpl.
  destruct (acquired_facts lk' c0 Hok) as (_ & _ & Ho & _). unfold free. rewrite Ho by congruence. apply Hfree.
Qed.

Lemma wp_getd o F m d s (Q : vdisk -> kstate -> Prop) : at_ o F m d s -> Q d s -> wp getd Q s.
Proof. intros H HQ. apply wp_gets. by rewrite (at_dev _ _ _ _ _ H). Qed.

Lemma wp_updd o F m d f s (Q : unit -> kstate -> Prop) : at_ o F m d s -> (forall s', at_ o F m (f d) s' -> Q tt s') -> wp (updd f) Q s.
Proof. intros [] HQ. apply wp_modify, HQ. split; try done. simpl. by rewrite at_dev0. Qed.

Lemma wp_kld o F m d n a s (Q : Z -> kstate -> Prop) : at_ o F m d s -> Q (load_le n m a) s -> wp (kld n a) Q s.
Proof. intros H HQ. apply wp_gets. by rewrite (at_mem _ _ _ _ _ H). Qed.

Lemma wp_kst o F m d n a x s (Q : unit -> kstate -> Prop) : at_ o F m d s -> (forall s', at_ o F (store_le n m a x) d s' -> Q tt s') -> wp (kst n a x) Q s.
Proof. intros [] HQ. apply wp_lift, wp_modify, HQ. split; try done. simpl. by rewrite <- at_mem0. Qed.

Lemma wp_RW o F m d r x s (Q : unit -> kstate -> Prop) : at_ o F m d s -> (forall s', at_ o F m d s' -> Q tt s') -> wp (RW r x) Q s.
Proof. intros [] HQ. apply wp_modify, HQ. by split. Qed.

Lemma wp_getb o F m d b s (Q : buf -> kstate -> Prop) : at_ o F m d s -> Q (getB b F) s -> wp (getb b) Q s.
Proof. intros H HQ. apply wp_gets. unfold get_buf. by rewrite (at_fs _ _ _ _ _ H). Qed.

Lemma wp_updb o F m d b f s (Q : unit -> kstate -> Prop) : at_ o F m d s -> (forall s', at_ o (updB b f F) m d s' -> Q tt s') -> wp (updb b f) Q s.
Proof. intros [] HQ. apply wp_modify, HQ. split; try done. simpl. by rewrite at_fs0. Qed.

Lemma wp_wakeup_at F m d ch s (Q : unit -> kstate -> Prop) : at_ (Some L_vdisk) F m d s ->
  (forall s', at_ (Some L_vdisk) F m d s' -> Q tt s') -> wp (wakeup ch) Q s.
Proof.
  intros H HQ. apply (wp_wakeup ch (Some pr)).
  - split; [by eapply at_ok|]. intros i _ _. by eapply at_other.
  - by eapply at_cur.
  - by rewrite <- (Forall2_length _ _ _ (at_procs _ _ _ _ _ H)).
  - intros c Hc. apply HQ. destruct H as [H1 H2 H3 H4 H5]. split; try done; [simpl; by rewrite H1|]. eapply woken_trans; [exact H2|apply woken_wake].
Qed.

Lemma wp_set_desc o F m d d' i addr len flags next s (Q : unit -> kstate -> Prop) : at_ o F m d s ->
  (forall s', at_ o F (put_desc d' i addr len flags next m) d s' -> Q tt s') -> wp (set_desc d' i addr len flags next) Q s.
Proof.
  intros H HQ. unfold set_desc. eapply wp_bind, wp_kst; [exact H|]. intros s1 H1. eapply wp_bind, wp_kst; [exact H1|]. intros s2 H2.
  eapply wp_bind, wp_kst; [exact H2|]. intros s3 H3. eapply wp_kst; [exact H3|]. done.
Qed.

(** ** Descriptors are taken and given back *)

(** alloc_desc() takes the first free descriptor. *)
Lemma wp_alloc_from o F m d s i n : forall j (Q : option Z -> kstate -> Prop), at_ o F m d s -> (j <= i < j + n)%nat ->
  (forall k, (j <= k < i)%nat -> is_free d (Z.of_nat k) = false) -> is_free d (Z.of_nat i) = true ->
  (forall s', at_ o F m (set_v_free (zupd (v_free d) (Z.of_nat i) 0) d) s' -> Q (Some (Z.of_nat i)) s') ->
  wp (for_find (map Z.of_nat (seq j n)) (fun i => d <- getd;;
    if is_free d i then updd (fun d => set_v_free (zupd (v_free d) i 0) d);; ret (Some i) else ret None)) Q s.
Proof.
  induction n as [|n IH]; intros j Q H Hi Hbusy Hf HQ; [lia|]. cbn [seq map for_find]. apply wp_bind. eapply wp_bind, wp_getd; [exact H|].
  destruct (decide (j = i)) as [->|Hne].
  - rewrite Hf. eapply wp_bind, wp_updd; [exact H|]. intros s' H'. apply wp_ret, wp_ret. by apply HQ.
  - rewrite Hbusy by lia. apply wp_ret. apply IH; [done|lia|intros k Hk; apply Hbusy; lia|done|done].
Qed.

Lemma wp_alloc_desc o F m d s (i : nat) (Q : Z -> kstate -> Prop) : at_ o F m d s -> (i < 8)%nat ->
  (forall k, (k < i)%nat -> is_free d (Z.of_nat k) = false) -> is_free d (Z.of_nat i) = true ->
  (forall s', at_ o F m (set_v_free (zupd (v_free d) (Z.of_nat i) 0) d) s' -> Q (Z.of_nat i) s') -> wp alloc_desc Q s.
Proof.
  intros H Hi Hb Hf HQ. unfold alloc_desc. apply wp_bind. eapply (wp_alloc_from o F m d s i NUM); [exact H|unfold NUM; lia|intros k Hk; apply Hb; lia|done|].
  intros s' H'. apply wp_ret. by apply HQ.
Qed.

(** From an idle driver, descriptors 0, 1 and 2. *)
Definition taken3 : list Z := [0; 0; 0; 1; 1; 1; 1; 1].

Lemma wp_alloc3 o F m d s (Q : option (Z * Z * Z) -> kstate -> Prop) : at_ o F m d s -> v_free d = replicate 8 1 ->
  (forall s', at_ o F m (set_v_free taken3 d) s' -> Q (Some (0, 1, 2)) s') -> wp alloc3_desc Q s.
Proof.
  intros H Hf HQ. unfold alloc3_desc.
  eapply wp_bind, (wp_alloc_desc o F m d s 0); [exact H|lia|lia|unfold is_free; by rewrite Hf|]. intros s1 H1. rewrite Hf in H1. change (Z.of_nat 0 <? 0) with false.
  eapply wp_bind, (wp_alloc_desc o F m _ s1 1); [exact H1|lia|intros k Hk; by replace k with 0%nat by lia|done|]. intros s2 H2. change (Z.of_nat 1 <? 0) with false.
  eapply wp_bind, (wp_alloc_desc o F m _ s2 2); [exact H2|lia|intros k Hk; destruct k as [|[|k]]; [done|done|lia]|done|]. intros s3 H3. change (Z.of_nat 2 <? 0) with false.
  apply wp_ret. by apply HQ.
Qed.

(** free_desc() of a descriptor in use. *)
Lemma wp_free_desc F m d i s (Q : unit -> kstate -> Prop) : at_ (Some L_vdisk) F m d s -> 0 <= i < 8 -> is_free d i = false ->
  (forall s', at_ (Some L_vdisk) F (put_desc d i 0 0 0 0 m) (set_v_free (zupd (v_free d) i 1) d) s' -> Q tt s') -> wp (free_desc i) Q s.
Proof.
  intros H Hi Hf HQ. unfold free_desc, NUMZ, NUM. destruct (Z.leb_spec (Z.of_nat 8) i); [lia|]. eapply wp_bind, wp_getd; [exact H|]. rewrite Hf.
  eapply wp_bind, wp_set_desc; [exact H|]. intros s1 H1. eapply wp_bind, wp_updd; [exact H1|]. intros s2 H2. by eapply wp_wakeup_at.
Qed.

(** free_chain() of the chain 0, 1, 2. *)
Lemma wp_free_chain F m d s (Q : unit -> kstate -> Prop) : at_ (Some L_vdisk) F m d s -> v_free d = taken3 ->
  (exists a0 a1 a2 l0 l1 l2 f, desc_at m d 0 = (a0, l0, VRING_DESC_F_NEXT, 1) /\ desc_at m d 1 = (a1, l1, Z.lor f VRING_DESC_F_NEXT, 2) /\ (f = 0 \/ f = VRING_DESC_F_WRITE) /\
     desc_at m d 2 = (a2, l2, VRING_DESC_F_WRITE, 0)) ->
  (forall s', at_ (Some L_vdisk) F (put_desc d 2 0 0 0 0 (put_desc d 1 0 0 0 0 (put_desc d 0 0 0 0 0 m))) (set_v_free (replicate 8 1) d) s' -> Q tt s') ->
  wp (free_chain 0) Q s.
Proof.
  intros H Hf (a0 & a1 & a2 & l0 & l1 & l2 & f & D0 & D1 & Hfl & D2) HQ. unfold free_chain. cbn [loop NUM].
  assert (Hne : truthy (Z.land (Z.lor f VRING_DESC_F_NEXT) VRING_DESC_F_NEXT) = true) by (by destruct Hfl as [->| ->]).
  apply desc_at_link in D0 as [F0 N0], D1 as [F1 N1], D2 as [F2 N2].
  apply wp_bind. eapply wp_bind, wp_getd; [exact H|]. eapply wp_bind, wp_kld; [exact H|]. eapply wp_bind, wp_kld; [exact H|]. rewrite F0, N0.
  eapply wp_bind, wp_free_desc; [exact H|lia|unfold is_free; by rewrite Hf|]. intros s1 H1. change (truthy (Z.land VRING_DESC_F_NEXT VRING_DESC_F_NEXT)) with true. cbv iota. apply wp_ret.
  apply wp_bind. eapply wp_bind, wp_getd; [exact H1|]. eapply wp_bind, wp_kld; [exact H1|]. eapply wp_bind, wp_kld; [exact H1|]. cbn [v_desc set_v_free].
  rewrite !put_desc_out by (simpl; lia). rewrite F1, N1, Hne. rewrite Hf in H1.
  eapply wp_bind, wp_free_desc; [exact H1|lia|reflexivity|]. intros s2 H2. apply wp_ret.
  apply wp_bind. eapply wp_bind, wp_getd; [exact H2|]. eapply wp_bind, wp_kld; [exact H2|]. eapply wp_bind, wp_kld; [exact H2|]. cbn [v_desc set_v_free].
  rewrite !put_desc_out by (cbn [v_desc set_v_free]; simpl; lia). rewrite F2, N2.
  eapply wp_bind, wp_free_desc; [exact H2|lia|reflexivity|]. intros s3 H3. change (truthy (Z.land VRING_DESC_F_WRITE VRING_DESC_F_NEXT)) with false. cbv iota. apply wp_ret, wp_ret.
  by apply HQ.
Qed.

(** ** Waiting for the device *)

(** The saved interrupt state, put back where it was. *)
Lemma wp_restore_intena c s (Q : unit -> kstate -> Prop) : ctl_ok c -> k_ctl s = c -> Q tt s ->
  wp (id <- lift_ctl mycpu;; lift_ctl (upd_cpu id (set_intena (intena (get_cpu (hart c) c))))) Q s.
Proof.
  intros (Hh & Hlen & _) Hc HQ. change (Z.of_nat NCPU) with 8 in Hh. apply wp_bind, wp_lift, wp_lift, wp_gets.
  change (m_ctl (k_mm s)) with (k_ctl s). rewrite Hc. rewrite i32_id by lia. apply wp_lift, wp_lift, wp_modify. change (m_ctl (k_mm s)) with (k_ctl s).
  assert (Hu : set_intena (intena (get_cpu (hart c) c)) (get_cpu (hart c) c) = get_cpu (hart c) c) by (by destruct (get_cpu (hart c) c)).
  assert (Hz : zupd (cpus c) (hart c) (get_cpu (hart c) c) = cpus c).
  { unfold zupd, get_cpu, znth. destruct (Z.ltb_spec (hart c) 0); [lia|]. destruct (lookup_lt_is_Some_2 (cpus c) (Z.to_nat (hart c))) as [x Hx]; [unfold NCPU in Hlen; lia|].
    rewrite Hx. by apply list_insert_id. }
  cbn [m_ctl k_mm set_k_mm set_m_ctl]. rewrite Hu, Hz. replace (set_cpus (cpus c) c) with c by (by destruct c). rewrite <- Hc. by destruct s as [[] ? ? ? ? ?].
Qed.

(** The process table while the process sleeps, is woken and runs again. *)
Definition asleep (b : nat) (x : proc) : proc := set_p_state SLEEPING (set_p_chan (Some (Ch_buf b)) x).

Lemma procs_back b l : Forall2 woken P0 l -> let l1 := imap (wake (Some (Ch_buf b)) None) (alter (asleep b) pr l) in
  l1 !! pr = Some (set_p_state RUNNABLE (asleep b p0)) /\
  Forall2 woken P0 (alter (set_p_chan None) pr (alter (set_p_state RUNNING) pr l1)).
Proof.
  intros Hl l1. pose proof (woken_running _ _ pr p0 Hl Hp0 Hrun0) as Hpr.
  assert (H1 : l1 !! pr = Some (set_p_state RUNNABLE (asleep b p0))).
  { unfold l1. rewrite list_lookup_imap, list_lookup_alter_eq, Hpr. cbn [fmap option_fmap option_map]. unfold wake. rewrite bool_decide_eq_false_2 by done.
    by rewrite !bool_decide_eq_true_2 by done. }
  split; [done|]. apply Forall2_same_length_lookup_2; [by rewrite !length_alter; unfold l1; rewrite length_imap, length_alter, (Forall2_length _ _ _ Hl)|].
  intros i p q Hp Hq. destruct (decide (i = pr)) as [->|Hne].
  - rewrite !list_lookup_alter_eq, H1 in Hq. injection Hq as <-. left. rewrite Hp0 in Hp. injection Hp as <-. revert Hrun0 Hchan0. clear. destruct p0. simpl. by intros -> ->.
  - rewrite !list_lookup_alter_ne in Hq by done. unfold l1 in Hq. rewrite list_lookup_imap, list_lookup_alter_ne in Hq by done.
    destruct (Forall2_lookup_l _ _ _ _ _ Hl Hp) as (p' & Hp' & Hw). rewrite Hp' in Hq. injection Hq as <-.
    unfold wake. rewrite bool_decide_eq_false_2 by done.
    case_bool_decide as Hs; [|done]. cbn [andb]. case_bool_decide; [|done]. destruct Hw as [->|[Hw ->]]; [by right|]. simpl in Hs. done.
Qed.

(** The request of [b] at descriptor 0 has been served. *)
Definition done_by (b : nat) (d : vdisk) : vdisk := set_v_used_idx (u16 (v_used_idx d + 1)) (set_status 0 0 d).

Lemma pending_ext s s' h write sector b : vdisk_ (k_dev s') = vdisk_ (k_dev s) -> k_mem s' = k_mem s -> pending s h write sector b -> pending s' h write sector b.
Proof. intros Hd Hm []. split; rewrite ?Hd, ?Hm; done. Qed.

(** sleep() on the buffer of a published request comes back when the request has
    been served. *)
Lemma wp_sleep_served F m d b write sector s (Q : unit -> kstate -> Prop) : at_ (Some L_vdisk) F m d s -> pending s 0 write sector b ->
  0 <= v_used_idx d < 2 ^ 16 -> load_le 2 m (used_idx d) = v_used_idx d -> fst <$> znth (v_info d) 0 = Some (Some b) -> mem_ok m ->
  (forall m' s', at_ (Some L_vdisk) (updB b (set_b_disk 0) (transfer write (sector / 2) b F)) m' (done_by b d) s' ->
     (forall a, ~ (v_used d <= a < v_used d + 4096) -> load8 m' a = load8 m a) -> load_le 2 m' (used_idx d) = u16 (v_used_idx d + 1) -> mem_ok m' -> Q tt s') ->
  wp (sleep (Ch_buf b) L_vdisk) Q s.
Proof.
  intros H Hpend Hv Hui Hinfo Hmok HQ. pose proof H as [A1 A2 A3 A4 A5]. assert (Hprl : (pr < length (procs (k_pt s)))%nat).
  { rewrite <- (Forall2_length _ _ _ A2). by apply lookup_lt_Some in Hp0. }
  destruct (sleep_switch pr (Ch_buf b) L_vdisk c0 s Hok Hnoff Hcur (Hfree _) (Hfree _) ltac:(done) A1 Hprl) as (c1 & Hrun & Hc1 & _ & Hs1 & _).
  set (s1 := kset_ctl c1 _) in *. unfold wp. rewrite Hrun. fold (wp (sleep_wake pr L_vdisk (intena (get_cpu (hart c1) c1))) Q s1).
  assert (Hok1 : ctl_ok c1) by (rewrite <- Hc1; by destruct (acquired_facts (L_proc pr) c0 Hok)).
  pose proof (dv_serves s1 0 write sector b (pending_ext s s1 _ _ _ _ eq_refl eq_refl Hpend)) as [V1 V2 V3 V4 V5 V6 V7]. cbv zeta in V3.
  change (k_fs s1) with (k_fs s) in V1. change (k_dev s1) with (k_dev s) in V2, V3, V4. change (k_mem s1) with (k_mem s) in V3, V4, V5. rewrite A3 in V1. rewrite A5 in V3, V4.
  rewrite A4 in V3, V4, V5. rewrite Hui in V3. destruct V3 as [V3 V3']. destruct (hctl_ok s1) as (Hh1 & Hh2 & Hh3).
  assert (HP1 : procs (k_pt (dv s1)) = alter (asleep b) pr (procs (k_pt s))) by (by rewrite V6).
  destruct (znth (v_info d) 0) as [[b' st]|] eqn:Hi0; [|done]. injection Hinfo as ->.
  assert (Hst : znth (v_info (set_status 0 0 d)) 0 = Some (Some b, 0)).
  { cbn [set_status v_info set_v_info]. rewrite Hi0. cbn [default from_option id fst]. apply znth_zupd_eq. unfold znth in Hi0. simpl in Hi0. apply lookup_lt_Some in Hi0. lia. }
  assert (Hint : exists s2, virtio_disk_intr (kset_ctl (hctl s1) (dv s1)) = Ret tt s2 /\
    sees (updB b (set_b_disk 0) (transfer write (sector / 2) b F)) (k_mem (dv s1)) (done_by b d) (imap (wake (Some (Ch_buf b)) None) (alter (asleep b) pr (procs (k_pt s)))) s2).
  { destruct (wp_inv virtio_disk_intr (fun _ s2 => sees (updB b (set_b_disk 0) (transfer write (sector / 2) b F)) (k_mem (dv s1)) (done_by b d)
      (imap (wake (Some (Ch_buf b)) None) (alter (asleep b) pr (procs (k_pt s)))) s2) (kset_ctl (hctl s1) (dv s1))) as ([] & s2 & H1 & H2); [|by exists s2].
    eapply (wp_virtio_disk_intr (transfer write (sector / 2) b F) (k_mem (dv s1)) (set_status 0 0 d) (alter (asleep b) pr (procs (k_pt s))) _ b 0); try done.
    - split; [exact V1|done| |exact HP1]. change (vdisk_ (k_dev (dv s1)) = set_status 0 0 d). rewrite V2. change (set_status 0 0 (vdisk_ (k_dev s)) = set_status 0 0 d). by rewrite A5.
    - by rewrite length_alter, <- (Forall2_length _ _ _ A2). }
  destruct Hint as (s2 & Hint & [B1 B2 B3 B4]). destruct (procs_back b (procs (k_pt s)) A2) as [Hpr2 Hback].
  assert (Hw : world (epoch (k_gl s1)) s1 = Some (kset_ctl (k_ctl s1) (upd_proc pr (set_p_state RUNNING) s2))).
  { apply dv_world with (s2 := s2); [done| |done|].
    - change (k_ctl s1) with c1. rewrite <- Hc1. by destruct (acquired_facts (L_proc pr) c0 Hok) as (_ & ? & _).
    - unfold get_proc. by rewrite B4, Hpr2. }
  unfold sleep_wake, switch_away. apply wp_bind, wp_bind. unfold swtch. eapply wp_eq; [by rewrite Hw|]. change (k_ctl s1) with c1.
  apply wp_restore_intena; [done|done|]. apply wp_bind, wp_modify, wp_bind. apply (wp_krelease c0); [done|apply Hfree|done|]. intros e He.
  apply wp_kacquire; [change (ctl_ok e); by rewrite <- He|change (free L_vdisk e); rewrite <- He; apply Hfree|]. change (k_ctl (kset_ctl e _)) with e.
  apply (HQ (k_mem s2)).
  - split; [|cbn; by rewrite B4|exact B1|done|exact B3]. cbn [with_lock]. change (ctl_equiv (acquired L_vdisk c0) (acquired L_vdisk e)). by apply acquired_proper.
  - rewrite B2. exact V4.
  - by rewrite B2.
  - rewrite B2. by apply V5.
Qed.

(** ** A request from beginning to end *)

Lemma wp_lock F m d s (Q : unit -> kstate -> Prop) : at_ None F m d s -> (forall s', at_ (Some L_vdisk) F m d s' -> Q tt s') -> wp (kacquire L_vdisk) Q s.
Proof.
  intros H HQ. apply wp_kacquire; [by eapply at_ok|by eapply at_other|]. apply HQ. destruct H as [H1 H2 H3 H4 H5]. split; try done.
  by apply acquired_proper.
Qed.

Lemma wp_unlock F m d s (Q : unit -> kstate -> Prop) : at_ (Some L_vdisk) F m d s -> (forall s', at_ None F m d s' -> Q tt s') -> wp (krelease L_vdisk) Q s.
Proof. intros [H1 H2 H3 H4 H5] HQ. apply (wp_krelease c0); [done|apply Hfree|done|]. intros e He. apply HQ. by split. Qed.

(** The table and the header after format_request(). *)
Definition formatted (b : nat) (write : bool) (d : vdisk) (m : memory) : memory :=
  put_desc d 2 (kaddr (O_status 0)) 1 VRING_DESC_F_WRITE 0
    (put_desc d 1 (kaddr (O_bdata b)) BSIZE (Z.lor (if write then 0 else VRING_DESC_F_WRITE) VRING_DESC_F_NEXT) 2
      (put_desc d 0 (kaddr (O_ops 0)) 16 VRING_DESC_F_NEXT 1 m)).
Definition with_header (write : bool) (sector : Z) (d : vdisk) : vdisk :=
  set_v_ops (zupd (v_ops d) 0 (if write then VIRTIO_BLK_T_OUT else VIRTIO_BLK_T_IN, 0, sector)) d.

Lemma wp_format_request o F m d b write sector s (Q : unit -> kstate -> Prop) : at_ o F m d s ->
  (forall s', at_ o F (formatted b write d m) (set_status 0 0xff (with_header write sector d)) s' -> Q tt s') ->
  wp (format_request b write sector (0, 1, 2)) Q s.
Proof.
  intros H HQ. unfold format_request. eapply wp_bind, wp_updd; [exact H|]. intros s1 H1. eapply wp_bind, wp_getd; [exact H1|].
  eapply wp_bind, wp_set_desc; [exact H1|]. intros s2 H2. eapply wp_bind, wp_set_desc; [exact H2|]. intros s3 H3.
  eapply wp_bind, wp_updd; [exact H3|]. intros s4 H4. eapply wp_set_desc; [exact H4|]. intros s5 H5. apply HQ. exact H5.
Qed.

(** The request is what the device expects. *)
Lemma formatted_chain b write d m : let m1 := formatted b write d m in
  desc_at m1 d 0 = (u64 (kaddr (O_ops 0)), 16, VRING_DESC_F_NEXT, 1) /\
  desc_at m1 d 1 = (u64 (kaddr (O_bdata b)), BSIZE, Z.lor (if write then 0 else VRING_DESC_F_WRITE) VRING_DESC_F_NEXT, 2) /\
  desc_at m1 d 2 = (u64 (kaddr (O_status 0)), 1, VRING_DESC_F_WRITE, 0).
Proof.
  intros m1. unfold m1, formatted. split_and!.
  - rewrite !desc_at_ne by lia. by rewrite desc_at_eq.
  - rewrite desc_at_ne by lia. rewrite desc_at_eq. by destruct write.
  - by rewrite desc_at_eq.
Qed.

(** The rings after the request is published at position [u]. *)
Definition published (d : vdisk) (u : Z) (m : memory) : memory :=
  store_le 2 (store_le 2 m (avail_ring d (u mod 8)) 0) (avail_idx d) (u16 (u + 1)).

Lemma published_out d u m n a : (a + Z.of_nat n <= v_avail d \/ v_avail d + 4096 <= a) -> load_le n (published d u m) a = load_le n m a.
Proof.
  intros H. pose proof (Z.mod_pos_bound u 8 ltac:(lia)). unfold published, avail_idx, avail_ring. rewrite !load_le_store_le_out by (simpl; lia). done.
Qed.

Lemma formatted_out b write d m n a : (a + Z.of_nat n <= v_desc d \/ v_desc d + 4096 <= a) -> load_le n (formatted b write d m) a = load_le n m a.
Proof. intros H. unfold formatted. by rewrite !put_desc_out by lia. Qed.

Lemma published_desc d u m i : 0 <= i < 8 -> apart (v_desc d) (v_avail d) -> desc_at (published d u m) d i = desc_at m d i.
Proof. intros Hi Ha. unfold desc_at, apart in *. cbv zeta. by rewrite !published_out by (simpl; lia). Qed.

Lemma published_pending F m d b write sector u s : (b < NBUF)%nat -> at_ (Some L_vdisk) F (published d u (formatted b write d m)) d s ->
  apart (v_desc d) (v_avail d) -> apart (v_desc d) (v_used d) -> apart (v_avail d) (v_used d) ->
  load_le 2 m (used_idx d) = u -> znth (v_ops d) 0 = Some (if write then VIRTIO_BLK_T_OUT else VIRTIO_BLK_T_IN, 0, sector) ->
  pending s 0 write sector b.
Proof.
  intros Hb H P1 P2 P3 Hu Hops. pose proof H as [_ _ _ A4 A5]. pose proof (formatted_chain b write d m) as (D0 & D1 & D2).
  split; rewrite ?A4, ?A5; cbv zeta; [lia|done| |exists 1, 2; rewrite !published_desc by (done || lia); split_and!; (done || lia)|done].
  rewrite (published_out d u _ 2 (used_idx d)), formatted_out by (unfold used_idx, apart in *; simpl; lia). rewrite Hu.
  pose proof (Z.mod_pos_bound u 8 ltac:(lia)). unfold published. split; [rewrite load_le_store_le_eq; unfold u16; by rewrite Z.mod_mod|].
  rewrite load_le_store_le_out, load_le_store_le_eq by (unfold avail_idx, avail_ring; simpl; lia). done.
Qed.

(** The transfer, seen from the buffer cache. *)
Lemma updB_id b f F : (b < length (bufs F))%nat -> f (getB b F) = getB b F -> updB b f F = F.
Proof.
  intros Hb Hf. unfold updB, getB in *. destruct (lookup_lt_is_Some_2 _ _ Hb) as [x Hx]. rewrite Hx in Hf. cbn in Hf.
  assert (Ha : alter f b (bufs F) = bufs F).
  { apply list_eq. intros j. rewrite list_lookup_alter. case_decide as Hd; [|done]. subst j. rewrite Hx. cbn. by rewrite Hf. }
  rewrite Ha. by destruct F.
Qed.

Lemma transfer_done b write n F : (b < length (bufs F))%nat -> b_disk (getB b F) = 0 ->
  updB b (set_b_disk 0) (transfer write n b (updB b (set_b_disk 1) F)) = transfer write n b F.
Proof.
  intros Hb Hd. assert (Hid : forall x, b_disk x = 0 -> set_b_disk 0 (set_b_disk 1 x) = x) by (by intros [] ; simpl; intros ->).
  unfold transfer. destruct write.
  - rewrite getB_upd_eq by done. cbn [b_data set_b_disk].
    change (updB b (set_b_disk 0) (write_block n (b_data (getB b F)) (updB b (set_b_disk 1) F))) with (write_block n (b_data (getB b F)) (updB b (set_b_disk 0) (updB b (set_b_disk 1) F))).
    rewrite updB_upd, updB_id by auto. done.
  - change (block (updB b (set_b_disk 1) F) n) with (block F n). rewrite !updB_upd. unfold updB. f_equal. apply list_eq. intros j. rewrite !list_lookup_alter.
    case_decide as Hj; [|done]. subst j. unfold getB in Hd. destruct (lookup_lt_is_Some_2 _ _ Hb) as [x Hx]. rewrite Hx in *. simpl in *. f_equal. by destruct x; simpl in *; subst.
Qed.

(** Giving the descriptors back leaves the driver idle. *)
Lemma freed_idle m m' d d' : vd_idle m d -> v_free d' = replicate 8 1 -> length (v_info d') = 8%nat -> length (v_ops d') = 8%nat ->
  v_desc d' = v_desc d -> v_avail d' = v_avail d -> v_used d' = v_used d -> mem_ok m' ->
  load_le 2 m' (used_idx d) = v_used_idx d' -> load_le 2 m' (avail_idx d) = v_used_idx d' ->
  vd_idle (put_desc d 2 0 0 0 0 (put_desc d 1 0 0 0 0 (put_desc d 0 0 0 0 0 m'))) d'.
Proof.
  intros [_ _ _ _ _ (P1 & P2 & P3) _] H1 H2 H3 Hd Ha Hu Hm Hui Hai. unfold apart, used_idx, avail_idx in *. split; try done.
  - unfold used_idx. rewrite Hu, !put_desc_out by (simpl; lia). done.
  - unfold avail_idx. rewrite Ha, !put_desc_out by (simpl; lia). done.
  - unfold apart. rewrite Hd, Ha, Hu. done.
  - by repeat apply put_desc_ok.
Qed.

(** The wait ends when the request is served. *)
Lemma wp_wait_served F m d b write sector s (Q : unit -> kstate -> Prop) : at_ (Some L_vdisk) F m d s -> pending s 0 write sector b ->
  (b < length (bufs F))%nat -> b_disk (getB b F) = 1 ->
  0 <= v_used_idx d < 2 ^ 16 -> load_le 2 m (used_idx d) = v_used_idx d -> fst <$> znth (v_info d) 0 = Some (Some b) -> mem_ok m ->
  (forall m' s', at_ (Some L_vdisk) (updB b (set_b_disk 0) (transfer write (sector / 2) b F)) m' (done_by b d) s' ->
     (forall a, ~ (v_used d <= a < v_used d + 4096) -> load8 m' a = load8 m a) -> load_le 2 m' (used_idx d) = u16 (v_used_idx d + 1) -> mem_ok m' -> Q tt s') ->
  wp (loop (S turns) (fun _ => x <- getb b;; if b_disk x =? 1 then sleep (Ch_buf b) L_vdisk;; ret (inl tt) else ret (inr tt)) tt) Q s.
Proof.
  intros H Hpend Hb Hbd Hv Hui Hinfo Hm HQ. destruct turns as [|t] eqn:Ht; [pose proof (dv_turns (pr := pr)); lia|]. cbn [loop].
  apply wp_bind. eapply wp_bind, wp_getb; [exact H|]. rewrite Hbd, Z.eqb_refl. eapply wp_bind, wp_sleep_served; try done. intros m' s' H' Hout Hui' Hm'. apply wp_ret.
  apply wp_bind. eapply wp_bind, wp_getb; [exact H'|]. rewrite getB_upd_eq.
  - change (b_disk (set_b_disk 0 _) =? 1) with false. cbv iota. apply wp_ret, wp_ret. by apply (HQ m').
  - unfold transfer. destruct write; [done|]. by rewrite updB_length.
Qed.

(** The chain is still in memory when the device is done. *)
Lemma chain_kept b write d u m m' : apart (v_desc d) (v_avail d) -> apart (v_desc d) (v_used d) ->
  (forall a, ~ (v_used d <= a < v_used d + 4096) -> load8 m' a = load8 (published d u (formatted b write d m)) a) ->
  exists a0 a1 a2 l0 l1 l2 f, desc_at m' d 0 = (a0, l0, VRING_DESC_F_NEXT, 1) /\ desc_at m' d 1 = (a1, l1, Z.lor f VRING_DESC_F_NEXT, 2) /\ (f = 0 \/ f = VRING_DESC_F_WRITE) /\
    desc_at m' d 2 = (a2, l2, VRING_DESC_F_WRITE, 0).
Proof.
  intros P1 P2 Hm. assert (Hd : forall i, 0 <= i < 8 -> desc_at m' d i = desc_at (formatted b write d m) d i).
  { intros i Hi. rewrite <- (published_desc d u (formatted b write d m)) by done. apply desc_at_ext; [done|]. intros a Ha. apply Hm. unfold apart in P2. lia. }
  destruct (formatted_chain b write d m) as (D0 & D1 & D2). rewrite !Hd, D0, D1, D2 by lia. do 6 eexists. exists (if write then 0 else VRING_DESC_F_WRITE).
  split_and!; try done. destruct write; auto.
Qed.

Lemma wp_virtio_disk_rw F m d b write s (Q : unit -> kstate -> Prop) : let n := b_blockno (getB b F) in
  at_ None F m d s -> vd_idle m d -> (b < NBUF)%nat -> (b < length (bufs F))%nat -> b_disk (getB b F) = 0 -> 0 <= n < 2 ^ 31 ->
  (forall m' d' s', at_ None (transfer write n b F) m' d' s' -> vd_idle m' d' -> Q tt s') -> wp (virtio_disk_rw b write) Q s.
Proof.
  intros n H Hidle HbN Hb Hbd Hn HQ. pose proof Hidle as [I1 I2 I3 I4 I5 (P1 & P2 & P3) I7]. unfold virtio_disk_rw.
  assert (Hv : 0 <= v_used_idx d < 2 ^ 16) by (rewrite <- I4; by apply (load_le_range 2)).
  eapply wp_bind, wp_getb; [exact H|]. fold n. replace (u32 (n * (BSIZE / 512))) with (n * 2) by (unfold u32; rewrite Z.mod_small; [done|change (BSIZE / 512) with 2; lia]).
  eapply wp_bind, wp_lock; [exact H|]. intros s1 H1. apply wp_bind. cbn [loop]. apply wp_bind, wp_bind. eapply wp_alloc3; [exact H1|done|]. intros s2 H2. apply wp_ret, wp_ret.
  eapply wp_bind, wp_format_request; [exact H2|]. intros s3 H3. eapply wp_bind, wp_updb; [exact H3|]. intros s4 H4. eapply wp_bind, wp_updd; [exact H4|]. intros s5 H5.
  set (d5 := set_info 0 (Some b) _) in H5. change (formatted b write (set_v_free taken3 d) m) with (formatted b write d5 m) in H5.
  eapply wp_bind, wp_getd; [exact H5|]. eapply wp_bind, wp_kld; [exact H5|]. change (avail_idx d5) with (avail_idx d). change (formatted b write d5 m) with (formatted b write d m).
  rewrite formatted_out, I5 by (unfold avail_idx, apart in *; simpl; lia). change (formatted b write d m) with (formatted b write d5 m).
  eapply wp_bind, wp_kst; [exact H5|]. intros s6 H6. eapply wp_bind, wp_kst; [exact H6|]. intros s7 H7. change NUMZ with 8 in H7.
  change (store_le 2 _ (avail_idx d) _) with (published d5 (v_used_idx d) (formatted b write d5 m)) in H7. eapply wp_bind, wp_RW; [exact H7|]. intros s8 H8.
  assert (Hops : znth (v_ops d5) 0 = Some (if write then VIRTIO_BLK_T_OUT else VIRTIO_BLK_T_IN, 0, n * 2)) by (apply znth_zupd_eq; cbn; lia).
  assert (Hlen : length (v_info d5) = 8%nat) by (unfold d5; by rewrite set_info_length, set_status_length).
  assert (Hinfo : fst <$> znth (v_info d5) 0 = Some (Some b)) by (apply set_info_fst; rewrite set_status_length; cbn [v_info with_header set_v_ops set_v_free]; lia).
  pose proof (published_pending _ m d5 b write (n * 2) (v_used_idx d) s8 HbN H8 P1 P2 P3 I4 Hops) as Hpend.
  eapply wp_bind, (wp_wait_served _ _ d5 b write (n * 2)); [exact H8|exact Hpend|by rewrite updB_length|by rewrite getB_upd_eq|exact Hv| |exact Hinfo| |].
  { change (used_idx d5) with (used_idx d). rewrite published_out by (unfold used_idx, apart in *; cbn; lia). rewrite formatted_out by (unfold used_idx, apart in *; cbn; lia). done. }
  { apply store_le_ok, store_le_ok. unfold formatted. by repeat apply put_desc_ok. }
  intros m9 s9 H9 Hout Hui Hmok. rewrite Z.div_mul, transfer_done in H9 by (done || lia). eapply wp_bind, wp_updd; [exact H9|]. intros s10 H10.
  eapply wp_bind, wp_free_chain; [exact H10|done|by eapply (chain_kept b write d5 (v_used_idx d) m m9)|]. intros s11 H11. eapply wp_unlock; [exact H11|]. intros s12 H12.
  eapply HQ; [exact H12|]. apply (freed_idle m m9 d); try done.
  - change (length (v_info (set_info 0 None (done_by b d5))) = 8%nat). rewrite set_info_length. unfold done_by. cbn [v_info set_v_used_idx]. by rewrite set_status_length.
  - change (length (v_ops d5) = 8%nat). unfold d5. cbn [v_ops set_info set_status with_header set_v_info set_v_ops set_v_free]. by rewrite zupd_length.
  - change (load_le 2 m9 (avail_idx d) = u16 (v_used_idx d + 1)). rewrite (load_le_ext 2 m9 (published d5 (v_used_idx d) (formatted b write d5 m))).
    + unfold published. change (avail_idx d5) with (avail_idx d). rewrite load_le_store_le_eq. unfold u16. by rewrite Z.mod_mod.
    + intros a Ha. apply Hout. change (v_used d5) with (v_used d). unfold avail_idx, apart in *. simpl in Ha. lia.
Qed.

End driver.

(** ** The driver keeps its promise *)

Section laws.
Context {E : Env} (pr : nat) {V : Device pr}.

Lemma fsrun_virtio_disk_rw pid F b write : let n := b_blockno (getB b F) in (b < NBUF)%nat -> length (bufs F) = S NBUF -> b_disk (getB b F) = 0 -> 0 <= n < 2 ^ 31 ->
  @fsrun (virtio_ready pr) pr pid unit (virtio_disk_rw b write) F (fun _ F' => F' = transfer write n b F).
Proof.
  intros n Hb Hl Hbd Hn c0 s Hs HF. pose proof Hs as [R1 R2 R3 R4 R5 R6 R7 [_ (I1 & I2 & I3 & I4)]]. unfold get_proc in I3, I4.
  destruct (lookup_lt_is_Some_2 _ _ I2) as [p0 Hp0]. rewrite Hp0 in I3, I4.
  eapply (wp_virtio_disk_rw pr c0 (procs (k_pt s)) R1 R2 R3 R4 R6 p0 Hp0 I3 I4 F (k_mem s) (vdisk_ (k_dev s)) b write); try done.
  - split; try done. apply woken_refl.
  - rewrite Hl. lia.
  - intros m' d' s' [A1 A2 A3 A4 A5] Hidle. split; [exact A3|]. split; [|exact A2].
    assert (Hpr : procs (k_pt s') !! pr = Some p0) by (by eapply woken_running).
    split; try done; [by rewrite <- (Forall2_length _ _ _ A2)|rewrite <- R7; by apply pid_woken|].
    split; [done|]. rewrite <- A4, <- A5 in Hidle. split; [done|]. split; [by rewrite <- (Forall2_length _ _ _ A2)|]. unfold get_proc. by rewrite Hpr.
Qed.

(** The interface of the buffer cache holds for this driver: every theorem about the
    cache, the log and the files holds with it. *)
Lemma virtio_laws : @DiskLaws virtio_driver (virtio_ready pr).
Proof.
  split; intros pr' pid F b Hb Hl Hbd Hn c0 s Hs HF; pose proof Hs as [_ _ _ _ _ _ _ [-> _]].
  - by apply (fsrun_virtio_disk_rw pid F b false).
  - by apply (fsrun_virtio_disk_rw pid F b true).
Qed.

(** C9. virtio_disk_rw() on an idle driver: the request it publishes is the one the
    device serves, the interrupt handler wakes it, and it returns with exactly one
    block transferred between the buffer and the disk, every descriptor free again, the
    rings empty and its locks released; no process but those that waited has changed.
    The device is any that does with a request in the ring what virtio prescribes. *)
Theorem virtio_disk_rw_transfers pid b write c0 s : let F := k_fs s in let n := b_blockno (getB b F) in
  @running (virtio_ready pr) pr pid None c0 s -> (b < NBUF)%nat -> length (bufs F) = S NBUF -> b_disk (getB b F) = 0 -> 0 <= n < 2 ^ 31 ->
  wp (virtio_disk_rw b write) (fun _ s' => k_fs s' = (if write then write_block n (b_data (getB b F)) F else updB b (set_b_data (block F n)) F) /\
    @running (virtio_ready pr) pr pid None c0 s' /\ vd_idle (k_mem s') (vdisk_ (k_dev s')) /\ Forall2 woken (procs (k_pt s)) (procs (k_pt s'))) s.
Proof.
  intros F n Hs Hb Hl Hbd Hn. eapply wp_mono; [by apply (fsrun_virtio_disk_rw pid F b write Hb Hl Hbd Hn c0 s)|].
  intros [] s' (HF & Hs' & Hw). split; [exact HF|]. split; [done|]. split; [|done]. apply (ru_ready _ _ _ _ _ Hs').
Qed.

End laws.

(** ** A device *)

(** It reads the next chain from memory and serves it. *)
Definition ring_device (s : kstate) : kstate :=
  let d := vdisk_ (k_dev s) in let m := k_mem s in
  let u := load_le 2 m (used_idx d) in
  let h := load_le 2 m (avail_ring d (u mod 8)) in
  let '(_, _, _, i1) := desc_at m d h in
  let '(addr, _, _, _) := desc_at m d i1 in
  let '(type, _, sector) := default (0, 0, 0) (znth (v_ops d) h) in
  let b := default 0%nat (first_index (fun b => u64 (@kaddr env0 (O_bdata b)) =? addr) (seq 0 NBUF)) in
  set_k_fs (transfer (type =? VIRTIO_BLK_T_OUT) (sector / 2) b (k_fs s))
    (set_k_dev (set_vdisk_ (set_status h 0 d) (k_dev s))
      (set_k_mm (set_m_mem (store_le 2 (store_le 4 m (used_id d (u mod 8)) h) (used_idx d) (u16 (u + 1))) (k_mm s)) s)).

(** The kernel with this device: while process 1 sleeps, the device works and the
    handler runs on the idle hart. *)
Definition env_disk : Env := {|
  world := fun _ s => match @virtio_disk_intr env0 (kset_ctl ctl0 (ring_device s)) with
                      | Ret _ s2 => Some (kset_ctl (k_ctl s) (upd_proc 1 (set_p_state RUNNING) s2))
                      | _ => None
                      end;
  mmio := @mmio env0; end_ := @end_ env0; etext := @etext env0; trampoline := @trampoline env0; uservec := @uservec env0; userret := @userret env0;
  forkret_addr := @forkret_addr env0; usertrap_addr := @usertrap_addr env0; kernelvec := @kernelvec env0; kaddr := @kaddr env0; turns := 3
|}.

Lemma buf_of_addr b : (b < NBUF)%nat -> first_index (fun k => u64 (@kaddr env0 (O_bdata k)) =? u64 (@kaddr env0 (O_bdata b))) (seq 0 NBUF) = Some b.
Proof.
  intros Hb. assert (Hall : forallb (fun b => bool_decide (first_index (fun k => u64 (@kaddr env0 (O_bdata k)) =? u64 (@kaddr env0 (O_bdata b))) (seq 0 NBUF) = Some b)) (seq 0 NBUF) = true) by (vm_compute; reflexivity).
  rewrite forallb_forall in Hall. specialize (Hall b). apply bool_decide_eq_true_1 in Hall; [done|]. apply in_seq. lia.
Qed.

Lemma ring_device_serves s h write sector b : @pending env_disk s h write sector b -> served s h write sector b (ring_device s).
Proof.
  intros [Hh Hb [Hidx Hring] (i1 & i2 & _ & _ & D0 & D1 & _) Hops]. cbv zeta in Hidx, Hring. change (@kaddr env_disk) with (@kaddr env0) in D1. unfold ring_device. rewrite Hring, D0, D1, Hops.
  cbn [default from_option id]. rewrite (buf_of_addr b Hb). cbn [default from_option id].
  assert (Hw : ((if write then VIRTIO_BLK_T_OUT else VIRTIO_BLK_T_IN) =? VIRTIO_BLK_T_OUT) = write) by (by destruct write). rewrite Hw.
  set (d := vdisk_ (k_dev s)) in *. set (m := k_mem s) in *. set (u := load_le 2 m (used_idx d)) in *. pose proof (Z.mod_pos_bound u 8 ltac:(lia)) as Hu.
  split; try done.
  - cbv zeta. fold d m. fold u. cbn [k_mem k_mm set_k_fs set_k_dev set_k_mm m_mem set_m_mem]. split.
    + rewrite load_le_store_le_eq. unfold u16. by rewrite Z.mod_mod.
    + rewrite load_le_store_le_out, load_le_store_le_eq by (unfold used_idx, used_id; lia). apply Z.mod_small. change (2 ^ (8 * Z.of_nat 4)) with 4294967296. lia.
  - intros a Ha. cbn [k_mem k_mm set_k_fs set_k_dev set_k_mm m_mem set_m_mem]. fold d in Ha. rewrite !load8_store_le_out by (unfold used_idx, used_id; lia). done.
  - intros Hok. cbn [k_mem k_mm set_k_fs set_k_dev set_k_mm m_mem set_m_mem]. by repeat apply store_le_ok.
Qed.

#[local] Instance disk_device : @Device env_disk 1.
Proof.
  refine {| dv := ring_device; hctl := fun _ => ctl0 |}.
  - apply ring_device_serves.
  - intros s. split; [repeat split; by vm_compute|]. split; [done|reflexivity].
  - intros n s s2 _ _ H _. cbn [world env_disk]. change (@virtio_disk_intr env0) with (@virtio_disk_intr env_disk). by rewrite H.
  - simpl. lia.
Defined.

(** The driver's pages, and a disk whose block 7 is full of ones. *)
Definition vd0 : vdisk := mkvdisk 0x87000000 0x87001000 0x87002000 (replicate 8 1) 0 (replicate 8 (None, 0)) (replicate 8 (0, 0, 0)).
Definition ks_disk : kstate :=
  set_k_fs (set_disk {[ 7 := replicate 1024 1 ]} (set_bufs (replicate (S NBUF) (set_b_blockno 7 buf0)) fs0)) (set_k_dev (set_vdisk_ vd0 dev0) ks1).

Lemma ks_disk_running : @running (virtio_ready 1) 1 2 None ctl1 ks_disk.
Proof.
  split; try done. split; [done|]. split; [|by repeat split; vm_compute; lia].
  split; try done; [by unfold apart; cbn; lia|]. apply mem_ok_intro. intros a. change (k_mem ks_disk) with (∅ : memory). unfold load8. rewrite lookup_empty. simpl. lia.
Qed.

Lemma virtio_disk_rw_transfers_witness : wp (@virtio_disk_rw env_disk 3 false) (fun _ s' => b_data (getB 3 (k_fs s')) = replicate 1024 1 /\
  v_free (vdisk_ (k_dev s')) = replicate 8 1) ks_disk.
Proof.
  eapply wp_mono.
  - apply (@virtio_disk_rw_transfers env_disk 1 disk_device 2 3 false ctl1 ks_disk); [exact ks_disk_running|unfold NBUF; lia|reflexivity|reflexivity|cbn; lia].
  - intros [] s' (-> & _ & Hi & _). split; [reflexivity|apply Hi].
Defined.
