(* ===== verification/Trap.v ===== *)
(** * Traps and interrupts (kernel/trap.c, kernel/plic.c) *)

From S2P Require Import Prelude Riscv Kstate CString Spinlock Kalloc Vm Sched Bytes Uart Console Sleeplock.
From S2P Require Import Bio Log Fs File Proc Exec Syscall Virtio.

Section trap.
Context {E : Env} {D : DiskDriver}.

(** ** kernel/plic.c *)

Definition plicinit : K unit :=
  mmio_write (PLIC + UART0_IRQ * 4) 1;;
  mmio_write (PLIC + VIRTIO0_IRQ * 4) 1.

Definition plicinithart : K unit :=
  hart <- lift_ctl cpuid;;
  mmio_write (PLIC_SENABLE hart) (Z.lor (Z.shiftl 1 UART0_IRQ) (Z.shiftl 1 VIRTIO0_IRQ));;
  mmio_write (PLIC_SPRIORITY hart) 0.

Definition plic_claim : K Z :=
  hart <- lift_ctl cpuid;;
  irq <- mmio_read (PLIC_SCLAIM hart);;
  ret (i32 irq).

Definition plic_complete (irq : Z) : K unit :=
  hart <- lift_ctl cpuid;;
  mmio_write (PLIC_SCLAIM hart) (u32 irq).

(** ** kernel/trap.c *)

Definition trapinit : K unit := lift_ctl (initlock L_ticks "time").

Definition w_stvec (v : Z) : K unit := modify (fun s => set_k_regs (set_stvec v (k_regs s)) s).
Definition w_sepc (v : Z) : K unit := modify (fun s => set_k_regs (set_sepc v (k_regs s)) s).
Definition r_sepc : K Z := gets (fun s => sepc (k_regs s)).
Definition r_scause : K Z := gets (fun s => scause (k_regs s)).
Definition r_stval : K Z := gets (fun s => stval (k_regs s)).
Definition r_sstatus : K Z := gets (fun s => sstatus (k_ctl s)).

Definition trapinithart : K unit := w_stvec kernelvec.

Definition clockintr : K unit :=
  kacquire L_ticks;;
  modify (fun s => set_k_gl (set_ticks (u32 (ticks (k_gl s) + 1)) (k_gl s)) s);;
  wakeup (Some Ch_ticks);;
  krelease L_ticks.

(** 2 for a timer interrupt, 1 for another device, 0 if not recognised. *)
Definition devintr : K Z :=
  scause <- r_scause;;
  if truthy (Z.land scause 0x8000000000000000) && (Z.land scause 0xff =? 9) then
    irq <- plic_claim;;
    (if irq =? UART0_IRQ then uartintr
     else if irq =? VIRTIO0_IRQ then virtio_disk_intr
     else if truthy irq then
       printf (Some (bytes_of_string "unexpected interrupt irq=%d" ++ [NL])) [AInt irq]
     else ret tt);;
    when (truthy irq) (plic_complete irq);;
    ret 1
  else if scause =? 0x8000000000000001 then
    id <- lift_ctl cpuid;;
    when (id =? 0) clockintr;;
    modify (fun s => set_k_regs (set_sip (Z.land (sip (k_regs s)) (u64 (Z.lnot 2))) (k_regs s)) s);;
    ret 2
  else ret 0.

(** The satp value with which the process goes back to user space. *)
Definition usertrap : K Z :=
  st <- r_sstatus;;
  if negb (Z.land st SSTATUS_SPP =? 0) then panic "usertrap: not from user mode"
  else
    w_stvec kernelvec;;
    p <- curproc;;
    epc <- r_sepc;;
    tf_set p TF_epc epc;;
    cause <- r_scause;;
    which_dev <-
      (if cause =? 8 then
         k <- killed p;;
         when (truthy k) (exit (-1));;
         epc <- tf_get p TF_epc;;
         tf_set p TF_epc (u64 (epc + 4));;
         lift_ctl intr_on;;
         syscall;;
         ret 0
       else
         d <- devintr;;
         when (d =? 0)
           (cause <- r_scause;;
            pr <- getp p;;
            printf (Some (bytes_of_string "usertrap(): unexpected scause %p pid=%d" ++ [NL]))
              [APtr cause; AInt (p_pid pr)];;
            epc <- r_sepc;;
            tval <- r_stval;;
            printf (Some (bytes_of_string "            sepc=%p stval=%p" ++ [NL])) [APtr epc; APtr tval];;
            setkilled p);;
         ret d);;
    k <- killed p;;
    when (truthy k) (exit (-1));;
    when (which_dev =? 2) yield;;
    usertrapret.

Definition kerneltrap : K unit :=
  epc <- r_sepc;;
  st <- r_sstatus;;
  cause <- r_scause;;
  if Z.land st SSTATUS_SPP =? 0 then panic "kerneltrap: not from supervisor mode"
  else
    i <- lift_ctl intr_get;;
    if truthy i then panic "kerneltrap: interrupts enabled"
    else
      which_dev <- devintr;;
      if which_dev =? 0 then
        printf (Some (bytes_of_string "scause %p" ++ [NL])) [APtr cause];;
        epc <- r_sepc;;
        tval <- r_stval;;
        printf (Some (bytes_of_string "sepc=%p stval=%p" ++ [NL])) [APtr epc; APtr tval];;
        panic "kerneltrap"
      else
        run <- (if which_dev =? 2 then
                  me <- kmyproc;;
                  match me with
                  | None => ret false
                  | Some _ => p <- curproc;; pr <- getp p;; ret (bool_decide (p_state pr = RUNNING))
                  end
                else ret false);;
        when run yield;;
        w_sepc epc;;
        lift_ctl (modify (set_sstatus st)).

End trap.
