(* ===== verification/Boot.v ===== *)
(** * Booting (kernel/start.c, kernel/main.c)

    start() runs in machine mode and prepares the registers of its hart; main()
    initialises the kernel's components on hart 0 and starts the scheduler on
    every hart. *)

From S2P Require Import Prelude Riscv Kstate CString Spinlock Kalloc Vm Sched Bytes Uart Console Sleeplock.
From S2P Require Import Bio Log Fs File Proc Exec Syscall Virtio Trap.

(** ** start.c *)

(** The registers start() and timerinit() touch; mscratch holds an address of
    timer_scratch, whose words 3 and 4 are [scratch3] and [scratch4]. *)
Record mregs := mkmregs {
  mstatus : Z; mepc : Z; m_satp : Z; medeleg : Z; mideleg : Z; sie : Z;
  pmpaddr0 : Z; pmpcfg0 : Z; mtvec : Z; mie : Z; m_tp : Z;
  mtimecmp : Z; scratch3 : Z; scratch4 : Z
}.

(** timerinit() on the hart [id], with the time [mtime] read from the CLINT and
    the address [timervec] of the handler. *)
Definition timerinit (id mtime timervec : Z) (r : mregs) : mregs :=
  let interval := 1000000 in
  mkmregs (Z.lor (mstatus r) MSTATUS_MIE) (mepc r) (m_satp r) (medeleg r) (mideleg r) (sie r)
    (pmpaddr0 r) (pmpcfg0 r) timervec (Z.lor (mie r) MIE_MTIE) (m_tp r)
    (u64 (mtime + interval)) (CLINT_MTIMECMP id) interval.

(** The registers at the mret that ends start(). *)
Definition start (id mtime timervec main_addr : Z) (r : mregs) : mregs :=
  let x := Z.lor (Z.land (mstatus r) (u64 (Z.lnot MSTATUS_MPP_MASK))) MSTATUS_MPP_S in
  let r := mkmregs x main_addr 0 0xffff 0xffff
             (Z.lor (Z.lor (Z.lor (sie r) SIE_SEIE) SIE_STIE) SIE_SSIE)
             0x3fffffffffffff 0xf (mtvec r) (mie r) (m_tp r) (mtimecmp r) (scratch3 r) (scratch4 r) in
  let r := timerinit id mtime timervec r in
  mkmregs (mstatus r) (mepc r) (m_satp r) (medeleg r) (mideleg r) (sie r) (pmpaddr0 r) (pmpcfg0 r)
    (mtvec r) (mie r) (u64 (i32 id)) (mtimecmp r) (scratch3 r) (scratch4 r).

(** ** main.c *)

Section boot.
Context {E : Env} {D : DiskDriver}.

Definition println (s : string) : K unit := printf (Some (bytes_of_string s ++ [NL])) [].

(** What hart 0 does before it lets the others start. *)
Definition main_boot : K unit :=
  consoleinit;;
  printfinit;;
  println "";;
  println "xv6 kernel is booting";;
  println "";;
  lift_mm kinit;;
  kvminit;;
  kvminithart;;
  procinit;;
  trapinit;;
  trapinithart;;
  plicinit;;
  plicinithart;;
  binit;;
  iinit;;
  fileinit;;
  virtio_disk_init;;
  userinit.

(** What the other harts do once [started] is set. *)
Definition main_ap : K unit :=
  id <- lift_ctl cpuid;;
  printf (Some (bytes_of_string "hart %d starting" ++ [NL])) [AInt id];;
  kvminithart;;
  trapinithart;;
  plicinithart.

(** The wait for [started] is the environment's; [passes] bounds the passes of
    the scheduler. *)
Definition main (passes : nat) : K unit :=
  id <- lift_ctl cpuid;;
  (if id =? 0 then main_boot else main_ap);;
  scheduler passes.

End boot.
