(* ===== verification/Mkfs.v ===== *)
(** * mkfs, the program that builds the disk image (mkfs/mkfs.c)

    mkfs runs on the build machine, which is taken to be little-endian, and writes
    the image block by block.  The state is the image (the blocks written so far;
    a read of any other block comes back short) and the program's global
    variables; [die] and a failed assertion end the program.  The messages on
    standard output are left out.

    A file to copy is its name as given on the command line and the results of
    the successive calls of read() on it, or [None] if it cannot be opened. *)

From S2P Require Import Prelude Riscv Kstate Bytes Bio Log Fs.

Definition NINODES : Z := 200.
Definition nbitmap : Z := FSSIZE / (BSIZE * 8) + 1.
Definition ninodeblocks : Z := NINODES / IPB + 1.
Definition nlog : Z := LOGSIZE.
Definition nmeta : Z := 2 + nlog + ninodeblocks + nbitmap.
Definition nblocks : Z := FSSIZE - nmeta.

Record mkstate : Type := mkmkstate {
  m_img : gmap Z (list Z);
  m_sb : superblock;
  m_freeinode : Z;
  m_freeblock : Z
}.
Definition set_m_img (x : gmap Z (list Z)) (s : mkstate) : mkstate := mkmkstate x (m_sb s) (m_freeinode s) (m_freeblock s).
Definition set_m_sb (x : superblock) (s : mkstate) : mkstate := mkmkstate (m_img s) x (m_freeinode s) (m_freeblock s).
Definition set_m_freeinode (x : Z) (s : mkstate) : mkstate := mkmkstate (m_img s) (m_sb s) x (m_freeblock s).
Definition set_m_freeblock (x : Z) (s : mkstate) : mkstate := mkmkstate (m_img s) (m_sb s) (m_freeinode s) x.

Abbreviation H := (M mkstate).

Definition die {A} (msg : string) : H A := panic msg.
Definition assert (b : bool) : H unit := if b then ret tt else panic "assertion".

(** Integers laid out byte by byte, least significant byte first, and read back. *)
Definition xshort (x : Z) : Z := dec_le [u8 x; u8 (Z.shiftr x 8)].
Definition xint (x : Z) : Z := dec_le [u8 x; u8 (Z.shiftr x 8); u8 (Z.shiftr x 16); u8 (Z.shiftr x 24)].

(** [lseek(fsfd, sec * BSIZE, 0)]: the product is a 32-bit integer. *)
Definition sector (sec : Z) : Z := u32 (sec * BSIZE) / BSIZE.

Definition wsect (sec : Z) (buf : list Z) : H unit :=
  modify (fun s => set_m_img (<[sector sec := buf]> (m_img s)) s).

Definition rsect (sec : Z) : H (list Z) :=
  img <- gets m_img;;
  match img !! sector sec with
  | Some buf => ret buf
  | None => die "read"
  end.

Definition winode (inum : Z) (ip : dinode) : H unit :=
  sb <- gets m_sb;;
  let bn := IBLOCK inum sb in
  buf <- rsect bn;;
  wsect bn (put_dinode buf (dinode_off inum) ip).

Definition rinode (inum : Z) : H dinode :=
  sb <- gets m_sb;;
  buf <- rsect (IBLOCK inum sb);;
  ret (dinode_of_bytes buf (dinode_off inum)).

Definition ialloc (type : Z) : H Z :=
  inum <- gets m_freeinode;;
  modify (set_m_freeinode (u32 (inum + 1)));;
  winode inum (mkdinode (i16 (xshort type)) 0 0 (i16 (xshort 1)) (xint 0) (replicate 13 0));;
  ret inum.

(** [buf[i/8] = buf[i/8] | (0x1 << (i%8))] *)
Definition set_bit (buf : list Z) (i : Z) : list Z :=
  zupd buf (i / 8) (u8 (Z.lor (default 0 (znth buf (i / 8))) (Z.shiftl 1 (i mod 8)))).

Definition balloc (used : Z) : H unit :=
  assert (used <? BSIZE * 8);;
  sb <- gets m_sb;;
  wsect (sb_bmapstart sb) (fold_left set_bit (map Z.of_nat (seq 0 (Z.to_nat used))) (replicate (Z.to_nat BSIZE) 0)).

(** [xint(freeblock++)] *)
Definition new_block : H Z :=
  b <- gets m_freeblock;;
  modify (set_m_freeblock (u32 (b + 1)));;
  ret (xint b).

Definition di_slot (din : dinode) (k : Z) : Z := default 0 (znth (di_addrs din) k).
Definition set_di_slot (k v : Z) (din : dinode) : dinode :=
  mkdinode (di_type din) (di_major din) (di_minor din) (di_nlink din) (di_size din) (zupd (di_addrs din) k v).

(** The slot of the inode, filled with a new block if it is free. *)
Definition fill_slot (k : Z) (din : dinode) : H dinode :=
  if xint (di_slot din k) =? 0 then b <- new_block;; ret (set_di_slot k b din) else ret din.

(** The sector of part [fbn] of the file, handed out if there is none yet. *)
Definition pick_block (fbn : Z) (din : dinode) : H (dinode * Z) :=
  if fbn <? NDIRECT then
    din <- fill_slot fbn din;;
    ret (din, xint (di_slot din fbn))
  else
    din <- fill_slot NDIRECT din;;
    let ib := xint (di_slot din NDIRECT) in
    indirect <- rsect ib;;
    if rd 4 indirect (4 * (fbn - NDIRECT)) =? 0 then
      b <- new_block;;
      let indirect := wr 4 indirect (4 * (fbn - NDIRECT)) b in
      wsect ib indirect;;
      ret (din, xint (rd 4 indirect (4 * (fbn - NDIRECT))))
    else ret (din, xint (rd 4 indirect (4 * (fbn - NDIRECT)))).

(** A turn of the loop of iappend(): the inode, the offset and the bytes left. *)
Definition iappend_turn '((din, off, p) : dinode * Z * list Z) : H (dinode * Z * list Z + dinode * Z) :=
  let n := Z.of_nat (length p) in
  if 0 <? n then
    let fbn := off / BSIZE in
    assert (fbn <? MAXFILE);;
    let* (din, x) := pick_block fbn din in
    let n1 := Z.min n ((fbn + 1) * BSIZE - off) in
    buf <- rsect x;;
    wsect x (splice buf (Z.to_nat (off - fbn * BSIZE)) (take (Z.to_nat n1) p));;
    ret (inl (din, u32 (off + n1), drop (Z.to_nat n1) p))
  else ret (inr (din, off)).

(** Every turn takes a byte or more. *)
Definition iappend (inum : Z) (p : list Z) : H unit :=
  din <- rinode inum;;
  let* (din, off) := loop (S (length p)) iappend_turn (din, xint (di_size din), p) in
  winode inum (mkdinode (di_type din) (di_major din) (di_minor din) (di_nlink din) (xint off) (di_addrs din)).

(** ** main() *)

(** A directory entry, cleared and filled in. *)
Definition mk_de (inum : Z) (name : list Z) : list Z := mk_dirent (xshort inum) name.

Definition sb_bytes (sb : superblock) : list Z :=
  enc_le 4 (sb_magic sb) ++ enc_le 4 (sb_size sb) ++ enc_le 4 (sb_nblocks sb) ++ enc_le 4 (sb_ninodes sb) ++
  enc_le 4 (sb_nlog sb) ++ enc_le 4 (sb_logstart sb) ++ enc_le 4 (sb_inodestart sb) ++ enc_le 4 (sb_bmapstart sb).

Definition the_sb : superblock :=
  mksuperblock FSMAGIC (xint FSSIZE) (xint nblocks) (xint NINODES) (xint nlog) (xint 2) (xint (2 + nlog))
    (xint (2 + nlog + ninodeblocks)).

(** The name of a file in the image: without "user/", then without "_". *)
Definition user_prefix : list Z := bytes_of_string "user/".
Definition shortname (arg : list Z) : list Z :=
  if strncmp_l 5 arg user_prefix =? 0 then drop 5 arg else arg.
Definition skip_underscore (name : list Z) : list Z := if hd 0 name =? 95 then tail name else name.

Record hostfile : Type := mkhostfile { h_arg : list Z; h_reads : option (list (list Z)) }.

Definition add_file (rootino : Z) (f : hostfile) : H unit :=
  let name := shortname (h_arg f) in
  assert (bool_decide (SLASH ∉ name));;
  match h_reads f with
  | None => die "open"
  | Some reads =>
      let name := skip_underscore name in
      inum <- ialloc T_FILE;;
      iappend rootino (mk_de inum name);;
      for_each reads (fun buf => iappend inum buf)
  end.

Definition fix_root_size (rootino : Z) : H unit :=
  din <- rinode rootino;;
  let off := xint (di_size din) in
  let off := u32 (u32 (off / BSIZE + 1) * BSIZE) in
  winode rootino (mkdinode (di_type din) (di_major din) (di_minor din) (di_nlink din) (xint off) (di_addrs din)).

(** The image: cleared, the superblock, the root directory and the files. *)
Definition build (args : list hostfile) : H unit :=
  modify (set_m_sb the_sb);;
  modify (set_m_freeblock nmeta);;
  for_each (upto FSSIZE) (fun i => wsect i (replicate (Z.to_nat BSIZE) 0));;
  wsect 1 (splice (replicate (Z.to_nat BSIZE) 0) 0 (sb_bytes the_sb));;
  rootino <- ialloc T_DIR;;
  assert (rootino =? ROOTINO);;
  iappend rootino (mk_de rootino (bytes_of_string "."));;
  iappend rootino (mk_de rootino (bytes_of_string ".."));;
  for_each args (add_file rootino);;
  fix_root_size rootino;;
  freeblock <- gets m_freeblock;;
  balloc freeblock.

(** main(): [img] is [None] without arguments, else whether the image file opens. *)
Definition main (img : option bool) (args : list hostfile) : H unit :=
  match img with
  | None => die "Usage: mkfs fs.img files..."
  | Some opened =>
      assert (BSIZE mod sizeof_dinode =? 0);;
      assert (BSIZE mod sizeof_dirent =? 0);;
      if opened then build args else die "open"
  end.

(** The state of the program when it starts, with the image file empty. *)
Definition mkfs_start : mkstate := mkmkstate ∅ (mksuperblock 0 0 0 0 0 0 0 0) 1 0.
