(* ===== verification/MkfsSpec.v ===== *)
(** * The image that mkfs builds (mkfs/mkfs.c)

    The blocks of a file, as FsImage.v reads them, are what iappend() put there;
    files never share a block; the bitmap marks the blocks handed out.  The kernel,
    run on the image, reads the files back. *)

From S2P Require Import Prelude Riscv Kstate CString Bytes Bio Log Fs FsSpec FsImage Mkfs.

(** ** Sectors *)

Definition zero_blk : list Z := replicate 1024 0.
Definition image (s : mkstate) (b : Z) : list Z := default zero_blk (m_img s !! b).

(** Every sector of the image was written, with a whole block. *)
Definition complete (s : mkstate) : Prop := forall b, 0 <= b < FSSIZE -> exists d, m_img s !! b = Some d /\ length d = 1024%nat.

Lemma complete_len s b : complete s -> 0 <= b < FSSIZE -> length (image s b) = 1024%nat.
Proof. intros H Hb. unfold image. by destruct (H b Hb) as (d & -> & ?). Qed.

Lemma xint_id x : 0 <= x < 2 ^ 32 -> xint x = x.
Proof.
  intros Hx. unfold xint, u8, dec_le. rewrite !Z.shiftr_div_pow2 by lia.
  change (2 ^ 8) with 256. change (2 ^ 16) with (256 * 256). change (2 ^ 24) with (256 * 256 * 256). rewrite <- !Z.div_div by lia.
  pose proof (Z.div_mod x 256 ltac:(lia)). pose proof (Z.div_mod (x / 256) 256 ltac:(lia)). pose proof (Z.div_mod (x / 256 / 256) 256 ltac:(lia)).
  rewrite (Z.mod_small (x / 256 / 256 / 256)); [lia|]. split; [repeat apply Z.div_pos; lia|]. rewrite !Z.div_div by lia. apply Z.div_lt_upper_bound; lia.
Qed.

Lemma xshort_id x : 0 <= x < 2 ^ 16 -> xshort x = x.
Proof.
  intros Hx. unfold xshort, u8, dec_le. rewrite !Z.shiftr_div_pow2 by lia. change (2 ^ 8) with 256.
  pose proof (Z.div_mod x 256 ltac:(lia)). rewrite (Z.mod_small (x / 256)); [lia|]. split; [apply Z.div_pos; lia|]. apply Z.div_lt_upper_bound; lia.
Qed.

Lemma sector_id b : 0 <= b < FSSIZE -> sector b = b.
Proof. unfold sector, u32, FSSIZE, BSIZE. intros Hb. rewrite Z.mod_small by lia. apply Z.div_mul. lia. Qed.

Lemma wp_rsect b (Q : list Z -> mkstate -> Prop) s : complete s -> 0 <= b < FSSIZE -> Q (image s b) s -> wp (rsect b) Q s.
Proof.
  intros Hc Hb HQ. unfold rsect. apply wp_bind, wp_gets. rewrite sector_id by done. unfold image in HQ. destruct (Hc b Hb) as (d & Hd & _).
  rewrite Hd in *. by apply wp_ret.
Qed.

(** The state after a sector is written. *)
Definition put (b : Z) (d : list Z) (s : mkstate) : mkstate := set_m_img (<[b := d]> (m_img s)) s.

Lemma image_put b d s x : image (put b d s) x = if decide (x = b) then d else image s x.
Proof. unfold image, put. simpl. case_decide; [subst; by rewrite lookup_insert_eq|by rewrite lookup_insert_ne]. Qed.
Lemma image_put_eq b d s : image (put b d s) b = d.
Proof. rewrite image_put. by rewrite decide_True. Qed.
Lemma image_put_ne b d s x : x <> b -> image (put b d s) x = image s x.
Proof. intros. rewrite image_put. by rewrite decide_False. Qed.

Lemma complete_put b d s : complete s -> length d = 1024%nat -> complete (put b d s).
Proof.
  intros Hc Hd x Hx. unfold put. simpl. destruct (decide (x = b)) as [->|]; [rewrite lookup_insert_eq; eauto|]. rewrite lookup_insert_ne by done. by apply Hc.
Qed.

Lemma wp_wsect b d (Q : unit -> mkstate -> Prop) s : 0 <= b < FSSIZE -> Q tt (put b d s) -> wp (wsect b d) Q s.
Proof. intros Hb HQ. unfold wsect. rewrite sector_id by done. by apply wp_modify. Qed.

(** ** Blocks of a file *)

(** An inode with [nb] blocks, all below [fb]; the rest of its slots are free. *)
Record alloc_ok (img : Z -> list Z) (fb : Z) (addrs : list Z) (nb : Z) : Prop := {
  al_len : length addrs = 13%nat;
  al_uint : Forall is_uint addrs;
  al_max : 0 <= nb <= MAXFILE;
  al_used : forall bn, 0 <= bn < nb -> nmeta <= block_of img addrs bn < fb;
  al_free : forall bn, nb <= bn < NDIRECT -> slot addrs bn = 0;
  al_noind : nb <= NDIRECT -> slot addrs NDIRECT = 0;
  al_ind : NDIRECT < nb -> nmeta <= slot addrs NDIRECT < fb /\ length (img (slot addrs NDIRECT)) = 1024%nat /\
    forall j, nb - NDIRECT <= j < NINDIRECT -> entry (img (slot addrs NDIRECT)) j = 0;
  al_inj : forall bn bn', 0 <= bn < nb -> 0 <= bn' < nb -> block_of img addrs bn = block_of img addrs bn' -> bn = bn';
  al_ne : forall bn, 0 <= bn < nb -> block_of img addrs bn <> slot addrs NDIRECT
}.

(** The blocks an inode owns. *)
Definition owns (img : Z -> list Z) (addrs : list Z) (nb b : Z) : Prop :=
  (exists bn, 0 <= bn < nb /\ block_of img addrs bn = b) \/ (NDIRECT < nb /\ slot addrs NDIRECT = b).

Lemma owns_range img fb addrs nb b : alloc_ok img fb addrs nb -> owns img addrs nb b -> nmeta <= b < fb.
Proof. intros H [(bn & Hbn & <-)|[Hn <-]]; [by apply (al_used _ _ _ _ H)|by apply (al_ind _ _ _ _ H)]. Qed.

(** The addresses depend on the block of addresses only. *)
Definition same_ind (img img' : Z -> list Z) (addrs : list Z) (nb : Z) : Prop :=
  NDIRECT < nb -> img' (slot addrs NDIRECT) = img (slot addrs NDIRECT).

Lemma owned_ind img img' addrs nb : (forall b, owns img addrs nb b -> img' b = img b) -> same_ind img img' addrs nb.
Proof. intros H Hn. apply H. by right. Qed.

Lemma block_of_frame img img' addrs nb bn : same_ind img img' addrs nb -> 0 <= bn < nb ->
  block_of img' addrs bn = block_of img addrs bn.
Proof. intros H Hbn. unfold block_of. destruct (Z.ltb_spec bn NDIRECT); [done|]. by rewrite H by lia. Qed.

Lemma alloc_frame img img' fb fb' addrs nb : same_ind img img' addrs nb -> fb <= fb' ->
  alloc_ok img fb addrs nb -> alloc_ok img' fb' addrs nb.
Proof.
  intros H Hfb Ha. pose proof Ha as [H1 H2 H3 H4 H5 H6 H7 H8 H9].
  assert (Hb : forall bn, 0 <= bn < nb -> block_of img' addrs bn = block_of img addrs bn) by (intros; by eapply block_of_frame).
  split; try done.
  - intros bn Hbn. rewrite Hb by done. pose proof (H4 bn Hbn). lia.
  - intros Hn. destruct (H7 Hn) as (Hr & Hl & He). rewrite (H Hn). split; [lia|by split].
  - intros bn bn' Hbn Hbn'. rewrite !Hb by done. by apply H8.
  - intros bn Hbn. rewrite Hb by done. by apply H9.
Qed.

Lemma owns_frame img img' addrs nb b : same_ind img img' addrs nb -> owns img' addrs nb b <-> owns img addrs nb b.
Proof.
  intros H. unfold owns. split; (intros [(bn & Hbn & He)|?]; [left; exists bn; split; [done|]|by right]).
  - by rewrite (block_of_frame img img' addrs nb bn H Hbn) in He.
  - by rewrite (block_of_frame img img' addrs nb bn H Hbn).
Qed.

Lemma bytes_frame img img' addrs nb off n : (forall b, owns img addrs nb b -> img' b = img b) -> 0 <= off -> off + n <= nb * BSIZE ->
  file_bytes img' addrs off n = file_bytes img addrs off n.
Proof.
  intros H Ho Hb. apply file_bytes_ext. intros k Hk. unfold file_byte.
  assert (Hbn : 0 <= k / BSIZE < nb) by (unfold BSIZE in *; split; [apply Z.div_pos; lia|apply Z.div_lt_upper_bound; lia]).
  rewrite (block_of_frame img img' addrs nb _ (owned_ind _ _ _ _ H) Hbn). rewrite H; [done|]. left. by exists (k / BSIZE).
Qed.

(** ** Handing out a block *)

Lemma slot_upd addrs k v k' : 0 <= k < 13 -> 0 <= k' -> length addrs = 13%nat -> slot (zupd addrs k v) k' = if decide (k' = k) then v else slot addrs k'.
Proof.
  intros Hk Hk' Hl. unfold slot, znth, zupd. destruct (Z.ltb_spec k 0), (Z.ltb_spec k' 0); try lia. case_decide as He.
  - subst. by rewrite list_lookup_insert_eq by lia.
  - by rewrite list_lookup_insert_ne by lia.
Qed.

Lemma uint_upd addrs k v : Forall is_uint addrs -> is_uint v -> Forall is_uint (zupd addrs k v).
Proof. intros. unfold zupd. case_match; [done|]. by apply Forall_insert. Qed.

Lemma slot_uint addrs k : Forall is_uint addrs -> is_uint (slot addrs k).
Proof.
  intros H. unfold slot, znth, is_uint. case_match; [simpl; lia|]. destruct (addrs !! Z.to_nat k) as [x|] eqn:Hx; [|simpl; lia].
  exact (Forall_lookup_1 _ _ _ _ H Hx).
Qed.

Lemma entry_wr d j v j' : length d = 1024%nat -> 0 <= j < NINDIRECT -> 0 <= j' -> is_uint v ->
  entry (wr 4 d (4 * j) v) j' = if decide (j' = j) then v else entry d j'.
Proof.
  intros Hl Hj Hj' Hv. unfold entry, NINDIRECT, BSIZE in *. change (1024 / 4) with 256 in Hj. case_decide as He.
  - subst. rewrite (rd_wr_eq 4) by (rewrite ?Hl; lia). apply Z.mod_small. exact Hv.
  - apply rd_wr_ne; rewrite ?Hl; lia.
Qed.

Lemma entry_zero j : 0 <= j < NINDIRECT -> entry zero_blk j = 0.
Proof.
  unfold entry, rd, slice, zero_blk, NINDIRECT, BSIZE. change (1024 / 4) with 256. intros Hj. rewrite drop_replicate, take_replicate.
  replace (Nat.min 4 (1024 - Z.to_nat (4 * j))) with 4%nat by lia. done.
Qed.

Lemma nmeta_46 : nmeta = 46.
Proof. reflexivity. Qed.

(** How an inode grows by the block [x]: its earlier blocks stay where they are. *)
Record grown (img img' : Z -> list Z) (fb fb' : Z) (addrs addrs' : list Z) (nb x : Z) : Prop := {
  gr_ok : alloc_ok img' fb' addrs' (nb + 1);
  gr_old : forall bn, 0 <= bn < nb -> block_of img' addrs' bn = block_of img addrs bn;
  gr_new : block_of img' addrs' nb = x;
  gr_img : forall b, b <> slot addrs' NDIRECT \/ slot addrs' NDIRECT = 0 -> img' b = img b;
  gr_fresh : fb <= x < fb';
  gr_ind : slot addrs' NDIRECT = slot addrs NDIRECT \/ fb <= slot addrs' NDIRECT < fb'
}.

Lemma grow_direct img fb addrs nb : alloc_ok img fb addrs nb -> nb < NDIRECT -> nmeta <= fb < 2 ^ 31 ->
  grown img img fb (fb + 1) addrs (zupd addrs nb fb) nb fb.
Proof.
  intros [H1 H2 H3 H4 H5 H6 H7 H8 H9] Hnb Hfb. unfold NDIRECT in *. pose proof nmeta_46 as Hnm. assert (HM : MAXFILE = 268) by done.
  assert (Hs : forall k, 0 <= k -> slot (zupd addrs nb fb) k = if decide (k = nb) then fb else slot addrs k) by (intros; apply slot_upd; (done || lia)).
  assert (H12 : slot (zupd addrs nb fb) 12 = slot addrs 12) by (rewrite Hs by lia; by rewrite decide_False by lia).
  assert (Hold : forall bn, 0 <= bn < nb -> block_of img (zupd addrs nb fb) bn = block_of img addrs bn).
  { intros bn Hbn. unfold block_of, NDIRECT. destruct (Z.ltb_spec bn 12); [|lia]. rewrite Hs by lia. by rewrite decide_False by lia. }
  assert (Hnew : block_of img (zupd addrs nb fb) nb = fb).
  { unfold block_of, NDIRECT. destruct (Z.ltb_spec nb 12); [|lia]. rewrite Hs by lia. by rewrite decide_True. }
  split; [split| | | | |]; unfold NDIRECT in *; try done; try lia; rewrite ?H12; try (by left).
  - by rewrite zupd_length.
  - apply uint_upd; [done|]. unfold is_uint. lia.
  - intros bn Hbn. destruct (decide (bn = nb)) as [->|]; [lia|]. rewrite Hold by lia. pose proof (H4 bn). lia.
  - intros bn Hbn. rewrite Hs by lia. rewrite decide_False by lia. apply H5. lia.
  - intros bn bn' Hb Hb'. destruct (decide (bn = nb)) as [->|], (decide (bn' = nb)) as [->|]; rewrite ?Hnew, ?Hold by lia; [done| | |apply H8; lia].
    + intros He. pose proof (H4 bn'). lia.
    + intros He. pose proof (H4 bn). lia.
  - intros bn Hb. rewrite H6 by lia. destruct (decide (bn = nb)) as [->|]; [rewrite Hnew; lia|]. rewrite Hold by lia. pose proof (H4 bn). lia.
Qed.

Lemma grow_indirect img img' fb ib addrs addrs' nb x : length addrs' = 13%nat -> Forall is_uint addrs' ->
  alloc_ok img fb addrs nb -> NDIRECT <= nb < MAXFILE -> nmeta <= fb < 2 ^ 31 ->
  (forall k, 0 <= k < NDIRECT -> slot addrs' k = slot addrs k) -> slot addrs' NDIRECT = ib ->
  (NDIRECT < nb /\ ib = slot addrs NDIRECT /\ x = fb \/ nb = NDIRECT /\ ib = fb /\ x = fb + 1) ->
  length (img ib) = 1024%nat -> (nb = NDIRECT -> img ib = zero_blk) ->
  img' ib = wr 4 (img ib) (4 * (nb - NDIRECT)) x -> (forall b, b <> ib -> img' b = img b) ->
  grown img img' fb (x + 1) addrs addrs' nb x.
Proof.
  intros Hl' Hu' [H1 H2 H3 H4 H5 H6 H7 H8 H9] Hnb Hfb Hsl Hib Hcase Hlen Hz Himg Hoth. pose proof nmeta_46 as Hnm.
  assert (HM : MAXFILE = 268) by done. assert (HN : NINDIRECT = 256) by done. assert (HD : NDIRECT = 12) by done.
  assert (Hx : is_uint x) by (unfold is_uint; lia).
  assert (He : forall j, 0 <= j -> entry (img' ib) j = if decide (j = nb - NDIRECT) then x else entry (img ib) j).
  { intros j Hj. rewrite Himg. apply entry_wr; (done || lia). }
  assert (Hold : forall bn, 0 <= bn < nb -> block_of img' addrs' bn = block_of img addrs bn).
  { intros bn Hbn. unfold block_of. destruct (Z.ltb_spec bn NDIRECT); [by apply Hsl; lia|]. rewrite Hib, He by lia. rewrite decide_False by lia.
    destruct Hcase as [(_ & -> & _)|(-> & _)]; [done|lia]. }
  assert (Hnew : block_of img' addrs' nb = x).
  { unfold block_of. destruct (Z.ltb_spec nb NDIRECT); [lia|]. rewrite Hib, He by lia. by rewrite decide_True. }
  assert (Hib2 : nmeta <= ib < x + 1 /\ ib <> x) by (destruct Hcase as [(Hlt & -> & ->)|(_ & -> & ->)]; [destruct (H7 Hlt) as (? & _); lia|lia]).
  split; [split| | | | |]; try done; try lia; rewrite ?Hib.
  - intros bn Hbn. destruct (decide (bn = nb)) as [->|]; [lia|]. rewrite Hold by lia. pose proof (H4 bn). lia.
  - intros _. split; [lia|]. split; [rewrite Himg; rewrite wr_length; rewrite ?Hlen; lia|]. intros j Hj. rewrite He by lia. rewrite decide_False by lia.
    destruct Hcase as [(Hlt & -> & _)|(Heq & _)]; [apply H7; lia|]. rewrite Hz by done. apply entry_zero. lia.
  - intros bn bn' Hb Hb'. destruct (decide (bn = nb)) as [->|], (decide (bn' = nb)) as [->|]; rewrite ?Hnew, ?Hold by lia; [done| | |apply H8; lia].
    + intros Hq. pose proof (H4 bn'). lia.
    + intros Hq. pose proof (H4 bn). lia.
  - intros bn Hb. destruct (decide (bn = nb)) as [->|]; [rewrite Hnew; lia|]. rewrite Hold by lia. pose proof (H4 bn). pose proof (H9 bn).
    destruct Hcase as [(_ & -> & _)|(_ & -> & _)]; [by apply H0; lia|lia].
  - intros b [Hb|Hb]; [by apply Hoth|lia].
Qed.

(** ** Appending to a file *)

Definition nblk (len : Z) : Z := (len + 1023) / 1024.
(** The blocks a file of a given length takes, the block of addresses included. *)
Definition cost (len : Z) : Z := nblk len + (if NDIRECT <? nblk len then 1 else 0).

Definition with_addrs (addrs : list Z) (di : dinode) : dinode :=
  mkdinode (di_type di) (di_major di) (di_minor di) (di_nlink di) (di_size di) addrs.

(** The blocks from [freeblock] on are untouched. *)
Definition clean (s : mkstate) : Prop := forall b, m_freeblock s <= b < FSSIZE -> image s b = zero_blk.

(** What does not change while files grow. *)
Definition same_globals (s s' : mkstate) : Prop := m_sb s' = m_sb s /\ m_freeinode s' = m_freeinode s.

(** The state after blocks were handed out to an inode that had [nb]. *)
Record picked (s : mkstate) (addrs : list Z) (nb fbn : Z) (s' : mkstate) (addrs' : list Z) (x : Z) : Prop := {
  pk_complete : complete s';
  pk_clean : clean s';
  pk_globals : same_globals s s';
  pk_ok : alloc_ok (image s') (m_freeblock s') addrs' (fbn + 1);
  pk_old : forall bn, 0 <= bn < nb -> block_of (image s') addrs' bn = block_of (image s) addrs bn;
  pk_x : block_of (image s') addrs' fbn = x;
  pk_img : forall b, b <> slot addrs' NDIRECT \/ slot addrs' NDIRECT = 0 -> image s' b = image s b;
  pk_new : fbn = nb -> m_freeblock s <= x;
  pk_ind : slot addrs' NDIRECT = slot addrs NDIRECT \/ m_freeblock s <= slot addrs' NDIRECT;
  pk_fb : m_freeblock s' = m_freeblock s + (if decide (fbn = nb) then (if decide (nb = NDIRECT) then 2 else 1) else 0)
}.

Lemma wp_new_block (Q : Z -> mkstate -> Prop) s : 0 <= m_freeblock s < FSSIZE -> Q (m_freeblock s) (set_m_freeblock (m_freeblock s + 1) s) -> wp new_block Q s.
Proof.
  intros Hb HQ. unfold new_block, FSSIZE in *. apply wp_bind, wp_gets, wp_bind, wp_modify, wp_ret. unfold u32. rewrite Z.mod_small, xint_id by lia. done.
Qed.

Lemma wp_fill_slot k din (Q : dinode -> mkstate -> Prop) s : Forall is_uint (di_addrs din) ->
  (slot (di_addrs din) k = 0 -> 0 <= m_freeblock s < FSSIZE) ->
  (if decide (slot (di_addrs din) k = 0)
   then Q (with_addrs (zupd (di_addrs din) k (m_freeblock s)) din) (set_m_freeblock (m_freeblock s + 1) s) else Q din s) ->
  wp (fill_slot k din) Q s.
Proof.
  intros Hu Hb HQ. unfold fill_slot. change (di_slot din k) with (slot (di_addrs din) k). rewrite xint_id by (by apply slot_uint).
  destruct (Z.eqb_spec (slot (di_addrs din) k) 0); [rewrite decide_True in HQ by done|rewrite decide_False in HQ by done; by apply wp_ret].
  apply wp_bind, wp_new_block; [by apply Hb|]. by apply wp_ret.
Qed.

Lemma clean_next s : clean s -> clean (set_m_freeblock (m_freeblock s + 1) s).
Proof. intros H b Hb. apply H. simpl in Hb. lia. Qed.

Lemma with_addrs_id di : with_addrs (di_addrs di) di = di.
Proof. by destruct di. Qed.

(** The part is there. *)
Lemma picked_old s addrs nb fbn : complete s -> clean s -> alloc_ok (image s) (m_freeblock s) addrs nb -> fbn + 1 = nb ->
  picked s addrs nb fbn s addrs (block_of (image s) addrs fbn).
Proof. intros Hc Hcl Ha Hn. split; try done; [by rewrite Hn|lia|by left|]. rewrite decide_False by lia. lia. Qed.

(** The part is new. *)
Lemma picked_grown s s' addrs addrs' nb x : complete s' -> clean s' -> same_globals s s' ->
  grown (image s) (image s') (m_freeblock s) (m_freeblock s') addrs addrs' nb x ->
  m_freeblock s' = m_freeblock s + (if decide (nb = NDIRECT) then 2 else 1) -> picked s addrs nb nb s' addrs' x.
Proof. intros Hc Hcl Hg [G1 G2 G3 G4 G5 G6] Hfb. split; try done; [lia|destruct G6; [by left|right; lia]|]. by rewrite decide_True. Qed.

Section pick.
Context (s : mkstate) (din : dinode) (nb fbn : Z) (Q : dinode * Z -> mkstate -> Prop).
Context (Hc : complete s) (Hcl : clean s) (Hfb : nmeta <= m_freeblock s <= FSSIZE) (Ha : alloc_ok (image s) (m_freeblock s) (di_addrs din) nb).
Context (Hn : fbn = nb \/ fbn + 1 = nb) (Hm : 0 <= fbn < MAXFILE).
Context (Hroom : m_freeblock s + (if decide (fbn = nb) then (if decide (nb = NDIRECT) then 2 else 1) else 0) <= FSSIZE).
Context (HQ : forall s' addrs' x, picked s (di_addrs din) nb fbn s' addrs' x -> Q (with_addrs addrs' din, x) s').

Lemma pick_consts : nmeta = 46 /\ MAXFILE = 268 /\ NINDIRECT = 256 /\ NDIRECT = 12 /\ FSSIZE = 2000.
Proof. done. Qed.

Lemma wp_pick_direct : fbn < NDIRECT -> wp (din <- fill_slot fbn din;; ret (din, xint (di_slot din fbn))) Q s.
Proof.
  intros Hlt. pose proof Ha as [H1 H2 H3 H4 H5 _ _ _ _]. destruct pick_consts as (Hnm & HM & HN & HD & HF).
  assert (Hused : fbn + 1 = nb -> nmeta <= slot (di_addrs din) fbn).
  { intros He. pose proof (H4 fbn ltac:(lia)) as H'. unfold block_of in H'. destruct (Z.ltb_spec fbn NDIRECT); lia. }
  apply wp_bind, wp_fill_slot; [done| |].
  { intros H0. destruct Hn as [->|He]; [|specialize (Hused He); lia]. rewrite decide_True in Hroom by done. case_decide; lia. }
  destruct Hn as [->|He].
  - rewrite decide_True by (apply H5; lia). apply wp_ret.
    change (di_slot (with_addrs (zupd (di_addrs din) nb (m_freeblock s)) din) nb) with (slot (zupd (di_addrs din) nb (m_freeblock s)) nb).
    rewrite slot_upd, decide_True, xint_id by (done || lia). apply HQ. apply picked_grown; [done|by apply clean_next|done| |].
    + apply grow_direct; (done || lia).
    + rewrite decide_False by lia. done.
  - specialize (Hused He). rewrite decide_False by lia. apply wp_ret. change (di_slot din fbn) with (slot (di_addrs din) fbn).
    rewrite xint_id by (by apply slot_uint). pose proof (picked_old s (di_addrs din) nb fbn Hc Hcl Ha He) as Hp. apply HQ in Hp.
    rewrite with_addrs_id in Hp. unfold block_of in Hp. by destruct (Z.ltb_spec fbn NDIRECT); [|lia].
Qed.

Lemma wp_pick_indirect : NDIRECT <= fbn -> wp (
    din <- fill_slot NDIRECT din;;
    let ib := xint (di_slot din NDIRECT) in
    indirect <- rsect ib;;
    if rd 4 indirect (4 * (fbn - NDIRECT)) =? 0 then
      b <- new_block;;
      let indirect := wr 4 indirect (4 * (fbn - NDIRECT)) b in
      wsect ib indirect;;
      ret (din, xint (rd 4 indirect (4 * (fbn - NDIRECT))))
    else ret (din, xint (rd 4 indirect (4 * (fbn - NDIRECT))))) Q s.
Proof.
  intros Hge. pose proof Ha as [H1 H2 H3 H4 H5 H6 H7 H8 H9]. destruct pick_consts as (Hnm & HM & HN & HD & HF).
  assert (Hlen : forall b, 0 <= b < FSSIZE -> length (image s b) = 1024%nat) by (intros; by apply complete_len).
  apply wp_bind, wp_fill_slot; [done| |].
  { intros H0. destruct (decide (NDIRECT < nb)) as [Hlt|Hle]; [destruct (H7 Hlt) as (? & _); lia|].
    destruct Hn as [->|He]; [|lia]. rewrite decide_True in Hroom by done. case_decide; lia. }
  destruct (decide (nb = NDIRECT)) as [Hn12|Hn12].
  - assert (fbn = nb) as Hfn by lia. rewrite decide_True in Hroom by done. rewrite decide_True by (apply H6; lia). set (fb := m_freeblock s) in *.
    change (di_slot (with_addrs (zupd (di_addrs din) NDIRECT fb) din) NDIRECT) with (slot (zupd (di_addrs din) NDIRECT fb) NDIRECT).
    rewrite slot_upd, decide_True, xint_id by (done || lia). cbv zeta.
    set (s1 := set_m_freeblock (fb + 1) s). assert (Hz : image s1 fb = zero_blk) by (apply Hcl; fold fb; lia).
    apply wp_bind, wp_rsect; [done|lia|]. rewrite Hz. fold (entry zero_blk (fbn - NDIRECT)). rewrite entry_zero by lia. rewrite Z.eqb_refl.
    apply wp_bind, wp_new_block; [cbn; lia|]. cbn [m_freeblock set_m_freeblock s1]. apply wp_bind, wp_wsect; [lia|]. apply wp_ret.
    assert (Hx : is_uint (fb + 1)) by (unfold is_uint; lia).
    fold (entry (wr 4 zero_blk (4 * (fbn - NDIRECT)) (fb + 1)) (fbn - NDIRECT)). rewrite entry_wr, decide_True, xint_id by (done || lia).
    apply HQ. rewrite Hfn. apply picked_grown; [apply complete_put; [done|]| |done| |].
    + rewrite wr_length; [done|lia|]. unfold zero_blk. rewrite length_replicate. lia.
    + intros b Hb. cbn in Hb. rewrite image_put_ne by lia. apply (Hcl b). fold fb. lia.
    + apply (grow_indirect (image s) _ fb fb (di_addrs din)); rewrite ?Hfn in *; try (done || lia).
      * by rewrite zupd_length.
      * apply uint_upd; [done|]. unfold is_uint. lia.
      * intros k Hk. rewrite slot_upd by (done || lia). by rewrite decide_False by lia.
      * rewrite slot_upd by (done || lia). by rewrite decide_True.
      * apply Hlen. lia.
      * change (image s fb) with (image s1 fb). by rewrite image_put_eq, Hz.
      * intros b Hb. by rewrite image_put_ne.
    + rewrite decide_True by done. cbn. lia.
  - assert (Hlt : NDIRECT < nb) by lia. destruct (H7 Hlt) as (Hr & Hl & He). rewrite decide_False by lia.
    change (di_slot din NDIRECT) with (slot (di_addrs din) NDIRECT). rewrite xint_id by (by apply slot_uint). cbv zeta. set (ib := slot (di_addrs din) NDIRECT) in *.
    apply wp_bind, wp_rsect; [done|lia|]. fold (entry (image s ib) (fbn - NDIRECT)). destruct Hn as [Hfn|Hfn].
    + rewrite He by lia. rewrite Z.eqb_refl. rewrite decide_True in Hroom by done. set (fb := m_freeblock s) in *.
      apply wp_bind, wp_new_block; [fold fb; lia|]. fold fb. apply wp_bind, wp_wsect; [lia|]. apply wp_ret.
      assert (Hx : is_uint fb) by (unfold is_uint; lia).
      fold (entry (wr 4 (image s ib) (4 * (fbn - NDIRECT)) fb) (fbn - NDIRECT)). rewrite entry_wr, decide_True, xint_id by (done || lia).
      rewrite <- (with_addrs_id din) at 1. apply HQ. rewrite Hfn. apply picked_grown; [apply complete_put; [done|]| |done| |].
      * rewrite wr_length; [done|lia|]. rewrite Hl. lia.
      * intros b Hb. cbn in Hb. rewrite image_put_ne by lia. apply (Hcl b). fold fb. lia.
      * apply (grow_indirect (image s) _ fb ib (di_addrs din)); rewrite ?Hfn in *; try (done || lia).
        -- by rewrite image_put_eq.
        -- intros b Hb. by rewrite image_put_ne.
      * rewrite decide_False by done. done.
    + pose proof (H4 fbn ltac:(lia)) as H'. pose proof (picked_old s (di_addrs din) nb fbn Hc Hcl Ha Hfn) as Hp. apply HQ in Hp. rewrite with_addrs_id in Hp.
      unfold block_of in Hp, H'. destruct (Z.ltb_spec fbn NDIRECT); [lia|]. fold ib in Hp, H'. destruct (Z.eqb_spec (entry (image s ib) (fbn - NDIRECT)) 0); [lia|].
      apply wp_ret. rewrite xint_id by lia. done.
Qed.

Lemma wp_pick : wp (pick_block fbn din) Q s.
Proof. unfold pick_block. destruct (Z.ltb_spec fbn NDIRECT); [by apply wp_pick_direct|by apply wp_pick_indirect]. Qed.

End pick.

(** The blocks of an inode hold [data], and zeros up to the end of the last block. *)
Definition holds (img : Z -> list Z) (addrs data : list Z) : Prop :=
  let len := Z.of_nat (length data) in
  file_bytes img addrs 0 (nblk len * 1024) = data ++ replicate (Z.to_nat (nblk len * 1024 - len)) 0.

Record filed (s : mkstate) (addrs data : list Z) : Prop := {
  fd_complete : complete s;
  fd_clean : clean s;
  fd_fb : nmeta <= m_freeblock s <= FSSIZE;
  fd_ok : alloc_ok (image s) (m_freeblock s) addrs (nblk (Z.of_nat (length data)));
  fd_holds : holds (image s) addrs data
}.

(** How the state changes when the file grows from [data] to [data']. *)
Record appended (s : mkstate) (addrs data : list Z) (s' : mkstate) (addrs' data' : list Z) : Prop := {
  ap_filed : filed s' addrs' data';
  ap_globals : same_globals s s';
  ap_frame : forall b, 0 <= b < m_freeblock s -> ~ owns (image s) addrs (nblk (Z.of_nat (length data))) b -> image s' b = image s b;
  ap_owns : forall b, owns (image s') addrs' (nblk (Z.of_nat (length data'))) b ->
    owns (image s) addrs (nblk (Z.of_nat (length data))) b \/ m_freeblock s <= b;
  ap_fb : m_freeblock s' = m_freeblock s + cost (Z.of_nat (length data')) - cost (Z.of_nat (length data))
}.

Lemma nblk_bounds len : 0 <= len -> len <= nblk len * 1024 < len + 1024.
Proof. intros. unfold nblk. pose proof (Z.div_mod (len + 1023) 1024 ltac:(lia)). pose proof (Z.mod_pos_bound (len + 1023) 1024 ltac:(lia)). lia. Qed.

Lemma nblk_unique len n : len <= n * 1024 < len + 1024 -> nblk len = n.
Proof. intros H. unfold nblk. symmetry. apply (Z.div_unique _ _ _ (len + 1023 - 1024 * n)); lia. Qed.

Lemma cost_mono len len' : 0 <= len <= len' -> cost len <= cost len'.
Proof.
  intros H. assert (nblk len <= nblk len') by (unfold nblk; apply Z.div_le_mono; lia). unfold cost.
  destruct (Z.ltb_spec NDIRECT (nblk len)), (Z.ltb_spec NDIRECT (nblk len')); lia.
Qed.

Lemma splice_tail (t q : list Z) z : (length q <= z)%nat -> splice (t ++ replicate z 0) (length t) q = t ++ q ++ replicate (z - length q) 0.
Proof.
  intros H. unfold splice. rewrite take_app_length. f_equal. f_equal.
  rewrite drop_app_ge by lia. rewrite drop_replicate. f_equal. lia.
Qed.

Lemma whole_block img addrs bn : 0 <= bn -> length (img (block_of img addrs bn)) = 1024%nat ->
  file_bytes img addrs (0 + bn * 1024) 1024 = img (block_of img addrs bn).
Proof.
  intros Hb Hl. assert (Hdm : (0 + bn * 1024) / BSIZE = bn /\ (0 + bn * 1024) mod BSIZE = 0) by (unfold BSIZE; rewrite Z.div_add, Z.mod_add by lia; done).
  destruct Hdm as [Hd Hm]. rewrite file_bytes_block; rewrite ?Hd, ?Hm; try (done || lia). unfold slice. change (Z.to_nat 0) with 0%nat. rewrite drop_0. apply take_ge. lia.
Qed.

(** The block that holds the end of the file, before and after it is handed out. *)
Lemma last_block s addrs data fbn s1 addrs1 x : let len := Z.of_nat (length data) in
  filed s addrs data -> fbn = len / 1024 -> picked s addrs (nblk len) fbn s1 addrs1 x -> x < FSSIZE ->
  file_bytes (image s) addrs 0 (fbn * 1024) = take (Z.to_nat (fbn * 1024)) data /\
  image s1 x = drop (Z.to_nat (fbn * 1024)) data ++ replicate (Z.to_nat (1024 - len mod 1024)) 0.
Proof.
  intros len [F1 F2 F3 F4 F5] Hfbn [K1 K2 K3 K4 K5 K6 K7 K8 K9 K10] Hx. pose proof nmeta_46 as Hnm. unfold holds in F5. fold len in F4, F5.
  assert (Hlen : 0 <= len) by (unfold len; lia). pose proof (Z.div_mod len 1024 ltac:(lia)) as Hdm. pose proof (Z.mod_pos_bound len 1024 ltac:(lia)) as Hmb.
  pose proof (nblk_bounds len Hlen) as Hnb. rewrite <- Hfbn in Hdm. set (nb := nblk len) in *.
  assert (Hx12 : x <> slot addrs1 NDIRECT) by (rewrite <- K6; apply (al_ne _ _ _ _ K4); lia).
  assert (Himg : image s1 x = image s x) by (apply K7; by left).
  destruct (decide (len mod 1024 = 0)) as [H0|H0].
  - assert (Hn : nb = fbn) by (apply nblk_unique; lia). rewrite Hn in F5. replace (fbn * 1024 - len) with 0 in F5 by lia. rewrite app_nil_r in F5.
    replace (Z.to_nat (fbn * 1024)) with (length data) by (unfold len in *; lia). rewrite firstn_all, drop_all, H0. split; [done|].
    rewrite Himg. apply F2. split; [by apply K8|done].
  - assert (Hn : nb = fbn + 1) by (apply nblk_unique; lia). rewrite Hn in F5. replace ((fbn + 1) * 1024) with (fbn * 1024 + 1024) in F5 by lia.
    rewrite file_bytes_app in F5 by lia.
    assert (Hl : length (file_bytes (image s) addrs 0 (fbn * 1024)) = Z.to_nat (fbn * 1024)) by apply file_bytes_length.
    assert (Hd : data = take (Z.to_nat (fbn * 1024)) data ++ drop (Z.to_nat (fbn * 1024)) data) by (by rewrite take_drop).
    rewrite Hd in F5 at 1. rewrite <- app_assoc in F5. apply app_inj_1 in F5 as [HA HB].
    2: { rewrite Hl, length_take. unfold len in *. lia. }
    split; [done|]. rewrite Himg. assert (Hxo : x = block_of (image s) addrs fbn) by (rewrite <- K6; apply K5; lia).
    rewrite (whole_block (image s) addrs fbn), <- Hxo in HB; [|lia|rewrite <- Hxo; apply complete_len; [done|]].
    + rewrite HB. do 2 f_equal. lia.
    + rewrite Hxo. pose proof (al_used _ _ _ _ F4 fbn). lia.
Qed.

Lemma append_chunk s addrs data fbn s1 addrs1 x q : let len := Z.of_nat (length data) in
  filed s addrs data -> fbn = len / 1024 -> picked s addrs (nblk len) fbn s1 addrs1 x -> m_freeblock s1 <= FSSIZE ->
  0 < Z.of_nat (length q) <= 1024 - len mod 1024 ->
  appended s addrs data (put x (splice (image s1 x) (Z.to_nat (len mod 1024)) q) s1) addrs1 (data ++ q).
Proof.
  intros len Hfd Hfbn Hpk Hfs Hq. pose proof Hfd as [F1 F2 F3 F4 F5]. pose proof Hpk as [K1 K2 K3 K4 K5 K6 K7 K8 K9 K10]. pose proof nmeta_46 as Hnm.
  assert (Hlen : 0 <= len) by (unfold len; lia). pose proof (Z.div_mod len 1024 ltac:(lia)) as Hdm. pose proof (Z.mod_pos_bound len 1024 ltac:(lia)) as Hmb.
  pose proof (nblk_bounds len Hlen) as Hnb. rewrite <- Hfbn in Hdm.
  assert (Hxr : nmeta <= x < m_freeblock s1) by (rewrite <- K6; apply (al_used _ _ _ _ K4); lia).
  assert (Hx12 : x <> slot addrs1 NDIRECT) by (rewrite <- K6; apply (al_ne _ _ _ _ K4); lia).
  destruct (last_block s addrs data fbn s1 addrs1 x Hfd Hfbn Hpk ltac:(lia)) as [HA HB]. fold len in HB.
  set (t := drop (Z.to_nat (fbn * 1024)) data) in *.
  assert (Htl : length t = Z.to_nat (len mod 1024)) by (unfold t; rewrite length_drop; unfold len in *; lia).
  assert (Hspl : splice (image s1 x) (Z.to_nat (len mod 1024)) q = t ++ q ++ replicate (Z.to_nat (1024 - len mod 1024) - length q) 0)
    by (rewrite HB, <- Htl; apply splice_tail; lia).
  assert (Hsl : length (splice (image s1 x) (Z.to_nat (len mod 1024)) q) = 1024%nat) by (rewrite Hspl, !length_app, length_replicate; lia).
  set (s2 := put x _ s1). assert (Hnew : nblk (Z.of_nat (length (data ++ q))) = fbn + 1) by (apply nblk_unique; rewrite length_app; unfold len in *; lia).
  assert (Hsi : same_ind (image s1) (image s2) addrs1 (fbn + 1)) by (intros _; apply image_put_ne; done).
  assert (Hok : alloc_ok (image s2) (m_freeblock s1) addrs1 (fbn + 1)) by (apply (alloc_frame (image s1) _ (m_freeblock s1)); [exact Hsi|lia|done]).
  assert (Hbo : forall bn, 0 <= bn < fbn + 1 -> block_of (image s2) addrs1 bn = block_of (image s1) addrs1 bn) by (intros; by eapply block_of_frame).
  assert (Hnbc : nblk len = fbn \/ nblk len = fbn + 1) by lia.
  split; rewrite ?Hnew; fold len.
  - split; rewrite ?Hnew; try done.
    + by apply complete_put.
    + intros b Hb. unfold s2. rewrite image_put_ne by (cbn in Hb; lia). by apply K2.
    + cbn. rewrite K10. repeat case_decide; lia.
    + unfold holds. rewrite Hnew. replace ((fbn + 1) * 1024) with (fbn * 1024 + 1024) by lia. rewrite file_bytes_app by lia.
      rewrite whole_block; rewrite ?Hbo, ?K6 by lia; [|lia|unfold s2; by rewrite image_put_eq]. unfold s2 at 2. rewrite image_put_eq, Hspl.
      assert (He : file_bytes (image s2) addrs1 0 (fbn * 1024) = file_bytes (image s) addrs 0 (fbn * 1024)).
      { apply file_bytes_ext. intros k Hk. unfold file_byte. assert (Hkb : 0 <= k / BSIZE < fbn) by (unfold BSIZE; split; [apply Z.div_pos; lia|apply Z.div_lt_upper_bound; lia]).
        rewrite Hbo by lia. unfold s2. rewrite image_put_ne by (rewrite <- K6; intros He; apply (al_inj _ _ _ _ K4) in He; lia).
        rewrite K7 by (left; apply (al_ne _ _ _ _ K4); lia). by rewrite K5 by lia. }
      rewrite He, HA. rewrite !app_assoc. unfold t. rewrite take_drop. f_equal. f_equal. rewrite length_app. unfold len in *. lia.
  - done.
  - intros b Hb Hno. assert (Hbx : b <> x).
    { intros ->. destruct (decide (fbn = nblk len)) as [He|]; [specialize (K8 He); lia|]. apply Hno. left. exists fbn. split; [lia|]. rewrite <- K6. symmetry. apply K5. lia. }
    unfold s2. rewrite image_put_ne by done. apply K7. destruct K9 as [K9|K9]; [|left; lia]. rewrite K9. destruct (decide (NDIRECT < nblk len)) as [Hi|Hi].
    + left. intros ->. apply Hno. by right.
    + right. apply (al_noind _ _ _ _ F4). fold len. lia.
  - intros b Ho. rewrite (owns_frame (image s1)) in Ho by done. destruct Ho as [(bn & Hbn & <-)|[Hi <-]].
    + destruct (decide (bn < nblk len)) as [Hlt|Hge]; [left; left; exists bn; split; [lia|]; by rewrite K5 by lia|]. right.
      assert (bn = fbn) as -> by lia. rewrite K6. apply K8. lia.
    + destruct K9 as [K9|K9]; [|by right]. rewrite K9. destruct (decide (NDIRECT < nblk len)) as [Hj|Hj]; [left; by right|].
      pose proof (al_ind _ _ _ _ K4 Hi) as (Hr & _). rewrite K9, (al_noind _ _ _ _ F4) in Hr by (fold len; lia). lia.
  - cbn. rewrite K10. unfold cost. rewrite Hnew. fold len. repeat case_decide; destruct (Z.ltb_spec NDIRECT (nblk len)), (Z.ltb_spec NDIRECT (fbn + 1)); lia.
Qed.

Lemma cost_step len n1 : 0 <= len -> 0 < n1 <= 1024 - len mod 1024 ->
  cost (len + n1) = cost len + (if decide (len / 1024 = nblk len) then (if decide (nblk len = NDIRECT) then 2 else 1) else 0).
Proof.
  intros Hl Hn. pose proof (Z.div_mod len 1024 ltac:(lia)). pose proof (Z.mod_pos_bound len 1024 ltac:(lia)). pose proof (nblk_bounds len Hl).
  assert (Hnew : nblk (len + n1) = len / 1024 + 1) by (apply nblk_unique; lia). unfold cost. rewrite Hnew.
  repeat case_decide; destruct (Z.ltb_spec NDIRECT (nblk len)), (Z.ltb_spec NDIRECT (len / 1024 + 1)); lia.
Qed.

Lemma appended_refl s addrs data : filed s addrs data -> appended s addrs data s addrs data.
Proof. intros H. split; try done; [by left|lia]. Qed.

Lemma appended_trans s addrs data s1 addrs1 data1 s2 addrs2 data2 : (length data <= length data1)%nat ->
  appended s addrs data s1 addrs1 data1 -> appended s1 addrs1 data1 s2 addrs2 data2 -> appended s addrs data s2 addrs2 data2.
Proof.
  intros Hl [A1 A2 A3 A4 A5] [B1 B2 B3 B4 B5].
  assert (Hm : m_freeblock s <= m_freeblock s1) by (pose proof (cost_mono (Z.of_nat (length data)) (Z.of_nat (length data1))); lia). split; [done| | | |lia].
  - destruct A2, B2. split; congruence.
  - intros b Hb Hno. rewrite B3; [by apply A3|lia|]. intros Ho. apply A4 in Ho as [Ho|Ho]; [done|lia].
  - intros b Ho. apply B4 in Ho as [Ho|Ho]; [by apply A4|right; lia].
Qed.

Lemma wp_assert (b : bool) (Q : unit -> mkstate -> Prop) s : b = true -> Q tt s -> wp (assert b) Q s.
Proof. intros ->. apply wp_ret. Qed.

Lemma wp_iappend_loop s din data p (Q : dinode * Z -> mkstate -> Prop) : let len := Z.of_nat (length data) in let total := len + Z.of_nat (length p) in
  filed s (di_addrs din) data -> total <= MAXFILE * 1024 -> m_freeblock s + cost total - cost len <= FSSIZE ->
  (forall s' addrs', appended s (di_addrs din) data s' addrs' (data ++ p) -> Q (with_addrs addrs' din, total) s') ->
  wp (loop (S (length p)) iappend_turn (din, len, p)) Q s.
Proof.
  intros len total Hfd Htot Hroom HQ. assert (HMF : MAXFILE = 268) by done. assert (HFS : FSSIZE = 2000) by done. assert (HBS : BSIZE = 1024) by done.
  apply (wp_loop (fun '(d, o, r) s' => exists addrs' data', appended s (di_addrs din) data s' addrs' data' /\ data' ++ r = data ++ p /\
    o = Z.of_nat (length data') /\ d = with_addrs addrs' din /\ (length data <= length data')%nat) (fun '(_, _, r) _ => length r)).
  2: { exists (di_addrs din), data. rewrite with_addrs_id. by split_and!; [apply appended_refl|..]. }
  2: { lia. }
  intros [[d o] r] s' (addrs' & data' & Hap & Hdr & Ho & -> & Hge). unfold iappend_turn. set (len' := Z.of_nat (length data')) in *.
  assert (Hlens : len' + Z.of_nat (length r) = total) by (apply (f_equal length) in Hdr; rewrite !length_app in Hdr; unfold len', total, len; lia).
  destruct (Z.ltb_spec 0 (Z.of_nat (length r))) as [Hr|Hr].
  - pose proof Hap as [Hfd' Hg _ _ Hfb]. pose proof Hfd' as [F1 F2 F3 F4 _]. fold len' in F4, Hfb. fold len in Hfb. subst o.
    assert (Hl' : 0 <= len') by (unfold len'; lia). pose proof (Z.div_mod len' 1024 ltac:(lia)) as Hdm. pose proof (Z.mod_pos_bound len' 1024 ltac:(lia)) as Hmb.
    pose proof (nblk_bounds len' Hl') as Hnb. rewrite HBS. set (n1 := Z.min (Z.of_nat (length r)) ((len' / 1024 + 1) * 1024 - len')).
    assert (Hn1 : 0 < n1 <= 1024 - len' mod 1024) by (unfold n1; lia). pose proof (cost_step len' n1 Hl' Hn1) as Hcs.
    pose proof (cost_mono (len' + n1) total ltac:(unfold n1; lia)) as Hcm.
    apply wp_bind, wp_assert; [apply Z.ltb_lt; lia|]. apply wp_bind.
    apply (wp_pick s' _ (nblk len')); [done|done|done|exact F4|lia|lia|lia|].
    intros s1 addrs1 x Hpk. cbn [with_addrs di_addrs] in Hpk. pose proof (pk_fb _ _ _ _ _ _ _ Hpk) as Hfb1.
    assert (Hxr : nmeta <= x < m_freeblock s1) by (rewrite <- (pk_x _ _ _ _ _ _ _ Hpk); apply (al_used _ _ _ _ (pk_ok _ _ _ _ _ _ _ Hpk)); lia). pose proof nmeta_46.
    apply wp_bind, wp_rsect; [apply Hpk|lia|]. apply wp_bind, wp_wsect; [lia|]. apply wp_ret.
    replace (len' - len' / 1024 * 1024) with (len' mod 1024) by lia.
    set (q := take (Z.to_nat n1) r). assert (Hq : Z.of_nat (length q) = n1) by (unfold q; rewrite length_take; unfold n1; lia).
    pose proof (append_chunk s' addrs' data' (len' / 1024) s1 addrs1 x q Hfd' eq_refl Hpk ltac:(lia) ltac:(fold len'; lia)) as Hap1. fold len' in Hap1.
    split; [|rewrite length_drop; lia]. exists addrs1, (data' ++ q). split_and!.
    + eapply appended_trans; [exact Hge|exact Hap|exact Hap1].
    + unfold q. by rewrite <- app_assoc, take_drop.
    + rewrite length_app. unfold u32. rewrite Z.mod_small by lia. unfold len'. lia.
    + done.
    + rewrite length_app. lia.
  - apply wp_ret. destruct r; [|simpl in Hr; lia]. rewrite app_nil_r in Hdr. subst data'. simpl in Hlens. rewrite Ho. replace len' with total by lia. by apply HQ.
Qed.
