(* ===== verification/MkfsFiles.v ===== *)
(** * The files in mkfs's image (mkfs/mkfs.c)

    The image as a whole: the inodes, the files they describe, and the room they
    take.  iappend() extends one file and leaves the others alone; main() builds
    the root directory and the files of its command line. *)

From S2P Require Import Prelude Riscv Kstate CString Bytes Bio Log Fs FsSpec FsImage Mkfs MkfsSpec.

(** A file: its type, its slots and its bytes. *)
Record mfile : Type := mkmfile { f_type : Z; f_addrs : list Z; f_data : list Z }.

Definition f_len (f : mfile) : Z := Z.of_nat (length (f_data f)).
Definition inode_of (f : mfile) : dinode := mkdinode (f_type f) 0 0 1 (f_len f) (f_addrs f).
Definition f_owns (s : mkstate) (f : mfile) (b : Z) : Prop := owns (image s) (f_addrs f) (nblk (f_len f)) b.
Definition total_cost (fs : list mfile) : Z := foldr (fun f n => cost (f_len f) + n) 0 fs.
Definition sb_block : list Z := splice (replicate (Z.to_nat BSIZE) 0) 0 (sb_bytes the_sb).

(** The file at position [k] has inode number [k + 1]. *)
Definition inum_of (k : nat) : Z := Z.of_nat k + 1.

Record img_ok (s : mkstate) (fs : list mfile) : Prop := {
  io_complete : complete s;
  io_clean : clean s;
  io_sb : m_sb s = the_sb;
  io_super : image s 1 = sb_block;
  io_count : (length fs <= 200)%nat;
  io_fi : m_freeinode s = Z.of_nat (length fs) + 1;
  io_fb : m_freeblock s = nmeta + total_cost fs;
  io_room : m_freeblock s <= FSSIZE;
  io_inode : forall k f, fs !! k = Some f -> disk_inode (image s) the_sb (inum_of k) = inode_of f /\ is_short (f_type f);
  io_file : forall k f, fs !! k = Some f -> alloc_ok (image s) (m_freeblock s) (f_addrs f) (nblk (f_len f)) /\ holds (image s) (f_addrs f) (f_data f);
  io_disj : forall k k' f f' b, fs !! k = Some f -> fs !! k' = Some f' -> f_owns s f b -> f_owns s f' b -> k = k'
}.

(** ** Inodes in the image *)

Lemma iblock_eq inum : 0 <= inum < 2 ^ 20 -> IBLOCK inum the_sb = inum / 16 + 32.
Proof.
  intros H. unfold IBLOCK, u32. change (sb_inodestart the_sb) with 32. change IPB with 16. apply Z.mod_small.
  pose proof (Z.div_pos inum 16). assert (inum / 16 < 2 ^ 20) by (apply Z.div_lt_upper_bound; lia). lia.
Qed.

Lemma iblock_range inum : 0 <= inum <= 201 -> 32 <= IBLOCK inum the_sb <= 44.
Proof.
  intros H. rewrite iblock_eq by lia. pose proof (Z.div_pos inum 16). assert (inum / 16 < 13) by (apply Z.div_lt_upper_bound; lia). lia.
Qed.

Definition put_inode (inum : Z) (di : dinode) (s : mkstate) : mkstate :=
  put (IBLOCK inum the_sb) (put_dinode (image s (IBLOCK inum the_sb)) (dinode_off inum) di) s.

Lemma wp_winode inum di (Q : unit -> mkstate -> Prop) s : complete s -> m_sb s = the_sb -> 0 <= inum <= 201 ->
  Q tt (put_inode inum di s) -> wp (winode inum di) Q s.
Proof.
  intros Hc Hsb Hi HQ. pose proof (iblock_range inum Hi) as Hb. unfold winode. apply wp_bind, wp_gets. rewrite Hsb.
  assert (HF : FSSIZE = 2000) by done. apply wp_bind, wp_rsect; [done|lia|]. apply wp_wsect; [lia|done].
Qed.

Lemma wp_rinode inum (Q : dinode -> mkstate -> Prop) s : complete s -> m_sb s = the_sb -> 0 <= inum <= 201 ->
  Q (disk_inode (image s) the_sb inum) s -> wp (rinode inum) Q s.
Proof.
  intros Hc Hsb Hi HQ. pose proof (iblock_range inum Hi) as Hb. unfold rinode. apply wp_bind, wp_gets. rewrite Hsb.
  assert (HF : FSSIZE = 2000) by done. apply wp_bind, wp_rsect; [done|lia|]. by apply wp_ret.
Qed.

(** The effect of writing an inode. *)
Lemma put_inode_spec inum di s : complete s -> 0 <= inum <= 201 -> dinode_ok di ->
  let s' := put_inode inum di s in
  complete s' /\ disk_inode (image s') the_sb inum = di /\
  (forall j, 0 <= j <= 201 -> j <> inum -> disk_inode (image s') the_sb j = disk_inode (image s) the_sb j) /\
  (forall b, b < 32 \/ 45 <= b -> image s' b = image s b).
Proof.
  intros Hc Hi Hdi s'. pose proof (iblock_range inum Hi) as Hb. assert (HF : FSSIZE = 2000) by done.
  destruct (put_dinode_spec (image s (IBLOCK inum the_sb)) inum di) as (H1 & H2 & H3); [apply complete_len; [done|lia]|lia|done|]. split_and!.
  - apply complete_put; [done|exact H1].
  - unfold disk_inode, s', put_inode. by rewrite image_put_eq.
  - intros j Hj Hne. unfold disk_inode, s', put_inode. rewrite image_put. case_decide as He; [|done]. rewrite He. apply H3; [lia|done|].
    change IPB with 16. rewrite !iblock_eq in He by lia. lia.
  - intros b Hr. unfold s', put_inode. apply image_put_ne. lia.
Qed.

(** ** Appending *)

Lemma total_cost_insert fs k f f' : fs !! k = Some f -> total_cost (<[k := f']> fs) = total_cost fs - cost (f_len f) + cost (f_len f').
Proof. revert k. induction fs as [|g fs IH]; intros [|k] Hk; simplify_eq/=; [lia|]. rewrite (IH _ Hk). lia. Qed.

Lemma cost_nonneg len : 0 <= len -> 0 <= cost len.
Proof. intros H. pose proof (nblk_bounds len H). unfold cost. case_match; lia. Qed.

Lemma total_cost_nonneg fs : 0 <= total_cost fs.
Proof. induction fs as [|f fs IH]; simpl; [lia|]. pose proof (cost_nonneg (f_len f)). unfold f_len in *. lia. Qed.

Lemma img_filed s fs k f : img_ok s fs -> fs !! k = Some f -> filed s (f_addrs f) (f_data f).
Proof.
  intros H Hk. destruct (io_file _ _ H k f Hk) as [Ha Hh]. pose proof (io_fb _ _ H). pose proof (total_cost_nonneg fs). pose proof (io_room _ _ H).
  split; try apply H; try done. lia.
Qed.

Lemma img_inum s fs k f : img_ok s fs -> fs !! k = Some f -> 1 <= inum_of k <= 200.
Proof. intros H Hk. apply lookup_lt_Some in Hk. pose proof (io_count _ _ H). unfold inum_of. lia. Qed.

(** One file has changed, as [appended] says, and its inode is written. *)
Lemma img_update s fs k f s1 f' : img_ok s fs -> fs !! k = Some f -> f_type f' = f_type f ->
  appended s (f_addrs f) (f_data f) s1 (f_addrs f') (f_data f') -> m_freeblock s1 <= FSSIZE -> is_uint (f_len f') -> f_len f <= f_len f' ->
  img_ok (put_inode (inum_of k) (inode_of f') s1) (<[k := f']> fs).
Proof.
  intros H Hk Ht Hap Hroom Hu Hgrow. pose proof Hap as [F G Hfr Hown Hfb]. fold (f_len f) (f_len f') in *. pose proof nmeta_46 as Hnm.
  pose proof H as [I1 I2 I3 I4 I5 I6 I7 I8 I9 I10 I11]. pose proof (img_inum _ _ _ _ H Hk) as Hin. pose proof (total_cost_nonneg fs) as Htc.
  destruct (I9 k f Hk) as [_ Hsh]. pose proof (fd_ok _ _ _ F) as Hok. fold (f_len f') in Hok.
  assert (Hdi : dinode_ok (inode_of f')).
  { unfold dinode_ok, inode_of, is_short in *. cbn [di_type di_major di_minor di_nlink di_size di_addrs]. rewrite Ht. split_and!; try (done || lia); apply Hok. }
  destruct (put_inode_spec (inum_of k) (inode_of f') s1) as (P1 & P2 & P3 & P4); [apply F|lia|done|]. set (s2 := put_inode _ _ s1) in *.
  assert (Himg : forall b, 0 <= b < m_freeblock s -> b < 32 \/ 45 <= b -> ~ f_owns s f b -> image s2 b = image s b) by (intros b Hb Hr Hno; rewrite P4 by done; by apply Hfr).
  assert (Hle : m_freeblock s <= m_freeblock s1) by (pose proof (cost_mono (f_len f) (f_len f') ltac:(unfold f_len in *; lia)); lia).
  assert (Hoth : forall j g, fs !! j = Some g -> j <> k -> forall b, f_owns s g b -> image s2 b = image s b).
  { intros j g Hj Hjk b Ho. destruct (I10 j g Hj) as [Hag _]. pose proof (owns_range _ _ _ _ _ Hag Ho). apply Himg; [lia|lia|].
    intros Ho'. apply Hjk. by eapply I11. }
  assert (Hself : forall b, f_owns s2 f' b <-> owns (image s1) (f_addrs f') (nblk (f_len f')) b).
  { intros b. apply owns_frame. intros Hn. apply P4. destruct (al_ind _ _ _ _ Hok Hn) as (? & _). lia. }
  assert (Howns : forall j g b, fs !! j = Some g -> j <> k -> f_owns s2 g b <-> f_owns s g b) by (intros j g b Hj Hjk; apply owns_frame, owned_ind; by apply (Hoth j)).
  assert (Hnk : forall j g b, fs !! j = Some g -> j <> k -> f_owns s2 f' b -> f_owns s2 g b -> False).
  { intros j g b Hj Hjk Ho Ho'. apply Hself, Hown in Ho. apply (Howns j) in Ho'; [|done..]. destruct (I10 j g Hj) as [Hag _].
    pose proof (owns_range _ _ _ _ _ Hag Ho'). destruct Ho as [Ho|Ho]; [|lia]. apply Hjk. by eapply I11. }
  assert (Hlk : (k < length fs)%nat) by (by eapply lookup_lt_Some). split.
  - done.
  - intros b Hb. rewrite P4 by (cbn in Hb; lia). by apply (fd_clean _ _ _ F).
  - destruct G as [G _]. cbn. congruence.
  - rewrite <- I4. apply Himg; [lia|lia|]. intros Ho. destruct (I10 k f Hk) as [Hag _]. pose proof (owns_range _ _ _ _ _ Hag Ho). lia.
  - by rewrite length_insert.
  - rewrite length_insert. destruct G as [_ G]. cbn. congruence.
  - cbn. rewrite (total_cost_insert fs k f f' Hk). lia.
  - done.
  - intros j g Hj. destruct (decide (j = k)) as [->|Hne].
    + rewrite list_lookup_insert_eq in Hj by done. injection Hj as <-. rewrite Ht. done.
    + rewrite list_lookup_insert_ne in Hj by done. destruct (I9 j g Hj) as [Hd Hg]. split; [|done]. pose proof (img_inum _ _ _ _ H Hj) as Hij.
      rewrite P3 by (unfold inum_of in *; lia). rewrite <- Hd. unfold disk_inode. pose proof (iblock_range (inum_of j) ltac:(lia)).
      rewrite Hfr; [done|lia|]. intros Ho. destruct (I10 k f Hk) as [Hag _]. pose proof (owns_range _ _ _ _ _ Hag Ho). lia.
  - intros j g Hj. destruct (decide (j = k)) as [->|Hne].
    + rewrite list_lookup_insert_eq in Hj by done. injection Hj as <-.
      assert (Hs : forall b, owns (image s1) (f_addrs f') (nblk (f_len f')) b -> image s2 b = image s1 b).
      { intros b Ho. pose proof (owns_range _ _ _ _ _ Hok Ho). apply P4. lia. }
      split; [apply (alloc_frame (image s1) _ (m_freeblock s1)); [by apply owned_ind|done|exact Hok]|].
      pose proof (fd_holds _ _ _ F) as Hho. unfold holds in *. rewrite <- Hho. eapply bytes_frame; [exact Hs|lia|unfold BSIZE, f_len; lia].
    + rewrite list_lookup_insert_ne in Hj by done. destruct (I10 j g Hj) as [Hag Hhg]. pose proof (Hoth j g Hj Hne) as Hs.
      split; [apply (alloc_frame (image s) _ (m_freeblock s)); [by apply owned_ind|done|done]|].
      unfold holds in *. rewrite <- Hhg. eapply bytes_frame; [exact Hs|lia|unfold BSIZE, f_len; lia].
  - intros j j' g g' b Hj Hj' Ho Ho'. destruct (decide (j = k)) as [->|Hne], (decide (j' = k)) as [->|Hne']; [done| | |].
    + rewrite list_lookup_insert_eq in Hj by done. injection Hj as <-. rewrite list_lookup_insert_ne in Hj' by done. exfalso. by eapply (Hnk j').
    + rewrite list_lookup_insert_eq in Hj' by done. injection Hj' as <-. rewrite list_lookup_insert_ne in Hj by done. exfalso. by eapply (Hnk j).
    + rewrite list_lookup_insert_ne in Hj, Hj' by done. apply (Howns j) in Ho; [|done..]. apply (Howns j') in Ho'; [|done..]. by eapply I11.
Qed.

(** The files by type and contents. *)
Definition contents (fs : list mfile) : list (Z * list Z) := map (fun f => (f_type f, f_data f)) fs.
Definition size_cost (l : list (Z * list Z)) : Z := foldr (fun x n => cost (Z.of_nat (length (snd x))) + n) 0 l.
Definition image_is (s : mkstate) (l : list (Z * list Z)) : Prop := exists fs, img_ok s fs /\ contents fs = l.

(** The files fit the image and its inodes. *)
Definition fits (l : list (Z * list Z)) : Prop :=
  nmeta + size_cost l <= FSSIZE /\ (length l <= 200)%nat /\ Forall (fun x => Z.of_nat (length (snd x)) <= MAXFILE * 1024) l.

Lemma contents_cost fs : size_cost (contents fs) = total_cost fs.
Proof.
  induction fs as [|f fs IH]; [done|]. change (cost (f_len f) + size_cost (contents fs) = cost (f_len f) + total_cost fs). by rewrite IH.
Qed.

Lemma contents_lookup fs k x : contents fs !! k = Some x -> exists f, fs !! k = Some f /\ x = (f_type f, f_data f).
Proof. intros H. apply list_lookup_fmap_Some in H as (f & -> & Hf). by exists f. Qed.

Definition extend (k : nat) (p : list Z) (l : list (Z * list Z)) : list (Z * list Z) := alter (fun x => (fst x, snd x ++ p)) k l.

Lemma wp_iappend s l k t d p (Q : unit -> mkstate -> Prop) : image_is s l -> l !! k = Some (t, d) -> fits (extend k p l) ->
  (forall s', image_is s' (extend k p l) -> Q tt s') -> wp (iappend (inum_of k) p) Q s.
Proof.
  intros (fs & H & <-) Hk (Hf1 & Hf2 & Hf3) HQ. apply contents_lookup in Hk as (f & Hk & [= -> ->]). pose proof (img_inum _ _ _ _ H Hk) as Hin.
  assert (HM : MAXFILE = 268) by done. set (f' := fun addrs => mkmfile (f_type f) addrs (f_data f ++ p)).
  assert (Hext : forall addrs, extend k p (contents fs) = contents (<[k := f' addrs]> fs)).
  { intros addrs. unfold extend, contents. rewrite list_fmap_insert. apply list_eq. intros j. rewrite list_lookup_alter. case_decide as Hjk.
    - subst j. rewrite list_lookup_insert_eq by (rewrite length_fmap; by eapply lookup_lt_Some). rewrite list_lookup_fmap, Hk. done.
    - by rewrite list_lookup_insert_ne. }
  rewrite (Hext []) in Hf1, Hf3. rewrite contents_cost, (total_cost_insert fs k f (f' []) Hk) in Hf1.
  assert (Hlen : Z.of_nat (length (f_data f)) + Z.of_nat (length p) = f_len (f' [])) by (unfold f', f_len; simpl; rewrite length_app; lia).
  assert (Hmax : f_len (f' []) <= MAXFILE * 1024).
  { eapply (Forall_lookup_1 _ _ k (f_type f, f_data f ++ p)) in Hf3; [exact Hf3|]. unfold contents. rewrite list_lookup_fmap.
    by rewrite list_lookup_insert_eq by (by eapply lookup_lt_Some). }
  destruct (io_inode _ _ H k f Hk) as [Hdi Hsh]. pose proof (io_fb _ _ H) as Hfb.
  unfold iappend. apply wp_bind, wp_rinode; [apply H|apply H|lia|]. rewrite Hdi. cbn [di_size inode_of]. rewrite xint_id by (unfold f_len in *; lia).
  apply wp_bind. apply (wp_iappend_loop s (inode_of f) (f_data f) p); [by eapply img_filed|lia|rewrite Hlen; fold (f_len f); lia|].
  intros s1 addrs' Hap. cbn [inode_of di_addrs with_addrs di_type di_major di_minor di_nlink] in *. rewrite xint_id by lia.
  pose proof (ap_filed _ _ _ _ _ _ Hap) as F. destruct (ap_globals _ _ _ _ _ _ Hap) as [G _].
  apply wp_winode; [apply F|rewrite G; apply H|lia|]. apply HQ. exists (<[k := f' addrs']> fs). split; [|by rewrite (Hext addrs')].
  rewrite Hlen. apply (img_update s fs k f s1 (f' addrs')); try done.
  - apply F.
  - unfold is_uint. change (f_len (f' addrs')) with (f_len (f' [])). unfold f_len in *. lia.
  - change (f_len (f' addrs')) with (f_len (f' [])). unfold f_len in *. lia.
Qed.

(** ** New files *)

Definition new_file (t : Z) : mfile := mkmfile t (replicate 13 0) [].

Lemma slot_zeros k : slot (replicate 13 0) k = 0.
Proof.
  unfold slot, znth. case_match; [done|]. destruct (replicate 13 0 !! Z.to_nat k) as [x|] eqn:Hx; [|done]. apply lookup_replicate_1 in Hx as [-> _]. done.
Qed.

Lemma new_alloc img fb : alloc_ok img fb (replicate 13 0) 0.
Proof. split; try (done || lia); intros; try lia; try apply slot_zeros. by repeat constructor. Qed.

Lemma new_owns img b : ~ owns img (replicate 13 0) 0 b.
Proof. intros [(bn & Hbn & _)|[Hn _]]; [lia|]. unfold NDIRECT in Hn. lia. Qed.

Lemma total_cost_snoc fs f : total_cost (fs ++ [f]) = total_cost fs + cost (f_len f).
Proof. induction fs as [|g fs IH]; simpl; [lia|]. rewrite IH. lia. Qed.

Lemma wp_ialloc s l t (Q : Z -> mkstate -> Prop) : image_is s l -> (length l < 200)%nat -> 0 <= t < 2 ^ 15 ->
  (forall s', image_is s' (l ++ [(t, [])]) -> Q (inum_of (length l)) s') -> wp (ialloc t) Q s.
Proof.
  intros (fs & H & <-) Hlen Ht HQ. unfold contents in Hlen. rewrite length_map in Hlen. pose proof H as [I1 I2 I3 I4 I5 I6 I7 I8 I9 I10 I11].
  pose proof nmeta_46 as Hnm. pose proof (total_cost_nonneg fs) as Htc.
  unfold ialloc. apply wp_bind, wp_gets. rewrite I6. apply wp_bind, wp_modify. unfold u32. rewrite Z.mod_small by lia.
  set (s1 := set_m_freeinode (Z.of_nat (length fs) + 1 + 1) s). fold (inum_of (length fs)).
  replace (mkdinode (i16 (xshort t)) 0 0 (i16 (xshort 1)) (xint 0) (replicate 13 0)) with (inode_of (new_file t)).
  2: { unfold inode_of, new_file, f_len. rewrite xshort_id by lia. cbn [f_type f_addrs f_data length Z.of_nat]. rewrite <- (i16_mod t) at 1 by (unfold is_short; lia).
       by rewrite Z.mod_small by lia. }
  assert (Hin : 0 <= inum_of (length fs) <= 201) by (unfold inum_of; lia).
  apply wp_bind, wp_winode; [done|done|done|]. apply wp_ret.
  destruct (put_inode_spec (inum_of (length fs)) (inode_of (new_file t)) s1) as (P1 & P2 & P3 & P4); [done|done| |].
  { unfold dinode_ok, inode_of, new_file, is_short, is_uint. cbn. split_and!; try (done || lia). by repeat constructor. }
  set (s2 := put_inode _ _ s1) in *. unfold contents in HQ. rewrite length_map in HQ. apply HQ. exists (fs ++ [new_file t]). split.
  2: { unfold contents. by rewrite map_app. }
  assert (Hown : forall g b, f_owns s2 g b -> g ∈ fs -> f_owns s g b /\ image s2 b = image s b).
  { intros g b Ho Hg. apply list_elem_of_lookup in Hg as (k & Hk). destruct (I10 k g Hk) as [Hag _]. 
    assert (Hsi : same_ind (image s) (image s2) (f_addrs g) (nblk (f_len g))) by (intros Hn; apply P4; destruct (al_ind _ _ _ _ Hag Hn) as (? & _); lia).
    apply (owns_frame _ _ _ _ _ Hsi) in Ho. split; [done|]. apply P4. pose proof (owns_range _ _ _ _ _ Hag Ho). lia. }
  assert (Hsame : forall k g, fs !! k = Some g -> forall b, f_owns s g b -> image s2 b = image s b).
  { intros k g Hk b Ho. destruct (I10 k g Hk) as [Hag _]. apply P4. pose proof (owns_range _ _ _ _ _ Hag Ho). lia. }
  assert (Hcase : forall k g, (fs ++ [new_file t]) !! k = Some g -> fs !! k = Some g \/ k = length fs /\ g = new_file t).
  { intros k g Hk. apply lookup_app_Some in Hk as [Hk|[Hk1 Hk2]]; [by left|]. apply list_lookup_singleton_Some in Hk2 as [Hk2 <-]. right. split; [lia|done]. }
  split.
  - done.
  - intros b Hb. cbn in Hb. rewrite P4 by lia. by apply I2.
  - done.
  - rewrite <- I4. by apply P4; lia.
  - rewrite length_app. simpl. lia.
  - rewrite length_app. cbn. lia.
  - cbn. rewrite total_cost_snoc, I7. change (cost (f_len (new_file t))) with 0. lia.
  - done.
  - intros k g Hk. apply Hcase in Hk as [Hk|[-> ->]]; [|split; [done|unfold is_short; simpl; lia]]. destruct (I9 k g Hk) as [Hd Hs]. split; [|done].
    rewrite P3; [done| |]; apply lookup_lt_Some in Hk; unfold inum_of; lia.
  - intros k g Hk. apply Hcase in Hk as [Hk|[-> ->]]; [|split; [apply new_alloc|done]]. destruct (I10 k g Hk) as [Hag Hhg]. pose proof (Hsame k g Hk) as Hs.
    split; [apply (alloc_frame (image s) _ (m_freeblock s)); [by apply owned_ind|done|done]|].
    unfold holds in *. rewrite <- Hhg. eapply bytes_frame; [exact Hs|lia|unfold BSIZE, f_len; lia].
  - intros k k' g g' b Hk Hk' Ho Ho'. apply Hcase in Hk as [Hk|[-> ->]]; [|by apply new_owns in Ho]. apply Hcase in Hk' as [Hk'|[-> ->]]; [|by apply new_owns in Ho'].
    apply Hown in Ho as [Ho _]; [|by eapply list_elem_of_lookup_2]. apply Hown in Ho' as [Ho' _]; [|by eapply list_elem_of_lookup_2]. by eapply I11.
Qed.

(** ** The command line *)

Lemma extend_extend k p q l : extend k q (extend k p l) = extend k (p ++ q) l.
Proof.
  unfold extend. apply list_eq. intros j. rewrite !list_lookup_alter. case_decide; [|done]. subst j. rewrite decide_True by done. destruct (l !! k) as [[t d]|]; [|done].
  simpl. by rewrite app_assoc.
Qed.

Lemma extend_nil k l : extend k [] l = l.
Proof. apply list_alter_id. intros [t d]. simpl. by rewrite app_nil_r. Qed.

Lemma extend_cons k p x l : extend (S k) p (x :: l) = x :: extend k p l.
Proof. done. Qed.

Lemma fits_extend k p l : fits (extend k p l) -> fits l.
Proof.
  unfold fits. intros (H1 & H2 & H3). assert (Hc : size_cost l <= size_cost (extend k p l) /\ length (extend k p l) = length l /\
    (Forall (fun x => Z.of_nat (length (snd x)) <= MAXFILE * 1024) (extend k p l) -> Forall (fun x => Z.of_nat (length (snd x)) <= MAXFILE * 1024) l)).
  { clear H1 H2 H3. revert k. induction l as [|[t d] l IH]; intros [|k]; [done|done| |rewrite extend_cons].
    - split_and!; [|done|].
      + change (cost (Z.of_nat (length d)) + size_cost l <= cost (Z.of_nat (length (d ++ p))) + size_cost l).
        pose proof (cost_mono (Z.of_nat (length d)) (Z.of_nat (length (d ++ p))) ltac:(rewrite length_app; lia)). lia.
      + intros Hf. apply Forall_cons in Hf as [Hd Hf]. constructor; [|done]. cbn [snd] in *. rewrite length_app in Hd. lia.
    - destruct (IH k) as (I1 & I2 & I3). cbn [size_cost foldr length]. unfold size_cost in *. split_and!; [lia|lia|].
      intros Hf. apply Forall_cons in Hf as [Hd Hf]. constructor; [done|by apply I3]. }
  destruct Hc as (C1 & C2 & C3). split_and!; [lia|lia|by apply C3].
Qed.

Lemma fits_snoc l x : fits (l ++ [x]) -> fits l /\ (length l < 200)%nat.
Proof.
  unfold fits. rewrite length_app, Forall_app. simpl. intros (H1 & H2 & H3 & _). assert (Hc : size_cost l <= size_cost (l ++ [x])).
  { clear. induction l as [|y l IH]; cbn [app size_cost foldr]; [pose proof (cost_nonneg (Z.of_nat (length (snd x)))); lia|]. unfold size_cost in *. lia. }
  split_and!; [lia|lia|done|lia].
Qed.

Lemma wp_reads reads : forall s l k t d (Q : unit -> mkstate -> Prop), image_is s l -> l !! k = Some (t, d) -> fits (extend k (concat reads) l) ->
  (forall s', image_is s' (extend k (concat reads) l) -> Q tt s') -> wp (for_each reads (fun buf => iappend (inum_of k) buf)) Q s.
Proof.
  induction reads as [|buf reads IH]; intros s l k t d Q Hi Hk Hf HQ; cbn [for_each concat] in *.
  - rewrite extend_nil in *. by apply wp_ret, HQ.
  - rewrite <- extend_extend in *. apply wp_bind. eapply wp_iappend; [done|done|by eapply fits_extend|]. intros s' Hi'.
    eapply (IH s' (extend k buf l) k); [done| |done|done]. unfold extend. by rewrite list_lookup_alter_eq, Hk.
Qed.

(** What a file of the command line adds: an entry in the root directory, and itself. *)
Definition file_name (f : hostfile) : list Z := skip_underscore (shortname (h_arg f)).
Definition file_data (f : hostfile) : list Z := concat (default [] (h_reads f)).
Definition add_to (l : list (Z * list Z)) (f : hostfile) : list (Z * list Z) :=
  extend 0 (mk_dirent (inum_of (length l)) (file_name f)) l ++ [(T_FILE, file_data f)].

Definition good_file (f : hostfile) : Prop := SLASH ∉ shortname (h_arg f) /\ h_reads f <> None.

Lemma wp_add_file s l f d (Q : unit -> mkstate -> Prop) : image_is s l -> l !! 0%nat = Some (T_DIR, d) -> good_file f -> fits (add_to l f) ->
  (forall s', image_is s' (add_to l f) -> Q tt s') -> wp (add_file ROOTINO f) Q s.
Proof.
  intros Hi H0 [Hsl Hop] Hf HQ. unfold add_file. apply wp_bind, wp_assert; [by apply bool_decide_eq_true_2|]. destruct (h_reads f) as [reads|] eqn:Hr; [|done].
  assert (Hl0 : (0 < length l)%nat) by (by eapply lookup_lt_Some). set (de := mk_dirent (inum_of (length l)) (file_name f)).
  assert (Hlen : length (extend 0 de l) = length l) by (unfold extend; apply length_alter).
  assert (Hlast : forall x (m : list (Z * list Z)) p, extend (length m) p (m ++ [x]) = m ++ [(fst x, snd x ++ p)]).
  { intros x m p. unfold extend. rewrite alter_app_r_alt by lia. by rewrite Nat.sub_diag. }
  assert (Hadd : add_to l f = extend (length l) (concat reads) (extend 0 de (l ++ [(T_FILE, [])]))).
  { unfold add_to, file_data. rewrite Hr. fold de. unfold extend at 3. rewrite alter_app_l by done. fold (extend 0 de l). rewrite <- Hlen at 1. by rewrite Hlast. }
  rewrite Hadd in *. pose proof (fits_extend _ _ _ Hf) as Hf2. pose proof (fits_extend _ _ _ Hf2) as Hf3. apply fits_snoc in Hf3 as [_ Hcnt].
  apply wp_bind. apply (wp_ialloc s l); [done|done|unfold T_FILE; lia|]. intros s1 Hi1. apply wp_bind. unfold mk_de. rewrite xshort_id by (unfold inum_of; lia).
  change ROOTINO with (inum_of 0). apply (wp_iappend s1 (l ++ [(T_FILE, [])]) 0 T_DIR d); [done|by rewrite lookup_app_l|done|]. intros s2 Hi2.
  eapply (wp_reads reads s2 (extend 0 de (l ++ [(T_FILE, [])])) (length l) T_FILE []); [done| |done|done].
  unfold extend. rewrite list_lookup_alter_ne by lia. rewrite lookup_app_r by lia. by rewrite Nat.sub_diag.
Qed.

Lemma fits_fold args : forall l, fits (fold_left add_to args l) -> fits l.
Proof.
  induction args as [|f args IH]; intros l H; [done|]. apply IH in H. unfold add_to in H. apply fits_snoc in H as [H _]. by eapply fits_extend.
Qed.

Lemma wp_add_files args : forall s l d (Q : unit -> mkstate -> Prop), image_is s l -> l !! 0%nat = Some (T_DIR, d) -> Forall good_file args ->
  fits (fold_left add_to args l) -> (forall s', image_is s' (fold_left add_to args l) -> Q tt s') -> wp (for_each args (add_file ROOTINO)) Q s.
Proof.
  induction args as [|f args IH]; intros s l d Q Hi H0 Hg Hf HQ; cbn [for_each fold_left] in *; [by apply wp_ret, HQ|].
  apply Forall_cons in Hg as [Hg Hgs]. apply wp_bind. eapply wp_add_file; [done|done|done|by eapply fits_fold|]. intros s' Hi'.
  eapply (IH s' (add_to l f)); [done| |done|done|done]. unfold add_to. rewrite lookup_app_l by (unfold extend; rewrite length_alter; by eapply lookup_lt_Some).
  unfold extend. by rewrite list_lookup_alter_eq, H0.
Qed.
