(* ===== verification/MkfsBuild.v ===== *)
(** * mkfs builds a file system that the kernel can read (mkfs/mkfs.c, kernel/fs.c)

    The theorem about main(): the image has a superblock, an inode per file, the
    files' contents in blocks of their own, and a bitmap of the blocks in use.  On
    a disk with this image, the kernel's ilock() and readi() read the files back. *)

From S2P Require Import Prelude Riscv Kstate CString Bytes Bio Log Fs FsSpec FsImage Mkfs MkfsSpec MkfsFiles.

(** ** The cleared image *)

Definition cleared (s : mkstate) : Prop :=
  (forall b, 0 <= b < FSSIZE -> m_img s !! b = Some zero_blk) /\ m_sb s = the_sb /\ m_freeinode s = 1 /\ m_freeblock s = nmeta.

Lemma wp_clear s (Q : unit -> mkstate -> Prop) : m_sb s = the_sb -> m_freeinode s = 1 -> m_freeblock s = nmeta ->
  (forall s', cleared s' -> Q tt s') -> wp (for_each (upto FSSIZE) (fun i => wsect i (replicate (Z.to_nat BSIZE) 0))) Q s.
Proof.
  intros H1 H2 H3 HQ. eapply wp_mono.
  - apply (wp_for_each (fun l s' => exists k, (k <= 2000)%nat /\ l = map Z.of_nat (seq k (2000 - k)) /\
      (forall b, 0 <= b < Z.of_nat k -> m_img s' !! b = Some zero_blk) /\ m_sb s' = the_sb /\ m_freeinode s' = 1 /\ m_freeblock s' = nmeta)).
    + exists O. split_and!; [lia|done|lia|done..].
    + intros i l s1 (k & Hk & Hl & Hz & G1 & G2 & G3). destruct (2000 - k)%nat as [|m] eqn:Hm; [done|]. simpl in Hl. injection Hl as -> ->.
      apply wp_wsect; [unfold FSSIZE; lia|]. exists (S k). split_and!; try done; [lia|do 2 f_equal; lia|]. intros b Hb. unfold put. simpl.
      destruct (decide (b = Z.of_nat k)) as [->|]; [by rewrite lookup_insert_eq|]. rewrite lookup_insert_ne by done. apply Hz. lia.
  - intros [] s' (k & Hk & Hl & Hz & G). apply HQ. destruct (2000 - k)%nat as [|m] eqn:Hm; [|done]. split; [|done]. intros b Hb. apply Hz. unfold FSSIZE in Hb. lia.
Qed.

Lemma sb_block_length : length sb_block = 1024%nat.
Proof. reflexivity. Qed.

(** With the superblock, it is an image without files. *)
Lemma image_empty s : cleared s -> image_is (put 1 sb_block s) [].
Proof.
  intros (Hz & Hsb & Hfi & Hfb). exists []. split; [|done]. pose proof nmeta_46. assert (HF : FSSIZE = 2000) by done.
  assert (Hc : complete s) by (intros b Hb; exists zero_blk; split; [by apply Hz|done]). split; try done.
  - apply complete_put; [done|apply sb_block_length].
  - intros b Hb. cbn in Hb. rewrite image_put_ne by lia. unfold image. by rewrite Hz by lia.
  - apply image_put_eq.
  - simpl. lia.
  - cbn. lia.
Qed.

(** ** The bitmap *)

Lemma set_bit_spec d i b : length d = 1024%nat -> 0 <= i < 8192 -> 0 <= b -> in_use (set_bit d i) b = (b =? i) || in_use d b.
Proof.
  intros Hl Hi Hb. unfold set_bit. rewrite in_use_zupd by done. destruct (Z.eqb_spec (b / 8) (i / 8)) as [He|Hne].
  - pose proof (Z.mod_pos_bound b 8 ltac:(lia)). unfold u8. by rewrite Z.mod_pow2_bits_low, lor_bit, <- in_use_bit by (done || lia).
  - destruct (Z.eqb_spec b i); [by subst|done].
Qed.

Definition bitmap (used : Z) : list Z := fold_left set_bit (map Z.of_nat (seq 0 (Z.to_nat used))) (replicate (Z.to_nat BSIZE) 0).

Lemma bitmap_spec used b : 0 <= used <= 8192 -> 0 <= b -> length (bitmap used) = 1024%nat /\ in_use (bitmap used) b = (b <? used).
Proof.
  intros Hu Hb. unfold bitmap. assert (Hn : exists n, used = Z.of_nat n) by (exists (Z.to_nat used); lia). destruct Hn as (n & ->). rewrite Nat2Z.id.
  induction n as [|n IH].
  - split; [done|]. rewrite in_use_bit by done. unfold znth. destruct (Z.ltb_spec (b / 8) 0); [by rewrite Z.bits_0; destruct (Z.ltb_spec b (Z.of_nat 0)); [lia|]|].
    cbn [seq map fold_left]. destruct (replicate _ 0 !! Z.to_nat (b / 8)) as [x|] eqn:Hx; [apply lookup_replicate_1 in Hx as [-> _]|];
      cbn [from_option id]; rewrite Z.bits_0; destruct (Z.ltb_spec b (Z.of_nat 0)); (done || lia).
  - destruct IH as [I1 I2]; [lia|]. rewrite seq_S, map_app, fold_left_app. cbn [map fold_left Nat.add]. set (d := fold_left _ _ _) in *.
    split; [unfold set_bit; by rewrite zupd_length|]. rewrite set_bit_spec by (done || lia). rewrite I2.
    destruct (Z.eqb_spec b (Z.of_nat n)), (Z.ltb_spec b (Z.of_nat n)), (Z.ltb_spec b (Z.of_nat (S n))); (done || lia).
Qed.

(** ** The finished image *)

(** The size main() gives to the root directory at the end. *)
Definition root_size (len : Z) : Z := (len / 1024 + 1) * 1024.

Record built (s : mkstate) (fs : list mfile) : Prop := {
  bu_complete : complete s;
  bu_super : sb_of_bytes (image s 1) = the_sb;
  bu_count : (length fs <= 200)%nat;
  bu_used : m_freeblock s = nmeta + total_cost fs /\ m_freeblock s <= FSSIZE;
  bu_root : forall f, fs !! 0%nat = Some f -> disk_inode (image s) the_sb ROOTINO = mkdinode (f_type f) 0 0 1 (root_size (f_len f)) (f_addrs f);
  bu_inode : forall k f, (0 < k)%nat -> fs !! k = Some f -> disk_inode (image s) the_sb (inum_of k) = inode_of f;
  bu_file : forall k f, fs !! k = Some f -> alloc_ok (image s) (m_freeblock s) (f_addrs f) (nblk (f_len f)) /\ holds (image s) (f_addrs f) (f_data f);
  bu_disjoint : forall k k' f f' b, fs !! k = Some f -> fs !! k' = Some f' -> f_owns s f b -> f_owns s f' b -> k = k';
  bu_bitmap : forall b, 0 <= b < FSSIZE -> in_use (image s (sb_bmapstart the_sb)) b = (b <? m_freeblock s)
}.

(** The entries of the root directory: inode number and name. *)
Definition root_entries (args : list hostfile) : list (Z * list Z) :=
  (ROOTINO, bytes_of_string ".") :: (ROOTINO, bytes_of_string "..") :: imap (fun j f => (inum_of (S j), file_name f)) args.
Definition dir_data (es : list (Z * list Z)) : list Z := concat (map (fun e => mk_dirent (fst e) (snd e)) es).

(** The files of a finished image: the root directory, and those of the command line. *)
Definition files_of (args : list hostfile) : list (Z * list Z) :=
  (T_DIR, dir_data (root_entries args)) :: map (fun f => (T_FILE, file_data f)) args.

Definition root_start : list (Z * list Z) :=
  [(T_DIR, mk_dirent ROOTINO (bytes_of_string ".") ++ mk_dirent ROOTINO (bytes_of_string ".."))].

Lemma add_files_eq args : forall d l, fold_left add_to args ((T_DIR, d) :: l) =
  (T_DIR, d ++ dir_data (imap (fun j f => (inum_of (S (length l + j)), file_name f)) args)) :: l ++ map (fun f => (T_FILE, file_data f)) args.
Proof.
  induction args as [|f args IH]; intros d l; cbn [fold_left map].
  - by rewrite !app_nil_r.
  - unfold add_to. cbn [extend alter list_alter fst snd app length]. rewrite IH. rewrite <- !app_assoc. cbn [app]. do 2 f_equal. f_equal. cbn [imap dir_data map concat fst snd].
    rewrite Nat.add_0_r. f_equal. unfold dir_data. do 2 f_equal. apply imap_ext. intros j g _. rewrite length_app. simpl. do 2 f_equal. lia.
Qed.

Lemma files_of_eq args : fold_left add_to args root_start = files_of args.
Proof. unfold root_start. rewrite add_files_eq. unfold files_of. by do 2 f_equal. Qed.

(** A change outside the blocks of the files. *)
Lemma files_frame s s' (fs : list mfile) : (forall b, nmeta <= b -> image s' b = image s b) ->
  (forall k f, fs !! k = Some f -> alloc_ok (image s) (m_freeblock s) (f_addrs f) (nblk (f_len f)) /\ holds (image s) (f_addrs f) (f_data f)) ->
  (forall k f, fs !! k = Some f -> alloc_ok (image s') (m_freeblock s) (f_addrs f) (nblk (f_len f)) /\ holds (image s') (f_addrs f) (f_data f)) /\
  (forall k f b, fs !! k = Some f -> f_owns s' f b <-> f_owns s f b).
Proof.
  intros Hs H. assert (Ho : forall k f, fs !! k = Some f -> forall b, f_owns s f b -> image s' b = image s b).
  { intros k f Hk b Ho. destruct (H k f Hk) as [Ha _]. apply Hs. pose proof (owns_range _ _ _ _ _ Ha Ho). lia. }
  split.
  - intros k f Hk. destruct (H k f Hk) as [Ha Hh]. pose proof (Ho k f Hk) as Hof.
    split; [apply (alloc_frame (image s) _ (m_freeblock s)); [by apply owned_ind|done|done]|].
    unfold holds in *. rewrite <- Hh. eapply bytes_frame; [exact Hof|lia|unfold BSIZE, f_len; lia].
  - intros k f b Hk. apply owns_frame, owned_ind. by apply (Ho k).
Qed.

Lemma root_size_uint len : 0 <= len <= 268 * 1024 -> is_uint (root_size len).
Proof. intros H. unfold is_uint, root_size. pose proof (Z.div_pos len 1024). assert (len / 1024 < 269) by (apply Z.div_lt_upper_bound; lia). lia. Qed.

Lemma built_from s fs f : img_ok s fs -> fs !! 0%nat = Some f -> f_len f <= 268 * 1024 ->
  built (put (sb_bmapstart the_sb) (bitmap (m_freeblock s)) (put_inode ROOTINO (mkdinode (f_type f) 0 0 1 (root_size (f_len f)) (f_addrs f)) s)) fs.
Proof.
  intros H H0 Hlen. pose proof H as [I1 I2 I3 I4 I5 I6 I7 I8 I9 I10 I11]. pose proof nmeta_46 as Hnm. pose proof (total_cost_nonneg fs) as Htc.
  assert (HF : FSSIZE = 2000) by done. destruct (I10 0%nat f H0) as [Ha _]. destruct (I9 0%nat f H0) as [_ Hsh].
  set (di := mkdinode _ _ _ _ _ _). destruct (put_inode_spec ROOTINO di s) as (P1 & P2 & P3 & P4); [done|unfold ROOTINO; lia| |].
  { unfold dinode_ok, di, is_short in *. cbn. split_and!; try (done || lia); [apply root_size_uint; unfold f_len in *; lia|apply Ha|apply Ha]. }
  set (s1 := put_inode ROOTINO di s) in *. change (sb_bmapstart the_sb) with 45.
  assert (Hbm := fun b => bitmap_spec (m_freeblock s) b ltac:(lia)). set (s2 := put 45 _ s1).
  assert (Himg : forall b, b <> 45 -> image s2 b = image s1 b) by (intros b Hb; by apply image_put_ne).
  assert (Hino : forall j, 0 <= j <= 201 -> disk_inode (image s2) the_sb j = disk_inode (image s1) the_sb j).
  { intros j Hj. unfold disk_inode. rewrite Himg; [done|]. pose proof (iblock_range j Hj). lia. }
  destruct (files_frame s s2 fs) as [Hfile Hown]; [intros b Hb; rewrite Himg by lia; by apply P4; lia|done|].
  split.
  - apply complete_put; [done|]. by apply (Hbm 0).
  - rewrite Himg, P4, I4 by lia. vm_compute. reflexivity.
  - done.
  - done.
  - intros g Hg. rewrite H0 in Hg. injection Hg as <-. rewrite Hino by (unfold ROOTINO; lia). exact P2.
  - intros k g Hk Hg. pose proof (img_inum _ _ _ _ H Hg). rewrite Hino by lia. rewrite P3 by (unfold inum_of, ROOTINO in *; lia). by apply I9.
  - exact Hfile.
  - intros k k' g g' b Hk Hk' Ho Ho'. apply (Hown k) in Ho; [|done]. apply (Hown k') in Ho'; [|done]. by eapply I11.
  - intros b Hb. unfold s2. rewrite image_put_eq. by apply Hbm; lia.
Qed.

Lemma wp_mkfs args : Forall good_file args -> fits (files_of args) ->
  wp (main (Some true) args) (fun _ s => exists fs, built s fs /\ contents fs = files_of args) mkfs_start.
Proof.
  intros Hg Hf. unfold main, build. apply wp_bind, wp_assert; [done|]. apply wp_bind, wp_assert; [done|]. do 2 (apply wp_bind, wp_modify).
  apply wp_bind, wp_clear; [done..|]. intros s0 Hcl. apply wp_bind, wp_wsect; [done|]. fold sb_block. pose proof (image_empty s0 Hcl) as Hi0.
  rewrite <- files_of_eq in Hf. pose proof (fits_fold args _ Hf) as Hf0. apply wp_bind, (wp_ialloc _ []); [done|simpl; lia|unfold T_DIR; lia|]. intros s1 Hi1.
  apply wp_bind, wp_assert; [done|]. change (inum_of (length [])) with (inum_of 0).
  apply wp_bind, (wp_iappend s1 [(T_DIR, [])] 0 T_DIR []); [done|done| |].
  { apply (fits_extend 0 (mk_de (inum_of 0) (bytes_of_string ".."))). exact Hf0. }
  intros s2 Hi2. apply wp_bind, (wp_iappend s2 (extend 0 (mk_de (inum_of 0) (bytes_of_string ".")) [(T_DIR, [])]) 0 T_DIR (mk_de (inum_of 0) (bytes_of_string ".")));
    [done|done|exact Hf0|]. intros s3 Hi3. change (inum_of 0) with ROOTINO.
  apply wp_bind, (wp_add_files args s3 root_start (snd (hd (0, []) root_start))); [exact Hi3|done|done|done|]. rewrite files_of_eq in *. intros s4 (fs & Hok & Hcon).
  assert (Hroot : exists f, fs !! 0%nat = Some f /\ f_len f <= 268 * 1024).
  { destruct fs as [|f fs]; [|exists f; split; [done|]].
    - done.
    - destruct Hf as (_ & _ & Hf). rewrite <- Hcon in Hf. by apply Forall_cons in Hf as [? _]. }
  destruct Hroot as (f & H0 & Hlen). destruct (io_inode _ _ Hok 0%nat f H0) as [Hdi _]. change (inum_of 0) with ROOTINO in Hdi.
  pose proof (root_size_uint (f_len f) ltac:(unfold f_len in *; lia)) as Hru. unfold is_uint in Hru. pose proof (Z.div_pos (f_len f) 1024 ltac:(unfold f_len; lia) ltac:(lia)).
  unfold fix_root_size. apply wp_bind, wp_bind, wp_rinode; [apply Hok|apply Hok|unfold ROOTINO; lia|]. rewrite Hdi. cbn [inode_of di_size di_type di_major di_minor di_nlink di_addrs].
  rewrite (xint_id (f_len f)) by (unfold f_len in *; lia).
  replace (u32 (u32 (f_len f / BSIZE + 1) * BSIZE)) with (root_size (f_len f)) by (unfold root_size, u32, BSIZE in *; rewrite !Z.mod_small; (done || rewrite ?Z.mod_small; lia)).
  rewrite xint_id by done. apply wp_winode; [apply Hok|apply Hok|unfold ROOTINO; lia|]. apply wp_bind, wp_gets. unfold balloc. pose proof (io_room _ _ Hok).
  apply wp_bind, wp_assert; [apply Z.ltb_lt; unfold BSIZE, FSSIZE in *; cbn; lia|]. apply wp_bind, wp_gets.
  apply wp_wsect; [cbn; rewrite (io_sb _ _ Hok); done|]. exists fs. split; [|done]. cbn [m_sb m_freeblock put_inode put set_m_img].
  rewrite (io_sb _ _ Hok). by apply (built_from s4 fs f).
Qed.

(** C16. mkfs, given files that open, without a slash in their names, and that fit the
    image and the inodes, builds an image with a superblock that describes it; the
    root directory holds ".", ".." and an entry per file, in the order of the
    command line; the blocks of every inode hold exactly the bytes read from its
    file; no block belongs to two inodes, and the bitmap marks the blocks in use. *)
Theorem mkfs_builds args : Forall good_file args -> fits (files_of args) ->
  wp (main (Some true) args) (fun _ s => exists fs, built s fs /\ contents fs = files_of args) mkfs_start.
Proof. apply wp_mkfs. Qed.

(** ** Witness *)

Definition demo_args : list hostfile :=
  [mkhostfile (bytes_of_string "user/_cat") (Some [[1; 2; 3]; [4; 5]]); mkhostfile (bytes_of_string "README") (Some [bytes_of_string "xv6"])].

Lemma demo_ok : Forall good_file demo_args /\ fits (files_of demo_args).
Proof.
  split; [|unfold fits; split_and!; [vm_compute; congruence|vm_compute; lia|]].
  - unfold demo_args, good_file. repeat (constructor; [split; [|done]|]); [..|constructor].
    all: apply (bool_decide_unpack _); vm_compute; exact I.
  - repeat (constructor; [vm_compute; congruence|]). constructor.
Qed.

Lemma mkfs_builds_witness : wp (main (Some true) demo_args) (fun _ s => exists fs, built s fs /\ contents fs =
  [(T_DIR, dir_data (root_entries demo_args)); (T_FILE, [1; 2; 3; 4; 5]); (T_FILE, bytes_of_string "xv6")]) mkfs_start.
Proof. apply (mkfs_builds demo_args); apply demo_ok. Defined.

(** A root directory whose entries fill its last block gets a size one block larger
    than its data: 62 files make 64 entries, one block, and a size of two. *)
Example root_size_overshoots :
  match main (Some true) (repeat (mkhostfile (bytes_of_string "f") (Some [])) 62) mkfs_start with
  | Ret _ s => let di := disk_inode (image s) the_sb ROOTINO in di_size di = 2048 /\ slot (di_addrs di) 1 = 0
  | _ => False
  end.
Proof. vm_compute. done. Qed.

(** ialloc() hands out inode numbers without a bound: the 208th inode would be written
    into the block of the bitmap, which [balloc] then overwrites. *)
Example inode_in_bitmap : IBLOCK 208 the_sb = sb_bmapstart the_sb /\
  match (modify (set_m_freeinode 208);; ialloc T_FILE) (mkmkstate {[ IBLOCK 208 the_sb := replicate 1024 0 ]} the_sb 1 nmeta) with
  | Ret inum s => inum = 208 /\ rd 2 (default [] (m_img s !! sb_bmapstart the_sb)) 0 = T_FILE
  | _ => False
  end.
Proof. vm_compute. done. Qed.
