(* ===== verification/MkfsKernel.v ===== *)
(** * The kernel on mkfs's image (kernel/fs.c, mkfs/mkfs.c)

    A kernel whose cache shows the image that mkfs built loads a file's inode with
    ilock() and reads the file's bytes with readi(). *)

From S2P Require Import Prelude Riscv Kstate CString Bytes Spinlock Kalloc Vm Sched SchedSpec Sleeplock Bio FsRun BioSpec.
From S2P Require Import Log LogSpec Fs FsSpec FsImage File Tables FsRead PathSpec Mkfs MkfsSpec MkfsFiles MkfsBuild.

(** The bytes of the file, from the blocks. *)
Lemma holds_slice img addrs data off n : holds img addrs data -> 0 <= off -> 0 <= n -> off + n <= Z.of_nat (length data) ->
  file_bytes img addrs off n = slice data (Z.to_nat off) (Z.to_nat n).
Proof.
  intros H Ho Hn Hb. pose proof (nblk_bounds (Z.of_nat (length data)) ltac:(lia)) as Hnb. apply list_eq. intros i. unfold slice.
  destruct (decide (i < Z.to_nat n)%nat) as [Hi|Hi].
  - rewrite file_bytes_lookup, lookup_take_lt, lookup_drop by done. unfold holds in H.
    apply (f_equal (fun l => l !! (Z.to_nat off + i)%nat)) in H. rewrite file_bytes_lookup in H by lia. rewrite lookup_app_l in H by lia. rewrite <- H.
    do 2 f_equal. lia.
  - rewrite lookup_ge_None_2 by (rewrite file_bytes_length; lia). by rewrite lookup_take_ge by lia.
Qed.

(** ** The root directory *)

Lemma mk_dirent_length i n : length (mk_dirent i n) = 16%nat.
Proof. unfold mk_dirent. by rewrite length_app, enc_le_length, strncpy_l_length. Qed.

Lemma dir_data_length es : length (dir_data es) = (16 * length es)%nat.
Proof. induction es as [|e es IH]; [done|]. unfold dir_data in *. cbn [map concat length]. rewrite length_app, mk_dirent_length, IH. lia. Qed.

Lemma dir_chunk es : forall j e rest, es !! j = Some e -> slice (dir_data es ++ rest) (16 * j) 16 = mk_dirent (fst e) (snd e).
Proof.
  induction es as [|x es IH]; intros j e rest Hj; [done|]. unfold dir_data. cbn [map concat]. rewrite <- app_assoc. unfold slice. destruct j as [|j].
  - injection Hj as ->. change (16 * 0)%nat with 0%nat. rewrite drop_0, take_app_length' by (by rewrite mk_dirent_length). done.
  - rewrite drop_app_ge by (rewrite mk_dirent_length; lia). rewrite mk_dirent_length. replace (16 * S j - 16)%nat with (16 * j)%nat by lia. by apply IH.
Qed.

Lemma de_inum_mk i n : 0 <= i < 2 ^ 16 -> de_inum (mk_dirent i n) = i.
Proof. intros H. unfold de_inum, rd, slice, mk_dirent. change (Z.to_nat 0) with 0%nat. rewrite (dec_field 2 i [] (strncpy_l DIRSIZ n)) by done. by apply Z.mod_small. Qed.

Lemma de_name_mk i n : cstr (de_name (mk_dirent i n)) = take DIRSIZ (cstr n).
Proof. unfold de_name, slice, mk_dirent. rewrite drop_app_length' by done. rewrite take_ge by (by rewrite strncpy_l_length). apply cstr_strncpy. Qed.

(** The entries as dirlookup() sees them: offset, inode number and name. *)
Definition listing (es : list (Z * list Z)) : list (Z * (Z * list Z)) :=
  imap (fun j e => (Z.of_nat j * sizeof_dirent, (fst e, take DIRSIZ (cstr (snd e))))) es.

Lemma dir_entries_eq img addrs es size : 0 <= size -> size mod sizeof_dirent = 0 -> 16 * Z.of_nat (length es) <= size ->
  Forall (fun e => 0 < fst e < 2 ^ 16) es ->
  file_bytes img addrs 0 size = dir_data es ++ replicate (Z.to_nat (size - 16 * Z.of_nat (length es))) 0 ->
  dir_entries img addrs size = listing es.
Proof.
  intros H0 Hm Hs Hi Hb. unfold sizeof_dirent in Hm. pose proof (Z.div_mod size 16 ltac:(lia)) as Hdm. unfold dir_entries, dir_offs, sizeof_dirent.
  replace ((size + 16 - 1) / 16) with (size / 16) by (apply (Z.div_unique _ _ _ 15); lia).
  assert (Hat : forall j, (j < Z.to_nat (size / 16))%nat -> dirent_at img addrs (Z.of_nat j * 16) =
     slice (dir_data es ++ replicate (Z.to_nat (size - 16 * Z.of_nat (length es))) 0) (16 * j) 16).
  { intros j Hj. rewrite <- Hb. unfold dirent_at, sizeof_dirent. apply list_eq. intros i. unfold slice. destruct (decide (i < 16)%nat) as [Hi16|Hi16].
    - rewrite file_bytes_lookup by lia. rewrite lookup_take_lt, lookup_drop by done. rewrite file_bytes_lookup by lia. do 2 f_equal. lia.
    - rewrite lookup_ge_None_2 by (rewrite file_bytes_length; lia). by rewrite lookup_take_ge by lia. }
  replace (Z.to_nat (size / 16)) with (length es + (Z.to_nat (size / 16) - length es))%nat by lia. rewrite seq_app, !map_app, List.filter_app.
  rewrite (filter_none _ (map _ (map _ (seq (0 + length es) _)))).
  2: { intros x Hx. rewrite map_map in Hx. apply list_elem_of_fmap in Hx as (j & -> & Hj). apply elem_of_seq in Hj. cbn [fst snd]. rewrite Hat by lia.
       apply negb_false_iff, Z.eqb_eq. unfold slice. rewrite drop_app_ge by (rewrite dir_data_length; lia). rewrite drop_replicate, take_replicate, dir_data_length.
       replace (Nat.min 16 _) with 16%nat by lia. done. }
  rewrite app_nil_r. assert (Hl : (length es <= Z.to_nat (size / 16))%nat) by lia. clear Hdm Hs Hb Hm H0. rewrite map_map. unfold listing.
  rewrite filter_all.
  - apply list_eq. intros j. rewrite list_lookup_fmap, list_lookup_imap. destruct (es !! j) as [e|] eqn:Hj.
    + pose proof (lookup_lt_Some _ _ _ Hj). pose proof (Forall_lookup_1 _ _ _ _ Hi Hj) as He. cbv beta in He. rewrite lookup_seq_lt by done. cbn [fmap option_fmap option_map Nat.add]. rewrite Hat by lia.
      rewrite (dir_chunk es j e _ Hj), de_name_mk, de_inum_mk by lia. done.
    + apply lookup_ge_None in Hj. by rewrite lookup_seq_ge by done.
  - intros x Hx. apply list_elem_of_fmap in Hx as (j & -> & Hj). apply elem_of_seq in Hj. cbn [fst snd]. rewrite Hat by lia.
    destruct (lookup_lt_is_Some_2 es j) as [e He]; [lia|]. pose proof (Forall_lookup_1 _ _ _ _ Hi He) as Hr. cbv beta in Hr. rewrite (dir_chunk es j e _ He), de_inum_mk by lia.
    apply negb_true_iff, Z.eqb_neq. lia.
Qed.

Lemma dir_data_bytes es : Forall (fun e => Forall is_byte (snd e)) es -> Forall is_byte (dir_data es).
Proof.
  induction 1 as [|e es He _ IH]; [constructor|]. unfold dir_data in *. cbn [map concat]. apply Forall_app. split; [|done].
  unfold mk_dirent, strncpy_l. repeat (apply Forall_app; split); [apply enc_le_bytes|by apply Forall_take, Forall_cstr|apply Forall_replicate; unfold is_byte; lia].
Qed.

Lemma root_entries_ok args : Forall (fun f => Forall is_byte (h_arg f)) args -> (length args <= 199)%nat ->
  Forall (fun e => (0 < fst e < 2 ^ 16) /\ Forall is_byte (snd e)) (root_entries args).
Proof.
  intros Hb Hl. unfold root_entries, ROOTINO. do 2 (constructor; [cbn [fst snd]; split; [lia|apply bytes_of_string_bytes]|]).
  apply Forall_lookup. intros j e Hj. rewrite list_lookup_imap in Hj. destruct (args !! j) as [f|] eqn:Hf; [|done]. injection Hj as <-. cbn [fst snd].
  pose proof (lookup_lt_Some _ _ _ Hf). split; [unfold inum_of; lia|]. pose proof (Forall_lookup_1 _ _ _ _ Hb Hf) as Hfb. cbv beta in Hfb.
  assert (Hsn : Forall is_byte (shortname (h_arg f))) by (unfold shortname; case_match; [by apply Forall_drop|done]).
  unfold file_name, skip_underscore. case_match; [by apply Forall_tail|done].
Qed.

(** ilock() of an entry that is not loaded. *)
Lemma load_fresh pid di ip : i_valid ip = 0 ->
  let ip' := load_inode pid di ip in i_dev ip' = i_dev ip /\ i_size ip' = di_size di /\ i_addrs ip' = di_addrs di.
Proof. intros H. unfold load_inode. by rewrite H. Qed.

Lemma load_fresh_type pid di ip : i_valid ip = 0 -> i_type (load_inode pid di ip) = di_type di.
Proof. intros H. unfold load_inode. by rewrite H. Qed.

Section kernel.
Context {E : Env} {D : DiskDriver} {DR : DiskReady} {L : DiskLaws} (pr : nat) (pid dev : Z) (Hdev : 0 < dev < 2 ^ 31).
Context (s : mkstate) (fs : list mfile) (a : absview).

(** The kernel sees the image, and has no block of it locked. *)
Record sees : Prop := {
  se_built : built s fs;
  se_view : forall b, 0 <= b < FSSIZE -> av a b = image s b;
  se_usable : forall b, 0 <= b < FSSIZE -> usable a b;
  se_room : ab a < Z.of_nat NBUF
}.

Context (Hs : sees).

Lemma sees_owned k f b : fs !! k = Some f -> f_owns s f b -> nmeta <= b < FSSIZE /\ av a b = image s b.
Proof.
  intros Hk Ho. destruct (bu_file _ _ (se_built Hs) k f Hk) as [Ha _]. pose proof (owns_range _ _ _ _ _ Ha Ho). pose proof (bu_used _ _ (se_built Hs)).
  pose proof nmeta_46. split; [lia|]. apply Hs. lia.
Qed.

(** Every part of a file has a block, and the blocks hold the file. *)
Lemma sees_file k f size : fs !! k = Some f -> size <= nblk (f_len f) * 1024 ->
  (forall bn, 0 <= bn -> bn * BSIZE < size -> mapped a (f_addrs f) bn) /\ holds (av a) (f_addrs f) (f_data f).
Proof.
  intros Hk Hsz. destruct (bu_file _ _ (se_built Hs) k f Hk) as [Ha Hh]. pose proof nmeta_46 as Hnm.
  assert (Hown : forall b, f_owns s f b -> av a b = image s b) by (intros b Hb; by apply (sees_owned k f b)).
  assert (Hsi : same_ind (image s) (av a) (f_addrs f) (nblk (f_len f))) by (by apply owned_ind). split.
  - intros bn Hb0 Hb. unfold BSIZE in Hb. assert (Hbn : 0 <= bn < nblk (f_len f)) by lia. unfold mapped. rewrite (block_of_frame (image s) _ _ _ _ Hsi Hbn).
    destruct (sees_owned k f (block_of (image s) (f_addrs f) bn) Hk) as [Hr _]; [left; by exists bn|]. split; [lia|]. split; [apply Hs; lia|].
    intros Hi. destruct (sees_owned k f (slot (f_addrs f) NDIRECT) Hk) as [Hr2 _]; [right; split; [lia|done]|]. split; [lia|apply Hs; lia].
  - unfold holds in *. rewrite <- Hh. eapply bytes_frame; [exact Hown|lia|unfold BSIZE, f_len; lia].
Qed.

Lemma inode_block_range inum : 0 <= inum <= 201 -> 0 <= IBLOCK inum the_sb < FSSIZE.
Proof. intros H. pose proof (iblock_range inum H). unfold FSSIZE. lia. Qed.

Lemma sees_inode inum : 0 <= inum <= 201 -> disk_inode (av a) the_sb inum = disk_inode (image s) the_sb inum /\ usable a (IBLOCK inum the_sb).
Proof. intros H. pose proof (inode_block_range inum H). unfold disk_inode. rewrite (se_view Hs) by done. split; [done|by apply Hs]. Qed.

(** An entry of the inode table for an inode, not loaded. *)
Record fresh_entry (i : nat) (inum : Z) (F : fsstate) : Prop := {
  fe_in : (i < length (inodes F))%nat;
  fe_dev : i_dev (getI i F) = dev;
  fe_inum : i_inum (getI i F) = inum;
  fe_ref : 1 <= i_ref (getI i F);
  fe_lock : sl_locked (i_lock (getI i F)) = 0;
  fe_valid : i_valid (getI i F) = 0
}.

(** C15. On a disk with the image that mkfs built, with the superblock read, ilock() of
    an inode that belongs to a file of the command line followed by readi() returns
    the bytes of that file from the offset on, cut at its end. *)
Theorem kernel_reads_file k f i off n c0 ks : fs !! k = Some f -> (0 < k)%nat -> f_type f <> 0 ->
  running pr pid None c0 ks -> Cached dev pid a (k_fs ks) -> sb (k_fs ks) = sb_of_bytes (image s 1) -> fresh_entry i (inum_of k) (k_fs ks) ->
  0 <= off <= f_len f -> 0 <= n -> off + n < 2 ^ 32 ->
  let n' := Z.min n (f_len f - off) in
  wp (ilock (Some i);; readi i ToObj off n) (fun r ks' => r = (n', slice (f_data f) (Z.to_nat off) (Z.to_nat n')) /\ Cached dev pid a (k_fs ks')) ks.
Proof.
  intros Hk Hk0 Hft Hrun Hca Hsb [E1 E2 E3 E4 E5 E6] Ho Hn Hon n'. pose proof (se_built Hs) as Hb.
  assert (Hin : 0 <= inum_of k <= 201) by (apply lookup_lt_Some in Hk; pose proof (bu_count _ _ Hb); unfold inum_of; lia).
  destruct (sees_inode (inum_of k) Hin) as [Hdi Hiu]. rewrite (bu_inode _ _ Hb k f Hk0 Hk) in Hdi. rewrite (bu_super _ _ Hb) in Hsb.
  pose proof (nblk_bounds (f_len f) ltac:(unfold f_len; lia)) as Hnb. destruct (bu_file _ _ Hb k f Hk) as [Ha _].
  assert (HM : MAXFILE = 268) by done. pose proof (al_max _ _ _ _ Ha) as Hmax.
  destruct (sees_file k f (f_len f) Hk ltac:(lia)) as [Hmap Hhold]. set (ip := getI i (k_fs ks)) in *.
  eapply wp_mono.
  - apply (crun_bind pr pid None None None (ilock (Some i)) (fun _ => readi i ToObj off n) (k_fs ks)
      (fun r F' => r = (n', slice (f_data f) (Z.to_nat off) (Z.to_nat n')) /\ Cached dev pid a F')) with (c0 := c0); [|done|done].
    apply (fsrun_ilock pr pid dev Hdev a); fold ip; rewrite ?E3, ?Hsb, ?Hdi; try done; [apply Hs|].
    intros F1 Hca1 Hsr1.
    assert (Hget : getI i F1 = load_inode pid (inode_of f) ip) by (rewrite (same_getI i _ _ Hsr1); by apply getI_upd).
    destruct (load_fresh pid (inode_of f) ip E6) as (L1 & L2 & L3). rewrite <- Hget in L1, L2, L3. cbn [di_size di_addrs inode_of] in L2, L3.
    apply (fsrun_readi pr pid dev Hdev a); rewrite ?L2, ?L3; try done; [|apply Hs|].
    + split; rewrite ?L1, ?L2, ?L3; [done|unfold f_len in *; unfold BSIZE; lia|exact Hmap].
    + intros F2 Hca2 _. split; [|done]. cbv zeta. fold n'. f_equal. apply holds_slice; [done|lia|lia|unfold f_len in *; lia].
  - intros r ks' ((H1 & H2) & _). done.
Qed.

(** The root directory as the kernel loads it. *)
Lemma sees_root args f ip : contents fs = files_of args -> fs !! 0%nat = Some f -> Z.of_nat (length args + 2) mod 64 <> 0 ->
  Forall (fun f => Forall is_byte (h_arg f)) args ->
  i_dev ip = dev -> i_type ip = f_type f -> i_size ip = root_size (f_len f) -> i_addrs ip = f_addrs f ->
  dir_ok dev a ip /\ dir_entries (av a) (i_addrs ip) (i_size ip) = listing (root_entries args).
Proof.
  intros Hcon H0 Hmod Hby Hd Ht Hsz Had. set (es := root_entries args) in *. assert (HM : MAXFILE = 268) by done.
  assert (Hf : f_type f = T_DIR /\ f_data f = dir_data es) by (destruct fs as [|g l]; [done|]; injection H0 as ->; by injection Hcon as -> -> _).
  destruct Hf as [Hft Hfd]. assert (Hn : length es = (length args + 2)%nat) by (unfold es, root_entries; cbn [length]; rewrite length_imap; lia).
  assert (Hlen : f_len f = 16 * Z.of_nat (length es)) by (unfold f_len; rewrite Hfd, dir_data_length; lia).
  pose proof (Z.div_mod (Z.of_nat (length es)) 64 ltac:(lia)) as Hdm. rewrite <- Hn in Hmod. pose proof (Z.mod_pos_bound (Z.of_nat (length es)) 64 ltac:(lia)) as Hmb.
  assert (Hq : f_len f / 1024 = Z.of_nat (length es) / 64) by (symmetry; apply (Z.div_unique _ _ _ (16 * (Z.of_nat (length es) mod 64))); lia).
  assert (Hrs : root_size (f_len f) = nblk (f_len f) * 1024) by (unfold root_size; rewrite Hq; f_equal; symmetry; apply nblk_unique; lia).
  destruct (bu_file _ _ (se_built Hs) 0%nat f H0) as [Ha _]. pose proof (al_max _ _ _ _ Ha) as Hmax. pose proof (nblk_bounds (f_len f) ltac:(lia)) as Hnb.
  destruct (sees_file 0%nat f (root_size (f_len f)) H0 ltac:(lia)) as [Hmap Hhold]. unfold holds in Hhold. fold (f_len f) in Hhold. rewrite <- Hrs, Hfd in Hhold.
  assert (Hin : Forall (fun e => (0 < fst e < 2 ^ 16) /\ Forall is_byte (snd e)) es) by (apply root_entries_ok; [done|]; pose proof (bu_count _ _ (se_built Hs)); apply (f_equal length) in Hcon;
    unfold contents, files_of in Hcon; cbn [length] in Hcon; rewrite !length_map in Hcon; lia).
  assert (H16 : root_size (f_len f) mod sizeof_dirent = 0) by (unfold root_size, sizeof_dirent; replace 1024 with (64 * 16) by done; rewrite Z.mul_assoc; apply Z.mod_mul; lia).
  rewrite Hsz, Had. split.
  - split; rewrite ?Hsz, ?Had; [split; rewrite ?Hsz, ?Had; [done|unfold BSIZE; lia|done]|congruence|done|].
    intros k Hk. assert (Hl : file_bytes (av a) (f_addrs f) 0 (root_size (f_len f)) !! Z.to_nat k = Some (file_byte (av a) (f_addrs f) k))
      by (rewrite file_bytes_lookup by lia; do 2 f_equal; lia).
    rewrite Hhold in Hl. refine (Forall_lookup_1 is_byte _ _ _ _ Hl). apply Forall_app. split; [|apply Forall_replicate; unfold is_byte; lia].
    apply dir_data_bytes. eapply Forall_impl; [exact Hin|]. intros e [_ He]. exact He.
  - apply dir_entries_eq; [lia|done|lia|eapply Forall_impl; [exact Hin|]; intros e [He _]; exact He|]. by rewrite <- Hlen.
Qed.

Lemma iget_entry inum l j l' : iget_ref dev inum l = Some (j, l') ->
  exists ip, l' !! j = Some ip /\ i_dev ip = dev /\ i_inum ip = inum /\ 1 <= i_ref ip.
Proof.
  unfold iget_ref. destruct (first_index (holds_inode dev inum) l) as [k|] eqn:Hf.
  - intros [= <- <-]. apply first_index_Some in Hf as (ip & Hk & Hh). apply holds_inode_true in Hh as (Hr & Hd & Hi).
    rewrite list_lookup_alter_eq, Hk. eexists. split; [done|]. cbn. split_and!; (done || lia).
  - destruct (first_index (fun ip => i_ref ip =? 0) l) as [k|] eqn:Hf2; [|done]. intros [= <- <-]. apply first_index_Some in Hf2 as (ip & Hk & _).
    rewrite list_lookup_alter_eq, Hk. eexists. split; [done|]. done.
Qed.

(** C19. On a disk with the image that mkfs built from its command line, with the
    superblock read, ilock() of the root directory followed by dirlookup() finds the
    first entry of the name, ".", ".." and the files in the order of the command
    line, and returns its offset and an inode entry with its inode number; it finds
    nothing iff no entry has the name.  The entries must not fill the directory's
    last block, and the inode table must have a free entry. *)
Theorem kernel_finds_file args name i c0 ks : contents fs = files_of args -> Z.of_nat (length args + 2) mod 64 <> 0 ->
  Forall (fun f => Forall is_byte (h_arg f)) args -> Forall is_byte name ->
  running pr pid None c0 ks -> Cached dev pid a (k_fs ks) -> sb (k_fs ks) = sb_of_bytes (image s 1) -> fresh_entry i ROOTINO (k_fs ks) ->
  (exists j ip, inodes (k_fs ks) !! j = Some ip /\ i_ref ip = 0) ->
  wp (ilock (Some i);; dirlookup i name) (fun r ks' => Cached dev pid a (k_fs ks') /\
    match dir_find name (listing (root_entries args)) with
    | None => r = None
    | Some (off, (inum, _)) => exists j ip, r = Some (j, off) /\ inodes (k_fs ks') !! j = Some ip /\ i_dev ip = dev /\ i_inum ip = inum /\ 1 <= i_ref ip
    end) ks.
Proof.
  intros Hcon Hmod Hby Hnm Hrun Hca Hsb [E1 E2 E3 E4 E5 E6] (jf & ipf & Hjf & Hrf). pose proof (se_built Hs) as Hb.
  assert (Hroot : exists f, fs !! 0%nat = Some f /\ f_type f = T_DIR) by (destruct fs as [|g l]; [done|]; exists g; by injection Hcon as -> _ _).
  destruct Hroot as (f & H0 & Hft). destruct (sees_inode ROOTINO ltac:(unfold ROOTINO; lia)) as [Hdi Hiu]. rewrite (bu_root _ _ Hb f H0) in Hdi.
  rewrite (bu_super _ _ Hb) in Hsb. set (ip := getI i (k_fs ks)) in *. set (di := mkdinode (f_type f) 0 0 1 (root_size (f_len f)) (f_addrs f)) in *.
  eapply wp_mono.
  - apply (crun_bind pr pid None None None (ilock (Some i)) (fun _ => dirlookup i name) (k_fs ks) (fun r F' => Cached dev pid a F' /\
      match dir_find name (listing (root_entries args)) with
      | None => r = None
      | Some (off, (inum, _)) => exists j ip, r = Some (j, off) /\ inodes F' !! j = Some ip /\ i_dev ip = dev /\ i_inum ip = inum /\ 1 <= i_ref ip
      end)) with (c0 := c0); [|done|done].
    apply (fsrun_ilock pr pid dev Hdev a); fold ip; rewrite ?E3, ?Hsb, ?Hdi; try done; [apply Hs|intros _; split; [by cbn; rewrite Hft|done]|].
    intros F1 Hca1 Hsr1. assert (Hget : getI i F1 = load_inode pid di ip) by (rewrite (same_getI i _ _ Hsr1); by apply getI_upd).
    destruct (load_fresh pid di ip E6) as (L1 & L2 & L3). pose proof (load_fresh_type pid di ip E6) as L4. rewrite <- Hget in L1, L2, L3, L4.
    destruct (sees_root args f (getI i F1) Hcon H0 Hmod Hby) as [Hdok Hents]; [congruence|exact L4|exact L2|exact L3|].
    apply (fsrun_dirlookup pr pid dev Hdev a); [done|done|apply Hs|done| |].
    + intros inum. apply (iget_free dev inum _ jf ipf); [|done]. destruct Hsr1 as (_ & _ & -> & _). unfold updI. simpl.
      rewrite list_lookup_alter_ne; [done|]. intros ->. unfold ip, getI in E4. rewrite Hjf in E4. simpl in E4. lia.
    + intros F2 Hca2. rewrite Hents. destruct (dir_find _ _) as [[off [inum nm]]|]; [|intros _; done].
      intros j l Hig Hin _. split; [done|]. destruct (iget_entry _ _ _ _ Hig) as (x & Hx & ?). exists j, x. by rewrite Hin.
  - intros r ks' ((H1 & H2) & _). done.
Qed.

(** The inodes of the image, and the directory tree they make. *)
Definition of_image (i : Z) : Prop := exists k f, fs !! k = Some f /\ i = inum_of k.

Lemma of_image_entry args name off j nm : contents fs = files_of args -> dir_find name (listing (root_entries args)) = Some (off, (j, nm)) -> of_image j.
Proof.
  intros Hcon Hf. apply List.find_some in Hf as [Hin _]. apply list_elem_of_In, list_elem_of_lookup in Hin as [m Hm]. unfold listing in Hm. rewrite list_lookup_imap in Hm.
  destruct (root_entries args !! m) as [e|] eqn:He; [|done]. injection Hm as _ <- _.
  assert (Hlen : length fs = S (length args)) by (apply (f_equal length) in Hcon; unfold contents, files_of in Hcon; cbn [length] in Hcon; by rewrite !length_map in Hcon).
  assert (Hk : forall k, (k < length fs)%nat -> of_image (inum_of k)) by (intros k Hk; destruct (lookup_lt_is_Some_2 fs k Hk) as [f Hf]; by exists k, f).
  unfold root_entries in He. destruct m as [|[|m]]; [injection He as <-; apply (Hk 0%nat); lia|injection He as <-; apply (Hk 0%nat); lia|].
  change (imap (fun j f => (inum_of (S j), file_name f)) args !! m = Some e) in He. rewrite list_lookup_imap in He. destruct (args !! m) as [g|] eqn:Hg; [|done]. injection He as <-. apply lookup_lt_Some in Hg. apply Hk. lia.
Qed.

Context (args : list hostfile) (Hcon : contents fs = files_of args) (Hmod : Z.of_nat (length args + 2) mod 64 <> 0).
Context (Hby : Forall (fun f => Forall is_byte (h_arg f)) args).

Lemma image_inode k f : fs !! k = Some f -> usable a (IBLOCK (inum_of k) the_sb) /\ exists sz,
  disk_inode (av a) the_sb (inum_of k) = mkdinode (f_type f) 0 0 1 sz (f_addrs f) /\
  (k = 0%nat -> f_type f = T_DIR /\ sz = root_size (f_len f)) /\ (k <> 0%nat -> f_type f = T_FILE).
Proof.
  intros Hk. pose proof (se_built Hs) as Hb.
  assert (Hin : 0 <= inum_of k <= 201) by (pose proof (lookup_lt_Some _ _ _ Hk); pose proof (bu_count _ _ Hb); unfold inum_of; lia).
  destruct (sees_inode (inum_of k) Hin) as [Hdi Hiu]. split; [done|]. rewrite Hdi. pose proof (f_equal (fun l => l !! k) Hcon) as Hty. unfold contents, files_of in Hty.
  rewrite list_lookup_fmap, Hk in Hty. destruct k as [|k].
  - exists (root_size (f_len f)). injection Hty as Ht _. split_and!; [exact (bu_root _ _ Hb f Hk)|done|done].
  - exists (f_len f). change (Some (f_type f, f_data f) = ((fun f => (T_FILE, file_data f)) <$> args) !! k) in Hty. rewrite list_lookup_fmap in Hty. destruct (args !! k); [|done]. injection Hty as Ht _.
    split_and!; [exact (bu_inode _ _ Hb (S k) f ltac:(lia) Hk)|done|done].
Qed.

(** The root is the only directory. *)
Lemma image_root : of_image ROOTINO /\ is_dir (av a) the_sb ROOTINO = true /\ entries (av a) the_sb ROOTINO = listing (root_entries args) /\
  dir_ok dev a (inode_of_dinode (disk_inode (av a) the_sb ROOTINO) (set_i_dev dev inode0)).
Proof.
  assert (Hroot : exists f, fs !! 0%nat = Some f) by (destruct fs as [|g l]; [done|by exists g]). destruct Hroot as [f Hf].
  destruct (image_inode 0 f Hf) as (_ & sz & Heq & H0 & _). destruct (H0 eq_refl) as [Ht ->]. change (inum_of 0) with ROOTINO in Heq. unfold is_dir, entries. rewrite Heq.
  cbn [di_type di_addrs di_size]. rewrite Ht in *. split; [by exists 0%nat, f|]. split; [done|].
  destruct (sees_root args f (inode_of_dinode (mkdinode T_DIR 0 0 1 (root_size (f_len f)) (f_addrs f)) (set_i_dev dev inode0)) Hcon Hf Hmod Hby) as [H1 H2]; done.
Qed.

Lemma image_dir i : of_image i -> is_dir (av a) the_sb i = true -> i = ROOTINO.
Proof.
  intros (k & f & Hk & ->) Hd. destruct (image_inode k f Hk) as (_ & sz & Heq & _ & H1). unfold is_dir in Hd. rewrite Heq in Hd. cbn [di_type] in Hd.
  destruct (decide (k = 0%nat)) as [->|Hk0]; [done|by rewrite (H1 Hk0) in Hd].
Qed.

Lemma image_tree : tree_ok dev a the_sb of_image.
Proof.
  destruct image_root as (R1 & R2 & R3 & R4). split.
  - intros i (k & f & Hk & ->). destruct (image_inode k f Hk) as (Hu & sz & Heq & H0 & H1). rewrite Heq. cbn [di_type di_nlink]. split_and!; [|done|done].
    destruct (decide (k = 0%nat)) as [Hk0|Hk0]; [by destruct (H0 Hk0) as [-> _]|by rewrite (H1 Hk0)].
  - intros i Hi Hd. by rewrite (image_dir i Hi Hd).
  - intros i e off j nm Hi Hd Hf. rewrite (image_dir i Hi Hd), R3 in Hf. by apply (of_image_entry args e off j nm).
  - apply Hs.
Qed.

End kernel.

(** ** Witnesses *)

(** The first [n] blocks of an image, as a disk. *)
Definition demo_disk (s : mkstate) (n : Z) : gmap Z (list Z) := list_to_map ((fun b => (b, image s b)) <$> seqZ 0 n).

Lemma demo_disk_lookup s n b : demo_disk s n !! b = if decide (0 <= b < n) then Some (image s b) else None.
Proof.
  unfold demo_disk. assert (Hfst : ((fun b => (b, image s b)) <$> seqZ 0 n).*1 = seqZ 0 n).
  { rewrite <- list_fmap_compose. change (fst ∘ (fun b => (b, image s b))) with (fun b : Z => b). apply list_fmap_id. }
  case_decide as Hb.
  - apply elem_of_list_to_map; [rewrite Hfst; apply NoDup_seqZ|]. apply list_elem_of_fmap. exists b. split; [done|]. apply elem_of_seqZ. lia.
  - apply not_elem_of_list_to_map. rewrite Hfst. intros Hin. apply elem_of_seqZ in Hin. lia.
Qed.
#[local] Opaque demo_disk.

(** A kernel after boot, on a disk with the image, with one entry for inode [inum]. *)
Definition demo_fs0 (s : mkstate) (inum : Z) : fsstate :=
  mkfsstate (bufs fs0) (klog fs0) the_sb (mkinode 1 inum 1 sleeplock0 0 0 0 0 0 0 (replicate 13 0) :: replicate 49 inode0)
    (files fs0) (pipes fs0) (demo_disk s FSSIZE) (disk_writes fs0).
Definition demo_fs (s : mkstate) (inum : Z) : fsstate := set_bufs bufs_init (demo_fs0 s inum).

Lemma demo_block s inum b : block (demo_fs0 s inum) b = if decide (0 <= b < FSSIZE) then image s b else zero_block.
Proof. unfold block. cbn [disk demo_fs0]. rewrite demo_disk_lookup. by case_decide. Qed.

Lemma demo_entry s inum : fresh_entry 1 0 inum (demo_fs s inum).
Proof. split; cbn; [lia|reflexivity|reflexivity|lia|reflexivity|reflexivity]. Qed.

Lemma demo_sees s fs inum : built s fs -> let F := demo_fs s inum in
  cache_ok 1 2 F /\ sees s fs (abs_of 1 F).
Proof.
  intros Hb F. destruct (init_idle 1 2 (demo_fs0 s inum)) as (H1 & (I1 & I2 & I3) & H3); [lia| |].
  { intros n. rewrite demo_block. case_decide as Hn; [|done]. by apply complete_len; [apply Hb|]. }
  fold (demo_fs s inum) in *. fold F in H1, I1, I2, I3, H3. split; [done|]. split; [done| | |].
  - intros b Hr. change (av (abs_of 1 F) b) with (view 1 F b). rewrite H3, demo_block. by rewrite decide_True.
  - intros b Hr. unfold usable. rewrite I1, I2. assert (FSSIZE = 2000) by reflexivity. split; [lia|]. split; [reflexivity|lia].
  - rewrite I3. unfold NBUF. simpl. lia.
Qed.

Lemma demo_built : exists s fs, built s fs /\ contents fs = files_of demo_args.
Proof. destruct (wp_inv _ _ _ (wp_mkfs demo_args (proj1 demo_ok) (proj2 demo_ok))) as (? & s & _ & fs & H). by exists s, fs. Qed.

Lemma kernel_reads_file_witness : exists s fs, built s fs /\ wp (@ilock env0 ideal_driver (Some 0%nat);; @readi env0 ideal_driver 0 ToObj 2 100)
  (fun r _ => r = (3, [3; 4; 5])) (set_k_fs (demo_fs s 2) ks1).
Proof.
  destruct demo_built as (s & fs & Hb & Hcon). exists s, fs. split; [done|]. destruct (demo_sees s fs 2 Hb) as [Hc Hs].
  assert (Hf : exists f, fs !! 1%nat = Some f /\ f_type f = T_FILE /\ f_data f = [1; 2; 3; 4; 5]).
  { destruct fs as [|f0 [|f1 l]]; [done|done|]. exists f1. split; [done|]. by injection Hcon as _ _ -> -> _. }
  destruct Hf as (f & Hk & Ht & Hd). assert (Hlen : f_len f = 5) by (unfold f_len; by rewrite Hd). eapply wp_mono.
  - apply (@kernel_reads_file env0 ideal_driver always_ready ideal_laws 1 2 1 ltac:(lia) s fs (abs_of 1 (demo_fs s 2)) Hs 1 f 0 2 100 ctl1); [exact Hk|lia|by rewrite Ht|apply running_idle|exact (cached_abs 1 2 _ Hc)|
      exact (eq_sym (bu_super _ _ Hb))|exact (demo_entry s 2)|lia|lia|lia].
  - intros r ks' [-> _]. by rewrite Hlen, Hd.
Defined.

Lemma kernel_finds_file_witness : exists s fs, built s fs /\
  wp (@ilock env0 ideal_driver (Some 0%nat);; @dirlookup env0 ideal_driver 0 (bytes_of_string "README"))
    (fun r ks' => exists j ip, r = Some (j, 48) /\ inodes (k_fs ks') !! j = Some ip /\ i_inum ip = 3) (set_k_fs (demo_fs s ROOTINO) ks1).
Proof.
  destruct demo_built as (s & fs & Hb & Hcon). exists s, fs. split; [done|]. destruct (demo_sees s fs ROOTINO Hb) as [Hc Hs]. eapply wp_mono.
  - apply (@kernel_finds_file env0 ideal_driver always_ready ideal_laws 1 2 1 ltac:(lia) s fs (abs_of 1 (demo_fs s ROOTINO)) Hs demo_args (bytes_of_string "README") 0 ctl1);
      [exact Hcon|by vm_compute|repeat (constructor; [apply bytes_of_string_bytes|]); constructor|apply bytes_of_string_bytes|apply running_idle|exact (cached_abs 1 2 _ Hc)|
       exact (eq_sym (bu_super _ _ Hb))|exact (demo_entry s ROOTINO)|by exists 1%nat, inode0].
  - intros r ks' [_ H].
    assert (Hfind : dir_find (bytes_of_string "README") (listing (root_entries demo_args)) = Some (48, (3, bytes_of_string "README"))) by (vm_compute; reflexivity).
    rewrite Hfind in H. destruct H as (j & ip & H1 & H2 & _ & H3 & _). by exists j, ip.
Defined.

(** A process in the root directory. *)
Definition demo_in_root (s : mkstate) : kstate := upd_proc 1 (set_p_cwd (Some 0%nat)) (set_k_fs (demo_fs s ROOTINO) ks1).

Lemma demo_in_root_running s : @running always_ready 1 2 None ctl1 (demo_in_root s).
Proof. split; try done. Qed.

Definition demo_root_inode : inode := mkinode 1 ROOTINO 1 sleeplock0 0 0 0 0 0 0 (replicate 13 0).

Lemma demo_in_root_fs s : let F := k_fs (demo_in_root s) in F = demo_fs s ROOTINO /\ sb F = the_sb /\ inodes F = demo_root_inode :: replicate 49 inode0 /\
  p_cwd (get_proc 1 (demo_in_root s)) = Some 0%nat.
Proof. done. Qed.

Lemma demo_in_root_st s a G : Cached 1 2 a (k_fs (demo_in_root s)) -> G ROOTINO ->
  let F := k_fs (demo_in_root s) in st 2 ROOTDEV a (sb F) G F (fun _ => 0) None F.
Proof.
  intros Hc HG F. destruct (demo_in_root_fs s) as (_ & _ & Hin & _). fold F in Hin.
  assert (Hall : forall j x, inodes F !! j = Some x -> x = demo_root_inode \/ x = inode0).
  { intros j x Hx. rewrite Hin in Hx. destruct j as [|j]; [injection Hx as <-; by left|right]. by apply (lookup_replicate_1 49 inode0 x j) in Hx as [-> _]. }
  split; [done|done| |done]. split; [done|done|..].
  - intros j x0 x H0 Hx. rewrite H0 in Hx. injection Hx as <-. split; [|split; [lia|done]]. by destruct (Hall j x0 H0) as [-> | ->].
  - intros j x Hx Hpos. by destruct (Hall j x Hx) as [-> | ->].
  - intros j x Hx. rewrite decide_False by done. by destruct (Hall j x Hx) as [-> | ->].
Qed.
#[local] Opaque demo_in_root.

Lemma namex_resolves_witness : exists s fs, built s fs /\ wp (@namex env0 ideal_driver (bytes_of_string "/README") false (replicate DIRSIZ 0))
  (fun r ks' => exists n, fst r = Some n /\ i_inum (getI n (k_fs ks')) = 3) (demo_in_root s).
Proof.
  destruct demo_built as (s & fs & Hb & Hcon). exists s, fs. split; [done|]. destruct (demo_sees s fs ROOTINO Hb) as [Hc Hs].
  assert (Hby : Forall (fun f => Forall is_byte (h_arg f)) demo_args) by (repeat (constructor; [apply bytes_of_string_bytes|]); constructor).
  assert (Hmod : Z.of_nat (length demo_args + 2) mod 64 <> 0) by by vm_compute. pose proof (cached_abs 1 2 _ Hc) as Hca.
  destruct (image_root 1 s fs _ Hs demo_args Hcon Hmod Hby) as (HG & Hd & Hes & _). pose proof (image_tree 1 s fs _ Hs demo_args Hcon Hmod Hby) as Htree.
  destruct (demo_in_root_fs s) as (Hfs & Hsb & Hin & Hcwd). set (a := abs_of 1 (demo_fs s ROOTINO)) in *.
  assert (Ht : target (av a) the_sb false ROOTINO [bytes_of_string "README"] = Some 3) by (unfold target; cbn [resolve]; rewrite Hd, Hes; by vm_compute).
  clearbody a. rewrite <- Hfs in Hca. rewrite <- Hsb in Htree, Ht. eapply wp_mono.
  - eapply (@namex_resolves env0 ideal_driver always_ready ideal_laws 1 2 a (of_image fs) (bytes_of_string "/README") false (replicate DIRSIZ 0) 0 demo_root_inode ctl1 (demo_in_root s)).
    + apply demo_in_root_running.
    + exact Htree.
    + exact HG.
    + exact (demo_in_root_st s a (of_image fs) Hca HG).
    + exists 1%nat, 2%nat, inode0, inode0. rewrite Hin. split_and!; [lia|reflexivity..].
    + exact Hcwd.
    + by rewrite Hin.
    + done.
    + change (bytes_of_string "/README") with [47; 82; 69; 65; 68; 77; 69]. repeat (constructor; [lia|]). constructor.
    + done.
    + apply Forall_replicate. lia.
  - intros r ks' [_ [Har _]]. change (elems (bytes_of_string "/README")) with [bytes_of_string "README"] in Har.
    change (if hd 0 _ =? SLASH then ROOTINO else _) with ROOTINO in Har. rewrite Ht in Har. destruct Har as (n & H1 & _ & _ & H2). exact (ex_intro _ n (conj H1 H2)).
Defined.
